(* ===== verification/_CoqProject ===== *)
-Q . S2P
Prelude.v
Go.v
GoStr.v
Text.v
GoNet.v
GoFloat.v
Domain.v
Bcd.v
Sctp.v
Registry.v
Detection.v
Rules.v
Builtin.v
Analysis.v
Rtp.v
Tracker.v
Dpi.v
Lines.v
Sip.v
Tls.v
Calls.v
Trace.v
Dns.v
Diameter.v
Gtp.v
Ngap.v
S1ap.v
Nas5g.v
Snmp.v
Pfcp.v
Subscribers.v
Telecom.v
Decoders.v
Framer.v
Websocket.v
Http2.v
Exchange.v
Ajp.v
Http1.v
Stream.v
Pipeline.v
Reader.v
Capture.v
Executor.v
Analytics.v
Alerts.v
