(* ===== verification/Prelude.v ===== *)
(** * DeepPacketAI: a verification development

    DeepPacketAI (src/, in Go) analyses telecom traffic. A capture is decoded
    packet by packet, by the flow tracker and by a decoder per protocol; the
    decoders report flows at the end of the capture, and rules over the flows
    raise alerts. This library models the deterministic core of the program and
    the goroutines around it, from the bytes of a capture to the calls of the
    store, and proves what makes each part correct, and where a part falls
    short of what its comments say, what it does instead.

    ** How the program works, and where each part is modelled

    - Packets come from a capture file (pcap/reader.go) or from a live source
      (extractPacketFromRaw of capture/worker.go): Reader.v. Around a live
      capture run the goroutines that buffer, save and analyse it
      (capture/session.go, live.go, virtual.go, stats.go): Capture.v, as
      actions on one state. A remote agent sends its packets in frames to a
      central node (internal/stream): Stream.v.
    - A packet ([domain.Packet]) is read, and its flow is hashed
      (pipeline/hasher.go) to choose one worker of a pool (pipeline/pool.go,
      worker.go), so that both directions of a flow meet in one worker. The
      pool, its channels and the workers: Pipeline.v, as a step relation over
      all interleavings.
    - A job runs a file through the pool, the rules, the tracer and the
      correlation and stores what they find (execution/executor.go,
      pcap_pipeline.go); the end of a live capture does the same; the alerts
      are sent to the targets that a user has set up (alerting/dispatcher.go):
      Executor.v.
    - A worker hands the packet to every decoder in turn
      (protocols/decoder.go, streaming.go): Decoders.v has the interface as the
      class [ProtocolDecoder] with its laws. Its instances are the 5-tuple flow
      tracker (flowengine/tracker.go, Tracker.v) and the decoders of DNS
      (Dns.v), Diameter (Diameter.v), GTP (Gtp.v), NGAP (Ngap.v), S1AP (S1ap.v),
      NAS-5GS (Nas5g.v), SNMP (Snmp.v), PFCP (Pfcp.v), RTP (Rtp.v), SIP
      (Sip.v), TLS (Tls.v), WebSocket (Websocket.v), HTTP/2 with HPACK
      (Http2.v), AJP (Ajp.v) and HTTP/1 (Http1.v). The last two keep a table of
      open requests (Exchange.v); what lines of text are meant to be is in
      Lines.v. NGAP and NAS share the walk over SCTP chunks (Sctp.v) and packed decimals
      (Bcd.v); a decoder recognises a payload by its port or by the matchers of
      internal/dpi (Dpi.v).
    - TCP payloads also go to the reassembler, whose streams cut the byte
      stream into messages with a framer per protocol
      (reassembly/framer.go, stream.go, assembler.go): Framer.v.
    - internal/correlation joins the flows that the decoders report. Calls.v:
      the calls of SIP and RTP flows (sip_rtp.go, with the step of
      execution/executor.go that judges them); Trace.v: the telecom tracer,
      one session per IMSI (telecom_trace.go); Subscribers.v: the registry of
      subscribers built from the sessions (subscriber_registry.go).
      Telecom.v runs the tracer on the flows of the GTP and Diameter decoders.
    - internal/analysis turns metrics into verdicts (MOS, SLA, call analysis):
      Analysis.v.
    - internal/detection runs rules over all flows: the engine, the shared
      aggregates, and the rules a user writes in Detection.v, the rules
      that come with the program in Rules.v.
    - internal/plugin holds what is enabled: the registries in Registry.v;
      builtin.go, which fills them, and the part of execution/executor.go that
      uses them in Builtin.v.
    - internal/analytics computes the indicators and reports of the web
      interface from what the store gives back: Analytics.v.
    - Alerts.v puts two parts together: what the rules make of the metrics that
      the tracker and the decoders write.

    Below these are the Go language and library (Go.v: bytes, slices with
    their bounds checks, machine integers, big-endian reads; GoStr.v: strings,
    UTF-8, [fmt]; Text.v: lines, fields and numbers in text; GoNet.v: [net.ParseIP], FNV; GoFloat.v: binary64 and time),
    the data of internal/domain (Domain.v), and this file: results and fuelled
    loops, with the tactics and hints on them.

    ** How Go is represented

    A Go function becomes a function of the same name. A struct is a record;
    where a field name is taken, it has a prefix or a trailing underscore. A
    method that mutates its receiver returns the new one. An integer is a [Z]
    with the wrap-around of its width written out ([i64], [u32], ...); a string
    is a [string] of bytes; a slice is a list where it is not shared, and where
    sharing matters (drainPending, which overwrites the array it reads) the
    array is in the model. A map is a [gmap]; the order in which [range]
    visits it is an argument of the definition ([order] in Tracker.v, the class
    [MapRange] in Detection.v), so the theorems hold for every order.

    A run has one of three results ([res]): [Ok], [Panic] for a failed run-time
    check, and [OutOfFuel]. Loops whose end is not structural are [loop]s with
    fuel. The fuel of each is computed from the length of its input, and the
    theorems that a decoder returns show that it is enough. Fuel is an argument
    of the theorem where the code can really run forever: the text framers
    and the DNS name decoder ([framer_chunking] holds for any fuel,
    [text_framer_faults] and [dns_never_panics] say that no fuel is enough
    there, and [dns_never_panics] gives a bound where pointers lead backwards).

    Code outside src/ is a parameter: Unicode case mapping (class [Unicode]),
    rendering of floats and [any] values ([GoLib], [GoFmt]), the text of a time in the
    host's zone, the order that [sort.Slice] leaves of equal elements
    ([SortSlice]), gopacket's layers and files ([Gopacket]) and its TCP
    reassembler ([Assembler]), the JSON and zlib of the stream messages
    ([Codec] and [Zlib], with the laws that what was encoded is decoded), the
    decoders' constructors, the environment and the AI providers of builtin.go,
    what the store answers, and the JSON of settings.

    ** What the theorems show

    - Framer.v: feeding in chunks equals feeding at once, streams of
      messages round trip, the binary framers always return; what the text
      framers do with a Content-Length of any size and with bytes that are not
      UTF-8 before it (they stall, panic, wait or cut the message off); the two
      directions of a connection are framed as one byte string.
    - Analysis.v: the SLA score for every pair of floats, those whose
      conversion to [int] is out of range included; AnalyzeCall.
    - Tracker.v: the table refines a fold per 5-tuple, Flush loses
      and invents nothing in any map order, keys are canonical, the verdicts on
      RST, retransmissions and round-trip times are what they should be, and
      the handshake time is measured for one orientation of the addresses only.
    - Rtp.v and Sip.v, the voice decoders: loss is exact for increasing
      sequence numbers and off by a cycle for each late packet; jitter mixes
      milliseconds with clock ticks; calls are read from well-formed messages
      into their times, media and holds; a re-INVITE makes the set-up time
      negative.
    - Tls.v: decoding is total; a client hello on the wire is recorded as it
      is; Flush reports each connection once with all its records; every
      TLS 1.3 connection is condemned as having no forward secrecy.
    - Calls.v: which calls exist and which streams are their legs; a perfect
      call is judged bad for its jitter.
    - Trace.v, Subscribers.v, Telecom.v: sessions, time lines and states are
      exact, whatever the times of the flows; the registry refines folds of the sessions, and its look-up by
      TEID depends on the order of a map; what the decoders record never
      gives the tracer a tunnel.
    - Dpi.v: the matchers return on every payload; four binary
      signatures exclude each other.
    - Dns.v, Diameter.v, Gtp.v, Ngap.v, S1ap.v, Nas5g.v, Snmp.v: no panic, or
      exactly which input panics; round trips of wire encodings written here
      from the RFCs and 3GPP specifications; what is recorded for a message;
      refinement of the element loops by folds; every kind of GTP element, with
      the IPv6 addresses as the code misreads them. One kind of SCTP chunk panics
      two decoders (Decoders.v).
    - Pfcp.v, Websocket.v, Http2.v, Ajp.v, Http1.v: the same for these; which
      frame panics the WebSocket decoder; connections do not meddle with one
      another, and a request and its response come out as one transaction;
      HTTP/2 counts HEADERS frames, not streams.
    - Stream.v: the receiver gets exactly the whole batches that an agent wrote
      before the connection was cut off; the registry never closes a channel
      twice, but the end of an old connection removes an agent that has come back.
    - Reader.v: live captures and files give the same packets, except that a live
      capture drops ICMP; the headers of files of either byte order are read;
      of which files nothing is passed on.
    - Capture.v: under every schedule no packet is lost or stored twice
      unaccounted for, and nothing panics; which schedules leave packets unsaved
      or complete a job twice; what the counters count.
    - Executor.v: a job hands every packet of the file to the store once, in one
      call, or none, and ends once; which answers of the store fail it and which it
      does not heed; files of any format without IP fail as empty; errors are
      sent to no target whose minimum is a warning.
    - Analytics.v: reports count exactly; calls are judged by their media alone;
      the success rates of GTP, PFCP and Diameter are always perfect.
    - Pipeline.v: every interleaving of the pool gives the same workers, every
      run ends, and the flows of the pool are those of a single tracker;
      ICMPv6 echo pairs are split.
    - Registry.v: the registries refine a list of plugins; an enabled AI
      provider is found if there is one.
    - Detection.v, Rules.v, Builtin.v: the aggregates are exact, detection is
      total and its alerts are well formed, user rules decide as their mode
      says, the port rule reports each key once.
    - Alerts.v, across components: on the flows of the tracker the
      packet-counting rules are blind while every well-known port is reported;
      failed authentications recorded by the NAS decoder are counted again.

    ** What is not modelled

    Input and output: the devices of a live capture (libpcap, AF_PACKET, XDP),
    sockets and listeners, the databases, the web server and its handlers,
    the hub of the browsers, the AI providers and their prompts, the delivery of
    alerts, look-ups of addresses, metrics and logs. Code that nothing calls:
    correlation across protocols, the media registry, the HTTP and RTCP
    packages. Time outs by wall clock are an argument; locks make an operation
    one step. Memory exhaustion and the limits of slices' capacities are
    outside the model. *)
From stdpp Require Export base option list numbers gmap strings pretty.
From Stdlib Require Export ZArith Lia.
From Stdlib Require Export Init.Byte Strings.Byte Strings.Ascii.

Global Open Scope Z_scope.

(** ** Results: a Go computation returns, panics, or is cut off by its fuel *)

(** A run of a Go function: [Ok a] when it returns [a], [Panic] when a run-time
    check fails (index or slice out of range, negative [make]), [OutOfFuel]
    when the fuel given to a loop or a recursion is not enough. *)
Inductive res (A : Type) : Type :=
  | Ok (a : A)
  | Panic
  | OutOfFuel.
Arguments Ok {A} a.
Arguments Panic {A}.
Arguments OutOfFuel {A}.

Global Instance res_ret : MRet res := fun A a => Ok a.
Global Instance res_bind : MBind res := fun A B f m =>
  match m with
  | Ok a => f a
  | Panic => Panic
  | OutOfFuel => OutOfFuel
  end.
Global Instance res_fmap : FMap res := fun A B f m => m ≫= fun a => Ok (f a).

Global Instance res_eq_dec {A} `{EqDecision A} : EqDecision (res A).
Proof. solve_decision. Defined.

(** What one turn of a Go loop does: go on with a new loop state, or leave the
    loop with a result (a [break] or a [return] inside the loop). *)
Inductive ctl (S R : Type) : Type :=
  | Next (s : S)
  | Done (r : R).
Arguments Next {S R} s.
Arguments Done {S R} r.

Fixpoint loop {S R} (fuel : nat) (body : S -> res (ctl S R)) (s : S) : res R :=
  match fuel with
  | O => OutOfFuel
  | Datatypes.S n =>
      c ← body s;
      match c with
      | Next s' => loop n body s'
      | Done r => Ok r
      end
  end.

(** A loop over the elements of a list that can panic. *)
Fixpoint foldM {A B} (f : B -> A -> res B) (b : B) (l : list A) : res B :=
  match l with
  | [] => Ok b
  | x :: l => b' ← f b x; foldM f b' l
  end.

(** ** Total correctness: [returns m Q] says that [m] returns, with a value in [Q] *)

Definition returns {A} (m : res A) (Q : A -> Prop) : Prop :=
  match m with
  | Ok a => Q a
  | _ => False
  end.

Section returns.
Context {A B : Type}.
Implicit Types (m : res A) (Q : A -> Prop).

Lemma returns_inv m Q : returns m Q -> exists a, m = Ok a /\ Q a.
Proof. destruct m; cbn; naive_solver. Qed.

Lemma returns_intro m Q a : m = Ok a -> Q a -> returns m Q.
Proof. by intros ->. Qed.

Lemma returns_weaken m Q Q' :
  returns m Q -> (forall a, Q a -> Q' a) -> returns m Q'.
Proof. destruct m; cbn; auto. Qed.

Lemma returns_and m Q Q' :
  returns m Q -> returns m Q' -> returns m (fun a => Q a /\ Q' a).
Proof. destruct m; cbn; auto. Qed.

Lemma returns_bind m (f : A -> res B) (Q : B -> Prop) :
  returns m (fun a => returns (f a) Q) -> returns (m ≫= f) Q.
Proof. destruct m; cbn; auto. Qed.

Lemma returns_bind_weak m (f : A -> res B) P (Q : B -> Prop) :
  returns m P -> (forall a, P a -> returns (f a) Q) -> returns (m ≫= f) Q.
Proof. intros Hm Hf. apply returns_bind. by eapply returns_weaken. Qed.

Lemma bind_Ok m (f : A -> res B) b :
  m ≫= f = Ok b -> exists a, m = Ok a /\ f a = Ok b.
Proof. destruct m; cbn; naive_solver. Qed.
End returns.

(** The loop rule: an invariant [I] kept by every turn, and a measure that
    every turn decreases, give the loop's result for any fuel above it. *)
Lemma returns_loop {S R} (I : S -> Prop) (meas : S -> nat)
    (body : S -> res (ctl S R)) (Q : R -> Prop) :
  (forall s, I s -> returns (body s) (fun c =>
     match c with
     | Next s' => I s' /\ (meas s' < meas s)%nat
     | Done r => Q r
     end)) ->
  forall fuel s, I s -> (meas s < fuel)%nat -> returns (loop fuel body s) Q.
Proof.
  intros Hbody fuel. induction fuel as [|fuel IH]; intros s HI Hf; [lia|].
  cbn [loop]. apply returns_bind. eapply returns_weaken; [by apply Hbody|].
  intros [s'|r]; [|done]. intros [HI' Hlt]. apply IH; [done|lia].
Qed.

(** One turn of a loop. *)
Lemma loop_next {S R} (body : S -> res (ctl S R)) fuel s s' :
  body s = Ok (Next s') -> loop (Datatypes.S fuel) body s = loop fuel body s'.
Proof. intros E. cbn [loop]. by rewrite E. Qed.
Lemma loop_done {S R} (body : S -> res (ctl S R)) fuel s r :
  body s = Ok (Done r) -> loop (Datatypes.S fuel) body s = Ok r.
Proof. intros E. cbn [loop]. by rewrite E. Qed.

Lemma loop_panic {S R} (body : S -> res (ctl S R)) fuel s :
  body s = Panic -> loop (Datatypes.S fuel) body s = Panic.
Proof. intros E. cbn [loop]. by rewrite E. Qed.

(** One more turn of fuel never changes a loop that came back. *)
Lemma loop_mono {S R} (body : S -> res (ctl S R)) fuel fuel' s r :
  loop fuel body s = Ok r -> (fuel <= fuel')%nat -> loop fuel' body s = Ok r.
Proof.
  revert fuel' s. induction fuel as [|fuel IH]; intros fuel' s Hr Hle; [done|].
  destruct fuel' as [|fuel']; [lia|]. cbn in *.
  apply bind_Ok in Hr as ([s'|r'] & -> & Hr); cbn; [|done].
  apply IH; [done|lia].
Qed.

Lemma returns_foldM {A B} (I : B -> Prop) (f : B -> A -> res B) (l : list A) b :
  I b -> (forall b x, x ∈ l -> I b -> returns (f b x) I) -> returns (foldM f b l) I.
Proof.
  revert b. induction l as [|x l IH]; intros b Hb Hf; cbn; [done|].
  eapply returns_bind_weak; [apply Hf; [set_solver|done]|].
  intros b' Hb'. apply IH; [done|]. intros; apply Hf; [set_solver|done].
Qed.

Lemma foldM_app {A B} (f : B -> A -> res B) b l k :
  foldM f b (l ++ k) = b' ← foldM f b l; foldM f b' k.
Proof.
  revert b. induction l as [|x l IH]; intros b; [done|]. cbn [foldM app].
  destruct (f b x); cbn [mbind res_bind]; [apply IH|done..].
Qed.

Lemma foldM_foldl {A B} (f : B -> A -> res B) (g : B -> A -> B) (P : A -> Prop) l b :
  (forall b x, P x -> f b x = Ok (g b x)) -> Forall P l -> foldM f b l = Ok (foldl g b l).
Proof.
  intros Hfg Hl. revert b. induction Hl as [|x l Hx _ IH]; intros b; [done|].
  cbn [foldM foldl]. rewrite Hfg by done. apply IH.
Qed.

Lemma foldM_fmap {A B C} (f : B -> A -> res B) (h : C -> A) l b :
  foldM f b (h <$> l) = foldM (fun b x => f b (h x)) b l.
Proof. revert b. induction l as [|x l IH]; intros b; [done|]. cbn. destruct (f b (h x)); cbn; [apply IH|done..]. Qed.

(** A loop that takes the elements of a list one by one, to the end of the
    list: [I s l] says that [l] is left in state [s]. *)
Lemma loop_foldl {S R A} (I : S -> list A -> Prop) (step : S -> A -> S) (out : S -> R)
    (body : S -> res (ctl S R)) :
  (forall s x l, I s (x :: l) -> body s = Ok (Next (step s x)) /\ I (step s x) l) ->
  (forall s, I s [] -> body s = Ok (Done (out s))) ->
  forall l s fuel, I s l -> (length l < fuel)%nat -> loop fuel body s = Ok (out (foldl step s l)).
Proof.
  intros Hstep Hend l. induction l as [|x l IH]; intros s fuel HI Hf; destruct fuel as [|fuel]; try lia; cbn [loop].
  - by rewrite Hend.
  - destruct (Hstep _ _ _ HI) as [-> HI']. cbn [length] in Hf. apply IH; [done|lia].
Qed.

(** ** Partial runs: [yields m Q P] says that [m] never panics, returns a value
    in [Q] when it returns, and that [P] holds when its fuel runs out *)

Definition yields {A} (m : res A) (Q : A -> Prop) (P : Prop) : Prop :=
  match m with
  | Ok a => Q a
  | Panic => False
  | OutOfFuel => P
  end.

Section yields.
Context {A B : Type}.
Implicit Types (m : res A) (Q : A -> Prop).

Lemma yields_returns m Q P : returns m Q -> yields m Q P.
Proof. by destruct m. Qed.

Lemma yields_weaken m Q Q' P : yields m Q P -> (forall a, Q a -> Q' a) -> yields m Q' P.
Proof. destruct m; cbn; auto. Qed.

Lemma yields_bind m (f : A -> res B) (R : A -> Prop) (Q : B -> Prop) P :
  yields m R P -> (forall a, R a -> yields (f a) Q P) -> yields (m ≫= f) Q P.
Proof. destruct m; cbn; auto. Qed.

Lemma yields_bind_returns m (f : A -> res B) (R : A -> Prop) (Q : B -> Prop) P :
  returns m R -> (forall a, R a -> yields (f a) Q P) -> yields (m ≫= f) Q P.
Proof. destruct m; cbn; naive_solver. Qed.
End yields.

Lemma yields_loop {S R} (I : S -> Prop) (meas : S -> nat)
    (body : S -> res (ctl S R)) (Q : R -> Prop) (P : Prop) :
  (forall s, I s -> yields (body s) (fun c =>
     match c with
     | Next s' => I s' /\ (meas s' < meas s)%nat
     | Done r => Q r
     end) P) ->
  forall fuel s, I s -> (meas s < fuel)%nat -> yields (loop fuel body s) Q P.
Proof.
  intros Hbody fuel. induction fuel as [|fuel IH]; intros s HI Hf; [lia|].
  cbn [loop]. eapply yields_bind; [by apply Hbody|].
  intros [s'|r]; [|done]. intros [HI' Hlt]. apply IH; [done|lia].
Qed.

(** ** Generic list lemmas *)

Lemma lookup_take_drop {A} (l : list A) (i n k : nat) :
  (k < n)%nat -> take n (drop i l) !! k = l !! (i + k)%nat.
Proof. intros H. rewrite lookup_take. rewrite decide_True by lia. by rewrite lookup_drop. Qed.

Lemma take_app_all {A} (l k : list A) : take (length l) (l ++ k) = l.
Proof. rewrite take_app_length. done. Qed.

Lemma drop_app_all {A} (l k : list A) : drop (length l) (l ++ k) = k.
Proof. rewrite drop_app_length. done. Qed.

Lemma mjoin_cons {A} (x : list A) l : mjoin (x :: l) = x ++ mjoin l.
Proof. done. Qed.

(** ** Tactics of the development *)

(** Split on the outermost test of the goal. *)
Ltac split_test :=
  match goal with
  | |- returns (if ?b then _ else _) _ => destruct b eqn:?
  | |- returns (match ?x with _ => _ end) _ => destruct x eqn:?
  end.

(** Run a computation symbolically: binds, tests and returned values. *)
Ltac run_step :=
  match goal with
  | |- returns (_ ≫= _) _ => apply returns_bind
  | |- returns (mbind _ _) _ => apply returns_bind
  | |- returns (Ok _) _ => cbn [returns]
  | |- returns (mret _) _ => cbn [returns mret res_ret]
  | |- returns (let '(_, _) := ?p in _) _ => destruct p eqn:?
  | |- returns (if _ then _ else _) _ => split_test
  end.

Create HintDb deeppacket.
