(* ===== verification/Go.v ===== *)
(** * The part of the Go language and its standard library the program uses

    Bytes, slices with their bounds checks, machine integers with their
    wrap-around, big-endian reads, strings and the formatting verbs of [fmt]. *)
From S2P Require Export Prelude.

(** ** Bytes *)

Definition u8 (b : byte) : Z := Z.of_N (Byte.to_N b).

Definition byte_of (z : Z) : byte :=
  match Byte.of_N (Z.to_N (z mod 256)) with
  | Some b => b
  | None => x00
  end.

Global Instance byte_eq_dec : EqDecision byte := Byte.byte_eq_dec.

Lemma u8_range b : 0 <= u8 b < 256.
Proof. unfold u8. pose proof (Byte.to_N_bounded b). lia. Qed.

Lemma u8_byte_of z : 0 <= z < 256 -> u8 (byte_of z) = z.
Proof.
  intros Hz. unfold byte_of. rewrite Z.mod_small by lia.
  destruct (Byte.of_N (Z.to_N z)) eqn:E.
  - apply Byte.to_of_N in E. unfold u8. lia.
  - apply Byte.of_N_None_iff in E. lia.
Qed.

Lemma byte_of_u8 b : byte_of (u8 b) = b.
Proof.
  unfold byte_of, u8. pose proof (Byte.to_N_bounded b).
  rewrite Z.mod_small by lia. rewrite N2Z.id. by rewrite Byte.of_to_N.
Qed.

Lemma u8_inj b c : u8 b = u8 c -> b = c.
Proof. intros E. by rewrite <-(byte_of_u8 b), <-(byte_of_u8 c), E. Qed.

(** Byte strings written as lists of numbers, for concrete inputs. *)
Definition octets (l : list Z) : list byte := byte_of <$> l.

(** ** Slices: [len], indexing and slicing with their run-time checks *)

Definition zlen {A} (s : list A) : Z := Z.of_nat (length s).

Lemma zlen_nonneg {A} (s : list A) : 0 <= zlen s.
Proof. unfold zlen. lia. Qed.

Lemma zlen_app {A} (s t : list A) : zlen (s ++ t) = zlen s + zlen t.
Proof. unfold zlen. rewrite length_app. lia. Qed.

Lemma zlen_cons {A} (x : A) s : zlen (x :: s) = 1 + zlen s.
Proof. unfold zlen. cbn [length]. lia. Qed.

Lemma zlen_nil {A} : zlen (@nil A) = 0.
Proof. done. Qed.

Lemma zlen_0 {A} (s : list A) : zlen s = 0 -> s = [].
Proof. unfold zlen. destruct s; cbn; [done|lia]. Qed.

(** [s[i]] *)
Definition idx {A} (s : list A) (i : Z) : res A :=
  if (0 <=? i) && (i <? zlen s) then
    match s !! Z.to_nat i with
    | Some b => Ok b
    | None => Panic
    end
  else Panic.

(** The elements [a..b-1] of [s]. *)
Definition sub {A} (s : list A) (a b : Z) : list A :=
  take (Z.to_nat (b - a)) (drop (Z.to_nat a) s).

(** [s[a:b]]; the upper bound is checked against the length, which is what Go
    does for strings and is stricter than Go for slices (it checks the
    capacity there). *)
Definition slice {A} (s : list A) (a b : Z) : res (list A) :=
  if (0 <=? a) && (a <=? b) && (b <=? zlen s) then Ok (sub s a b) else Panic.

(** [s[a:]] and [s[:b]] *)
Definition slice_from {A} (s : list A) (a : Z) : res (list A) := slice s a (zlen s).
Definition slice_to {A} (s : list A) (b : Z) : res (list A) := slice s 0 b.

Lemma zlen_sub {A} (s : list A) a b :
  0 <= a -> a <= b -> b <= zlen s -> zlen (sub s a b) = b - a.
Proof. intros. unfold sub, zlen in *. rewrite length_take, length_drop. lia. Qed.

Lemma zlen_sub_le {A} (s : list A) a b : zlen (sub s a b) <= zlen s.
Proof. unfold sub, zlen. rewrite length_take, length_drop. lia. Qed.

Lemma returns_idx {A} (s : list A) i (Q : A -> Prop) :
  0 <= i < zlen s -> (forall b, s !! Z.to_nat i = Some b -> Q b) ->
  returns (idx s i) Q.
Proof.
  intros Hi HQ. unfold idx.
  rewrite (proj2 (Z.leb_le 0 i)), (proj2 (Z.ltb_lt i _)) by lia. cbn.
  destruct (s !! Z.to_nat i) as [b|] eqn:E; cbn; [auto|].
  apply lookup_ge_None in E. unfold zlen in Hi. lia.
Qed.

Lemma returns_slice {A} (s : list A) a b (Q : list A -> Prop) :
  0 <= a <= b /\ b <= zlen s -> Q (sub s a b) -> returns (slice s a b) Q.
Proof.
  intros [[Ha Hab] Hb] HQ. unfold slice.
  rewrite (proj2 (Z.leb_le 0 a)), (proj2 (Z.leb_le a b)), (proj2 (Z.leb_le b _)) by lia.
  done.
Qed.

Lemma idx_lookup {A} (s : list A) i b :
  0 <= i -> s !! Z.to_nat i = Some b -> idx s i = Ok b.
Proof.
  intros Hi E. unfold idx. rewrite E.
  apply lookup_lt_Some in E. unfold zlen.
  rewrite (proj2 (Z.leb_le 0 i)), (proj2 (Z.ltb_lt i _)) by lia. done.
Qed.

Lemma slice_ok {A} (s : list A) a b :
  0 <= a <= b -> b <= zlen s -> slice s a b = Ok (sub s a b).
Proof.
  intros. unfold slice.
  by rewrite (proj2 (Z.leb_le 0 a)), (proj2 (Z.leb_le a b)), (proj2 (Z.leb_le b _)) by lia.
Qed.

Lemma idx_head {A} (x : A) l : idx (x :: l) 0 = Ok x.
Proof. by rewrite (idx_lookup _ 0 x). Qed.
Lemma idx_second {A} (x y : A) l : idx (x :: y :: l) 1 = Ok y.
Proof. by rewrite (idx_lookup _ 1 y). Qed.

Lemma idx_Ok_inv {A} (s : list A) i b :
  idx s i = Ok b -> 0 <= i < zlen s /\ s !! Z.to_nat i = Some b.
Proof.
  unfold idx. destruct ((0 <=? i) && (i <? zlen s)) eqn:E; [|done].
  destruct (s !! Z.to_nat i) eqn:E'; [|done]. intros [= <-]. split; [lia|done].
Qed.

(** Reading in a buffer at a given place, whatever surrounds it. *)
Lemma idx_app_mid {A} (pre : list A) x post :
  idx (pre ++ x :: post) (zlen pre) = Ok x.
Proof.
  apply idx_lookup; [apply zlen_nonneg|]. unfold zlen. rewrite Nat2Z.id.
  by rewrite list_lookup_middle.
Qed.

Lemma sub_app_mid {A} (pre mid post : list A) :
  sub (pre ++ mid ++ post) (zlen pre) (zlen pre + zlen mid) = mid.
Proof.
  unfold sub, zlen. rewrite Nat2Z.id, drop_app_all.
  replace (Z.to_nat _) with (length mid) by lia. apply take_app_all.
Qed.

Lemma slice_app_mid {A} (pre mid post : list A) :
  slice (pre ++ mid ++ post) (zlen pre) (zlen pre + zlen mid) = Ok mid.
Proof.
  pose proof (zlen_nonneg pre). pose proof (zlen_nonneg mid). pose proof (zlen_nonneg post).
  rewrite slice_ok by (rewrite ?zlen_app; lia). by rewrite sub_app_mid.
Qed.

(** ** Machine integers *)

Definition wrap (w z : Z) : Z := z mod 2 ^ w.
Definition swrap (w z : Z) : Z := (z + 2 ^ (w - 1)) mod 2 ^ w - 2 ^ (w - 1).

Definition u16 := wrap 16.
Definition u32 := wrap 32.
Definition u64 := wrap 64.
Definition i32 := swrap 32.
(** Go's [int] on the 64-bit targets the program builds for. *)
Definition i64 := swrap 64.

Lemma wrap_range w z : 0 <= w -> 0 <= wrap w z < 2 ^ w.
Proof. intros. apply Z.mod_pos_bound. lia. Qed.

Lemma wrap_small w z : 0 <= z < 2 ^ w -> wrap w z = z.
Proof. apply Z.mod_small. Qed.

Lemma swrap_range w z : 0 < w -> - 2 ^ (w - 1) <= swrap w z < 2 ^ (w - 1).
Proof.
  intros. unfold swrap. pose proof (Z.mod_pos_bound (z + 2 ^ (w - 1)) (2 ^ w)).
  assert (2 ^ w = 2 * 2 ^ (w - 1)) as E.
  { replace w with (1 + (w - 1)) at 1 by lia. rewrite Z.pow_add_r by lia. lia. }
  assert (0 < 2 ^ (w - 1)) by lia. lia.
Qed.

Lemma swrap_small w z : 0 < w -> - 2 ^ (w - 1) <= z < 2 ^ (w - 1) -> swrap w z = z.
Proof.
  intros Hw Hz. unfold swrap.
  assert (2 ^ w = 2 * 2 ^ (w - 1)) as E.
  { replace w with (1 + (w - 1)) at 1 by lia. rewrite Z.pow_add_r by lia. lia. }
  rewrite Z.mod_small by lia. lia.
Qed.

Lemma i64_add_l a b : i64 (i64 a + b) = i64 (a + b).
Proof.
  unfold i64, swrap. f_equal.
  replace ((a + 2 ^ (64 - 1)) mod 2 ^ 64 - 2 ^ (64 - 1) + b + 2 ^ (64 - 1))
    with ((a + 2 ^ (64 - 1)) mod 2 ^ 64 + b) by lia.
  rewrite Zplus_mod_idemp_l. f_equal. lia.
Qed.

Lemma i64_add_r a b : i64 (a + i64 b) = i64 (a + b).
Proof. by rewrite Z.add_comm, i64_add_l, Z.add_comm. Qed.

Lemma i64_idem z : i64 (i64 z) = i64 z.
Proof. pose proof (i64_add_l z 0) as H. by rewrite !Z.add_0_r in H. Qed.

(** ** [encoding/binary]: big-endian reads *)

Definition be (s : list byte) : Z :=
  foldl (fun acc b => Z.lor (Z.shiftl acc 8) (u8 b)) 0 s.

Lemma lor_shiftl_u8 a b : Z.lor (Z.shiftl a 8) (u8 b) = a * 256 + u8 b.
Proof.
  pose proof (u8_range b). rewrite Z.shiftl_mul_pow2 by lia.
  change (2 ^ 8) with 256. symmetry. rewrite <-Z.add_lor_land.
  assert (Z.land (a * 256) (u8 b) = 0) as ->; [|lia].
  apply Z.bits_inj'. intros n Hn. rewrite Z.land_spec, Z.bits_0.
  change 256 with (2 ^ 8). destruct (Z.ltb_spec n 8).
  - by rewrite Z.mul_pow2_bits_low by lia.
  - rewrite (Z.bits_above_log2 (u8 b) n); [apply andb_false_r|lia|].
    destruct (decide (u8 b = 0)) as [->|]; [cbn; lia|].
    apply Z.log2_lt_pow2; [lia|].
    assert (2 ^ 8 <= 2 ^ n) by (apply Z.pow_le_mono_r; lia). lia.
Qed.

Lemma be_snoc s b : be (s ++ [b]) = be s * 256 + u8 b.
Proof. unfold be. rewrite foldl_app. cbn. apply lor_shiftl_u8. Qed.

Lemma be_range s : 0 <= be s < 256 ^ zlen s.
Proof.
  induction s as [|b s IH] using rev_ind; [by vm_compute|].
  rewrite be_snoc, zlen_app. change (zlen [b]) with 1.
  rewrite Z.pow_add_r by (pose proof (zlen_nonneg s); lia).
  change (256 ^ 1) with 256. pose proof (u8_range b). lia.
Qed.

(** [binary.BigEndian.Uint16], [Uint32], [Uint64]: they panic on a short slice. *)
Definition be_uint (n : nat) (s : list byte) : res Z :=
  if (n <=? length s)%nat then Ok (be (take n s)) else Panic.
Definition be16 := be_uint 2.
Definition be32 := be_uint 4.
Definition be64 := be_uint 8.

(** [binary.BigEndian.UintN(s[a:a+n])] *)
Definition rd_be (n : nat) (s : list byte) (a : Z) : res Z :=
  t ← slice s a (a + Z.of_nat n); be_uint n t.

Lemma returns_rd_be n s a (Q : Z -> Prop) :
  0 <= a /\ a + Z.of_nat n <= zlen s ->
  (forall v, v = be (sub s a (a + Z.of_nat n)) -> 0 <= v < 256 ^ Z.of_nat n -> Q v) ->
  returns (rd_be n s a) Q.
Proof.
  intros Ha HQ. unfold rd_be. apply returns_bind. apply returns_slice; [lia|].
  set (t := sub _ _ _). assert (zlen t = Z.of_nat n) as Ht by (unfold t; rewrite zlen_sub; lia).
  unfold be_uint. assert ((n <=? length t)%nat = true) as ->.
  { apply Nat.leb_le. unfold zlen in Ht. lia. }
  assert (take n t = t) as ->.
  { apply take_ge. unfold zlen in Ht. lia. }
  cbn. apply HQ; [done|]. rewrite <-Ht. apply be_range.
Qed.

Lemma rd_be_app_mid n pre mid post :
  length mid = n -> rd_be n (pre ++ mid ++ post) (zlen pre) = Ok (be mid).
Proof.
  intros <-. unfold rd_be. change (Z.of_nat (length mid)) with (zlen mid).
  rewrite slice_app_mid. cbn. unfold be_uint. rewrite Nat.leb_refl, take_ge by lia. done.
Qed.

(** Big-endian writing, the inverse of the reads. *)
Fixpoint be_put (n : nat) (z : Z) : list byte :=
  match n with
  | O => []
  | S n => be_put n (z / 256) ++ [byte_of (z mod 256)]
  end.

Lemma length_be_put n z : length (be_put n z) = n.
Proof. revert z. induction n as [|n IH]; intros z; cbn; [done|]. rewrite length_app, IH. cbn. lia. Qed.

Lemma zlen_be_put n z : zlen (be_put n z) = Z.of_nat n.
Proof. unfold zlen. by rewrite length_be_put. Qed.

Lemma be_be_put n z : 0 <= z < 256 ^ Z.of_nat n -> be (be_put n z) = z.
Proof.
  revert z. induction n as [|n IH]; intros z Hz.
  - cbn in *. lia.
  - cbn [be_put]. rewrite be_snoc, u8_byte_of by (apply Z.mod_pos_bound; lia).
    rewrite IH; [pose proof (Z.div_mod z 256); lia|].
    rewrite Nat2Z.inj_succ, Z.pow_succ_r in Hz by lia.
    split; [apply Z.div_pos; lia|apply Z.div_lt_upper_bound; lia].
Qed.

(** ** Reads that succeed on a buffer still succeed when bytes arrive after it *)

Lemma idx_app_l {A} (s t : list A) i b : idx s i = Ok b -> idx (s ++ t) i = Ok b.
Proof.
  unfold idx. rewrite zlen_app. pose proof (zlen_nonneg t).
  destruct ((0 <=? i) && (i <? zlen s)) eqn:E; [|done].
  replace ((0 <=? i) && (i <? zlen s + zlen t)) with true by lia.
  rewrite lookup_app_l by (unfold zlen in E; lia). done.
Qed.

Lemma sub_app_l {A} (s t : list A) a b :
  0 <= a -> b <= zlen s -> sub (s ++ t) a b = sub s a b.
Proof.
  intros Ha Hb. unfold sub. destruct (decide (a <= b)).
  - rewrite drop_app_le by (unfold zlen in Hb; lia).
    rewrite take_app_le; [done|]. rewrite length_drop. unfold zlen in Hb. lia.
  - replace (Z.to_nat (b - a)) with O by lia. by rewrite !take_0.
Qed.

Lemma slice_app_l {A} (s t : list A) a b v : slice s a b = Ok v -> slice (s ++ t) a b = Ok v.
Proof.
  unfold slice. rewrite zlen_app. pose proof (zlen_nonneg t).
  destruct ((0 <=? a) && (a <=? b) && (b <=? zlen s)) eqn:E; [|done].
  replace ((0 <=? a) && (a <=? b) && (b <=? zlen s + zlen t)) with true by lia.
  rewrite sub_app_l by lia. done.
Qed.

Lemma rd_be_app_l n s t a v : rd_be n s a = Ok v -> rd_be n (s ++ t) a = Ok v.
Proof.
  unfold rd_be. intros (u & Hu & Hv)%bind_Ok. by rewrite (slice_app_l _ _ _ _ _ Hu).
Qed.

Lemma slice_Ok_inv {A} (s : list A) a b v :
  slice s a b = Ok v -> 0 <= a <= b /\ b <= zlen s /\ v = sub s a b.
Proof. unfold slice. case_match; [|done]. intros [= <-]. split_and!; [lia..|done]. Qed.

Lemma slice_from_Ok {A} (s : list A) a :
  0 <= a <= zlen s -> slice_from s a = Ok (drop (Z.to_nat a) s).
Proof.
  intros. unfold slice_from. rewrite slice_ok by lia. f_equal. unfold sub.
  rewrite take_ge; [done|]. rewrite length_drop. unfold zlen in *. lia.
Qed.

Lemma slice_to_Ok {A} (s : list A) b :
  0 <= b <= zlen s -> slice_to s b = Ok (take (Z.to_nat b) s).
Proof. intros. unfold slice_to. rewrite slice_ok by lia. unfold sub. by rewrite Z.sub_0_r, drop_0. Qed.

Lemma be24_lor b1 b2 b3 :
  Z.lor (Z.lor (Z.shiftl (u8 b1) 16) (Z.shiftl (u8 b2) 8)) (u8 b3) = be [b1; b2; b3].
Proof.
  unfold be. cbn [foldl]. rewrite Z.shiftl_0_l, Z.lor_0_l, Z.shiftl_lor.
  by rewrite Z.shiftl_shiftl by lia.
Qed.

Lemma be_put_3 n : exists b1 b2 b3, be_put 3 n = [b1; b2; b3].
Proof. eauto. Qed.

(** ** The bytes at a place of a buffer

    [holds_at buf i s]: the bytes [s] stand at offset [i] of [buf]. Round-trip
    proofs say once what stands where and read it back with these lemmas. *)

Definition holds_at {A} (buf : list A) (i : Z) (s : list A) : Prop :=
  exists pre post, buf = pre ++ s ++ post /\ zlen pre = i.

Section holds_at.
Context {A : Type}.
Implicit Types (buf s t : list A).

Lemma holds_at_intro pre s post : holds_at (pre ++ s ++ post) (zlen pre) s.
Proof. by exists pre, post. Qed.

Lemma holds_at_self buf : holds_at buf 0 buf.
Proof. exists [], []. by rewrite app_nil_r. Qed.

Lemma holds_at_app buf i s t :
  holds_at buf i (s ++ t) -> holds_at buf i s /\ holds_at buf (i + zlen s) t.
Proof.
  intros (pre & post & -> & <-). split.
  - exists pre, (t ++ post). by rewrite <-app_assoc.
  - exists (pre ++ s), post. by rewrite zlen_app, <-!app_assoc.
Qed.

Lemma holds_at_cons buf i x t :
  holds_at buf i (x :: t) -> idx buf i = Ok x /\ holds_at buf (i + 1) t.
Proof.
  intros H. apply (holds_at_app buf i [x] t) in H as [(pre & post & -> & <-) Ht].
  split; [apply idx_app_mid|done].
Qed.

Lemma holds_at_bound buf i s : holds_at buf i s -> 0 <= i /\ i + zlen s <= zlen buf.
Proof.
  intros (pre & post & -> & <-). rewrite !zlen_app.
  pose proof (zlen_nonneg pre). pose proof (zlen_nonneg post). lia.
Qed.

Lemma holds_at_slice buf i s : holds_at buf i s -> slice buf i (i + zlen s) = Ok s.
Proof. intros (pre & post & -> & <-). apply slice_app_mid. Qed.

Lemma holds_at_sub buf i s j t : holds_at buf i s -> holds_at s j t -> holds_at buf (i + j) t.
Proof.
  intros (pre & post & -> & <-) (pre' & post' & -> & <-).
  exists (pre ++ pre'), (post' ++ post). by rewrite zlen_app, <-!app_assoc.
Qed.
End holds_at.

Lemma holds_at_rd buf i s n : holds_at buf i s -> length s = n -> rd_be n buf i = Ok (be s).
Proof. intros (pre & post & -> & <-) <-. by apply rd_be_app_mid. Qed.

Lemma holds_at_put buf i n z :
  holds_at buf i (be_put n z) -> 0 <= z < 256 ^ Z.of_nat n -> rd_be n buf i = Ok z.
Proof.
  intros H Hz. rewrite (holds_at_rd _ _ _ n H) by apply length_be_put. by rewrite be_be_put.
Qed.

(** ** Computations that read at checked places *)

(** Reads that the tests before them put in bounds, tests split on the way. *)
Ltac run_reads :=
  repeat first
    [ progress cbv zeta
    | progress run_step
    | apply returns_idx; [lia|]; intros ? _
    | apply returns_rd_be; [lia|]; intros ? _ _
    | apply returns_slice; [lia|] ];
  try done.

(** The same with calls that are known to return, whatever they return. *)
Ltac run_calls :=
  repeat first
    [ progress run_reads
    | eapply returns_weaken; [solve [eauto with deeppacket]|]; intros ? _ ].
