(* ===== verification/GoStr.v ===== *)
(** * Go strings: conversions, searching, UTF-8, [fmt] verbs, IP addresses

    A Go string is a [string] of bytes; [gostr] and [gobytes] are the
    conversions from and to byte slices. *)
From S2P Require Export Go.

Definition gostr (s : list byte) : string := String.string_of_list_byte s.
Definition gobytes (s : string) : list byte := String.list_byte_of_string s.

Definition slen (s : string) : Z := Z.of_nat (String.length s).

Lemma slen_gobytes s : slen s = zlen (gobytes s).
Proof.
  unfold slen, zlen, gobytes. f_equal. induction s as [|c s IH]; [done|]. cbn. by rewrite IH.
Qed.

Lemma gostr_gobytes s : gostr (gobytes s) = s.
Proof. apply String.string_of_list_byte_of_string. Qed.

Lemma gobytes_gostr s : gobytes (gostr s) = s.
Proof. apply String.list_byte_of_string_of_list_byte. Qed.

Global Instance gostr_inj : Inj (=) (=) gostr.
Proof. intros a b E. by rewrite <-(gobytes_gostr a), E, gobytes_gostr. Qed.

Lemma gostr_nil s : gostr s = "" <-> s = [].
Proof. split; [|by intros ->]. intros E. apply (inj gostr). done. Qed.

Lemma gostr_app s t : gostr (s ++ t) = gostr s +:+ gostr t.
Proof.
  unfold gostr, String.string_of_list_byte. rewrite map_app.
  induction (map _ s) as [|a l IH]; [done|]. cbn. by rewrite IH.
Qed.

Global Instance str_app_assoc : Assoc (=) String.append.
Proof.
  intros s t u. induction s as [|c s IH]; [done|].
  change (String c (s +:+ (t +:+ u)) = String c ((s +:+ t) +:+ u)). by rewrite IH.
Qed.

(** [s[:n]] for a length already checked against [len(s)] *)
Definition str_take (n : nat) (s : string) : string := gostr (take n (gobytes s)).
Definition str_drop (n : nat) (s : string) : string := gostr (drop n (gobytes s)).

(** ** [strings.Index], [HasPrefix], [Contains], [Join] *)

Fixpoint is_prefix (p s : list byte) : bool :=
  match p, s with
  | [], _ => true
  | _ :: _, [] => false
  | a :: p, b :: s => bool_decide (a = b) && is_prefix p s
  end.

Lemma is_prefix_spec p s : is_prefix p s = true <-> exists t, s = p ++ t.
Proof.
  revert s. induction p as [|a p IH]; intros s; cbn; [naive_solver|].
  destruct s as [|b s]; cbn; [naive_solver|].
  rewrite andb_true_iff, bool_decide_eq_true, IH. naive_solver.
Qed.

Fixpoint index_nat (p s : list byte) : option nat :=
  if is_prefix p s then Some O else
  match s with
  | [] => None
  | _ :: s => S <$> index_nat p s
  end.

(** [strings.Index(s, p)]: the first position of [p] in [s], or -1. *)
Definition index (s p : list byte) : Z :=
  match index_nat p s with
  | Some i => Z.of_nat i
  | None => -1
  end.

Lemma index_nat_Some p s i :
  index_nat p s = Some i -> exists t, s = take i s ++ p ++ t /\ (i <= length s)%nat.
Proof.
  revert i. induction s as [|b s IH]; intros i; cbn.
  - destruct p as [|a p]; [|done]. intros [= <-]. by exists [].
  - destruct (is_prefix p (b :: s)) eqn:E.
    + intros [= <-]. apply is_prefix_spec in E as [t E]. exists t. cbn. split; [done|lia].
    + destruct (index_nat p s) as [j|]; [|done]. intros [= <-].
      destruct (IH j eq_refl) as (t & Hs & Hj). exists t. cbn. split; [by f_equal|lia].
Qed.

Lemma index_nat_app p s t i : index_nat p s = Some i -> index_nat p (s ++ t) = Some i.
Proof.
  revert i. induction s as [|b s IH]; intros i.
  - destruct p as [|a p]; [|done]. intros [= <-]. by destruct t.
  - cbn [index_nat app]. destruct (is_prefix p (b :: s)) eqn:E.
    + intros [= <-]. assert (is_prefix p (b :: s ++ t) = true) as ->; [|done].
      apply is_prefix_spec in E as [u E]. apply is_prefix_spec.
      exists (u ++ t). by rewrite app_assoc, <-E.
    + destruct (index_nat p s) as [j|] eqn:Ej; [|done]. intros [= <-].
      rewrite (IH j eq_refl).
      destruct (is_prefix p (b :: s ++ t)) eqn:E'; [|done]. exfalso.
      apply is_prefix_spec in E' as [u E'].
      apply index_nat_Some in Ej as (v & Hs & Hj).
      assert (length p <= length s)%nat.
      { apply (f_equal length) in Hs. rewrite !length_app, length_take in Hs. lia. }
      apply not_true_iff_false in E. apply E, is_prefix_spec.
      exists (take (S (length s) - length p) u).
      apply (f_equal (take (S (length s)))) in E'.
      change (b :: s ++ t) with ((b :: s) ++ t) in E'.
      rewrite take_app in E'. cbn [length] in E'.
      rewrite Nat.sub_diag, take_0, app_nil_r, take_ge in E' by (cbn; lia).
      rewrite E' at 1. rewrite take_app, take_ge by lia. done.
Qed.

(** [strings.IndexByte] *)
Definition index_byte (s : list byte) (b : byte) : Z := index s [b].

Definition contains (s p : list byte) : bool :=
  match index_nat p s with Some _ => true | None => false end.

(** [strings.Join], and the pieces of a [Sprintf] with nothing between. *)
Definition join (sep : string) (l : list string) : string := String.concat sep l.
Definition cat (l : list string) : string := join "" l.

(** The same on strings: [strings.Contains], [HasPrefix], [HasSuffix],
    [TrimPrefix]. *)
Definition str_contains (s p : string) : bool := contains (gobytes s) (gobytes p).
Definition has_prefix (s p : string) : bool := is_prefix (gobytes p) (gobytes s).
Definition has_suffix (s p : string) : bool :=
  is_prefix (reverse (gobytes p)) (reverse (gobytes s)).
Definition trim_prefix (s p : string) : string :=
  if has_prefix s p then str_drop (String.length p) s else s.

(** [strings.Split(s, sep)] for a separator of one byte: never empty. *)
Fixpoint split_byte (sep : byte) (s : list byte) : list (list byte) :=
  match s with
  | [] => [[]]
  | b :: s =>
    if bool_decide (b = sep) then [] :: split_byte sep s
    else match split_byte sep s with
         | l :: ls => (b :: l) :: ls
         | [] => [[b]]
         end
  end.
Definition str_split (sep : byte) (s : string) : list string :=
  gostr <$> split_byte sep (gobytes s).

Lemma split_byte_nonempty sep s : split_byte sep s <> [].
Proof. destruct s as [|b s]; cbn; [done|]. by repeat case_match. Qed.

(** ** UTF-8, as [for _, r := range s] and [utf8.DecodeRune] read it *)

Definition rune_error : Z := 0xFFFD.

Definition cont (b : byte) : bool := (0x80 <=? u8 b) && (u8 b <=? 0xBF).

(** The first rune of [s] and its width; an invalid byte is [rune_error] of width 1. *)
Definition decode_rune (s : list byte) : Z * nat :=
  match s with
  | [] => (rune_error, O)
  | b0 :: s1 =>
    let c := u8 b0 in
    if c <? 0x80 then (c, 1%nat)
    else match s1 with
    | [] => (rune_error, 1%nat)
    | b1 :: s2 =>
      if (0xC2 <=? c) && (c <=? 0xDF) then
        if cont b1 then (Z.lor (Z.shiftl (Z.land c 0x1F) 6) (Z.land (u8 b1) 0x3F), 2%nat)
        else (rune_error, 1%nat)
      else if (0xE0 <=? c) && (c <=? 0xEF) then
        let lo := if c =? 0xE0 then 0xA0 else 0x80 in
        let hi := if c =? 0xED then 0x9F else 0xBF in
        match s2 with
        | b2 :: _ =>
          if (lo <=? u8 b1) && (u8 b1 <=? hi) && cont b2 then
            (Z.lor (Z.shiftl (Z.land c 0x0F) 12)
               (Z.lor (Z.shiftl (Z.land (u8 b1) 0x3F) 6) (Z.land (u8 b2) 0x3F)), 3%nat)
          else (rune_error, 1%nat)
        | [] => (rune_error, 1%nat)
        end
      else if (0xF0 <=? c) && (c <=? 0xF4) then
        let lo := if c =? 0xF0 then 0x90 else 0x80 in
        let hi := if c =? 0xF4 then 0x8F else 0xBF in
        match s2 with
        | b2 :: b3 :: _ =>
          if (lo <=? u8 b1) && (u8 b1 <=? hi) && cont b2 && cont b3 then
            (Z.lor (Z.shiftl (Z.land c 0x07) 18)
               (Z.lor (Z.shiftl (Z.land (u8 b1) 0x3F) 12)
                  (Z.lor (Z.shiftl (Z.land (u8 b2) 0x3F) 6) (Z.land (u8 b3) 0x3F))), 4%nat)
          else (rune_error, 1%nat)
        | _ => (rune_error, 1%nat)
        end
      else (rune_error, 1%nat)
    end
  end.

(** [s] cut into runes, each with the bytes it was read from. *)
Fixpoint runes_fuel (fuel : nat) (s : list byte) : list (Z * list byte) :=
  match fuel, s with
  | S fuel, _ :: _ =>
    let '(r, w) := decode_rune s in
    (r, take w s) :: runes_fuel fuel (drop w s)
  | _, _ => []
  end.
Definition runes (s : list byte) : list (Z * list byte) := runes_fuel (length s) s.

(** [utf8.AppendRune] for valid runes *)
Definition encode_rune (r : Z) : list byte :=
  if r <? 0x80 then [byte_of r]
  else if r <? 0x800 then
    [byte_of (Z.lor 0xC0 (Z.shiftr r 6)); byte_of (Z.lor 0x80 (Z.land r 0x3F))]
  else if r <? 0x10000 then
    [byte_of (Z.lor 0xE0 (Z.shiftr r 12));
     byte_of (Z.lor 0x80 (Z.land (Z.shiftr r 6) 0x3F));
     byte_of (Z.lor 0x80 (Z.land r 0x3F))]
  else
    [byte_of (Z.lor 0xF0 (Z.shiftr r 18));
     byte_of (Z.lor 0x80 (Z.land (Z.shiftr r 12) 0x3F));
     byte_of (Z.lor 0x80 (Z.land (Z.shiftr r 6) 0x3F));
     byte_of (Z.lor 0x80 (Z.land r 0x3F))].

(** The Unicode tables of package [unicode] that the program reaches, for
    runes outside ASCII. *)
Class Unicode : Type := {
  unicode_lower : Z -> Z;
  unicode_upper : Z -> Z;
  unicode_print : Z -> bool;
}.

(** What the program relies on: U+FFFD has no lower case. *)
Class UnicodeOk `{Unicode} : Prop := {
  lower_rune_error : unicode_lower rune_error = rune_error;
}.

(** A table with no case and nothing printable outside ASCII, for examples. *)
Definition ascii_only : Unicode :=
  {| unicode_lower := fun r => r; unicode_upper := fun r => r; unicode_print := fun _ => false |}.
Lemma ascii_only_ok : @UnicodeOk ascii_only.
Proof. by split. Qed.

Definition is_ascii (s : list byte) : bool := forallb (fun b => u8 b <? 0x80) s.

Lemma runes_ascii s : is_ascii s = true -> runes s = (fun b => (u8 b, [b])) <$> s.
Proof.
  unfold runes. induction s as [|b s IH]; cbn; [done|].
  intros [Hb Hs]%andb_true_iff. rewrite Hb. cbn. by rewrite drop_0, IH.
Qed.

Definition lower_byte (b : byte) : byte :=
  if (0x41 <=? u8 b) && (u8 b <=? 0x5A) then byte_of (u8 b + 32) else b.

(** [strings.ToLower]: byte by byte for ASCII strings, else rune by rune,
    where an invalid byte comes out as the three bytes of U+FFFD. *)
Definition to_lower `{Unicode} (s : list byte) : list byte :=
  if is_ascii s then lower_byte <$> s
  else
    mjoin ((fun rb : Z * list byte =>
              let '(r, _) := rb in
              if r <? 0x80 then lower_byte <$> [byte_of r]
              else encode_rune (unicode_lower r)) <$> runes s).

Definition upper_byte (b : byte) : byte :=
  if (0x61 <=? u8 b) && (u8 b <=? 0x7A) then byte_of (u8 b - 32) else b.

(** [strings.ToUpper] *)
Definition to_upper `{Unicode} (s : list byte) : list byte :=
  if is_ascii s then upper_byte <$> s
  else
    mjoin ((fun rb : Z * list byte =>
              let '(r, _) := rb in
              if r <? 0x80 then upper_byte <$> [byte_of r]
              else encode_rune (unicode_upper r)) <$> runes s).

Definition is_space (r : Z) : bool :=
  bool_decide (r ∈ [0x09; 0x0A; 0x0B; 0x0C; 0x0D; 0x20; 0x85; 0xA0; 0x1680; 0x2028;
                    0x2029; 0x202F; 0x205F; 0x3000])
  || ((0x2000 <=? r) && (r <=? 0x200A)).

Fixpoint drop_spaces (l : list (Z * list byte)) : list (Z * list byte) :=
  match l with
  | (r, b) :: l' => if is_space r then drop_spaces l' else l
  | [] => []
  end.

(** [strings.TrimSpace] *)
Definition trim_space (s : list byte) : list byte :=
  mjoin (snd <$> reverse (drop_spaces (reverse (drop_spaces (runes s))))).

(** ** [fmt] *)

(** [%d] *)
Definition fmt_d (z : Z) : string := pretty z.

Definition hex_digit (z : Z) : ascii :=
  ascii_of_nat (Z.to_nat (if z <? 10 then 0x30 + z else 0x57 + z)).

Fixpoint hex_fuel (fuel : nat) (z : Z) (acc : string) : string :=
  match fuel with
  | O => acc
  | S fuel =>
    let acc := String (hex_digit (z mod 16)) acc in
    if z <? 16 then acc else hex_fuel fuel (z / 16) acc
  end.
(** [%x] of a non-negative integer of at most 64 bits *)
Definition fmt_x (z : Z) : string := hex_fuel 16 z "".

Definition pad0 (w : nat) (s : string) : string :=
  String.string_of_list_ascii (replicate (w - String.length s) "0"%char) +:+ s.
(** [%0<w>x] *)
Definition fmt_0x (w : nat) (z : Z) : string := pad0 w (fmt_x z).

(** [hex.EncodeToString] *)
Definition hex_encode (s : list byte) : string :=
  join "" ((fun b => fmt_0x 2 (u8 b)) <$> s).

(** [%q] ([strconv.Quote]) *)
Definition quote_rune `{Unicode} (rb : Z * list byte) : string :=
  let '(r, bs) := rb in
  if (r =? rune_error) && (length bs =? 1)%nat then
    "\x" +:+ join "" ((fun b => fmt_0x 2 (u8 b)) <$> bs)
  else if r =? 0x22 then "\" +:+ gostr (octets [0x22])
  else if r =? 0x5C then "\\"
  else if (0x20 <=? r) && (r <? 0x7F) then gostr bs
  else if (0x80 <=? r) && unicode_print r then gostr bs
  else if r =? 7 then "\a" else if r =? 8 then "\b" else if r =? 12 then "\f"
  else if r =? 10 then "\n" else if r =? 13 then "\r" else if r =? 9 then "\t"
  else if r =? 11 then "\v"
  else if (r <? 0x20) || (r =? 0x7F) then "\x" +:+ fmt_0x 2 r
  else if r <? 0x10000 then "\u" +:+ fmt_0x 4 r
  else "\U" +:+ fmt_0x 8 r.
Definition fmt_q `{Unicode} (s : list byte) : string :=
  let dq := gostr (octets [0x22]) in
  dq +:+ join "" (quote_rune <$> runes s) +:+ dq.

(** ** [net.IP.String] *)

Definition dotted (s : list byte) : string := join "." (fmt_d ∘ u8 <$> s).

Fixpoint groups16 (s : list byte) : list Z :=
  match s with
  | a :: b :: s => be [a; b] :: groups16 s
  | _ => []
  end.

(** The first longest run of at least two zero groups, as (start, length). *)
Fixpoint zero_run (l : list Z) : nat :=
  match l with
  | z :: l => if z =? 0 then S (zero_run l) else O
  | [] => O
  end.
Fixpoint best_run (i : nat) (l : list Z) : nat * nat :=
  match l with
  | [] => (O, O)
  | _ :: l' =>
    let here := zero_run l in
    let '(j, n) := best_run (S i) l' in
    if (2 <=? here)%nat && (n <=? here)%nat then (i, here) else (j, n)
  end.

Definition ip6_string (g : list Z) : string :=
  let '(i, n) := best_run 0 g in
  if (n =? 0)%nat then join ":" (fmt_x <$> g)
  else join ":" (fmt_x <$> take i g) +:+ "::" +:+ join ":" (fmt_x <$> drop (i + n) g).

Definition ip4_mapped (s : list byte) : bool :=
  (length s =? 16)%nat
  && bool_decide (take 12 s = octets [0;0;0;0;0;0;0;0;0;0;0xFF;0xFF]).

Definition ip_string (s : list byte) : string :=
  if (length s =? 0)%nat then "<nil>"
  else if (length s =? 4)%nat then dotted s
  else if ip4_mapped s then dotted (drop 12 s)
  else if (length s =? 16)%nat then ip6_string (groups16 s)
  else "?" +:+ hex_encode s.

Example ip6_string_ex :
  ip_string (octets [0x20;1;0xd;0xb8;0;0;0;0;0;1;0;0;0;0;0;1]) = "2001:db8::1:0:0:1".
Proof. vm_compute. reflexivity. Qed.
Example fmt_0x_ex : fmt_0x 8 0xbeef = "0000beef".
Proof. vm_compute. reflexivity. Qed.

(** Table lookup, Go's [m[k]] on a map of strings: the zero value when absent. *)
Definition map_str {K} `{Countable K} (m : gmap K string) (k : K) : string := default "" (m !! k).

(** [names[code]], or the prefix and the number when the table has no name. *)
Definition name_or (names : gmap Z string) (prefix : string) (code : Z) : string :=
  let name := map_str names code in
  if String.eqb name "" then prefix +:+ fmt_d code else name.
