(* ===== verification/Text.v ===== *)
(** * Text protocols

    What the decoders of text protocols use of packages strings and strconv
    (Split, SplitN, Fields, Atoi), and the facts on ASCII text their round trips
    need: lines come back from what they are joined to, and TrimSpace removes
    nothing from text with no space at its ends. *)
From S2P Require Export GoStr.

(** ** [strings.Split] and [SplitN] for a separator that is not empty *)

(** At most [fuel] cuts. *)
Fixpoint split_cuts (fuel : nat) (sep s : list byte) : list (list byte) :=
  match fuel with
  | O => [s]
  | S fuel =>
    match index_nat sep s with
    | Some i => take i s :: split_cuts fuel sep (drop (i + length sep) s)
    | None => [s]
    end
  end.

Definition split_on (s sep : list byte) : list (list byte) := split_cuts (length s) sep s.

(** [strings.SplitN(s, sep, n)] for a positive [n] *)
Definition split_n (s sep : list byte) (n : nat) : list (list byte) := split_cuts (n - 1) sep s.

(** ** [strings.Fields] *)

Fixpoint fields_from (cur : list byte) (l : list (Z * list byte)) : list (list byte) :=
  match l with
  | [] => if zlen cur =? 0 then [] else [cur]
  | (r, b) :: l =>
    if is_space r then
      if zlen cur =? 0 then fields_from [] l else cur :: fields_from [] l
    else fields_from (cur ++ b) l
  end.
Definition fields (s : list byte) : list (list byte) := fields_from [] (runes s).

(** ** [strconv.Atoi] *)

Fixpoint digits_value (acc : Z) (s : list byte) : option Z :=
  match s with
  | [] => Some acc
  | b :: s =>
    if (0x30 <=? u8 b) && (u8 b <=? 0x39) then digits_value (acc * 10 + (u8 b - 0x30)) s else None
  end.

(** None: an error, of syntax or range. *)
Definition Atoi (s : list byte) : option Z :=
  let '(neg, ds) :=
    match s with
    | b :: s' => if u8 b =? 0x2D then (true, s') else if u8 b =? 0x2B then (false, s') else (false, s)
    | [] => (false, s)
    end in
  if zlen ds =? 0 then None
  else
    v ← digits_value 0 ds;
    let v := if neg : bool then - v else v in
    if (- 2 ^ 63 <=? v) && (v <? 2 ^ 63) then Some v else None.

(** ** Lines *)

Definition CR : byte := byte_of 0x0D.
Definition LF : byte := byte_of 0x0A.
Definition crlf : list byte := [CR; LF].

(** The lines, with CRLF between them. *)
Fixpoint join_lines (ls : list (list byte)) : list byte :=
  match ls with
  | [] => []
  | [l] => l
  | l :: ls => l ++ crlf ++ join_lines ls
  end.

Lemma join_lines_cons l ls : ls <> [] -> join_lines (l :: ls) = l ++ crlf ++ join_lines ls.
Proof. by destruct ls. Qed.

Lemma index_nat_fresh b p s : b ∉ s -> index_nat (b :: p) s = None.
Proof.
  induction s as [|c s IH]; [done|]. intros Hb. cbn.
  rewrite bool_decide_false by set_solver. cbn. rewrite IH by set_solver. done.
Qed.

Lemma index_nat_skip b p s t : b ∉ s -> index_nat (b :: p) (s ++ (b :: p) ++ t) = Some (length s).
Proof.
  induction s as [|c s IH]; intros Hb.
  - assert (is_prefix (b :: p) ((b :: p) ++ t) = true) as E by (apply is_prefix_spec; eauto).
    cbn [app] in *. cbn [index_nat]. by rewrite E.
  - specialize (IH ltac:(set_solver)). cbn in *.
    by rewrite bool_decide_false, IH by set_solver.
Qed.

Definition no_cr (l : list byte) : Prop := CR ∉ l.

Lemma split_cuts_lines fuel ls :
  Forall no_cr ls -> ls <> [] -> (length ls <= S fuel)%nat -> split_cuts fuel crlf (join_lines ls) = ls.
Proof.
  revert fuel. induction ls as [|l ls IH]; intros fuel Hl Hn Hf; [done|].
  apply Forall_cons in Hl as [Hl Hls]. destruct ls as [|l' ls].
  - cbn [join_lines]. destruct fuel; cbn [split_cuts]; [done|]. unfold crlf. by rewrite index_nat_fresh.
  - destruct fuel as [|fuel]; [cbn in Hf; lia|]. rewrite join_lines_cons by done. cbn [split_cuts].
    unfold crlf at 1 2. rewrite index_nat_skip by done.
    rewrite take_app_all. f_equal. rewrite app_assoc.
    replace (length l + length crlf)%nat with (length (l ++ crlf)) by by rewrite length_app.
    rewrite drop_app_all. apply IH; [done|done|cbn in *; lia].
Qed.

Lemma length_join_lines ls : (length ls <= S (length (join_lines ls)))%nat.
Proof.
  induction ls as [|l ls IH]; [cbn; lia|]. destruct ls as [|l' ls]; [cbn; lia|].
  rewrite join_lines_cons, !length_app by done. cbn in *. lia.
Qed.

Lemma split_lines ls : Forall no_cr ls -> ls <> [] -> split_on (join_lines ls) crlf = ls.
Proof. intros. apply split_cuts_lines; [done|done|apply length_join_lines]. Qed.

(** ** ASCII *)

Lemma is_ascii_app s t : is_ascii (s ++ t) = is_ascii s && is_ascii t.
Proof. apply forallb_app. Qed.

Lemma drop_spaces_id l : (forall r b l', l = (r, b) :: l' -> is_space r = false) ->
  drop_spaces l = l.
Proof. destruct l as [|[r b] l]; [done|]. cbn. intros H. by rewrite (H r b l eq_refl). Qed.

Lemma mjoin_singletons (s : list byte) : mjoin (snd <$> ((fun b => (u8 b, [b])) <$> s)) = s.
Proof. induction s as [|b s IH]; cbn; [done|]. f_equal. apply IH. Qed.

Definition sp (b : byte) : bool := is_space (u8 b).

Fixpoint skip_spaces (s : list byte) : list byte :=
  match s with
  | b :: s' => if sp b then skip_spaces s' else s
  | [] => []
  end.

(** [strings.TrimRight] of spaces, on ASCII. *)
Definition rtrim (s : list byte) : list byte := reverse (skip_spaces (reverse s)).

Lemma drop_spaces_bytes s :
  drop_spaces ((fun b => (u8 b, [b])) <$> s) = (fun b => (u8 b, [b])) <$> skip_spaces s.
Proof. induction s as [|b s IH]; [done|]. cbn. unfold sp. destruct (is_space (u8 b)); [apply IH|done]. Qed.

Lemma is_ascii_skip s : is_ascii s = true -> is_ascii (skip_spaces s) = true.
Proof. induction s as [|b s IH]; [done|]. cbn. intros [Hb Hs]%andb_true_iff. case_match; cbn; [auto|by rewrite Hb]. Qed.

Lemma trim_space_ascii s : is_ascii s = true -> trim_space s = rtrim (skip_spaces s).
Proof.
  intros Ha. unfold trim_space, rtrim. rewrite runes_ascii by done.
  rewrite drop_spaces_bytes, <-fmap_reverse, drop_spaces_bytes, <-fmap_reverse.
  apply mjoin_singletons.
Qed.

Lemma forallb_reverse {A} (f : A -> bool) l : forallb f l = true -> forallb f (reverse l) = true.
Proof.
  rewrite !forallb_forall. intros H x Hx. apply H. rewrite <-list_elem_of_In in *. by apply elem_of_reverse.
Qed.

Lemma skip_spaces_solid b s : sp b = false -> skip_spaces (b :: s) = b :: s.
Proof. intros Hb. cbn. by rewrite Hb. Qed.

Lemma skip_spaces_app s t : forallb sp s = true -> skip_spaces (s ++ t) = skip_spaces t.
Proof. induction s as [|b s IH]; [done|]. cbn. intros [-> Hs]%andb_true_iff. auto. Qed.

Lemma skip_spaces_before s b t : sp b = false -> skip_spaces (s ++ b :: t) = skip_spaces (s ++ [b]) ++ t.
Proof.
  intros Hb. induction s as [|c s IH]; cbn; [by rewrite Hb|].
  destruct (sp c); [done|]. cbn. by rewrite <-app_assoc.
Qed.

Lemma rtrim_after a b s : sp b = false -> rtrim (a ++ b :: s) = a ++ b :: rtrim s.
Proof.
  intros Hb. unfold rtrim. rewrite reverse_app, reverse_cons, <-app_assoc. cbn [app].
  rewrite skip_spaces_before, reverse_app, reverse_involutive by done.
  assert (skip_spaces (reverse s ++ [b]) = skip_spaces (reverse s) ++ [b]) as ->.
  { generalize (reverse s). intros l. induction l as [|c l IH]; cbn; [by rewrite Hb|]. by destruct (sp c). }
  by rewrite reverse_app.
Qed.

Lemma rtrim_pad a b z : sp b = false -> forallb sp z = true -> rtrim (a ++ b :: z) = a ++ [b].
Proof.
  intros Hb Hz. rewrite rtrim_after by done. unfold rtrim.
  rewrite <-(app_nil_r (reverse z)), skip_spaces_app; [done|].
  by apply forallb_reverse.
Qed.

(** ASCII text between two bytes that are not spaces, or one such byte. *)
Definition solid (s : list byte) : bool :=
  is_ascii s &&
  match s, reverse s with
  | b :: _, c :: _ => negb (sp b) && negb (sp c)
  | _, _ => false
  end.

Lemma solid_inv s : solid s = true -> is_ascii s = true /\
  exists b c r t, s = b :: r /\ s = t ++ [c] /\ sp b = false /\ sp c = false.
Proof.
  unfold solid. intros [Ha H]%andb_true_iff. split; [done|].
  destruct s as [|b r]; [done|]. destruct (reverse (b :: r)) as [|c t] eqn:E; [done|].
  apply andb_true_iff in H as [Hb%negb_true_iff Hc%negb_true_iff].
  exists b, c, r, (reverse t). split_and!; [done| |done|done].
  by rewrite <-(reverse_involutive (b :: r)), E, reverse_cons.
Qed.

Lemma trim_space_solid s z :
  solid s = true -> forallb sp z = true -> is_ascii z = true -> trim_space (s ++ z) = s.
Proof.
  intros (Ha & b & c & r & t & Eb & Ec & Hb & Hc)%solid_inv Hz Haz.
  rewrite trim_space_ascii by by rewrite is_ascii_app, Ha.
  assert (skip_spaces (s ++ z) = s ++ z) as -> by (rewrite Eb; cbn; by rewrite Hb).
  rewrite Ec, <-app_assoc. cbn [app]. by rewrite rtrim_pad.
Qed.

Lemma is_ascii_rtrim s : is_ascii s = true -> is_ascii (rtrim s) = true.
Proof.
  intros Ha. by apply forallb_reverse, is_ascii_skip, forallb_reverse.
Qed.

(** *** A prefix that ends with a mark that stands nowhere before it *)

Lemma is_prefix_mark m p s r :
  m ∉ p -> m ∉ s -> is_prefix (p ++ [m]) (s ++ m :: r) = bool_decide (p = s).
Proof.
  revert s. induction p as [|a p IH]; intros s Hp Hs.
  - destruct s as [|c s]; cbn; [by rewrite bool_decide_true|].
    rewrite bool_decide_false by set_solver. by rewrite bool_decide_false.
  - destruct s as [|c s]; cbn.
    + rewrite bool_decide_false by set_solver. by rewrite bool_decide_false.
    + rewrite IH by set_solver. repeat case_bool_decide; naive_solver.
Qed.

Lemma contains_mid p a b : contains (a ++ p ++ b) p = true.
Proof.
  unfold contains. destruct (index_nat p (a ++ p ++ b)) eqn:E; [done|]. exfalso. revert E.
  induction a as [|c a IH]; cbn [app].
  - assert (is_prefix p (p ++ b) = true) as H by (apply is_prefix_spec; eauto).
    destruct (p ++ b); cbn [index_nat]; by rewrite H.
  - cbn [index_nat]. case_match; [done|]. destruct (index_nat p (a ++ p ++ b)); [done|auto].
Qed.

Lemma index_byte_skip (s t : list byte) b :
  b ∉ s -> index_byte (s ++ b :: t) b = zlen s.
Proof.
  unfold index_byte, index. intros Hb.
  assert (index_nat [b] (s ++ b :: t) = Some (length s)) as ->; [|done].
  induction s as [|c s IH]; cbn.
  - rewrite bool_decide_true by done. done.
  - rewrite bool_decide_false by set_solver. cbn. rewrite IH by set_solver. done.
Qed.

Lemma is_prefix_token p c s r : c ∉ p -> is_prefix p (s ++ c :: r) = is_prefix p s.
Proof.
  revert s. induction p as [|a p IH]; intros [|b s] Hc; cbn; try done.
  - rewrite bool_decide_false by set_solver. done.
  - by rewrite IH by set_solver.
Qed.

Lemma is_prefix_app p q s : is_prefix (p ++ q) s = true -> is_prefix p s = true.
Proof. rewrite !is_prefix_spec. intros [t ->]. exists (q ++ t). by rewrite app_assoc. Qed.

Lemma is_prefix_self p s : is_prefix p (p ++ s) = true.
Proof. apply is_prefix_spec. eauto. Qed.

Lemma join_lines_mid l ls : l ∈ ls -> exists a b, join_lines ls = a ++ l ++ b.
Proof.
  induction ls as [|l' ls IH]; [by intros ?%not_elem_of_nil|].
  intros [<-|Hl]%elem_of_cons.
  - exists []. destruct ls; [exists []; by rewrite app_nil_r|by eexists].
  - destruct (IH Hl) as (a & b & E). exists (l' ++ crlf ++ a), b.
    rewrite join_lines_cons, E, <-!app_assoc; [done|]. by destruct ls; [apply not_elem_of_nil in Hl|].
Qed.

(** *** Fields *)

Lemma fields_word w cur l :
  Forall (fun b => sp b = false) w ->
  fields_from cur (((fun b => (u8 b, [b])) <$> w) ++ l) = fields_from (cur ++ w) l.
Proof.
  intros Hw. revert cur. induction Hw as [|b w Hb _ IH]; intros cur; [by rewrite app_nil_r|].
  cbn [fmap list_fmap app fields_from]. unfold sp in Hb. rewrite Hb. rewrite IH. by rewrite <-app_assoc.
Qed.

(** The second field of a line, when a space or nothing comes after it. *)
Lemma fields_second a c b rest :
  a <> [] -> b <> [] -> Forall (fun x => sp x = false) a -> Forall (fun x => sp x = false) b ->
  sp c = true -> is_ascii (a ++ c :: b ++ rest) = true ->
  match rest with [] => True | x :: _ => sp x = true end ->
  exists l, fields (a ++ c :: b ++ rest) = a :: b :: l.
Proof.
  intros Hna Hnb Ha Hb Hc Hasc Hr. unfold fields. rewrite runes_ascii by done.
  rewrite fmap_app, fields_word by done. cbn [fmap list_fmap app fields_from].
  unfold sp in Hc. rewrite Hc. rewrite (proj2 (Z.eqb_neq _ 0)) by (intros ?%zlen_0; done).
  rewrite fmap_app, fields_word by done. cbn [app].
  assert (zlen b =? 0 = false) as Hz by (apply Z.eqb_neq; intros ?%zlen_0; done).
  destruct rest as [|x rest]; cbn [fmap list_fmap fields_from].
  - rewrite Hz. eauto.
  - unfold sp in Hr. rewrite Hr, Hz. eauto.
Qed.

(** *** ToLower makes no ASCII text longer *)

Lemma decode_rune_width s : s <> [] -> (1 <= snd (decode_rune s) <= length s)%nat.
Proof.
  intros Hs. destruct s as [|b0 s1]; [done|]. unfold decode_rune. clear Hs.
  destruct (u8 b0 <? 0x80); [cbn; lia|].
  destruct s1 as [|b1 s2]; [cbn; lia|].
  destruct (_ && _); [destruct (cont b1); cbn; lia|].
  destruct (_ && _).
  - destruct s2 as [|b2 s3]; [cbn; lia|]. destruct (_ && _); cbn; lia.
  - destruct (_ && _); [|cbn; lia]. destruct s2 as [|b2 [|b3 s4]]; try (cbn; lia).
    destruct (_ && _); cbn; lia.
Qed.

Lemma runes_fuel_bytes fuel s : (length s <= fuel)%nat ->
  mjoin (snd <$> runes_fuel fuel s) = s /\ Forall (fun rb => snd rb <> []) (runes_fuel fuel s).
Proof.
  revert s. induction fuel as [|fuel IH]; intros [|b s] Hf; cbn [length] in Hf; [done|lia|done|].
  cbn [runes_fuel]. pose proof (decode_rune_width (b :: s) ltac:(done)) as Hw.
  destruct (decode_rune (b :: s)) as [r w]. cbn [snd length] in Hw.
  destruct (IH (drop w (b :: s))) as [IH1 IH2]; [rewrite length_drop; cbn; lia|].
  rewrite fmap_cons, mjoin_cons. cbn [snd]. rewrite IH1, take_drop. split; [done|].
  constructor; [|done]. cbn [snd]. destruct w; [lia|done].
Qed.

Lemma runes_bytes s : mjoin (snd <$> runes s) = s /\ Forall (fun rb => snd rb <> []) (runes s).
Proof. by apply runes_fuel_bytes. Qed.

Lemma drop_spaces_suffix l : exists k, l = k ++ drop_spaces l.
Proof.
  induction l as [|[r b] l [k IH]]; [by exists []|]. cbn. case_match; [|by exists []].
  exists ((r, b) :: k). cbn. by f_equal.
Qed.

Lemma length_trim_space s : (length (trim_space s) <= length s)%nat.
Proof.
  unfold trim_space. destruct (runes_bytes s) as [E _]. rewrite <-E at 2. clear E.
  set (l := runes s). destruct (drop_spaces_suffix l) as [k Hk].
  destruct (drop_spaces_suffix (reverse (drop_spaces l))) as [k' Hk'].
  apply (f_equal reverse) in Hk'. rewrite reverse_involutive, reverse_app in Hk'.
  rewrite Hk at 2. rewrite Hk' at 2. rewrite !fmap_app, !join_app, !length_app. lia.
Qed.

Lemma u8_byte_of_mod z : u8 (byte_of z) = z mod 256.
Proof.
  rewrite <-(u8_byte_of (z mod 256)) by (apply Z.mod_pos_bound; lia).
  unfold byte_of. by rewrite Zmod_mod.
Qed.

Lemma lead_byte m z : Z.testbit m 7 = true -> 0x80 <= u8 (byte_of (Z.lor m z)).
Proof.
  intros Hm. rewrite u8_byte_of_mod. change 256 with (2 ^ 8).
  assert (Z.testbit (Z.lor m z mod 2 ^ 8) 7 = true) as Ht.
  { by rewrite Z.mod_pow2_bits_low, Z.lor_spec, Hm by lia. }
  apply Z.testbit_true in Ht; [|lia]. revert Ht.
  pose proof (Z.mod_pos_bound (Z.lor m z) (2 ^ 8) ltac:(lia)).
  generalize dependent (Z.lor m z mod 2 ^ 8). intros x Hx Ht.
  change (2 ^ 7) with 128 in Ht. change (2 ^ 8) with 256 in Hx.
  destruct (Z.le_gt_cases 128 x); [lia|]. rewrite (Z.div_small x 128) in Ht by lia. done.
Qed.

(** A rune outside ASCII starts with a byte outside ASCII. *)
Lemma encode_rune_head r : 0x80 <= r -> exists b t, encode_rune r = b :: t /\ 0x80 <= u8 b.
Proof.
  intros Hr. unfold encode_rune. rewrite (proj2 (Z.ltb_ge _ _) Hr).
  repeat case_match; eexists _, _; (split; [done|by apply lead_byte]).
Qed.

Lemma lower_prefix_length `{Unicode} h s :
  is_ascii h = true -> is_prefix h (to_lower s) = true -> (length h <= length s)%nat.
Proof.
  intros Hh. unfold to_lower. destruct (is_ascii s).
  { intros [t Ht]%is_prefix_spec. apply (f_equal length) in Ht.
    rewrite length_fmap, length_app in Ht. lia. }
  destruct (runes_bytes s) as [E Hne]. rewrite <-E at 2. clear E. revert h Hh.
  induction Hne as [|[r bs] l Hbs _ IH]; intros h Hh; [by destruct h; [cbn; lia|]|].
  rewrite !fmap_cons, !mjoin_cons, length_app. cbn [snd] in *.
  destruct h as [|c h]; [cbn; lia|]. cbn in Hh. apply andb_true_iff in Hh as [Hc Hh].
  assert (1 <= length bs)%nat by (destruct bs; [done|cbn; lia]).
  destruct (r <? 0x80).
  - cbn [fmap list_fmap app is_prefix]. intros [_ Hp]%andb_true_iff. specialize (IH h Hh Hp). cbn [length]. lia.
  - destruct (decide (0x80 <= unicode_lower r)) as [Hl|Hl].
    + destruct (encode_rune_head _ Hl) as (b & t & -> & Hb). cbn [app is_prefix].
      intros [->%bool_decide_eq_true _]%andb_true_iff. lia.
    + unfold encode_rune. rewrite (proj2 (Z.ltb_lt _ _)) by lia. cbn [app is_prefix].
      intros [_ Hp]%andb_true_iff. specialize (IH h Hh Hp). cbn [length]. lia.
Qed.
