(* ===== verification/GoNet.v ===== *)
(** * Go's [net.ParseIP] and [hash/fnv]

    What the program uses of the standard library to turn textual addresses
    into bytes and to hash flows. *)
From S2P Require Export GoStr.

(** ** [net.ParseIP] *)

Definition dot : byte := byte_of 0x2E.
Definition colon : byte := byte_of 0x3A.
Definition percent : byte := byte_of 0x25.

(** The four decimal fields of a dotted address: [val] and [digLen] are the
    field being read, [fields] those before it. A field has no leading zero,
    is at most 255 and is not empty. *)
Fixpoint ipv4_fields (s : list byte) (val digLen : Z) (fields : list byte) : option (list byte) :=
  match s with
  | [] =>
    if (digLen =? 0) || negb (zlen fields =? 3) then None else Some (fields ++ [byte_of val])
  | c :: s =>
    if (0x30 <=? u8 c) && (u8 c <=? 0x39) then
      if (digLen =? 1) && (val =? 0) then None
      else
        let val := val * 10 + (u8 c - 0x30) in
        if 255 <? val then None else ipv4_fields s val (digLen + 1) fields
    else if bool_decide (c = dot) then
      if (digLen =? 0) || (zlen fields =? 3) then None
      else ipv4_fields s 0 0 (fields ++ [byte_of val])
    else None
  end.

Definition parseIPv4 (s : list byte) : option (list byte) := ipv4_fields s 0 0 [].

Definition hex_value (c : byte) : option Z :=
  let c := u8 c in
  if (0x30 <=? c) && (c <=? 0x39) then Some (c - 0x30)
  else if (0x61 <=? c) && (c <=? 0x66) then Some (c - 0x61 + 10)
  else if (0x41 <=? c) && (c <=? 0x46) then Some (c - 0x41 + 10)
  else None.

(** A group of at most four hexadecimal digits: its value, its length and what
    follows; [None] for a fifth digit. *)
Fixpoint hex_group (s : list byte) (acc off : Z) : option (Z * Z * list byte) :=
  match s with
  | [] => Some (acc, off, [])
  | c :: s' =>
    match hex_value c with
    | None => Some (acc, off, s)
    | Some d => if 3 <? off then None else hex_group s' (acc * 16 + d) (off + 1)
    end
  end.

(** What the loop over groups leaves: the bytes read, where the ellipsis stands
    among them, and the rest of the string. *)
Fixpoint ipv6_groups (fuel : nat) (s ip : list byte) (ellipsis : option Z) :
    option (list byte * option Z * list byte) :=
  match fuel with
  | O => Some (ip, ellipsis, s)
  | S fuel =>
    match hex_group s 0 0 with
    | None => None
    | Some (acc, off, rest) =>
      if off =? 0 then None
      else
        match rest with
        | [] => Some (ip ++ be_put 2 acc, ellipsis, [])
        | c :: more =>
          if bool_decide (c = dot) then
            if negb (bool_decide (ellipsis <> None)) && negb (zlen ip =? 12) then None
            else if 16 <? zlen ip + 4 then None
            else match parseIPv4 s with
                 | Some v4 => Some (ip ++ v4, ellipsis, [])
                 | None => None
                 end
          else if negb (bool_decide (c = colon)) then None
          else
            let ip := ip ++ be_put 2 acc in
            match more with
            | [] => None
            | d :: more' =>
              if bool_decide (d = colon) then
                match ellipsis with
                | Some _ => None
                | None =>
                  match more' with
                  | [] => Some (ip, Some (zlen ip), [])
                  | _ => ipv6_groups fuel more' ip (Some (zlen ip))
                  end
                end
              else ipv6_groups fuel more ip ellipsis
            end
        end
    end
  end.

Definition parseIPv6 (s : list byte) : option (list byte) :=
  let '(s, ellipsis) :=
    match s with
    | a :: b :: rest =>
      if bool_decide (a = colon) && bool_decide (b = colon) then (rest, Some 0) else (s, None)
    | _ => (s, None)
    end in
  if bool_decide (ellipsis = Some 0) && bool_decide (s = []) then Some (replicate 16 x00)
  else
    match ipv6_groups 8 s [] ellipsis with
    | Some (ip, ellipsis, []) =>
      if zlen ip <? 16 then
        match ellipsis with
        | Some e =>
          Some (take (Z.to_nat e) ip ++ replicate (Z.to_nat (16 - zlen ip)) x00
                ++ drop (Z.to_nat e) ip)
        | None => None
        end
      else if bool_decide (ellipsis <> None) then None else Some ip
    | _ => None
    end.

(** The first of [.], [:] and [%] decides; an address with a zone is refused. *)
Fixpoint ip_kind (s : list byte) : option byte :=
  match s with
  | [] => None
  | c :: s => if bool_decide (c = dot) || bool_decide (c = colon) || bool_decide (c = percent)
              then Some c else ip_kind s
  end.

Definition mapped_prefix : list byte := octets [0;0;0;0;0;0;0;0;0;0;0xFF;0xFF].

Definition ParseIP (str : string) : option (list byte) :=
  let s := gobytes str in
  match ip_kind s with
  | Some c =>
    if bool_decide (c = dot) then (fun v4 => mapped_prefix ++ v4) <$> parseIPv4 s
    else if bool_decide (c = colon) && negb (bool_decide (percent ∈ s)) then parseIPv6 s
    else None
  | None => None
  end.

(** The bytes [h.Write(net.ParseIP(s))] hashes: a nil address is empty. *)
Definition ip_bytes (str : string) : list byte := default [] (ParseIP str).

Example ParseIP_ex :
  ip_string (ip_bytes "192.168.0.1") = "192.168.0.1" /\
  ip_string (ip_bytes "2001:db8::1:0:0:1") = "2001:db8::1:0:0:1" /\
  ip_string (ip_bytes "::") = "::" /\ ip_bytes "::ffff:10.0.0.1" = ip_bytes "10.0.0.1" /\
  ParseIP "1.2.3" = None /\ ParseIP "01.2.3.4" = None /\ ParseIP "1::2::3" = None /\
  ParseIP "fe80::1%eth0" = None /\ ParseIP "1:2:3:4:5:6:7:8::" = None /\ ParseIP "12345::" = None.
Proof. by vm_compute. Qed.

(** ** [hash/fnv]: 32-bit FNV-1a *)

Definition fnv32a_offset : Z := 2166136261.
Definition fnv32a_prime : Z := 16777619.

Definition fnv32a (data : list byte) : Z :=
  foldl (fun h b => u32 (Z.lxor h (u8 b) * fnv32a_prime)) fnv32a_offset data.

Example fnv32a_ex : fnv32a (gobytes "a") = 0xe40c292c /\ fnv32a (gobytes "foobar") = 0xbf9cf968.
Proof. by vm_compute. Qed.

Lemma fnv32a_range data : 0 <= fnv32a data < 2 ^ 32.
Proof.
  unfold fnv32a. induction data as [|b data IH] using rev_ind; [by vm_compute|].
  rewrite foldl_app. cbn [foldl]. apply wrap_range. lia.
Qed.

(** The lowest bit of the hash is the parity of the lowest bits hashed. *)
Lemma odd_u32 z : Z.odd (u32 z) = Z.odd z.
Proof.
  unfold u32, wrap. rewrite <-!Z.bit0_odd. apply Z.mod_pow2_bits_low. lia.
Qed.

Definition parity (h : bool) (data : list byte) : bool :=
  foldr (fun b acc => xorb (Z.odd (u8 b)) acc) h data.

Lemma parity_cons h b data : parity h (b :: data) = xorb (Z.odd (u8 b)) (parity h data).
Proof. done. Qed.

Lemma parity_xorb x h data : parity (xorb x h) data = xorb x (parity h data).
Proof.
  induction data as [|b data IH]; [done|]. rewrite !parity_cons, IH.
  by destruct (Z.odd (u8 b)), x, (parity h data).
Qed.

Lemma parity_app h s t : parity h (s ++ t) = parity (parity h t) s.
Proof. apply foldr_app. Qed.

Lemma fnv32a_odd data : Z.odd (fnv32a data) = parity true data.
Proof.
  unfold fnv32a. change true with (Z.odd fnv32a_offset). generalize fnv32a_offset as h.
  induction data as [|b data IH]; intros h; [done|]. cbn [foldl].
  rewrite IH, parity_cons, <-parity_xorb. f_equal.
  rewrite odd_u32, Z.odd_mul, <-(Z.bit0_odd (Z.lxor _ _)), Z.lxor_spec, !Z.bit0_odd.
  by destruct (Z.odd h), (Z.odd (u8 b)).
Qed.
