(* ===== verification/GoFloat.v ===== *)
(** * float64 and time: IEEE 754 binary64 arithmetic, [math.Round], conversions, [time.Time]

    Floats are the [spec_float] of the Standard Library at precision 53, so
    every operation is correctly rounded and evaluates. *)
From Stdlib Require Export Floats.SpecFloat.
From S2P Require Export GoStr.

Definition f64 := spec_float.
Global Instance f64_eq_dec : EqDecision f64.
Proof. solve_decision. Defined.

(** float64(z) for an integer z *)
Definition f_int (z : Z) : f64 := binary_normalize 53 1024 z 0 false.
Definition f_add : f64 -> f64 -> f64 := SFadd 53 1024.
Definition f_sub : f64 -> f64 -> f64 := SFsub 53 1024.
Definition f_mul : f64 -> f64 -> f64 := SFmul 53 1024.
Definition f_div : f64 -> f64 -> f64 := SFdiv 53 1024.
Definition f_lt : f64 -> f64 -> bool := SFltb.
Definition f_le : f64 -> f64 -> bool := SFleb.
(** The Go tests [a > b] and [a >= b]; every test with a NaN is false. *)
Definition f_gt (a b : f64) : bool := f_lt b a.
Definition f_ge (a b : f64) : bool := f_le b a.
Definition f_zero : f64 := S754_zero false.

(** The constant n / 10^k (both exactly representable, so the division gives
    the float nearest to the decimal constant, as the Go compiler does). *)
Definition f_dec (n k : Z) : f64 := f_div (f_int n) (f_int (10 ^ k)).

(** [math.Abs] *)
Definition f_abs : f64 -> f64 := SFabs.

(** The integer nearest to m * 2^e, ties away from zero. *)
Definition round_half_away (m : positive) (e : Z) : Z :=
  if 0 <=? e then Z.shiftl (Z.pos m) e
  else Z.shiftr (Z.pos m + Z.shiftl 1 (- e - 1)) (- e).

(** [math.Round] *)
Definition f_round (x : f64) : f64 :=
  match x with
  | S754_finite s m e =>
    if 0 <=? e then x
    else match round_half_away m e with
         | 0 => S754_zero s
         | n => f_int (if s then - n else n)
         end
  | _ => x
  end.

(** int(x): truncation toward zero. Out of the range of [int] (and for NaN)
    the language leaves the result to the implementation; this is what the gc
    compiler's conversion gives on amd64. *)
Definition min_int : Z := - 2 ^ 63.
Definition f_to_int (x : f64) : Z :=
  match x with
  | S754_zero _ => 0
  | S754_finite s m e =>
    let a := if 0 <=? e then Z.shiftl (Z.pos m) e else Z.shiftr (Z.pos m) (- e) in
    let z := if s then - a else a in
    if (- 2 ^ 63 <=? z) && (z <? 2 ^ 63) then z else min_int
  | _ => min_int
  end.

(** [fmt]'s %.<p>f: the exact decimal value, rounded half to even at p digits. *)
Definition round_half_even (num den : Z) : Z :=
  let q := num / den in
  let r := num mod den in
  if 2 * r <? den then q
  else if den <? 2 * r then q + 1
  else if Z.even q then q else q + 1.

Definition fmt_f (p : Z) (x : f64) : string :=
  match x with
  | S754_nan => "NaN"
  | S754_infinity s => if s then "-Inf" else "+Inf"
  | S754_zero _ | S754_finite _ _ _ =>
    let '(s, q) := match x with
      | S754_finite s m e =>
        let n := Z.pos m * 10 ^ p in
        (s, if 0 <=? e then Z.shiftl n e else round_half_even n (Z.shiftl 1 (- e)))
      | S754_zero s => (s, 0)
      | _ => (false, 0)
      end in
    let sign := if s then "-" else "" in
    let ip := fmt_d (q / 10 ^ p) in
    if p =? 0 then sign +:+ ip
    else sign +:+ ip +:+ "." +:+ pad0 (Z.to_nat p) (fmt_d (q mod 10 ^ p))
  end.

Example fmt_f_ex : fmt_f 1 (f_dec 125 2) = "1.2" /\ fmt_f 2 (f_dec 3141592 6) = "3.14".
Proof. vm_compute. done. Qed.
Example f_round_ex : f_round (f_dec (-25) 1) = f_int (-3) /\ f_to_int (f_dec (-25) 1) = -2.
Proof. vm_compute. done. Qed.

(** ** Signs of results

    Products and quotients of non-negative floats are non-negative. *)

Definition f_nonneg (x : f64) : Prop :=
  match x with
  | S754_zero _ => True
  | S754_finite s _ _ | S754_infinity s => s = false
  | S754_nan => True
  end.

Lemma binary_round_aux_sign s m e l :
  f_nonneg (binary_round_aux 53 1024 s m e l) \/ s = true.
Proof.
  unfold binary_round_aux. destruct s; [by right|left].
  destruct (shr_fexp _ _ m e l) as [a ea]. destruct (shr_fexp _ _ _ ea _) as [b eb].
  destruct (shr_m b); [done| |done]. by case_match.
Qed.

Lemma f_div_nonneg x y : f_nonneg x -> f_nonneg y -> f_div x y <> S754_nan ->
  (forall s, y <> S754_zero s) -> f_nonneg (f_div x y).
Proof.
  intros Hx Hy Hn Hz. unfold f_div in *.
  destruct x as [|[]| |[] mx ex], y as [sy|[]| |[] my ey]; cbn in *; try done;
    try (by destruct (Hz sy)).
  destruct (SFdiv_core_binary _ _ _ _ _ _) as [[q eq] loc].
  by destruct (binary_round_aux_sign false q eq loc).
Qed.

Lemma f_mul_nonneg x y : f_nonneg x -> f_nonneg y -> f_nonneg (f_mul x y).
Proof.
  intros Hx Hy. unfold f_mul.
  destruct x as [|[]| |[] mx ex], y as [|[]| |[] my ey]; cbn in *; try done.
  by destruct (binary_round_aux_sign false (Z.pos (mx * my)) (ex + ey) loc_Exact).
Qed.

Lemma f_to_int_nonneg x : f_nonneg x -> 0 <= f_to_int x \/ f_to_int x = min_int.
Proof.
  destruct x as [|s| |s m e]; cbn; intros; try (by left; lia); try by right.
  subst s. case_match; [left|by right].
  destruct (0 <=? e); [apply Z.shiftl_nonneg|apply Z.shiftr_nonneg]; lia.
Qed.

Lemma f_gt_zero_nonneg x : f_gt x f_zero = true -> f_nonneg x.
Proof. unfold f_gt, f_lt, SFltb, f_zero. by destruct x as [|[]| |[]]. Qed.

(** ** [time]

    A [time.Time] is its nanoseconds since the zero time; the zero [Time] is 0.
    Packet timestamps carry no monotonic reading. *)

Definition time := Z.
Definition duration := Z.

Definition is_zero (t : time) : bool := t =? 0.
Definition after (t u : time) : bool := u <? t.
Definition before (t u : time) : bool := t <? u.
(** [t.Sub(u)] saturates at the largest and smallest [Duration]. *)
Definition time_sub (t u : time) : duration :=
  Z.max (- 2 ^ 63) (Z.min (2 ^ 63 - 1) (t - u)).
Definition time_add (t : time) (d : duration) : time := t + d.

Definition second : duration := 1000000000.
Definition seconds (d : duration) : f64 :=
  f_add (f_int (Z.quot d second)) (f_div (f_int (Z.rem d second)) (f_int 1000000000)).
Definition milliseconds (d : duration) : Z := Z.quot d 1000000.
Definition microseconds (d : duration) : Z := Z.quot d 1000.
