(* ===== verification/Domain.v ===== *)
(** * internal/domain: packets, flows, and the values of their metric maps *)
From S2P Require Export GoFloat.

(** The dynamic types of the integers stored in a [map[string]any]: a type
    assertion to [int] succeeds on [TInt] only. *)
Inductive ity := TInt | TI64 | TU8 | TU16 | TU32 | TU64.
Global Instance ity_eq_dec : EqDecision ity.
Proof. solve_decision. Defined.

(** The values the program stores in its [map[string]any] metric maps, or
    looks for there: [AMaps] is a [[]map[string]any], [AInts] a [[]int],
    [AList] a [[]any] and [AMap] a [map[string]any]. *)
Inductive any :=
  | ANil
  | AStr (s : string)
  | AInt (t : ity) (z : Z)
  | AF64 (x : f64)
  | ABool (b : bool)
  | ATime (t : time)
  | AStrs (l : list string)
  | AInts (l : list Z)
  | AMaps (l : list (list (string * any)))
  | AStrMap (m : gmap string string)
  | AList (l : list any)
  | AMap (m : list (string * any)).

Notation metrics := (gmap string any) (only parsing).

(** [m[k].(string)], [.(int)], [.(bool)] and [.(float64)] with their ok flag. *)
Definition get_str (m : gmap string any) (k : string) : option string :=
  match m !! k with Some (AStr s) => Some s | _ => None end.
Definition get_int (m : gmap string any) (k : string) : option Z :=
  match m !! k with Some (AInt TInt z) => Some z | _ => None end.
Definition get_bool (m : gmap string any) (k : string) : option bool :=
  match m !! k with Some (ABool b) => Some b | _ => None end.
Definition get_f64 (m : gmap string any) (k : string) : option f64 :=
  match m !! k with Some (AF64 x) => Some x | _ => None end.

(** internal/domain/packet.go *)
Record PacketError := {
  Code : string; Title : string; Description : string; Severity : string;
}.

Record Packet := {
  Timestamp : time;
  SrcIP : string;
  DstIP : string;
  SrcPort : Z;
  DstPort : Z;
  Protocol : string;
  Payload : list byte;
  FrameNumber : Z;
  Length : Z;
  AppProtocol : string;
  Summary : string;
  Metadata : gmap string any;
  Errors : list PacketError;
  RawPacket : list byte;
  TCPSeq : Z;
  TCPAck : Z;
  TCPFlags : Z;
  Reassembled : bool;
  TTL : Z;
  IPID : Z;
}.

(** The machine widths of a packet's integer fields. *)
Record packet_ok (p : Packet) : Prop := {
  ok_SrcPort : 0 <= SrcPort p < 2 ^ 16;
  ok_DstPort : 0 <= DstPort p < 2 ^ 16;
  ok_FrameNumber : 0 <= FrameNumber p < 2 ^ 64;
  ok_TCPSeq : 0 <= TCPSeq p < 2 ^ 32;
  ok_TCPAck : 0 <= TCPAck p < 2 ^ 32;
  ok_TCPFlags : 0 <= TCPFlags p < 2 ^ 16;
  ok_TTL : 0 <= TTL p < 2 ^ 8;
  ok_IPID : 0 <= IPID p < 2 ^ 16;
  ok_Payload : zlen (Payload p) < 2 ^ 31;
}.

(** [pkt.AppProtocol = app; pkt.Summary = sum; pkt.Errors = errors] *)
Definition set_notes (app sum : string) (errors : list PacketError) (p : Packet) : Packet :=
  {| Timestamp := Timestamp p; SrcIP := SrcIP p; DstIP := DstIP p;
     SrcPort := SrcPort p; DstPort := DstPort p; Protocol := Protocol p;
     Payload := Payload p; FrameNumber := FrameNumber p; Length := Length p;
     AppProtocol := app; Summary := sum; Metadata := Metadata p;
     Errors := errors; RawPacket := RawPacket p; TCPSeq := TCPSeq p;
     TCPAck := TCPAck p; TCPFlags := TCPFlags p; Reassembled := Reassembled p;
     TTL := TTL p; IPID := IPID p |}.

Definition set_app (app sum : string) (p : Packet) : Packet := set_notes app sum (Errors p) p.

(** A packet with only the fields given, the others zero, for examples. *)
Definition mk_packet (ts : time) (src dst : string) (sport dport : Z)
    (proto : string) (payload : list byte) : Packet :=
  {| Timestamp := ts; SrcIP := src; DstIP := dst; SrcPort := sport;
     DstPort := dport; Protocol := proto; Payload := payload; FrameNumber := 1;
     Length := zlen payload; AppProtocol := ""; Summary := ""; Metadata := ∅;
     Errors := []; RawPacket := []; TCPSeq := 0; TCPAck := 0; TCPFlags := 0;
     Reassembled := false; TTL := 0; IPID := 0 |}.

(** internal/domain/flow.go *)
Inductive FlowType :=
  | FlowHTTP | FlowTLS | FlowSIP | FlowRTP | FlowDNS | FlowDiameter | FlowGTP
  | FlowPFCP | FlowSCTP | FlowS1AP | FlowNGAP | FlowWebSocket | FlowTCP
  | FlowUDP | FlowHTTP2 | FlowSBI | FlowNAS5G | FlowGTPU | FlowAJP | FlowSNMP
  | FlowICMP | FlowICMPv6.
Global Instance FlowType_eq_dec : EqDecision FlowType.
Proof. solve_decision. Defined.

Definition flow_type_string (t : FlowType) : string :=
  match t with
  | FlowHTTP => "HTTP" | FlowTLS => "TLS" | FlowSIP => "SIP" | FlowRTP => "RTP"
  | FlowDNS => "DNS" | FlowDiameter => "Diameter" | FlowGTP => "GTP"
  | FlowPFCP => "PFCP" | FlowSCTP => "SCTP" | FlowS1AP => "S1AP"
  | FlowNGAP => "NGAP" | FlowWebSocket => "WebSocket" | FlowTCP => "TCP"
  | FlowUDP => "UDP" | FlowHTTP2 => "HTTP2" | FlowSBI => "SBI"
  | FlowNAS5G => "NAS5G" | FlowGTPU => "GTPU" | FlowAJP => "AJP"
  | FlowSNMP => "SNMP" | FlowICMP => "ICMP" | FlowICMPv6 => "ICMPv6"
  end.

Record Flow := {
  FlowID : string;
  Type_ : FlowType;
  F_SrcIP : string;
  F_DstIP : string;
  F_SrcPort : Z;
  F_DstPort : Z;
  StartTime : time;
  EndTime : time;
  Metrics : gmap string any;
}.

(** internal/protocols/decoder.go: the result of decoding one live packet. *)
Record DecodedPacket := {
  D_Packet : Packet;
  D_Protocol : string;
  D_Summary : string;
  D_Metadata : gmap string any;
  D_Errors : list PacketError;
}.

(** A Go [range] over a map visits its entries in an unspecified order: the
    order is an argument, and this is what is known of it. *)
Definition map_order {K V} `{Countable K} (m : gmap K V) (order : list (K * V)) : Prop :=
  order ≡ₚ map_to_list m.

(** ** Reading a metric of a flow *)

Lemma lookup_if_insert_ne (b : bool) (m : gmap string any) i j v :
  i <> j -> (if b then <[i := v]> m else m) !! j = m !! j.
Proof. intros. destruct b; [by rewrite lookup_insert_ne|done]. Qed.

Ltac lookup_metric :=
  repeat match goal with
  | |- context [(if _ then <[_ := _]> _ else _) !! _] => rewrite lookup_if_insert_ne by done
  | |- context [<[?k := _]> _ !! ?k] => rewrite lookup_insert_eq
  | |- context [<[_ := _]> _ !! _] => rewrite lookup_insert_ne by done
  end.
