(* ===== verification/Bcd.v ===== *)
(** * Digits in nibbles (telephony BCD)

    Subscriber numbers travel two digits to a byte, the first digit in the low
    half, an odd last one beside 0xF. The GTP and the NGAP decoder hold one
    copy each of the loop that reads them ([bcd_text]). *)
From S2P Require Export Domain.

Definition bcd_digit (n : Z) : list byte := if n <=? 9 then [byte_of (48 + n)] else [].

(** Nibbles above 9 are padding and are skipped. *)
Definition bcd_text (data : list byte) : string :=
  gostr (mjoin ((fun b =>
    let lo := Z.land (u8 b) 0x0F in
    let hi := Z.land (Z.shiftr (u8 b) 4) 0x0F in
    bcd_digit lo ++ bcd_digit hi) <$> data)).

(** ** Digits on the wire *)

Definition nibbles (hi lo : Z) : byte := byte_of (16 * hi + lo).

Lemma nibbles_lo hi lo : 0 <= hi < 16 -> 0 <= lo < 16 -> Z.land (u8 (nibbles hi lo)) 0x0F = lo.
Proof.
  intros. unfold nibbles. rewrite u8_byte_of by lia. change 0x0F with (Z.ones 4).
  rewrite Z.land_ones by lia. change (2 ^ 4) with 16. rewrite Z.add_comm, Z.mul_comm, Z.mod_add by lia.
  by apply Z.mod_small.
Qed.

Lemma nibbles_hi hi lo :
  0 <= hi < 16 -> 0 <= lo < 16 -> Z.land (Z.shiftr (u8 (nibbles hi lo)) 4) 0x0F = hi.
Proof.
  intros. unfold nibbles. rewrite u8_byte_of by lia. change 0x0F with (Z.ones 4).
  rewrite Z.land_ones, Z.shiftr_div_pow2 by lia. change (2 ^ 4) with 16.
  rewrite Z.add_comm, Z.mul_comm, Z.div_add, Z.div_small by lia. rewrite Z.add_0_l.
  by apply Z.mod_small.
Qed.

Definition digit (d : Z) : Prop := 0 <= d <= 9.
Definition digits (ds : list Z) : string := gostr ((fun d => byte_of (48 + d)) <$> ds).

(** Two digits in a byte, the first in the low half; an odd last one with 0xF. *)
Fixpoint encode_bcd (ds : list Z) : list byte :=
  match ds with
  | [] => []
  | [d] => [nibbles 15 d]
  | d :: e :: ds => nibbles e d :: encode_bcd ds
  end.

Lemma bcd_text_cons b data : bcd_text (b :: data) =
  gostr (bcd_digit (Z.land (u8 b) 0x0F) ++ bcd_digit (Z.land (Z.shiftr (u8 b) 4) 0x0F))
  +:+ bcd_text data.
Proof. unfold bcd_text. cbn [fmap list_fmap]. cbv zeta. by rewrite <-gostr_app. Qed.

Lemma bcd_digit_digit d : digit d -> bcd_digit d = [byte_of (48 + d)].
Proof. unfold digit, bcd_digit. intros. by replace (d <=? 9) with true by lia. Qed.

Fixpoint bcd_text_encode (ds : list Z) : Forall digit ds -> bcd_text (encode_bcd ds) = digits ds.
Proof.
  destruct ds as [|d [|e ds]]; intros Hds; [done| |].
  - rewrite Forall_singleton in Hds. unfold digit in Hds. cbn [encode_bcd].
    rewrite bcd_text_cons, nibbles_lo, nibbles_hi, (bcd_digit_digit d) by (unfold digit; lia). done.
  - apply Forall_cons in Hds as [Hd Hds]. apply Forall_cons in Hds as [He Hds].
    unfold digit in *. cbn [encode_bcd].
    rewrite bcd_text_cons, nibbles_lo, nibbles_hi, !bcd_digit_digit, bcd_text_encode
      by (unfold digit; lia || done).
    unfold digits. rewrite <-gostr_app. done.
Qed.

(** A network: three digits of country code, two or three of network code. *)
Record plmn := { mcc1 : Z; mcc2 : Z; mcc3 : Z; mnc1 : Z; mnc2 : Z; mnc3 : option Z }.
Definition plmn_ok (p : plmn) : Prop :=
  digit (mcc1 p) /\ digit (mcc2 p) /\ digit (mcc3 p) /\ digit (mnc1 p) /\ digit (mnc2 p) /\
  match mnc3 p with Some d => digit d | None => True end.
Definition encode_plmn (p : plmn) : list byte :=
  [nibbles (mcc2 p) (mcc1 p); nibbles (default 15 (mnc3 p)) (mcc3 p); nibbles (mnc2 p) (mnc1 p)].

Lemma digits_app ds es : digits (ds ++ es) = digits ds +:+ digits es.
Proof. unfold digits. by rewrite fmap_app, gostr_app. Qed.

Lemma slen_digits ds : slen (digits ds) = zlen ds.
Proof. rewrite slen_gobytes. unfold digits. rewrite gobytes_gostr. unfold zlen. by rewrite length_fmap. Qed.

Lemma runes_digits ds : Forall digit ds ->
  runes (gobytes (digits ds)) = (fun d => (48 + d, [byte_of (48 + d)])) <$> ds.
Proof.
  intros Hds. unfold digits. rewrite gobytes_gostr, runes_ascii.
  - rewrite <-list_fmap_compose. apply list_fmap_ext. intros i d Hi. cbn.
    eapply Forall_lookup_1 in Hds; [|done]. unfold digit in Hds. by rewrite u8_byte_of by lia.
  - unfold is_ascii. rewrite forallb_forall. intros b (d & -> & Hd)%list_elem_of_In%list_elem_of_fmap.
    eapply Forall_forall in Hds; [|done]. unfold digit in Hds. rewrite u8_byte_of; lia.
Qed.
