(* ===== verification/Sctp.v ===== *)
(** * SCTP chunks: the walk that finds the user data

    The payload of an SCTP packet is a sequence of chunks. The decoders of NGAP
    (ngap/decoder.go, extractNGAPFromSCTP) and of NAS-5GS (nas5g/decoder.go,
    extractDataFromSCTP) hold one copy each of the loop that looks for the
    first DATA chunk; [chunk_body] is a turn of that loop. *)
From S2P Require Export Domain.

(** The length of a chunk with its padding. *)
Definition chunk_padded (chunkLen : Z) : Z :=
  if negb (chunkLen mod 4 =? 0) then chunkLen + (4 - chunkLen mod 4) else chunkLen.

Definition chunk_body (data : list byte) (offset : Z) : res (ctl Z (list byte)) :=
  if offset + 4 <=? zlen data then
    chunkType ← idx data offset;
    chunkLen ← rd_be 2 data (offset + 2);
    if chunkLen <? 4 then Ok (Done data)
    else if u8 chunkType =? 0 then
      let dataStart := offset + 16 in
      let dataEnd := offset + chunkLen in
      if zlen data <=? dataStart then Ok (Done data)
      else
        let dataEnd := if zlen data <? dataEnd then zlen data else dataEnd in
        inner ← slice data dataStart dataEnd;
        Ok (Done inner)
    else Ok (Next (offset + chunk_padded chunkLen))
  else Ok (Done data).

Definition user_data (data : list byte) : res (list byte) :=
  loop (S (length data)) (chunk_body data) 0.

(** ** Chunks on the wire (RFC 9260) *)

Record chunk := { ck_type : Z; ck_flags : Z; ck_value : list byte }.

Definition encode_chunk (c : chunk) : list byte :=
  byte_of (ck_type c) :: byte_of (ck_flags c) :: be_put 2 (4 + zlen (ck_value c)) ++
  ck_value c ++ replicate (Z.to_nat (- zlen (ck_value c) mod 4)) x00.

Definition encode_chunks (cs : list chunk) : list byte := mjoin (encode_chunk <$> cs).

(** A chunk that carries no user data: SACK, HEARTBEAT, ... *)
Record control_chunk (c : chunk) : Prop := {
  ctl_type : 0 < ck_type c < 256;
  ctl_length : 4 + zlen (ck_value c) < 2 ^ 16;
}.

(** The header of a DATA chunk: its length and its twelve fixed bytes. *)
Definition data_header (flags len tsn stream seq ppid : Z) : list byte :=
  x00 :: byte_of flags :: be_put 2 len ++ be_put 4 tsn ++ be_put 2 stream ++ be_put 2 seq ++ be_put 4 ppid.

Definition encode_data (flags tsn stream seq ppid : Z) (user : list byte) : list byte :=
  data_header flags (16 + zlen user) tsn stream seq ppid ++ user.

(** A DATA chunk at [o] whose length does not cover its own header, with more
    bytes after the header. *)
Definition short_data (data : list byte) (o : Z) : bool :=
  (o + 16 <? zlen data) &&
  match idx data o, rd_be 2 data (o + 2) with
  | Ok t, Ok len => (u8 t =? 0) && (4 <=? len) && (len <? 16)
  | _, _ => false
  end.

Lemma chunk_padded_up l : chunk_padded l = l + - l mod 4.
Proof.
  unfold chunk_padded. pose proof (Z.mod_pos_bound l 4). destruct (l mod 4 =? 0) eqn:E; cbn [negb].
  - apply Z.eqb_eq in E. rewrite Z.mod_opp_l_z by lia. lia.
  - apply Z.eqb_neq in E. rewrite Z.mod_opp_l_nz by lia. lia.
Qed.

Lemma zlen_encode_chunk c : zlen (encode_chunk c) = chunk_padded (4 + zlen (ck_value c)).
Proof.
  unfold encode_chunk. rewrite !zlen_cons, !zlen_app, zlen_be_put, chunk_padded_up.
  pose proof (Z.mod_pos_bound (- zlen (ck_value c)) 4).
  replace (zlen (replicate _ x00)) with (- zlen (ck_value c) mod 4) by (unfold zlen at 2; rewrite length_replicate; lia).
  replace (- (4 + zlen (ck_value c))) with (- zlen (ck_value c) + (-1) * 4) by lia.
  rewrite Z.mod_add by lia. lia.
Qed.

(** The loop passes over a control chunk. *)
Lemma chunk_body_control data offset c :
  control_chunk c -> holds_at data offset (encode_chunk c) ->
  chunk_body data offset = Ok (Next (offset + zlen (encode_chunk c))).
Proof.
  intros [Ht Hl] Hat. rewrite zlen_encode_chunk. pose proof (zlen_nonneg (ck_value c)).
  apply holds_at_bound in Hat as Hb. rewrite zlen_encode_chunk, chunk_padded_up in Hb.
  pose proof (Z.mod_pos_bound (- (4 + zlen (ck_value c))) 4).
  unfold encode_chunk in Hat. apply holds_at_cons in Hat as [E0 Hat].
  apply holds_at_cons in Hat as [_ Hat]. apply holds_at_app in Hat as [Hlen _].
  replace (offset + 1 + 1) with (offset + 2) in Hlen by lia.
  apply holds_at_put in Hlen as Hrd; [|lia].
  unfold chunk_body. replace (_ <=? _) with true by lia. rewrite E0, Hrd. cbn [mbind res_bind].
  replace (_ <? 4) with false by lia. by rewrite u8_byte_of, (proj2 (Z.eqb_neq _ _)) by lia.
Qed.

Lemma encode_chunks_cons c cs : encode_chunks (c :: cs) = encode_chunk c ++ encode_chunks cs.
Proof. done. Qed.

Lemma chunk_loop_control data offset cs fuel :
  Forall control_chunk cs -> holds_at data offset (encode_chunks cs) ->
  loop (length cs + fuel) (chunk_body data) offset
  = loop fuel (chunk_body data) (offset + zlen (encode_chunks cs)).
Proof.
  intros Hok. revert offset. induction Hok as [|c cs Hc _ IH]; intros offset Hat.
  - cbn. by rewrite zlen_nil, Z.add_0_r.
  - rewrite encode_chunks_cons in *. apply holds_at_app in Hat as [H1 H2].
    cbn [length Nat.add loop]. rewrite (chunk_body_control _ _ _ Hc H1). cbn [mbind res_bind].
    rewrite IH by done. by rewrite zlen_app, Z.add_assoc.
Qed.

Lemma length_encode_chunks cs : (length cs <= length (encode_chunks cs))%nat.
Proof.
  induction cs as [|c cs IH]; [done|]. rewrite encode_chunks_cons, length_app. cbn [length].
  unfold encode_chunk. cbn [length]. lia.
Qed.

(** What the walk does with what follows the control chunks. *)
Lemma user_data_after cs rest r :
  Forall control_chunk cs ->
  (forall fuel, loop (S fuel) (chunk_body (encode_chunks cs ++ rest)) (zlen (encode_chunks cs)) = r) ->
  user_data (encode_chunks cs ++ rest) = r.
Proof.
  intros Hcs Hr. unfold user_data. rewrite length_app.
  pose proof (length_encode_chunks cs).
  replace (S (length (encode_chunks cs) + length rest))%nat
    with (length cs + S (length (encode_chunks cs) - length cs + length rest))%nat by lia.
  rewrite chunk_loop_control; [by rewrite Z.add_0_l, Hr|done|].
  apply (holds_at_intro [] (encode_chunks cs) rest).
Qed.

(** The header of a DATA chunk, read back. *)
Lemma data_header_read data offset flags len tsn stream seq ppid :
  holds_at data offset (data_header flags len tsn stream seq ppid) -> 0 <= len < 2 ^ 16 ->
  idx data offset = Ok x00 /\ rd_be 2 data (offset + 2) = Ok len /\ 0 <= offset /\ offset + 16 <= zlen data.
Proof.
  intros Hat Hlen. apply holds_at_bound in Hat as Hb.
  assert (zlen (data_header flags len tsn stream seq ppid) = 16) as Hz.
  { unfold data_header. rewrite !zlen_cons, !zlen_app, !zlen_be_put. lia. }
  rewrite Hz in Hb. unfold data_header in Hat. apply holds_at_cons in Hat as [E0 Hat].
  apply holds_at_cons in Hat as [_ Hat]. apply holds_at_app in Hat as [Hl _].
  replace (offset + 1 + 1) with (offset + 2) in Hl by lia.
  split_and!; [done|by apply (holds_at_put _ _ 2)|lia..].
Qed.

(** The first DATA chunk gives the user data, whatever follows it. *)
Lemma user_data_encode cs flags tsn stream seq ppid user rest :
  Forall control_chunk cs -> user <> [] -> 16 + zlen user < 2 ^ 16 ->
  user_data (encode_chunks cs ++ encode_data flags tsn stream seq ppid user ++ rest) = Ok user.
Proof.
  intros Hcs Hu Hl. apply user_data_after; [done|]. intros fuel. set (data := _ ++ _).
  set (o := zlen (encode_chunks cs)).
  assert (holds_at data o (encode_data flags tsn stream seq ppid user)) as Hat by (by eexists _, _).
  assert (0 < zlen user) as Hpos by (destruct user; [done|rewrite zlen_cons; pose proof (zlen_nonneg user); lia]).
  apply holds_at_app in Hat as [Hh Hus]. apply holds_at_bound in Hus as Hb.
  assert (zlen (data_header flags (16 + zlen user) tsn stream seq ppid) = 16) as Hz.
  { unfold data_header. rewrite !zlen_cons, !zlen_app, !zlen_be_put. lia. }
  rewrite Hz in *. apply data_header_read in Hh as (E0 & E2 & Ho & Hd); [|lia].
  cbn [loop]. unfold chunk_body. replace (o + 4 <=? zlen data) with true by lia.
  rewrite E0, E2. cbn [mbind res_bind]. replace (16 + zlen user <? 4) with false by lia.
  change (u8 x00 =? 0) with true. cbv iota zeta. replace (zlen data <=? o + 16) with false by lia.
  replace (zlen data <? o + (16 + zlen user)) with false by lia.
  replace (o + (16 + zlen user)) with (o + 16 + zlen user) by lia.
  by rewrite (holds_at_slice _ _ _ Hus).
Qed.

(** A DATA chunk of less than its header stops the walk with a panic. *)
Lemma user_data_panics cs rest :
  Forall control_chunk cs ->
  short_data (encode_chunks cs ++ rest) (zlen (encode_chunks cs)) = true ->
  user_data (encode_chunks cs ++ rest) = Panic.
Proof.
  intros Hcs Hs. apply user_data_after; [done|]. intros fuel. set (data := _ ++ _) in *.
  set (o := zlen (encode_chunks cs)) in *. pose proof (zlen_nonneg (encode_chunks cs)) as Ho. fold o in Ho.
  unfold short_data in Hs. destruct (idx data o) as [t| |] eqn:E0; [|lia..].
  destruct (rd_be 2 data (o + 2)) as [len| |] eqn:E2; [|lia..].
  cbn [loop]. unfold chunk_body. replace (o + 4 <=? zlen data) with true by lia.
  rewrite E0, E2. cbn [mbind res_bind]. replace (len <? 4) with false by lia.
  replace (u8 t =? 0) with true by lia. cbv zeta. replace (zlen data <=? o + 16) with false by lia.
  unfold slice. replace (o + 16 <=? _) with false; [by rewrite andb_false_r|].
  destruct (zlen data <? o + len) eqn:?; lia.
Qed.

(** Without such a chunk the walk returns. *)
Lemma user_data_returns data :
  (forall o, 0 <= o -> short_data data o = false) -> returns (user_data data) (fun d => zlen d <= zlen data).
Proof.
  intros Hs. unfold user_data.
  apply (returns_loop (fun o => 0 <= o) (fun o => Z.to_nat (zlen data - o))); [|lia|unfold zlen; lia].
  intros o Ho. specialize (Hs o Ho). unfold chunk_body.
  destruct (Z.leb_spec (o + 4) (zlen data)); [|cbn; lia].
  unfold short_data in Hs. run_step.
  destruct (returns_inv (idx data o) (fun _ => True)) as (t & E0 & _); [by apply returns_idx; [lia|]|].
  rewrite E0 in *. cbn [returns]. run_step.
  destruct (returns_inv (rd_be 2 data (o + 2)) (fun v => 0 <= v)) as (len & E2 & Hl).
  { apply returns_rd_be; [lia|]. intros; lia. }
  rewrite E2 in *. cbn [returns]. destruct (Z.ltb_spec len 4); [cbn; lia|].
  destruct (u8 t =? 0) eqn:Et; cbn [andb] in Hs.
  - cbv zeta. destruct (Z.leb_spec (zlen data) (o + 16)); [cbn; lia|]. run_step.
    apply returns_slice; [destruct (Z.ltb_spec (zlen data) (o + len)); lia|]. cbn [returns]. apply zlen_sub_le.
  - cbn [returns]. rewrite chunk_padded_up. pose proof (Z.mod_pos_bound (- len) 4). split; lia.
Qed.

(** A computation shows that a concrete payload has no short DATA chunk. *)
Lemma no_short_data data :
  forallb (fun k => negb (short_data data (Z.of_nat k))) (seq 0 (length data)) = true ->
  forall o, 0 <= o -> short_data data o = false.
Proof.
  intros Hall o Ho. rewrite forallb_forall in Hall. destruct (Z.ltb_spec o (zlen data)) as [Hl|Hl].
  - replace o with (Z.of_nat (Z.to_nat o)) by lia. apply negb_true_iff, Hall, in_seq. unfold zlen in Hl. lia.
  - unfold short_data. by replace (o + 16 <? zlen data) with false by lia.
Qed.
