(* ===== verification/Registry.v ===== *)
(** * internal/plugin: the plugin registries

    protocol_registry.go, detection_registry.go and ai_registry.go: a map from
    names to plugins with the order of registration, and for the AI providers
    the name of the active one. The three share their methods, so they are one
    registry over what a plugin provides (a decoder factory, a rule, a
    provider). A lookup of a name without a plugin dereferences nil. The locks
    make each method one step. *)
From S2P Require Export Domain.

(** ** types.go *)

Inductive Category := CategoryProtocol | CategoryDetection | CategoryAI.

Record Manifest := {
  Name : string;
  Version : string;
  Author : string;
  M_Description : string;
  M_Category : Category;
  Tags : list string;
  Protocols : list string;
  Ports : list Z;
  M_Severity : string;
  CostTier : string;
  MaxTokens : Z;
  Capabilities : list string;
}.

Record Status := {
  s_Manifest : Manifest;
  s_Enabled : bool;
  s_Active : bool;
  s_LoadedAt : time;
  s_Error : string;
}.

(** ** The registries *)

Record plugin (A : Type) := {
  p_manifest : Manifest;
  p_enabled : bool;
  p_provides : A;
  p_loadedAt : time;
}.
Arguments p_manifest {A} _.
Arguments p_enabled {A} _.
Arguments p_provides {A} _.
Arguments p_loadedAt {A} _.
Arguments Build_plugin {A} _ _ _ _.

Definition p_name {A} (p : plugin A) : string := Name (p_manifest p).
Definition set_loaded {A} (now : time) (p : plugin A) : plugin A :=
  {| p_manifest := p_manifest p; p_enabled := p_enabled p; p_provides := p_provides p;
     p_loadedAt := now |}.
Definition set_enabled {A} (b : bool) (p : plugin A) : plugin A :=
  {| p_manifest := p_manifest p; p_enabled := b; p_provides := p_provides p;
     p_loadedAt := p_loadedAt p |}.

Record registry (A : Type) := {
  items : gmap string (plugin A);
  order : list string;
}.
Arguments items {A} _.
Arguments order {A} _.
Arguments Build_registry {A} _ _.

Section registry.
Context {A : Type}.
Implicit Types (r : registry A) (p : plugin A).

Definition NewRegistry : registry A := {| items := ∅; order := [] |}.

Definition Register (now : time) p r : registry A :=
  let p := set_loaded now p in
  {| items := <[p_name p := p]> (items r);
     order := match items r !! p_name p with
              | Some _ => order r
              | None => order r ++ [p_name p]
              end |}.

(** Enable and Disable: the flag is set through the plugin's pointer; the
    error, when there is one, is the message. *)
Definition set_flag `{Unicode} (kind : string) (b : bool) (name : string) r :
    registry A * option string :=
  match items r !! name with
  | None => (r, Some (kind +:+ " plugin " +:+ fmt_q (gobytes name) +:+ " not found"))
  | Some p => ({| items := <[name := set_enabled b p]> (items r); order := order r |}, None)
  end.
Definition Enable `{Unicode} (kind : string) := set_flag kind true.
Definition Disable `{Unicode} (kind : string) := set_flag kind false.

(** [r.items[name].f] *)
Definition item r (name : string) : res (plugin A) :=
  match items r !! name with
  | Some p => Ok p
  | None => Panic
  end.

(** ActiveRules: what the enabled plugins provide, in registration order. *)
Definition ActiveRules r : res (list A) :=
  foldM (fun acc name => p ← item r name; Ok (if p_enabled p then acc ++ [p_provides p] else acc))
    [] (order r).

Definition status_of (active : string) (p : plugin A) (name : string) : Status :=
  {| s_Manifest := p_manifest p; s_Enabled := p_enabled p; s_Active := String.eqb name active;
     s_LoadedAt := p_loadedAt p; s_Error := "" |}.

(** List, of the registries without an active plugin and of the AI registry. *)
Definition List r : res (list Status) :=
  foldM (fun acc name => p ← item r name;
    Ok (acc ++ [{| s_Manifest := p_manifest p; s_Enabled := p_enabled p; s_Active := false;
                   s_LoadedAt := p_loadedAt p; s_Error := "" |}])) [] (order r).
Definition List_active (active : string) r : res (list Status) :=
  foldM (fun acc name => p ← item r name; Ok (acc ++ [status_of active p name])) [] (order r).

Definition Count r : Z := Z.of_nat (size (items r)).
End registry.

(** BuildDecoderFactory: a fresh decoder for each enabled plugin that has a
    constructor. *)
Definition BuildDecoderFactory {D} (r : registry (option (unit -> D))) : res (list D) :=
  foldM (fun acc name =>
    p ← item r name;
    Ok (if p_enabled p then match p_provides p with Some new => acc ++ [new tt] | None => acc end
        else acc)) [] (order r).

(** ** The AI registry: the active provider *)

Record AIRegistry (A : Type) := { reg : registry A; active : string }.
Arguments reg {A} _.
Arguments active {A} _.
Arguments Build_AIRegistry {A} _ _.

Section ai.
Context {A : Type}.
Implicit Types (r : AIRegistry A) (p : plugin A).

Definition NewAIRegistry : AIRegistry A := {| reg := NewRegistry; active := "" |}.

Definition AI_Register (now : time) p r : AIRegistry A :=
  {| reg := Register now p (reg r);
     active := if p_enabled p && String.eqb (active r) "" then p_name p else active r |}.

Definition Activate `{Unicode} (name : string) r : AIRegistry A * option string :=
  match items (reg r) !! name with
  | None => (r, Some ("AI plugin " +:+ fmt_q (gobytes name) +:+ " not found"))
  | Some p =>
    if negb (p_enabled p) then (r, Some ("AI plugin " +:+ fmt_q (gobytes name) +:+ " is disabled"))
    else ({| reg := reg r; active := name |}, None)
  end.

Definition AI_Enable `{Unicode} (name : string) r : AIRegistry A * option string :=
  match Enable "AI" name (reg r) with
  | (_, Some err) => (r, Some err)
  | (g, None) => ({| reg := g; active := if String.eqb (active r) "" then name else active r |}, None)
  end.

(** The first enabled plugin other than [name]; stops at the first match. *)
Fixpoint next_active (g : registry A) (name : string) (names : list string) : res string :=
  match names with
  | [] => Ok ""%string
  | n :: names =>
    p ← item g n;
    if p_enabled p && negb (String.eqb n name) then Ok n else next_active g name names
  end.

Definition AI_Disable `{Unicode} (name : string) r : res (AIRegistry A * option string) :=
  match Disable "AI" name (reg r) with
  | (_, Some err) => Ok (r, Some err)
  | (g, None) =>
    if String.eqb (active r) name then
      next ← next_active g name (order g);
      Ok ({| reg := g; active := next |}, None)
    else Ok ({| reg := g; active := active r |}, None)
  end.

Definition Active r : option A :=
  if String.eqb (active r) "" then None
  else match items (reg r) !! active r with
       | Some p => if p_enabled p then Some (p_provides p) else None
       | None => None
       end.

Definition AI_List r : res (list Status) := List_active (active r) (reg r).
End ai.

(** ** The abstract registry: the plugins in the order of registration *)

Inductive op (A : Type) :=
  | OpRegister (now : time) (p : plugin A)
  | OpEnable (name : string)
  | OpDisable (name : string).
Arguments OpRegister {A} _ _.
Arguments OpEnable {A} _.
Arguments OpDisable {A} _.

Section refinement.
Context `{Unicode} {A : Type}.
Implicit Types (r : registry A) (p q : plugin A) (l : list (plugin A)).

Definition apply_op (kind : string) r (o : op A) : registry A * option string :=
  match o with
  | OpRegister now p => (Register now p r, None)
  | OpEnable name => Enable kind name r
  | OpDisable name => Disable kind name r
  end.

(** A plugin takes the place of the one with its name, or comes last. *)
Fixpoint upsert p l : list (plugin A) :=
  match l with
  | [] => [p]
  | q :: l => if String.eqb (p_name q) (p_name p) then p :: l else q :: upsert p l
  end.
Definition flag (b : bool) (name : string) l : list (plugin A) :=
  (fun q => if String.eqb (p_name q) name then set_enabled b q else q) <$> l.
Definition unknown (kind name : string) l : option string :=
  if bool_decide (name ∈ p_name <$> l) then None
  else Some (kind +:+ " plugin " +:+ fmt_q (gobytes name) +:+ " not found").

Definition spec_op (kind : string) l (o : op A) : list (plugin A) * option string :=
  match o with
  | OpRegister now p => (upsert (set_loaded now p) l, None)
  | OpEnable name => (flag true name l, unknown kind name l)
  | OpDisable name => (flag false name l, unknown kind name l)
  end.

Definition run_ops {S} (f : S -> op A -> S * option string) (s : S) (os : list (op A)) :
    S * list (option string) :=
  foldl (fun st o => let '(s, e) := f (fst st) o in (s, snd st ++ [e])) (s, []) os.

(** The registry [r] holds the plugins [l]. *)
Record represents r l : Prop := {
  rep_order : order r = p_name <$> l;
  rep_nodup : NoDup (p_name <$> l);
  rep_items : forall name, items r !! name = list_find (fun p => p_name p = name) l ≫= fun x => Some (snd x);
}.

Definition lookup_name (name : string) l : option (plugin A) :=
  list_find (fun p => p_name p = name) l ≫= fun x => Some (snd x).

Lemma lookup_name_cons name q l :
  lookup_name name (q :: l) = if String.eqb (p_name q) name then Some q else lookup_name name l.
Proof.
  unfold lookup_name. cbn. destruct (String.eqb_spec (p_name q) name) as [E|E];
    [by rewrite decide_True|]. rewrite decide_False by done.
  by destruct (list_find _ l) as [[? ?]|].
Qed.

Lemma lookup_name_elem name l : is_Some (lookup_name name l) <-> name ∈ p_name <$> l.
Proof.
  induction l as [|q l IH]; [split; [by intros [? [=]]|by intros ?%not_elem_of_nil]|].
  rewrite lookup_name_cons, fmap_cons, elem_of_cons, <-IH.
  destruct (String.eqb_spec (p_name q) name) as [E|E]; [split; [by left|by eexists]|]. naive_solver.
Qed.

Lemma lookup_name_None name l : lookup_name name l = None <-> name ∉ p_name <$> l.
Proof. rewrite <-lookup_name_elem, eq_None_not_Some. done. Qed.

Lemma lookup_name_upsert name p l :
  lookup_name name (upsert p l) = if String.eqb (p_name p) name then Some p else lookup_name name l.
Proof.
  induction l as [|q l IH]; cbn [upsert]; [apply lookup_name_cons|].
  destruct (String.eqb_spec (p_name q) (p_name p)) as [E|E]; rewrite !lookup_name_cons.
  - rewrite E. by destruct (String.eqb_spec (p_name p) name).
  - rewrite IH. destruct (String.eqb_spec (p_name q) name) as [E1|]; [|done].
    destruct (String.eqb_spec (p_name p) name); [congruence|done].
Qed.

Lemma names_upsert p l :
  p_name <$> upsert p l =
  match lookup_name (p_name p) l with Some _ => p_name <$> l | None => (p_name <$> l) ++ [p_name p] end.
Proof.
  induction l as [|q l IH]; [done|]. cbn [upsert]. rewrite lookup_name_cons.
  destruct (String.eqb_spec (p_name q) (p_name p)) as [E|E]; [by rewrite !fmap_cons, E|].
  rewrite fmap_cons, IH. by destruct (lookup_name _ l).
Qed.

Lemma lookup_name_flag b name name' l :
  lookup_name name' (flag b name l) =
  (if String.eqb name name' then set_enabled b else id) <$> lookup_name name' l.
Proof.
  induction l as [|q l IH]; [done|]. unfold flag in *. rewrite fmap_cons, !lookup_name_cons, IH.
  destruct (String.eqb_spec (p_name q) name) as [E|E]; cbn.
  - change (p_name (set_enabled b q)) with (p_name q). rewrite E.
    by destruct (String.eqb_spec name name').
  - destruct (String.eqb_spec (p_name q) name') as [E'|E']; [|done].
    destruct (String.eqb_spec name name'); [congruence|done].
Qed.

Lemma names_flag b name l : p_name <$> flag b name l = p_name <$> l.
Proof.
  unfold flag. rewrite <-list_fmap_compose. apply list_fmap_ext. intros _ q _. cbn. by destruct (String.eqb _ _).
Qed.

Lemma represents_new : represents NewRegistry [].
Proof. split; [done|constructor|done]. Qed.

Lemma represents_register now p r l :
  represents r l -> represents (Register now p r) (upsert (set_loaded now p) l).
Proof.
  intros [Ho Hn Hi]. change (p_name p) with (p_name (set_loaded now p)) in *.
  split; rewrite ?names_upsert; cbn [Register items order].
  - rewrite Hi, Ho. fold (lookup_name (p_name (set_loaded now p)) l). by destruct (lookup_name _ l).
  - destruct (lookup_name _ l) eqn:E; [done|]. apply lookup_name_None in E.
    apply NoDup_app. split; [done|]. split; [|apply NoDup_singleton].
    intros x Hx ->%list_elem_of_singleton. done.
  - intros name. fold (lookup_name name (upsert (set_loaded now p) l)). rewrite lookup_name_upsert.
    destruct (String.eqb_spec (p_name (set_loaded now p)) name) as [<-|E];
      [apply lookup_insert_eq|]. rewrite lookup_insert_ne by done. apply Hi.
Qed.

Lemma represents_flag kind b name r l :
  represents r l ->
  represents (fst (set_flag kind b name r)) (flag b name l) /\
  snd (set_flag kind b name r) = unknown kind name l.
Proof.
  intros [Ho Hn Hi]. unfold set_flag, unknown. rewrite Hi. fold (lookup_name name l).
  destruct (lookup_name name l) as [p|] eqn:E.
  - rewrite bool_decide_true by by apply lookup_name_elem. split; [|done].
    split; rewrite ?names_flag; [done..|]. intros name'. cbn [fst items].
    fold (lookup_name name' (flag b name l)). rewrite lookup_name_flag.
    destruct (String.eqb_spec name name') as [<-|Hne]; [by rewrite lookup_insert_eq, E|].
    rewrite lookup_insert_ne, Hi by done. unfold lookup_name. by destruct (list_find _ l).
  - apply lookup_name_None in E. rewrite bool_decide_false by done. split; [|done]. cbn [fst].
    assert (flag b name l = l) as ->; [|by split].
    unfold flag. rewrite <-(list_fmap_id l) at 2. apply list_fmap_ext. intros i q Hq.
    destruct (String.eqb_spec (p_name q) name) as [<-|]; [|done].
    exfalso. apply E. apply list_elem_of_fmap. exists q. split; [done|by eapply list_elem_of_lookup_2].
Qed.

Lemma represents_op kind r l o :
  represents r l ->
  represents (fst (apply_op kind r o)) (fst (spec_op kind l o)) /\
  snd (apply_op kind r o) = snd (spec_op kind l o).
Proof.
  intros Hr. destruct o as [now p|name|name]; cbn [apply_op spec_op fst snd].
  - split; [by apply represents_register|done].
  - by apply represents_flag.
  - by apply represents_flag.
Qed.

Lemma represents_run kind os :
  let c := run_ops (apply_op kind) NewRegistry os in
  let s := run_ops (spec_op kind) [] os in
  represents (fst c) (fst s) /\ snd c = snd s.
Proof.
  cbv zeta. unfold run_ops. induction os as [|o os IH] using rev_ind; [by split; [apply represents_new|]|].
  rewrite !foldl_app. cbn [foldl].
  destruct (foldl _ (NewRegistry, []) os) as [r es], (foldl _ ([], []) os) as [l es'].
  destruct IH as [IH E]. cbn [fst snd] in *. destruct (represents_op kind r l o IH) as [H1 H2].
  destruct (apply_op kind r o), (spec_op kind l o). cbn [fst snd] in *. split; [done|by rewrite E, H2].
Qed.

(** The order names plugins. *)
Lemma represents_item r l p : represents r l -> p ∈ l -> item r (p_name p) = Ok p.
Proof.
  intros [_ Hn Hi] Hp. unfold item. rewrite Hi. fold (lookup_name (p_name p) l).
  assert (lookup_name (p_name p) l = Some p) as ->; [|done]. clear Hi. revert Hp Hn.
  induction l as [|q l IH]; [by intros ?%not_elem_of_nil|].
  intros [->|Hp]%elem_of_cons [Hq Hl]%NoDup_cons; rewrite lookup_name_cons; [by rewrite String.eqb_refl|].
  destruct (String.eqb_spec (p_name q) (p_name p)) as [E|]; [|by apply IH].
  exfalso. apply Hq. rewrite E. by apply list_elem_of_fmap_2.
Qed.

(** A loop over the order dereferences every name. *)
Lemma represents_loop {B} r l (f : B -> plugin A -> B) b :
  represents r l ->
  foldM (fun acc name => p ← item r name; Ok (f acc p)) b (order r) = Ok (foldl f b l).
Proof.
  intros Hr. rewrite (rep_order _ _ Hr). pose proof (fun p => represents_item r l p Hr) as Hitem.
  clear Hr. revert b. induction l as [|q l IH]; intros b; [done|]. rewrite fmap_cons. cbn [foldM].
  rewrite Hitem by left. cbn [mbind res_bind]. apply IH. intros p Hp. apply Hitem. by right.
Qed.

Lemma represents_size r l : represents r l -> size (items r) = length l.
Proof.
  intros [Ho Hn Hi]. rewrite <-(length_fmap p_name), <-size_dom.
  assert (dom (items r) = list_to_set (C := gset string) (p_name <$> l)) as ->; [|by apply size_list_to_set].
  apply set_eq. intros name. rewrite elem_of_dom, Hi, elem_of_list_to_set. apply lookup_name_elem.
Qed.
End refinement.

(** ** The active AI provider *)

Section ai_theory.
Context `{Unicode} {A : Type}.
Implicit Types (r : AIRegistry A) (p q : plugin A) (l : list (plugin A)).

(** A call of a method that returns. A registration is careful when the name
    is not empty and it does not replace the active plugin by a disabled one. *)
Inductive ai_step r : AIRegistry A -> Prop :=
  | ai_register now p :
    p_name p <> "" -> (p_enabled p = true \/ p_name p <> active r) ->
    ai_step r (AI_Register now p r)
  | ai_activate name : ai_step r (fst (Activate name r))
  | ai_enable name : ai_step r (fst (AI_Enable name r))
  | ai_disable name r' err : AI_Disable name r = Ok (r', err) -> ai_step r r'.

(** The active plugin is an enabled one, or there is no enabled one. *)
Definition active_ok r l : Prop :=
  if String.eqb (active r) "" then Forall (fun p => p_enabled p = false) l
  else exists p, lookup_name (active r) l = Some p /\ p_enabled p = true.

Record ai_inv r l : Prop := {
  ai_rep : represents (reg r) l;
  ai_names : Forall (fun p => p_name p <> "") l;
  ai_active : active_ok r l;
}.

Lemma lookup_name_Some name p l : lookup_name name l = Some p -> p_name p = name /\ p ∈ l.
Proof.
  unfold lookup_name. destruct (list_find _ l) as [[i q]|] eqn:E; [|done]. intros [= ->].
  apply list_find_Some in E as (Hq & Hn & _). split; [done|by eapply list_elem_of_lookup_2].
Qed.

Lemma lookup_name_empty l : Forall (fun p => p_name p <> "") l -> lookup_name "" l = None.
Proof.
  intros Hl. destruct (lookup_name "" l) as [p|] eqn:E; [|done].
  apply lookup_name_Some in E as [E Hp]. rewrite Forall_forall in Hl. by destruct (Hl p Hp).
Qed.

Lemma Forall_upsert (P : plugin A -> Prop) p l : P p -> Forall P l -> Forall P (upsert p l).
Proof.
  intros Hp. induction 1 as [|q l Hq Hl IH]; cbn; [by constructor|].
  destruct (String.eqb _ _); by constructor.
Qed.

Lemma Forall_names_flag b name l :
  Forall (fun p => p_name p <> "") (flag b name l) <-> Forall (fun p => p_name p <> "") l.
Proof.
  unfold flag. rewrite Forall_fmap. apply Forall_iff. intros q. cbn. by destruct (String.eqb _ _).
Qed.

(** The scan of Disable: the first enabled plugin with another name. *)
Definition successor (name : string) l : string :=
  match list_find (fun p => p_enabled p = true /\ p_name p <> name) l with
  | Some (_, p) => p_name p
  | None => ""
  end.

Lemma next_active_spec g l name :
  represents g l -> next_active g name (order g) = Ok (successor name l).
Proof.
  intros Hr. rewrite (rep_order _ _ Hr). pose proof (fun p => represents_item g l p Hr) as Hitem. clear Hr.
  unfold successor. induction l as [|q l IH]; [done|]. rewrite fmap_cons. cbn [next_active].
  rewrite Hitem by left. cbn [mbind res_bind list_find].
  assert (forall p, p ∈ l -> item g (p_name p) = Ok p) as Hl by (intros; apply Hitem; by right).
  destruct (p_enabled q) eqn:Eq, (String.eqb_spec (p_name q) name) as [E|E]; cbn [negb andb].
  - rewrite decide_False by naive_solver. rewrite IH by done. by destruct (list_find _ l) as [[? ?]|].
  - rewrite decide_True by done. done.
  - rewrite decide_False by naive_solver. rewrite IH by done. by destruct (list_find _ l) as [[? ?]|].
  - rewrite decide_False by naive_solver. rewrite IH by done. by destruct (list_find _ l) as [[? ?]|].
Qed.

Lemma active_ok_None r l : active r = "" -> Forall (fun p => p_enabled p = false) l -> active_ok r l.
Proof. intros E. unfold active_ok. by rewrite E. Qed.

Lemma active_ok_Some r l p :
  Forall (fun p => p_name p <> "") l -> lookup_name (active r) l = Some p -> p_enabled p = true ->
  active_ok r l.
Proof.
  intros Hl E He. unfold active_ok. destruct (String.eqb_spec (active r) "") as [Ea|_]; [|by exists p].
  rewrite Ea, lookup_name_empty in E by done. done.
Qed.

Lemma items_lookup r l name : ai_inv r l -> items (reg r) !! name = lookup_name name l.
Proof. intros [[_ _ Hi] _ _]. apply Hi. Qed.

Lemma register_inv now p r l :
  ai_inv r l -> p_name p <> "" -> (p_enabled p = true \/ p_name p <> active r) ->
  ai_inv (AI_Register now p r) (upsert (set_loaded now p) l).
Proof.
  intros [Hr Hn Ha] Hp Hcare. split; [by apply represents_register|by apply Forall_upsert|].
  assert (Forall (fun q => p_name q <> "") (upsert (set_loaded now p) l)) as Hn' by by apply Forall_upsert.
  unfold active_ok in Ha. destruct (String.eqb_spec (active r) "") as [E|E].
  - destruct (p_enabled p) eqn:Ep.
    + apply (active_ok_Some _ _ (set_loaded now p)); [done| |done].
      cbn [AI_Register active]. rewrite Ep, E. cbn. by rewrite lookup_name_upsert, String.eqb_refl.
    + apply active_ok_None; [cbn; by rewrite Ep, E|by apply Forall_upsert].
  - destruct Ha as (q & Hq & He). assert (active (AI_Register now p r) = active r) as Ea.
    { cbn. destruct (String.eqb_spec (active r) ""); [done|]. by rewrite andb_false_r. }
    destruct (String.eqb_spec (p_name p) (active r)) as [Epq|Epq].
    + apply (active_ok_Some _ _ (set_loaded now p)); [done| |by destruct Hcare].
      rewrite Ea, lookup_name_upsert. change (p_name (set_loaded now p)) with (p_name p).
      by rewrite Epq, String.eqb_refl.
    + apply (active_ok_Some _ _ q); [done| |done]. rewrite Ea, lookup_name_upsert.
      change (p_name (set_loaded now p)) with (p_name p). by apply String.eqb_neq in Epq as ->.
Qed.

Lemma activate_inv name r l : ai_inv r l -> ai_inv (fst (Activate name r)) l.
Proof.
  intros Hi. unfold Activate. rewrite (items_lookup _ _ _ Hi). destruct Hi as [Hr Hn Ha].
  destruct (lookup_name name l) as [p|] eqn:E; [|done]. destruct (p_enabled p) eqn:Ep; [|done].
  split; [done..|]. by apply (active_ok_Some _ _ p).
Qed.

Lemma enable_inv name r l :
  ai_inv r l -> exists l', ai_inv (fst (AI_Enable name r)) l' /\ p_name <$> l' = p_name <$> l.
Proof.
  intros Hi. unfold AI_Enable, Enable, set_flag. rewrite (items_lookup _ _ _ Hi).
  destruct (lookup_name name l) as [p|] eqn:E; [|by exists l].
  exists (flag true name l). split; [|apply names_flag]. pose proof Hi as [Hr Hn Ha].
  destruct (represents_flag "AI" true name (reg r) l Hr) as [Hf _]. unfold set_flag in Hf.
  rewrite (items_lookup _ _ _ Hi), E in Hf.
  assert (Forall (fun q => p_name q <> "") (flag true name l)) as Hn' by by apply Forall_names_flag.
  split; [done..|]. unfold active_ok in Ha. destruct (String.eqb_spec (active r) "") as [Ea|Ea].
  - apply (active_ok_Some _ _ (set_enabled true p)); [done| |done]. cbn [fst active].
    by rewrite lookup_name_flag, E, String.eqb_refl.
  - destruct Ha as (q & Hq & He).
    apply (active_ok_Some _ _ (if String.eqb name (active r) then set_enabled true q else q)); [done| |by destruct (String.eqb _ _)].
    cbn [fst active]. rewrite lookup_name_flag, Hq. cbn. by destruct (String.eqb _ _).
Qed.

Lemma lookup_name_nodup p l : NoDup (p_name <$> l) -> p ∈ l -> lookup_name (p_name p) l = Some p.
Proof.
  intros Hn Hp. destruct (lookup_name (p_name p) l) as [q|] eqn:E.
  - apply lookup_name_Some in E as [E Hq]. f_equal.
    apply list_elem_of_lookup in Hp as [i Hi]. apply list_elem_of_lookup in Hq as [j Hj].
    assert (i = j) as ->; [|congruence].
    eapply NoDup_lookup; [done| |]; rewrite list_lookup_fmap; [by rewrite Hi|by rewrite Hj, <-E].
  - apply lookup_name_None in E. destruct E. by apply list_elem_of_fmap_2.
Qed.

Lemma successor_ok g name l :
  represents g l -> Forall (fun p => p_name p <> "") l ->
  Forall (fun p => p_name p = name -> p_enabled p = false) l ->
  active_ok {| reg := g; active := successor name l |} l.
Proof.
  intros Hr Hn Hd. unfold successor. destruct (list_find _ l) as [[i p]|] eqn:E.
  - apply list_find_Some in E as (Hi & [He _] & _). apply (active_ok_Some _ _ p); [done| |done].
    apply lookup_name_nodup; [by destruct Hr|by eapply list_elem_of_lookup_2].
  - apply active_ok_None; [done|]. apply list_find_None in E.
    rewrite Forall_forall in *. intros p Hp. specialize (E p Hp). specialize (Hd p Hp). cbn in E, Hd.
    destruct (p_enabled p); [|done]. destruct (decide (p_name p = name)); [by apply Hd|naive_solver].
Qed.

Lemma disable_inv name r l :
  ai_inv r l -> returns (AI_Disable name r) (fun res =>
    exists l', ai_inv (fst res) l' /\ p_name <$> l' = p_name <$> l).
Proof.
  intros Hi. unfold AI_Disable, Disable, set_flag. rewrite (items_lookup _ _ _ Hi).
  destruct (lookup_name name l) as [p|] eqn:E; [|by exists l].
  pose proof Hi as [Hr Hn Ha].
  destruct (represents_flag "AI" false name (reg r) l Hr) as [Hf _]. unfold set_flag in Hf.
  rewrite (items_lookup _ _ _ Hi), E in Hf. cbn [fst] in Hf.
  assert (Forall (fun q => p_name q <> "") (flag false name l)) as Hn' by by apply Forall_names_flag.
  destruct (String.eqb_spec (active r) name) as [Ea|Ea].
  - rewrite (next_active_spec _ _ name Hf). cbn [mbind res_bind returns].
    exists (flag false name l). split; [|apply names_flag]. split; [done..|]. apply successor_ok; [done..|].
    unfold flag. rewrite Forall_fmap. apply Forall_forall. intros q _. cbn.
    destruct (String.eqb_spec (p_name q) name); [done|by intros].
  - cbn [returns]. exists (flag false name l). split; [|apply names_flag]. split; [done..|].
    unfold active_ok in *. cbn [fst active]. destruct (String.eqb_spec (active r) "") as [E0|E0].
    + unfold flag. rewrite Forall_fmap. eapply Forall_impl; [exact Ha|]. intros q Hq. cbn. by destruct (String.eqb _ _).
    + destruct Ha as (q & Hq & He). exists q. split; [|done]. rewrite lookup_name_flag, Hq.
      destruct (String.eqb_spec name (active r)); [congruence|done].
Qed.

Lemma ai_step_inv r r' l : ai_inv r l -> ai_step r r' -> exists l', ai_inv r' l'.
Proof.
  intros Hi [now p Hp Hc|name|name|name r1 err E].
  - eexists. by apply register_inv.
  - eexists. by apply activate_inv.
  - destruct (enable_inv name r l Hi) as (l' & H' & _). by exists l'.
  - pose proof (disable_inv name r l Hi) as H1. rewrite E in H1. destruct H1 as (l' & H1 & _). by exists l'.
Qed.

Lemma ai_rtc_inv r : rtc ai_step NewAIRegistry r -> exists l, ai_inv r l.
Proof.
  intros Hr. assert (ai_inv NewAIRegistry []) as H0 by (split; [apply represents_new|constructor|constructor]).
  revert H0. generalize (@nil (plugin A)) as l. induction Hr as [r|r1 r2 r Hs _ IH]; intros l Hl; [by exists l|].
  destruct (ai_step_inv _ _ _ Hl Hs) as [l' Hl']. by apply IH in Hl'.
Qed.
End ai_theory.

(** ** Properties *)

Section properties.
Context `{Unicode}.

Lemma foldl_snoc {A B} (f : A -> B) acc l : foldl (fun acc x => acc ++ [f x]) acc l = acc ++ (f <$> l).
Proof.
  revert acc. induction l as [|x l IH]; intros acc; cbn; [by rewrite app_nil_r|].
  by rewrite IH, <-app_assoc.
Qed.

Definition provided {A} (p : plugin A) : option A := if p_enabled p then Some (p_provides p) else None.

Lemma foldl_provided {A} acc (l : list (plugin A)) :
  foldl (fun acc p => if p_enabled p then acc ++ [p_provides p] else acc) acc l = acc ++ omap provided l.
Proof.
  revert acc. induction l as [|p l IH]; intros acc; cbn; [by rewrite app_nil_r|].
  rewrite IH. unfold provided. destruct (p_enabled p); cbn; [by rewrite <-app_assoc|done].
Qed.

Lemma foldl_factory {D} (acc : list D) (l : list (plugin (option (unit -> D)))) :
  foldl (fun acc p => if p_enabled p then match p_provides p with Some new => acc ++ [new tt] | None => acc end
    else acc) acc l = acc ++ ((fun new => new tt) <$> omap (fun p => provided p ≫= id) l).
Proof.
  revert acc. induction l as [|p l IH]; intros acc; cbn; [by rewrite app_nil_r|].
  rewrite IH. unfold provided. destruct (p_enabled p); cbn; [|done].
  destruct (p_provides p); cbn; [by rewrite <-app_assoc|done].
Qed.

(** C37: a registry is a list of plugins in the order in which their names were
    first registered. After any sequence of Register, Enable and Disable, with
    the errors these return, no name occurs twice; ActiveRules is what the
    enabled plugins provide, in that order, List reports every plugin and
    Count their number, and a factory built from the registry makes one
    decoder per enabled plugin with a constructor, in that order. No method
    dereferences nil. *)
Theorem registry_refines {A D} kind (os : list (op A)) (ds : list (op (option (unit -> D)))) :
  let r := run_ops (apply_op kind) NewRegistry os in
  let l := run_ops (spec_op kind) [] os in
  snd r = snd l /\ NoDup (p_name <$> fst l) /\
  ActiveRules (fst r) = Ok (omap provided (fst l)) /\
  List (fst r) = Ok ((fun p => {| s_Manifest := p_manifest p; s_Enabled := p_enabled p;
    s_Active := false; s_LoadedAt := p_loadedAt p; s_Error := "" |}) <$> fst l) /\
  Count (fst r) = zlen (fst l) /\
  BuildDecoderFactory (fst (run_ops (apply_op kind) NewRegistry ds)) =
    Ok ((fun new => new tt) <$> omap (fun p => provided p ≫= id) (fst (run_ops (spec_op kind) [] ds))).
Proof.
  cbv zeta. destruct (represents_run kind os) as [Hr E]. destruct (represents_run kind ds) as [Hd _].
  split; [done|]. split; [apply Hr|]. split; [|split; [|split]].
  - unfold ActiveRules. rewrite (represents_loop _ _ _ _ Hr).
    f_equal. apply (foldl_provided []).
  - unfold List. rewrite (represents_loop _ _ _ _ Hr), foldl_snoc. done.
  - unfold Count, zlen. by rewrite (represents_size _ _ Hr).
  - unfold BuildDecoderFactory. rewrite (represents_loop _ _ _ _ Hd). f_equal. apply (foldl_factory []).
Qed.

(** An AI provider is active whenever one is enabled. After any sequence of
    careful registrations, Activate, Enable and Disable, Active returns the
    provider of an enabled plugin, or none is enabled; and disabling the active
    plugin never panics and passes on to the first other enabled one in the
    order of registration. *)
Theorem ai_active_enabled {A} (r : AIRegistry A) :
  rtc ai_step NewAIRegistry r ->
  exists l, represents (reg r) l /\
    match Active r with
    | Some a => exists p, p ∈ l /\ p_name p = active r /\ p_enabled p = true /\ p_provides p = a
    | None => Forall (fun p => p_enabled p = false) l
    end /\
    forall name, returns (AI_Disable name r) (fun '(r', err) =>
      err = unknown "AI" name l /\ represents (reg r') (flag false name l) /\
      active r' = if String.eqb (active r) name && bool_decide (err = None)
                  then successor name (flag false name l) else active r).
Proof.
  intros Hr. apply ai_rtc_inv in Hr as (l & Hi). pose proof Hi as [Hr Hn Ha]. exists l.
  split; [done|]. split.
  - unfold Active, active_ok in *. destruct (String.eqb _ _); [done|]. destruct Ha as (p & Hp & He).
    rewrite (items_lookup _ _ _ Hi), Hp, He. apply lookup_name_Some in Hp as [E Hp]. by exists p.
  - intros name. destruct (represents_flag "AI" false name _ _ Hr) as [Hf Hu].
    unfold AI_Disable, Disable. destruct (set_flag "AI" false name (reg r)) as [g [err|]] eqn:E;
      cbn [fst snd] in *; subst; cbn [returns].
    + split; [done|]. rewrite bool_decide_false, andb_false_r by done. split; [|done].
      unfold set_flag in E. destruct (items (reg r) !! name); [done|]. by injection E as <- _.
    + destruct (String.eqb (active r) name); cbn [returns].
      * rewrite (next_active_spec _ _ name Hf). cbn [mbind res_bind returns]. by rewrite <-Hu.
      * by rewrite <-Hu.
Qed.

(** Without care: the active provider replaced by a disabled one stays the
    active one, so no provider is, and enabling another does not help. *)
Lemma ai_reregister_stuck {A} now (p q : plugin A) r :
  active r = p_name p -> p_name p <> "" -> p_enabled p = false -> p_name q <> p_name p ->
  items (reg r) !! p_name q = Some q -> p_enabled q = true ->
  Active (fst (AI_Enable (p_name q) (AI_Register now p r))) = None.
Proof.
  intros Ha Hp Hd Hne Hq He. unfold AI_Enable, Enable, set_flag, AI_Register.
  cbn [reg items active Register]. rewrite Ha, Hd. cbn [andb].
  change (p_name (set_loaded now p)) with (p_name p).
  rewrite lookup_insert_ne, Hq by done. cbn [fst]. unfold Active. cbn [active reg items].
  destruct (String.eqb_spec (p_name p) "") as [|_]; [done|]. rewrite lookup_insert_ne, lookup_insert_eq by done.
  cbn. rewrite Hd. by destruct (_ =? _)%string.
Qed.
End properties.

Definition ex_manifest (name : string) : Manifest :=
  {| Name := name; Version := "1.0.0"; Author := ""; M_Description := ""; M_Category := CategoryAI;
     Tags := []; Protocols := []; Ports := []; M_Severity := ""; CostTier := "paid"; MaxTokens := 0;
     Capabilities := ["chat"] |}.
Definition ex_ai (name : string) : plugin string :=
  {| p_manifest := ex_manifest name; p_enabled := true; p_provides := name; p_loadedAt := 0 |}.

Definition ex_ai_registry : AIRegistry string :=
  AI_Register 2 (ex_ai "openai") (AI_Register 1 (ex_ai "claude") NewAIRegistry).

Example ai_active_enabled_witness :
  exists l p, @represents string (reg ex_ai_registry) l /\ p ∈ l /\ p_name p = "claude" /\ p_enabled p = true.
Proof.
  destruct (@ai_active_enabled ascii_only string ex_ai_registry) as (l & Hl & Hm & _).
  - apply rtc_l with (AI_Register 1 (ex_ai "claude") NewAIRegistry); [|apply rtc_once];
      by apply ai_register; [|left].
  - destruct Hm as (p & Hp & Hn & He & _). exists l, p. exact (conj Hl (conj Hp (conj Hn He))).
Defined.
