(* ===== verification/Detection.v ===== *)
(** * internal/detection: the rule engine

    types.go, engine.go, user_rules.go and load.go: alerts, rules, the
    statistics over all flows that the rules share, the engine that runs the
    rules, and the rules a user writes. The rules the program comes with are in
    Rules.v.

    A rule ranges over maps, in an order that the language leaves open:
    [MapRange] gives it, for each place in the code. *)
From S2P Require Export Domain.

(** ** Ranging over maps *)

Class MapRange : Type := {
  range : forall {K A : Type} `{Countable K}, string -> gmap K A -> list (K * A);
  range_perm : forall {K A : Type} `{Countable K} (site : string) (m : gmap K A),
    range site m ≡ₚ map_to_list m;
}.

(** An order for examples. *)
Definition sorted_range : MapRange :=
  {| range := fun K A _ _ _ m => map_to_list m; range_perm := fun K A _ _ _ m => reflexivity _ |}.

(** ** types.go *)

Definition SeverityInfo : string := "info".
Definition SeverityWarning : string := "warning".
Definition SeverityError : string := "error".
Definition SeverityCritical : string := "critical".

Record Alert := {
  a_ID : string;
  a_Timestamp : time;
  a_Severity : string;
  a_Protocol : string;
  a_Title : string;
  a_Description : string;
  a_PacketRef : Z;
  a_FlowID : string;
  a_Metadata : gmap string any;
}.

Record FlowSummary := {
  fs_FlowID : string;
  fs_Type : string;
  fs_Metrics : gmap string any;
  fs_SrcIP : string;
  fs_DstIP : string;
  fs_SrcPort : Z;
  fs_DstPort : Z;
  fs_StartTime : time;
  fs_EndTime : time;
}.

(** AggregateStats, in the groups of its comments. *)
Record volume_stats := {
  TotalPackets : Z;
  FlowCountByType : gmap string Z;
  PacketCountByType : gmap string Z;
}.
Record endpoint_stats := {
  FlowsPerSrcIP : gmap string Z;
  FlowsPerDstIP : gmap string Z;
  DestinationsPerSrc : gmap string (gset string);
  PacketsPerSrcIP : gmap string Z;
}.
Record temporal_stats := { EarliestStart : time; LatestEnd : time }.
Record sip_stats := {
  SIPMethodCounts : gmap string Z;
  SIPResponseCounts : gmap string Z;
  SIP401PerSrcIP : gmap string Z;
  SIPRegisterPerSrcIP : gmap string Z;
  SIPOptionsPerSrcIP : gmap string Z;
  SIPInvitePerSrcIP : gmap string Z;
}.
Record dos_stats := {
  SYNOnlyFlowsPerSrcIP : gmap string Z;
  ICMPFlowsPerSrcIP : gmap string Z;
}.
Record dns_stats := {
  DNSQueryCounts : gmap string Z;
  DNSAnswerIPsPerDomain : gmap string (gset string);
}.
Record AggregateStats := {
  TotalFlows : Z;
  ag_volume : volume_stats;
  ag_endpoints : endpoint_stats;
  ag_temporal : temporal_stats;
  CaptureWindow : duration;
  ag_sip : sip_stats;
  ag_dos : dos_stats;
  ag_dns : dns_stats;
  DiameterCmdCounts : gmap string Z;
  ErrorCounts : gmap string Z;
}.

Record RuleContext := {
  ctx_Flows : list FlowSummary;
  ctx_Alerts : list Alert;
  ctx_Aggregates : option AggregateStats;
}.

(** The Check of a rule panics when the Go function does. *)
Record Rule := {
  ru_Name : string;
  ru_Protocol : string;
  Check : RuleContext -> res (list Alert);
}.

(** ** engine.go: metrics *)

Definition getIntMetric (m : gmap string any) (key : string) : Z := default 0 (get_int m key).

Definition getFloat64Metric (m : gmap string any) (key : string) : f64 :=
  match get_f64 m key with
  | Some v => v
  | None => match get_int m key with Some v => f_int v | None => f_zero end
  end.

(** [v, _ := m[key].(string)] and [.(bool)] *)
Definition str_metric (m : gmap string any) (key : string) : string := default "" (get_str m key).
Definition bool_metric (m : gmap string any) (key : string) : bool := default false (get_bool m key).
Definition get_strs (m : gmap string any) (key : string) : option (list string) :=
  match m !! key with Some (AStrs l) => Some l | _ => None end.

(** The last two labels of a name with at least two. *)
Definition last_labels (name : string) : string :=
  let parts := str_split x2e name in
  if (length parts <? 2)%nat then name else join "." (drop (length parts - 2) parts).
Definition dnsDomainBase (m : gmap string any) : string :=
  let name := str_metric m "query_name" in
  if String.eqb name "" then "" else last_labels name.

(** ** engine.go: computeAggregates *)

(** [m[k] += n], and [m[k][x] = true] in a map of sets that is made on demand. *)
Definition map_int {K} `{Countable K} (m : gmap K Z) (k : K) : Z := default 0 (m !! k).
Definition bump {K} `{Countable K} (k : K) (n : Z) (m : gmap K Z) : gmap K Z :=
  <[k := i64 (map_int m k + n)]> m.
Definition map_set (m : gmap string (gset string)) (k : string) : gset string := default ∅ (m !! k).
Definition insert_all (k : string) (xs : list string) (m : gmap string (gset string)) :
    gmap string (gset string) :=
  <[k := list_to_set xs ∪ map_set m k]> m.

Definition no_volume : volume_stats :=
  {| TotalPackets := 0; FlowCountByType := ∅; PacketCountByType := ∅ |}.
Definition no_endpoints : endpoint_stats :=
  {| FlowsPerSrcIP := ∅; FlowsPerDstIP := ∅; DestinationsPerSrc := ∅; PacketsPerSrcIP := ∅ |}.
Definition no_sip : sip_stats :=
  {| SIPMethodCounts := ∅; SIPResponseCounts := ∅; SIP401PerSrcIP := ∅;
     SIPRegisterPerSrcIP := ∅; SIPOptionsPerSrcIP := ∅; SIPInvitePerSrcIP := ∅ |}.

Definition add_volume (f : FlowSummary) (v : volume_stats) : volume_stats :=
  let pktCount := getIntMetric (fs_Metrics f) "packet_count" in
  {| TotalPackets := i64 (TotalPackets v + pktCount);
     FlowCountByType := bump (fs_Type f) 1 (FlowCountByType v);
     PacketCountByType := bump (fs_Type f) pktCount (PacketCountByType v) |}.

Definition add_endpoints (f : FlowSummary) (e : endpoint_stats) : endpoint_stats :=
  {| FlowsPerSrcIP := bump (fs_SrcIP f) 1 (FlowsPerSrcIP e);
     FlowsPerDstIP := bump (fs_DstIP f) 1 (FlowsPerDstIP e);
     DestinationsPerSrc := insert_all (fs_SrcIP f) [fs_DstIP f] (DestinationsPerSrc e);
     PacketsPerSrcIP :=
       bump (fs_SrcIP f) (getIntMetric (fs_Metrics f) "packet_count") (PacketsPerSrcIP e) |}.

Definition add_temporal (f : FlowSummary) (t : temporal_stats) : temporal_stats :=
  {| EarliestStart :=
       if negb (is_zero (fs_StartTime f)) &&
          (is_zero (EarliestStart t) || before (fs_StartTime f) (EarliestStart t))
       then fs_StartTime f else EarliestStart t;
     LatestEnd :=
       if negb (is_zero (fs_EndTime f)) &&
          (is_zero (LatestEnd t) || after (fs_EndTime f) (LatestEnd t))
       then fs_EndTime f else LatestEnd t |}.

Definition add_sip_method (src method : string) (s : sip_stats) : sip_stats :=
  let per want m := if String.eqb method want then bump src 1 m else m in
  {| SIPMethodCounts := bump method 1 (SIPMethodCounts s);
     SIPResponseCounts := SIPResponseCounts s; SIP401PerSrcIP := SIP401PerSrcIP s;
     SIPRegisterPerSrcIP := per "REGISTER" (SIPRegisterPerSrcIP s);
     SIPOptionsPerSrcIP := per "OPTIONS" (SIPOptionsPerSrcIP s);
     SIPInvitePerSrcIP := per "INVITE" (SIPInvitePerSrcIP s) |}.
Definition add_sip_response (src resp : string) (s : sip_stats) : sip_stats :=
  {| SIPMethodCounts := SIPMethodCounts s;
     SIPResponseCounts := bump resp 1 (SIPResponseCounts s);
     SIP401PerSrcIP :=
       if String.eqb resp "401" then bump src 1 (SIP401PerSrcIP s) else SIP401PerSrcIP s;
     SIPRegisterPerSrcIP := SIPRegisterPerSrcIP s; SIPOptionsPerSrcIP := SIPOptionsPerSrcIP s;
     SIPInvitePerSrcIP := SIPInvitePerSrcIP s |}.
Definition add_sip (f : FlowSummary) (s : sip_stats) : sip_stats :=
  if String.eqb (fs_Type f) "SIP" then
    let s := match get_str (fs_Metrics f) "method" with
             | Some method => add_sip_method (fs_SrcIP f) method s
             | None => s
             end in
    match get_str (fs_Metrics f) "response" with
    | Some resp => if String.eqb resp "" then s else add_sip_response (fs_SrcIP f) resp s
    | None => s
    end
  else s.

Definition add_dos (f : FlowSummary) (d : dos_stats) : dos_stats :=
  let flags := str_metric (fs_Metrics f) "tcp_flags" in
  {| SYNOnlyFlowsPerSrcIP :=
       if String.eqb (fs_Type f) "TCP" && str_contains flags "SYN" && negb (str_contains flags "ACK")
       then bump (fs_SrcIP f) 1 (SYNOnlyFlowsPerSrcIP d) else SYNOnlyFlowsPerSrcIP d;
     ICMPFlowsPerSrcIP :=
       if has_suffix (fs_FlowID f) "-ICMP" || has_suffix (fs_FlowID f) "-ICMPv6"
       then bump (fs_SrcIP f) 1 (ICMPFlowsPerSrcIP d) else ICMPFlowsPerSrcIP d |}.

Definition add_dns (f : FlowSummary) (d : dns_stats) : dns_stats :=
  if String.eqb (fs_Type f) "DNS" then
    {| DNSQueryCounts :=
         match get_str (fs_Metrics f) "query_name" with
         | Some name => bump name 1 (DNSQueryCounts d)
         | None => DNSQueryCounts d
         end;
       DNSAnswerIPsPerDomain :=
         match get_strs (fs_Metrics f) "answers" with
         | Some answers =>
           let base := dnsDomainBase (fs_Metrics f) in
           if String.eqb base "" then DNSAnswerIPsPerDomain d
           else insert_all base answers (DNSAnswerIPsPerDomain d)
         | None => DNSAnswerIPsPerDomain d
         end |}
  else d.

Definition add_diameter (f : FlowSummary) (m : gmap string Z) : gmap string Z :=
  if String.eqb (fs_Type f) "Diameter" then
    match get_str (fs_Metrics f) "command" with
    | Some cmd => bump cmd 1 m
    | None => m
    end
  else m.

Definition error_key (f : FlowSummary) : string :=
  cat [fs_Type f; ":"; str_metric (fs_Metrics f) "error_type"].
Definition add_error (f : FlowSummary) (m : gmap string Z) : gmap string Z :=
  if bool_metric (fs_Metrics f) "is_error" then bump (error_key f) 1 m else m.

(** One turn of the loop. *)
Definition aggregate (agg : AggregateStats) (f : FlowSummary) : AggregateStats :=
  {| TotalFlows := TotalFlows agg; CaptureWindow := CaptureWindow agg;
     ag_volume := add_volume f (ag_volume agg);
     ag_endpoints := add_endpoints f (ag_endpoints agg);
     ag_temporal := add_temporal f (ag_temporal agg);
     ag_sip := add_sip f (ag_sip agg);
     ag_dos := add_dos f (ag_dos agg);
     ag_dns := add_dns f (ag_dns agg);
     DiameterCmdCounts := add_diameter f (DiameterCmdCounts agg);
     ErrorCounts := add_error f (ErrorCounts agg) |}.

Definition no_aggregates (total : Z) : AggregateStats :=
  {| TotalFlows := total; ag_volume := no_volume; ag_endpoints := no_endpoints;
     ag_temporal := {| EarliestStart := 0; LatestEnd := 0 |}; CaptureWindow := 0;
     ag_sip := no_sip; ag_dos := {| SYNOnlyFlowsPerSrcIP := ∅; ICMPFlowsPerSrcIP := ∅ |};
     ag_dns := {| DNSQueryCounts := ∅; DNSAnswerIPsPerDomain := ∅ |};
     DiameterCmdCounts := ∅; ErrorCounts := ∅ |}.

Definition set_window (agg : AggregateStats) : AggregateStats :=
  let t := ag_temporal agg in
  {| TotalFlows := TotalFlows agg; ag_volume := ag_volume agg; ag_endpoints := ag_endpoints agg;
     ag_temporal := t;
     CaptureWindow :=
       if negb (is_zero (EarliestStart t)) && negb (is_zero (LatestEnd t))
       then time_sub (LatestEnd t) (EarliestStart t) else CaptureWindow agg;
     ag_sip := ag_sip agg; ag_dos := ag_dos agg; ag_dns := ag_dns agg;
     DiameterCmdCounts := DiameterCmdCounts agg; ErrorCounts := ErrorCounts agg |}.

Definition computeAggregates (flows : list FlowSummary) : AggregateStats :=
  set_window (foldl aggregate (no_aggregates (zlen flows)) flows).

(** ** engine.go: the engine *)

Record Engine := { e_rules : list Rule; e_alerts : list Alert }.

Definition NewEngineWithRules (rules : list Rule) : Engine := {| e_rules := rules; e_alerts := [] |}.

Definition summary_of (f : Flow) : FlowSummary :=
  {| fs_FlowID := FlowID f; fs_Type := flow_type_string (Type_ f); fs_Metrics := Metrics f;
     fs_SrcIP := F_SrcIP f; fs_DstIP := F_DstIP f; fs_SrcPort := F_SrcPort f;
     fs_DstPort := F_DstPort f; fs_StartTime := StartTime f; fs_EndTime := EndTime f |}.

(** The context of a run: ctx.Alerts is never set. *)
Definition context_of (flows : list FlowSummary) : RuleContext :=
  {| ctx_Flows := flows; ctx_Alerts := []; ctx_Aggregates := Some (computeAggregates flows) |}.

(** An alert gets its ID from uuid.New and its Timestamp from time.Now when the
    rule makes it. Rules make their alerts in the order in which they return
    them, so both are filled in where the alerts are collected: [fresh i] is
    what the calls for alert number [i] of the run return. *)
Definition stamp (fresh : nat -> string * time) (i : nat) (a : Alert) : Alert :=
  {| a_ID := fst (fresh i); a_Timestamp := snd (fresh i); a_Severity := a_Severity a;
     a_Protocol := a_Protocol a; a_Title := a_Title a; a_Description := a_Description a;
     a_PacketRef := a_PacketRef a; a_FlowID := a_FlowID a; a_Metadata := a_Metadata a |}.

(** The alerts the rules make one after the other. *)
Definition check_rules (ctx : RuleContext) (rules : list Rule) : res (list Alert) :=
  foldM (fun allAlerts rule => alerts ← Check rule ctx; Ok (allAlerts ++ alerts)) [] rules.

Definition RunOnFlows (fresh : nat -> string * time) (e : Engine) (flows : list Flow) :
    res (Engine * list Alert) :=
  alerts ← check_rules (context_of (summary_of <$> flows)) (e_rules e);
  let allAlerts := imap (stamp fresh) alerts in
  Ok ({| e_rules := e_rules e; e_alerts := e_alerts e ++ allAlerts |}, allAlerts).

Definition GetAlerts (e : Engine) : list Alert := e_alerts e.
Definition ClearAlerts (e : Engine) : Engine := {| e_rules := e_rules e; e_alerts := [] |}.

(** An alert before it is stamped; the PacketRef is never set. *)
Definition mk_alert (sev proto title desc flowID : string) (meta : gmap string any) : Alert :=
  {| a_ID := ""; a_Timestamp := 0; a_Severity := sev; a_Protocol := proto; a_Title := title;
     a_Description := desc; a_PacketRef := 0; a_FlowID := flowID; a_Metadata := meta |}.

(** The loop of most rules: what each element gives, in order. *)
Definition collect {A B} (g : A -> res (list B)) (l : list A) : res (list B) :=
  foldM (fun acc x => bs ← g x; Ok (acc ++ bs)) [] l.

(** ** user_rules.go *)

(** The operators, by their spelling. *)
Definition OpGT : string := ">".
Definition OpGTE : string := ">=".
Definition OpLT : string := "<".
Definition OpLTE : string := "<=".
Definition OpEQ : string := "==".
Definition OpNEQ : string := "!=".

Record Condition := { Field : string; Operator : string; Value : f64 }.
Record RuleCondition := { Conditions : list Condition; Match : string }.

Section user_rules.
Context `{Unicode} `{MapRange}.

Definition maxIntMap (site : string) (m : gmap string Z) : Z :=
  foldl (fun max kv => if max <? snd kv then snd kv else max) 0 (range site m).
Definition maxDestinations (m : gmap string (gset string)) : Z :=
  foldl (fun max kv => if max <? Z.of_nat (size (snd kv)) then Z.of_nat (size (snd kv)) else max)
    0 (range "maxDestinations" m).

(** A number, or the message of the error. *)
Definition extractField (field : string) (agg : AggregateStats) : f64 + string :=
  let max_of m := inl (f_int (maxIntMap field m)) in
  if String.eqb field "total_flows" then inl (f_int (TotalFlows agg))
  else if String.eqb field "total_packets" then inl (f_int (TotalPackets (ag_volume agg)))
  else if String.eqb field "capture_window_secs" then inl (seconds (CaptureWindow agg))
  else if String.eqb field "sip_401_max" then max_of (SIP401PerSrcIP (ag_sip agg))
  else if String.eqb field "sip_register_max" then max_of (SIPRegisterPerSrcIP (ag_sip agg))
  else if String.eqb field "sip_invite_max" then max_of (SIPInvitePerSrcIP (ag_sip agg))
  else if String.eqb field "sip_options_max" then max_of (SIPOptionsPerSrcIP (ag_sip agg))
  else if String.eqb field "source_fan_out_max" then
    inl (f_int (maxDestinations (DestinationsPerSrc (ag_endpoints agg))))
  else if String.eqb field "dns_query_max" then max_of (DNSQueryCounts (ag_dns agg))
  else if has_prefix field "flow_count." then
    inl (f_int (map_int (FlowCountByType (ag_volume agg)) (trim_prefix field "flow_count.")))
  else if has_prefix field "error_count." then
    inl (f_int (map_int (ErrorCounts agg) (trim_prefix field "error_count.")))
  else inr ("unknown field " +:+ fmt_q (gobytes field)).

Definition f_eq : f64 -> f64 -> bool := SFeqb.

Definition evaluate (c : Condition) (agg : AggregateStats) : bool + string :=
  match extractField (Field c) agg with
  | inr err => inr err
  | inl actual =>
    let op := Operator c in
    if String.eqb op OpGT then inl (f_gt actual (Value c))
    else if String.eqb op OpGTE then inl (f_ge actual (Value c))
    else if String.eqb op OpLT then inl (f_lt actual (Value c))
    else if String.eqb op OpLTE then inl (f_le actual (Value c))
    else if String.eqb op OpEQ then inl (f_eq actual (Value c))
    else if String.eqb op OpNEQ then inl (negb (f_eq actual (Value c)))
    else inr ("unknown operator " +:+ fmt_q (gobytes op))
  end.

(** The loop of a user rule's Check: [matched] and [failedFields]. *)
Fixpoint check_conditions (mode : string) (agg : AggregateStats) (conds : list Condition)
    (matched : bool) (failedFields : list string) : bool * list string :=
  match conds with
  | [] => (matched, failedFields)
  | cond :: conds =>
    match evaluate cond agg with
    | inr _ => check_conditions mode agg conds matched failedFields
    | inl true =>
      if String.eqb mode "any" then (true, failedFields)
      else check_conditions mode agg conds matched failedFields
    | inl false =>
      if String.eqb mode "all" then (false, failedFields ++ [Field cond])
      else check_conditions mode agg conds matched (failedFields ++ [Field cond])
    end
  end.

Definition user_check (id : Z) (name protocol severity desc : string) (rc : RuleCondition)
    (ctx : RuleContext) : res (list Alert) :=
  match ctx_Aggregates ctx with
  | None => Ok []
  | Some agg =>
    let '(matched, failedFields) := check_conditions (Match rc) agg (Conditions rc) false [] in
    let matched :=
      if String.eqb (Match rc) "all" then (length failedFields =? 0)%nat else matched in
    if negb matched then Ok []
    else Ok [mk_alert severity protocol name desc ""
               (list_to_map [("user_rule_id", AInt TI64 id); ("match", AStr (Match rc))])]
  end.

Definition buildAutoDescription (rc : RuleCondition) : string :=
  join (cat [" "; Match rc; " "])
    ((fun c => cat [Field c; " "; Operator c; " "; fmt_f 0 (Value c)]) <$> Conditions rc).

(** json.Unmarshal into a RuleCondition: the value, or the message of its error. *)
Context (Unmarshal : string -> RuleCondition + string).

Definition UserRuleFromJSON (id : Z) (name description protocol severity conditionJSON : string) :
    Rule + string :=
  match Unmarshal conditionJSON with
  | inr err => inr (cat ["rule "; fmt_q (gobytes name); ": bad condition JSON: "; err])
  | inl rc =>
    if (length (Conditions rc) =? 0)%nat then
      inr (cat ["rule "; fmt_q (gobytes name); ": no conditions defined"])
    else
      let rc := if String.eqb (Match rc) "" then {| Conditions := Conditions rc; Match := "any" |}
                else rc in
      let desc := if String.eqb description "" then buildAutoDescription rc else description in
      inl {| ru_Name := cat ["user:"; fmt_d id; ":"; name]; ru_Protocol := protocol;
             Check := user_check id name protocol severity desc rc |}
  end.

(** ** load.go: the enabled rules of the store that can be read *)
Record UserDetectionRule := {
  ur_ID : Z; ur_Name : string; ur_Description : string; ur_Protocol : string;
  ur_Severity : string; ur_ConditionJSON : string; ur_Enabled : bool; ur_CreatedAt : string;
}.

(** [None]: the store's query failed. *)
Definition LoadUserRules (records : option (list UserDetectionRule)) : list Rule :=
  omap (fun rec =>
    if negb (ur_Enabled rec) then None
    else match UserRuleFromJSON (ur_ID rec) (ur_Name rec) (ur_Description rec) (ur_Protocol rec)
                 (ur_Severity rec) (ur_ConditionJSON rec) with
         | inl r => Some r
         | inr _ => None
         end) (default [] records).
End user_rules.

(** ** What the aggregates are: a table of selectors

    A selector gives the key and the amount with which a flow counts in a map,
    or the key and the strings it adds to a set. *)

Definition selector (A : Type) : Type := FlowSummary -> option (string * A).

(** The amounts of the flows that count under [k]. *)
Definition amounts {A} (sel : selector A) (k : string) (flows : list FlowSummary) : list A :=
  omap (fun f => '(k', n) ← sel f; if decide (k' = k) then Some n else None) flows.

(** The value under [k]: none when no flow counts there, else the sum as an
    [int], or the union. *)
Definition tallied (sel : selector Z) (k : string) (flows : list FlowSummary) : option Z :=
  match amounts sel k flows with [] => None | ns => Some (i64 (foldr Z.add 0 ns)) end.
Definition gathered (sel : selector (list string)) (k : string) (flows : list FlowSummary) :
    option (gset string) :=
  match amounts sel k flows with [] => None | xss => Some (list_to_set (mjoin xss)) end.

Definition when_type (ty : string) (f : FlowSummary) (o : option string) : option (string * Z) :=
  if String.eqb (fs_Type f) ty then (fun k => (k, 1)) <$> o else None.
Definition sip_method (want : string) : selector Z := fun f =>
  if String.eqb (fs_Type f) "SIP" && bool_decide (get_str (fs_Metrics f) "method" = Some want)
  then Some (fs_SrcIP f, 1) else None.

Definition int_maps : list ((AggregateStats -> gmap string Z) * selector Z) :=
  [(fun a => FlowCountByType (ag_volume a), fun f => Some (fs_Type f, 1));
   (fun a => PacketCountByType (ag_volume a),
    fun f => Some (fs_Type f, getIntMetric (fs_Metrics f) "packet_count"));
   (fun a => FlowsPerSrcIP (ag_endpoints a), fun f => Some (fs_SrcIP f, 1));
   (fun a => FlowsPerDstIP (ag_endpoints a), fun f => Some (fs_DstIP f, 1));
   (fun a => PacketsPerSrcIP (ag_endpoints a),
    fun f => Some (fs_SrcIP f, getIntMetric (fs_Metrics f) "packet_count"));
   (fun a => SIPMethodCounts (ag_sip a), fun f => when_type "SIP" f (get_str (fs_Metrics f) "method"));
   (fun a => SIPResponseCounts (ag_sip a),
    fun f => when_type "SIP" f (guard (str_metric (fs_Metrics f) "response" <> "");;
                                get_str (fs_Metrics f) "response"));
   (fun a => SIP401PerSrcIP (ag_sip a),
    fun f => if String.eqb (fs_Type f) "SIP" && String.eqb (str_metric (fs_Metrics f) "response") "401"
             then Some (fs_SrcIP f, 1) else None);
   (fun a => SIPRegisterPerSrcIP (ag_sip a), sip_method "REGISTER");
   (fun a => SIPOptionsPerSrcIP (ag_sip a), sip_method "OPTIONS");
   (fun a => SIPInvitePerSrcIP (ag_sip a), sip_method "INVITE");
   (fun a => SYNOnlyFlowsPerSrcIP (ag_dos a),
    fun f => let flags := str_metric (fs_Metrics f) "tcp_flags" in
             if String.eqb (fs_Type f) "TCP" && str_contains flags "SYN" && negb (str_contains flags "ACK")
             then Some (fs_SrcIP f, 1) else None);
   (fun a => ICMPFlowsPerSrcIP (ag_dos a),
    fun f => if has_suffix (fs_FlowID f) "-ICMP" || has_suffix (fs_FlowID f) "-ICMPv6"
             then Some (fs_SrcIP f, 1) else None);
   (fun a => DNSQueryCounts (ag_dns a), fun f => when_type "DNS" f (get_str (fs_Metrics f) "query_name"));
   (fun a => DiameterCmdCounts a, fun f => when_type "Diameter" f (get_str (fs_Metrics f) "command"));
   (fun a => ErrorCounts a,
    fun f => if bool_metric (fs_Metrics f) "is_error" then Some (error_key f, 1) else None)].

Definition set_maps : list ((AggregateStats -> gmap string (gset string)) * selector (list string)) :=
  [(fun a => DestinationsPerSrc (ag_endpoints a), fun f => Some (fs_SrcIP f, [fs_DstIP f]));
   (fun a => DNSAnswerIPsPerDomain (ag_dns a),
    fun f => if String.eqb (fs_Type f) "DNS" && negb (String.eqb (dnsDomainBase (fs_Metrics f)) "")
             then (fun l => (dnsDomainBase (fs_Metrics f), l)) <$> get_strs (fs_Metrics f) "answers"
             else None)].

(** [t] is the extreme of the times that are set, 0 when none is. *)
Definition extreme (le : time -> time -> Prop) (ts : list time) (t : time) : Prop :=
  (t = 0 /\ Forall (fun u => u = 0) ts) \/
  (t <> 0 /\ t ∈ ts /\ Forall (fun u => u <> 0 -> le t u) ts).

Definition tally_step (sel : selector Z) (m : gmap string Z) (f : FlowSummary) : gmap string Z :=
  match sel f with Some (k, n) => bump k n m | None => m end.
Definition gather_step (sel : selector (list string)) (m : gmap string (gset string)) (f : FlowSummary) :
    gmap string (gset string) :=
  match sel f with Some (k, xs) => insert_all k xs m | None => m end.

Lemma amounts_snoc {A} (sel : selector A) k flows f :
  amounts sel k (flows ++ [f]) = amounts sel k flows ++
    match sel f with Some (k', n) => if decide (k' = k) then [n] else [] | None => [] end.
Proof.
  unfold amounts. rewrite omap_app. f_equal. cbn. destruct (sel f) as [[k' n]|]; [|done].
  cbn. by destruct (decide (k' = k)).
Qed.

Lemma sum_snoc ns n : foldr Z.add 0 (ns ++ [n]) = foldr Z.add 0 ns + n.
Proof. induction ns as [|m ns IH]; cbn; [lia|]. rewrite IH. lia. Qed.

Lemma tally_spec sel flows k : foldl (tally_step sel) ∅ flows !! k = tallied sel k flows.
Proof.
  unfold tallied. induction flows as [|f flows IH] using rev_ind; [done|].
  rewrite foldl_app, amounts_snoc. cbn [foldl]. unfold tally_step at 1.
  destruct (sel f) as [[k' n]|]; [|by rewrite app_nil_r]. destruct (decide (k' = k)) as [->|Hne].
  - unfold bump, map_int. rewrite lookup_insert_eq, IH. destruct (amounts sel k flows) as [|m ns]; cbn [default app].
    + f_equal. f_equal. cbn. lia.
    + change (Some (i64 (i64 (foldr Z.add 0 (m :: ns)) + n)) = Some (i64 (foldr Z.add 0 ((m :: ns) ++ [n])))).
      by rewrite i64_add_l, sum_snoc.
  - unfold bump. rewrite lookup_insert_ne by done. by rewrite app_nil_r.
Qed.

Lemma gather_spec sel flows k : foldl (gather_step sel) ∅ flows !! k = gathered sel k flows.
Proof.
  unfold gathered. induction flows as [|f flows IH] using rev_ind; [done|].
  rewrite foldl_app, amounts_snoc. cbn [foldl]. unfold gather_step at 1.
  destruct (sel f) as [[k' xs]|]; [|by rewrite app_nil_r]. destruct (decide (k' = k)) as [->|Hne].
  - unfold insert_all, map_set. rewrite lookup_insert_eq, IH.
    destruct (amounts sel k flows) as [|ys yss]; cbn [default app].
    + f_equal. set_solver.
    + f_equal. cbn [mjoin list_join]. change (ys :: yss ++ [xs]) with ((ys :: yss) ++ [xs]).
      rewrite join_app. cbn. set_solver.
  - unfold insert_all. rewrite lookup_insert_ne by done. by rewrite app_nil_r.
Qed.

(** A component of the loop's state is a loop of its own. *)
Lemma foldl_proj {A} (proj : AggregateStats -> A) step flows a :
  (forall a f, proj (aggregate a f) = step (proj a) f) ->
  proj (foldl aggregate a flows) = foldl step (proj a) flows.
Proof. intros Hs. revert a. induction flows as [|f flows IH]; intros a; cbn; [done|]. by rewrite IH, Hs. Qed.

(** The SIP loop, field by field. *)
Lemma add_sip_fields f s :
  SIPMethodCounts (add_sip f s) =
    tally_step (fun f => when_type "SIP" f (get_str (fs_Metrics f) "method")) (SIPMethodCounts s) f /\
  SIPRegisterPerSrcIP (add_sip f s) = tally_step (sip_method "REGISTER") (SIPRegisterPerSrcIP s) f /\
  SIPOptionsPerSrcIP (add_sip f s) = tally_step (sip_method "OPTIONS") (SIPOptionsPerSrcIP s) f /\
  SIPInvitePerSrcIP (add_sip f s) = tally_step (sip_method "INVITE") (SIPInvitePerSrcIP s) f.
Proof.
  unfold add_sip, tally_step, when_type, sip_method.
  destruct (String.eqb (fs_Type f) "SIP"); [|done]. cbn [andb].
  destruct (get_str (fs_Metrics f) "method") as [m|]; cbn [fmap option_fmap option_map].
  - assert (forall want, String.eqb m want = bool_decide (Some m = Some want)) as Hm.
    { intros want. destruct (String.eqb_spec m want) as [->|E]; [by rewrite bool_decide_true|].
      by rewrite bool_decide_false by congruence. }
    destruct (get_str (fs_Metrics f) "response") as [r|]; [destruct (String.eqb r "")|];
      unfold add_sip_method, add_sip_response; cbn -[bool_decide]; rewrite !Hm;
      repeat split; by case_bool_decide.
  - rewrite !bool_decide_false by done.
    destruct (get_str (fs_Metrics f) "response") as [r|]; [destruct (String.eqb r "")|]; done.
Qed.

Lemma add_sip_responses f s :
  SIPResponseCounts (add_sip f s) =
    tally_step (fun f => when_type "SIP" f (guard (str_metric (fs_Metrics f) "response" <> "");;
                                get_str (fs_Metrics f) "response")) (SIPResponseCounts s) f /\
  SIP401PerSrcIP (add_sip f s) =
    tally_step (fun f => if String.eqb (fs_Type f) "SIP" && String.eqb (str_metric (fs_Metrics f) "response") "401"
             then Some (fs_SrcIP f, 1) else None) (SIP401PerSrcIP s) f.
Proof.
  unfold add_sip, tally_step, when_type, str_metric.
  destruct (String.eqb (fs_Type f) "SIP"); [|done]. cbn [andb].
  set (s1 := match get_str (fs_Metrics f) "method" with Some _ => _ | None => s end).
  assert (SIPResponseCounts s1 = SIPResponseCounts s /\ SIP401PerSrcIP s1 = SIP401PerSrcIP s) as [E1 E2].
  { subst s1. by destruct (get_str _ _). }
  destruct (get_str (fs_Metrics f) "response") as [r|]; cbn -[String.eqb guard]; [|by rewrite E1, E2].
  destruct (String.eqb_spec r "") as [->|Hr].
  - rewrite option_guard_False by naive_solver. cbn. by rewrite E1, E2.
  - rewrite option_guard_True by done. cbn -[String.eqb]. rewrite E1, E2. by destruct (String.eqb r "401").
Qed.

Lemma int_maps_step :
  Forall (fun ps => forall a f, ps.1 (aggregate a f) = tally_step ps.2 (ps.1 a) f) int_maps.
Proof.
  unfold int_maps. repeat apply Forall_cons_2; [..|constructor]; intros a f; cbn [fst snd aggregate];
    try done; try apply add_sip_fields; try apply add_sip_responses.
  - unfold aggregate, add_dos, tally_step. cbn [ag_dos SYNOnlyFlowsPerSrcIP]. by destruct (_ && _ && _).
  - unfold aggregate, add_dos, tally_step. cbn [ag_dos ICMPFlowsPerSrcIP]. by destruct (_ || _).
  - unfold aggregate, add_dns, tally_step, when_type. cbn [ag_dns]. destruct (String.eqb _ _); [|done]. cbn.
    by destruct (get_str _ _).
  - unfold aggregate, add_diameter, tally_step, when_type. cbn [DiameterCmdCounts]. destruct (String.eqb _ _); [|done].
    by destruct (get_str _ _).
  - unfold aggregate, add_error, tally_step. cbn [ErrorCounts]. by destruct (bool_metric _ _).
Qed.

Lemma set_maps_step :
  Forall (fun ps => forall a f, ps.1 (aggregate a f) = gather_step ps.2 (ps.1 a) f) set_maps.
Proof.
  unfold set_maps. repeat apply Forall_cons_2; [..|constructor]; intros a f; cbn [fst snd aggregate]; [done|].
  unfold aggregate, add_dns, gather_step. cbn [ag_dns]. destruct (String.eqb (fs_Type f) "DNS"); [|done].
  cbn [DNSAnswerIPsPerDomain andb]. destruct (get_strs _ _) as [l|]; cbv zeta.
  - by destruct (String.eqb (dnsDomainBase _) "").
  - by destruct (String.eqb (dnsDomainBase _) "").
Qed.

(** The maps start empty, and the capture window does not touch them. *)
Lemma maps_frame :
  Forall (fun ps => (forall a, ps.1 (set_window a) = ps.1 a) /\ forall n, ps.1 (no_aggregates n) = ∅) int_maps /\
  Forall (fun ps => (forall a, ps.1 (set_window a) = ps.1 a) /\ forall n, ps.1 (no_aggregates n) = ∅) set_maps.
Proof. split; repeat constructor. Qed.

(** A loop that keeps the best of the times that are set. *)
Lemma extreme_new (le : time -> time -> Prop) ts b t :
  (forall x, le x x) -> (forall x y z, le x y -> le y z -> le x z) ->
  extreme le ts b -> t <> 0 -> (b = 0 \/ le t b) -> extreme le (ts ++ [t]) t.
Proof.
  intros Hr Htr Hb Ht Hbt. right. split; [done|]. split; [set_solver|]. apply Forall_app.
  split; [|apply Forall_singleton; done].
  destruct Hb as [[-> Hz]|(Hb & _ & Hall)]; [eapply Forall_impl; [exact Hz|]; intros u ->; done|].
  destruct Hbt as [?|Hbt]; [done|]. eapply Forall_impl; [exact Hall|]. cbv beta. intros u Hu Hu0. eauto.
Qed.

Lemma extreme_old (le : time -> time -> Prop) ts b t :
  extreme le ts b -> (t = 0 \/ b <> 0 /\ le b t) -> extreme le (ts ++ [t]) b.
Proof.
  intros [[-> Hz]|(Hb & Hin & Hall)] Ht.
  - left. split; [done|]. apply Forall_app. split; [done|]. apply Forall_singleton. by destruct Ht as [?|[? _]].
  - right. split; [done|]. split; [set_solver|]. apply Forall_app. split; [done|]. apply Forall_singleton.
    destruct Ht as [->|[_ ?]]; [done|by intros].
Qed.

Lemma temporal_exact flows :
  let t := foldl (fun t f => add_temporal f t) {| EarliestStart := 0; LatestEnd := 0 |} flows in
  extreme Z.le (fs_StartTime <$> flows) (EarliestStart t) /\
  extreme Z.ge (fs_EndTime <$> flows) (LatestEnd t).
Proof.
  cbv zeta. induction flows as [|f flows [IHs IHe]] using rev_ind; [by split; left|].
  rewrite foldl_app, !fmap_app. cbn [foldl fmap list_fmap].
  set (t := foldl _ _ flows) in *. unfold add_temporal. cbn [EarliestStart LatestEnd].
  unfold is_zero, before, after. split.
  - destruct (_ && _) eqn:E.
    + apply extreme_new with (EarliestStart t); [intros; lia|intros; lia|done|lia|lia].
    + apply extreme_old; [done|lia].
  - destruct (_ && _) eqn:E.
    + apply extreme_new with (LatestEnd t); [intros; lia|intros; lia|done|lia|lia].
    + apply extreme_old; [done|lia].
Qed.

(** C38: the statistics the rules share are what they are named for. For any
    flows, every counter map of computeAggregates holds under every key exactly
    the number (or the packets, as a 64-bit int) of the flows that its selector
    puts there, and no entry where there is no such flow; the destination and
    answer sets are the unions; the totals, the first start, the last end and
    the capture window are those of the flows, unset times left out. *)
Theorem aggregates_exact flows :
  let agg := computeAggregates flows in
  TotalFlows agg = zlen flows /\
  TotalPackets (ag_volume agg) =
    i64 (foldr Z.add 0 ((fun f => getIntMetric (fs_Metrics f) "packet_count") <$> flows)) /\
  Forall (fun ps => forall k, ps.1 agg !! k = tallied ps.2 k flows) int_maps /\
  Forall (fun ps => forall k, ps.1 agg !! k = gathered ps.2 k flows) set_maps /\
  extreme Z.le (fs_StartTime <$> flows) (EarliestStart (ag_temporal agg)) /\
  extreme Z.ge (fs_EndTime <$> flows) (LatestEnd (ag_temporal agg)) /\
  CaptureWindow agg =
    (let t := ag_temporal agg in
     if (EarliestStart t =? 0) || (LatestEnd t =? 0) then 0
     else time_sub (LatestEnd t) (EarliestStart t)).
Proof.
  cbv zeta. unfold computeAggregates. set (a0 := no_aggregates (zlen flows)).
  split; [|split; [|split; [|split]]].
  - cbn [set_window TotalFlows]. rewrite (foldl_proj TotalFlows (fun n _ => n)) by done. subst a0.
    cbn [no_aggregates TotalFlows]. generalize (zlen flows) as n. clear. intros n. induction flows; [done|]. done.
  - cbn [set_window ag_volume].
    rewrite (foldl_proj (fun a => TotalPackets (ag_volume a))
      (fun n f => i64 (n + getIntMetric (fs_Metrics f) "packet_count"))) by done. subst a0. cbn.
    induction flows as [|f flows IH] using rev_ind; [done|].
    rewrite foldl_app, IH, fmap_app. cbn [fmap list_fmap foldl]. by rewrite sum_snoc, i64_add_l.
  - pose proof (proj2 (Forall_and _ _) (conj int_maps_step (proj1 maps_frame))) as Hs.
    eapply Forall_impl; [exact Hs|]. intros [proj sel] (Hstep & Hw & H0) k. cbn [fst snd] in *.
    rewrite Hw, (foldl_proj proj (tally_step sel)) by done. subst a0. by rewrite H0, tally_spec.
  - pose proof (proj2 (Forall_and _ _) (conj set_maps_step (proj2 maps_frame))) as Hs.
    eapply Forall_impl; [exact Hs|]. intros [proj sel] (Hstep & Hw & H0) k. cbn [fst snd] in *.
    rewrite Hw, (foldl_proj proj (gather_step sel)) by done. subst a0. by rewrite H0, gather_spec.
  - cbn [set_window ag_temporal CaptureWindow].
    rewrite (foldl_proj ag_temporal (fun t f => add_temporal f t)) by done.
    rewrite (foldl_proj CaptureWindow (fun d _ => d)) by done. subst a0. cbn [no_aggregates ag_temporal CaptureWindow].
    destruct (temporal_exact flows) as [Hs He]. split; [done|]. split; [done|]. unfold is_zero.
    assert (foldl (fun (d : duration) (_ : FlowSummary) => d) 0 flows = 0) as -> by (clear; by induction flows).
    by destruct (EarliestStart _ =? 0), (LatestEnd _ =? 0).
Qed.

(** ** User rules: what they decide *)

Lemma foldl_max l b : foldl (fun max v => if max <? v then v else max) b l = Z.max b (foldr Z.max b l).
Proof.
  revert b. induction l as [|v l IH]; intros b; cbn; [lia|]. rewrite IH.
  assert (forall c d, c <= d -> Z.max c (foldr Z.max c l) <= Z.max d (foldr Z.max d l)) as Hm.
  { intros c d Hcd. induction l as [|w l IHl]; cbn; [lia|].
    assert (foldr Z.max c l <= foldr Z.max d l) by (clear -Hcd; induction l; cbn; lia). lia. }
  assert (forall c, foldr Z.max (Z.max c v) l = Z.max (foldr Z.max c l) v) as Hv.
  { clear. intros c. induction l as [|w l IH]; cbn; lia. }
  destruct (Z.ltb_spec b v).
  - replace v with (Z.max b v) at 1 2 by lia. rewrite Hv. lia.
  - lia.
Qed.

Lemma foldr_max_perm l k b : l ≡ₚ k -> foldr Z.max b l = foldr Z.max b k.
Proof. induction 1; cbn; lia. Qed.

Lemma foldl_max_perm {A} (f : A -> Z) l k b :
  l ≡ₚ k -> foldl (fun max x => if max <? f x then f x else max) b l =
            foldl (fun max x => if max <? f x then f x else max) b k.
Proof.
  intros Hp. assert (forall l, foldl (fun max x => if max <? f x then f x else max) b l =
    foldl (fun max v => if max <? v then v else max) b (f <$> l)) as Hf.
  { intros j. revert b. induction j; intros b; cbn; [done|]. done. }
  rewrite !Hf, !foldl_max. f_equal. apply foldr_max_perm. by rewrite Hp.
Qed.

Section user_rule_theory.
Context `{Unicode}.

(** The order of the ranges does not show in the value of a field. *)
Lemma evaluate_order (r1 r2 : MapRange) c agg :
  @evaluate _ r1 c agg = @evaluate _ r2 c agg.
Proof.
  assert (forall site m, @maxIntMap r1 site m = @maxIntMap r2 site m) as Hm.
  { intros site m. apply foldl_max_perm. by rewrite !range_perm. }
  assert (forall m, @maxDestinations r1 m = @maxDestinations r2 m) as Hd.
  { intros m. apply (foldl_max_perm (fun kv => Z.of_nat (size (snd kv)))). by rewrite !range_perm. }
  unfold evaluate, extractField. by rewrite !Hm, !Hd.
Qed.

Context `{MapRange}.

(** What a condition set decides, mode by mode. *)
Definition holds (agg : AggregateStats) (c : Condition) : bool :=
  match evaluate c agg with inl b => b | inr _ => false end.
Definition fails (agg : AggregateStats) (c : Condition) : bool :=
  match evaluate c agg with inl b => negb b | inr _ => false end.
Definition fires (rc : RuleCondition) (agg : AggregateStats) : bool :=
  if String.eqb (Match rc) "any" || String.eqb (Match rc) "" then existsb (holds agg) (Conditions rc)
  else if String.eqb (Match rc) "all" then forallb (fun c => negb (fails agg c)) (Conditions rc)
  else false.

Lemma check_any agg conds fl :
  fst (check_conditions "any" agg conds false fl) = existsb (holds agg) conds.
Proof.
  revert fl. induction conds as [|c conds IH]; intros fl; [done|]. cbn. unfold holds at 1.
  destruct (evaluate c agg) as [[]|]; cbn; auto.
Qed.

Lemma check_all agg conds fl :
  (length (snd (check_conditions "all" agg conds false fl)) =? 0)%nat =
  (length fl =? 0)%nat && forallb (fun c => negb (fails agg c)) conds.
Proof.
  revert fl. induction conds as [|c conds IH]; intros fl; cbn; [by rewrite andb_true_r|]. unfold fails at 1.
  destruct (evaluate c agg) as [[]|]; cbn; auto.
  rewrite length_app. cbn. rewrite andb_false_r. by destruct (length fl + 1)%nat eqn:E; [lia|].
Qed.

Lemma check_other agg mode conds fl :
  mode <> "any" -> mode <> "all" -> fst (check_conditions mode agg conds false fl) = false.
Proof.
  intros Ha Hl. apply String.eqb_neq in Ha, Hl. revert fl.
  induction conds as [|c conds IH]; intros fl; cbn; [done|]. rewrite Ha, Hl.
  destruct (evaluate c agg) as [[]|]; auto.
Qed.

Lemma user_check_spec id name proto sev desc rc ctx agg :
  ctx_Aggregates ctx = Some agg -> Match rc <> "" ->
  user_check id name proto sev desc rc ctx =
    Ok (if fires rc agg then
          [mk_alert sev proto name desc ""
             (list_to_map [("user_rule_id", AInt TI64 id); ("match", AStr (Match rc))])]
        else []).
Proof.
  intros Hagg Hne. unfold user_check, fires. rewrite Hagg. destruct rc as [conds mode]; cbn [Match Conditions] in *.
  apply String.eqb_neq in Hne as Hne'. rewrite Hne', orb_false_r.
  destruct (String.eqb_spec mode "any") as [->|Ha]; [|destruct (String.eqb_spec mode "all") as [->|Hl]].
  - pose proof (check_any agg conds []) as E. destruct (check_conditions _ _ _ _ _) as [m fl].
    cbn in E |- *. subst m. by destruct (existsb _ _).
  - pose proof (check_all agg conds []) as E. destruct (check_conditions _ _ _ _ _) as [m fl].
    cbn [snd length Nat.eqb andb] in E. change (String.eqb "all" "all") with true. cbn iota. rewrite E. by destruct (forallb _ _).
  - pose proof (check_other agg mode conds [] Ha Hl) as E. destruct (check_conditions _ _ _ _ _) as [m fl].
    cbn in E. subst m. done.
Qed.
End user_rule_theory.

Lemma fires_order `{Unicode} (r1 r2 : MapRange) rc agg : @fires _ r1 rc agg = @fires _ r2 rc agg.
Proof.
  assert (forall c, @holds _ r1 agg c = @holds _ r2 agg c /\ @fails _ r1 agg c = @fails _ r2 agg c) as E.
  { intros c. unfold holds, fails. by rewrite (evaluate_order r1 r2). }
  unfold fires. assert (forall l, existsb (@holds _ r1 agg) l = existsb (@holds _ r2 agg) l) as ->.
  { induction l as [|c l IH]; cbn; [done|]. by rewrite (proj1 (E c)), IH. }
  assert (forall l, forallb (fun c => negb (@fails _ r1 agg c)) l = forallb (fun c => negb (@fails _ r2 agg c)) l) as ->; [|done].
  induction l as [|c l IH]; cbn; [done|]. by rewrite (proj2 (E c)), IH.
Qed.

(** C39: what a rule a user wrote decides. A rule read from JSON makes, on any
    flows, one alert with its severity and description or none: in mode any
    (the default) when some condition holds, in mode all when no condition is
    false, and never in another mode; the order of the ranges over maps does
    not matter. A condition with an unknown field or operator is skipped, so
    in mode all a rule with only such conditions fires on every capture. *)
Theorem user_rule_fires `{Unicode} `{HM : MapRange} Unmarshal id name description protocol severity json
    rc r ctx agg :
  Unmarshal json = inl rc ->
  UserRuleFromJSON Unmarshal id name description protocol severity json = inl r ->
  ctx_Aggregates ctx = Some agg ->
  (exists alerts, Check r ctx = Ok alerts /\ length alerts = (if fires rc agg then 1 else 0)%nat /\
    Forall (fun a => a_Severity a = severity /\ a_Title a = name /\
      (description <> "" -> a_Description a = description)) alerts) /\
  (forall other : MapRange, @fires _ other rc agg = @fires _ HM rc agg) /\
  (Match rc = "all" -> Forall (fun c => exists err, evaluate c agg = inr err) (Conditions rc) ->
    exists a, Check r ctx = Ok [a]).
Proof.
  intros HU HR Hagg. unfold UserRuleFromJSON in HR. rewrite HU in HR.
  destruct (length (Conditions rc) =? 0)%nat; [done|]. injection HR as <-. cbn [Check].
  set (rc' := if String.eqb (Match rc) "" then _ else rc).
  set (desc := if String.eqb description "" then _ else description).
  assert (Match rc' <> "" /\ fires rc' agg = fires rc agg) as [Hne Hf].
  { subst rc'. destruct (String.eqb_spec (Match rc) "") as [E|E]; [|done]. split; [done|].
    unfold fires. by rewrite E. }
  rewrite (user_check_spec id name protocol severity desc rc' ctx agg Hagg Hne), Hf. split; [|split].
  - eexists. split; [done|]. destruct (fires rc agg); [|by split; [|constructor]]. split; [done|].
    apply Forall_singleton. split; [done|]. split; [done|]. intros Hd. subst desc. cbn.
    by apply String.eqb_neq in Hd as ->.
  - intros other. apply fires_order.
  - intros Hm Herr. assert (fires rc agg = true) as ->; [|by eexists].
    unfold fires. rewrite Hm. cbn [String.eqb Ascii.eqb Bool.eqb orb]. apply forallb_forall. intros c Hc.
    rewrite Forall_forall in Herr. destruct (Herr c) as [err E]; [by apply list_elem_of_In|].
    unfold fails. by rewrite E.
Qed.

Definition ex_condition : RuleCondition :=
  {| Conditions := [{| Field := "sip_errors"; Operator := OpGT; Value := f_int 1000 |}]; Match := "all" |}.
Definition ex_user_rule : Rule :=
  {| ru_Name := "user:1:sip errors"; ru_Protocol := "SIP";
     Check := @user_check ascii_only sorted_range 1 "sip errors" "SIP" "error" "too many" ex_condition |}.

(** On an empty capture a misspelt field fires. *)
Example user_rule_fires_witness : exists a, Check ex_user_rule (context_of []) = Ok [a].
Proof.
  apply (@user_rule_fires ascii_only sorted_range (fun _ => inl ex_condition) 1 "sip errors" "too many"
    "SIP" "error" "" ex_condition ex_user_rule (context_of []) (computeAggregates []));
    [reflexivity|reflexivity|reflexivity|reflexivity|].
  constructor; [|constructor]. eexists. reflexivity.
Defined.
