(* ===== verification/Rules.v ===== *)
(** * internal/detection: the built-in rules

    rules.go, rules_security.go and rules5gc.go, one definition per rule, and
    the lists BuiltinRules and Builtin5GCRules. A rule that ranges over a map
    names itself as the place of the range. What the rules call of the standard
    library and is not computed here (crypto/md5, math.Log2, and formatting a
    time in the local zone) is the class [GoLib]. *)
From S2P Require Export Detection.

Class GoLib : Type := {
  md5_Sum : list byte -> list byte;
  math_Log2 : f64 -> f64;
  Format_RFC3339 : Z -> string;
}.

(** A library for examples. *)
Definition toy_lib : GoLib :=
  {| md5_Sum := fun _ => replicate 16 x00; math_Log2 := fun x => x; Format_RFC3339 := fmt_d |}.

(** [v, _ := m[key].(t)] for an integer type [t]. *)
Definition int_metric (t : ity) (m : gmap string any) (key : string) : Z :=
  match m !! key with
  | Some (AInt t' z) => if decide (t = t') then z else 0
  | _ => 0
  end.

(** A rule that goes over the flows, over the flows of one type, or looks at
    the aggregates. *)
Definition flow_rule (name proto : string) (g : FlowSummary -> res (list Alert)) : Rule :=
  {| ru_Name := name; ru_Protocol := proto; Check := fun ctx => collect g (ctx_Flows ctx) |}.
Definition of_type (ty : string) (g : FlowSummary -> res (list Alert)) (f : FlowSummary) :
    res (list Alert) :=
  if negb (String.eqb (fs_Type f) ty) then Ok [] else g f.
Definition aggregate_rule (name proto : string) (g : RuleContext -> AggregateStats -> res (list Alert)) :
    Rule :=
  {| ru_Name := name; ru_Protocol := proto;
     Check := fun ctx => match ctx_Aggregates ctx with None => Ok [] | Some agg => g ctx agg end |}.

(** Go's division of integers panics on zero. *)
Definition int_div (a b : Z) : res Z := if b =? 0 then Panic else Ok (i64 (Z.quot a b)).

Section rules.
Context `{Unicode} `{MapRange} `{GoLib}.

(** ** Existing rules *)

Definition sipErrorRule : Rule :=
  flow_rule "SIP Error Responses" "SIP" (of_type "SIP" (fun f =>
    let resp := str_metric (fs_Metrics f) "response" in
    if 3 <=? slen resp then
      c ← idx (gobytes resp) 0;
      if bool_decide (c ∈ ["4"; "5"; "6"]%byte) then
        let severity := if bool_decide (c ∈ ["5"; "6"]%byte) then SeverityError else SeverityWarning in
        Ok [mk_alert severity "SIP" (cat ["SIP Error: "; resp])
              (cat ["SIP call "; fs_FlowID f; " received error response "; resp]) (fs_FlowID f) ∅]
      else Ok []
    else Ok [])).

Definition rtpLossRule : Rule :=
  flow_rule "RTP Packet Loss" "RTP" (of_type "RTP" (fun f =>
    let pktCount := int_metric TInt (fs_Metrics f) "packet_count" in
    let seqGap := int_metric TInt (fs_Metrics f) "max_seq_gap" in
    if (0 <? pktCount) && (0 <? seqGap) then
      let lossPct := f_mul (f_div (f_int seqGap) (f_int pktCount)) (f_int 100) in
      if f_gt lossPct (f_int 5) then
        let severity := if f_gt lossPct (f_int 15) then SeverityError else SeverityWarning in
        Ok [mk_alert severity "RTP" (cat ["High Packet Loss ("; fmt_f 1 lossPct; "%)"])
              (cat ["RTP stream "; fs_FlowID f; " has "; fmt_f 1 lossPct; "% packet loss (";
                    fmt_d seqGap; " gaps in "; fmt_d pktCount; " packets)"]) (fs_FlowID f) ∅]
      else Ok []
    else Ok [])).

Definition rtpJitterRule : Rule :=
  flow_rule "RTP High Jitter" "RTP" (of_type "RTP" (fun f =>
    let jitter := getFloat64Metric (fs_Metrics f) "jitter_ms" in
    if f_gt jitter (f_int 30) then
      let severity := if f_gt jitter (f_int 100) then SeverityError else SeverityWarning in
      Ok [mk_alert severity "RTP" (cat ["High Jitter ("; fmt_f 1 jitter; "ms)"])
            (cat ["RTP stream "; fs_FlowID f; " has jitter of "; fmt_f 1 jitter; "ms"]) (fs_FlowID f) ∅]
    else Ok [])).

Definition dnsErrorRule : Rule :=
  flow_rule "DNS Errors" "DNS" (of_type "DNS" (fun f =>
    if negb (bool_metric (fs_Metrics f) "is_error") then Ok []
    else
      let errType := str_metric (fs_Metrics f) "error_type" in
      let name := str_metric (fs_Metrics f) "query_name" in
      let severity := if String.eqb errType "SERVFAIL" then SeverityError else SeverityWarning in
      Ok [mk_alert severity "DNS" (cat ["DNS "; errType; ": "; name])
            (cat ["DNS lookup for "; name; " returned "; errType]) (fs_FlowID f) ∅])).

Definition diameterErrorRule : Rule :=
  flow_rule "Diameter Non-Success" "Diameter" (of_type "Diameter" (fun f =>
    if negb (bool_metric (fs_Metrics f) "is_error") then Ok []
    else
      let cmd := str_metric (fs_Metrics f) "command" in
      let rc := int_metric TU32 (fs_Metrics f) "result_code" in
      Ok [mk_alert SeverityError "Diameter" (cat ["Diameter "; cmd; " Failed (RC="; fmt_d rc; ")"])
            (cat ["Diameter "; cmd; " returned result code "; fmt_d rc]) (fs_FlowID f) ∅])).

(** gtpFailureRule and pfcpFailureRule differ in the protocol's name. *)
Definition failureRule (name proto : string) : Rule :=
  flow_rule name proto (of_type proto (fun f =>
    if negb (bool_metric (fs_Metrics f) "is_error") then Ok []
    else
      let msgType := str_metric (fs_Metrics f) "message_type" in
      let cause := int_metric TU8 (fs_Metrics f) "cause_code" in
      Ok [mk_alert SeverityError proto (cat [proto; " "; msgType; " Failed (Cause="; fmt_d cause; ")"])
            (cat [proto; " "; msgType; " failed with cause "; fmt_d cause]) (fs_FlowID f) ∅])).
Definition gtpFailureRule : Rule := failureRule "GTP Failures" "GTP".
Definition pfcpFailureRule : Rule := failureRule "PFCP Failures" "PFCP".

(** The local type of oneWayAudioRule. *)
Record stream := { s_src : string; s_dst : string; s_count : Z }.

Definition oneWayAudioRule : Rule :=
  {| ru_Name := "One-Way Audio"; ru_Protocol := "RTP"; Check := fun ctx =>
    let streams := omap (fun f =>
      if String.eqb (fs_Type f) "RTP" then
        Some {| s_src := fs_SrcIP f; s_dst := fs_DstIP f;
                s_count := int_metric TInt (fs_Metrics f) "packet_count" |}
      else None) (ctx_Flows ctx) in
    collect (fun is1 : nat * stream =>
      let '(i, s1) := is1 in
      let hasReverse := existsb (fun js2 : nat * stream =>
        let '(j, s2) := js2 in
        negb (i =? j)%nat && String.eqb (s_src s1) (s_dst s2) && String.eqb (s_dst s1) (s_src s2)
          && (10 <? s_count s2)) (imap pair streams) in
      if negb hasReverse && (50 <? s_count s1) then
        Ok [mk_alert SeverityWarning "RTP" "Possible One-Way Audio"
              (cat ["RTP stream "; s_src s1; " -> "; s_dst s1; " has "; fmt_d (s_count s1);
                    " packets but no return stream detected"]) "" ∅]
      else Ok []) (imap pair streams) |}.

(** ** Category 1: volume *)

Definition packetVolumeSpike : Rule :=
  aggregate_rule "Packet Volume Spike" "ALL" (fun ctx agg =>
    if TotalFlows agg =? 0 then Ok []
    else
      let avgPackets := f_div (f_int (TotalPackets (ag_volume agg))) (f_int (TotalFlows agg)) in
      collect (fun f =>
        let pktCount := getIntMetric (fs_Metrics f) "packet_count" in
        if pktCount <? 500 then Ok []
        else if f_gt avgPackets f_zero && f_gt (f_int pktCount) (f_mul avgPackets (f_int 10)) then
          Ok [mk_alert SeverityWarning (fs_Type f) (cat ["Packet Volume Spike ("; fmt_d pktCount; " pkts)"])
                (cat [fs_Type f; " flow "; fs_FlowID f; " has "; fmt_d pktCount; " packets (avg ";
                      fmt_f 0 avgPackets; "), >10x average"]) (fs_FlowID f) ∅]
        else Ok []) (ctx_Flows ctx)).

Definition maxExpected : gmap string Z := list_to_map [("RTP", 400); ("DNS", 512); ("SIP", 4000)].

Definition largePacketRule : Rule :=
  flow_rule "Oversized Packets" "ALL" (fun f =>
    match maxExpected !! fs_Type f with
    | None => Ok []
    | Some limit =>
      let maxSize := getIntMetric (fs_Metrics f) "max_packet_size" in
      if limit <? maxSize then
        Ok [mk_alert SeverityWarning (fs_Type f)
              (cat ["Oversized "; fs_Type f; " Packet ("; fmt_d maxSize; " bytes)"])
              (cat [fs_Type f; " flow "; fs_FlowID f; " has packets up to "; fmt_d maxSize;
                    " bytes (expected max "; fmt_d limit; ")"]) (fs_FlowID f) ∅]
      else Ok []
    end).

Definition packetFloodRule : Rule :=
  aggregate_rule "Packet Flood" "ALL" (fun _ agg =>
    let total := TotalPackets (ag_volume agg) in
    if total <? 1000 then Ok []
    else collect (fun '(srcIP, count) =>
      let ratio := f_div (f_int count) (f_int total) in
      if f_gt ratio (f_dec 80 2) && (1000 <=? count) then
        Ok [mk_alert SeverityError "ALL" (cat ["Packet Flood from "; srcIP])
              (cat ["Source "; srcIP; " contributes "; fmt_d count; " packets (";
                    fmt_f 0 (f_mul ratio (f_int 100)); "% of total "; fmt_d total; ")"]) "" ∅]
      else Ok []) (range "Packet Flood" (PacketsPerSrcIP (ag_endpoints agg)))).

(** The three bands of a count: critical, error and warning. *)
Definition banded (critical error count : Z) : string :=
  if critical <=? count then SeverityCritical
  else if error <=? count then SeverityError else SeverityWarning.

Definition synFloodRule : Rule :=
  aggregate_rule "TCP SYN Flood" "TCP" (fun _ agg =>
    collect (fun '(srcIP, synCount) =>
      if synCount <? 20 then Ok []
      else Ok [mk_alert (banded 100 50 synCount) "TCP"
        (cat ["TCP SYN Flood: "; srcIP; " ("; fmt_d synCount; " half-open connections)"])
        (cat ["Source "; srcIP; " opened "; fmt_d synCount;
              " TCP connections that never completed the handshake (SYN sent, ACK never received) — possible SYN flood DoS attack"])
        "" (list_to_map [("src_ip", AStr srcIP); ("syn_only_flows", AInt TInt synCount);
                         ("attack_type", AStr "syn_flood")])])
      (range "TCP SYN Flood" (SYNOnlyFlowsPerSrcIP (ag_dos agg)))).

Definition icmpFloodRule : Rule :=
  aggregate_rule "ICMP Flood" "ICMP" (fun _ agg =>
    collect (fun '(srcIP, icmpCount) =>
      if icmpCount <? 50 then Ok []
      else Ok [mk_alert (banded 500 200 icmpCount) "ICMP"
        (cat ["ICMP Flood: "; srcIP; " ("; fmt_d icmpCount; " ICMP flows)"])
        (cat ["Source "; srcIP; " generated "; fmt_d icmpCount;
              " ICMP flows — possible ping flood or ICMP-based DoS attack"])
        "" (list_to_map [("src_ip", AStr srcIP); ("icmp_flows", AInt TInt icmpCount);
                         ("attack_type", AStr "icmp_flood")])])
      (range "ICMP Flood" (ICMPFlowsPerSrcIP (ag_dos agg)))).

(** ** Category 2: protocols and ports *)

Definition standardPorts : gmap string (list Z) := list_to_map
  [("SIP", [5060; 5061]); ("DNS", [53]); ("Diameter", [3868]); ("GTP", [2123; 2152]); ("PFCP", [8805])].

Record unusualPortKey := {
  u_proto : string; u_srcIP : string; u_dstIP : string; u_srcPort : Z; u_dstPort : Z;
}.
#[global] Instance unusualPortKey_eq_dec : EqDecision unusualPortKey.
Proof. solve_decision. Defined.
#[global] Instance unusualPortKey_countable : Countable unusualPortKey.
Proof.
  apply (inj_countable'
    (fun k => (u_proto k, u_srcIP k, u_dstIP k, u_srcPort k, u_dstPort k))
    (fun '(a, b, c, d, e) => {| u_proto := a; u_srcIP := b; u_dstIP := c; u_srcPort := d; u_dstPort := e |})).
  by intros [].
Defined.

(** [%v] of a slice of integers *)
Definition fmt_v (l : list Z) : string := cat ["["; join " " (fmt_d <$> l); "]"].

(** The variables of unusualPortRule's first loop: order, byKey and counts. *)
Record port_scan := {
  up_order : list unusualPortKey;
  up_byKey : gmap unusualPortKey Alert;
  up_counts : gmap unusualPortKey Z;
}.

Definition unusual_port_key (f : FlowSummary) : unusualPortKey :=
  {| u_proto := fs_Type f; u_srcIP := fs_SrcIP f; u_dstIP := fs_DstIP f;
     u_srcPort := fs_SrcPort f; u_dstPort := fs_DstPort f |}.

Definition unusual_port_alert (f : FlowSummary) (ports : list Z) : Alert :=
  mk_alert SeverityWarning (fs_Type f)
    (cat ["Unusual "; fs_Type f; " Port ("; fmt_d (fs_SrcPort f); " -> "; fmt_d (fs_DstPort f); ")"])
    (cat [fs_Type f; " traffic "; fs_SrcIP f; ":"; fmt_d (fs_SrcPort f); " -> "; fs_DstIP f; ":";
          fmt_d (fs_DstPort f); " uses non-standard ports (expected "; fmt_v ports; ")"])
    (fs_FlowID f) ∅.

Definition scan_port (st : port_scan) (f : FlowSummary) : port_scan :=
  match standardPorts !! fs_Type f with
  | None => st
  | Some ports =>
    if bool_decide (fs_SrcPort f ∈ ports) || bool_decide (fs_DstPort f ∈ ports) then st
    else
      let key := unusual_port_key f in
      let counts := bump key 1 (up_counts st) in
      match up_byKey st !! key with
      | Some _ => {| up_order := up_order st; up_byKey := up_byKey st; up_counts := counts |}
      | None =>
        {| up_order := up_order st ++ [key];
           up_byKey := <[key := unusual_port_alert f ports]> (up_byKey st);
           up_counts := counts |}
      end
  end.

Definition set_occurrences (count : Z) (a : Alert) : Alert :=
  {| a_ID := a_ID a; a_Timestamp := a_Timestamp a; a_Severity := a_Severity a;
     a_Protocol := a_Protocol a; a_Title := a_Title a;
     a_Description :=
       if 1 <? count then
         cat [a_Description a; " — seen across "; fmt_d count; " messages/flows in this capture"]
       else a_Description a;
     a_PacketRef := a_PacketRef a; a_FlowID := a_FlowID a;
     a_Metadata := {[ "occurrence_count" := AInt TInt count ]} |}.

(** The second loop dereferences a pointer of byKey. *)
Definition unusualPortRule : Rule :=
  {| ru_Name := "Unusual Port"; ru_Protocol := "ALL"; Check := fun ctx =>
    let st := foldl scan_port {| up_order := []; up_byKey := ∅; up_counts := ∅ |} (ctx_Flows ctx) in
    collect (fun key =>
      match up_byKey st !! key with
      | None => Panic
      | Some a => Ok [set_occurrences (map_int (up_counts st) key) a]
      end) (up_order st) |}.

(** rules.go's own portToProtocol, not the one of the workers. *)
Definition port_protocols : gmap Z string := list_to_map
  [(5060, "SIP"); (5061, "SIP"); (53, "DNS"); (3868, "Diameter"); (2123, "GTP"); (2152, "GTP");
   (8805, "PFCP")]%string.

Definition mismatch (f : FlowSummary) (port : Z) : list Alert :=
  match port_protocols !! port with
  | None => []
  | Some expected =>
    if String.eqb expected (fs_Type f) then []
    else [mk_alert SeverityError (fs_Type f) (cat ["Protocol Mismatch (port "; fmt_d port; ")"])
            (cat ["Flow "; fs_FlowID f; " on port "; fmt_d port; " is "; fs_Type f; " but expected ";
                  expected]) (fs_FlowID f) ∅]
  end.
Definition protocolMismatchRule : Rule :=
  flow_rule "Protocol Mismatch" "ALL" (fun f => Ok (mismatch f (fs_SrcPort f) ++ mismatch f (fs_DstPort f))).

(** ** Category 3: sources and destinations *)

Definition sourceFanOutRule : Rule :=
  aggregate_rule "Source Fan-Out (Scanning)" "ALL" (fun _ agg =>
    collect (fun '(srcIP, dests) =>
      let count := Z.of_nat (size (dests : gset string)) in
      if 20 <=? count then
        let severity := if 50 <=? count then SeverityError else SeverityWarning in
        Ok [mk_alert severity "ALL" (cat ["Source Fan-Out: "; srcIP; " ("; fmt_d count; " destinations)"])
              (cat ["Source "; srcIP; " communicates with "; fmt_d count;
                    " unique destinations, possible scanning activity"]) "" ∅]
      else Ok []) (range "Source Fan-Out" (DestinationsPerSrc (ag_endpoints agg)))).

(** One of the two loops of trafficConcentrationRule. *)
Definition concentration (Side side : string) (total : Z) (m : gmap string Z) : res (list Alert) :=
  let threshold := f_mul (f_int total) (f_dec 5 1) in
  collect (fun '(ip, count) =>
    if f_gt (f_int count) threshold then
      Ok [mk_alert SeverityWarning "ALL" (cat ["Traffic Concentration: "; ip; " ("; side; ")"])
            (cat [Side; " "; ip; " appears in "; fmt_d count; " of "; fmt_d total; " flows (";
                  fmt_f 0 (f_mul (f_div (f_int count) (f_int total)) (f_int 100)); "%)"]) "" ∅]
    else Ok []) (range side m).
Definition trafficConcentrationRule : Rule :=
  aggregate_rule "Traffic Concentration" "ALL" (fun _ agg =>
    if TotalFlows agg <? 10 then Ok []
    else
      src ← concentration "Source" "source" (TotalFlows agg) (FlowsPerSrcIP (ag_endpoints agg));
      dst ← concentration "Destination" "destination" (TotalFlows agg) (FlowsPerDstIP (ag_endpoints agg));
      Ok (src ++ dst)).

(** ** Category 4: behaviour *)

Definition repeatedFailureRule : Rule :=
  aggregate_rule "Repeated Failures" "ALL" (fun _ agg =>
    collect (fun '(key, count) =>
      if 5 <=? count then
        let severity := if 20 <=? count then SeverityError else SeverityWarning in
        Ok [mk_alert severity "ALL" (cat ["Repeated Failures: "; key; " ("; fmt_d count; " times)"])
              (cat ["Error pattern "; key; " occurred "; fmt_d count; " times across flows"]) "" ∅]
      else Ok []) (range "Repeated Failures" (ErrorCounts agg))).

Definition sipRegisterFloodRule : Rule :=
  aggregate_rule "SIP REGISTER Flood" "SIP" (fun _ agg =>
    let count := map_int (SIPMethodCounts (ag_sip agg)) "REGISTER" in
    if count <? 20 then Ok []
    else
      let severity := if 50 <=? count then SeverityError else SeverityWarning in
      Ok [mk_alert severity "SIP" (cat ["SIP REGISTER Flood ("; fmt_d count; " requests)"])
            (cat ["Detected "; fmt_d count; " SIP REGISTER requests, possible registration flood attack"])
            "" ∅]).

Definition dnsQueryFloodRule : Rule :=
  aggregate_rule "DNS Query Flood" "DNS" (fun _ agg =>
    collect (fun '(domain, count) =>
      if 20 <=? count then
        let severity := if 50 <=? count then SeverityError else SeverityWarning in
        Ok [mk_alert severity "DNS" (cat ["DNS Query Flood: "; domain; " ("; fmt_d count; " queries)"])
              (cat ["Domain "; domain; " queried "; fmt_d count; " times, possible DNS flood or amplification"])
              "" ∅]
      else Ok []) (range "DNS Query Flood" (DNSQueryCounts (ag_dns agg)))).

(** ** Category 5: time *)

Definition maxDuration : gmap string duration := list_to_map
  [("DNS", 30 * second); ("Diameter", 5 * 60 * second); ("PFCP", 5 * 60 * second);
   ("GTP", 10 * 60 * second); ("RTP", 2 * 3600 * second); ("SIP", 2 * 3600 * second)].

Definition longDurationFlowRule : Rule :=
  flow_rule "Long Duration Flow" "ALL" (fun f =>
    match maxDuration !! fs_Type f with
    | None => Ok []
    | Some limit =>
      let duration := time_sub (fs_EndTime f) (fs_StartTime f) in
      if limit <? duration then
        Ok [mk_alert SeverityWarning (fs_Type f)
              (cat ["Long Duration "; fs_Type f; " Flow ("; fmt_f 0 (seconds duration); "s)"])
              (cat [fs_Type f; " flow "; fs_FlowID f; " lasted "; fmt_f 0 (seconds duration);
                    " seconds (max expected "; fmt_f 0 (seconds limit); "s)"]) (fs_FlowID f) ∅]
      else Ok []
    end).

(** [t.Unix()]: the seconds from the zero time to 1970 are 62135596800. *)
Definition unix (t : time) : Z := t / second - 62135596800.

Definition trafficBurstRule : Rule :=
  aggregate_rule "Traffic Burst" "ALL" (fun ctx agg =>
    if TotalFlows agg <? 10 then Ok []
    else
      let buckets := foldl (fun m f =>
        if is_zero (fs_StartTime f) then m else bump (unix (fs_StartTime f)) 1 m)
        (∅ : gmap Z Z) (ctx_Flows ctx) in
      if (size buckets =? 0)%nat then Ok []
      else
        let total := foldl (fun t kv => i64 (t + snd kv)) 0 (range "Traffic Burst total" buckets) in
        let avg := f_div (f_int total) (f_int (Z.of_nat (size buckets))) in
        collect (fun '(sec, count) =>
          if f_gt avg f_zero && f_gt (f_int count) (f_mul avg (f_int 5)) then
            Ok [mk_alert SeverityWarning "ALL" (cat ["Traffic Burst ("; fmt_d count; " flows/sec)"])
                  (cat ["At "; Format_RFC3339 sec; ": "; fmt_d count; " flows started (avg ";
                        fmt_f 1 avg; "/sec), >5x average rate"]) "" ∅]
          else Ok []) (range "Traffic Burst" buckets)).

(** ** Category 6: jitter *)

Definition jitterVarianceRule : Rule :=
  flow_rule "RTP Jitter Variance" "RTP" (of_type "RTP" (fun f =>
    let jitterMin := getFloat64Metric (fs_Metrics f) "jitter_min_ms" in
    let jitterMax := getFloat64Metric (fs_Metrics f) "jitter_max_ms" in
    let jitterAvg := getFloat64Metric (fs_Metrics f) "jitter_avg_ms" in
    let spread := f_sub jitterMax jitterMin in
    if f_gt jitterAvg f_zero && f_gt spread (f_mul jitterAvg (f_int 3)) && f_gt spread (f_int 50) then
      let severity := if f_gt spread (f_int 200) then SeverityError else SeverityWarning in
      Ok [mk_alert severity "RTP" (cat ["High Jitter Variance ("; fmt_f 1 spread; "ms spread)"])
            (cat ["RTP stream "; fs_FlowID f; " has jitter spread "; fmt_f 1 spread; "ms (min=";
                  fmt_f 1 jitterMin; ", max="; fmt_f 1 jitterMax; ", avg="; fmt_f 1 jitterAvg; ")"])
            (fs_FlowID f) ∅]
    else Ok [])).

(** ** Category 7: latency and quality *)

Definition dnsSlowResponseRule : Rule :=
  flow_rule "DNS Slow Response" "DNS" (of_type "DNS" (fun f =>
    let latency := getFloat64Metric (fs_Metrics f) "latency_ms" in
    if f_gt latency (f_int 500) then
      let severity := if f_gt latency (f_int 2000) then SeverityError else SeverityWarning in
      let name := str_metric (fs_Metrics f) "query_name" in
      Ok [mk_alert severity "DNS" (cat ["Slow DNS Response ("; fmt_f 0 latency; "ms)"])
            (cat ["DNS query for "; name; " took "; fmt_f 0 latency; "ms (flow "; fs_FlowID f; ")"])
            (fs_FlowID f) ∅]
    else Ok [])).

Definition sipSlowSetupRule : Rule :=
  flow_rule "SIP Slow Setup" "SIP" (of_type "SIP" (fun f =>
    let setupLatency := getFloat64Metric (fs_Metrics f) "setup_latency_ms" in
    if f_gt setupLatency (f_int 3000) then
      let severity := if f_gt setupLatency (f_int 10000) then SeverityError else SeverityWarning in
      let secs := fmt_f 1 (f_div setupLatency (f_int 1000)) in
      Ok [mk_alert severity "SIP" (cat ["Slow SIP Setup ("; secs; "s)"])
            (cat ["SIP call "; fs_FlowID f; " took "; secs; "s from INVITE to 200 OK"]) (fs_FlowID f) ∅]
    else Ok [])).

(** 1 + 0.035 R + R (R - 60) (100 - R) 7e-6, in the order of the source. *)
Definition estimated_mos (lossPct jitter : f64) : f64 :=
  let R := f_sub (f_sub (f_dec 942 1) (f_mul lossPct (f_dec 25 1))) (f_mul jitter (f_dec 1 1)) in
  let R := if f_lt R f_zero then f_zero else R in
  let R := if f_gt R (f_int 100) then f_int 100 else R in
  f_add (f_add (f_int 1) (f_mul (f_dec 35 3) R))
    (f_mul (f_mul (f_mul R (f_sub R (f_int 60))) (f_sub (f_int 100) R)) (f_dec 7 6)).

Definition qosDegradationRule : Rule :=
  flow_rule "QoS Degradation" "RTP" (of_type "RTP" (fun f =>
    let jitter := getFloat64Metric (fs_Metrics f) "jitter_ms" in
    let pktCount := getIntMetric (fs_Metrics f) "packet_count" in
    let seqGap := getIntMetric (fs_Metrics f) "max_seq_gap" in
    if pktCount =? 0 then Ok []
    else
      let lossPct := f_mul (f_div (f_int seqGap) (f_int pktCount)) (f_int 100) in
      let mos := estimated_mos lossPct jitter in
      if f_lt mos (f_dec 36 1) then
        let severity := if f_lt mos (f_dec 26 1) then SeverityError else SeverityWarning in
        Ok [mk_alert severity "RTP" (cat ["QoS Degradation (est. MOS "; fmt_f 1 mos; ")"])
              (cat ["RTP stream "; fs_FlowID f; ": estimated MOS "; fmt_f 2 mos; " (loss=";
                    fmt_f 1 lossPct; "%, jitter="; fmt_f 1 jitter; "ms)"]) (fs_FlowID f) ∅]
      else Ok [])).

(** ** Category 8: security *)

Definition sipBruteForceRule : Rule :=
  aggregate_rule "SIP Registration Brute Force" "SIP" (fun _ agg =>
    collect (fun '(srcIP, count401) =>
      if count401 <? 5 then Ok []
      else
        let regCount := map_int (SIPRegisterPerSrcIP (ag_sip agg)) srcIP in
        Ok [mk_alert (banded 20 10 count401) "SIP"
              (cat ["SIP Brute Force: "; srcIP; " ("; fmt_d count401; " × 401)"])
              (cat ["Source "; srcIP; " received "; fmt_d count401; " SIP 401 Unauthorized responses (";
                    fmt_d regCount; " REGISTER attempts) — credential brute-force attack"]) ""
              (list_to_map [("src_ip", AStr srcIP); ("count_401", AInt TInt count401);
                 ("count_register", AInt TInt regCount); ("attack_type", AStr "sip_brute_force")])])
      (range "SIP Brute Force" (SIP401PerSrcIP (ag_sip agg)))).

(** The local type of dnsTunnelingRule. *)
Record domainStat := {
  longQueries : Z; txtQueries : Z; nxdomainCount : Z; totalQueries : Z; uniqueLabels : gset string;
}.

Definition dnsTunnelingBaseDomain (name : string) : string := last_labels name.

(** The updates of one DNS flow: the statistics of its base domain. *)
Definition tunnel_stat (st : domainStat) (name qtype rcode : string) : res domainStat :=
  let idx := index (gobytes name) (gobytes ".") in
  labels ← (if 0 <? idx then l ← slice_to (gobytes name) idx; Ok ({[ gostr l ]} ∪ uniqueLabels st)
            else Ok (uniqueLabels st));
  Ok {| longQueries := longQueries st + (if 52 <? slen name then 1 else 0);
        txtQueries := txtQueries st +
          (if String.eqb qtype "TXT" || String.eqb qtype "NULL" then 1 else 0);
        nxdomainCount := nxdomainCount st + (if String.eqb rcode "NXDOMAIN" then 1 else 0);
        totalQueries := totalQueries st + 1; uniqueLabels := labels |}.

Definition no_stat : domainStat :=
  {| longQueries := 0; txtQueries := 0; nxdomainCount := 0; totalQueries := 0; uniqueLabels := ∅ |}.

Definition tunnel_step (stats : gmap string domainStat) (f : FlowSummary) : res (gmap string domainStat) :=
  if negb (String.eqb (fs_Type f) "DNS") then Ok stats
  else
    let name := str_metric (fs_Metrics f) "query_name" in
    let base := dnsTunnelingBaseDomain name in
    if String.eqb base "" then Ok stats
    else
      st ← tunnel_stat (default no_stat (stats !! base)) name (str_metric (fs_Metrics f) "query_type")
             (str_metric (fs_Metrics f) "reply_code");
      Ok (<[base := st]> stats).

(** The score of a domain and the reasons for it. *)
Definition tunnel_score (st : domainStat) : Z * list string :=
  let n := totalQueries st in
  let uniqueRatio := f_div (f_int (Z.of_nat (size (uniqueLabels st)))) (f_int n) in
  let r1 := if 3 <? longQueries st then (3, [cat [fmt_d (longQueries st); " long subdomains (>52 chars)"]])
            else (0, []) in
  let r2 := if 2 <? txtQueries st then (2, [cat [fmt_d (txtQueries st); " TXT/NULL queries"]])
            else (0, []) in
  let r3 := if f_gt uniqueRatio (f_dec 8 1) && (10 <=? n) then
              (3, [cat [fmt_f 0 (f_mul uniqueRatio (f_int 100)); "% unique subdomains (high entropy)"]])
            else (0, []) in
  let r4 := if 5 <? nxdomainCount st then (2, [cat [fmt_d (nxdomainCount st); " NXDOMAIN responses"]])
            else (0, []) in
  (fst r1 + fst r2 + fst r3 + fst r4, snd r1 ++ snd r2 ++ snd r3 ++ snd r4).

Definition tunnel_alert (base : string) (st : domainStat) : list Alert :=
  if totalQueries st <? 5 then []
  else
    let '(score, reasons) := tunnel_score st in
    if score <? 3 then []
    else [mk_alert (banded 6 4 score) "DNS"
      (cat ["DNS Tunneling: "; base; " (score="; fmt_d score; ")"])
      (cat ["Domain "; base; " shows DNS tunneling indicators: "; join "; " reasons]) ""
      (list_to_map [("base_domain", AStr base); ("long_queries", AInt TInt (longQueries st));
         ("txt_queries", AInt TInt (txtQueries st));
         ("unique_labels", AInt TInt (Z.of_nat (size (uniqueLabels st))));
         ("total_queries", AInt TInt (totalQueries st));
         ("nxdomain_count", AInt TInt (nxdomainCount st)); ("tunnel_score", AInt TInt score)])].

Definition dnsTunnelingRule : Rule :=
  {| ru_Name := "DNS Tunneling"; ru_Protocol := "DNS"; Check := fun ctx =>
    stats ← foldM tunnel_step ∅ (ctx_Flows ctx);
    collect (fun '(base, st) => Ok (tunnel_alert base st)) (range "DNS Tunneling" stats) |}.

Definition dropReasons : gmap string string := list_to_map
  [("480", "Temporarily Unavailable"); ("486", "Busy Here"); ("487", "Request Cancelled");
   ("503", "Service Unavailable"); ("504", "Server Timeout")]%string.

Definition voipCallDropRule : Rule :=
  flow_rule "VoIP Call Drop" "SIP" (of_type "SIP" (fun f =>
    let endType := str_metric (fs_Metrics f) "end_type" in
    let dur := time_sub (fs_EndTime f) (fs_StartTime f) in
    let resp := str_metric (fs_Metrics f) "response" in
    let short :=
      if (String.eqb endType "BYE" || String.eqb endType "CANCEL") && (0 <? dur) && (dur <? 30 * second) then
        [mk_alert SeverityWarning "SIP" (cat ["VoIP Call Drop ("; fmt_f 1 (seconds dur); "s)"])
           (cat ["SIP call "; fs_FlowID f; " terminated with "; endType; " after "; fmt_f 1 (seconds dur);
                 "s — possible call drop or failed handoff"]) (fs_FlowID f)
           (list_to_map [("end_type", AStr endType); ("duration_ms", AInt TI64 (milliseconds dur))])]
      else [] in
    let failed :=
      match dropReasons !! resp with
      | Some reason =>
        [mk_alert SeverityWarning "SIP" (cat ["VoIP Call Drop: "; reason; " ("; resp; ")"])
           (cat ["SIP call "; fs_FlowID f; " returned "; resp; " ("; reason; ") — call not established"])
           (fs_FlowID f) (list_to_map [("sip_response", AStr resp); ("reason", AStr reason)])]
      | None => []
      end in
    Ok (short ++ failed))).

Definition insecure_versions : gset string := list_to_set ["SSLv3"; "TLSv1.0"; "TLSv1.1"]%string.
Definition vulnMap : gmap string string := list_to_map
  [("SSLv3", "POODLE"); ("TLSv1.0", "BEAST/POODLE"); ("TLSv1.1", "deprecated — IETF RFC 8996")]%string.

Definition tlsDowngradeRule : Rule :=
  flow_rule "TLS Downgrade" "TLS" (of_type "TLS" (fun f =>
    let version := str_metric (fs_Metrics f) "tls_version" in
    if negb (bool_decide (version ∈ insecure_versions)) then Ok []
    else
      let severity := if String.eqb version "SSLv3" then SeverityCritical
                      else if String.eqb version "TLSv1.0" then SeverityError else SeverityWarning in
      let vuln := map_str vulnMap version in
      Ok [mk_alert severity "TLS" (cat ["TLS Downgrade: "; version; " ("; vuln; ")"])
            (cat ["Flow "; fs_FlowID f; " uses deprecated "; version; " between "; fs_SrcIP f; ":";
                  fmt_d (fs_SrcPort f); " ↔ "; fs_DstIP f; ":"; fmt_d (fs_DstPort f); " — "; vuln])
            (fs_FlowID f)
            (list_to_map [("tls_version", AStr version); ("src_ip", AStr (fs_SrcIP f));
               ("dst_ip", AStr (fs_DstIP f)); ("src_port", AInt TU16 (fs_SrcPort f));
               ("dst_port", AInt TU16 (fs_DstPort f)); ("attack", AStr vuln)])])).

(** ** rules_security.go: TCP integrity *)

(** [f.Metrics[key]], nil when there is none *)
Definition raw_metric (m : gmap string any) (key : string) : any := default ANil (m !! key).

Definition suspiciousRSTRule : Rule :=
  flow_rule "Suspicious TCP RST (Possible Injected Reset)" "TCP" (of_type "TCP" (fun f =>
    if negb (String.eqb (str_metric (fs_Metrics f) "rst_authenticity") "suspicious") then Ok []
    else
      let reason := str_metric (fs_Metrics f) "rst_authenticity_reason" in
      let delta := int_metric TInt (fs_Metrics f) "rst_ttl_delta" in
      let ends := cat [fs_SrcIP f; ":"; fmt_d (fs_SrcPort f); " -> "; fs_DstIP f; ":"; fmt_d (fs_DstPort f)] in
      Ok [mk_alert SeverityWarning "TCP" (cat ["Suspicious RST: "; ends])
            (cat ["TCP connection "; ends;
                  " was closed by an RST whose TTL is inconsistent with this flow's established network path (";
                  reason;
                  ") — possible middlebox/IPS/firewall-injected reset rather than a genuine peer close"])
            (fs_FlowID f)
            (list_to_map [("rst_ttl", raw_metric (fs_Metrics f) "rst_ttl");
               ("rst_ttl_baseline", raw_metric (fs_Metrics f) "rst_ttl_baseline");
               ("rst_ttl_delta", AInt TInt delta); ("reason", AStr reason);
               ("attack_type", AStr "injected_rst")])])).

(** ** Category 9: VoIP security *)

Definition unique_dests (agg : AggregateStats) (srcIP : string) : Z :=
  Z.of_nat (size (map_set (DestinationsPerSrc (ag_endpoints agg)) srcIP)).

Definition sipOptionsScanRule : Rule :=
  aggregate_rule "SIP OPTIONS Scanning" "SIP" (fun _ agg =>
    collect (fun '(srcIP, optCount) =>
      if optCount <? 10 then Ok []
      else
        let uniqueDests := unique_dests agg srcIP in
        if uniqueDests <? 5 then Ok []
        else
          let severity := if (50 <=? optCount) || (20 <=? uniqueDests) then SeverityError
                          else SeverityWarning in
          Ok [mk_alert severity "SIP"
                (cat ["SIP Endpoint Scanning: "; srcIP; " ("; fmt_d optCount; " OPTIONS)"])
                (cat ["Source "; srcIP; " sent "; fmt_d optCount; " SIP OPTIONS probes to ";
                      fmt_d uniqueDests; " distinct destinations — active SIP endpoint enumeration"]) ""
                (list_to_map [("src_ip", AStr srcIP); ("options_count", AInt TInt optCount);
                   ("unique_dests", AInt TInt uniqueDests); ("attack_type", AStr "sip_scanning")])])
      (range "SIP OPTIONS Scanning" (SIPOptionsPerSrcIP (ag_sip agg)))).

Definition sipInviteFloodRule : Rule :=
  aggregate_rule "SIP INVITE Flood / Toll Fraud" "SIP" (fun _ agg =>
    collect (fun '(srcIP, inviteCount) =>
      if inviteCount <? 15 then Ok []
      else
        let uniqueDests := unique_dests agg srcIP in
        let desc := cat ["Source "; srcIP; " sent "; fmt_d inviteCount; " SIP INVITE requests to ";
                         fmt_d uniqueDests; " destinations"] in
        let '(severity, attackType, desc) :=
          if 10 <=? uniqueDests then
            (SeverityCritical, "toll_fraud"%string,
             desc +:+ " — suspected toll fraud (mass outbound calling)")
          else if 50 <=? inviteCount then
            (SeverityError, "sip_invite_flood"%string, desc +:+ " — possible SIP DoS / call flood")
          else (SeverityWarning, "sip_invite_flood"%string, desc) in
        Ok [mk_alert severity "SIP" (cat ["SIP INVITE Flood: "; srcIP; " ("; fmt_d inviteCount; " INVITEs)"])
              desc ""
              (list_to_map [("src_ip", AStr srcIP); ("invite_count", AInt TInt inviteCount);
                 ("unique_dests", AInt TInt uniqueDests); ("attack_type", AStr attackType)])])
      (range "SIP INVITE Flood" (SIPInvitePerSrcIP (ag_sip agg)))).

(** The first loop of sipCallHijackRule: established calls and ending flows. *)
Definition hijack_step (st : gmap string (string * string) * list FlowSummary) (f : FlowSummary) :
    gmap string (string * string) * list FlowSummary :=
  if negb (String.eqb (fs_Type f) "SIP") then st
  else
    let method := str_metric (fs_Metrics f) "method" in
    let resp := str_metric (fs_Metrics f) "response" in
    (if String.eqb method "INVITE" && (String.eqb resp "200" || String.eqb resp "")
     then <[fs_FlowID f := (fs_SrcIP f, fs_DstIP f)]> (fst st) else fst st,
     if String.eqb method "BYE" || String.eqb method "CANCEL" then snd st ++ [f] else snd st).

Definition sipCallHijackRule : Rule :=
  {| ru_Name := "SIP Call Hijack"; ru_Protocol := "SIP"; Check := fun ctx =>
    let '(established, byeFlows) := foldl hijack_step (∅, []) (ctx_Flows ctx) in
    collect (fun bye =>
      match established !! fs_FlowID bye with
      | None => Ok []
      | Some (src, dst) =>
        if negb (String.eqb (fs_SrcIP bye) src) && negb (String.eqb (fs_SrcIP bye) dst) then
          let method := str_metric (fs_Metrics bye) "method" in
          Ok [mk_alert SeverityCritical "SIP"
                (cat ["SIP Call Hijack: "; method; " from unexpected IP "; fs_SrcIP bye])
                (cat ["SIP "; method; " for call "; fs_FlowID bye; " sent from "; fs_SrcIP bye;
                      " — not a participant (original: "; src; " ↔ "; dst; ")"]) (fs_FlowID bye)
                (list_to_map [("hijack_ip", AStr (fs_SrcIP bye)); ("original_src", AStr src);
                   ("original_dst", AStr dst); ("method", AStr method);
                   ("attack_type", AStr "sip_call_hijack")])]
        else Ok []
      end) byeFlows |}.

(** ** Category 10: DNS security *)

Definition knownSuspiciousTLDs : gset string := list_to_set
  ["xyz"; "top"; "club"; "gq"; "cf"; "ga"; "ml"; "tk"; "pw"; "work"; "click"; "download"; "stream";
   "zip"; "mov"]%string.

Definition shannonEntropy (s : string) : f64 :=
  let freq := foldl (fun m (rb : Z * list byte) => bump (fst rb) 1 m) (∅ : gmap Z Z) (runes (gobytes s)) in
  let n := f_int (slen s) in
  foldl (fun h rc => let p := f_div (f_int (snd rc)) n in f_sub h (f_mul p (math_Log2 p)))
    f_zero (range "shannonEntropy" freq).

Definition dga_score (label tld : string) (queryCount : Z) : Z * list string :=
  let entropy := shannonEntropy label in
  let r1 := if f_ge entropy (f_dec 35 1) then (3, [cat ["high entropy label ("; fmt_f 2 entropy; " bits)"]])
            else (0, []) in
  let r2 := if bool_decide (gostr (to_lower (gobytes tld)) ∈ knownSuspiciousTLDs) then
              (2, [cat ["suspicious TLD (."; tld; ")"]]) else (0, []) in
  let r3 := if 16 <=? slen label then (1, [cat ["long label ("; fmt_d (slen label); " chars)"]])
            else (0, []) in
  let r4 := if queryCount <=? 2 then (1, ["queried only once (DGA pattern)"%string]) else (0, []) in
  (fst r1 + fst r2 + fst r3 + fst r4, snd r1 ++ snd r2 ++ snd r3 ++ snd r4).

(** ctx.Aggregates is dereferenced without a check. *)
Definition dga_check (ctx : RuleContext) (f : FlowSummary) : res (list Alert) :=
  let name := str_metric (fs_Metrics f) "query_name" in
  if String.eqb name "" || (slen name <? 8) then Ok []
  else
    let parts := str_split x2e name in
    if zlen parts <? 2 then Ok []
    else
      label ← idx parts 0; tld ← idx parts (zlen parts - 1);
      agg ← match ctx_Aggregates ctx with Some agg => Ok agg | None => Panic end;
      let queryCount := map_int (DNSQueryCounts (ag_dns agg)) name in
      let '(score, reasons) := dga_score label tld queryCount in
      if score <? 3 then Ok []
      else Ok [mk_alert (banded 5 4 score) "DNS" (cat ["Suspected DGA/C2 Domain: "; name])
        (cat ["Domain "; name; " shows DGA/C2 indicators (score="; fmt_d score; "): "; join "; " reasons])
        (fs_FlowID f)
        (list_to_map [("domain", AStr name); ("label", AStr label);
           ("entropy", AF64 (shannonEntropy label)); ("tld", AStr tld);
           ("dga_score", AInt TInt score); ("query_count", AInt TInt queryCount);
           ("attack_type", AStr "dns_c2")])].
Definition dnsDGADetectionRule : Rule :=
  {| ru_Name := "DNS DGA / C2 Domain"; ru_Protocol := "DNS";
     Check := fun ctx => collect (of_type "DNS" (dga_check ctx)) (ctx_Flows ctx) |}.

Definition dnsFastFluxRule : Rule :=
  aggregate_rule "DNS Fast-Flux" "DNS" (fun _ agg =>
    collect (fun '(domain, ipSet) =>
      let uniqueIPs := Z.of_nat (size (ipSet : gset string)) in
      if uniqueIPs <? 5 then Ok []
      else
        let sample := take 5 (fst <$> range (cat ["DNS Fast-Flux "; domain]) (gset_to_gmap tt ipSet)) in
        Ok [mk_alert (banded 15 8 uniqueIPs) "DNS"
              (cat ["DNS Fast-Flux: "; domain; " ("; fmt_d uniqueIPs; " IPs)"])
              (cat ["Domain "; domain; " resolved to "; fmt_d uniqueIPs;
                    " different IPs — fast-flux botnet C2 pattern. Sample: "; join ", " sample]) ""
              (list_to_map [("domain", AStr domain); ("unique_ips", AInt TInt uniqueIPs);
                 ("sample_ips", AStrs sample); ("attack_type", AStr "dns_fast_flux")])])
      (range "DNS Fast-Flux" (DNSAnswerIPsPerDomain (ag_dns agg)))).

(** ** Category 11: TLS security *)

Definition brokenCipherFragments : list string :=
  ["NULL"; "EXPORT"; "ANON"; "RC4"; "_DES_"; "3DES"; "RC2"; "IDEA"; "KRB5"]%string.

Definition tlsWeakCipherRule : Rule :=
  flow_rule "TLS Weak Cipher" "TLS" (of_type "TLS" (fun f =>
    let cipher := str_metric (fs_Metrics f) "cipher_suite" in
    if String.eqb cipher "" then Ok []
    else
      let upper := to_upper (gobytes cipher) in
      let matched := filter (fun frag => contains upper (to_upper (gobytes frag)) = true) brokenCipherFragments in
      let noFS := negb (contains upper (gobytes "ECDHE")) && negb (contains upper (gobytes "DHE")) in
      if (length matched =? 0)%nat && negb noFS then Ok []
      else
        let where_ := cat ["TLS flow "; fs_FlowID f; " ("; fs_SrcIP f; ":"; fmt_d (fs_SrcPort f); "→";
                           fs_DstIP f; ":"; fmt_d (fs_DstPort f); ")"] in
        let '(severity, title, desc) :=
          if (0 <? length matched)%nat then
            (SeverityCritical, cat ["Broken Cipher: "; cipher],
             cat [where_; " negotiated broken cipher "; cipher; " — algorithms: "; join ", " matched])
          else
            (SeverityWarning, cat ["No Forward Secrecy: "; cipher],
             cat [where_; " uses "; cipher; " — no forward secrecy (RSA key exchange only)"]) in
        Ok [mk_alert severity "TLS" title desc (fs_FlowID f)
              (list_to_map [("cipher_suite", AStr cipher); ("has_forward_secrecy", ABool (negb noFS));
                 ("weak_algorithms", AStrs matched); ("src_ip", AStr (fs_SrcIP f));
                 ("dst_ip", AStr (fs_DstIP f)); ("attack_type", AStr "weak_cipher")])])).

Definition knownMaliciousJA3 : gmap string string := list_to_map
  [("e7d705a3286e19ea42f587b344ee6865", "Mirai botnet C2");
   ("6734f37431670b3ab4292b8f60f29984", "Trickbot malware");
   ("a0e9f5d64349fb13191bc781f81f42e1", "CobaltStrike Beacon (default)");
   ("72a589da586844d7f0818ce684948eea", "CobaltStrike Beacon (variant)");
   ("b386946a5a44d1ddcc843bc75336dfce", "Metasploit Framework");
   ("de350869b8c85de67a350c8d186f11e6", "Dridex banking trojan");
   ("6bea65232d2734571b057466a576d801", "Agent Tesla")]%string.

(** The fingerprint and its string, computed when the decoder gave none. *)
Definition ja3_of (f : FlowSummary) : option (string * string) :=
  let ja3Hash := str_metric (fs_Metrics f) "ja3_hash" in
  if String.eqb ja3Hash "" then
    let version := str_metric (fs_Metrics f) "tls_version" in
    let cipher := str_metric (fs_Metrics f) "cipher_suite" in
    if String.eqb version "" && String.eqb cipher "" then None
    else
      let input := cat [version; "|"; cipher] in
      Some (hex_encode (md5_Sum (gobytes input)), input)
  else Some (ja3Hash, str_metric (fs_Metrics f) "ja3_string").

Definition tlsJA3AlertRule : Rule :=
  flow_rule "TLS JA3 Fingerprint" "TLS" (of_type "TLS" (fun f =>
    match ja3_of f with
    | None => Ok []
    | Some (ja3Hash, ja3Str) =>
      match knownMaliciousJA3 !! ja3Hash with
      | None => Ok []
      | Some malwareName =>
        let sni := str_metric (fs_Metrics f) "sni" in
        shortHash ← (if 8 <? slen ja3Hash then h ← slice_to (gobytes ja3Hash) 8; Ok (gostr h +:+ "...")
                     else Ok ja3Hash);
        Ok [mk_alert SeverityCritical "TLS" (cat ["Malicious JA3: "; shortHash; " ("; malwareName; ")"])
              (cat ["TLS flow "; fs_FlowID f; " ("; fs_SrcIP f; "→"; fs_DstIP f; " SNI=";
                    fmt_q (gobytes sni); ") matches known malicious JA3 "; ja3Hash; " — "; malwareName])
              (fs_FlowID f)
              (list_to_map [("ja3_hash", AStr ja3Hash); ("ja3_string", AStr ja3Str);
                 ("malware", AStr malwareName); ("src_ip", AStr (fs_SrcIP f));
                 ("dst_ip", AStr (fs_DstIP f)); ("sni", AStr sni);
                 ("attack_type", AStr "malicious_ja3")])]
      end
    end)).

Definition tlsSelfSignedCertRule : Rule :=
  flow_rule "TLS Self-Signed Certificate" "TLS" (of_type "TLS" (fun f =>
    if negb (bool_metric (fs_Metrics f) "cert_self_signed") then Ok []
    else
      let subject := str_metric (fs_Metrics f) "cert_subject" in
      let issuer := str_metric (fs_Metrics f) "cert_issuer" in
      let sni := str_metric (fs_Metrics f) "sni" in
      if has_suffix sni ".local" || has_suffix sni ".internal" || has_suffix sni ".lan" then Ok []
      else
        let severity := if (fs_DstPort f =? 443) || (fs_DstPort f =? 8443) then SeverityError
                        else SeverityWarning in
        Ok [mk_alert severity "TLS" (cat ["Self-Signed Cert: "; sni; " ("; fs_DstIP f; ")"])
              (cat ["TLS connection to "; sni; " ("; fs_DstIP f; ":"; fmt_d (fs_DstPort f);
                    ") presents a self-signed certificate (Subject="; fmt_q (gobytes subject);
                    ") — possible MITM proxy or malware C2"]) (fs_FlowID f)
              (list_to_map [("cert_subject", AStr subject); ("cert_issuer", AStr issuer);
                 ("sni", AStr sni); ("dst_ip", AStr (fs_DstIP f)); ("dst_port", AInt TU16 (fs_DstPort f));
                 ("attack_type", AStr "self_signed_cert")])])).

(** ** rules5gc.go *)

Definition nas_step (m : gmap string Z) (f : FlowSummary) : gmap string Z :=
  if negb (String.eqb (fs_Type f) "NAS5G") then m
  else
    let authFails := getIntMetric (fs_Metrics f) "auth_failures" in
    let m := if 0 <? authFails then bump (fs_SrcIP f) authFails m else m in
    match get_str (fs_Metrics f) "message_type" with
    | Some msgType =>
      if String.eqb msgType "Authentication Failure" || String.eqb msgType "Authentication Reject"
      then bump (fs_SrcIP f) 1 m else m
    | None => m
    end.

Definition nasAuthFailureStormRule : Rule :=
  {| ru_Name := "NAS Auth Failure Storm"; ru_Protocol := "NAS5G"; Check := fun ctx =>
    collect (fun '(ueIP, count) =>
      if 10 <? count then
        Ok [mk_alert SeverityCritical "NAS5G" "NAS Authentication Failure Storm"
              (cat ["UE "; ueIP; " has "; fmt_d count;
                    " authentication failures — possible SIM cloning, DoS, or brute force attack"]) ""
              (list_to_map [("ue_ip", AStr ueIP); ("auth_failures", AInt TInt count);
                 ("threshold", AInt TInt 10)])]
      else Ok []) (range "NAS Auth" (foldl nas_step ∅ (ctx_Flows ctx))) |}.

(** Rules that count the flows of a kind. *)
Definition count_flows (p : FlowSummary -> bool) (flows : list FlowSummary) : Z :=
  foldl (fun n f => if p f then n + 1 else n) 0 flows.

Definition is_pdu_request (f : FlowSummary) : bool :=
  String.eqb (fs_Type f) "NAS5G" &&
  (String.eqb (str_metric (fs_Metrics f) "procedure") "PDUSessionEstablishment" &&
   String.eqb (str_metric (fs_Metrics f) "message_type") "PDU Session Establishment Request").
Definition pduSessionFloodRule : Rule :=
  {| ru_Name := "PDU Session Flood"; ru_Protocol := "NAS5G"; Check := fun ctx =>
    let n := count_flows is_pdu_request (ctx_Flows ctx) in
    if 100 <? n then
      Ok [mk_alert SeverityWarning "NAS5G" "PDU Session Establishment Flood"
            (cat [fmt_d n; " PDU session establishment requests detected — possible session flood or misconfigured UE"])
            "" (list_to_map [("pdu_session_requests", AInt TInt n); ("threshold", AInt TInt 100)])]
    else Ok [] |}.

(** The search for DROP in an action string. *)
Definition drop_body (action : list byte) (i : Z) : res (ctl Z bool) :=
  if i + 3 <? zlen action then
    w ← slice action i (i + 4);
    if bool_decide (w = gobytes "DROP") then Ok (Done true) else Ok (Next (i + 1))
  else Ok (Done false).
Definition has_drop (action : string) : res bool :=
  hasDrop ← loop (S (String.length action)) (drop_body (gobytes action)) 0;
  Ok (hasDrop || ((slen action =? 4) && String.eqb action "DROP")).

Definition pfcp_step (st : Z * Z) (f : FlowSummary) : res (Z * Z) :=
  let '(totalPFCP, dropCount) := st in
  if negb (String.eqb (fs_Type f) "PFCP") then Ok st
  else
    let action := str_metric (fs_Metrics f) "apply_action" in
    if String.eqb action "" then Ok (totalPFCP + 1, dropCount)
    else
      hasDrop ← has_drop action;
      Ok (totalPFCP + 1, if hasDrop : bool then dropCount + 1 else dropCount).

Definition pfcpDropActionAnomalyRule : Rule :=
  {| ru_Name := "PFCP Session Anomaly"; ru_Protocol := "PFCP"; Check := fun ctx =>
    '(totalPFCP, dropCount) ← foldM pfcp_step (0, 0) (ctx_Flows ctx);
    if (0 <? totalPFCP) && (totalPFCP <? i64 (dropCount * 2)) then
      pct ← int_div (i64 (dropCount * 100)) totalPFCP;
      Ok [mk_alert SeverityWarning "PFCP" "PFCP High DROP Action Rate"
            (cat [fmt_d pct; "% of PFCP sessions ("; fmt_d dropCount; "/"; fmt_d totalPFCP;
                  ") have DROP action — possible misconfiguration or traffic blocking policy"]) ""
            (list_to_map [("drop_count", AInt TInt dropCount); ("total_pfcp", AInt TInt totalPFCP);
               ("drop_pct", AInt TInt pct); ("threshold", AInt TInt 50)])]
    else Ok [] |}.

Definition is_http2 (f : FlowSummary) : bool :=
  String.eqb (fs_Type f) "HTTP2" || String.eqb (fs_Type f) "SBI".

Definition sbi_step (st : Z * Z) (f : FlowSummary) : res (Z * Z) :=
  let '(totalSBI, errorCount) := st in
  if negb (is_http2 f) then Ok st
  else if negb (bool_metric (fs_Metrics f) "is_sbi") then Ok st
  else
    let statusCode := str_metric (fs_Metrics f) "status_code" in
    is5 ← (if 0 <? slen statusCode then c ← idx (gobytes statusCode) 0; Ok (bool_decide (c = "5"%byte))
           else Ok false);
    let errorCount := if is5 : bool then i64 (errorCount + 1) else errorCount in
    let errCnt := getIntMetric (fs_Metrics f) "error_count" in
    Ok (totalSBI + 1, if 0 <? errCnt then i64 (errorCount + errCnt) else errorCount).

Definition sbiErrorRateRule : Rule :=
  {| ru_Name := "SBI Error Rate"; ru_Protocol := "HTTP2"; Check := fun ctx =>
    '(totalSBI, errorCount) ← foldM sbi_step (0, 0) (ctx_Flows ctx);
    if (0 <? totalSBI) && (totalSBI <? i64 (errorCount * 5)) then
      pct ← int_div (i64 (errorCount * 100)) totalSBI;
      Ok [mk_alert SeverityWarning "HTTP2" "SBI High 5xx Error Rate"
            (cat [fmt_d pct; "% of SBI calls ("; fmt_d errorCount; "/"; fmt_d totalSBI;
                  ") returned 5xx errors — possible NF overload or configuration issue"]) ""
            (list_to_map [("error_count", AInt TInt errorCount); ("total_sbi", AInt TInt totalSBI);
               ("error_pct", AInt TInt pct); ("threshold", AInt TInt 20)])]
    else Ok [] |}.

(** The TEID of a flow, converted to 32 bits. *)
Definition teid_of (f : FlowSummary) : option Z :=
  match fs_Metrics f !! "teid" with
  | Some (AInt TU32 v) => Some v
  | Some (AInt TInt v) | Some (AInt TU64 v) => Some (u32 v)
  | _ => None
  end.
Definition gtpTunnelFloodRule : Rule :=
  {| ru_Name := "GTP-U Tunnel Flood"; ru_Protocol := "GTP"; Check := fun ctx =>
    let uniqueTEIDs : gset Z := list_to_set (omap (fun f =>
      if String.eqb (fs_Type f) "GTP" || String.eqb (fs_Type f) "GTPU" then teid_of f else None)
      (ctx_Flows ctx)) in
    let teidCount := Z.of_nat (size uniqueTEIDs) in
    if 10000 <? teidCount then
      Ok [mk_alert SeverityWarning "GTP" "GTP-U Tunnel Flood"
            (cat [fmt_d teidCount; " unique GTP tunnels (TEIDs) detected — possible tunnel exhaustion or attack"])
            "" (list_to_map [("unique_teids", AInt TInt teidCount); ("threshold", AInt TInt 10000)])]
    else Ok [] |}.

Definition is_nrf_registration (f : FlowSummary) : bool :=
  let m := fs_Metrics f in
  is_http2 f &&
  (String.eqb (str_metric m "nf_type") "NRF" && String.eqb (str_metric m "service_name") "nnrf-nfm" &&
   (String.eqb (str_metric m "method") "PUT" || String.eqb (str_metric m "method") "POST")).
Definition nfRegistrationStormRule : Rule :=
  {| ru_Name := "NF Registration Storm"; ru_Protocol := "HTTP2"; Check := fun ctx =>
    let n := count_flows is_nrf_registration (ctx_Flows ctx) in
    if 50 <? n then
      Ok [mk_alert SeverityWarning "HTTP2" "NF Registration Storm"
            (cat [fmt_d n; " NF registration calls to NRF detected — possible NF registration loop or attack"])
            "" (list_to_map [("nrf_registrations", AInt TInt n); ("threshold", AInt TInt 50)])]
    else Ok [] |}.

(** ** The lists *)

Definition BuiltinRules : list Rule :=
  [sipErrorRule; rtpLossRule; rtpJitterRule; dnsErrorRule; diameterErrorRule; gtpFailureRule;
   pfcpFailureRule; oneWayAudioRule;
   packetVolumeSpike; largePacketRule; packetFloodRule; synFloodRule; icmpFloodRule;
   unusualPortRule; protocolMismatchRule;
   sourceFanOutRule; trafficConcentrationRule;
   repeatedFailureRule; sipRegisterFloodRule; dnsQueryFloodRule;
   longDurationFlowRule; trafficBurstRule;
   jitterVarianceRule;
   dnsSlowResponseRule; sipSlowSetupRule; qosDegradationRule;
   sipBruteForceRule; dnsTunnelingRule; voipCallDropRule; tlsDowngradeRule;
   sipOptionsScanRule; sipInviteFloodRule; sipCallHijackRule;
   dnsDGADetectionRule; dnsFastFluxRule;
   tlsWeakCipherRule; tlsJA3AlertRule; tlsSelfSignedCertRule;
   suspiciousRSTRule].

Definition Builtin5GCRules : list Rule :=
  [nasAuthFailureStormRule; pduSessionFloodRule; pfcpDropActionAnomalyRule; sbiErrorRateRule;
   gtpTunnelFloodRule; nfRegistrationStormRule].

Definition NewEngine : Engine := NewEngineWithRules BuiltinRules.
End rules.

(** ** Every rule returns, and its alerts are well formed *)

Definition severities : list string := [SeverityWarning; SeverityError; SeverityCritical].

(** An alert about no flow or one of the context. *)
Record alert_ok (flows : list FlowSummary) (a : Alert) : Prop := {
  ok_severity : a_Severity a ∈ severities;
  ok_title : a_Title a <> "";
  ok_flow : a_FlowID a = "" \/ exists f, f ∈ flows /\ fs_FlowID f = a_FlowID a;
}.

Definition rule_ok (r : Rule) : Prop :=
  forall ctx agg, ctx_Aggregates ctx = Some agg ->
    returns (Check r ctx) (Forall (alert_ok (ctx_Flows ctx))).

Lemma severity_if (b : bool) : (if b then SeverityError else SeverityWarning) ∈ severities.
Proof. unfold severities. destruct b; set_solver. Qed.

Lemma severity_banded c e n : banded c e n ∈ severities.
Proof. unfold banded, severities. destruct (_ <=? _); [set_solver|]. destruct (_ <=? _); set_solver. Qed.

Lemma severity_in : SeverityWarning ∈ severities /\ SeverityError ∈ severities /\ SeverityCritical ∈ severities.
Proof. unfold severities. set_solver. Qed.

Lemma returns_collect {A B} (g : A -> res (list B)) (P : B -> Prop) l :
  (forall x, x ∈ l -> returns (g x) (Forall P)) -> returns (collect g l) (Forall P).
Proof.
  intros Hg. unfold collect. assert (Forall P []) as Hacc by constructor. revert Hacc.
  generalize (@nil B) as acc. induction l as [|x l IH]; intros acc Hacc; [done|]. cbn [foldM].
  apply (returns_bind _ _ (Forall P)). apply (returns_bind_weak _ _ (Forall P)).
  - apply Hg. left.
  - intros bs Hbs. cbn [returns]. apply IH; [intros y Hy; apply Hg; by right|]. by apply Forall_app.
Qed.

Lemma cat_cons_ne s l : s <> "" -> cat (s :: l) <> "".
Proof. destruct s; [done|]. intros _. unfold cat, join. by destruct l. Qed.

Lemma one_alert flows sev proto title desc fid meta :
  sev ∈ severities -> title <> "" -> (fid = "" \/ exists f, f ∈ flows /\ fs_FlowID f = fid) ->
  returns (Ok [mk_alert sev proto title desc fid meta]) (Forall (alert_ok flows)).
Proof. intros. cbn. rewrite Forall_singleton. by split. Qed.

Lemma flow_rule_ok name proto g :
  (forall flows f, f ∈ flows -> returns (g f) (Forall (alert_ok flows))) -> rule_ok (flow_rule name proto g).
Proof. intros Hg ctx agg _. cbn. apply returns_collect. intros f Hf. by apply Hg. Qed.

Lemma of_type_ok ty g flows f :
  returns (g f) (Forall (alert_ok flows)) -> returns (of_type ty g f) (Forall (alert_ok flows)).
Proof. intros Hg. unfold of_type. destruct (negb _); [by constructor|done]. Qed.

Lemma aggregate_rule_ok name proto g :
  (forall ctx agg, ctx_Aggregates ctx = Some agg -> returns (g ctx agg) (Forall (alert_ok (ctx_Flows ctx)))) ->
  rule_ok (aggregate_rule name proto g).
Proof. intros Hg ctx agg E. cbn. rewrite E. by apply Hg. Qed.

(** Discharge the three parts of [one_alert]. *)
Ltac alert_parts :=
  apply one_alert;
    [first [apply severity_if | apply severity_banded | apply severity_in]
    |first [done | by apply cat_cons_ne]
    |first [by left | by right; eexists]].

(** Follow a rule to the alerts it makes, destructing its tests. *)
Ltac run_rule :=
  repeat (cbv beta zeta; lazymatch goal with
  | |- returns (Ok []) _ => by constructor
  | |- returns (Ok [mk_alert _ _ _ _ _ _]) _ => alert_parts
  | |- returns (of_type _ _ _) _ => apply of_type_ok
  | |- returns (if ?b then _ else _) _ => destruct b eqn:?
  | |- returns (match ?o with Some _ => _ | None => _ end) _ => destruct o eqn:?
  | |- returns (match ?p with (_, _) => _ end) _ => destruct p eqn:?
  | |- returns (collect _ _) _ => apply returns_collect; intros ? ?
  | |- returns (idx _ _ ≫= _) _ => apply returns_bind, returns_idx; [|intros ? ?]
  | |- returns (slice_to _ _ ≫= _) _ => apply returns_bind; unfold slice_to; apply returns_slice
  | |- rule_ok (flow_rule _ _ _) => apply flow_rule_ok; intros flows f Hf
  | |- rule_ok (aggregate_rule _ _ _) => apply aggregate_rule_ok; intros ctx agg Hagg
  end).

Section rules_ok.
Context `{Unicode} `{MapRange} `{GoLib}.

Lemma sipErrorRule_ok : rule_ok sipErrorRule.
Proof.
  unfold sipErrorRule. run_rule. rewrite <-slen_gobytes. lia.
Qed.

Lemma quality_rules_ok :
  Forall rule_ok [rtpLossRule; rtpJitterRule; jitterVarianceRule; dnsSlowResponseRule; sipSlowSetupRule;
    qosDegradationRule].
Proof.
  repeat constructor;
    unfold rtpLossRule, rtpJitterRule, jitterVarianceRule, dnsSlowResponseRule, sipSlowSetupRule,
      qosDegradationRule; run_rule.
Qed.

Lemma failure_rules_ok :
  Forall rule_ok [dnsErrorRule; diameterErrorRule; gtpFailureRule; pfcpFailureRule; largePacketRule;
    longDurationFlowRule].
Proof.
  repeat constructor;
    unfold dnsErrorRule, diameterErrorRule, gtpFailureRule, pfcpFailureRule, failureRule, largePacketRule,
      longDurationFlowRule; run_rule.
Qed.

Lemma count_rules_ok :
  Forall rule_ok [packetVolumeSpike; packetFloodRule; synFloodRule; icmpFloodRule; sourceFanOutRule;
    repeatedFailureRule; sipRegisterFloodRule; dnsQueryFloodRule; trafficBurstRule; sipBruteForceRule;
    sipOptionsScanRule; dnsFastFluxRule].
Proof.
  repeat constructor;
    unfold packetVolumeSpike, packetFloodRule, synFloodRule, icmpFloodRule, sourceFanOutRule,
      repeatedFailureRule, sipRegisterFloodRule, dnsQueryFloodRule, trafficBurstRule, sipBruteForceRule,
      sipOptionsScanRule, dnsFastFluxRule; run_rule.
Qed.

Lemma tls_rules_ok :
  Forall rule_ok [tlsDowngradeRule; tlsWeakCipherRule; tlsJA3AlertRule; tlsSelfSignedCertRule;
    suspiciousRSTRule].
Proof.
  repeat constructor;
    unfold tlsDowngradeRule, tlsWeakCipherRule, tlsJA3AlertRule, tlsSelfSignedCertRule, suspiciousRSTRule.
  - run_rule. apply one_alert; [|by apply cat_cons_ne|by right; eexists].
    destruct (String.eqb _ _); [apply severity_in|apply severity_if].
  - run_rule.
    match goal with E : (if ?b then _ else _) = _ |- _ => destruct b; injection E as <- <- <- end;
      alert_parts.
  - run_rule. apply (returns_bind_weak _ _ (fun _ => True)).
    + destruct (8 <? slen _) eqn:?; [|done]. apply returns_bind. unfold slice_to. apply returns_slice; [|done].
      rewrite <-slen_gobytes. lia.
    + intros h _. run_rule.
  - run_rule.
  - run_rule.
Qed.

Lemma mismatch_ok flows f port : f ∈ flows -> Forall (alert_ok flows) (mismatch f port).
Proof.
  intros Hf. unfold mismatch. destruct (port_protocols !! port); [|by constructor].
  destruct (String.eqb _ _); [by constructor|]. change (returns (Ok [mk_alert SeverityError (fs_Type f)
    (cat ["Protocol Mismatch (port "; fmt_d port; ")"]) (cat ["Flow "; fs_FlowID f; " on port ";
      fmt_d port; " is "; fs_Type f; " but expected "; s]) (fs_FlowID f) ∅]) (Forall (alert_ok flows))).
  alert_parts.
Qed.

Lemma endpoint_rules_ok :
  Forall rule_ok [protocolMismatchRule; trafficConcentrationRule; sipInviteFloodRule; voipCallDropRule].
Proof.
  repeat constructor;
    unfold protocolMismatchRule, trafficConcentrationRule, sipInviteFloodRule, voipCallDropRule.
  - run_rule. cbn [returns]. apply Forall_app. split; by apply mismatch_ok.
  - run_rule. assert (forall S s t m, returns (concentration S s t m) (Forall (alert_ok (ctx_Flows ctx)))) as Hc.
    { intros. unfold concentration. run_rule. }
    apply (returns_bind_weak _ _ _ _ (Hc _ _ _ _)). intros src Hs.
    apply (returns_bind_weak _ _ _ _ (Hc _ _ _ _)). intros dst Hd. by apply Forall_app.
  - run_rule.
    match goal with E : (if ?b then _ else _) = _ |- _ => destruct b end;
      [|match goal with E : (if ?b then _ else _) = _ |- _ => destruct b end];
      match goal with E : (_, _, _) = _ |- _ => injection E as <- <- <- end; alert_parts.
  - run_rule. cbn [returns]. apply Forall_app. split.
    + destruct (_ && _); [|by constructor]. apply Forall_singleton. split; [apply severity_in|by apply cat_cons_ne|by right; exists f].
    + destruct (dropReasons !! _); [|by constructor]. apply Forall_singleton.
      split; [apply severity_in|by apply cat_cons_ne|by right; exists f].
Qed.

Lemma oneWayAudioRule_ok : rule_ok oneWayAudioRule.
Proof. intros ctx agg _. unfold oneWayAudioRule. cbn [Check]. run_rule. Qed.

(** The alerts of the first loop are those of its keys. *)
Record scan_ok (flows : list FlowSummary) (st : port_scan) : Prop := {
  scan_known : forall key, key ∈ up_order st <-> is_Some (up_byKey st !! key);
  scan_alerts : forall key a, up_byKey st !! key = Some a -> alert_ok flows a;
}.

Lemma unusual_port_alert_ok flows f ports : f ∈ flows -> alert_ok flows (unusual_port_alert f ports).
Proof.
  intros Hf. split; [apply severity_in|by apply cat_cons_ne|by right; exists f].
Qed.

Lemma scan_port_ok flows st f : f ∈ flows -> scan_ok flows st -> scan_ok flows (scan_port st f).
Proof.
  intros Hf [Hk Ha]. unfold scan_port. destruct (standardPorts !! _) as [ports|]; [|done].
  destruct (_ || _); [done|]. destruct (up_byKey st !! unusual_port_key f) as [a|] eqn:E; [done|].
  split; cbn [up_order up_byKey]; intros key.
  - rewrite elem_of_app, list_elem_of_singleton, lookup_insert_is_Some', Hk. naive_solver.
  - intros a Hl. apply lookup_insert_Some in Hl as [[_ <-]|[_ Hl]]; [by apply unusual_port_alert_ok|by eapply Ha].
Qed.

Lemma scan_ports_ok flows : forall l st, (forall f, f ∈ l -> f ∈ flows) -> scan_ok flows st ->
  scan_ok flows (foldl scan_port st l).
Proof.
  induction l as [|f l IH]; intros st Hl Hst; [done|]. cbn. apply IH; [intros g Hg; apply Hl; by right|].
  apply scan_port_ok; [apply Hl; by left|done].
Qed.

Lemma unusualPortRule_ok : rule_ok unusualPortRule.
Proof.
  intros ctx agg _. unfold unusualPortRule. cbn [Check].
  assert (scan_ok (ctx_Flows ctx) (foldl scan_port {| up_order := []; up_byKey := ∅; up_counts := ∅ |} (ctx_Flows ctx))) as [Hk Ha].
  { apply scan_ports_ok; [done|]. split; cbn; [|done]. intros key. split; [by intros ?%not_elem_of_nil|by intros [? ?]]. }
  apply returns_collect. intros key Hkey. apply Hk in Hkey as [a Hl]. rewrite Hl. cbn.
  apply Forall_singleton. destruct (Ha _ _ Hl) as [Hsev Htitle Hflow]. by split.
Qed.

Lemma tunnel_stat_returns st name q r : returns (tunnel_stat st name q r) (fun _ => True).
Proof.
  unfold tunnel_stat. cbv zeta. apply (returns_bind_weak _ _ (fun _ => True)); [|done].
  destruct (0 <? index _ _) eqn:E; [|done]. apply returns_bind. unfold slice_to. apply returns_slice; [|done].
  unfold index in *. destruct (index_nat (gobytes ".") (gobytes name)) as [i|] eqn:Ei; [|done].
  apply index_nat_Some in Ei as (t & _ & Hi). unfold zlen. lia.
Qed.

Lemma dnsTunnelingRule_ok : rule_ok dnsTunnelingRule.
Proof.
  intros ctx agg _. unfold dnsTunnelingRule. cbn [Check].
  apply (returns_bind_weak _ _ (fun _ => True)).
  - apply returns_foldM; [done|]. intros stats f _ _. unfold tunnel_step. destruct (negb _); [done|].
    cbv zeta. destruct (String.eqb _ _); [done|].
    apply (returns_bind_weak _ _ (fun _ => True)); [apply tunnel_stat_returns|done].
  - intros stats _. apply returns_collect. intros [base st] _. cbn [returns]. unfold tunnel_alert.
    destruct (_ <? 5); [by constructor|]. destruct (tunnel_score st) as [score reasons].
    destruct (score <? 3); [by constructor|]. apply Forall_singleton.
    split; [apply severity_banded|by apply cat_cons_ne|by left].
Qed.

Lemma hijack_byes (flows : list FlowSummary) : forall (l : list FlowSummary) st, (forall f, f ∈ l -> f ∈ flows) ->
  (forall f, f ∈ snd st -> f ∈ flows) -> forall f, f ∈ snd (foldl hijack_step st l) -> f ∈ flows.
Proof.
  induction l as [|g l IH]; intros st Hl Hst; [done|]. cbn. apply IH; [intros f Hf; apply Hl; by right|].
  intros f. unfold hijack_step. destruct (negb _); [apply Hst|]. cbn [snd]. cbv zeta.
  destruct (_ || _); [|apply Hst]. rewrite elem_of_app, list_elem_of_singleton.
  intros [Hf| ->]; [by apply Hst|]. apply Hl. by left.
Qed.

Lemma sipCallHijackRule_ok : rule_ok sipCallHijackRule.
Proof.
  intros ctx agg _. unfold sipCallHijackRule. cbn [Check].
  pose proof (hijack_byes (ctx_Flows ctx) (ctx_Flows ctx) (∅, []) (fun _ Hf => Hf)) as Hb.
  destruct (foldl hijack_step (∅, []) (ctx_Flows ctx)) as [established byes]. cbn [snd] in Hb.
  apply returns_collect. intros bye Hbye. apply Hb in Hbye; [|by intros f ?%not_elem_of_nil].
  run_rule.
Qed.

Lemma str_split_length sep s : 1 <= zlen (str_split sep s).
Proof.
  unfold str_split, zlen. rewrite length_fmap. pose proof (split_byte_nonempty sep (gobytes s)).
  destruct (split_byte _ _); [done|]. cbn. lia.
Qed.

Lemma dnsDGADetectionRule_ok : rule_ok dnsDGADetectionRule.
Proof.
  intros ctx agg Hagg. unfold dnsDGADetectionRule. cbn [Check]. apply returns_collect. intros f Hf.
  apply of_type_ok. unfold dga_check. cbv zeta. destruct (_ || _); [by constructor|].
  destruct (zlen _ <? 2) eqn:E; [by constructor|].
  apply returns_bind, returns_idx; [lia|]. intros label _.
  apply returns_bind, returns_idx; [lia|]. intros tld _. rewrite Hagg. cbn [mbind res_bind].
  destruct (dga_score _ _ _) as [score reasons]. run_rule.
Qed.

Lemma has_drop_returns action : returns (has_drop action) (fun _ => True).
Proof.
  unfold has_drop. apply (returns_bind_weak _ _ (fun _ => True)); [|done].
  apply (returns_loop (fun i => 0 <= i) (fun i => Z.to_nat (zlen (gobytes action) - i))); [|lia|].
  - intros i Hi. unfold drop_body. destruct (i + 3 <? _) eqn:E; [|done].
    apply returns_bind, returns_slice; [lia|]. destruct (bool_decide _); [done|]. cbn. split; lia.
  - rewrite <-slen_gobytes. unfold slen. lia.
Qed.

Lemma int_div_returns a b : b <> 0 -> returns (int_div a b) (fun _ => True).
Proof. intros Hb. unfold int_div. by rewrite (proj2 (Z.eqb_neq b 0)). Qed.

Lemma rules5gc_ok : Forall rule_ok Builtin5GCRules.
Proof.
  repeat constructor; intros ctx agg _;
    unfold nasAuthFailureStormRule, pduSessionFloodRule, pfcpDropActionAnomalyRule, sbiErrorRateRule,
      gtpTunnelFloodRule, nfRegistrationStormRule; cbn [Check]; cbv zeta; try by run_rule.
  - apply (returns_bind_weak _ _ (fun _ => True)).
    + apply returns_foldM; [done|]. intros [t d] f _ _. unfold pfcp_step. destruct (negb _); [done|].
      cbv zeta. destruct (String.eqb _ _); [done|].
      apply (returns_bind_weak _ _ _ _ (has_drop_returns _)). done.
    + intros [t d] _. destruct (_ && _) eqn:E; [|by constructor].
      apply (returns_bind_weak _ _ (fun _ => True)); [apply int_div_returns; lia|]. intros pct _. run_rule.
  - apply (returns_bind_weak _ _ (fun _ => True)).
    + apply returns_foldM; [done|]. intros [t e] f _ _. unfold sbi_step. destruct (negb _); [done|].
      destruct (negb _); [done|]. cbv zeta. apply (returns_bind_weak _ _ (fun _ => True)); [|done].
      destruct (0 <? slen _) eqn:E; [|done]. apply returns_bind, returns_idx; [|done].
      rewrite <-slen_gobytes. lia.
    + intros [t e] _. destruct (_ && _) eqn:E; [|by constructor].
      apply (returns_bind_weak _ _ (fun _ => True)); [apply int_div_returns; lia|]. intros pct _. run_rule.
Qed.

Lemma builtin_rules_ok : Forall rule_ok (BuiltinRules ++ Builtin5GCRules).
Proof.
  apply Forall_app. split; [|apply rules5gc_ok].
  pose proof quality_rules_ok as Hq. pose proof failure_rules_ok as Hf. pose proof count_rules_ok as Hc.
  pose proof tls_rules_ok as Ht. pose proof endpoint_rules_ok as He.
  repeat rewrite Forall_cons in Hq. repeat rewrite Forall_cons in Hf. repeat rewrite Forall_cons in Hc.
  repeat rewrite Forall_cons in Ht. repeat rewrite Forall_cons in He.
  pose proof sipErrorRule_ok. pose proof oneWayAudioRule_ok. pose proof unusualPortRule_ok.
  pose proof dnsTunnelingRule_ok. pose proof sipCallHijackRule_ok. pose proof dnsDGADetectionRule_ok.
  unfold BuiltinRules. repeat rewrite Forall_cons. destruct_and?. split_and!; try assumption.
Qed.
End rules_ok.

(** ** Unusual ports: one alert per conversation *)

Definition suspicious (f : FlowSummary) : bool :=
  match standardPorts !! fs_Type f with
  | Some ports => negb (bool_decide (fs_SrcPort f ∈ ports) || bool_decide (fs_DstPort f ∈ ports))
  | None => false
  end.
Definition expected_ports (f : FlowSummary) : list Z := default [] (standardPorts !! fs_Type f).

(** The first flow of each key, in order. *)
Fixpoint firsts (l : list FlowSummary) : list FlowSummary :=
  match l with
  | [] => []
  | f :: l => f :: filter (fun g => unusual_port_key g <> unusual_port_key f) (firsts l)
  end.
Definition occurrences (k : unusualPortKey) (l : list FlowSummary) : Z :=
  zlen (filter (fun g => unusual_port_key g = k) l).
Definition first_with (k : unusualPortKey) (l : list FlowSummary) : option FlowSummary :=
  snd <$> list_find (fun g => unusual_port_key g = k) l.

Lemma first_with_snoc k l f :
  first_with k (l ++ [f]) =
  match first_with k l with
  | Some g => Some g
  | None => if decide (unusual_port_key f = k) then Some f else None
  end.
Proof.
  unfold first_with. destruct (list_find (fun g => unusual_port_key g = k) l) as [[i g]|] eqn:E.
  - by rewrite (list_find_app_l _ _ _ _ _ E).
  - rewrite (list_find_app_r _ _ _ E). cbn. by destruct (decide (unusual_port_key f = k)).
Qed.

Lemma first_with_firsts k l f :
  f ∈ firsts l -> unusual_port_key f = k -> first_with k l = Some f.
Proof.
  unfold first_with. intros Hf <-. induction l as [|g l IH]; [by apply not_elem_of_nil in Hf|]. cbn in *.
  apply elem_of_cons in Hf as [->|Hf]; [by rewrite decide_True|].
  apply list_elem_of_filter in Hf as [Hne Hf]. rewrite decide_False by congruence.
  specialize (IH Hf). by destruct (list_find _ l) as [[? ?]|].
Qed.

Lemma first_with_None k l : first_with k l = None <-> k ∉ unusual_port_key <$> l.
Proof.
  unfold first_with. rewrite fmap_None, list_find_None, Forall_forall, list_elem_of_fmap. naive_solver.
Qed.

Lemma firsts_snoc l f :
  firsts (l ++ [f]) = firsts l ++
    match first_with (unusual_port_key f) l with Some _ => [] | None => [f] end.
Proof.
  unfold first_with. induction l as [|g l IH]; cbn; [done|]. rewrite IH, filter_app. case_decide as E; cbn.
  - f_equal. rewrite app_nil_r. destruct (list_find _ l) as [[? ?]|]; cbn; [by rewrite app_nil_r|].
    rewrite decide_False by by intros []. by rewrite app_nil_r.
  - f_equal. destruct (list_find _ l) as [[? ?]|]; cbn; [done|]. by rewrite decide_True by congruence.
Qed.

Lemma occurrences_snoc k l f :
  occurrences k (l ++ [f]) = occurrences k l + if decide (unusual_port_key f = k) then 1 else 0.
Proof.
  unfold occurrences. rewrite filter_app, zlen_app. f_equal. rewrite filter_cons. by case_decide.
Qed.

Lemma scan_port_eq st f :
  scan_port st f =
  if suspicious f then
    {| up_order := up_order st ++ match up_byKey st !! unusual_port_key f with Some _ => [] | None => [unusual_port_key f] end;
       up_byKey := match up_byKey st !! unusual_port_key f with
                   | Some _ => up_byKey st
                   | None => <[unusual_port_key f := unusual_port_alert f (expected_ports f)]> (up_byKey st)
                   end;
       up_counts := bump (unusual_port_key f) 1 (up_counts st) |}
  else st.
Proof.
  unfold scan_port, suspicious, expected_ports. destruct (standardPorts !! fs_Type f) as [ports|]; [|done].
  destruct (_ || _); [done|]. cbn [negb default]. cbv zeta.
  destruct (up_byKey st !! unusual_port_key f); [by rewrite app_nil_r|done].
Qed.

(** The first loop, against the suspicious flows it has seen. *)
Lemma scan_ports_spec flows :
  let st := foldl scan_port {| up_order := []; up_byKey := ∅; up_counts := ∅ |} flows in
  let sus := filter (fun f => suspicious f = true) flows in
  up_order st = unusual_port_key <$> firsts sus /\
  (forall k, up_byKey st !! k = (fun f => unusual_port_alert f (expected_ports f)) <$> first_with k sus) /\
  (forall k, map_int (up_counts st) k = i64 (occurrences k sus)).
Proof.
  cbv zeta. induction flows as [|f flows (IHo & IHk & IHc)] using rev_ind; [done|].
  rewrite foldl_app, filter_app. cbn [foldl]. set (st := foldl _ _ flows) in *.
  set (sus := filter _ flows) in *. rewrite scan_port_eq, filter_cons, filter_nil.
  destruct (suspicious f) eqn:Es; [rewrite decide_True by done|by rewrite decide_False, app_nil_r by done].
  rewrite IHk, firsts_snoc.
  assert (forall k, map_int (bump (unusual_port_key f) 1 (up_counts st)) k = i64 (occurrences k (sus ++ [f]))) as Hc.
  { intros k. rewrite occurrences_snoc. unfold bump, map_int at 1.
    destruct (decide (unusual_port_key f = k)) as [->|Hne].
    - by rewrite lookup_insert_eq, IHc, i64_add_l.
    - rewrite lookup_insert_ne by done. fold (map_int (up_counts st) k). by rewrite IHc, Z.add_0_r. }
  destruct (first_with (unusual_port_key f) sus) as [g|] eqn:Eg; cbn [fmap option_fmap option_map up_order up_byKey up_counts].
  - rewrite !app_nil_r. split; [done|]. split; [|done]. intros k. rewrite first_with_snoc, IHk.
    destruct (first_with k sus) eqn:Ek; [done|]. rewrite decide_False; [done|]. intros <-. congruence.
  - rewrite fmap_app, IHo. split; [done|]. split; [|done]. intros k. rewrite first_with_snoc.
    destruct (decide (unusual_port_key f = k)) as [<-|Hne].
    + by rewrite lookup_insert_eq, Eg.
    + rewrite lookup_insert_ne, IHk by done. by destruct (first_with k sus).
Qed.

Lemma collect_each {A B} (g : A -> res (list B)) (h : A -> B) l :
  (forall x, x ∈ l -> g x = Ok [h x]) -> collect g l = Ok (h <$> l).
Proof.
  intros Hg. unfold collect. change (h <$> l) with ([] ++ (h <$> l)). generalize (@nil B) as acc.
  induction l as [|x l IH]; intros acc; cbn [foldM fmap list_fmap]; [by rewrite app_nil_r|].
  rewrite Hg by by left. cbn [mbind res_bind]. rewrite IH by (intros; apply Hg; by right).
  by rewrite <-app_assoc.
Qed.

(** Traffic on unusual ports raises one alert per conversation. On any
    flows the rule Unusual Port makes one alert for the first flow of each
    protocol, addresses and ports among the flows that touch no standard port
    of their protocol, in order of first appearance, and its count is the
    number of such flows. *)
Theorem unusual_port_exact ctx :
  let sus := filter (fun f => suspicious f = true) (ctx_Flows ctx) in
  Check unusualPortRule ctx =
    Ok ((fun f => set_occurrences (i64 (occurrences (unusual_port_key f) sus))
                    (unusual_port_alert f (expected_ports f))) <$> firsts sus) /\
  NoDup (unusual_port_key <$> firsts sus) /\
  (forall f, f ∈ sus -> unusual_port_key f ∈ unusual_port_key <$> firsts sus).
Proof.
  cbv zeta. set (sus := filter _ _). split; [|split].
  - unfold unusualPortRule. cbn [Check]. pose proof (scan_ports_spec (ctx_Flows ctx)) as (Ho & Hk & Hc).
    set (st := foldl _ _ _) in *. fold sus in Ho, Hk, Hc. rewrite Ho.
    set (alert := fun k => match first_with k sus with
      | Some f => set_occurrences (i64 (occurrences k sus)) (unusual_port_alert f (expected_ports f))
      | None => mk_alert "" "" "" "" "" ∅ end).
    rewrite (collect_each _ alert).
    + f_equal. rewrite <-list_fmap_compose. apply list_fmap_ext. intros i f Hf. cbn. unfold alert.
      rewrite (first_with_firsts _ sus f); [done|by eapply list_elem_of_lookup_2|done].
    + intros k (f & -> & Hf)%list_elem_of_fmap. unfold alert. rewrite Hk, Hc, (first_with_firsts _ sus f) by done.
      done.
  - generalize sus. clear. intros l. induction l as [|f l IH]; cbn; [constructor|].
    apply NoDup_cons. split.
    + rewrite list_elem_of_fmap. intros (g & Hg & Hin). apply list_elem_of_filter in Hin as [Hne _]. congruence.
    + clear -IH. induction (firsts l) as [|g gs IHg]; [constructor|]. rewrite filter_cons.
      rewrite fmap_cons in IH. apply NoDup_cons in IH as [Hg Hn]. case_decide; [|by apply IHg].
      rewrite fmap_cons. apply NoDup_cons. split; [|by apply IHg].
      rewrite list_elem_of_fmap in *. intros (h & Eh & Hh). apply Hg. exists h. split; [done|].
      by apply list_elem_of_filter in Hh as [_ ?].
  - generalize sus. clear. intros l. induction l as [|f l IH]; [by intros f ?%not_elem_of_nil|].
    intros g [->|Hg]%elem_of_cons; cbn; [by left|]. destruct (decide (unusual_port_key g = unusual_port_key f)) as [->|Hne]; [by left|].
    right. specialize (IH g Hg). rewrite list_elem_of_fmap in *. destruct IH as (h & Eh & Hh). exists h.
    split; [done|]. apply list_elem_of_filter. split; [congruence|done].
Qed.
