(* ===== verification/Builtin.v ===== *)
(** * internal/plugin/builtin.go and the use of the registries

    What init registers: the protocol plugins in their order, a plugin for each
    detection rule, and the AI providers whose key is in the environment; and
    the detection part of internal/execution/executor.go, which runs the rules
    of the enabled plugins and the user's rules. The decoders' constructors,
    the environment and the providers are parameters. *)
From S2P Require Export Registry.
From S2P Require Export Rules.

(** ** registerProtocolPlugins *)

Definition protocol_manifest (name desc : string) (tags protos : list string) (ports : list Z) : Manifest :=
  {| Name := name; Version := "1.0.0"; Author := "builtin"; M_Description := desc;
     M_Category := CategoryProtocol; Tags := tags; Protocols := protos; Ports := ports; M_Severity := "";
     CostTier := ""; MaxTokens := 0; Capabilities := [] |}.

(** The manifests and the constructors, in the order of registration. *)
Definition first_protocols : list (Manifest * string) :=
  [(protocol_manifest "sip" "SIP (Session Initiation Protocol) decoder — IMS/VoIP call signalling"
      ["voip"; "ims"; "sip"; "telecom"] ["SIP"] [5060; 5061]%Z, "sip.NewDecoder");
   (protocol_manifest "rtp" "RTP (Real-time Transport Protocol) decoder — voice/video media streams"
      ["voip"; "media"; "rtp"; "telecom"] ["RTP"] []%Z, "rtp.NewDecoder");
   (protocol_manifest "dns" "DNS (Domain Name System) decoder — query/response analysis"
      ["dns"; "resolution"; "network"] ["DNS"] [53]%Z, "dns.NewDecoder");
   (protocol_manifest "http1" "HTTP/1.x decoder — request/response header and body analysis"
      ["http"; "web"; "api"] ["HTTP"] [80; 8080]%Z, "http1.NewDecoder");
   (protocol_manifest "tls" "TLS/SSL decoder — handshake analysis, cipher suite and certificate inspection"
      ["tls"; "ssl"; "security"; "encryption"] ["TLS"] [443; 8443]%Z, "tls.NewDecoder");
   (protocol_manifest "diameter" "Diameter protocol decoder — 4G/5G authentication, policy, and accounting"
      ["diameter"; "4g"; "ims"; "aaa"; "telecom"] ["Diameter"] [3868]%Z, "diameter.NewDecoder");
   (protocol_manifest "gtp" "GTP (GPRS Tunnelling Protocol) decoder — 4G/5G user and control plane tunnels"
      ["gtp"; "4g"; "5g"; "tunneling"; "telecom"] ["GTP"] [2123; 2152]%Z, "gtp.NewDecoder");
   (protocol_manifest "pfcp" "PFCP (Packet Forwarding Control Protocol) decoder — 5G UPF session management"
      ["pfcp"; "5g"; "upf"; "telecom"] ["PFCP"] [8805]%Z, "pfcp.NewDecoder")]%string.
Definition later_protocols : list (Manifest * string) :=
  [(protocol_manifest "s1ap" "S1AP decoder — 4G LTE eNB-to-MME interface signalling"
      ["s1ap"; "4g"; "lte"; "enb"; "mme"; "telecom"] ["S1AP"] [36412]%Z, "s1ap.NewDecoder");
   (protocol_manifest "ngap" "NGAP decoder — 5G NR gNB-to-AMF N2 interface signalling"
      ["ngap"; "5g"; "gnb"; "amf"; "telecom"] ["NGAP"] [38412]%Z, "ngap.NewDecoder");
   (protocol_manifest "websocket" "WebSocket decoder — full-duplex browser/server communication over HTTP upgrade"
      ["websocket"; "web"; "realtime"] ["WebSocket"] [80; 443]%Z, "websocket.NewDecoder");
   (protocol_manifest "http2" "HTTP/2 decoder — 5G SBI (Service Based Interface) API calls between NFs"
      ["http2"; "sbi"; "5g"; "nf"; "rest"; "telecom"] ["HTTP2"; "SBI"] [80; 443; 8080; 8443; 7777]%Z, "http2.NewDecoder");
   (protocol_manifest "nas5g" "NAS-5GS decoder — 5G Non-Access Stratum mobility and session management (3GPP TS 24.501)"
      ["nas"; "5g"; "ue"; "amf"; "registration"; "telecom"] ["NAS5G"] [38412]%Z, "nas5g.NewDecoder");
   (protocol_manifest "flowengine" "Generic 5-tuple flow tracker — TCP/UDP metrics, RTT, retransmissions (catch-all)"
      ["flow"; "tcp"; "udp"; "metrics"] ["ALL"] []%Z, "flowengine.NewTracker");
   (protocol_manifest "ajp" "AJP13 (Apache JServ Protocol) decoder — method/URI/headers and SOAPAction for Apache-to-servlet-container traffic"
      ["ajp"; "http"; "soap"; "tomcat"] ["AJP"] [8009]%Z, "ajp.NewDecoder");
   (protocol_manifest "snmp" "SNMP v1/v2c decoder — community string, PDU type, error status, and variable bindings"
      ["snmp"; "network-management"] ["SNMP"] [161; 162]%Z, "snmp.NewDecoder")]%string.

Definition builtin_protocols : list (Manifest * string) := first_protocols ++ later_protocols.

(** [new_decoder_of] is the constructor of that name. *)
Definition registerProtocolPlugins {D} (new_decoder_of : string -> unit -> D) (now : time) :
    registry (option (unit -> D)) :=
  foldl (fun r mc => Register now {| p_manifest := fst mc; p_enabled := true;
      p_provides := Some (new_decoder_of (snd mc)); p_loadedAt := 0 |} r) NewRegistry builtin_protocols.

(** ** registerDetectionPlugins *)

Definition ruleMetas : gmap string (list string * string * string) := list_to_map
  [("SIP Error Responses", (["sip"; "voip"; "errors"], "warning", "1.0.0"));
   ("RTP Packet Loss", (["rtp"; "media"; "quality"], "warning", "1.0.0"));
   ("RTP High Jitter", (["rtp"; "media"; "quality"], "warning", "1.0.0"));
   ("DNS Errors", (["dns"; "resolution"; "errors"], "warning", "1.0.0"));
   ("Diameter Non-Success", (["diameter"; "aaa"; "errors"], "error", "1.0.0"));
   ("GTP Failures", (["gtp"; "tunneling"; "errors"], "error", "1.0.0"));
   ("PFCP Failures", (["pfcp"; "upf"; "errors"], "error", "1.0.0"));
   ("One-Way Audio", (["rtp"; "voip"; "quality"], "warning", "1.0.0"));
   ("Packet Volume Spike", (["volume"; "anomaly"], "warning", "1.0.0"));
   ("Oversized Packets", (["volume"; "anomaly"], "warning", "1.0.0"));
   ("Packet Flood", (["flood"; "dos"; "security"], "error", "1.0.0"));
   ("Unusual Port", (["port"; "anomaly"; "security"], "warning", "1.0.0"));
   ("Protocol Mismatch", (["protocol"; "anomaly"; "security"], "error", "1.0.0"));
   ("Source Fan-Out (Scanning)", (["scanning"; "security"; "anomaly"], "warning", "1.0.0"));
   ("Traffic Concentration", (["traffic"; "anomaly"], "warning", "1.0.0"));
   ("Repeated Failures", (["errors"; "anomaly"], "warning", "1.0.0"));
   ("SIP REGISTER Flood", (["sip"; "flood"; "security"], "warning", "1.0.0"));
   ("DNS Query Flood", (["dns"; "flood"; "security"], "warning", "1.0.0"));
   ("Long Duration Flow", (["duration"; "anomaly"], "warning", "1.0.0"));
   ("Traffic Burst", (["burst"; "anomaly"], "warning", "1.0.0"));
   ("RTP Jitter Variance", (["rtp"; "jitter"; "quality"], "warning", "1.0.0"));
   ("DNS Slow Response", (["dns"; "latency"; "quality"], "warning", "1.0.0"));
   ("SIP Slow Setup", (["sip"; "latency"; "quality"], "warning", "1.0.0"));
   ("QoS Degradation", (["rtp"; "qos"; "quality"], "warning", "1.0.0"));
   ("SIP Registration Brute Force", (["sip"; "bruteforce"; "security"], "critical", "1.0.0"));
   ("DNS Tunneling", (["dns"; "tunneling"; "security"], "critical", "1.0.0"));
   ("VoIP Call Drop", (["sip"; "voip"; "reliability"], "warning", "1.0.0"));
   ("TLS Downgrade", (["tls"; "security"; "crypto"], "error", "1.0.0"));
   ("SIP OPTIONS Scanning", (["sip"; "scanning"; "security"], "warning", "1.0.0"));
   ("SIP INVITE Flood / Toll Fraud", (["sip"; "flood"; "fraud"; "security"], "critical", "1.0.0"));
   ("SIP Call Hijack", (["sip"; "hijack"; "security"], "critical", "1.0.0"));
   ("DNS DGA / C2 Domain", (["dns"; "dga"; "c2"; "security"], "critical", "1.0.0"));
   ("DNS Fast-Flux", (["dns"; "fastflux"; "security"], "error", "1.0.0"));
   ("TLS Weak Cipher", (["tls"; "cipher"; "security"], "error", "1.0.0"));
   ("TLS JA3 Fingerprint", (["tls"; "ja3"; "fingerprint"; "security"], "warning", "1.0.0"));
   ("TLS Self-Signed Certificate", (["tls"; "certificate"; "security"], "warning", "1.0.0"));
   ("NAS Auth Failure Storm", (["nas5g"; "5g"; "auth"; "security"], "critical", "1.0.0"));
   ("PDU Session Flood", (["nas5g"; "5g"; "pdu"; "flood"], "warning", "1.0.0"));
   ("PFCP Session Anomaly", (["pfcp"; "5g"; "upf"; "anomaly"], "warning", "1.0.0"));
   ("SBI Error Rate", (["http2"; "sbi"; "5g"; "errors"], "warning", "1.0.0"));
   ("GTP-U Tunnel Flood", (["gtp"; "5g"; "tunnel"; "flood"], "warning", "1.0.0"));
   ("NF Registration Storm", (["nrf"; "5g"; "sbi"; "flood"], "warning", "1.0.0"))]%string.

Definition default_meta : list string * string * string := (["detection"], "warning", "1.0.0")%string.

Definition rule_plugin (rule : Rule) : plugin Rule :=
  let '(tags, severity, version) := default default_meta (ruleMetas !! ru_Name rule) in
  {| p_manifest := {| Name := ru_Name rule; Version := version; Author := "builtin";
       M_Description := "Built-in detection rule: " +:+ ru_Name rule; M_Category := CategoryDetection;
       Tags := tags; Protocols := [ru_Protocol rule]; Ports := []; M_Severity := severity;
       CostTier := ""; MaxTokens := 0; Capabilities := [] |};
     p_enabled := true; p_provides := rule; p_loadedAt := 0 |}.

Definition register_rules (now : time) (rules : list Rule) : registry Rule :=
  foldl (fun r rule => Register now (rule_plugin rule) r) NewRegistry rules.

Definition registerDetectionPlugins `{Unicode} `{MapRange} `{GoLib} (now : time) : registry Rule :=
  register_rules now (BuiltinRules ++ Builtin5GCRules).

(** ** registerAIPlugins *)

Definition ai_manifest (name desc : string) (tags : list string) (maxTokens : Z) : Manifest :=
  {| Name := name; Version := "1.0.0"; Author := "builtin"; M_Description := desc;
     M_Category := CategoryAI; Tags := tags; Protocols := []; Ports := []; M_Severity := "";
     CostTier := "paid"; MaxTokens := maxTokens; Capabilities := ["chat"; "stream"; "analysis"] |}.

Definition ai_plugins : list (string * Manifest) :=
  [("ANTHROPIC_API_KEY", ai_manifest "claude"
      "Anthropic Claude — state-of-the-art LLM for traffic analysis and chat" ["anthropic"; "claude"; "llm"] 200000);
   ("OPENAI_API_KEY", ai_manifest "openai"
      "OpenAI GPT — versatile language model for traffic analysis and chat" ["openai"; "gpt"; "llm"] 128000);
   ("GEMINI_API_KEY", ai_manifest "gemini"
      "Google Gemini — multimodal LLM for traffic analysis and chat" ["google"; "gemini"; "llm"] 1000000)]%string.

(** [Getenv] is the environment, [new_provider] makes a provider of a name
    with a key. *)
Definition registerAIPlugins {A} (Getenv : string -> string) (new_provider : string -> string -> A)
    (now : time) : AIRegistry A :=
  foldl (fun r em =>
    let key := Getenv (fst em) in
    if String.eqb key "" then r
    else AI_Register now {| p_manifest := snd em; p_enabled := true;
           p_provides := new_provider (Name (snd em)) key; p_loadedAt := 0 |} r) NewAIRegistry ai_plugins.

(** ** executor.go: rule-based detection *)

Definition detect `{Unicode} `{MapRange} `{GoLib} Unmarshal (fresh : nat -> string * time)
    (detectionReg : option (registry Rule)) (records : option (list UserDetectionRule)) (flows : list Flow) :
    res (list Alert) :=
  baseRules ← match detectionReg with
              | Some r => ActiveRules r
              | None => Ok (BuiltinRules ++ Builtin5GCRules)
              end;
  let detector := NewEngineWithRules (baseRules ++ LoadUserRules Unmarshal records) in
  '(_, alerts) ← RunOnFlows fresh detector flows;
  Ok alerts.

(** ** The registry that init leaves *)

Lemma upsert_fresh {A} (p : plugin A) l : p_name p ∉ p_name <$> l -> upsert p l = l ++ [p].
Proof.
  induction l as [|q l IH]; intros Hp; [done|]. cbn. rewrite fmap_cons, not_elem_of_cons in Hp.
  destruct Hp as [Hne Hp]. destruct (String.eqb_spec (p_name q) (p_name p)); [congruence|]. by rewrite IH.
Qed.

Lemma rule_plugin_spec rule :
  p_name (rule_plugin rule) = ru_Name rule /\ p_enabled (rule_plugin rule) = true /\
  p_provides (rule_plugin rule) = rule.
Proof. unfold rule_plugin. by destruct (default _ _) as [[tags sev] version]. Qed.

Lemma register_rules_spec now rules :
  NoDup (ru_Name <$> rules) ->
  represents (register_rules now rules) ((fun rule => set_loaded now (rule_plugin rule)) <$> rules).
Proof.
  unfold register_rules. induction rules as [|rule rules IH] using rev_ind; intros Hn; [apply represents_new|].
  rewrite fmap_app in Hn. apply NoDup_app in Hn as (Hn & Hd & _).
  rewrite foldl_app, fmap_app. cbn [foldl fmap list_fmap].
  pose proof (represents_register now (rule_plugin rule) _ _ (IH Hn)) as Hr.
  rewrite upsert_fresh in Hr; [done|]. rewrite <-list_fmap_compose.
  change (p_name (set_loaded now (rule_plugin rule))) with (p_name (rule_plugin rule)).
  rewrite (proj1 (rule_plugin_spec rule)). intros (r & Er & Hin)%list_elem_of_fmap. cbn in Er.
  change (p_name (set_loaded now (rule_plugin r))) with (p_name (rule_plugin r)) in Er.
  rewrite (proj1 (rule_plugin_spec r)) in Er. apply (Hd (ru_Name rule)); [|by left].
  rewrite Er. by apply list_elem_of_fmap_2.
Qed.

Lemma ActiveRules_spec {A} (r : registry A) l : represents r l -> ActiveRules r = Ok (omap provided l).
Proof.
  intros Hr. unfold ActiveRules. rewrite (represents_loop _ _ _ _ Hr). f_equal. apply (foldl_provided []).
Qed.

Section builtin.
Context `{Unicode} `{MapRange} `{GoLib}.

Lemma builtin_names : NoDup (ru_Name <$> BuiltinRules ++ Builtin5GCRules).
Proof. apply (bool_decide_unpack _). by vm_compute. Qed.

(** All the built-in rules are active, in the order of the two lists. *)
Lemma builtin_active now : ActiveRules (registerDetectionPlugins now) = Ok (BuiltinRules ++ Builtin5GCRules).
Proof.
  unfold registerDetectionPlugins. rewrite (ActiveRules_spec _ _ (register_rules_spec now _ builtin_names)).
  reflexivity.
Qed.

(** The rules that registerDetectionPlugins has no metadata for. *)
Lemma rules_without_meta :
  filter (fun name => ruleMetas !! name = None) (ru_Name <$> BuiltinRules ++ Builtin5GCRules) =
  ["TCP SYN Flood"; "ICMP Flood"; "Suspicious TCP RST (Possible Injected Reset)"]%string.
Proof. by vm_compute. Qed.

(** Enabling and disabling plugins after init. *)
Definition toggle {A} (name_on : string * bool) : op A :=
  if snd name_on then OpEnable (fst name_on) else OpDisable (fst name_on).
Definition toggled (reg : registry Rule) (toggles : list (string * bool)) : registry Rule :=
  foldl (fun r t => fst (apply_op "detection" r (toggle t))) reg toggles.

Lemma toggled_spec toggles reg l :
  represents reg l -> Forall (fun p => rule_ok (p_provides p)) l ->
  exists l', represents (toggled reg toggles) l' /\ Forall (fun p => rule_ok (p_provides p)) l'.
Proof.
  revert reg l. induction toggles as [|t toggles IH]; intros reg l Hr Hl; [by exists l|]. cbn.
  destruct (represents_op "detection" reg l (toggle t) Hr) as [Hr' _]. eapply IH; [exact Hr'|].
  unfold toggle. destruct (snd t); cbn; unfold flag; apply Forall_fmap; (eapply Forall_impl; [exact Hl|]);
    intros q Hq; cbn; by destruct (String.eqb _ _).
Qed.

Lemma check_rules_app ctx rs ss :
  check_rules ctx (rs ++ ss) = xs ← check_rules ctx rs;
    foldM (fun allAlerts rule => alerts ← Check rule ctx; Ok (allAlerts ++ alerts)) xs ss.
Proof. apply foldM_app. Qed.

Lemma check_rules_ok ctx agg rules :
  ctx_Aggregates ctx = Some agg -> Forall rule_ok rules ->
  returns (check_rules ctx rules) (Forall (alert_ok (ctx_Flows ctx))).
Proof.
  intros Hagg Hr. change (check_rules ctx rules) with (collect (fun rule => Check rule ctx) rules).
  apply returns_collect. intros rule Hin. rewrite Forall_forall in Hr. by eapply Hr.
Qed.

(** A user's rule makes at most one alert, about no flow. *)
Lemma user_rules_check Unmarshal records ctx acc :
  ctx_Aggregates ctx <> None ->
  let rules := LoadUserRules Unmarshal records in
  returns (foldM (fun allAlerts rule => alerts ← Check rule ctx; Ok (allAlerts ++ alerts)) acc rules)
    (fun alerts => exists user, alerts = acc ++ user /\ (length user <= length rules)%nat /\
       Forall (fun a => a_FlowID a = "") user).
Proof.
  intros Hagg. cbv zeta. unfold LoadUserRules. generalize (default [] records) as recs. intros recs.
  revert acc. induction recs as [|rec recs IH]; intros acc.
  - cbn. exists []. rewrite app_nil_r. split; [done|]. split; [apply Nat.le_0_l|constructor].
  - cbn [omap list_omap]. destruct (negb (ur_Enabled rec)); [apply IH|].
    destruct (UserRuleFromJSON _ _ _ _ _ _ _) as [r|err] eqn:E; [|apply IH].
    cbn [foldM length]. assert (exists user, Check r ctx = Ok user /\ (length user <= 1)%nat /\ Forall (fun a => a_FlowID a = "") user) as (u & Eu & Hu & Hf).
    { unfold UserRuleFromJSON in E. destruct (Unmarshal _) as [rc|]; [|done].
      destruct (_ =? 0)%nat; [done|]. injection E as <-. cbn [Check]. unfold user_check.
      destruct (ctx_Aggregates ctx) as [agg|]; [|done]. destruct (check_conditions _ _ _ _ _) as [m fl].
      destruct (negb _); eexists; (split; [done|]); (split; [cbn; lia|]); [constructor|by apply Forall_singleton]. }
    rewrite Eu. cbn [mbind res_bind]. eapply returns_weaken; [apply IH|].
    intros alerts (user & -> & Hlen & Hall). exists (u ++ user). rewrite <-app_assoc. split; [done|].
    rewrite length_app. split; [lia|]. by apply Forall_app.
Qed.

Lemma stamp_ids fresh alerts :
  a_ID <$> imap (stamp fresh) alerts = (fun i => fst (fresh i)) <$> seq 0 (length alerts).
Proof.
  rewrite fmap_imap.
  assert (forall k, imap (fun i a => a_ID (stamp fresh (k + i) a)) alerts =
    (fun i => fst (fresh i)) <$> seq k (length alerts)) as Hk.
  { induction alerts as [|a alerts IH]; intros k; [done|]. cbn [imap length seq fmap list_fmap].
    f_equal; [cbn; by rewrite Nat.add_0_r|]. rewrite <-(IH (S k)). apply imap_ext. intros i b _. cbn.
    by rewrite Nat.add_succ_r. }
  apply (Hk O).
Qed.

Lemma stamp_ok flows fresh (i : nat) alerts :
  Forall (alert_ok flows) alerts -> Forall (alert_ok flows) (imap (fun j => stamp fresh (i + j)) alerts).
Proof.
  intros Ha. revert i. induction Ha as [|a alerts [Hs Ht Hf] _ IH]; intros i; cbn [imap]; constructor; [by split|].
  specialize (IH (S i)). erewrite imap_ext; [exact IH|]. intros j b _. cbn. by rewrite Nat.add_succ_r.
Qed.

Lemma detect_ok Unmarshal fresh now (o : option (list (string * bool))) records flows :
  returns (detect Unmarshal fresh (toggled (registerDetectionPlugins now) <$> o) records flows) (fun alerts =>
    exists builtin user, alerts = builtin ++ user /\
      Forall (alert_ok (summary_of <$> flows)) builtin /\
      (length user <= length (LoadUserRules Unmarshal records))%nat /\
      a_ID <$> alerts = (fun i => fst (fresh i)) <$> seq 0 (length alerts)).
Proof.
  unfold detect. apply (returns_bind_weak _ _ (Forall rule_ok)).
  - destruct o as [toggles|]; cbn [fmap option_fmap option_map]; [|apply builtin_rules_ok].
    destruct (toggled_spec toggles _ _ (register_rules_spec now _ builtin_names)) as (l & Hr & Hl).
    + apply Forall_fmap. eapply Forall_impl; [apply builtin_rules_ok|]. intros r Hr. cbn.
      by rewrite (proj2 (proj2 (rule_plugin_spec r))).
    + unfold registerDetectionPlugins. rewrite (ActiveRules_spec _ _ Hr).
      cbn. apply Forall_forall. intros r (p & Hp & E)%list_elem_of_omap.
      rewrite Forall_forall in Hl. specialize (Hl p Hp). unfold provided in E.
      destruct (p_enabled p); [|done]. by injection E as <-.
  - intros rules Hrules. cbv zeta. unfold RunOnFlows, NewEngineWithRules. cbn [e_rules e_alerts].
    set (ctx := context_of _). rewrite check_rules_app. apply returns_bind, returns_bind, returns_bind.
    eapply returns_weaken; [by apply (check_rules_ok ctx (computeAggregates (summary_of <$> flows)))|].
    intros builtin Hb. cbv beta. eapply returns_weaken; [by apply user_rules_check|].
    intros alerts (user & -> & Hlen & _). cbn [returns].
    rewrite imap_app. eexists _, _. split; [done|]. split; [by apply (stamp_ok _ fresh 0)|].
    rewrite length_imap. split; [done|]. rewrite <-imap_app. rewrite length_imap. apply stamp_ids.
Qed.

(** C40: rule-based detection is total and its alerts are well formed. With the
    rules init registers, after any enabling and disabling of plugins (or
    without a registry), and with any rules of the user, detection returns on
    any flows: no rule panics, divides by zero or loops. Every alert of a
    built-in rule has a severity of the three levels, a title, and no flow or
    one of the capture; a user's rule makes at most one alert; and the alerts
    carry the IDs in the order in which they were made. *)
Theorem detection_total Unmarshal fresh now (o : option (list (string * bool))) records flows :
  returns (detect Unmarshal fresh (toggled (registerDetectionPlugins now) <$> o) records flows) (fun alerts =>
    exists builtin user, alerts = builtin ++ user /\
      Forall (alert_ok (summary_of <$> flows)) builtin /\
      (length user <= length (LoadUserRules Unmarshal records))%nat /\
      a_ID <$> alerts = (fun i => fst (fresh i)) <$> seq 0 (length alerts)).
Proof. apply detect_ok. Qed.
End builtin.
