(* ===== verification/Analysis.v ===== *)
(** * internal/analysis: MOS, SLA classification and call analysis

    mos.go, sla.go and call_analysis.go, with the [Call] of internal/domain.
    Floats are binary64; a conversion to [int] out of range gives the value the
    gc compiler's conversion gives on amd64 ([min_int]). *)
From S2P Require Export Domain.

(** ** mos.go *)

Definition ComputeMOS (packetLossPct jitterMs latencyMs : f64) : f64 :=
  let R := f_dec 942 1 in
  let R := f_sub R (f_mul packetLossPct (f_dec 25 1)) in
  let R := f_sub R (f_mul jitterMs (f_dec 1 1)) in
  let R :=
    if f_gt latencyMs (f_dec 1773 1) then
      f_sub R (f_add (f_mul (f_dec 24 3) latencyMs)
                     (f_mul (f_dec 11 2) (f_sub latencyMs (f_dec 1773 1))))
    else R in
  let R := if f_lt R (f_int 0) then f_int 0 else R in
  let R := if f_gt R (f_int 100) then f_int 100 else R in
  let mos := f_add (f_add (f_int 1) (f_mul (f_dec 35 3) R))
    (f_mul (f_mul (f_mul R (f_sub R (f_int 60))) (f_sub (f_int 100) R)) (f_dec 7 6)) in
  let mos := if f_lt mos (f_int 1) then f_int 1 else mos in
  let mos := if f_gt mos (f_dec 45 1) then f_dec 45 1 else mos in
  f_div (f_round (f_mul mos (f_int 1000))) (f_int 1000).

Definition QualityFromMOS (mos : f64) : string :=
  if f_ge mos (f_int 4) then "excellent"
  else if f_ge mos (f_dec 36 1) then "good"
  else if f_ge mos (f_dec 31 1) then "fair"
  else if f_ge mos (f_dec 26 1) then "poor"
  else "bad".

(** ** sla.go *)

Inductive SLAVerdict := SLAGood | SLAAcceptable | SLAPoor | SLACritical.
Global Instance SLAVerdict_eq_dec : EqDecision SLAVerdict.
Proof. solve_decision. Defined.

Definition verdict_string (v : SLAVerdict) : string :=
  match v with
  | SLAGood => "good" | SLAAcceptable => "acceptable"
  | SLAPoor => "poor" | SLACritical => "critical"
  end.

Record SLAResult := { Verdict : SLAVerdict; Score : Z; Details : list string }.

Definition verdictFromScore (score : Z) : SLAVerdict :=
  if 80 <=? score then SLAGood
  else if 60 <=? score then SLAAcceptable
  else if 40 <=? score then SLAPoor
  else SLACritical.

(** The [switch] on a measure [x] with the bounds [a], [b] and [c]. *)
Definition grade (x a b c : f64) : string :=
  if f_le x a then "good"
  else if f_le x b then "acceptable"
  else if f_le x c then "poor"
  else "critical".

(** [int(rttMs/500*40)] *)
Definition rtt_points (rttMs : f64) : Z :=
  f_to_int (f_mul (f_div rttMs (f_int 500)) (f_int 40)).

Definition retrans_points (retransPct : f64) : Z :=
  if f_le retransPct (f_int 3) then f_to_int (f_mul (f_div retransPct (f_int 3)) (f_int 30))
  else Z.min (i64 (30 + f_to_int (f_mul (f_div (f_sub retransPct (f_int 3)) (f_int 3)) (f_int 20)))) 90.

Definition ClassifyTCP (rttMs retransPct : f64) : SLAResult :=
  let score := 100 in
  let details := [] in
  let '(score, details) :=
    if f_gt rttMs f_zero then
      let rttPenalty := Z.min (rtt_points rttMs) 40 in
      (i64 (score - rttPenalty),
       details ++ ["RTT " +:+ fmt_f 1 rttMs +:+ "ms ("
         +:+ grade rttMs (f_int 100) (f_int 300) (f_int 500) +:+ ")"])
    else (score, details) in
  let '(score, details) :=
    if f_gt retransPct f_zero then
      (i64 (score - retrans_points retransPct),
       details ++ ["retrans " +:+ fmt_f 2 retransPct +:+ "% ("
         +:+ grade retransPct (f_dec 1 1) (f_int 1) (f_int 3) +:+ ")"])
    else (score, details) in
  let score := Z.max score 0 in
  {| Verdict := verdictFromScore score; Score := score; Details := details |}.

(** [int(jitterMs/100*40)] and [int(lossPct/5*60)] *)
Definition jitter_points (jitterMs : f64) : Z :=
  f_to_int (f_mul (f_div jitterMs (f_int 100)) (f_int 40)).
Definition loss_points (lossPct : f64) : Z :=
  f_to_int (f_mul (f_div lossPct (f_int 5)) (f_int 60)).

Definition ClassifyRTP (jitterMs lossPct : f64) : SLAResult :=
  let score := 100 in
  let details := [] in
  let '(score, details) :=
    if f_gt jitterMs f_zero then
      let jitterPenalty := Z.min (jitter_points jitterMs) 40 in
      (i64 (score - jitterPenalty),
       details ++ ["jitter " +:+ fmt_f 1 jitterMs +:+ "ms ("
         +:+ grade jitterMs (f_int 30) (f_int 50) (f_int 100) +:+ ")"])
    else (score, details) in
  let '(score, details) :=
    if f_gt lossPct f_zero then
      let lossPenalty := Z.min (loss_points lossPct) 60 in
      (i64 (score - lossPenalty),
       details ++ ["loss " +:+ fmt_f 2 lossPct +:+ "% ("
         +:+ grade lossPct (f_int 1) (f_int 3) (f_int 5) +:+ ")"])
    else (score, details) in
  let score := Z.max score 0 in
  {| Verdict := verdictFromScore score; Score := score; Details := details |}.

Definition ClassifyUDP : SLAResult :=
  {| Verdict := SLAGood; Score := 100; Details := ["UDP flow (no RTT measurement)"] |}.

(** ** call_analysis.go *)

(** internal/domain/call.go *)
Record Call := {
  CallID : string;
  C_StartTime : time;
  C_EndTime : time;
  SIPMetrics : gmap string any;
  RTPLegs : list (gmap string any);
  MOS : f64;
  Quality : string;
  IsOnHold : bool;
  EndType : string;
  RootCause : string;
  Confidence : f64;
}.

Definition with_hold (b : bool) (c : Call) : Call :=
  {| CallID := CallID c; C_StartTime := C_StartTime c; C_EndTime := C_EndTime c;
     SIPMetrics := SIPMetrics c; RTPLegs := RTPLegs c; MOS := MOS c;
     Quality := Quality c; IsOnHold := b; EndType := EndType c;
     RootCause := RootCause c; Confidence := Confidence c |}.
Definition with_end_type (s : string) (c : Call) : Call :=
  {| CallID := CallID c; C_StartTime := C_StartTime c; C_EndTime := C_EndTime c;
     SIPMetrics := SIPMetrics c; RTPLegs := RTPLegs c; MOS := MOS c;
     Quality := Quality c; IsOnHold := IsOnHold c; EndType := s;
     RootCause := RootCause c; Confidence := Confidence c |}.
Definition with_cause (s : string) (c : Call) : Call :=
  {| CallID := CallID c; C_StartTime := C_StartTime c; C_EndTime := C_EndTime c;
     SIPMetrics := SIPMetrics c; RTPLegs := RTPLegs c; MOS := MOS c;
     Quality := Quality c; IsOnHold := IsOnHold c; EndType := EndType c;
     RootCause := s; Confidence := Confidence c |}.
Definition with_confidence (x : f64) (c : Call) : Call :=
  {| CallID := CallID c; C_StartTime := C_StartTime c; C_EndTime := C_EndTime c;
     SIPMetrics := SIPMetrics c; RTPLegs := RTPLegs c; MOS := MOS c;
     Quality := Quality c; IsOnHold := IsOnHold c; EndType := EndType c;
     RootCause := RootCause c; Confidence := x |}.

Definition getFloat64 (m : gmap string any) (key : string) : f64 :=
  match m !! key with
  | Some (AF64 v) => v
  | Some (AInt TInt v) => f_int v
  | _ => f_zero
  end.

Definition getInt (m : gmap string any) (key : string) : Z :=
  default 0 (get_int m key).

Definition analyzeHold (call : Call) : Call :=
  let dir := default "" (get_str (SIPMetrics call) "direction") in
  if String.eqb dir "sendonly" || String.eqb dir "inactive" then with_hold true call
  else with_hold false call.

Definition analyzeEndType (call : Call) : Call :=
  let call := with_end_type "normal" call in
  if zlen (RTPLegs call) =? 0 then with_end_type "abnormal" call else call.

(** The loop over the legs of a bad call: the first bad leg gives the cause. *)
Fixpoint leg_cause (legs : list (gmap string any)) : option string :=
  match legs with
  | [] => None
  | leg :: legs =>
    let jitter := getFloat64 leg "jitter_ms" in
    let pktCount := getInt leg "packet_count" in
    let seqGap := getInt leg "max_seq_gap" in
    let lossPct :=
      if 0 <? pktCount then f_mul (f_div (f_int seqGap) (f_int pktCount)) (f_int 100)
      else f_zero in
    if f_gt lossPct (f_int 10) then Some "high_packet_loss"
    else if f_gt jitter (f_int 100) then Some "excessive_jitter"
    else leg_cause legs
  end.

Definition analyzeRootCause (call : Call) : Call :=
  if IsOnHold call then with_cause "user_hold" call
  else if zlen (RTPLegs call) =? 0 then with_cause "no_media" call
  else if f_gt (MOS call) f_zero && f_lt (MOS call) (f_dec 26 1) then
    with_cause (default "media_quality" (leg_cause (RTPLegs call))) call
  else with_cause "normal_release" call.

Definition assignConfidence (call : Call) : Call :=
  let s := RootCause call in
  if String.eqb s "user_hold" then with_confidence (f_dec 95 2) call
  else if String.eqb s "high_packet_loss" || String.eqb s "excessive_jitter" then
    with_confidence (f_dec 9 1) call
  else if String.eqb s "media_quality" then with_confidence (f_dec 85 2) call
  else if String.eqb s "no_media" then with_confidence (f_dec 8 1) call
  else if String.eqb s "normal_release" then with_confidence (f_dec 9 1) call
  else with_confidence (f_dec 7 1) call.

(** AnalyzeCall, without its log lines. *)
Definition AnalyzeCall (call : Call) : Call :=
  assignConfidence (analyzeRootCause (analyzeEndType (analyzeHold call))).

(** ** Penalties are points between 0 and the cap of their measure *)

(** The float is one the hardware has: a canonical mantissa and exponent. *)
Definition is_f64 (x : f64) : Prop := valid_binary 53 1024 x = true.

Lemma digits2_pos_size p : digits2_pos p = Pos.size p.
Proof. by induction p as [p IH|p IH|]; cbn; rewrite ?IH. Qed.

Lemma f_points_nonneg x c d :
  f_nonneg x -> f_nonneg c -> (forall s, c <> S754_zero s) -> f_nonneg d ->
  0 <= f_to_int (f_mul (f_div x c) d) \/ f_to_int (f_mul (f_div x c) d) = min_int.
Proof.
  intros Hx Hc Hz Hd. apply f_to_int_nonneg, f_mul_nonneg; [|done].
  destruct (decide (f_div x c = S754_nan)) as [->|]; [done|]. by apply f_div_nonneg.
Qed.

Lemma f_to_int_range x : - 2 ^ 63 <= f_to_int x < 2 ^ 63.
Proof.
  unfold f_to_int, min_int. destruct x; try lia. cbv zeta. case_match; lia.
Qed.

Lemma shl_align_value m e e' :
  e' <= e -> Z.pos (fst (shl_align m e e')) = Z.pos m * 2 ^ (e - e').
Proof.
  intros He. unfold shl_align. destruct (e' - e) as [|d|d] eqn:Ed; cbn [fst].
  - replace (e - e') with 0 by lia. lia.
  - lia.
  - replace (e - e') with (Z.pos d) by lia. clear.
    induction d as [|d IH] using Pos.peano_ind; [cbn; lia|].
    rewrite Pos.iter_succ, Pos2Z.inj_succ, Z.pow_succ_r by lia. lia.
Qed.

(** A float64 above 3 stays positive when 3 is subtracted. *)
Lemma f_sub_3_nonneg x : is_f64 x -> f_gt x (f_int 3) = true -> f_nonneg (f_sub x (f_int 3)).
Proof.
  unfold is_f64, f_gt, f_lt, f_sub, SFltb.
  change (f_int 3) with (S754_finite false 6755399441055744 (-51)).
  destruct x as [s|[]| |[] m e]; cbn [valid_binary SFcompare]; try done.
  unfold bounded, canonical_mantissa, fexp, SpecFloat.emin.
  rewrite digits2_pos_size. intros [Hc%Zeq_bool_eq He]%andb_true_iff Hlt.
  assert (-51 <= e /\ 6755399441055744 < Z.pos m * 2 ^ (e + 51)) as [Hem Hm].
  { pose proof (Pos.size_gt m) as Hg. pose proof (Pos.size_le m) as Hl.
    destruct (Z.compare_spec (-51) e) as [E|E|E]; [|split; [lia|]|done].
    - subst e. split; [lia|]. change (2 ^ (-51 + 51)) with 1.
      change (Pos.compare_cont Eq 6755399441055744 m) with (6755399441055744 ?= m)%positive in Hlt.
      destruct (Pos.compare_spec 6755399441055744 m); [done|lia|done].
    - assert (Pos.size m = 53%positive) as Hs by lia. rewrite Hs in Hl.
      assert (2 ^ 1 <= 2 ^ (e + 51)) by (apply Z.pow_le_mono_r; lia).
      assert (9007199254740992 <= Z.pos m~0) by (change (2 ^ 53)%positive with 9007199254740992%positive in Hl; lia).
      nia. }
  cbn [SFsub]. replace (Z.min e (-51)) with (-51) by lia. cbn [cond_Zopp].
  rewrite (shl_align_value m e) by lia. rewrite (shl_align_value _ (-51) (-51)) by lia.
  replace (e - -51) with (e + 51) by lia. change (2 ^ (-51 - -51)) with 1.
  destruct (Z.pos m * 2 ^ (e + 51) - 6755399441055744 * 1) as [|p|p] eqn:E; [lia| |lia].
  cbn [binary_normalize]. unfold binary_round. destruct (shl_align p _ _) as [mz ez].
  by destruct (binary_round_aux_sign false (Z.pos mz) ez loc_Exact).
Qed.

(** *** Sizes of results

    Rounding keeps a magnitude below a power of two at or below it, and gives
    a mantissa of 53 bits. *)

Lemma shr_1_half r : 0 <= shr_m r -> shr_m (shr_1 r) = shr_m r / 2.
Proof. destruct r as [m rb sb]. cbn [shr_m]. intros Hm. rewrite <-Z.div2_div. by destruct m as [|[m|m|]|]. Qed.

Lemma iter_shr_floor p r : 0 <= shr_m r -> shr_m (SpecFloat.iter_pos shr_1 p r) = shr_m r / 2 ^ Z.pos p.
Proof.
  revert r. induction p as [p IH|p IH|]; intros r Hr; cbn [SpecFloat.iter_pos].
  - assert (0 <= shr_m (shr_1 r)) as H1 by (rewrite shr_1_half by done; apply Z.div_pos; lia).
    rewrite IH; rewrite IH by done; [|apply Z.div_pos; lia]. rewrite shr_1_half by done.
    rewrite !Z.div_div by lia. f_equal. replace (Z.pos p~1) with (1 + Z.pos p + Z.pos p) by lia. rewrite !Z.pow_add_r by lia. lia.
  - rewrite IH; rewrite IH by done; [|apply Z.div_pos; lia]. rewrite Z.div_div by lia. f_equal.
    rewrite (Pos2Z.inj_xO p). replace (2 * Z.pos p) with (Z.pos p + Z.pos p) by lia. by rewrite Z.pow_add_r by lia.
  - by apply shr_1_half.
Qed.

Lemma shr_fexp_floor q e l : 0 <= q -> let '(r, e') := shr_fexp 53 1024 q e l in
  e' = Z.max e (fexp 53 1024 (Zdigits2 q + e)) /\ shr_m r = q / 2 ^ (e' - e).
Proof.
  intros Hq. unfold shr_fexp, shr. set (n := fexp 53 1024 (Zdigits2 q + e) - e).
  assert (shr_m (shr_record_of_loc q l) = q) as Hm by (by destruct l as [|[]]).
  destruct n as [|p|p] eqn:En.
  1,3: split; [lia|]; by rewrite Hm, Z.sub_diag, Z.div_1_r.
  split; [lia|]. replace (e + Z.pos p - e) with (Z.pos p) by lia. by rewrite iter_shr_floor; rewrite Hm.
Qed.

Lemma Zdigits2_bound q k : 0 <= q < 2 ^ k -> 0 <= k -> Zdigits2 q <= k.
Proof.
  intros Hq Hk. destruct q as [|p|p]; [cbn; lia| |lia]. cbn [Zdigits2].
  rewrite digits2_pos_size.
  destruct (Z.le_gt_cases (Z.pos (Pos.size p)) k) as [|Hgt]; [done|]. pose proof (Pos.size_le p) as Hs.
  assert (2 ^ (k + 1) <= 2 ^ Z.pos (Pos.size p)) as Hp by (apply Z.pow_le_mono_r; lia).
  rewrite Z.pow_add_r in Hp by lia. rewrite <-Pos2Z.inj_pow in Hp. lia.
Qed.

Lemma round_up_le q l : 0 <= q -> q <= round_nearest_even q l <= q + 1.
Proof. intros Hq. destruct l as [|[]]; cbn; try lia. destruct (Z.even q); lia. Qed.

(** A non-negative float of at most 2^K. *)
Definition at_most (K : Z) (x : f64) : Prop :=
  match x with S754_zero _ => True | S754_finite false m e => e <= K /\ Z.pos m <= 2 ^ (K - e) | _ => False end.

Lemma round_at_most K q e l : -1074 <= K <= 900 -> 0 <= q -> e <= K -> q < 2 ^ (K - e) ->
  at_most K (binary_round_aux 53 1024 false q e l).
Proof.
  intros HK Hq He Hlt. unfold binary_round_aux.
  pose proof (shr_fexp_floor q e l Hq) as H1. destruct (shr_fexp 53 1024 q e l) as [r e1]. destruct H1 as [He1 Hr].
  pose proof (Zdigits2_bound q (K - e) ltac:(lia) ltac:(lia)) as Hd.
  assert (e <= e1 <= K) as Hk by (unfold fexp, emin in He1; lia).
  assert (0 <= shr_m r < 2 ^ (K - e1)) as Hm.
  { rewrite Hr. split; [apply Z.div_pos; lia|]. apply Z.div_lt_upper_bound; [lia|]. rewrite <-Z.pow_add_r by lia.
    by replace (e1 - e + (K - e1)) with (K - e) by lia. }
  pose proof (round_up_le (shr_m r) (loc_of_shr_record r) ltac:(lia)) as Hup. set (q1 := round_nearest_even _ _) in *.
  pose proof (shr_fexp_floor q1 e1 loc_Exact ltac:(lia)) as H2. destruct (shr_fexp 53 1024 q1 e1 loc_Exact) as [r2 e2].
  destruct H2 as [He2 Hr2]. 
  assert (Zdigits2 q1 <= K - e1 + 1) as Hd1.
  { apply Zdigits2_bound; [|lia]. rewrite Z.pow_add_r by lia. lia. }
  assert (e1 <= e2 <= K) as Hk2.
  { split; [lia|]. unfold fexp, emin in He2. lia. }
  assert (0 <= shr_m r2 <= 2 ^ (K - e2)) as Hm2.
  { rewrite Hr2. split; [apply Z.div_pos; lia|]. 
    apply Z.div_le_upper_bound; [lia|]. rewrite <-Z.pow_add_r by lia.
    replace (e2 - e1 + (K - e2)) with (K - e1) by lia. lia. }
  destruct (shr_m r2) as [|m|m]; [done| |lia]. cbn [at_most]. rewrite (proj2 (Z.leb_le _ _)) by lia. cbn [at_most]. lia.
Qed.

Lemma f_to_int_at_most x K : 0 <= K < 63 -> at_most K x -> 0 <= f_to_int x <= 2 ^ K.
Proof.
  intros HK Hx. destruct x as [s|s| |[] m e]; cbn [at_most] in Hx; try done; [cbn; lia|]. destruct Hx as [He Hm].
  assert (2 ^ K < 2 ^ 63) by (apply Z.pow_lt_mono_r; lia). pose proof (Z.pow_nonneg 2 K ltac:(lia)) as H0.
  assert (0 <= (if 0 <=? e then Z.shiftl (Z.pos m) e else Z.shiftr (Z.pos m) (- e)) <= 2 ^ K) as Ha.
  { destruct (Z.leb_spec 0 e).
    - rewrite Z.shiftl_mul_pow2 by lia. split; [lia|]. replace K with (K - e + e) by lia. rewrite Z.pow_add_r by lia. nia.
    - rewrite Z.shiftr_div_pow2 by lia. split; [apply Z.div_pos; lia|]. apply Z.div_le_upper_bound; [lia|].
      rewrite <-Z.pow_add_r by lia. by replace (- e + K) with (K - e) by lia. }
  unfold f_to_int. cbv zeta. rewrite (proj2 (Z.leb_le _ _)), (proj2 (Z.ltb_lt _ _)) by lia. done.
Qed.

Lemma f_div_at_most x y m2 : y = S754_finite false m2 (-51) -> 2 ^ 52 <= Z.pos m2 < 2 ^ 53 -> digits2_pos m2 = 53%positive -> 
  is_f64 x -> f_gt x f_zero = true -> f_le x y = true -> at_most 1 (f_div x y).
Proof.
  intros -> Hm2 Hd2 Hv Hx Hle. destruct x as [s|s| |s m e]; try done; [by destruct s|].
  destruct s; [done|]. unfold is_f64 in Hv. cbn [valid_binary] in Hv. unfold bounded, canonical_mantissa in Hv.
  apply andb_true_iff in Hv as [Hc%Z.eqb_eq Hb]. 
  assert (Z.pos m < 2 ^ 53) as Hm.
  { assert (Z.pos (digits2_pos m) <= 53) as Hd by (unfold fexp, emin in Hc; lia).
    rewrite digits2_pos_size in Hd. pose proof (Pos.size_gt m) as Hs.
    assert (2 ^ Z.pos (Pos.size m) <= 2 ^ 53) by (apply Z.pow_le_mono_r; lia). rewrite <-Pos2Z.inj_pow in *. lia. }
  assert (e <= -51) as Hcmp.
  { unfold f_le, SFleb in Hle. cbn [SFcompare] in Hle. destruct (Z.compare_spec e (-51)); [lia|lia|done]. }
  unfold f_div, SFdiv, SFdiv_core_binary. cbv zeta. cbn [Zdigits2]. rewrite Hd2.
  set (e' := Z.min _ _). assert (e' <= e + 51) as He' by lia. clearbody e'. cbn [xorb].
  assert (match e - -51 - e' with Z0 => Z.pos m | Zpos _ => Z.shiftl (Z.pos m) (e - -51 - e') | Zneg _ => 0 end =
    Z.pos m * 2 ^ (e + 51 - e')) as ->.
  { replace (e + 51 - e') with (e - -51 - e') by lia.
    destruct (e - -51 - e') as [|p|p] eqn:Ep; [by rewrite Z.mul_1_r|by rewrite Z.shiftl_mul_pow2 by lia|lia]. }
  rewrite (surjective_pairing (Z.div_eucl _ _)). cbv beta iota.
  change (fst (Z.div_eucl ?a ?b)) with (a / b).
  apply round_at_most; [lia|apply Z.div_pos; lia|lia|]. apply Z.div_lt_upper_bound; [lia|].
  replace (1 - e') with (e + 51 - e' + (1 + - (e + 51))) by lia. rewrite Z.pow_add_r by lia.
  assert (2 ^ 1 <= 2 ^ (1 + - (e + 51))) as H1 by (apply Z.pow_le_mono_r; lia).
  pose proof (Z.pow_pos_nonneg 2 (e + 51 - e') ltac:(lia) ltac:(lia)) as H2.
  set (P := 2 ^ (e + 51 - e')) in *. set (Q := 2 ^ (1 + - (e + 51))) in *. clearbody P Q. clear -Hm Hm2 H1 H2.
  assert (Z.pos m < Z.pos m2 * Q) by nia. nia.
Qed.

Lemma f_mul_at_most x K y m2 e2 L : y = S754_finite false m2 e2 -> Z.pos m2 < 2 ^ (L - e2) -> e2 <= L -> -1074 <= K + L <= 900 ->
  at_most K x -> at_most (K + L) (f_mul x y).
Proof.
  intros -> Hm He HK Hx. destruct x as [s|s| |[] m e]; cbn [at_most] in Hx; try done. destruct Hx as [Hex Hmx].
  unfold f_mul, SFmul. cbn [xorb]. apply round_at_most; [done|lia|lia|].
  replace (K + L - (e + e2)) with (K - e + (L - e2)) by lia. rewrite Z.pow_add_r by lia. rewrite Pos2Z.inj_mul. nia.
Qed.

(** A mantissa has 53 bits, so a conversion that fits stays 1024 below 2^63. *)
Lemma shr_53 q e l : 0 <= q -> let '(r, _) := shr_fexp 53 1024 q e l in 0 <= shr_m r < 2 ^ 53.
Proof.
  intros Hq. pose proof (shr_fexp_floor q e l Hq) as H. destruct (shr_fexp 53 1024 q e l) as [r e']. destruct H as [He ->].
  set (d := Zdigits2 q) in *. assert (e' - e >= d - 53 /\ e' >= e) as [Hd He0] by (unfold fexp, emin in He; lia).
  assert (0 <= d /\ q < 2 ^ d) as [Hd0 Hlt].
  { subst d. destruct q as [|p|p]; [cbn; lia| |lia]. cbn [Zdigits2]. rewrite digits2_pos_size. pose proof (Pos.size_gt p). lia. }
  split; [apply Z.div_pos; lia|]. apply Z.div_lt_upper_bound; [lia|]. rewrite <-Z.pow_add_r by lia.
  assert (2 ^ d <= 2 ^ (e' - e + 53)) by (apply Z.pow_le_mono_r; lia). lia.
Qed.

Lemma f_mul_53 x y s m e : f_mul x y = S754_finite s m e -> Z.pos m < 2 ^ 53.
Proof.
  unfold f_mul. destruct x as [|[]| |? mx ex], y as [|[]| |? my ey]; cbn [SFmul]; try done. unfold binary_round_aux.
  destruct (shr_fexp _ _ _ _ loc_Exact) as [r1 e1] eqn:E1. pose proof (shr_53 (Z.pos (mx * my)) (ex + ey) loc_Exact ltac:(lia)) as H1.
  rewrite E1 in H1. pose proof (round_up_le (shr_m r1) (loc_of_shr_record r1) ltac:(lia)) as Hu.
  pose proof (shr_53 (round_nearest_even (shr_m r1) (loc_of_shr_record r1)) e1 loc_Exact ltac:(lia)) as H2.
  destruct (shr_fexp _ _ _ e1 loc_Exact) as [r2 e2]. destruct (shr_m r2) as [|p|p]; [done| |lia].
  destruct (_ <=? _); [|done]. intros H. injection H as _ <- _. lia.
Qed.

Lemma f_to_int_mul x y : f_to_int (f_mul x y) = min_int \/ f_to_int (f_mul x y) <= 2 ^ 63 - 1024.
Proof.
  destruct (f_mul x y) as [|?| |s m e] eqn:E; [right; cbn; lia|by left..|]. apply f_mul_53 in E. unfold f_to_int. cbv zeta.
  destruct ((- 2 ^ 63 <=? _) && _) eqn:Ez; [|by left]. right. apply andb_true_iff in Ez as [_ Ez%Z.ltb_lt].
  destruct (Z.leb_spec 0 e) as [He|He]; destruct s.
  - pose proof (Z.shiftl_nonneg (Z.pos m) e). lia.
  - rewrite Z.shiftl_mul_pow2 in * by lia. destruct (Z.le_gt_cases 10 e) as [H10|H10].
    + destruct (Z.le_gt_cases 63 e) as [H63|H63]; [pose proof (Z.pow_le_mono_r 2 63 e ltac:(lia) H63); nia|].
      assert (2 ^ 63 = 2 ^ (63 - e) * 2 ^ e) as Hs by (rewrite <-Z.pow_add_r by lia; f_equal; lia).
      pose proof (Z.pow_le_mono_r 2 10 e ltac:(lia) H10). pose proof (Z.pow_pos_nonneg 2 (63 - e) ltac:(lia) ltac:(lia)). nia.
    + pose proof (Z.pow_le_mono_r 2 e 9 ltac:(lia) ltac:(lia)). nia.
  - pose proof (Z.shiftr_nonneg (Z.pos m) (- e)). lia.
  - rewrite Z.shiftr_div_pow2 by lia. assert (Z.pos m / 2 ^ (- e) <= Z.pos m) by (apply Z.div_le_upper_bound; [lia|nia]). lia.
Qed.

Lemma small_points x : is_f64 x -> f_gt x f_zero = true -> f_le x (f_int 3) = true ->
  0 <= f_to_int (f_mul (f_div x (f_int 3)) (f_int 30)) <= 64.
Proof.
  intros Hv Hx Hle. change 64 with (2 ^ 6). apply f_to_int_at_most; [lia|].
  apply (f_mul_at_most _ 1 _ (15 * 2 ^ 49) (-48) 5); [by vm_compute|by vm_compute|lia|lia|].
  apply (f_div_at_most _ _ 6755399441055744); [by vm_compute|by vm_compute|by vm_compute|done|done|done].
Qed.

Lemma f_gt_not_le x c : f_gt x f_zero = true -> f_gt c f_zero = true ->
  f_le x c = false -> f_gt x c = true.
Proof.
  unfold f_gt, f_lt, f_le, SFltb, SFleb, f_zero.
  destruct x as [|[]| |[] m e], c as [|[]| |[] m' e']; cbn; try done.
  intros _ _. rewrite (Z.compare_antisym e e').
  destruct (e ?= e') eqn:E; cbn; try done.
  change (Pos.compare_cont Eq m m') with (m ?= m')%positive.
  change (Pos.compare_cont Eq m' m) with (m' ?= m)%positive.
  rewrite (Pos.compare_antisym m m'). by destruct (m ?= m')%positive.
Qed.

Lemma i64_cases z : - 2 ^ 64 <= z < 2 ^ 64 ->
  (- 2 ^ 63 <= z < 2 ^ 63 /\ i64 z = z) \/ (z < - 2 ^ 63 /\ i64 z = z + 2 ^ 64) \/ (2 ^ 63 <= z /\ i64 z = z - 2 ^ 64).
Proof.
  intros Hz. unfold i64, swrap. change (2 ^ (64 - 1)) with (2 ^ 63).
  destruct (decide (z < - 2 ^ 63)); [|destruct (decide (2 ^ 63 <= z))].
  - right. left. rewrite <-(Z_mod_plus_full _ 1), Z.mod_small; lia.
  - right. right. rewrite <-(Z_mod_plus_full _ (-1)), Z.mod_small; lia.
  - left. split; [lia|]. rewrite Z.mod_small; lia.
Qed.

(** The points of a rate fit an [int], or wrap once. *)
Lemma retrans_points_range x :
  is_f64 x -> f_gt x f_zero = true -> 0 <= retrans_points x <= 90 \/ retrans_points x = min_int + 30.
Proof.
  intros Hv Hx. unfold retrans_points. destruct (f_le x (f_int 3)) eqn:E.
  - pose proof (small_points x Hv Hx E). lia.
  - pose proof (f_to_int_mul (f_div (f_sub x (f_int 3)) (f_int 3)) (f_int 20)) as Hr.
    assert (f_nonneg (f_sub x (f_int 3))) as Hn by (apply f_sub_3_nonneg; [done|by apply f_gt_not_le]).
    destruct (f_points_nonneg (f_sub x (f_int 3)) (f_int 3) (f_int 20) Hn) as [Hq|Hq]; [done..| |].
    + left. set (q := f_to_int _) in *. destruct Hr as [Hr|Hr]; [unfold min_int in *; lia|].
      unfold i64. rewrite swrap_small; lia.
    + right. rewrite Hq. by vm_compute.
Qed.

(** ** What a call analysis means *)

(** The loss, in percent, and the jitter of a leg as the loop reads them. *)
Definition leg_lossy (leg : gmap string any) : Prop :=
  0 < getInt leg "packet_count" /\
  f_gt (f_mul (f_div (f_int (getInt leg "max_seq_gap")) (f_int (getInt leg "packet_count")))
              (f_int 100)) (f_int 10) = true.
Definition leg_jittery (leg : gmap string any) : Prop :=
  f_gt (getFloat64 leg "jitter_ms") (f_int 100) = true.

(** The cause of a bad call, as a relation: the first leg that is lossy or
    jittery decides, and a leg that is both counts as lossy. *)
Inductive legs_cause : list (gmap string any) -> string -> Prop :=
  | cause_none : legs_cause [] "media_quality"
  | cause_loss leg legs : leg_lossy leg -> legs_cause (leg :: legs) "high_packet_loss"
  | cause_jitter leg legs :
      ~ leg_lossy leg -> leg_jittery leg -> legs_cause (leg :: legs) "excessive_jitter"
  | cause_skip leg legs c :
      ~ leg_lossy leg -> ~ leg_jittery leg -> legs_cause legs c -> legs_cause (leg :: legs) c.

Lemma leg_cause_legs_cause legs : legs_cause legs (default "media_quality" (leg_cause legs)).
Proof.
  induction legs as [|leg legs IH]; cbn [leg_cause]; [constructor|].
  set (n := getInt leg "packet_count"). set (g := getInt leg "max_seq_gap").
  destruct (f_gt (if 0 <? n then _ else _) (f_int 10)) eqn:E.
  - constructor. unfold leg_lossy. fold n g.
    destruct (Z.ltb_spec 0 n); [done|by vm_compute in E].
  - assert (~ leg_lossy leg) as Hl.
    { unfold leg_lossy. fold n g. intros [Hn Hl]. destruct (Z.ltb_spec 0 n); [congruence|lia]. }
    destruct (f_gt (getFloat64 leg "jitter_ms") (f_int 100)) eqn:Ej; [by constructor|].
    constructor; [done| |done]. unfold leg_jittery. by rewrite Ej.
Qed.

(** ** Properties *)

Lemma verdict_acceptable score : 60 <= score -> verdictFromScore score ∈ [SLAGood; SLAAcceptable].
Proof.
  intros Hs. unfold verdictFromScore. destruct (80 <=? score); [by left|]. rewrite (proj2 (Z.leb_le _ _)) by lia. right. by left.
Qed.

(** The points taken for the time and for the rate. *)
Definition rtt_cost (rttMs : f64) : Z := if f_gt rttMs f_zero then Z.min (rtt_points rttMs) 40 else 0.
Definition retrans_cost (retransPct : f64) : Z := if f_gt retransPct f_zero then retrans_points retransPct else 0.

Lemma rtt_cost_range x : 0 <= rtt_cost x <= 40 \/ rtt_cost x = min_int.
Proof.
  unfold rtt_cost. destruct (f_gt x f_zero) eqn:E; [|lia].
  destruct (f_points_nonneg x (f_int 500) (f_int 40)) as [Hp|Hp]; [by apply f_gt_zero_nonneg|done..| |];
    fold (rtt_points x) in Hp; [lia|right; by rewrite Hp].
Qed.

Lemma retrans_cost_range x : is_f64 x -> 0 <= retrans_cost x <= 90 \/ retrans_cost x = min_int + 30.
Proof. intros Hv. unfold retrans_cost. destruct (f_gt x f_zero) eqn:E; [by apply retrans_points_range|lia]. Qed.

Lemma tcp_score rttMs retransPct :
  Score (ClassifyTCP rttMs retransPct) = Z.max (i64 (i64 (100 - rtt_cost rttMs) - retrans_cost retransPct)) 0 /\
  Verdict (ClassifyTCP rttMs retransPct) = verdictFromScore (Score (ClassifyTCP rttMs retransPct)).
Proof.
  unfold ClassifyTCP, rtt_cost, retrans_cost.
  destruct (f_gt rttMs f_zero), (f_gt retransPct f_zero); cbn [Score Verdict]; split_and!; try done.
  all: rewrite ?Z.sub_0_r; try done.
  unfold i64. by rewrite (swrap_small 64 (swrap 64 _)) by first [lia|apply swrap_range; lia].
Qed.

(** C5: the SLA score of a TCP flow, for every float64 round-trip time and
    retransmission rate, infinities and NaN included. It is between 0 and 100.
    When the points of both fit an [int], it is 100 less at most 40 points for
    the time and at most 90 for the rate, down to 0; the time alone then never
    makes a flow worse than acceptable. When one conversion is out of range
    (an infinite time or rate, say) its points are negative and the score
    wraps: the flow has score 0 and is critical; when both are, the score
    wraps twice and the worst of all flows has score 70 and is acceptable. *)
Theorem sla_tcp_score_bounds rttMs retransPct :
  is_f64 retransPct ->
  let r := ClassifyTCP rttMs retransPct in
  let late := f_gt rttMs f_zero && (rtt_points rttMs <? 0) in
  let lossy := f_gt retransPct f_zero && (retrans_points retransPct <? 0) in
  0 <= Score r <= 100 /\
  (late = false -> lossy = false ->
     exists time_points rate_points, 0 <= time_points <= 40 /\ 0 <= rate_points <= 90 /\
       Score r = Z.max (100 - time_points - rate_points) 0 /\
       (f_gt rttMs f_zero = false -> time_points = 0) /\
       (f_gt retransPct f_zero = false -> rate_points = 0 /\ Verdict r ∈ [SLAGood; SLAAcceptable])) /\
  (late <> lossy -> Score r = 0 /\ Verdict r = SLACritical) /\
  (late = true -> lossy = true -> Score r = 70 /\ Verdict r = SLAAcceptable).
Proof.
  intros Hv. cbv zeta. destruct (tcp_score rttMs retransPct) as [E ->]. rewrite E. clear E.
  replace (f_gt rttMs f_zero && (rtt_points rttMs <? 0)) with (rtt_cost rttMs <? 0) by
    (unfold rtt_cost; destruct (f_gt rttMs f_zero); [|done]; apply eq_bool_prop_intro; rewrite !Is_true_true, !Z.ltb_lt; lia).
  replace (f_gt retransPct f_zero && (retrans_points retransPct <? 0)) with (retrans_cost retransPct <? 0) by
    (unfold retrans_cost; by destruct (f_gt retransPct f_zero)).
  assert (f_gt rttMs f_zero = false -> rtt_cost rttMs = 0) as Ht by (unfold rtt_cost; by intros ->).
  assert (f_gt retransPct f_zero = false -> retrans_cost retransPct = 0) as Hr by (unfold retrans_cost; by intros ->).
  destruct (rtt_cost_range rttMs) as [Hc|Hc], (retrans_cost_range retransPct Hv) as [Hd|Hd].
  - set (c := rtt_cost rttMs) in *. set (d := retrans_cost retransPct) in *. clearbody c d.
    assert (i64 (i64 (100 - c) - d) = 100 - c - d) as -> by (unfold i64; rewrite (swrap_small _ (100 - c)), swrap_small; lia).
    rewrite !(proj2 (Z.ltb_ge _ _)) by lia. split_and!; [lia|lia| |done..]. intros _ _. exists c, d. split_and!; [lia..| |].
    { intros Hn. auto. }
    intros Hn. split; [auto|]. apply verdict_acceptable. pose proof (Hr Hn). lia.
  - rewrite Hd. set (c := rtt_cost rttMs) in *. clearbody c.
    assert (Z.max (i64 (i64 (100 - c) - (min_int + 30))) 0 = 0) as ->.
    { unfold i64 at 2. rewrite swrap_small by lia. destruct (i64_cases (100 - c - (min_int + 30))); unfold min_int in *; lia. }
    rewrite (proj2 (Z.ltb_ge c 0)) by lia. by split_and!.
  - rewrite Hc. set (d := retrans_cost retransPct) in *. clearbody d. change (i64 (100 - min_int)) with (min_int + 100).
    assert (Z.max (i64 (min_int + 100 - d)) 0 = 0) as -> by (unfold i64; rewrite swrap_small; unfold min_int; lia).
    rewrite (proj2 (Z.ltb_ge d 0)) by lia. by split_and!.
  - rewrite Hc, Hd. by split_and!.
Qed.

Example sla_tcp_score_bounds_witness :
  Score (ClassifyTCP (f_int 250) (f_dec 25 1)) = 55 /\
  Verdict (ClassifyTCP (f_int 500) f_zero) ∈ [SLAGood; SLAAcceptable] /\
  Verdict (ClassifyTCP (S754_infinity false) (f_dec 25 1)) = SLACritical /\
  Verdict (ClassifyTCP (S754_infinity false) (S754_infinity false)) = SLAAcceptable.
Proof.
  split; [by vm_compute|].
  split; [destruct (proj1 (proj2 (sla_tcp_score_bounds (f_int 500) f_zero eq_refl)) eq_refl eq_refl) as (t & p & H);
          by apply H|].
  split; [by apply (sla_tcp_score_bounds (S754_infinity false) (f_dec 25 1))|].
  by apply (sla_tcp_score_bounds (S754_infinity false) (S754_infinity false)).
Defined.

(** The analysis of a call says what the call is: it is on hold exactly
    when its media direction is sendonly or inactive; it ended abnormally
    exactly when it has no RTP leg; its cause is the hold, else the missing
    media, else, for a MOS below 2.6, the cause of its first bad leg, else a
    normal release; the confidence is the one of the cause, and nothing else
    of the call changes. *)
Theorem analyze_call_spec call :
  let out := AnalyzeCall call in
  (IsOnHold out = true <->
    get_str (SIPMetrics call) "direction" ∈ [Some "sendonly"; Some "inactive"]) /\
  EndType out = (if decide (RTPLegs call = []) then "abnormal" else "normal") /\
  (if IsOnHold out then RootCause out = "user_hold" /\ Confidence out = f_dec 95 2
   else if decide (RTPLegs call = []) then RootCause out = "no_media" /\ Confidence out = f_dec 8 1
   else if f_gt (MOS call) f_zero && f_lt (MOS call) (f_dec 26 1) then
     legs_cause (RTPLegs call) (RootCause out) /\
     Confidence out = (if decide (RootCause out = "media_quality") then f_dec 85 2 else f_dec 9 1)
   else RootCause out = "normal_release" /\ Confidence out = f_dec 9 1) /\
  CallID out = CallID call /\ RTPLegs out = RTPLegs call /\ MOS out = MOS call /\
  SIPMetrics out = SIPMetrics call.
Proof.
  set (held := String.eqb (default "" (get_str (SIPMetrics call) "direction")) "sendonly"
    || String.eqb (default "" (get_str (SIPMetrics call) "direction")) "inactive").
  assert (AnalyzeCall call = assignConfidence (analyzeRootCause
    (with_end_type (if decide (RTPLegs call = []) then "abnormal" else "normal")
      (with_hold held call)))) as ->.
  { unfold AnalyzeCall, analyzeHold, analyzeEndType. fold held.
    by destruct held, (RTPLegs call) eqn:E; cbn [with_end_type with_hold RTPLegs]; rewrite E. }
  unfold analyzeRootCause. cbn [with_end_type with_hold IsOnHold RTPLegs MOS].
  assert (held = true <->
    get_str (SIPMetrics call) "direction" ∈ [Some "sendonly"; Some "inactive"]) as Hheld.
  { unfold held. rewrite orb_true_iff, !String.eqb_eq.
    destruct (get_str (SIPMetrics call) "direction") as [d|]; cbn; [|set_solver].
    rewrite !elem_of_cons, elem_of_nil. naive_solver. }
  destruct held.
  { split_and!; done. }
  destruct (RTPLegs call) as [|leg legs] eqn:El; cbn [zlen length Z.of_nat Z.eqb].
  { split_and!; done. }
  replace (zlen (leg :: legs) =? 0) with false by (rewrite zlen_cons; pose proof (zlen_nonneg legs); lia).
  pose proof (leg_cause_legs_cause (leg :: legs)) as Hc.
  destruct (f_gt (MOS call) f_zero && _); [|by split_and!].
  set (c := default _ _) in *. cbn [with_cause].
  assert (c = "media_quality" \/ c = "high_packet_loss" \/ c = "excessive_jitter") as Hcs.
  { clear -Hc. remember (leg :: legs) as l. clear Heql leg legs. induction Hc; auto. }
  destruct Hcs as [-> | [-> | ->]]; split_and!; done.
Qed.
