(* ===== verification/Rtp.v ===== *)
(** * internal/protocols/rtp: RTP streams

    helpers.go, stats.go (the header), stream.go and decode.go. The counters of
    a stream are grouped the way stream.go groups them: sequence numbers,
    jitter, sizes. *)
From S2P Require Export Analysis.

(** ** stats.go, helpers.go *)

Record RTPHeader := {
  hd_Version : Z;
  hd_Payload : Z;
  hd_Sequence : Z;
  hd_Timestamp : Z;
  hd_SSRC : Z;
}.

Definition looksLikeRTP (b : list byte) : res bool :=
  if zlen b <? 12 then Ok false
  else b0 ← idx b 0; Ok (Z.shiftr (u8 b0) 6 =? 2).

(** [uint32(b[i])<<24 | uint32(b[i+1])<<16 | uint32(b[i+2])<<8 | uint32(b[i+3])] *)
Definition word32 (b : list byte) (i : Z) : res Z :=
  b0 ← idx b i; b1 ← idx b (i + 1); b2 ← idx b (i + 2); b3 ← idx b (i + 3);
  Ok (Z.lor (Z.lor (Z.lor (Z.shiftl (u8 b0) 24) (Z.shiftl (u8 b1) 16)) (Z.shiftl (u8 b2) 8)) (u8 b3)).

Definition parseRTPHeader (b : list byte) : res (option RTPHeader) :=
  if zlen b <? 12 then Ok None
  else
    b0 ← idx b 0;
    let v := Z.shiftr (u8 b0) 6 in
    if negb (v =? 2) then Ok None
    else
      b1 ← idx b 1; b2 ← idx b 2; b3 ← idx b 3;
      ts ← word32 b 4;
      ssrc ← word32 b 8;
      Ok (Some {| hd_Version := v; hd_Payload := Z.land (u8 b1) 0x7F;
                  hd_Sequence := Z.lor (Z.shiftl (u8 b2) 8) (u8 b3);
                  hd_Timestamp := ts; hd_SSRC := ssrc |}).

Definition streamKey (pkt : Packet) (ssrc : Z) : string :=
  cat [SrcIP pkt; ":"; fmt_d (SrcPort pkt); "-"; DstIP pkt; ":"; fmt_d (DstPort pkt); "-"; fmt_d ssrc].

(** ** stream.go *)

Record seq_stats := { lastSeq : Z; seenPackets : Z; MaxSeqGap : Z; lostPackets : Z }.

Record jitter_stats := {
  lastArrival : time;
  lastTS : Z;
  JitterMs : f64;
  jitterRunning : f64;
  JitterMin : f64;
  JitterMax : f64;
  JitterSum : f64;
  JitterCount : Z;
  JitterAvgMs : f64;
  jitterHistory : list f64;
}.

Record size_stats := { MaxPacketLen : Z; TotalPayloadLen : Z }.

Record RTPStream := {
  rs_SrcIP : string;
  rs_SrcPort : Z;
  rs_DstIP : string;
  rs_DstPort : Z;
  rs_SSRC : Z;
  rs_StartTime : time;
  rs_EndTime : time;
  PacketCount : Z;
  rs_seq : seq_stats;
  rs_jitter : jitter_stats;
  rs_size : size_stats;
}.

(** [math.MaxFloat64] *)
Definition max_float64 : f64 := S754_finite false (2 ^ 53 - 1) 971.

Definition NewRTPStream (pkt : Packet) (hdr : RTPHeader) : RTPStream :=
  {| rs_SrcIP := SrcIP pkt; rs_SrcPort := SrcPort pkt; rs_DstIP := DstIP pkt; rs_DstPort := DstPort pkt;
     rs_SSRC := hd_SSRC hdr; rs_StartTime := Timestamp pkt; rs_EndTime := Timestamp pkt; PacketCount := 0;
     rs_seq := {| lastSeq := hd_Sequence hdr; seenPackets := 0; MaxSeqGap := 0; lostPackets := 0 |};
     rs_jitter := {| lastArrival := Timestamp pkt; lastTS := hd_Timestamp hdr; JitterMs := f_zero;
       jitterRunning := f_zero; JitterMin := max_float64; JitterMax := f_zero; JitterSum := f_zero;
       JitterCount := 0; JitterAvgMs := f_zero; jitterHistory := [] |};
     rs_size := {| MaxPacketLen := 0; TotalPayloadLen := 0 |} |}.

(** Sequence gaps. *)
Definition add_seq (sequence : Z) (s : seq_stats) : seq_stats :=
  let '(lost, maxGap) :=
    if 0 <? seenPackets s then
      let gap := u16 (sequence - lastSeq s) in
      (if 1 <? gap then i64 (lostPackets s + (gap - 1)) else lostPackets s,
       if MaxSeqGap s <? gap then gap else MaxSeqGap s)
    else (lostPackets s, MaxSeqGap s) in
  {| lastSeq := sequence; seenPackets := i64 (seenPackets s + 1); MaxSeqGap := maxGap; lostPackets := lost |}.

(** The difference of the arrival times, in milliseconds, and of the RTP
    timestamps, in ticks of the media clock. *)
Definition transit (now : time) (ts : Z) (j : jitter_stats) : Z :=
  i64 (milliseconds (time_sub now (lastArrival j)) - u32 (ts - lastTS j)).

(** [s.jitterRunning += (d - s.jitterRunning) / 16.0] *)
Definition jitter_next (running d : f64) : f64 := f_add running (f_div (f_sub d running) (f_int 16)).

Definition add_jitter (now : time) (ts : Z) (j : jitter_stats) : jitter_stats :=
  if negb (is_zero (lastArrival j)) then
    let d := f_abs (f_int (transit now ts j)) in
    let running := jitter_next (jitterRunning j) d in
    let sum := f_add (JitterSum j) running in
    let count := i64 (JitterCount j + 1) in
    {| lastArrival := now; lastTS := ts; JitterMs := running; jitterRunning := running;
       JitterMin := if f_lt running (JitterMin j) then running else JitterMin j;
       JitterMax := if f_gt running (JitterMax j) then running else JitterMax j;
       JitterSum := sum; JitterCount := count;
       JitterAvgMs := if 0 <? count then f_div sum (f_int count) else JitterAvgMs j;
       jitterHistory := if zlen (jitterHistory j) <? 300
         then jitterHistory j ++ [f_div (f_round (f_mul running (f_int 100))) (f_int 100)]
         else jitterHistory j |}
  else
    {| lastArrival := now; lastTS := ts; JitterMs := JitterMs j; jitterRunning := jitterRunning j;
       JitterMin := JitterMin j; JitterMax := JitterMax j; JitterSum := JitterSum j;
       JitterCount := JitterCount j; JitterAvgMs := JitterAvgMs j; jitterHistory := jitterHistory j |}.

Definition add_size (payloadLen : Z) (z : size_stats) : size_stats :=
  {| MaxPacketLen := if MaxPacketLen z <? payloadLen then payloadLen else MaxPacketLen z;
     TotalPayloadLen := i64 (TotalPayloadLen z + payloadLen) |}.

Definition AddPacket (pkt : Packet) (hdr : RTPHeader) (s : RTPStream) : RTPStream :=
  {| rs_SrcIP := rs_SrcIP s; rs_SrcPort := rs_SrcPort s; rs_DstIP := rs_DstIP s; rs_DstPort := rs_DstPort s;
     rs_SSRC := rs_SSRC s; rs_StartTime := rs_StartTime s; rs_EndTime := Timestamp pkt;
     PacketCount := i64 (PacketCount s + 1);
     rs_seq := add_seq (hd_Sequence hdr) (rs_seq s);
     rs_jitter := add_jitter (Timestamp pkt) (hd_Timestamp hdr) (rs_jitter s);
     rs_size := add_size (zlen (Payload pkt)) (rs_size s) |}.

(** The trend: every [step]-th sample, at most sixty. *)
Fixpoint trend_points (i step : nat) (l : list f64) : list (list (string * any)) :=
  match l with
  | [] => []
  | x :: l =>
    if (i mod step =? 0)%nat
    then [("i"%string, AInt TInt (Z.of_nat i)); ("ms"%string, AF64 x)] :: trend_points (S i) step l
    else trend_points (S i) step l
  end.

Definition jitter_trend (history : list f64) : list (list (string * any)) :=
  let n := length history in
  let step := if (60 <? n)%nat then ((n + 59) / 60)%nat else 1%nat in
  trend_points 0 step history.

Definition loss_rate_pct (lost total : Z) : f64 :=
  if 0 <? total then
    f_div (f_round (f_mul (f_div (f_int lost) (f_int total)) (f_int 10000))) (f_int 100)
  else f_zero.

Definition ToFlow (s : RTPStream) : Flow :=
  let avgPacketSize :=
    if 0 <? PacketCount s then Z.quot (TotalPayloadLen (rs_size s)) (PacketCount s) else 0 in
  let jitterMin := if JitterCount (rs_jitter s) =? 0 then f_zero else JitterMin (rs_jitter s) in
  let lost := lostPackets (rs_seq s) in
  let lossRatePct := loss_rate_pct lost (i64 (PacketCount s + lost)) in
  let sla := ClassifyRTP (JitterMs (rs_jitter s)) lossRatePct in
  let trend := jitter_trend (jitterHistory (rs_jitter s)) in
  let m : gmap string any := list_to_map [
    ("src_ip", AStr (rs_SrcIP s)); ("src_port", AInt TInt (rs_SrcPort s));
    ("dst_ip", AStr (rs_DstIP s)); ("dst_port", AInt TInt (rs_DstPort s));
    ("ssrc", AInt TU32 (rs_SSRC s)); ("packet_count", AInt TInt (PacketCount s));
    ("lost_packets", AInt TInt lost); ("loss_rate_pct", AF64 lossRatePct);
    ("max_seq_gap", AInt TInt (MaxSeqGap (rs_seq s)));
    ("jitter_ms", AF64 (JitterMs (rs_jitter s))); ("jitter_min_ms", AF64 jitterMin);
    ("jitter_max_ms", AF64 (JitterMax (rs_jitter s))); ("jitter_avg_ms", AF64 (JitterAvgMs (rs_jitter s)));
    ("max_packet_size", AInt TInt (MaxPacketLen (rs_size s))); ("avg_packet_size", AInt TInt avgPacketSize);
    ("start_time", ATime (rs_StartTime s)); ("end_time", ATime (rs_EndTime s));
    ("sla_verdict", AStr (verdict_string (Verdict sla))); ("sla_score", AInt TInt (Score sla));
    ("sla_details", AStrs (Details sla))]%string in
  let m := if 0 <? zlen trend then <["jitter_trend"%string := AMaps trend]> m else m in
  {| FlowID := ""; Type_ := FlowRTP; F_SrcIP := rs_SrcIP s; F_DstIP := rs_DstIP s;
     F_SrcPort := u16 (rs_SrcPort s); F_DstPort := u16 (rs_DstPort s);
     StartTime := rs_StartTime s; EndTime := rs_EndTime s; Metrics := m |}.

(** ** decode.go *)

Definition RTPDecoder := gmap string RTPStream.
Definition NewDecoder : RTPDecoder := ∅.

Definition HandlePacket (d : RTPDecoder) (pkt : Packet) : res (RTPDecoder * Packet) :=
  if negb (String.eqb (Protocol pkt) "UDP") then Ok (d, pkt)
  else if zlen (Payload pkt) <? 12 then Ok (d, pkt)
  else
    ok ← looksLikeRTP (Payload pkt);
    if negb ok then Ok (d, pkt)
    else
      h ← parseRTPHeader (Payload pkt);
      match h with
      | None => Ok (d, pkt)
      | Some hdr =>
        let key := streamKey pkt (hd_SSRC hdr) in
        let stream := default (NewRTPStream pkt hdr) (d !! key) in
        Ok (<[key := AddPacket pkt hdr stream]> d,
            set_app "RTP" (cat ["SSRC=0x"; fmt_0x 8 (hd_SSRC hdr); " seq="; fmt_d (hd_Sequence hdr);
                                " pt="; fmt_d (hd_Payload hdr)]) pkt)
      end.

(** Flush, for the order in which the range visits the streams. *)
Definition Flush (d : RTPDecoder) (order : list (string * RTPStream)) : list Flow :=
  ToFlow ∘ snd <$> order.

(** ** The decoder on any packet *)

(** The header the decoder finds in a packet, if it takes the packet for RTP. *)
Definition rtp_header (pkt : Packet) : option RTPHeader :=
  if String.eqb (Protocol pkt) "UDP" then
    match parseRTPHeader (Payload pkt) with Ok h => h | _ => None end
  else None.

Lemma returns_word32 b i (Q : Z -> Prop) :
  0 <= i -> i + 4 <= zlen b -> (forall v, Q v) -> returns (word32 b i) Q.
Proof. intros. unfold word32. repeat (apply returns_bind, returns_idx; [lia|intros ? _]). cbn. auto. Qed.

Lemma parseRTPHeader_returns b : returns (parseRTPHeader b) (fun _ => True).
Proof.
  unfold parseRTPHeader. case_match eqn:Hl; [done|].
  apply returns_bind, returns_idx; [lia|intros b0 _]. case_match; [done|].
  do 3 (apply returns_bind, returns_idx; [lia|intros ? _]).
  do 2 (apply returns_bind, returns_word32; [lia..|intros ?]). done.
Qed.

Definition annotate (hdr : RTPHeader) (pkt : Packet) : Packet :=
  set_app "RTP" (cat ["SSRC=0x"; fmt_0x 8 (hd_SSRC hdr); " seq="; fmt_d (hd_Sequence hdr);
                      " pt="; fmt_d (hd_Payload hdr)]) pkt.

(** The handler never panics, and does nothing on a packet without a header. *)
Lemma HandlePacket_spec d pkt :
  HandlePacket d pkt = Ok match rtp_header pkt with
    | None => (d, pkt)
    | Some hdr =>
      let key := streamKey pkt (hd_SSRC hdr) in
      (<[key := AddPacket pkt hdr (default (NewRTPStream pkt hdr) (d !! key))]> d, annotate hdr pkt)
    end.
Proof.
  unfold HandlePacket, rtp_header. destruct (String.eqb (Protocol pkt) "UDP"); [|done]. cbn [negb].
  destruct (zlen (Payload pkt) <? 12) eqn:Hl.
  { unfold parseRTPHeader. by rewrite Hl. }
  destruct (returns_inv _ _ (parseRTPHeader_returns (Payload pkt))) as (h & E & _). rewrite E.
  unfold looksLikeRTP, parseRTPHeader in *. rewrite Hl in *.
  destruct (idx (Payload pkt) 0) as [b0| |] eqn:E0; [|done..]. cbn [mbind res_bind] in *.
  destruct (Z.shiftr (u8 b0) 6 =? 2) eqn:Ev; cbn [negb] in *; [by destruct h|].
  by injection E as <-.
Qed.

Definition run (d : RTPDecoder) (pkts : list Packet) : res RTPDecoder :=
  foldM (fun d pkt => fst <$> HandlePacket d pkt) d pkts.

(** ** Streams *)

(** The packets of one stream, with their headers. *)
Definition stream_packets (k : string) (pkts : list Packet) : list (Packet * RTPHeader) :=
  omap (fun pkt => hdr ← rtp_header pkt;
    if String.eqb (streamKey pkt (hd_SSRC hdr)) k then Some (pkt, hdr) else None) pkts.

Definition add (s : RTPStream) (p : Packet * RTPHeader) : RTPStream := AddPacket (fst p) (snd p) s.

Definition stream_of (l : list (Packet * RTPHeader)) : option RTPStream :=
  p ← head l; Some (foldl add (NewRTPStream (fst p) (snd p)) l).

Lemma stream_of_snoc l p :
  stream_of (l ++ [p]) = Some (add (default (NewRTPStream (fst p) (snd p)) (stream_of l)) p).
Proof. destruct l; cbn; [done|]. by rewrite foldl_app. Qed.

(** Each stream of the decoder is the fold of its own packets. *)
Lemma run_stream_of pkts :
  exists d, run NewDecoder pkts = Ok d /\ forall k, d !! k = stream_of (stream_packets k pkts).
Proof.
  induction pkts as [|pkt pkts (d & Hd & Hk)] using rev_ind; [by exists NewDecoder|].
  unfold run in *. rewrite foldM_app, Hd. cbn [mbind res_bind foldM].
  rewrite HandlePacket_spec. unfold stream_packets in *.
  destruct (rtp_header pkt) as [hdr|] eqn:E; cbn [fmap res_fmap mbind res_bind fst].
  - eexists. split; [done|]. intros k. unfold RTPDecoder in *. rewrite omap_app. cbn [omap list_omap].
    rewrite E. cbn [mbind option_bind].
    destruct (String.eqb_spec (streamKey pkt (hd_SSRC hdr)) k) as [<-|Hne].
    + rewrite lookup_insert_eq, stream_of_snoc. by rewrite Hk.
    + by rewrite lookup_insert_ne, app_nil_r.
  - exists d. split; [done|]. intros k. rewrite omap_app. cbn [omap list_omap].
    rewrite E. cbn [mbind option_bind]. by rewrite app_nil_r.
Qed.

(** The groups of counters do not depend on each other. *)
Lemma fold_groups l s :
  let s' := foldl add s l in
  rs_seq s' = foldl (fun q p => add_seq (hd_Sequence (snd p)) q) (rs_seq s) l /\
  rs_jitter s' =
    foldl (fun j p => add_jitter (Timestamp (fst p)) (hd_Timestamp (snd p)) j) (rs_jitter s) l /\
  rs_size s' = foldl (fun z p => add_size (zlen (Payload (fst p))) z) (rs_size s) l /\
  PacketCount s' = foldl (fun n _ => i64 (n + 1)) (PacketCount s) l /\
  (rs_SrcIP s', rs_SrcPort s', rs_DstIP s', rs_DstPort s', rs_SSRC s', rs_StartTime s') =
  (rs_SrcIP s, rs_SrcPort s, rs_DstIP s, rs_DstPort s, rs_SSRC s, rs_StartTime s).
Proof.
  revert s. induction l as [|p l IH]; intros s; [done|].
  exact (IH (add s p)).
Qed.

Lemma fold_count {A} (l : list A) n :
  0 <= n -> n + zlen l < 2 ^ 63 -> foldl (fun n _ => i64 (n + 1)) n l = n + zlen l.
Proof.
  revert n. induction l as [|x l IH]; intros n Hn Hl; cbn [foldl]; [rewrite zlen_nil; lia|].
  rewrite zlen_cons in Hl. pose proof (zlen_nonneg l).
  unfold i64. rewrite swrap_small by lia. rewrite IH, zlen_cons by lia. lia.
Qed.

(** ** Loss *)

(** The differences between the neighbours of [e :: es]. *)
Fixpoint steps (e : Z) (es : list Z) : list Z :=
  match es with
  | [] => []
  | x :: es => (x - e) :: steps x es
  end.

Definition count (f : Z -> bool) (l : list Z) : Z := zlen (filter (fun x => f x = true) l).

Lemma count_nil f : count f [] = 0.
Proof. done. Qed.

Lemma count_cons f x l : count f (x :: l) = (if f x then 1 else 0) + count f l.
Proof. unfold count. rewrite filter_cons. case_decide; rewrite ?zlen_cons; by destruct (f x). Qed.

Lemma u16_diff x e : u16 (u16 x - u16 e) = (x - e) mod 2 ^ 16.
Proof. unfold u16, wrap. by rewrite <-Zminus_mod. Qed.

Lemma steps_loss es : forall e s,
  Forall (fun x => - 2 ^ 16 < x < 2 ^ 16) (steps e es) ->
  lastSeq s = u16 e -> 0 < seenPackets s -> seenPackets s + zlen es < 2 ^ 62 ->
  0 <= lostPackets s -> lostPackets s + 2 ^ 16 * zlen es < 2 ^ 62 ->
  let s' := foldl (fun s x => add_seq (u16 x) s) s es in
  lostPackets s' = lostPackets s + (List.last es e - e) - zlen es
    + 2 ^ 16 * count (fun x => x <? 0) (steps e es) + count (fun x => x =? 0) (steps e es) /\
  MaxSeqGap s' = foldl Z.max (MaxSeqGap s) ((fun x => x mod 2 ^ 16) <$> steps e es).
Proof.
  induction es as [|x es IH]; intros e s Hs Hl Hn Hb Hp Hw s'.
  { subst s'. split; [|done]. cbn [foldl List.last steps]. rewrite !count_nil, zlen_nil. lia. }
  cbn [steps] in Hs. apply Forall_cons in Hs as [Hx Hs]. rewrite zlen_cons in Hb, Hw.
  pose proof (zlen_nonneg es). cbn [foldl] in s'.
  set (s1 := add_seq (u16 x) s) in *.
  assert (Hgap : (x - e) mod 2 ^ 16 = (x - e) + (if x - e <? 0 then 2 ^ 16 else 0)).
  { destruct (Z.ltb_spec (x - e) 0).
    - rewrite <-(Z_mod_plus_full _ 1 (2 ^ 16)), Z.mod_small; lia.
    - rewrite Z.mod_small; lia. }
  assert (E1 : lostPackets s1 = lostPackets s + (x - e - 1)
    + (if x - e <? 0 then 2 ^ 16 else 0) + (if x - e =? 0 then 1 else 0)).
  { unfold s1, add_seq. rewrite (proj2 (Z.ltb_lt _ _) Hn), Hl, u16_diff, Hgap.
    cbn [lostPackets]. destruct (Z.ltb_spec (x - e) 0), (Z.eqb_spec (x - e) 0); try lia;
      case_match; unfold i64; rewrite ?swrap_small; lia. }
  assert (E2 : lastSeq s1 = u16 x /\ seenPackets s1 = seenPackets s + 1 /\
    MaxSeqGap s1 = Z.max (MaxSeqGap s) ((x - e) mod 2 ^ 16)).
  { unfold s1, add_seq. rewrite (proj2 (Z.ltb_lt _ _) Hn), Hl, u16_diff.
    cbn [lastSeq seenPackets MaxSeqGap]. unfold i64. rewrite swrap_small by lia.
    split_and!; [done..|]. generalize ((x - e) mod 2 ^ 16). intros g.
    destruct (Z.ltb_spec (MaxSeqGap s) g); lia. }
  destruct E2 as (E2 & E3 & E4).
  destruct (IH x s1) as [I1 I2]; [done..|lia|lia| | |].
  { rewrite E1. repeat case_match; lia. }
  { rewrite E1. repeat case_match; lia. }
  fold s' in I1, I2. split.
  - rewrite I1, E1. cbn [steps]. rewrite !count_cons, zlen_cons.
    replace (List.last (x :: es) e) with (List.last es x).
    2:{ clear. destruct es as [|y es]; [done|]. revert y. induction es; intros; cbn in *; [done|auto]. }
    repeat case_match; lia.
  - rewrite I2, E4. done.
Qed.

(** The first packet of a stream, then the others. *)
Lemma stream_loss l e es :
  (hd_Sequence ∘ snd) <$> l = u16 <$> (e :: es) ->
  Forall (fun x => - 2 ^ 16 < x < 2 ^ 16) (steps e es) ->
  zlen es < 2 ^ 40 ->
  exists s, stream_of l = Some s /\
    PacketCount s = 1 + zlen es /\
    lostPackets (rs_seq s) = (List.last es e - e + 1) - PacketCount s
      + 2 ^ 16 * count (fun x => x <? 0) (steps e es) + count (fun x => x =? 0) (steps e es) /\
    MaxSeqGap (rs_seq s) = foldl Z.max 0 ((fun x => x mod 2 ^ 16) <$> steps e es).
Proof.
  intros El Hs Hn. destruct l as [|p l]; [done|]. cbn [fmap list_fmap] in El.
  injection El as Ep El.
  eexists. split; [done|]. set (s0 := NewRTPStream (fst p) (snd p)).
  destruct (fold_groups (p :: l) s0) as (Eq & _ & _ & Ec & _).
  assert (El' : length l = length es) by (by rewrite <-(length_fmap (hd_Sequence ∘ snd) l), El, length_fmap).
  rewrite Eq, Ec, fold_count; [|done|].
  2:{ rewrite zlen_cons. unfold zlen in *. cbn. lia. }
  assert (E : foldl (fun q p => add_seq (hd_Sequence (snd p)) q) (rs_seq s0) (p :: l) =
    foldl (fun s x => add_seq (u16 x) s) (add_seq (u16 e) (rs_seq s0)) es).
  { cbn [foldl]. rewrite <-Ep. cbn [compose]. generalize (add_seq (hd_Sequence (snd p)) (rs_seq s0)).
    clear -El. revert l El. induction es as [|x es IH]; intros [|q l] El s; try done.
    cbn [fmap list_fmap] in El. injection El as Ex El. cbn [foldl].
    rewrite <-Ex. by apply IH. }
  rewrite E. pose proof (zlen_nonneg es) as Hp.
  assert (E0 : add_seq (u16 e) (rs_seq s0) =
    {| lastSeq := u16 e; seenPackets := 1; MaxSeqGap := 0; lostPackets := 0 |}) by done.
  rewrite E0. set (s1 := {| lastSeq := u16 e |}).
  destruct (steps_loss es e s1 Hs) as [I1 I2]; [done|cbn; lia..|].
  cbn in I1, I2. split_and!.
  - rewrite zlen_cons. unfold zlen. cbn. lia.
  - rewrite I1, zlen_cons. unfold zlen in *. cbn. lia.
  - done.
Qed.

(** ** The RTP header on the wire *)

(** Marker and payload type [b1], no padding, no extension, no sources: the
    first byte [b0] carries the version. *)
Definition rtp_bytes (b0 b1 : byte) (sequence ts ssrc : Z) (media : list byte) : list byte :=
  b0 :: b1 :: be_put 2 sequence ++ be_put 4 ts ++ be_put 4 ssrc ++ media.

Lemma be32_lor b1 b2 b3 b4 :
  Z.lor (Z.lor (Z.lor (Z.shiftl (u8 b1) 24) (Z.shiftl (u8 b2) 16)) (Z.shiftl (u8 b3) 8)) (u8 b4) =
  be [b1; b2; b3; b4].
Proof.
  unfold be. cbn [foldl]. rewrite Z.shiftl_0_l, Z.lor_0_l, !Z.shiftl_lor.
  by rewrite !Z.shiftl_shiftl by lia.
Qed.

Lemma be16_lor b1 b2 : Z.lor (Z.shiftl (u8 b1) 8) (u8 b2) = be [b1; b2].
Proof. done. Qed.

(** Read a byte of an explicit list. *)
Ltac read_idx :=
  match goal with
  | |- context [idx ?s ?i] =>
    let E := fresh in
    eassert (idx s i = Ok _) as E by (apply idx_lookup; [lia|reflexivity]);
    rewrite E; clear E; cbn [mbind res_bind]
  end.

Lemma parse_rtp_bytes b0 b1 sequence ts ssrc media :
  Z.shiftr (u8 b0) 6 = 2 -> 0 <= sequence < 2 ^ 16 -> 0 <= ts < 2 ^ 32 -> 0 <= ssrc < 2 ^ 32 ->
  parseRTPHeader (rtp_bytes b0 b1 sequence ts ssrc media) =
  Ok (Some {| hd_Version := 2; hd_Payload := Z.land (u8 b1) 0x7F; hd_Sequence := sequence;
              hd_Timestamp := ts; hd_SSRC := ssrc |}).
Proof.
  intros H0 Hs Ht Hr. unfold parseRTPHeader.
  rewrite (proj2 (Z.ltb_ge _ 12)).
  2:{ unfold rtp_bytes. rewrite !zlen_cons, !zlen_app, !zlen_be_put. pose proof (zlen_nonneg media). lia. }
  rewrite <-(be_be_put 2 sequence), <-(be_be_put 4 ts), <-(be_be_put 4 ssrc) at 2 by done.
  unfold rtp_bytes, word32. cbn [be_put app].
  repeat read_idx; cbn [mbind res_bind]. rewrite H0. cbn [Z.eqb Pos.eqb negb].
  repeat read_idx; cbn [mbind res_bind]. by rewrite be16_lor, !be32_lor.
Qed.

(** ** Jitter of a perfectly paced stream *)

(** The running jitter after [n] packets that are all [d] off. *)
Definition jitter_after (n : nat) (d : f64) : f64 := Nat.iter n (fun j => jitter_next j d) f_zero.

Lemma iter_fixed {A} (f : A -> A) x k n :
  Nat.iter (S k) f x = Nat.iter k f x -> (k <= n)%nat -> Nat.iter n f x = Nat.iter k f x.
Proof.
  intros Hk. induction 1 as [|n _ IH]; [done|].
  change (Nat.iter (S n) f x) with (f (Nat.iter n f x)). by rewrite IH.
Qed.

(** Test the first [n] iterates. *)
Fixpoint scan {A} (f : A -> A) (P : A -> bool) (n : nat) (x : A) : bool :=
  match n with
  | O => P x
  | S n => P x && scan f P n (f x)
  end.

Lemma scan_iter {A} (f : A -> A) P n x i :
  scan f P n x = true -> (i <= n)%nat -> P (Nat.iter i f x) = true.
Proof.
  revert x i. induction n as [|n IH]; intros x i H Hi; cbn [scan] in H.
  - by replace i with 0%nat by lia.
  - apply andb_true_iff in H as [Hx H]. destruct i as [|i]; [done|].
    rewrite Nat.iter_succ_r. apply IH; [done|lia].
Qed.

Definition verdict_is (v : SLAVerdict) (j : f64) : bool := bool_decide (Verdict (ClassifyRTP j f_zero) = v).

(** After [k] packets the running jitter does not move any more. *)
Definition settles (k : nat) (d : f64) (v : SLAVerdict) (from : nat) : bool :=
  let f := fun j => jitter_next j d in
  let j := jitter_after k d in
  bool_decide (f j = j) && scan f (verdict_is v) k (jitter_after from d).

Lemma settles_forever k d v from n :
  settles k d v from = true -> (from <= n)%nat -> Verdict (ClassifyRTP (jitter_after n d) f_zero) = v.
Proof.
  unfold settles. intros [Hf%bool_decide_eq_true Hs]%andb_true_iff Hn.
  assert (forall m, (m <= k)%nat -> verdict_is v (jitter_after (m + from) d) = true) as H.
  { intros m Hm. unfold jitter_after. rewrite Nat.iter_add. by apply scan_iter with (n := k). }
  enough (verdict_is v (jitter_after n d) = true) as E by (by apply bool_decide_eq_true in E).
  destruct (decide (n - from <= k)%nat).
  - specialize (H (n - from)%nat). replace (n - from + from)%nat with n in H by lia. auto.
  - specialize (H k ltac:(lia)). unfold jitter_after in *.
    rewrite (iter_fixed _ _ k n) by (done || lia).
    by rewrite (iter_fixed _ _ k (k + from)) in H by (done || lia).
Qed.

Lemma ClassifyRTP_no_loss j x : f_gt x f_zero = false -> ClassifyRTP j x = ClassifyRTP j f_zero.
Proof. intros Hx. unfold ClassifyRTP. by rewrite Hx. Qed.

Lemma loss_rate_zero total : f_gt (loss_rate_pct 0 total) f_zero = false.
Proof.
  unfold loss_rate_pct. case_match; [|done]. change (f_int 0) with f_zero.
  by destruct (f_int total) as [[]|[]| |[] m e].
Qed.

(** [pk i], for [i] from 0: packets of one sender, every [period]
    milliseconds, with [ticks] of the media clock from one to the next. *)
Record paced (pk : nat -> Packet) (src dst : string) (sport dport ssrc seq0 ts0 t0 period ticks : Z) : Prop := {
  pc_Protocol : forall i, Protocol (pk i) = "UDP";
  pc_SrcIP : forall i, SrcIP (pk i) = src;
  pc_DstIP : forall i, DstIP (pk i) = dst;
  pc_SrcPort : forall i, SrcPort (pk i) = sport;
  pc_DstPort : forall i, DstPort (pk i) = dport;
  pc_Timestamp : forall i, Timestamp (pk i) = t0 + Z.of_nat i * (period * 1000000);
  pc_Payload : forall i, exists b0 b1 media, Z.shiftr (u8 b0) 6 = 2 /\
    Payload (pk i) = rtp_bytes b0 b1 (u16 (seq0 + Z.of_nat i)) (u32 (ts0 + Z.of_nat i * ticks)) ssrc media;
}.

Lemma add_jitter_fields now ts j :
  lastArrival j <> 0 ->
  let j' := add_jitter now ts j in
  lastArrival j' = now /\ lastTS j' = ts /\ JitterMs j' = jitterRunning j' /\
  jitterRunning j' = jitter_next (jitterRunning j) (f_abs (f_int (transit now ts j))).
Proof. intros H. unfold add_jitter, is_zero. by rewrite (proj2 (Z.eqb_neq _ 0) H). Qed.

Section paced.
  Context (pk : nat -> Packet) (src dst : string) (sport dport ssrc seq0 ts0 t0 period ticks : Z).
  Context (Hpk : paced pk src dst sport dport ssrc seq0 ts0 t0 period ticks).
  Context (Hssrc : 0 <= ssrc < 2 ^ 32) (Ht0 : 0 < t0) (Hperiod : 0 <= period < 2 ^ 31)
    (Hticks : 0 <= ticks < 2 ^ 31).

Let key := cat [src; ":"; fmt_d sport; "-"; dst; ":"; fmt_d dport; "-"; fmt_d ssrc].

Lemma paced_header i : exists h, rtp_header (pk i) = Some h /\
  hd_Sequence h = u16 (seq0 + Z.of_nat i) /\ hd_Timestamp h = u32 (ts0 + Z.of_nat i * ticks) /\
  hd_SSRC h = ssrc.
Proof.
  destruct (pc_Payload _ _ _ _ _ _ _ _ _ _ _ Hpk i) as (b0 & b1 & media & H0 & E).
  unfold rtp_header. rewrite (pc_Protocol _ _ _ _ _ _ _ _ _ _ _ Hpk), E, String.eqb_refl.
  rewrite parse_rtp_bytes by (done || by apply wrap_range). by eexists.
Qed.

Definition paced_hdr (i : nat) : RTPHeader :=
  default {| hd_Version := 0; hd_Payload := 0; hd_Sequence := 0; hd_Timestamp := 0; hd_SSRC := 0 |}
    (rtp_header (pk i)).

Lemma paced_hdr_spec i : rtp_header (pk i) = Some (paced_hdr i) /\
  hd_Sequence (paced_hdr i) = u16 (seq0 + Z.of_nat i) /\
  hd_Timestamp (paced_hdr i) = u32 (ts0 + Z.of_nat i * ticks) /\ hd_SSRC (paced_hdr i) = ssrc.
Proof. unfold paced_hdr. by destruct (paced_header i) as (h & -> & ?). Qed.

Lemma paced_stream_packets k l :
  stream_packets k (pk <$> l) = if String.eqb key k then (fun i => (pk i, paced_hdr i)) <$> l else [].
Proof.
  unfold stream_packets. induction l as [|i l IH]; [by destruct (String.eqb key k)|].
  destruct (paced_hdr_spec i) as (E & _ & _ & Er). cbn [fmap list_fmap omap list_omap].
  rewrite E. cbn [mbind option_bind]. rewrite Er. unfold streamKey.
  rewrite (pc_SrcIP _ _ _ _ _ _ _ _ _ _ _ Hpk), (pc_DstIP _ _ _ _ _ _ _ _ _ _ _ Hpk),
    (pc_SrcPort _ _ _ _ _ _ _ _ _ _ _ Hpk), (pc_DstPort _ _ _ _ _ _ _ _ _ _ _ Hpk).
  fold key. change (omap _ (pk <$> l)) with (stream_packets k (pk <$> l)).
  unfold stream_packets. rewrite IH. by destruct (String.eqb key k).
Qed.

Definition off : f64 := f_abs (f_int (period - ticks)).

(** From the second packet on, every packet is [period - ticks] off. *)
Lemma paced_transit i j :
  lastArrival j = t0 + Z.of_nat i * (period * 1000000) -> lastTS j = u32 (ts0 + Z.of_nat i * ticks) ->
  transit (t0 + Z.of_nat (S i) * (period * 1000000)) (u32 (ts0 + Z.of_nat (S i) * ticks)) j = period - ticks.
Proof.
  intros Ea Et. unfold transit. rewrite Ea, Et.
  assert (time_sub (t0 + Z.of_nat (S i) * (period * 1000000)) (t0 + Z.of_nat i * (period * 1000000)) =
    period * 1000000) as -> by (unfold time_sub; lia).
  unfold milliseconds. rewrite Z.quot_mul by lia.
  assert (u32 (u32 (ts0 + Z.of_nat (S i) * ticks) - u32 (ts0 + Z.of_nat i * ticks)) = ticks) as ->.
  { unfold u32, wrap. rewrite <-Zminus_mod.
    replace (_ - _) with ticks by lia. apply Z.mod_small. lia. }
  unfold i64. apply swrap_small; lia.
Qed.

Lemma paced_jitter n :
  let j := foldl (fun j p => add_jitter (Timestamp (fst p)) (hd_Timestamp (snd p)) j)
    (rs_jitter (NewRTPStream (pk 0%nat) (paced_hdr 0)))
    ((fun i => (pk i, paced_hdr i)) <$> seq 0 (S n)) in
  lastArrival j = t0 + Z.of_nat n * (period * 1000000) /\ lastTS j = u32 (ts0 + Z.of_nat n * ticks) /\
  JitterMs j = jitter_after n off /\ jitterRunning j = jitter_after n off.
Proof.
  induction n as [|n IH].
  - cbn [seq fmap list_fmap foldl fst snd]. unfold NewRTPStream. cbn [rs_jitter].
    rewrite (pc_Timestamp _ _ _ _ _ _ _ _ _ _ _ Hpk). destruct (paced_hdr_spec 0) as (_ & _ & -> & _).
    set (j := Build_jitter_stats _ _ _ _ _ _ _ _ _ _).
    edestruct (add_jitter_fields (t0 + Z.of_nat 0 * (period * 1000000)) (u32 (ts0 + Z.of_nat 0 * ticks)) j)
      as (-> & -> & -> & ->); [cbn; lia|].
    unfold transit, time_sub, j. cbn [lastArrival lastTS]. rewrite !Z.sub_diag. by split_and!.
  - rewrite seq_S, fmap_app, foldl_app. cbn zeta in *.
    destruct IH as (Ea & Et & _ & Er).
    set (j := foldl _ _ (_ <$> seq 0 (S n))) in *. cbn [fmap list_fmap foldl fst snd Nat.add].
    rewrite (pc_Timestamp _ _ _ _ _ _ _ _ _ _ _ Hpk). destruct (paced_hdr_spec (S n)) as (_ & _ & -> & _).
    edestruct (add_jitter_fields (t0 + Z.of_nat (S n) * (period * 1000000)) (u32 (ts0 + Z.of_nat (S n) * ticks)) j)
      as (-> & -> & -> & ->); [rewrite Ea; lia|].
    rewrite (paced_transit n), Er by done. by split_and!.
Qed.

Lemma steps_consecutive e n :
  steps e ((fun i => e + 1 + Z.of_nat i) <$> seq 0 n) = replicate n 1 /\
  List.last ((fun i => e + 1 + Z.of_nat i) <$> seq 0 n) e = e + Z.of_nat n.
Proof.
  revert e. induction n as [|n IH]; intros e; [split; [done|cbn; lia]|].
  cbn [seq fmap list_fmap steps replicate]. rewrite <-fmap_S_seq, <-list_fmap_compose.
  destruct (IH (e + 1 + Z.of_nat 0)) as [IH1 IH2].
  assert (((fun i => e + 1 + Z.of_nat i) ∘ S) <$> seq 0 n =
    (fun i => e + 1 + Z.of_nat 0 + 1 + Z.of_nat i) <$> seq 0 n) as ->.
  { apply list_fmap_ext. intros. cbn [compose]. lia. }
  split; [f_equal; [lia|exact IH1]|].
  set (l := _ <$> seq 0 n) in *. rewrite <-(Z.add_0_r e) at 1.
  transitivity (List.last l (e + 1 + Z.of_nat 0)); [|lia].
  destruct l as [|z l]; [cbn; lia|]. clear. cbn [List.last]. revert z. induction l; intros; [done|apply IHl].
Qed.

Lemma paced_stream n :
  Z.of_nat n < 2 ^ 40 ->
  exists d s, run NewDecoder (pk <$> seq 0 (S n)) = Ok d /\
    (forall k, d !! k = if String.eqb key k then Some s else None) /\
    (rs_SrcIP s, rs_SrcPort s, rs_DstIP s, rs_DstPort s, rs_SSRC s) = (src, sport, dst, dport, ssrc) /\
    PacketCount s = 1 + Z.of_nat n /\ lostPackets (rs_seq s) = 0 /\
    MaxSeqGap (rs_seq s) = (if decide (n = 0)%nat then 0 else 1) /\
    JitterMs (rs_jitter s) = jitter_after n off.
Proof.
  intros Hn. destruct (run_stream_of (pk <$> seq 0 (S n))) as (d & Hd & Hk).
  set (l := (fun i => (pk i, paced_hdr i)) <$> seq 0 (S n)).
  destruct (stream_loss l seq0 ((fun i => seq0 + 1 + Z.of_nat i) <$> seq 0 n)) as (s & Es & Ec & El & Eg).
  { unfold l. rewrite <-list_fmap_compose. cbn [seq fmap list_fmap compose snd].
    rewrite <-list_fmap_compose, <-fmap_S_seq, <-list_fmap_compose.
    f_equal; [destruct (paced_hdr_spec 0) as (_ & -> & _); f_equal; lia|].
    apply list_fmap_ext. intros _ i _. cbn [compose snd].
    destruct (paced_hdr_spec (S i)) as (_ & -> & _). f_equal. lia. }
  { rewrite (proj1 (steps_consecutive seq0 n)). apply Forall_replicate. lia. }
  { unfold zlen. rewrite length_fmap, length_seq. lia. }
  destruct (steps_consecutive seq0 n) as [Hs Hlast]. rewrite Hs in El, Eg. rewrite Hlast in El.
  assert (Hz : zlen ((fun i => seq0 + 1 + Z.of_nat i) <$> seq 0 n) = Z.of_nat n).
  { unfold zlen. by rewrite length_fmap, length_seq. }
  rewrite Hz in Ec.
  exists d, s. split; [done|]. split.
  { intros k. rewrite Hk, paced_stream_packets. fold l. by destruct (String.eqb key k). }
  destruct (fold_groups l (NewRTPStream (pk 0%nat) (paced_hdr 0))) as (_ & Ej & _ & _ & Ei).
  assert (s = foldl add (NewRTPStream (pk 0%nat) (paced_hdr 0)) l) as E by (by injection Es).
  rewrite <-E in Ej, Ei. split_and!.
  - destruct (paced_hdr_spec 0) as (_ & _ & _ & Er). injection Ei as -> -> -> -> -> _. cbn.
    by rewrite Er, (pc_SrcIP _ _ _ _ _ _ _ _ _ _ _ Hpk), (pc_DstIP _ _ _ _ _ _ _ _ _ _ _ Hpk),
      (pc_SrcPort _ _ _ _ _ _ _ _ _ _ _ Hpk), (pc_DstPort _ _ _ _ _ _ _ _ _ _ _ Hpk).
  - done.
  - rewrite El, Ec. assert (forall f, f 1 = false -> count f (replicate n 1) = 0) as Hc.
    { intros f Hf. clear -Hf. induction n as [|n IH]; [done|]. cbn [replicate]. by rewrite count_cons, Hf, IH. }
    rewrite !Hc by done. lia.
  - rewrite Eg. clear. assert (forall m z, 1 <= z ->
      foldl Z.max z ((fun x => x mod 2 ^ 16) <$> replicate m 1) = z) as H.
    { induction m as [|m IH]; intros z Hz; [done|]. cbn [replicate fmap list_fmap foldl].
      change (1 mod 2 ^ 16) with 1. rewrite IH; lia. }
    destruct n as [|n]; [done|]. cbn [replicate fmap list_fmap foldl]. by apply H.
  - rewrite Ej. apply paced_jitter.
Qed.
End paced.

(** ** Properties *)

Lemma ToFlow_metrics s :
  F_SrcIP (ToFlow s) = rs_SrcIP s /\ F_DstIP (ToFlow s) = rs_DstIP s /\
  Type_ (ToFlow s) = FlowRTP /\
  get_int (Metrics (ToFlow s)) "packet_count" = Some (PacketCount s) /\
  get_int (Metrics (ToFlow s)) "lost_packets" = Some (lostPackets (rs_seq s)) /\
  get_int (Metrics (ToFlow s)) "max_seq_gap" = Some (MaxSeqGap (rs_seq s)) /\
  get_f64 (Metrics (ToFlow s)) "jitter_ms" = Some (JitterMs (rs_jitter s)) /\
  get_str (Metrics (ToFlow s)) "sla_verdict" = Some (verdict_string (Verdict
    (ClassifyRTP (JitterMs (rs_jitter s))
      (loss_rate_pct (lostPackets (rs_seq s)) (i64 (PacketCount s + lostPackets (rs_seq s))))))).
Proof.
  unfold get_int, get_f64, get_str, ToFlow. cbn [F_SrcIP F_DstIP Type_ Metrics].
  unfold list_to_map. cbn [foldr fst snd]. split_and!; [done..| | | | |]; by lookup_metric.
Qed.

(** C8: loss of an RTP stream. However the streams of a capture are mixed, a
    stream whose packets carry the extended sequence numbers [e :: es] (16 bits
    of each are on the wire) is counted with all its packets, and the loss is
    expected minus received packets plus one for every duplicate and plus 65536
    for every packet that comes late: it is exact when the numbers increase,
    across any number of wrap-arounds, and a single reordered packet counts as
    a lost cycle of the whole number space. The largest gap is that of the
    differences modulo 2^16. *)
Theorem rtp_loss_exact pkts k e es :
  (hd_Sequence ∘ snd) <$> stream_packets k pkts = u16 <$> (e :: es) ->
  Forall (fun x => - 2 ^ 16 < x < 2 ^ 16) (steps e es) ->
  zlen es < 2 ^ 40 ->
  exists d s, run NewDecoder pkts = Ok d /\ d !! k = Some s /\
    PacketCount s = 1 + zlen es /\
    lostPackets (rs_seq s) = (List.last es e - e + 1) - PacketCount s
      + 2 ^ 16 * count (fun x => x <? 0) (steps e es) + count (fun x => x =? 0) (steps e es) /\
    MaxSeqGap (rs_seq s) = foldl Z.max 0 ((fun x => x mod 2 ^ 16) <$> steps e es).
Proof.
  intros H1 H2 H3. destruct (run_stream_of pkts) as (d & Hd & Hk).
  destruct (stream_loss _ e es H1 H2 H3) as (s & Es & ?). exists d, s. by rewrite Hk.
Qed.

(** A stream of five packets that wraps around, whose last two are swapped. *)
Definition swapped_packet (sequence : Z) : Packet :=
  mk_packet 1000 "10.0.0.1" "10.0.0.2" 4000 4002 "UDP"
    (rtp_bytes (byte_of 0x80) (byte_of 8) sequence 160 7 (octets [1; 2])).

Example rtp_loss_exact_witness :
  (hd_Sequence ∘ snd) <$> stream_packets "10.0.0.1:4000-10.0.0.2:4002-7"
    (swapped_packet <$> [65534; 65535; 1; 3; 2]) = u16 <$> [65534; 65535; 65537; 65539; 65538] /\
  exists d s, run NewDecoder (swapped_packet <$> [65534; 65535; 1; 3; 2]) = Ok d /\
    d !! "10.0.0.1:4000-10.0.0.2:4002-7"%string = Some s /\
    lostPackets (rs_seq s) = 65536 /\ MaxSeqGap (rs_seq s) = 65535.
Proof.
  split; [by vm_compute|].
  destruct (rtp_loss_exact (swapped_packet <$> [65534; 65535; 1; 3; 2]) "10.0.0.1:4000-10.0.0.2:4002-7"
    65534 [65535; 65537; 65539; 65538]) as (d & s & H1 & H2 & H3 & H4 & H5).
  - by vm_compute.
  - cbn [steps]. repeat constructor; lia.
  - by vm_compute.
  - exists d, s. split_and!; [done|done| |by rewrite H5].
    rewrite H4, H3. by vm_compute.
Defined.

(** A paced stream alone: what Flush returns, in any order. *)
Lemma paced_flush pk src dst sport dport ssrc seq0 ts0 t0 period ticks n d order :
  paced pk src dst sport dport ssrc seq0 ts0 t0 period ticks ->
  0 <= ssrc < 2 ^ 32 -> 0 < t0 -> 0 <= period < 2 ^ 31 -> 0 <= ticks < 2 ^ 31 -> Z.of_nat n < 2 ^ 40 ->
  run NewDecoder (pk <$> seq 0 (S n)) = Ok d -> map_order d order ->
  exists s, Flush d order = [ToFlow s] /\
    (rs_SrcIP s, rs_SrcPort s, rs_DstIP s, rs_DstPort s) = (src, sport, dst, dport) /\
    PacketCount s = 1 + Z.of_nat n /\ lostPackets (rs_seq s) = 0 /\
    MaxSeqGap (rs_seq s) = (if decide (n = 0)%nat then 0 else 1) /\
    JitterMs (rs_jitter s) = jitter_after n (f_abs (f_int (period - ticks))).
Proof.
  intros Hpk Hr Ht Hp Hk Hn Hd Ho.
  destruct (paced_stream pk _ _ _ _ _ _ _ _ _ _ Hpk Hr Ht Hp Hk n Hn)
    as (d' & s & Hd' & Hs & Hi & Hc & Hl & Hg & Hj).
  assert (d' = d) as -> by congruence. clear Hd'.
  set (key := cat _) in *. unfold RTPDecoder in *.
  assert (d = {[key := s]}) as ->.
  { apply map_eq. intros k. rewrite Hs. destruct (String.eqb_spec key k) as [<-|].
    - by rewrite lookup_singleton_eq.
    - by rewrite lookup_singleton_ne. }
  unfold map_order in Ho. rewrite map_to_list_singleton in Ho. apply Permutation_singleton_r in Ho as ->.
  exists s. split_and!; try done. by injection Hi as -> -> -> -> _.
Qed.

(** Jitter in two units. The jitter of a stream is the smoothed difference
    of a time in milliseconds and a number of ticks of the media clock: of a
    stream that is perfectly paced, without loss, the decoder reports a jitter
    that tends to the difference of the two numbers. With a clock of 1 kHz it
    is nothing, and the stream is good; a stream of G.711 (160 ticks in 20
    milliseconds) or Opus (960 ticks) is only acceptable from its ninth packet
    on, however long it is. *)
Theorem rtp_paced_verdict pk src dst sport dport ssrc seq0 ts0 t0 period ticks n d order :
  paced pk src dst sport dport ssrc seq0 ts0 t0 period ticks ->
  0 <= ssrc < 2 ^ 32 -> 0 < t0 -> 0 <= period < 2 ^ 31 -> 0 <= ticks < 2 ^ 31 -> Z.of_nat n < 2 ^ 40 ->
  run NewDecoder (pk <$> seq 0 (S n)) = Ok d -> map_order d order ->
  exists f, Flush d order = [f] /\
    get_int (Metrics f) "packet_count" = Some (1 + Z.of_nat n) /\
    get_int (Metrics f) "lost_packets" = Some 0 /\
    get_f64 (Metrics f) "jitter_ms" = Some (jitter_after n (f_abs (f_int (period - ticks)))) /\
    (ticks = period -> get_str (Metrics f) "sla_verdict" = Some "good"%string) /\
    ((8 <= n)%nat -> (period, ticks) ∈ [(20, 160); (20, 960)] ->
      get_str (Metrics f) "sla_verdict" = Some "acceptable"%string).
Proof.
  intros Hpk Hr Ht Hp Hk Hn Hd Ho.
  destruct (paced_flush _ _ _ _ _ _ _ _ _ _ _ _ _ _ Hpk Hr Ht Hp Hk Hn Hd Ho) as (s & Hf & _ & Hc & Hl & _ & Hj).
  exists (ToFlow s). split; [done|].
  destruct (ToFlow_metrics s) as (_ & _ & _ & -> & -> & _ & -> & ->).
  rewrite Hc, Hl, Hj.
  rewrite ClassifyRTP_no_loss by apply loss_rate_zero. split_and!; [done..| |].
  - intros ->. rewrite Z.sub_diag. change (f_abs (f_int 0)) with f_zero. do 3 f_equal.
    assert (jitter_after n f_zero = f_zero) as ->; [|done].
    clear. induction n as [|n IH]; [done|]. change (jitter_next (jitter_after n f_zero) f_zero = f_zero). by rewrite IH.
  - intros H8 Hpt. do 2 f_equal. rewrite (settles_forever 700 _ SLAAcceptable 8); [done| |done].
    apply elem_of_cons in Hpt as [[= -> ->]|[= -> ->]%list_elem_of_singleton]; by vm_compute.
Qed.

(** A second of silence: fifty packets of G.711. *)
Definition silent_packet (i : nat) : Packet :=
  mk_packet (1000 + Z.of_nat i * (20 * 1000000)) "10.0.0.1" "10.0.0.2" 4000 4002 "UDP"
    (rtp_bytes (byte_of 0x80) (byte_of 0) (u16 (65530 + Z.of_nat i)) (u32 (0 + Z.of_nat i * 160)) 7
      (replicate 160 (byte_of 0xFF))).

Lemma silent_paced : paced silent_packet "10.0.0.1" "10.0.0.2" 4000 4002 7 65530 0 1000 20 160.
Proof.
  split; intros i; try reflexivity.
  exists (byte_of 0x80), (byte_of 0), (replicate 160 (byte_of 0xFF)). by split.
Qed.

Example rtp_paced_verdict_witness :
  exists d f, run NewDecoder (silent_packet <$> seq 0 50) = Ok d /\ Flush d (map_to_list d) = [f] /\
    get_int (Metrics f) "lost_packets" = Some 0 /\ get_str (Metrics f) "sla_verdict" = Some "acceptable"%string.
Proof.
  destruct (run_stream_of (silent_packet <$> seq 0 50)) as (d & Hd & _).
  destruct (rtp_paced_verdict silent_packet "10.0.0.1" "10.0.0.2" 4000 4002 7 65530 0 1000 20 160 49 d
    (map_to_list d) silent_paced) as (f & Hf & _ & H1 & _ & _ & H2); [lia..|exact Hd|exact (reflexivity _)|].
  exists d, f. split_and!; [exact Hd|exact Hf|exact H1|]. apply H2; [lia|by left].
Defined.
