(* ===== verification/Tracker.v ===== *)
(** * internal/flowengine: the 5-tuple flow tracker

    tracker.go: the flow table keyed by the canonical 5-tuple, [HandlePacket]
    with its phases, [Flush] and [toFlow]. The fields of [flowRecord] are
    grouped the way its comments group them (volume, throughput trend, TCP
    close, handshake RTT, retransmissions, data RTT, RST authenticity), a
    record per group, and each phase of [HandlePacket] updates its group.
    The Prometheus gauge [Flush] sets is part of its result. *)
From S2P Require Export Analysis.

Definition flagFIN : Z := 0x01.
Definition flagSYN : Z := 0x02.
Definition flagRST : Z := 0x04.
Definition flagPSH : Z := 0x08.
Definition flagACK : Z := 0x10.
Definition flagURG : Z := 0x20.

Definition rstTTLSuspiciousDelta : Z := 5.

(** ** Keys *)

Record flowKey := {
  k_SrcIP : string; k_DstIP : string;
  k_SrcPort : Z; k_DstPort : Z;
  k_Protocol : string;
}.
Global Instance flowKey_eq_dec : EqDecision flowKey.
Proof. solve_decision. Defined.
Global Instance flowKey_countable : Countable flowKey.
Proof.
  apply (inj_countable'
    (fun k => (k_SrcIP k, k_DstIP k, k_SrcPort k, k_DstPort k, k_Protocol k))
    (fun '(a, b, c, d, e) => {| k_SrcIP := a; k_DstIP := b; k_SrcPort := c;
                                k_DstPort := d; k_Protocol := e |})).
  by intros [].
Defined.

Definition is_icmp (proto : string) : bool :=
  String.eqb proto "ICMP" || String.eqb proto "ICMPv6".

Definition makeKey (srcIP dstIP : string) (srcPort dstPort : Z) (proto : string) :
    flowKey * bool :=
  if is_icmp proto then
    if String.ltb srcIP dstIP then
      ({| k_SrcIP := srcIP; k_DstIP := dstIP; k_SrcPort := 0; k_DstPort := 0;
          k_Protocol := proto |}, false)
    else
      ({| k_SrcIP := dstIP; k_DstIP := srcIP; k_SrcPort := 0; k_DstPort := 0;
          k_Protocol := proto |}, true)
  else if String.ltb srcIP dstIP || (String.eqb srcIP dstIP && (srcPort <=? dstPort)) then
    ({| k_SrcIP := srcIP; k_DstIP := dstIP; k_SrcPort := srcPort; k_DstPort := dstPort;
        k_Protocol := proto |}, false)
  else
    ({| k_SrcIP := dstIP; k_DstIP := srcIP; k_SrcPort := dstPort; k_DstPort := srcPort;
        k_Protocol := proto |}, true).

(** ** The state of a flow *)

Record pendingSeg := { ackExpected : Z; sentAt : time }.
Record rttMeasurement := { observedAt : time; durationMs : f64 }.

Record volume := {
  fwdPackets : Z; revPackets : Z;
  fwdBytes : Z; revBytes : Z;
}.
Record trend := { bucketStart : time; bucketBytes : list Z }.
Record tcp_close := { tcpFlags : Z; closedFIN : bool; closedRST : bool }.
Record handshake := {
  synTime : time; synAckTime : time; rttMs : f64; hasRTT : bool;
}.
Record retrans := {
  fwdHiSeq : Z; revHiSeq : Z;
  fwdHiInit : bool; revHiInit : bool;
  fwdRetrans : Z; revRetrans : Z;
}.
Record dataRTT := {
  fwdPending : list pendingSeg; revPending : list pendingSeg;
  rttSamples : list rttMeasurement;
}.
Record rst_auth := {
  fwdBaselineTTL : Z; revBaselineTTL : Z;
  fwdBaselineTTLSet : bool; revBaselineTTLSet : bool;
  rstSeen : bool; rstFromReversed : bool;
  rstTTL : Z; rstIPID : Z;
}.

Record flowRecord := {
  r_SrcIP : string; r_DstIP : string;
  r_SrcPort : Z; r_DstPort : Z;
  r_Protocol : string;
  r_start : time; r_end : time;
  r_volume : volume;
  r_trend : trend;
  r_close : tcp_close;
  r_handshake : handshake;
  r_retrans : retrans;
  r_data : dataRTT;
  r_rst : rst_auth;
}.

(** The zero values of the groups. *)
Definition volume0 : volume :=
  {| fwdPackets := 0; revPackets := 0; fwdBytes := 0; revBytes := 0 |}.
Definition trend0 : trend := {| bucketStart := 0; bucketBytes := [] |}.
Definition close0 : tcp_close := {| tcpFlags := 0; closedFIN := false; closedRST := false |}.
Definition handshake0 : handshake :=
  {| synTime := 0; synAckTime := 0; rttMs := f_zero; hasRTT := false |}.
Definition retrans0 : retrans :=
  {| fwdHiSeq := 0; revHiSeq := 0; fwdHiInit := false; revHiInit := false;
     fwdRetrans := 0; revRetrans := 0 |}.
Definition dataRTT0 : dataRTT := {| fwdPending := []; revPending := []; rttSamples := [] |}.
Definition rst0 : rst_auth :=
  {| fwdBaselineTTL := 0; revBaselineTTL := 0; fwdBaselineTTLSet := false;
     revBaselineTTLSet := false; rstSeen := false; rstFromReversed := false;
     rstTTL := 0; rstIPID := 0 |}.

Definition new_record (key : flowKey) (proto : string) (ts : time) : flowRecord :=
  {| r_SrcIP := k_SrcIP key; r_DstIP := k_DstIP key; r_SrcPort := k_SrcPort key;
     r_DstPort := k_DstPort key; r_Protocol := proto; r_start := ts; r_end := ts;
     r_volume := volume0; r_trend := trend0; r_close := close0;
     r_handshake := handshake0; r_retrans := retrans0; r_data := dataRTT0;
     r_rst := rst0 |}.

Notation Tracker := (gmap flowKey flowRecord).
Definition NewTracker : Tracker := ∅.

(** ** TCP helpers *)

Definition seqBefore (a b : Z) : bool := 0 <? i32 (u32 (b - a)).

Definition round2 (v : f64) : f64 := f_div (f_round (f_mul v (f_int 100))) (f_int 100).

(** One turn of the loop of drainPending, on the backing array of [pending]
    and of [remaining] (which is [pending[:0]], so both are the same array),
    the length of [remaining], and [*samples]. *)
Definition drain_step (ack : Z) (now : time)
    (st : list pendingSeg * nat * list rttMeasurement) (i : nat) :
    list pendingSeg * nat * list rttMeasurement :=
  let '(arr, n, samples) := st in
  match arr !! i with
  | None => st
  | Some s =>
    if negb (seqBefore ack (ackExpected s)) then
      let ms := f_mul (seconds (time_sub now (sentAt s))) (f_int 1000) in
      if f_gt ms f_zero then
        (arr, n, samples ++ [{| observedAt := now; durationMs := round2 ms |}])
      else (arr, n, samples)
    else (<[n := s]> arr, S n, samples)
  end.

Definition drainPending (pending : list pendingSeg) (ack : Z) (now : time)
    (samples : list rttMeasurement) : list pendingSeg * list rttMeasurement :=
  let '(arr, n, samples) :=
    foldl (drain_step ack now) (pending, O, samples) (seq 0 (length pending)) in
  (take n arr, samples).

Definition has_flag (flags f : Z) : bool := negb (Z.land flags f =? 0).

(** ** HandlePacket, phase by phase *)

Definition step_volume (reversed : bool) (payloadLen : Z) (v : volume) : volume :=
  if negb reversed then
    {| fwdPackets := i64 (fwdPackets v + 1); revPackets := revPackets v;
       fwdBytes := i64 (fwdBytes v + payloadLen); revBytes := revBytes v |}
  else
    {| fwdPackets := fwdPackets v; revPackets := i64 (revPackets v + 1);
       fwdBytes := fwdBytes v; revBytes := i64 (revBytes v + payloadLen) |}.

Definition step_trend (ts : time) (payloadLen : Z) (t : trend) : trend :=
  if 0 <? payloadLen then
    let start := if is_zero (bucketStart t) then ts else bucketStart t in
    let idx := f_to_int (seconds (time_sub ts start)) in
    if (0 <=? idx) && (idx <? 3600) then
      let n := Z.to_nat idx in
      let bytes := bucketBytes t ++ replicate (S n - length (bucketBytes t)) 0 in
      {| bucketStart := start; bucketBytes := alter (fun b => i64 (b + payloadLen)) n bytes |}
    else {| bucketStart := start; bucketBytes := bucketBytes t |}
  else t.

Definition step_close (flags : Z) (c : tcp_close) : tcp_close :=
  {| tcpFlags := Z.lor (tcpFlags c) flags;
     closedFIN := has_flag flags flagFIN || closedFIN c;
     closedRST := has_flag flags flagRST || closedRST c |}.

Definition step_rst (reversed : bool) (pkt : Packet) (a : rst_auth) : rst_auth :=
  if has_flag (TCPFlags pkt) flagRST then
    if negb (rstSeen a) then
      {| fwdBaselineTTL := fwdBaselineTTL a; revBaselineTTL := revBaselineTTL a;
         fwdBaselineTTLSet := fwdBaselineTTLSet a; revBaselineTTLSet := revBaselineTTLSet a;
         rstSeen := true; rstFromReversed := reversed;
         rstTTL := TTL pkt; rstIPID := IPID pkt |}
    else a
  else if 0 <? TTL pkt then
    if negb reversed && negb (fwdBaselineTTLSet a) then
      {| fwdBaselineTTL := TTL pkt; revBaselineTTL := revBaselineTTL a;
         fwdBaselineTTLSet := true; revBaselineTTLSet := revBaselineTTLSet a;
         rstSeen := rstSeen a; rstFromReversed := rstFromReversed a;
         rstTTL := rstTTL a; rstIPID := rstIPID a |}
    else if reversed && negb (revBaselineTTLSet a) then
      {| fwdBaselineTTL := fwdBaselineTTL a; revBaselineTTL := TTL pkt;
         fwdBaselineTTLSet := fwdBaselineTTLSet a; revBaselineTTLSet := true;
         rstSeen := rstSeen a; rstFromReversed := rstFromReversed a;
         rstTTL := rstTTL a; rstIPID := rstIPID a |}
    else a
  else a.

Definition step_handshake (reversed : bool) (flags : Z) (ts : time) (h : handshake) : handshake :=
  let isSYN := has_flag flags flagSYN in
  let isACK := has_flag flags flagACK in
  let h :=
    if isSYN && negb isACK && negb reversed && is_zero (synTime h) then
      {| synTime := ts; synAckTime := synAckTime h; rttMs := rttMs h; hasRTT := hasRTT h |}
    else h in
  if isSYN && isACK && reversed && negb (is_zero (synTime h)) && is_zero (synAckTime h) then
    {| synTime := synTime h; synAckTime := ts;
       rttMs := round2 (f_mul (f_mul (seconds (time_sub ts (synTime h))) (f_int 1000)) (f_int 2));
       hasRTT := true |}
  else h.

Definition step_retrans (reversed : bool) (seq payLen : Z) (r : retrans) : retrans :=
  if 0 <? payLen then
    let nextSeq := u32 (seq + payLen) in
    if negb reversed then
      if negb (fwdHiInit r) then
        {| fwdHiSeq := nextSeq; revHiSeq := revHiSeq r; fwdHiInit := true;
           revHiInit := revHiInit r; fwdRetrans := fwdRetrans r; revRetrans := revRetrans r |}
      else if seqBefore seq (fwdHiSeq r) then
        {| fwdHiSeq := fwdHiSeq r; revHiSeq := revHiSeq r; fwdHiInit := fwdHiInit r;
           revHiInit := revHiInit r; fwdRetrans := i64 (fwdRetrans r + 1);
           revRetrans := revRetrans r |}
      else
        {| fwdHiSeq := nextSeq; revHiSeq := revHiSeq r; fwdHiInit := fwdHiInit r;
           revHiInit := revHiInit r; fwdRetrans := fwdRetrans r; revRetrans := revRetrans r |}
    else
      if negb (revHiInit r) then
        {| fwdHiSeq := fwdHiSeq r; revHiSeq := nextSeq; fwdHiInit := fwdHiInit r;
           revHiInit := true; fwdRetrans := fwdRetrans r; revRetrans := revRetrans r |}
      else if seqBefore seq (revHiSeq r) then
        {| fwdHiSeq := fwdHiSeq r; revHiSeq := revHiSeq r; fwdHiInit := fwdHiInit r;
           revHiInit := revHiInit r; fwdRetrans := fwdRetrans r;
           revRetrans := i64 (revRetrans r + 1) |}
      else
        {| fwdHiSeq := fwdHiSeq r; revHiSeq := nextSeq; fwdHiInit := fwdHiInit r;
           revHiInit := revHiInit r; fwdRetrans := fwdRetrans r; revRetrans := revRetrans r |}
  else r.

Definition step_data (reversed : bool) (pkt : Packet) (payLen : Z) (ts : time) (d : dataRTT) :
    dataRTT :=
  let flags := TCPFlags pkt in
  let d :=
    if has_flag flags flagPSH && (0 <? payLen) then
      let seg := {| ackExpected := u32 (TCPSeq pkt + payLen); sentAt := ts |} in
      if negb reversed then
        {| fwdPending := fwdPending d ++ [seg]; revPending := revPending d;
           rttSamples := rttSamples d |}
      else
        {| fwdPending := fwdPending d; revPending := revPending d ++ [seg];
           rttSamples := rttSamples d |}
    else d in
  if has_flag flags flagACK && negb (TCPAck pkt =? 0) then
    if negb reversed then
      let '(pending, samples) := drainPending (revPending d) (TCPAck pkt) ts (rttSamples d) in
      {| fwdPending := fwdPending d; revPending := pending; rttSamples := samples |}
    else
      let '(pending, samples) := drainPending (fwdPending d) (TCPAck pkt) ts (rttSamples d) in
      {| fwdPending := pending; revPending := revPending d; rttSamples := samples |}
  else d.

(** What HandlePacket does to the record of the packet's flow. *)
Definition step_record (reversed : bool) (pkt : Packet) (rec : flowRecord) : flowRecord :=
  let ts := Timestamp pkt in
  let payloadLen := zlen (Payload pkt) in
  let payLen := u32 (zlen (Payload pkt)) in
  let tcp := String.eqb (Protocol pkt) "TCP" in
  {| r_SrcIP := r_SrcIP rec; r_DstIP := r_DstIP rec;
     r_SrcPort := r_SrcPort rec; r_DstPort := r_DstPort rec;
     r_Protocol := r_Protocol rec; r_start := r_start rec;
     r_end := if after ts (r_end rec) then ts else r_end rec;
     r_volume := step_volume reversed payloadLen (r_volume rec);
     r_trend := step_trend ts payloadLen (r_trend rec);
     r_close := if tcp then step_close (TCPFlags pkt) (r_close rec) else r_close rec;
     r_handshake :=
       if tcp then step_handshake reversed (TCPFlags pkt) ts (r_handshake rec)
       else r_handshake rec;
     r_retrans :=
       if tcp then step_retrans reversed (TCPSeq pkt) payLen (r_retrans rec)
       else r_retrans rec;
     r_data := if tcp then step_data reversed pkt payLen ts (r_data rec) else r_data rec;
     r_rst := if tcp then step_rst reversed pkt (r_rst rec) else r_rst rec |}.

Definition pkt_key (pkt : Packet) : flowKey * bool :=
  makeKey (SrcIP pkt) (DstIP pkt) (SrcPort pkt) (DstPort pkt) (Protocol pkt).

Definition HandlePacket (t : Tracker) (pkt : Packet) : Tracker :=
  if String.eqb (SrcIP pkt) "" || String.eqb (DstIP pkt) "" then t
  else if Reassembled pkt then t
  else
    let '(key, reversed) := pkt_key pkt in
    let rec :=
      match t !! key with
      | Some rec => rec
      | None => new_record key (Protocol pkt) (Timestamp pkt)
      end in
    <[key := step_record reversed pkt rec]> t.

(** ** Flush *)

Definition tcpFlagsString (flags : Z) : string :=
  let parts :=
    (if has_flag flags flagSYN then ["SYN"] else []) ++
    (if has_flag flags flagACK then ["ACK"] else []) ++
    (if has_flag flags flagPSH then ["PSH"] else []) ++
    (if has_flag flags flagFIN then ["FIN"] else []) ++
    (if has_flag flags flagRST then ["RST"] else []) ++
    (if has_flag flags flagURG then ["URG"] else []) in
  if zlen parts =? 0 then "none" else join " " parts.

Definition rst_reason (rec : rst_auth) (baseline delta : Z) : string :=
  "RST TTL " +:+ fmt_d (rstTTL rec)
    +:+ " differs from this flow's established baseline TTL " +:+ fmt_d baseline
    +:+ " by " +:+ fmt_d delta +:+ " hops — exceeds normal route-noise threshold ("
    +:+ fmt_d rstTTLSuspiciousDelta
    +:+ "), suggesting the RST did not travel the same network path as the rest of the flow"
    +:+ (if rstIPID rec =? 0 then
      "; RST IP-ID is 0, a weak additional signal consistent with a crude packet-injection tool"
      else "").

Definition addRSTAuthenticityMetrics (m : gmap string any) (rec : rst_auth) : gmap string any :=
  if rstTTL rec =? 0 then m
  else
    let '(baseline, baselineSet) :=
      if rstFromReversed rec then (revBaselineTTL rec, revBaselineTTLSet rec)
      else (fwdBaselineTTL rec, fwdBaselineTTLSet rec) in
    if negb baselineSet then <["rst_authenticity" := AStr "unknown"]> m
    else
      let delta := baseline - rstTTL rec in
      let delta := if delta <? 0 then - delta else delta in
      let m := <["rst_ttl" := AInt TU8 (rstTTL rec)]> m in
      let m := <["rst_ttl_baseline" := AInt TU8 baseline]> m in
      let m := <["rst_ttl_delta" := AInt TInt delta]> m in
      if rstTTLSuspiciousDelta <=? delta then
        <["rst_authenticity_reason" := AStr (rst_reason rec baseline delta)]>
          (<["rst_authenticity" := AStr "suspicious"]> m)
      else <["rst_authenticity" := AStr "genuine"]> m.

(** The loop of the throughput trend: the points (i, end - i, sum) of the
    buckets [i..end-1], [step] at a time. *)
Fixpoint trend_points (fuel : nat) (bytes : list Z) (i step : Z) : list (Z * Z * Z) :=
  match fuel with
  | O => []
  | S fuel =>
    let n := zlen bytes in
    if i <? n then
      let e := Z.min (i + step) n in
      let sum := foldl (fun acc b => i64 (acc + b)) 0 (sub bytes i e) in
      (i, e - i, sum) :: trend_points fuel bytes (i + step) step
    else []
  end.

Definition trend_step (n : Z) : Z := if 60 <? n then (n + 59) / 60 else 1.

Definition throughputTrend (bytes : list Z) : list (Z * Z * Z) :=
  trend_points (length bytes) bytes 0 (trend_step (zlen bytes)).

Definition trend_point_map (p : Z * Z * Z) : list (string * any) :=
  let '(i, width, sum) := p in
  let bps := f_div (f_mul (f_int sum) (f_int 8)) (f_int width) in
  [("t", AInt TInt i); ("bps", AF64 (f_round bps))].

Definition rtt_sample_map (start : time) (s : rttMeasurement) : list (string * any) :=
  [("t", AF64 (round2 (seconds (time_sub (observedAt s) start))));
   ("ms", AF64 (round2 (durationMs s)))].

Definition ratio_pct (a b : Z) : f64 :=
  if 0 <? b then f_mul (f_div (f_int a) (f_int b)) (f_int 100) else f_zero.

Definition avg_rtt (samples : list rttMeasurement) : f64 :=
  let total := foldl (fun acc s => f_add acc (durationMs s)) f_zero samples in
  if 0 <? zlen samples then round2 (f_div total (f_int (zlen samples))) else total.

Definition flow_type (proto : string) : FlowType :=
  if String.eqb proto "UDP" then FlowUDP
  else if String.eqb proto "SCTP" then FlowSCTP
  else if String.eqb proto "ICMP" then FlowICMP
  else if String.eqb proto "ICMPv6" then FlowICMPv6
  else FlowTCP.

Definition flow_id (rec : flowRecord) : string :=
  "flow-" +:+ r_SrcIP rec +:+ ":" +:+ fmt_d (r_SrcPort rec) +:+ "-" +:+ r_DstIP rec
    +:+ ":" +:+ fmt_d (r_DstPort rec) +:+ "-" +:+ r_Protocol rec.

Definition close_reason (c : tcp_close) : string :=
  if closedRST c then "RST" else if closedFIN c then "FIN" else "timeout".

Definition toFlow (rec : flowRecord) : Flow :=
  let v := r_volume rec in
  let totalPkts := i64 (fwdPackets v + revPackets v) in
  let totalBytes := i64 (fwdBytes v + revBytes v) in
  let totalRetrans := i64 (fwdRetrans (r_retrans rec) + revRetrans (r_retrans rec)) in
  let durationSec := seconds (time_sub (r_end rec) (r_start rec)) in
  let bps bytes :=
    if f_gt durationSec f_zero then f_div (f_int (i64 (bytes * 8))) durationSec else f_zero in
  let lossRatePct := ratio_pct totalRetrans totalPkts in
  let samples := rttSamples (r_data rec) in
  let avgDataRTTMs := avg_rtt samples in
  let effectiveRTT :=
    if f_gt avgDataRTTMs f_zero then avgDataRTTMs else rttMs (r_handshake rec) in
  let trend := trend_point_map <$> throughputTrend (bucketBytes (r_trend rec)) in
  let rtts := rtt_sample_map (r_start rec) <$> samples in
  let m : gmap string any := list_to_map [
    ("packets", AInt TI64 totalPkts);
    ("bytes", AInt TI64 totalBytes);
    ("fwd_packets", AInt TI64 (fwdPackets v));
    ("rev_packets", AInt TI64 (revPackets v));
    ("fwd_bytes", AInt TI64 (fwdBytes v));
    ("rev_bytes", AInt TI64 (revBytes v));
    ("duration_ms", AF64 (round2 (f_mul durationSec (f_int 1000))));
    ("throughput_bps", AF64 (f_round (bps totalBytes)));
    ("fwd_throughput_bps", AF64 (f_round (bps (fwdBytes v))));
    ("rev_throughput_bps", AF64 (f_round (bps (revBytes v))));
    ("retransmissions", AInt TI64 totalRetrans);
    ("fwd_retransmissions", AInt TI64 (fwdRetrans (r_retrans rec)));
    ("rev_retransmissions", AInt TI64 (revRetrans (r_retrans rec)));
    ("packet_loss_pct", AF64 (round2 lossRatePct))] in
  let m := if 0 <? zlen trend then <["throughput_trend" := AMaps trend]> m else m in
  let m := if 0 <? zlen rtts then <["rtt_samples" := AMaps rtts]> m else m in
  let '(m, sla) :=
    if String.eqb (r_Protocol rec) "TCP" then
      let m := <["tcp_flags" := AStr (tcpFlagsString (tcpFlags (r_close rec)))]> m in
      let m := <["close_reason" := AStr (close_reason (r_close rec))]> m in
      let m := if rstSeen (r_rst rec) then addRSTAuthenticityMetrics m (r_rst rec) else m in
      let m :=
        if hasRTT (r_handshake rec) then
          <["handshake_rtt_ms" := AF64 (round2 (rttMs (r_handshake rec)))]> m
        else m in
      let m :=
        if f_gt avgDataRTTMs f_zero then <["data_rtt_ms" := AF64 avgDataRTTMs]> m else m in
      let m := if f_gt effectiveRTT f_zero then <["rtt_ms" := AF64 effectiveRTT]> m else m in
      (m, ClassifyTCP effectiveRTT (ratio_pct totalRetrans totalPkts))
    else (m, ClassifyUDP) in
  let m := <["sla_verdict" := AStr (verdict_string (Verdict sla))]> m in
  let m := <["sla_score" := AInt TInt (Score sla)]> m in
  let m := <["sla_details" := AStrs (Details sla)]> m in
  {| FlowID := flow_id rec; Type_ := flow_type (r_Protocol rec);
     F_SrcIP := r_SrcIP rec; F_DstIP := r_DstIP rec;
     F_SrcPort := r_SrcPort rec; F_DstPort := r_DstPort rec;
     StartTime := r_start rec; EndTime := r_end rec; Metrics := m |}.

(** Flush, for the order the range over the flow table takes: the flows, the
    value of the FlowsActive gauge, and the emptied tracker. *)
Definition Flush (t : Tracker) (order : list (flowKey * flowRecord)) :
    list Flow * f64 * Tracker :=
  (toFlow ∘ snd <$> order, f_int (Z.of_nat (size t)), ∅).

(** ** Keys are canonical *)

Lemma ltb_flip s t : String.ltb s t = true -> String.ltb t s = false.
Proof.
  unfold String.ltb. rewrite (String.compare_antisym s t).
  by destruct (String.compare t s).
Qed.

Lemma ltb_total s t : String.ltb s t = false -> s <> t -> String.ltb t s = true.
Proof.
  unfold String.ltb. rewrite (String.compare_antisym s t).
  destruct (String.compare t s) eqn:E; try done.
  by apply String.compare_eq_iff in E.
Qed.

Lemma ltb_irrefl s : String.ltb s s = false.
Proof.
  unfold String.ltb. destruct (String.compare s s) eqn:E; try done.
  pose proof (String.compare_antisym s s) as H. by rewrite E in H.
Qed.

Lemma makeKey_swap s d sp dp p :
  fst (makeKey d s dp sp p) = fst (makeKey s d sp dp p).
Proof.
  unfold makeKey. destruct (decide (s = d)) as [<-|Hne].
  - rewrite ltb_irrefl, String.eqb_refl. cbn.
    destruct (is_icmp p); [done|].
    destruct (Z.leb_spec sp dp), (Z.leb_spec dp sp); cbn; try done; try lia.
    by replace dp with sp by lia.
  - assert (String.eqb s d = false) as -> by by apply String.eqb_neq.
    assert (String.eqb d s = false) as -> by (apply String.eqb_neq; congruence).
    destruct (String.ltb s d) eqn:E.
    + rewrite (ltb_flip _ _ E). by destruct (is_icmp p).
    + rewrite (ltb_total _ _ E) by done. by destruct (is_icmp p).
Qed.

Lemma makeKey_swap_dir s d sp dp p :
  s <> d \/ (sp <> dp /\ is_icmp p = false) ->
  snd (makeKey d s dp sp p) = negb (snd (makeKey s d sp dp p)).
Proof.
  unfold makeKey. destruct (decide (s = d)) as [<-|Hne].
  - intros [?|[Hp ->]]; [done|].
    rewrite ltb_irrefl, String.eqb_refl. cbn.
    destruct (Z.leb_spec sp dp), (Z.leb_spec dp sp); cbn; try done; lia.
  - intros _. assert (String.eqb s d = false) as -> by by apply String.eqb_neq.
    assert (String.eqb d s = false) as -> by (apply String.eqb_neq; congruence).
    destruct (String.ltb s d) eqn:E.
    + rewrite (ltb_flip _ _ E). by destruct (is_icmp p).
    + rewrite (ltb_total _ _ E) by done. by destruct (is_icmp p).
Qed.

(** The key and the direction give the endpoints back. *)
Lemma makeKey_endpoints s d sp dp p :
  is_icmp p = false ->
  let '(k, rev) := makeKey s d sp dp p in
  k_Protocol k = p /\
  (s, sp, d, dp) = if rev then (k_DstIP k, k_DstPort k, k_SrcIP k, k_SrcPort k)
                   else (k_SrcIP k, k_SrcPort k, k_DstIP k, k_DstPort k).
Proof. intros Hp. unfold makeKey. rewrite Hp. by destruct (_ || _). Qed.

(** ** Every flow is the fold of its own packets *)

Definition accepted (pkt : Packet) : bool :=
  negb (String.eqb (SrcIP pkt) "" || String.eqb (DstIP pkt) "") && negb (Reassembled pkt).

Definition run (t : Tracker) (pkts : list Packet) : Tracker := foldl HandlePacket t pkts.

Definition of_flow (k : flowKey) (pkt : Packet) : bool :=
  accepted pkt && bool_decide (fst (pkt_key pkt) = k).

Definition step_pkt (rec : flowRecord) (pkt : Packet) : flowRecord :=
  step_record (snd (pkt_key pkt)) pkt rec.

(** The abstract flow: the fold of the flow's own packets. *)
Definition flow_of (k : flowKey) (pkts : list Packet) : option flowRecord :=
  match filter (fun p => of_flow k p) pkts with
  | [] => None
  | p :: ps => Some (foldl step_pkt (new_record k (Protocol p) (Timestamp p)) (p :: ps))
  end.

Lemma HandlePacket_skip t pkt : accepted pkt = false -> HandlePacket t pkt = t.
Proof.
  unfold accepted, HandlePacket. destruct (_ || _); cbn; [done|]. by destruct (Reassembled pkt).
Qed.

Lemma HandlePacket_accept t pkt : accepted pkt = true ->
  HandlePacket t pkt = <[fst (pkt_key pkt) := step_pkt (default
    (new_record (fst (pkt_key pkt)) (Protocol pkt) (Timestamp pkt))
    (t !! fst (pkt_key pkt))) pkt]> t.
Proof.
  unfold accepted, HandlePacket, step_pkt. destruct (_ || _); cbn; [done|].
  destruct (Reassembled pkt); cbn; [done|]. intros _. by destruct (pkt_key pkt), (t !! _).
Qed.

Lemma flow_of_snoc k pkts p :
  flow_of k (pkts ++ [p]) =
  if of_flow k p then
    Some (step_pkt (default (new_record k (Protocol p) (Timestamp p)) (flow_of k pkts)) p)
  else flow_of k pkts.
Proof.
  unfold flow_of. rewrite filter_app. cbn [filter list_filter].
  destruct (of_flow k p) eqn:E.
  - rewrite (decide_True (P := Is_true true)) by done.
    destruct (filter _ pkts) as [|q qs]; cbn; [done|]. by rewrite foldl_app.
  - rewrite (decide_False (P := Is_true false)) by by intros []. by rewrite app_nil_r.
Qed.

Lemma run_flow_of pkts k : run NewTracker pkts !! k = flow_of k pkts.
Proof.
  induction pkts as [|p pkts IH] using rev_ind; [done|].
  rewrite flow_of_snoc. unfold run in *. rewrite foldl_app. cbn [foldl].
  unfold of_flow. destruct (accepted p) eqn:Ha; cbn [andb].
  - rewrite HandlePacket_accept by done. case_bool_decide as Hk.
    + subst k. rewrite (lookup_insert_eq). by rewrite IH.
    + by rewrite (lookup_insert_ne).
  - by rewrite HandlePacket_skip.
Qed.

(** ** Counters *)

Definition dir_of (dir : bool) (p : Packet) : bool := Bool.eqb (snd (pkt_key p)) dir.
Definition npackets (dir : bool) (ps : list Packet) : Z :=
  zlen (filter (fun p => dir_of dir p) ps).
Definition nbytes (dir : bool) (ps : list Packet) : Z :=
  foldr Z.add 0 ((fun p => zlen (Payload p)) <$> filter (fun p => dir_of dir p) ps).

Lemma npackets_cons dir p ps :
  npackets dir (p :: ps) = (if dir_of dir p then 1 else 0) + npackets dir ps.
Proof.
  unfold npackets. rewrite filter_cons. destruct (dir_of dir p).
  - rewrite decide_True by done. by rewrite zlen_cons.
  - rewrite decide_False by by intros []. done.
Qed.

Lemma nbytes_cons dir p ps :
  nbytes dir (p :: ps) = (if dir_of dir p then zlen (Payload p) else 0) + nbytes dir ps.
Proof.
  unfold nbytes. rewrite filter_cons. destruct (dir_of dir p).
  - rewrite decide_True by done. done.
  - rewrite decide_False by by intros []. done.
Qed.

Definition volume_i64 (v : volume) : Prop :=
  i64 (fwdPackets v) = fwdPackets v /\ i64 (revPackets v) = revPackets v /\
  i64 (fwdBytes v) = fwdBytes v /\ i64 (revBytes v) = revBytes v.

(** The counters of a flow after its packets, in [int64] arithmetic. *)
Lemma fold_volume ps rec :
  volume_i64 (r_volume rec) ->
  r_volume (foldl step_pkt rec ps) =
    {| fwdPackets := i64 (fwdPackets (r_volume rec) + npackets false ps);
       revPackets := i64 (revPackets (r_volume rec) + npackets true ps);
       fwdBytes := i64 (fwdBytes (r_volume rec) + nbytes false ps);
       revBytes := i64 (revBytes (r_volume rec) + nbytes true ps) |}.
Proof.
  revert rec. induction ps as [|p ps IH]; intros rec Hv; cbn [foldl].
  - destruct Hv as (H1 & H2 & H3 & H4).
    change (npackets _ []) with 0. change (nbytes _ []) with 0.
    rewrite !Z.add_0_r, H1, H2, H3, H4. by destruct (r_volume rec).
  - rewrite IH; unfold step_pkt, step_record, step_volume; cbn [r_volume];
      rewrite ?npackets_cons, ?nbytes_cons; unfold dir_of;
      destruct (snd (pkt_key p)), Hv as (H1 & H2 & H3 & H4);
      cbn [negb Bool.eqb fwdPackets revPackets fwdBytes revBytes].
    + rewrite !i64_add_l, !Z.add_assoc, !Z.add_0_r. done.
    + rewrite !i64_add_l, !Z.add_assoc, !Z.add_0_r. done.
    + by split_and!; cbn; rewrite ?i64_idem.
    + by split_and!; cbn; rewrite ?i64_idem.
Qed.

Lemma fold_identity ps rec :
  let rec' := foldl step_pkt rec ps in
  r_SrcIP rec' = r_SrcIP rec /\ r_DstIP rec' = r_DstIP rec /\
  r_SrcPort rec' = r_SrcPort rec /\ r_DstPort rec' = r_DstPort rec /\
  r_Protocol rec' = r_Protocol rec /\ r_start rec' = r_start rec /\
  r_end rec' = foldr Z.max (r_end rec) (Timestamp <$> ps).
Proof.
  revert rec. induction ps as [|p ps IH]; intros rec; cbn [foldl]; [by split_and!|].
  destruct (IH (step_pkt rec p)) as (-> & -> & -> & -> & -> & -> & ->).
  split_and!; try done. unfold step_pkt, step_record, after. cbn [r_end fmap list_fmap foldr].
  clear IH. set (ts := Timestamp p). generalize (r_end rec) as e. intros e.
  assert (forall x y, foldr Z.max (Z.max x y) (Timestamp <$> ps)
    = Z.max x (foldr Z.max y (Timestamp <$> ps))) as H.
  { intros x y. induction (Timestamp <$> ps) as [|z l IH]; cbn; [done|]. rewrite IH. lia. }
  rewrite <-H. f_equal. destruct (Z.ltb_spec e ts); lia.
Qed.

(** One entry of a map order per key, and every entry there. *)
Lemma flush_order (t : Tracker) order k rec :
  map_order t order -> (k, rec) ∈ order <-> t !! k = Some rec.
Proof. intros Ho. unfold map_order in Ho. rewrite Ho. apply elem_of_map_to_list. Qed.

Lemma rst_metrics_other m a k :
  k ∉ ["rst_authenticity"; "rst_authenticity_reason"; "rst_ttl"; "rst_ttl_baseline";
       "rst_ttl_delta"] ->
  addRSTAuthenticityMetrics m a !! k = m !! k.
Proof.
  intros Hk. rewrite !not_elem_of_cons in Hk. unfold addRSTAuthenticityMetrics.
  destruct (rstTTL a =? 0); [done|]. destruct (if rstFromReversed a then _ else _) as [b s].
  destruct s; cbn [negb]; [|by rewrite lookup_insert_ne by naive_solver].
  destruct (_ <=? _); rewrite !lookup_insert_ne by naive_solver; done.
Qed.

Lemma toFlow_packets rec :
  Metrics (toFlow rec) !! "packets"
    = Some (AInt TI64 (i64 (fwdPackets (r_volume rec) + revPackets (r_volume rec)))) /\
  Metrics (toFlow rec) !! "bytes"
    = Some (AInt TI64 (i64 (fwdBytes (r_volume rec) + revBytes (r_volume rec)))).
Proof.
  unfold toFlow.
  destruct (r_Protocol rec =? "TCP")%string; cbn [Metrics].
  - lookup_metric. destruct (rstSeen _); rewrite ?rst_metrics_other by set_solver;
      lookup_metric; by split.
  - lookup_metric; by split.
Qed.

(** ** drainPending works in place *)

(** What the loop does, without the sharing: acknowledged segments leave and
    give a sample when time has passed, the others stay, in order. *)
Definition unacked (ack : Z) (s : pendingSeg) : bool := seqBefore ack (ackExpected s).
Definition sample_of (ack : Z) (now : time) (s : pendingSeg) : option rttMeasurement :=
  if unacked ack s then None
  else
    let ms := f_mul (seconds (time_sub now (sentAt s))) (f_int 1000) in
    if f_gt ms f_zero then Some {| observedAt := now; durationMs := round2 ms |} else None.

Lemma drain_loop ack now pending samples i :
  (i <= length pending)%nat ->
  exists arr,
    foldl (drain_step ack now) (pending, O, samples) (seq 0 i) =
      (arr, length (filter (fun s => unacked ack s) (take i pending)),
       samples ++ omap (sample_of ack now) (take i pending)) /\
    length arr = length pending /\ drop i arr = drop i pending /\
    take (length (filter (fun s => unacked ack s) (take i pending))) arr
      = filter (fun s => unacked ack s) (take i pending).
Proof.
  induction i as [|i IH]; intros Hi.
  - exists pending. rewrite take_0. cbn. by rewrite app_nil_r.
  - destruct IH as (arr & E & Hl & Hd & Ht); [lia|].
    rewrite seq_S, foldl_app, E. cbn [foldl Nat.add drain_step].
    destruct (pending !! i) as [s|] eqn:Hs; [|apply lookup_ge_None in Hs; lia].
    assert (arr !! i = Some s) as Ha.
    { rewrite <-(Nat.add_0_r i), <-lookup_drop, Hd, lookup_drop, Nat.add_0_r. done. }
    rewrite Ha. rewrite (take_S_r _ _ s) by done.
    set (kept := filter (fun x => unacked ack x) (take i pending)) in *.
    assert (length kept <= i)%nat as Hk.
    { pose proof (length_filter (fun x => unacked ack x) (take i pending)).
      rewrite length_take in *. fold kept in H. lia. }
    rewrite filter_app, filter_cons, omap_app. cbn [omap list_omap].
    change (filter (fun x => unacked ack x) (take i pending)) with kept.
    assert (forall arr', drop i arr' = drop i pending -> drop (S i) arr' = drop (S i) pending) as HdS.
    { intros arr' H. rewrite <-Nat.add_1_r, <-!drop_drop. by rewrite H. }
    unfold sample_of. change (seqBefore ack (ackExpected s)) with (unacked ack s).
    destruct (unacked ack s) eqn:Eu; cbn [negb].
    + rewrite decide_True by done. cbn [filter list_filter app]. rewrite app_nil_r.
      exists (<[length kept:=s]> arr).
      rewrite length_app, length_insert, Nat.add_1_r. split_and!; [done|done| |].
      * rewrite drop_insert_lt by lia. by apply HdS.
      * rewrite (take_S_r _ _ s) by (apply list_lookup_insert_eq; lia).
        rewrite take_insert_ge by lia. by rewrite Ht.
    + rewrite decide_False by by intros []. cbn [filter list_filter app].
      rewrite !app_nil_r. exists arr. split_and!; [|done|by apply HdS|done].
      destruct (f_gt _ _); [by rewrite app_assoc|by rewrite app_nil_r].
Qed.

(** ** The throughput trend *)

Lemma trend_points_spec fuel bytes i step :
  0 <= i -> 0 < step -> zlen bytes - i <= step * Z.of_nat fuel ->
  let pts := trend_points fuel bytes i step in
  (forall j p, pts !! j = Some p -> exists a b,
     p = (a, b - a, foldl (fun acc x => i64 (acc + x)) 0 (sub bytes a b)) /\
     a = i + step * Z.of_nat j /\ b = Z.min (a + step) (zlen bytes) /\ a < b) /\
  foldr Z.add 0 ((fun '(_, w, _) => w) <$> pts) = Z.max 0 (zlen bytes - i) /\
  step * (zlen pts - 1) < Z.max (zlen bytes - i) (1 - step).
Proof.
  revert i. induction fuel as [|fuel IH]; intros i Hi Hs Hf; cbn [trend_points].
  - rewrite Z.mul_0_r in Hf. split_and!; [done|cbn; lia|]. rewrite zlen_nil. lia.
  - destruct (Z.ltb_spec i (zlen bytes)) as [Hlt|Hge];
      [|split_and!; [done|cbn; lia|rewrite zlen_nil; lia]].
    destruct (IH (i + step)) as (H1 & H2 & H3); [lia..|].
    split_and!.
    + intros [|j] p Hj; cbn in Hj.
      * injection Hj as <-. eexists _, _. split_and!; [done|lia|done|lia].
      * destruct (H1 _ _ Hj) as (a & b & -> & -> & -> & ?). eexists _, _.
        split_and!; [done|lia|done|lia].
    + cbn. rewrite H2. lia.
    + rewrite zlen_cons. lia.
Qed.

(** ** RST authenticity over a whole flow *)

Definition is_rst (p : Packet) : bool := has_flag (TCPFlags p) flagRST.
Definition first_rst (ps : list Packet) : option Packet := head (filter (fun p => is_rst p) ps).
(** The TTL that stands for the path of a direction. *)
Definition path_ttl (dir : bool) (ps : list Packet) : option Z :=
  TTL <$> head (filter (fun p => negb (is_rst p) && (0 <? TTL p) && dir_of dir p) ps).

Definition flow_packets (k : flowKey) (pkts : list Packet) : list Packet :=
  filter (fun p => of_flow k p) pkts.

Lemma head_filter_snoc {A} (f : A -> bool) l x :
  head (filter (fun y => f y) (l ++ [x])) =
  match head (filter (fun y => f y) l) with
  | Some y => Some y
  | None => if f x then Some x else None
  end.
Proof.
  rewrite filter_app. destruct (filter (fun y => f y) l) as [|y ys]; cbn; [|done].
  destruct (f x); [by rewrite decide_True|rewrite decide_False by (by intros [])]; done.
Qed.

Lemma step_pkt_tcp rec p : Protocol p = "TCP" ->
  r_rst (step_pkt rec p) = step_rst (snd (pkt_key p)) p (r_rst rec) /\
  r_retrans (step_pkt rec p)
    = step_retrans (snd (pkt_key p)) (TCPSeq p) (u32 (zlen (Payload p))) (r_retrans rec) /\
  r_handshake (step_pkt rec p)
    = step_handshake (snd (pkt_key p)) (TCPFlags p) (Timestamp p) (r_handshake rec).
Proof. intros E. unfold step_pkt, step_record. rewrite E. done. Qed.

Definition rst_of (ps : list Packet) : rst_auth :=
  {| fwdBaselineTTL := default 0 (path_ttl false ps);
     revBaselineTTL := default 0 (path_ttl true ps);
     fwdBaselineTTLSet := bool_decide (is_Some (path_ttl false ps));
     revBaselineTTLSet := bool_decide (is_Some (path_ttl true ps));
     rstSeen := bool_decide (is_Some (first_rst ps));
     rstFromReversed := default false (snd ∘ pkt_key <$> first_rst ps);
     rstTTL := default 0 (TTL <$> first_rst ps);
     rstIPID := default 0 (IPID <$> first_rst ps) |}.

Lemma dir_of_snd p :
  dir_of true p = snd (pkt_key p) /\ dir_of false p = negb (snd (pkt_key p)).
Proof. unfold dir_of. by destruct (snd (pkt_key p)). Qed.

Lemma fold_rst rec ps :
  r_rst rec = rst0 -> Forall (fun p => Protocol p = "TCP") ps ->
  r_rst (foldl step_pkt rec ps) = rst_of ps.
Proof.
  intros H0. induction ps as [|p ps IH] using rev_ind; [done|].
  intros [Hps [Hp _]%Forall_cons]%Forall_app.
  rewrite foldl_app. cbn [foldl].
  destruct (step_pkt_tcp (foldl step_pkt rec ps) p Hp) as (-> & _). rewrite IH by done.
  unfold step_rst, rst_of, path_ttl, first_rst. rewrite !head_filter_snoc.
  fold (is_rst p). destruct (dir_of_snd p) as [-> ->].
  destruct (is_rst p) eqn:Er; cbn [negb andb].
  - destruct (head (filter (fun q => is_rst q) ps)) as [q|];
      destruct (head (filter (fun q => _ && dir_of false q) ps)),
        (head (filter (fun q => _ && dir_of true q) ps)); done.
  - destruct (0 <? TTL p); cbn [andb];
      destruct (head (filter (fun q => is_rst q) ps)) as [q|], (snd (pkt_key p));
      destruct (head (filter (fun q => _ && dir_of false q) ps)),
        (head (filter (fun q => _ && dir_of true q) ps)); done.
Qed.

Lemma flow_packets_proto k pkts p : p ∈ flow_packets k pkts -> Protocol p = k_Protocol k.
Proof.
  intros [Hp _]%list_elem_of_filter. unfold of_flow in Hp.
  destruct (accepted p); [|done]. cbn in Hp. case_bool_decide as E; [|done]. subst k.
  unfold pkt_key, makeKey. by repeat case_match.
Qed.

Lemma run_flow k pkts rec :
  run NewTracker pkts !! k = Some rec ->
  exists p ps, flow_packets k pkts = p :: ps /\
    rec = foldl step_pkt (new_record k (k_Protocol k) (Timestamp p)) (p :: ps) /\
    Forall (fun p => Protocol p = k_Protocol k) (p :: ps) /\ r_Protocol rec = k_Protocol k.
Proof.
  rewrite run_flow_of. unfold flow_of.
  change (filter (fun p => of_flow k p) pkts) with (flow_packets k pkts).
  pose proof (flow_packets_proto k pkts) as Hp.
  destruct (flow_packets k pkts) as [|p ps] eqn:E; [done|]. intros [= <-].
  exists p, ps. rewrite (Hp p) by set_solver. split_and!; [done..| |].
  - apply Forall_forall. auto.
  - change (step_pkt _ p) with (foldl step_pkt (new_record k (k_Protocol k) (Timestamp p)) [p]).
    rewrite <-foldl_app. by destruct (fold_identity ([p] ++ ps)
      (new_record k (k_Protocol k) (Timestamp p))) as (_ & _ & _ & _ & -> & _).
Qed.

(** ** Retransmissions *)

Definition hi_seq (dir : bool) (r : retrans) : Z := if dir then revHiSeq r else fwdHiSeq r.
Definition hi_init (dir : bool) (r : retrans) : bool := if dir then revHiInit r else fwdHiInit r.
Definition resent (dir : bool) (r : retrans) : Z := if dir then revRetrans r else fwdRetrans r.

(** What a sender does in direction [dir] of a TCP flow, with [h] the sequence
    number after the newest byte sent ([None] before any): it sends new data
    from [h] on, or sends again data up to 2^31 bytes old; [n] counts the
    repeats. Packets of the other direction and empty segments do not count. *)
Inductive sends (dir : bool) : option Z -> list Packet -> Z -> Prop :=
  | sends_nil h : sends dir h [] 0
  | sends_other h p ps n :
      snd (pkt_key p) = negb dir \/ Payload p = [] ->
      sends dir h ps n -> sends dir h (p :: ps) n
  | sends_first p ps n :
      snd (pkt_key p) = dir -> 0 < zlen (Payload p) < 2 ^ 31 ->
      sends dir (Some (u32 (TCPSeq p + zlen (Payload p)))) ps n ->
      sends dir None (p :: ps) n
  | sends_new h p ps n :
      snd (pkt_key p) = dir -> 0 < zlen (Payload p) < 2 ^ 31 -> TCPSeq p = h ->
      sends dir (Some (u32 (h + zlen (Payload p)))) ps n ->
      sends dir (Some h) (p :: ps) n
  | sends_again h p ps n d :
      snd (pkt_key p) = dir -> 0 < zlen (Payload p) < 2 ^ 31 ->
      0 < d < 2 ^ 31 -> TCPSeq p = u32 (h - d) ->
      sends dir (Some h) ps n -> sends dir (Some h) (p :: ps) (1 + n).

Lemma seqBefore_behind h d : 0 < d < 2 ^ 31 -> seqBefore (u32 (h - d)) h = true.
Proof.
  intros Hd. unfold seqBefore, u32, wrap. rewrite Zminus_mod_idemp_r.
  replace (h - (h - d)) with d by lia. rewrite Z.mod_small by lia.
  unfold i32. rewrite swrap_small; lia.
Qed.

Lemma seqBefore_refl h : seqBefore h h = false.
Proof. unfold seqBefore. by rewrite Z.sub_diag. Qed.

Lemma fold_retrans dir h ps n rec :
  sends dir h ps n -> Forall (fun p => Protocol p = "TCP") ps ->
  (forall h', h = Some h' -> hi_init dir (r_retrans rec) = true /\ hi_seq dir (r_retrans rec) = h') ->
  (h = None -> hi_init dir (r_retrans rec) = false) ->
  i64 (resent dir (r_retrans rec)) = resent dir (r_retrans rec) ->
  resent dir (r_retrans (foldl step_pkt rec ps)) = i64 (resent dir (r_retrans rec) + n).
Proof.
  intros Hs. revert rec. induction Hs as [h|h p ps n Ho Hs IH|p ps n Hd Hl Hs IH
      |h p ps n Hd Hl Hq Hs IH|h p ps n d Hd Hl Hdd Hq Hs IH];
    intros rec Hp Hi Hn H64; cbn [foldl]; [by rewrite Z.add_0_r|..];
    apply Forall_cons in Hp as [Hp Hps];
    destruct (step_pkt_tcp rec p Hp) as (_ & Er & _);
    set (rec' := step_pkt rec p) in *.
  - assert (hi_init dir (r_retrans rec') = hi_init dir (r_retrans rec) /\
      hi_seq dir (r_retrans rec') = hi_seq dir (r_retrans rec) /\
      resent dir (r_retrans rec') = resent dir (r_retrans rec)) as (E1 & E2 & E3).
    { rewrite Er. destruct Ho as [-> | ->]; [|done].
      unfold step_retrans. destruct (0 <? _); [|done]. by destruct dir; cbn [negb]; repeat case_match. }
    rewrite <-E3. apply IH; [done| | |by rewrite E3].
    + intros h' Hh. rewrite E1, E2. auto.
    + intros Hh. rewrite E1. auto.
  - specialize (Hn eq_refl).
    assert (hi_init dir (r_retrans rec') = true /\
      hi_seq dir (r_retrans rec') = u32 (TCPSeq p + zlen (Payload p)) /\
      resent dir (r_retrans rec') = resent dir (r_retrans rec)) as (E1 & E2 & E3).
    { rewrite Er. unfold step_retrans. assert (u32 (zlen (Payload p)) = zlen (Payload p)) as -> by (apply wrap_small; lia).
      replace (0 <? _) with true by lia. rewrite Hd. by destruct dir; cbn in *; rewrite Hn. }
    rewrite <-E3. apply IH; [done|by intros ? [= <-]|done|by rewrite E3].
  - destruct (Hi h eq_refl) as [Hini Hseq].
    assert (hi_init dir (r_retrans rec') = true /\
      hi_seq dir (r_retrans rec') = u32 (h + zlen (Payload p)) /\
      resent dir (r_retrans rec') = resent dir (r_retrans rec)) as (E1 & E2 & E3).
    { rewrite Er. unfold step_retrans. assert (u32 (zlen (Payload p)) = zlen (Payload p)) as -> by (apply wrap_small; lia).
      replace (0 <? _) with true by lia. rewrite Hd, Hq.
      destruct dir; cbn in *; rewrite Hini, Hseq, seqBefore_refl; done. }
    rewrite <-E3. apply IH; [done|by intros ? [= <-]|done|by rewrite E3].
  - destruct (Hi h eq_refl) as [Hini Hseq].
    assert (hi_init dir (r_retrans rec') = true /\
      hi_seq dir (r_retrans rec') = h /\
      resent dir (r_retrans rec') = i64 (resent dir (r_retrans rec) + 1)) as (E1 & E2 & E3).
    { rewrite Er. unfold step_retrans. assert (u32 (zlen (Payload p)) = zlen (Payload p)) as -> by (apply wrap_small; lia).
      replace (0 <? _) with true by lia. rewrite Hd, Hq.
      destruct dir; cbn in *; rewrite Hini, Hseq, seqBefore_behind; done. }
    rewrite IH; [|done|by intros ? [= <-]|done|by rewrite E3, i64_idem].
    rewrite E3, i64_add_l. f_equal. lia.
Qed.

(** ** Sums over the flows of a capture *)

Definition wsum (w : Packet -> Z) (ps : list Packet) : Z := foldr (fun p acc => w p + acc) 0 ps.

Lemma wsum_cons w p ps : wsum w (p :: ps) = w p + wsum w ps.
Proof. done. Qed.

Lemma wsum_filter_le w f ps : (forall p, 0 <= w p) ->
  0 <= wsum w (filter (fun p => Is_true (f p)) ps) <= wsum w ps.
Proof.
  intros Hw. induction ps as [|p ps IH]; [done|]. specialize (Hw p).
  rewrite filter_cons. case_decide; rewrite !wsum_cons; lia.
Qed.

Lemma by_direction ps :
  npackets false ps + npackets true ps = wsum (fun _ => 1) ps /\
  nbytes false ps + nbytes true ps = wsum (fun p => zlen (Payload p)) ps.
Proof.
  induction ps as [|p ps [IH1 IH2]]; [done|].
  rewrite !npackets_cons, !nbytes_cons, !wsum_cons. destruct (dir_of_snd p) as [-> ->].
  destruct (snd (pkt_key p)); cbn [negb]; lia.
Qed.

Lemma sum_indicator (ks : list flowKey) k x :
  NoDup ks -> foldr Z.add 0 ((fun k' => if bool_decide (k = k') then x else 0) <$> ks)
    = if bool_decide (k ∈ ks) then x else 0.
Proof.
  induction 1 as [|k' ks Hk' Hnd IH]; [done|]. cbn. rewrite IH.
  repeat case_bool_decide; set_solver by lia.
Qed.

Lemma sum_over_flows w (ks : list flowKey) pkts :
  NoDup ks -> (forall p, p ∈ pkts -> accepted p = true -> fst (pkt_key p) ∈ ks) ->
  foldr Z.add 0 ((fun k => wsum w (flow_packets k pkts)) <$> ks)
    = wsum w (filter (fun p => Is_true (accepted p)) pkts).
Proof.
  intros Hnd. induction pkts as [|p pkts IH]; intros Hk.
  - cbn. clear. induction ks as [|k ks IH]; [done|]. exact IH.
  - assert (forall k, wsum w (flow_packets k (p :: pkts)) =
      (if bool_decide (fst (pkt_key p) = k) then if accepted p then w p else 0 else 0)
      + wsum w (flow_packets k pkts)) as E.
    { intros k. unfold flow_packets. rewrite filter_cons.
      case_decide as Hd; rewrite ?wsum_cons; unfold of_flow in Hd;
        destruct (accepted p), (bool_decide (fst (pkt_key p) = k)); cbn in Hd; done || lia. }
    assert (forall l : list flowKey, foldr Z.add 0 ((fun k => wsum w (flow_packets k (p :: pkts))) <$> l)
      = foldr Z.add 0 ((fun k => if bool_decide (fst (pkt_key p) = k)
          then if accepted p then w p else 0 else 0) <$> l)
        + foldr Z.add 0 ((fun k => wsum w (flow_packets k pkts)) <$> l)) as Hsplit.
    { intros l. induction l as [|k l IHl]; cbn [fmap list_fmap foldr]; [done|]. rewrite E, IHl. lia. }
    rewrite Hsplit, sum_indicator, IH by (done || (intros; apply Hk; set_solver)).
    rewrite filter_cons. destruct (accepted p) eqn:Ha.
    + rewrite bool_decide_true by (apply Hk; set_solver). case_decide as Hd; [by rewrite wsum_cons|].
      by destruct Hd.
    + case_decide as Hd; [done|]. by case_bool_decide.
Qed.

(** The value of an [int64] metric. *)
Definition metric_i64 (f : Flow) (k : string) : Z :=
  match Metrics f !! k with Some (AInt TI64 z) => z | _ => 0 end.

Lemma i64_small z : 0 <= z < 2 ^ 63 -> i64 z = z.
Proof. intros. apply swrap_small; lia. Qed.

Lemma record_totals k pkts rec :
  run NewTracker pkts !! k = Some rec ->
  let ps := flow_packets k pkts in
  r_volume rec =
    {| fwdPackets := i64 (npackets false ps); revPackets := i64 (npackets true ps);
       fwdBytes := i64 (nbytes false ps); revBytes := i64 (nbytes true ps) |} /\
  metric_i64 (toFlow rec) "packets" = i64 (wsum (fun _ => 1) ps) /\
  metric_i64 (toFlow rec) "bytes" = i64 (wsum (fun p => zlen (Payload p)) ps).
Proof.
  intros (p & ps & E & -> & _)%run_flow. cbn zeta. rewrite E.
  set (rec := foldl step_pkt _ _).
  assert (r_volume rec = {| fwdPackets := i64 (npackets false (p :: ps));
    revPackets := i64 (npackets true (p :: ps)); fwdBytes := i64 (nbytes false (p :: ps));
    revBytes := i64 (nbytes true (p :: ps)) |}) as Hv by by apply fold_volume.
  split; [done|]. unfold metric_i64. destruct (toFlow_packets rec) as [-> ->].
  rewrite Hv. cbn [fwdPackets revPackets fwdBytes revBytes].
  rewrite !i64_add_l, !i64_add_r. by destruct (by_direction (p :: ps)) as [-> ->].
Qed.

(** The verdict [addRSTAuthenticityMetrics] writes. *)
Definition verdict_of (a : rst_auth) : option string :=
  if rstTTL a =? 0 then None
  else
    let '(baseline, baselineSet) :=
      if rstFromReversed a then (revBaselineTTL a, revBaselineTTLSet a)
      else (fwdBaselineTTL a, fwdBaselineTTLSet a) in
    if baselineSet then
      Some (if 5 <=? Z.abs (baseline - rstTTL a) then "suspicious" else "genuine")
    else Some "unknown".

Lemma rst_metrics_verdict m a : m !! "rst_authenticity" = None ->
  get_str (addRSTAuthenticityMetrics m a) "rst_authenticity" = verdict_of a.
Proof.
  intros Hm. unfold get_str, addRSTAuthenticityMetrics, verdict_of.
  destruct (rstTTL a =? 0); [by rewrite Hm|].
  destruct (if rstFromReversed a then _ else _) as [b []]; cbn [negb]; [|by rewrite lookup_insert_eq].
  assert ((if b - rstTTL a <? 0 then - (b - rstTTL a) else b - rstTTL a)
    = Z.abs (b - rstTTL a)) as -> by (destruct (Z.ltb_spec (b - rstTTL a) 0); lia).
  unfold rstTTLSuspiciousDelta. destruct (5 <=? _).
  - by rewrite lookup_insert_ne, lookup_insert_eq by done.
  - by rewrite lookup_insert_eq.
Qed.

Lemma toFlow_rst rec : r_Protocol rec = "TCP" ->
  get_str (Metrics (toFlow rec)) "rst_authenticity"
    = if rstSeen (r_rst rec) then verdict_of (r_rst rec) else None.
Proof.
  intros Hp. unfold toFlow. rewrite Hp, String.eqb_refl. cbn [Metrics].
  unfold get_str. lookup_metric. destruct (rstSeen (r_rst rec)).
  - erewrite <-rst_metrics_verdict; [done|]. lookup_metric. reflexivity.
  - lookup_metric. reflexivity.
Qed.

(** ** Properties *)

(** A capture for the witnesses: a client (10.0.0.9, the greater address) and
    a server, the handshake, data each way with one repeat, and a reset with
    another TTL. *)
Definition ex_pkt (fromClient : bool) (ms flags seq ack ttl : Z) (payload : list byte) : Packet :=
  let p := mk_packet (1700000000000000000 + ms * 1000000)
    (if fromClient then "10.0.0.9" else "10.0.0.1")
    (if fromClient then "10.0.0.1" else "10.0.0.9")
    (if fromClient then 40000 else 443) (if fromClient then 443 else 40000) "TCP" payload in
  {| Timestamp := Timestamp p; SrcIP := SrcIP p; DstIP := DstIP p; SrcPort := SrcPort p;
     DstPort := DstPort p; Protocol := "TCP"; Payload := payload; FrameNumber := 1;
     Length := Length p; AppProtocol := ""; Summary := ""; Metadata := ∅; Errors := [];
     RawPacket := []; TCPSeq := seq; TCPAck := ack; TCPFlags := flags; Reassembled := false;
     TTL := ttl; IPID := 7 |}.

Definition ex_capture : list Packet :=
  [ex_pkt true 0 0x02 100 0 64 []; ex_pkt false 10 0x12 900 101 55 [];
   ex_pkt true 20 0x18 101 901 64 (octets [1; 2; 3]);
   ex_pkt true 40 0x18 101 901 64 (octets [1; 2; 3]);
   ex_pkt false 60 0x18 901 104 55 (octets [9; 9]);
   ex_pkt false 80 0x04 903 0 200 []].

Definition ex_key : flowKey :=
  {| k_SrcIP := "10.0.0.1"; k_DstIP := "10.0.0.9"; k_SrcPort := 443; k_DstPort := 40000;
     k_Protocol := "TCP" |}.

Definition ex_record : flowRecord :=
  foldl step_pkt (new_record ex_key "TCP" 1700000000000000000) ex_capture.

Lemma ex_run : run NewTracker ex_capture !! ex_key = Some ex_record.
Proof. by rewrite run_flow_of. Qed.

(** One conversation, one key. A packet and its reply fall in the same flow,
    in opposite directions (unless both endpoints are the same), and two
    packets with ports share a key only when they are between the same
    endpoints over the same protocol. *)
Theorem flow_key_canonical s d sp dp p s' d' sp' dp' p' :
  is_icmp p = false ->
  (fst (makeKey s d sp dp p) = fst (makeKey s' d' sp' dp' p') <->
    p = p' /\ ((s, sp, d, dp) = (s', sp', d', dp') \/ (s, sp, d, dp) = (d', dp', s', sp'))) /\
  ((s, sp) <> (d, dp) -> snd (makeKey d s dp sp p) = negb (snd (makeKey s d sp dp p))).
Proof.
  intros Hp. split; [split|].
  - intros E. pose proof (makeKey_endpoints s d sp dp p Hp) as H1.
    assert (k_Protocol (fst (makeKey s d sp dp p)) = p) as Hk.
    { by destruct (makeKey s d sp dp p), H1. }
    assert (k_Protocol (fst (makeKey s' d' sp' dp' p')) = p') as Hk'.
    { unfold makeKey. by repeat case_match. }
    assert (p = p') as <- by congruence. split; [done|].
    pose proof (makeKey_endpoints s' d' sp' dp' p Hp) as H2.
    destruct (makeKey s d sp dp p) as [k r], (makeKey s' d' sp' dp' p) as [k' r'].
    cbn in E. subst k'. destruct H1 as [_ H1], H2 as [_ H2].
    destruct r, r'; simplify_eq; auto.
  - intros [<- [[= <- <- <- <-]|[= <- <- <- <-]]]; [done|]. symmetry. apply makeKey_swap.
  - intros Hne. apply makeKey_swap_dir. destruct (decide (s = d)) as [<-|]; [right|by left].
    split; [congruence|done].
Qed.

Example flow_key_canonical_witness :
  is_icmp "TCP" = false /\ ("a", 1) <> ("b", 2) /\
  fst (makeKey "a" "b" 1 2 "TCP") = fst (makeKey "b" "a" 2 1 "TCP") /\
  snd (makeKey "b" "a" 2 1 "TCP") = negb (snd (makeKey "a" "b" 1 2 "TCP")).
Proof.
  split_and!; [done|done| |].
  - apply (flow_key_canonical "a" "b" 1 2 "TCP" "b" "a" 2 1 "TCP"); [done|]. split; [done|by right].
  - apply (flow_key_canonical "a" "b" 1 2 "TCP" "b" "a" 2 1 "TCP"); done.
Defined.

(** C6: the flow table is one fold per conversation. After any capture, the
    record of a key depends only on the accepted packets of that key, in
    order: it exists exactly when there is one, carries their packet and byte
    counts per direction in [int64] arithmetic, starts at the first of them
    and ends at the latest timestamp. *)
Theorem tracker_refines_flows pkts k :
  run NewTracker pkts !! k = flow_of k pkts /\
  (run NewTracker pkts !! k = None <-> flow_packets k pkts = []) /\
  forall rec, run NewTracker pkts !! k = Some rec ->
    r_volume rec =
      {| fwdPackets := i64 (npackets false (flow_packets k pkts));
         revPackets := i64 (npackets true (flow_packets k pkts));
         fwdBytes := i64 (nbytes false (flow_packets k pkts));
         revBytes := i64 (nbytes true (flow_packets k pkts)) |} /\
    Some (r_start rec) = Timestamp <$> head (flow_packets k pkts) /\
    r_end rec = foldr Z.max (r_start rec) (Timestamp <$> flow_packets k pkts) /\
    (r_SrcIP rec, r_DstIP rec, r_SrcPort rec, r_DstPort rec, r_Protocol rec)
      = (k_SrcIP k, k_DstIP k, k_SrcPort k, k_DstPort k, k_Protocol k).
Proof.
  split_and!.
  - apply run_flow_of.
  - rewrite run_flow_of. unfold flow_of.
    change (filter (fun p => of_flow k p) pkts) with (flow_packets k pkts).
    by destruct (flow_packets k pkts).
  - intros rec H. pose proof (record_totals _ _ _ H) as [-> _].
    apply run_flow in H as (p & ps & -> & -> & _).
    destruct (fold_identity (p :: ps) (new_record k (k_Protocol k) (Timestamp p)))
      as (-> & -> & -> & -> & -> & -> & ->). by split_and!.
Qed.

(** C7: nothing is lost at flush. Whatever order the flow table is visited in,
    [Flush] reports each flow once, the packets and bytes of its flows add up
    to those of the accepted packets, and the tracker starts over empty. *)
Theorem flush_conserves pkts order flows gauge t' :
  map_order (run NewTracker pkts) order ->
  Flush (run NewTracker pkts) order = (flows, gauge, t') ->
  wsum (fun p => 1 + zlen (Payload p)) pkts < 2 ^ 63 ->
  NoDup (fst <$> order) /\ flows = toFlow ∘ snd <$> order /\
  foldr Z.add 0 ((fun f => metric_i64 f "packets") <$> flows)
    = wsum (fun _ => 1) (filter (fun p => Is_true (accepted p)) pkts) /\
  foldr Z.add 0 ((fun f => metric_i64 f "bytes") <$> flows)
    = wsum (fun p => zlen (Payload p)) (filter (fun p => Is_true (accepted p)) pkts) /\
  t' = NewTracker.
Proof.
  intros Ho [= <- _ <-] Hbig.
  assert (NoDup (fst <$> order)) as Hnd.
  { unfold map_order in Ho. rewrite Ho. apply NoDup_fst_map_to_list. }
  assert (forall w k, (forall p, 0 <= w p <= 1 + zlen (Payload p)) ->
    i64 (wsum w (flow_packets k pkts)) = wsum w (flow_packets k pkts)) as Hsmall.
  { intros w k Hw. apply i64_small.
    pose proof (wsum_filter_le w (of_flow k) pkts (fun p => proj1 (Hw p))) as Hle.
    assert (wsum w pkts <= wsum (fun p => 1 + zlen (Payload p)) pkts).
    { clear -Hw. induction pkts as [|p ps IH]; [done|]. rewrite !wsum_cons. pose proof (Hw p). lia. }
    unfold flow_packets. lia. }
  assert (forall key w, (forall p, 0 <= w p <= 1 + zlen (Payload p)) ->
    (forall k rec, run NewTracker pkts !! k = Some rec ->
      metric_i64 (toFlow rec) key = i64 (wsum w (flow_packets k pkts))) ->
    foldr Z.add 0 ((fun f => metric_i64 f key) <$> (toFlow ∘ snd <$> order))
      = wsum w (filter (fun p => Is_true (accepted p)) pkts)) as Hsum.
  { intros key w Hw Hm.
    rewrite <-(sum_over_flows w (fst <$> order)); [|done|].
    - rewrite <-!list_fmap_compose. f_equal. apply list_fmap_ext.
      intros i [k rec] Hi%list_elem_of_lookup_2. cbn.
      rewrite (Hm k rec) by by apply (flush_order (run NewTracker pkts) order). by apply Hsmall.
    - intros p Hp Ha. destruct (run NewTracker pkts !! fst (pkt_key p)) as [rec|] eqn:E.
      + apply list_elem_of_fmap. exists (fst (pkt_key p), rec).
        split; [done|]. by apply (flush_order (run NewTracker pkts) order).
      + exfalso. rewrite run_flow_of in E. unfold flow_of in E.
        assert (p ∈ filter (fun q => of_flow (fst (pkt_key p)) q) pkts) as Hin.
        { apply list_elem_of_filter. split; [|done]. unfold of_flow. rewrite Ha.
          by rewrite bool_decide_true. }
        by destruct (filter (fun q => of_flow (fst (pkt_key p)) q) pkts); [set_solver|]. }
  split_and!; [done|done|apply Hsum|apply Hsum|done].
  - intros p. pose proof (zlen_nonneg (Payload p)). lia.
  - intros k rec H. by apply record_totals in H as (_ & -> & _).
  - intros p. pose proof (zlen_nonneg (Payload p)). lia.
  - intros k rec H. by apply record_totals in H as (_ & _ & ->).
Qed.

Example flush_conserves_witness :
  exists order, map_order (run NewTracker ex_capture) order /\
    foldr Z.add 0 ((fun f => metric_i64 f "packets") <$> (toFlow ∘ snd <$> order)) = 6 /\
    NoDup (fst <$> order).
Proof.
  exists (map_to_list (run NewTracker ex_capture)).
  destruct (flush_conserves ex_capture (map_to_list (run NewTracker ex_capture)) _ _ _
    (Permutation_refl _) eq_refl ltac:(by vm_compute)) as (Hn & _ & -> & _).
  split_and!; [apply Permutation_refl|by vm_compute|done].
Defined.

(** Draining the pending segments works although it overwrites the slice
    it reads: the segments that stay are those not yet acknowledged, in
    order, and the samples are those of the acknowledged ones that waited. *)
Theorem drainPending_in_place pending ack now samples :
  drainPending pending ack now samples =
    (filter (fun s => Is_true (unacked ack s)) pending,
     samples ++ omap (sample_of ack now) pending).
Proof.
  unfold drainPending.
  destruct (drain_loop ack now pending samples (length pending)) as (arr & -> & _ & _ & Ht); [done|].
  by rewrite Ht, (firstn_all pending).
Qed.

(** The throughput trend has at most 60 points; its points are consecutive
    stretches of the one-second buckets, of the same length but for the last,
    they cover every bucket, and each carries the bytes of its stretch. *)
Theorem throughput_trend_bounded bytes :
  let pts := throughputTrend bytes in
  let step := trend_step (zlen bytes) in
  zlen pts <= 60 /\
  foldr Z.add 0 ((fun '(_, w, _) => w) <$> pts) = zlen bytes /\
  forall j p, pts !! j = Some p -> exists a b,
    p = (a, b - a, foldl (fun acc x => i64 (acc + x)) 0 (sub bytes a b)) /\
    a = step * Z.of_nat j /\ b = Z.min (a + step) (zlen bytes) /\ a < b.
Proof.
  cbn zeta. unfold throughputTrend.
  assert (0 < trend_step (zlen bytes) /\ zlen bytes <= 60 * trend_step (zlen bytes)) as [Hs Hn].
  { unfold trend_step. pose proof (Z.div_mod (zlen bytes + 59) 60).
    pose proof (Z.mod_pos_bound (zlen bytes + 59) 60).
    destruct (Z.ltb_spec 60 (zlen bytes)); lia. }
  pose proof (zlen_nonneg bytes).
  destruct (trend_points_spec (length bytes) bytes 0 (trend_step (zlen bytes))) as (H1 & H2 & H3);
    [lia|lia|unfold zlen in *; nia|].
  split_and!; [|rewrite H2; lia|exact H1].
  set (n := zlen (trend_points _ _ _ _)) in *. nia.
Qed.

(** The RST verdict of a TCP flow. It is about the first RST of the flow:
    the TTL it arrived with against the TTL of the first packet of its
    direction that is no RST (before or after it). Five hops apart or more is
    suspicious, less is genuine, no such packet is unknown; without an RST, or
    with an RST of TTL 0, there is no verdict. *)
Theorem rst_verdict pkts k rec :
  k_Protocol k = "TCP" -> run NewTracker pkts !! k = Some rec ->
  get_str (Metrics (toFlow rec)) "rst_authenticity" =
    match first_rst (flow_packets k pkts) with
    | None => None
    | Some r =>
      if TTL r =? 0 then None
      else match path_ttl (snd (pkt_key r)) (flow_packets k pkts) with
           | None => Some "unknown"
           | Some ttl => Some (if 5 <=? Z.abs (ttl - TTL r) then "suspicious" else "genuine")
           end
    end.
Proof.
  intros Hk Hrun. apply run_flow in Hrun as (p & ps & -> & Hrec & Hps & Hp).
  rewrite Hk in *.
  assert (r_rst rec = rst_of (p :: ps)) as Hr by (rewrite Hrec; by apply fold_rst).
  rewrite toFlow_rst, Hr by done. unfold verdict_of, rst_of.
  cbn [rstSeen rstTTL rstFromReversed fwdBaselineTTL revBaselineTTL fwdBaselineTTLSet
    revBaselineTTLSet].
  destruct (first_rst (p :: ps)) as [r|]; [|done].
  rewrite bool_decide_true by done. cbn [fmap option_fmap option_map default from_option compose id].
  destruct (TTL r =? 0); [done|].
  destruct (snd (pkt_key r)), (path_ttl true (p :: ps)), (path_ttl false (p :: ps)); done.
Qed.

Example rst_verdict_witness :
  k_Protocol ex_key = "TCP" /\ run NewTracker ex_capture !! ex_key = Some ex_record /\
  get_str (Metrics (toFlow ex_record)) "rst_authenticity" = Some "suspicious".
Proof.
  split_and!; [done|apply ex_run|].
  rewrite (rst_verdict ex_capture ex_key ex_record eq_refl ex_run). by vm_compute.
Defined.

(** Retransmissions are counted exactly. When the packets of a direction
    of a TCP flow are new data in sequence, or repeats of data at most 2^31
    bytes old, its count is the number of repeats, sequence numbers wrapping
    at 2^32 included. *)
Theorem retransmissions_exact pkts k rec dir n :
  k_Protocol k = "TCP" -> run NewTracker pkts !! k = Some rec ->
  sends dir None (flow_packets k pkts) n ->
  resent dir (r_retrans rec) = i64 n.
Proof.
  intros Hk Hrun Hs. apply run_flow in Hrun as (p & ps & E & -> & Hps & _).
  rewrite E in Hs. rewrite Hk in *.
  rewrite (fold_retrans dir None (p :: ps) n); try done; by destruct dir.
Qed.

Example retransmissions_exact_witness :
  run NewTracker ex_capture !! ex_key = Some ex_record /\
  resent true (r_retrans ex_record) = 1.
Proof.
  split; [apply ex_run|].
  rewrite (retransmissions_exact ex_capture ex_key ex_record true 1); [done|done|apply ex_run|].
  change (flow_packets ex_key ex_capture) with ex_capture. unfold ex_capture.
  do 2 (apply sends_other; [by right|]).
  apply sends_first; [done|done|].
  change 1 with (1 + 0). apply (sends_again _ _ _ _ _ 3); [done..|].
  apply sends_other; [by left|]. apply sends_other; [by left|]. apply sends_nil.
Defined.

(** The handshake round-trip time is only measured when the client's
    address is the smaller one. In a TCP flow whose opening SYNs all come from
    the endpoint with the greater address, no handshake time is ever taken,
    whatever else is captured. *)
Theorem handshake_one_sided pkts k rec :
  k_Protocol k = "TCP" -> run NewTracker pkts !! k = Some rec ->
  Forall (fun p => has_flag (TCPFlags p) flagSYN = true ->
    has_flag (TCPFlags p) flagACK = false -> snd (pkt_key p) = true) (flow_packets k pkts) ->
  hasRTT (r_handshake rec) = false /\ Metrics (toFlow rec) !! "handshake_rtt_ms" = None.
Proof.
  intros Hk Hrun Hs. apply run_flow in Hrun as (p & ps & E & Hrec & Hps & Hp).
  rewrite E in Hs. rewrite Hk in *. clear E.
  assert (r_handshake rec = handshake0) as Hh.
  { rewrite Hrec. clear Hrec Hp rec. generalize (p :: ps) Hs Hps. clear. intros l.
    induction l as [|q l IH] using rev_ind; intros Hs Hp; [done|].
    apply Forall_app in Hs as [Hs [Hq _]%Forall_cons], Hp as [Hp [Hq' _]%Forall_cons].
    rewrite foldl_app. cbn [foldl].
    match goal with |- r_handshake (step_pkt ?r q) = _ =>
      destruct (step_pkt_tcp r q Hq') as (_ & _ & ->) end.
    rewrite IH by done. unfold step_handshake.
    destruct (has_flag (TCPFlags q) flagSYN), (has_flag (TCPFlags q) flagACK);
      cbn [andb negb]; try done; [by rewrite andb_false_r|by rewrite Hq]. }
  split; [by rewrite Hh|].
  unfold toFlow. rewrite Hp, Hh, String.eqb_refl. cbn [Metrics hasRTT handshake0].
  lookup_metric. destruct (rstSeen _); [rewrite rst_metrics_other by set_solver|];
    lookup_metric; reflexivity.
Qed.

Example handshake_one_sided_witness :
  run NewTracker ex_capture !! ex_key = Some ex_record /\
  hasRTT (r_handshake ex_record) = false /\
  Metrics (toFlow ex_record) !! "handshake_rtt_ms" = None.
Proof.
  split; [apply ex_run|].
  apply (handshake_one_sided ex_capture ex_key ex_record); [done|apply ex_run|].
  change (flow_packets ex_key ex_capture) with ex_capture. unfold ex_capture.
  repeat constructor; done.
Defined.
