(* ===== verification/Dpi.v ===== *)
(** * internal/dpi: payload signature matchers

    dpi.go: every matcher over a payload, its byte reads checked. The text
    helpers [hasPrefix] and [contains] are the loops of the source. *)
From S2P Require Export Domain.

(** ** Helpers *)

Definition hasPrefix (p : list byte) (s : string) : res bool :=
  let s := gobytes s in
  if zlen p <? zlen s then Ok false
  else
    loop (S (length s)) (fun i =>
      if i <? zlen s then
        a ← idx p i; b ← idx s i;
        if negb (bool_decide (a = b)) then Ok (Done false) else Ok (Next (i + 1))
      else Ok (Done true)) 0.

(** The inner loop of [contains]: the bytes of [s] after its first one. *)
Definition match_at (p s : list byte) (i : Z) : res bool :=
  loop (S (length s)) (fun j =>
    if j <? zlen s then
      a ← idx p (i + j); b ← idx s j;
      if negb (bool_decide (a = b)) then Ok (Done false) else Ok (Next (j + 1))
    else Ok (Done true)) 1.

Definition contains (p : list byte) (s : string) : res bool :=
  let s := gobytes s in
  if (zlen s =? 0) || (zlen p <? zlen s) then Ok false
  else
    first ← idx s 0;
    loop (S (length p)) (fun i =>
      if i <=? zlen p - zlen s then
        a ← idx p i;
        if bool_decide (a = first) then
          m ← match_at p s i;
          if (m : bool) then Ok (Done true) else Ok (Next (i + 1))
        else Ok (Next (i + 1))
      else Ok (Done false)) 0.

(** ** Text protocols *)

Definition http_methods : list (string * Z) :=
  [("GET ", 4); ("PUT ", 4); ("HEAD ", 5); ("POST ", 5); ("DELETE ", 7); ("OPTIONS ", 8);
   ("CONNECT ", 8); ("PATCH ", 6); ("TRACE ", 6); ("STATUS ", 7); ("CONFIG ", 7);
   ("ENABLE-APP ", 11); ("DISABLE-APP ", 12); ("STOP-APP ", 9); ("REMOVE-APP ", 11);
   ("INFO ", 5); ("DUMP ", 5); ("PING ", 5)].

(** The [switch] of httpRequestMethodLen, case by case. *)
Fixpoint method_switch (p : list byte) (cases : list (string * Z)) : res Z :=
  match cases with
  | [] => Ok 0
  | (s, n) :: cases =>
    b ← hasPrefix p s;
    if (b : bool) then Ok n else method_switch p cases
  end.
Definition httpRequestMethodLen (p : list byte) : res Z := method_switch p http_methods.

Definition IsHTTP (p : list byte) : res bool :=
  if zlen p <? 14 then Ok false
  else
    b ← hasPrefix p "HTTP/1.";
    if (b : bool) then Ok true
    else
      methodLen ← httpRequestMethodLen p;
      if methodLen =? 0 then Ok false
      else
        window ← slice_from p methodLen;
        window ← (if 4096 <? zlen window then slice_to window 4096 else Ok window);
        contains window " HTTP/1.".

Definition sipPrefixes : list string :=
  ["SIP/2.0 "; "INVITE "; "REGISTER "; "ACK "; "BYE "; "CANCEL "; "OPTIONS "; "SUBSCRIBE ";
   "NOTIFY "; "REFER "; "MESSAGE "; "INFO "; "PRACK "; "UPDATE "; "PUBLISH "].

Fixpoint any_prefix (p : list byte) (l : list string) : res bool :=
  match l with
  | [] => Ok false
  | s :: l =>
    b ← hasPrefix p s;
    if (b : bool) then Ok true else any_prefix p l
  end.

Definition IsSIP (p : list byte) : res bool :=
  if zlen p <? 10 then Ok false else any_prefix p sipPrefixes.

(** ** Binary protocols *)

(** [uint16(p[i])<<8 | uint16(p[i+1])] *)
Definition word16 (p : list byte) (i : Z) : res Z :=
  a ← idx p i; b ← idx p (i + 1);
  Ok (Z.lor (Z.shiftl (u8 a) 8) (u8 b)).

Definition IsTLS (p : list byte) : res bool :=
  if zlen p <? 5 then Ok false
  else
    ct ← idx p 0;
    if (u8 ct <? 20) || (23 <? u8 ct) then Ok false
    else
      b1 ← idx p 1;
      b2 ← idx p 2;
      if negb (u8 b1 =? 3) || (4 <? u8 b2) then Ok false
      else
        recLen ← word16 p 3;
        Ok ((0 <? recLen) && (recLen <=? 18432)).

Definition is_name_byte (b : byte) : bool :=
  let c := u8 b in
  ((97 <=? c) && (c <=? 122)) || ((65 <=? c) && (c <=? 90)) || ((48 <=? c) && (c <=? 57))
  || (c =? 45) || (c =? 95) || (c =? 46).

Definition hasValidQuestionSection (p : list byte) : res bool :=
  loop (S (length p)) (fun '(offset, labels) =>
    if offset <? zlen p then
      length ← idx p offset;
      let length := u8 length in
      if length =? 0 then Ok (Done (offset + 1 + 4 <=? zlen p))
      else if 0xC0 <=? length then Ok (Done (offset + 2 + 4 <=? zlen p))
      else
        let offset := offset + 1 in
        if zlen p <? offset + length then Ok (Done false)
        else
          label ← slice p offset (offset + length);
          if negb (forallb is_name_byte label) then Ok (Done false)
          else
            let labels := labels + 1 in
            if 20 <? labels then Ok (Done false)
            else Ok (Next (offset + length, labels))
    else Ok (Done (offset + 4 <=? zlen p))) (12, 0).

Definition IsDNS (p : list byte) : res bool :=
  if zlen p <? 12 then Ok false
  else
    b2 ← idx p 2;
    let opcode := Z.land (Z.shiftr (u8 b2) 3) 0x0F in
    if 2 <? opcode then Ok false
    else
      b3 ← idx p 3;
      if negb (Z.land (u8 b3) 0x70 =? 0) then Ok false
      else
        qdCount ← word16 p 4;
        anCount ← word16 p 6;
        if (qdCount =? 0) && (anCount =? 0) then Ok false
        else
          nsCount ← word16 p 8;
          arCount ← word16 p 10;
          if (16 <? qdCount) || (64 <? anCount) || (64 <? nsCount) || (64 <? arCount) then Ok false
          else if 0 <? qdCount then hasValidQuestionSection p else Ok true.

Definition IsDiameter (p : list byte) : res bool :=
  if zlen p <? 20 then Ok false
  else
    b0 ← idx p 0;
    if negb (u8 b0 =? 1) then Ok false
    else
      b1 ← idx p 1; b2 ← idx p 2; b3 ← idx p 3;
      let msgLen := Z.lor (Z.lor (Z.shiftl (u8 b1) 16) (Z.shiftl (u8 b2) 8)) (u8 b3) in
      if (msgLen <? 20) || (16777215 <? msgLen) then Ok false
      else
        b4 ← idx p 4;
        Ok (Z.land (u8 b4) 0x0F =? 0).

Definition IsGTP (p : list byte) : res bool :=
  if zlen p <? 8 then Ok false
  else
    flagsByte ← idx p 0;
    let flagsByte := u8 flagsByte in
    let version := Z.land (Z.shiftr flagsByte 5) 0x07 in
    if negb (version =? 1) && negb (version =? 2) then Ok false
    else if (version =? 1) && negb (Z.land flagsByte 0x08 =? 0) then Ok false
    else if negb (version =? 1) && negb (Z.land flagsByte 0x07 =? 0) then Ok false
    else
      b1 ← idx p 1;
      if u8 b1 =? 0 then Ok false
      else
        declaredLen ← word16 p 2;
        let remaining := zlen p - 8 in
        Ok (negb (remaining + 20 <? declaredLen)).

Definition IsRTP (p : list byte) : res bool :=
  if zlen p <? 12 then Ok false
  else
    b0 ← idx p 0;
    let version := Z.land (Z.shiftr (u8 b0) 6) 0x03 in
    if negb (version =? 2) then Ok false
    else
      b1 ← idx p 1;
      let pt := Z.land (u8 b1) 0x7F in
      Ok (pt <=? 127).

(** ** The loops of the helpers compute prefix and substring search *)

Lemma prefix_loop (p s : list byte) off k fuel :
  (k <= length s)%nat -> off + zlen s <= zlen p -> 0 <= off ->
  (length s - k < fuel)%nat ->
  loop fuel (fun j =>
    if j <? zlen s then
      a ← idx p (off + j); b ← idx s j;
      if negb (bool_decide (a = b)) then Ok (Done false) else Ok (Next (j + 1))
    else Ok (Done true)) (Z.of_nat k)
  = Ok (is_prefix (drop k s) (drop (Z.to_nat off + k) p)).
Proof.
  revert k. induction fuel as [|fuel IH]; intros k Hk Hp Ho Hf; [lia|]. cbn [loop].
  destruct (Z.ltb_spec (Z.of_nat k) (zlen s)) as [Hlt|Hge].
  - unfold zlen in *.
    destruct (p !! (Z.to_nat off + k)%nat) as [a|] eqn:Ea;
      [|apply lookup_ge_None in Ea; lia].
    destruct (s !! k) as [b|] eqn:Eb; [|apply lookup_ge_None in Eb; lia].
    rewrite (idx_lookup p _ a), (idx_lookup s _ b);
      [|lia|by rewrite Nat2Z.id|lia|by replace (Z.to_nat (off + Z.of_nat k)) with (Z.to_nat off + k)%nat by lia].
    cbn [mbind res_bind].
    rewrite (drop_S _ _ _ Eb), (drop_S _ _ _ Ea). cbn [is_prefix].
    case_bool_decide as Eab; cbn [negb mbind res_bind].
    + subst b. replace (Z.of_nat k + 1) with (Z.of_nat (S k)) by lia.
      rewrite IH by lia. rewrite bool_decide_true by done. cbn. by rewrite Nat.add_succ_r.
    + rewrite bool_decide_false by congruence. done.
  - rewrite (drop_ge s) by (unfold zlen in *; lia). done.
Qed.

Lemma is_prefix_short (s p : list byte) : zlen p < zlen s -> is_prefix s p = false.
Proof.
  intros Hl. apply not_true_iff_false. intros [t ->]%is_prefix_spec.
  rewrite zlen_app in Hl. pose proof (zlen_nonneg t). lia.
Qed.

Lemma hasPrefix_spec p s : hasPrefix p s = Ok (is_prefix (gobytes s) p).
Proof.
  unfold hasPrefix. destruct (Z.ltb_spec (zlen p) (zlen (gobytes s))) as [Hlt|Hge].
  - by rewrite is_prefix_short.
  - pose proof (prefix_loop p (gobytes s) 0 0 (S (length (gobytes s)))) as H.
    cbn [Z.of_nat Z.to_nat Nat.add] in H. rewrite !drop_0 in H. apply H; lia.
Qed.

Lemma index_nat_short (s p : list byte) : zlen p < zlen s -> index_nat s p = None.
Proof.
  induction p as [|b p IH]; intros Hl; cbn [index_nat].
  - by rewrite is_prefix_short.
  - rewrite is_prefix_short by done. rewrite zlen_cons in Hl. by rewrite IH by lia.
Qed.

Lemma contains_cons (s p : list byte) b :
  GoStr.contains (b :: p) s = is_prefix s (b :: p) || GoStr.contains p s.
Proof.
  unfold GoStr.contains. cbn [index_nat]. destruct (is_prefix s (b :: p)); [done|].
  by destruct (index_nat s p).
Qed.

Lemma contains_loop (p s : list byte) c k fuel :
  s !! 0%nat = Some c -> (k <= length p)%nat -> (length p - k < fuel)%nat ->
  loop fuel (fun i =>
    if i <=? zlen p - zlen s then
      a ← idx p i;
      if bool_decide (a = c) then
        m ← match_at p s i;
        if (m : bool) then Ok (Done true) else Ok (Next (i + 1))
      else Ok (Next (i + 1))
    else Ok (Done false)) (Z.of_nat k) = Ok (GoStr.contains (drop k p) s).
Proof.
  intros Hc. revert k. induction fuel as [|fuel IH]; intros k Hk Hf; [lia|]. cbn [loop].
  destruct s as [|c' s]; [done|]. injection Hc as ->.
  destruct (Z.leb_spec (Z.of_nat k) (zlen p - zlen (c :: s))) as [Hle|Hgt].
  - rewrite zlen_cons in Hle. pose proof (zlen_nonneg s).
    destruct (p !! k) as [a|] eqn:Ea; [|apply lookup_ge_None in Ea; unfold zlen in *; lia].
    pose proof (lookup_lt_Some _ _ _ Ea).
    rewrite (idx_lookup p _ a); [|lia|by rewrite Nat2Z.id]. cbn [mbind res_bind].
    rewrite (drop_S _ _ _ Ea), contains_cons. cbn [is_prefix].
    replace (Z.of_nat k + 1) with (Z.of_nat (S k)) by lia.
    case_bool_decide as Eac.
    + subst a. assert (match_at p (c :: s) (Z.of_nat k) = Ok (is_prefix s (drop (S k) p))) as ->.
      { pose proof (prefix_loop p (c :: s) (Z.of_nat k) 1 (S (length (c :: s)))) as Hp.
        replace (Z.to_nat (Z.of_nat k) + 1)%nat with (S k) in Hp by lia.
        apply Hp; [cbn; lia|rewrite zlen_cons; lia|lia|cbn; lia]. }
      cbn [mbind res_bind]. rewrite (bool_decide_true (c = c)) by done. cbn [andb].
      destruct (is_prefix s (drop (S k) p)); cbn [mbind res_bind]; [done|].
      rewrite IH by lia. done.
    + rewrite bool_decide_false by congruence. cbn [mbind res_bind andb orb].
      rewrite IH by lia. done.
  - cbn [mbind res_bind]. unfold GoStr.contains. rewrite index_nat_short; [done|].
    unfold zlen in *. rewrite length_drop. lia.
Qed.

Lemma contains_spec p s : s <> ""%string ->
  contains p s = Ok (GoStr.contains p (gobytes s)).
Proof.
  intros Hs. unfold contains. destruct (gobytes s) as [|c s'] eqn:E.
  { destruct Hs. by rewrite <-(gostr_gobytes s), E. }
  pose proof (zlen_nonneg s'). rewrite zlen_cons. replace (1 + zlen s' =? 0) with false by lia.
  destruct (Z.ltb_spec (zlen p) (1 + zlen s')) as [Hlt|Hge]; cbn [orb].
  - unfold GoStr.contains. rewrite index_nat_short; [done|]. rewrite zlen_cons. lia.
  - rewrite <-(zlen_cons c). change (idx (c :: s') 0) with (Ok c). cbn [mbind res_bind].
    apply (contains_loop p (c :: s') c 0); [done|lia|lia].
Qed.

(** ** Every matcher returns *)

Lemma method_switch_spec p cases :
  Forall (fun '(s, n) => n = zlen (gobytes s)) cases ->
  exists n, method_switch p cases = Ok n /\ 0 <= n <= zlen p /\
    (n <> 0 -> exists s, (s, n) ∈ cases /\ is_prefix (gobytes s) p = true).
Proof.
  induction 1 as [|[s n] cases Hn _ IH]; cbn [method_switch].
  - exists 0. pose proof (zlen_nonneg p). split_and!; done || lia.
  - rewrite hasPrefix_spec. cbn [mbind res_bind]. destruct (is_prefix (gobytes s) p) eqn:E.
    + exists n. split_and!; [done|subst n; apply zlen_nonneg| |].
      * apply is_prefix_spec in E as [t ->]. rewrite zlen_app. pose proof (zlen_nonneg t). lia.
      * intros _. exists s. split; [set_solver|done].
    + destruct IH as (m & -> & Hm & Hs). exists m. split_and!; [done|lia..|].
      intros (s' & Hs' & Hp)%Hs. exists s'. split; [set_solver|done].
Qed.

Lemma http_methods_len : Forall (fun '(s, n) => n = zlen (gobytes s)) http_methods.
Proof. repeat constructor. Qed.

Lemma returns_word16 p i (Q : Z -> Prop) :
  0 <= i /\ i + 1 < zlen p -> (forall v, Q v) -> returns (word16 p i) Q.
Proof.
  intros Hi HQ. unfold word16. run_step. apply returns_idx; [lia|]. intros a _.
  run_step. apply returns_idx; [lia|]. intros b _. cbn. auto.
Qed.

(** Reads that the tests before them put in bounds. *)
Ltac run_dpi :=
  repeat first
    [ progress run_step
    | apply returns_idx; [lia|]; intros ? ?
    | apply returns_word16; [lia|]; intros ?
    | apply returns_slice; [lia|] ];
  try done.

Lemma hasValidQuestionSection_total p : returns (hasValidQuestionSection p) (fun _ => True).
Proof.
  apply (returns_loop (fun st => 0 <= fst st) (fun st => Z.to_nat (zlen p - fst st)));
    [|cbn; lia|cbn; unfold zlen; lia].
  intros [offset labels] Ho. cbn in Ho.
  pose proof u8_range as Hu. destruct (Z.ltb_spec offset (zlen p)); [|done].
  run_step. apply returns_idx; [lia|]. intros b _. specialize (Hu b). cbv zeta.
  destruct (u8 b =? 0) eqn:?; [done|]. destruct (_ <=? u8 b); [done|].
  destruct (Z.ltb_spec (zlen p) (offset + 1 + u8 b)); [done|].
  run_step. apply returns_slice; [lia|].
  destruct (negb _); [done|]. destruct (20 <? labels + 1); [done|]. cbn. lia.
Qed.

Lemma any_prefix_total p l : returns (any_prefix p l) (fun _ => True).
Proof.
  induction l as [|s l IH]; cbn [any_prefix]; [done|].
  rewrite hasPrefix_spec. cbn [mbind res_bind]. by destruct (is_prefix _ _).
Qed.

Definition matchers : list (list byte -> res bool) :=
  [IsHTTP; IsTLS; IsSIP; IsDNS; IsDiameter; IsGTP; IsRTP].

(** What the text signature of HTTP means: a status line, or a request line
    with a known method and the version in its first 4096 bytes. *)
Definition looks_http (p : list byte) : Prop :=
  14 <= zlen p /\
  (is_prefix (gobytes "HTTP/1.") p = true \/
   exists s n, (s, n) ∈ http_methods /\ is_prefix (gobytes s) p = true /\
     GoStr.contains (take 4096 (drop (Z.to_nat n) p)) (gobytes " HTTP/1.") = true).

Lemma IsHTTP_returns p : returns (IsHTTP p) (fun b => b = true -> looks_http p).
Proof.
  unfold IsHTTP, looks_http. destruct (Z.ltb_spec (zlen p) 14) as [|Hl]; [by cbn|].
  rewrite hasPrefix_spec. cbn [mbind res_bind].
  destruct (is_prefix (gobytes "HTTP/1.") p) eqn:Ep; [cbn; auto|].
  unfold httpRequestMethodLen.
  destruct (method_switch_spec p _ http_methods_len) as (n & -> & Hn & Hs). cbn [mbind res_bind].
  destruct (Z.eqb_spec n 0) as [->|Hn0]; [by cbn|].
  rewrite slice_from_Ok by lia. cbn [mbind res_bind].
  assert ((if 4096 <? zlen (drop (Z.to_nat n) p) then slice_to (drop (Z.to_nat n) p) 4096
    else Ok (drop (Z.to_nat n) p)) = Ok (take 4096 (drop (Z.to_nat n) p))) as ->.
  { destruct (Z.ltb_spec 4096 (zlen (drop (Z.to_nat n) p))).
    - by rewrite slice_to_Ok by lia.
    - rewrite take_ge; [done|]. unfold zlen in *. lia. }
  cbn [mbind res_bind]. rewrite contains_spec by done. cbn. intros Hc.
  split; [lia|]. right. destruct (Hs Hn0) as (s & Hin & Hps). by exists s, n.
Qed.

(** ** First bytes *)

Lemma land_shiftr_bits z a n : 0 <= a -> 0 <= n ->
  Z.land (Z.shiftr z a) (Z.ones n) = (z / 2 ^ a) mod 2 ^ n.
Proof. intros. by rewrite Z.land_ones, Z.shiftr_div_pow2 by lia. Qed.

(** The first byte of a payload a binary matcher accepts. *)
Lemma IsTLS_first p : IsTLS p = Ok true -> exists b, p !! 0%nat = Some b /\ 20 <= u8 b <= 23.
Proof.
  unfold IsTLS. destruct (zlen p <? 5); [done|].
  intros (b & [_ Hb]%idx_Ok_inv & H)%bind_Ok. exists b. split; [done|].
  destruct ((u8 b <? 20) || (23 <? u8 b)) eqn:E; [done|]. lia.
Qed.

Lemma IsDiameter_first p : IsDiameter p = Ok true -> exists b, p !! 0%nat = Some b /\ u8 b = 1.
Proof.
  unfold IsDiameter. destruct (zlen p <? 20); [done|].
  intros (b & [_ Hb]%idx_Ok_inv & H)%bind_Ok. exists b. split; [done|].
  destruct (u8 b =? 1) eqn:E; [lia|done].
Qed.

Lemma IsGTP_first p : IsGTP p = Ok true -> exists b, p !! 0%nat = Some b /\ 32 <= u8 b < 96.
Proof.
  unfold IsGTP. destruct (zlen p <? 8); [done|].
  intros (b & [_ Hb]%idx_Ok_inv & H)%bind_Ok. exists b. split; [done|].
  cbv zeta in H. set (v := Z.land (Z.shiftr (u8 b) 5) 7) in H.
  assert (v = (u8 b / 2 ^ 5) mod 2 ^ 3) as Hv by exact (land_shiftr_bits (u8 b) 5 3 ltac:(lia) ltac:(lia)).
  clearbody v. pose proof (u8_range b). pose proof (Z.div_mod (u8 b) (2 ^ 5)).
  pose proof (Z.mod_pos_bound (u8 b) (2 ^ 5)).
  rewrite Z.mod_small in Hv by (split; [apply Z.div_pos|apply Z.div_lt_upper_bound]; lia).
  destruct (negb (v =? 1) && negb (v =? 2)) eqn:E; [done|]. lia.
Qed.

Lemma IsRTP_first p : IsRTP p = Ok true -> exists b, p !! 0%nat = Some b /\ 128 <= u8 b < 192.
Proof.
  unfold IsRTP. destruct (zlen p <? 12); [done|].
  intros (b & [_ Hb]%idx_Ok_inv & H)%bind_Ok. exists b. split; [done|].
  cbv zeta in H. set (v := Z.land (Z.shiftr (u8 b) 6) 3) in H.
  assert (v = (u8 b / 2 ^ 6) mod 2 ^ 2) as Hv by exact (land_shiftr_bits (u8 b) 6 2 ltac:(lia) ltac:(lia)).
  clearbody v. pose proof (u8_range b). pose proof (Z.div_mod (u8 b) (2 ^ 6)).
  pose proof (Z.mod_pos_bound (u8 b) (2 ^ 6)).
  rewrite Z.mod_small in Hv by (split; [apply Z.div_pos|apply Z.div_lt_upper_bound]; lia).
  destruct (v =? 2) eqn:E; [lia|done].
Qed.

(** ** Properties *)

(** Payload inspection is safe on any bytes. Every matcher returns on every
    payload, and what HTTP detection accepts really is a status line or a
    request line of a known method with its version in the first 4 KB. *)
Theorem dpi_matchers_total p :
  Forall (fun matcher => exists b, matcher p = Ok b) matchers /\
  (IsHTTP p = Ok true -> looks_http p).
Proof.
  assert (forall m : res bool, returns m (fun _ => True) -> exists b, m = Ok b) as Hret.
  { intros m (b & -> & _)%returns_inv. by exists b. }
  split.
  - repeat apply Forall_cons_2; [..|by apply Forall_nil]; apply Hret.
    + eapply returns_weaken; [apply IsHTTP_returns|done].
    + unfold IsTLS. run_dpi.
    + unfold IsSIP. destruct (_ <? _); [done|apply any_prefix_total].
    + unfold IsDNS. destruct (Z.ltb_spec (zlen p) 12); [done|]. run_dpi.
      apply hasValidQuestionSection_total.
    + unfold IsDiameter. run_dpi.
    + unfold IsGTP. run_dpi.
    + unfold IsRTP. run_dpi.
  - intros H. pose proof (IsHTTP_returns p) as Hr. rewrite H in Hr. by apply Hr.
Qed.

Example dpi_matchers_total_witness :
  IsHTTP (gobytes "GET / HTTP/1.1") = Ok true /\ looks_http (gobytes "GET / HTTP/1.1").
Proof. split; [by vm_compute|]. apply dpi_matchers_total. by vm_compute. Defined.

(** The binary signatures do not overlap: at most one of TLS, Diameter, GTP
    and RTP accepts a payload. *)
Theorem dpi_signatures_exclusive p i j mi mj :
  [IsTLS; IsDiameter; IsGTP; IsRTP] !! i = Some mi ->
  [IsTLS; IsDiameter; IsGTP; IsRTP] !! j = Some mj ->
  mi p = Ok true -> mj p = Ok true -> i = j.
Proof.
  intros Hi Hj.
  assert (forall k (m : list byte -> res bool), [IsTLS; IsDiameter; IsGTP; IsRTP] !! k = Some m ->
    m p = Ok true -> exists b, p !! 0%nat = Some b /\
      k = if u8 b =? 1 then 1%nat else if u8 b <? 32 then 0%nat
          else if u8 b <? 128 then 2%nat else 3%nat) as Hfirst.
  { clear. intros k m Hk Hm.
    destruct k as [|[|[|[|k]]]]; [injection Hk as <-..|done];
      [apply IsTLS_first in Hm as (b & Hb & ?)|apply IsDiameter_first in Hm as (b & Hb & ?)
      |apply IsGTP_first in Hm as (b & Hb & ?)|apply IsRTP_first in Hm as (b & Hb & ?)];
      exists b; (split; [done|]);
      destruct (Z.eqb_spec (u8 b) 1), (Z.ltb_spec (u8 b) 32), (Z.ltb_spec (u8 b) 128); done || lia. }
  intros (b & Hb & ->)%(Hfirst i mi Hi) (b' & Hb' & ->)%(Hfirst j mj Hj). by simplify_eq.
Qed.

Example dpi_signatures_exclusive_witness :
  IsGTP (octets [0x32; 0xff; 0; 4; 0; 0; 0; 1; 0; 0; 0; 0]) = Ok true /\ 2%nat = 2%nat.
Proof.
  split; [by vm_compute|].
  by apply (dpi_signatures_exclusive (octets [0x32; 0xff; 0; 4; 0; 0; 0; 1; 0; 0; 0; 0]) 2 2 IsGTP IsGTP);
    [..|vm_compute|vm_compute].
Defined.
