(* ===== verification/Lines.v ===== *)
(** * Lines of text protocols, as they are meant

    Names, lines of ASCII text without CR, header lines and status codes of
    three digits: the words in which the round trips of SIP and HTTP say what
    stands on the wire, with the facts that read them back. *)
From S2P Require Export Text.

Definition text (s : list byte) : bool := forallb (fun b => (u8 b <? 0x80) && negb (u8 b =? 0x0D)) s.

(** A name: visible characters other than the colon and the equals sign. *)
Definition name (s : list byte) : bool :=
  negb (zlen s =? 0) &&
  forallb (fun b => (0x21 <=? u8 b) && (u8 b <=? 0x7E) && negb (u8 b =? 0x3A) && negb (u8 b =? 0x3D)) s.

Definition colon : byte := byte_of 0x3A.

Definition space : byte := byte_of 0x20.

Definition digit3 (code : Z) : list byte :=
  octets [0x30 + code / 100; 0x30 + code / 10 mod 10; 0x30 + code mod 10].

Definition header_bytes (h : list byte * list byte) : list byte := fst h ++ colon :: snd h.

Lemma name_inv s : name s = true -> s <> [] /\ is_ascii s = true /\ no_cr s /\ colon ∉ s /\
  byte_of 0x3D ∉ s /\ Forall (fun b => sp b = false) s.
Proof.
  unfold name. intros [Hn H]%andb_true_iff. rewrite forallb_forall in H.
  assert (forall b, b ∈ s -> 0x21 <= u8 b <= 0x7E /\ u8 b <> 0x3A /\ u8 b <> 0x3D) as Hb.
  { intros b Hb. rewrite list_elem_of_In in Hb. specialize (H b Hb). cbn beta in H. lia. }
  split_and!.
  - intros ->. by rewrite zlen_nil in Hn.
  - apply forallb_forall. intros b Hi. rewrite <-list_elem_of_In in Hi. apply Hb in Hi. lia.
  - intros Hi. apply Hb in Hi. change (u8 CR) with 0x0D in Hi. lia.
  - intros Hi. apply Hb in Hi. change (u8 colon) with 0x3A in Hi. lia.
  - intros Hi. apply Hb in Hi. change (u8 (byte_of 0x3D)) with 0x3D in Hi. lia.
  - apply Forall_forall. intros b Hi. apply Hb in Hi. unfold sp, is_space.
    rewrite bool_decide_false; [cbn [orb]; lia|].
    intros Hin. repeat (apply elem_of_cons in Hin as [?|Hin]; [lia|]). by apply not_elem_of_nil in Hin.
Qed.

Lemma text_inv s : text s = true -> is_ascii s = true /\ no_cr s.
Proof.
  unfold text. rewrite forallb_forall. intros H. split.
  - apply forallb_forall. intros b Hb. specialize (H b Hb). cbn beta in H. lia.
  - intros Hb. rewrite list_elem_of_In in Hb. specialize (H _ Hb). by vm_compute in H.
Qed.

Lemma no_cr_app s t : no_cr s -> no_cr t -> no_cr (s ++ t).
Proof. unfold no_cr. set_solver. Qed.

Lemma no_cr_cons b s : b <> CR -> no_cr s -> no_cr (b :: s).
Proof. unfold no_cr. set_solver. Qed.

Lemma lower_keeps c b : (u8 c < 0x41 \/ 0x5A < u8 c < 0x61 \/ 0x7A < u8 c) -> lower_byte b = c -> b = c.
Proof.
  unfold lower_byte. intros Hc. case_match eqn:E; [|done]. intros <-. exfalso.
  rewrite u8_byte_of in Hc by lia. lia.
Qed.

Lemma colon_not_lower (s : list byte) : colon ∉ s -> colon ∉ lower_byte <$> s.
Proof.
  intros Hs (b & Hb & Hin)%list_elem_of_fmap. apply Hs.
  assert (b = colon) as <-; [|done]. apply lower_keeps; [left; by vm_compute|done].
Qed.

Lemma rtrim_prefix s : exists t, s = rtrim s ++ t.
Proof.
  unfold rtrim. assert (exists u, reverse s = u ++ skip_spaces (reverse s)) as [u Hu].
  { generalize (reverse s). intros l. induction l as [|b l [u IH]]; [by exists []|].
    cbn. destruct (sp b); [|by exists []]. exists (b :: u). cbn. by f_equal. }
  exists (reverse u). by rewrite <-reverse_app, <-Hu, reverse_involutive.
Qed.

Lemma to_lower_ascii `{Unicode} s : is_ascii s = true -> to_lower s = lower_byte <$> s.
Proof. unfold to_lower. by intros ->. Qed.

Lemma name_text s : name s = true -> text s = true.
Proof.
  unfold name, text. intros [_ Hs]%andb_true_iff. rewrite forallb_forall in *. intros b Hb.
  specialize (Hs b Hb). cbn beta in *. lia.
Qed.

Lemma text_app s t : text (s ++ t) = text s && text t.
Proof. apply forallb_app. Qed.

Lemma text_digit3 code : 100 <= code <= 699 -> text (digit3 code) = true.
Proof.
  intros Hc. unfold digit3, octets. cbn [fmap list_fmap].
  assert (forall d, 0 <= d <= 9 -> (u8 (byte_of (48 + d)) <? 0x80) && negb (u8 (byte_of (48 + d)) =? 0x0D) = true) as Hd.
  { intros d Hd. rewrite u8_byte_of by lia. lia. }
  assert (0 <= code / 100 <= 9) by (Z.to_euclidean_division_equations; lia).
  assert (0 <= code / 10 mod 10 <= 9) by (Z.to_euclidean_division_equations; lia).
  assert (0 <= code mod 10 <= 9) by (Z.to_euclidean_division_equations; lia).
  unfold text. cbn [forallb]. by rewrite !Hd.
Qed.

Lemma text_header h : name (fst h) && text (snd h) = true -> text (header_bytes h) = true.
Proof. intros [Hn%name_text Hv]%andb_true_iff. unfold header_bytes. rewrite text_app, Hn. exact Hv. Qed.

Lemma trim_space_join s : solid s = true -> trim_space s = s.
Proof. intros Hs. rewrite <-(app_nil_r s) at 1. by apply trim_space_solid. Qed.

Lemma join_lines_start l ls : exists rest, join_lines (l :: ls) = l ++ rest /\
  (rest = [] \/ exists r, rest = crlf ++ r).
Proof. destruct ls as [|l' ls]; [exists []; rewrite app_nil_r; auto|]. eexists. split; [done|]. eauto. Qed.

Lemma Atoi_digit3 code : 100 <= code <= 699 -> Atoi (digit3 code) = Some code.
Proof.
  intros Hc. unfold digit3, octets. cbn [fmap list_fmap].
  assert (1 <= code / 100 <= 9) by (Z.to_euclidean_division_equations; lia).
  assert (0 <= code / 10 mod 10 <= 9) by (Z.to_euclidean_division_equations; lia).
  assert (0 <= code mod 10 <= 9) by (Z.to_euclidean_division_equations; lia).
  unfold Atoi. rewrite u8_byte_of by lia.
  replace (48 + code / 100 =? 45) with false by lia. replace (48 + code / 100 =? 43) with false by lia.
  cbn [zlen length Z.of_nat Z.eqb]. cbn [digits_value]. rewrite !u8_byte_of by lia.
  repeat match goal with |- context [(48 <=? 48 + ?d) && (48 + ?d <=? 57)] =>
    replace ((48 <=? 48 + d) && (48 + d <=? 57)) with true by lia end.
  cbn [mbind option_bind].
  replace (((0 * 10 + (48 + code / 100 - 48)) * 10 + (48 + code / 10 mod 10 - 48)) * 10 + (48 + code mod 10 - 48))
    with code by (Z.to_euclidean_division_equations; lia).
  replace ((- 2 ^ 63 <=? code) && (code <? 2 ^ 63)) with true by lia. done.
Qed.

Lemma gostr_eqb l s : String.eqb (gostr l) s = bool_decide (gobytes s = l).
Proof.
  destruct (String.eqb_spec (gostr l) s) as [E|E]; case_bool_decide as E'; try done.
  - exfalso. apply E'. by rewrite <-E, gobytes_gostr.
  - exfalso. apply E. by rewrite <-E', gostr_gobytes.
Qed.
