(* ===== verification/Sip.v ===== *)
(** * internal/protocols/sip: SIP sessions

    helper.go, session.go and decoder.go. Payloads and lines are bytes, what is
    kept of them are strings. The sessions are pointers that only the map holds. *)
From S2P Require Export Lines.
From S2P Require Export Dpi.

(** ** helper.go *)

Section helper.
Context `{Unicode}.

(** The loop over the lines; [header] is already in lower case, with its colon. *)
Fixpoint find_header (lines : list (list byte)) (header : list byte) : res (list byte) :=
  match lines with
  | [] => Ok []
  | line :: lines =>
    let l := to_lower (trim_space line) in
    if is_prefix header l then v ← slice_from line (zlen header); Ok (trim_space v)
    else find_header lines header
  end.

Definition extractHeader (payload : list byte) (header : string) : res string :=
  gostr <$> find_header (split_on payload crlf) (to_lower (gobytes header) ++ [byte_of 0x3A]).
End helper.

Definition firstLine (payload : list byte) : list byte :=
  let i := index payload crlf in
  if 0 <? i then take (Z.to_nat i) payload else payload.

Definition extractStatusCode (payload : list byte) : Z :=
  match split_n payload (gobytes " ") 3 with
  | _ :: p :: _ => default 0 (Atoi p)
  | _ => 0
  end.

(** The map parseSDP returns, whose keys are fixed. *)
Record SDP := { sdp_media_ip : string; sdp_media_port : string; sdp_direction : string }.

Definition trim_prefix_bytes (s p : list byte) : list byte :=
  if is_prefix p s then drop (length p) s else s.

(** The body of the loop over the lines. *)
Definition sdp_step (s : SDP) (l : list byte) : SDP :=
  let l := trim_space l in
  let ip := if is_prefix (gobytes "c=IN IP4 ") l
    then gostr (trim_prefix_bytes l (gobytes "c=IN IP4 ")) else sdp_media_ip s in
  let port := if is_prefix (gobytes "m=audio ") l
    then match fields l with _ :: p :: _ => gostr p | _ => sdp_media_port s end else sdp_media_port s in
  let direction :=
    if is_prefix (gobytes "a=sendonly") l || is_prefix (gobytes "a=recvonly") l
       || is_prefix (gobytes "a=sendrecv") l || is_prefix (gobytes "a=inactive") l
    then gostr (trim_prefix_bytes l (gobytes "a=")) else sdp_direction s in
  {| sdp_media_ip := ip; sdp_media_port := port; sdp_direction := direction |}.

Definition parseSDP (payload : list byte) : option SDP :=
  let s := foldl sdp_step {| sdp_media_ip := ""; sdp_media_port := ""; sdp_direction := "" |}
             (split_on payload crlf) in
  if String.eqb (sdp_media_ip s) "" || String.eqb (sdp_media_port s) "" then None
  else Some {| sdp_media_ip := sdp_media_ip s; sdp_media_port := sdp_media_port s;
               sdp_direction := if String.eqb (sdp_direction s) "" then "sendrecv" else sdp_direction s |}.

(** ** session.go *)

Record HoldEvent := { ev_Timestamp : time; ev_Direction : string; ev_IsHold : bool }.

Record SIPSession := {
  ss_CallID : string;
  ss_SrcIP : string;
  ss_DstIP : string;
  ss_StartTime : time;
  InviteTime : time;
  ByeTime : time;
  FirstResponseTime : time;
  Method : string;
  From : string;
  To : string;
  LastResponse : string;
  MediaIP : string;
  MediaPort : string;
  Direction : string;
  HoldEvents : list HoldEvent;
  HoldCount : Z;
}.

Definition is_hold (direction : string) : bool :=
  String.eqb direction "sendonly" || String.eqb direction "inactive".

(** The three fields trackDirectionChange writes. *)
Definition hold_step (dir : string) (events : list HoldEvent) (count : Z) (newDirection : string) (ts : time) :
    string * list HoldEvent * Z :=
  let isHold := is_hold newDirection in
  let wasHold := is_hold dir in
  let event b := {| ev_Timestamp := ts; ev_Direction := newDirection; ev_IsHold := b |} in
  if negb (String.eqb dir "") && xorb isHold wasHold then
    (newDirection, events ++ [event isHold], if isHold then i64 (count + 1) else count)
  else if String.eqb dir "" && isHold then (newDirection, events ++ [event true], i64 (count + 1))
  else (newDirection, events, count).

Definition set_media (sdp : SDP) (ts : time) (s : SIPSession) : SIPSession :=
  let '(dir, events, count) := hold_step (Direction s) (HoldEvents s) (HoldCount s) (sdp_direction sdp) ts in
  {| ss_CallID := ss_CallID s; ss_SrcIP := ss_SrcIP s; ss_DstIP := ss_DstIP s; ss_StartTime := ss_StartTime s;
     InviteTime := InviteTime s; ByeTime := ByeTime s; FirstResponseTime := FirstResponseTime s;
     Method := Method s; From := From s; To := To s; LastResponse := LastResponse s;
     MediaIP := sdp_media_ip sdp; MediaPort := sdp_media_port sdp;
     Direction := dir; HoldEvents := events; HoldCount := count |}.

Definition set_method (m : string) (s : SIPSession) : SIPSession :=
  {| ss_CallID := ss_CallID s; ss_SrcIP := ss_SrcIP s; ss_DstIP := ss_DstIP s; ss_StartTime := ss_StartTime s;
     InviteTime := InviteTime s; ByeTime := ByeTime s; FirstResponseTime := FirstResponseTime s;
     Method := m; From := From s; To := To s; LastResponse := LastResponse s;
     MediaIP := MediaIP s; MediaPort := MediaPort s;
     Direction := Direction s; HoldEvents := HoldEvents s; HoldCount := HoldCount s |}.

Definition set_invite (ts : time) (from to : string) (s : SIPSession) : SIPSession :=
  {| ss_CallID := ss_CallID s; ss_SrcIP := ss_SrcIP s; ss_DstIP := ss_DstIP s; ss_StartTime := ss_StartTime s;
     InviteTime := ts; ByeTime := ByeTime s; FirstResponseTime := FirstResponseTime s;
     Method := Method s; From := from; To := to; LastResponse := LastResponse s;
     MediaIP := MediaIP s; MediaPort := MediaPort s;
     Direction := Direction s; HoldEvents := HoldEvents s; HoldCount := HoldCount s |}.

Definition set_bye (ts : time) (s : SIPSession) : SIPSession :=
  {| ss_CallID := ss_CallID s; ss_SrcIP := ss_SrcIP s; ss_DstIP := ss_DstIP s; ss_StartTime := ss_StartTime s;
     InviteTime := InviteTime s; ByeTime := ts; FirstResponseTime := FirstResponseTime s;
     Method := Method s; From := From s; To := To s; LastResponse := LastResponse s;
     MediaIP := MediaIP s; MediaPort := MediaPort s;
     Direction := Direction s; HoldEvents := HoldEvents s; HoldCount := HoldCount s |}.

Definition set_response (line : string) (code : Z) (ts : time) (s : SIPSession) : SIPSession :=
  {| ss_CallID := ss_CallID s; ss_SrcIP := ss_SrcIP s; ss_DstIP := ss_DstIP s; ss_StartTime := ss_StartTime s;
     InviteTime := InviteTime s; ByeTime := ByeTime s;
     FirstResponseTime := if (code =? 200) && is_zero (FirstResponseTime s) then ts else FirstResponseTime s;
     Method := Method s; From := From s; To := To s; LastResponse := line;
     MediaIP := MediaIP s; MediaPort := MediaPort s;
     Direction := Direction s; HoldEvents := HoldEvents s; HoldCount := HoldCount s |}.

(** [time.Time.Format(time.RFC3339)]: the text depends on the host's zone,
    which a [time] does not carry, so it is a parameter of what prints it. *)
Definition holdEventStrings (rfc3339 : time -> string) (s : SIPSession) : list string :=
  (fun e => cat [if ev_IsHold e then "HOLD" else "UNHOLD"; " at "; rfc3339 (ev_Timestamp e);
                 " (direction="; ev_Direction e; ")"]) <$> HoldEvents s.

Definition new_session (callID : string) (pkt : Packet) : SIPSession :=
  {| ss_CallID := callID; ss_SrcIP := SrcIP pkt; ss_DstIP := DstIP pkt; ss_StartTime := Timestamp pkt;
     InviteTime := 0; ByeTime := 0; FirstResponseTime := 0; Method := ""; From := ""; To := "";
     LastResponse := ""; MediaIP := ""; MediaPort := ""; Direction := ""; HoldEvents := []; HoldCount := 0 |}.

(** ** decoder.go *)

Definition SIPDecoder := gmap string SIPSession.
Definition NewDecoder : SIPDecoder := ∅.

Definition getSession (d : SIPDecoder) (callID : string) (pkt : Packet) : SIPSession :=
  default (new_session callID pkt) (d !! callID).

(** The error a response adds to its packet. *)
Definition response_error (line callID : string) (code : Z) : list PacketError :=
  let err title severity :=
    [{| Code := "SIP_" +:+ fmt_d code; Title := title;
        Description := cat [line; " (Call-ID: "; callID; ")"]; Severity := severity |}] in
  if (400 <=? code) && (code <? 500) then err "SIP Client Error"%string "warning"%string
  else if (500 <=? code) && (code <? 600) then err "SIP Server Error"%string "error"%string
  else if 600 <=? code then err "SIP Global Failure"%string "critical"%string
  else [].

Section decoder.
Context `{Unicode}.

(** handlePayload on the session of the call: the session and the packet's
    Summary and Errors. *)
Definition handle_session (payload : list byte) (callID : string) (ts : time) (s : SIPSession)
    (summary : string) (errors : list PacketError) : res (SIPSession * string * list PacketError) :=
  let '(s, summary) :=
    if negb (is_prefix (gobytes "SIP/") payload) then
      let spaceIdx := index_byte payload (byte_of 0x20) in
      if 0 <? spaceIdx then
        let method := gostr (take (Z.to_nat spaceIdx) payload) in
        (if String.eqb (Method s) "" then set_method method s else s, cat [method; " "; callID])
      else (s, summary)
    else (s, summary) in
  s ← (if is_prefix (gobytes "INVITE ") payload then
         from ← extractHeader payload "From";
         to ← extractHeader payload "To";
         Ok (set_invite ts from to s)
       else Ok s);
  let s := if is_prefix (gobytes "BYE ") payload then set_bye ts s else s in
  let '(s, summary, errors) :=
    if is_prefix (gobytes "SIP/2.0") payload then
      let line := gostr (firstLine payload) in
      let statusCode := extractStatusCode payload in
      (set_response line statusCode ts s, cat [line; " "; callID],
       errors ++ response_error line callID statusCode)
    else (s, summary, errors) in
  if GoStr.contains payload (gobytes "v=0") && GoStr.contains payload (gobytes "m=audio") then
    match parseSDP payload with
    | None => Ok (s, summary, errors)
    | Some sdp =>
      Ok (set_media sdp ts s,
          if negb (String.eqb summary "") then cat [summary; " [SDP direction="; sdp_direction sdp; "]"]
          else summary, errors)
    end
  else Ok (s, summary, errors).

Definition handlePayload (d : SIPDecoder) (payload : list byte) (pkt : Packet) : res (SIPDecoder * Packet) :=
  callID ← extractHeader payload "Call-ID";
  if String.eqb callID "" then Ok (d, pkt)
  else
    '(s, summary, errors) ←
      handle_session payload callID (Timestamp pkt) (getSession d callID pkt) (Summary pkt) (Errors pkt);
    Ok (<[callID := s]> d, set_notes "SIP" summary errors pkt).

Definition isSIPPort (pkt : Packet) : bool :=
  (SrcPort pkt =? 5060) || (DstPort pkt =? 5060) || (SrcPort pkt =? 5061) || (DstPort pkt =? 5061).

Definition HandlePacket (d : SIPDecoder) (pkt : Packet) : res (SIPDecoder * Packet) :=
  ok ← (if isSIPPort pkt then Ok true else IsSIP (Payload pkt));
  if negb ok then Ok (d, pkt)
  else
    let payload := trim_space (Payload pkt) in
    if zlen payload =? 0 then Ok (d, pkt) else handlePayload d payload pkt.
End decoder.

Definition session_flow (rfc3339 : time -> string) (s : SIPSession) : Flow :=
  let stop := if is_zero (ByeTime s) then ss_StartTime s else ByeTime s in
  let m : gmap string any := list_to_map [
    ("method", AStr (Method s)); ("from", AStr (From s)); ("to", AStr (To s));
    ("response", AStr (LastResponse s)); ("media_ip", AStr (MediaIP s));
    ("media_port", AStr (MediaPort s)); ("direction", AStr (Direction s))]%string in
  let m :=
    if negb (is_zero (InviteTime s)) && negb (is_zero (FirstResponseTime s)) then
      <["setup_latency_ms"%string := AF64 (f_div
         (f_int (microseconds (time_sub (FirstResponseTime s) (InviteTime s)))) (f_int 1000))]> m
    else m in
  let m :=
    if 0 <? HoldCount s then
      <["hold_events"%string := AStrs (holdEventStrings rfc3339 s)]>
        (<["hold_count"%string := AInt TInt (HoldCount s)]> m)
    else m in
  {| FlowID := ss_CallID s; Type_ := FlowSIP; F_SrcIP := ss_SrcIP s; F_DstIP := ss_DstIP s;
     F_SrcPort := 0; F_DstPort := 0; StartTime := ss_StartTime s; EndTime := stop; Metrics := m |}.

(** Flush, for the order in which the range visits the sessions; they stay in
    the decoder. *)
Definition Flush (rfc3339 : time -> string) (order : list (string * SIPSession)) : list Flow :=
  session_flow rfc3339 ∘ snd <$> order.

(** ** SIP messages as they are meant

    A start line, headers, and the lines of a session description. Text is
    ASCII; a line has no CR. *)

Inductive start_line :=
  | Request (method uri : list byte)
  | Status (code : Z) (reason : list byte).

Definition start_bytes (s : start_line) : list byte :=
  match s with
  | Request method uri => method ++ space :: uri
  | Status code reason => gobytes "SIP/2.0 " ++ digit3 code ++ space :: reason
  end.

Definition start_ok (s : start_line) : bool :=
  match s with
  | Request method uri => name method && text uri && negb (is_prefix (gobytes "SIP/") method)
  | Status code reason => (100 <=? code) && (code <=? 699) && text reason
  end.

Inductive direction := sendonly | recvonly | sendrecv | inactive.
Definition direction_string (d : direction) : string :=
  match d with
  | sendonly => "sendonly" | recvonly => "recvonly" | sendrecv => "sendrecv" | inactive => "inactive"
  end.

(** The lines of a session description the decoder knows, and any other one. *)
Inductive sdp_line :=
  | Connection (ip : list byte)
  | Audio (port media : list byte)
  | Attribute (d : direction)
  | OtherLine (k : byte) (v : list byte).

Definition sdp_bytes (l : sdp_line) : list byte :=
  match l with
  | Connection ip => gobytes "c=IN IP4 " ++ ip
  | Audio port media => gobytes "m=audio " ++ port ++ space :: media
  | Attribute d => gobytes "a=" ++ gobytes (direction_string d)
  | OtherLine k v => k :: byte_of 0x3D :: v
  end.

(** The beginnings parseSDP looks for. *)
Definition sdp_marks : list string :=
  ["c=IN IP4 "; "m=audio "; "a=sendonly"; "a=recvonly"; "a=sendrecv"; "a=inactive"].

Definition sdp_line_ok (l : sdp_line) : bool :=
  match l with
  | Connection ip => name ip
  | Audio port media => name port && text media
  | Attribute d => true
  | OtherLine k v => 
    name [k] && text v && forallb (fun p => negb (is_prefix (gobytes p) (k :: byte_of 0x3D :: v))) sdp_marks
  end.

Record sip_message := {
  sm_start : start_line;
  sm_headers : list (list byte * list byte);
  sm_body : option (list sdp_line);
}.

Definition msg_lines (m : sip_message) : list (list byte) :=
  start_bytes (sm_start m) :: (header_bytes <$> sm_headers m) ++
  match sm_body m with
  | Some body => [] :: gobytes "v=0" :: (sdp_bytes <$> body)
  | None => []
  end.

(** The message, and what white space the packet has after it. *)
Definition msg_bytes (m : sip_message) (pad : list byte) : list byte := join_lines (msg_lines m) ++ pad.

Definition msg_ok (m : sip_message) (pad : list byte) : bool :=
  start_ok (sm_start m) &&
  forallb (fun h => name (fst h) && text (snd h)) (sm_headers m) &&
  forallb sdp_line_ok (default [] (sm_body m)) &&
  solid (join_lines (msg_lines m)) && forallb sp pad && is_ascii pad.

(** *** What a message means *)

(** The value of the first header of that name, whatever its case. *)
Definition header (m : sip_message) (n : string) : string :=
  match filter (fun h => lower_byte <$> fst h = lower_byte <$> gobytes n) (sm_headers m) with
  | h :: _ => gostr (trim_space (snd h))
  | [] => ""
  end.

Definition body_step (s : SDP) (l : sdp_line) : SDP :=
  match l with
  | Connection ip => {| sdp_media_ip := gostr ip; sdp_media_port := sdp_media_port s; sdp_direction := sdp_direction s |}
  | Audio port _ => {| sdp_media_ip := sdp_media_ip s; sdp_media_port := gostr port; sdp_direction := sdp_direction s |}
  | Attribute d => {| sdp_media_ip := sdp_media_ip s; sdp_media_port := sdp_media_port s;
                      sdp_direction := direction_string d |}
  | OtherLine _ _ => s
  end.

(** The last address, audio port and direction, when there are the first two. *)
Definition sdp_of (m : sip_message) : option SDP :=
  let s := foldl body_step {| sdp_media_ip := ""; sdp_media_port := ""; sdp_direction := "" |}
             (default [] (sm_body m)) in
  if String.eqb (sdp_media_ip s) "" || String.eqb (sdp_media_port s) "" then None
  else Some {| sdp_media_ip := sdp_media_ip s; sdp_media_port := sdp_media_port s;
               sdp_direction := if String.eqb (sdp_direction s) "" then "sendrecv" else sdp_direction s |}.

Definition start_step (m : sip_message) (ts : time) (s : SIPSession) : SIPSession :=
  match sm_start m with
  | Request method _ =>
    let s := if String.eqb (Method s) "" then set_method (gostr method) s else s in
    if String.eqb (gostr method) "INVITE" then set_invite ts (header m "From") (header m "To") s
    else if String.eqb (gostr method) "BYE" then set_bye ts s
    else s
  | Status code _ => set_response (gostr (start_bytes (sm_start m))) code ts s
  end.

Definition msg_step (m : sip_message) (ts : time) (s : SIPSession) : SIPSession :=
  let s := start_step m ts s in
  match sdp_of m with
  | Some sdp => set_media sdp ts s
  | None => s
  end.

Definition msg_errors (m : sip_message) : list PacketError :=
  match sm_start m with
  | Request _ _ => []
  | Status code _ => response_error (gostr (start_bytes (sm_start m))) (header m "Call-ID") code
  end.

(** ** The decoder reads what is meant *)

(** A line whose first byte is no space loses only its spaces at the end. *)
Lemma trim_line b s : is_ascii (b :: s) = true -> sp b = false -> trim_space (b :: s) = b :: rtrim s.
Proof.
  intros Ha Hb. rewrite trim_space_ascii, skip_spaces_solid by done. exact (rtrim_after [] b s Hb).
Qed.

(** A name, then some other byte [c]: the spaces at the end go. *)
Lemma trim_named n c v :
  name n = true -> is_ascii (c :: v) = true ->
  exists v', trim_space (n ++ c :: v) = n ++ v' /\ is_ascii v' = true /\
    (v' = [] \/ exists v'', v' = c :: v'').
Proof.
  intros (Hn & Ha & _ & _ & _ & Hs)%name_inv Hv. exists (rtrim (c :: v)). split_and!.
  - destruct (exists_last Hn) as (n' & b & ->). apply Forall_app in Hs as [Hs1 Hs2].
    apply Forall_cons in Hs2 as [Hb _]. rewrite <-app_assoc. cbn [app]. rewrite trim_space_ascii.
    + assert (skip_spaces (n' ++ b :: c :: v) = n' ++ b :: c :: v) as ->.
      { destruct n' as [|b' n']; cbn; [by rewrite Hb|]. apply Forall_cons in Hs1 as [-> _]. done. }
      rewrite (rtrim_after n' b) by done. by rewrite <-(app_assoc n' [b]).
    + change (n' ++ b :: c :: v) with (n' ++ [b] ++ c :: v). by rewrite app_assoc, is_ascii_app, Ha.
  - by apply is_ascii_rtrim.
  - destruct (rtrim_prefix (c :: v)) as [t Ht]. destruct (rtrim (c :: v)) as [|c' v']; [by left|].
    right. exists v'. by injection Ht as <- _.
Qed.

Section reading.
Context `{Unicode}.

(** A header line is found exactly by its name. *)
Lemma header_line_match n v key :
  name n = true -> text v = true -> colon ∉ key ->
  is_prefix (key ++ [colon]) (to_lower (trim_space (header_bytes (n, v)))) =
  bool_decide (key = lower_byte <$> n).
Proof.
  intros (Hn & Ha & _ & Hc & _ & Hs)%name_inv [Hv _]%text_inv Hk. unfold header_bytes. cbn [fst snd].
  assert (trim_space (n ++ colon :: v) = n ++ colon :: rtrim v) as ->.
  { destruct n as [|b n]; [done|]. cbn [app]. apply Forall_cons in Hs as [Hb _].
    rewrite trim_line; [|change (is_ascii ((b :: n) ++ colon :: v) = true); by rewrite is_ascii_app, Ha|done].
    by rewrite rtrim_after. }
  rewrite to_lower_ascii.
  - rewrite fmap_app. cbn [fmap list_fmap]. apply is_prefix_mark; [done|by apply colon_not_lower].
  - rewrite is_ascii_app, Ha. cbn. by apply is_ascii_rtrim.
Qed.

(** A line that has some other byte [c] before any colon is not found. *)
Lemma other_line_match n c v key :
  name n = true -> is_ascii (c :: v) = true -> colon ∉ key -> lower_byte c ∉ key -> c <> colon ->
  is_prefix (key ++ [colon]) (to_lower (trim_space (n ++ c :: v))) = false.
Proof.
  intros Hn Hv Hk Hck Hcc. destruct (trim_named n c v Hn Hv) as (v' & -> & Hv' & Hd).
  apply name_inv in Hn as (Hn & Ha & _ & Hc & _ & Hs).
  rewrite to_lower_ascii by by rewrite is_ascii_app, Ha. rewrite fmap_app.
  apply not_true_iff_false. intros [t Ht]%is_prefix_spec. rewrite <-app_assoc in Ht. cbn [app] in Ht.
  pose proof (colon_not_lower n Hc) as Hcn.
  assert (exists u, key = (lower_byte <$> n) ++ u /\ lower_byte <$> v' = u ++ colon :: t) as (u & -> & Hu).
  { apply (app_eq_inv _ _ _ _) in Ht as [(u & E1 & E2)|(u & E1 & E2)].
    - destruct u as [|x u]; cbn in E2.
      + exists []. rewrite app_nil_r in *. by split.
      + injection E2 as <- _. exfalso. apply Hcn. rewrite E1. apply elem_of_app. right. by left.
    - by exists u. }
  destruct Hd as [->|[v'' ->]]; cbn in Hu; [by destruct u|].
  destruct u as [|x u]; injection Hu as Hx _.
  - apply Hcc. apply lower_keeps; [left; by vm_compute|done].
  - apply Hck. rewrite Hx. apply elem_of_app. right. by left.
Qed.

Lemma text_start s : start_ok s = true -> text (start_bytes s) = true.
Proof.
  destruct s as [method uri|code reason]; cbn [start_ok start_bytes].
  - intros [[Hm%name_text Hu]%andb_true_iff _]%andb_true_iff. rewrite text_app, Hm. exact Hu.
  - intros [Hc Hr]%andb_true_iff. rewrite text_app, text_app, text_digit3 by lia. exact Hr.
Qed.

Lemma sdp_bytes_form l : sdp_line_ok l = true ->
  exists k r, sdp_bytes l = [k] ++ byte_of 0x3D :: r /\ name [k] = true /\ text r = true.
Proof.
  destruct l as [ip|port media|d|k v]; cbn [sdp_line_ok sdp_bytes]; intros Hl.
  - exists (byte_of 0x63), (gobytes "IN IP4 " ++ ip). split_and!; [done|by vm_compute|].
    rewrite text_app. by apply name_text in Hl as ->.
  - apply andb_true_iff in Hl as [Hp%name_text Hm].
    exists (byte_of 0x6D), (gobytes "audio " ++ port ++ space :: media). split_and!; [done|by vm_compute|].
    rewrite !text_app, Hp. exact Hm.
  - exists (byte_of 0x61), (gobytes (direction_string d)). split_and!; [done|by vm_compute|by destruct d].
  - apply andb_true_iff in Hl as [[Hk Hv]%andb_true_iff _]. by exists k, v.
Qed.

Lemma text_sdp l : sdp_line_ok l = true -> text (sdp_bytes l) = true.
Proof.
  intros (k & r & -> & Hk%name_text & Hr)%sdp_bytes_form. rewrite text_app, Hk. exact Hr.
Qed.

Lemma msg_ok_inv m pad : msg_ok m pad = true ->
  start_ok (sm_start m) = true /\ Forall (fun h => name (fst h) && text (snd h) = true) (sm_headers m) /\
  Forall (fun l => sdp_line_ok l = true) (default [] (sm_body m)) /\
  solid (join_lines (msg_lines m)) = true /\ forallb sp pad = true /\ is_ascii pad = true.
Proof.
  unfold msg_ok. rewrite !andb_true_iff. intros [[[[[? Hh] Hb] ?] ?] ?].
  split_and!; try done; apply Forall_forall; intros x Hx; rewrite list_elem_of_In in Hx.
  - rewrite forallb_forall in Hh. by apply Hh.
  - rewrite forallb_forall in Hb. by apply Hb.
Qed.

Lemma msg_lines_text m pad : msg_ok m pad = true -> Forall (fun l => text l = true) (msg_lines m).
Proof.
  intros (Hs & Hh & Hb & _)%msg_ok_inv. unfold msg_lines. constructor; [by apply text_start|].
  apply Forall_app. split.
  - apply Forall_fmap. eapply Forall_impl; [exact Hh|]. intros h. apply text_header.
  - destruct (sm_body m) as [body|]; [|done]. repeat (constructor; [done|]).
    apply Forall_fmap. eapply Forall_impl; [exact Hb|]. intros l. apply text_sdp.
Qed.

Lemma msg_split m pad : msg_ok m pad = true -> split_on (join_lines (msg_lines m)) crlf = msg_lines m.
Proof.
  intros Hm. apply split_lines; [|done]. eapply Forall_impl; [by eapply msg_lines_text|].
  intros l Hl. exact (proj2 (text_inv l Hl)).
Qed.

Lemma find_header_skip (l : list byte) ls key :
  is_prefix key (to_lower (trim_space l)) = false -> find_header (l :: ls) key = find_header ls key.
Proof. cbn [find_header]. by intros ->. Qed.

Lemma find_header_none ls key :
  Forall (fun l => is_prefix key (to_lower (trim_space l)) = false) ls -> find_header ls key = Ok [].
Proof. induction 1; [done|]. by rewrite find_header_skip. Qed.

Lemma find_header_headers n hs ls :
  name n = true -> Forall (fun h => name (fst h) && text (snd h) = true) hs ->
  find_header ((header_bytes <$> hs) ++ ls) ((lower_byte <$> n) ++ [colon]) =
  match filter (fun h => lower_byte <$> fst h = lower_byte <$> n) hs with
  | h :: _ => Ok (trim_space (snd h))
  | [] => find_header ls ((lower_byte <$> n) ++ [colon])
  end.
Proof.
  intros Hn Hhs. pose proof (name_inv _ Hn) as (_ & _ & _ & Hc%colon_not_lower & _).
  induction Hhs as [|[n' v] hs [Hn' Hv]%andb_true_iff _ IH]; [done|].
  cbn [fmap list_fmap app fst snd] in *. rewrite filter_cons. cbn [fst].
  pose proof (header_line_match n' v _ Hn' Hv Hc) as Hm.
  destruct (decide (lower_byte <$> n' = lower_byte <$> n)) as [E|E].
  - rewrite bool_decide_true in Hm by done. cbn [find_header]. rewrite Hm.
    unfold header_bytes. cbn [fst snd].
    assert (zlen ((lower_byte <$> n) ++ [colon]) = zlen (n' ++ [colon])) as ->.
    { apply (f_equal length) in E. rewrite !length_fmap in E. rewrite !zlen_app. unfold zlen.
      rewrite length_fmap. lia. }
    replace (n' ++ colon :: v) with ((n' ++ [colon]) ++ v) by by rewrite <-app_assoc.
    rewrite slice_from_Ok by (rewrite (zlen_app (n' ++ [colon])); pose proof (zlen_nonneg (n' ++ [colon]));
      pose proof (zlen_nonneg v); lia).
    cbn [mbind res_bind]. unfold zlen. by rewrite Nat2Z.id, drop_app_all.
  - rewrite bool_decide_false in Hm by (intros E'; by apply E). by rewrite find_header_skip.
Qed.

Lemma extractHeader_msg m pad (n : string) :
  msg_ok m pad = true -> name (gobytes n) = true ->
  extractHeader (join_lines (msg_lines m)) n = Ok (header m n).
Proof.
  intros Hm Hn. unfold extractHeader. rewrite (msg_split m pad Hm).
  pose proof (name_inv _ Hn) as (_ & Ha & _ & Hc%colon_not_lower & He & Hs).
  rewrite to_lower_ascii by done. apply msg_ok_inv in Hm as (Hst & Hh & Hb & _).
  change [byte_of 0x3A] with [colon].
  assert (Hsp : lower_byte space ∉ lower_byte <$> gobytes n).
  { intros (b & Hb' & Hin)%list_elem_of_fmap. assert (b = space) as ->.
    { apply lower_keeps; [left; by vm_compute|]. by rewrite <-Hb'. }
    rewrite Forall_forall in Hs. apply Hs in Hin. by vm_compute in Hin. }
  assert (Heq : lower_byte (byte_of 0x3D) ∉ lower_byte <$> gobytes n).
  { intros (b & Hb' & Hin)%list_elem_of_fmap. assert (b = byte_of 0x3D) as ->; [|done].
    apply lower_keeps; [left; by vm_compute|]. by rewrite <-Hb'. }
  assert (Hl : forall k r, name [k] = true -> text r = true ->
    is_prefix ((lower_byte <$> gobytes n) ++ [colon]) (to_lower (trim_space ([k] ++ byte_of 0x3D :: r))) = false).
  { intros k r Hk [Hr _]%text_inv. by apply other_line_match. }
  unfold msg_lines. rewrite find_header_skip.
  2:{ destruct (sm_start m) as [method uri|code reason]; cbn [start_ok start_bytes] in *.
      - apply andb_true_iff in Hst as [[Hme [Hu _]%text_inv]%andb_true_iff _]. by apply other_line_match.
      - apply andb_true_iff in Hst as [Hco Hre].
        change (gobytes "SIP/2.0 " ++ digit3 code ++ space :: reason)
          with (gobytes "SIP/2.0" ++ space :: (digit3 code ++ space :: reason)).
        apply other_line_match; try done. apply (text_inv (space :: digit3 code ++ space :: reason)).
        change (text ([space] ++ digit3 code ++ space :: reason) = true).
        rewrite !text_app, text_digit3 by lia. exact Hre. }
  rewrite find_header_headers by done. unfold header.
  destruct (filter _ _) as [|h hs]; [|done].
  rewrite find_header_none; [done|]. destruct (sm_body m) as [body|]; [|done].
  repeat constructor.
  - change (trim_space []) with (@nil byte). change (to_lower []) with (@nil byte). by destruct (lower_byte <$> gobytes n).
  - by apply (Hl (byte_of 0x76) (gobytes "0")).
  - apply Forall_fmap. eapply Forall_impl; [exact Hb|]. cbn [compose].
    intros l (k & r & -> & Hk & Hr)%sdp_bytes_form. by apply Hl.
Qed.
End reading.

(** *** The session description *)

(** A name at the end keeps the line as it is. *)
Lemma trim_before_name b a n :
  is_ascii (b :: a) = true -> sp b = false -> name n = true -> trim_space (b :: a ++ n) = b :: a ++ n.
Proof.
  intros Ha Hb (Hn & Han & _ & _ & _ & Hs)%name_inv.
  destruct (exists_last Hn) as (n' & c & ->). apply Forall_app in Hs as [_ Hc].
  apply Forall_cons in Hc as [Hc _].
  rewrite trim_line; [|change (is_ascii ((b :: a) ++ n' ++ [c]) = true); by rewrite is_ascii_app, Ha|done].
  f_equal. rewrite app_assoc. by rewrite rtrim_pad.
Qed.

Lemma sdp_step_ignored s l :
  Forall (fun p => is_prefix (gobytes p) (trim_space l) = false) sdp_marks -> sdp_step s l = s.
Proof.
  intros Hp. unfold sdp_marks in Hp. rewrite !Forall_cons in Hp.
  destruct Hp as (H1 & H2 & H3 & H4 & H5 & H6 & _).
  unfold sdp_step. rewrite H1, H2, H3, H4, H5, H6. by destruct s.
Qed.

(** All the marks have the equals sign in second place. *)
Lemma sdp_step_named s n c v :
  name n = true -> is_ascii (c :: v) = true -> c <> byte_of 0x3D -> sdp_step s (n ++ c :: v) = s.
Proof.
  intros Hn Hv Hc. apply sdp_step_ignored.
  destruct (trim_named n c v Hn Hv) as (v' & -> & _ & Hd). apply name_inv in Hn as (Hn & _ & _ & _ & He & _).
  assert (forall k r, is_prefix (k :: byte_of 0x3D :: r) (n ++ v') = false) as Hf.
  { intros k r. apply not_true_iff_false. intros [t Ht]%is_prefix_spec.
    destruct n as [|a [|b n]]; [done| |].
    - destruct Hd as [->|[v'' ->]]; [done|]. cbn in Ht. by injection Ht.
    - cbn in Ht. injection Ht as -> -> _. apply He. right. by left. }
  repeat constructor; apply Hf.
Qed.

Lemma sdp_step_body s l : sdp_line_ok l = true -> sdp_step s (sdp_bytes l) = body_step s l.
Proof.
  destruct l as [ip|port media|d|k v]; cbn [sdp_line_ok sdp_bytes body_step]; intros Hl.
  - unfold sdp_step.
    change (gobytes "c=IN IP4 " ++ ip) with (byte_of 0x63 :: gobytes "=IN IP4 " ++ ip).
    rewrite trim_before_name by done.
    change (byte_of 0x63 :: gobytes "=IN IP4 " ++ ip) with (gobytes "c=IN IP4 " ++ ip).
    unfold trim_prefix_bytes. rewrite is_prefix_self, drop_app_all. done.
  - apply andb_true_iff in Hl as [Hp [Hm _]%text_inv].
    pose proof (name_inv _ Hp) as (Hn & Ha & _ & _ & _ & Hs).
    destruct (exists_last Hn) as (n' & c & En).
    assert (sp c = false) as Hc.
    { rewrite En in Hs. apply Forall_app in Hs as [_ Hs]. by apply Forall_cons in Hs as [? _]. }
    set (r := rtrim (space :: media)).
    assert (trim_space (gobytes "m=audio " ++ port ++ space :: media) =
      gobytes "m=audio" ++ space :: port ++ r) as E.
    { change (gobytes "m=audio " ++ port ++ space :: media)
        with (byte_of 0x6D :: (gobytes "=audio " ++ port ++ space :: media)).
      rewrite trim_line; [|cbn; by rewrite is_ascii_app, Ha|done].
      rewrite En, <-app_assoc, app_assoc. cbn [app]. rewrite rtrim_after by done.
      fold r. cbn. by rewrite <-app_assoc. }
    unfold sdp_step. rewrite E. unfold trim_prefix_bytes.
    change (gobytes "m=audio" ++ space :: port ++ r) with (gobytes "m=audio " ++ (port ++ r)).
    rewrite is_prefix_self.
    change (gobytes "m=audio " ++ (port ++ r)) with (gobytes "m=audio" ++ space :: port ++ r).
    destruct (fields_second (gobytes "m=audio") space port r) as [fs ->].
    + done.
    + done.
    + by repeat constructor.
    + done.
    + done.
    + assert (is_ascii r = true) as Hr by by apply is_ascii_rtrim.
      change (is_ascii (gobytes "m=audio " ++ port ++ r) = true). by rewrite !is_ascii_app, Ha, Hr.
    + unfold r. destruct (rtrim_prefix (space :: media)) as [t Ht].
      destruct (rtrim (space :: media)) as [|x rest]; [done|]. by injection Ht as <- _.
    + done.
  - destruct d; reflexivity.
  - apply andb_true_iff in Hl as [[Hk Hv]%andb_true_iff Hm]. apply sdp_step_ignored.
    apply text_inv in Hv as [Hv _]. pose proof (name_inv _ Hk) as (_ & Hak & _ & _ & _ & Hs).
    apply Forall_cons in Hs as [Hs _].
    destruct (rtrim_prefix (byte_of 0x3D :: v)) as [t Ht].
    rewrite trim_line; [|cbn in *; by apply andb_true_iff in Hak as [-> _]|done].
    rewrite forallb_forall in Hm. apply Forall_forall. intros p Hp. rewrite list_elem_of_In in Hp.
    specialize (Hm p Hp). apply negb_true_iff in Hm. apply not_true_iff_false.
    intros [u Hu]%is_prefix_spec. apply not_true_iff_false in Hm. apply Hm, is_prefix_spec.
    exists (u ++ t). rewrite Ht at 1. by rewrite app_comm_cons, Hu, <-app_assoc.
Qed.

Lemma foldl_ignored {A B} (f : A -> B -> A) s l : Forall (fun x => f s x = s) l -> foldl f s l = s.
Proof. induction 1 as [|x l Hx _ IH]; cbn; [done|]. by rewrite Hx. Qed.

Lemma parseSDP_msg m pad : msg_ok m pad = true -> parseSDP (join_lines (msg_lines m)) = sdp_of m.
Proof.
  intros Hm. unfold parseSDP, sdp_of. rewrite (msg_split m pad Hm).
  apply msg_ok_inv in Hm as (Hst & Hh & Hb & _).
  set (s0 := {| sdp_media_ip := "" |}).
  assert (foldl sdp_step s0 (msg_lines m) = foldl body_step s0 (default [] (sm_body m))) as ->; [|done].
  unfold msg_lines. cbn [foldl].
  assert (sdp_step s0 (start_bytes (sm_start m)) = s0) as ->.
  { destruct (sm_start m) as [method uri|code reason]; cbn [start_ok start_bytes] in *.
    - apply andb_true_iff in Hst as [[Hme [Hu _]%text_inv]%andb_true_iff _]. by apply sdp_step_named.
    - apply andb_true_iff in Hst as [Hco Hre].
      change (gobytes "SIP/2.0 " ++ digit3 code ++ space :: reason)
        with (gobytes "SIP/2.0" ++ space :: (digit3 code ++ space :: reason)).
      apply sdp_step_named; try done. apply (text_inv (space :: digit3 code ++ space :: reason)).
      change (text ([space] ++ digit3 code ++ space :: reason) = true).
      rewrite !text_app, text_digit3 by lia. exact Hre. }
  rewrite foldl_app. rewrite (foldl_ignored sdp_step s0 (header_bytes <$> sm_headers m)).
  2:{ apply Forall_fmap. eapply Forall_impl; [exact Hh|]. intros [n v] [Hn [Hv _]%text_inv]%andb_true_iff.
      by apply sdp_step_named. }
  destruct (sm_body m) as [body|]; [|done]. cbn [from_option id] in *. cbn [foldl].
  assert (sdp_step s0 [] = s0) as -> by done.
  assert (sdp_step s0 (gobytes "v=0") = s0) as -> by done.
  clear -Hb. generalize s0. induction Hb as [|l ls Hl _ IH]; intros s; [done|].
  cbn [fmap list_fmap foldl]. by rewrite sdp_step_body.
Qed.

(** A description with an audio port is looked at. *)
Lemma sdp_contained m sdp : sdp_of m = Some sdp ->
  let payload := join_lines (msg_lines m) in
  GoStr.contains payload (gobytes "v=0") && GoStr.contains payload (gobytes "m=audio") = true.
Proof.
  intros Hs. unfold sdp_of in Hs. destruct (sm_body m) as [body|] eqn:Eb; [|done]. cbn [from_option id] in Hs.
  assert (exists port media, Audio port media ∈ body) as (port & media & Hin).
  { set (s0 := {| sdp_media_ip := "" |}) in Hs.
    assert (sdp_media_port (foldl body_step s0 body) <> "") as Hp.
    { intros E. rewrite E in Hs. by rewrite orb_true_r in Hs. }
    clear Hs Eb. assert (sdp_media_port s0 = "") as H0 by done. clearbody s0. revert s0 H0 Hp.
    induction body as [|l body IH]; intros s0 H0 Hp; [done|]. cbn [foldl] in Hp.
    destruct l as [ip|port media|d|k v].
    2:{ exists port, media. by left. }
    all: apply IH in Hp as (port & media & Hin); [exists port, media; by right|exact H0]. }
  assert (forall l, l ∈ msg_lines m -> forall p t, l = p ++ t ->
    GoStr.contains (join_lines (msg_lines m)) p = true) as Hc.
  { intros l Hl p t ->. destruct (join_lines_mid _ _ Hl) as (a & b & ->). rewrite <-app_assoc. apply contains_mid. }
  cbn zeta. apply andb_true_iff. unfold msg_lines in *. rewrite Eb in *. split.
  - apply (Hc (gobytes "v=0")) with (t := []); [|done].
    right. apply elem_of_app. right. right. by left.
  - apply (Hc (sdp_bytes (Audio port media))) with (t := space :: port ++ space :: media); [|done].
    right. apply elem_of_app. right. right. right. by apply list_elem_of_fmap_2.
Qed.

(** *** The start line *)

(** What the decoder finds at the start of a request. *)
Lemma request_start m pad method uri :
  msg_ok m pad = true -> sm_start m = Request method uri ->
  let payload := join_lines (msg_lines m) in
  is_prefix (gobytes "SIP/") payload = false /\ is_prefix (gobytes "SIP/2.0") payload = false /\
  index_byte payload space = zlen method /\ 0 < zlen method /\ take (length method) payload = method /\
  is_prefix (gobytes "INVITE ") payload = String.eqb (gostr method) "INVITE" /\
  is_prefix (gobytes "BYE ") payload = String.eqb (gostr method) "BYE".
Proof.
  intros (Hst & _)%msg_ok_inv Em. cbn zeta. unfold msg_lines. rewrite Em in *.
  cbn [start_ok start_bytes] in *. apply andb_true_iff in Hst as [[Hme _]%andb_true_iff Hsip%negb_true_iff].
  destruct (join_lines_start (method ++ space :: uri) ((header_bytes <$> sm_headers m) ++
    match sm_body m with Some body => [] :: gobytes "v=0" :: (sdp_bytes <$> body) | None => [] end))
    as (rest & -> & _). rewrite <-app_assoc. cbn [app].
  pose proof (name_inv _ Hme) as (Hn & _ & _ & _ & _ & Hs).
  assert (Hsp : space ∉ method) by (intros Hi; rewrite Forall_forall in Hs; apply Hs in Hi; by vm_compute in Hi).
  assert (is_prefix (gobytes "SIP/") (method ++ space :: uri ++ rest) = false) as Hf.
  { by rewrite is_prefix_token by (refine (bool_decide_unpack _ _); by vm_compute). }
  split_and!.
  - done.
  - apply not_true_iff_false. intros E. apply not_true_iff_false in Hf. apply Hf.
    by apply (is_prefix_app (gobytes "SIP/") (gobytes "2.0")).
  - by apply index_byte_skip.
  - pose proof (zlen_nonneg method). destruct (decide (zlen method = 0)) as [?%zlen_0|]; [done|lia].
  - apply take_app_all.
  - change (gobytes "INVITE ") with (gobytes "INVITE" ++ [space]).
    rewrite is_prefix_mark; [by rewrite gostr_eqb|refine (bool_decide_unpack _ _); by vm_compute|done].
  - change (gobytes "BYE ") with (gobytes "BYE" ++ [space]).
    rewrite is_prefix_mark; [by rewrite gostr_eqb|refine (bool_decide_unpack _ _); by vm_compute|done].
Qed.

(** What the decoder finds at the start of a response. *)
Lemma status_start m pad code reason :
  msg_ok m pad = true -> sm_start m = Status code reason ->
  let payload := join_lines (msg_lines m) in
  is_prefix (gobytes "SIP/") payload = true /\ is_prefix (gobytes "SIP/2.0") payload = true /\
  is_prefix (gobytes "INVITE ") payload = false /\ is_prefix (gobytes "BYE ") payload = false /\
  firstLine payload = start_bytes (sm_start m) /\ extractStatusCode payload = code.
Proof.
  intros Hm Em. pose proof (msg_lines_text m pad Hm) as Ht. apply msg_ok_inv in Hm as (Hst & _).
  cbn zeta. unfold msg_lines in *. rewrite Em in *. cbn [start_ok] in Hst.
  apply andb_true_iff in Hst as [Hco Hre]. apply Forall_cons in Ht as [[_ Hcr]%text_inv _].
  destruct (join_lines_start (start_bytes (Status code reason)) ((header_bytes <$> sm_headers m) ++
    match sm_body m with Some body => [] :: gobytes "v=0" :: (sdp_bytes <$> body) | None => [] end))
    as (rest & -> & Hr). split_and!.
  - done.
  - done.
  - done.
  - done.
  - unfold firstLine, index. destruct Hr as [->|[r ->]].
    + rewrite app_nil_r. unfold crlf. by rewrite index_nat_fresh.
    + unfold crlf. rewrite index_nat_skip by done.
      replace (0 <? Z.of_nat (length (start_bytes (Status code reason)))) with true by by cbn.
      by rewrite Nat2Z.id, take_app_all.
  - cbn [start_bytes]. unfold extractStatusCode, split_n. cbn [Nat.sub split_cuts].
    change (gobytes " ") with [space].
    assert (H0 : forall t, (gobytes "SIP/2.0 " ++ digit3 code ++ space :: reason) ++ t =
      gobytes "SIP/2.0" ++ [space] ++ (digit3 code ++ [space] ++ (reason ++ t))).
    { intros t. cbn. do 9 f_equal. }
    rewrite H0, index_nat_skip by (refine (bool_decide_unpack _ _); by vm_compute). cbn [length].
    replace (length (gobytes "SIP/2.0") + 1)%nat with (length (gobytes "SIP/2.0" ++ [space])) by done.
    rewrite app_assoc, drop_app_all.
    assert (space ∉ digit3 code) as Hd.
    { intros Hi. unfold digit3, octets in Hi.
      assert (forall d, 0 <= d <= 9 -> space <> byte_of (48 + d)) as Hne.
      { intros d Hd E. apply (f_equal u8) in E. rewrite u8_byte_of in E by lia. change (u8 space) with 0x20 in E. lia. }
      cbn [fmap list_fmap] in Hi. rewrite !elem_of_cons in Hi.
      destruct Hi as [E|[E|[E|?%not_elem_of_nil]]]; [..|done]; apply Hne in E; [done| |done| |done|];
        Z.to_euclidean_division_equations; lia. }
    rewrite index_nat_skip by done. cbn [length Nat.add]. rewrite take_app_all. by rewrite Atoi_digit3 by lia.
Qed.

Section decoding.
Context `{Unicode}.

Lemma handle_session_msg m pad ts s summary errors :
  msg_ok m pad = true ->
  exists summary', handle_session (join_lines (msg_lines m)) (header m "Call-ID") ts s summary errors =
    Ok (msg_step m ts s, summary', errors ++ msg_errors m).
Proof.
  intros Hm. unfold handle_session, msg_step, start_step, msg_errors.
  rewrite !(extractHeader_msg m pad) by (done || by vm_compute).
  rewrite (parseSDP_msg m pad) by done. pose proof (sdp_contained m) as Hc. cbn zeta in Hc.
  destruct (sm_start m) as [method uri|code reason] eqn:Em.
  - destruct (request_start m pad method uri Hm Em) as (H1 & H2 & H3 & H4 & H5 & H6 & H7).
    change (byte_of 0x20) with space. rewrite H1, H2, H3, H6, H7. cbn [negb].
    rewrite (proj2 (Z.ltb_lt _ _) H4).
    replace (Z.to_nat (zlen method)) with (length method) by (unfold zlen; lia). rewrite H5.
    assert (String.eqb (gostr method) "INVITE" = true -> String.eqb (gostr method) "BYE" = false) as Hx.
    { by intros ->%String.eqb_eq. }
    destruct (String.eqb (gostr method) "INVITE") eqn:Ei; [rewrite (Hx eq_refl)|];
      cbn [mbind res_bind]; rewrite app_nil_r;
      (destruct (sdp_of m) as [sdp|]; [rewrite (Hc sdp eq_refl); by eexists|]);
      destruct (GoStr.contains _ _ && _); by eexists.
  - destruct (status_start m pad code reason Hm Em) as (H1 & H2 & H3 & H4 & H5 & H6).
    rewrite H1, H2, H3, H4, H5, H6, Em. cbn [negb mbind res_bind].
    destruct (sdp_of m) as [sdp|]; [rewrite (Hc sdp eq_refl); by eexists|].
    destruct (GoStr.contains _ _ && _); by eexists.
Qed.

(** The packets the decoder looks into. *)
Definition is_sip (pkt : Packet) : Prop := isSIPPort pkt = true \/ IsSIP (Payload pkt) = Ok true.

Lemma handle_msg d pkt m pad :
  is_sip pkt -> Payload pkt = msg_bytes m pad -> msg_ok m pad = true -> header m "Call-ID" <> "" ->
  exists summary, HandlePacket d pkt =
    Ok (<[header m "Call-ID" := msg_step m (Timestamp pkt) (getSession d (header m "Call-ID") pkt)]> d,
        set_notes "SIP" summary (Errors pkt ++ msg_errors m) pkt).
Proof.
  intros Hs Hp Hm Hid. unfold HandlePacket.
  assert ((if isSIPPort pkt then Ok true else IsSIP (Payload pkt)) = Ok true) as ->.
  { destruct Hs as [->| ->]; [done|]. by destruct (isSIPPort pkt). }
  cbn [mbind res_bind negb]. rewrite Hp. unfold msg_bytes.
  pose proof (msg_ok_inv _ _ Hm) as (_ & _ & _ & Hsol & Hpad & Hasc). rewrite trim_space_solid by done.
  pose proof (solid_inv _ Hsol) as (_ & b & c & r & t & Eb & _).
  destruct (zlen (join_lines (msg_lines m)) =? 0) eqn:Ez.
  { rewrite Eb, zlen_cons in Ez. pose proof (zlen_nonneg r). lia. }
  unfold handlePayload. rewrite (extractHeader_msg m pad) by (done || by vm_compute). cbn [mbind res_bind].
  destruct (String.eqb_spec (header m "Call-ID") ""); [done|].
  destruct (handle_session_msg m pad (Timestamp pkt) (getSession d (header m "Call-ID") pkt)
    (Summary pkt) (Errors pkt) Hm) as [summary ->]. cbn [mbind res_bind]. by exists summary.
Qed.
End decoding.

(** ** Calls *)

(** The hold and resume transitions in a sequence of directions. *)
Fixpoint transitions (held : bool) (ds : list (string * time)) : list HoldEvent :=
  match ds with
  | [] => []
  | (d, ts) :: ds =>
    (if xorb (is_hold d) held then [{| ev_Timestamp := ts; ev_Direction := d; ev_IsHold := is_hold d |}] else [])
    ++ transitions (is_hold d) ds
  end.

Lemma hold_step_eq dir events count d ts :
  hold_step dir events count d ts =
  (d, events ++ (if xorb (is_hold d) (is_hold dir)
        then [{| ev_Timestamp := ts; ev_Direction := d; ev_IsHold := is_hold d |}] else []),
   if is_hold d && negb (is_hold dir) then i64 (count + 1) else count).
Proof.
  unfold hold_step. destruct (String.eqb_spec dir "") as [->|]; cbn [negb andb].
  - change (is_hold "") with false. destruct (is_hold d); cbn; by rewrite ?app_nil_r.
  - destruct (is_hold d), (is_hold dir); cbn; by rewrite ?app_nil_r.
Qed.

Lemma transitions_snoc held ds d ts :
  transitions held (ds ++ [(d, ts)]) = transitions held ds ++
    (if xorb (is_hold d) (default held (is_hold ∘ fst <$> last ds))
     then [{| ev_Timestamp := ts; ev_Direction := d; ev_IsHold := is_hold d |}] else []).
Proof.
  revert held. induction ds as [|[d' t'] ds IH]; intros held; [cbn; by rewrite app_nil_r|].
  cbn [app transitions]. rewrite IH, app_assoc, last_cons. by destruct (last ds) as [[]|].
Qed.

(** Hold and resume take turns, and the first event is a hold. *)
Lemma transitions_alternate held ds i e :
  transitions held ds !! i = Some e -> ev_IsHold e = xorb held (Nat.even i).
Proof.
  revert held i. induction ds as [|[d t] ds IH]; intros held i; [done|]. cbn [transitions].
  destruct (is_hold d) eqn:Ed, held; cbn [xorb app].
  - intros Hi. by rewrite (IH _ _ Hi).
  - destruct i as [|i]; [by intros [= <-]|]. intros Hi. rewrite (IH _ i Hi).
    rewrite Nat.even_succ, <-Nat.negb_even. by destruct (Nat.even i).
  - destruct i as [|i]; [by intros [= <-]|]. intros Hi. rewrite (IH _ i Hi).
    rewrite Nat.even_succ, <-Nat.negb_even. by destruct (Nat.even i).
  - intros Hi. by rewrite (IH _ _ Hi).
Qed.

(** A packet and the message it carries. *)
Definition carries `{Unicode} (pkt : Packet) (m : sip_message) : Prop :=
  is_sip pkt /\ header m "Call-ID" <> "" /\ exists pad, Payload pkt = msg_bytes m pad /\ msg_ok m pad = true.

Definition step_call (s : SIPSession) (pm : Packet * sip_message) : SIPSession :=
  msg_step (snd pm) (Timestamp (fst pm)) s.

(** The messages of one call. *)
Definition call_messages (id : string) (l : list (Packet * sip_message)) : list (Packet * sip_message) :=
  filter (fun pm => header (snd pm) "Call-ID" = id) l.

Definition call_of (id : string) (l : list (Packet * sip_message)) : option SIPSession :=
  p ← head l; Some (foldl step_call (new_session id (fst p)) l).

Lemma call_of_snoc id l p :
  call_of id (l ++ [p]) = Some (step_call (default (new_session id (fst p)) (call_of id l)) p).
Proof. destruct l; cbn; [done|]. by rewrite foldl_app. Qed.

Section calls.
Context `{Unicode}.

Definition run (d : SIPDecoder) (pkts : list Packet) : res SIPDecoder :=
  foldM (fun d pkt => fst <$> HandlePacket d pkt) d pkts.

Lemma run_call_of l :
  Forall (fun pm => carries (fst pm) (snd pm)) l ->
  exists d, run NewDecoder (fst <$> l) = Ok d /\ forall id, d !! id = call_of id (call_messages id l).
Proof.
  induction l as [|[p m] l IH] using rev_ind; intros Hl; [by exists NewDecoder|].
  apply Forall_app in Hl as [Hl Hp]. apply Forall_cons in Hp as [(Hs & Hid & pad & Hpay & Hm) _].
  destruct (IH Hl) as (d & Hd & Hk). cbn [fst snd] in *.
  destruct (handle_msg d p m pad Hs Hpay Hm Hid) as [summary Hh].
  eexists. rewrite fmap_app. unfold run in *. rewrite foldM_app, Hd. cbn [mbind res_bind fmap list_fmap foldM fst].
  rewrite Hh. cbn [fmap res_fmap mbind res_bind fst]. split; [done|].
  intros id. unfold SIPDecoder, call_messages in *. rewrite filter_app, filter_cons, filter_nil. cbn [snd].
  destruct (decide (header m "Call-ID" = id)) as [<-|Hne].
  - rewrite lookup_insert_eq, call_of_snoc. unfold getSession. by rewrite Hk.
  - by rewrite lookup_insert_ne, app_nil_r.
Qed.
End calls.

Definition is_request (method : string) (m : sip_message) : bool :=
  match sm_start m with Request me _ => String.eqb (gostr me) method | Status _ _ => false end.
Definition is_ok (m : sip_message) : bool :=
  match sm_start m with Status code _ => code =? 200 | Request _ _ => false end.
Definition request_method (m : sip_message) : option string :=
  match sm_start m with Request me _ => Some (gostr me) | Status _ _ => None end.

(** The times of the messages of one kind. *)
Definition times (f : sip_message -> bool) (l : list (Packet * sip_message)) : list time :=
  omap (fun pm => if f (snd pm) then Some (Timestamp (fst pm)) else None) l.

(** The times but the zero time, which stands for none. *)
Definition nonzero (ts : list time) : list time := filter (fun t => is_zero t = false) ts.

Lemma nonzero_snoc ts t : nonzero (ts ++ [t]) = nonzero ts ++ if is_zero t then [] else [t].
Proof.
  unfold nonzero. rewrite filter_app, filter_cons, filter_nil. by destruct (is_zero t).
Qed.

(** The descriptions of the media, with the times of their messages. *)
Definition media (l : list (Packet * sip_message)) : list (SDP * time) :=
  omap (fun pm => sdp ← sdp_of (snd pm); Some (sdp, Timestamp (fst pm))) l.

Definition directions (l : list (Packet * sip_message)) : list (string * time) :=
  (fun x => (sdp_direction (fst x), snd x)) <$> media l.

Lemma times_snoc f l p m :
  times f (l ++ [(p, m)]) = times f l ++ if f m then [Timestamp p] else [].
Proof. unfold times. rewrite omap_app. cbn. by destruct (f m). Qed.

Lemma media_snoc l p m :
  media (l ++ [(p, m)]) = media l ++ match sdp_of m with Some sdp => [(sdp, Timestamp p)] | None => [] end.
Proof. unfold media. rewrite omap_app. cbn. by destruct (sdp_of m). Qed.

(** What a message does to the fields of its session. *)
Lemma msg_step_fields m ts s :
  let s' := msg_step m ts s in
  InviteTime s' = (if is_request "INVITE" m then ts else InviteTime s) /\
  ByeTime s' = (if is_request "BYE" m then ts else ByeTime s) /\
  FirstResponseTime s' =
    (if is_ok m && is_zero (FirstResponseTime s) then ts else FirstResponseTime s) /\
  (forall method, request_method m = Some method -> Method s' = if String.eqb (Method s) "" then method else Method s) /\
  (request_method m = None -> Method s' = Method s) /\
  match sdp_of m with
  | Some sdp => (MediaIP s', MediaPort s') = (sdp_media_ip sdp, sdp_media_port sdp) /\
    (Direction s', HoldEvents s', HoldCount s') =
      hold_step (Direction s) (HoldEvents s) (HoldCount s) (sdp_direction sdp) ts
  | None => (MediaIP s', MediaPort s', Direction s', HoldEvents s', HoldCount s') =
      (MediaIP s, MediaPort s, Direction s, HoldEvents s, HoldCount s)
  end /\
  (ss_CallID s', ss_SrcIP s', ss_DstIP s', ss_StartTime s') =
  (ss_CallID s, ss_SrcIP s, ss_DstIP s, ss_StartTime s).
Proof.
  unfold msg_step, start_step, is_request, is_ok, request_method, set_media.
  destruct (sdp_of m) as [sdp|]; rewrite ?hold_step_eq;
    (destruct (sm_start m) as [method uri|code reason];
     [destruct (String.eqb_spec (gostr method) "INVITE") as [->|];
       [|destruct (String.eqb_spec (gostr method) "BYE") as [->|]];
       destruct (String.eqb_spec (Method s) "") as [Em|]
     |]); split_and!; try done; try (intros ? [= <-]); try done; intros; congruence.
Qed.

Lemma zlen_transitions held ds : zlen (transitions held ds) <= zlen ds.
Proof.
  revert held. induction ds as [|[d t] ds IH]; intros held; [apply Z.le_refl|]. cbn [transitions].
  rewrite zlen_app, zlen_cons. specialize (IH (is_hold d)). case_match; rewrite ?zlen_cons, ?zlen_nil; lia.
Qed.

Lemma zlen_media l : zlen (media l) <= zlen l.
Proof.
  unfold media. induction l as [|pm l IH]; [apply Z.le_refl|]. cbn [omap list_omap].
  rewrite zlen_cons. destruct (sdp_of (snd pm)); cbn [mbind option_bind]; rewrite ?zlen_cons; lia.
Qed.

Lemma zlen_filter {A} (P : A -> Prop) `{!forall x, Decision (P x)} l : zlen (filter P l) <= zlen l.
Proof. unfold zlen. apply Nat2Z.inj_le, length_filter. Qed.

(** A session after any messages, in closed form. *)
Lemma fold_call id p0 l s :
  s = foldl step_call (new_session id p0) l -> zlen l < 2 ^ 62 ->
  (ss_CallID s, ss_SrcIP s, ss_DstIP s, ss_StartTime s) = (id, SrcIP p0, DstIP p0, Timestamp p0) /\
  InviteTime s = default 0 (last (times (is_request "INVITE") l)) /\
  ByeTime s = default 0 (last (times (is_request "BYE") l)) /\
  FirstResponseTime s = default 0 (head (nonzero (times is_ok l))) /\
  (MediaIP s, MediaPort s) =
    match last (media l) with Some (sdp, _) => (sdp_media_ip sdp, sdp_media_port sdp) | None => (""%string, ""%string) end /\
  Direction s = default ""%string (fst <$> last (directions l)) /\
  HoldEvents s = transitions false (directions l) /\
  HoldCount s = zlen (filter (fun e => ev_IsHold e = true) (HoldEvents s)).
Proof.
  intros ->. induction l as [|[p m] l IH] using rev_ind; intros Hl; [by split_and!|].
  rewrite zlen_app, zlen_cons, zlen_nil in Hl. specialize (IH ltac:(lia)).
  rewrite foldl_app. cbn [foldl]. set (s := foldl _ _ l) in *. unfold step_call. cbn [fst snd].
  destruct IH as (I1 & I2 & I3 & I4 & I5 & I6 & I7 & I8).
  pose proof (msg_step_fields m (Timestamp p) s) as (E1 & E2 & E3 & _ & _ & Em & E0). cbn zeta in *.
  set (s' := msg_step m (Timestamp p) s) in *. split_and!.
  - by rewrite E0.
  - rewrite E1, I2, times_snoc. destruct (is_request "INVITE" m); [by rewrite last_snoc|by rewrite app_nil_r].
  - rewrite E2, I3, times_snoc. destruct (is_request "BYE" m); [by rewrite last_snoc|by rewrite app_nil_r].
  - rewrite E3, I4, times_snoc. destruct (is_ok m); cbn [andb]; [|by rewrite app_nil_r].
    rewrite nonzero_snoc, head_app.
    destruct (nonzero (times is_ok l)) as [|t ts] eqn:Ef; cbn [head from_option].
    + change (is_zero 0) with true. cbn. destruct (is_zero (Timestamp p)) eqn:Hz; [|done].
      apply Z.eqb_eq in Hz. by rewrite Hz.
    + assert (t ∈ nonzero (times is_ok l)) as Hin by (rewrite Ef; by left).
      apply list_elem_of_filter in Hin as [Ht _]. cbn. by rewrite Ht.
  - rewrite media_snoc. destruct (sdp_of m) as [sdp|].
    + destruct Em as [-> _]. by rewrite last_snoc.
    + injection Em as -> -> _ _ _. by rewrite app_nil_r.
  - unfold directions in *. rewrite media_snoc. destruct (sdp_of m) as [sdp|].
    + destruct Em as [_ Em]. rewrite hold_step_eq in Em. injection Em as -> _ _.
      rewrite fmap_app. cbn [fmap list_fmap]. by rewrite last_snoc.
    + injection Em as _ _ -> _ _. by rewrite app_nil_r.
  - unfold directions in *. rewrite media_snoc. destruct (sdp_of m) as [sdp|].
    + destruct Em as [_ Em]. rewrite hold_step_eq in Em. injection Em as _ -> _.
      rewrite fmap_app. cbn [fmap list_fmap fst snd]. rewrite transitions_snoc, I7, I6.
      by destruct (last (_ <$> media l)) as [[]|].
    + injection Em as _ _ _ -> _. by rewrite app_nil_r.
  - pose proof (zlen_filter (fun e => ev_IsHold e = true) (HoldEvents s)).
    pose proof (zlen_transitions false (directions l)) as H1. rewrite <-I7 in H1.
    pose proof (zlen_media l). assert (zlen (directions l) = zlen (media l)) by (unfold zlen, directions; by rewrite length_fmap).
    pose proof (zlen_nonneg (filter (fun e => ev_IsHold e = true) (HoldEvents s))).
    destruct (sdp_of m) as [sdp|].
    + destruct Em as [_ Em]. rewrite hold_step_eq in Em. injection Em as _ -> ->.
      rewrite filter_app, zlen_app, I8. destruct (is_hold (sdp_direction sdp)), (is_hold (Direction s)); cbn [xorb andb negb].
      all: rewrite ?filter_cons, ?filter_nil; cbn [ev_IsHold]; rewrite ?decide_True, ?decide_False by done;
        unfold i64; rewrite ?swrap_small, ?zlen_cons, ?zlen_nil; lia.
    + injection Em as _ _ _ -> ->. done.
Qed.

(** ** Every packet is handled *)

Section total.
Context `{Unicode}.

Lemma lower_key_ascii (n : string) : is_ascii (gobytes n) = true -> is_ascii (to_lower (gobytes n)) = true.
Proof.
  intros Ha. rewrite to_lower_ascii by done. unfold is_ascii in *. rewrite forallb_forall in *.
  intros b Hb. rewrite <-list_elem_of_In in Hb. apply list_elem_of_fmap in Hb as (c & -> & Hc).
  rewrite list_elem_of_In in Hc. specialize (Ha c Hc). cbn beta in Ha. unfold lower_byte. case_match; [|done].
  rewrite u8_byte_of; lia.
Qed.

Lemma find_header_returns lines key :
  is_ascii key = true -> returns (find_header lines key) (fun _ => True).
Proof.
  intros Hk. induction lines as [|l lines IH]; [done|]. cbn [find_header].
  destruct (is_prefix key (to_lower (trim_space l))) eqn:E; [|done].
  apply lower_prefix_length in E; [|done]. pose proof (length_trim_space l).
  apply returns_bind. unfold slice_from. apply returns_slice; [unfold zlen; lia..|]. done.
Qed.

Lemma extractHeader_returns payload (n : string) :
  is_ascii (gobytes n) = true -> returns (extractHeader payload n) (fun _ => True).
Proof.
  intros Hn. unfold extractHeader.
  destruct (returns_inv _ _ (find_header_returns (split_on payload crlf) (to_lower (gobytes n) ++ [byte_of 0x3A])
    ltac:(rewrite is_ascii_app; by rewrite lower_key_ascii))) as (v & -> & _). done.
Qed.

Lemma handle_returns d pkt : returns (HandlePacket d pkt) (fun r =>
  fst r = d /\ snd r = pkt \/ exists summary errors, snd r = set_notes "SIP" summary (Errors pkt ++ errors) pkt).
Proof.
  unfold HandlePacket.
  apply returns_bind. eapply returns_weaken with (Q := fun _ => True).
  { destruct (isSIPPort pkt); [done|]. unfold IsSIP. destruct (_ <? _); [done|apply any_prefix_total]. }
  intros ok _. destruct ok; cbn [negb]; [|by left].
  set (payload := trim_space (Payload pkt)). destruct (zlen payload =? 0); [by left|].
  unfold handlePayload. apply returns_bind. eapply returns_weaken; [by apply extractHeader_returns|].
  intros callID _. destruct (String.eqb callID ""); [by left|].
  apply returns_bind. eapply returns_weaken with
    (Q := fun r => exists errors, snd r = Errors pkt ++ errors).
  2:{ intros [[s summary] errors] [es Hes]. cbn in *. right. exists summary, es. by rewrite Hes. }
  unfold handle_session. destruct (if negb _ then _ else _) as [s summary].
  apply returns_bind. eapply returns_weaken with (Q := fun _ => True).
  { destruct (is_prefix (gobytes "INVITE ") payload); [|done].
    apply returns_bind. eapply returns_weaken; [by apply extractHeader_returns|]. intros from _.
    apply returns_bind. eapply returns_weaken; [by apply extractHeader_returns|]. done. }
  intros s' _.
  destruct (is_prefix (gobytes "SIP/2.0") payload); (destruct (_ && _); [destruct (parseSDP payload)|]);
    cbn; try (exists []; by rewrite app_nil_r); eauto.
Qed.
End total.

(** ** Properties *)

(** C9: SIP calls. Every packet is handled. When the packets of a capture, on
    a SIP port or with a SIP signature, carry well-formed requests and responses
    with any headers and session descriptions, calls mixed in any order, the
    decoder holds one session per Call-ID: it starts with the call's first
    message, has the times of its last INVITE, of its last BYE and of its first
    200 response, the address and port of its last description, and its hold
    events are the changes of direction into and out of hold, which take turns,
    starting with a hold; their count is the number of holds. *)
Theorem sip_calls_exact `{Unicode} l :
  Forall (fun pm => carries (fst pm) (snd pm)) l -> zlen l < 2 ^ 62 ->
  (forall d pkt, exists r, HandlePacket d pkt = Ok r) /\
  exists d, run NewDecoder (fst <$> l) = Ok d /\
    forall id, match call_messages id l with
    | [] => d !! id = None
    | ((p, _) :: _) as c => exists s, d !! id = Some s /\
      (ss_CallID s, ss_SrcIP s, ss_DstIP s, ss_StartTime s) = (id, SrcIP p, DstIP p, Timestamp p) /\
      InviteTime s = default 0 (last (times (is_request "INVITE") c)) /\
      ByeTime s = default 0 (last (times (is_request "BYE") c)) /\
      FirstResponseTime s = default 0 (head (nonzero (times is_ok c))) /\
      (forall sdp t, last (media c) = Some (sdp, t) ->
        MediaIP s = sdp_media_ip sdp /\ MediaPort s = sdp_media_port sdp /\ Direction s = sdp_direction sdp) /\
      HoldEvents s = transitions false (directions c) /\
      (forall i e, HoldEvents s !! i = Some e -> ev_IsHold e = Nat.even i) /\
      HoldCount s = zlen (filter (fun e => ev_IsHold e = true) (HoldEvents s))
    end.
Proof.
  intros Hl Hn. split.
  { intros d pkt. destruct (returns_inv _ _ (handle_returns d pkt)) as (r & -> & _). eauto. }
  destruct (run_call_of l Hl) as (d & Hd & Hk). exists d. split; [done|]. intros id. rewrite Hk.
  pose proof (zlen_filter (fun pm => header (snd pm) "Call-ID" = id) l) as Hz.
  fold (call_messages id l) in Hz. destruct (call_messages id l) as [|[p m] c]; [done|].
  eexists. split; [done|]. edestruct (fold_call id p ((p, m) :: c)) as (H1 & H2 & H3 & H4 & H5 & H6 & H7 & H8);
    [done|lia|]. split_and!; try done.
  - intros sdp t Hm. unfold directions in H6. rewrite fmap_last, Hm in H6. rewrite Hm in H5. by injection H5.
  - intros i e Hi. apply (transitions_alternate false (directions ((p, m) :: c))). rewrite <-H7. exact Hi.
Qed.

(** A call that is put on hold: INVITE, 200, and a second INVITE. *)
Definition ex_invite (dir : direction) : sip_message :=
  {| sm_start := Request (gobytes "INVITE") (gobytes "sip:bob@example.com SIP/2.0");
     sm_headers := [(gobytes "Call-ID", gobytes " a1"); (gobytes "FROM", gobytes " alice"); (gobytes "To", gobytes " bob ")];
     sm_body := Some [Connection (gobytes "10.0.0.1"); Audio (gobytes "4000") (gobytes "RTP/AVP 0");
                      Attribute dir; OtherLine (byte_of 0x61) (gobytes "rtpmap:0 PCMU/8000")] |}.
Definition ex_ok : sip_message :=
  {| sm_start := Status 200 (gobytes "OK"); sm_headers := [(gobytes "call-id", gobytes "a1")]; sm_body := None |}.

Definition ex_packet (ts : time) (m : sip_message) : Packet :=
  mk_packet ts "10.0.0.1" "10.0.0.2" 5060 5060 "UDP" (msg_bytes m crlf).
Definition ex_call : list (Packet * sip_message) :=
  [(ex_packet 1000000 (ex_invite sendrecv), ex_invite sendrecv); (ex_packet 3000000 ex_ok, ex_ok);
   (ex_packet 90000000 (ex_invite sendonly), ex_invite sendonly)].

Lemma ex_call_carries : Forall (fun pm => @carries ascii_only (fst pm) (snd pm)) ex_call.
Proof.
  unfold ex_call. repeat constructor; try (by vm_compute);
    (exists crlf; split; [reflexivity|by vm_compute]).
Qed.

Example sip_calls_exact_witness : exists d s,
  @run ascii_only NewDecoder (fst <$> ex_call) = Ok d /\ d !! "a1"%string = Some s /\
  InviteTime s = 90000000 /\ FirstResponseTime s = 3000000 /\ HoldCount s = 1 /\
  ev_IsHold <$> HoldEvents s = [true] /\ MediaPort s = "4000"%string.
Proof.
  destruct (@sip_calls_exact ascii_only ex_call ex_call_carries ltac:(by vm_compute)) as (_ & d & Hd & Hk).
  specialize (Hk "a1"%string).
  assert (call_messages "a1" ex_call = ex_call) as E by by vm_compute.
  rewrite E in Hk. unfold ex_call at 1 in Hk. destruct Hk as (s & Hs & _ & H1 & _ & H2 & H3 & H4 & _ & H5).
  fold ex_call in *. exists d, s. rewrite H5, H4, H1, H2.
  destruct (H3 {| sdp_media_ip := "10.0.0.1"; sdp_media_port := "4000"; sdp_direction := "sendonly" |} 90000000)
    as (_ & -> & _); [by vm_compute|].
  split_and!; try done; by vm_compute.
Defined.

(** A call on hold has a negative set-up time. The set-up latency of a flow
    is the time from the last INVITE to the first 200 response of any request:
    when a further INVITE of the call, such as the one that puts it on hold,
    comes more than a microsecond after the first 200, whatever order the
    sessions are visited in, the flow reports a latency that is a negative
    number of microseconds divided by 1000. *)
Theorem sip_reinvite_latency `{Unicode} l id rfc3339 t1 t2 d order :
  Forall (fun pm => carries (fst pm) (snd pm)) l -> zlen l < 2 ^ 62 ->
  head (nonzero (times is_ok (call_messages id l))) = Some t1 ->
  last (times (is_request "INVITE") (call_messages id l)) = Some t2 ->
  0 < t1 -> t1 + 1000 <= t2 ->
  run NewDecoder (fst <$> l) = Ok d -> map_order d order ->
  exists f q, f ∈ Flush rfc3339 order /\ FlowID f = id /\ q < 0 /\
    get_f64 (Metrics f) "setup_latency_ms" = Some (f_div (f_int q) (f_int 1000)).
Proof.
  intros Hl Hn H1 H2 Ht1 Ht2 Hd Ho. destruct (run_call_of l Hl) as (d' & Hd' & Hk).
  assert (d' = d) as -> by congruence. clear Hd'. specialize (Hk id).
  pose proof (zlen_filter (fun pm => header (snd pm) "Call-ID" = id) l) as Hz.
  fold (call_messages id l) in Hz. destruct (call_messages id l) as [|[p m] c] eqn:Ec; [done|].
  edestruct (fold_call id p ((p, m) :: c)) as (E0 & E1 & _ & E3 & _ & _ & _ & E8); [done|lia|].
  rewrite H2 in E1. rewrite H1 in E3. cbn [from_option] in E1, E3.
  set (s := foldl step_call (new_session id p) ((p, m) :: c)) in *.
  exists (session_flow rfc3339 s), (microseconds (time_sub t1 t2)). split_and!.
  - apply list_elem_of_fmap. exists (id, s). split; [done|]. unfold map_order in Ho. rewrite Ho.
    by apply elem_of_map_to_list.
  - by injection E0.
  - unfold microseconds, time_sub. Z.to_euclidean_division_equations. lia.
  - unfold session_flow, get_f64. cbn [Metrics]. rewrite E1, E3. unfold Datatypes.id, is_zero.
    rewrite (proj2 (Z.eqb_neq t1 0)), (proj2 (Z.eqb_neq t2 0)) by lia. cbn [negb andb].
    by destruct (0 <? HoldCount s); lookup_metric.
Qed.

Example sip_reinvite_latency_witness : exists d f q,
  @run ascii_only NewDecoder (fst <$> ex_call) = Ok d /\ f ∈ Flush (fun _ => ""%string) (map_to_list d) /\ q < 0 /\
  get_f64 (Metrics f) "setup_latency_ms" = Some (f_div (f_int q) (f_int 1000)).
Proof.
  destruct (@run_call_of ascii_only ex_call ex_call_carries) as (d & Hd & _).
  destruct (@sip_reinvite_latency ascii_only ex_call "a1" (fun _ => ""%string) 3000000 90000000 d (map_to_list d)
    ex_call_carries) as (f & q & H1 & _ & H2 & H3); [by vm_compute|by vm_compute|by vm_compute|lia|lia|exact Hd|
    exact (reflexivity _)|].
  exists d, f, q. exact (conj Hd (conj H1 (conj H2 H3))).
Defined.
