(* ===== verification/Tls.v ===== *)
(** * internal/protocols/tls: TLS handshakes

    The record and handshake reader, the grading of cipher suites, the JA3
    fingerprint and Flush, which groups the records by connection. A parser of
    the code that fills the record it is given returns the filled fields here.
    MD5 is the library function of [GoLib]. *)
From S2P Require Import Dpi.
From S2P Require Export Rules.

Definition ContentTypeChangeCipherSpec : Z := 20.
Definition ContentTypeAlert : Z := 21.
Definition ContentTypeHandshake : Z := 22.
Definition ContentTypeApplicationData : Z := 23.
Definition HandshakeClientHello : Z := 1.
Definition HandshakeServerHello : Z := 2.
Definition HandshakeCertificate : Z := 11.
Definition HandshakeServerHelloDone : Z := 14.

Definition TLSVersionTable : list (Z * string) :=
  [(0x0300, "SSL 3.0"); (0x0301, "TLS 1.0"); (0x0302, "TLS 1.1"); (0x0303, "TLS 1.2"); (0x0304, "TLS 1.3")]%string.
Definition TLSVersionNames : gmap Z string := list_to_map TLSVersionTable.

Definition CipherSuiteNames : gmap Z string := list_to_map
  [(0x1301, "TLS_AES_128_GCM_SHA256"); (0x1302, "TLS_AES_256_GCM_SHA384");
   (0x1303, "TLS_CHACHA20_POLY1305_SHA256");
   (0xC02B, "TLS_ECDHE_ECDSA_WITH_AES_128_GCM_SHA256"); (0xC02C, "TLS_ECDHE_ECDSA_WITH_AES_256_GCM_SHA384");
   (0xC02F, "TLS_ECDHE_RSA_WITH_AES_128_GCM_SHA256"); (0xC030, "TLS_ECDHE_RSA_WITH_AES_256_GCM_SHA384");
   (0xCCA8, "TLS_ECDHE_RSA_WITH_CHACHA20_POLY1305_SHA256");
   (0xCCA9, "TLS_ECDHE_ECDSA_WITH_CHACHA20_POLY1305_SHA256");
   (0xC009, "TLS_ECDHE_ECDSA_WITH_AES_128_CBC_SHA"); (0xC00A, "TLS_ECDHE_ECDSA_WITH_AES_256_CBC_SHA");
   (0xC013, "TLS_ECDHE_RSA_WITH_AES_128_CBC_SHA"); (0xC014, "TLS_ECDHE_RSA_WITH_AES_256_CBC_SHA");
   (0xC023, "TLS_ECDHE_ECDSA_WITH_AES_128_CBC_SHA256"); (0xC024, "TLS_ECDHE_ECDSA_WITH_AES_256_CBC_SHA384");
   (0xC027, "TLS_ECDHE_RSA_WITH_AES_128_CBC_SHA256"); (0xC028, "TLS_ECDHE_RSA_WITH_AES_256_CBC_SHA384");
   (0x009E, "TLS_DHE_RSA_WITH_AES_128_GCM_SHA256"); (0x009F, "TLS_DHE_RSA_WITH_AES_256_GCM_SHA384");
   (0x0033, "TLS_DHE_RSA_WITH_AES_128_CBC_SHA"); (0x0039, "TLS_DHE_RSA_WITH_AES_256_CBC_SHA");
   (0x0067, "TLS_DHE_RSA_WITH_AES_128_CBC_SHA256"); (0x006B, "TLS_DHE_RSA_WITH_AES_256_CBC_SHA256");
   (0x009C, "TLS_RSA_WITH_AES_128_GCM_SHA256"); (0x009D, "TLS_RSA_WITH_AES_256_GCM_SHA384");
   (0x002F, "TLS_RSA_WITH_AES_128_CBC_SHA"); (0x0035, "TLS_RSA_WITH_AES_256_CBC_SHA");
   (0x003C, "TLS_RSA_WITH_AES_128_CBC_SHA256"); (0x003D, "TLS_RSA_WITH_AES_256_CBC_SHA256")]%string.

(** The name, or the number in hexadecimal. *)
Definition name_or_hex (names : gmap Z string) (z : Z) : string :=
  let name := default ""%string (names !! z) in
  if String.eqb name "" then "0x" +:+ fmt_0x 4 z else name.

(** What a record says besides its addresses: the fields of tlsRecord that the
    parsers fill. *)
Record handshake := {
  HandshakeType : string; TLSVersion : string; SNI : string; CipherSuite : string;
  CipherSuites : list string; CipherSuiteIDs : list Z; ExtensionTypes : list Z; ALPN : list string;
  CertSubject : string; CertIssuer : string;
}.
Record tlsRecord := {
  x_SrcIP : string; x_DstIP : string; x_SrcPort : Z; x_DstPort : Z; x_FrameNum : Z; x_Timestamp : time;
  x_hs : handshake;
}.
Definition no_handshake : handshake :=
  {| HandshakeType := ""; TLSVersion := ""; SNI := ""; CipherSuite := ""; CipherSuites := []; CipherSuiteIDs := [];
     ExtensionTypes := []; ALPN := []; CertSubject := ""; CertIssuer := "" |}.

Record Decoder := { records : list tlsRecord; ccsSeen : gset string }.
Definition NewDecoder : Decoder := {| records := []; ccsSeen := ∅ |}.

(** Updates of the fields of a record. *)
Definition with_type_version (ty version : string) (h : handshake) : handshake :=
  {| HandshakeType := ty; TLSVersion := version; SNI := SNI h; CipherSuite := CipherSuite h;
     CipherSuites := CipherSuites h; CipherSuiteIDs := CipherSuiteIDs h; ExtensionTypes := ExtensionTypes h;
     ALPN := ALPN h; CertSubject := CertSubject h; CertIssuer := CertIssuer h |}.
Definition with_version (version : string) (h : handshake) : handshake :=
  with_type_version (HandshakeType h) version h.
Definition with_names (sni : string) (alpn : list string) (exts : list Z) (h : handshake) : handshake :=
  {| HandshakeType := HandshakeType h; TLSVersion := TLSVersion h; SNI := sni; CipherSuite := CipherSuite h;
     CipherSuites := CipherSuites h; CipherSuiteIDs := CipherSuiteIDs h; ExtensionTypes := exts;
     ALPN := alpn; CertSubject := CertSubject h; CertIssuer := CertIssuer h |}.
Definition with_suites (chosen : string) (names : list string) (ids : list Z) (h : handshake) : handshake :=
  {| HandshakeType := HandshakeType h; TLSVersion := TLSVersion h; SNI := SNI h; CipherSuite := chosen;
     CipherSuites := names; CipherSuiteIDs := ids; ExtensionTypes := ExtensionTypes h;
     ALPN := ALPN h; CertSubject := CertSubject h; CertIssuer := CertIssuer h |}.
Definition with_cert (subject issuer : string) (h : handshake) : handshake :=
  {| HandshakeType := HandshakeType h; TLSVersion := TLSVersion h; SNI := SNI h; CipherSuite := CipherSuite h;
     CipherSuites := CipherSuites h; CipherSuiteIDs := CipherSuiteIDs h; ExtensionTypes := ExtensionTypes h;
     ALPN := ALPN h; CertSubject := subject; CertIssuer := issuer |}.

(** ** Extensions *)

Definition parseSNI (data : list byte) : res string :=
  if zlen data <? 5 then Ok ""%string
  else
    nameType ← idx data 2;
    if negb (u8 nameType =? 0) then Ok ""%string
    else if zlen data <? 3 + 2 then Ok ""%string
    else
      nameLen ← rd_be 2 data 3;
      let nameLen := Z.min nameLen (zlen data - 5) in
      name ← slice data 5 (5 + nameLen);
      Ok (gostr name).

Definition parseALPN (data : list byte) : res (list string) :=
  if zlen data <? 2 then Ok []
  else
    listLen ← rd_be 2 data 0;
    let stop := Z.min (2 + listLen) (zlen data) in
    loop (S (length data)) (fun '(offset, protos) =>
      if offset <? stop then
        pLen ← idx data offset;
        let offset := offset + 1 in
        if stop <? offset + u8 pLen then Ok (Done protos)
        else
          p ← slice data offset (offset + u8 pLen);
          Ok (Next (offset + u8 pLen, protos ++ [gostr p]))
      else Ok (Done protos)) (2, []).

(** The loop over the versions a client offers. *)
Definition offered_versions (data : list byte) (version : string) : res string :=
  listLen ← idx data 0;
  loop (S (length data)) (fun '(i, version) =>
    if (i + 1 <? 1 + u8 listLen) && (i + 1 <? zlen data) then
      v ← rd_be 2 data i;
      Ok (Next (i + 2, default version (TLSVersionNames !! v)))
    else Ok (Done version)) (1, version).

Definition is_grease (v : Z) : bool := Z.land v 0x0f0f =? 0x0a0a.

(** The switch over a client's extension, with the collection of its type. *)
Definition client_extension (extType : Z) (extData : list byte) (h : handshake) : res handshake :=
  let exts := if negb (is_grease extType) then ExtensionTypes h ++ [extType] else ExtensionTypes h in
  let h := with_names (SNI h) (ALPN h) exts h in
  if extType =? 0 then sni ← parseSNI extData; Ok (with_names sni (ALPN h) exts h)
  else if extType =? 16 then alpn ← parseALPN extData; Ok (with_names (SNI h) alpn exts h)
  else if extType =? 43 then
    if 3 <=? zlen extData then v ← offered_versions extData (TLSVersion h); Ok (with_version v h)
    else Ok h
  else Ok h.

Definition server_extension (extType : Z) (extData : list byte) (h : handshake) : res handshake :=
  if extType =? 16 then alpn ← parseALPN extData; Ok (with_names (SNI h) alpn (ExtensionTypes h) h)
  else if extType =? 43 then
    if 2 <=? zlen extData then
      v ← rd_be 2 extData 0;
      Ok (with_version (default (TLSVersion h) (TLSVersionNames !! v)) h)
    else Ok h
  else Ok h.

(** The loop of parseExtensions and parseServerExtensions. *)
Definition extensions (step : Z -> list byte -> handshake -> res handshake) (data : list byte) (h : handshake) :
    res handshake :=
  loop (S (length data)) (fun '(offset, h) =>
    if offset + 4 <=? zlen data then
      extType ← rd_be 2 data offset;
      extLen ← rd_be 2 data (offset + 2);
      let offset := offset + 4 in
      if zlen data <? offset + extLen then Ok (Done h)
      else
        extData ← slice data offset (offset + extLen);
        h ← step extType extData h;
        Ok (Next (offset + extLen, h))
    else Ok (Done h)) (0, h).
Definition parseExtensions : list byte -> handshake -> res handshake := extensions client_extension.
Definition parseServerExtensions : list byte -> handshake -> res handshake := extensions server_extension.

(** ** Hello messages *)

(** The loop over the offered cipher suites. *)
Definition offered_suites (data : list byte) (offset len : Z) (h : handshake) : res handshake :=
  loop (S (length data)) (fun '(i, h) =>
    if i <? len then
      if zlen data <? offset + i + 2 then Ok (Done h)
      else
        cs ← rd_be 2 data (offset + i);
        if is_grease cs then Ok (Next (i + 2, h))
        else
          let name := default ""%string (CipherSuiteNames !! cs) in
          let names := if negb (String.eqb name "") then CipherSuites h ++ [name] else CipherSuites h in
          Ok (Next (i + 2, with_suites (CipherSuite h) names (CipherSuiteIDs h ++ [cs]) h))
    else Ok (Done h)) (0, h).

Definition parseClientHello (data : list byte) (h : handshake) : res handshake :=
  if zlen data <? 38 then Ok h
  else
    clientVersion ← rd_be 2 data 0;
    let h := with_version (name_or_hex TLSVersionNames clientVersion) h in
    let offset := 2 + 32 in
    if zlen data <=? offset then Ok h
    else
      sessionIDLen ← idx data offset;
      let offset := offset + 1 + u8 sessionIDLen in
      if zlen data <? offset + 2 then Ok h
      else
        suitesLen ← rd_be 2 data offset;
        let offset := offset + 2 in
        let suitesLen := Z.min suitesLen (zlen data - offset) in
        h ← offered_suites data offset suitesLen h;
        let offset := offset + suitesLen in
        if zlen data <=? offset then Ok h
        else
          compLen ← idx data offset;
          let offset := offset + 1 + u8 compLen in
          if zlen data <? offset + 2 then Ok h
          else
            extLen ← rd_be 2 data offset;
            let offset := offset + 2 in
            exts ← slice data offset (Z.min (offset + extLen) (zlen data));
            parseExtensions exts h.

Definition parseServerHello (data : list byte) (h : handshake) : res handshake :=
  if zlen data <? 38 then Ok h
  else
    serverVersion ← rd_be 2 data 0;
    let h := with_version (name_or_hex TLSVersionNames serverVersion) h in
    let offset := 2 + 32 in
    if zlen data <=? offset then Ok h
    else
      sessionIDLen ← idx data offset;
      let offset := offset + 1 + u8 sessionIDLen in
      if zlen data <? offset + 2 then Ok h
      else
        cs ← rd_be 2 data offset;
        let h := with_suites (name_or_hex CipherSuiteNames cs) (CipherSuites h) (CipherSuiteIDs h) h in
        let offset := offset + 2 + 1 in
        if offset + 2 <=? zlen data then
          extLen ← rd_be 2 data offset;
          let offset := offset + 2 in
          exts ← slice data offset (Z.min (offset + extLen) (zlen data));
          parseServerExtensions exts h
        else Ok h.

(** ** Certificates *)

Record asn1_length := { a_length : Z; a_start : Z; a_ok : bool }.
Definition no_length : asn1_length := {| a_length := 0; a_start := 0; a_ok := false |}.

Definition readASN1Length (data : list byte) (lenOffset : Z) : res asn1_length :=
  if zlen data <=? lenOffset then Ok no_length
  else
    b ← idx data lenOffset;
    if Z.land (u8 b) 0x80 =? 0 then Ok {| a_length := u8 b; a_start := lenOffset + 1; a_ok := true |}
    else
      let numLenBytes := Z.land (u8 b) 0x7F in
      if (numLenBytes =? 0) || (2 <? numLenBytes) then Ok no_length
      else if zlen data <? lenOffset + 1 + numLenBytes then Ok no_length
      else
        length ← rd_be (Z.to_nat numLenBytes) data (lenOffset + 1);
        Ok {| a_length := length; a_start := lenOffset + 1 + numLenBytes; a_ok := true |}.

Definition isPrintableString (s : list byte) : bool :=
  forallb (fun '(c, _) => negb ((c <? 32) || (126 <? c))) (runes s) && (0 <? zlen s).

Definition cnOID : list byte := octets [0x55; 0x04; 0x03].

(** The OID stands at [i]. *)
Definition cn_at (certData : list byte) (i : Z) : res bool :=
  a ← idx certData i;
  if negb (u8 a =? 0x55) then Ok false
  else
    b ← idx certData (i + 1);
    if negb (u8 b =? 0x04) then Ok false
    else c ← idx certData (i + 2); Ok (u8 c =? 0x03).

(** The value of the name whose OID stands at [i]; the outer option says
    whether the function returns here. *)
Definition cn_value (certData : list byte) (i : Z) : res (option string) :=
  let valOffset := i + 3 in
  if zlen certData <? valOffset + 2 then Ok (Some ""%string)
  else
    l ← readASN1Length certData (valOffset + 1);
    if negb (a_ok l) || (a_length l <=? 0) || (256 <? a_length l) then Ok (Some ""%string)
    else
      let strLen := Z.min (a_length l) (zlen certData - a_start l) in
      cn ← slice certData (a_start l) (a_start l + strLen);
      Ok (if isPrintableString cn then Some (gostr cn) else None).

Definition extractCN (certData : list byte) (isSubject : bool) : res string :=
  let target := if isSubject then 1 else 0 in
  loop (S (length certData)) (fun '(i, occurrence) =>
    if i + 3 + 2 <? zlen certData then
      found ← cn_at certData i;
      if (found : bool) then
        if occurrence =? target then
          v ← cn_value certData i;
          match v with
          | Some cn => Ok (Done cn)
          | None => Ok (Next (i + 1, occurrence + 1))
          end
        else Ok (Next (i + 1, occurrence + 1))
      else Ok (Next (i + 1, occurrence))
    else Ok (Done ""%string)) (0, 0).

(** Three bytes as a number. *)
Definition rd24 (data : list byte) (offset : Z) : res Z :=
  a ← idx data offset; b ← idx data (offset + 1); c ← idx data (offset + 2);
  Ok (Z.lor (Z.lor (Z.shiftl (u8 a) 16) (Z.shiftl (u8 b) 8)) (u8 c)).

Definition parseCertificate (data : list byte) (h : handshake) : res handshake :=
  if zlen data <? 3 then Ok h
  else
    let offset := 3 in
    if zlen data <? offset + 3 then Ok h
    else
      certLen ← rd24 data offset;
      let offset := offset + 3 in
      let certLen := Z.min certLen (zlen data - offset) in
      certData ← slice data offset (offset + certLen);
      subject ← extractCN certData true;
      issuer ← extractCN certData false;
      Ok (with_cert subject issuer h).

(** ** Records *)

Definition parseHandshake (data : list byte) (h : handshake) : res handshake :=
  if zlen data <? 4 then Ok h
  else
    hsType ← idx data 0;
    hsLen ← rd24 data 1;
    hsData ← slice_from data 4;
    hsData ← (if hsLen <=? zlen hsData then slice_to hsData hsLen else Ok hsData);
    let hsType := u8 hsType in
    let named ty := with_type_version ty (TLSVersion h) h in
    if hsType =? HandshakeClientHello then parseClientHello hsData (named "ClientHello"%string)
    else if hsType =? HandshakeServerHello then parseServerHello hsData (named "ServerHello"%string)
    else if hsType =? HandshakeCertificate then parseCertificate hsData (named "Certificate"%string)
    else if hsType =? HandshakeServerHelloDone then Ok (named "ServerHelloDone"%string)
    else Ok (named (cat ["Handshake_"; fmt_d hsType])).

Definition dirKey (pkt : Packet) : string :=
  cat [SrcIP pkt; ":"; fmt_d (SrcPort pkt); "-"; DstIP pkt; ":"; fmt_d (DstPort pkt)].

Definition isTLSPort (src dst : Z) : bool :=
  let tlsPorts := [443; 8443; 993; 995; 465; 636; 5061] in
  bool_decide (src ∈ tlsPorts) || bool_decide (dst ∈ tlsPorts).

Definition tls_summary (h : handshake) : string :=
  let summary := HandshakeType h in
  let summary := if negb (String.eqb (SNI h) "") then cat [summary; " "; SNI h] else summary in
  let summary := if negb (String.eqb (TLSVersion h) "") then cat [summary; " ["; TLSVersion h; "]"] else summary in
  if negb (String.eqb (CipherSuite h) "") then cat [summary; " "; CipherSuite h] else summary.

(** The labels of the packet, and the record in the list. *)
Definition keep_record (d : Decoder) (pkt : Packet) (h : handshake) : Decoder * Packet * tlsRecord :=
  let rec := {| x_SrcIP := SrcIP pkt; x_DstIP := DstIP pkt; x_SrcPort := SrcPort pkt; x_DstPort := DstPort pkt;
                x_FrameNum := FrameNumber pkt; x_Timestamp := Timestamp pkt; x_hs := h |} in
  let proto := if (DstPort pkt =? 443) || (SrcPort pkt =? 443) then "HTTPS"%string else "TLS"%string in
  ({| records := records d ++ [rec]; ccsSeen := ccsSeen d |}, set_app proto (tls_summary h) pkt, rec).

Definition parseTLS (d : Decoder) (pkt : Packet) : res (Decoder * Packet * option tlsRecord) :=
  let payload := Payload pkt in
  contentType ← idx payload 0;
  let contentType := u8 contentType in
  if (contentType <? 20) || (23 <? contentType) then Ok (d, pkt, None)
  else
    recordVersion ← rd_be 2 payload 1;
    recordLen ← rd_be 2 payload 3;
    if ((recordVersion <? 0x0300) || (0x0304 <? recordVersion))
       && (negb (recordVersion =? 0x0303) && (recordVersion <? 0x0300)) then Ok (d, pkt, None)
    else
      let versionName := name_or_hex TLSVersionNames recordVersion in
      let keep d h : res (Decoder * Packet * option tlsRecord) := let '(d, pkt, rec) := keep_record d pkt h in Ok (d, pkt, Some rec) in
      let labelled ty := with_type_version ty versionName no_handshake in
      if contentType =? ContentTypeHandshake then
        if bool_decide (dirKey pkt ∈ ccsSeen d) then keep d (labelled "Finished (encrypted)"%string)
        else
          let recordLen := Z.min recordLen (zlen payload - 5) in
          if recordLen <? 4 then Ok (d, pkt, None)
          else
            data ← slice payload 5 (5 + recordLen);
            h ← parseHandshake data no_handshake;
            keep d h
      else if contentType =? ContentTypeApplicationData then keep d (labelled "ApplicationData"%string)
      else if contentType =? ContentTypeChangeCipherSpec then
        keep {| records := records d; ccsSeen := {[dirKey pkt]} ∪ ccsSeen d |} (labelled "ChangeCipherSpec"%string)
      else keep d (labelled "Alert"%string).

(** The early returns of both handlers, negated. *)
Definition admits (pkt : Packet) : res bool :=
  if negb (String.eqb (Protocol pkt) "TCP") then Ok false
  else if zlen (Payload pkt) <? 5 then Ok false
  else if isTLSPort (SrcPort pkt) (DstPort pkt) then Ok true
  else IsTLS (Payload pkt).

Definition HandlePacket (d : Decoder) (pkt : Packet) : res (Decoder * Packet) :=
  ok ← admits pkt;
  if negb ok then Ok (d, pkt) else '(d, pkt, _) ← parseTLS d pkt; Ok (d, pkt).

(** [m[k] = v], when the test holds. *)
Definition put_if (b : bool) (k : string) (v : any) (m : gmap string any) : gmap string any :=
  if b then <[k := v]> m else m.
Definition put_str (k s : string) : gmap string any -> gmap string any := put_if (negb (String.eqb s "")) k (AStr s).

Definition record_metadata (h : handshake) : gmap string any :=
  put_str "cert_issuer" (CertIssuer h) (put_str "cert_subject" (CertSubject h)
    (put_if (0 <? zlen (ALPN h)) "alpn" (AStr (join ", " (ALPN h)))
      (put_str "cipher_suite" (CipherSuite h) (put_str "sni" (SNI h)
        (list_to_map [("handshake_type", AStr (HandshakeType h)); ("tls_version", AStr (TLSVersion h))]%string))))).

Definition HandlePacketLive (d : Decoder) (pkt : Packet) : res (Decoder * Packet * option DecodedPacket) :=
  ok ← admits pkt;
  if negb ok then Ok (d, pkt, None)
  else
    '(d, pkt, o) ← parseTLS d pkt;
    Ok (d, pkt, match o with
      | None => None
      | Some rec => Some {| D_Packet := pkt; D_Protocol := "TLS"; D_Summary := Summary pkt;
          D_Metadata := record_metadata (x_hs rec); D_Errors := [] |}
      end).

(** ** Grading *)

Definition joinUint16s (vals : list Z) : string := join "-" (fmt_d <$> vals).

(** The code filters in place; what it overwrites has been filtered already. *)
Definition filterGrease (vals : list Z) : list Z := filter (fun v => is_grease v = false) vals.

(** The names are distinct, so the order of the range does not matter. *)
Definition tlsVersionNum (name : string) : Z :=
  match filter (fun kv => snd kv = name) TLSVersionTable with (k, _) :: _ => k | [] => 0x0303 end.

Section tls.
Context `{Unicode} `{GoLib}.

Definition computeJA3 (version : Z) (cipherIDs extTypes : list Z) : string * string :=
  let input := cat [fmt_d version; ","; joinUint16s (filterGrease cipherIDs); ",";
                    joinUint16s (filterGrease extTypes); ",,"] in
  (input, hex_encode (md5_Sum (gobytes input))).

Definition hasForwardSecrecy (cipher : string) : bool :=
  GoStr.contains (gobytes cipher) (gobytes "ECDHE") || GoStr.contains (gobytes cipher) (gobytes "DHE").

Definition cipherStrength (cipher : string) : string :=
  let upper := to_upper (gobytes cipher) in
  let has frag := GoStr.contains upper (gobytes frag) in
  if has "NULL"%string || has "EXPORT"%string || has "ANON"%string || has "_RC4_"%string || has "RC4"%string then "F"
  else if has "_DES_"%string || has "3DES"%string then "D"
  else if negb (has "ECDHE"%string) && negb (has "DHE"%string) then "C"
  else if has "_CBC_"%string then "B"
  else "A".

(** ** Flush *)

Definition connKey : Type := string * string * Z * Z.
Definition key_of (r : tlsRecord) : connKey := (x_SrcIP r, x_DstIP r, x_SrcPort r, x_DstPort r).
Definition rev_key (k : connKey) : connKey :=
  let '(srcIP, dstIP, srcPort, dstPort) := k in (dstIP, srcIP, dstPort, srcPort).

(** The body of the loop over the records. *)
Definition add_record (m : gmap connKey (list tlsRecord)) (r : tlsRecord) : gmap connKey (list tlsRecord) :=
  let k := key_of r in
  match m !! rev_key k with
  | Some rs => <[rev_key k := rs ++ [r]]> m
  | None => <[k := default [] (m !! k) ++ [r]]> m
  end.
Definition connections (rs : list tlsRecord) : gmap connKey (list tlsRecord) := foldl add_record ∅ rs.

(** The variables of the loop over the records of a connection, and its body. *)
Definition later_nonempty (a b : string) : string := if String.eqb b "" then a else b.
Definition merge (h r : handshake) : handshake :=
  {| HandshakeType := HandshakeType h; TLSVersion := later_nonempty (TLSVersion h) (TLSVersion r);
     SNI := later_nonempty (SNI h) (SNI r); CipherSuite := later_nonempty (CipherSuite h) (CipherSuite r);
     CipherSuites := CipherSuites h;
     CipherSuiteIDs := if (0 <? zlen (CipherSuiteIDs r)) && (zlen (CipherSuiteIDs h) =? 0) then CipherSuiteIDs r
                       else CipherSuiteIDs h;
     ExtensionTypes := if (0 <? zlen (ExtensionTypes r)) && (zlen (ExtensionTypes h) =? 0) then ExtensionTypes r
                       else ExtensionTypes h;
     ALPN := if 0 <? zlen (ALPN r) then ALPN r else ALPN h;
     CertSubject := if negb (String.eqb (CertSubject r) "") || negb (String.eqb (CertIssuer r) "")
                    then CertSubject r else CertSubject h;
     CertIssuer := if negb (String.eqb (CertSubject r) "") || negb (String.eqb (CertIssuer r) "")
                   then CertIssuer r else CertIssuer h |}.
Definition merge_time (b : time * time) (t : time) : time * time :=
  let '(start, stop) := b in
  if is_zero t then (start, stop)
  else (if is_zero start || before t start then t else start, if after t stop then t else stop).

Definition connection_metrics (h : handshake) (types : list string) : gmap string any :=
  let m : gmap string any :=
    put_if (0 <? zlen (ALPN h)) "alpn" (AStr (join ", " (ALPN h)))
      (put_str "cert_issuer" (CertIssuer h) (put_str "cert_subject" (CertSubject h)
        (put_str "cipher_suite" (CipherSuite h) (put_str "tls_version" (TLSVersion h) (put_str "sni" (SNI h) ∅))))) in
  let m := <["message_count"%string := AInt TInt (zlen types)]>
    (<["handshake_messages"%string := AStr (join ", " types)]> m) in
  let ja3 := computeJA3 (tlsVersionNum (TLSVersion h)) (CipherSuiteIDs h) (ExtensionTypes h) in
  let ids := 0 <? zlen (CipherSuiteIDs h) in
  let m := put_if ids "cipher_suite_ids" (AInts (CipherSuiteIDs h))
    (put_if ids "ja3_hash" (AStr (snd ja3)) (put_if ids "ja3_string" (AStr (fst ja3)) m)) in
  let chosen := negb (String.eqb (CipherSuite h) "") in
  let m := put_if chosen "cipher_strength" (AStr (cipherStrength (CipherSuite h)))
    (put_if chosen "has_forward_secrecy" (ABool (hasForwardSecrecy (CipherSuite h))) m) in
  put_if (negb (String.eqb (CertSubject h) "") && negb (String.eqb (CertIssuer h) ""))
    "cert_self_signed" (ABool (String.eqb (CertSubject h) (CertIssuer h))) m.

Definition connection_flow (kv : connKey * list tlsRecord) : Flow :=
  let '((srcIP, dstIP, srcPort, dstPort), rs) := kv in
  let '(start, stop) := foldl merge_time (0, 0) (x_Timestamp <$> rs) in
  {| FlowID := cat ["tls-"; srcIP; ":"; fmt_d srcPort; "-"; dstIP; ":"; fmt_d dstPort]; Type_ := FlowTLS;
     F_SrcIP := srcIP; F_DstIP := dstIP; F_SrcPort := srcPort; F_DstPort := dstPort; StartTime := start; EndTime := stop;
     Metrics := connection_metrics (foldl merge no_handshake (x_hs <$> rs)) (HandshakeType ∘ x_hs <$> rs) |}.

(** [order] is that of the range over the connections. *)
Definition Flush (order : list (connKey * list tlsRecord)) : list Flow := connection_flow <$> order.

End tls.

(** ** Every packet is handled *)

(** As [run_reads], keeping what is known of the numbers read. *)
Ltac run_tls :=
  repeat first
    [ progress cbv zeta
    | progress run_step
    | apply returns_idx; [lia|]; let b := fresh "b" in intros b _; pose proof (u8_range b)
    | apply returns_rd_be; [lia|]; intros ? _ ?
    | apply returns_slice; [lia|]
    | eapply returns_weaken; [solve [eauto with deeppacket]|]; intros ? _ ];
  try done.

Lemma parseSNI_returns data : returns (parseSNI data) (fun _ => True).
Proof. unfold parseSNI. run_tls. Qed.

Lemma parseALPN_returns data : returns (parseALPN data) (fun _ => True).
Proof.
  unfold parseALPN. run_tls.
  apply (returns_loop (fun '(offset, _) => 2 <= offset) (fun '(offset, _) => Z.to_nat (zlen data - offset)));
    [|lia|unfold zlen; lia].
  intros [offset protos] Ho. pose proof (zlen_nonneg data). cbv zeta. run_step; [|done].
  apply returns_bind. apply returns_idx; [lia|]. intros b _. pose proof (u8_range b). run_tls. split; lia.
Qed.

Lemma offered_versions_returns data v : 3 <= zlen data -> returns (offered_versions data v) (fun _ => True).
Proof.
  intros Hl. unfold offered_versions. apply returns_bind. apply returns_idx; [lia|]. intros n _.
  apply (returns_loop (fun '(i, _) => 1 <= i) (fun '(i, _) => Z.to_nat (zlen data - i))); [|lia|unfold zlen; lia].
  intros [i w] Hi. run_tls. split; lia.
Qed.
#[export] Hint Resolve parseSNI_returns parseALPN_returns : deeppacket.

Lemma client_extension_returns ty data h : returns (client_extension ty data h) (fun _ => True).
Proof.
  unfold client_extension. run_tls. eapply returns_weaken; [apply offered_versions_returns; lia|]. intros. run_tls.
Qed.

Lemma server_extension_returns ty data h : returns (server_extension ty data h) (fun _ => True).
Proof. unfold server_extension. run_tls. Qed.

Lemma extensions_returns step data h :
  (forall ty d h, returns (step ty d h) (fun _ => True)) -> returns (extensions step data h) (fun _ => True).
Proof.
  intros Hstep. unfold extensions. pose proof (zlen_nonneg data).
  apply (returns_loop (fun '(offset, _) => 0 <= offset) (fun '(offset, _) => Z.to_nat (zlen data - offset)));
    [|lia|unfold zlen; lia].
  intros [offset h'] Ho. run_tls. split; lia.
Qed.

Lemma offered_suites_returns data offset len h : 0 <= offset -> returns (offered_suites data offset len h) (fun _ => True).
Proof.
  intros Ho. unfold offered_suites. pose proof (zlen_nonneg data).
  apply (returns_loop (fun '(i, _) => 0 <= i) (fun '(i, _) => Z.to_nat (zlen data - i))); [|lia|unfold zlen; lia].
  intros [i h'] Hi. run_tls; split; lia.
Qed.
#[export] Hint Resolve client_extension_returns server_extension_returns : deeppacket.

#[export] Hint Extern 1 (returns (offered_suites _ _ _ _) _) => apply offered_suites_returns; lia : deeppacket.

Lemma parseExtensions_returns data h : returns (parseExtensions data h) (fun _ => True).
Proof. apply extensions_returns. auto with deeppacket. Qed.
Lemma parseServerExtensions_returns data h : returns (parseServerExtensions data h) (fun _ => True).
Proof. apply extensions_returns. auto with deeppacket. Qed.
#[export] Hint Resolve parseExtensions_returns parseServerExtensions_returns : deeppacket.

Lemma parseClientHello_returns data h : returns (parseClientHello data h) (fun _ => True).
Proof. unfold parseClientHello. run_tls. Qed.

Lemma parseServerHello_returns data h : returns (parseServerHello data h) (fun _ => True).
Proof. unfold parseServerHello. run_tls. Qed.

Lemma readASN1Length_returns data i : 0 <= i ->
  returns (readASN1Length data i) (fun l => a_ok l = true -> 0 <= a_start l <= zlen data).
Proof.
  intros Hi. unfold readASN1Length. run_step; [done|]. apply returns_bind. apply returns_idx; [lia|]. intros b _.
  pose proof (proj2 (Z.land_nonneg (u8 b) 0x7F) ltac:(right; lia)).
  run_tls; cbn [a_ok a_start]; lia.
Qed.

Lemma extractCN_returns data subject : returns (extractCN data subject) (fun _ => True).
Proof.
  unfold extractCN. pose proof (zlen_nonneg data).
  assert (Hat : forall i, 0 <= i -> i + 3 + 2 < zlen data -> returns (cn_at data i) (fun _ => True))
    by (intros i H1 H2; unfold cn_at; run_tls).
  assert (Hv : forall i, 0 <= i -> i + 3 + 2 < zlen data -> returns (cn_value data i) (fun _ => True)).
  { intros i H1 H2. unfold cn_value. run_step; [done|]. apply returns_bind.
    eapply returns_weaken; [apply readASN1Length_returns; lia|]. intros l Hl.
    cbv beta in Hl.
    destruct (a_ok l) eqn:Ea; [|done]. cbn [negb orb]. specialize (Hl eq_refl). run_tls. }
  apply (returns_loop (fun '(i, _) => 0 <= i) (fun '(i, _) => Z.to_nat (zlen data - i))); [|lia|unfold zlen; lia].
  intros [i n] Hi. run_step; [|done].
  apply returns_bind. eapply returns_weaken; [apply Hat; lia|]. intros found _.
  destruct found; [|cbn; split; lia]. run_step; [|cbn; split; lia].
  apply returns_bind. eapply returns_weaken; [apply Hv; lia|]. intros [v|] _; [done|cbn; split; lia].
Qed.
#[export] Hint Resolve parseClientHello_returns parseServerHello_returns extractCN_returns : deeppacket.

Lemma parseCertificate_returns data h : returns (parseCertificate data h) (fun _ => True).
Proof.
  unfold parseCertificate. run_step; [done|]. cbv zeta. run_step; [done|].
  apply returns_bind. apply (returns_weaken _ (fun z => 0 <= z)).
  { unfold rd24. run_tls. rewrite !Z.lor_nonneg, !Z.shiftl_nonneg. pose proof u8_range. split_and!; apply u8_range. }
  intros len Hlen. run_tls.
Qed.
#[export] Hint Resolve parseCertificate_returns : deeppacket.

Lemma parseHandshake_returns data h : returns (parseHandshake data h) (fun _ => True).
Proof.
  unfold parseHandshake. run_step; [done|]. apply returns_bind. apply returns_idx; [lia|]. intros ty _.
  apply returns_bind. apply (returns_weaken _ (fun z => 0 <= z)).
  { unfold rd24. run_tls. rewrite !Z.lor_nonneg, !Z.shiftl_nonneg. split_and!; apply u8_range. }
  intros len Hlen. unfold slice_from, slice_to. run_tls.
Qed.
#[export] Hint Resolve parseHandshake_returns : deeppacket.

Lemma parseTLS_returns d pkt : 5 <= zlen (Payload pkt) -> returns (parseTLS d pkt)
  (fun '(d', pkt', o) => records d' = records d ++ option_list o /\ (o = None -> d' = d /\ pkt' = pkt)).
Proof.
  intros Hl. unfold parseTLS, keep_record. run_tls; split; cbn; rewrite ?app_nil_r; done.
Qed.

Lemma tls_admits_returns pkt : returns (admits pkt) (fun b => b = true -> 5 <= zlen (Payload pkt)).
Proof.
  unfold admits. run_step; [done|]. run_step; [done|]. run_step; [intros _; lia|].
  apply (returns_weaken _ (fun _ => True)); [unfold IsTLS, word16; run_tls|intros b _ _; lia].
Qed.

Definition handle_all (d : Decoder) (pkts : list Packet) : res Decoder :=
  foldM (fun d pkt => '(d, _) ← HandlePacket d pkt; Ok d) d pkts.

(** TLS decoding is total. Whatever bytes arrive in whatever state, both
    handlers return; a packet adds at most one record, and both handlers add
    the same. *)
Theorem tls_handle_total d pkt :
  exists d' pkt' o, HandlePacketLive d pkt = Ok (d', pkt', o) /\ HandlePacket d pkt = Ok (d', pkt') /\
    exists new, records d' = records d ++ option_list new /\
      (D_Metadata <$> o) = (record_metadata ∘ x_hs <$> new) /\ (new = None -> d' = d /\ pkt' = pkt).
Proof.
  destruct (returns_inv _ _ (tls_admits_returns pkt)) as (b & Eb & Hl).
  unfold HandlePacketLive, HandlePacket. rewrite Eb. cbn [mbind res_bind].
  destruct b; cbn [negb]; [|by exists d, pkt, None; split_and!; [..|exists None; rewrite app_nil_r]].
  destruct (returns_inv _ _ (parseTLS_returns d pkt (Hl eq_refl))) as ([[d' pkt'] o] & -> & Hr & Hn).
  cbn [mbind res_bind]. do 3 eexists. split_and!; [done..|]. exists o. destruct o as [rec|]; split_and!; try done.
Qed.

(** ** The wire format *)

Definition encode_ext (e : Z * list byte) : list byte := be_put 2 (fst e) ++ be_put 2 (zlen (snd e)) ++ snd e.
Definition ext_fits (e : Z * list byte) : Prop := 0 <= fst e < 65536 /\ zlen (snd e) < 65536.

(** The loop over extensions is a fold over the extensions that stand there. *)
Lemma extensions_wire step es data h :
  Forall ext_fits es -> data = concat (encode_ext <$> es) ->
  extensions step data h = foldM (fun h e => step (fst e) (snd e) h) h es.
Proof.
  intros Hes ->. unfold extensions. set (data := concat (encode_ext <$> es)).
  match goal with |- loop _ ?b _ = _ => set (body := b) end.
  assert (Hgen : forall es offset h fuel, Forall ext_fits es ->
    holds_at data offset (concat (encode_ext <$> es)) -> offset + zlen (concat (encode_ext <$> es)) = zlen data ->
    (length es < fuel)%nat -> loop fuel body (offset, h) = foldM (fun h e => step (fst e) (snd e) h) h es).
  { clear h Hes. intros l. induction l as [|[ty d] l IH]; intros offset h fuel Hes Hat Hend Hf;
      (destruct fuel as [|fuel]; [cbn in Hf; lia|]).
    - change (zlen (concat (encode_ext <$> []))) with 0 in Hend. apply loop_done. unfold body.
      by rewrite (proj2 (Z.leb_gt (offset + 4) (zlen data))) by lia.
    - apply Forall_cons in Hes as [[Ht Hl] Hes]. cbn [fst snd] in Ht, Hl.
      cbn [fmap list_fmap concat] in Hat, Hend. set (rest := concat (encode_ext <$> l)) in *.
      unfold encode_ext in Hat, Hend. cbn [fst snd] in Hat, Hend.
      apply holds_at_app in Hat as [Ha Hr]. apply holds_at_app in Ha as [H1 Ha]. apply holds_at_app in Ha as [H2 H3].
      rewrite !zlen_app, !zlen_be_put in *. pose proof (zlen_nonneg d). pose proof (zlen_nonneg rest).
      change (Z.of_nat 2) with 2 in *. replace (offset + 2 + 2) with (offset + 4) in H3 by lia.
      assert (Eb : body (offset, h) = h' ← step ty d h; Ok (Next (offset + 4 + zlen d, h'))).
      { unfold body. rewrite (proj2 (Z.leb_le (offset + 4) (zlen data))) by lia.
        rewrite (holds_at_put _ _ _ _ H1) by lia. cbn [mbind res_bind].
        rewrite (holds_at_put _ _ _ _ H2) by lia. cbn [mbind res_bind].
        rewrite (proj2 (Z.ltb_ge (zlen data) (offset + 4 + zlen d))) by lia.
        by rewrite (holds_at_slice _ _ _ H3). }
      cbn [foldM fst snd]. destruct (step ty d h) as [h'| |]; cbn [mbind res_bind] in Eb |- *;
        [|cbn [loop]; by rewrite Eb..].
      rewrite (loop_next _ _ _ _ Eb). apply IH; [done| |lia|cbn in Hf; lia].
      by replace (offset + 4 + zlen d) with (offset + (2 + (2 + zlen d))) by lia. }
  apply Hgen; [done|apply holds_at_self|by rewrite Z.add_0_l|].
  assert (length es <= length data)%nat; [|lia]. unfold data. clear. induction es as [|e es IH]; [done|].
  cbn [fmap list_fmap concat]. rewrite length_app. unfold encode_ext at 1. rewrite !length_app, !length_be_put. cbn. lia.
Qed.

(** The extensions a client sends, and what they mean. *)
Inductive extension :=
  | XSni (name : list byte)
  | XAlpn (protos : list (list byte))
  | XVersions (vs : list Z)
  | XOther (ty : Z) (data : list byte).

Definition alpn_list (protos : list (list byte)) : list byte := concat ((fun p => byte_of (zlen p) :: p) <$> protos).
Definition words (vs : list Z) : list byte := concat (be_put 2 <$> vs).

Definition ext_wire (x : extension) : Z * list byte :=
  match x with
  | XSni name => (0, be_put 2 (3 + zlen name) ++ [x00] ++ be_put 2 (zlen name) ++ name)
  | XAlpn protos => (16, be_put 2 (zlen (alpn_list protos)) ++ alpn_list protos)
  | XVersions vs => (43, byte_of (2 * zlen vs) :: words vs)
  | XOther ty data => (ty, data)
  end.

Definition extension_ok (x : extension) : Prop :=
  ext_fits (ext_wire x) /\
  match x with
  | XSni name => True
  | XAlpn protos => Forall (fun p => zlen p < 256) protos
  | XVersions vs => 1 <= zlen vs < 128 /\ Forall (fun v => 0 <= v < 65536) vs
  | XOther ty _ => ty ∉ [0; 16; 43]
  end.

(** The last of the known versions. *)
Definition last_known (version : string) (vs : list Z) : string :=
  foldl (fun version v => default version (TLSVersionNames !! v)) version vs.

Definition ext_means (h : handshake) (x : extension) : handshake :=
  let ty := fst (ext_wire x) in
  let exts := if is_grease ty then ExtensionTypes h else ExtensionTypes h ++ [ty] in
  match x with
  | XSni name => with_names (gostr name) (ALPN h) exts h
  | XAlpn protos => with_names (SNI h) (gostr <$> protos) exts h
  | XVersions vs => with_version (last_known (TLSVersion h) vs) (with_names (SNI h) (ALPN h) exts h)
  | XOther _ _ => with_names (SNI h) (ALPN h) exts h
  end.

(** Facts on buffers, read off where they stand. *)
Lemma holds_at_byte buf i z t : 0 <= z < 256 -> holds_at buf i (byte_of z :: t) ->
  exists b, idx buf i = Ok b /\ u8 b = z /\ holds_at buf (i + 1) t.
Proof. intros Hz [Hi Ht]%holds_at_cons. exists (byte_of z). by rewrite u8_byte_of. Qed.

Lemma parseSNI_wire name : zlen name < 65536 ->
  parseSNI (be_put 2 (3 + zlen name) ++ [x00] ++ be_put 2 (zlen name) ++ name) = Ok (gostr name).
Proof.
  intros Hn. pose proof (zlen_nonneg name). set (data := _ ++ _). pose proof (holds_at_self data) as Hat.
  unfold data in Hat at 2. apply holds_at_app in Hat as [_ Hat]. apply holds_at_app in Hat as [Ht Hat].
  apply holds_at_app in Hat as [Hl Hv]. apply holds_at_cons in Ht as [Ht _].
  rewrite !zlen_be_put in *. change (zlen [x00]) with 1 in *. change (0 + Z.of_nat 2) with 2 in *.
  change (2 + 1 + Z.of_nat 2) with 5 in Hv. change (2 + 1) with 3 in Hl.
  assert (Hlen : zlen data = 5 + zlen name) by (unfold data; rewrite !zlen_app, !zlen_be_put; change (zlen [x00]) with 1; lia).
  unfold parseSNI. rewrite Hlen. rewrite (proj2 (Z.ltb_ge (5 + zlen name) 5)) by lia. rewrite Ht. cbn [mbind res_bind].
  change (negb (u8 x00 =? 0)) with false. cbv iota. rewrite (proj2 (Z.ltb_ge (5 + zlen name) (3 + 2))) by lia.
  rewrite (holds_at_put _ _ _ _ Hl) by lia. cbn [mbind res_bind].
  replace (Z.min (zlen name) (5 + zlen name - 5)) with (zlen name) by lia.
  by rewrite (holds_at_slice _ _ _ Hv).
Qed.

Lemma parseALPN_wire protos :
  Forall (fun p => zlen p < 256) protos -> zlen (alpn_list protos) < 65536 ->
  parseALPN (be_put 2 (zlen (alpn_list protos)) ++ alpn_list protos) = Ok (gostr <$> protos).
Proof.
  intros Hp Hn. set (data := _ ++ _). pose proof (holds_at_self data) as Hat.
  unfold data in Hat at 2. apply holds_at_app in Hat as [Hl Hv]. rewrite zlen_be_put in Hv. change (0 + Z.of_nat 2) with 2 in Hv.
  assert (Hlen : zlen data = 2 + zlen (alpn_list protos)) by (unfold data; rewrite !zlen_app, !zlen_be_put; lia).
  pose proof (zlen_nonneg (alpn_list protos)).
  unfold parseALPN. rewrite (proj2 (Z.ltb_ge (zlen data) 2)) by lia.
  rewrite (holds_at_put _ _ _ _ Hl) by lia. cbn [mbind res_bind]. rewrite Hlen, Z.min_id. rewrite <-Hlen.
  match goal with |- loop _ ?b _ = _ => set (body := b) end. rewrite <-(app_nil_l (gostr <$> protos)).
  assert (Hgen : forall l offset acc fuel, Forall (fun p => zlen p < 256) l ->
    holds_at data offset (alpn_list l) -> offset + zlen (alpn_list l) = zlen data -> (length l < fuel)%nat ->
    loop fuel body (offset, acc) = Ok (acc ++ (gostr <$> l))).
  { clear. intros l. induction l as [|p l IH]; intros offset acc fuel Hl Hat Hend Hf; (destruct fuel as [|fuel]; [cbn in Hf; lia|]).
    - change (zlen (alpn_list [])) with 0 in Hend. apply loop_done. unfold body.
      rewrite (proj2 (Z.ltb_ge offset (zlen data))) by lia. by rewrite app_nil_r.
    - apply Forall_cons in Hl as [Hp Hl]. unfold alpn_list in Hat, Hend. cbn [fmap list_fmap concat] in Hat, Hend.
      pose proof (zlen_nonneg p). cbn [app] in Hat, Hend.
      apply (holds_at_byte _ _ (zlen p)) in Hat as (b & Hb & Eb & Hat); [|lia]. apply holds_at_app in Hat as [Hps Hat].
      rewrite zlen_cons, zlen_app in Hend. pose proof (zlen_nonneg (concat ((fun p => byte_of (zlen p) :: p) <$> l))).
      assert (E : body (offset, acc) = Ok (Next (offset + 1 + zlen p, acc ++ [gostr p]))).
      { unfold body. rewrite (proj2 (Z.ltb_lt offset (zlen data))) by lia. rewrite Hb. cbn [mbind res_bind]. rewrite Eb.
        rewrite (proj2 (Z.ltb_ge (zlen data) (offset + 1 + zlen p))) by lia. by rewrite (holds_at_slice _ _ _ Hps). }
      rewrite (loop_next _ _ _ _ E), IH; [by rewrite <-(assoc_L (++))|done|done|unfold alpn_list; lia|cbn in Hf; lia]. }
  apply Hgen; [done|done|lia|]. assert (length protos <= length (alpn_list protos))%nat.
  { unfold alpn_list. clear. induction protos as [|p l IH]; [done|]. cbn. rewrite length_app. lia. }
  unfold data. rewrite length_app, length_be_put. lia.
Qed.

Lemma zlen_words vs : zlen (words vs) = 2 * zlen vs.
Proof.
  unfold words. induction vs as [|v vs IH]; [done|]. cbn [fmap list_fmap concat].
  rewrite zlen_app, zlen_be_put, zlen_cons, IH. lia.
Qed.

Lemma offered_versions_wire vs version :
  1 <= zlen vs < 128 -> Forall (fun v => 0 <= v < 65536) vs ->
  offered_versions (byte_of (2 * zlen vs) :: words vs) version = Ok (last_known version vs).
Proof.
  intros Hn Hvs. set (data := _ :: _). pose proof (holds_at_self data) as Hat. unfold data in Hat at 2.
  apply holds_at_byte in Hat as (b & Hb & Eb & Hat); [|lia]. change (0 + 1) with 1 in Hat.
  assert (Hlen : zlen data = 1 + 2 * zlen vs) by (unfold data; by rewrite zlen_cons, zlen_words).
  unfold offered_versions. rewrite Hb. cbn [mbind res_bind]. rewrite Eb.
  match goal with |- loop _ ?b _ = _ => set (body := b) end.
  assert (Hgen : forall l i version fuel, Forall (fun v => 0 <= v < 65536) l ->
    holds_at data i (words l) -> 0 <= i -> i + 2 * zlen l = 1 + 2 * zlen vs -> (length l < fuel)%nat ->
    loop fuel body (i, version) = Ok (last_known version l)).
  { clear -Hlen. intros l. induction l as [|v l IH]; intros i version fuel Hl Hat Hi Hend Hf; (destruct fuel as [|fuel]; [cbn in Hf; lia|]).
    - change (zlen []) with 0 in Hend. apply loop_done. unfold body. rewrite Hlen.
      rewrite (proj2 (Z.ltb_ge (i + 1) (1 + 2 * zlen vs))) by lia. done.
    - apply Forall_cons in Hl as [Hv Hl]. unfold words in Hat. cbn [fmap list_fmap concat] in Hat.
      apply holds_at_app in Hat as [Hw Hat]. rewrite zlen_be_put in Hat. rewrite zlen_cons in Hend. pose proof (zlen_nonneg l).
      assert (E : body (i, version) = Ok (Next (i + 2, default version (TLSVersionNames !! v)))).
      { unfold body. rewrite Hlen. rewrite !(proj2 (Z.ltb_lt (i + 1) (1 + 2 * zlen vs))) by lia. cbn [andb].
        by rewrite (holds_at_put _ _ _ _ Hw) by lia. }
      rewrite (loop_next _ _ _ _ E). apply IH; [done|done|lia|lia|cbn in Hf; lia]. }
  apply Hgen; [done|done|lia|lia|]. unfold zlen in Hlen. lia.
Qed.

Lemma client_extension_wire x h : extension_ok x ->
  client_extension (fst (ext_wire x)) (snd (ext_wire x)) h = Ok (ext_means h x).
Proof.
  intros [[Ht Hl] Hx]. destruct x as [name|protos|vs|ty data]; unfold client_extension; cbn [ext_wire fst snd] in *.
  - change (is_grease 0) with false. change (0 =? 0) with true. cbv iota zeta.
    rewrite !zlen_app, !zlen_be_put in Hl. pose proof (zlen_nonneg [x00]). by rewrite parseSNI_wire by lia.
  - change (is_grease 16) with false. change (16 =? 0) with false. change (16 =? 16) with true. cbv iota zeta.
    rewrite zlen_app, zlen_be_put in Hl. by rewrite parseALPN_wire by (done || lia).
  - destruct Hx as [Hn Hvs]. change (is_grease 43) with false. change (43 =? 0) with false. change (43 =? 16) with false.
    change (43 =? 43) with true. cbv iota zeta. rewrite zlen_cons, zlen_words, (proj2 (Z.leb_le 3 _)) by lia.
    by rewrite offered_versions_wire.
  - rewrite !not_elem_of_cons in Hx. destruct Hx as (H0 & H16 & H43 & _).
    rewrite (proj2 (Z.eqb_neq ty 0)), (proj2 (Z.eqb_neq ty 16)), (proj2 (Z.eqb_neq ty 43)) by done.
    unfold ext_means. cbn [ext_wire fst]. by destruct (is_grease ty).
Qed.

Lemma parseExtensions_wire xs h : Forall extension_ok xs ->
  parseExtensions (concat (encode_ext <$> (ext_wire <$> xs))) h = Ok (foldl ext_means h xs).
Proof.
  intros Hxs. unfold parseExtensions. rewrite (extensions_wire _ (ext_wire <$> xs)); [|..|done].
  - revert h. induction Hxs as [|x xs Hx _ IH]; intros h; [done|]. cbn [fmap list_fmap foldM foldl].
    rewrite client_extension_wire by done. cbn [mbind res_bind]. apply IH.
  - apply Forall_fmap. apply (Forall_impl _ _ _ Hxs). by intros x [Hx _].
Qed.

(** The hello of a client and of a server. *)
Record client_hello := {
  c_version : Z; c_random : list byte; c_session : list byte; c_suites : list Z; c_methods : list byte;
  c_extensions : list extension;
}.
Record server_hello := {
  s_version : Z; s_random : list byte; s_session : list byte; s_suite : Z; s_method : byte;
  s_extensions : list (Z * list byte);
}.

Definition client_exts (c : client_hello) : list byte := concat (encode_ext <$> (ext_wire <$> c_extensions c)).
Definition client_body (c : client_hello) : list byte :=
  be_put 2 (c_version c) ++ c_random c ++ (byte_of (zlen (c_session c)) :: c_session c) ++
  be_put 2 (2 * zlen (c_suites c)) ++ words (c_suites c) ++
  (byte_of (zlen (c_methods c)) :: c_methods c) ++ be_put 2 (zlen (client_exts c)) ++ client_exts c.
Definition server_exts (s : server_hello) : list byte := concat (encode_ext <$> s_extensions s).
Definition server_body (s : server_hello) : list byte :=
  be_put 2 (s_version s) ++ s_random s ++ (byte_of (zlen (s_session s)) :: s_session s) ++
  be_put 2 (s_suite s) ++ [s_method s] ++ be_put 2 (zlen (server_exts s)) ++ server_exts s.

Definition handshake_bytes (ty : Z) (body : list byte) : list byte := byte_of ty :: be_put 3 (zlen body) ++ body.
Definition record_bytes (ty version : Z) (data : list byte) : list byte :=
  byte_of ty :: be_put 2 version ++ be_put 2 (zlen data) ++ data.

Record client_ok (c : client_hello) : Prop := {
  co_version : 0 <= c_version c < 65536;
  co_random : zlen (c_random c) = 32;
  co_session : zlen (c_session c) < 256;
  co_suites : 2 * zlen (c_suites c) < 65536 /\ Forall (fun v => 0 <= v < 65536) (c_suites c);
  co_methods : zlen (c_methods c) < 256;
  co_extensions : Forall extension_ok (c_extensions c) /\ zlen (client_exts c) < 65536;
}.
Record server_ok (s : server_hello) : Prop := {
  so_version : 0 <= s_version s < 65536;
  so_random : zlen (s_random s) = 32;
  so_session : zlen (s_session s) < 256;
  so_suite : 0 <= s_suite s < 65536;
  so_extensions : Forall ext_fits (s_extensions s) /\ zlen (server_exts s) < 65536;
}.

Definition suite_means (h : handshake) (cs : Z) : handshake :=
  if is_grease cs then h
  else
    let name := default ""%string (CipherSuiteNames !! cs) in
    with_suites (CipherSuite h) (if negb (String.eqb name "") then CipherSuites h ++ [name] else CipherSuites h)
      (CipherSuiteIDs h ++ [cs]) h.

Lemma offered_suites_wire data offset vs h :
  Forall (fun v => 0 <= v < 65536) vs -> holds_at data offset (words vs) ->
  offered_suites data offset (2 * zlen vs) h = Ok (foldl suite_means h vs).
Proof.
  intros Hvs Hat. unfold offered_suites. pose proof (holds_at_bound _ _ _ Hat) as [Ho Hb]. rewrite zlen_words in Hb.
  match goal with |- loop _ ?b _ = _ => set (body := b) end.
  assert (Hgen : forall l i h fuel, Forall (fun v => 0 <= v < 65536) l ->
    holds_at data (offset + i) (words l) -> 0 <= i -> i + 2 * zlen l = 2 * zlen vs -> (length l < fuel)%nat ->
    loop fuel body (i, h) = Ok (foldl suite_means h l)).
  { clear h Hat Hvs. intros l. induction l as [|v l IH]; intros i h fuel Hl Hat Hi Hend Hf; (destruct fuel as [|fuel]; [cbn in Hf; lia|]).
    - change (zlen []) with 0 in Hend. apply loop_done. unfold body. by rewrite (proj2 (Z.ltb_ge i (2 * zlen vs))) by lia.
    - apply Forall_cons in Hl as [Hv Hl]. unfold words in Hat. cbn [fmap list_fmap concat] in Hat.
      apply holds_at_app in Hat as [Hw Hat]. rewrite zlen_be_put in Hat. rewrite zlen_cons in Hend. pose proof (zlen_nonneg l).
      assert (E : body (i, h) = Ok (Next (i + 2, suite_means h v))).
      { unfold body. rewrite (proj2 (Z.ltb_lt i (2 * zlen vs))) by lia.
        rewrite (proj2 (Z.ltb_ge (zlen data) (offset + i + 2))) by lia.
        rewrite (holds_at_put _ _ _ _ Hw) by lia. cbn [mbind res_bind]. unfold suite_means. by destruct (is_grease v). }
      rewrite (loop_next _ _ _ _ E). cbn [foldl]. apply IH; [done| |lia|lia|cbn in Hf; lia].
      change (Z.of_nat 2) with 2 in Hat. by rewrite Z.add_assoc. }
  apply Hgen; [done|by rewrite Z.add_0_r|lia|lia|]. unfold zlen in Hb. lia.
Qed.

Lemma parseClientHello_wire c h : client_ok c ->
  parseClientHello (client_body c) h = Ok (foldl ext_means
    (foldl suite_means (with_version (name_or_hex TLSVersionNames (c_version c)) h) (c_suites c)) (c_extensions c)).
Proof.
  intros [Hv Hr Hs [Hn Hcs] Hm [Hx Hxl]]. set (data := client_body c). pose proof (holds_at_self data) as Hat.
  unfold data in Hat at 2. unfold client_body in Hat.
  pose proof (zlen_nonneg (c_session c)). pose proof (zlen_nonneg (c_suites c)). pose proof (zlen_nonneg (c_methods c)).
  pose proof (zlen_nonneg (client_exts c)).
  assert (Hlen : zlen data = 2 + 32 + 1 + zlen (c_session c) + 2 + 2 * zlen (c_suites c) + 1 + zlen (c_methods c) + 2 + zlen (client_exts c)).
  { unfold data, client_body. rewrite !zlen_app, !zlen_cons, !zlen_be_put, zlen_words, Hr. lia. }
  apply holds_at_app in Hat as [Av Hat]. apply holds_at_app in Hat as [_ Hat]. rewrite zlen_be_put, Hr in Hat.
  change (0 + Z.of_nat 2 + 32) with (2 + 32) in Hat.
  apply holds_at_app in Hat as [As Hat]. apply (holds_at_byte _ _ (zlen (c_session c))) in As as (b & Hb & Eb & _); [|lia].
  rewrite zlen_cons in Hat. replace (2 + 32 + (1 + zlen (c_session c))) with (2 + 32 + 1 + zlen (c_session c)) in Hat by lia.
  apply holds_at_app in Hat as [An Hat]. rewrite zlen_be_put in Hat. change (Z.of_nat 2) with 2 in Hat.
  apply holds_at_app in Hat as [Acs Hat]. rewrite zlen_words in Hat.
  apply holds_at_app in Hat as [Am Hat]. apply (holds_at_byte _ _ (zlen (c_methods c))) in Am as (b' & Hb' & Eb' & _); [|lia].
  rewrite zlen_cons in Hat. rewrite Z.add_assoc in Hat.
  apply holds_at_app in Hat as [Axl Ax]. rewrite zlen_be_put in Ax. change (Z.of_nat 2) with 2 in Ax.
  unfold parseClientHello. rewrite (proj2 (Z.ltb_ge (zlen data) 38)) by lia.
  rewrite (holds_at_put _ _ _ _ Av) by lia. cbn [mbind res_bind]. cbv zeta.
  rewrite (proj2 (Z.leb_gt (zlen data) (2 + 32))) by lia. rewrite Hb. cbn [mbind res_bind]. rewrite Eb.
  rewrite (proj2 (Z.ltb_ge (zlen data) (2 + 32 + 1 + zlen (c_session c) + 2))) by lia.
  rewrite (holds_at_put _ _ _ _ An) by lia. cbn [mbind res_bind].
  rewrite Z.min_l by lia. rewrite (offered_suites_wire data _ (c_suites c)) by done. cbn [mbind res_bind].
  rewrite (proj2 (Z.leb_gt (zlen data) _)) by lia. rewrite Hb'. cbn [mbind res_bind]. rewrite Eb'.
  rewrite (proj2 (Z.ltb_ge (zlen data) _)) by lia.
  rewrite (holds_at_put _ _ _ _ Axl) by lia. cbn [mbind res_bind]. rewrite Z.min_l by lia.
  rewrite (holds_at_slice _ _ _ Ax). cbn [mbind res_bind]. by apply parseExtensions_wire.
Qed.

Lemma parseServerHello_wire s h : server_ok s ->
  parseServerHello (server_body s) h = foldM (fun h e => server_extension (fst e) (snd e) h)
    (with_suites (name_or_hex CipherSuiteNames (s_suite s)) (CipherSuites h) (CipherSuiteIDs h)
       (with_version (name_or_hex TLSVersionNames (s_version s)) h)) (s_extensions s).
Proof.
  intros [Hv Hr Hs Hcs [Hx Hxl]]. set (data := server_body s). pose proof (holds_at_self data) as Hat.
  unfold data in Hat at 2. unfold server_body in Hat.
  pose proof (zlen_nonneg (s_session s)). pose proof (zlen_nonneg (server_exts s)).
  assert (Hlen : zlen data = 2 + 32 + 1 + zlen (s_session s) + 2 + 1 + 2 + zlen (server_exts s)).
  { unfold data, server_body. rewrite !zlen_app, !zlen_cons, !zlen_be_put, Hr, zlen_nil. lia. }
  apply holds_at_app in Hat as [Av Hat]. apply holds_at_app in Hat as [_ Hat]. rewrite zlen_be_put, Hr in Hat.
  change (0 + Z.of_nat 2 + 32) with (2 + 32) in Hat.
  apply holds_at_app in Hat as [As Hat]. apply (holds_at_byte _ _ (zlen (s_session s))) in As as (b & Hb & Eb & _); [|lia].
  rewrite zlen_cons in Hat. replace (2 + 32 + (1 + zlen (s_session s))) with (2 + 32 + 1 + zlen (s_session s)) in Hat by lia.
  apply holds_at_app in Hat as [Acs Hat]. rewrite zlen_be_put in Hat. change (Z.of_nat 2) with 2 in Hat.
  apply holds_at_app in Hat as [_ Hat]. change (zlen [s_method s]) with 1 in Hat.
  apply holds_at_app in Hat as [Axl Ax]. rewrite zlen_be_put in Ax. change (Z.of_nat 2) with 2 in Ax.
  unfold parseServerHello. rewrite (proj2 (Z.ltb_ge (zlen data) 38)) by lia.
  rewrite (holds_at_put _ _ _ _ Av) by lia. cbn [mbind res_bind]. cbv zeta.
  rewrite (proj2 (Z.leb_gt (zlen data) (2 + 32))) by lia. rewrite Hb. cbn [mbind res_bind]. rewrite Eb.
  rewrite (proj2 (Z.ltb_ge (zlen data) (2 + 32 + 1 + zlen (s_session s) + 2))) by lia.
  rewrite (holds_at_put _ _ _ _ Acs) by lia. cbn [mbind res_bind].
  rewrite (proj2 (Z.leb_le _ (zlen data))) by lia.
  rewrite (holds_at_put _ _ _ _ Axl) by lia. cbn [mbind res_bind]. rewrite Z.min_l by lia.
  rewrite (holds_at_slice _ _ _ Ax). cbn [mbind res_bind]. unfold parseServerExtensions.
  by apply extensions_wire.
Qed.

Lemma rd24_at buf i n : 0 <= n < 2 ^ 24 -> holds_at buf i (be_put 3 n) -> rd24 buf i = Ok n.
Proof.
  intros Hn Hat. destruct (be_put_3 n) as (b1 & b2 & b3 & E). pose proof (be_be_put 3 n Hn) as Hbe. rewrite E in Hat, Hbe.
  apply holds_at_cons in Hat as [H1 Hat]. apply holds_at_cons in Hat as [H2 Hat]. apply holds_at_cons in Hat as [H3 _].
  unfold rd24. rewrite H1. cbn [mbind res_bind]. rewrite H2. cbn [mbind res_bind].
  replace (i + 1 + 1) with (i + 2) in H3 by lia. rewrite H3. cbn [mbind res_bind]. rewrite <-Hbe. f_equal. apply be24_lor.
Qed.

Definition hello_named (ty : string) : handshake := with_type_version ty "" no_handshake.

Lemma parseHandshake_wire ty body : 0 <= ty < 256 -> zlen body < 2 ^ 24 ->
  parseHandshake (handshake_bytes ty body) no_handshake =
    if ty =? HandshakeClientHello then parseClientHello body (hello_named "ClientHello")
    else if ty =? HandshakeServerHello then parseServerHello body (hello_named "ServerHello")
    else if ty =? HandshakeCertificate then parseCertificate body (hello_named "Certificate")
    else if ty =? HandshakeServerHelloDone then Ok (hello_named "ServerHelloDone")
    else Ok (hello_named (cat ["Handshake_"; fmt_d ty])).
Proof.
  intros Ht Hb. pose proof (zlen_nonneg body). set (data := handshake_bytes ty body). pose proof (holds_at_self data) as Hat.
  unfold data in Hat at 2. unfold handshake_bytes in Hat.
  assert (Hlen : zlen data = 4 + zlen body) by (unfold data, handshake_bytes; rewrite zlen_cons, zlen_app, zlen_be_put; lia).
  apply holds_at_byte in Hat as (b & Hb0 & Eb & Hat); [|lia]. apply holds_at_app in Hat as [Hl Hd].
  rewrite zlen_be_put in Hd. change (0 + 1 + Z.of_nat 3) with 4 in Hd. change (0 + 1) with 1 in Hl.
  unfold parseHandshake. rewrite (proj2 (Z.ltb_ge (zlen data) 4)) by lia. rewrite Hb0. cbn [mbind res_bind].
  rewrite (rd24_at _ _ _ (conj H Hb) Hl). cbn [mbind res_bind]. unfold slice_from.
  rewrite Hlen, (holds_at_slice _ _ _ Hd). cbn [mbind res_bind]. rewrite (proj2 (Z.leb_le (zlen body) (zlen body))) by lia.
  unfold slice_to. rewrite <-(Z.add_0_l (zlen body)) at 1. rewrite (holds_at_slice _ _ _ (holds_at_self body)). cbn [mbind res_bind]. rewrite Eb. done.
Qed.

(** What dpi accepts: the header of a record of a known type and version. *)
Lemma is_tls_record data version len b :
  0x0300 <= version <= 0x0304 -> 0 < len <= 18432 -> idx data 0 = Ok b -> u8 b = ContentTypeHandshake ->
  holds_at data 1 (be_put 2 version) -> holds_at data 3 (be_put 2 len) -> 5 <= zlen data -> IsTLS data = Ok true.
Proof.
  intros Hv Hl Hb Eb Hver Hlen Hz. unfold IsTLS. rewrite (proj2 (Z.ltb_ge (zlen data) 5)) by lia.
  rewrite Hb. cbn [mbind res_bind]. rewrite Eb. change ((ContentTypeHandshake <? 20) || (23 <? ContentTypeHandshake)) with false.
  cbv iota. pose proof (be_be_put 2 version ltac:(lia)) as Ev. pose proof (be_be_put 2 len ltac:(lia)) as El.
  assert (Hput : forall z, exists x y, be_put 2 z = [x; y]).
  { intros z. pose proof (length_be_put 2 z) as Hn. destruct (be_put 2 z) as [|x [|y [|]]]; try done. eauto. }
  destruct (Hput version) as (v1 & v2 & E1), (Hput len) as (l1 & l2 & E2). rewrite E1 in Hver, Ev. rewrite E2 in Hlen, El.
  apply holds_at_cons in Hver as [R1 Hver]. apply holds_at_cons in Hver as [R2 _].
  apply holds_at_cons in Hlen as [R3 Hlen]. apply holds_at_cons in Hlen as [R4 _].
  rewrite R1. cbn [mbind res_bind]. change (1 + 1) with 2 in R2. rewrite R2. cbn [mbind res_bind].
  change [v1; v2] with ([v1] ++ [v2]) in Ev. rewrite be_snoc in Ev. change (be [v1]) with (Z.lor (Z.shiftl 0 8) (u8 v1)) in Ev.
  rewrite lor_shiftl_u8 in Ev. change [l1; l2] with ([l1] ++ [l2]) in El. rewrite be_snoc in El.
  change (be [l1]) with (Z.lor (Z.shiftl 0 8) (u8 l1)) in El. rewrite lor_shiftl_u8 in El.
  pose proof (u8_range v1). pose proof (u8_range v2). pose proof (u8_range l1). pose proof (u8_range l2).
  assert (u8 v1 = 3) as -> by lia. rewrite (proj2 (Z.ltb_ge 4 (u8 v2))) by lia. change (negb (3 =? 3)) with false. cbn [orb].
  unfold word16. rewrite R3. cbn [mbind res_bind]. rewrite R4. cbn [mbind res_bind].
  change (Z.lor (Z.shiftl (u8 l1) 8) (u8 l2)) with (Z.lor (Z.shiftl (u8 l1) 8) (u8 l2)). rewrite lor_shiftl_u8.
  rewrite (proj2 (Z.ltb_lt 0 _)), (proj2 (Z.leb_le _ 18432)) by lia. done.
Qed.

(** A packet that carries a handshake message in a record, and whatever follows it. *)
Record carries (pkt : Packet) (ty : Z) (body : list byte) : Prop := {
  ca_proto : Protocol pkt = "TCP"%string;
  ca_payload : exists version rest, 0x0300 <= version <= 0x0304 /\
    Payload pkt = record_bytes ContentTypeHandshake version (handshake_bytes ty body) ++ rest;
  ca_type : 0 <= ty < 256;
  ca_size : zlen body <= 16384;
}.

(** The record kept for a packet. *)
Definition record_of (pkt : Packet) (h : handshake) : tlsRecord :=
  {| x_SrcIP := SrcIP pkt; x_DstIP := DstIP pkt; x_SrcPort := SrcPort pkt; x_DstPort := DstPort pkt;
     x_FrameNum := FrameNumber pkt; x_Timestamp := Timestamp pkt; x_hs := h |}.

(** What the decoder keeps of a packet that it labels. *)
Definition kept (d : Decoder) (pkt : Packet) (h : handshake) : Decoder * Packet :=
  ({| records := records d ++ [record_of pkt h]; ccsSeen := ccsSeen d |},
   set_app (if (DstPort pkt =? 443) || (SrcPort pkt =? 443) then "HTTPS"%string else "TLS"%string) (tls_summary h) pkt).

Definition finished_encrypted (version : Z) : handshake :=
  with_type_version "Finished (encrypted)" (name_or_hex TLSVersionNames version) no_handshake.

Lemma HandlePacket_carries d pkt ty body : carries pkt ty body ->
  if bool_decide (dirKey pkt ∈ ccsSeen d) then exists version, HandlePacket d pkt = Ok (kept d pkt (finished_encrypted version))
  else HandlePacket d pkt = h ← parseHandshake (handshake_bytes ty body) no_handshake; Ok (kept d pkt h).
Proof.
  intros [Hp (version & rest & Hv & Epl) Ht Hs]. set (hs := handshake_bytes ty body) in *.
  assert (Hhl : zlen hs = 4 + zlen body) by (unfold hs, handshake_bytes; rewrite zlen_cons, zlen_app, zlen_be_put; lia).
  pose proof (zlen_nonneg body). pose proof (zlen_nonneg rest).
  assert (Hat : holds_at (Payload pkt) 0 (record_bytes ContentTypeHandshake version hs))
    by (exists [], rest; split; [exact Epl|done]).
  assert (Hlen : zlen (Payload pkt) = 5 + zlen hs + zlen rest).
  { rewrite Epl. unfold record_bytes. rewrite zlen_app, zlen_cons, !zlen_app, !zlen_be_put. lia. }
  clearbody hs. unfold record_bytes in Hat. apply holds_at_byte in Hat as (b & Hb & Eb & Hat); [|done]. change (0 + 1) with 1 in Hat.
  apply holds_at_app in Hat as [Hver Hat]. rewrite zlen_be_put in Hat. change (1 + Z.of_nat 2) with 3 in Hat.
  apply holds_at_app in Hat as [Hl Hd]. rewrite zlen_be_put in Hd. change (3 + Z.of_nat 2) with 5 in Hd.
  pose proof (holds_at_put _ _ _ _ Hver ltac:(lia)) as Rv. pose proof (holds_at_put _ _ _ _ Hl ltac:(lia)) as Rl.
  assert (Ha : admits pkt = Ok true).
  { unfold admits. rewrite Hp. change (String.eqb "TCP" "TCP") with true. cbn [negb].
    rewrite (proj2 (Z.ltb_ge (zlen (Payload pkt)) 5)) by lia. destruct (isTLSPort _ _); [done|].
    apply (is_tls_record _ version (zlen hs) b); [lia|lia|exact Hb|exact Eb|exact Hver|exact Hl|lia]. }
  assert (Hh : HandlePacket d pkt = if bool_decide (dirKey pkt ∈ ccsSeen d) then Ok (kept d pkt (finished_encrypted version))
    else h ← parseHandshake hs no_handshake; Ok (kept d pkt h)).
  { unfold HandlePacket. rewrite Ha. cbn [mbind res_bind negb]. unfold parseTLS. rewrite Hb. cbn [mbind res_bind]. rewrite Eb.
    change ((ContentTypeHandshake <? 20) || (23 <? ContentTypeHandshake)) with false. cbv iota.
    rewrite Rv. cbn [mbind res_bind]. rewrite Rl. cbn [mbind res_bind].
    rewrite (proj2 (Z.ltb_ge version 0x0300)), (proj2 (Z.ltb_ge 0x0304 version)) by lia. cbn [orb andb].
    change (ContentTypeHandshake =? ContentTypeHandshake) with true. cbv iota zeta.
    destruct (bool_decide (dirKey pkt ∈ ccsSeen d)); [done|].
    rewrite Z.min_l by lia. rewrite (proj2 (Z.ltb_ge (zlen hs) 4)) by lia.
    rewrite (holds_at_slice _ _ _ Hd). cbn [mbind res_bind]. by destruct (parseHandshake hs no_handshake). }
  destruct (bool_decide (dirKey pkt ∈ ccsSeen d)); eauto.
Qed.

(** ** What a client hello means *)

Definition sni_of (x : extension) : option string := match x with XSni name => Some (gostr name) | _ => None end.
Definition alpn_of (x : extension) : option (list string) :=
  match x with XAlpn protos => Some (gostr <$> protos) | _ => None end.
Definition versions_of (x : extension) : list Z := match x with XVersions vs => vs | _ => [] end.
Definition suite_name (cs : Z) : option string := if is_grease cs then None else CipherSuiteNames !! cs.

Definition client_means (c : client_hello) : handshake :=
  let xs := c_extensions c in
  {| HandshakeType := "ClientHello";
     TLSVersion := last_known (name_or_hex TLSVersionNames (c_version c)) (xs ≫= versions_of);
     SNI := default ""%string (last (omap sni_of xs)); CipherSuite := "";
     CipherSuites := omap suite_name (c_suites c); CipherSuiteIDs := filterGrease (c_suites c);
     ExtensionTypes := filterGrease (fst ∘ ext_wire <$> xs); ALPN := default [] (last (omap alpn_of xs));
     CertSubject := ""; CertIssuer := "" |}.

Lemma suite_names_nonempty : map_Forall (fun _ name => name <> ""%string) CipherSuiteNames.
Proof. refine (bool_decide_unpack _ _). by vm_compute. Qed.

Lemma grease_filter_cons v l : filterGrease (v :: l) = if is_grease v then filterGrease l else v :: filterGrease l.
Proof. unfold filterGrease. rewrite filter_cons. by destruct (is_grease v). Qed.

Lemma suites_means vs h : foldl suite_means h vs =
  with_suites (CipherSuite h) (CipherSuites h ++ omap suite_name vs) (CipherSuiteIDs h ++ filterGrease vs) h.
Proof.
  revert h. induction vs as [|v vs IH]; intros h; cbn [foldl].
  { cbn [omap list_omap]. unfold filterGrease. rewrite filter_nil, !app_nil_r. by destruct h. }
  rewrite IH, grease_filter_cons. cbn [omap list_omap]. unfold suite_means, suite_name at 2.
  destruct (is_grease v) eqn:Eg; [done|].
  destruct (CipherSuiteNames !! v) as [name|] eqn:En; cbn [default from_option].
  - unfold id. rewrite (proj2 (String.eqb_neq _ _) (suite_names_nonempty _ _ En)). unfold with_suites. cbn. by rewrite <-!(assoc_L (++)).
  - unfold with_suites. cbn. by rewrite <-!(assoc_L (++)).
Qed.

Lemma last_known_app version vs ws : last_known version (vs ++ ws) = last_known (last_known version vs) ws.
Proof. unfold last_known. by rewrite foldl_app. Qed.

Lemma extensions_means xs h : foldl ext_means h xs =
  {| HandshakeType := HandshakeType h; TLSVersion := last_known (TLSVersion h) (xs ≫= versions_of);
     SNI := default (SNI h) (last (omap sni_of xs)); CipherSuite := CipherSuite h;
     CipherSuites := CipherSuites h; CipherSuiteIDs := CipherSuiteIDs h;
     ExtensionTypes := ExtensionTypes h ++ filterGrease (fst ∘ ext_wire <$> xs);
     ALPN := default (ALPN h) (last (omap alpn_of xs)); CertSubject := CertSubject h; CertIssuer := CertIssuer h |}.
Proof.
  induction xs as [|x xs IH] using rev_ind.
  { change (filterGrease ((fst ∘ ext_wire) <$> [])) with (@nil Z). rewrite app_nil_r. by destruct h. }
  rewrite foldl_app, IH. cbn [foldl]. rewrite bind_app, last_known_app, !omap_app, fmap_app.
  unfold filterGrease. rewrite filter_app. fold (filterGrease (fst ∘ ext_wire <$> xs)).
  change (filter _ ((fst ∘ ext_wire) <$> [x])) with (filterGrease ((fst ∘ ext_wire) <$> [x])).
  assert (Eg : filterGrease ((fst ∘ ext_wire) <$> [x]) = if is_grease (fst (ext_wire x)) then [] else [fst (ext_wire x)]).
  { cbn [fmap list_fmap]. rewrite grease_filter_cons. by destruct (is_grease _). }
  rewrite Eg. unfold ext_means. destruct x as [name|protos|vs|ty data]; cbn [versions_of sni_of alpn_of];
    cbn [mbind list_bind omap list_omap sni_of alpn_of versions_of]; rewrite ?app_nil_r, ?last_snoc;
    unfold with_version, with_type_version, with_names; cbn [HandshakeType TLSVersion SNI CipherSuite CipherSuites CipherSuiteIDs
      ExtensionTypes ALPN CertSubject CertIssuer default];
    rewrite (assoc_L (++)); f_equal; by destruct (is_grease _); rewrite ?app_nil_r.
Qed.

(** C15: a client hello is decoded to what the client sent. In a record of any
    version from SSL 3.0 to TLS 1.3, on any port, with any random, session,
    methods, cipher suites and extensions in any order, it is recorded with the
    server name and protocols of the last such extension, with all its suites
    and extension types but the GREASE ones, in order, and with the last known
    one of the versions it offers (clients list the highest first), as long as
    its sender has not been seen to change ciphers before. *)
Theorem tls_client_hello_decoded d pkt c :
  carries pkt HandshakeClientHello (client_body c) -> client_ok c -> dirKey pkt ∉ ccsSeen d ->
  exists pkt', HandlePacket d pkt =
    Ok ({| records := records d ++ [record_of pkt (client_means c)]; ccsSeen := ccsSeen d |}, pkt').
Proof.
  intros Hca Hc Hd. pose proof (HandlePacket_carries d pkt _ _ Hca) as Hh. rewrite (bool_decide_eq_false_2 _ Hd) in Hh.
  rewrite Hh. destruct Hca as [_ _ Ht Hs]. rewrite parseHandshake_wire by lia. change (HandshakeClientHello =? HandshakeClientHello) with true.
  cbv iota. rewrite parseClientHello_wire by done. cbn [mbind res_bind]. rewrite extensions_means, suites_means.
  eexists. reflexivity.
Qed.

(** ** Connections *)

Lemma rev_key_involutive k : rev_key (rev_key k) = k.
Proof. by destruct k as [[[? ?] ?] ?]. Qed.

(** The record is of the connection [k], in one direction or the other. *)
Definition of_connection (k : connKey) (r : tlsRecord) : Prop := key_of r = k \/ key_of r = rev_key k.
#[export] Instance of_connection_dec k r : Decision (of_connection k r).
Proof. unfold of_connection. apply _. Defined.

Record grouped (rs : list tlsRecord) (m : gmap connKey (list tlsRecord)) : Prop := {
  gp_group : forall k l, m !! k = Some l -> l = filter (of_connection k) rs;
  gp_once : forall k, is_Some (m !! k) -> rev_key k <> k -> m !! rev_key k = None;
  gp_all : forall r, r ∈ rs -> is_Some (m !! key_of r) \/ is_Some (m !! rev_key (key_of r));
  gp_nonempty : forall k l, m !! k = Some l -> l <> [];
}.

Lemma of_connection_two k1 k2 r : of_connection k1 r -> of_connection k2 r -> k2 = k1 \/ k2 = rev_key k1.
Proof.
  unfold of_connection. intros [E1|E1] [E2|E2]; rewrite E1 in E2.
  - by left.
  - right. by rewrite E2, rev_key_involutive.
  - by right.
  - left. by rewrite <-(rev_key_involutive k1), E2, rev_key_involutive.
Qed.

(** A record joins, or opens, the group [k]. *)
Lemma grouped_insert rs m r k l :
  grouped rs m -> of_connection k r -> (rev_key k <> k -> m !! rev_key k = None) ->
  l = filter (of_connection k) rs -> grouped (rs ++ [r]) (<[k := l ++ [r]]> m).
Proof.
  intros [G1 G2 G3 G4] Hof Hx Hl. split.
  - intros k2 l2. rewrite filter_app, filter_cons, filter_nil. destruct (decide (k2 = k)) as [->|Hne].
    + rewrite lookup_insert_eq, decide_True by done. intros [= <-]. by rewrite Hl.
    + rewrite lookup_insert_ne by done. intros E. rewrite decide_False, app_nil_r; [by apply G1|].
      intros Hof2. destruct (of_connection_two _ _ _ Hof Hof2) as [->| ->]; [done|]. rewrite Hx in E; done.
  - intros k2 Hk2 Hr. destruct (decide (rev_key k2 = k)) as [<-|Hne].
    + rewrite rev_key_involutive in Hx. rewrite lookup_insert_ne in Hk2 by done. rewrite Hx in Hk2 by done. by destruct Hk2.
    + rewrite lookup_insert_ne by done. destruct (decide (k2 = k)) as [->|Hne2]; [by apply Hx|].
      rewrite lookup_insert_ne in Hk2 by done. by apply G2.
  - assert (Hmono : forall x, is_Some (m !! x) -> is_Some (<[k := l ++ [r]]> m !! x)).
    { intros x Hx2. destruct (decide (x = k)) as [->|]; [rewrite lookup_insert_eq; by eexists|by rewrite lookup_insert_ne]. }
    intros r' [Hr|Hr]%elem_of_app; [destruct (G3 _ Hr); auto|]. apply list_elem_of_singleton in Hr as ->.
    destruct Hof as [->| ->]; [left|right; rewrite rev_key_involutive]; rewrite lookup_insert_eq; by eexists.
  - intros k2 l2. destruct (decide (k2 = k)) as [->|Hne].
    + rewrite lookup_insert_eq. intros [= <-]. by destruct l.
    + rewrite lookup_insert_ne by done. apply G4.
Qed.

Lemma add_record_grouped rs m r : grouped rs m -> grouped (rs ++ [r]) (add_record m r).
Proof.
  intros Hg. pose proof Hg as [G1 G2 G3 _]. unfold add_record. set (k := key_of r).
  destruct (m !! rev_key k) as [l|] eqn:Er.
  - apply grouped_insert; [done|right; by rewrite rev_key_involutive| |by apply G1].
    intros Hne. apply G2; [by eexists|done].
  - apply grouped_insert; [done|by left|by intros _|]. destruct (m !! k) as [l|] eqn:Ek; [by apply G1|].
    destruct (filter (of_connection k) rs) as [|r' l] eqn:Ef; [done|]. exfalso.
    assert (Hr : r' ∈ r' :: l) by left. rewrite <-Ef, list_elem_of_filter in Hr. destruct Hr as [Hof Hr].
    destruct (G3 _ Hr) as [Hx|Hx]; destruct Hof as [E|E]; rewrite E, ?rev_key_involutive in Hx;
      rewrite ?Ek, ?Er in Hx; by destruct Hx.
Qed.

Lemma connections_grouped rs : grouped rs (connections rs).
Proof.
  unfold connections. induction rs as [|r rs IH] using rev_ind.
  - split; [done|done| |done]. by intros r ?%not_elem_of_nil.
  - rewrite foldl_app. by apply add_record_grouped.
Qed.

(** Every record is in one group. *)
Lemma concat_insert (m : gmap connKey (list tlsRecord)) k r :
  concat (snd <$> map_to_list (<[k := default [] (m !! k) ++ [r]]> m)) ≡ₚ concat (snd <$> map_to_list m) ++ [r].
Proof.
  rewrite <-insert_delete_eq, map_to_list_insert by apply lookup_delete_eq. cbn [fmap list_fmap concat snd].
  destruct (m !! k) as [l|] eqn:E; cbn [default from_option].
  - rewrite <-(map_to_list_delete m k l) by done. cbn [fmap list_fmap concat snd]. unfold id. rewrite <-!(assoc_L (++)).
    apply Permutation_app_head, Permutation_app_comm.
  - rewrite delete_id by done. apply Permutation_app_comm.
Qed.

Lemma connections_concat rs : concat (snd <$> map_to_list (connections rs)) ≡ₚ rs.
Proof.
  unfold connections. induction rs as [|r rs IH] using rev_ind; [done|].
  rewrite foldl_app. cbn [foldl]. rewrite <-IH at 2. set (m := foldl add_record ∅ rs). unfold add_record.
  destruct (m !! rev_key (key_of r)) as [l|] eqn:E; [|apply concat_insert].
  pose proof (concat_insert m (rev_key (key_of r)) r) as Hc. by rewrite E in Hc.
Qed.

Lemma lookup_put_if_ne b k v (m : gmap string any) k' : k <> k' -> put_if b k v m !! k' = m !! k'.
Proof. intros Hk. unfold put_if. destruct b; [by rewrite lookup_insert_ne|done]. Qed.

Lemma connection_metrics_eq `{Unicode} `{GoLib} kv :
  Metrics (connection_flow kv) = connection_metrics (foldl merge no_handshake (x_hs <$> kv.2)) (HandshakeType ∘ x_hs <$> kv.2).
Proof. destruct kv as [[[[? ?] ?] ?] rs]. unfold connection_flow. by destruct (foldl merge_time _ _). Qed.

Lemma connection_flow_counts `{Unicode} `{GoLib} k l :
  get_int (Metrics (connection_flow (k, l))) "message_count" = Some (zlen l) /\
  get_str (Metrics (connection_flow (k, l))) "handshake_messages" = Some (join ", " (HandshakeType ∘ x_hs <$> l)).
Proof.
  rewrite connection_metrics_eq. cbn [snd]. set (types := (HandshakeType ∘ x_hs) <$> l).
  assert (zlen l = zlen types) as -> by (unfold types, zlen; by rewrite length_fmap).
  unfold connection_metrics, get_int, get_str. cbv zeta.
  split; rewrite !lookup_put_if_ne by done; [by rewrite lookup_insert_eq|].
  by rewrite lookup_insert_ne, lookup_insert_eq by done.
Qed.

(** Flush reports every connection once. Whatever the order of the range
    over them, the flows have distinct end points, in whichever direction; each
    counts the records between its end points, in both directions and in the
    order of capture; and the counts of all flows add up to all records. *)
Theorem tls_flush_exact `{Unicode} `{GoLib} rs order :
  map_order (connections rs) order ->
  (forall i j a b, order !! i = Some a -> order !! j = Some b -> fst b = fst a \/ fst b = rev_key (fst a) -> i = j) /\
  (forall k l, (k, l) ∈ order -> l = filter (of_connection k) rs /\ l <> [] /\
    get_int (Metrics (connection_flow (k, l))) "message_count" = Some (zlen l) /\
    get_str (Metrics (connection_flow (k, l))) "handshake_messages" = Some (join ", " (HandshakeType ∘ x_hs <$> l))) /\
  concat (snd <$> order) ≡ₚ rs.
Proof.
  intros Ho. pose proof (connections_grouped rs) as [G1 G2 _ G4]. unfold map_order in Ho.
  assert (Hin : forall k l, (k, l) ∈ order <-> connections rs !! k = Some l).
  { intros k l. rewrite Ho. apply elem_of_map_to_list. }
  assert (Hnd : NoDup (fst <$> order)) by (rewrite Ho; apply NoDup_fst_map_to_list).
  split; [|split].
  - intros i j [ka la] [kb lb] Hi Hj Hk. cbn [fst] in Hk.
    assert (Ha : connections rs !! ka = Some la) by (apply Hin; by eapply list_elem_of_lookup_2).
    assert (Hb : connections rs !! kb = Some lb) by (apply Hin; by eapply list_elem_of_lookup_2).
    assert (kb = ka) as ->.
    { destruct Hk as [->| ->]; [done|]. destruct (decide (rev_key ka = ka)) as [E|E]; [done|].
      rewrite G2 in Hb; [done|by eexists|done]. }
    eapply (NoDup_lookup (fst <$> order)); [done| |]; rewrite list_lookup_fmap; [by rewrite Hi|by rewrite Hj].
  - intros k l Hl%Hin. split_and!; [by apply G1|by eapply G4| |]; apply connection_flow_counts.
  - rewrite Ho. apply connections_concat.
Qed.

(** ** ChangeCipherSpec *)

Lemma parseTLS_ccs d pkt : 5 <= zlen (Payload pkt) -> returns (parseTLS d pkt) (fun '(d', _, _) => ccsSeen d ⊆ ccsSeen d').
Proof. intros Hl. unfold parseTLS, keep_record. run_tls; cbn; set_solver. Qed.

Lemma HandlePacket_ccs d pkt d' pkt' : HandlePacket d pkt = Ok (d', pkt') -> ccsSeen d ⊆ ccsSeen d'.
Proof.
  unfold HandlePacket. destruct (returns_inv _ _ (tls_admits_returns pkt)) as (b & -> & Hl). cbn [mbind res_bind].
  destruct b; cbn [negb]; [|by intros [= <- _]].
  destruct (returns_inv _ _ (parseTLS_ccs d pkt (Hl eq_refl))) as ([[d2 p2] o] & -> & Hs). by intros [= <- _].
Qed.

(** A sender that was once seen to change ciphers is never read again: the
    state is not cleared, so the hello of a later connection of the same end
    points is recorded as the encrypted end of a handshake, without its name. *)
Lemma tls_ccs_hides_hello d pkts d' pkt ty body :
  dirKey pkt ∈ ccsSeen d -> handle_all d pkts = Ok d' -> carries pkt ty body ->
  exists version, HandlePacket d' pkt = Ok (kept d' pkt (finished_encrypted version)).
Proof.
  intros Hc Hr Hca. assert (Hc' : dirKey pkt ∈ ccsSeen d').
  { revert d Hc Hr. unfold handle_all. induction pkts as [|p pkts IH]; intros d Hc; cbn [foldM]; [by intros [= <-]|].
    destruct (HandlePacket d p) as [[d2 p2]| |] eqn:E; [|done..]. cbn [mbind res_bind]. apply IH.
    by apply (HandlePacket_ccs _ _ _ _ E). }
  pose proof (HandlePacket_carries d' pkt ty body Hca) as Hh. by rewrite (bool_decide_eq_true_2 _ Hc') in Hh.
Qed.

(** ** TLS 1.3 *)

Lemma collect_member {A B} (g : A -> res (list B)) l x b :
  (forall y, y ∈ l -> exists bs, g y = Ok bs) -> x ∈ l -> (exists bs, g x = Ok bs /\ b ∈ bs) ->
  exists out, collect g l = Ok out /\ b ∈ out.
Proof.
  intros Hok Hx (bs & Ex & Hb). unfold collect.
  assert (Hgen : forall l acc, (forall y, y ∈ l -> exists bs, g y = Ok bs) -> b ∈ acc \/ x ∈ l ->
    exists out, foldM (fun acc x => bs ← g x; Ok (acc ++ bs)) acc l = Ok out /\ b ∈ out).
  { clear Hok Hx l. intros l. induction l as [|y l IH]; intros acc Hok Hor; cbn [foldM].
    { exists acc. split; [done|]. destruct Hor as [?|?%not_elem_of_nil]; done. }
    destruct (Hok y) as [bsy Ey]; [by left|]. rewrite Ey. cbn [mbind res_bind]. apply IH; [intros z Hz; apply Hok; by right|].
    destruct Hor as [Ha|[->|Hl]%elem_of_cons]; [left; apply elem_of_app; by left| |by right].
    left. apply elem_of_app. right. by assert (bsy = bs) as -> by congruence. }
  apply Hgen; auto.
Qed.

Section tls13.
Context `{Unicode} `{GoLib}.

(** The suites of TLS 1.3, all of which exchange keys with forward secrecy. *)
Definition tls13_suites : list Z := [0x1301; 0x1302; 0x1303].

Lemma weak_cipher_graded suite cipher : suite ∈ tls13_suites -> CipherSuiteNames !! suite = Some cipher ->
  cipher <> ""%string /\ name_or_hex CipherSuiteNames suite = cipher /\ hasForwardSecrecy cipher = false /\ cipherStrength cipher = "C"%string /\
  forall ctx f, f ∈ ctx_Flows ctx -> fs_Type f = "TLS"%string -> get_str (fs_Metrics f) "cipher_suite" = Some cipher ->
    exists alerts a, Check tlsWeakCipherRule ctx = Ok alerts /\ a ∈ alerts /\ a_FlowID a = fs_FlowID f /\
      a_Severity a = SeverityWarning /\ a_Title a = "No Forward Secrecy: " +:+ cipher.
Proof.
  intros Hs Hc.
  assert (Hfacts : cipher <> ""%string /\ name_or_hex CipherSuiteNames suite = cipher /\ hasForwardSecrecy cipher = false /\
    cipherStrength cipher = "C"%string /\
    filter (fun frag => GoStr.contains (to_upper (gobytes cipher)) (to_upper (gobytes frag)) = true) brokenCipherFragments = [] /\
    negb (GoStr.contains (to_upper (gobytes cipher)) (gobytes "ECDHE")) &&
      negb (GoStr.contains (to_upper (gobytes cipher)) (gobytes "DHE")) = true).
  { unfold tls13_suites in Hs. repeat (apply elem_of_cons in Hs as [->|Hs]; [vm_compute in Hc; injection Hc as <-;
      split_and!; [discriminate|vm_compute; reflexivity..]|]). by apply not_elem_of_nil in Hs. }
  destruct Hfacts as (Hne & Hn & Hf & Hg & Hb & Hd). split_and!; [done..|].
  intros ctx f Hin Hty Hcs. unfold tlsWeakCipherRule, flow_rule. cbn [Check].
  match goal with |- context [collect ?g _] => set (g0 := g) end.
  assert (Hone : exists a, g0 f = Ok [a] /\ a_FlowID a = fs_FlowID f /\ a_Severity a = SeverityWarning /\
    a_Title a = "No Forward Secrecy: " +:+ cipher).
  { unfold g0, of_type. rewrite Hty. change (negb (String.eqb "TLS" "TLS")) with false. cbv iota.
    assert (str_metric (fs_Metrics f) "cipher_suite" = cipher) as -> by (unfold str_metric; by rewrite Hcs).
    rewrite (proj2 (String.eqb_neq _ _) Hne). cbv zeta. rewrite Hb, Hd. cbn [length negb andb Nat.ltb Nat.leb].
    change ((0 =? 0)%nat) with true. cbn [andb negb]. eexists. split; [reflexivity|]. split_and!; [done..|].
    reflexivity. }
  destruct Hone as (a & Ea & Hid & Hsev & Hti).
  destruct (collect_member g0 (ctx_Flows ctx) f a) as (alerts & Eal & Hal); [|exact Hin|exists [a]; split; [exact Ea|apply elem_of_cons; by left]|].
  { intros y _. unfold g0, of_type. cbv zeta.
    repeat match goal with |- exists bs, (if ?b then _ else _) = _ => destruct b; [by eexists|] end.
    destruct (_ <? _)%nat; by eexists. }
  by exists alerts, a.
Qed.

Definition plain_ext (e : Z * list byte) : Prop := fst e ∉ [16; 43].

Lemma server_plain es h : Forall plain_ext es -> foldM (fun h e => server_extension (fst e) (snd e) h) h es = Ok h.
Proof.
  intros Hes. induction Hes as [|[ty data] es He _ IH]; [done|]. cbn [foldM fst snd]. unfold plain_ext in He. cbn [fst] in He.
  rewrite !not_elem_of_cons in He. destruct He as (H16 & H43 & _). 
  assert (server_extension ty data h = Ok h) as ->; [|done].
  unfold server_extension. by rewrite (proj2 (Z.eqb_neq _ _) H16), (proj2 (Z.eqb_neq _ _) H43).
Qed.

(** The server hello chooses TLS 1.3. *)
Record chooses_tls13 (s : server_hello) : Prop := {
  ch_ok : server_ok s;
  ch_suite : s_suite s ∈ tls13_suites;
  ch_version : exists pre post, s_extensions s = pre ++ (43, be_put 2 0x0304) :: post /\ Forall plain_ext (pre ++ post);
}.

Lemma parseServerHello_tls13 s h : chooses_tls13 s ->
  exists h', parseServerHello (server_body s) h = Ok h' /\ TLSVersion h' = "TLS 1.3"%string /\
    CipherSuite h' = name_or_hex CipherSuiteNames (s_suite s).
Proof.
  intros [Hok _ (pre & post & Ex & [Hpre Hpost]%Forall_app)]. rewrite parseServerHello_wire by done.
  rewrite Ex, foldM_app, server_plain by done. cbn [mbind res_bind foldM fst snd].
  match goal with |- context [server_extension 43 _ ?h1] =>
    assert (server_extension 43 (be_put 2 0x0304) h1 = Ok (with_version "TLS 1.3" h1)) as -> by reflexivity end.
  cbn [mbind res_bind]. rewrite server_plain by done. eexists. split; [reflexivity|]. done.
Qed.

Lemma last_merged (hs : list handshake) h : TLSVersion h <> ""%string -> CipherSuite h <> ""%string ->
  let m := foldl merge no_handshake (hs ++ [h]) in TLSVersion m = TLSVersion h /\ CipherSuite m = CipherSuite h.
Proof.
  intros Hv Hc. cbv zeta. rewrite foldl_app. cbn [foldl]. unfold merge at 1 3, later_nonempty. cbn [TLSVersion CipherSuite].
  by rewrite (proj2 (String.eqb_neq _ _) Hv), (proj2 (String.eqb_neq _ _) Hc).
Qed.

(** Every TLS 1.3 connection is condemned. When a server chooses TLS 1.3, in
    whatever state of the decoder and with whatever other extensions, the flow
    of its connection has the version TLS 1.3 and the suite chosen, is said to
    have no forward secrecy and graded C, and the weak-cipher rule warns of a
    key exchange with RSA only, which TLS 1.3 does not have: the suites of TLS
    1.3 do not name their key exchange, and the tests look for it in the name. *)
Theorem tls13_condemned d pkt s d' pkt' order :
  carries pkt HandshakeServerHello (server_body s) -> chooses_tls13 s -> dirKey pkt ∉ ccsSeen d ->
  HandlePacket d pkt = Ok (d', pkt') -> map_order (connections (records d')) order ->
  exists cipher f, CipherSuiteNames !! s_suite s = Some cipher /\ f ∈ Flush order /\
    get_str (Metrics f) "tls_version" = Some "TLS 1.3"%string /\ get_str (Metrics f) "cipher_suite" = Some cipher /\
    get_bool (Metrics f) "has_forward_secrecy" = Some false /\ get_str (Metrics f) "cipher_strength" = Some "C"%string /\
    exists alerts a, Check tlsWeakCipherRule (context_of (summary_of <$> Flush order)) = Ok alerts /\ a ∈ alerts /\
      a_FlowID a = FlowID f /\ a_Severity a = SeverityWarning /\ a_Title a = "No Forward Secrecy: " +:+ cipher.
Proof.
  intros Hca Hs Hd Hh Ho. pose proof (HandlePacket_carries d pkt _ _ Hca) as Hc. rewrite (bool_decide_eq_false_2 _ Hd), Hh in Hc.
  destruct Hca as [_ _ Ht Hsz]. rewrite parseHandshake_wire in Hc by lia.
  change (HandshakeServerHello =? HandshakeClientHello) with false in Hc.
  change (HandshakeServerHello =? HandshakeServerHello) with true in Hc. cbv iota in Hc.
  destruct (parseServerHello_tls13 s (hello_named "ServerHello") Hs) as (h & Eh & Ev & Ec). rewrite Eh in Hc.
  cbn [mbind res_bind] in Hc. injection Hc as -> ->.
  assert (exists cipher, CipherSuiteNames !! s_suite s = Some cipher) as [cipher Hci].
  { pose proof (ch_suite _ Hs) as Hin. unfold tls13_suites in Hin.
    repeat (apply elem_of_cons in Hin as [->|Hin]; [by eexists|]). by apply not_elem_of_nil in Hin. }
  destruct (weak_cipher_graded _ _ (ch_suite _ Hs) Hci) as (Hne & Hn & Hfs & Hg & Hrule). rewrite Hn in Ec.
  set (rec := record_of pkt h). set (rs := records d ++ [rec]).
  assert (exists k l, connections rs !! k = Some (l ++ [rec])) as (k & l & Hk).
  { unfold rs, connections. rewrite foldl_app. cbn [foldl]. unfold add_record.
    destruct (_ !! rev_key (key_of rec)) as [l|]; [exists (rev_key (key_of rec)), l|eexists (key_of rec), _]; by rewrite lookup_insert_eq. }
  assert (Hin : connection_flow (k, l ++ [rec]) ∈ Flush order).
  { unfold Flush. apply list_elem_of_fmap_2. unfold map_order in Ho. rewrite Ho. by apply elem_of_map_to_list. }
  set (f := connection_flow (k, l ++ [rec])) in *.
  assert (Hm : Metrics f = connection_metrics (foldl merge no_handshake (x_hs <$> (l ++ [rec]))) (HandshakeType ∘ x_hs <$> (l ++ [rec])))
    by apply connection_metrics_eq.
  rewrite (fmap_app x_hs) in Hm. destruct (last_merged (x_hs <$> l) h) as [Mv Mc]; [by rewrite Ev|by rewrite Ec|].
  change (x_hs <$> [rec]) with [h] in Hm. set (m := foldl merge _ _) in *. rewrite Ev in Mv. rewrite Ec in Mc. clearbody m.
  exists cipher, f. split; [done|]. split; [done|].
  assert (Hl : get_str (Metrics f) "tls_version" = Some "TLS 1.3"%string /\ get_str (Metrics f) "cipher_suite" = Some cipher /\
    get_bool (Metrics f) "has_forward_secrecy" = Some false /\ get_str (Metrics f) "cipher_strength" = Some "C"%string).
  { rewrite Hm. clear -Hne Hfs Hg Mv Mc. unfold connection_metrics, get_str, get_bool. cbv zeta. rewrite Mv, Mc.
    assert (negb (String.eqb cipher "") = true) as -> by (by rewrite (proj2 (String.eqb_neq _ _) Hne)).
    rewrite Hfs, Hg. unfold put_str.
    assert (negb (String.eqb "TLS 1.3" "") = true) as -> by done.
    assert (negb (String.eqb cipher "") = true) as -> by (by rewrite (proj2 (String.eqb_neq _ _) Hne)).
    split_and!; repeat first [rewrite lookup_put_if_ne by done|rewrite lookup_insert_ne by done];
      unfold put_if; by rewrite lookup_insert_eq. }
  destruct Hl as (H1 & H2 & H3 & H4). split_and!; [done..|].
  apply (Hrule (context_of (summary_of <$> Flush order)) (summary_of f)); [by apply list_elem_of_fmap_2| |done].
  unfold summary_of. cbn [fs_Type]. unfold f, connection_flow. destruct k as [[[? ?] ?] ?]. by destruct (foldl merge_time _ _).
Qed.
End tls13.

(** ** A connection *)

Definition ex_client : client_hello :=
  {| c_version := 0x0303; c_random := replicate 32 x00; c_session := []; c_suites := [0x0a0a; 0x1301; 0xC02F];
     c_methods := [x00];
     c_extensions := [XSni (gobytes "example.org"); XOther 0x1a1a []; XAlpn [gobytes "h2"; gobytes "http/1.1"];
                      XVersions [0x0304; 0x0303]] |}.
Definition ex_server : server_hello :=
  {| s_version := 0x0303; s_random := replicate 32 x01; s_session := []; s_suite := 0x1301; s_method := x00;
     s_extensions := [(51, octets [0; 29; 0; 0]); (43, be_put 2 0x0304)] |}.
Definition ex_hello (src dst : string) (sport dport ty : Z) (body : list byte) : Packet :=
  mk_packet 5 src dst sport dport "TCP" (record_bytes ContentTypeHandshake 0x0301 (handshake_bytes ty body) ++ []).
Definition ex_client_pkt : Packet := ex_hello "10.0.0.1" "10.0.0.2" 50000 443 HandshakeClientHello (client_body ex_client).
Definition ex_server_pkt : Packet := ex_hello "10.0.0.2" "10.0.0.1" 443 50000 HandshakeServerHello (server_body ex_server).

Lemma ex_hello_carries src dst sport dport ty body :
  0 <= ty < 256 -> zlen body <= 16384 -> carries (ex_hello src dst sport dport ty body) ty body.
Proof. intros Ht Hb. split; [done| |done|done]. exists 0x0301, []. split; [lia|done]. Qed.

Lemma ex_client_ok : client_ok ex_client.
Proof.
  split; [done|done|done| |done|]; (split; [|by vm_compute]) || split.
  - done.
  - by repeat constructor.
  - repeat constructor; try (by vm_compute). refine (bool_decide_unpack _ _). by vm_compute.
Qed.

Example tls_client_hello_decoded_witness : exists d pkt', HandlePacket NewDecoder ex_client_pkt = Ok (d, pkt') /\
  (fun r => (SNI (x_hs r), CipherSuiteIDs (x_hs r), ALPN (x_hs r), TLSVersion (x_hs r))) <$> records d =
    [("example.org", [0x1301; 0xC02F], ["h2"; "http/1.1"], "TLS 1.2")]%string.
Proof.
  destruct (tls_client_hello_decoded NewDecoder ex_client_pkt ex_client) as (pkt' & E);
    [by apply ex_hello_carries|apply ex_client_ok|apply not_elem_of_empty|].
  eexists _, pkt'. split; [exact E|]. by vm_compute.
Defined.

Lemma ex_server_tls13 : chooses_tls13 ex_server.
Proof.
  split.
  - split; [done|done|done|done|]. split; [by repeat constructor|by vm_compute].
  - by left.
  - exists [(51, octets [0; 29; 0; 0])], []. split; [done|]. repeat constructor. unfold plain_ext.
    refine (bool_decide_unpack _ _). by vm_compute.
Qed.

Example tls13_condemned_witness : exists d pkt' f,
  HandlePacket NewDecoder ex_server_pkt = Ok (d, pkt') /\
  f ∈ @Flush ascii_only toy_lib (map_to_list (connections (records d))) /\
  get_str (Metrics f) "tls_version" = Some "TLS 1.3"%string /\ get_bool (Metrics f) "has_forward_secrecy" = Some false.
Proof.
  destruct (HandlePacket NewDecoder ex_server_pkt) as [[d pkt']| |] eqn:E; [|vm_compute in E; discriminate E..].
  destruct (@tls13_condemned ascii_only toy_lib NewDecoder ex_server_pkt ex_server d pkt' (map_to_list (connections (records d))))
    as (cipher & f & _ & Hin & Hv & _ & Hfs & _);
    [by apply ex_hello_carries|apply ex_server_tls13|apply not_elem_of_empty|exact E|exact (reflexivity _)|].
  exists d, pkt', f. exact (conj eq_refl (conj Hin (conj Hv Hfs))).
Defined.

Example tls_flush_exact_witness :
  let rs := [record_of ex_client_pkt no_handshake; record_of ex_server_pkt no_handshake] in
  exists order, map_order (connections rs) order /\ length order = 1%nat /\ concat (snd <$> order) ≡ₚ rs.
Proof.
  intros rs. exists (map_to_list (connections rs)).
  destruct (@tls_flush_exact ascii_only toy_lib rs (map_to_list (connections rs)) (reflexivity _)) as (_ & _ & Hc).
  split; [exact (reflexivity _)|]. split; [by vm_compute|exact Hc].
Defined.

(** A certificate whose issuer has no common name: the subject's is taken for
    the issuer's. *)
Example issuer_without_name :
  let cert := octets [0x30; 0x20; 0x31; 0x0b; 0x30; 9; 6; 3; 0x55; 4; 10; 0x0c; 2; 67; 65; 0x30; 9; 6; 3; 0x55; 4; 3; 0x0c; 4; 97; 46; 98; 99; 0] in
  extractCN cert true = Ok ""%string /\ extractCN cert false = Ok "a.bc"%string.
Proof. split; by vm_compute. Qed.
