(* ===== verification/Calls.v ===== *)
(** * Calls: internal/correlation/sip_rtp.go and the call step of the executor

    CorrelateSIPRTP joins the flows of the SIP and RTP decoders into calls; the
    executor (internal/execution/executor.go, and in the same words
    internal/capture/live.go) gives each call its MOS and analyses it. *)
From S2P Require Export Sip.
From S2P Require Export Rtp.

(** ** sip_rtp.go *)

Definition mediaEndpoint : Type := string * Z.

(** The loop over the runes of the text. *)
Fixpoint atoi_runes (n : Z) (rs : list (Z * list byte)) : Z :=
  match rs with
  | [] => n
  | (c, _) :: rs => if (c <? 0x30) || (0x39 <? c) then 0 else atoi_runes (i64 (i64 (n * 10) + (c - 0x30))) rs
  end.
Definition atoi (s : string) : Z := atoi_runes 0 (runes (gobytes s)).

(** The first flow of each Call-ID. The code overwrites the slice it ranges
    over; what it writes is never ahead of what it reads. *)
Fixpoint dedup (seen : gset string) (flows : list Flow) : list Flow :=
  match flows with
  | [] => []
  | f :: flows =>
    if decide (FlowID f ∈ seen) then dedup seen flows else f :: dedup ({[FlowID f]} ∪ seen) flows
  end.

(** The media address and port of a SIP flow, when it has both. *)
Definition media_of (sip : Flow) : option mediaEndpoint :=
  let ip := default ""%string (get_str (Metrics sip) "media_ip") in
  let portStr := default ""%string (get_str (Metrics sip) "media_port") in
  if String.eqb ip "" || String.eqb portStr "" then None else Some (ip, atoi portStr).

Definition isValidRTP (rtp : Flow) (allowed : gset mediaEndpoint) : bool :=
  bool_decide ((F_SrcIP rtp, F_SrcPort rtp) ∈ allowed) || bool_decide ((F_DstIP rtp, F_DstPort rtp) ∈ allowed).

(** The flow is one of the address and of the port, on whatever side. *)
Definition leg_matches (ep : mediaEndpoint) (rtp : Flow) : bool :=
  (String.eqb (F_SrcIP rtp) (fst ep) || String.eqb (F_DstIP rtp) (fst ep))
  && ((F_SrcPort rtp =? snd ep) || (F_DstPort rtp =? snd ep)).

Definition new_call (sip : Flow) (legs : list Flow) : Call :=
  {| CallID := FlowID sip; C_StartTime := StartTime sip; C_EndTime := EndTime sip;
     SIPMetrics := Metrics sip; RTPLegs := Metrics <$> legs; MOS := f_zero; Quality := "";
     IsOnHold := false; EndType := ""; RootCause := ""; Confidence := f_zero |}.

Definition CorrelateSIPRTP (flows : list Flow) : list Call :=
  let sipFlows := dedup ∅ (filter (fun f => Type_ f = FlowSIP) flows) in
  let rtpFlows := filter (fun f => Type_ f = FlowRTP) flows in
  let allowed : gset mediaEndpoint := list_to_set (omap media_of sipFlows) in
  omap (fun sip => ep ← media_of sip;
    Some (new_call sip (filter (fun rtp => isValidRTP rtp allowed && leg_matches ep rtp = true) rtpFlows))) sipFlows.

(** ** executor.go: the quality of a call *)

Definition set_quality (mos : f64) (c : Call) : Call :=
  {| CallID := CallID c; C_StartTime := C_StartTime c; C_EndTime := C_EndTime c;
     SIPMetrics := SIPMetrics c; RTPLegs := RTPLegs c; MOS := mos; Quality := QualityFromMOS mos;
     IsOnHold := IsOnHold c; EndType := EndType c; RootCause := RootCause c; Confidence := Confidence c |}.

(** The body of the loop over the legs. *)
Definition worse_mos (worst : f64) (leg : gmap string any) : f64 :=
  let packetCount := default 0 (get_int leg "packet_count") in
  let jitterMs := default f_zero (get_f64 leg "jitter_ms") in
  let maxSeqGap := default 0 (get_int leg "max_seq_gap") in
  if packetCount =? 0 then worst
  else
    let lossPct := f_mul (f_div (f_int maxSeqGap) (f_int packetCount)) (f_int 100) in
    let mos := ComputeMOS lossPct jitterMs f_zero in
    if f_lt mos worst then mos else worst.

Definition score_call (c : Call) : Call :=
  let worstMOS := foldl worse_mos (f_int 5) (RTPLegs c) in
  if f_lt worstMOS (f_int 5) then set_quality worstMOS c else c.

(** From the flows of a job to its analysed calls. *)
Definition job_calls (flows : list Flow) : list Call :=
  AnalyzeCall <$> (score_call <$> CorrelateSIPRTP flows).

(** ** Which flows make a call *)

(** The flow starts or ends at the endpoint. *)
Definition touches (rtp : Flow) (ep : mediaEndpoint) : Prop :=
  (F_SrcIP rtp, F_SrcPort rtp) = ep \/ (F_DstIP rtp, F_DstPort rtp) = ep.

(** The flow has the address of the endpoint on one side and its port on the other. *)
Definition crosses (rtp : Flow) (ep : mediaEndpoint) : Prop :=
  (F_SrcIP rtp, F_DstPort rtp) = ep \/ (F_DstIP rtp, F_SrcPort rtp) = ep.

Lemma leg_matches_spec ep rtp : leg_matches ep rtp = true <-> touches rtp ep \/ crosses rtp ep.
Proof.
  unfold leg_matches, touches, crosses. destruct ep as [ip port]. cbn [fst snd].
  rewrite andb_true_iff, !orb_true_iff, !String.eqb_eq, !Z.eqb_eq. naive_solver.
Qed.

Lemma isValidRTP_spec rtp eps :
  isValidRTP rtp (list_to_set eps) = true <-> exists ep, ep ∈ eps /\ touches rtp ep.
Proof.
  unfold isValidRTP, touches. rewrite orb_true_iff, !bool_decide_eq_true, !elem_of_list_to_set. naive_solver.
Qed.

(** The first SIP flow of a Call-ID. *)
Definition first_of (id : string) (flows : list Flow) : option Flow :=
  head (filter (fun f => Type_ f = FlowSIP /\ FlowID f = id) flows).

Lemma dedup_elem seen flows f :
  f ∈ dedup seen flows <-> FlowID f ∉ seen /\ head (filter (fun g => FlowID g = FlowID f) flows) = Some f.
Proof.
  revert seen. induction flows as [|g flows IH]; intros seen; cbn [dedup].
  { split; [by intros ?%not_elem_of_nil|by intros [_ ?]]. }
  rewrite filter_cons. destruct (decide (FlowID g ∈ seen)) as [Hg|Hg].
  - rewrite IH. destruct (decide (FlowID g = FlowID f)) as [E|E]; [|done].
    rewrite <-E. cbn [head]. split; [by intros []|]. intros [? _]. done.
  - rewrite elem_of_cons, IH. destruct (decide (FlowID g = FlowID f)) as [E|E].
    + cbn [head]. split.
      * intros [->|[Hf _]]; [done|]. exfalso. apply Hf. rewrite <-E. set_solver.
      * intros [_ [= ->]]. by left.
    + split.
      * intros [->|[Hf Hh]]; [done|]. split; [set_solver|done].
      * intros [Hf Hh]. right. split; [set_solver|done].
Qed.

Lemma dedup_nodup seen flows : NoDup (FlowID <$> dedup seen flows).
Proof.
  revert seen. induction flows as [|g flows IH]; intros seen; cbn [dedup]; [constructor|].
  case_decide; [done|]. cbn [fmap list_fmap]. constructor; [|done].
  intros (f & E & [Hf _]%dedup_elem)%list_elem_of_fmap. set_solver.
Qed.

Lemma NoDup_omap_ids (g : Flow -> option Call) l :
  (forall f c, g f = Some c -> CallID c = FlowID f) ->
  NoDup (FlowID <$> l) -> NoDup (CallID <$> omap g l).
Proof.
  intros Hg. induction l as [|f l IH]; [done|]. cbn [fmap list_fmap omap list_omap].
  intros [Hf Hl]%NoDup_cons. destruct (g f) as [c|] eqn:E; [|auto].
  cbn [fmap list_fmap]. constructor; [|auto]. rewrite (Hg _ _ E).
  intros (c' & E' & (f' & Hf' & Ec')%list_elem_of_omap)%list_elem_of_fmap.
  apply Hf. rewrite E', (Hg _ _ Ec'). by apply list_elem_of_fmap_2.
Qed.

Lemma first_of_dedup flows sip :
  sip ∈ dedup ∅ (filter (fun f => Type_ f = FlowSIP) flows) <-> first_of (FlowID sip) flows = Some sip.
Proof.
  rewrite dedup_elem, list_filter_filter. unfold first_of.
  assert (filter (fun g => FlowID g = FlowID sip /\ Type_ g = FlowSIP) flows =
    filter (fun f => Type_ f = FlowSIP /\ FlowID f = FlowID sip) flows) as ->.
  { apply list_filter_iff. intros f. tauto. }
  split; [by intros []|]. intros H. by split; [apply not_elem_of_empty|].
Qed.

(** Some call of the capture has its media at [ep]. *)
Definition call_endpoint (flows : list Flow) (ep : mediaEndpoint) : Prop :=
  exists sip, first_of (FlowID sip) flows = Some sip /\ media_of sip = Some ep.

(** C10: which flows make a call. Every Call-ID has at most one call, and it has
    one exactly when its first SIP flow has a media address and port, whatever
    its later flows have. The legs of the call are, in their order, the RTP
    flows that start or end at its media endpoint, and besides those the flows
    that have the address of the endpoint on one side and its port on the other
    and start or end at the endpoint of a call of the capture. *)
Theorem calls_exact flows :
  NoDup (CallID <$> CorrelateSIPRTP flows) /\
  forall id,
    ((exists c, c ∈ CorrelateSIPRTP flows /\ CallID c = id) <->
      exists sip ep, first_of id flows = Some sip /\ media_of sip = Some ep) /\
    forall c, c ∈ CorrelateSIPRTP flows -> CallID c = id ->
      exists sip ep legs, first_of id flows = Some sip /\ media_of sip = Some ep /\
        c = new_call sip legs /\ sublist legs flows /\
        forall rtp, rtp ∈ legs <-> rtp ∈ flows /\ Type_ rtp = FlowRTP /\
          (touches rtp ep \/ crosses rtp ep /\ exists ep', call_endpoint flows ep' /\ touches rtp ep').
Proof.
  unfold CorrelateSIPRTP. set (sips := dedup ∅ _). set (rtps := filter _ flows).
  set (allowed := list_to_set (omap media_of sips)).
  pose proof (first_of_dedup flows) as Hf. fold sips in Hf.
  assert (Hid : forall id sip, first_of id flows = Some sip -> FlowID sip = id).
  { intros id sip E%head_Some_elem_of. by apply list_elem_of_filter in E as [[_ ?] _]. }
  assert (Hal : forall rtp, isValidRTP rtp allowed = true <-> exists ep, call_endpoint flows ep /\ touches rtp ep).
  { intros rtp. unfold allowed. rewrite isValidRTP_spec. split; intros (ep & Hep & Ht); exists ep; (split; [|done]).
    - apply list_elem_of_omap in Hep as (sip & Hs & Hm). exists sip. by rewrite <-Hf.
    - destruct Hep as (sip & Hs & Hm). apply list_elem_of_omap. exists sip. by rewrite Hf. }
  split; [|intros id; split; [split|]].
  - apply NoDup_omap_ids; [|apply dedup_nodup]. intros f c. by destruct (media_of f); intros [= <-].
  - intros (c & (sip & Hs & Hm)%list_elem_of_omap & <-). destruct (media_of sip) as [ep|] eqn:E; [|done].
    injection Hm as <-. exists sip, ep. split; [by apply Hf|done].
  - intros (sip & ep & Hs & Hm). pose proof (Hid _ _ Hs) as <-. eexists. split.
    + apply list_elem_of_omap. exists sip. split; [by apply Hf|]. by rewrite Hm.
    + done.
  - intros c (sip & Hs & Hm)%list_elem_of_omap <-. destruct (media_of sip) as [ep|] eqn:E; [|done].
    injection Hm as <-. exists sip, ep. eexists. split_and!; [by apply Hf|done|done| |].
    + transitivity rtps; apply sublist_filter.
    + intros rtp. rewrite list_elem_of_filter. unfold rtps. rewrite list_elem_of_filter, andb_true_iff, Hal, leg_matches_spec.
      assert (call_endpoint flows ep) by (exists sip; by rewrite <-Hf).
      split; [naive_solver|]. intros (? & ? & [?|[? ?]]); naive_solver.
Qed.

(** Two calls of one gateway: a stream from the gateway at one call's port to
    another host at the port of the other call is a leg of both. *)
Definition ex_sip (id ip port : string) : Flow :=
  {| FlowID := id; Type_ := FlowSIP; F_SrcIP := "10.0.0.1"; F_DstIP := "10.0.0.2"; F_SrcPort := 0; F_DstPort := 0;
     StartTime := 1; EndTime := 2;
     Metrics := <["media_ip"%string := AStr ip]> (<["media_port"%string := AStr port]> ∅) |}.
Definition ex_rtp (src dst : string) (sport dport : Z) : Flow :=
  {| FlowID := ""; Type_ := FlowRTP; F_SrcIP := src; F_DstIP := dst; F_SrcPort := sport; F_DstPort := dport;
     StartTime := 1; EndTime := 2; Metrics := ∅ |}.
Definition ex_flows : list Flow :=
  [ex_sip "a" "10.0.0.9" "4000"; ex_sip "b" "10.0.0.9" "4002"; ex_rtp "10.0.0.9" "10.0.0.7" 4000 4002].

Example calls_exact_witness : exists c, c ∈ CorrelateSIPRTP ex_flows /\ CallID c = "b"%string /\
  exists legs, ex_rtp "10.0.0.9" "10.0.0.7" 4000 4002 ∈ legs /\ c = new_call (ex_sip "b" "10.0.0.9" "4002") legs.
Proof.
  destruct (calls_exact ex_flows) as [_ Hc]. destruct (Hc "b"%string) as [[_ He] Hl].
  destruct He as (c & Hin & Hid).
  { exists (ex_sip "b" "10.0.0.9" "4002"), ("10.0.0.9"%string, 4002). split; reflexivity. }
  exists c. split; [exact Hin|]. split; [exact Hid|].
  destruct (Hl c Hin Hid) as (sip & ep & legs & H1 & H2 & -> & _ & Hr).
  assert (Some (ex_sip "b" "10.0.0.9" "4002") = Some sip) as [= <-] by (rewrite <-H1; reflexivity).
  assert (Some ("10.0.0.9"%string, 4002) = Some ep) as [= <-] by (rewrite <-H2; reflexivity).
  exists legs. split; [|done]. apply Hr. split; [by right; right; left|]. split; [done|]. right.
  split; [by left|]. exists ("10.0.0.9"%string, 4000). split; [|by left].
  exists (ex_sip "a" "10.0.0.9" "4000"). split; reflexivity.
Defined.

(** ** A call over a perfect stream *)

(** What the executor computes from a leg without loss, of [1 + n] packets: the
    largest difference of two sequence numbers, which is 1, counts as a loss. *)
Definition loss_of (n : nat) : f64 := f_mul (f_div (f_int 1) (f_int (1 + Z.of_nat n))) (f_int 100).
Definition lossless_mos (n : nat) (j : f64) : f64 := ComputeMOS (loss_of n) j f_zero.

Definition condemned (n : nat) (j : f64) : bool :=
  let mos := lossless_mos n j in
  f_lt mos (f_int 5) && f_gt mos f_zero && f_lt mos (f_dec 26 1) && String.eqb (QualityFromMOS mos) "bad"
  && negb (f_gt (loss_of n) (f_int 10))
  && f_gt j (f_int 100).

(** The test of the packets [n], [n + 1], ... with their running jitter. *)
Fixpoint all_condemned (k n : nat) (j d : f64) : bool :=
  match k with
  | O => true
  | S k => condemned n j && all_condemned k (S n) (jitter_next j d) d
  end.

Lemma all_condemned_at k n d i :
  all_condemned k n (jitter_after n d) d = true -> (n <= i < n + k)%nat -> condemned i (jitter_after i d) = true.
Proof.
  revert n. induction k as [|k IH]; intros n; [lia|]. cbn [all_condemned]. intros [Hn Hk]%andb_true_iff Hi.
  destruct (decide (i = n)) as [->|]; [done|]. apply (IH (S n)); [exact Hk|lia].
Qed.

Lemma opus_condemned n : (9 <= n < 1000)%nat -> condemned n (jitter_after n (f_int 940)) = true.
Proof. intros Hn. apply (all_condemned_at 991 9); [by vm_compute|lia]. Qed.

(** A call with one bad leg that is not on hold. *)
Lemma analyze_bad_leg c leg :
  is_hold (default ""%string (get_str (SIPMetrics c) "direction")) = false -> RTPLegs c = [leg] ->
  f_gt (MOS c) f_zero && f_lt (MOS c) (f_dec 26 1) = true -> leg_cause [leg] = Some "excessive_jitter"%string ->
  let c' := AnalyzeCall c in
  CallID c' = CallID c /\ Quality c' = Quality c /\ RootCause c' = "excessive_jitter"%string /\
  Confidence c' = f_dec 9 1.
Proof.
  intros Hd Hl Hm Hc. unfold AnalyzeCall, analyzeHold. unfold is_hold in Hd. rewrite Hd.
  assert (analyzeEndType (with_hold false c) = with_end_type "normal" (with_hold false c)) as ->.
  { unfold analyzeEndType. change (RTPLegs (with_end_type "normal" (with_hold false c))) with (RTPLegs c). by rewrite Hl. }
  set (c2 := with_end_type "normal" (with_hold false c)).
  assert (analyzeRootCause c2 = with_cause "excessive_jitter" c2) as ->; [|done].
  unfold analyzeRootCause. change (IsOnHold c2) with false. change (RTPLegs c2) with (RTPLegs c).
  change (MOS c2) with (MOS c). by rewrite Hl, Hm, Hc.
Qed.

Lemma worse_lossless leg n j :
  get_int leg "packet_count" = Some (1 + Z.of_nat n) -> get_int leg "max_seq_gap" = Some 1 ->
  get_f64 leg "jitter_ms" = Some j -> f_lt (lossless_mos n j) (f_int 5) = true ->
  worse_mos (f_int 5) leg = lossless_mos n j.
Proof.
  intros Mc Mg Mj H5. unfold worse_mos. rewrite Mc, Mg, Mj. cbn [from_option]. unfold id.
  rewrite (proj2 (Z.eqb_neq (1 + Z.of_nat n) 0)) by lia. unfold lossless_mos, loss_of in *. cbv zeta.
  rewrite H5. reflexivity.
Qed.

Lemma leg_cause_jitter leg n j :
  get_int leg "packet_count" = Some (1 + Z.of_nat n) -> get_int leg "max_seq_gap" = Some 1 ->
  get_f64 leg "jitter_ms" = Some j -> f_gt (loss_of n) (f_int 10) = false -> f_gt j (f_int 100) = true ->
  leg_cause [leg] = Some "excessive_jitter"%string.
Proof.
  intros Mc Mg Mj Hl Hj. cbn [leg_cause]. unfold getInt. rewrite Mc, Mg. cbn [from_option]. unfold id.
  rewrite (proj2 (Z.ltb_lt 0 (1 + Z.of_nat n))) by lia.
  change (f_mul (f_div (f_int 1) (f_int (1 + Z.of_nat n))) (f_int 100)) with (loss_of n). rewrite Hl.
  assert (getFloat64 leg "jitter_ms" = j) as ->; [|by rewrite Hj].
  revert Mj. unfold getFloat64, get_f64. destruct (leg !! "jitter_ms"%string) as [[]|]; by intros [=].
Qed.

Lemma condemned_inv n j : condemned n j = true ->
  f_lt (lossless_mos n j) (f_int 5) = true /\
  f_gt (lossless_mos n j) f_zero && f_lt (lossless_mos n j) (f_dec 26 1) = true /\
  QualityFromMOS (lossless_mos n j) = "bad"%string /\
  f_gt (loss_of n) (f_int 10) = false /\ f_gt j (f_int 100) = true.
Proof.
  unfold condemned. cbv zeta. generalize (lossless_mos n j), (loss_of n). intros mos loss Hx.
  rewrite !andb_true_iff in Hx. destruct Hx as [[[[[H5 H0] H26] Hq%String.eqb_eq] Hl%negb_true_iff] Hj].
  by rewrite H0, H26.
Qed.

(** A call whose only leg is the flow [f], without loss and with the jitter [j]. *)
Lemma condemned_call sip f n j :
  get_int (Metrics f) "packet_count" = Some (1 + Z.of_nat n) -> get_int (Metrics f) "max_seq_gap" = Some 1 ->
  get_f64 (Metrics f) "jitter_ms" = Some j -> condemned n j = true ->
  is_hold (default ""%string (get_str (Metrics sip) "direction")) = false ->
  let c := AnalyzeCall (score_call (new_call sip [f])) in
  CallID c = FlowID sip /\ Quality c = "bad"%string /\ RootCause c = "excessive_jitter"%string /\
  Confidence c = f_dec 9 1.
Proof.
  intros Mc Mg Mj (H5 & Hm & Hq & Hl & Hj)%condemned_inv Hd. cbv zeta.
  pose proof (leg_cause_jitter _ _ _ Mc Mg Mj Hl Hj) as Hlc.
  pose proof (worse_lossless _ _ _ Mc Mg Mj H5) as Hw.
  clear - Hd Hm Hlc Hq Hw H5. generalize dependent (lossless_mos n j). intros mos H5 Hm Hq Hw.
  assert (score_call (new_call sip [f]) = set_quality mos (new_call sip [f])) as ->.
  { unfold score_call. change (RTPLegs (new_call sip [f])) with [Metrics f]. cbn [foldl]. by rewrite Hw, H5. }
  destruct (analyze_bad_leg (set_quality mos (new_call sip [f])) (Metrics f) Hd eq_refl Hm Hlc) as (-> & -> & -> & ->).
  by split_and!.
Qed.

(** A perfect call over Opus is condemned. Take the flow of a SIP call that
    is not on hold, with its media at an address and port, and the RTP stream to
    there as its decoder reports it: sent every 20 milliseconds with 960 ticks
    of its 48 kHz clock from packet to packet, none lost, late or early, between
    10 and 1000 packets. The only call of the job has exactly this leg, its
    quality is bad, and the cause is said with confidence 0.9 to be excessive
    jitter. *)
Theorem perfect_call_condemned pk src ip sport port ssrc seq0 ts0 t0 n d order sip others :
  paced pk src ip sport port ssrc seq0 ts0 t0 20 960 ->
  0 <= ssrc < 2 ^ 32 -> 0 < t0 -> 0 <= sport < 2 ^ 16 -> 0 <= port < 2 ^ 16 -> (9 <= n < 1000)%nat ->
  Rtp.run Rtp.NewDecoder (pk <$> seq 0 (S n)) = Ok d -> map_order d order ->
  Type_ sip = FlowSIP -> media_of sip = Some (ip, port) ->
  is_hold (default ""%string (get_str (Metrics sip) "direction")) = false ->
  Forall (fun f => Type_ f <> FlowSIP /\ Type_ f <> FlowRTP) others ->
  exists leg c, Rtp.Flush d order = [leg] /\
    job_calls (others ++ sip :: Rtp.Flush d order) = [c] /\ CallID c = FlowID sip /\ RTPLegs c = [Metrics leg] /\
    get_int (Metrics leg) "lost_packets" = Some 0 /\
    Quality c = "bad"%string /\ RootCause c = "excessive_jitter"%string /\ Confidence c = f_dec 9 1.
Proof.
  intros Hpk Hr Ht Hsp Hdp Hn Hd Ho Hty Hm Hh Hot.
  destruct (paced_flush pk src ip sport port ssrc seq0 ts0 t0 20 960 n d order Hpk Hr Ht ltac:(lia) ltac:(lia) ltac:(lia) Hd Ho)
    as (s & Hf & Hi & Hc & Hlo & Hg & Hj).
  injection Hi as Es Esp Ed Edp. rewrite decide_False in Hg by lia.
  change (f_abs (f_int (20 - 960))) with (f_int 940) in Hj.
  exists (ToFlow s). rewrite Hf.
  assert (Hcor : CorrelateSIPRTP (others ++ [sip; ToFlow s]) = [new_call sip [ToFlow s]]).
  { unfold CorrelateSIPRTP.
    assert (filter (fun f => Type_ f = FlowSIP) (others ++ [sip; ToFlow s]) = [sip]) as ->.
    { rewrite filter_app, !filter_cons, filter_nil, decide_True by done. rewrite decide_False by done.
      assert (filter (fun f => Type_ f = FlowSIP) others = []) as ->; [|done].
      clear -Hot. induction Hot as [|f l [Hs _] _ IH]; [done|]. by rewrite filter_cons, decide_False. }
    assert (filter (fun f => Type_ f = FlowRTP) (others ++ [sip; ToFlow s]) = [ToFlow s]) as ->.
    { rewrite filter_app, !filter_cons, filter_nil, decide_False by (rewrite Hty; done). rewrite decide_True by done.
      assert (filter (fun f => Type_ f = FlowRTP) others = []) as ->; [|done].
      clear -Hot. induction Hot as [|f l [_ Hs] _ IH]; [done|]. by rewrite filter_cons, decide_False. }
    cbn [dedup]. rewrite decide_False by set_solver. cbn [omap list_omap]. rewrite Hm. cbn [mbind option_bind].
    rewrite filter_cons, filter_nil, decide_True; [done|].
    assert (Htouch : touches (ToFlow s) (ip, port)).
    { right. unfold ToFlow. cbn [F_DstIP F_DstPort]. rewrite Ed, Edp. unfold u16. by rewrite wrap_small. }
    rewrite (proj2 (leg_matches_spec (ip, port) (ToFlow s))) by by left. rewrite andb_true_r.
    apply isValidRTP_spec. exists (ip, port). split; [by left|done]. }
  unfold job_calls. rewrite Hcor. cbn [fmap list_fmap].
  destruct (ToFlow_metrics s) as (_ & _ & _ & Mc & Ml & Mg & Mj & _).
  rewrite Hc in Mc. rewrite Hlo in Ml. rewrite Hg in Mg. rewrite Hj in Mj.
  clear Hf Hcor. set (f := ToFlow s) in *. clearbody f.
  pose proof (condemned_call sip f n _ Mc Mg Mj (opus_condemned n Hn) Hh) as (H1 & H3 & H4 & H5).
  eexists. split; [reflexivity|]. split; [reflexivity|]. split; [exact H1|]. split; [|split; [|by split]].
  - destruct (analyze_call_spec (score_call (new_call sip [f]))) as (_ & _ & _ & _ & -> & _).
    unfold score_call. by destruct (f_lt _ _).
  - exact Ml.
Qed.

(** A second of Opus, to the address and port of the call's description. *)
Definition opus_packet (i : nat) : Packet :=
  mk_packet (1000 + Z.of_nat i * (20 * 1000000)) "10.0.0.1" "10.0.0.2" 4000 4002 "UDP"
    (rtp_bytes (byte_of 0x80) (byte_of 111) (u16 (65530 + Z.of_nat i)) (u32 (0 + Z.of_nat i * 960)) 7
      (replicate 60 (byte_of 0xFF))).

Lemma opus_paced : paced opus_packet "10.0.0.1" "10.0.0.2" 4000 4002 7 65530 0 1000 20 960.
Proof.
  split; intros i; try reflexivity.
  exists (byte_of 0x80), (byte_of 111), (replicate 60 (byte_of 0xFF)). by split.
Qed.

Example perfect_call_condemned_witness : exists d c,
  Rtp.run Rtp.NewDecoder (opus_packet <$> seq 0 50) = Ok d /\
  job_calls ([] ++ ex_sip "a" "10.0.0.2" "4002" :: Rtp.Flush d (map_to_list d)) = [c] /\
  Quality c = "bad"%string /\ RootCause c = "excessive_jitter"%string.
Proof.
  destruct (run_stream_of (opus_packet <$> seq 0 50)) as (d & Hd & _).
  destruct (perfect_call_condemned opus_packet "10.0.0.1" "10.0.0.2" 4000 4002 7 65530 0 1000 49 d (map_to_list d)
    (ex_sip "a" "10.0.0.2" "4002") [] opus_paced) as (leg & c & _ & H1 & _ & _ & _ & H2 & H3 & _);
    [lia..|exact Hd|exact (reflexivity _)|reflexivity|reflexivity|reflexivity|constructor|].
  exists d, c. exact (conj Hd (conj H1 (conj H2 H3))).
Defined.
