(* ===== verification/Trace.v ===== *)
(** * internal/correlation/telecom_trace.go: end-to-end traces of subscribers

    TelecomTracer joins the flows of all decoders into one session per IMSI,
    and one per SIP call where there is no subscriber. The fields of
    domain.TelecomSession are in groups; a layer is its hops with its Has flag.

    [sort.Slice] leaves the order of equal elements open: it is the class
    [SortSlice]. The text that [%v] gives for floats, times, slices and maps is
    the class [GoFmt]. *)
From stdpp Require Import sorting.
From S2P Require Export Calls.
From S2P Require Export Detection.

Class GoFmt : Type := { fmt_v_other : any -> string }.

(** [fmt.Sprintf("%v", v)] *)
Definition fmt_any `{GoFmt} (v : any) : string :=
  match v with
  | ANil => "<nil>"
  | AStr s => s
  | AInt _ z => fmt_d z
  | ABool b => if b then "true" else "false"
  | _ => fmt_v_other v
  end.

(** ** internal/domain/telecom_session.go *)

Definition UEStateIdle : string := "idle".
Definition UEStateAttaching : string := "attaching".
Definition UEStateRegistered : string := "registered".
Definition UEStatePDUEstablishing : string := "pdu_establishing".
Definition UEStateActive : string := "active".
Definition UEStateReleasing : string := "releasing".

Record UELifecycleStep := {
  lc_Step : string; lc_Protocol : string; lc_Timestamp : time; lc_DeltaMs : Z; lc_Details : string;
}.

Record TraceHop := {
  h_Protocol : string; h_FlowID : string; h_SrcIP : string; h_DstIP : string; h_SrcPort : Z; h_DstPort : Z;
  h_StartTime : time; h_EndTime : time; h_Metrics : gmap string any;
}.

Record TraceEvent := {
  e_Timestamp : time; e_Protocol : string; e_Step : string; e_Summary : string;
  e_SrcIP : string; e_DstIP : string; e_Metadata : gmap string any;
}.

Record identity := { ts_IMSI : string; ts_MSISDN : string; ts_APN : string; ts_UEIP : string }.
Record network := {
  ts_RATType : string; ts_ServingNetwork : string; ts_Location : string; ts_PDNType : string;
}.
Record ims_call := { ts_SIPCallID : string; ts_SIPFrom : string; ts_SIPTo : string }.
Record layer := { l_hops : list TraceHop; l_Has : bool }.
Record layers := {
  ts_NGAP : layer; ts_GTPControl : layer; ts_PFCP : layer; ts_GTPUser : layer;
  ts_SIP : layer; ts_RTP : layer; ts_Diameter : layer;
}.
Record idents := { ts_TEIDs : list string; ts_BearerTEIDs : list string; ts_SEIDs : list string }.

Record TelecomSession := {
  ts_SessionID : string;
  ts_identity : identity;
  ts_network : network;
  ts_call : ims_call;
  ts_layers : layers;
  ts_idents : idents;
  ts_Events : list TraceEvent;
  ts_UEState : string;
  ts_Lifecycle : list UELifecycleStep;
  ts_StartTime : time;
  ts_EndTime : time;
  ts_MOS : f64;
  ts_Quality : string;
  ts_IsComplete : bool;
}.

Definition no_layer : layer := {| l_hops := []; l_Has := false |}.
Definition no_layers : layers :=
  {| ts_NGAP := no_layer; ts_GTPControl := no_layer; ts_PFCP := no_layer; ts_GTPUser := no_layer;
     ts_SIP := no_layer; ts_RTP := no_layer; ts_Diameter := no_layer |}.

(** A session with the fields given, the others zero. *)
Definition new_session (id : string) (who : identity) (call : ims_call) : TelecomSession :=
  {| ts_SessionID := id; ts_identity := who;
     ts_network := {| ts_RATType := ""; ts_ServingNetwork := ""; ts_Location := ""; ts_PDNType := "" |};
     ts_call := call; ts_layers := no_layers;
     ts_idents := {| ts_TEIDs := []; ts_BearerTEIDs := []; ts_SEIDs := [] |};
     ts_Events := []; ts_UEState := ""; ts_Lifecycle := []; ts_StartTime := 0; ts_EndTime := 0;
     ts_MOS := f_zero; ts_Quality := ""; ts_IsComplete := false |}.

(** Updates of one group. *)
Definition with_groups (who : identity) (net : network) (call : ims_call) (ls : layers) (ids : idents)
    (s : TelecomSession) : TelecomSession :=
  {| ts_SessionID := ts_SessionID s; ts_identity := who; ts_network := net; ts_call := call; ts_layers := ls;
     ts_idents := ids; ts_Events := ts_Events s; ts_UEState := ts_UEState s; ts_Lifecycle := ts_Lifecycle s;
     ts_StartTime := ts_StartTime s; ts_EndTime := ts_EndTime s; ts_MOS := ts_MOS s;
     ts_Quality := ts_Quality s; ts_IsComplete := ts_IsComplete s |}.
Definition with_identity (who : identity) (s : TelecomSession) : TelecomSession :=
  with_groups who (ts_network s) (ts_call s) (ts_layers s) (ts_idents s) s.
Definition with_layers (ls : layers) (s : TelecomSession) : TelecomSession :=
  with_groups (ts_identity s) (ts_network s) (ts_call s) ls (ts_idents s) s.
Definition with_idents (ids : idents) (s : TelecomSession) : TelecomSession :=
  with_groups (ts_identity s) (ts_network s) (ts_call s) (ts_layers s) ids s.
Definition with_call (call : ims_call) (s : TelecomSession) : TelecomSession :=
  with_groups (ts_identity s) (ts_network s) call (ts_layers s) (ts_idents s) s.

(** [sess.L = append(sess.L, hop); sess.HasL = true] *)
Definition push (h : TraceHop) (l : layer) : layer := {| l_hops := l_hops l ++ [h]; l_Has := true |}.
Definition on_NGAP (f : layer -> layer) (l : layers) : layers :=
  {| ts_NGAP := f (ts_NGAP l); ts_GTPControl := ts_GTPControl l; ts_PFCP := ts_PFCP l; ts_GTPUser := ts_GTPUser l;
     ts_SIP := ts_SIP l; ts_RTP := ts_RTP l; ts_Diameter := ts_Diameter l |}.
Definition on_GTPControl (f : layer -> layer) (l : layers) : layers :=
  {| ts_NGAP := ts_NGAP l; ts_GTPControl := f (ts_GTPControl l); ts_PFCP := ts_PFCP l; ts_GTPUser := ts_GTPUser l;
     ts_SIP := ts_SIP l; ts_RTP := ts_RTP l; ts_Diameter := ts_Diameter l |}.
Definition on_PFCP (f : layer -> layer) (l : layers) : layers :=
  {| ts_NGAP := ts_NGAP l; ts_GTPControl := ts_GTPControl l; ts_PFCP := f (ts_PFCP l); ts_GTPUser := ts_GTPUser l;
     ts_SIP := ts_SIP l; ts_RTP := ts_RTP l; ts_Diameter := ts_Diameter l |}.
Definition on_GTPUser (f : layer -> layer) (l : layers) : layers :=
  {| ts_NGAP := ts_NGAP l; ts_GTPControl := ts_GTPControl l; ts_PFCP := ts_PFCP l; ts_GTPUser := f (ts_GTPUser l);
     ts_SIP := ts_SIP l; ts_RTP := ts_RTP l; ts_Diameter := ts_Diameter l |}.
Definition on_SIP (f : layer -> layer) (l : layers) : layers :=
  {| ts_NGAP := ts_NGAP l; ts_GTPControl := ts_GTPControl l; ts_PFCP := ts_PFCP l; ts_GTPUser := ts_GTPUser l;
     ts_SIP := f (ts_SIP l); ts_RTP := ts_RTP l; ts_Diameter := ts_Diameter l |}.
Definition on_RTP (f : layer -> layer) (l : layers) : layers :=
  {| ts_NGAP := ts_NGAP l; ts_GTPControl := ts_GTPControl l; ts_PFCP := ts_PFCP l; ts_GTPUser := ts_GTPUser l;
     ts_SIP := ts_SIP l; ts_RTP := f (ts_RTP l); ts_Diameter := ts_Diameter l |}.
Definition on_Diameter (f : layer -> layer) (l : layers) : layers :=
  {| ts_NGAP := ts_NGAP l; ts_GTPControl := ts_GTPControl l; ts_PFCP := ts_PFCP l; ts_GTPUser := ts_GTPUser l;
     ts_SIP := ts_SIP l; ts_RTP := ts_RTP l; ts_Diameter := f (ts_Diameter l) |}.

Class SortSlice : Type := {
  sort_events : list TraceEvent -> list TraceEvent;
  sort_events_perm : forall l, sort_events l ≡ₚ l;
  sort_events_sorted : forall l, StronglySorted (fun a b => e_Timestamp a <= e_Timestamp b) (sort_events l);
}.

(** ** Metric extraction *)

Section trace.
Context `{Unicode} `{GoFmt}.

Definition metricS (m : gmap string any) (key : string) : string :=
  match m !! key with
  | Some (AStr v) => v
  | Some ANil | None => ""
  | Some v => fmt_any v
  end.

Definition metricF (m : gmap string any) (key : string) : f64 :=
  match m !! key with
  | Some (AF64 v) => v
  | Some (AInt TInt v) | Some (AInt TI64 v) => f_int v
  | _ => f_zero
  end.

Definition metricI (m : gmap string any) (key : string) : Z :=
  match m !! key with
  | Some (AInt TInt v) | Some (AInt TI64 v) => v
  | Some (AF64 v) => f_to_int v
  | _ => 0
  end.

(** ** TEIDs *)

Definition digit_value (b : byte) : option Z :=
  let c := u8 b in
  if (0x30 <=? c) && (c <=? 0x39) then Some (c - 0x30)
  else if (0x61 <=? c) && (c <=? 0x66) then Some (c - 0x61 + 10)
  else if (0x41 <=? c) && (c <=? 0x46) then Some (c - 0x41 + 10)
  else None.

Fixpoint parse_digits_base (base acc : Z) (s : list byte) : option Z :=
  match s with
  | [] => Some acc
  | b :: s =>
    d ← digit_value b;
    if d <? base then parse_digits_base base (acc * base + d) s else None
  end.

(** [strconv.ParseUint(s, base, 32)] for base 10 and 16; None: an error. *)
Definition ParseUint32 (base : Z) (s : list byte) : option Z :=
  if zlen s =? 0 then None
  else v ← parse_digits_base base 0 s; if v <? 2 ^ 32 then Some v else None.

Definition hex_teid (z : Z) : string := "0x" +:+ fmt_0x 8 (u32 z).

Definition normalizeHexTEID (v : any) : string :=
  match v with
  | AInt TU32 t | AInt TInt t | AInt TI64 t => hex_teid t
  | AF64 t => hex_teid (f_to_int t)
  | AStr t =>
    let s := trim_space (gobytes t) in
    if is_prefix (gobytes "0x") s || is_prefix (gobytes "0X") s then
      match ParseUint32 16 (drop 2 s) with
      | Some n => hex_teid n
      | None => gostr (to_lower s)
      end
    else match ParseUint32 10 s with
         | Some n => hex_teid n
         | None => gostr s
         end
  | v => fmt_any v
  end.

(** The entry of a [map[string]any] that is written as a list. *)
Fixpoint entry (key : string) (m : list (string * any)) : option any :=
  match m with
  | [] => None
  | (k, v) :: m => if String.eqb k key then Some v else entry key m
  end.

(** extractFromList: only a [[]any] of [map[string]any] is looked into. *)
Definition extractFromList (raw : any) : list string :=
  match raw with
  | AList l =>
    omap (fun item => match item with AMap fm => normalizeHexTEID <$> entry "teid" fm | _ => None end) l
  | _ => []
  end.

Definition extractBearerFTEIDs (m : gmap string any) : list string :=
  let teids := match m !! "fteids"%string with Some fteids => extractFromList fteids | None => [] end in
  match m !! "bearers"%string with
  | Some (AList bl) =>
    teids ++ (bl ≫= fun b =>
      match b with
      | AMap bm => match entry "fteids" bm with Some fteids => extractFromList fteids | None => [] end
      | _ => []
      end)
  | _ => teids
  end.

(** ** Helpers *)

Definition flowToHop (proto : string) (f : Flow) : TraceHop :=
  {| h_Protocol := proto; h_FlowID := FlowID f; h_SrcIP := F_SrcIP f; h_DstIP := F_DstIP f;
     h_SrcPort := F_SrcPort f; h_DstPort := F_DstPort f; h_StartTime := StartTime f; h_EndTime := EndTime f;
     h_Metrics := Metrics f |}.

Definition addEvent (ts : time) (proto step summary srcIP dstIP : string) (meta : gmap string any)
    (s : TelecomSession) : TelecomSession :=
  let ts := if is_zero ts then ts_StartTime s else ts in
  {| ts_SessionID := ts_SessionID s; ts_identity := ts_identity s; ts_network := ts_network s;
     ts_call := ts_call s; ts_layers := ts_layers s; ts_idents := ts_idents s;
     ts_Events := ts_Events s ++ [{| e_Timestamp := ts; e_Protocol := proto; e_Step := step; e_Summary := summary;
       e_SrcIP := srcIP; e_DstIP := dstIP; e_Metadata := meta |}];
     ts_UEState := ts_UEState s; ts_Lifecycle := ts_Lifecycle s; ts_StartTime := ts_StartTime s;
     ts_EndTime := ts_EndTime s; ts_MOS := ts_MOS s; ts_Quality := ts_Quality s;
     ts_IsComplete := ts_IsComplete s |}.

Definition timeWindow : duration := 30 * second.

Definition timeOverlaps (s : TelecomSession) (f : Flow) : bool :=
  if is_zero (ts_StartTime s) || is_zero (StartTime f) then true
  else
    let sessionEnd := if is_zero (ts_EndTime s) then ts_StartTime s else ts_EndTime s in
    let fEnd := if is_zero (EndTime f) then StartTime f else EndTime f in
    before (StartTime f) (time_add sessionEnd timeWindow) && before (ts_StartTime s) (time_add fEnd timeWindow).

Definition matchesMediaEndpoint (f : Flow) (mediaIP mediaPort : string) : bool :=
  if String.eqb mediaIP "" then false
  else
    let portN := atoi mediaPort in
    (String.eqb (F_SrcIP f) mediaIP && (F_SrcPort f =? portN))
    || (String.eqb (F_DstIP f) mediaIP && (F_DstPort f =? portN)).

Definition appendUniq (l : list string) (s : string) : list string :=
  if decide (s ∈ l) then l else l ++ [s].

(** ** Step names *)

Definition step_name (m : list (string * string)) (other : string) (k : string) : string :=
  match (list_to_map m : gmap string string) !! k with Some s => s | None => other +:+ k end.

Definition ngapStep : string -> string := step_name
  [("InitialUEMessage", "UE_Registration"); ("InitialContextSetup", "Context_Setup");
   ("PDUSessionResourceSetup", "PDU_Session_Setup"); ("PDUSessionResourceRelease", "PDU_Session_Release");
   ("UEContextRelease", "UE_Context_Release"); ("DownlinkNASTransport", "NAS_Downlink");
   ("UplinkNASTransport", "NAS_Uplink"); ("NGSetup", "NG_Setup"); ("HandoverPreparation", "Handover_Prep");
   ("HandoverNotification", "Handover_Complete")]%string "NGAP_".

Definition gtpcStep : string -> string := step_name
  [("Create Session Request", "PDU_Session_Establish_Req"); ("Create Session Response", "PDU_Session_Establish_Resp");
   ("Delete Session Request", "PDU_Session_Release_Req"); ("Delete Session Response", "PDU_Session_Release_Resp");
   ("Modify Bearer Request", "Bearer_Modify_Req"); ("Modify Bearer Response", "Bearer_Modify_Resp")]%string "GTP-C_".

Definition pfcpStep : string -> string := step_name
  [("Session Establishment Request", "PFCP_Establish_Req"); ("Session Establishment Response", "PFCP_Establish_Resp");
   ("Session Modification Request", "PFCP_Modify_Req"); ("Session Modification Response", "PFCP_Modify_Resp");
   ("Session Deletion Request", "PFCP_Delete_Req"); ("Session Deletion Response", "PFCP_Delete_Resp")]%string "PFCP_".

Definition sipStep : string -> string := step_name
  [("REGISTER", "IMS_Register"); ("INVITE", "IMS_Call_Setup"); ("200", "IMS_Call_Connected");
   ("BYE", "IMS_Call_Teardown"); ("CANCEL", "IMS_Call_Cancel"); ("", "IMS_Signal")]%string "IMS_".

Definition diameterStep : string -> string := step_name
  [("Update-Location", "HSS_Location_Update"); ("Authentication", "HSS_Authenticate");
   ("Cancel-Location", "HSS_Cancel_Location"); ("Insert-Subscriber", "HSS_Subscribe");
   ("Credit-Control", "PCRF_Credit_Control")]%string "Diameter_".

(** ** Per-layer attachment: the bodies of the loops over the flows *)

Definition first_nonempty (a b : string) : string := if String.eqb a "" then b else a.

Definition attach_ngap (s : TelecomSession) (f : Flow) : TelecomSession :=
  let m := Metrics f in
  if negb (String.eqb (metricS m "imsi") (ts_IMSI (ts_identity s))) && negb (timeOverlaps s f) then s
  else
    let s := with_layers (on_NGAP (push (flowToHop "NGAP" f)) (ts_layers s)) s in
    let procName := metricS m "procedure_name" in
    addEvent (StartTime f) "NGAP" (ngapStep procName) (cat ["NGAP "; metricS m "pdu_type"; " "; procName])
      (F_SrcIP f) (F_DstIP f) m s.

Definition gtpc_idents (m : gmap string any) (ids : idents) : idents :=
  let teids :=
    match m !! "teid"%string with
    | None | Some ANil => ts_TEIDs ids
    | Some teid => appendUniq (ts_TEIDs ids) (normalizeHexTEID teid)
    end in
  let bteids := extractBearerFTEIDs m in
  {| ts_TEIDs := foldl appendUniq teids bteids; ts_BearerTEIDs := foldl appendUniq (ts_BearerTEIDs ids) bteids;
     ts_SEIDs := ts_SEIDs ids |}.

Definition gtpc_network (m : gmap string any) (net : network) : network :=
  {| ts_RATType := first_nonempty (ts_RATType net) (metricS m "rat_type");
     ts_ServingNetwork := first_nonempty (ts_ServingNetwork net) (metricS m "serving_network");
     ts_Location := first_nonempty (ts_Location net) (first_nonempty (metricS m "ecgi") (metricS m "tai"));
     ts_PDNType := first_nonempty (ts_PDNType net) (metricS m "pdn_type") |}.

Definition gtpc_identity (m : gmap string any) (who : identity) : identity :=
  {| ts_IMSI := ts_IMSI who; ts_MSISDN := ts_MSISDN who;
     ts_APN := first_nonempty (ts_APN who) (metricS m "apn");
     ts_UEIP := first_nonempty (ts_UEIP who) (metricS m "pdn_address") |}.

Definition attach_gtpc (s : TelecomSession) (f : Flow) : TelecomSession :=
  let m := Metrics f in
  if String.eqb (metricS m "is_gtpu") "true" then s
  else
    let imsi := metricS m "imsi" in
    if negb (String.eqb imsi "") && negb (String.eqb imsi (ts_IMSI (ts_identity s))) then s
    else if String.eqb imsi "" && negb (timeOverlaps s f) then s
    else
      let s := with_groups (gtpc_identity m (ts_identity s)) (gtpc_network m (ts_network s)) (ts_call s)
        (on_GTPControl (push (flowToHop "GTP-C" f)) (ts_layers s)) (gtpc_idents m (ts_idents s)) s in
      let msgType := first_nonempty (metricS m "message_type_name") (metricS m "message_type") in
      let teidHex := match m !! "teid"%string with Some teid => normalizeHexTEID teid | None => ""%string end in
      addEvent (StartTime f) "GTP-C" (gtpcStep msgType) (cat ["GTP-C "; msgType; " TEID="; teidHex])
        (F_SrcIP f) (F_DstIP f) m s.

Definition attach_pfcp (s : TelecomSession) (f : Flow) : TelecomSession :=
  let m := Metrics f in
  if negb (timeOverlaps s f) then s
  else
    let seid := metricS m "seid" in
    let ids := ts_idents s in
    let ids := if negb (String.eqb seid "") then
        {| ts_TEIDs := ts_TEIDs ids; ts_BearerTEIDs := ts_BearerTEIDs ids; ts_SEIDs := appendUniq (ts_SEIDs ids) seid |}
      else ids in
    let s := with_idents ids (with_layers (on_PFCP (push (flowToHop "PFCP" f)) (ts_layers s)) s) in
    let msgType := metricS m "message_type_name" in
    addEvent (StartTime f) "PFCP" (pfcpStep msgType) (cat ["PFCP "; msgType; " SEID="; seid])
      (F_SrcIP f) (F_DstIP f) m s.

(** [teidSet] is made before the loop. *)
Definition attach_gtpu (teidSet : list string) (s : TelecomSession) (f : Flow) : TelecomSession :=
  let m := Metrics f in
  if negb (String.eqb (metricS m "is_gtpu") "true") then s
  else
    let teidHex := match m !! "teid"%string with Some teid => normalizeHexTEID teid | None => ""%string end in
    if negb (bool_decide (teidHex ∈ teidSet)) && negb (timeOverlaps s f) then s
    else
      let ids := ts_idents s in
      let ids := if negb (String.eqb teidHex "") then
          {| ts_TEIDs := appendUniq (ts_TEIDs ids) teidHex; ts_BearerTEIDs := ts_BearerTEIDs ids; ts_SEIDs := ts_SEIDs ids |}
        else ids in
      let s := with_idents ids (with_layers (on_GTPUser (push (flowToHop "GTP-U" f)) (ts_layers s)) s) in
      addEvent (StartTime f) "GTP-U" "Data_Tunnel" (cat ["GTP-U data TEID="; teidHex]) (F_SrcIP f) (F_DstIP f) ∅ s.

Definition attach_diameter (s : TelecomSession) (f : Flow) : TelecomSession :=
  let m := Metrics f in
  let imsi := metricS m "imsi" in
  if negb (String.eqb imsi "") && negb (String.eqb imsi (ts_IMSI (ts_identity s))) then s
  else if String.eqb imsi "" && negb (timeOverlaps s f) then s
  else
    let s := with_layers (on_Diameter (push (flowToHop "Diameter" f)) (ts_layers s)) s in
    let cmd := metricS m "command_name" in
    addEvent (StartTime f) "Diameter" (diameterStep cmd) (cat ["Diameter "; cmd]) (F_SrcIP f) (F_DstIP f) m s.

Definition attach_sip (s : TelecomSession) (f : Flow) : TelecomSession :=
  let m := Metrics f in
  let ueip := ts_UEIP (ts_identity s) in
  if negb (negb (String.eqb ueip "") && (String.eqb (F_SrcIP f) ueip || String.eqb (F_DstIP f) ueip))
     && negb (timeOverlaps s f) then s
  else
    let c := ts_call s in
    let c := {| ts_SIPCallID := first_nonempty (ts_SIPCallID c) (FlowID f);
                ts_SIPFrom := first_nonempty (ts_SIPFrom c) (metricS m "from");
                ts_SIPTo := first_nonempty (ts_SIPTo c) (metricS m "to") |} in
    let s := with_call c (with_layers (on_SIP (push (flowToHop "SIP" f)) (ts_layers s)) s) in
    let method := metricS m "method" in
    addEvent (StartTime f) "SIP" (sipStep method)
      (cat ["SIP "; method; " "; ts_SIPFrom c; gostr (encode_rune 0x2192); ts_SIPTo c]) (F_SrcIP f) (F_DstIP f) m s.

(** The media endpoints of the SIP legs, made before the loop of attachRTP. *)
Definition media_endpoints (hops : list TraceHop) : list string :=
  omap (fun h =>
    let ip := metricS (h_Metrics h) "media_ip" in
    let port := metricS (h_Metrics h) "media_port" in
    if negb (String.eqb ip "") && negb (String.eqb port "") then Some (cat [ip; ":"; port]) else None) hops.

Definition rtp_summary (m : gmap string any) : string :=
  cat ["RTP SSRC="; metricS m "ssrc"; " pkt="; fmt_any (default ANil (m !! "packet_count"%string));
       " jitter="; fmt_f 1 (metricF m "jitter_ms"); "ms"].

Definition attach_rtp (endpoints : list string) (s : TelecomSession) (f : Flow) : TelecomSession :=
  let m := Metrics f in
  let srcEP := cat [F_SrcIP f; ":"; fmt_d (F_SrcPort f)] in
  let dstEP := cat [F_DstIP f; ":"; fmt_d (F_DstPort f)] in
  if bool_decide (srcEP ∈ endpoints) || bool_decide (dstEP ∈ endpoints)
     || ((zlen endpoints =? 0) && timeOverlaps s f)
  then
    let s := with_layers (on_RTP (push (flowToHop "RTP" f)) (ts_layers s)) s in
    addEvent (StartTime f) "RTP" "RTP_Media" (rtp_summary m) (F_SrcIP f) (F_DstIP f) m s
  else s.

(** The loops. *)
Definition attachNGAP (flows : list Flow) (s : TelecomSession) : TelecomSession := foldl attach_ngap s flows.
Definition attachGTPC (flows : list Flow) (s : TelecomSession) : TelecomSession := foldl attach_gtpc s flows.
Definition attachPFCP (flows : list Flow) (s : TelecomSession) : TelecomSession := foldl attach_pfcp s flows.
Definition attachGTPU (flows : list Flow) (s : TelecomSession) : TelecomSession :=
  foldl (attach_gtpu (ts_TEIDs (ts_idents s))) s flows.
Definition attachDiameter (flows : list Flow) (s : TelecomSession) : TelecomSession := foldl attach_diameter s flows.
Definition attachSIP (flows : list Flow) (s : TelecomSession) : TelecomSession := foldl attach_sip s flows.
Definition attachRTP (flows : list Flow) (s : TelecomSession) : TelecomSession :=
  foldl (attach_rtp (media_endpoints (l_hops (ts_SIP (ts_layers s))))) s flows.

(** ** Finaliser *)

Definition widen (b : time * time) (e : TraceEvent) : time * time :=
  let '(start, stop) := b in
  (if is_zero start || before (e_Timestamp e) start then e_Timestamp e else start,
   if after (e_Timestamp e) stop then e_Timestamp e else stop).

Definition computeSimpleMOS (lossPct jitterMs : f64) : f64 :=
  let lossPct := if f_gt lossPct (f_int 100) then f_int 100 else lossPct in
  let mos := f_sub (f_sub (f_dec 45 1) (f_mul lossPct (f_dec 5 2))) (f_mul jitterMs (f_dec 1 2)) in
  if f_lt mos (f_int 1) then f_int 1 else mos.

Definition mosQuality (mos : f64) : string :=
  if f_ge mos (f_int 4) then "good" else if f_ge mos (f_int 3) then "fair" else "poor".

(** The body of the loop over the RTP hops. *)
Definition hop_mos (mos0 : f64) (h : TraceHop) : f64 :=
  let jitter := metricF (h_Metrics h) "jitter_ms" in
  let gap := metricI (h_Metrics h) "max_seq_gap" in
  let pkts := metricI (h_Metrics h) "packet_count" in
  if 0 <? pkts then
    let mos := computeSimpleMOS (f_mul (f_div (f_int gap) (f_int pkts)) (f_int 100)) jitter in
    if SFeqb mos0 f_zero || f_lt mos mos0 then mos else mos0
  else mos0.

Definition milestoneSteps : list string :=
  ["UE_Registration"; "NAS_Uplink"; "Context_Setup"; "HSS_Authenticate"; "HSS_Location_Update";
   "PDU_Session_Setup"; "PDU_Session_Establish_Req"; "PDU_Session_Establish_Resp";
   "PFCP_Establish_Req"; "PFCP_Establish_Resp"; "Data_Tunnel"; "IMS_Register"; "IMS_Call_Setup";
   "IMS_Call_Connected"; "RTP_Media"; "IMS_Call_Teardown"; "PDU_Session_Release_Req"; "UE_Context_Release"]%string.

(** The loop over the events of buildLifecycle. *)
Fixpoint milestones (start : time) (seen : gset string) (es : list TraceEvent) : list UELifecycleStep :=
  match es with
  | [] => []
  | e :: es =>
    if negb (bool_decide (e_Step e ∈ milestoneSteps)) || bool_decide (e_Step e ∈ seen) then milestones start seen es
    else
      let deltaMs := if negb (is_zero start) && negb (is_zero (e_Timestamp e))
        then milliseconds (time_sub (e_Timestamp e) start) else 0 in
      {| lc_Step := e_Step e; lc_Protocol := e_Protocol e; lc_Timestamp := e_Timestamp e;
         lc_DeltaMs := deltaMs; lc_Details := e_Summary e |} :: milestones start ({[e_Step e]} ∪ seen) es
  end.

(** The switch of the second loop, over one milestone. *)
Definition state_after (state : string) (lc : UELifecycleStep) : string :=
  let step := lc_Step lc in
  let among := existsb (String.eqb step) in
  if among ["UE_Registration"; "NAS_Uplink"]%string then UEStateAttaching
  else if among ["Context_Setup"; "HSS_Authenticate"; "HSS_Location_Update"]%string then UEStateRegistered
  else if among ["PDU_Session_Setup"; "PDU_Session_Establish_Req"; "PFCP_Establish_Req"]%string then UEStatePDUEstablishing
  else if among ["PDU_Session_Establish_Resp"; "PFCP_Establish_Resp"; "Data_Tunnel"]%string then UEStateActive
  else if among ["IMS_Register"; "IMS_Call_Setup"; "IMS_Call_Connected"; "RTP_Media"]%string then UEStateActive
  else if among ["IMS_Call_Teardown"; "PDU_Session_Release_Req"; "UE_Context_Release"]%string then UEStateReleasing
  else state.

(** The lifecycle and the state; without events both are left. *)
Definition buildLifecycle (start : time) (es : list TraceEvent) (lc : list UELifecycleStep) (state : string) :
    list UELifecycleStep * string :=
  if zlen es =? 0 then (lc, state)
  else let lc := lc ++ milestones start ∅ es in (lc, foldl state_after UEStateIdle lc).

Definition finalise `{SortSlice} (s : TelecomSession) : TelecomSession :=
  let es := sort_events (ts_Events s) in
  let '(start, stop) := foldl widen (ts_StartTime s, ts_EndTime s) es in
  let ls := ts_layers s in
  let rtp := l_hops (ts_RTP ls) in
  let stop := foldl (fun t h => if after (h_EndTime h) t then h_EndTime h else t) stop rtp in
  let mos := foldl hop_mos (ts_MOS s) rtp in
  let '(lc, state) := buildLifecycle start es (ts_Lifecycle s) (ts_UEState s) in
  {| ts_SessionID := ts_SessionID s; ts_identity := ts_identity s; ts_network := ts_network s;
     ts_call := ts_call s; ts_layers := ls; ts_idents := ts_idents s; ts_Events := es;
     ts_UEState := state; ts_Lifecycle := lc; ts_StartTime := start; ts_EndTime := stop;
     ts_MOS := mos; ts_Quality := if f_gt mos f_zero then mosQuality mos else ts_Quality s;
     ts_IsComplete := l_Has (ts_NGAP ls) && l_Has (ts_GTPControl ls) && l_Has (ts_SIP ls) && l_Has (ts_RTP ls) |}.

(** ** The sessions *)

Definition partitionByType (flows : list Flow) (t : FlowType) : list Flow := filter (fun f => Type_ f = t) flows.

Definition enrich (m : gmap string any) (who : identity) : identity :=
  {| ts_IMSI := ts_IMSI who; ts_MSISDN := first_nonempty (ts_MSISDN who) (metricS m "msisdn");
     ts_APN := first_nonempty (ts_APN who) (metricS m "apn");
     ts_UEIP := first_nonempty (ts_UEIP who) (metricS m "pdn_address") |}.

Definition no_call : ims_call := {| ts_SIPCallID := ""; ts_SIPFrom := ""; ts_SIPTo := "" |}.

(** The body of the inner loop of buildIMSISessions. *)
Definition imsi_step (sessions : gmap string TelecomSession) (f : Flow) : gmap string TelecomSession :=
  let m := Metrics f in
  let imsi := metricS m "imsi" in
  if String.eqb imsi "" then sessions
  else match sessions !! imsi with
       | None => <[imsi := new_session ("ue-" +:+ imsi)
           {| ts_IMSI := imsi; ts_MSISDN := metricS m "msisdn"; ts_APN := metricS m "apn";
              ts_UEIP := metricS m "pdn_address" |} no_call]> sessions
       | Some s => <[imsi := with_identity (enrich m (ts_identity s)) s]> sessions
       end.

Definition buildIMSISessions (idx : FlowType -> list Flow) : gmap string TelecomSession :=
  foldl (fun sessions ft => foldl imsi_step sessions (idx ft)) ∅ [FlowNGAP; FlowGTP; FlowDiameter].

(** The body of the loop over the RTP flows of buildIMSSessions. *)
Definition attach_media (mediaIP mediaPort : string) (s : TelecomSession) (f : Flow) : TelecomSession :=
  if matchesMediaEndpoint f mediaIP mediaPort then
    addEvent (StartTime f) "RTP" "RTP_Stream" (cat ["RTP SSRC="; metricS (Metrics f) "ssrc"])
      (F_SrcIP f) (F_DstIP f) ∅ (with_layers (on_RTP (push (flowToHop "RTP" f)) (ts_layers s)) s)
  else s.

Definition ims_session `{SortSlice} (rtpFlows : list Flow) (sipFlow : Flow) : TelecomSession :=
  let m := Metrics sipFlow in
  let from := metricS m "from" in
  let to := metricS m "to" in
  let s := new_session ("ims-" +:+ FlowID sipFlow) {| ts_IMSI := ""; ts_MSISDN := ""; ts_APN := ""; ts_UEIP := "" |}
    {| ts_SIPCallID := FlowID sipFlow; ts_SIPFrom := from; ts_SIPTo := to |} in
  let s := with_layers (on_SIP (push (flowToHop "SIP" sipFlow)) (ts_layers s)) s in
  let s := addEvent (StartTime sipFlow) "SIP" "IMS_Call_Setup"
    (cat ["SIP "; metricS m "method"; " "; from; gostr (encode_rune 0x2192); to])
    (F_SrcIP sipFlow) (F_DstIP sipFlow) m s in
  finalise (foldl (attach_media (metricS m "media_ip") (metricS m "media_port")) s rtpFlows).

Definition buildIMSSessions `{SortSlice} (idx : FlowType -> list Flow) (claimed : gmap string TelecomSession) :
    list TelecomSession :=
  let claimedFlowIDs : list string :=
    map_to_list claimed ≫= fun '(_, s) => h_FlowID <$> l_hops (ts_SIP (ts_layers s)) in
  ims_session (idx FlowRTP) <$> filter (fun f => FlowID f ∉ claimedFlowIDs) (idx FlowSIP).

(** The body of the loop of Trace over the sessions of the subscribers. *)
Definition attach_all `{SortSlice} (idx : FlowType -> list Flow) (s : TelecomSession) : TelecomSession :=
  let s := attachNGAP (idx FlowNGAP) s in
  let s := attachGTPC (idx FlowGTP) s in
  let s := attachDiameter (idx FlowDiameter) s in
  let s := attachPFCP (idx FlowPFCP) s in
  let s := attachGTPU (idx FlowGTP) s in
  let s := attachSIP (idx FlowSIP) s in
  let s := attachRTP (idx FlowRTP) s in
  finalise s.

Definition ue_sessions `{SortSlice} (flows : list Flow) : gmap string TelecomSession :=
  attach_all (partitionByType flows) <$> buildIMSISessions (partitionByType flows).

(** Trace; [order] is that of the range over the subscribers' sessions. *)
Definition Trace `{SortSlice} (flows : list Flow) (order : list (string * TelecomSession)) : list TelecomSession :=
  (snd <$> order) ++ buildIMSSessions (partitionByType flows) (ue_sessions flows).

End trace.

(** ** What the loops attach *)

(** The hops of a layer at once. *)
Definition layer_of (hops : list TraceHop) : layer :=
  {| l_hops := hops; l_Has := negb (bool_decide (hops = [])) |}.
Definition push_all (hops : list TraceHop) (l : layer) : layer := foldl (fun l h => push h l) l hops.

Lemma push_all_none hops : push_all hops no_layer = layer_of hops.
Proof.
  unfold layer_of. induction hops as [|h hops IH] using rev_ind; [done|].
  unfold push_all in *. rewrite foldl_app, IH. cbn [foldl]. unfold push. cbn [l_hops]. f_equal.
  rewrite bool_decide_eq_false_2; [done|]. by destruct hops.
Qed.

(** What an event and a hop have in common. *)
Definition event_mark (e : TraceEvent) : string * time := (e_Protocol e, e_Timestamp e).
Definition hop_mark (h : TraceHop) : string * time := (h_Protocol h, h_StartTime h).

(** What no loop changes. *)
Definition frame (s : TelecomSession) :=
  (ts_SessionID s, ts_IMSI (ts_identity s), ts_StartTime s, ts_EndTime s, ts_Lifecycle s, ts_MOS s, ts_UEState s).

(** One step, or several, put [hops] into one layer of a session whose start is
    not yet known. *)
Record grows (on : (layer -> layer) -> layers -> layers) (hops : list TraceHop) (s s' : TelecomSession) : Prop := {
  gr_frame : frame s' = frame s;
  gr_layers : ts_layers s' = on (push_all hops) (ts_layers s);
  gr_events : event_mark <$> ts_Events s' = (event_mark <$> ts_Events s) ++ (hop_mark <$> hops);
}.

Class Lens (on : (layer -> layer) -> layers -> layers) : Prop := {
  on_id : forall l, on (fun x => x) l = l;
  on_comp : forall f g h l, (forall x, g (f x) = h x) -> on g (on f l) = on h l;
}.
Ltac solve_lens := split; [by intros []|by intros f g h [] E; cbv -[push_all]; rewrite E].
#[export] Instance lens_NGAP : Lens on_NGAP. Proof. solve_lens. Qed.
#[export] Instance lens_GTPControl : Lens on_GTPControl. Proof. solve_lens. Qed.
#[export] Instance lens_PFCP : Lens on_PFCP. Proof. solve_lens. Qed.
#[export] Instance lens_GTPUser : Lens on_GTPUser. Proof. solve_lens. Qed.
#[export] Instance lens_SIP : Lens on_SIP. Proof. solve_lens. Qed.
#[export] Instance lens_RTP : Lens on_RTP. Proof. solve_lens. Qed.
#[export] Instance lens_Diameter : Lens on_Diameter. Proof. solve_lens. Qed.

Lemma grows_refl on `{Lens on} s : grows on [] s s.
Proof. split; [done|by rewrite (on_id (on:=on))|by rewrite app_nil_r]. Qed.

Lemma grows_trans on `{Lens on} h1 h2 s1 s2 s3 :
  grows on h1 s1 s2 -> grows on h2 s2 s3 -> grows on (h1 ++ h2) s1 s3.
Proof.
  intros [F1 L1 E1] [F2 L2 E2]. split; [by rewrite F2|rewrite L2, L1; apply on_comp|].
  - intros l. unfold push_all. by rewrite foldl_app.
  - by rewrite E2, E1, fmap_app, (assoc_L (++)).
Qed.

(** A loop whose body attaches exactly the flows of [P], as long as the start
    of the session is not known and the identity is [imsi]. *)
Lemma loop_grows on `{HL : Lens on} proto (P : Flow -> Prop) `{HP : forall f, Decision (P f)} step imsi flows s :
  (forall s f, ts_StartTime s = 0 -> ts_IMSI (ts_identity s) = imsi ->
    grows on (if decide (P f) then [flowToHop proto f] else []) s (step s f)) ->
  ts_StartTime s = 0 -> ts_IMSI (ts_identity s) = imsi ->
  grows on (flowToHop proto <$> filter P flows) s (foldl step s flows).
Proof.
  intros Hstep. revert s. induction flows as [|f flows IH]; intros s H0 Hi; [by apply grows_refl|].
  cbn [foldl]. pose proof (Hstep s f H0 Hi) as Hg. rewrite filter_cons.
  assert (ts_StartTime (step s f) = 0 /\ ts_IMSI (ts_identity (step s f)) = imsi) as [H0' Hi'].
  { destruct Hg as [Hf _ _]. unfold frame in Hf. simplify_eq. split; congruence. }
  specialize (IH _ H0' Hi'). pose proof (grows_trans on _ _ _ _ _ Hg IH) as Ht.
  by destruct (decide (P f)).
Qed.

Section attached.
Context `{Unicode} `{GoFmt}.

Definition own_or_anonymous (imsi : string) (f : Flow) : Prop :=
  metricS (Metrics f) "imsi" = ""%string \/ metricS (Metrics f) "imsi" = imsi.
Definition user_plane (f : Flow) : Prop := metricS (Metrics f) "is_gtpu" = "true"%string.
Definition at_endpoint (endpoints : list string) (f : Flow) : Prop :=
  endpoints = [] \/ cat [F_SrcIP f; ":"; fmt_d (F_SrcPort f)] ∈ endpoints
  \/ cat [F_DstIP f; ":"; fmt_d (F_DstPort f)] ∈ endpoints.

#[export] Instance own_or_anonymous_dec imsi f : Decision (own_or_anonymous imsi f).
Proof. apply _. Defined.
#[export] Instance user_plane_dec f : Decision (user_plane f).
Proof. apply _. Defined.
#[export] Instance at_endpoint_dec eps f : Decision (at_endpoint eps f).
Proof. apply _. Defined.

Lemma timeOverlaps_unset s f : ts_StartTime s = 0 -> timeOverlaps s f = true.
Proof. intros E. unfold timeOverlaps. by rewrite E. Qed.

Lemma event_time (s : TelecomSession) (t : time) : ts_StartTime s = 0 -> (if is_zero t then ts_StartTime s else t) = t.
Proof. intros ->. unfold is_zero. case_match; [|done]. lia. Qed.

(** A body that attaches its flow. *)
Lemma grows_one on proto step summary src dst meta s s' f :
  ts_StartTime s = 0 -> frame s' = frame s -> ts_Events s' = ts_Events s ->
  ts_layers s' = on (push (flowToHop proto f)) (ts_layers s) ->
  grows on [flowToHop proto f] s (addEvent (StartTime f) proto step summary src dst meta s').
Proof.
  intros E0 Ef Ee El. assert (ts_StartTime s' = 0) as E0' by (unfold frame in Ef; simplify_eq; congruence).
  split.
  - by rewrite <-Ef.
  - exact El.
  - unfold addEvent. cbn [ts_Events ts_StartTime]. rewrite fmap_app, Ee. cbn [fmap list_fmap].
    unfold event_mark at 2, hop_mark. cbn. by rewrite event_time.
Qed.

Ltac attach :=
  intros s1 f E0 Ei; try rewrite (timeOverlaps_unset s1 f E0); cbn [negb orb andb]; rewrite ?andb_false_r; cbv zeta.

Lemma filter_all (flows : list Flow) : filter (fun _ => True) flows = flows.
Proof. induction flows as [|f flows IH]; [done|]. by rewrite filter_cons, decide_True, IH. Qed.

Lemma attachNGAP_grows flows imsi s : ts_StartTime s = 0 -> ts_IMSI (ts_identity s) = imsi ->
  grows on_NGAP (flowToHop "NGAP" <$> flows) s (attachNGAP flows s).
Proof.
  intros Hz Hi. pose proof (loop_grows on_NGAP "NGAP" (fun _ => True) attach_ngap imsi flows s) as Hl.
  rewrite filter_all in Hl. apply Hl; [|done..].
  unfold attach_ngap. attach. rewrite decide_True by done. by apply grows_one.
Qed.

Lemma attachGTPC_grows flows imsi s : ts_StartTime s = 0 -> ts_IMSI (ts_identity s) = imsi ->
  grows on_GTPControl (flowToHop "GTP-C" <$> filter (fun f => ~ user_plane f /\ own_or_anonymous imsi f) flows)
    s (attachGTPC flows s).
Proof.
  apply loop_grows; [apply _|]. unfold attach_gtpc, user_plane, own_or_anonymous. attach. rewrite Ei.
  destruct (String.eqb_spec (metricS (Metrics f) "is_gtpu") "true");
    [rewrite decide_False by tauto; apply grows_refl, _|].
  destruct (String.eqb_spec (metricS (Metrics f) "imsi") "") as [E|E]; cbn [negb andb].
  - rewrite decide_True by tauto. by apply grows_one.
  - destruct (String.eqb_spec (metricS (Metrics f) "imsi") imsi); cbn [negb].
    + rewrite decide_True by tauto. by apply grows_one.
    + rewrite decide_False by tauto. apply grows_refl, _.
Qed.

Lemma attachPFCP_grows flows imsi s : ts_StartTime s = 0 -> ts_IMSI (ts_identity s) = imsi ->
  grows on_PFCP (flowToHop "PFCP" <$> flows) s (attachPFCP flows s).
Proof.
  intros Hz Hi. pose proof (loop_grows on_PFCP "PFCP" (fun _ => True) attach_pfcp imsi flows s) as Hl.
  rewrite filter_all in Hl. apply Hl; [|done..].
  unfold attach_pfcp. attach. rewrite decide_True by done. by apply grows_one.
Qed.

Lemma attachGTPU_grows flows imsi s : ts_StartTime s = 0 -> ts_IMSI (ts_identity s) = imsi ->
  grows on_GTPUser (flowToHop "GTP-U" <$> filter user_plane flows) s (attachGTPU flows s).
Proof.
  apply loop_grows; [apply _|]. unfold attach_gtpu, user_plane. attach.
  destruct (String.eqb_spec (metricS (Metrics f) "is_gtpu") "true"); cbn [negb].
  - rewrite decide_True by done. by apply grows_one.
  - rewrite decide_False by done. apply grows_refl, _.
Qed.

Lemma attachDiameter_grows flows imsi s : ts_StartTime s = 0 -> ts_IMSI (ts_identity s) = imsi ->
  grows on_Diameter (flowToHop "Diameter" <$> filter (own_or_anonymous imsi) flows) s (attachDiameter flows s).
Proof.
  apply loop_grows; [apply _|]. unfold attach_diameter, own_or_anonymous. attach. rewrite Ei.
  destruct (String.eqb_spec (metricS (Metrics f) "imsi") "") as [E|E]; cbn [negb andb].
  - rewrite decide_True by tauto. by apply grows_one.
  - destruct (String.eqb_spec (metricS (Metrics f) "imsi") imsi); cbn [negb].
    + rewrite decide_True by tauto. by apply grows_one.
    + rewrite decide_False by tauto. apply grows_refl, _.
Qed.

Lemma attachSIP_grows flows imsi s : ts_StartTime s = 0 -> ts_IMSI (ts_identity s) = imsi ->
  grows on_SIP (flowToHop "SIP" <$> flows) s (attachSIP flows s).
Proof.
  intros Hz Hi. pose proof (loop_grows on_SIP "SIP" (fun _ => True) attach_sip imsi flows s) as Hl.
  rewrite filter_all in Hl. apply Hl; [|done..].
  unfold attach_sip. attach. rewrite decide_True by done. by apply grows_one.
Qed.

Lemma attachRTP_grows flows imsi s : ts_StartTime s = 0 -> ts_IMSI (ts_identity s) = imsi ->
  grows on_RTP (flowToHop "RTP" <$> filter (at_endpoint (media_endpoints (l_hops (ts_SIP (ts_layers s))))) flows)
    s (attachRTP flows s).
Proof.
  apply loop_grows; [apply _|]. generalize (media_endpoints (l_hops (ts_SIP (ts_layers s)))). clear s. intros eps.
  unfold attach_rtp, at_endpoint. attach. rewrite andb_true_r.
  match goal with |- context [if ?b then addEvent _ _ _ _ _ _ _ _ else _] => destruct b eqn:Eb end.
  - rewrite !orb_true_iff, !bool_decide_eq_true, Z.eqb_eq in Eb. rewrite decide_True; [by apply grows_one|].
    destruct Eb as [[?|?]|?%zlen_0]; tauto.
  - rewrite !orb_false_iff, !bool_decide_eq_false, Z.eqb_neq in Eb. rewrite decide_False; [apply grows_refl, _|].
    intros [->|]; [by destruct Eb|tauto].
Qed.

(** ** What the loop of Trace makes of a session *)

Definition hops_of (flows : list Flow) (t : FlowType) (proto : string) (P : Flow -> Prop)
    `{forall f, Decision (P f)} : list TraceHop :=
  flowToHop proto <$> filter P (partitionByType flows t).

(** The layers of the session of a subscriber. *)
Definition subscriber_layers (imsi : string) (flows : list Flow) : layers :=
  let sip := hops_of flows FlowSIP "SIP" (fun _ => True) in
  {| ts_NGAP := layer_of (hops_of flows FlowNGAP "NGAP" (fun _ => True));
     ts_GTPControl := layer_of (hops_of flows FlowGTP "GTP-C" (fun f => ~ user_plane f /\ own_or_anonymous imsi f));
     ts_PFCP := layer_of (hops_of flows FlowPFCP "PFCP" (fun _ => True));
     ts_GTPUser := layer_of (hops_of flows FlowGTP "GTP-U" user_plane);
     ts_SIP := layer_of sip;
     ts_RTP := layer_of (hops_of flows FlowRTP "RTP" (at_endpoint (media_endpoints sip)));
     ts_Diameter := layer_of (hops_of flows FlowDiameter "Diameter" (own_or_anonymous imsi)) |}.

(** All hops of a session, in the order of the layers. *)
Definition all_hops (ls : layers) : list TraceHop :=
  l_hops (ts_NGAP ls) ++ l_hops (ts_GTPControl ls) ++ l_hops (ts_Diameter ls) ++ l_hops (ts_PFCP ls) ++
  l_hops (ts_GTPUser ls) ++ l_hops (ts_SIP ls) ++ l_hops (ts_RTP ls).

(** A session before its layers are attached. *)
Record bare (imsi : string) (s : TelecomSession) : Prop := {
  fr_SessionID : ts_SessionID s = "ue-" +:+ imsi;
  fr_IMSI : ts_IMSI (ts_identity s) = imsi;
  fr_layers : ts_layers s = no_layers;
  fr_Events : ts_Events s = [];
  fr_StartTime : ts_StartTime s = 0;
  fr_EndTime : ts_EndTime s = 0;
  fr_Lifecycle : ts_Lifecycle s = [];
  fr_MOS : ts_MOS s = f_zero;
  fr_idents : ts_idents s = {| ts_TEIDs := []; ts_BearerTEIDs := []; ts_SEIDs := [] |};
}.

(** The session [attach_all] finalises. *)
Definition attached (idx : FlowType -> list Flow) (s : TelecomSession) : TelecomSession :=
  attachRTP (idx FlowRTP) (attachSIP (idx FlowSIP) (attachGTPU (idx FlowGTP) (attachPFCP (idx FlowPFCP)
    (attachDiameter (idx FlowDiameter) (attachGTPC (idx FlowGTP) (attachNGAP (idx FlowNGAP) s)))))).

Lemma attached_spec flows imsi s : bare imsi s ->
  let s' := attached (partitionByType flows) s in
  frame s' = frame s /\ ts_layers s' = subscriber_layers imsi flows /\
  event_mark <$> ts_Events s' = hop_mark <$> all_hops (subscriber_layers imsi flows).
Proof.
  intros [_ Hi Hl He Hz _ _ _ _]. unfold attached.
  set (s1 := attachNGAP _ s). set (s2 := attachGTPC _ s1). set (s3 := attachDiameter _ s2).
  set (s4 := attachPFCP _ s3). set (s5 := attachGTPU _ s4). set (s6 := attachSIP _ s5).
  assert (Hnext : forall on h a b, grows on h a b -> ts_StartTime a = 0 /\ ts_IMSI (ts_identity a) = imsi ->
    ts_StartTime b = 0 /\ ts_IMSI (ts_identity b) = imsi).
  { intros on h a b [Hf _ _] [? ?]. unfold frame in Hf. simplify_eq. split; congruence. }
  pose proof (conj Hz Hi) as I0.
  pose proof (attachNGAP_grows (partitionByType flows FlowNGAP) imsi s Hz Hi) as G1.
  pose proof (Hnext _ _ _ _ G1 I0) as I1.
  pose proof (attachGTPC_grows (partitionByType flows FlowGTP) imsi _ (proj1 I1) (proj2 I1)) as G2.
  pose proof (Hnext _ _ _ _ G2 I1) as I2.
  pose proof (attachDiameter_grows (partitionByType flows FlowDiameter) imsi _ (proj1 I2) (proj2 I2)) as G3.
  pose proof (Hnext _ _ _ _ G3 I2) as I3.
  pose proof (attachPFCP_grows (partitionByType flows FlowPFCP) imsi _ (proj1 I3) (proj2 I3)) as G4.
  pose proof (Hnext _ _ _ _ G4 I3) as I4.
  pose proof (attachGTPU_grows (partitionByType flows FlowGTP) imsi _ (proj1 I4) (proj2 I4)) as G5.
  pose proof (Hnext _ _ _ _ G5 I4) as I5.
  pose proof (attachSIP_grows (partitionByType flows FlowSIP) imsi _ (proj1 I5) (proj2 I5)) as G6.
  pose proof (Hnext _ _ _ _ G6 I5) as I6.
  pose proof (attachRTP_grows (partitionByType flows FlowRTP) imsi _ (proj1 I6) (proj2 I6)) as G7.
  fold s1 s2 s3 s4 s5 s6 in G1, G2, G3, G4, G5, G6, G7.
  set (s7 := attachRTP _ s6) in *. clearbody s1 s2 s3 s4 s5 s6 s7.
  destruct G1 as [F1 L1 E1], G2 as [F2 L2 E2], G3 as [F3 L3 E3], G4 as [F4 L4 E4], G5 as [F5 L5 E5],
    G6 as [F6 L6 E6], G7 as [F7 L7 E7].
  rewrite L5, L4, L3, L2, L1, Hl in L6. unfold no_layers, on_SIP, on_GTPUser, on_PFCP, on_Diameter, on_GTPControl, on_NGAP in L6.
  cbn -[push_all no_layer] in L6.
  rewrite !push_all_none in L6. rewrite L6 in E7, L7. cbn -[push_all no_layer] in E7, L7.
  assert (ts_layers s7 = subscriber_layers imsi flows) as EL.
  { rewrite L7. unfold subscriber_layers, hops_of. unfold on_RTP. cbn -[push_all no_layer]. by rewrite !push_all_none, !filter_all. }
  split_and!; [congruence|done|].
  rewrite E7, E6, E5, E4, E3, E2, E1, He. unfold subscriber_layers, hops_of, all_hops. cbn.
  by rewrite !filter_all, !fmap_app, <-!(assoc_L (++)).
Qed.

(** ** Which sessions there are *)

Definition identifies (imsi : string) (f : Flow) : Prop :=
  Type_ f ∈ [FlowNGAP; FlowGTP; FlowDiameter] /\ metricS (Metrics f) "imsi" = imsi.

(** The sessions made from the flows [done]. *)
Definition sessions_of (done : list Flow) (m : gmap string TelecomSession) : Prop :=
  (forall imsi s, m !! imsi = Some s -> bare imsi s) /\
  forall imsi, is_Some (m !! imsi) <-> imsi <> ""%string /\ exists f, f ∈ done /\ metricS (Metrics f) "imsi" = imsi.

Lemma imsi_step_spec done m f : sessions_of done m -> sessions_of (done ++ [f]) (imsi_step m f).
Proof.
  intros [Hf Hd]. unfold imsi_step. cbv zeta. set (imsi := metricS (Metrics f) "imsi").
  assert (Hex : forall i, (exists g, g ∈ done ++ [f] /\ metricS (Metrics g) "imsi" = i) <->
    (exists g, g ∈ done /\ metricS (Metrics g) "imsi" = i) \/ imsi = i).
  { intros i. setoid_rewrite elem_of_app. setoid_rewrite list_elem_of_singleton. naive_solver. }
  destruct (String.eqb_spec imsi "") as [E|E].
  { split; [done|]. intros i. rewrite Hd, Hex. naive_solver. }
  assert (Hgo : forall s, bare imsi s -> sessions_of (done ++ [f]) (<[imsi := s]> m)).
  { intros s Hs. split.
    - intros i s'. destruct (decide (i = imsi)) as [->|]; [rewrite lookup_insert_eq; by intros [= <-]|].
      rewrite lookup_insert_ne by done. apply Hf.
    - intros i. rewrite Hex. destruct (decide (i = imsi)) as [->|].
      + rewrite lookup_insert_eq. split; [auto|done].
      + rewrite lookup_insert_ne by done. rewrite Hd. naive_solver. }
  destruct (m !! imsi) as [s|] eqn:Es; apply Hgo; [|by split].
  destruct (Hf _ _ Es). by split.
Qed.

Lemma imsi_steps_spec done m flows : sessions_of done m -> sessions_of (done ++ flows) (foldl imsi_step m flows).
Proof.
  revert done m. induction flows as [|f flows IH]; intros done m Hm; cbn [foldl]; [by rewrite app_nil_r|].
  rewrite (cons_middle f), (assoc_L (++)). by apply IH, imsi_step_spec.
Qed.

Lemma buildIMSISessions_spec flows :
  let m := buildIMSISessions (partitionByType flows) in
  (forall imsi s, m !! imsi = Some s -> bare imsi s) /\
  forall imsi, is_Some (m !! imsi) <-> imsi <> ""%string /\ exists f, f ∈ flows /\ identifies imsi f.
Proof.
  unfold buildIMSISessions. cbn [foldl].
  assert (sessions_of [] ∅) as H1.
  { split; [done|]. intros imsi. rewrite lookup_empty. split; [by intros []|].
    intros (_ & f & []%not_elem_of_nil & _). }
  apply (imsi_steps_spec _ _ (partitionByType flows FlowNGAP)) in H1.
  apply (imsi_steps_spec _ _ (partitionByType flows FlowGTP)) in H1.
  apply (imsi_steps_spec _ _ (partitionByType flows FlowDiameter)) in H1.
  destruct H1 as [Hf Hd]. split; [done|]. intros imsi. rewrite Hd. unfold identifies, partitionByType.
  apply and_iff_compat_l. repeat setoid_rewrite elem_of_app. repeat setoid_rewrite list_elem_of_filter.
  repeat setoid_rewrite elem_of_cons. repeat setoid_rewrite elem_of_nil. naive_solver.
Qed.

Lemma finalise_fields `{SortSlice} s :
  ts_SessionID (finalise s) = ts_SessionID s /\ ts_identity (finalise s) = ts_identity s /\
  ts_call (finalise s) = ts_call s /\ ts_layers (finalise s) = ts_layers s /\
  ts_Events (finalise s) = sort_events (ts_Events s) /\ ts_idents (finalise s) = ts_idents s.
Proof. unfold finalise. destruct (foldl widen _ _), (buildLifecycle _ _ _ _). done. Qed.

(** The sessions of the subscribers. *)
Lemma ue_sessions_spec `{SortSlice} flows imsi s : ue_sessions flows !! imsi = Some s ->
  exists s0, bare imsi s0 /\ s = finalise (attached (partitionByType flows) s0).
Proof.
  unfold ue_sessions. rewrite lookup_fmap.
  intros (s0 & Hs & ->)%fmap_Some. exists s0. split; [|done]. by apply (buildIMSISessions_spec flows).
Qed.

Lemma ue_session_layers `{SortSlice} flows imsi s : ue_sessions flows !! imsi = Some s ->
  ts_SessionID s = "ue-" +:+ imsi /\ ts_IMSI (ts_identity s) = imsi /\ ts_layers s = subscriber_layers imsi flows.
Proof.
  intros (s0 & Hf & ->)%ue_sessions_spec. destruct (attached_spec flows imsi s0 Hf) as (E & EL & _).
  destruct (finalise_fields (attached (partitionByType flows) s0)) as (-> & -> & _ & -> & _ & _).
  unfold frame in E. destruct Hf. simplify_eq. split_and!; congruence.
Qed.

(** A session of a subscriber has claimed all SIP flows. *)
Lemma ims_none `{SortSlice} flows imsi s : ue_sessions flows !! imsi = Some s ->
  buildIMSSessions (partitionByType flows) (ue_sessions flows) = [].
Proof.
  intros Hs. unfold buildIMSSessions. pose proof (ue_session_layers _ _ _ Hs) as (_ & _ & El).
  destruct (filter _ (partitionByType flows FlowSIP)) as [|f l] eqn:E; [done|]. exfalso.
  assert (Hf : f ∈ f :: l) by left. rewrite <-E, list_elem_of_filter in Hf. destruct Hf as [Hc Hf].
  apply Hc, list_elem_of_bind. exists (imsi, s). split; [|by apply elem_of_map_to_list]. cbn.
  rewrite El. unfold subscriber_layers, layer_of, hops_of. cbn. rewrite filter_all, <-list_fmap_compose.
  apply list_elem_of_fmap. by exists f.
Qed.

(** C11: which sessions a capture has and what is in them. There is one session
    per IMSI that an NGAP, GTP or Diameter flow names. Whatever the times of the
    flows, each of them has all NGAP flows, those of other subscribers too, all
    PFCP and SIP flows, all user-plane flows, the GTP-C and Diameter flows of
    its IMSI or without one, and the RTP flows at the media endpoint of any SIP
    flow, or all where there is none. The SIP flows make sessions of their own,
    one per flow, only when the capture names no IMSI at all. *)
Theorem trace_sessions_exact `{SortSlice} flows order :
  map_order (ue_sessions flows) order ->
  NoDup (fst <$> order) /\
  (forall imsi, imsi ∈ fst <$> order <-> imsi <> ""%string /\ exists f, f ∈ flows /\ identifies imsi f) /\
  (forall imsi s, (imsi, s) ∈ order ->
    ts_SessionID s = "ue-" +:+ imsi /\ ts_IMSI (ts_identity s) = imsi /\ ts_layers s = subscriber_layers imsi flows) /\
  exists ims, Trace flows order = (snd <$> order) ++ ims /\
    if decide (order = []) then
      (fun s => (ts_SessionID s, ts_SIPCallID (ts_call s))) <$> ims =
      (fun f => ("ims-" +:+ FlowID f, FlowID f)) <$> partitionByType flows FlowSIP
    else ims = [].
Proof.
  intros Ho. unfold map_order in Ho.
  assert (Hin : forall imsi s, (imsi, s) ∈ order <-> ue_sessions flows !! imsi = Some s).
  { intros imsi s. rewrite Ho. apply elem_of_map_to_list. }
  split_and!.
  - rewrite Ho. apply NoDup_fst_map_to_list.
  - intros imsi. rewrite <-(proj2 (buildIMSISessions_spec flows)). rewrite list_elem_of_fmap. split.
    + intros ([i s] & -> & Hs%Hin). cbn [fst]. revert Hs. unfold ue_sessions. rewrite lookup_fmap.
      intros (s0 & E & _)%fmap_Some. eauto.
    + intros [s0 Hs]. exists (imsi, attach_all (partitionByType flows) s0). split; [done|].
      apply Hin. unfold ue_sessions. by rewrite lookup_fmap, Hs.
  - intros imsi s Hs%Hin. by apply ue_session_layers.
  - eexists. split; [reflexivity|]. case_decide as Hd.
    + assert (ue_sessions flows = ∅) as ->.
      { apply map_to_list_empty_iff. subst order. symmetry in Ho. by apply Permutation_nil_r in Ho. }
      unfold buildIMSSessions. rewrite map_to_list_empty. cbn [mbind list_bind].
      generalize (partitionByType flows FlowRTP). intros rtps. generalize (partitionByType flows FlowSIP). intros l.
      induction l as [|f l IH]; [done|]. rewrite filter_cons, decide_True by apply not_elem_of_nil.
      cbn [fmap list_fmap] in *. f_equal; [|exact IH]. unfold ims_session.
      match goal with |- context [finalise ?s] => destruct (finalise_fields s) as (-> & _ & -> & _ & _) end.
      match goal with |- (ts_SessionID (foldl ?g ?s0 rtps), _) = _ => assert (Hk : forall l s,
        ts_SessionID (foldl g s l) = ts_SessionID s /\ ts_call (foldl g s l) = ts_call s) end.
      { clear. intros l. induction l as [|f' l IH]; intros s; [done|]. cbn [foldl].
        destruct (IH (attach_media (metricS (Metrics f) "media_ip") (metricS (Metrics f) "media_port") s f')) as [-> ->].
        unfold attach_media. by destruct (matchesMediaEndpoint _ _ _). }
      by rewrite (proj1 (Hk _ _)), (proj2 (Hk _ _)).
    + destruct order as [|[imsi s] order]; [done|]. apply (ims_none flows imsi s), Hin. by left.
Qed.

(** ** The timeline of a finished session *)

(** Where the state machine is after a milestone. *)
Definition milestone_state (step : string) : string :=
  state_after "" {| lc_Step := step; lc_Protocol := ""; lc_Timestamp := 0; lc_DeltaMs := 0; lc_Details := "" |}.

(** The first time of the events that is not the zero time; zero if there is none. *)
Definition first_time (es : list TraceEvent) : time :=
  default 0 (head (filter (fun t => t <> 0) (e_Timestamp <$> es))).

Record timeline (s : TelecomSession) : Prop := {
  (** Every hop has its event, and the events are in the order of time. *)
  tl_complete : event_mark <$> ts_Events s ≡ₚ hop_mark <$> all_hops (ts_layers s);
  tl_sorted : StronglySorted (fun a b => e_Timestamp a <= e_Timestamp b) (ts_Events s);
  (** The session starts with its first event that has a time, and ends no earlier than any. *)
  tl_start : ts_StartTime s = first_time (ts_Events s);
  tl_bounds : Forall (fun e => (e_Timestamp e <> 0 -> ts_StartTime s <= e_Timestamp e) /\ e_Timestamp e <= ts_EndTime s)
    (ts_Events s);
  (** The lifecycle has one step for each milestone, the first event of it. *)
  tl_once : NoDup (lc_Step <$> ts_Lifecycle s);
  tl_steps : forall step, step ∈ lc_Step <$> ts_Lifecycle s <->
    step ∈ milestoneSteps /\ exists e, e ∈ ts_Events s /\ e_Step e = step;
  tl_first : forall lc, lc ∈ ts_Lifecycle s -> exists e, e ∈ ts_Events s /\
    lc = {| lc_Step := e_Step e; lc_Protocol := e_Protocol e; lc_Timestamp := e_Timestamp e;
            lc_DeltaMs := if is_zero (e_Timestamp e) then 0
              else milliseconds (time_sub (e_Timestamp e) (ts_StartTime s)); lc_Details := e_Summary e |} /\
    0 <= lc_DeltaMs lc /\
    forall e', e' ∈ ts_Events s -> e_Step e' = e_Step e -> e_Timestamp e <= e_Timestamp e';
  tl_order : StronglySorted (fun a b => lc_Timestamp a <= lc_Timestamp b) (ts_Lifecycle s);
  (** The state is that of the milestone reached last. *)
  tl_state : ts_UEState s =
    match last (ts_Lifecycle s) with Some lc => milestone_state (lc_Step lc) | None => UEStateIdle end;
}.

Definition milestone (start : time) (e : TraceEvent) : UELifecycleStep :=
  {| lc_Step := e_Step e; lc_Protocol := e_Protocol e; lc_Timestamp := e_Timestamp e;
     lc_DeltaMs := if negb (is_zero start) && negb (is_zero (e_Timestamp e))
       then milliseconds (time_sub (e_Timestamp e) start) else 0; lc_Details := e_Summary e |}.

Lemma milestones_cons start seen e es :
  milestones start seen (e :: es) =
    if decide (e_Step e ∈ milestoneSteps /\ e_Step e ∉ seen)
    then milestone start e :: milestones start ({[e_Step e]} ∪ seen) es else milestones start seen es.
Proof.
  cbn [milestones]. destruct (decide _) as [[Hm Hs]|Hn].
  - by rewrite (bool_decide_eq_true_2 _ Hm), (bool_decide_eq_false_2 _ Hs).
  - destruct (negb _ || _) eqn:E; [done|]. exfalso. apply Hn.
    apply orb_false_iff in E as [E1%negb_false_iff%bool_decide_eq_true E2%bool_decide_eq_false]. done.
Qed.

Lemma milestones_steps start seen es step :
  step ∈ lc_Step <$> milestones start seen es <->
  step ∈ milestoneSteps /\ step ∉ seen /\ exists e, e ∈ es /\ e_Step e = step.
Proof.
  revert seen. induction es as [|e es IH]; intros seen.
  { cbn. split; [by intros ?%not_elem_of_nil|by intros (_ & _ & e & ?%not_elem_of_nil & _)]. }
  assert (Hex : (exists e', e' ∈ e :: es /\ e_Step e' = step) <->
    e_Step e = step \/ exists e', e' ∈ es /\ e_Step e' = step) by (setoid_rewrite elem_of_cons; naive_solver).
  rewrite milestones_cons, Hex. case_decide as Hd.
  - cbn [fmap list_fmap]. rewrite elem_of_cons, IH, elem_of_union, elem_of_singleton.
    change (lc_Step (milestone start e)) with (e_Step e).
    clear IH. revert Hd. generalize milestoneSteps. intros ms Hd.
    destruct (decide (step = e_Step e)) as [->|]; naive_solver.
  - rewrite IH. clear IH. revert Hd. generalize milestoneSteps. intros ms Hd.
    destruct (decide (step = e_Step e)) as [->|]; naive_solver.
Qed.

Lemma milestones_nodup start seen es : NoDup (lc_Step <$> milestones start seen es).
Proof.
  revert seen. induction es as [|e es IH]; intros seen; [constructor|].
  rewrite milestones_cons. case_decide; [|done]. cbn [fmap list_fmap]. constructor; [|done].
  rewrite milestones_steps. set_solver.
Qed.

Lemma milestones_first start seen es lc :
  StronglySorted (fun a b => e_Timestamp a <= e_Timestamp b) es -> lc ∈ milestones start seen es ->
  exists e, e ∈ es /\ lc = milestone start e /\
    forall e', e' ∈ es -> e_Step e' = e_Step e -> e_Timestamp e <= e_Timestamp e'.
Proof.
  intros Hs. revert seen. induction es as [|e es IH]; intros seen; [by intros ?%not_elem_of_nil|].
  apply StronglySorted_cons in Hs as [He Hs]. specialize (IH Hs). rewrite Forall_forall in He.
  rewrite milestones_cons. case_decide as Hd.
  - intros [->|Hl]%elem_of_cons.
    + exists e. split_and!; [by left|done|]. intros e' [->|He']%elem_of_cons _; [lia|by apply He].
    + pose proof Hl as Hl'. apply (list_elem_of_fmap_2 lc_Step), milestones_steps in Hl' as (_ & Hne & _).
      destruct (IH _ Hl) as (e1 & He1 & -> & Hmin). exists e1. split_and!; [by right|done|].
      intros e' [->|He']%elem_of_cons E; [|by apply Hmin]. exfalso. apply Hne. cbn. rewrite E. set_solver.
  - intros Hl. pose proof Hl as Hl'. apply (list_elem_of_fmap_2 lc_Step), milestones_steps in Hl' as (Hin & Hne & _).
    destruct (IH _ Hl) as (e1 & He1 & -> & Hmin). exists e1. split_and!; [by right|done|].
    intros e' [->|He']%elem_of_cons E; [|by apply Hmin]. exfalso. apply Hd. by rewrite E.
Qed.

Lemma milestones_sorted start seen es :
  StronglySorted (fun a b => e_Timestamp a <= e_Timestamp b) es ->
  StronglySorted (fun a b => lc_Timestamp a <= lc_Timestamp b) (milestones start seen es).
Proof.
  intros Hs. revert seen. induction es as [|e es IH]; intros seen; [constructor|].
  pose proof Hs as [He Hs']%StronglySorted_cons. rewrite milestones_cons. case_decide; [|by apply IH].
  apply StronglySorted_cons. split; [|by apply IH]. rewrite Forall_forall. intros lc Hl.
  destruct (milestones_first _ _ _ _ Hs' Hl) as (e1 & Hin & -> & _). cbn. rewrite Forall_forall in He. by apply He.
Qed.

Lemma state_after_milestone st lc : lc_Step lc ∈ milestoneSteps -> state_after st lc = milestone_state (lc_Step lc).
Proof.
  unfold milestone_state, state_after. cbn [lc_Step]. generalize (lc_Step lc). intros step Hin.
  unfold milestoneSteps in Hin. repeat (apply elem_of_cons in Hin as [->|Hin]; [reflexivity|]).
  by apply not_elem_of_nil in Hin.
Qed.

Lemma states_last st lcs : Forall (fun lc => lc_Step lc ∈ milestoneSteps) lcs ->
  foldl state_after st lcs = match last lcs with Some lc => milestone_state (lc_Step lc) | None => st end.
Proof.
  induction lcs as [|lc lcs _] using rev_ind; [done|]. intros [_ Hl]%Forall_app.
  rewrite foldl_app, last_snoc. cbn [foldl]. apply state_after_milestone. by inversion Hl.
Qed.

(** The bounds of events that are in order: a start that is set stays, and a
    zero start is replaced until an event has a time. *)
Lemma widen_set es t stop : t <> 0 -> Forall (fun e => t <= e_Timestamp e) es ->
  let '(start', stop') := foldl widen (t, stop) es in
  start' = t /\ stop <= stop' /\ Forall (fun e => e_Timestamp e <= stop') es.
Proof.
  intros Ht. revert stop. induction es as [|e es IH]; intros stop Hes; [by split_and!|].
  apply Forall_cons in Hes as [He Hes]. cbn [foldl]. unfold widen at 2, is_zero, before, after.
  rewrite (proj2 (Z.eqb_neq t 0)), (proj2 (Z.ltb_ge (e_Timestamp e) t)) by lia. cbn [orb].
  specialize (IH (if stop <? e_Timestamp e then e_Timestamp e else stop) Hes).
  destruct (foldl widen _ es) as [start' stop']. destruct IH as (-> & Hle & Hall).
  destruct (Z.ltb_spec stop (e_Timestamp e)); (split_and!; [done|lia|constructor; [lia|done]]).
Qed.

Lemma first_time_cons e es : first_time (e :: es) = if decide (e_Timestamp e = 0) then first_time es else e_Timestamp e.
Proof.
  unfold first_time. rewrite fmap_cons, filter_cons. destruct (decide (e_Timestamp e = 0)) as [E|E].
  - by rewrite decide_False by (intros Hn; by apply Hn).
  - by rewrite decide_True.
Qed.

Lemma first_time_set es e : e ∈ es -> e_Timestamp e <> 0 -> first_time es <> 0.
Proof.
  intros He Hne. induction es as [|e' es IH]; [by apply not_elem_of_nil in He|]. rewrite first_time_cons.
  destruct (decide (e_Timestamp e' = 0)) as [E|]; [|done]. apply elem_of_cons in He as [->|He]; [done|by apply IH].
Qed.

Lemma widen_sorted es stop : StronglySorted (fun a b => e_Timestamp a <= e_Timestamp b) es ->
  let '(start', stop') := foldl widen (0, stop) es in
  start' = first_time es /\ stop <= stop' /\
  Forall (fun e => (e_Timestamp e <> 0 -> start' <= e_Timestamp e) /\ e_Timestamp e <= stop') es.
Proof.
  revert stop. induction es as [|e es IH]; intros stop Hs; [by split_and!|].
  apply StronglySorted_cons in Hs as [He Hs]. cbn [foldl]. rewrite first_time_cons. unfold widen at 2.
  change (is_zero 0) with true. cbn [orb]. unfold after. destruct (decide (e_Timestamp e = 0)) as [E|E].
  - rewrite E. specialize (IH (if stop <? 0 then 0 else stop) Hs). destruct (foldl widen _ es) as [start' stop'].
    destruct IH as (-> & Hle & Hall). assert (e_Timestamp e <> 0 -> first_time es <= e_Timestamp e) by congruence.
    destruct (Z.ltb_spec stop 0); (split_and!; [done|lia|constructor; [split; [done|lia]|done]]).
  - pose proof (widen_set es (e_Timestamp e) (if stop <? e_Timestamp e then e_Timestamp e else stop) E He) as Hw.
    destruct (foldl widen _ es) as [start' stop']. destruct Hw as (-> & Hle & Hall).
    assert (Forall (fun e' => (e_Timestamp e' <> 0 -> e_Timestamp e <= e_Timestamp e') /\ e_Timestamp e' <= stop') es) as Hboth.
    { rewrite Forall_forall in *. intros e' He'. split; [intros _; by apply He|by apply Hall]. }
    destruct (Z.ltb_spec stop (e_Timestamp e)); (split_and!; [done|lia|constructor; [lia|done]]).
Qed.

Lemma hops_end_mono (rtp : list TraceHop) stop :
  stop <= foldl (fun t h => if after (h_EndTime h) t then h_EndTime h else t) stop rtp.
Proof.
  revert stop. induction rtp as [|h rtp IH]; intros stop; cbn [foldl]; [lia|].
  etransitivity; [|apply IH]. unfold after. destruct (Z.ltb_spec stop (h_EndTime h)); lia.
Qed.

Lemma finalise_timeline `{SortSlice} s :
  ts_StartTime s = 0 -> ts_EndTime s = 0 -> ts_Lifecycle s = [] -> ts_Events s <> [] ->
  event_mark <$> ts_Events s ≡ₚ hop_mark <$> all_hops (ts_layers s) -> timeline (finalise s).
Proof.
  intros E1 E2 E3 Hne Hm. unfold finalise. rewrite E1, E2, E3.
  pose proof (sort_events_perm (ts_Events s)) as Hp. pose proof (sort_events_sorted (ts_Events s)) as Hs.
  set (evs := sort_events (ts_Events s)) in *. rewrite <-Hp in Hm.
  assert (evs <> []) as Hnil by (intros E; rewrite E in Hp; by apply Permutation_nil_l in Hp). clearbody evs.
  pose proof (widen_sorted evs 0 Hs) as Hw. destruct (foldl widen _ evs) as [start stop]. destruct Hw as (Hst & Hle & Hend).
  unfold buildLifecycle. assert (zlen evs =? 0 = false) as -> by (destruct evs; [done|]; rewrite zlen_cons; pose proof (zlen_nonneg evs); lia).
  cbv iota. rewrite app_nil_l. set (lcs := milestones start ∅ evs).
  assert (Hlc : forall lc, lc ∈ lcs -> exists e, e ∈ evs /\ lc = milestone start e /\
      forall e', e' ∈ evs -> e_Step e' = e_Step e -> e_Timestamp e <= e_Timestamp e')
    by (intros lc; by apply milestones_first).
  assert (Hdelta : forall e, e ∈ evs -> lc_DeltaMs (milestone start e) =
      (if is_zero (e_Timestamp e) then 0 else milliseconds (time_sub (e_Timestamp e) start)) /\
      0 <= lc_DeltaMs (milestone start e)).
  { intros e He. cbn [milestone lc_DeltaMs]. unfold is_zero. destruct (Z.eqb_spec (e_Timestamp e) 0) as [|Hne'];
      [by rewrite andb_false_r|]. rewrite Forall_forall in Hend. destruct (Hend e He) as [Hge _]. specialize (Hge Hne').
    assert (0 <= milliseconds (time_sub (e_Timestamp e) start)) by (unfold milliseconds, time_sub; apply Z.quot_pos; lia).
    destruct (Z.eqb_spec start 0) as [Hz|]; [|done]. exfalso. apply (first_time_set evs e He Hne'). by rewrite <-Hst. }
  split; cbn [ts_Events ts_layers ts_StartTime ts_EndTime ts_Lifecycle ts_UEState].
  - done.
  - done.
  - done.
  - assert (Hmono := hops_end_mono (l_hops (ts_RTP (ts_layers s))) stop).
    apply (Forall_impl _ _ _ Hend). intros e [Hge He]. split; [done|lia].
  - apply milestones_nodup.
  - intros step. unfold lcs. rewrite milestones_steps. set_solver.
  - intros lc Hl. destruct (Hlc _ Hl) as (e & He & -> & Hmin). destruct (Hdelta e He) as [Hd Hn].
    exists e. split; [done|]. split; [|done]. by rewrite <-Hd.
  - by apply milestones_sorted.
  - apply states_last. rewrite Forall_forall. intros lc Hl.
    apply (list_elem_of_fmap_2 lc_Step), milestones_steps in Hl. tauto.
Qed.

(** A session grown from nothing has a timeline. *)
Lemma grown_timeline `{SortSlice} s hops :
  ts_StartTime s = 0 -> ts_EndTime s = 0 -> ts_Lifecycle s = [] -> all_hops (ts_layers s) = hops ->
  event_mark <$> ts_Events s = hop_mark <$> hops -> hops <> [] ->
  timeline (finalise s).
Proof.
  intros E1 E2 E3 <- Em Hne. apply finalise_timeline; [done..| |by rewrite Em].
  intros E. rewrite E in Em. cbn in Em. symmetry in Em. by apply fmap_nil_inv in Em.
Qed.

Lemma attachMedia_grows mediaIP mediaPort flows s : ts_StartTime s = 0 ->
  grows on_RTP (flowToHop "RTP" <$> filter (fun f => matchesMediaEndpoint f mediaIP mediaPort = true) flows)
    s (foldl (attach_media mediaIP mediaPort) s flows).
Proof.
  intros E0. apply (loop_grows on_RTP "RTP" _ _ (ts_IMSI (ts_identity s))); [|done..].
  intros s1 f E1 _. unfold attach_media. destruct (matchesMediaEndpoint _ _ _).
  - rewrite decide_True by done. by apply grows_one.
  - rewrite decide_False by done. apply grows_refl, _.
Qed.

Lemma ims_session_timeline `{SortSlice} rtpFlows sip :
  timeline (ims_session rtpFlows sip).
Proof.
  unfold ims_session. cbv zeta.
  set (s0 := new_session _ _ _).
  match goal with |- timeline (finalise (foldl (attach_media ?ip ?port) ?s1 _)) =>
    set (s := s1); assert (grows on_SIP [flowToHop "SIP" sip] s0 s) as [Ff Fl Fe] by (by apply grows_one);
    assert (ts_StartTime s = 0) as E0 by done; clearbody s;
    pose proof (attachMedia_grows ip port rtpFlows s E0) as [Gf Gl Ge];
    set (hops := flowToHop "RTP" <$> filter _ rtpFlows) in * end.
  clearbody hops. rewrite Ff in Gf. unfold frame in Gf. injection Gf as _ _ E1 E2 E3 _ _.
  rewrite Fl in Gl. rewrite Fe in Ge. apply grown_timeline with (flowToHop "SIP" sip :: hops);
    [done..| |exact Ge|done].
  rewrite Gl. unfold on_RTP, on_SIP, all_hops. cbn -[push_all no_layer].
  change (ts_RTP (ts_layers s0)) with no_layer. by rewrite !push_all_none.
Qed.

Lemma ue_session_timeline `{SortSlice} flows imsi s :
  ue_sessions flows !! imsi = Some s -> timeline s.
Proof.
  intros Hs. assert (Hid : exists f, f ∈ flows /\ identifies imsi f).
  { apply (buildIMSISessions_spec flows). revert Hs. unfold ue_sessions. rewrite lookup_fmap.
    intros (s0 & -> & _)%fmap_Some. by eexists. }
  apply ue_sessions_spec in Hs as (s0 & Hf & ->).
  destruct (attached_spec flows imsi s0 Hf) as (Ef & El & Em). unfold frame in Ef. injection Ef as _ _ E1 E2 E3 _ _.
  destruct Hf as [_ _ _ _ F1 F2 F3 _ _].
  eapply grown_timeline; [by rewrite E1|by rewrite E2|by rewrite E3|by rewrite El|exact Em|].
  - destruct Hid as (f & Hin & Ht & Hi). intros Hnil.
    assert (Hin' : forall t, Type_ f = t -> f ∈ partitionByType flows t)
      by (intros t E; unfold partitionByType; by apply list_elem_of_filter).
    unfold all_hops, subscriber_layers, layer_of, hops_of in Hnil. cbn in Hnil. rewrite !filter_all in Hnil.
    repeat apply app_eq_nil in Hnil as [? Hnil]. repeat match goal with E : flowToHop _ <$> _ = [] |- _ =>
      apply fmap_nil_inv in E end.
    assert (Hno : forall l : list Flow, f ∈ l -> l = [] -> False) by (intros l Hl ->; by apply not_elem_of_nil in Hl).
    repeat (apply elem_of_cons in Ht as [Ht|Ht]); [| | |by apply not_elem_of_nil in Ht]; apply Hin' in Ht.
    + eapply Hno; eassumption.
    + destruct (decide (user_plane f)).
      * eapply (Hno (filter user_plane _)); [|eassumption]. by apply list_elem_of_filter.
      * eapply (Hno (filter (fun f => ~ user_plane f /\ own_or_anonymous imsi f) _)); [|eassumption].
        apply list_elem_of_filter. split; [split; [done|by right]|done].
    + eapply (Hno (filter (own_or_anonymous imsi) _)); [|eassumption]. apply list_elem_of_filter. by split; [right|].
Qed.

(** C12: every session of a trace has a timeline: one event per hop of any
    layer, in the order of time; the session starts with the first event that
    has a time, and no event is later than its end. It has a lifecycle with
    one step for every milestone among the events, the first event of it with
    its distance from the start, or none if it has no time. The state is that
    of the milestone that was reached for the first time last, not the highest
    one: a subscriber that comes back after a release stays releasing. *)
Theorem trace_timeline `{SortSlice} flows order s :
  map_order (ue_sessions flows) order -> s ∈ Trace flows order -> timeline s.
Proof.
  intros Ho [Hs|Hs]%elem_of_app.
  - apply list_elem_of_fmap in Hs as ([imsi s'] & -> & Hs). unfold map_order in Ho. rewrite Ho in Hs.
    apply elem_of_map_to_list in Hs. by apply (ue_session_timeline flows imsi).
  - unfold buildIMSSessions in Hs. apply list_elem_of_fmap in Hs as (sip & -> & [_ Hs]%list_elem_of_filter).
    apply ims_session_timeline.
Qed.

End attached.

(** ** Two subscribers, an hour apart *)

#[export] Instance plain_fmt : GoFmt := {| fmt_v_other := fun _ => ""%string |}.

Definition event_le (a b : TraceEvent) : Prop := e_Timestamp a <= e_Timestamp b.
#[export] Instance event_le_dec : RelDecision event_le.
Proof. intros a b. unfold event_le. apply _. Defined.
Definition stable_sort : SortSlice.
Proof.
  refine {| sort_events := merge_sort event_le |}.
  - intros l. apply merge_sort_Permutation.
  - intros l. apply StronglySorted_merge_sort.
    + intros a b c. unfold event_le. lia.
    + intros a b. unfold event_le. lia.
Defined.
Definition ngap_flow (imsi : string) (t : time) : Flow :=
  {| FlowID := imsi; Type_ := FlowNGAP; F_SrcIP := "10.0.0.1"; F_DstIP := "10.0.0.2"; F_SrcPort := 38412; F_DstPort := 38412;
     StartTime := t; EndTime := t;
     Metrics := <["imsi"%string := AStr imsi]> (<["procedure_name"%string := AStr "InitialUEMessage"]> ∅) |}.
Definition two_subscribers : list Flow := [ngap_flow "1" 1; ngap_flow "2" (1 + 3600 * second)].
Definition two_sessions : gmap string TelecomSession := @ue_sessions ascii_only plain_fmt stable_sort two_subscribers.

Example trace_sessions_exact_witness : exists s, two_sessions !! "1"%string = Some s /\
  h_FlowID <$> l_hops (ts_NGAP (ts_layers s)) = ["1"; "2"]%string.
Proof.
  destruct (@trace_sessions_exact ascii_only plain_fmt stable_sort two_subscribers (map_to_list two_sessions)
    (reflexivity _)) as (_ & Hin & Hs & _).
  assert ("1"%string ∈ fst <$> map_to_list two_sessions) as H1.
  { apply Hin. split; [done|]. exists (ngap_flow "1" 1). split; [by left|]. split; [by left|reflexivity]. }
  apply list_elem_of_fmap in H1 as ([imsi s] & E & H1). cbn in E. subst imsi.
  exists s. split; [by apply elem_of_map_to_list|]. destruct (Hs _ _ H1) as (_ & _ & ->). reflexivity.
Defined.

Example trace_timeline_witness : exists s, two_sessions !! "1"%string = Some s /\
  timeline s /\ lc_Step <$> ts_Lifecycle s = ["UE_Registration"]%string.
Proof.
  assert (fmap (fun s => lc_Step <$> ts_Lifecycle s) (two_sessions !! "1"%string) = Some ["UE_Registration"%string]) as E
    by (vm_compute; reflexivity).
  destruct (two_sessions !! "1"%string) as [s|] eqn:Hs; [|discriminate E].
  exists s. split; [reflexivity|]. split; [|injection E as E; exact E].
  apply (@trace_timeline ascii_only plain_fmt stable_sort two_subscribers (map_to_list two_sessions) s (reflexivity _)).
  - apply elem_of_app. left. apply list_elem_of_fmap. exists ("1"%string, s). split; [done|].
    by apply elem_of_map_to_list.
Defined.
