(* ===== verification/Dns.v ===== *)
(** * internal/protocols/dns: the DNS decoder

    decoder.go, errors.go and types.go: the transaction table, query and
    response parsing, the answer records and name decompression. [decodeName]
    calls itself on a compression pointer, so it takes fuel: the depth of the
    calls. The other loops take the fuel that their offset needs. *)
From S2P Require Export Dpi.

(** ** types.go *)

Record Transaction := {
  TxID : Z;
  QueryName : string;
  QueryType : string;
  T_SrcIP : string;
  T_DstIP : string;
  T_SrcPort : Z;
  T_DstPort : Z;
  QueryTime : time;
  ReplyTime : time;
  ReplyCode : string;
  Answers : list string;
  Latency : f64;
  HasReply : bool;
  IsError : bool;
  ErrorType : string;
}.

Definition RecordTypes : gmap Z string := list_to_map
  [(1, "A"); (2, "NS"); (5, "CNAME"); (6, "SOA"); (12, "PTR"); (15, "MX"); (16, "TXT");
   (28, "AAAA"); (33, "SRV"); (35, "NAPTR"); (255, "ANY")]%string.

Definition ResponseCodes : gmap Z string := list_to_map
  [(0, "NOERROR"); (1, "FORMERR"); (2, "SERVFAIL"); (3, "NXDOMAIN"); (4, "NOTIMP");
   (5, "REFUSED"); (6, "YXDOMAIN"); (7, "YXRRSET"); (8, "NXRRSET"); (9, "NOTAUTH");
   (10, "NOTZONE"); (11, "DSOTYPENI")]%string.

(** ** errors.go *)

Definition formatMs (ms : f64) : string :=
  if f_ge ms (f_int 1000) then fmt_f 1 (f_div ms (f_int 1000)) +:+ "s" else fmt_f 0 ms.

Definition DetectErrors (tx : Transaction) : list PacketError :=
  if negb (HasReply tx) then
    [{| Code := "DNS_TIMEOUT"; Title := "DNS Query Timeout";
        Description := "DNS query for " +:+ QueryName tx +:+ " received no response";
        Severity := "warning" |}]
  else
    (if String.eqb (ReplyCode tx) "NXDOMAIN" then
       [{| Code := "DNS_NXDOMAIN"; Title := "Domain Not Found";
           Description := QueryName tx +:+ " does not exist (NXDOMAIN)";
           Severity := "warning" |}]
     else if String.eqb (ReplyCode tx) "SERVFAIL" then
       [{| Code := "DNS_SERVFAIL"; Title := "DNS Server Failure";
           Description := "DNS server failed to resolve " +:+ QueryName tx +:+ " (SERVFAIL)";
           Severity := "error" |}]
     else if String.eqb (ReplyCode tx) "REFUSED" then
       [{| Code := "DNS_REFUSED"; Title := "DNS Query Refused";
           Description := "DNS server refused query for " +:+ QueryName tx;
           Severity := "error" |}]
     else if String.eqb (ReplyCode tx) "FORMERR" then
       [{| Code := "DNS_FORMERR"; Title := "DNS Format Error";
           Description := "Malformed DNS query for " +:+ QueryName tx;
           Severity := "error" |}]
     else []) ++
    (if f_gt (Latency tx) (f_int 500) then
       [{| Code := "DNS_SLOW"; Title := "Slow DNS Resolution";
           Description := QueryName tx +:+ " took " +:+ formatMs (Latency tx) +:+ "ms to resolve";
           Severity := "warning" |}]
     else []).

(** ** Names *)

Definition is_label_byte (b : byte) : bool :=
  let c := u8 b in
  ((97 <=? c) && (c <=? 122)) || ((65 <=? c) && (c <=? 90)) || ((48 <=? c) && (c <=? 57))
  || (c =? 45) || (c =? 95).

Definition isValidDNSLabel (label : list byte) : bool := forallb is_label_byte label.

(** How the loop of one call of decodeName ends: at the end of the name, or at
    a compression pointer. *)
Inductive name_end :=
  | NameDone (parts : list string)
  | NamePtr (parts : list string) (ptr : Z).

(** One turn of that loop, on (offset, seen, parts). *)
Definition name_body (payload : list byte) (st : Z * gset Z * list string) :
    res (ctl (Z * gset Z * list string) name_end) :=
  let '(offset, seen, parts) := st in
  if offset <? zlen payload then
    if bool_decide (offset ∈ seen) then Ok (Done (NameDone parts))
    else
      let seen := {[offset]} ∪ seen in
      length ← idx payload offset;
      let length := u8 length in
      if length =? 0 then Ok (Done (NameDone parts))
      else if 0xC0 <=? length then
        if zlen payload <=? offset + 1 then Ok (Done (NameDone parts))
        else
          w ← rd_be 2 payload offset;
          Ok (Done (NamePtr parts (Z.land w 0x3FFF)))
      else
        let offset := offset + 1 in
        if zlen payload <? offset + length then Ok (Done (NameDone parts))
        else
          label ← slice payload offset (offset + length);
          Ok (Next (offset + length, seen, parts ++ [gostr label]))
  else Ok (Done (NameDone parts)).

Definition name_segment (payload : list byte) (offset : Z) : res name_end :=
  loop (S (length payload)) (name_body payload) (offset, ∅, []).

Fixpoint decodeName (fuel : nat) (payload : list byte) (offset : Z) : res string :=
  match fuel with
  | O => OutOfFuel
  | S fuel =>
    e ← name_segment payload offset;
    match e with
    | NameDone parts => Ok (join "." parts)
    | NamePtr parts ptr =>
      rest ← decodeName fuel payload ptr;
      Ok (join "." parts +:+ "." +:+ rest)
    end
  end.

Definition nameLength (payload : list byte) (offset : Z) : res Z :=
  loop (S (length payload)) (fun pos =>
    if pos <? zlen payload then
      length ← idx payload pos;
      let length := u8 length in
      if length =? 0 then Ok (Done (pos + 1 - offset))
      else if 0xC0 <=? length then Ok (Done (pos + 2 - offset))
      else Ok (Next (pos + 1 + length))
    else Ok (Done (pos - offset))) offset.

Definition readCharString (payload : list byte) (offset : Z) : res (list byte * Z) :=
  if zlen payload <=? offset then Ok ([], offset)
  else
    l ← idx payload offset;
    let l := u8 l in
    let offset := offset + 1 in
    if zlen payload <? offset + l then Ok ([], offset)
    else
      s ← slice payload offset (offset + l);
      Ok (s, offset + l).

(** ** The question *)

Definition type_name (code : Z) : string :=
  match RecordTypes !! code with
  | Some t => t
  | None => "TYPE" +:+ fmt_d code
  end.

Definition parseQuestion (payload : list byte) : res (string * string) :=
  if zlen payload <? 13 then Ok ("", "")%string
  else
    r ← loop (S (length payload)) (fun '(offset, parts) =>
      if offset <? zlen payload then
        length ← idx payload offset;
        let length := u8 length in
        if length =? 0 then Ok (Done (Some (offset + 1, parts)))
        else
          let offset := offset + 1 in
          if zlen payload <? offset + length then Ok (Done (Some (offset, parts)))
          else
            label ← slice payload offset (offset + length);
            if negb (isValidDNSLabel label) then Ok (Done None)
            else Ok (Next (offset + length, parts ++ [gostr label]))
      else Ok (Done (Some (offset, parts)))) (12, []);
    match r with
    | None => Ok ("", "")%string
    | Some (offset, parts) =>
      let name := join "." parts in
      if offset + 2 <=? zlen payload then
        qtypeCode ← rd_be 2 payload offset;
        Ok (name, type_name qtypeCode)
      else Ok (name, ""%string)
    end.

(** ** The answers *)

Section answers.
Context `{Unicode}.

(** The character-strings of a TXT record, between [p] and [e]. *)
Definition txt_strings (payload : list byte) (p e : Z) : res (list string) :=
  loop (S (length payload)) (fun '(p, strs) =>
    if (p <? e) && (p <? zlen payload) then
      l ← idx payload p;
      let l := u8 l in
      let p := p + 1 in
      if (zlen payload <? p + l) || (e <? p + l) then Ok (Done strs)
      else
        s ← slice payload p (p + l);
        Ok (Next (p + l, strs ++ [gostr s]))
    else Ok (Done strs)) (p, []).

(** The [switch] on the record type: the answer strings the record adds. *)
Definition record_answer (fuel : nat) (payload : list byte) (rtype rdLength offset : Z) :
    res (list string) :=
  if rtype =? 1 then
    if rdLength =? 4 then
      a ← idx payload offset; b ← idx payload (offset + 1);
      c ← idx payload (offset + 2); d ← idx payload (offset + 3);
      Ok [fmt_d (u8 a) +:+ "." +:+ fmt_d (u8 b) +:+ "." +:+ fmt_d (u8 c) +:+ "." +:+ fmt_d (u8 d)]
    else Ok []
  else if rtype =? 28 then
    if rdLength =? 16 then
      g0 ← rd_be 2 payload offset; g1 ← rd_be 2 payload (offset + 2);
      g2 ← rd_be 2 payload (offset + 4); g3 ← rd_be 2 payload (offset + 6);
      g4 ← rd_be 2 payload (offset + 8); g5 ← rd_be 2 payload (offset + 10);
      g6 ← rd_be 2 payload (offset + 12); g7 ← rd_be 2 payload (offset + 14);
      Ok [join ":" (fmt_x <$> [g0; g1; g2; g3; g4; g5; g6; g7])]
    else Ok []
  else if (rtype =? 2) || (rtype =? 5) then
    name ← decodeName fuel payload offset;
    Ok (if String.eqb name "" then [] else [name])
  else if rtype =? 6 then
    mname ← decodeName fuel payload offset;
    mnameLen ← nameLength payload offset;
    let rnameOff := offset + mnameLen in
    rname ← decodeName fuel payload rnameOff;
    rnameLen ← nameLength payload rnameOff;
    let numOff := rnameOff + rnameLen in
    if numOff + 20 <=? zlen payload then
      serial ← rd_be 4 payload numOff;
      refresh ← rd_be 4 payload (numOff + 4);
      retry ← rd_be 4 payload (numOff + 8);
      expire ← rd_be 4 payload (numOff + 12);
      minimum ← rd_be 4 payload (numOff + 16);
      Ok [join " " [mname; rname; fmt_d serial; fmt_d refresh; fmt_d retry; fmt_d expire;
                    fmt_d minimum]]
    else Ok []
  else if rtype =? 15 then
    if 3 <=? rdLength then
      pref ← rd_be 2 payload offset;
      exchange ← decodeName fuel payload (offset + 2);
      Ok [fmt_d pref +:+ " " +:+ exchange]
    else Ok []
  else if rtype =? 16 then
    strs ← txt_strings payload offset (offset + rdLength);
    Ok (if 0 <? zlen strs then [join " " strs] else [])
  else if rtype =? 33 then
    if 7 <=? rdLength then
      priority ← rd_be 2 payload offset;
      weight ← rd_be 2 payload (offset + 2);
      port ← rd_be 2 payload (offset + 4);
      target ← decodeName fuel payload (offset + 6);
      Ok [join " " [fmt_d priority; fmt_d weight; fmt_d port; target]]
    else Ok []
  else if rtype =? 35 then
    if 4 <=? rdLength then
      order ← rd_be 2 payload offset;
      pref ← rd_be 2 payload (offset + 2);
      '(flags, p) ← readCharString payload (offset + 4);
      '(service, p) ← readCharString payload p;
      '(regexp, p) ← readCharString payload p;
      replacement ← decodeName fuel payload p;
      Ok [join " " [fmt_d order; fmt_d pref; fmt_q flags; fmt_q service; fmt_q regexp; replacement]]
    else Ok []
  else Ok [].

(** The loop that skips the question name: where it stops. *)
Definition skip_question (payload : list byte) : res Z :=
  loop (S (length payload)) (fun offset =>
    if offset <? zlen payload then
      length ← idx payload offset;
      let length := u8 length in
      if length =? 0 then Ok (Done (offset + 1))
      else if 0xC0 <=? length then Ok (Done (offset + 2))
      else Ok (Next (offset + (1 + length)))
    else Ok (Done offset)) 12.

(** The loop that skips an owner name without a pointer. *)
Definition skip_labels (payload : list byte) (offset : Z) : res Z :=
  loop (S (length payload)) (fun offset =>
    if offset <? zlen payload then
      l ← idx payload offset;
      let l := u8 l in
      if l =? 0 then Ok (Done (offset + 1)) else Ok (Next (offset + (1 + l)))
    else Ok (Done offset)) offset.

Definition answer_body (fuel : nat) (payload : list byte) (anCount : Z)
    (st : Z * Z * list string) : res (ctl (Z * Z * list string) (list string)) :=
  let '(i, offset, answers) := st in
  if (i <? anCount) && (offset <? zlen payload) then
    b ← idx payload offset;
    offset ← (if 0xC0 <=? u8 b then Ok (offset + 2) else skip_labels payload offset);
    if zlen payload <? offset + 10 then Ok (Done answers)
    else
      rtype ← rd_be 2 payload offset;
      rdLength ← rd_be 2 payload (offset + 8);
      let offset := offset + 10 in
      if zlen payload <? offset + rdLength then Ok (Done answers)
      else
        more ← record_answer fuel payload rtype rdLength offset;
        Ok (Next (i + 1, offset + rdLength, answers ++ more))
  else Ok (Done answers).

Definition parseAnswers (fuel : nat) (payload : list byte) : res (list string) :=
  if zlen payload <? 12 then Ok []
  else
    anCount ← rd_be 2 payload 6;
    if anCount =? 0 then Ok []
    else
      offset ← skip_question payload;
      loop (S (length payload)) (answer_body fuel payload anCount) (0, offset + 4, []).

End answers.

(** ** decoder.go: the transactions *)

Record Decoder := {
  transactions : gmap Z Transaction;
  completed : list Transaction;
}.

Definition NewDecoder : Decoder := {| transactions := ∅; completed := [] |}.

Definition isDNSPort (src dst : Z) : bool :=
  (src =? 53) || (dst =? 53) || (src =? 5353) || (dst =? 5353).

(** A new transaction for a query, its other fields zero. *)
Definition query_tx (txID : Z) (name qtype srcIP dstIP : string) (srcPort dstPort : Z)
    (ts : time) : Transaction :=
  {| TxID := txID; QueryName := name; QueryType := qtype; T_SrcIP := srcIP; T_DstIP := dstIP;
     T_SrcPort := srcPort; T_DstPort := dstPort; QueryTime := ts; ReplyTime := 0;
     ReplyCode := ""; Answers := []; Latency := f_zero; HasReply := false; IsError := false;
     ErrorType := "" |}.

(** The fields a response fills in. *)
Definition with_reply (tx : Transaction) (ts : time) (rcode : Z) (rcodeStr : string)
    (answers : list string) : Transaction :=
  {| TxID := TxID tx; QueryName := QueryName tx; QueryType := QueryType tx;
     T_SrcIP := T_SrcIP tx; T_DstIP := T_DstIP tx; T_SrcPort := T_SrcPort tx;
     T_DstPort := T_DstPort tx; QueryTime := QueryTime tx; ReplyTime := ts;
     ReplyCode := rcodeStr; Answers := answers;
     Latency := f_div (f_int (microseconds (time_sub ts (QueryTime tx)))) (f_int 1000);
     HasReply := true;
     IsError := if negb (rcode =? 0) then true else IsError tx;
     ErrorType := if negb (rcode =? 0) then rcodeStr else ErrorType tx |}.

Definition with_timeout (tx : Transaction) : Transaction :=
  {| TxID := TxID tx; QueryName := QueryName tx; QueryType := QueryType tx;
     T_SrcIP := T_SrcIP tx; T_DstIP := T_DstIP tx; T_SrcPort := T_SrcPort tx;
     T_DstPort := T_DstPort tx; QueryTime := QueryTime tx; ReplyTime := ReplyTime tx;
     ReplyCode := ReplyCode tx; Answers := Answers tx; Latency := Latency tx;
     HasReply := HasReply tx; IsError := true; ErrorType := "TIMEOUT" |}.

Section decoder.
Context `{Unicode}.

Definition parseDNS (fuel : nat) (d : Decoder) (pkt : Packet) (onDNSPort : bool) :
    res (Decoder * Packet * option Transaction) :=
  let payload := Payload pkt in
  txID ← rd_be 2 payload 0;
  flags ← rd_be 2 payload 2;
  let isResponse := negb (Z.land flags 0x8000 =? 0) in
  let rcode := Z.land flags 0x000F in
  if negb isResponse then
    '(name, qtype) ← parseQuestion payload;
    if negb onDNSPort && String.eqb name "" then Ok (d, pkt, None)
    else
      let tx := query_tx txID name qtype (SrcIP pkt) (DstIP pkt) (SrcPort pkt) (DstPort pkt)
        (Timestamp pkt) in
      Ok ({| transactions := <[txID := tx]> (transactions d); completed := completed d |},
          set_app "DNS" ("Query " +:+ qtype +:+ " " +:+ name) pkt, Some tx)
  else
    otx ← match transactions d !! txID with
      | Some tx => Ok (Some tx)
      | None =>
        '(name, qtype) ← parseQuestion payload;
        if negb onDNSPort && String.eqb name "" then Ok None
        else Ok (Some (query_tx txID name qtype (DstIP pkt) (SrcIP pkt) (DstPort pkt)
          (SrcPort pkt) (Timestamp pkt)))
      end;
    match otx with
    | None => Ok (d, pkt, None)
    | Some tx =>
      let rcodeStr :=
        match ResponseCodes !! rcode with
        | Some s => s
        | None => "RCODE_" +:+ fmt_d rcode
        end in
      answers ← parseAnswers fuel payload;
      let tx := with_reply tx (Timestamp pkt) rcode rcodeStr answers in
      Ok ({| transactions := delete txID (transactions d); completed := completed d ++ [tx] |},
          set_app "DNS" ("Response " +:+ QueryType tx +:+ " " +:+ QueryName tx +:+ " ["
            +:+ rcodeStr +:+ "]") pkt, Some tx)
    end.

(** The guard HandlePacket and HandlePacketLive share. *)
Definition admits (pkt : Packet) : res bool :=
  if zlen (Payload pkt) <? 12 then Ok false
  else if isDNSPort (SrcPort pkt) (DstPort pkt) then Ok true
  else IsDNS (Payload pkt).

Definition HandlePacket (fuel : nat) (d : Decoder) (pkt : Packet) : res (Decoder * Packet) :=
  ok ← admits pkt;
  if negb ok then Ok (d, pkt)
  else
    '(d, pkt, _) ← parseDNS fuel d pkt (isDNSPort (SrcPort pkt) (DstPort pkt));
    Ok (d, pkt).

Definition HandlePacketLive (fuel : nat) (d : Decoder) (pkt : Packet) :
    res (Decoder * option DecodedPacket) :=
  ok ← admits pkt;
  if negb ok then Ok (d, None)
  else
    '(d, pkt, otx) ← parseDNS fuel d pkt (isDNSPort (SrcPort pkt) (DstPort pkt));
    match otx with
    | None => Ok (d, None)
    | Some tx =>
      let summary :=
        if HasReply tx then
          "DNS " +:+ ReplyCode tx +:+ " " +:+ QueryName tx +:+ " -> " +:+ join ", " (Answers tx)
        else "DNS " +:+ QueryType tx +:+ " " +:+ QueryName tx in
      Ok (d, Some {| D_Packet := pkt; D_Protocol := "DNS"; D_Summary := summary;
        D_Metadata := list_to_map
          [("query_name", AStr (QueryName tx)); ("query_type", AStr (QueryType tx));
           ("reply_code", AStr (ReplyCode tx)); ("answers", AStrs (Answers tx))]%string;
        D_Errors := DetectErrors tx |})
    end.

End decoder.

Definition tx_flow (tx : Transaction) : Flow :=
  {| FlowID := "dns-" +:+ fmt_d (TxID tx) +:+ "-" +:+ QueryName tx; Type_ := FlowDNS;
     F_SrcIP := T_SrcIP tx; F_DstIP := T_DstIP tx; F_SrcPort := T_SrcPort tx;
     F_DstPort := T_DstPort tx; StartTime := QueryTime tx; EndTime := ReplyTime tx;
     Metrics := list_to_map
       [("query_name", AStr (QueryName tx)); ("query_type", AStr (QueryType tx));
        ("reply_code", AStr (ReplyCode tx)); ("answers", AStrs (Answers tx));
        ("latency_ms", AF64 (Latency tx)); ("is_error", ABool (IsError tx));
        ("error_type", AStr (ErrorType tx))]%string |}.

(** Flush, for the order the range over the pending transactions takes. They
    are marked in place, so the table holds the marked ones afterwards. *)
Definition Flush (d : Decoder) (order : list (Z * Transaction)) : list Flow * Decoder :=
  let d' := {| transactions := with_timeout <$> transactions d;
               completed := completed d ++ (with_timeout ∘ snd <$> order) |} in
  (tx_flow <$> completed d', d').

(** ** Names: one call of decodeName, and the chain of calls *)

Lemma name_segment_returns payload offset :
  0 <= offset ->
  returns (name_segment payload offset) (fun e =>
    match e with NamePtr _ ptr => 0 <= ptr < 2 ^ 14 | NameDone _ => True end).
Proof.
  intros Ho. apply (returns_loop (fun st => 0 <= fst (fst st))
    (fun st => Z.to_nat (zlen payload - fst (fst st)))); [|done|cbn; unfold zlen; lia].
  intros [[o seen] parts] Hs. cbn in Hs. unfold name_body.
  destruct (Z.ltb_spec o (zlen payload)); [|done].
  case_bool_decide; [done|]. cbv zeta. run_step. apply returns_idx; [lia|]. intros b _.
  pose proof (u8_range b). destruct (u8 b =? 0) eqn:?; [done|].
  destruct (_ <=? u8 b).
  - destruct (Z.leb_spec (zlen payload) (o + 1)); [done|].
    run_step. apply returns_rd_be; [lia|]. intros v _ Hv. cbn.
    change 0x3FFF with (Z.ones 14). rewrite Z.land_ones by lia. apply Z.mod_pos_bound. lia.
  - destruct (Z.ltb_spec (zlen payload) (o + 1 + u8 b)); [done|].
    run_step. apply returns_slice; [lia|]. cbn. lia.
Qed.

(** A decoded name never panics; it runs out of fuel when its pointers loop. *)
Lemma decodeName_yields fuel payload offset :
  0 <= offset ->
  yields (decodeName fuel payload offset) (fun _ => True)
    (exists o, 0 <= o /\ decodeName fuel payload o = OutOfFuel).
Proof.
  intros Ho. destruct (decodeName fuel payload offset) eqn:E; cbn; [done| |by exists offset].
  revert offset Ho E. induction fuel as [|fuel IH]; intros offset Ho; [done|].
  cbn [decodeName]. destruct (returns_inv _ _ (name_segment_returns payload offset Ho)) as (e & -> & He).
  cbn [mbind res_bind]. destruct e as [parts|parts ptr]; [done|].
  destruct (decodeName fuel payload ptr) eqn:E; [done| |done]. intros _. eapply (IH ptr); [lia|done].
Qed.

Lemma decodeName_mono fuel fuel' payload offset n :
  decodeName fuel payload offset = Ok n -> (fuel <= fuel')%nat ->
  decodeName fuel' payload offset = Ok n.
Proof.
  revert fuel' offset n. induction fuel as [|fuel IH]; intros fuel' offset n Hn Hle; [done|].
  destruct fuel' as [|fuel']; [lia|]. cbn [decodeName] in *.
  apply bind_Ok in Hn as (e & -> & Hn). cbn [mbind res_bind].
  destruct e as [|parts ptr]; [done|]. apply bind_Ok in Hn as (r & Hr & [= <-]).
  rewrite (IH fuel' ptr r) by (done || lia). done.
Qed.

(** Compression pointers that obey RFC 1035: a name's pointer leads before the
    place where that part of the name starts. *)
Definition backward_pointers (payload : list byte) : Prop :=
  forall offset parts ptr, 0 <= offset ->
    name_segment payload offset = Ok (NamePtr parts ptr) -> ptr < offset.

Lemma decodeName_backward payload fuel offset :
  backward_pointers payload -> 0 <= offset < Z.of_nat fuel ->
  returns (decodeName fuel payload offset) (fun _ => True).
Proof.
  intros Hb. revert offset. induction fuel as [|fuel IH]; intros offset Ho; [lia|].
  cbn [decodeName]. apply returns_bind.
  destruct (returns_inv _ _ (name_segment_returns payload offset (proj1 Ho))) as (e & He & Hp).
  rewrite He. cbn [returns]. destruct e as [parts|parts ptr]; [done|].
  apply returns_bind. eapply returns_weaken; [apply IH|done].
  pose proof (Hb offset parts ptr (proj1 Ho) He). lia.
Qed.

Lemma nameLength_returns payload offset :
  0 <= offset -> returns (nameLength payload offset) (fun n => 0 <= n).
Proof.
  intros Ho. apply (returns_loop (fun pos => offset <= pos)
    (fun pos => Z.to_nat (zlen payload - pos))); [|done|unfold zlen; lia].
  intros pos Hp. destruct (Z.ltb_spec pos (zlen payload)); [|cbn; lia].
  run_step. apply returns_idx; [lia|]. intros b _. cbv zeta. pose proof (u8_range b).
  destruct (Z.eqb_spec (u8 b) 0); [cbn; lia|]. destruct (_ <=? u8 b); cbn; lia.
Qed.

Lemma readCharString_returns payload offset :
  0 <= offset -> returns (readCharString payload offset) (fun r => 0 <= snd r).
Proof.
  intros Ho. unfold readCharString. destruct (Z.leb_spec (zlen payload) offset); [done|].
  run_step. apply returns_idx; [lia|]. intros b _. cbv zeta. pose proof (u8_range b).
  destruct (Z.ltb_spec (zlen payload) (offset + 1 + u8 b)); [cbn; lia|].
  run_step. apply returns_slice; [lia|]. cbn. lia.
Qed.

Lemma parseQuestion_returns payload : returns (parseQuestion payload) (fun _ => True).
Proof.
  unfold parseQuestion. destruct (Z.ltb_spec (zlen payload) 13); [done|].
  eapply returns_bind_weak.
  - apply (returns_loop (fun st => 0 <= fst st) (fun st => Z.to_nat (zlen payload - fst st))
      _ (fun r => match r with Some (o, _) => 0 <= o | None => True end));
      [|cbn; lia|cbn; unfold zlen; lia].
    intros [o parts] Hs. cbn in Hs. destruct (Z.ltb_spec o (zlen payload)); [|done].
    run_step. apply returns_idx; [lia|]. intros b _. cbv zeta. pose proof (u8_range b).
    destruct (Z.eqb_spec (u8 b) 0); [cbn; lia|].
    destruct (Z.ltb_spec (zlen payload) (o + 1 + u8 b)); [cbn; lia|].
    run_step. apply returns_slice; [lia|]. destruct (negb _); [done|]. cbn. lia.
  - intros [[o parts]|] Ho; [|done]. destruct (Z.leb_spec (o + 2) (zlen payload)); [|done].
    run_step. apply returns_rd_be; [lia|]. done.
Qed.

(** ** The answers never panic *)

Section answers_total.
Context `{Unicode} (fuel : nat) (payload : list byte).

Definition name_stuck : Prop := exists o, 0 <= o /\ decodeName fuel payload o = OutOfFuel.

Lemma txt_strings_returns p e : 0 <= p -> returns (txt_strings payload p e) (fun _ => True).
Proof.
  intros Hp. apply (returns_loop (fun st => 0 <= fst st)
    (fun st => Z.to_nat (zlen payload - fst st))); [|done|cbn; unfold zlen; lia].
  intros [o strs] Hs. cbn in Hs. destruct (o <? e) eqn:?; cbn [andb]; [|done].
  destruct (Z.ltb_spec o (zlen payload)); [|done].
  run_step. apply returns_idx; [lia|]. intros b _. cbv zeta. pose proof (u8_range b).
  destruct (Z.ltb_spec (zlen payload) (o + 1 + u8 b)); [done|]. cbn [orb].
  destruct (e <? _); [done|]. run_step. apply returns_slice; [lia|]. cbn. lia.
Qed.

(** A read in bounds, or a call known to return, before the rest. *)
Ltac yield_step :=
  match goal with
  | |- yields (idx _ _ ≫= _) _ _ =>
    eapply yields_bind_returns; [apply (returns_idx _ _ (fun _ => True)); [lia|done]|intros ? _]
  | |- yields (rd_be _ _ _ ≫= _) _ _ =>
    eapply yields_bind_returns; [apply (returns_rd_be _ _ _ (fun v => 0 <= v)); [lia|intros; lia]|
      intros ? ?; cbv beta in *]
  | |- yields (decodeName _ _ _ ≫= _) _ _ =>
    eapply yields_bind; [apply decodeName_yields; lia|intros ? _]
  | |- yields (nameLength _ _ ≫= _) _ _ =>
    eapply yields_bind_returns; [apply nameLength_returns; lia|intros ? ?; cbv beta in *]
  | |- yields (readCharString _ _ ≫= _) _ _ =>
    eapply yields_bind_returns; [apply readCharString_returns; lia|intros [? ?] ?; cbn in *]
  | |- yields (Ok _) _ _ => exact I
  end.

Lemma record_answer_yields rtype rdLength offset :
  0 <= offset -> 0 <= rdLength -> offset + rdLength <= zlen payload ->
  yields (record_answer fuel payload rtype rdLength offset) (fun _ => True) name_stuck.
Proof.
  intros Ho Hr Hl. unfold record_answer, name_stuck.
  repeat match goal with
  | |- yields (if ?b then _ else _) _ _ => destruct b eqn:?
  | |- yields (let _ := _ in _) _ _ => cbv zeta
  | _ => yield_step
  end.
  eapply yields_bind_returns; [apply txt_strings_returns; lia|]. done.
Qed.

Lemma skip_labels_returns offset : 0 <= offset ->
  returns (skip_labels payload offset) (fun o => offset <= o).
Proof.
  intros Ho. apply (returns_loop (fun o => offset <= o)
    (fun o => Z.to_nat (zlen payload - o))); [|done|unfold zlen; lia].
  intros o Hs. destruct (Z.ltb_spec o (zlen payload)); [|cbn; lia].
  run_step. apply returns_idx; [lia|]. intros b _. cbv zeta. pose proof (u8_range b).
  destruct (u8 b =? 0); cbn; lia.
Qed.

Lemma skip_question_returns : returns (skip_question payload) (fun o => 12 <= o).
Proof.
  apply (returns_loop (fun o => 12 <= o)
    (fun o => Z.to_nat (zlen payload - o))); [|done|unfold zlen; lia].
  intros o Hs. destruct (Z.ltb_spec o (zlen payload)); [|cbn; lia].
  run_step. apply returns_idx; [lia|]. intros b _. cbv zeta. pose proof (u8_range b).
  destruct (u8 b =? 0); [cbn; lia|]. destruct (_ <=? u8 b); cbn; lia.
Qed.

Lemma parseAnswers_yields : yields (parseAnswers fuel payload) (fun _ => True) name_stuck.
Proof.
  unfold parseAnswers. destruct (Z.ltb_spec (zlen payload) 12); [done|].
  yield_step. destruct (_ =? 0); [done|].
  eapply yields_bind_returns; [apply skip_question_returns|]. intros o Ho. cbv beta in Ho.
  apply (yields_loop (fun st => 0 <= snd (fst st))
    (fun st => Z.to_nat (zlen payload - snd (fst st)))); [|cbn; lia|cbn; unfold zlen; lia].
  clear o Ho. intros [[i o] answers] Ho. cbn in Ho. unfold answer_body.
  destruct (i <? _); cbn [andb]; [|done]. destruct (Z.ltb_spec o (zlen payload)); [|done].
  yield_step. eapply (yields_bind_returns _ _ (fun o' => o <= o')).
  { destruct (_ <=? _); [cbn; lia|]. by apply skip_labels_returns. }
  intros o' Ho'. destruct (Z.ltb_spec (zlen payload) (o' + 10)); [done|].
  yield_step. cbv beta in *.
  eapply yields_bind_returns; [apply (returns_rd_be _ _ _ (fun v => 0 <= v)); [lia|intros; lia]|].
  intros rdLength Hrd. cbv zeta beta in *.
  destruct (Z.ltb_spec (zlen payload) (o' + 10 + rdLength)); [done|].
  eapply yields_bind; [apply record_answer_yields; lia|]. intros more _. cbn. lia.
Qed.
End answers_total.

Lemma hasValidQuestion_admits pkt : returns (admits pkt) (fun b => b = true -> 12 <= zlen (Payload pkt)).
Proof.
  unfold admits. destruct (Z.ltb_spec (zlen (Payload pkt)) 12); [by cbn|].
  destruct (isDNSPort _ _); [by cbn|].
  destruct (returns_inv (IsDNS (Payload pkt)) (fun _ => True)) as (b & -> & _); [|by cbn].
  unfold IsDNS. destruct (_ <? 12); [done|]. run_dpi. apply hasValidQuestionSection_total.
Qed.

(** One packet through the decoder: it never panics, and it is out of fuel
    only when a name of the packet is. *)
Lemma parseDNS_yields `{Unicode} fuel d pkt onPort :
  12 <= zlen (Payload pkt) ->
  yields (parseDNS fuel d pkt onPort) (fun _ => True) (name_stuck fuel (Payload pkt)).
Proof.
  intros Hl. unfold parseDNS. cbv zeta.
  eapply yields_bind_returns; [apply (returns_rd_be _ _ _ (fun _ => True)); [lia|done]|].
  intros txID _.
  eapply yields_bind_returns; [apply (returns_rd_be _ _ _ (fun _ => True)); [lia|done]|].
  intros flags _.
  destruct (negb (negb _)).
  - eapply yields_bind_returns; [apply parseQuestion_returns|]. intros [name qtype] _.
    by destruct (_ && _).
  - eapply (yields_bind_returns _ _ (fun _ => True)).
    + destruct (transactions d !! txID); [done|].
      eapply returns_bind_weak; [apply parseQuestion_returns|]. intros [name qtype] _.
      by destruct (_ && _).
    + intros [tx|] _; [|done]. eapply yields_bind; [apply parseAnswers_yields|]. done.
Qed.

Lemma HandlePacket_yields `{Unicode} fuel d pkt :
  yields (HandlePacket fuel d pkt) (fun _ => True) (name_stuck fuel (Payload pkt)).
Proof.
  unfold HandlePacket. eapply yields_bind_returns; [apply hasValidQuestion_admits|].
  intros [] Hb; cbn [negb]; [|done].
  eapply yields_bind; [apply parseDNS_yields; auto|]. by intros [[] ] _.
Qed.

(** ** Well-formed names *)

(** A name on the wire, without the byte that ends it. *)
Definition encode_labels (ls : list (list byte)) : list byte :=
  mjoin ((fun l => byte_of (zlen l) :: l) <$> ls).

Definition label_ok (bound : Z) (l : list byte) : Prop := 0 < zlen l < bound.

Lemma encode_labels_cons l ls :
  encode_labels (l :: ls) = byte_of (zlen l) :: l ++ encode_labels ls.
Proof. done. Qed.

Lemma length_encode_labels ls : (length ls <= length (encode_labels ls))%nat.
Proof.
  induction ls as [|l ls IH]; [done|]. rewrite encode_labels_cons. cbn [length].
  rewrite length_app. lia.
Qed.

Lemma slice_app_next {A} (pre : list A) x mid post :
  slice (pre ++ x :: mid ++ post) (zlen pre + 1) (zlen pre + 1 + zlen mid) = Ok mid.
Proof.
  pose proof (slice_app_mid (pre ++ [x]) mid post) as H.
  rewrite zlen_app, <-app_assoc in H. exact H.
Qed.

(** The loop of decodeName walks over labels, whatever follows them. *)
Lemma name_loop_labels ls pre post seen parts fuel :
  Forall (label_ok 0xC0) ls -> (forall o, o ∈ seen -> o < zlen pre) ->
  exists seen', (forall o, o ∈ seen' -> o < zlen (pre ++ encode_labels ls)) /\
  loop (length ls + fuel) (name_body (pre ++ encode_labels ls ++ post)) (zlen pre, seen, parts)
  = loop fuel (name_body (pre ++ encode_labels ls ++ post))
      (zlen (pre ++ encode_labels ls), seen', parts ++ (gostr <$> ls)).
Proof.
  revert pre seen parts. induction ls as [|l ls IH]; intros pre seen parts Hls Hseen.
  - exists seen. cbn. rewrite !app_nil_r. done.
  - apply Forall_cons in Hls as [Hl Hls]. unfold label_ok in Hl.
    set (buf := pre ++ encode_labels (l :: ls) ++ post).
    assert (buf = pre ++ byte_of (zlen l) :: l ++ (encode_labels ls ++ post)) as Hbuf.
    { unfold buf. rewrite encode_labels_cons. cbn. by rewrite <-app_assoc. }
    assert (buf = (pre ++ byte_of (zlen l) :: l) ++ encode_labels ls ++ post) as Hbuf2.
    { rewrite Hbuf, <-app_assoc. done. }
    assert (pre ++ encode_labels (l :: ls) = (pre ++ byte_of (zlen l) :: l) ++ encode_labels ls) as ->.
    { rewrite encode_labels_cons, <-app_assoc. done. }
    assert (zlen (pre ++ byte_of (zlen l) :: l) = zlen pre + 1 + zlen l) as Hlen.
    { rewrite zlen_app, zlen_cons. lia. }
    destruct (IH (pre ++ byte_of (zlen l) :: l) ({[zlen pre]} ∪ seen) (parts ++ [gostr l]) Hls)
      as (seen' & Hseen' & E).
    { intros o [->%elem_of_singleton|Ho%Hseen]%elem_of_union; lia. }
    exists seen'. split; [done|]. rewrite <-Hbuf2 in E.
    cbn [length Nat.add loop name_body].
    pose proof (zlen_nonneg pre). pose proof (zlen_nonneg (encode_labels ls ++ post)).
    assert (zlen buf = zlen pre + (1 + (zlen l + zlen (encode_labels ls ++ post)))) as Hbl.
    { rewrite Hbuf, zlen_app, zlen_cons, zlen_app. lia. }
    replace (zlen pre <? zlen buf) with true by lia.
    rewrite bool_decide_false by (intros Ho%Hseen; lia).
    rewrite Hbuf at 1. rewrite idx_app_mid. cbn [mbind res_bind]. cbv zeta.
    rewrite u8_byte_of by lia.
    replace (zlen l =? 0) with false by lia. replace (0xC0 <=? zlen l) with false by lia.
    replace (zlen buf <? zlen pre + 1 + zlen l) with false by lia.
    rewrite Hbuf at 1. rewrite slice_app_next. cbn [mbind res_bind].
    rewrite <-Hlen, E. cbn [fmap list_fmap]. by rewrite <-(app_assoc parts).
Qed.

Lemma name_segment_labels ls pre post :
  Forall (label_ok 0xC0) ls ->
  exists seen fuel, (forall o, o ∈ seen -> o < zlen (pre ++ encode_labels ls)) /\
  name_segment (pre ++ encode_labels ls ++ post) (zlen pre) =
  loop (S fuel) (name_body (pre ++ encode_labels ls ++ post))
    (zlen (pre ++ encode_labels ls), seen, gostr <$> ls).
Proof.
  intros Hls. unfold name_segment. pose proof (length_encode_labels ls).
  set (buf := pre ++ encode_labels ls ++ post).
  assert (S (length buf) = (length ls + S (length buf - length ls))%nat) as ->.
  { unfold buf. rewrite !length_app. lia. }
  destruct (name_loop_labels ls pre post ∅ [] (S (length buf - length ls)) Hls) as (seen & Hs & E);
    [set_solver|].
  eexists seen, _. split; [done|]. exact E.
Qed.

(** A name that ends with the root label, and a name that ends with a pointer. *)
Lemma name_segment_root ls pre post :
  Forall (label_ok 0xC0) ls ->
  name_segment (pre ++ encode_labels ls ++ byte_of 0 :: post) (zlen pre)
    = Ok (NameDone (gostr <$> ls)).
Proof.
  intros Hls. destruct (name_segment_labels ls pre (byte_of 0 :: post) Hls) as (seen & f & Hs & ->).
  cbn [loop name_body]. rewrite app_assoc. set (p := pre ++ encode_labels ls) in *.
  assert (zlen (p ++ byte_of 0 :: post) = zlen p + (1 + zlen post)) as ->
    by (by rewrite zlen_app, zlen_cons).
  pose proof (zlen_nonneg post). replace (zlen p <? _) with true by lia.
  rewrite bool_decide_false by (intros Ho%Hs; lia). rewrite idx_app_mid. done.
Qed.

Lemma name_segment_pointer ls pre post ptr :
  Forall (label_ok 0xC0) ls -> 0 <= ptr < 2 ^ 14 ->
  name_segment (pre ++ encode_labels ls ++ be_put 2 (0xC000 + ptr) ++ post) (zlen pre)
    = Ok (NamePtr (gostr <$> ls) ptr).
Proof.
  intros Hls Hp.
  destruct (name_segment_labels ls pre (be_put 2 (0xC000 + ptr) ++ post) Hls) as (seen & f & Hs & ->).
  cbn [loop name_body]. rewrite app_assoc. set (p := pre ++ encode_labels ls) in *.
  assert (zlen (p ++ be_put 2 (0xC000 + ptr) ++ post) = zlen p + (2 + zlen post)) as ->
    by (rewrite !zlen_app, zlen_be_put; done).
  pose proof (zlen_nonneg post). replace (zlen p <? _) with true by lia.
  rewrite bool_decide_false by (intros Ho%Hs; lia).
  assert (exists b, be_put 2 (0xC000 + ptr) = byte_of b :: [byte_of ((0xC000 + ptr) mod 256)]
    /\ 0xC0 <= b < 256) as (b & Hb & Hb').
  { eexists. split; [done|]. rewrite (Z.mod_small (_ / 256)).
    - split; [apply Z.div_le_lower_bound; lia|apply Z.div_lt_upper_bound; lia].
    - split; [apply Z.div_pos; lia|apply Z.div_lt_upper_bound; lia]. }
  rewrite Hb at 1. cbn [app]. rewrite idx_app_mid. cbn [mbind res_bind]. cbv zeta.
  rewrite u8_byte_of by lia. replace (b =? 0) with false by lia. replace (0xC0 <=? b) with true by lia.
  replace (_ <=? zlen p + 1) with false by lia.
  rewrite rd_be_app_mid by apply length_be_put. cbn [mbind res_bind].
  rewrite be_be_put by lia. do 3 f_equal. change 0x3FFF with (Z.ones 14).
  rewrite Z.land_ones by lia. change 0xC000 with (3 * 2 ^ 14).
  rewrite Z.add_comm, Z_mod_plus_full. by apply Z.mod_small.
Qed.

(** The loops of parseQuestion and of the payload signature walk over labels
    the same way. *)
Definition question_body (payload : list byte) (st : Z * list string) :
    res (ctl (Z * list string) (option (Z * list string))) :=
  let '(offset, parts) := st in
  if offset <? zlen payload then
    length ← idx payload offset;
    let length := u8 length in
    if length =? 0 then Ok (Done (Some (offset + 1, parts)))
    else
      let offset := offset + 1 in
      if zlen payload <? offset + length then Ok (Done (Some (offset, parts)))
      else
        label ← slice payload offset (offset + length);
        if negb (isValidDNSLabel label) then Ok (Done None)
        else Ok (Next (offset + length, parts ++ [gostr label]))
  else Ok (Done (Some (offset, parts))).

Definition section_body (p : list byte) (st : Z * Z) : res (ctl (Z * Z) bool) :=
  let '(offset, labels) := st in
  if offset <? zlen p then
    length ← idx p offset;
    let length := u8 length in
    if length =? 0 then Ok (Done (offset + 1 + 4 <=? zlen p))
    else if 0xC0 <=? length then Ok (Done (offset + 2 + 4 <=? zlen p))
    else
      let offset := offset + 1 in
      if zlen p <? offset + length then Ok (Done false)
      else
        label ← slice p offset (offset + length);
        if negb (forallb is_name_byte label) then Ok (Done false)
        else
          let labels := labels + 1 in
          if 20 <? labels then Ok (Done false)
          else Ok (Next (offset + length, labels))
  else Ok (Done (offset + 4 <=? zlen p)).

Definition good_label (l : list byte) : Prop := label_ok 0x40 l /\ isValidDNSLabel l = true.

Lemma label_byte_name b : is_label_byte b = true -> is_name_byte b = true.
Proof. unfold is_label_byte, is_name_byte. cbv zeta. intros ->. done. Qed.

Lemma good_label_name l : good_label l -> forallb is_name_byte l = true.
Proof.
  intros [_ Hv]. unfold isValidDNSLabel in Hv. rewrite forallb_forall in *.
  intros b Hb. by apply label_byte_name, Hv.
Qed.

(** What both bodies read at a label of a buffer. *)
Lemma label_reads pre l rest :
  label_ok 0x40 l ->
  let buf := pre ++ byte_of (zlen l) :: l ++ rest in
  zlen pre <? zlen buf = true /\ idx buf (zlen pre) = Ok (byte_of (zlen l)) /\
  u8 (byte_of (zlen l)) = zlen l /\
  zlen buf <? zlen pre + 1 + zlen l = false /\
  slice buf (zlen pre + 1) (zlen pre + 1 + zlen l) = Ok l.
Proof.
  intros Hl buf. unfold label_ok in Hl. pose proof (zlen_nonneg pre). pose proof (zlen_nonneg rest).
  assert (zlen buf = zlen pre + (1 + (zlen l + zlen rest))) as E.
  { unfold buf. by rewrite zlen_app, zlen_cons, zlen_app. }
  rewrite E. split_and!; [lia|apply idx_app_mid|by apply u8_byte_of; lia|lia|apply slice_app_next].
Qed.

Lemma question_loop ls pre post parts fuel :
  Forall good_label ls ->
  loop (length ls + S fuel) (question_body (pre ++ encode_labels ls ++ byte_of 0 :: post))
    (zlen pre, parts)
  = Ok (Some (zlen (pre ++ encode_labels ls) + 1, parts ++ (gostr <$> ls))).
Proof.
  revert pre parts. induction ls as [|l ls IH]; intros pre parts Hls.
  - cbn [encode_labels fmap list_fmap mjoin list_join app length Nat.add loop question_body].
    rewrite !app_nil_r, zlen_app, zlen_cons. pose proof (zlen_nonneg post).
    replace (zlen pre <? _) with true by lia. by rewrite idx_app_mid.
  - apply Forall_cons in Hls as [[Hl Hv] Hls].
    rewrite encode_labels_cons. cbn [app length Nat.add loop question_body]. rewrite <-app_assoc.
    destruct (label_reads pre l (encode_labels ls ++ byte_of 0 :: post) Hl) as (-> & -> & E & E2 & E3).
    cbn [mbind res_bind]. cbv zeta. rewrite E, E2, E3. unfold label_ok in Hl.
    replace (zlen l =? 0) with false by lia. cbn [mbind res_bind]. rewrite Hv. cbn [negb mbind res_bind].
    specialize (IH (pre ++ byte_of (zlen l) :: l) (parts ++ [gostr l]) Hls).
    rewrite <-!app_assoc in IH. cbn [app] in IH.
    rewrite zlen_app, zlen_cons in IH.
    replace (zlen pre + (1 + zlen l)) with (zlen pre + 1 + zlen l) in IH by lia.
    rewrite IH. cbn [fmap list_fmap app]. done.
Qed.

Lemma section_loop ls pre post n fuel :
  Forall good_label ls -> 0 <= n -> n + zlen ls <= 20 -> 4 <= zlen post ->
  loop (length ls + S fuel) (section_body (pre ++ encode_labels ls ++ byte_of 0 :: post))
    (zlen pre, n) = Ok true.
Proof.
  intros Hls Hn Hn20 Hp. revert pre n Hn Hn20. induction ls as [|l ls IH]; intros pre n Hn Hn20.
  - cbn [encode_labels fmap list_fmap mjoin list_join app length Nat.add loop section_body].
    rewrite zlen_app, zlen_cons.
    replace (zlen pre <? _) with true by lia. rewrite idx_app_mid. cbn [mbind res_bind].
    change (u8 (byte_of 0) =? 0) with true. cbn [mbind res_bind]. f_equal. lia.
  - apply Forall_cons in Hls as [Hg Hls]. pose proof Hg as [Hl Hv].
    rewrite zlen_cons in Hn20. pose proof (zlen_nonneg ls).
    rewrite encode_labels_cons. cbn [app length Nat.add loop section_body]. rewrite <-app_assoc.
    destruct (label_reads pre l (encode_labels ls ++ byte_of 0 :: post) Hl) as (-> & -> & E & E2 & E3).
    cbn [mbind res_bind]. cbv zeta. rewrite E, E2, E3. unfold label_ok in Hl.
    replace (zlen l =? 0) with false by lia. replace (0xC0 <=? zlen l) with false by lia.
    cbn [mbind res_bind]. rewrite (good_label_name l Hg). cbn [negb mbind res_bind].
    replace (20 <? n + 1) with false by lia. cbn [mbind res_bind].
    specialize (IH Hls (pre ++ byte_of (zlen l) :: l) (n + 1)).
    rewrite <-!app_assoc in IH. cbn [app] in IH. rewrite zlen_app, zlen_cons in IH.
    replace (zlen pre + (1 + zlen l)) with (zlen pre + 1 + zlen l) in IH by lia.
    apply IH; lia.
Qed.

(** A DNS query on the wire. *)
Definition query_header (id flags : Z) : list byte :=
  be_put 2 id ++ be_put 2 flags ++ octets [0; 1; 0; 0; 0; 0; 0; 0].
Definition query_wire (id flags : Z) (ls : list (list byte)) (qtype : Z) : list byte :=
  query_header id flags ++ encode_labels ls ++ byte_of 0 :: be_put 2 qtype ++ be_put 2 1.

Lemma zlen_query_header id flags : zlen (query_header id flags) = 12.
Proof. unfold query_header. by rewrite !zlen_app, !zlen_be_put. Qed.

Lemma zlen_query_wire id flags ls qtype :
  zlen (query_wire id flags ls qtype) = 17 + zlen (encode_labels ls).
Proof.
  unfold query_wire. rewrite !zlen_app, zlen_query_header, zlen_cons, zlen_app, !zlen_be_put. lia.
Qed.

Lemma query_fuel id flags ls qtype :
  exists f, S (length (query_wire id flags ls qtype)) = (length ls + S f)%nat.
Proof.
  exists (length (query_wire id flags ls qtype) - length ls)%nat.
  pose proof (length_encode_labels ls). pose proof (zlen_query_wire id flags ls qtype).
  unfold zlen in *. lia.
Qed.

Lemma parseQuestion_query id flags ls qtype :
  Forall good_label ls -> 0 <= qtype < 2 ^ 16 ->
  parseQuestion (query_wire id flags ls qtype) = Ok (join "." (gostr <$> ls), type_name qtype).
Proof.
  intros Hls Hq. unfold parseQuestion. pose proof (zlen_nonneg (encode_labels ls)).
  replace (zlen (query_wire id flags ls qtype) <? 13) with false by (rewrite zlen_query_wire; lia).
  destruct (query_fuel id flags ls qtype) as [f ->].
  match goal with |- context [loop _ ?b (12, [])] =>
    change b with (question_body (query_wire id flags ls qtype)) end.
  pose proof (question_loop ls (query_header id flags) (be_put 2 qtype ++ be_put 2 1) [] f Hls) as E.
  rewrite zlen_app, zlen_query_header in E. fold (query_wire id flags ls qtype) in E.
  rewrite E. cbn [mbind res_bind app]. rewrite zlen_query_wire.
  replace (12 + zlen (encode_labels ls) + 1 + 2 <=? _) with true by lia.
  unfold query_wire.
  assert (query_header id flags ++ encode_labels ls ++ byte_of 0 :: be_put 2 qtype ++ be_put 2 1
    = (query_header id flags ++ encode_labels ls ++ [byte_of 0]) ++ be_put 2 qtype ++ be_put 2 1) as ->.
  { by rewrite <-!app_assoc. }
  replace (12 + zlen (encode_labels ls) + 1)
    with (zlen (query_header id flags ++ encode_labels ls ++ [byte_of 0])).
  2:{ rewrite !zlen_app, zlen_query_header. rewrite zlen_cons, zlen_nil. lia. }
  rewrite rd_be_app_mid by apply length_be_put. cbn [mbind res_bind]. by rewrite be_be_put.
Qed.

(** The flags of a standard query: opcode 0, recursion desired or not. *)
Definition query_flags (rd : bool) : Z := if rd then 0x0100 else 0.

Lemma query_wire_bytes id rd ls qtype :
  exists h l, be_put 2 id = [h; l] /\
  query_wire id (query_flags rd) ls qtype =
    h :: l :: (if rd then x01 else x00) :: x00 :: x00 :: x01 :: x00 :: x00 :: x00 :: x00 ::
      x00 :: x00 :: encode_labels ls ++ byte_of 0 :: be_put 2 qtype ++ be_put 2 1.
Proof. eexists _, _. split; [done|]. by destruct rd. Qed.

(** Compute a read at a known place of an explicit list. *)
Ltac read_known :=
  match goal with
  | |- context [idx (?a :: ?l) ?i] =>
    rewrite (idx_lookup (a :: l) i _ ltac:(done) eq_refl)
  end; cbn [mbind res_bind].

Lemma IsDNS_query id rd ls qtype :
  Forall good_label ls -> zlen ls <= 20 ->
  IsDNS (query_wire id (query_flags rd) ls qtype) = Ok true.
Proof.
  intros Hls Hl.
  assert (hasValidQuestionSection (query_wire id (query_flags rd) ls qtype) = Ok true) as Hq.
  { unfold hasValidQuestionSection.
    match goal with |- loop _ ?b (12, 0) = _ =>
      change b with (section_body (query_wire id (query_flags rd) ls qtype)) end.
    destruct (query_fuel id (query_flags rd) ls qtype) as [f ->].
    pose proof (section_loop ls (query_header id (query_flags rd)) (be_put 2 qtype ++ be_put 2 1) 0 f Hls) as E.
    rewrite zlen_query_header in E. apply E; [done|done|by rewrite zlen_app, !zlen_be_put]. }
  pose proof (zlen_query_wire id (query_flags rd) ls qtype) as Hw.
  pose proof (zlen_nonneg (encode_labels ls)).
  unfold IsDNS, word16. replace (_ <? 12) with false by lia.
  destruct (query_wire_bytes id rd ls qtype) as (h & l & _ & E). rewrite E in *.
  repeat read_known. by destruct rd.
Qed.

Lemma query_ids id rd ls qtype :
  0 <= id < 2 ^ 16 ->
  rd_be 2 (query_wire id (query_flags rd) ls qtype) 0 = Ok id /\
  rd_be 2 (query_wire id (query_flags rd) ls qtype) 2 = Ok (query_flags rd).
Proof.
  intros Hid. unfold query_wire, query_header. rewrite <-!app_assoc. split.
  - pose proof (rd_be_app_mid 2 [] (be_put 2 id)) as H. cbn [app] in H. change (zlen []) with 0 in H.
    rewrite H by apply length_be_put. by rewrite be_be_put.
  - pose proof (rd_be_app_mid 2 (be_put 2 id) (be_put 2 (query_flags rd))) as H.
    rewrite zlen_be_put in H. rewrite H by apply length_be_put.
    rewrite be_be_put; [done|]. by destruct rd.
Qed.

(** ** A name that points at itself *)

(** A response to a query for [a], with one CNAME answer whose name is a
    compression pointer to its own place (offset 31). *)
Definition loop_payload : list byte := octets
  [0x12; 0x34; 0x81; 0x80; 0; 1; 0; 1; 0; 0; 0; 0;
   1; 97; 0; 0; 1; 0; 1;
   0xC0; 12; 0; 5; 0; 1; 0; 0; 0; 60; 0; 2;
   0xC0; 31].

Lemma decodeName_loop fuel : decodeName fuel loop_payload 31 = OutOfFuel.
Proof.
  induction fuel as [|fuel IH]; [done|]. cbn [decodeName].
  assert (name_segment loop_payload 31 = Ok (NamePtr [] 31)) as -> by by vm_compute.
  cbn [mbind res_bind]. by rewrite IH.
Qed.

Lemma parseAnswers_loop `{Unicode} fuel : parseAnswers fuel loop_payload = OutOfFuel.
Proof.
  unfold parseAnswers. change (zlen loop_payload <? 12) with false. cbv iota.
  assert (rd_be 2 loop_payload 6 = Ok 1) as -> by by vm_compute. cbn [mbind res_bind].
  change (1 =? 0) with false. cbv iota.
  assert (skip_question loop_payload = Ok 15) as -> by by vm_compute. cbn [mbind res_bind].
  change (S (length loop_payload)) with (S 33). cbn [loop answer_body].
  change ((0 <? 1) && (15 + 4 <? zlen loop_payload)) with true. cbv iota.
  assert (idx loop_payload (15 + 4) = Ok xc0) as -> by by vm_compute. cbn [mbind res_bind].
  change (0xC0 <=? u8 xc0) with true. cbv iota. cbn [mbind res_bind].
  change (zlen loop_payload <? 15 + 4 + 2 + 10) with false. cbv iota.
  assert (rd_be 2 loop_payload (15 + 4 + 2) = Ok 5) as -> by by vm_compute.
  assert (rd_be 2 loop_payload (15 + 4 + 2 + 8) = Ok 2) as -> by by vm_compute. cbn [mbind res_bind].
  change (zlen loop_payload <? 15 + 4 + 2 + 10 + 2) with false. cbv iota.
  unfold record_answer.
  change (5 =? 1) with false. change (5 =? 28) with false. change ((5 =? 2) || (5 =? 5)) with true.
  cbv iota. change (15 + 4 + 2 + 10) with 31. by rewrite decodeName_loop.
Qed.

(** ** The transaction table *)

Definition tx_pending (tx : Transaction) : Prop :=
  HasReply tx = false /\ IsError tx = false /\ ErrorType tx = "" /\ ReplyCode tx = "" /\ Latency tx = f_zero.
Definition tx_completed (tx : Transaction) : Prop :=
  HasReply tx = true /\ (IsError tx = true <-> ReplyCode tx <> "NOERROR") /\
  ErrorType tx = (if IsError tx then ReplyCode tx else "").

Record decoder_ok (d : Decoder) : Prop := {
  ok_pending : forall id tx, transactions d !! id = Some tx -> TxID tx = id /\ tx_pending tx;
  ok_completed : Forall tx_completed (completed d);
}.

Lemma rcode_noerror rcode : 0 <= rcode < 16 ->
  (match ResponseCodes !! rcode with Some s => s | None => "RCODE_" +:+ fmt_d rcode end = "NOERROR")
    <-> rcode = 0.
Proof.
  intros Hr. assert (exists n, rcode = Z.of_nat n /\ (n < 16)%nat) as (n & -> & Hn)
    by (exists (Z.to_nat rcode); lia).
  do 16 (destruct n as [|n]; [by vm_compute|]). lia.
Qed.

Lemma with_reply_completed tx ts rcode answers :
  tx_pending tx -> 0 <= rcode < 16 ->
  tx_completed (with_reply tx ts rcode
    (match ResponseCodes !! rcode with Some s => s | None => "RCODE_" +:+ fmt_d rcode end) answers).
Proof.
  intros (_ & He & Ht & _) Hr. pose proof (rcode_noerror rcode Hr) as Hn.
  unfold tx_completed, with_reply. cbn [HasReply IsError ReplyCode ErrorType].
  rewrite He, Ht. destruct (Z.eqb_spec rcode 0) as [->|Hne]; cbn [negb]; [done|].
  split_and!; [done| |done]. split; [|done]. intros _ E. by apply Hne, Hn.
Qed.

Lemma parseDNS_ok `{Unicode} fuel d pkt onPort d' pkt' otx :
  decoder_ok d -> parseDNS fuel d pkt onPort = Ok (d', pkt', otx) ->
  decoder_ok d' /\
  (zlen (completed d') + Z.of_nat (size (transactions d'))
    <= zlen (completed d) + Z.of_nat (size (transactions d)) + 1) /\
  (completed d) `prefix_of` (completed d').
Proof.
  intros [Hp Hc]. unfold parseDNS. cbv zeta.
  intros (txID & _ & H1)%bind_Ok. apply bind_Ok in H1 as (flags & Hf & H1).
  assert (0 <= Z.land flags 15 < 16) as Hr.
  { change 15 with (Z.ones 4). rewrite Z.land_ones by lia. apply Z.mod_pos_bound. lia. }
  destruct (negb (negb _)).
  - apply bind_Ok in H1 as ([name qtype] & _ & H1).
    destruct (_ && _); injection H1 as <- <- <-; [split_and!; [done|lia|done]|].
    cbn [transactions completed]. split_and!; [|rewrite map_size_insert; destruct (transactions d !! txID); cbn; lia|done].
    split; [|done]. cbn [transactions]. intros id tx [[<- <-]|[_ ?]]%lookup_insert_Some; [done|auto].
  - apply bind_Ok in H1 as (otx' & Hotx & H1).
    destruct otx' as [tx|]; [|injection H1 as <- <- <-; split_and!; [done|lia|done]].
    apply bind_Ok in H1 as (answers & _ & [= <- <- <-]). cbn [transactions completed].
    assert (tx_pending tx) as Htx.
    { destruct (transactions d !! txID) as [tx0|] eqn:E; [injection Hotx as ->; by eapply Hp|].
      apply bind_Ok in Hotx as ([name qtype] & _ & Hotx).
      destruct (_ && _); [done|]. by injection Hotx as <-. }
    split_and!.
    + split; cbn [transactions completed].
      * intros id tx' [_ ?]%lookup_delete_Some. auto.
      * apply Forall_app. split; [done|]. apply Forall_singleton. by apply with_reply_completed.
    + rewrite zlen_app, zlen_cons, zlen_nil. rewrite map_size_delete. destruct (transactions d !! txID); cbn; lia.
    + by eexists.
Qed.

Lemma HandlePacket_ok `{Unicode} fuel d pkt d' pkt' :
  decoder_ok d -> HandlePacket fuel d pkt = Ok (d', pkt') ->
  decoder_ok d' /\
  (zlen (completed d') + Z.of_nat (size (transactions d'))
    <= zlen (completed d) + Z.of_nat (size (transactions d)) + 1) /\
  (completed d) `prefix_of` (completed d').
Proof.
  intros Hd. unfold HandlePacket. intros (ok & _ & H1)%bind_Ok.
  destruct ok; cbn [negb] in H1; [|injection H1 as <- <-; split_and!; [done|lia|done]].
  apply bind_Ok in H1 as ([[d1 p1] otx] & H1 & [= <- <-]). by eapply parseDNS_ok.
Qed.

(** A capture through the decoder. *)
Fixpoint HandlePackets `{Unicode} (fuel : nat) (d : Decoder) (pkts : list Packet) : res Decoder :=
  match pkts with
  | [] => Ok d
  | p :: pkts => '(d, _) ← HandlePacket fuel d p; HandlePackets fuel d pkts
  end.

Lemma HandlePackets_ok `{Unicode} fuel d pkts d' :
  decoder_ok d -> HandlePackets fuel d pkts = Ok d' ->
  decoder_ok d' /\
  zlen (completed d') + Z.of_nat (size (transactions d'))
    <= zlen (completed d) + Z.of_nat (size (transactions d)) + zlen pkts.
Proof.
  revert d. induction pkts as [|p pkts IH]; intros d Hd.
  - intros [= <-]. split; [done|]. rewrite zlen_nil. lia.
  - cbn [HandlePackets]. intros ([d1 p1] & H1 & H2)%bind_Ok.
    apply HandlePacket_ok in H1 as (Hd1 & Hn & _); [|done].
    apply IH in H2 as [? ?]; [|done]. split; [done|]. rewrite zlen_cons. lia.
Qed.

Lemma decoder_ok_new : decoder_ok NewDecoder.
Proof. split; [done|constructor]. Qed.

Lemma name_segment_end payload offset :
  zlen payload <= offset -> name_segment payload offset = Ok (NameDone []).
Proof.
  intros Ho. unfold name_segment. cbn [loop name_body].
  by replace (offset <? zlen payload) with false by lia.
Qed.

(** ** Properties *)

(** A compression pointer that points at itself makes the decoder call
    itself without end: the response below, on any ports, never comes back,
    whatever the depth of the call stack. *)
Lemma dns_pointer_loop_diverges `{Unicode} fuel d src dst sport dport ts :
  HandlePacket fuel d (mk_packet ts src dst sport dport "UDP" loop_payload) = OutOfFuel.
Proof.
  unfold HandlePacket, admits. cbn [Payload mk_packet SrcPort DstPort].
  change (zlen loop_payload <? 12) with false. cbv iota.
  assert (IsDNS loop_payload = Ok true) as -> by by vm_compute.
  set (pkt := mk_packet _ _ _ _ _ _ _). set (onPort := isDNSPort sport dport).
  assert ((if onPort then Ok true else Ok true) = Ok true) as -> by by destruct onPort.
  cbn [mbind res_bind negb]. unfold parseDNS. cbn [Payload mk_packet pkt].
  assert (rd_be 2 loop_payload 0 = Ok 0x1234) as -> by by vm_compute.
  assert (rd_be 2 loop_payload 2 = Ok 0x8180) as -> by by vm_compute. cbn [mbind res_bind].
  cbv zeta. change (negb (negb (Z.land 0x8180 0x8000 =? 0))) with false. cbv iota.
  assert (parseQuestion loop_payload = Ok ("a", "A")%string) as -> by by vm_compute.
  cbn [mbind res_bind String.eqb]. rewrite andb_false_r, parseAnswers_loop.
  by destruct (transactions d !! 0x1234).
Qed.

(** C16: no packet makes the DNS decoder panic, whatever its bytes and ports and
    whatever is pending; and when the compression pointers of the payload lead
    backwards, as RFC 1035 has them, one call depth per payload byte is enough
    for the decoder to return. A pointer that points at itself makes it call
    itself without end: the response below, on any ports, never comes back. *)
Theorem dns_never_panics `{Unicode} fuel d pkt :
  HandlePacket fuel d pkt <> Panic /\
  (backward_pointers (Payload pkt) -> (length (Payload pkt) < fuel)%nat ->
   exists r, HandlePacket fuel d pkt = Ok r) /\
  (forall src dst sport dport ts,
   HandlePacket fuel d (mk_packet ts src dst sport dport "UDP" loop_payload) = OutOfFuel).
Proof.
  rewrite (assoc and). split; [|intros; apply dns_pointer_loop_diverges].
  pose proof (HandlePacket_yields fuel d pkt) as H1.
  destruct (HandlePacket fuel d pkt) as [r| |] eqn:E; cbn in H1; [by eauto|done|].
  split; [done|]. intros Hb Hf. exfalso. destruct H1 as (o & Ho & Hn).
  destruct (decide (o < zlen (Payload pkt))) as [Hlt|Hge].
  - pose proof (decodeName_backward (Payload pkt) fuel o Hb) as Hr.
    rewrite Hn in Hr. apply Hr. unfold zlen in Hlt. lia.
  - destruct fuel as [|fuel]; [lia|]. cbn [decodeName] in Hn.
    by rewrite name_segment_end in Hn by lia.
Qed.

Definition ex_labels : list (list byte) := [gobytes "www"; gobytes "example"; gobytes "com"].
Definition ex_query : Packet :=
  mk_packet 1000000 "10.0.0.1" "10.0.0.53" 5000 5300 "UDP"
    (query_wire 0x1234 (query_flags true) ex_labels 1).

Example dns_never_panics_witness :
  backward_pointers (Payload ex_query) /\
  exists r, @HandlePacket ascii_only 100 NewDecoder ex_query = Ok r.
Proof.
  assert (backward_pointers (Payload ex_query)) as Hb.
  { intros o parts ptr Ho Hn.
    destruct (decide (zlen (Payload ex_query) <= o)) as [?|Hlo]; [by rewrite name_segment_end in Hn|].
    assert (exists k, o = Z.of_nat k /\ (k < 33)%nat) as (k & -> & Hlt).
    { exists (Z.to_nat o). change (zlen (Payload ex_query)) with 33 in *. lia. }
    clear -Hn Hlt. do 33 (destruct k as [|k]; [by vm_compute in Hn|]). lia. }
  split; [exact Hb|].
  apply (@dns_never_panics ascii_only 100 NewDecoder ex_query); [exact Hb|].
  apply Nat.ltb_lt. by vm_compute.
Defined.

(** A query on the wire is decoded to what it asks. A standard query for a
    name of up to 20 labels of 1 to 63 letters, digits, hyphens and
    underscores passes the payload signature, so on any ports it opens the
    transaction of its identifier with that name and type. *)
Theorem dns_query_decoded `{Unicode} fuel d pkt id rd ls qtype :
  Forall good_label ls -> ls <> [] -> zlen ls <= 20 ->
  0 <= id < 2 ^ 16 -> 0 <= qtype < 2 ^ 16 ->
  Payload pkt = query_wire id (query_flags rd) ls qtype ->
  IsDNS (Payload pkt) = Ok true /\
  exists pkt', AppProtocol pkt' = "DNS" /\
  HandlePacket fuel d pkt = Ok
    ({| transactions := <[id := query_tx id (join "." (gostr <$> ls)) (type_name qtype)
          (SrcIP pkt) (DstIP pkt) (SrcPort pkt) (DstPort pkt) (Timestamp pkt)]> (transactions d);
        completed := completed d |}, pkt').
Proof.
  intros Hls Hne Hl Hid Hq Hp. rewrite Hp. pose proof (IsDNS_query id rd ls qtype Hls Hl) as HD.
  split; [done|]. eexists. split; [|].
  2:{ unfold HandlePacket, admits. rewrite Hp, HD.
    rewrite zlen_query_wire. pose proof (zlen_nonneg (encode_labels ls)).
    replace (_ <? 12) with false by lia.
    assert (forall b : bool, (if b then Ok true else Ok true) = Ok true) as -> by by intros [].
    cbn [mbind res_bind negb]. unfold parseDNS. rewrite Hp.
    destruct (query_ids id rd ls qtype Hid) as [-> ->]. cbn [mbind res_bind].
    cbv zeta. assert (negb (negb (Z.land (query_flags rd) 0x8000 =? 0)) = true) as -> by by destruct rd.
    rewrite parseQuestion_query by done. cbn [mbind res_bind].
    assert (String.eqb (join "." (gostr <$> ls)) "" = false) as ->.
    { apply String.eqb_neq. destruct ls as [|l ls]; [done|].
      apply Forall_cons in Hls as [[Hl1 _] _]. unfold label_ok in Hl1.
      destruct l as [|b l]; [unfold zlen in Hl1; cbn in Hl1; lia|]. by destruct ls. }
    rewrite andb_false_r. cbn [mbind res_bind]. reflexivity. }
  done.
Qed.

Example dns_query_decoded_witness :
  Forall good_label ex_labels /\ IsDNS (Payload ex_query) = Ok true.
Proof.
  assert (Forall good_label ex_labels) as Hl.
  { repeat constructor. }
  split; [exact Hl|].
  by apply (@dns_query_decoded ascii_only 10 NewDecoder ex_query 0x1234 true ex_labels 1).
Defined.

(** Names expand as the wire format has them: labels that end with the root
    label give the labels joined by dots; labels that end with a compression
    pointer give the labels, a dot, and the name at the pointer. So a name that
    is only a pointer, as servers send them, comes out with a leading dot. *)
Theorem dns_compressed_name fuel ls pre post ptr rest :
  Forall (label_ok 0xC0) ls -> 0 <= ptr < 2 ^ 14 ->
  decodeName (S fuel) (pre ++ encode_labels ls ++ byte_of 0 :: post) (zlen pre)
    = Ok (join "." (gostr <$> ls)) /\
  (let buf := pre ++ encode_labels ls ++ be_put 2 (0xC000 + ptr) ++ post in
   decodeName fuel buf ptr = Ok rest ->
   decodeName (S fuel) buf (zlen pre) = Ok (join "." (gostr <$> ls) +:+ "." +:+ rest) /\
   (ls = [] -> decodeName (S fuel) buf (zlen pre) = Ok ("." +:+ rest))).
Proof.
  intros Hls Hp. split.
  - cbn [decodeName]. by rewrite name_segment_root.
  - cbn zeta. intros Hr.
    assert (decodeName (S fuel) (pre ++ encode_labels ls ++ be_put 2 (0xC000 + ptr) ++ post) (zlen pre)
      = Ok (join "." (gostr <$> ls) +:+ "." +:+ rest)) as E.
    { cbn [decodeName]. rewrite name_segment_pointer by done. cbn [mbind res_bind]. by rewrite Hr. }
    split; [done|]. intros ->. by rewrite E.
Qed.

Example dns_compressed_name_witness :
  let buf := encode_labels ex_labels ++ byte_of 0 :: be_put 2 (0xC000 + 0) in
  decodeName 1 buf 0 = Ok "www.example.com" /\ decodeName 2 buf 17 = Ok ".www.example.com".
Proof.
  cbn zeta. split; [by vm_compute|].
  by apply (dns_compressed_name 1 [] (encode_labels ex_labels ++ [byte_of 0]) [] 0 "www.example.com").
Defined.

(** Every DNS flow is an answered query or a timeout. After any capture the
    flush reports, besides the completed transactions, one flow per query
    still waiting; the waiting ones are errors of type TIMEOUT, an answered one
    is an error exactly when its response code is not NOERROR, with that code
    as its error type; there are at most as many flows as packets. *)
Theorem dns_flush_reports `{Unicode} fuel pkts d order :
  HandlePackets fuel NewDecoder pkts = Ok d -> map_order (transactions d) order ->
  let flows := fst (Flush d order) in
  zlen flows <= zlen pkts /\
  flows = tx_flow <$> (completed d ++ (with_timeout ∘ snd <$> order)) /\
  Forall tx_completed (completed d) /\
  Forall (fun '(id, tx) => TxID tx = id /\ HasReply tx = false /\
    get_bool (Metrics (tx_flow (with_timeout tx))) "is_error" = Some true /\
    get_str (Metrics (tx_flow (with_timeout tx))) "error_type" = Some "TIMEOUT") order.
Proof.
  intros Hd Ho. destruct (HandlePackets_ok _ _ _ _ decoder_ok_new Hd) as [[Hp Hc] Hn].
  cbn zeta. unfold Flush. cbn [fst completed].
  assert (zlen order = Z.of_nat (size (transactions d))) as Hlen.
  { unfold map_order in Ho. unfold zlen. by rewrite Ho, length_map_to_list. }
  split_and!; [|done|done|].
  - rewrite fmap_app, zlen_app. unfold zlen in *. rewrite !length_fmap.
    change (completed NewDecoder) with (@nil Transaction) in Hn.
    change (size (transactions NewDecoder)) with O in Hn. cbn in Hn. lia.
  - apply Forall_forall. intros [id tx] Hin. unfold map_order in Ho. rewrite Ho in Hin.
    apply elem_of_map_to_list, Hp in Hin as (<- & Hr & _). done.
Qed.

Example dns_flush_reports_witness :
  exists d order, @HandlePackets ascii_only 10 NewDecoder [ex_query] = Ok d /\
    map_order (transactions d) order /\
    zlen (fst (Flush d order)) <= zlen [ex_query].
Proof.
  destruct (@HandlePackets ascii_only 10 NewDecoder [ex_query]) as [d| |] eqn:E;
    [|by vm_compute in E|by vm_compute in E].
  exists d, (map_to_list (transactions d)).
  split_and!; [done|apply Permutation_refl|].
  apply (@dns_flush_reports ascii_only 10 [ex_query] d (map_to_list (transactions d)) E).
  apply Permutation_refl.
Defined.
