(* ===== verification/Diameter.v ===== *)
(** * internal/protocols/diameter: the Diameter decoder

    avp.go (the AVP parser), commands.go, decoder.go, errors.go and types.go.
    An AVP's data is the bytes of its slice. *)
From S2P Require Export Dpi.

(** ** avp.go *)

Definition AVPSessionID : Z := 263.
Definition AVPResultCode : Z := 268.
Definition AVPOriginHost : Z := 264.
Definition AVPOriginRealm : Z := 296.
Definition AVPDestinationHost : Z := 293.
Definition AVPCCRequestType : Z := 416.
Definition AVPUserName : Z := 1.
Definition AVPSubscriptionID : Z := 443.
Definition AVPSubscriptionIDType : Z := 450.
Definition AVPSubscriptionIDData : Z := 444.
Definition AVP3GPPMSISDN : Z := 701.

Record AVP := {
  A_Code : Z;
  A_Flags : Z;
  A_Length : Z;
  A_VendorID : Z;
  A_Data : list byte;
}.

(** A 24-bit big-endian number. *)
Definition read24 (data : list byte) (a : Z) : res Z :=
  x ← idx data a; y ← idx data (a + 1); z ← idx data (a + 2);
  Ok (Z.lor (Z.lor (Z.shiftl (u8 x) 16) (Z.shiftl (u8 y) 8)) (u8 z)).

Definition pad4 (length : Z) : Z :=
  if negb (length mod 4 =? 0) then length + (4 - length mod 4) else length.

(** One turn of the loop of ParseAVPs, on (offset, avps). *)
Definition avp_body (data : list byte) (st : Z * list AVP) : res (ctl (Z * list AVP) (list AVP)) :=
  let '(offset, avps) := st in
  if offset + 8 <=? zlen data then
    code ← rd_be 4 data offset;
    flags ← idx data (offset + 4);
    let flags := u8 flags in
    length ← read24 data (offset + 5);
    if (length <? 8) || (zlen data - offset <? length) then Ok (Done avps)
    else
      let vendorBit := negb (Z.land flags 0x80 =? 0) in
      if vendorBit && (zlen data <? offset + 12) then Ok (Done avps)
      else
        vendorID ← (if vendorBit then rd_be 4 data (offset + 8) else Ok 0);
        let headerLen := if vendorBit then 12 else 8 in
        let dataEnd := offset + length in
        let dataEnd := if zlen data <? dataEnd then zlen data else dataEnd in
        d ← slice data (offset + headerLen) dataEnd;
        let avp := {| A_Code := code; A_Flags := flags; A_Length := length;
                      A_VendorID := vendorID; A_Data := d |} in
        Ok (Next (offset + pad4 length, avps ++ [avp]))
  else Ok (Done avps).

Definition ParseAVPs (data : list byte) : res (list AVP) :=
  loop (S (length data)) (avp_body data) (0, []).

Definition ExtractString (a : AVP) : string := gostr (A_Data a).

Definition ExtractUint32 (a : AVP) : res Z :=
  if 4 <=? zlen (A_Data a) then rd_be 4 (A_Data a) 0 else Ok 0.

Definition ParseGroupedAVP (a : AVP) : res (list AVP) := ParseAVPs (A_Data a).

Definition ResultNames : gmap Z string := list_to_map
  [(1001, "MULTI_ROUND_AUTH"); (2001, "SUCCESS"); (2002, "LIMITED_SUCCESS");
   (3001, "COMMAND_UNSUPPORTED"); (3002, "UNABLE_TO_DELIVER"); (3003, "REALM_NOT_SERVED");
   (3004, "TOO_BUSY"); (3005, "LOOP_DETECTED"); (3006, "REDIRECT_INDICATION");
   (3007, "APPLICATION_UNSUPPORTED"); (3008, "INVALID_HDR_BITS"); (3009, "INVALID_AVP_BITS");
   (3010, "UNKNOWN_PEER"); (4001, "AUTHENTICATION_REJECTED");
   (4181, "AUTHENTICATION_DATA_UNAVAILABLE"); (5001, "AVP_UNSUPPORTED");
   (5002, "UNKNOWN_SESSION_ID"); (5003, "AUTHORIZATION_REJECTED"); (5004, "INVALID_AVP_VALUE");
   (5005, "MISSING_AVP"); (5006, "RESOURCES_EXCEEDED"); (5007, "CONTRADICTING_AVPS");
   (5008, "AVP_NOT_ALLOWED"); (5009, "AVP_OCCURS_TOO_MANY_TIMES");
   (5010, "NO_COMMON_APPLICATION"); (5011, "UNSUPPORTED_VERSION"); (5012, "UNABLE_TO_COMPLY");
   (5030, "USER_UNKNOWN"); (5031, "RAT_NOT_ALLOWED"); (5032, "ROAMING_NOT_ALLOWED")]%string.

Definition ResultCodeName (code : Z) : string :=
  match ResultNames !! code with
  | Some name => name
  | None => "RESULT_" +:+ fmt_d code
  end.

(** ** commands.go *)

Definition CommandCodes : gmap Z string := list_to_map
  [(257, "Capabilities-Exchange"); (258, "Re-Auth"); (271, "Accounting");
   (272, "Credit-Control"); (274, "Abort-Session"); (275, "Session-Termination"); (265, "AA");
   (300, "User-Authorization"); (301, "Server-Assignment"); (302, "Location-Info");
   (303, "Multimedia-Auth"); (304, "Registration-Termination"); (316, "Update-Location");
   (318, "Authentication-Information"); (321, "Cancel-Location"); (323, "Notify")]%string.

Definition ApplicationIDs : gmap Z string := list_to_map
  [(0, "Common Messages"); (1, "NASREQ"); (3, "Diameter Base Accounting");
   (4, "Credit-Control"); (16777216, "3GPP Cx"); (16777217, "3GPP Sh");
   (16777251, "3GPP S6a/S6d"); (16777238, "3GPP Gx"); (16777236, "3GPP Rx");
   (16777272, "3GPP S13"); (16777302, "3GPP S6b")]%string.

(** ** types.go *)

Record DiameterHeader := {
  H_Version : Z;
  H_Length : Z;
  H_Flags : Z;
  H_CommandCode : Z;
  H_AppID : Z;
  H_HopByHopID : Z;
  H_EndToEndID : Z;
  H_IsRequest : bool;
}.

(** The AVP fields of a DiameterMessage, the ones the loop over the AVPs sets. *)
Record avp_fields := {
  SessionID : string;
  ResultCode : Z;
  OriginHost : string;
  OriginRealm : string;
  DestinationHost : string;
  CCRequestType : Z;
  UserName : string;
  IMSI : string;
  MSISDN : string;
}.

Record DiameterMessage := {
  M_Timestamp : time;
  M_Header : DiameterHeader;
  M_Fields : avp_fields;
  M_CommandName : string;
  M_AppName : string;
  M_IsError : bool;
}.

Definition no_fields : avp_fields :=
  {| SessionID := ""; ResultCode := 0; OriginHost := ""; OriginRealm := "";
     DestinationHost := ""; CCRequestType := 0; UserName := ""; IMSI := ""; MSISDN := "" |}.

Definition set_session (s : string) (m : avp_fields) : avp_fields :=
  {| SessionID := s; ResultCode := ResultCode m; OriginHost := OriginHost m;
     OriginRealm := OriginRealm m; DestinationHost := DestinationHost m;
     CCRequestType := CCRequestType m; UserName := UserName m; IMSI := IMSI m;
     MSISDN := MSISDN m |}.
Definition set_result (z : Z) (m : avp_fields) : avp_fields :=
  {| SessionID := SessionID m; ResultCode := z; OriginHost := OriginHost m;
     OriginRealm := OriginRealm m; DestinationHost := DestinationHost m;
     CCRequestType := CCRequestType m; UserName := UserName m; IMSI := IMSI m;
     MSISDN := MSISDN m |}.
Definition set_origin_host (s : string) (m : avp_fields) : avp_fields :=
  {| SessionID := SessionID m; ResultCode := ResultCode m; OriginHost := s;
     OriginRealm := OriginRealm m; DestinationHost := DestinationHost m;
     CCRequestType := CCRequestType m; UserName := UserName m; IMSI := IMSI m;
     MSISDN := MSISDN m |}.
Definition set_origin_realm (s : string) (m : avp_fields) : avp_fields :=
  {| SessionID := SessionID m; ResultCode := ResultCode m; OriginHost := OriginHost m;
     OriginRealm := s; DestinationHost := DestinationHost m;
     CCRequestType := CCRequestType m; UserName := UserName m; IMSI := IMSI m;
     MSISDN := MSISDN m |}.
Definition set_destination_host (s : string) (m : avp_fields) : avp_fields :=
  {| SessionID := SessionID m; ResultCode := ResultCode m; OriginHost := OriginHost m;
     OriginRealm := OriginRealm m; DestinationHost := s;
     CCRequestType := CCRequestType m; UserName := UserName m; IMSI := IMSI m;
     MSISDN := MSISDN m |}.
Definition set_request_type (z : Z) (m : avp_fields) : avp_fields :=
  {| SessionID := SessionID m; ResultCode := ResultCode m; OriginHost := OriginHost m;
     OriginRealm := OriginRealm m; DestinationHost := DestinationHost m;
     CCRequestType := z; UserName := UserName m; IMSI := IMSI m; MSISDN := MSISDN m |}.
Definition set_user (s : string) (m : avp_fields) : avp_fields :=
  {| SessionID := SessionID m; ResultCode := ResultCode m; OriginHost := OriginHost m;
     OriginRealm := OriginRealm m; DestinationHost := DestinationHost m;
     CCRequestType := CCRequestType m; UserName := s; IMSI := IMSI m; MSISDN := MSISDN m |}.
Definition set_imsi (s : string) (m : avp_fields) : avp_fields :=
  {| SessionID := SessionID m; ResultCode := ResultCode m; OriginHost := OriginHost m;
     OriginRealm := OriginRealm m; DestinationHost := DestinationHost m;
     CCRequestType := CCRequestType m; UserName := UserName m; IMSI := s;
     MSISDN := MSISDN m |}.
Definition set_msisdn (s : string) (m : avp_fields) : avp_fields :=
  {| SessionID := SessionID m; ResultCode := ResultCode m; OriginHost := OriginHost m;
     OriginRealm := OriginRealm m; DestinationHost := DestinationHost m;
     CCRequestType := CCRequestType m; UserName := UserName m; IMSI := IMSI m; MSISDN := s |}.

(** ** decoder.go *)

(** The inner loop over the AVPs of a Subscription-Id. *)
Definition sub_avp (acc : Z * string) (sa : AVP) : res (Z * string) :=
  let '(subType, subData) := acc in
  if A_Code sa =? AVPSubscriptionIDType then t ← ExtractUint32 sa; Ok (t, subData)
  else if A_Code sa =? AVPSubscriptionIDData then Ok (subType, ExtractString sa)
  else Ok acc.

(** The [switch] on the code of one AVP. *)
Definition apply_avp (m : avp_fields) (avp : AVP) : res avp_fields :=
  let code := A_Code avp in
  if code =? AVPSessionID then Ok (set_session (ExtractString avp) m)
  else if code =? AVPResultCode then z ← ExtractUint32 avp; Ok (set_result z m)
  else if code =? AVPOriginHost then Ok (set_origin_host (ExtractString avp) m)
  else if code =? AVPOriginRealm then Ok (set_origin_realm (ExtractString avp) m)
  else if code =? AVPDestinationHost then Ok (set_destination_host (ExtractString avp) m)
  else if code =? AVPCCRequestType then z ← ExtractUint32 avp; Ok (set_request_type z m)
  else if code =? AVPUserName then Ok (set_user (ExtractString avp) m)
  else if code =? AVPSubscriptionID then
    subAVPs ← ParseGroupedAVP avp;
    '(subType, subData) ← foldM sub_avp (0, ""%string) subAVPs;
    Ok (if negb (String.eqb subData "") then
          if subType =? 1 then set_imsi subData m
          else if subType =? 0 then set_msisdn subData m
          else m
        else m)
  else if code =? AVP3GPPMSISDN then
    Ok (if (A_VendorID avp =? 10415) && (0 <? zlen (A_Data avp))
        then set_msisdn (ExtractString avp) m else m)
  else Ok m.

Definition direction (isRequest : bool) : string := if isRequest then "Request" else "Answer".

(** [msg.ResultCode != 0 && != 2001 && != 2002] *)
Definition bad_result (code : Z) : bool :=
  negb (code =? 0) && negb (code =? 2001) && negb (code =? 2002).

Record Decoder := { messages : list DiameterMessage }.
Definition NewDecoder : Decoder := {| messages := [] |}.

Definition parseDiameter (d : Decoder) (pkt : Packet) :
    res (Decoder * Packet * option DiameterMessage) :=
  let payload := Payload pkt in
  version ← idx payload 0;
  if negb (u8 version =? 1) then Ok (d, pkt, None)
  else
    msgLen ← read24 payload 1;
    if (msgLen <? 20) || (zlen payload <? msgLen) then Ok (d, pkt, None)
    else
      flags ← idx payload 4;
      cmdCode ← read24 payload 5;
      appID ← rd_be 4 payload 8;
      hopByHop ← rd_be 4 payload 12;
      endToEnd ← rd_be 4 payload 16;
      let hdr := {| H_Version := u8 version; H_Length := msgLen; H_Flags := u8 flags;
                    H_CommandCode := cmdCode; H_AppID := appID; H_HopByHopID := hopByHop;
                    H_EndToEndID := endToEnd;
                    H_IsRequest := negb (Z.land (u8 flags) 0x80 =? 0) |} in
      let cmdName := name_or CommandCodes "Command_" cmdCode in
      let appName := name_or ApplicationIDs "App_" appID in
      body ← slice payload 20 msgLen;
      avps ← ParseAVPs body;
      m ← foldM apply_avp no_fields avps;
      let m :=
        if String.eqb (IMSI m) "" && negb (String.eqb (UserName m) "") && (appID =? 16777251)
        then set_imsi (UserName m) m else m in
      let msg := {| M_Timestamp := Timestamp pkt; M_Header := hdr; M_Fields := m;
                    M_CommandName := cmdName; M_AppName := appName;
                    M_IsError := negb (H_IsRequest hdr) && bad_result (ResultCode m) |} in
      let summary := cmdName +:+ " " +:+ direction (H_IsRequest hdr) in
      let summary :=
        if negb (ResultCode m =? 0) then summary +:+ " RC=" +:+ fmt_d (ResultCode m) else summary in
      Ok ({| messages := messages d ++ [msg] |}, set_app "Diameter" summary pkt, Some msg).

Definition isDiameterPort (src dst : Z) : bool := (src =? 3868) || (dst =? 3868).

Definition admits (pkt : Packet) : res bool :=
  if zlen (Payload pkt) <? 20 then Ok false
  else if isDiameterPort (SrcPort pkt) (DstPort pkt) then Ok true
  else IsDiameter (Payload pkt).

Definition HandlePacket (d : Decoder) (pkt : Packet) : res (Decoder * Packet) :=
  ok ← admits pkt;
  if negb ok then Ok (d, pkt)
  else '(d, pkt, _) ← parseDiameter d pkt; Ok (d, pkt).

Definition truncate (s : string) (maxLen : Z) : res string :=
  if slen s <=? maxLen then Ok s
  else t ← slice_to (gobytes s) maxLen; Ok (gostr t +:+ "...").

(** ** errors.go *)

Definition DetectErrors (msg : DiameterMessage) : list PacketError :=
  if H_IsRequest (M_Header msg) then []
  else
    let rc := ResultCode (M_Fields msg) in
    (if negb (Z.land (H_Flags (M_Header msg)) 0x20 =? 0) then
       [{| Code := "DIAMETER_ERROR_BIT"; Title := "Diameter Error Flag Set";
           Description := M_CommandName msg +:+ " response has error bit set";
           Severity := "error" |}]
     else []) ++
    (if bad_result rc then
       let severity :=
         if (4000 <=? rc) && (rc <? 5000) then "error"
         else if 5000 <=? rc then "critical" else "warning" in
       [{| Code := "DIAMETER_" +:+ fmt_d rc; Title := "Diameter " +:+ ResultCodeName rc;
           Description := M_CommandName msg +:+ " failed with result code " +:+ fmt_d rc
             +:+ " (" +:+ ResultCodeName rc +:+ "), Session: " +:+ SessionID (M_Fields msg);
           Severity := severity |}]
     else []).

(** [m] with [k] set to [s] when [s] is not empty. *)
Definition opt_str (k s : string) (m : gmap string any) : gmap string any :=
  if negb (String.eqb s "") then <[k := AStr s]> m else m.

Definition HandlePacketLive (d : Decoder) (pkt : Packet) : res (Decoder * option DecodedPacket) :=
  ok ← admits pkt;
  if negb ok then Ok (d, None)
  else
    '(d, pkt, omsg) ← parseDiameter d pkt;
    match omsg with
    | None => Ok (d, None)
    | Some msg =>
      let f := M_Fields msg in
      let req := H_IsRequest (M_Header msg) in
      let summary := M_CommandName msg +:+ " " +:+ direction req in
      summary ← (if negb (String.eqb (SessionID f) "") then
          t ← truncate (SessionID f) 40; Ok (summary +:+ " [" +:+ t +:+ "]")
        else Ok summary);
      let summary :=
        if negb req && negb (ResultCode f =? 0) then summary +:+ " RC=" +:+ fmt_d (ResultCode f)
        else summary in
      let metadata : gmap string any := list_to_map
        [("command", AStr (M_CommandName msg));
         ("command_code", AInt TU32 (H_CommandCode (M_Header msg)));
         ("app_id", AInt TU32 (H_AppID (M_Header msg)));
         ("app_name", AStr (M_AppName msg)); ("is_request", ABool req);
         ("session_id", AStr (SessionID f)); ("result_code", AInt TU32 (ResultCode f));
         ("origin_host", AStr (OriginHost f)); ("origin_realm", AStr (OriginRealm f));
         ("user_name", AStr (UserName f))] in
      let metadata := opt_str "msisdn" (MSISDN f) (opt_str "imsi" (IMSI f) metadata) in
      Ok (d, Some {| D_Packet := pkt; D_Protocol := "Diameter"; D_Summary := summary;
                     D_Metadata := metadata; D_Errors := DetectErrors msg |})
    end.

Definition message_flow (msg : DiameterMessage) : Flow :=
  let f := M_Fields msg in
  let req := H_IsRequest (M_Header msg) in
  let metrics : gmap string any := list_to_map
    [("command", AStr (M_CommandName msg));
     ("command_code", AInt TU32 (H_CommandCode (M_Header msg)));
     ("app_id", AInt TU32 (H_AppID (M_Header msg))); ("app_name", AStr (M_AppName msg));
     ("is_request", ABool req); ("session_id", AStr (SessionID f));
     ("result_code", AInt TU32 (ResultCode f)); ("origin_host", AStr (OriginHost f));
     ("is_error", ABool (M_IsError msg))] in
  {| FlowID := "diameter-" +:+ SessionID f +:+ "-" +:+ direction req +:+ "-"
       +:+ fmt_d (H_EndToEndID (M_Header msg));
     Type_ := FlowDiameter; F_SrcIP := ""; F_DstIP := ""; F_SrcPort := 0; F_DstPort := 0;
     StartTime := M_Timestamp msg; EndTime := M_Timestamp msg;
     Metrics := opt_str "msisdn" (MSISDN f) (opt_str "imsi" (IMSI f) metrics) |}.

Definition Flush (d : Decoder) : list Flow := message_flow <$> messages d.

(** ** The wire format of AVPs *)

Lemma read24_at data i z :
  holds_at data i (be_put 3 z) -> 0 <= z < 2 ^ 24 -> read24 data i = Ok z.
Proof.
  intros Hat Hz. unfold read24. pose proof (be_be_put 3 z) as Hbe.
  destruct (be_put_3 z) as (b1 & b2 & b3 & E). rewrite E in *.
  apply holds_at_cons in Hat as [-> Hat]. apply holds_at_cons in Hat as [-> Hat].
  replace (i + 1 + 1) with (i + 2) in Hat by lia. apply holds_at_cons in Hat as [-> _].
  cbn [mbind res_bind]. rewrite be24_lor, Hbe; [done|]. cbn. lia.
Qed.

Lemma read24_returns data i (Q : Z -> Prop) :
  0 <= i /\ i + 3 <= zlen data -> (forall v, 0 <= v -> Q v) -> returns (read24 data i) Q.
Proof.
  intros Hi HQ. unfold read24.
  do 3 (run_step; apply returns_idx; [lia|]; intros ? _). cbn. apply HQ.
  rewrite be24_lor. apply be_range.
Qed.

Definition vendor_bit (flags : Z) : bool := negb (Z.land flags 0x80 =? 0).

(** RFC 6733: zero octets up to the next multiple of four. *)
Definition padding (length : Z) : list byte := replicate (Z.to_nat (- length mod 4)) x00.

Definition encode_avp (a : AVP) : list byte :=
  be_put 4 (A_Code a) ++ byte_of (A_Flags a) :: be_put 3 (A_Length a) ++
  (if vendor_bit (A_Flags a) then be_put 4 (A_VendorID a) else []) ++
  A_Data a ++ padding (A_Length a).

Record avp_ok (a : AVP) : Prop := {
  ok_code : 0 <= A_Code a < 2 ^ 32;
  ok_flags : 0 <= A_Flags a < 256;
  ok_length : A_Length a = (if vendor_bit (A_Flags a) then 12 else 8) + zlen (A_Data a);
  ok_length24 : A_Length a < 2 ^ 24;
  ok_vendor : if vendor_bit (A_Flags a) then 0 <= A_VendorID a < 2 ^ 32 else A_VendorID a = 0;
}.

Lemma pad4_bounds l : l <= pad4 l < l + 4.
Proof.
  unfold pad4. pose proof (Z.mod_pos_bound l 4). destruct (l mod 4 =? 0) eqn:?; cbn [negb]; lia.
Qed.

Lemma pad4_up l : pad4 l = l + - l mod 4.
Proof.
  unfold pad4. pose proof (Z.div_mod l 4). pose proof (Z.mod_pos_bound l 4). destruct (l mod 4 =? 0) eqn:E; cbn [negb].
  - apply Z.eqb_eq in E. rewrite Z.mod_opp_l_z by lia. lia.
  - apply Z.eqb_neq in E. rewrite Z.mod_opp_l_nz by lia. lia.
Qed.

Lemma zlen_encode_avp a : avp_ok a -> zlen (encode_avp a) = pad4 (A_Length a).
Proof.
  intros [_ _ Hl _ _]. unfold encode_avp, padding. pose proof (pad4_bounds (A_Length a)).
  rewrite !zlen_app, zlen_cons, !zlen_app, !zlen_be_put.
  replace (zlen (replicate (Z.to_nat (- A_Length a mod 4)) x00)) with (pad4 (A_Length a) - A_Length a)
    by (unfold zlen; rewrite length_replicate, pad4_up; pose proof (Z.mod_pos_bound (- A_Length a) 4); lia).
  destruct (vendor_bit (A_Flags a)); rewrite ?zlen_be_put, ?zlen_nil; lia.
Qed.

(** The loop reads a well-formed AVP and goes on after it. *)
Lemma avp_body_read data offset a acc :
  avp_ok a -> holds_at data offset (encode_avp a) ->
  avp_body data (offset, acc) = Ok (Next (offset + zlen (encode_avp a), acc ++ [a])).
Proof.
  intros Hok Hat. pose proof (zlen_encode_avp a Hok) as Hlen. rewrite Hlen.
  destruct Hok as [Hc Hf Hl H24 Hv].
  apply holds_at_bound in Hat as Hb. rewrite Hlen in Hb.
  pose proof (pad4_bounds (A_Length a)). pose proof (zlen_nonneg (A_Data a)).
  unfold encode_avp in Hat. apply holds_at_app in Hat as [Hcode Hat].
  rewrite zlen_be_put in Hat. apply holds_at_cons in Hat as [Hflags Hat].
  apply holds_at_app in Hat as [Hlength Hat]. rewrite zlen_be_put in Hat.
  apply holds_at_app in Hat as [Hvendor Hat]. apply holds_at_app in Hat as [Hdata _].
  unfold avp_body.
  replace (offset + 8 <=? zlen data) with true by (destruct (vendor_bit _); lia).
  rewrite (holds_at_put _ _ _ _ Hcode) by done. cbn [mbind res_bind].
  change (Z.of_nat 4) with 4 in *. rewrite Hflags. cbn [mbind res_bind]. cbv zeta.
  rewrite u8_byte_of by done. rewrite <-Z.add_assoc in Hlength. change (4 + 1) with 5 in Hlength.
  rewrite (read24_at _ _ _ Hlength) by (destruct (vendor_bit _); lia). cbn [mbind res_bind].
  replace ((A_Length a <? 8) || (zlen data - offset <? A_Length a)) with false
    by (destruct (vendor_bit _); lia).
  fold (vendor_bit (A_Flags a)).
  replace (zlen data <? offset + A_Length a) with false by lia.
  apply holds_at_slice in Hdata.
  destruct (vendor_bit (A_Flags a)) eqn:Ev; cbn [andb].
  - replace (zlen data <? offset + 12) with false by lia.
    replace (offset + 4 + 1 + Z.of_nat 3) with (offset + 8) in * by lia.
    rewrite (holds_at_put _ _ _ _ Hvendor) by done. cbn [mbind res_bind].
    rewrite zlen_be_put in Hdata. replace (offset + 8 + Z.of_nat 4) with (offset + 12) in Hdata by lia.
    replace (offset + A_Length a) with (offset + 12 + zlen (A_Data a)) by lia.
    rewrite Hdata. cbn [mbind res_bind]. by destruct a.
  - cbn [mbind res_bind]. rewrite zlen_nil in Hdata.
    replace (offset + 4 + 1 + Z.of_nat 3 + 0) with (offset + 8) in Hdata by lia.
    replace (offset + A_Length a) with (offset + 8 + zlen (A_Data a)) by lia.
    rewrite Hdata. cbn [mbind res_bind]. rewrite <-Hv. by destruct a.
Qed.

Definition encode_avps (avps : list AVP) : list byte := mjoin (encode_avp <$> avps).

Lemma encode_avps_cons a avps : encode_avps (a :: avps) = encode_avp a ++ encode_avps avps.
Proof. done. Qed.

Lemma length_encode_avps avps : Forall avp_ok avps -> (length avps <= length (encode_avps avps))%nat.
Proof.
  induction 1 as [|a avps Ha _ IH]; [done|]. rewrite encode_avps_cons, length_app.
  pose proof (zlen_encode_avp a Ha) as E. destruct Ha as [_ _ Hl _ _].
  pose proof (pad4_bounds (A_Length a)). pose proof (zlen_nonneg (A_Data a)).
  unfold zlen in *. cbn [length]. destruct (vendor_bit _); lia.
Qed.

Lemma avp_loop_read data offset avps acc fuel :
  Forall avp_ok avps -> holds_at data offset (encode_avps avps) ->
  loop (length avps + fuel) (avp_body data) (offset, acc)
  = loop fuel (avp_body data) (offset + zlen (encode_avps avps), acc ++ avps).
Proof.
  intros Hok. revert offset acc. induction Hok as [|a avps Ha _ IH]; intros offset acc Hat.
  - cbn. by rewrite zlen_nil, Z.add_0_r, app_nil_r.
  - rewrite encode_avps_cons in *. apply holds_at_app in Hat as [H1 H2].
    cbn [length Nat.add loop]. rewrite (avp_body_read _ _ _ _ Ha H1). cbn [mbind res_bind].
    rewrite IH by done. by rewrite zlen_app, Z.add_assoc, <-app_assoc.
Qed.

(** Reading well-formed AVPs and then what follows them. *)
Lemma ParseAVPs_prefix avps rest :
  Forall avp_ok avps ->
  exists fuel, ParseAVPs (encode_avps avps ++ rest) =
    loop (S fuel) (avp_body (encode_avps avps ++ rest)) (zlen (encode_avps avps), avps).
Proof.
  intros Hok. unfold ParseAVPs. set (data := encode_avps avps ++ rest).
  pose proof (length_encode_avps avps Hok).
  assert (S (length data) = (length avps + S (length data - length avps))%nat) as ->.
  { unfold data. rewrite length_app. lia. }
  eexists. erewrite avp_loop_read; [|done|].
  - by rewrite Z.add_0_l.
  - by exists [], rest.
Qed.

Lemma ParseAVPs_encode avps rest :
  Forall avp_ok avps -> zlen rest < 8 ->
  ParseAVPs (encode_avps avps ++ rest) = Ok avps.
Proof.
  intros Hok Hr. destruct (ParseAVPs_prefix avps rest Hok) as [fuel ->].
  cbn [loop avp_body]. rewrite zlen_app.
  by replace (_ <=? _) with false by lia.
Qed.

(** ** A vendor AVP that is shorter than its header *)

Definition short_vendor (data : list byte) (offset : Z) : bool :=
  match idx data (offset + 4), read24 data (offset + 5) with
  | Ok flags, Ok length =>
    vendor_bit (u8 flags) && (8 <=? length) && (length <? 12) && (offset + 12 <=? zlen data)
  | _, _ => false
  end.

Lemma avp_body_returns data offset acc :
  0 <= offset -> short_vendor data offset = false ->
  Forall (fun a => exists i, holds_at data i (A_Data a)) acc ->
  returns (avp_body data (offset, acc)) (fun c =>
    match c with
    | Next (o, acc') => offset < o /\ offset < zlen data /\
        Forall (fun a => exists i, holds_at data i (A_Data a)) acc'
    | Done acc' => Forall (fun a => exists i, holds_at data i (A_Data a)) acc'
    end).
Proof.
  intros Ho Hs Hacc. unfold avp_body. destruct (Z.leb_spec (offset + 8) (zlen data)) as [Hle|]; [|done].
  unfold short_vendor in Hs.
  run_step. apply returns_rd_be; [lia|]. intros code _ _.
  run_step. destruct (returns_inv (idx data (offset + 4)) (fun _ => True)) as (flags & Ef & _).
  { apply returns_idx; [lia|done]. }
  rewrite Ef in *. cbn [returns]. cbv zeta. run_step.
  destruct (returns_inv (read24 data (offset + 5)) (fun v => 0 <= v)) as (len & El & Hlen0).
  { apply read24_returns; [lia|done]. }
  rewrite El in *. cbn [returns]. fold (vendor_bit (u8 flags)).
  destruct (Z.ltb_spec len 8); [done|]. cbn [orb].
  destruct (Z.ltb_spec (zlen data - offset) len); [done|].
  pose proof (pad4_bounds len).
  assert (forall a b, 0 <= a -> a <= b -> b <= zlen data -> holds_at data a (sub data a b)) as Hsub.
  { intros a b Ha Hab Hb. exists (take (Z.to_nat a) data), (drop (Z.to_nat b) data). split.
    - unfold sub. rewrite <-(take_drop (Z.to_nat a) data) at 1. f_equal.
      rewrite <-(take_drop (Z.to_nat (b - a)) (drop (Z.to_nat a) data)) at 1. f_equal.
      rewrite drop_drop. f_equal. lia.
    - unfold zlen in *. rewrite length_take. lia. }
  destruct (vendor_bit (u8 flags)) eqn:Ev; cbn [andb] in *.
  - destruct (Z.ltb_spec (zlen data) (offset + 12)); [done|].
    run_step. apply returns_rd_be; [lia|]. intros vid _ _.
    replace (zlen data <? offset + len) with false by lia.
    run_step. apply returns_slice; [lia|]. cbn. split_and!; [lia|lia|].
    apply Forall_app. split; [done|]. apply Forall_singleton. eexists. apply Hsub; lia.
  - run_step. cbn [returns]. replace (zlen data <? offset + len) with false by lia.
    run_step. apply returns_slice; [lia|]. cbn. split_and!; [lia|lia|].
    apply Forall_app. split; [done|]. apply Forall_singleton. eexists. apply Hsub; lia.
Qed.

Lemma ParseAVPs_returns data :
  (forall o, 0 <= o -> short_vendor data o = false) ->
  returns (ParseAVPs data) (Forall (fun a => exists i, holds_at data i (A_Data a))).
Proof.
  intros Hs. apply (returns_loop
    (fun st => 0 <= fst st /\ Forall (fun a => exists i, holds_at data i (A_Data a)) (snd st))
    (fun st => Z.to_nat (zlen data - fst st))); [|split; [cbn; lia|constructor]|cbn; unfold zlen; lia].
  intros [o acc] [Ho Hacc]. cbn in Ho, Hacc.
  eapply returns_weaken; [by apply avp_body_returns; auto|].
  intros [[o' acc']|acc']; cbn; [|done]. intros (? & ? & ?). split_and!; [lia|done|lia].
Qed.

Lemma short_vendor_sub data i s o :
  holds_at data i s -> 0 <= o -> short_vendor s o = true -> short_vendor data (i + o) = true.
Proof.
  intros Hat Ho. pose proof (holds_at_bound _ _ _ Hat) as Hb.
  assert (forall j b, idx s j = Ok b -> idx data (i + j) = Ok b) as Hidx.
  { destruct Hat as (pre & post & -> & <-). intros j b [Hj Hl]%idx_Ok_inv.
    apply idx_lookup; [pose proof (zlen_nonneg pre); lia|].
    rewrite lookup_app_r by (unfold zlen; lia). rewrite lookup_app_l by (unfold zlen in *; lia).
    rewrite <-Hl. f_equal. unfold zlen. lia. }
  unfold short_vendor. destruct (idx s (o + 4)) as [f| |] eqn:Ef; [|done..].
  apply Hidx in Ef. rewrite Z.add_assoc in Ef. rewrite Ef.
  destruct (read24 s (o + 5)) as [len| |] eqn:El; [|done..].
  assert (read24 data (i + o + 5) = Ok len) as ->.
  { unfold read24 in *. apply bind_Ok in El as (x & Hx & El). apply bind_Ok in El as (y & Hy & El).
    apply bind_Ok in El as (z & Hz & El). apply Hidx in Hx, Hy, Hz.
    replace (i + (o + 5)) with (i + o + 5) in Hx by lia.
    replace (i + (o + 5 + 1)) with (i + o + 5 + 1) in Hy by lia.
    replace (i + (o + 5 + 2)) with (i + o + 5 + 2) in Hz by lia.
    rewrite Hx, Hy, Hz. exact El. }
  rewrite !andb_true_iff. intros [[[-> ->] ->] ?]. split_and!; [done..|lia].
Qed.

(** ** A whole message *)

Definition wire_message (flags cmd app hop e2e : Z) (body : list byte) : list byte :=
  byte_of 1 :: be_put 3 (20 + zlen body) ++ byte_of flags :: be_put 3 cmd ++
  be_put 4 app ++ be_put 4 hop ++ be_put 4 e2e ++ body.

(** The value [ExtractUint32] reads. *)
Definition uint32_of (a : AVP) : Z :=
  if 4 <=? zlen (A_Data a) then be (take 4 (A_Data a)) else 0.

Lemma ExtractUint32_ok a : ExtractUint32 a = Ok (uint32_of a).
Proof.
  unfold ExtractUint32, uint32_of. destruct (Z.leb_spec 4 (zlen (A_Data a))); [|done].
  assert (holds_at (A_Data a) 0 (take 4 (A_Data a))) as Hat.
  { exists [], (drop 4 (A_Data a)). split; [|done]. cbn [app]. by rewrite take_drop. }
  apply (holds_at_rd _ _ _ 4 Hat). rewrite length_take. unfold zlen in *. lia.
Qed.

Lemma apply_avp_fields m a m' : apply_avp m a = Ok m' ->
  SessionID m' = (if A_Code a =? AVPSessionID then ExtractString a else SessionID m) /\
  ResultCode m' = (if A_Code a =? AVPResultCode then uint32_of a else ResultCode m) /\
  OriginHost m' = (if A_Code a =? AVPOriginHost then ExtractString a else OriginHost m).
Proof.
  unfold apply_avp. cbv zeta. rewrite ExtractUint32_ok. cbn [mbind res_bind].
  unfold AVPSessionID, AVPResultCode, AVPOriginHost, AVPOriginRealm, AVPDestinationHost,
    AVPCCRequestType, AVPUserName, AVPSubscriptionID, AVP3GPPMSISDN.
  repeat match goal with
  | |- (if ?c =? ?k then _ else _) = _ -> _ =>
    destruct (Z.eqb_spec c k) as [E|]; [rewrite ?E; try (intros [= <-]; by split_and!)|]
  end.
  - intros (subs & _ & H)%bind_Ok. apply bind_Ok in H as ([ty d] & _ & [= <-]).
    destruct (negb _), (ty =? 1), (ty =? 0); by split_and!.
  - intros [= <-]. destruct (_ && _); by split_and!.
  - intros [= <-]. by split_and!.
Qed.

(** The last AVP with a code. *)
Definition last_avp (code : Z) (avps : list AVP) : option AVP :=
  last (filter (fun a => A_Code a = code) avps).

Lemma last_avp_cons code a avps :
  last_avp code (a :: avps) =
    match last_avp code avps with
    | Some b => Some b
    | None => if A_Code a =? code then Some a else None
    end.
Proof.
  unfold last_avp. rewrite filter_cons.
  destruct (Z.eqb_spec (A_Code a) code); [rewrite decide_True by done|rewrite decide_False by done].
  - rewrite last_cons. by destruct (last _).
  - by destruct (last _).
Qed.

Lemma apply_avps_fields avps m m' : foldM apply_avp m avps = Ok m' ->
  SessionID m' = default (SessionID m) (ExtractString <$> last_avp AVPSessionID avps) /\
  ResultCode m' = default (ResultCode m) (uint32_of <$> last_avp AVPResultCode avps) /\
  OriginHost m' = default (OriginHost m) (ExtractString <$> last_avp AVPOriginHost avps).
Proof.
  revert m. induction avps as [|a avps IH]; intros m; [by intros [= <-]|].
  cbn [foldM]. intros (m1 & H1 & H2)%bind_Ok.
  apply apply_avp_fields in H1 as (E1 & E2 & E3). apply IH in H2 as (-> & -> & ->).
  rewrite !last_avp_cons, E1, E2, E3. split_and!.
  - destruct (last_avp AVPSessionID avps); [done|]. by destruct (A_Code a =? AVPSessionID).
  - destruct (last_avp AVPResultCode avps); [done|]. by destruct (A_Code a =? AVPResultCode).
  - destruct (last_avp AVPOriginHost avps); [done|]. by destruct (A_Code a =? AVPOriginHost).
Qed.

Section safe.
Context (payload : list byte) (Hsafe : forall o, 0 <= o -> short_vendor payload o = false).

Lemma safe_sub i s : holds_at payload i s -> forall o, 0 <= o -> short_vendor s o = false.
Proof.
  intros Hat o Ho. apply not_true_iff_false. intros Hs.
  pose proof (holds_at_bound _ _ _ Hat) as [Hi _].
  apply (short_vendor_sub _ _ _ _ Hat Ho) in Hs. rewrite Hsafe in Hs by lia. done.
Qed.

Lemma apply_avp_returns m a i : holds_at payload i (A_Data a) ->
  returns (apply_avp m a) (fun _ => True).
Proof.
  intros Hat. unfold apply_avp. cbv zeta. rewrite ExtractUint32_ok. cbn [mbind res_bind].
  repeat (destruct (_ =? _); [try done|]); try done.
  eapply returns_bind_weak; [by apply ParseAVPs_returns, (safe_sub i)|].
  intros subs _. eapply (returns_bind_weak _ _ (fun _ => True)); [|by intros [ty sd] _].
  apply (returns_foldM (fun _ => True)); [done|].
  intros [ty sd] sa _ _. unfold sub_avp. rewrite ExtractUint32_ok.
  by repeat (destruct (_ =? _)).
Qed.

Lemma body_returns i body : holds_at payload i body ->
  returns (avps ← ParseAVPs body; foldM apply_avp no_fields avps) (fun _ => True).
Proof.
  intros Hat. eapply returns_bind_weak; [by apply ParseAVPs_returns, (safe_sub i)|].
  intros avps Havps. apply (returns_foldM (fun _ => True)); [done|].
  intros m a Ha _. rewrite Forall_forall in Havps. destruct (Havps a Ha) as [j Hj].
  eapply apply_avp_returns, holds_at_sub; done.
Qed.
End safe.

Lemma admits_returns pkt : returns (admits pkt) (fun b => b = true -> 20 <= zlen (Payload pkt)).
Proof.
  unfold admits. destruct (Z.ltb_spec (zlen (Payload pkt)) 20); [by cbn|].
  destruct (isDiameterPort _ _); [by cbn|].
  destruct (returns_inv (IsDiameter (Payload pkt)) (fun _ => True)) as (b & -> & _); [|by cbn].
  unfold IsDiameter. run_dpi.
Qed.

Lemma parseDiameter_returns d pkt :
  20 <= zlen (Payload pkt) ->
  (forall o, 0 <= o -> short_vendor (Payload pkt) o = false) ->
  returns (parseDiameter d pkt) (fun _ => True).
Proof.
  intros Hl Hs. unfold parseDiameter. cbv zeta.
  run_step. apply returns_idx; [lia|]. intros version _. destruct (negb _); [done|].
  run_step. apply read24_returns; [lia|]. intros msgLen Hm.
  destruct (Z.ltb_spec msgLen 20); [done|]. cbn [orb].
  destruct (Z.ltb_spec (zlen (Payload pkt)) msgLen); [done|].
  run_step. apply returns_idx; [lia|]. intros flags _.
  run_step. apply read24_returns; [lia|]. intros cmd _.
  do 3 (run_step; apply returns_rd_be; [lia|]; intros ? _ _).
  run_step. apply returns_slice; [lia|].
  assert (holds_at (Payload pkt) 20 (sub (Payload pkt) 20 msgLen)) as Hat.
  { exists (take 20 (Payload pkt)), (drop (Z.to_nat msgLen) (Payload pkt)). split.
    - unfold sub. rewrite <-(take_drop 20 (Payload pkt)) at 1. f_equal.
      rewrite <-(take_drop (Z.to_nat (msgLen - 20)) (drop 20 (Payload pkt))) at 1. f_equal.
      rewrite drop_drop. f_equal. lia.
    - unfold zlen in *. rewrite length_take. lia. }
  pose proof (body_returns (Payload pkt) Hs 20 _ Hat) as Hbody.
  apply returns_inv in Hbody as (m & Hb & _). apply bind_Ok in Hb as (avps & -> & Hb).
  cbn [mbind res_bind]. rewrite Hb. done.
Qed.

Lemma truncate_returns s n : 0 <= n -> returns (truncate s n) (fun _ => True).
Proof.
  intros Hn. unfold truncate. destruct (Z.leb_spec (slen s) n); [done|].
  rewrite slen_gobytes in *. rewrite slice_to_Ok by lia. done.
Qed.

Lemma ParseAVPs_short avps rest :
  Forall avp_ok avps ->
  short_vendor (encode_avps avps ++ rest) (zlen (encode_avps avps)) = true ->
  ParseAVPs (encode_avps avps ++ rest) = Panic.
Proof.
  intros Hok Hs. destruct (ParseAVPs_prefix avps rest Hok) as [fuel ->].
  set (data := encode_avps avps ++ rest) in *. set (o := zlen (encode_avps avps)) in *.
  pose proof (zlen_nonneg (encode_avps avps)) as Ho. fold o in Ho.
  unfold short_vendor in Hs. cbn [loop avp_body].
  destruct (idx data (o + 4)) as [f| |]; [|done..].
  destruct (read24 data (o + 5)) as [len| |]; [|done..].
  rewrite !andb_true_iff in Hs. destruct Hs as [[[Hv H8] H12] Hb].
  replace (o + 8 <=? zlen data) with true by lia.
  destruct (returns_inv (rd_be 4 data o) (fun _ => True)) as (code & -> & _).
  { apply returns_rd_be; [lia|done]. }
  cbn [mbind res_bind]. cbv zeta.
  replace ((len <? 8) || (zlen data - o <? len)) with false by lia.
  fold (vendor_bit (u8 f)). rewrite Hv.
  replace (true && (zlen data <? o + 12)) with false by lia.
  destruct (returns_inv (rd_be 4 data (o + 8)) (fun _ => True)) as (vid & -> & _).
  { apply returns_rd_be; [lia|done]. }
  cbn [mbind res_bind]. replace (zlen data <? o + len) with false by lia.
  unfold slice. by replace (_ && _ && _) with false by lia.
Qed.

Lemma HandlePacket_returns d pkt :
  (forall o, 0 <= o -> short_vendor (Payload pkt) o = false) ->
  returns (HandlePacket d pkt) (fun _ => True).
Proof.
  intros Hs. unfold HandlePacket. eapply returns_bind_weak; [apply admits_returns|].
  intros [] Hb; cbn [negb]; [|done].
  eapply returns_bind_weak; [apply parseDiameter_returns; auto|]. by intros [[] ?] _.
Qed.

Lemma HandlePacketLive_returns d pkt :
  (forall o, 0 <= o -> short_vendor (Payload pkt) o = false) ->
  returns (HandlePacketLive d pkt) (fun _ => True).
Proof.
  intros Hs. unfold HandlePacketLive. eapply returns_bind_weak; [apply admits_returns|].
  intros [] Hb; cbn [negb]; [|done].
  eapply returns_bind_weak; [apply parseDiameter_returns; auto|]. intros [[d' pkt'] [msg|]] _; [|done].
  cbv zeta. eapply (returns_bind_weak _ _ (fun _ => True)); [|done].
  destruct (negb _); [|done].
  eapply returns_bind_weak; [by apply (truncate_returns _ 40)|done].
Qed.

(** Reading the header of a message on the wire. *)
Lemma wire_header flags cmd app hop e2e body :
  0 <= flags < 256 -> 0 <= cmd < 2 ^ 24 -> 0 <= app < 2 ^ 32 -> 0 <= hop < 2 ^ 32 ->
  0 <= e2e < 2 ^ 32 -> 20 + zlen body < 2 ^ 24 ->
  let p := wire_message flags cmd app hop e2e body in
  zlen p = 20 + zlen body /\
  idx p 0 = Ok (byte_of 1) /\ read24 p 1 = Ok (20 + zlen body) /\
  idx p 4 = Ok (byte_of flags) /\ read24 p 5 = Ok cmd /\ rd_be 4 p 8 = Ok app /\
  rd_be 4 p 12 = Ok hop /\ rd_be 4 p 16 = Ok e2e /\
  holds_at p 20 body.
Proof.
  intros Hf Hc Ha Hh He Hb p. pose proof (zlen_nonneg body).
  assert (zlen p = 20 + zlen body) as Hlen.
  { unfold p, wire_message. rewrite zlen_cons, zlen_app, zlen_cons, !zlen_app, !zlen_be_put. lia. }
  pose proof (holds_at_self p) as Hat. unfold p at 2, wire_message in Hat.
  apply holds_at_cons in Hat as [H0 Hat].
  apply holds_at_app in Hat as [H1 Hat]. rewrite zlen_be_put in Hat.
  apply holds_at_cons in Hat as [H4 Hat].
  apply holds_at_app in Hat as [H5 Hat]. rewrite zlen_be_put in Hat.
  apply holds_at_app in Hat as [H8 Hat]. rewrite zlen_be_put in Hat.
  apply holds_at_app in Hat as [H12 Hat]. rewrite zlen_be_put in Hat.
  apply holds_at_app in Hat as [H16 Hat]. rewrite zlen_be_put in Hat.
  split_and!; [done|done|by apply read24_at; [|lia]|done|by apply read24_at
    |by apply holds_at_put|by apply holds_at_put|by apply holds_at_put|done].
Qed.

(** ** Properties *)

Definition text_avp (code : Z) (s : string) : AVP :=
  {| A_Code := code; A_Flags := 0x40; A_Length := 8 + zlen (gobytes s); A_VendorID := 0;
     A_Data := gobytes s |}.
Definition result_avp (rc : Z) : AVP :=
  {| A_Code := AVPResultCode; A_Flags := 0x40; A_Length := 12; A_VendorID := 0;
     A_Data := be_put 4 rc |}.
Definition msisdn_avp : AVP :=
  {| A_Code := AVP3GPPMSISDN; A_Flags := 0xC0; A_Length := 14; A_VendorID := 10415;
     A_Data := gobytes "42" |}.
Definition ex_avps : list AVP :=
  [text_avp AVPSessionID "hss;1;2"; result_avp 5001; msisdn_avp; text_avp AVPOriginHost "hss"].

Lemma ex_avps_ok : Forall avp_ok ex_avps.
Proof. repeat constructor; vm_compute; done. Qed.

(** AVPs survive the wire. Any list of well-formed AVPs, with and without a
    vendor identifier, encoded with its padding and followed by fewer bytes
    than an AVP header, is parsed back exactly. *)
Theorem diameter_avp_roundtrip avps rest :
  Forall avp_ok avps -> zlen rest < 8 ->
  ParseAVPs (encode_avps avps ++ rest) = Ok avps.
Proof. apply ParseAVPs_encode. Qed.

Example diameter_avp_roundtrip_witness :
  Forall avp_ok ex_avps /\ ParseAVPs (encode_avps ex_avps ++ [x00; x01]) = Ok ex_avps.
Proof. split; [apply ex_avps_ok|]. apply (diameter_avp_roundtrip ex_avps [x00; x01]); [apply ex_avps_ok|done]. Defined.

(** One kind of AVP makes the decoder panic, and nothing else does: an AVP
    whose vendor bit is set and whose length covers less than its twelve-byte
    header (8 to 11), wherever in a message it stands after well-formed AVPs.
    A packet without such a header at any offset is always handled, batch and
    live. *)
Theorem diameter_short_vendor_panics avps rest d pkt :
  Forall avp_ok avps ->
  short_vendor (encode_avps avps ++ rest) (zlen (encode_avps avps)) = true ->
  ParseAVPs (encode_avps avps ++ rest) = Panic /\
  ((forall o, 0 <= o -> short_vendor (Payload pkt) o = false) ->
   (exists r, HandlePacket d pkt = Ok r) /\ (exists r, HandlePacketLive d pkt = Ok r)).
Proof.
  intros Hok Hs. split; [by apply ParseAVPs_short|]. intros Hsafe.
  split; [destruct (returns_inv _ _ (HandlePacket_returns d pkt Hsafe)) as (r & -> & _)
         |destruct (returns_inv _ _ (HandlePacketLive_returns d pkt Hsafe)) as (r & -> & _)];
    by exists r.
Qed.

(** A Diameter request on any port whose second AVP is such an AVP. *)
Definition ex_short_vendor : list byte :=
  be_put 4 264 ++ [xc0] ++ be_put 3 8 ++ octets [0; 0; 0; 0].
Definition ex_bad_packet : Packet :=
  mk_packet 0 "10.0.0.1" "10.0.0.2" 1 2 "TCP"
    (wire_message 0x80 272 4 1 1 (encode_avps [text_avp AVPSessionID "s"] ++ ex_short_vendor)).

Example diameter_short_vendor_panics_witness :
  HandlePacket NewDecoder ex_bad_packet = Panic /\
  ParseAVPs (encode_avps [text_avp AVPSessionID "s"] ++ ex_short_vendor) = Panic.
Proof.
  split; [by vm_compute|].
  apply (diameter_short_vendor_panics [text_avp AVPSessionID "s"] ex_short_vendor NewDecoder ex_bad_packet);
    [|by vm_compute].
  repeat constructor; vm_compute; done.
Defined.

Lemma error_mark flags code :
  (Z.land flags 0x80 =? 0) && bad_result code = true <-> Z.land flags 0x80 = 0 /\ code ∉ [0; 2001; 2002].
Proof.
  unfold bad_result. rewrite !andb_true_iff, !negb_true_iff, !Z.eqb_eq, !Z.eqb_neq, !not_elem_of_cons.
  split; [|tauto]. intros (H1 & (H2 & H3) & H4). split_and!; try done. apply not_elem_of_nil.
Qed.

(** C17: a Diameter message is decoded to what it carries. For a message of
    well-formed AVPs (none of them hiding a short vendor AVP) on the Diameter
    port or with clear reserved flags, [HandlePacket] returns and appends a
    message with the header sent, the Session-Id, Result-Code and Origin-Host
    of the last AVP with that code, and an error mark exactly for an answer
    whose result is neither absent nor a success. *)
Theorem diameter_message_decoded d pkt flags cmd app hop e2e avps :
  Forall avp_ok avps -> 0 <= flags < 256 -> 0 <= cmd < 2 ^ 24 -> 0 <= app < 2 ^ 32 ->
  0 <= hop < 2 ^ 32 -> 0 <= e2e < 2 ^ 32 -> 20 + zlen (encode_avps avps) < 2 ^ 24 ->
  Payload pkt = wire_message flags cmd app hop e2e (encode_avps avps) ->
  isDiameterPort (SrcPort pkt) (DstPort pkt) = true \/ Z.land flags 0x0F = 0 ->
  (forall o, 0 <= o -> short_vendor (Payload pkt) o = false) ->
  exists msg pkt', HandlePacket d pkt = Ok ({| messages := messages d ++ [msg] |}, pkt') /\
    M_Header msg = {| H_Version := 1; H_Length := 20 + zlen (encode_avps avps); H_Flags := flags;
      H_CommandCode := cmd; H_AppID := app; H_HopByHopID := hop; H_EndToEndID := e2e;
      H_IsRequest := negb (Z.land flags 0x80 =? 0) |} /\
    M_Timestamp msg = Timestamp pkt /\
    SessionID (M_Fields msg) = default "" (ExtractString <$> last_avp AVPSessionID avps) /\
    OriginHost (M_Fields msg) = default "" (ExtractString <$> last_avp AVPOriginHost avps) /\
    ResultCode (M_Fields msg) = default 0 (uint32_of <$> last_avp AVPResultCode avps) /\
    (M_IsError msg = true <-> Z.land flags 0x80 = 0 /\ ResultCode (M_Fields msg) ∉ [0; 2001; 2002]).
Proof.
  intros Hok Hf Hc Ha Hh He Hb Hp Hport Hs.
  pose proof (zlen_nonneg (encode_avps avps)).
  destruct (wire_header flags cmd app hop e2e (encode_avps avps) Hf Hc Ha Hh He Hb)
    as (Hlen & E0 & E1 & E4 & E5 & E8 & E12 & E16 & E20).
  rewrite <-Hp in *.
  assert (admits pkt = Ok true) as Hadm.
  { unfold admits. replace (_ <? 20) with false by lia.
    destruct (isDiameterPort _ _) eqn:Ep; [done|]. destruct Hport as [|Hres]; [done|].
    unfold IsDiameter. replace (_ <? 20) with false by lia. rewrite E0. cbn [mbind res_bind].
    change (negb (u8 (byte_of 1) =? 1)) with false. cbv iota.
    unfold read24 in E1. change (1 + 1) with 2 in E1. change (1 + 2) with 3 in E1.
    apply bind_Ok in E1 as (x & -> & E1).
    apply bind_Ok in E1 as (y & -> & E1). apply bind_Ok in E1 as (z & -> & [= E1]).
    cbn [mbind res_bind]. rewrite E1. cbv zeta.
    replace (_ || _) with false by lia. rewrite E4. cbn [mbind res_bind].
    rewrite u8_byte_of, Hres by done. done. }
  destruct (returns_inv _ _ (body_returns (Payload pkt) Hs 20 _ E20)) as (m & Hm & _).
  pose proof (ParseAVPs_encode avps [] Hok ltac:(done)) as Hparse. rewrite app_nil_r in Hparse.
  rewrite Hparse in Hm. cbn [mbind res_bind] in Hm.
  destruct (apply_avps_fields _ _ _ Hm) as (F1 & F2 & F3). cbn [SessionID OriginHost ResultCode no_fields] in *.
  apply holds_at_slice in E20.
  unfold HandlePacket. rewrite Hadm. cbn [mbind res_bind negb]. unfold parseDiameter. cbv zeta.
  rewrite E0, E1. cbn [mbind res_bind]. change (negb (u8 (byte_of 1) =? 1)) with false. cbv iota.
  replace (_ || _) with false by lia.
  rewrite E4, E5, E8, E12, E16, E20. cbn [mbind res_bind]. rewrite Hparse. cbn [mbind res_bind].
  rewrite Hm. cbn [mbind res_bind]. rewrite (u8_byte_of flags) by done.
  eexists _, _. split; [reflexivity|]. cbn [M_Header M_Timestamp M_Fields M_IsError H_IsRequest].
  rewrite negb_involutive.
  destruct (_ && _ && _); split_and!; try done; apply error_mark.
Qed.

Example diameter_message_decoded_witness :
  exists msg pkt', HandlePacket NewDecoder
      (mk_packet 7 "10.0.0.1" "10.0.0.2" 3868 40000 "TCP" (wire_message 0 316 16777251 1 2 (encode_avps ex_avps)))
    = Ok ({| messages := [msg] |}, pkt') /\
    M_IsError msg = true /\ SessionID (M_Fields msg) = "hss;1;2".
Proof.
  destruct (diameter_message_decoded NewDecoder
    (mk_packet 7 "10.0.0.1" "10.0.0.2" 3868 40000 "TCP" (wire_message 0 316 16777251 1 2 (encode_avps ex_avps)))
    0 316 16777251 1 2 ex_avps) as (msg & pkt' & H1 & _ & _ & H4 & _ & H6 & H7);
    [apply ex_avps_ok|done|done|done|done|done|done|done|by left| |].
  - intros o Ho. set (p := Payload _).
    destruct (decide (zlen p <= o)) as [Hlo|Hlo].
    + unfold short_vendor. destruct (idx p (o + 4)) as [f| |] eqn:E; [|done..].
      apply idx_Ok_inv in E as [? _]. lia.
    + assert (exists k, o = Z.of_nat k /\ (k < length p)%nat) as (k & -> & Hlt).
      { exists (Z.to_nat o). unfold zlen in Hlo. lia. }
      clear -Hlt. assert (forallb (fun k => negb (short_vendor p (Z.of_nat k))) (seq 0 (length p)) = true)
        as Hall by by vm_compute.
      rewrite forallb_forall in Hall. apply negb_true_iff, Hall, in_seq. lia.
  - exists msg, pkt'. split; [exact H1|]. split; [|rewrite H4; by vm_compute].
    apply H7. rewrite H6. split; [done|]. by apply (bool_decide_unpack _).
Defined.
