(* ===== verification/Gtp.v ===== *)
(** * internal/protocols/gtp: the GTP decoder

    types.go, subscriber.go (BCD, APN and the GTPv1 scanner), ie_v2.go (the
    GTPv2-C information elements), decoder.go and errors.go. The three loops
    over GTPv2 information elements (ParseGTPv2IEs, parseBearerContext,
    extractSubscriberIEsV2) are the same loop around different switches:
    [scan_ies] is the loop, the switches are its argument. The fields of
    [GTPv2IESet] are grouped the way its comments group them. *)
From S2P Require Export Dpi.
From S2P Require Export Bcd.

(** ** types.go *)

Definition MessageTypes : gmap Z string := list_to_map
  [(1, "Echo Request"); (2, "Echo Response"); (16, "Create PDP Context Request");
   (17, "Create PDP Context Response"); (18, "Update PDP Context Request");
   (19, "Update PDP Context Response"); (20, "Delete PDP Context Request");
   (21, "Delete PDP Context Response"); (32, "Create Session Request");
   (33, "Create Session Response"); (34, "Modify Bearer Request");
   (35, "Modify Bearer Response"); (36, "Delete Session Request");
   (37, "Delete Session Response"); (38, "Change Notification Request");
   (39, "Change Notification Response"); (64, "Modify Bearer Command");
   (65, "Modify Bearer Failure Indication"); (66, "Delete Bearer Command");
   (67, "Delete Bearer Failure Indication"); (68, "Bearer Resource Command");
   (69, "Bearer Resource Failure Indication");
   (70, "Downlink Data Notification Failure Indication"); (71, "Trace Session Activation");
   (72, "Trace Session Deactivation"); (73, "Stop Paging Indication");
   (95, "Create Bearer Request"); (96, "Create Bearer Response");
   (97, "Update Bearer Request"); (98, "Update Bearer Response");
   (99, "Delete Bearer Request"); (100, "Delete Bearer Response");
   (162, "Create Indirect Data Forwarding Tunnel Request");
   (163, "Create Indirect Data Forwarding Tunnel Response");
   (164, "Delete Indirect Data Forwarding Tunnel Request");
   (165, "Delete Indirect Data Forwarding Tunnel Response");
   (170, "Release Access Bearers Request"); (171, "Release Access Bearers Response");
   (176, "Downlink Data Notification"); (177, "Downlink Data Notification Acknowledgement");
   (200, "Update PDN Connection Set Request"); (201, "Update PDN Connection Set Response");
   (255, "G-PDU")]%string.

Definition CauseCodes : gmap Z string := list_to_map
  [(16, "Request Accepted"); (64, "Context Not Found"); (65, "Invalid Message Format");
   (66, "Version Not Supported"); (67, "Invalid Length"); (68, "Service Not Supported");
   (69, "Mandatory IE Incorrect"); (70, "Mandatory IE Missing"); (73, "System Failure");
   (74, "No Resources Available"); (75, "Semantic Error in TFT");
   (76, "Syntactic Error in TFT"); (92, "Unable to Page UE"); (93, "No Memory Available");
   (94, "User Authentication Failed"); (95, "APN Access Denied"); (96, "Request Rejected");
   (110, "Temporarily Rejected")]%string.

Record GTPHeader := {
  h_Version : Z;
  h_MessageType : Z;
  h_Length : Z;
  h_TEID : Z;
  h_SequenceNo : Z;
  h_IsGTPU : bool;
}.

(** ** subscriber.go *)

Definition decodeBCD (data : list byte) : string := bcd_text data.

Definition apn_body (data : list byte) (st : Z * list string) :
    res (ctl (Z * list string) (list string)) :=
  let '(offset, parts) := st in
  if offset <? zlen data then
    labelLen ← idx data offset;
    let labelLen := u8 labelLen in
    let offset := offset + 1 in
    if (labelLen =? 0) || (zlen data <? offset + labelLen) then Ok (Done parts)
    else
      l ← slice data offset (offset + labelLen);
      Ok (Next (offset + labelLen, parts ++ [gostr l]))
  else Ok (Done parts).

Definition decodeAPN (data : list byte) : res string :=
  parts ← loop (S (length data)) (apn_body data) (0, []);
  Ok (join "." parts).

(** The loop over GTPv2 information elements: type, length (2), spare, data. *)
Definition scan_body {S : Type} (switch : Z -> list byte -> S -> res S) (data : list byte)
    (st : Z * S) : res (ctl (Z * S) S) :=
  let '(offset, s) := st in
  if offset + 4 <=? zlen data then
    ieType ← idx data offset;
    ieLen ← rd_be 2 data (offset + 1);
    let dataStart := offset + 4 in
    if zlen data <? dataStart + ieLen then Ok (Done s)
    else
      ieData ← slice data dataStart (dataStart + ieLen);
      s' ← switch (u8 ieType) ieData s;
      Ok (Next (dataStart + ieLen, s'))
  else Ok (Done s).

Definition scan_ies {S : Type} (switch : Z -> list byte -> S -> res S) (data : list byte)
    (s : S) : res S :=
  loop (Datatypes.S (length data)) (scan_body switch data) (0, s).

Record subscriber := { s_imsi : string; s_msisdn : string; s_apn : string }.
Definition no_subscriber : subscriber := {| s_imsi := ""; s_msisdn := ""; s_apn := "" |}.

Definition subscriber_v2 (ieType : Z) (ieData : list byte) (s : subscriber) : res subscriber :=
  if ieType =? 1 then
    Ok {| s_imsi := decodeBCD ieData; s_msisdn := s_msisdn s; s_apn := s_apn s |}
  else if ieType =? 76 then
    Ok {| s_imsi := s_imsi s; s_msisdn := decodeBCD ieData; s_apn := s_apn s |}
  else if ieType =? 71 then
    apn ← decodeAPN ieData;
    Ok {| s_imsi := s_imsi s; s_msisdn := s_msisdn s; s_apn := apn |}
  else Ok s.

Definition extractSubscriberIEsV2 (data : list byte) : res subscriber :=
  scan_ies subscriber_v2 data no_subscriber.

(** The fixed sizes of the TV elements, type byte included; IMSI (type 2) is
    read apart, a type without a size stops the scan. *)
Definition tv_size (ieType : Z) : option Z :=
  if bool_decide (ieType ∈ [1; 8; 11; 13; 14; 15; 19]) then Some 2
  else if ieType =? 3 then Some 7
  else if bool_decide (ieType ∈ [4; 5; 18; 20]) then Some 5
  else if ieType =? 9 then Some 29
  else if ieType =? 12 then Some 4
  else if bool_decide (ieType ∈ [16; 17]) then Some 3
  else None.

Definition v1_body (data : list byte) (st : Z * subscriber) :
    res (ctl (Z * subscriber) subscriber) :=
  let '(offset, s) := st in
  if offset <? zlen data then
    ieType ← idx data offset;
    let ieType := u8 ieType in
    if ieType <? 128 then
      if ieType =? 2 then
        if zlen data <? offset + 9 then Ok (Done s)
        else
          d ← slice data (offset + 1) (offset + 9);
          Ok (Next (offset + 9,
            {| s_imsi := decodeBCD d; s_msisdn := s_msisdn s; s_apn := s_apn s |}))
      else
        match tv_size ieType with
        | Some n => Ok (Next (offset + n, s))
        | None => Ok (Done s)
        end
    else if zlen data <? offset + 3 then Ok (Done s)
    else
      tlvLen ← rd_be 2 data (offset + 1);
      let dataStart := offset + 3 in
      if zlen data <? dataStart + tlvLen then Ok (Done s)
      else
        tlvData ← slice data dataStart (dataStart + tlvLen);
        s ← (if ieType =? 132 then
               apn ← decodeAPN tlvData;
               Ok {| s_imsi := s_imsi s; s_msisdn := s_msisdn s; s_apn := apn |}
             else if ieType =? 133 then
               if 1 <? zlen tlvData then
                 d ← slice_from tlvData 1;
                 Ok {| s_imsi := s_imsi s; s_msisdn := decodeBCD d; s_apn := s_apn s |}
               else Ok s
             else Ok s);
        Ok (Next (dataStart + tlvLen, s))
  else Ok (Done s).

Definition extractSubscriberIEsV1 (data : list byte) : res subscriber :=
  loop (S (length data)) (v1_body data) (0, no_subscriber).

Definition extractSubscriberIEs (data : list byte) (version : Z) : res subscriber :=
  if version =? 2 then extractSubscriberIEsV2 data
  else if version =? 1 then extractSubscriberIEsV1 data
  else Ok no_subscriber.

(** ** ie_v2.go: data *)

Definition IETypeIMSI : Z := 1.
Definition IETypeCause : Z := 2.
Definition IETypeRecovery : Z := 3.
Definition IETypeAPN : Z := 71.
Definition IETypeAMBR : Z := 72.
Definition IETypeEBI : Z := 73.
Definition IETypeMEI : Z := 75.
Definition IETypeMSISDN : Z := 76.
Definition IETypePAA : Z := 79.
Definition IETypeBearerQoS : Z := 80.
Definition IETypeRATType : Z := 82.
Definition IETypeServingNetwork : Z := 83.
Definition IETypeULI : Z := 86.
Definition IETypeFTEID : Z := 87.
Definition IETypeBearerContext : Z := 93.
Definition IETypeChargingID : Z := 94.
Definition IETypePDNType : Z := 99.

Definition QCINames : gmap Z string := list_to_map
  [(1, "Conversational Voice"); (2, "Conversational Video (Live Streaming)");
   (3, "Real Time Gaming"); (4, "Non-Conversational Video (Buffered Streaming)");
   (5, "IMS Signalling"); (6, "Video (Buffered Streaming) / TCP-based");
   (7, "Voice, Video, Interactive Gaming"); (8, "Video (Buffered Streaming) / TCP-based");
   (9, "Video (Buffered Streaming) / TCP-based (Default Bearer)");
   (65, "Mission Critical PTT (MCData)"); (66, "Non-Mission Critical PTT (MCData)");
   (69, "Mission Critical Delay Sensitive Signalling"); (70, "Mission Critical Data")]%string.

Definition RATTypeNames : gmap Z string := list_to_map
  [(1, "UTRAN"); (2, "GERAN"); (3, "WLAN"); (4, "GAN"); (5, "HSPA Evolution");
   (6, "E-UTRAN"); (7, "Virtual"); (8, "E-UTRAN-NB-IoT"); (9, "LTE-M"); (10, "NR")]%string.

Definition FTEIDInterfaceNames : gmap Z string := list_to_map
  [(0, "S1-U eNodeB"); (1, "S1-U SGW"); (2, "S12 RNC"); (3, "S12 SGW"); (4, "S5/S8 SGW");
   (5, "S5/S8 PGW"); (6, "S5/S8 SGW (PGW C)"); (7, "S5/S8 PGW (SGW C)");
   (8, "S5/S8 SGW (PMIPv6)"); (9, "S5/S8 PGW (PMIPv6)"); (10, "S11 MME");
   (11, "S11/S4 SGW"); (12, "S10 MME"); (13, "S10 old-MME"); (14, "S3 MME"); (15, "S3 SGSN");
   (16, "S4 SGSN"); (17, "S4 SGW"); (18, "S16 SGSN"); (19, "eNodeB (N26)"); (20, "MME (N26)");
   (21, "S11 MME (Emergency)"); (37, "N3 gNB"); (38, "N3 UPF"); (39, "N9 UPF (UL CL)");
   (40, "N9 UPF (DL)")]%string.

(** [names[k]], or the fallback text when it has none. *)
Definition name_or (names : gmap Z string) (prefix : string) (k : Z) : string :=
  let name := map_str names k in
  if String.eqb name "" then prefix +:+ fmt_d k else name.

Record FTEIDInfo := {
  InterfaceType : Z;
  InterfaceName : string;
  TEID : Z;
  IPv4 : string;
  IPv6 : string;
}.

(** The fields of BearerInfo that parseBearerQoS fills in. *)
Record QoSInfo := {
  QCI : Z;
  QCIName : string;
  MBRUplink : Z;
  MBRDownlink : Z;
  GBRUplink : Z;
  GBRDownlink : Z;
}.
Definition no_qos : QoSInfo :=
  {| QCI := 0; QCIName := ""; MBRUplink := 0; MBRDownlink := 0; GBRUplink := 0; GBRDownlink := 0 |}.

Record BearerInfo := {
  EBI : Z;
  b_QoS : QoSInfo;
  b_Cause : Z;
  b_ChargingID : Z;
  b_FTEIDs : list FTEIDInfo;
}.
Definition no_bearer : BearerInfo :=
  {| EBI := 0; b_QoS := no_qos; b_Cause := 0; b_ChargingID := 0; b_FTEIDs := [] |}.

Record identity := { IMSI : string; MSISDN : string; MEI : string }.
Record session := {
  APN : string; PDNType : string; PDNAddress : string; ServingMCCMNC : string; RATType : string;
}.
Record bandwidth := { AMBRUplink : Z; AMBRDownlink : Z }.
Record location := { TAI : string; ECGI : string }.

Record GTPv2IESet := {
  i_identity : identity;
  i_session : session;
  i_bandwidth : bandwidth;
  i_location : location;
  Bearers : list BearerInfo;
  FTEIDs : list FTEIDInfo;
  Cause : Z;
  Recovery : Z;
  ChargingID : Z;
}.

Definition no_ies : GTPv2IESet :=
  {| i_identity := {| IMSI := ""; MSISDN := ""; MEI := "" |};
     i_session := {| APN := ""; PDNType := ""; PDNAddress := ""; ServingMCCMNC := "";
                     RATType := "" |};
     i_bandwidth := {| AMBRUplink := 0; AMBRDownlink := 0 |};
     i_location := {| TAI := ""; ECGI := "" |};
     Bearers := []; FTEIDs := []; Cause := 0; Recovery := 0; ChargingID := 0 |}.

Definition on_identity (f : identity -> identity) (i : GTPv2IESet) : GTPv2IESet :=
  {| i_identity := f (i_identity i); i_session := i_session i; i_bandwidth := i_bandwidth i;
     i_location := i_location i; Bearers := Bearers i; FTEIDs := FTEIDs i; Cause := Cause i;
     Recovery := Recovery i; ChargingID := ChargingID i |}.
Definition on_session (f : session -> session) (i : GTPv2IESet) : GTPv2IESet :=
  {| i_identity := i_identity i; i_session := f (i_session i); i_bandwidth := i_bandwidth i;
     i_location := i_location i; Bearers := Bearers i; FTEIDs := FTEIDs i; Cause := Cause i;
     Recovery := Recovery i; ChargingID := ChargingID i |}.
Definition set_bandwidth (b : bandwidth) (i : GTPv2IESet) : GTPv2IESet :=
  {| i_identity := i_identity i; i_session := i_session i; i_bandwidth := b;
     i_location := i_location i; Bearers := Bearers i; FTEIDs := FTEIDs i; Cause := Cause i;
     Recovery := Recovery i; ChargingID := ChargingID i |}.
Definition set_location (l : location) (i : GTPv2IESet) : GTPv2IESet :=
  {| i_identity := i_identity i; i_session := i_session i; i_bandwidth := i_bandwidth i;
     i_location := l; Bearers := Bearers i; FTEIDs := FTEIDs i; Cause := Cause i;
     Recovery := Recovery i; ChargingID := ChargingID i |}.
Definition set_tunnels (bs : list BearerInfo) (fs : list FTEIDInfo) (i : GTPv2IESet) : GTPv2IESet :=
  {| i_identity := i_identity i; i_session := i_session i; i_bandwidth := i_bandwidth i;
     i_location := i_location i; Bearers := bs; FTEIDs := fs; Cause := Cause i;
     Recovery := Recovery i; ChargingID := ChargingID i |}.
Definition set_other (cause recovery charging : Z) (i : GTPv2IESet) : GTPv2IESet :=
  {| i_identity := i_identity i; i_session := i_session i; i_bandwidth := i_bandwidth i;
     i_location := i_location i; Bearers := Bearers i; FTEIDs := FTEIDs i; Cause := cause;
     Recovery := recovery; ChargingID := charging |}.

(** ** ie_v2.go: parsers of single elements *)

Definition pdnTypeName (t : Z) : string :=
  if t =? 1 then "IPv4" else if t =? 2 then "IPv6" else if t =? 3 then "IPv4v6"
  else "PDN_" +:+ fmt_d t.

Definition parseAMBR (data : list byte) (ies : GTPv2IESet) : res GTPv2IESet :=
  if zlen data <? 8 then Ok ies
  else
    ul ← rd_be 4 data 0; dl ← rd_be 4 data 4;
    Ok (set_bandwidth {| AMBRUplink := ul; AMBRDownlink := dl |} ies).

Definition set_pdn_type (t : string) (s : session) : session :=
  {| APN := APN s; PDNType := t; PDNAddress := PDNAddress s; ServingMCCMNC := ServingMCCMNC s;
     RATType := RATType s |}.
Definition set_pdn_address (a : string) (s : session) : session :=
  {| APN := APN s; PDNType := PDNType s; PDNAddress := a; ServingMCCMNC := ServingMCCMNC s;
     RATType := RATType s |}.

Definition parsePAA (data : list byte) (ies : GTPv2IESet) : res GTPv2IESet :=
  if zlen data <? 1 then Ok ies
  else
    b0 ← idx data 0;
    let pdnType := Z.land (u8 b0) 0x07 in
    let ies := on_session (set_pdn_type (pdnTypeName pdnType)) ies in
    if pdnType =? 1 then
      if 5 <=? zlen data then
        a ← slice data 1 5; Ok (on_session (set_pdn_address (ip_string a)) ies)
      else Ok ies
    else if pdnType =? 2 then
      if 9 <=? zlen data then
        if 17 <=? zlen data then
          a ← slice data 1 17; Ok (on_session (set_pdn_address (ip_string a)) ies)
        else
          b1 ← idx data 1; Ok (on_session (set_pdn_address ("::/" +:+ fmt_d (u8 b1))) ies)
      else Ok ies
    else if pdnType =? 3 then
      if 13 <=? zlen data then
        a ← slice data 9 13; Ok (on_session (set_pdn_address (ip_string a)) ies)
      else Ok ies
    else Ok ies.

Definition parseFTEID (data : list byte) : res (option FTEIDInfo) :=
  if zlen data <? 5 then Ok None
  else
    b0 ← idx data 0;
    let flags := u8 b0 in
    let v4Present := negb (Z.land flags 0x80 =? 0) in
    let v6Present := negb (Z.land flags 0x40 =? 0) in
    let interfaceType := Z.land flags 0x3F in
    teid ← rd_be 4 data 1;
    let fteid (v4 v6 : string) :=
      {| InterfaceType := interfaceType;
         InterfaceName := name_or FTEIDInterfaceNames "Interface_" interfaceType;
         TEID := teid; IPv4 := v4; IPv6 := v6 |} in
    let offset := 5 in
    if v4Present && (zlen data <? offset + 4) then Ok (Some (fteid "" ""))
    else
      v4 ← (if v4Present then a ← slice data offset (offset + 4); Ok (ip_string a) else Ok ""%string);
      let offset := if v4Present then offset + 4 else offset in
      if v6Present then
        if zlen data <? offset + 16 then Ok (Some (fteid v4 ""))
        else
          a ← slice data offset (offset + 16); Ok (Some (fteid v4 (ip_string a)))
      else Ok (Some (fteid v4 "")).

Definition decode5ByteRate (data : list byte) : res Z :=
  if zlen data <? 5 then Ok 0
  else
    b0 ← idx data 0; b1 ← idx data 1; b2 ← idx data 2; b3 ← idx data 3; b4 ← idx data 4;
    Ok (Z.lor (Z.lor (Z.lor (Z.lor (Z.shiftl (u8 b0) 32) (Z.shiftl (u8 b1) 24))
          (Z.shiftl (u8 b2) 16)) (Z.shiftl (u8 b3) 8)) (u8 b4)).

Definition parseBearerQoS (data : list byte) : res (option QoSInfo) :=
  if zlen data <? 22 then Ok None
  else
    b1 ← idx data 1;
    let qci := u8 b1 in
    s ← slice data 2 7; mbr_ul ← decode5ByteRate s;
    s ← slice data 7 12; mbr_dl ← decode5ByteRate s;
    s ← slice data 12 17; gbr_ul ← decode5ByteRate s;
    s ← slice data 17 22; gbr_dl ← decode5ByteRate s;
    Ok (Some {| QCI := qci; QCIName := name_or QCINames "QCI_" qci; MBRUplink := mbr_ul;
                MBRDownlink := mbr_dl; GBRUplink := gbr_ul; GBRDownlink := gbr_dl |}).

(** [data[0]] when there is one. *)
Definition first_byte (data : list byte) : res (option Z) :=
  if 1 <=? zlen data then b ← idx data 0; Ok (Some (u8 b)) else Ok None.

Definition set_ebi (e : Z) (b : BearerInfo) : BearerInfo :=
  {| EBI := e; b_QoS := b_QoS b; b_Cause := b_Cause b; b_ChargingID := b_ChargingID b;
     b_FTEIDs := b_FTEIDs b |}.
Definition set_qos (q : QoSInfo) (b : BearerInfo) : BearerInfo :=
  {| EBI := EBI b; b_QoS := q; b_Cause := b_Cause b; b_ChargingID := b_ChargingID b;
     b_FTEIDs := b_FTEIDs b |}.

(** The [switch] of parseBearerContext. *)
Definition bearer_ie (ieType : Z) (ieData : list byte) (bc : BearerInfo) : res BearerInfo :=
  if ieType =? IETypeEBI then
    o ← first_byte ieData;
    Ok (match o with Some v => set_ebi (Z.land v 0x0F) bc | None => bc end)
  else if ieType =? IETypeBearerQoS then
    qos ← parseBearerQoS ieData;
    Ok (match qos with Some q => set_qos q bc | None => bc end)
  else if ieType =? IETypeFTEID then
    fteid ← parseFTEID ieData;
    Ok (match fteid with
        | Some f => {| EBI := EBI bc; b_QoS := b_QoS bc; b_Cause := b_Cause bc;
                       b_ChargingID := b_ChargingID bc; b_FTEIDs := b_FTEIDs bc ++ [f] |}
        | None => bc
        end)
  else if ieType =? IETypeCause then
    o ← first_byte ieData;
    Ok (match o with
        | Some v => {| EBI := EBI bc; b_QoS := b_QoS bc; b_Cause := v;
                       b_ChargingID := b_ChargingID bc; b_FTEIDs := b_FTEIDs bc |}
        | None => bc
        end)
  else if ieType =? IETypeChargingID then
    if 4 <=? zlen ieData then
      c ← rd_be 4 ieData 0;
      Ok {| EBI := EBI bc; b_QoS := b_QoS bc; b_Cause := b_Cause bc; b_ChargingID := c;
            b_FTEIDs := b_FTEIDs bc |}
    else Ok bc
  else Ok bc.

Definition parseBearerContext (data : list byte) : res BearerInfo :=
  scan_ies bearer_ie data no_bearer.

Definition parseServingNetwork (data : list byte) : res string :=
  if zlen data <? 3 then Ok ""%string
  else
    b0 ← idx data 0; b1 ← idx data 1; b2 ← idx data 2;
    let mcc1 := Z.land (u8 b0) 0x0F in
    let mcc2 := Z.land (Z.shiftr (u8 b0) 4) 0x0F in
    let mcc3 := Z.land (u8 b1) 0x0F in
    let mnc3 := Z.land (Z.shiftr (u8 b1) 4) 0x0F in
    let mnc1 := Z.land (u8 b2) 0x0F in
    let mnc2 := Z.land (Z.shiftr (u8 b2) 4) 0x0F in
    let mcc := fmt_d mcc1 +:+ fmt_d mcc2 +:+ fmt_d mcc3 in
    if mnc3 =? 0x0F then Ok (mcc +:+ "-" +:+ fmt_d mnc1 +:+ fmt_d mnc2)
    else Ok (mcc +:+ "-" +:+ fmt_d mnc1 +:+ fmt_d mnc2 +:+ fmt_d mnc3).

Definition parseULI (data : list byte) (ies : GTPv2IESet) : res GTPv2IESet :=
  if zlen data <? 1 then Ok ies
  else
    b0 ← idx data 0;
    let flags := u8 b0 in
    let bit m := negb (Z.land flags m =? 0) in
    let offset := 1 in
    let offset := if bit 0x01 then offset + 7 else offset in
    let offset := if bit 0x02 then offset + 7 else offset in
    let offset := if bit 0x04 then offset + 7 else offset in
    ies ← (if bit 0x08 && (offset + 5 <=? zlen data) then
        s ← slice data offset (offset + 3);
        plmn ← parseServingNetwork s;
        tac ← rd_be 2 data (offset + 3);
        Ok (set_location {| TAI := plmn +:+ "-TAC:" +:+ fmt_d tac; ECGI := ECGI (i_location ies) |} ies)
      else Ok ies);
    let offset := if bit 0x08 then offset + 5 else offset in
    if bit 0x10 && (offset + 7 <=? zlen data) then
      s ← slice data offset (offset + 3);
      plmn ← parseServingNetwork s;
      w ← rd_be 4 data (offset + 3);
      let eci := Z.land w 0x0FFFFFFF in
      Ok (set_location {| TAI := TAI (i_location ies); ECGI := plmn +:+ "-ECI:" +:+ fmt_d eci |} ies)
    else Ok ies.

(** ** ie_v2.go: the elements of a message *)

(** [Bearers[len-1]] with its QoS fields set. *)
Definition qos_last (q : QoSInfo) (bs : list BearerInfo) : list BearerInfo :=
  alter (set_qos q) (length bs - 1)%nat bs.

(** The [switch] of ParseGTPv2IEs. *)
Definition message_ie (ieType : Z) (ieData : list byte) (ies : GTPv2IESet) : res GTPv2IESet :=
  if ieType =? IETypeIMSI then
    Ok (on_identity (fun s => {| IMSI := decodeBCD ieData; MSISDN := MSISDN s; MEI := MEI s |}) ies)
  else if ieType =? IETypeMSISDN then
    Ok (on_identity (fun s => {| IMSI := IMSI s; MSISDN := decodeBCD ieData; MEI := MEI s |}) ies)
  else if ieType =? IETypeMEI then
    Ok (on_identity (fun s => {| IMSI := IMSI s; MSISDN := MSISDN s; MEI := decodeBCD ieData |}) ies)
  else if ieType =? IETypeAPN then
    apn ← decodeAPN ieData;
    Ok (on_session (fun s => {| APN := apn; PDNType := PDNType s; PDNAddress := PDNAddress s;
      ServingMCCMNC := ServingMCCMNC s; RATType := RATType s |}) ies)
  else if ieType =? IETypeCause then
    o ← first_byte ieData;
    Ok (match o with Some v => set_other v (Recovery ies) (ChargingID ies) ies | None => ies end)
  else if ieType =? IETypeRecovery then
    o ← first_byte ieData;
    Ok (match o with Some v => set_other (Cause ies) v (ChargingID ies) ies | None => ies end)
  else if ieType =? IETypeAMBR then parseAMBR ieData ies
  else if ieType =? IETypeEBI then
    o ← first_byte ieData;
    Ok (match o with
        | Some v =>
          if zlen (Bearers ies) =? 0 then
            set_tunnels (Bearers ies ++ [set_ebi (Z.land v 0x0F) no_bearer]) (FTEIDs ies) ies
          else ies
        | None => ies
        end)
  else if ieType =? IETypePAA then parsePAA ieData ies
  else if ieType =? IETypePDNType then
    o ← first_byte ieData;
    Ok (match o with
        | Some v => on_session (set_pdn_type (pdnTypeName (Z.land v 0x07))) ies
        | None => ies
        end)
  else if ieType =? IETypeBearerQoS then
    qos ← parseBearerQoS ieData;
    Ok (match qos with
        | Some q =>
          if 0 <? zlen (Bearers ies) then set_tunnels (qos_last q (Bearers ies)) (FTEIDs ies) ies
          else ies
        | None => ies
        end)
  else if ieType =? IETypeRATType then
    o ← first_byte ieData;
    Ok (match o with
        | Some v => on_session (fun s => {| APN := APN s; PDNType := PDNType s;
            PDNAddress := PDNAddress s; ServingMCCMNC := ServingMCCMNC s;
            RATType := name_or RATTypeNames "RAT_" v |}) ies
        | None => ies
        end)
  else if ieType =? IETypeServingNetwork then
    plmn ← parseServingNetwork ieData;
    Ok (on_session (fun s => {| APN := APN s; PDNType := PDNType s; PDNAddress := PDNAddress s;
      ServingMCCMNC := plmn; RATType := RATType s |}) ies)
  else if ieType =? IETypeULI then parseULI ieData ies
  else if ieType =? IETypeFTEID then
    fteid ← parseFTEID ieData;
    Ok (match fteid with
        | Some f => set_tunnels (Bearers ies) (FTEIDs ies ++ [f]) ies
        | None => ies
        end)
  else if ieType =? IETypeBearerContext then
    bc ← parseBearerContext ieData;
    Ok (set_tunnels (Bearers ies ++ [bc]) (FTEIDs ies) ies)
  else if ieType =? IETypeChargingID then
    if 4 <=? zlen ieData then
      c ← rd_be 4 ieData 0; Ok (set_other (Cause ies) (Recovery ies) c ies)
    else Ok ies
  else Ok ies.

Definition ParseGTPv2IEs (data : list byte) : res GTPv2IESet :=
  scan_ies message_ie data no_ies.

(** ** ie_v2.go: ToMetrics *)

Definition opt_str (k s : string) : list (string * any) :=
  if negb (String.eqb s "") then [(k, AStr s)] else [].
Definition opt_int (k : string) (t : ity) (z : Z) : list (string * any) :=
  if 0 <? z then [(k, AInt t z)] else [].

Definition fteid_map (f : FTEIDInfo) : list (string * any) :=
  [("interface", AStr (InterfaceName f)); ("teid", AStr ("0x" +:+ fmt_0x 8 (TEID f)))]%string
  ++ opt_str "ipv4" (IPv4 f) ++ opt_str "ipv6" (IPv6 f).

Definition bearer_map (b : BearerInfo) : list (string * any) :=
  let q := b_QoS b in
  [("ebi"%string, AInt TU8 (EBI b))]
  ++ (if 0 <? QCI q then
        [("qci", AInt TU8 (QCI q)); ("qci_name", AStr (QCIName q))]%string else [])
  ++ opt_int "mbr_uplink_kbps" TU64 (MBRUplink q)
  ++ opt_int "mbr_downlink_kbps" TU64 (MBRDownlink q)
  ++ opt_int "gbr_uplink_kbps" TU64 (GBRUplink q)
  ++ opt_int "gbr_downlink_kbps" TU64 (GBRDownlink q)
  ++ opt_int "cause" TU8 (b_Cause b)
  ++ opt_int "charging_id" TU32 (b_ChargingID b)
  ++ (if 0 <? zlen (b_FTEIDs b) then
        [("fteids"%string, AMaps (fteid_map <$> b_FTEIDs b))] else []).

Definition ToMetrics (ies : GTPv2IESet) : gmap string any :=
  list_to_map (
    opt_str "imsi" (IMSI (i_identity ies)) ++ opt_str "msisdn" (MSISDN (i_identity ies))
    ++ opt_str "mei" (MEI (i_identity ies)) ++ opt_str "apn" (APN (i_session ies))
    ++ opt_str "pdn_type" (PDNType (i_session ies))
    ++ opt_str "pdn_address" (PDNAddress (i_session ies))
    ++ opt_str "serving_network" (ServingMCCMNC (i_session ies))
    ++ opt_str "rat_type" (RATType (i_session ies))
    ++ opt_int "ambr_uplink_kbps" TU32 (AMBRUplink (i_bandwidth ies))
    ++ opt_int "ambr_downlink_kbps" TU32 (AMBRDownlink (i_bandwidth ies))
    ++ opt_str "tai" (TAI (i_location ies)) ++ opt_str "ecgi" (ECGI (i_location ies))
    ++ opt_int "recovery" TU8 (Recovery ies) ++ opt_int "charging_id" TU32 (ChargingID ies)
    ++ (if 0 <? zlen (Bearers ies) then
          [("bearer_count", AInt TInt (zlen (Bearers ies)));
           ("bearers", AMaps (bearer_map <$> Bearers ies))]%string else [])
    ++ (if 0 <? zlen (FTEIDs ies) then
          [("fteids"%string, AMaps (fteid_map <$> FTEIDs ies))] else [])).

(** ** errors.go *)

Definition DetectErrors (hdr : GTPHeader) (causeCode : Z) : list PacketError :=
  if negb (causeCode =? 0) && negb (causeCode =? 16) then
    let causeName := default "Unknown"%string (CauseCodes !! causeCode) in
    let severity :=
      if bool_decide (causeCode ∈ [73; 74; 94; 95; 96]) then "error"%string else "warning"%string in
    let msgType := map_str MessageTypes (h_MessageType hdr) in
    [{| Code := "GTP_FAILURE"; Title := "GTP " +:+ msgType +:+ " Failed";
        Description := "Cause: " +:+ causeName; Severity := severity |}]
  else [].

(** ** decoder.go *)

Record inner := {
  InnerSrcIP : string;
  InnerDstIP : string;
  InnerProtocol : string;
  InnerSrcPort : Z;
  InnerDstPort : Z;
  InnerPacketCount : Z;
}.
Definition no_inner : inner :=
  {| InnerSrcIP := ""; InnerDstIP := ""; InnerProtocol := ""; InnerSrcPort := 0;
     InnerDstPort := 0; InnerPacketCount := 0 |}.

Record gtpTransaction := {
  ID : string;
  t_TEID : Z;
  MsgType : string;
  t_SrcIP : string;
  t_DstIP : string;
  t_SrcPort : Z;
  t_DstPort : Z;
  CauseCode : Z;
  SeqNo : Z;
  IsGTPU : bool;
  t_IsError : bool;
  t_Timestamp : time;
  t_subscriber : subscriber;
  IEs : option GTPv2IESet;
  t_inner : inner;
}.

(** The decoder's [transactions] map is never written to, so it is left out. *)
Record Decoder := { completed : list gtpTransaction; tunnelCount : Z }.
Definition NewDecoder : Decoder := {| completed := []; tunnelCount := 0 |}.

Definition isGTPPort (src dst : Z) : bool :=
  (src =? 2123) || (dst =? 2123) || (src =? 2152) || (dst =? 2152).

(** The scan for a Cause element, GTPv2. *)
Definition cause_body (data : list byte) (offset : Z) : res (ctl Z Z) :=
  if offset + 4 <=? zlen data then
    ieType ← idx data offset;
    ieLen ← rd_be 2 data (offset + 1);
    if (u8 ieType =? 2) && (1 <=? ieLen) && (offset + 4 <? zlen data) then
      b ← idx data (offset + 4); Ok (Done (u8 b))
    else Ok (Next (offset + (4 + ieLen)))
  else Ok (Done 0).

Definition extractCauseCode (data : list byte) (version : Z) : res Z :=
  if version =? 2 then loop (S (length data)) (cause_body data) 0
  else if version =? 1 then
    if 2 <=? zlen data then
      b0 ← idx data 0;
      if u8 b0 =? 1 then b1 ← idx data 1; Ok (u8 b1) else Ok 0
    else Ok 0
  else Ok 0.

Definition innerProtocolName (proto : Z) : string :=
  if proto =? 1 then "ICMP" else if proto =? 6 then "TCP" else if proto =? 17 then "UDP"
  else if proto =? 41 then "IPv6" else if proto =? 58 then "ICMPv6"
  else if proto =? 132 then "SCTP" else "Proto_" +:+ fmt_d proto.

Definition parseInnerTransport (protocol : Z) (data : list byte) (tx : inner) : res inner :=
  if bool_decide (protocol ∈ [6; 17; 132]) then
    if 4 <=? zlen data then
      sp ← rd_be 2 data 0; dp ← rd_be 2 data 2;
      Ok {| InnerSrcIP := InnerSrcIP tx; InnerDstIP := InnerDstIP tx;
            InnerProtocol := InnerProtocol tx; InnerSrcPort := sp; InnerDstPort := dp;
            InnerPacketCount := InnerPacketCount tx |}
    else Ok tx
  else Ok tx.

Definition set_addresses (src dst proto : string) (tx : inner) : inner :=
  {| InnerSrcIP := src; InnerDstIP := dst; InnerProtocol := proto;
     InnerSrcPort := InnerSrcPort tx; InnerDstPort := InnerDstPort tx;
     InnerPacketCount := InnerPacketCount tx |}.

Definition parseInnerIPv4 (data : list byte) (tx : inner) : res inner :=
  if zlen data <? 20 then Ok tx
  else
    b0 ← idx data 0;
    let ihl := Z.land (u8 b0) 0x0F * 4 in
    if (ihl <? 20) || (zlen data <? ihl) then Ok tx
    else
      src ← slice data 12 16; dst ← slice data 16 20;
      protocol ← idx data 9;
      let tx := set_addresses (ip_string src) (ip_string dst) (innerProtocolName (u8 protocol)) tx in
      if ihl <? zlen data then
        rest ← slice_from data ihl; parseInnerTransport (u8 protocol) rest tx
      else Ok tx.

Definition parseInnerIPv6 (data : list byte) (tx : inner) : res inner :=
  if zlen data <? 40 then Ok tx
  else
    src ← slice data 8 24; dst ← slice data 24 40;
    nextHeader ← idx data 6;
    let tx := set_addresses (ip_string src) (ip_string dst) (innerProtocolName (u8 nextHeader)) tx in
    if 40 <? zlen data then
      rest ← slice_from data 40; parseInnerTransport (u8 nextHeader) rest tx
    else Ok tx.

Definition parseInnerPacket (data : list byte) (tx : inner) : res inner :=
  if zlen data <? 1 then Ok tx
  else
    b0 ← idx data 0;
    let version := Z.land (Z.shiftr (u8 b0) 4) 0x0F in
    if version =? 4 then parseInnerIPv4 data tx
    else if version =? 6 then parseInnerIPv6 data tx
    else Ok tx.

Definition is_gtpu_port (pkt : Packet) : bool := (SrcPort pkt =? 2152) || (DstPort pkt =? 2152).

(** The header: the parsed fields and where the body starts. *)
Definition parse_header (pkt : Packet) : res (option (GTPHeader * Z)) :=
  let payload := Payload pkt in
  b0 ← idx payload 0;
  let version := Z.land (Z.shiftr (u8 b0) 5) 0x07 in
  b1 ← idx payload 1;
  length ← rd_be 2 payload 2;
  let hdr (teid seq : Z) (gtpu : bool) :=
    {| h_Version := version; h_MessageType := u8 b1; h_Length := length; h_TEID := teid;
       h_SequenceNo := seq; h_IsGTPU := gtpu |} in
  if version =? 1 then
    if zlen payload <? 8 then Ok None
    else
      teid ← rd_be 4 payload 4;
      if negb (Z.land (u8 b0) 0x07 =? 0) && (12 <=? zlen payload) then
        seq ← rd_be 2 payload 8;
        Ok (Some (hdr teid seq (is_gtpu_port pkt), 12))
      else Ok (Some (hdr teid 0 (is_gtpu_port pkt), 8))
  else if version =? 2 then
    if zlen payload <? 8 then Ok None
    else if negb (Z.land (u8 b0) 0x08 =? 0) then
      if zlen payload <? 12 then Ok None
      else
        teid ← rd_be 4 payload 4;
        s9 ← idx payload 9; s10 ← idx payload 10;
        Ok (Some (hdr teid (Z.lor (Z.shiftl (u8 s9) 8) (u8 s10)) false, 12))
    else
      s5 ← idx payload 5; s6 ← idx payload 6;
      Ok (Some (hdr 0 (Z.lor (Z.shiftl (u8 s5) 8) (u8 s6)) false, 8))
  else Ok None.

Definition parseGTP (d : Decoder) (pkt : Packet) : res (Decoder * Packet * option (GTPHeader * Z)) :=
  let payload := Payload pkt in
  o ← parse_header pkt;
  match o with
  | None => Ok (d, pkt, None)
  | Some (hdr, headerSize) =>
    let version := h_Version hdr in
    causeCode ← (if headerSize <? zlen payload then
        body ← slice_from payload headerSize; extractCauseCode body version
      else Ok 0);
    let isGTPU := is_gtpu_port pkt in
    '(ies, sub) ← (if negb isGTPU && (headerSize <? zlen payload) then
        body ← slice_from payload headerSize;
        if version =? 2 then
          ies ← ParseGTPv2IEs body;
          Ok (Some ies, {| s_imsi := IMSI (i_identity ies); s_msisdn := MSISDN (i_identity ies);
                           s_apn := APN (i_session ies) |})
        else s ← extractSubscriberIEs body version; Ok (None, s)
      else Ok (None, no_subscriber));
    let msgTypeName := name_or MessageTypes "Type_" (h_MessageType hdr) in
    let proto := if h_IsGTPU hdr then "GTP-U"%string else "GTP-C"%string in
    let summary := msgTypeName +:+ " TEID=0x" +:+ fmt_0x 8 (h_TEID hdr) in
    let summary := if negb (String.eqb (s_imsi sub) "") then summary +:+ " IMSI=" +:+ s_imsi sub
      else summary in
    let summary :=
      match ies with
      | Some ies =>
        let summary := if negb (String.eqb (APN (i_session ies)) "")
          then summary +:+ " APN=" +:+ APN (i_session ies) else summary in
        match Bearers ies with
        | b :: _ => if 0 <? QCI (b_QoS b) then summary +:+ " QCI=" +:+ fmt_d (QCI (b_QoS b))
          else summary
        | [] => summary
        end
      | None => summary
      end in
    '(n, inn) ← (if isGTPU && (h_MessageType hdr =? 0xFF) && (headerSize <? zlen payload) then
        innerPayload ← slice_from payload headerSize;
        inn ← parseInnerPacket innerPayload no_inner;
        if negb (String.eqb (InnerSrcIP inn) "") then
          Ok (tunnelCount d + 1,
              {| InnerSrcIP := InnerSrcIP inn; InnerDstIP := InnerDstIP inn;
                 InnerProtocol := InnerProtocol inn; InnerSrcPort := InnerSrcPort inn;
                 InnerDstPort := InnerDstPort inn; InnerPacketCount := 1 |})
        else Ok (tunnelCount d, inn)
      else Ok (tunnelCount d, no_inner));
    let tx :=
      {| ID := "gtp-" +:+ fmt_d (h_TEID hdr) +:+ "-" +:+ fmt_d (FrameNumber pkt);
         t_TEID := h_TEID hdr; MsgType := msgTypeName; t_SrcIP := SrcIP pkt;
         t_DstIP := DstIP pkt; t_SrcPort := SrcPort pkt; t_DstPort := DstPort pkt;
         CauseCode := causeCode; SeqNo := h_SequenceNo hdr; IsGTPU := h_IsGTPU hdr;
         t_IsError := negb (causeCode =? 0) && negb (causeCode =? 16);
         t_Timestamp := Timestamp pkt; t_subscriber := sub; IEs := ies; t_inner := inn |} in
    Ok ({| completed := completed d ++ [tx]; tunnelCount := n |},
        set_app proto summary pkt, Some (hdr, causeCode))
  end.

Definition admits (pkt : Packet) : res bool :=
  if negb (String.eqb (Protocol pkt) "UDP") then Ok false
  else if zlen (Payload pkt) <? 8 then Ok false
  else if isGTPPort (SrcPort pkt) (DstPort pkt) then Ok true
  else IsGTP (Payload pkt).

Definition HandlePacket (d : Decoder) (pkt : Packet) : res (Decoder * Packet) :=
  ok ← admits pkt;
  if negb ok then Ok (d, pkt)
  else '(d, pkt, _) ← parseGTP d pkt; Ok (d, pkt).

(** The metrics of the elements, or of the GTPv1 subscriber. *)
Definition ie_metrics (tx : gtpTransaction) : gmap string any :=
  match IEs tx with
  | Some ies => ToMetrics ies
  | None =>
    list_to_map (opt_str "imsi" (s_imsi (t_subscriber tx))
      ++ opt_str "msisdn" (s_msisdn (t_subscriber tx)) ++ opt_str "apn" (s_apn (t_subscriber tx)))
  end.

(** What HandlePacketLive adds for the last transaction. *)
Definition live_metadata (d : Decoder) (tx : gtpTransaction) (metadata : gmap string any) :
    gmap string any :=
  let metadata := ie_metrics tx ∪ metadata in
  if IsGTPU tx then
    let i := t_inner tx in
    let metadata := if negb (String.eqb (InnerSrcIP i) "") then
        <["inner_src_ip" := AStr (InnerSrcIP i)]> (<["inner_dst_ip" := AStr (InnerDstIP i)]>
          (<["inner_protocol" := AStr (InnerProtocol i)]> metadata))
      else metadata in
    let metadata := if negb (InnerSrcPort i =? 0) then
        <["inner_src_port" := AInt TU16 (InnerSrcPort i)]>
          (<["inner_dst_port" := AInt TU16 (InnerDstPort i)]> metadata)
      else metadata in
    <["tunnel_count" := AInt TInt (tunnelCount d)]>
      (<["inner_packet_count" := AInt TInt (InnerPacketCount i)]> metadata)
  else metadata.

Definition live_summary (tx : gtpTransaction) (summary : string) : string :=
  let summary := if negb (String.eqb (s_imsi (t_subscriber tx)) "")
    then summary +:+ " IMSI=" +:+ s_imsi (t_subscriber tx) else summary in
  let i := t_inner tx in
  if IsGTPU tx && negb (String.eqb (InnerSrcIP i) "") then
    summary +:+ " Inner:" +:+ InnerSrcIP i +:+ "->" +:+ InnerDstIP i
      +:+ "(" +:+ InnerProtocol i +:+ ")"
  else summary.

Definition HandlePacketLive (d : Decoder) (pkt : Packet) : res (Decoder * option DecodedPacket) :=
  ok ← admits pkt;
  if negb ok then Ok (d, None)
  else
    '(d, pkt, o) ← parseGTP d pkt;
    match o with
    | None => Ok (d, None)
    | Some (hdr, causeCode) =>
      let msgType := name_or MessageTypes "Type_" (h_MessageType hdr) in
      let summary := msgType +:+ " TEID=0x" +:+ fmt_0x 8 (h_TEID hdr) in
      let metadata : gmap string any := list_to_map
        [("version", AInt TU8 (h_Version hdr)); ("message_type", AStr msgType);
         ("teid", AInt TU32 (h_TEID hdr)); ("sequence", AInt TU16 (h_SequenceNo hdr));
         ("is_gtpu", ABool (h_IsGTPU hdr))]%string in
      let '(summary, metadata) :=
        match last (completed d) with
        | Some tx => (live_summary tx summary, live_metadata d tx metadata)
        | None => (summary, metadata)
        end in
      Ok (d, Some {| D_Packet := pkt;
                     D_Protocol := if h_IsGTPU hdr then "GTP-U" else "GTP-C";
                     D_Summary := summary; D_Metadata := metadata;
                     D_Errors := DetectErrors hdr causeCode |})
    end.

Definition tx_flow (d : Decoder) (tx : gtpTransaction) : Flow :=
  let metrics : gmap string any := list_to_map
    [("message_type", AStr (MsgType tx)); ("teid", AInt TU32 (t_TEID tx));
     ("is_gtpu", ABool (IsGTPU tx)); ("is_error", ABool (t_IsError tx));
     ("cause_code", AInt TU8 (CauseCode tx))]%string in
  let metrics := ie_metrics tx ∪ metrics in
  let i := t_inner tx in
  let metrics :=
    if IsGTPU tx then
      list_to_map
        [("inner_src_ip", AStr (InnerSrcIP i)); ("inner_dst_ip", AStr (InnerDstIP i));
         ("inner_protocol", AStr (InnerProtocol i));
         ("inner_src_port", AInt TU16 (InnerSrcPort i));
         ("inner_dst_port", AInt TU16 (InnerDstPort i));
         ("tunnel_count", AInt TInt (tunnelCount d));
         ("inner_packet_count", AInt TInt (InnerPacketCount i))]%string ∪ metrics
    else metrics in
  {| FlowID := ID tx; Type_ := if IsGTPU tx then FlowGTPU else FlowGTP;
     F_SrcIP := t_SrcIP tx; F_DstIP := t_DstIP tx; F_SrcPort := t_SrcPort tx;
     F_DstPort := t_DstPort tx; StartTime := t_Timestamp tx; EndTime := t_Timestamp tx;
     Metrics := metrics |}.

Definition Flush (d : Decoder) : list Flow := tx_flow d <$> completed d.

(** ** The elements of a GTPv2 body, without offsets *)

Fixpoint split_fuel (fuel : nat) (data : list byte) : list (Z * list byte) :=
  match fuel, data with
  | S fuel, t :: l1 :: l0 :: _ :: rest =>
    let n := Z.to_nat (be [l1; l0]) in
    if (length rest <? n)%nat then []
    else (u8 t, take n rest) :: split_fuel fuel (drop n rest)
  | _, _ => []
  end.

(** The elements of a body: a truncated one ends the list. *)
Definition split_ies (data : list byte) : list (Z * list byte) := split_fuel (length data) data.

Definition encode_ie (e : Z * list byte) : list byte :=
  byte_of (fst e) :: be_put 2 (zlen (snd e)) ++ x00 :: snd e.
Definition encode_ies (l : list (Z * list byte)) : list byte := mjoin (encode_ie <$> l).

Definition ie_ok (e : Z * list byte) : Prop := 0 <= fst e < 256 /\ zlen (snd e) < 65536.

Definition step_ie {S} (switch : Z -> list byte -> S -> res S) (s : S) (e : Z * list byte) : res S :=
  switch (fst e) (snd e) s.

Lemma scan_body_split {S} (switch : Z -> list byte -> S -> res S) pre data s :
  scan_body switch (pre ++ data) (zlen pre, s) =
  match data with
  | t :: l1 :: l0 :: x :: rest =>
    let n := Z.to_nat (be [l1; l0]) in
    if (length rest <? n)%nat then Ok (Done s)
    else s' ← switch (u8 t) (take n rest) s;
         Ok (Next (zlen (pre ++ [t; l1; l0; x] ++ take n rest), s'))
  | _ => Ok (Done s)
  end.
Proof.
  unfold scan_body. rewrite zlen_app.
  destruct data as [|t [|l1 [|l0 [|x rest]]]];
    try by (rewrite ?zlen_cons, ?zlen_nil; replace (_ <=? _) with false by lia).
  assert (holds_at (pre ++ t :: l1 :: l0 :: x :: rest) (zlen pre) (t :: [l1; l0] ++ x :: rest)) as Hat.
  { exists pre, []. by rewrite app_nil_r. }
  apply holds_at_cons in Hat as [Ht Hat]. apply holds_at_app in Hat as [Hl Hat].
  apply holds_at_cons in Hat as [_ Hat]. change (zlen [l1; l0]) with 2 in Hat.
  pose proof (be_range [l1; l0]) as Hn. change (zlen [l1; l0]) with 2 in Hn.
  pose proof (zlen_nonneg rest). rewrite !zlen_cons.
  replace (_ <=? _) with true by lia. rewrite Ht, (holds_at_rd _ _ _ 2 Hl) by done.
  cbn [mbind res_bind]. cbv zeta. replace (zlen pre + 1 + 2 + 1) with (zlen pre + 4) in Hat by lia.
  destruct (Nat.ltb_spec (length rest) (Z.to_nat (be [l1; l0]))) as [Hlt|Hge].
  - replace (_ <? _) with true by (unfold zlen in *; lia). done.
  - replace (_ <? _) with false by (unfold zlen in *; lia).
    rewrite <-(take_drop (Z.to_nat (be [l1; l0])) rest) in Hat at 2.
    apply holds_at_app in Hat as [Hd _]. apply holds_at_slice in Hd.
    assert (zlen (take (Z.to_nat (be [l1; l0])) rest) = be [l1; l0]) as E.
    { unfold zlen. rewrite length_take. lia. }
    rewrite E in Hd. rewrite Hd. cbn [mbind res_bind].
    destruct (switch _ _ s); cbn [mbind res_bind]; [|done..].
    rewrite !zlen_app, E, !zlen_cons, zlen_nil. do 3 f_equal. lia.
Qed.

Lemma scan_loop_split {S} (switch : Z -> list byte -> S -> res S) fuel fuel' pre data s :
  (length data < fuel)%nat -> (length data <= fuel')%nat ->
  loop fuel (scan_body switch (pre ++ data)) (zlen pre, s)
  = foldM (step_ie switch) s (split_fuel fuel' data).
Proof.
  revert fuel' pre data s. induction fuel as [|fuel IH]; intros fuel' pre data s Hf Hf'; [lia|].
  cbn [loop]. rewrite scan_body_split.
  destruct data as [|t [|l1 [|l0 [|x rest]]]]; try by destruct fuel'.
  destruct fuel' as [|fuel']; [cbn in Hf'; lia|]. cbn [split_fuel]. cbv zeta.
  set (n := Z.to_nat _). destruct (Nat.ltb_spec (length rest) n) as [Hlt|Hge]; [done|].
  cbn [foldM].
  change (step_ie switch s (u8 t, take n rest)) with (switch (u8 t) (take n rest) s).
  destruct (switch _ _ s) as [s'| |]; cbn [mbind res_bind]; [|done..].
  cbn [length] in *.
  rewrite <-(IH fuel' (pre ++ [t; l1; l0; x] ++ take n rest)) by (rewrite length_drop; lia).
  rewrite <-!app_assoc. cbn [app]. by rewrite take_drop.
Qed.

Lemma scan_ies_split {S} (switch : Z -> list byte -> S -> res S) data s :
  scan_ies switch data s = foldM (step_ie switch) s (split_ies data).
Proof. apply (scan_loop_split switch _ _ []); lia. Qed.

Lemma length_encode_ies l : (length l <= length (encode_ies l))%nat.
Proof.
  induction l as [|e l IH]; [done|]. change (encode_ies (e :: l)) with (encode_ie e ++ encode_ies l).
  rewrite length_app. unfold encode_ie. cbn [length]. lia.
Qed.

Lemma split_fuel_encode l rest fuel :
  Forall ie_ok l -> zlen rest < 4 -> (length l <= fuel)%nat ->
  split_fuel fuel (encode_ies l ++ rest) = l.
Proof.
  intros Hl Hrest. revert fuel. induction Hl as [|e l [Ht Hd] _ IH]; intros fuel Hf.
  - destruct fuel, rest as [|? [|? [|? [|? rest]]]]; try done.
    rewrite !zlen_cons in Hrest. pose proof (zlen_nonneg rest). lia.
  - destruct fuel as [|fuel]; [cbn in Hf; lia|].
    change (encode_ies (e :: l)) with (encode_ie e ++ encode_ies l). unfold encode_ie.
    pose proof (be_be_put 2 (zlen (snd e))) as Hbe. pose proof (zlen_nonneg (snd e)).
    cbn [be_put app] in *. rewrite <-!app_assoc. cbn [app split_fuel]. cbv zeta.
    rewrite Hbe by (cbn; lia). unfold zlen. rewrite Nat2Z.id.
    replace (_ <? _)%nat with false; [|symmetry; apply Nat.ltb_ge; rewrite !length_app; lia].
    rewrite take_app_all, drop_app_all, u8_byte_of, IH by (cbn in Hf; lia). by destruct e.
Qed.

Lemma split_ies_encode l rest :
  Forall ie_ok l -> zlen rest < 4 -> split_ies (encode_ies l ++ rest) = l.
Proof.
  intros. apply split_fuel_encode; [done..|]. rewrite length_app.
  pose proof (length_encode_ies l). lia.
Qed.

(** ** Every scan comes back *)

Lemma decodeAPN_returns data : returns (decodeAPN data) (fun _ => True).
Proof.
  unfold decodeAPN. eapply returns_bind_weak with (P := fun _ => True); [|done].
  apply (returns_loop (fun st => 0 <= fst st) (fun st => Z.to_nat (zlen data - fst st)));
    [|cbn; lia|cbn; unfold zlen; lia].
  intros [offset parts] Ho. cbn in Ho. unfold apn_body.
  destruct (Z.ltb_spec offset (zlen data)); [|done].
  run_step. apply returns_idx; [lia|]. intros b _. cbv zeta. pose proof (u8_range b).
  destruct (_ || _) eqn:?; [done|]. run_step. apply returns_slice; [lia|]. cbn. lia.
Qed.

Lemma foldM_step_total {S} (switch : Z -> list byte -> S -> res S) l s :
  (forall t d s, returns (switch t d s) (fun _ => True)) ->
  returns (foldM (step_ie switch) s l) (fun _ => True).
Proof. intros H. apply (returns_foldM (fun _ => True)); [done|]. intros; apply H. Qed.

Lemma first_byte_returns data : returns (first_byte data) (fun _ => True).
Proof. unfold first_byte. run_reads. Qed.

Lemma subscriber_v2_returns t d s : returns (subscriber_v2 t d s) (fun _ => True).
Proof.
  unfold subscriber_v2. repeat (destruct (t =? _)); try done.
  eapply returns_bind_weak; [apply decodeAPN_returns|done].
Qed.

Lemma parseFTEID_returns d : returns (parseFTEID d) (fun _ => True).
Proof. unfold parseFTEID. run_reads. Qed.

Lemma decode5ByteRate_returns d : returns (decode5ByteRate d) (fun _ => True).
Proof. unfold decode5ByteRate. run_reads. Qed.

Lemma parseBearerQoS_returns d : returns (parseBearerQoS d) (fun _ => True).
Proof.
  pose proof decode5ByteRate_returns. unfold parseBearerQoS. run_calls.
Qed.

Lemma parseServingNetwork_returns d : returns (parseServingNetwork d) (fun _ => True).
Proof. unfold parseServingNetwork. run_reads. Qed.

#[export] Hint Resolve decodeAPN_returns first_byte_returns subscriber_v2_returns
  parseFTEID_returns parseBearerQoS_returns parseServingNetwork_returns : deeppacket.

Lemma bearer_ie_returns t d s : returns (bearer_ie t d s) (fun _ => True).
Proof.
  unfold bearer_ie. repeat (destruct (t =? _)); run_calls.
Qed.

Lemma parseBearerContext_returns d : returns (parseBearerContext d) (fun _ => True).
Proof.
  unfold parseBearerContext. rewrite scan_ies_split. apply foldM_step_total.
  intros. apply bearer_ie_returns.
Qed.

Lemma parseAMBR_returns d i : returns (parseAMBR d i) (fun _ => True).
Proof. unfold parseAMBR. run_reads. Qed.

Lemma parsePAA_returns d i : returns (parsePAA d i) (fun _ => True).
Proof. unfold parsePAA. run_reads. Qed.

Lemma parseULI_returns d i : returns (parseULI d i) (fun _ => True).
Proof.
  unfold parseULI. destruct (zlen d <? 1) eqn:?; [done|]. run_step. apply returns_idx; [lia|].
  intros b _. cbv zeta. set (f := u8 b).
  set (o1 := if negb (Z.land f 0x01 =? 0) then 1 + 7 else 1).
  set (o2 := if negb (Z.land f 0x02 =? 0) then o1 + 7 else o1).
  set (o3 := if negb (Z.land f 0x04 =? 0) then o2 + 7 else o2).
  set (o4 := if negb (Z.land f 0x08 =? 0) then o3 + 5 else o3).
  assert (0 <= o3 /\ 0 <= o4) as [? ?].
  { unfold o4, o3, o2, o1. destruct (negb _), (negb _), (negb _), (negb _); lia. }
  clearbody o3 o4.
  run_calls.
Qed.

#[export] Hint Resolve parseBearerContext_returns parseAMBR_returns parsePAA_returns
  parseULI_returns bearer_ie_returns : deeppacket.

Lemma message_ie_returns t d s : returns (message_ie t d s) (fun _ => True).
Proof.
  unfold message_ie. repeat (destruct (t =? _); [run_calls; solve [eauto with deeppacket]|]).
  run_calls.
Qed.

Lemma ParseGTPv2IEs_returns data : returns (ParseGTPv2IEs data) (fun _ => True).
Proof.
  unfold ParseGTPv2IEs. rewrite scan_ies_split. apply foldM_step_total, message_ie_returns.
Qed.

Lemma tv_size_pos t n : tv_size t = Some n -> 0 < n.
Proof.
  unfold tv_size. repeat case_match; intros [= <-]; lia.
Qed.

Lemma extractSubscriberIEsV1_returns data : returns (extractSubscriberIEsV1 data) (fun _ => True).
Proof.
  apply (returns_loop (fun st => 0 <= fst st) (fun st => Z.to_nat (zlen data - fst st)));
    [|cbn; lia|cbn; unfold zlen; lia].
  intros [offset s] Ho. cbn in Ho. unfold v1_body.
  destruct (Z.ltb_spec offset (zlen data)); [|done].
  run_step. apply returns_idx; [lia|]. intros b _. cbv zeta.
  destruct (u8 b <? 128).
  - destruct (u8 b =? 2).
    + destruct (Z.ltb_spec (zlen data) (offset + 9)); [done|].
      run_step. apply returns_slice; [lia|]. cbn. lia.
    + destruct (tv_size (u8 b)) as [n|] eqn:E; [|done]. apply tv_size_pos in E. cbn. lia.
  - destruct (Z.ltb_spec (zlen data) (offset + 3)); [done|].
    run_step. apply returns_rd_be; [lia|]. intros n _ Hn.
    destruct (Z.ltb_spec (zlen data) (offset + 3 + n)); [done|].
    run_step. apply returns_slice; [lia|]. eapply returns_bind_weak with (P := fun _ => True).
    + run_calls.
    + intros s' _. cbn. lia.
Qed.

Lemma extractSubscriberIEs_returns data v : returns (extractSubscriberIEs data v) (fun _ => True).
Proof.
  unfold extractSubscriberIEs, extractSubscriberIEsV2.
  destruct (v =? 2); [rewrite scan_ies_split; apply foldM_step_total, subscriber_v2_returns|].
  destruct (v =? 1); [apply extractSubscriberIEsV1_returns|done].
Qed.

Lemma extractCauseCode_returns data v : returns (extractCauseCode data v) (fun c => 0 <= c < 256).
Proof.
  unfold extractCauseCode. pose proof u8_range as Hu. destruct (v =? 2); [|destruct (v =? 1); run_reads].
  apply (returns_loop (fun o => 0 <= o) (fun o => Z.to_nat (zlen data - o)));
    [|lia|unfold zlen; lia].
  intros offset Ho. unfold cause_body. destruct (Z.leb_spec (offset + 4) (zlen data)); [|done].
  run_step. apply returns_idx; [lia|]. intros b _.
  run_step. apply returns_rd_be; [lia|]. intros n _ Hn.
  destruct (_ && _) eqn:E; [|cbn; lia]. run_step. apply returns_idx; [lia|]. intros c _. apply Hu.
Qed.

(** ** A packet adds at most one transaction *)

Lemma parseInnerTransport_returns p d tx :
  returns (parseInnerTransport p d tx) (fun tx' =>
    InnerSrcIP tx' = InnerSrcIP tx /\ InnerPacketCount tx' = InnerPacketCount tx).
Proof. unfold parseInnerTransport. run_reads. Qed.

Lemma parseInnerPacket_returns d :
  returns (parseInnerPacket d no_inner) (fun tx => InnerPacketCount tx = 0).
Proof.
  unfold parseInnerPacket, parseInnerIPv4, parseInnerIPv6. run_reads.
  all: unfold slice_from; run_reads.
  all: eapply returns_weaken; [apply parseInnerTransport_returns|]; by intros tx [_ ->].
Qed.

Lemma parse_header_returns pkt :
  8 <= zlen (Payload pkt) ->
  returns (parse_header pkt) (fun o =>
    match o with
    | Some (hdr, n) => (n = 8 \/ n = 12 /\ 12 <= zlen (Payload pkt)) /\
        (h_Version hdr = 1 /\ h_IsGTPU hdr = is_gtpu_port pkt
         \/ h_Version hdr = 2 /\ h_IsGTPU hdr = false)
    | None => True
    end).
Proof.
  intros H. unfold parse_header. run_reads; cbn [h_Version h_IsGTPU]; split; lia || (cbn; auto with lia).
Qed.

(** What a packet can do to the decoder. *)
Definition inner_count (tx : gtpTransaction) : Z :=
  if String.eqb (InnerSrcIP (t_inner tx)) "" then 0 else 1.

Definition tx_of (pkt : Packet) (tx : gtpTransaction) : Prop :=
  t_SrcIP tx = SrcIP pkt /\ t_DstIP tx = DstIP pkt /\ t_Timestamp tx = Timestamp pkt /\
  InnerPacketCount (t_inner tx) = inner_count tx /\
  t_IsError tx = negb (CauseCode tx =? 0) && negb (CauseCode tx =? 16).

Definition adds_one (d : Decoder) (pkt : Packet) (d' : Decoder) : Prop :=
  d' = d \/ exists tx, completed d' = completed d ++ [tx] /\
    tunnelCount d' = tunnelCount d + inner_count tx /\ tx_of pkt tx.

Lemma parseGTP_returns d pkt :
  8 <= zlen (Payload pkt) ->
  returns (parseGTP d pkt) (fun r =>
    let '(d', pkt', o) := r in
    Payload pkt' = Payload pkt /\ SrcIP pkt' = SrcIP pkt /\ DstIP pkt' = DstIP pkt /\
    adds_one d pkt d' /\ (o = None -> d' = d /\ pkt' = pkt)).
Proof.
  intros H. unfold parseGTP. cbv zeta.
  eapply returns_bind_weak; [by apply parse_header_returns|].
  intros [[hdr n]|]; [|intros _; cbn; split_and!; auto; by left]. intros [Hn Hv].
  eapply returns_bind_weak with (P := fun c => 0 <= c < 256).
  { destruct (_ <? _) eqn:?; [|done]. unfold slice_from. run_step. apply returns_slice; [lia|].
    apply extractCauseCode_returns. }
  intros cause _.
  eapply returns_bind_weak with (P := fun _ => True).
  { destruct (_ && _) eqn:?; [|done]. unfold slice_from. run_step. apply returns_slice; [lia|].
    destruct (_ =? 2).
    - eapply returns_bind_weak; [apply ParseGTPv2IEs_returns|done].
    - eapply returns_bind_weak; [apply extractSubscriberIEs_returns|done]. }
  intros [ies sub] _.
  eapply returns_bind_weak with (P := fun r : Z * inner =>
    InnerPacketCount (snd r) = (if String.eqb (InnerSrcIP (snd r)) "" then 0 else 1) /\
    fst r = tunnelCount d + (if String.eqb (InnerSrcIP (snd r)) "" then 0 else 1)).
  { destruct (_ && _ && _) eqn:?; [|cbn; lia]. unfold slice_from. run_step. apply returns_slice; [lia|].
    eapply returns_bind_weak; [apply parseInnerPacket_returns|]. intros tx Hc. cbv beta in Hc.
    destruct (String.eqb (InnerSrcIP tx) "") eqn:E;
      cbn [negb returns fst snd InnerSrcIP InnerPacketCount]; rewrite E; lia. }
  intros [k inn] [Hc Hk]. cbn [returns fst snd] in *. split_and!; try done.
  right. eexists. split_and!; [reflexivity|done|]. split_and!; done.
Qed.

Lemma gtp_admits_returns pkt : returns (admits pkt) (fun b => b = true -> 8 <= zlen (Payload pkt)).
Proof.
  unfold admits. destruct (negb _); [done|]. destruct (Z.ltb_spec (zlen (Payload pkt)) 8); [done|].
  destruct (isGTPPort _ _); [by cbn|]. unfold IsGTP. run_reads.
  apply returns_word16; [lia|]. by intros v; cbn.
Qed.

Lemma gtp_HandlePacket_returns d pkt :
  returns (HandlePacket d pkt) (fun r => adds_one d pkt (fst r) /\ Payload (snd r) = Payload pkt).
Proof.
  unfold HandlePacket. eapply returns_bind_weak; [apply gtp_admits_returns|]. intros b Hb.
  destruct b; cbn [negb]; [|cbn; split; [by left|done]].
  eapply returns_bind_weak; [apply parseGTP_returns, Hb; done|].
  intros [[d' pkt'] o] (? & _ & _ & ? & _). by cbn.
Qed.

Lemma gtp_HandlePacketLive_returns d pkt :
  returns (HandlePacketLive d pkt) (fun r => adds_one d pkt (fst r) /\
    (snd r = None -> fst r = d)).
Proof.
  unfold HandlePacketLive. eapply returns_bind_weak; [apply gtp_admits_returns|]. intros b Hb.
  destruct b; cbn [negb]; [|cbn; split; [by left|done]].
  eapply returns_bind_weak; [apply parseGTP_returns, Hb; done|].
  intros [[d' pkt'] [[hdr c]|]] (? & _ & _ & ? & Hn); [|by destruct (Hn eq_refl) as [-> ->]; cbn].
  cbv zeta. destruct (last _); cbn; by split.
Qed.

(** ** Values on the wire: digits, labels, networks *)

Lemma decodeBCD_encode ds : Forall digit ds -> decodeBCD (encode_bcd ds) = digits ds.
Proof. apply bcd_text_encode. Qed.

Definition encode_label (l : list byte) : list byte := byte_of (zlen l) :: l.
Definition encode_apn (labels : list (list byte)) : list byte := mjoin (encode_label <$> labels).
Definition label_ok (l : list byte) : Prop := 0 < zlen l < 256.

Lemma apn_body_label data offset l parts :
  label_ok l -> holds_at data offset (encode_label l) ->
  apn_body data (offset, parts) = Ok (Next (offset + zlen (encode_label l), parts ++ [gostr l])).
Proof.
  unfold label_ok. intros Hl Hat. pose proof (holds_at_bound _ _ _ Hat) as Hb.
  unfold encode_label in *. rewrite zlen_cons in *. apply holds_at_cons in Hat as [Hlen Hat].
  unfold apn_body. replace (offset <? zlen data) with true by lia. rewrite Hlen.
  cbn [mbind res_bind]. cbv zeta. rewrite u8_byte_of by lia.
  replace (_ || _) with false by lia.
  rewrite (holds_at_slice _ _ _ Hat). cbn [mbind res_bind]. do 3 f_equal. lia.
Qed.

Lemma apn_loop_labels data offset labels parts fuel :
  Forall label_ok labels -> holds_at data offset (encode_apn labels) ->
  offset + zlen (encode_apn labels) = zlen data ->
  loop (length labels + S fuel) (apn_body data) (offset, parts) = Ok (parts ++ (gostr <$> labels)).
Proof.
  intros Hl. revert offset parts. induction Hl as [|l labels Hl _ IH]; intros offset parts Hat Hend.
  - cbn [length Nat.add loop apn_body]. change (zlen (encode_apn [])) with 0 in Hend.
    replace (offset <? zlen data) with false by lia. cbn. by rewrite app_nil_r.
  - change (encode_apn (l :: labels)) with (encode_label l ++ encode_apn labels) in *.
    apply holds_at_app in Hat as [H1 H2]. rewrite zlen_app in Hend.
    cbn [length Nat.add loop]. rewrite (apn_body_label _ _ _ _ Hl H1). cbn [mbind res_bind].
    rewrite IH by (done || lia). by rewrite <-app_assoc.
Qed.

Lemma decodeAPN_encode labels :
  Forall label_ok labels -> decodeAPN (encode_apn labels) = Ok (join "." (gostr <$> labels)).
Proof.
  intros Hl. unfold decodeAPN.
  assert (length labels <= length (encode_apn labels))%nat.
  { clear Hl. induction labels as [|l labels IH]; [done|].
    change (encode_apn (l :: labels)) with (encode_label l ++ encode_apn labels).
    rewrite length_app. cbn [length encode_label]. lia. }
  replace (S (length (encode_apn labels)))
    with (length labels + S (length (encode_apn labels) - length labels))%nat by lia.
  rewrite (apn_loop_labels _ 0 labels []) by (done || apply holds_at_self || lia). done.
Qed.

Definition show_plmn (p : plmn) : string :=
  (fmt_d (mcc1 p) +:+ fmt_d (mcc2 p) +:+ fmt_d (mcc3 p)) +:+ "-" +:+ fmt_d (mnc1 p) +:+
  match mnc3 p with Some d => fmt_d (mnc2 p) +:+ fmt_d d | None => fmt_d (mnc2 p) end.

Lemma parseServingNetwork_encode p :
  plmn_ok p -> parseServingNetwork (encode_plmn p) = Ok (show_plmn p).
Proof.
  intros (H1 & H2 & H3 & H4 & H5 & H6). unfold digit in *.
  assert (0 <= default 15 (mnc3 p) < 16) by (destruct (mnc3 p); cbn in *; lia).
  assert (forall a b c : byte, idx [a; b; c] 0 = Ok a /\ idx [a; b; c] 1 = Ok b /\ idx [a; b; c] 2 = Ok c)
    as Hidx by done.
  unfold parseServingNetwork, encode_plmn.
  rewrite !zlen_cons, zlen_nil. change (1 + (1 + (1 + 0)) <? 3) with false.
  destruct (Hidx (nibbles (mcc2 p) (mcc1 p)) (nibbles (default 15 (mnc3 p)) (mcc3 p))
    (nibbles (mnc2 p) (mnc1 p))) as (-> & -> & ->).
  cbn [mbind res_bind]. cbv zeta. rewrite !nibbles_lo, !nibbles_hi by lia. unfold show_plmn.
  destruct (mnc3 p) as [d|]; cbn [default]; [|done].
  unfold id. by replace (d =? 15) with false by (cbn in *; unfold id in *; lia).
Qed.

(** ** Values on the wire: tunnels and bearers *)

Record wire_fteid := {
  w_if : Z; w_teid : Z; w_v4 : option (list byte); w_v6 : option (list byte);
}.
Definition present {A} (o : option A) : bool := match o with Some _ => true | None => false end.
Definition fteid_flags (f : wire_fteid) : Z :=
  (if present (w_v4 f) then 0x80 else 0) + (if present (w_v6 f) then 0x40 else 0) + w_if f.
Definition opt_bytes (o : option (list byte)) : list byte := default [] o.
Definition encode_fteid (f : wire_fteid) : list byte :=
  byte_of (fteid_flags f) :: be_put 4 (w_teid f) ++ opt_bytes (w_v4 f) ++ opt_bytes (w_v6 f).

Definition fteid_ok (f : wire_fteid) : Prop :=
  0 <= w_if f < 64 /\ 0 <= w_teid f < 2 ^ 32 /\
  match w_v4 f with Some a => zlen a = 4 | None => True end /\
  match w_v6 f with Some a => zlen a = 16 | None => True end.

Definition show_ip (o : option (list byte)) : string :=
  match o with Some a => ip_string a | None => "" end.
Definition fteid_of (f : wire_fteid) : FTEIDInfo :=
  {| InterfaceType := w_if f; InterfaceName := name_or FTEIDInterfaceNames "Interface_" (w_if f);
     TEID := w_teid f; IPv4 := show_ip (w_v4 f); IPv6 := show_ip (w_v6 f) |}.

Lemma fteid_flags_bits (v4 v6 : bool) t : 0 <= t < 64 ->
  let x := (if v4 then 0x80 else 0) + (if v6 then 0x40 else 0) + t in
  negb (Z.land x 0x80 =? 0) = v4 /\ negb (Z.land x 0x40 =? 0) = v6 /\ Z.land x 0x3F = t /\
  0 <= x < 256.
Proof.
  intros Ht x. split_and!; [| | |unfold x; destruct v4, v6; lia..].
  all: assert (exists k, t = Z.of_nat k /\ (k < 64)%nat) as (k & E & Hk)
         by (exists (Z.to_nat t); lia).
  all: unfold x; rewrite E; clear x E Ht t; do 64 (destruct k as [|k]; [by destruct v4, v6|]); lia.
Qed.

Lemma parseFTEID_encode f : fteid_ok f -> parseFTEID (encode_fteid f) = Ok (Some (fteid_of f)).
Proof.
  intros (Hi & Ht & H4 & H6).
  destruct (fteid_flags_bits (present (w_v4 f)) (present (w_v6 f)) (w_if f) Hi) as (B4 & B6 & Bi & Bx).
  fold (fteid_flags f) in *.
  pose proof (holds_at_self (encode_fteid f)) as Hat. unfold parseFTEID.
  assert (zlen (encode_fteid f) = 5 + zlen (opt_bytes (w_v4 f)) + zlen (opt_bytes (w_v6 f))) as Hlen.
  { unfold encode_fteid. rewrite zlen_cons, !zlen_app, zlen_be_put. lia. }
  set (data := encode_fteid f) in *. unfold encode_fteid in Hat.
  pose proof (zlen_nonneg (opt_bytes (w_v4 f))). pose proof (zlen_nonneg (opt_bytes (w_v6 f))).
  replace (zlen data <? 5) with false by lia.
  apply holds_at_cons in Hat as [Hflag Hat]. apply holds_at_app in Hat as [Hteid Hat].
  apply holds_at_app in Hat as [Ha4 Ha6]. rewrite zlen_be_put in *.
  change (0 + 1 + Z.of_nat 4) with 5 in *. change (0 + 1) with 1 in *.
  rewrite Hflag, (holds_at_put _ _ _ _ Hteid) by done. cbn [mbind res_bind]. cbv zeta.
  rewrite u8_byte_of by done. rewrite B4, B6, Bi. unfold fteid_of.
  destruct (w_v4 f) as [a4|], (w_v6 f) as [a6|]; cbn [present opt_bytes from_option andb show_ip] in *;
    unfold id in *; rewrite ?zlen_nil in *.
  all: rewrite ?H4, ?H6 in *; rewrite ?Hlen; cbn -[ip_string slice name_or FTEIDInterfaceNames].
  all: apply holds_at_slice in Ha4, Ha6; rewrite ?H4, ?H6 in *; change (5 + 4) with 9 in *;
    change (9 + 16) with 25 in *; change (5 + 0 + 16) with 21 in *; change (5 + 0) with 5 in *.
  all: rewrite ?Ha4; cbn [mbind res_bind]; change (5 + 16) with 21 in *; rewrite ?Ha6; done.
Qed.

Record wire_qos := { w_arp : Z; w_qci : Z; w_mbr_ul : Z; w_mbr_dl : Z; w_gbr_ul : Z; w_gbr_dl : Z }.
Definition encode_qos (q : wire_qos) : list byte :=
  byte_of (w_arp q) :: byte_of (w_qci q) :: be_put 5 (w_mbr_ul q) ++ be_put 5 (w_mbr_dl q)
  ++ be_put 5 (w_gbr_ul q) ++ be_put 5 (w_gbr_dl q).
Definition rate (z : Z) : Prop := 0 <= z < 256 ^ 5.
Definition qos_ok (q : wire_qos) : Prop :=
  0 <= w_qci q < 256 /\ rate (w_mbr_ul q) /\ rate (w_mbr_dl q) /\ rate (w_gbr_ul q)
  /\ rate (w_gbr_dl q).
Definition qos_of (q : wire_qos) : QoSInfo :=
  {| QCI := w_qci q; QCIName := name_or QCINames "QCI_" (w_qci q); MBRUplink := w_mbr_ul q;
     MBRDownlink := w_mbr_dl q; GBRUplink := w_gbr_ul q; GBRDownlink := w_gbr_dl q |}.

Lemma decode5ByteRate_put z : rate z -> decode5ByteRate (be_put 5 z) = Ok z.
Proof.
  intros Hz. pose proof (be_be_put 5 z Hz) as Hbe. pose proof (length_be_put 5 z) as Hlen.
  unfold decode5ByteRate. revert Hbe Hlen. generalize (be_put 5 z) as s.
  intros [|b0 [|b1 [|b2 [|b3 [|b4 [|? ?]]]]]]; try done. intros <- _.
  unfold be. cbn [foldl]. rewrite Z.shiftl_0_l, Z.lor_0_l, !Z.shiftl_lor, !Z.shiftl_shiftl by lia.
  done.
Qed.

Lemma parseBearerQoS_encode q :
  qos_ok q -> parseBearerQoS (encode_qos q) = Ok (Some (qos_of q)).
Proof.
  intros (Hq & H1 & H2 & H3 & H4).
  pose proof (holds_at_self (encode_qos q)) as Hat.
  assert (zlen (encode_qos q) = 22) as Hlen.
  { unfold encode_qos. by rewrite !zlen_cons, !zlen_app, !zlen_be_put. }
  unfold parseBearerQoS. rewrite Hlen. set (data := encode_qos q) in *. unfold encode_qos in Hat.
  apply holds_at_cons in Hat as [_ Hat]. apply holds_at_cons in Hat as [Hqci Hat].
  apply holds_at_app in Hat as [Hat1 Hat]. apply holds_at_app in Hat as [Hat2 Hat].
  apply holds_at_app in Hat as [Hat3 Hat4].
  apply holds_at_slice in Hat1, Hat2, Hat3, Hat4. rewrite !zlen_be_put in *.
  change (0 + 1 + 1) with 2 in *. change (Z.of_nat 5) with 5 in *. change (2 + 5) with 7 in *.
  change (7 + 5) with 12 in *. change (12 + 5) with 17 in *. change (17 + 5) with 22 in *.
  change (0 + 1) with 1 in *. change (22 <? 22) with false.
  rewrite Hqci, Hat1, Hat2, Hat3, Hat4. cbn [mbind res_bind]. rewrite !decode5ByteRate_put by done.
  cbn [mbind res_bind]. cbv zeta. by rewrite u8_byte_of.
Qed.

(** ** Values on the wire: the user's location *)

(** The identities a location may hold, in the order of their flags: cell,
    service area and routing area (seven bytes each), tracking area, E-UTRAN
    cell, and those of the upper flags. *)
Record wire_uli := {
  u_cgi : option (list byte); u_sai : option (list byte); u_rai : option (list byte);
  u_tai : option (plmn * Z); u_ecgi : option (plmn * Z); u_flags : Z; u_more : list byte;
}.
Definition uli_flags (c s r t e : bool) (hi : Z) : Z :=
  (if c then 1 else 0) + (if s then 2 else 0) + (if r then 4 else 0) + (if t then 8 else 0) + (if e then 16 else 0) + 32 * hi.
Definition encode_tai (o : option (plmn * Z)) : list byte :=
  match o with Some (p, tac) => encode_plmn p ++ be_put 2 tac | None => [] end.
Definition encode_ecgi (o : option (plmn * Z)) : list byte :=
  match o with Some (p, eci) => encode_plmn p ++ be_put 4 eci | None => [] end.
Definition encode_uli (u : wire_uli) : list byte :=
  byte_of (uli_flags (present (u_cgi u)) (present (u_sai u)) (present (u_rai u)) (present (u_tai u)) (present (u_ecgi u)) (u_flags u))
  :: opt_bytes (u_cgi u) ++ opt_bytes (u_sai u) ++ opt_bytes (u_rai u) ++ encode_tai (u_tai u) ++ encode_ecgi (u_ecgi u) ++ u_more u.
Definition seven (o : option (list byte)) : Prop := match o with Some a => zlen a = 7 | None => True end.
Definition area_ok (bound : Z) (o : option (plmn * Z)) : Prop :=
  match o with Some (p, z) => plmn_ok p /\ 0 <= z < bound | None => True end.
Definition uli_ok (u : wire_uli) : Prop :=
  seven (u_cgi u) /\ seven (u_sai u) /\ seven (u_rai u) /\ area_ok (2 ^ 16) (u_tai u) /\ area_ok (2 ^ 28) (u_ecgi u) /\ 0 <= u_flags u < 8.
Definition show_area (tag : string) (o : option (plmn * Z)) (old : string) : string :=
  match o with Some (p, z) => show_plmn p +:+ tag +:+ fmt_d z | None => old end.
Definition uli_means (u : wire_uli) (i : GTPv2IESet) : GTPv2IESet :=
  set_location {| TAI := show_area "-TAC:" (u_tai u) (TAI (i_location i));
                  ECGI := show_area "-ECI:" (u_ecgi u) (ECGI (i_location i)) |} i.

Lemma uli_flags_bits c s r t e hi : 0 <= hi < 8 ->
  let x := uli_flags c s r t e hi in
  negb (Z.land x 1 =? 0) = c /\ negb (Z.land x 2 =? 0) = s /\ negb (Z.land x 4 =? 0) = r /\
  negb (Z.land x 8 =? 0) = t /\ negb (Z.land x 16 =? 0) = e /\ 0 <= x < 256.
Proof.
  intros Hhi. assert (hi = 0 \/ hi = 1 \/ hi = 2 \/ hi = 3 \/ hi = 4 \/ hi = 5 \/ hi = 6 \/ hi = 7) as Hc by lia.
  unfold uli_flags. destruct c, s, r, t, e; repeat (destruct Hc as [->|Hc]; [by split_and!|]); subst hi; by split_and!.
Qed.

Lemma seven_offset o n : seven o -> (if present o then n + 7 else n) = n + zlen (opt_bytes o).
Proof. destruct o; cbn [seven present opt_bytes from_option]; unfold id; [by intros ->|intros _; change (zlen []) with 0; lia]. Qed.

Lemma area_read data i n p z :
  holds_at data i (encode_plmn p ++ be_put n z) -> plmn_ok p -> 0 <= z < 256 ^ Z.of_nat n ->
  slice data i (i + 3) = Ok (encode_plmn p) /\ parseServingNetwork (encode_plmn p) = Ok (show_plmn p) /\
  rd_be n data (i + 3) = Ok z /\ i + (3 + Z.of_nat n) <= zlen data.
Proof.
  intros Hat Hp Hz. pose proof (holds_at_bound _ _ _ Hat) as Hb. rewrite zlen_app, zlen_be_put in Hb.
  apply holds_at_app in Hat as [H1 H2]. change (zlen (encode_plmn p)) with 3 in *. apply holds_at_slice in H1.
  split_and!; [exact H1|by apply parseServingNetwork_encode|by apply (holds_at_put _ _ _ _ H2)|lia].
Qed.

Lemma parseULI_encode u i : uli_ok u -> parseULI (encode_uli u) i = Ok (uli_means u i).
Proof.
  intros (Hc & Hs & Hr & Ht & He & Hf). pose proof (holds_at_self (encode_uli u)) as Hat. unfold parseULI.
  destruct (uli_flags_bits (present (u_cgi u)) (present (u_sai u)) (present (u_rai u)) (present (u_tai u)) (present (u_ecgi u)) (u_flags u) Hf)
    as (Bc & Bs & Br & Bt & Be & Bx).
  set (data := encode_uli u) in *. unfold encode_uli in Hat.
  assert (1 <= zlen data) as Hb by (unfold data, encode_uli; rewrite zlen_cons; set (l := _ ++ _); pose proof (zlen_nonneg l); lia).
  rewrite (proj2 (Z.ltb_ge (zlen data) 1)) by lia.
  apply holds_at_cons in Hat as [-> Hat]. cbn [mbind res_bind]. cbv zeta. rewrite u8_byte_of by done.
  rewrite Bc, Bs, Br, Bt, Be, !seven_offset by done. change (0 + 1) with 1 in Hat.
  do 3 apply holds_at_app in Hat as [_ Hat].
  set (off := 1 + zlen (opt_bytes (u_cgi u)) + zlen (opt_bytes (u_sai u)) + zlen (opt_bytes (u_rai u))) in *. clearbody off.
  apply holds_at_app in Hat as [Hat1 Hat]. apply holds_at_app in Hat as [Hat2 _]. unfold uli_means.
  assert ((ies ← (if present (u_tai u) && (off + 5 <=? zlen data) then
        s ← slice data off (off + 3); plmn ← parseServingNetwork s; tac ← rd_be 2 data (off + 3);
        Ok (set_location {| TAI := plmn +:+ "-TAC:" +:+ fmt_d tac; ECGI := ECGI (i_location i) |} i)
      else Ok i); Ok ies) = Ok (set_location {| TAI := show_area "-TAC:" (u_tai u) (TAI (i_location i)); ECGI := ECGI (i_location i) |} i)
    /\ (if present (u_tai u) then off + 5 else off) = off + zlen (encode_tai (u_tai u))) as [H1 ->].
  { destruct (u_tai u) as [[p tac]|]; cbn [present andb encode_tai show_area area_ok] in *; [|split; [by destruct i as [? ? ? [] ? ? ? ? ?]|change (zlen []) with 0; lia]].
    destruct Ht as [Hp Hz]. destruct (area_read _ _ _ _ _ Hat1 Hp Hz) as (E1 & E2 & E3 & E4).
    rewrite (proj2 (Z.leb_le _ _)) by lia. rewrite E1. cbn [mbind res_bind]. rewrite E2. cbn [mbind res_bind]. rewrite E3.
    split; [done|]. rewrite zlen_app, zlen_be_put. change (zlen (encode_plmn p)) with 3. lia. }
  match type of H1 with (ies ← ?e; _) = _ => assert (e = Ok (set_location {| TAI := show_area "-TAC:" (u_tai u) (TAI (i_location i)); ECGI := ECGI (i_location i) |} i)) as -> end.
  { apply bind_Ok in H1 as (x & -> & E). exact E. }
  cbn [mbind res_bind]. clear H1. destruct (u_ecgi u) as [[p eci]|]; cbn [present andb encode_ecgi show_area area_ok] in *; [|done].
  destruct He as [Hp Hz]. assert (0 <= eci < 256 ^ Z.of_nat 4) as Hz' by (change (256 ^ Z.of_nat 4) with (2 ^ 32); lia).
  destruct (area_read _ _ _ _ _ Hat2 Hp Hz') as (E1 & E2 & E3 & E4). change (3 + Z.of_nat 4) with 7 in E4.
  rewrite (proj2 (Z.leb_le _ _)) by lia. rewrite E1. cbn [mbind res_bind]. rewrite E2. cbn [mbind res_bind]. rewrite E3. cbn [mbind res_bind].
  change 0x0FFFFFFF with (Z.ones 28). by rewrite Z.land_ones, Z.mod_small by lia.
Qed.

(** ** The elements of a message, as a sender means them *)

Inductive bearer_element :=
  | BEbi (id : Z)
  | BQos (q : wire_qos)
  | BFteid (f : wire_fteid)
  | BCause (c : Z) (more : list byte)
  | BCharging (c : Z)
  | BOther (type : Z) (data : list byte).

Definition bearer_wire (e : bearer_element) : Z * list byte :=
  match e with
  | BEbi id => (IETypeEBI, [byte_of id])
  | BQos q => (IETypeBearerQoS, encode_qos q)
  | BFteid f => (IETypeFTEID, encode_fteid f)
  | BCause c more => (IETypeCause, byte_of c :: more)
  | BCharging c => (IETypeChargingID, be_put 4 c)
  | BOther type data => (type, data)
  end.

Definition bearer_element_ok (e : bearer_element) : Prop :=
  match e with
  | BEbi id => 0 <= id < 16
  | BQos q => qos_ok q
  | BFteid f => fteid_ok f
  | BCause c more => 0 <= c < 256 /\ zlen more < 65535
  | BCharging c => 0 <= c < 2 ^ 32
  | BOther type data => 0 <= type < 256 /\ zlen data < 65536 /\
      type ∉ [IETypeEBI; IETypeBearerQoS; IETypeFTEID; IETypeCause; IETypeChargingID]
  end.

Definition bearer_means (b : BearerInfo) (e : bearer_element) : BearerInfo :=
  match e with
  | BEbi id => set_ebi id b
  | BQos q => set_qos (qos_of q) b
  | BFteid f =>
    {| EBI := EBI b; b_QoS := b_QoS b; b_Cause := b_Cause b; b_ChargingID := b_ChargingID b;
       b_FTEIDs := b_FTEIDs b ++ [fteid_of f] |}
  | BCause c _ =>
    {| EBI := EBI b; b_QoS := b_QoS b; b_Cause := c; b_ChargingID := b_ChargingID b;
       b_FTEIDs := b_FTEIDs b |}
  | BCharging c =>
    {| EBI := EBI b; b_QoS := b_QoS b; b_Cause := b_Cause b; b_ChargingID := c;
       b_FTEIDs := b_FTEIDs b |}
  | BOther _ _ => b
  end.

Definition encode_bearer (l : list bearer_element) : list byte := encode_ies (bearer_wire <$> l).

(** The kinds of element ParseGTPv2IEs reads, and the rest. A PDN address
    is of IPv4, of IPv6 in full (the length of the prefix and 16 bytes) or as
    the prefix length and eight bytes, of both, or of another type. *)
Inductive element :=
  | EImsi (ds : list Z)
  | EMsisdn (ds : list Z)
  | EMei (ds : list Z)
  | EApn (labels : list (list byte))
  | ECause (c : Z) (more : list byte)
  | ERecovery (r : Z)
  | EAmbr (ul dl : Z)
  | EEbi (id : Z)
  | EPaa4 (address : list byte)
  | EPaa6 (prefix : Z) (address : list byte)
  | EPaa6Short (prefix : Z) (interface : list byte)
  | EPaa46 (prefix : Z) (address6 address4 : list byte)
  | EPaaOther (type : Z) (data : list byte)
  | EPdn (type : Z)
  | EQos (q : wire_qos)
  | EUli (u : wire_uli)
  | ERat (rat : Z)
  | ENetwork (p : plmn)
  | EFteid (f : wire_fteid)
  | EBearer (l : list bearer_element)
  | ECharging (c : Z)
  | EOther (type : Z) (data : list byte).

Definition element_wire (e : element) : Z * list byte :=
  match e with
  | EImsi ds => (IETypeIMSI, encode_bcd ds)
  | EMsisdn ds => (IETypeMSISDN, encode_bcd ds)
  | EMei ds => (IETypeMEI, encode_bcd ds)
  | EApn labels => (IETypeAPN, encode_apn labels)
  | ECause c more => (IETypeCause, byte_of c :: more)
  | ERecovery r => (IETypeRecovery, [byte_of r])
  | EAmbr ul dl => (IETypeAMBR, be_put 4 ul ++ be_put 4 dl)
  | EEbi id => (IETypeEBI, [byte_of id])
  | EPaa4 address => (IETypePAA, byte_of 1 :: address)
  | EPaa6 prefix address => (IETypePAA, byte_of 2 :: byte_of prefix :: address)
  | EPaa6Short prefix interface => (IETypePAA, byte_of 2 :: byte_of prefix :: interface)
  | EPaa46 prefix address6 address4 => (IETypePAA, byte_of 3 :: byte_of prefix :: address6 ++ address4)
  | EPaaOther type data => (IETypePAA, byte_of type :: data)
  | EPdn type => (IETypePDNType, [byte_of type])
  | EQos q => (IETypeBearerQoS, encode_qos q)
  | EUli u => (IETypeULI, encode_uli u)
  | ERat rat => (IETypeRATType, [byte_of rat])
  | ENetwork p => (IETypeServingNetwork, encode_plmn p)
  | EFteid f => (IETypeFTEID, encode_fteid f)
  | EBearer l => (IETypeBearerContext, encode_bearer l)
  | ECharging c => (IETypeChargingID, be_put 4 c)
  | EOther type data => (type, data)
  end.

Definition known_ies : list Z :=
  [IETypeIMSI; IETypeMSISDN; IETypeMEI; IETypeAPN; IETypeCause; IETypeRecovery; IETypeAMBR;
   IETypeEBI; IETypePAA; IETypePDNType; IETypeBearerQoS; IETypeRATType; IETypeServingNetwork;
   IETypeULI; IETypeFTEID; IETypeBearerContext; IETypeChargingID].

Definition element_ok (e : element) : Prop :=
  zlen (snd (element_wire e)) < 65536 /\
  match e with
  | EImsi ds | EMsisdn ds | EMei ds => Forall digit ds
  | EApn labels => Forall label_ok labels
  | ECause c _ | ERecovery c | ERat c => 0 <= c < 256
  | EEbi id => 0 <= id < 16
  | EPaa6 prefix address => 0 <= prefix < 256 /\ zlen address = 16
  | EPaa6Short prefix interface => 0 <= prefix < 256 /\ zlen interface = 8
  | EPaa46 prefix address6 address4 => 0 <= prefix < 256 /\ zlen address6 = 16 /\ zlen address4 = 4
  | EPaaOther type _ => type ∈ [0; 4; 5; 6; 7]
  | EPdn type => 0 <= type < 8
  | EQos q => qos_ok q
  | EUli u => uli_ok u
  | EAmbr ul dl => 0 <= ul < 2 ^ 32 /\ 0 <= dl < 2 ^ 32
  | EPaa4 address => zlen address = 4
  | ENetwork p => plmn_ok p
  | EFteid f => fteid_ok f
  | EBearer l => Forall bearer_element_ok l
  | ECharging c => 0 <= c < 2 ^ 32
  | EOther type data => 0 <= type < 256 /\ type ∉ known_ies
  end.

(** What the elements mean to the parser. Three of them are not what their
    sender meant: an IPv6 address starts with the length of its prefix and
    loses its last byte, the address shown of an IPv4v6 pair is the bytes 7 to 10 of
    the IPv6 address, and a QoS before any bearer is dropped. *)
Definition means (i : GTPv2IESet) (e : element) : GTPv2IESet :=
  match e with
  | EImsi ds => on_identity (fun s => {| IMSI := digits ds; MSISDN := MSISDN s; MEI := MEI s |}) i
  | EMsisdn ds => on_identity (fun s => {| IMSI := IMSI s; MSISDN := digits ds; MEI := MEI s |}) i
  | EMei ds => on_identity (fun s => {| IMSI := IMSI s; MSISDN := MSISDN s; MEI := digits ds |}) i
  | EApn labels =>
    on_session (fun s => {| APN := join "." (gostr <$> labels); PDNType := PDNType s;
      PDNAddress := PDNAddress s; ServingMCCMNC := ServingMCCMNC s; RATType := RATType s |}) i
  | ECause c _ => set_other c (Recovery i) (ChargingID i) i
  | ERecovery r => set_other (Cause i) r (ChargingID i) i
  | EAmbr ul dl => set_bandwidth {| AMBRUplink := ul; AMBRDownlink := dl |} i
  | EPaa4 address =>
    on_session (set_pdn_address (dotted address)) (on_session (set_pdn_type "IPv4") i)
  | EPaa6 prefix address =>
    on_session (set_pdn_address (ip_string (byte_of prefix :: take 15 address))) (on_session (set_pdn_type "IPv6") i)
  | EPaa6Short prefix _ =>
    on_session (set_pdn_address ("::/" +:+ fmt_d prefix)) (on_session (set_pdn_type "IPv6") i)
  | EPaa46 _ address6 _ =>
    on_session (set_pdn_address (dotted (take 4 (drop 7 address6)))) (on_session (set_pdn_type "IPv4v6") i)
  | EPaaOther type _ => on_session (set_pdn_type (pdnTypeName type)) i
  | EPdn type => on_session (set_pdn_type (pdnTypeName type)) i
  | EEbi id =>
    if decide (Bearers i = []) then set_tunnels [set_ebi id no_bearer] (FTEIDs i) i else i
  | EQos q =>
    match reverse (Bearers i) with
    | b :: bs => set_tunnels (reverse bs ++ [set_qos (qos_of q) b]) (FTEIDs i) i
    | [] => i
    end
  | EUli u => uli_means u i
  | ERat rat =>
    on_session (fun s => {| APN := APN s; PDNType := PDNType s; PDNAddress := PDNAddress s;
      ServingMCCMNC := ServingMCCMNC s; RATType := name_or RATTypeNames "RAT_" rat |}) i
  | ENetwork p =>
    on_session (fun s => {| APN := APN s; PDNType := PDNType s; PDNAddress := PDNAddress s;
      ServingMCCMNC := show_plmn p; RATType := RATType s |}) i
  | EFteid f => set_tunnels (Bearers i) (FTEIDs i ++ [fteid_of f]) i
  | EBearer l => set_tunnels (Bearers i ++ [foldl bearer_means no_bearer l]) (FTEIDs i) i
  | ECharging c => set_other (Cause i) (Recovery i) c i
  | EOther _ _ => i
  end.

Lemma first_byte_byte z l : 0 <= z < 256 -> first_byte (byte_of z :: l) = Ok (Some z).
Proof.
  intros. unfold first_byte. pose proof (zlen_nonneg l). rewrite zlen_cons.
  replace (1 <=? 1 + zlen l) with true by lia.
  rewrite (idx_lookup _ 0 (byte_of z)) by done. cbn [mbind res_bind]. by rewrite u8_byte_of.
Qed.

Lemma rd_be_put n z : 0 <= z < 256 ^ Z.of_nat n -> rd_be n (be_put n z) 0 = Ok z.
Proof. intros. apply holds_at_put; [apply holds_at_self|done]. Qed.

Lemma bearer_ie_wire b e :
  bearer_element_ok e -> step_ie bearer_ie b (bearer_wire e) = Ok (bearer_means b e).
Proof.
  destruct e as [id|q|f|c more|c|t d]; intros Hok; cbn [bearer_element_ok] in Hok;
    unfold step_ie; cbn [bearer_wire fst snd]; unfold bearer_ie.
  - cbn -[first_byte Z.land]. rewrite first_byte_byte by lia. cbn [mbind res_bind bearer_means].
    change 0x0F with (Z.ones 4). rewrite Z.land_ones by lia. by rewrite Z.mod_small by lia.
  - change (IETypeBearerQoS =? IETypeEBI) with false. change (IETypeBearerQoS =? IETypeBearerQoS) with true.
    cbv iota. by rewrite parseBearerQoS_encode.
  - change (IETypeFTEID =? IETypeEBI) with false. change (IETypeFTEID =? IETypeBearerQoS) with false.
    change (IETypeFTEID =? IETypeFTEID) with true. cbv iota. by rewrite parseFTEID_encode.
  - cbn -[first_byte Z.land]. by rewrite first_byte_byte by lia.
  - cbn -[be_put rd_be zlen]. rewrite zlen_be_put, rd_be_put by done. done.
  - destruct Hok as (_ & _ & Ht). rewrite !not_elem_of_cons in Ht. destruct_and?.
    by rewrite !(proj2 (Z.eqb_neq t _)) by done.
Qed.

Lemma bearer_wire_ok e : bearer_element_ok e -> ie_ok (bearer_wire e).
Proof.
  unfold ie_ok. destruct e as [id|q|f|c more|c|t d]; cbn [bearer_wire fst snd bearer_element_ok]; intros Hok;
    try (split; [done|]); rewrite ?zlen_be_put; try done.
  - destruct Hok as (_ & _ & H4 & H6). unfold encode_fteid. rewrite zlen_cons, !zlen_app, zlen_be_put.
    destruct (w_v4 f), (w_v6 f); unfold opt_bytes; cbn [from_option]; unfold id;
      rewrite ?zlen_nil, ?H4, ?H6; first [lia|done].
  - rewrite zlen_cons. lia.
  - by destruct Hok as (? & ? & _).
Qed.

Lemma scan_wire {S E} (switch : Z -> list byte -> S -> res S) (wire : E -> Z * list byte)
    (sem : S -> E -> S) (ok : E -> Prop) es rest s :
  (forall s e, ok e -> step_ie switch s (wire e) = Ok (sem s e)) ->
  (forall e, ok e -> ie_ok (wire e)) -> Forall ok es -> zlen rest < 4 ->
  scan_ies switch (encode_ies (wire <$> es) ++ rest) s = Ok (foldl sem s es).
Proof.
  intros Hstep Hwire Hes Hrest. rewrite scan_ies_split, split_ies_encode; [|by apply Forall_fmap, (Forall_impl ok)|done].
  rewrite foldM_fmap. by apply (foldM_foldl _ _ ok).
Qed.

Lemma parseBearerContext_wire l rest :
  Forall bearer_element_ok l -> zlen rest < 4 ->
  parseBearerContext (encode_bearer l ++ rest) = Ok (foldl bearer_means no_bearer l).
Proof. intros. apply (scan_wire _ _ _ bearer_element_ok); auto using bearer_ie_wire, bearer_wire_ok. Qed.

Lemma ip_string_4 a : zlen a = 4 -> ip_string a = dotted a /\ ip_string a <> "".
Proof.
  destruct a as [|a [|b [|c [|d [|? l]]]]]; try done.
  - intros _. split; [done|]. unfold ip_string. cbn [length Nat.eqb]. unfold dotted. cbn [fmap list_fmap].
    unfold compose, join. cbn [String.concat]. by destruct (fmt_d (u8 a)).
  - rewrite !zlen_cons. pose proof (zlen_nonneg l). lia.
Qed.

(** The shapes of a PDN address. *)
Lemma parsePAA_wire i e d : element_ok e -> element_wire e = (IETypePAA, d) -> parsePAA d i = Ok (means i e).
Proof.
  intros [_ Hok] E.
  assert (match e with EOther _ _ => False | _ => True end) as Hne.
  { destruct e; try done. cbn in E. injection E as -> _. destruct Hok as [_ Hok]. apply Hok. by apply (bool_decide_unpack _). }
  destruct e; try done; cbn [element_wire] in E; injection E as <-; clear Hne; cbn [means]; unfold parsePAA.
  all: rewrite zlen_cons; match goal with |- context [1 + zlen ?l] => pose proof (zlen_nonneg l) end;
    rewrite (proj2 (Z.ltb_ge (1 + zlen _) 1)) by lia; rewrite idx_head; cbn [mbind res_bind]; cbv zeta.
  - change (u8 (byte_of 1)) with 1. change (Z.land 1 7) with 1. cbn [Z.eqb Pos.eqb]. rewrite Hok, slice_ok by (rewrite ?zlen_cons; lia).
    cbn [mbind res_bind]. unfold sub. change (Z.to_nat (5 - 1)) with 4%nat. change (Z.to_nat 1) with 1%nat. cbn [drop].
    rewrite drop_0, take_ge by (unfold zlen in Hok; lia). by rewrite (proj1 (ip_string_4 _ Hok)).
  - change (u8 (byte_of 2)) with 2. change (Z.land 2 7) with 2. cbn [Z.eqb Pos.eqb]. destruct Hok as [Hp Ha].
    rewrite !zlen_cons, Ha, slice_ok by (rewrite ?zlen_cons; lia). done.
  - change (u8 (byte_of 2)) with 2. change (Z.land 2 7) with 2. cbn [Z.eqb Pos.eqb]. destruct Hok as [Hp Ha].
    rewrite !zlen_cons, Ha, idx_second. cbn [mbind res_bind]. by rewrite u8_byte_of by done.
  - change (u8 (byte_of 3)) with 3. change (Z.land 3 7) with 3. cbn [Z.eqb Pos.eqb]. destruct Hok as (Hp & H6 & H4).
    rewrite !zlen_cons, !zlen_app, H6, H4, slice_ok by (rewrite ?zlen_cons, ?zlen_app; lia). cbn [mbind res_bind]. unfold sub.
    change (Z.to_nat (13 - 9)) with 4%nat. change (Z.to_nat 9) with (S (S 7)). cbn [drop].
    rewrite drop_app_le, take_app_le by (rewrite ?length_drop; unfold zlen in *; lia).
    assert (zlen (take 4 (drop 7 address6)) = 4) as H7 by (unfold zlen in *; rewrite length_take, length_drop; lia).
    by rewrite (proj1 (ip_string_4 _ H7)).
  - rewrite !elem_of_cons in Hok. destruct Hok as [->|[->|[->|[->|[->|[]%elem_of_nil]]]]]; done.
Qed.

Lemma qos_last_means (bs : list BearerInfo) (i : GTPv2IESet) q (k : list BearerInfo -> GTPv2IESet) :
  (if 0 <? zlen bs then k (qos_last q bs) else i) =
  match reverse bs with b :: bs => k (reverse bs ++ [set_qos q b]) | [] => i end.
Proof.
  destruct bs as [|b bs _] using rev_ind; [done|]. rewrite reverse_snoc, zlen_app.
  pose proof (zlen_nonneg bs). change (zlen [b]) with 1. rewrite (proj2 (Z.ltb_lt 0 _)) by lia. rewrite reverse_involutive.
  unfold qos_last. rewrite length_app. cbn [length]. replace (length bs + 1 - 1)%nat with (length bs + 0)%nat by lia.
  by rewrite alter_app_r.
Qed.

Lemma message_ie_wire i e :
  element_ok e -> step_ie message_ie i (element_wire e) = Ok (means i e).
Proof.
  intros Hall. pose proof (parsePAA_wire i e) as Hpaa. destruct Hall as [Hlen Hok] eqn:Hd. clear Hd.
  destruct e; cbn [element_wire fst snd step_ie means]; unfold step_ie; cbn [fst snd];
    try (change (message_ie IETypePAA ?d i) with (parsePAA d i); by apply Hpaa);
    try (cbn -[first_byte decodeBCD decodeAPN]; rewrite ?decodeBCD_encode, ?decodeAPN_encode, ?first_byte_byte
      by done; done).
  - change (message_ie IETypeAMBR ?d) with (parseAMBR d). unfold parseAMBR.
    pose proof (holds_at_self (be_put 4 ul ++ be_put 4 dl)) as [H1 H2]%holds_at_app.
    rewrite zlen_app, !zlen_be_put in *. change (0 + Z.of_nat 4) with 4 in H2.
    destruct Hok. by rewrite (holds_at_put _ _ _ _ H1), (holds_at_put _ _ _ _ H2).
  - cbn -[first_byte Z.land zlen]. rewrite first_byte_byte by lia. cbn [mbind res_bind]. change 0x0F with (Z.ones 4).
    rewrite Z.land_ones, Z.mod_small by lia. destruct (Bearers i) as [|b bs]; [done|]. rewrite decide_False by done.
    rewrite zlen_cons. pose proof (zlen_nonneg bs). by rewrite (proj2 (Z.eqb_neq _ 0)) by lia.
  - cbn -[first_byte Z.land]. rewrite first_byte_byte by lia. cbn [mbind res_bind]. change 0x07 with (Z.ones 3).
    by rewrite Z.land_ones, Z.mod_small by lia.
  - change (message_ie IETypeBearerQoS ?d i) with
      (qos ← parseBearerQoS d;
       Ok (match qos with
           | Some q => if 0 <? zlen (Bearers i) then set_tunnels (qos_last q (Bearers i)) (FTEIDs i) i else i
           | None => i
           end)).
    rewrite parseBearerQoS_encode by done. cbn [mbind res_bind]. f_equal. by apply (qos_last_means (Bearers i) i _ (fun bs => set_tunnels bs (FTEIDs i) i)).
  - change (message_ie IETypeULI ?d i) with (parseULI d i). by apply parseULI_encode.
  - change (message_ie IETypeServingNetwork ?d ?i) with
      (plmn ← parseServingNetwork d;
       Ok (on_session (fun s => {| APN := APN s; PDNType := PDNType s; PDNAddress := PDNAddress s;
         ServingMCCMNC := plmn; RATType := RATType s |}) i)).
    by rewrite parseServingNetwork_encode.
  - change (message_ie IETypeFTEID ?d i) with
      (fteid ← parseFTEID d;
       Ok (match fteid with
           | Some f => set_tunnels (Bearers i) (FTEIDs i ++ [f]) i
           | None => i
           end)).
    by rewrite parseFTEID_encode.
  - change (message_ie IETypeBearerContext ?d i) with
      (bc ← parseBearerContext d; Ok (set_tunnels (Bearers i ++ [bc]) (FTEIDs i) i)).
    rewrite <-(app_nil_r (encode_bearer l)). by rewrite parseBearerContext_wire.
  - cbn -[be_put rd_be zlen]. by rewrite zlen_be_put, rd_be_put by done.
  - destruct Hok as [_ Ht]. unfold known_ies in Ht. rewrite !not_elem_of_cons in Ht.
    destruct_and?. unfold message_ie. by rewrite !(proj2 (Z.eqb_neq type _)) by done.
Qed.

Lemma element_wire_ok e : element_ok e -> ie_ok (element_wire e).
Proof. intros [Hl Hok]. split; [|done]. destruct e; try done. by destruct Hok. Qed.

(** ** A tunnelled packet *)

(** An IPv4 packet: header words, the eight bytes up to the protocol, the
    checksum, the addresses, the options and the transport header onwards. *)
Record ipv4 := {
  v_words : Z; v_mid : list byte; v_proto : Z; v_sum : list byte; v_src : list byte;
  v_dst : list byte; v_options : list byte; v_l4 : list byte;
}.
Definition ipv4_ok (p : ipv4) : Prop :=
  5 <= v_words p < 16 /\ zlen (v_mid p) = 8 /\ 0 <= v_proto p < 256 /\ zlen (v_sum p) = 2 /\
  zlen (v_src p) = 4 /\ zlen (v_dst p) = 4 /\ zlen (v_options p) = 4 * v_words p - 20 /\
  4 <= zlen (v_l4 p).
Definition encode_ipv4 (p : ipv4) : list byte :=
  nibbles 4 (v_words p) :: v_mid p ++ byte_of (v_proto p) :: v_sum p ++ v_src p ++ v_dst p
  ++ v_options p ++ v_l4 p.

(** A G-PDU with the mandatory GTPv1-U header. *)
Definition encode_gpdu (teid : Z) (body : list byte) : list byte :=
  byte_of 0x30 :: byte_of 0xFF :: be_put 2 (zlen body) ++ be_put 4 teid ++ body.

Definition inner_of (p : ipv4) : inner :=
  {| InnerSrcIP := dotted (v_src p); InnerDstIP := dotted (v_dst p);
     InnerProtocol := innerProtocolName (v_proto p);
     InnerSrcPort := be (take 2 (v_l4 p)); InnerDstPort := be (take 2 (drop 2 (v_l4 p)));
     InnerPacketCount := 0 |}.

Lemma ports_read proto l4 tx :
  bool_decide (proto ∈ [6; 17; 132]) = true -> 4 <= zlen l4 ->
  parseInnerTransport proto l4 tx = Ok {|
    InnerSrcIP := InnerSrcIP tx; InnerDstIP := InnerDstIP tx; InnerProtocol := InnerProtocol tx;
    InnerSrcPort := be (take 2 l4); InnerDstPort := be (take 2 (drop 2 l4));
    InnerPacketCount := InnerPacketCount tx |}.
Proof.
  intros Hp Hl. unfold parseInnerTransport. rewrite Hp. replace (4 <=? zlen l4) with true by lia.
  assert (length (take 2 l4) = 2%nat /\ length (take 2 (drop 2 l4)) = 2%nat) as [E1 E2].
  { rewrite !length_take, length_drop. unfold zlen in Hl. lia. }
  assert (holds_at l4 0 (take 2 l4 ++ take 2 (drop 2 l4))) as [H1 H2]%holds_at_app.
  { exists [], (drop 2 (drop 2 l4)). by rewrite app_nil_l, <-app_assoc, !take_drop. }
  assert (zlen (take 2 l4) = 2) as E by (unfold zlen; lia). rewrite E in H2. change (0 + 2) with 2 in H2.
  by rewrite (holds_at_rd _ _ _ 2 H1 E1), (holds_at_rd _ _ _ 2 H2 E2).
Qed.

Lemma zlen_encode_ipv4 p : ipv4_ok p -> zlen (encode_ipv4 p) = 4 * v_words p + zlen (v_l4 p).
Proof.
  intros (? & ? & ? & ? & ? & ? & ? & ?). unfold encode_ipv4.
  rewrite zlen_cons, zlen_app, zlen_cons, !zlen_app. lia.
Qed.

Lemma parseInnerPacket_ipv4 p :
  ipv4_ok p -> bool_decide (v_proto p ∈ [6; 17; 132]) = true ->
  parseInnerPacket (encode_ipv4 p) no_inner = Ok (inner_of p).
Proof.
  intros Hok Hproto. pose proof (zlen_encode_ipv4 p Hok) as Hlen.
  destruct Hok as (Hw & Hm & Hp & Hs & Ha & Hd & Ho & H4).
  pose proof (holds_at_self (encode_ipv4 p)) as Hat. set (data := encode_ipv4 p) in *.
  unfold encode_ipv4 in Hat.
  apply holds_at_cons in Hat as [Hb0 Hat]. apply holds_at_app in Hat as [_ Hat].
  apply holds_at_cons in Hat as [Hb9 Hat]. apply holds_at_app in Hat as [_ Hat].
  apply holds_at_app in Hat as [Hsrc Hat]. apply holds_at_app in Hat as [Hdst Hat].
  apply holds_at_app in Hat as [_ Hl4].
  apply holds_at_slice in Hsrc, Hdst, Hl4.
  rewrite ?Hm, ?Hs, ?Ha, ?Hd in *. change (0 + 1 + 8) with 9 in *. change (9 + 1 + 2) with 12 in *.
  change (12 + 4) with 16 in *. change (16 + 4) with 20 in *.
  replace (20 + zlen (v_options p)) with (4 * v_words p) in Hl4 by lia.
  unfold parseInnerPacket, parseInnerIPv4. replace (zlen data <? 1) with false by lia.
  replace (zlen data <? 20) with false by lia.
  rewrite Hb0. cbn [mbind res_bind]. cbv zeta. rewrite nibbles_hi, nibbles_lo by lia.
  cbn [mbind res_bind]. change (4 =? 4) with true. cbv iota.
  replace ((v_words p * 4 <? 20) || (zlen data <? v_words p * 4)) with false by lia.
  rewrite Hsrc, Hdst, Hb9. cbn [mbind res_bind]. rewrite u8_byte_of by done.
  replace (v_words p * 4 <? zlen data) with true by lia.
  unfold slice_from. replace (v_words p * 4) with (4 * v_words p) by lia.
  rewrite Hlen, Hl4. cbn [mbind res_bind]. rewrite ports_read by done.
  destruct (ip_string_4 _ Ha) as [-> _], (ip_string_4 _ Hd) as [-> _]. done.
Qed.

Definition gpdu_ok (teid : Z) (body : list byte) : Prop := 0 <= teid < 2 ^ 32 /\ zlen body < 65536.

Lemma parse_header_gpdu pkt teid body :
  gpdu_ok teid body -> Payload pkt = encode_gpdu teid body ->
  parse_header pkt = Ok (Some (
    {| h_Version := 1; h_MessageType := 255; h_Length := zlen body; h_TEID := teid;
       h_SequenceNo := 0; h_IsGTPU := is_gtpu_port pkt |}, 8)) /\
  slice_from (Payload pkt) 8 = Ok body /\ zlen (Payload pkt) = 8 + zlen body.
Proof.
  intros [Ht Hb] E. pose proof (holds_at_self (encode_gpdu teid body)) as Hat.
  pose proof (zlen_nonneg body) as Hnn.
  assert (zlen (encode_gpdu teid body) = 8 + zlen body) as Hlen.
  { unfold encode_gpdu. rewrite !zlen_cons, !zlen_app, !zlen_be_put. lia. }
  unfold parse_header. rewrite E. set (data := encode_gpdu teid body) in *. unfold encode_gpdu in Hat.
  apply holds_at_cons in Hat as [H0 Hat]. apply holds_at_cons in Hat as [H1 Hat].
  apply holds_at_app in Hat as [H2 Hat]. apply holds_at_app in Hat as [H4 H8].
  rewrite !zlen_be_put in *. change (0 + 1 + 1 + Z.of_nat 2 + Z.of_nat 4) with 8 in H8.
  change (0 + 1 + 1 + Z.of_nat 2) with 4 in H4. change (0 + 1 + 1) with 2 in H2.
  change (0 + 1) with 1 in H1. apply holds_at_slice in H8. rewrite <-Hlen in H8.
  split_and!; [|exact H8|exact Hlen].
  rewrite H0, H1, (holds_at_put _ _ _ _ H2), (holds_at_put _ _ _ _ H4) by (done || cbn; lia).
  cbn [mbind res_bind]. cbv zeta. rewrite !u8_byte_of by done.
  replace (zlen data <? 8) with false by lia. done.
Qed.

Lemma extractCauseCode_ipv4 p : ipv4_ok p -> extractCauseCode (encode_ipv4 p) 1 = Ok 0.
Proof.
  intros Hok. pose proof (zlen_encode_ipv4 p Hok) as Hlen.
  destruct Hok as (Hw & _ & _ & _ & _ & _ & _ & H4).
  unfold extractCauseCode. change (1 =? 2) with false. change (1 =? 1) with true. cbv iota.
  replace (2 <=? zlen (encode_ipv4 p)) with true by lia.
  pose proof (holds_at_self (encode_ipv4 p)) as Hat. unfold encode_ipv4 at 2 in Hat.
  apply holds_at_cons in Hat as [-> _]. cbn [mbind res_bind]. unfold nibbles.
  rewrite u8_byte_of by lia. by replace (16 * 4 + v_words p =? 1) with false by lia.
Qed.

(** ** Every run over a list of packets *)

Definition handle_all (d : Decoder) (pkts : list Packet) : res Decoder :=
  foldM (fun d pkt => r ← HandlePacket d pkt; Ok (fst r)) d pkts.

Definition consistent (d : Decoder) : Prop :=
  tunnelCount d = foldr Z.add 0 (inner_count <$> completed d) /\
  Forall (fun tx => InnerPacketCount (t_inner tx) = inner_count tx) (completed d) /\
  Forall (fun tx => t_IsError tx = negb (CauseCode tx =? 0) && negb (CauseCode tx =? 16)) (completed d).

Lemma foldr_add_app l k : foldr Z.add 0 (l ++ k) = foldr Z.add 0 l + foldr Z.add 0 k.
Proof. induction l as [|x l IH]; cbn; [done|]. rewrite IH. lia. Qed.

Lemma adds_one_consistent d pkt d' : adds_one d pkt d' -> consistent d -> consistent d'.
Proof.
  intros [->|(tx & Hc & Ht & (_ & _ & _ & Hn & He))] (H1 & H2 & H3); [done|].
  unfold consistent. rewrite Hc, fmap_app, foldr_add_app, Ht, H1. cbn. split_and!; [lia|..];
    apply Forall_app; (split; [done|]); by constructor.
Qed.

Lemma handle_all_returns d pkts :
  consistent d ->
  returns (handle_all d pkts) (fun d' => consistent d' /\
    completed d `prefix_of` completed d' /\
    (length (completed d') <= length (completed d) + length pkts)%nat).
Proof.
  revert d. induction pkts as [|pkt pkts IH]; intros d Hd; cbn [handle_all foldM].
  - cbn. split_and!; [done..|lia].
  - eapply returns_bind_weak with (P := fun d' => adds_one d pkt d').
    { eapply returns_bind_weak; [apply gtp_HandlePacket_returns|]. by intros r [? _]. }
    intros d1 Hd1. eapply returns_weaken; [apply IH; by eapply adds_one_consistent|].
    intros d2 (H1 & H2 & H3). split_and!; [done| |].
    + etransitivity; [|done]. destruct Hd1 as [->|(tx & -> & _)]; [done|by apply prefix_app_r].
    + cbn [length]. destruct Hd1 as [->|(tx & E & _)]; [lia|].
      rewrite E, length_app in H3. cbn [length] in H3. lia.
Qed.

(** ** The two scans of a GTPv2 body agree on the subscriber *)

Definition sub_of (i : GTPv2IESet) : subscriber :=
  {| s_imsi := IMSI (i_identity i); s_msisdn := MSISDN (i_identity i); s_apn := APN (i_session i) |}.

Lemma parseAMBR_sub d i i' : parseAMBR d i = Ok i' -> sub_of i' = sub_of i.
Proof.
  unfold parseAMBR. destruct (_ <? _); [by intros [= <-]|].
  intros (? & _ & H)%bind_Ok. apply bind_Ok in H as (? & _ & [= <-]). done.
Qed.

Lemma parsePAA_sub d i i' : parsePAA d i = Ok i' -> sub_of i' = sub_of i.
Proof.
  unfold parsePAA. destruct (_ <? _); [by intros [= <-]|]. intros (b & _ & H)%bind_Ok. revert H.
  cbv zeta. repeat (destruct (_ =? _) || destruct (_ <=? _));
    first [by intros [= <-]|intros (? & _ & [= <-])%bind_Ok; done].
Qed.

Lemma parseULI_sub d i i' : parseULI d i = Ok i' -> sub_of i' = sub_of i.
Proof.
  unfold parseULI. destruct (_ <? _); [by intros [= <-]|]. intros (b & _ & H)%bind_Ok. revert H.
  cbv zeta. intros (j & Hj & H)%bind_Ok. transitivity (sub_of j).
  - clear Hj. revert H. destruct (_ && _); [|by intros [= <-]]. intros (? & _ & H)%bind_Ok.
    apply bind_Ok in H as (? & _ & H). by apply bind_Ok in H as (? & _ & [= <-]).
  - clear H. revert Hj. destruct (_ && _); [|by intros [= <-]]. intros (? & _ & H)%bind_Ok.
    apply bind_Ok in H as (? & _ & H). by apply bind_Ok in H as (? & _ & [= <-]).
Qed.

Lemma message_ie_sub t d i i' :
  message_ie t d i = Ok i' -> subscriber_v2 t d (sub_of i) = Ok (sub_of i').
Proof.
  unfold message_ie, subscriber_v2, IETypeIMSI, IETypeMSISDN, IETypeMEI, IETypeAPN, IETypeCause,
    IETypeRecovery, IETypeAMBR, IETypeEBI, IETypePAA, IETypePDNType, IETypeBearerQoS,
    IETypeRATType, IETypeServingNetwork, IETypeULI, IETypeFTEID, IETypeBearerContext,
    IETypeChargingID.
  destruct (Z.eqb_spec t 1); [by intros [= <-]|]. destruct (Z.eqb_spec t 76); [by intros [= <-]|].
  destruct (Z.eqb_spec t 75) as [->|]; [by intros [= <-]|].
  destruct (t =? 71); [by intros (apn & -> & [= <-])%bind_Ok|].
  intros H. assert (sub_of i' = sub_of i) as ->; [|done]. revert H.
  repeat (destruct (t =? _);
    [first [apply parseAMBR_sub|apply parsePAA_sub|apply parseULI_sub
           |intros (o & _ & [= <-])%bind_Ok; destruct o; cbn; try (by destruct (_ =? _)); try (by destruct (_ <? _)); done
           |destruct (_ <=? _); [by intros (? & _ & [= <-])%bind_Ok|by intros [= <-]]]|]).
  by intros [= <-].
Qed.

Lemma subscriber_scans_agree l i i' :
  foldM (step_ie message_ie) i l = Ok i' ->
  foldM (step_ie subscriber_v2) (sub_of i) l = Ok (sub_of i').
Proof.
  revert i. induction l as [|e l IH]; intros i; cbn [foldM]; [by intros [= ->]|].
  intros (j & Hj & H)%bind_Ok. apply message_ie_sub in Hj.
  change (step_ie subscriber_v2 (sub_of i) e) with (subscriber_v2 (fst e) (snd e) (sub_of i)).
  rewrite Hj. cbn [mbind res_bind]. by apply IH.
Qed.

(** ** Properties *)

(** The GTPv2 information elements are read as a fold. On any body, well
    formed or not, [ParseGTPv2IEs] returns: its offset arithmetic visits exactly
    the elements of the body, in order, up to the first truncated one, and the
    result is the fold of its switch over them. The other scanner of the same
    body, [extractSubscriberIEsV2], finds the same subscriber. *)
Theorem gtp_ies_refine data :
  exists ies, ParseGTPv2IEs data = Ok ies /\
    foldM (step_ie message_ie) no_ies (split_ies data) = Ok ies /\
    extractSubscriberIEsV2 data = Ok {| s_imsi := IMSI (i_identity ies);
      s_msisdn := MSISDN (i_identity ies); s_apn := APN (i_session ies) |}.
Proof.
  destruct (returns_inv _ _ (ParseGTPv2IEs_returns data)) as (ies & E & _). exists ies.
  split; [done|]. unfold ParseGTPv2IEs, extractSubscriberIEsV2 in *. rewrite scan_ies_split in E.
  rewrite scan_ies_split. split; [done|]. by apply (subscriber_scans_agree _ no_ies).
Qed.

(** C18: what ParseGTPv2IEs reads in a GTPv2 message. For any sequence of
    well-formed elements of every kind its switch has (digits of either
    parity, APN labels, causes, bandwidths, bearer identifiers, PDN addresses
    of every type, PDN types, QoS, networks with two or three digit codes,
    locations with any identities, F-TEIDs with any addresses, bearer contexts
    with nested elements, charging identifiers) and of unknown ones, encoded
    one after the other and followed by fewer bytes than an element header, it
    returns what [means] says of the elements, applied in order: what the
    sender meant, but for the addresses of IPv6 and IPv4v6, which are read at
    the wrong offsets, and a top-level QoS before any bearer or a top-level
    bearer identifier after one, which are dropped. *)
Theorem gtp_message_decoded es rest :
  Forall element_ok es -> zlen rest < 4 ->
  ParseGTPv2IEs (encode_ies (element_wire <$> es) ++ rest) = Ok (foldl means no_ies es).
Proof. intros. apply (scan_wire _ _ _ element_ok); auto using message_ie_wire, element_wire_ok. Qed.

Definition ex_fteid : wire_fteid :=
  {| w_if := 10; w_teid := 0xdeadbeef; w_v4 := Some (octets [10; 0; 0; 1]); w_v6 := None |}.
Definition ex_qos : wire_qos :=
  {| w_arp := 0x7c; w_qci := 9; w_mbr_ul := 50000; w_mbr_dl := 100000; w_gbr_ul := 0; w_gbr_dl := 0 |}.
Definition ex_network : plmn :=
  {| mcc1 := 2; mcc2 := 0; mcc3 := 8; mnc1 := 9; mnc2 := 3; mnc3 := None |}.
Definition ex_elements : list element :=
  [EImsi [2;0;8;9;3;0;0;0;0;0;0;0;0;0;1]; EApn [gobytes "internet"; gobytes "mnc093"];
   ENetwork ex_network; EFteid ex_fteid; EOther 200 [x00; x01];
   EBearer [BEbi 5; BQos ex_qos; BFteid ex_fteid]].
Definition ex_more_elements : list element := ex_elements ++
  [EBearer [BCause 16 [x00]]; ECause 16 [x00];
   EUli {| u_cgi := None; u_sai := Some (octets [1;2;3;4;5;6;7]); u_rai := None; u_tai := Some (ex_network, 7);
           u_ecgi := Some (ex_network, 257); u_flags := 0; u_more := [] |};
   EEbi 6; EQos ex_qos; EPdn 2; EPaa6 64 (octets [0x20;1;0xd;0xb8;0;1;0;2;0;0;0;0;0;0;0;9])].

Example gtp_message_decoded_witness :
  Forall element_ok ex_more_elements /\
  ParseGTPv2IEs (encode_ies (element_wire <$> ex_more_elements) ++ [x00]) = Ok (foldl means no_ies ex_more_elements) /\
  APN (i_session (foldl means no_ies ex_more_elements)) = "internet.mnc093"%string /\
  IMSI (i_identity (foldl means no_ies ex_more_elements)) = "208930000000001"%string /\
  TAI (i_location (foldl means no_ies ex_more_elements)) = "208-93-TAC:7"%string /\
  PDNAddress (i_session (foldl means no_ies ex_more_elements)) = "4020:10d:b800:100:200::"%string.
Proof.
  assert (Forall element_ok ex_more_elements) as Hok.
  { repeat constructor; try (vm_compute; done). by apply (bool_decide_unpack _). }
  split; [exact Hok|]. split; [apply (gtp_message_decoded ex_more_elements [x00] Hok); done|].
  split_and!; by vm_compute.
Defined.

(** GTP decoding is total and its counters are right. Whatever packets
    arrive, [HandlePacket] returns for each; completed transactions are only
    appended, at most one per packet; the tunnel count is the number of
    transactions with an inner packet; a transaction is an error exactly when
    it has a cause other than 0 and 16; and [Flush] reports each transaction
    once. *)
Theorem gtp_handle_total pkts :
  exists d, handle_all NewDecoder pkts = Ok d /\
    (length (completed d) <= length pkts)%nat /\
    tunnelCount d = foldr Z.add 0 (inner_count <$> completed d) /\
    Forall (fun tx => t_IsError tx = negb (CauseCode tx =? 0) && negb (CauseCode tx =? 16)) (completed d) /\
    (forall pkt, exists r, HandlePacketLive d pkt = Ok r) /\
    FlowID <$> Flush d = ID <$> completed d.
Proof.
  assert (consistent NewDecoder) as H0 by by split_and!.
  destruct (returns_inv _ _ (handle_all_returns NewDecoder pkts H0)) as (d & E & (H1 & _ & H3) & _ & Hl).
  exists d. split_and!; [done|done|done|done| |].
  - intros pkt. destruct (returns_inv _ _ (gtp_HandlePacketLive_returns d pkt)) as (r & -> & _). by exists r.
  - unfold Flush. rewrite <-list_fmap_compose. by apply list_fmap_ext.
Qed.

(** A tunnelled packet is found. A G-PDU on the GTP-U port that carries an
    IPv4 packet with ports (any header length, any options) adds one
    transaction with the tunnel's identifier and the inner addresses, protocol
    and ports, counts one tunnel, and is not an error. *)
Theorem gtp_inner_decoded d pkt teid p :
  String.eqb (Protocol pkt) "UDP" = true -> is_gtpu_port pkt = true ->
  ipv4_ok p -> bool_decide (v_proto p ∈ [6; 17; 132]) = true ->
  0 <= teid < 2 ^ 32 -> zlen (encode_ipv4 p) < 65536 ->
  Payload pkt = encode_gpdu teid (encode_ipv4 p) ->
  exists tx pkt', HandlePacket d pkt =
      Ok ({| completed := completed d ++ [tx]; tunnelCount := tunnelCount d + 1 |}, pkt') /\
    t_TEID tx = teid /\ IsGTPU tx = true /\ t_IsError tx = false /\
    t_inner tx = {| InnerSrcIP := dotted (v_src p); InnerDstIP := dotted (v_dst p);
      InnerProtocol := innerProtocolName (v_proto p);
      InnerSrcPort := be (take 2 (v_l4 p)); InnerDstPort := be (take 2 (drop 2 (v_l4 p)));
      InnerPacketCount := 1 |}.
Proof.
  intros Hudp Hport Hok Hproto Ht Hlen Hp.
  destruct (parse_header_gpdu pkt teid (encode_ipv4 p)) as (Hh & Hb & Hl); [done..|].
  pose proof (zlen_encode_ipv4 p Hok) as Hpl. pose proof (zlen_nonneg (v_l4 p)).
  assert (20 <= zlen (encode_ipv4 p)) by (destruct Hok; lia).
  assert (String.eqb (dotted (v_src p)) "" = false) as Hsrc.
  { destruct Hok as (_ & _ & _ & _ & Hs & _). destruct (ip_string_4 _ Hs) as [E Hne].
    apply String.eqb_neq. by rewrite <-E. }
  unfold HandlePacket, admits. rewrite Hudp. cbn [negb].
  replace (zlen (Payload pkt) <? 8) with false by lia.
  assert (isGTPPort (SrcPort pkt) (DstPort pkt) = true) as ->.
  { unfold is_gtpu_port, isGTPPort in *. lia. }
  cbn [mbind res_bind negb]. unfold parseGTP. rewrite Hh. cbn [mbind res_bind h_Version].
  cbv zeta. replace (8 <? zlen (Payload pkt)) with true by lia.
  rewrite Hb. cbn [mbind res_bind]. rewrite extractCauseCode_ipv4 by done. rewrite Hport.
  cbn [mbind res_bind negb andb h_MessageType h_IsGTPU h_TEID h_SequenceNo].
  change (255 =? 0xFF) with true. cbn [andb].
  rewrite parseInnerPacket_ipv4 by done. cbn [mbind res_bind inner_of InnerSrcIP]. rewrite Hsrc.
  cbn [negb mbind res_bind]. eexists _, _. split; [reflexivity|]. by split_and!.
Qed.

Definition ex_ipv4 : ipv4 :=
  {| v_words := 5; v_mid := octets [0; 0; 28; 0; 1; 0; 0; 64]; v_proto := 17;
     v_sum := octets [0; 0]; v_src := octets [192; 168; 1; 2]; v_dst := octets [8; 8; 8; 8];
     v_options := []; v_l4 := octets [0x80; 1; 0; 53; 0; 8; 0; 0] |}.

Example gtp_inner_decoded_witness :
  exists tx pkt', HandlePacket NewDecoder
      (mk_packet 0 "10.0.0.1" "10.0.0.2" 2152 2152 "UDP" (encode_gpdu 77 (encode_ipv4 ex_ipv4)))
      = Ok ({| completed := [tx]; tunnelCount := 1 |}, pkt') /\
    InnerDstPort (t_inner tx) = 53.
Proof.
  destruct (gtp_inner_decoded NewDecoder
    (mk_packet 0 "10.0.0.1" "10.0.0.2" 2152 2152 "UDP" (encode_gpdu 77 (encode_ipv4 ex_ipv4))) 77 ex_ipv4)
    as (tx & pkt' & H & _ & _ & _ & Hi); [done|done| |done|done|done|done|].
  - split_and!; vm_compute; done.
  - exists tx, pkt'. split; [exact H|]. by rewrite Hi.
Defined.
