(* ===== verification/Ngap.v ===== *)
(** * internal/protocols/ngap: the NGAP decoder

    decoder.go (the outer PDU header) and nas.go (the identity in a NAS
    Registration Request that the payload carries). The payload of an SCTP
    packet is its chunks; Sctp.v walks them. *)
From S2P Require Export Sctp.
From S2P Require Export Bcd.

(** ** nas.go *)

Definition decodeBCDNibbles (data : list byte) : string := bcd_text data.

Definition decodeMCCMNC3 (b1 b2 : Z) : string :=
  let d1 := Z.land b1 0x0F in
  let d2 := Z.land (Z.shiftr b1 4) 0x0F in
  let d3 := Z.land b2 0x0F in
  gostr (bcd_digit d1 ++ bcd_digit d2 ++ bcd_digit d3).

Definition decodeMNC (b2 b3 : Z) : string :=
  let d1 := Z.land b3 0x0F in
  let d2 := Z.land (Z.shiftr b3 4) 0x0F in
  let d3 := Z.land (Z.shiftr b2 4) 0x0F in
  gostr (bcd_digit d1 ++ bcd_digit d2 ++ bcd_digit d3).

Definition all_digits (s : string) : bool :=
  forallb (fun rb : Z * list byte => (48 <=? fst rb) && (fst rb <=? 57)) (runes (gobytes s)).

Definition parseSUCI (data : list byte) : res string :=
  if zlen data <? 8 then Ok ""
  else
    b0 ← idx data 0;
    let identityType := Z.land (u8 b0) 0x07 in
    let supiFormat := Z.land (Z.shiftr (u8 b0) 4) 0x07 in
    if negb (identityType =? 1) then Ok ""
    else if negb (supiFormat =? 0) then Ok ""
    else
      b1 ← idx data 1; b2 ← idx data 2; b3 ← idx data 3;
      let mcc := decodeMCCMNC3 (u8 b1) (u8 b2) in
      let mnc := decodeMNC (u8 b2) (u8 b3) in
      protectionScheme ← idx data 6;
      if negb (u8 protectionScheme =? 0) then Ok ""
      else if zlen data <=? 8 then Ok ""
      else
        rest ← slice_from data 8;
        let msin := decodeBCDNibbles rest in
        let imsi := mcc +:+ mnc +:+ msin in
        if (slen imsi <? 10) || (15 <? slen imsi) then Ok ""
        else if negb (all_digits imsi) then Ok ""
        else Ok imsi.

Definition parseRegistrationRequest (data : list byte) : res string :=
  if zlen data <? 3 then Ok ""
  else
    let offset := 1 in
    if zlen data <? offset + 2 then Ok ""
    else
      hi ← idx data offset; lo ← idx data (offset + 1);
      let idLen := Z.lor (Z.shiftl (u8 hi) 8) (u8 lo) in
      let offset := offset + 2 in
      if (idLen <? 4) || (zlen data <? offset + idLen) then Ok ""
      else
        idValue ← slice data offset (offset + idLen);
        parseSUCI idValue.

(** One turn of the scan of extractNASIdentity. *)
Definition identity_body (payload : list byte) (i : Z) : res (ctl Z string) :=
  if i + 3 <? zlen payload then
    a ← idx payload i; b ← idx payload (i + 1); c ← idx payload (i + 2);
    if (u8 a =? 0x7E) && (u8 b =? 0x00) && (u8 c =? 0x41) then
      rest ← slice_from payload (i + 3);
      result ← parseRegistrationRequest rest;
      if negb (String.eqb result "") then Ok (Done result) else Ok (Next (i + 1))
    else Ok (Next (i + 1))
  else Ok (Done "").

Definition extractNASIdentity (payload : list byte) : res string :=
  loop (S (length payload)) (identity_body payload) 0.

(** ** decoder.go *)

Definition ProcedureCodes : gmap Z string := list_to_map
  [(0, "AMFConfigurationUpdate"); (1, "HandoverCancel"); (2, "HandoverNotification");
   (3, "HandoverPreparation"); (4, "HandoverResourceAllocation"); (5, "InitialContextSetup");
   (6, "NGReset"); (7, "NGSetup"); (8, "PathSwitchRequest"); (9, "PDUSessionResourceModify");
   (10, "PDUSessionResourceModifyIndication"); (11, "PDUSessionResourceRelease");
   (12, "PDUSessionResourceSetup"); (14, "InitialUEMessage"); (15, "DownlinkNASTransport");
   (16, "UplinkNASTransport"); (17, "NASNonDeliveryIndication"); (19, "Paging");
   (20, "RANConfigurationUpdate"); (21, "UEContextModification"); (22, "UEContextRelease");
   (23, "UEContextReleaseRequest"); (25, "ErrorIndication"); (26, "UERadioCapabilityCheck");
   (27, "HandoverSuccess"); (29, "RerouteNASRequest"); (33, "AMFStatusIndication");
   (40, "UplinkRANConfigurationTransfer"); (41, "DownlinkRANConfigurationTransfer");
   (46, "UplinkRANStatusTransfer"); (47, "DownlinkRANStatusTransfer")]%string.

Definition PDUTypes : gmap Z string := list_to_map
  [(0, "InitiatingMessage"); (1, "SuccessfulOutcome"); (2, "UnsuccessfulOutcome")]%string.

Record ngapRecord := {
  g_PDUType : string;
  g_ProcedureCode : Z;
  g_ProcedureName : string;
  g_SrcIP : string;
  g_DstIP : string;
  g_SrcPort : Z;
  g_DstPort : Z;
  g_FrameNum : Z;
  g_IMSI : string;
  g_Timestamp : time;
}.

Record Decoder := { messages : list ngapRecord }.
Definition NewDecoder : Decoder := {| messages := [] |}.

Definition extractNGAPFromSCTP (data : list byte) : res (list byte) := user_data data.

(** The PDU type, from the top bits of byte 0. *)
Definition pdu_type_index (payload : list byte) : res Z :=
  b0 ← idx payload 0;
  let pduTypeIdx := Z.shiftr (u8 b0) 5 in
  Ok (if 2 <? pduTypeIdx then Z.land (u8 b0) 0x03 else pduTypeIdx).

Definition procedure_code (payload : list byte) : res Z :=
  if 3 <=? zlen payload then
    procCode ← idx payload 1;
    if (50 <? u8 procCode) && (3 <? zlen payload) then
      procCode ← idx payload 2; Ok (u8 procCode)
    else Ok (u8 procCode)
  else Ok 0.

(** [s += " IMSI=" + imsi] when there is one. *)
Definition with_imsi (imsi s : string) : string :=
  if negb (String.eqb imsi "") then s +:+ " IMSI=" +:+ imsi else s.

Definition parseNGAP (d : Decoder) (pkt : Packet) : res (Decoder * Packet * option ngapRecord) :=
  ngapPayload ← extractNGAPFromSCTP (Payload pkt);
  if zlen ngapPayload <? 4 then Ok (d, pkt, None)
  else
    pduTypeIdx ← pdu_type_index ngapPayload;
    let pduType := name_or PDUTypes "PDU_" pduTypeIdx in
    procCode ← procedure_code ngapPayload;
    let procName := name_or ProcedureCodes "Procedure_" procCode in
    imsi ← extractNASIdentity ngapPayload;
    let rec := {| g_PDUType := pduType; g_ProcedureCode := procCode; g_ProcedureName := procName;
                  g_SrcIP := SrcIP pkt; g_DstIP := DstIP pkt; g_SrcPort := SrcPort pkt;
                  g_DstPort := DstPort pkt; g_FrameNum := FrameNumber pkt; g_IMSI := imsi;
                  g_Timestamp := Timestamp pkt |} in
    Ok ({| messages := messages d ++ [rec] |},
        set_app "NGAP" (with_imsi imsi (pduType +:+ " " +:+ procName)) pkt, Some rec).

(** The early returns of both handlers, negated. *)
Definition admits (pkt : Packet) : bool :=
  String.eqb (Protocol pkt) "SCTP" && ((SrcPort pkt =? 38412) || (DstPort pkt =? 38412))
  && (4 <=? zlen (Payload pkt)).

Definition HandlePacket (d : Decoder) (pkt : Packet) : res (Decoder * Packet) :=
  if negb (admits pkt) then Ok (d, pkt)
  else '(d, pkt, _) ← parseNGAP d pkt; Ok (d, pkt).

(** [m] with the IMSI of [rec] when there is one. *)
Definition imsi_metric (rec : ngapRecord) (m : gmap string any) : gmap string any :=
  if negb (String.eqb (g_IMSI rec) "") then <["imsi"%string := AStr (g_IMSI rec)]> m else m.

Definition record_metrics (rec : ngapRecord) : gmap string any :=
  imsi_metric rec (list_to_map
    [("pdu_type", AStr (g_PDUType rec)); ("procedure_code", AInt TU8 (g_ProcedureCode rec));
     ("procedure_name", AStr (g_ProcedureName rec))]%string).

Definition HandlePacketLive (d : Decoder) (pkt : Packet) :
    res (Decoder * Packet * option DecodedPacket) :=
  if negb (admits pkt) then Ok (d, pkt, None)
  else
    '(d, pkt, o) ← parseNGAP d pkt;
    match o with
    | None => Ok (d, pkt, None)
    | Some rec =>
      Ok (d, pkt, Some {| D_Packet := pkt; D_Protocol := "NGAP";
        D_Summary := with_imsi (g_IMSI rec) (g_PDUType rec +:+ " " +:+ g_ProcedureName rec);
        D_Metadata := record_metrics rec; D_Errors := [] |})
    end.

Definition record_flow (rec : ngapRecord) : Flow :=
  {| FlowID := "ngap-" +:+ g_ProcedureName rec +:+ "-" +:+ fmt_d (g_ProcedureCode rec) +:+ "-"
       +:+ fmt_d (g_FrameNum rec);
     Type_ := FlowNGAP; F_SrcIP := g_SrcIP rec; F_DstIP := g_DstIP rec;
     F_SrcPort := g_SrcPort rec; F_DstPort := g_DstPort rec;
     StartTime := g_Timestamp rec; EndTime := g_Timestamp rec; Metrics := record_metrics rec |}.

Definition Flush (d : Decoder) : list Flow := record_flow <$> messages d.

(** ** The decoder returns, and the identities it records *)

(** What an identity in a record can be: empty, or ten to fifteen digits. *)
Definition imsi_ok (s : string) : bool :=
  String.eqb s "" || ((10 <=? slen s) && (slen s <=? 15) && all_digits s).

Lemma parseSUCI_returns data : returns (parseSUCI data) (fun s => imsi_ok s = true).
Proof.
  unfold parseSUCI. destruct (Z.ltb_spec (zlen data) 8); [done|].
  run_step. apply returns_idx; [lia|]. intros b0 _. cbv zeta. run_step; [done|]. run_step; [done|].
  do 4 (run_step; apply returns_idx; [lia|]; intros ? _).
  run_step; [done|]. destruct (Z.leb_spec (zlen data) 8); [done|].
  rewrite slice_from_Ok by lia. cbn [mbind res_bind].
  set (imsi := _ +:+ _). destruct ((slen imsi <? 10) || (15 <? slen imsi)) eqn:El; [done|].
  destruct (all_digits imsi) eqn:Ed; cbn [negb]; [|done]. cbn [returns]. unfold imsi_ok. rewrite Ed.
  replace (10 <=? slen imsi) with true by lia. replace (slen imsi <=? 15) with true by lia. apply orb_true_r.
Qed.

Lemma parseRegistrationRequest_returns data :
  returns (parseRegistrationRequest data) (fun s => imsi_ok s = true).
Proof.
  unfold parseRegistrationRequest. destruct (Z.ltb_spec (zlen data) 3); [done|]. cbv zeta.
  replace (_ <? 1 + 2) with false by lia.
  do 2 (run_step; apply returns_idx; [lia|]; intros ? _).
  run_step; [done|]. run_step. apply returns_slice; [lia|]. apply parseSUCI_returns.
Qed.

Lemma extractNASIdentity_returns payload :
  returns (extractNASIdentity payload) (fun s => imsi_ok s = true).
Proof.
  unfold extractNASIdentity.
  apply (returns_loop (fun i => 0 <= i) (fun i => Z.to_nat (zlen payload - i))); [|lia|unfold zlen; lia].
  intros i Hi. unfold identity_body. destruct (Z.ltb_spec (i + 3) (zlen payload)); [|done].
  do 3 (run_step; apply returns_idx; [lia|]; intros ? _).
  run_step; [|cbn [returns]; lia].
  rewrite slice_from_Ok by lia. cbn [mbind res_bind]. apply returns_bind.
  eapply returns_weaken; [apply parseRegistrationRequest_returns|]. intros s Hs.
  destruct (negb _); cbn [returns]; [done|lia].
Qed.

Lemma pdu_type_index_returns payload : 1 <= zlen payload -> returns (pdu_type_index payload) (fun _ => True).
Proof. intros. unfold pdu_type_index. run_step. by apply returns_idx; [lia|]. Qed.

Lemma procedure_code_returns payload : returns (procedure_code payload) (fun _ => True).
Proof.
  unfold procedure_code. destruct (Z.leb_spec 3 (zlen payload)); [|done].
  run_step. apply returns_idx; [lia|]. intros b _. run_step; [|done].
  run_step. by apply returns_idx; [lia|].
Qed.

(** A packet without a short DATA chunk adds at most one record. *)
Lemma parseNGAP_returns d pkt :
  (forall o, 0 <= o -> short_data (Payload pkt) o = false) ->
  returns (parseNGAP d pkt) (fun '(d', _, o) => match o with
    | Some rec => messages d' = messages d ++ [rec] /\ imsi_ok (g_IMSI rec) = true
    | None => d' = d end).
Proof.
  intros Hs. unfold parseNGAP. run_step.
  eapply returns_weaken; [by apply user_data_returns|]. intros p _.
  destruct (Z.ltb_spec (zlen p) 4); [done|].
  apply returns_bind. eapply returns_weaken; [apply pdu_type_index_returns; lia|]. intros ty _.
  cbv zeta. apply returns_bind. eapply returns_weaken; [apply procedure_code_returns|]. intros code _.
  apply returns_bind. eapply returns_weaken; [apply extractNASIdentity_returns|]. by intros imsi Hi.
Qed.

(** ** Identities on the wire (TS 24.501) *)

(** A concealed identity with the null scheme: the network, the routing
    indicator, the key, and the subscriber number in BCD. *)
Record suci := { su_plmn : plmn; su_routing : list byte; su_key : Z; su_msin : list Z }.

Definition plmn_digits (p : plmn) : list Z :=
  [mcc1 p; mcc2 p; mcc3 p; mnc1 p; mnc2 p] ++ match mnc3 p with Some d => [d] | None => [] end.
Definition suci_digits (s : suci) : list Z := plmn_digits (su_plmn s) ++ su_msin s.

Record suci_ok (s : suci) : Prop := {
  so_plmn : plmn_ok (su_plmn s);
  so_routing : length (su_routing s) = 2%nat;
  so_msin : Forall digit (su_msin s);
  so_some : su_msin s <> [];
  so_length : 10 <= zlen (suci_digits s) <= 15;
}.

Definition encode_suci (s : suci) : list byte :=
  x01 :: encode_plmn (su_plmn s) ++ su_routing s ++ x00 :: byte_of (su_key s) :: encode_bcd (su_msin s).

Definition nas_marker : list byte := [x7e; x00; x41].

(** A Registration Request: the type octet and the identity with its length. *)
Definition encode_registration (regType : Z) (s : suci) : list byte :=
  nas_marker ++ byte_of regType :: be_put 2 (zlen (encode_suci s)) ++ encode_suci s.

Lemma plmn_text p : plmn_ok p -> forall b1 b2 b3, encode_plmn p = [b1; b2; b3] ->
  decodeMCCMNC3 (u8 b1) (u8 b2) +:+ decodeMNC (u8 b2) (u8 b3) = digits (plmn_digits p).
Proof.
  intros (H1 & H2 & H3 & H4 & H5 & H6) b1 b2 b3 [= <- <- <-]. unfold digit in *.
  assert (0 <= default 15 (mnc3 p) < 16) by (destruct (mnc3 p); cbn in *; lia).
  unfold decodeMCCMNC3, decodeMNC. cbv zeta. rewrite !nibbles_lo, !nibbles_hi by lia.
  unfold plmn_digits. rewrite <-gostr_app, !bcd_digit_digit by (unfold digit; lia).
  destruct (mnc3 p) as [d|]; cbn [default]; [|done].
  unfold id. by rewrite bcd_digit_digit by done.
Qed.

Lemma plmn_digits_ok p : plmn_ok p -> Forall digit (plmn_digits p).
Proof.
  intros (H1 & H2 & H3 & H4 & H5 & H6). unfold plmn_digits. destruct (mnc3 p); cbn [app];
    repeat (apply Forall_cons; split; [done|]); apply Forall_nil; done.
Qed.

Lemma all_digits_digits ds : Forall digit ds -> all_digits (digits ds) = true.
Proof.
  intros Hds. unfold all_digits. rewrite runes_digits by done. rewrite forallb_forall.
  intros rb (d & -> & Hd)%list_elem_of_In%list_elem_of_fmap. eapply Forall_forall in Hds; [|done].
  unfold digit in Hds. cbn. lia.
Qed.

Lemma zlen_encode_bcd ds : 0 < zlen ds -> 0 < zlen (encode_bcd ds) <= zlen ds.
Proof.
  assert (forall n ds, (length ds < n)%nat -> 0 <= zlen (encode_bcd ds) <= zlen ds /\
    (0 < zlen ds -> 0 < zlen (encode_bcd ds))) as H; [|intros; edestruct (H (S (length ds)) ds); [lia|lia]].
  clear ds. induction n as [|n IH]; intros ds Hn; [lia|].
  destruct ds as [|d [|e ds]]; [done..|]. cbn [encode_bcd length] in *.
  destruct (IH ds ltac:(lia)). rewrite !zlen_cons. lia.
Qed.

Lemma suci_decoded s : suci_ok s -> parseSUCI (encode_suci s) = Ok (digits (suci_digits s)).
Proof.
  intros [Hp Hr Hm Hne Hl]. pose proof (plmn_digits_ok _ Hp) as Hpd.
  pose proof (zlen_encode_bcd (su_msin s)) as Hb.
  assert (0 < zlen (su_msin s)) as Hpos by (destruct (su_msin s); [done|rewrite zlen_cons; pose proof (zlen_nonneg l); lia]).
  specialize (Hb Hpos). destruct (su_routing s) as [|r1 [|r2 [|]]] eqn:Er; try done.
  unfold encode_suci. rewrite Er.
  assert (exists b1 b2 b3, encode_plmn (su_plmn s) = [b1; b2; b3]) as (b1 & b2 & b3 & Ep) by eauto.
  pose proof (plmn_text _ Hp _ _ _ Ep) as Ht. rewrite Ep.
  set (tail := encode_bcd (su_msin s)) in *. cbn [app].
  set (data := _ :: _ :: _ :: _ :: _ :: _ :: _ :: _ :: tail).
  assert (zlen data = 8 + zlen tail) as Hz by (unfold data; rewrite !zlen_cons; lia).
  assert (idx data 0 = Ok x01 /\ idx data 1 = Ok b1 /\ idx data 2 = Ok b2 /\ idx data 3 = Ok b3 /\
    idx data 6 = Ok x00) as (E0 & E1 & E2 & E3 & E6) by (split_and!; apply idx_lookup; done || lia).
  unfold parseSUCI. replace (zlen data <? 8) with false by lia.
  rewrite E0. cbn [mbind res_bind]. change (negb (Z.land (u8 x01) 7 =? 1)) with false. cbv iota zeta.
  change (negb (Z.land (Z.shiftr (u8 x01) 4) 7 =? 0)) with false. cbv iota.
  rewrite E1, E2, E3, E6. cbn [mbind res_bind]. change (negb (u8 x00 =? 0)) with false. cbv iota.
  replace (zlen data <=? 8) with false by lia. rewrite slice_from_Ok by lia.
  cbn [mbind res_bind]. change (drop (Z.to_nat 8) data) with tail.
  unfold decodeBCDNibbles, tail. rewrite bcd_text_encode by done.
  assert (decodeMCCMNC3 (u8 b1) (u8 b2) +:+ decodeMNC (u8 b2) (u8 b3) +:+ digits (su_msin s)
    = digits (suci_digits s)) as ->.
  { unfold suci_digits. rewrite digits_app, <-Ht. apply (assoc String.append). }
  rewrite !slen_digits, all_digits_digits by (by apply Forall_app).
  by replace ((zlen (suci_digits s) <? 10) || (15 <? zlen (suci_digits s))) with false by lia.
Qed.

Lemma zlen_encode_suci s : suci_ok s -> 8 < zlen (encode_suci s) < 2 ^ 16.
Proof.
  intros [Hp Hr Hm Hne Hl].
  assert (0 < zlen (su_msin s)) as Hpos by (destruct (su_msin s); [done|rewrite zlen_cons; pose proof (zlen_nonneg l); lia]).
  pose proof (zlen_encode_bcd _ Hpos). unfold suci_digits, plmn_digits in Hl. rewrite !zlen_app in Hl.
  unfold encode_suci, encode_plmn. rewrite zlen_cons, !zlen_app, !zlen_cons, zlen_nil.
  assert (zlen (su_routing s) = 2) by (unfold zlen; lia). pose proof (zlen_nonneg (from_option (fun d => [d]) [] (mnc3 (su_plmn s)))).
  destruct (mnc3 (su_plmn s)); rewrite ?zlen_cons, ?zlen_nil in Hl; lia.
Qed.

Lemma registration_decoded regType s post : suci_ok s ->
  parseRegistrationRequest (byte_of regType :: be_put 2 (zlen (encode_suci s)) ++ encode_suci s ++ post)
  = Ok (digits (suci_digits s)).
Proof.
  intros Hs. pose proof (zlen_encode_suci s Hs) as Hl. pose proof (be_be_put 2 (zlen (encode_suci s))) as Hbe.
  assert (exists hi lo, be_put 2 (zlen (encode_suci s)) = [hi; lo]) as (hi & lo & E) by (cbn; eauto).
  rewrite E in *. set (id := encode_suci s) in *. cbn [app].
  set (data := byte_of regType :: hi :: lo :: id ++ post).
  assert (zlen data = 3 + zlen id + zlen post) as Hz by (unfold data; rewrite !zlen_cons, zlen_app; lia).
  pose proof (zlen_nonneg post).
  assert (idx data 1 = Ok hi /\ idx data 2 = Ok lo) as (E1 & E2) by (split; apply idx_lookup; done || lia).
  assert (slice data 3 (3 + zlen id) = Ok id) as E3.
  { apply (slice_app_mid [byte_of regType; hi; lo] id post). }
  unfold parseRegistrationRequest. replace (zlen data <? 3) with false by lia. cbv zeta.
  replace (zlen data <? 1 + 2) with false by lia. change (1 + 1) with 2. rewrite E1, E2. cbn [mbind res_bind].
  assert (Z.lor (Z.shiftl (u8 hi) 8) (u8 lo) = zlen id) as ->.
  { rewrite <-Hbe by (cbn; lia). done. }
  replace ((zlen id <? 4) || (zlen data <? 1 + 2 + zlen id)) with false by lia.
  change (1 + 2) with 3. rewrite E3. by apply suci_decoded.
Qed.

(** The scan passes over what is not the marker. *)
Lemma identity_body_skip payload i :
  0 <= i -> i + 3 < zlen payload -> is_prefix nas_marker (drop (Z.to_nat i) payload) = false ->
  identity_body payload i = Ok (Next (i + 1)).
Proof.
  intros Hi Hl Hp. unfold identity_body. replace (_ <? _) with true by lia.
  destruct (drop (Z.to_nat i) payload) as [|a [|b [|c tl]]] eqn:Ed;
    try (apply (f_equal length) in Ed; rewrite length_drop in Ed; cbn in Ed; unfold zlen in Hl; lia).
  assert (forall k x, [a; b; c] !! k = Some x -> idx payload (i + Z.of_nat k) = Ok x) as Hk.
  { intros k x Hx. apply idx_lookup; [lia|]. replace (Z.to_nat (i + Z.of_nat k)) with (Z.to_nat i + k)%nat by lia.
    rewrite <-lookup_drop, Ed. by apply (lookup_app_l_Some [a; b; c] tl). }
  pose proof (Hk 0%nat a eq_refl) as H0. pose proof (Hk 1%nat b eq_refl) as H1.
  pose proof (Hk 2%nat c eq_refl) as H2. rewrite Z.add_0_r in H0.
  change (Z.of_nat 1) with 1 in H1. change (Z.of_nat 2) with 2 in H2.
  rewrite H0, H1, H2. cbn [mbind res_bind].
  destruct ((u8 a =? 0x7E) && (u8 b =? 0x00) && (u8 c =? 0x41)) eqn:E; [|done].
  apply andb_true_iff in E as [[Ea Eb]%andb_true_iff Ec].
  assert (a = x7e /\ b = x00 /\ c = x41) as (-> & -> & ->) by (split_and!; apply u8_inj; cbn; lia).
  by cbn in Hp.
Qed.

Lemma index_nat_first p s n i : index_nat p s = Some n -> (i < n)%nat -> is_prefix p (drop i s) = false.
Proof.
  revert n i. induction s as [|b s IH]; intros n i; cbn [index_nat].
  - destruct (is_prefix p []) eqn:E; [|done]. intros [= <-]. lia.
  - destruct (is_prefix p (b :: s)) eqn:E; [intros [= <-]; lia|].
    destruct (index_nat p s) as [m|] eqn:Em; [|done]. intros [= <-] Hi.
    destruct i as [|i]; [done|]. cbn [drop]. eapply IH; [done|lia].
Qed.

Lemma identity_skips payload n fuel k :
  index_nat nas_marker payload = Some (n + k)%nat -> Z.of_nat (n + k) + 3 < zlen payload ->
  loop (n + fuel) (identity_body payload) (Z.of_nat k) = loop fuel (identity_body payload) (Z.of_nat (n + k)).
Proof.
  revert k. induction n as [|n IH]; intros k Hi Hl; [done|]. cbn [Nat.add loop].
  rewrite identity_body_skip; [|lia..|eapply index_nat_first; [done|lia]].
  cbn [mbind res_bind]. replace (Z.of_nat k + 1) with (Z.of_nat (S k)) by lia.
  rewrite IH; [f_equal; lia|replace (n + S k)%nat with (S n + k)%nat by lia; done|lia].
Qed.

(** The first marker of the payload stands before the request. *)
Lemma identity_found pre regType s post :
  suci_ok s -> index_nat nas_marker (pre ++ nas_marker) = Some (length pre) ->
  extractNASIdentity (pre ++ encode_registration regType s ++ post) = Ok (digits (suci_digits s)).
Proof.
  intros Hs Hi. pose proof (zlen_encode_suci s Hs) as Hl. unfold encode_registration.
  set (body := byte_of regType :: _). set (payload := pre ++ (nas_marker ++ body) ++ post).
  assert (payload = (pre ++ nas_marker) ++ body ++ post) as Ep by (unfold payload; by rewrite <-!app_assoc).
  assert (zlen payload = zlen pre + 3 + zlen body + zlen post) as Hz.
  { rewrite Ep, !zlen_app. change (zlen nas_marker) with 3. lia. }
  assert (3 + 8 < zlen body) as Hb.
  { unfold body. rewrite zlen_cons, zlen_app, zlen_be_put. lia. }
  pose proof (zlen_nonneg pre). pose proof (zlen_nonneg post).
  unfold extractNASIdentity. replace (S (length payload)) with (length pre + S (length payload - length pre))%nat
    by (unfold zlen in *; lia).
  change 0 with (Z.of_nat 0). rewrite identity_skips; [|rewrite Nat.add_0_r, Ep; by apply index_nat_app|unfold zlen in *; lia].
  rewrite Nat.add_0_r. change (Z.of_nat (length pre)) with (zlen pre).
  assert (holds_at payload (zlen pre) (nas_marker ++ body ++ post)) as Hat.
  { exists pre, []. unfold payload. by rewrite app_nil_r, <-!app_assoc. }
  cbn [loop]. unfold identity_body. replace (zlen pre + 3 <? zlen payload) with true by lia.
  unfold nas_marker in Hat. cbn [app] in Hat. apply holds_at_cons in Hat as [-> Hat].
  apply holds_at_cons in Hat as [-> Hat]. apply holds_at_cons in Hat as [E2 _].
  replace (zlen pre + 1 + 1) with (zlen pre + 2) in E2 by lia. rewrite E2. cbn [mbind res_bind].
  change ((u8 x7e =? 126) && (u8 x00 =? 0) && (u8 x41 =? 65)) with true. cbv iota.
  rewrite slice_from_Ok by lia. cbn [mbind res_bind].
  replace (Z.to_nat (zlen pre + 3)) with (length (pre ++ nas_marker)) by (rewrite length_app; unfold zlen; cbn; lia).
  rewrite Ep at 1. rewrite drop_app_all. unfold body. cbn [app]. rewrite <-app_assoc.
  rewrite registration_decoded by done. cbn [mbind res_bind].
  destruct Hs as [_ _ _ _ Hn]. rewrite <-slen_digits in Hn.
  destruct (String.eqb_spec (digits (suci_digits s)) "") as [E|E]; [rewrite E in Hn; done|done].
Qed.

Lemma admits_true pkt :
  Protocol pkt = "SCTP" -> SrcPort pkt = 38412 \/ DstPort pkt = 38412 -> 4 <= zlen (Payload pkt) ->
  admits pkt = true.
Proof.
  intros Hp Hport Hl%Z.leb_le. unfold admits. rewrite Hp, Hl. destruct Hport as [-> | ->]; by rewrite ?orb_true_r.
Qed.

(** C19: a subscriber who registers is found. An NGAP message of any type and
    procedure that carries a plain NAS Registration Request with a null-scheme
    identity (network code of two or three digits, subscriber number of either
    parity), in the first DATA chunk of an SCTP packet after any control chunks
    and before anything else, is recorded with its type, its procedure code and
    the fifteen or fewer digits of the identity, which [Flush] reports. *)
Theorem ngap_identity_roundtrip d pkt cs flags tsn stream seq ppid ty code pre regType s post rest :
  Forall control_chunk cs -> suci_ok s -> 0 <= ty <= 2 -> 0 <= code <= 50 ->
  Protocol pkt = "SCTP" -> SrcPort pkt = 38412 \/ DstPort pkt = 38412 ->
  index_nat nas_marker ((byte_of (32 * ty) :: byte_of code :: pre) ++ nas_marker) = Some (2 + length pre)%nat ->
  let user := (byte_of (32 * ty) :: byte_of code :: pre) ++ encode_registration regType s ++ post in
  16 + zlen user < 2 ^ 16 ->
  Payload pkt = encode_chunks cs ++ encode_data flags tsn stream seq ppid user ++ rest ->
  exists rec pkt', HandlePacket d pkt = Ok ({| messages := messages d ++ [rec] |}, pkt') /\
    AppProtocol pkt' = "NGAP" /\ PDUTypes !! ty = Some (g_PDUType rec) /\ g_ProcedureCode rec = code /\
    g_IMSI rec = digits (suci_digits s) /\ g_FrameNum rec = FrameNumber pkt /\
    get_str (Metrics (record_flow rec)) "imsi" = Some (digits (suci_digits s)).
Proof.
  intros Hcs Hs Hty Hcode Hp Hport Hi user Hl Hpay.
  pose proof (zlen_encode_suci s Hs) as Hsl. pose proof (zlen_nonneg pre). pose proof (zlen_nonneg post).
  assert (14 < zlen user) as Hul.
  { unfold user, encode_registration. rewrite !zlen_app, !zlen_cons, !zlen_app, zlen_be_put. change (zlen nas_marker) with 3. lia. }
  assert (extractNGAPFromSCTP (Payload pkt) = Ok user) as Hu.
  { rewrite Hpay. apply user_data_encode; [done|by destruct user|done]. }
  assert (4 <= zlen (Payload pkt)) as Hlen.
  { rewrite Hpay. unfold encode_data. rewrite !zlen_app. pose proof (zlen_nonneg rest).
    pose proof (zlen_nonneg (encode_chunks cs)). pose proof (zlen_nonneg (data_header flags (16 + zlen user) tsn stream seq ppid)).
    lia. }
  unfold HandlePacket. rewrite admits_true by done. cbn [negb]. unfold parseNGAP. rewrite Hu. cbn [mbind res_bind].
  replace (zlen user <? 4) with false by lia.
  assert (idx user 0 = Ok (byte_of (32 * ty)) /\ idx user 1 = Ok (byte_of code)) as [E0 E1]
    by (split; apply idx_lookup; done || lia).
  assert (pdu_type_index user = Ok ty) as ->.
  { unfold pdu_type_index. rewrite E0. cbn [mbind res_bind]. rewrite u8_byte_of by lia.
    rewrite Z.shiftr_div_pow2 by lia. replace (32 * ty / 2 ^ 5) with ty by (change (2 ^ 5) with 32; rewrite Z.mul_comm, Z.div_mul by lia; done).
    by replace (2 <? ty) with false by lia. }
  cbn [mbind res_bind]. cbv zeta.
  assert (procedure_code user = Ok code) as ->.
  { unfold procedure_code. replace (3 <=? zlen user) with true by lia. rewrite E1. cbn [mbind res_bind].
    rewrite u8_byte_of by lia. by replace (50 <? code) with false by lia. }
  cbn [mbind res_bind]. pose proof (identity_found (_ :: _ :: pre) regType s post Hs Hi) as Hid. fold user in Hid. rewrite Hid. cbn [mbind res_bind].
  eexists _, _. split; [reflexivity|]. cbn [g_PDUType g_ProcedureCode g_IMSI g_FrameNum record_flow Metrics].
  assert (ty = 0 \/ ty = 1 \/ ty = 2) as Hcases by lia.
  split; [done|]. split; [by destruct Hcases as [-> |[-> | ->]]|]. do 3 (split; [done|]).
  unfold record_metrics, imsi_metric, get_str. cbn [g_IMSI].
  destruct Hs as [_ _ _ _ Hn]. rewrite <-slen_digits in Hn.
  destruct (String.eqb_spec (digits (suci_digits s)) "") as [E|E]; [rewrite E in Hn; done|].
  cbn [negb]. by rewrite lookup_insert_eq.
Qed.

Definition ex_suci : suci :=
  {| su_plmn := {| mcc1 := 3; mcc2 := 1; mcc3 := 0; mnc1 := 2; mnc2 := 6; mnc3 := Some 0 |};
     su_routing := [xff; xff]; su_key := 0; su_msin := [0; 0; 0; 0; 1; 0; 1] |}.

Lemma ex_suci_ok : suci_ok ex_suci.
Proof.
  split; [|done| |done|by vm_compute].
  - unfold plmn_ok, digit. cbn. lia.
  - cbn. repeat constructor; unfold digit; lia.
Qed.

Definition ex_sack : chunk := {| ck_type := 3; ck_flags := 0; ck_value := octets [0; 0; 0; 1; 0; 0; 16; 0; 0; 0; 0; 0] |}.

Example ngap_identity_roundtrip_witness :
  let user := octets [0; 14; 0; 64] ++ encode_registration 0x79 ex_suci in
  let pkt := mk_packet 0 "10.0.0.1" "10.0.0.2" 40000 38412 "SCTP"
    (encode_chunks [ex_sack] ++ encode_data 3 1 1 1 60 user) in
  exists rec pkt', HandlePacket NewDecoder pkt = Ok ({| messages := [rec] |}, pkt') /\
    g_IMSI rec = "3102600000101".
Proof.
  intros user pkt.
  destruct (ngap_identity_roundtrip NewDecoder pkt [ex_sack] 3 1 1 1 60 0 14 (octets [0; 64]) 0x79 ex_suci [] [])
    as (rec & pkt' & H1 & _ & _ & _ & H5 & _);
    [by repeat constructor|apply ex_suci_ok|lia|lia|done|by right|by vm_compute..|].
  exists rec, pkt'. split; [exact H1|]. rewrite H5. by vm_compute.
Defined.
