(* ===== verification/S1ap.v ===== *)
(** * internal/protocols/s1ap: the S1AP decoder

    decoder.go. The outer PDU header is read the way the NGAP decoder reads its
    own; here the payload of the SCTP packet is taken as the PDU, with no walk
    over its chunks. *)
From S2P Require Import Ngap.

Definition ProcedureCodes : gmap Z string := list_to_map
  [(0, "HandoverPreparation"); (1, "HandoverResourceAllocation"); (2, "HandoverNotification");
   (3, "PathSwitchRequest"); (4, "HandoverCancel"); (5, "E-RABSetup"); (6, "E-RABModify");
   (7, "E-RABRelease"); (8, "E-RABReleaseIndication"); (9, "InitialContextSetup"); (10, "Paging");
   (11, "downlinkNASTransport"); (12, "InitialUEMessage"); (13, "uplinkNASTransport"); (14, "Reset");
   (15, "ErrorIndication"); (17, "UEContextRelease"); (18, "UEContextReleaseRequest");
   (21, "UEContextModification"); (23, "HandoverRequired")]%string.

Record s1apRecord := {
  s_PDUType : string;
  s_ProcedureCode : Z;
  s_ProcedureName : string;
  s_SrcIP : string;
  s_DstIP : string;
  s_SrcPort : Z;
  s_DstPort : Z;
  s_FrameNum : Z;
  s_Timestamp : time;
}.

Record Decoder := { messages : list s1apRecord }.
Definition NewDecoder : Decoder := {| messages := [] |}.

Definition parseS1AP (d : Decoder) (pkt : Packet) : res (Decoder * Packet * s1apRecord) :=
  pduTypeIdx ← pdu_type_index (Payload pkt);
  let pduType := name_or PDUTypes "PDU_" pduTypeIdx in
  procCode ← procedure_code (Payload pkt);
  let procName := name_or ProcedureCodes "Procedure_" procCode in
  let rec := {| s_PDUType := pduType; s_ProcedureCode := procCode; s_ProcedureName := procName;
                s_SrcIP := SrcIP pkt; s_DstIP := DstIP pkt; s_SrcPort := SrcPort pkt;
                s_DstPort := DstPort pkt; s_FrameNum := FrameNumber pkt; s_Timestamp := Timestamp pkt |} in
  Ok ({| messages := messages d ++ [rec] |},
      set_app "S1AP" (pduType +:+ " " +:+ procName) pkt, rec).

Definition admits (pkt : Packet) : bool :=
  String.eqb (Protocol pkt) "SCTP" && ((SrcPort pkt =? 36412) || (DstPort pkt =? 36412))
  && (4 <=? zlen (Payload pkt)).

Definition HandlePacket (d : Decoder) (pkt : Packet) : res (Decoder * Packet) :=
  if negb (admits pkt) then Ok (d, pkt)
  else '(d, pkt, _) ← parseS1AP d pkt; Ok (d, pkt).

Definition record_metrics (rec : s1apRecord) : gmap string any := list_to_map
  [("pdu_type", AStr (s_PDUType rec)); ("procedure_code", AInt TU8 (s_ProcedureCode rec));
   ("procedure_name", AStr (s_ProcedureName rec))]%string.

Definition HandlePacketLive (d : Decoder) (pkt : Packet) :
    res (Decoder * Packet * option DecodedPacket) :=
  if negb (admits pkt) then Ok (d, pkt, None)
  else
    '(d, pkt, rec) ← parseS1AP d pkt;
    Ok (d, pkt, Some {| D_Packet := pkt; D_Protocol := "S1AP";
      D_Summary := s_PDUType rec +:+ " " +:+ s_ProcedureName rec;
      D_Metadata := record_metrics rec; D_Errors := [] |}).

Definition record_flow (rec : s1apRecord) : Flow :=
  {| FlowID := "s1ap-" +:+ s_ProcedureName rec +:+ "-" +:+ fmt_d (s_ProcedureCode rec) +:+ "-"
       +:+ fmt_d (s_FrameNum rec);
     Type_ := FlowS1AP; F_SrcIP := s_SrcIP rec; F_DstIP := s_DstIP rec;
     F_SrcPort := s_SrcPort rec; F_DstPort := s_DstPort rec;
     StartTime := s_Timestamp rec; EndTime := s_Timestamp rec; Metrics := record_metrics rec |}.

Definition Flush (d : Decoder) : list Flow := record_flow <$> messages d.

(** ** The decoder and the chunks *)

Lemma parseS1AP_returns d pkt : 1 <= zlen (Payload pkt) ->
  returns (parseS1AP d pkt) (fun '(d', _, rec) => messages d' = messages d ++ [rec]).
Proof.
  intros Hl. unfold parseS1AP. apply returns_bind. eapply returns_weaken; [by apply pdu_type_index_returns|].
  intros ty _. cbv zeta. apply returns_bind. eapply returns_weaken; [apply procedure_code_returns|]. done.
Qed.

Lemma s1ap_handle_returns d pkt :
  returns (HandlePacket d pkt) (fun '(d', _) =>
    length (messages d') = (length (messages d) + if admits pkt then 1 else 0)%nat).
Proof.
  unfold HandlePacket. destruct (admits pkt) eqn:Ea; cbn [negb]; [|cbn; lia].
  unfold admits in Ea. apply andb_true_iff in Ea as [_ Hl]. apply returns_bind.
  eapply returns_weaken; [apply parseS1AP_returns; lia|]. intros [[d' p'] rec] Hm. cbn in Hm |- *. rewrite Hm.
  rewrite length_app. done.
Qed.

(** The S1AP decoder reads the header of the chunk for the message. Whatever
    S1AP message a packet carries in the DATA chunk that its payload starts
    with, it is recorded as an InitiatingMessage whose procedure code is the flag
    octet of the chunk (3 for a message in one piece: PathSwitchRequest), with
    the name that this code has. *)
Theorem s1ap_reads_chunk_header d pkt flags tsn stream seq ppid user rest :
  admits pkt = true -> 0 <= flags <= 7 ->
  Payload pkt = encode_data flags tsn stream seq ppid user ++ rest ->
  exists rec pkt', HandlePacket d pkt = Ok ({| messages := messages d ++ [rec] |}, pkt') /\
    s_PDUType rec = "InitiatingMessage" /\ s_ProcedureCode rec = flags /\
    ProcedureCodes !! flags = Some (s_ProcedureName rec).
Proof.
  intros Ha Hf Hp. unfold HandlePacket. rewrite Ha. cbn [negb].
  unfold admits in Ha. apply andb_true_iff in Ha as [_ Hl%Z.leb_le].
  assert (idx (Payload pkt) 0 = Ok x00 /\ idx (Payload pkt) 1 = Ok (byte_of flags)) as [E0 E1].
  { split; (apply idx_lookup; [lia|by rewrite Hp]). }
  unfold parseS1AP, pdu_type_index, procedure_code. rewrite E0, E1. cbn [mbind res_bind].
  replace (3 <=? _) with true by lia. rewrite u8_byte_of by lia. replace (50 <? flags) with false by lia.
  cbn [andb mbind res_bind]. eexists _, _. split; [reflexivity|]. cbn [s_PDUType s_ProcedureCode s_ProcedureName].
  split; [done|]. split; [done|].
  assert (exists k : nat, (k < 8)%nat /\ flags = Z.of_nat k) as (k & Hk & ->) by (exists (Z.to_nat flags); lia).
  do 8 (destruct k as [|k]; [done|]). lia.
Qed.

(** A successful answer to an initial context setup. *)
Example s1ap_reads_chunk_header_witness :
  exists rec pkt', HandlePacket NewDecoder (mk_packet 0 "10.0.0.1" "10.0.0.2" 36412 40000 "SCTP"
      (encode_data 3 1 1 1 18 (octets [0x20; 9; 0; 0x25]))) = Ok ({| messages := [rec] |}, pkt') /\
    s_PDUType rec = "InitiatingMessage" /\ s_ProcedureName rec = "PathSwitchRequest".
Proof.
  destruct (s1ap_reads_chunk_header NewDecoder (mk_packet 0 "10.0.0.1" "10.0.0.2" 36412 40000 "SCTP"
    (encode_data 3 1 1 1 18 (octets [0x20; 9; 0; 0x25]))) 3 1 1 1 18 (octets [0x20; 9; 0; 0x25]) [])
    as (rec & pkt' & H1 & H2 & _ & H4); [by vm_compute|lia|by vm_compute|].
  exists rec, pkt'. split; [exact H1|]. split; [exact H2|].
  assert (ProcedureCodes !! 3 = Some "PathSwitchRequest"%string) as E by by vm_compute.
  rewrite E in H4. by injection H4.
Defined.
