(* ===== verification/Nas5g.v ===== *)
(** * internal/protocols/nas5g: the NAS-5GS decoder

    decoder.go: the scan of a payload for NAS messages, the records of mobility
    (5GMM) and session (5GSM) management messages, the count of authentication
    failures per sender, and the flows. *)
From S2P Require Export Sctp.

Definition EPD5GMM : Z := 0x7E.
Definition EPD5GSM : Z := 0x2E.

(** 5GMM message types: Registration, Deregistration, ... *)
Definition mmMessageNames : gmap Z string := list_to_map
  [(0x41, "Registration Request"); (0x42, "Registration Accept"); (0x43, "Registration Complete");
   (0x44, "Registration Reject"); (0x45, "Deregistration Request (UE orig)");
   (0x46, "Deregistration Accept (UE orig)"); (0x47, "Deregistration Request (UE term)");
   (0x48, "Deregistration Accept (UE term)"); (0x50, "Service Request"); (0x51, "Service Reject");
   (0x52, "Service Accept"); (0x55, "Configuration Update Command");
   (0x56, "Configuration Update Complete"); (0x57, "Authentication Request");
   (0x58, "Authentication Response"); (0x59, "Authentication Reject");
   (0x5a, "Authentication Failure"); (0x5b, "Authentication Result"); (0x5c, "Identity Request");
   (0x5d, "Identity Response"); (0x5e, "Security Mode Command"); (0x5f, "Security Mode Complete");
   (0x60, "Security Mode Reject"); (0x64, "5GMM Status"); (0x65, "Notification");
   (0x66, "Notification Response"); (0x67, "UL NAS Transport"); (0x68, "DL NAS Transport")]%string.

Definition smMessageNames : gmap Z string := list_to_map
  [(0xc1, "PDU Session Establishment Request"); (0xc2, "PDU Session Establishment Accept");
   (0xc3, "PDU Session Establishment Reject"); (0xc5, "PDU Session Auth Command");
   (0xc6, "PDU Session Auth Complete"); (0xc7, "PDU Session Auth Result");
   (0xc9, "PDU Session Modification Request"); (0xca, "PDU Session Modification Reject");
   (0xcb, "PDU Session Modification Command"); (0xcc, "PDU Session Modification Complete");
   (0xcd, "PDU Session Modification Command Reject"); (0xd1, "PDU Session Release Request");
   (0xd2, "PDU Session Release Reject"); (0xd3, "PDU Session Release Command");
   (0xd4, "PDU Session Release Complete"); (0xd6, "5GSM Status")]%string.

Definition registrationTypes : gmap Z string := list_to_map
  [(1, "Initial"); (2, "Mobility"); (3, "Periodic"); (4, "Emergency")]%string.

Definition mmCauseNames : gmap Z string := list_to_map
  [(3, "Illegal UE"); (5, "PEI not accepted"); (6, "Illegal ME"); (7, "5GS services not allowed");
   (9, "UE identity cannot be derived"); (10, "Implicitly deregistered"); (11, "PLMN not allowed");
   (12, "Tracking area not allowed"); (13, "Roaming not allowed in this TA");
   (15, "No suitable cells in TA"); (20, "MAC failure"); (21, "Synch failure"); (22, "Congestion");
   (23, "UE security capabilities mismatch"); (24, "Security mode rejected, unspecified");
   (26, "Non-5G authentication unacceptable"); (27, "N1 mode not allowed");
   (28, "Restricted service area"); (31, "Redirection to EPC required"); (43, "LADN not available");
   (62, "No network slices available"); (65, "Maximum number of PDU sessions reached");
   (67, "Insufficient resources for slice and DNN");
   (69, "Message not compatible with protocol state"); (71, "Protocol error, unspecified");
   (72, "APN restriction value incompatible with active PDU session")]%string.

Definition securityHeaderNames : gmap Z string := list_to_map
  [(0, "Plain"); (1, "IntegrityProtected"); (2, "Ciphered"); (3, "IntegrityProtected+NewCtx");
   (4, "Ciphered+NewCtx")]%string.

Record nasRecord := {
  n_SrcIP : string;
  n_DstIP : string;
  n_SrcPort : Z;
  n_DstPort : Z;
  n_FrameNum : Z;
  n_Timestamp : time;
  n_Procedure : string;
  n_MessageType : string;
  n_RegistrationType : string;
  n_SecurityHeader : string;
  n_CauseCode : Z;
  n_CauseName : string;
  n_PDUSessionID : Z;
  n_IsError : bool;
  n_IsMM : bool;
  n_AuthFailures : Z;
  n_MMMessages : Z;
  n_SMMessages : Z;
}.

Record Decoder := { records : list nasRecord; authFailures : gmap string Z }.
Definition NewDecoder : Decoder := {| records := []; authFailures := ∅ |}.

(** ** The records *)

Definition classifyMMProcedure (msgType : Z) : string :=
  if bool_decide (msgType ∈ [0x41; 0x42; 0x43; 0x44]) then "Registration"
  else if bool_decide (msgType ∈ [0x45; 0x46; 0x47; 0x48]) then "Deregistration"
  else if bool_decide (msgType ∈ [0x50; 0x51; 0x52]) then "Service"
  else if bool_decide (msgType ∈ [0x57; 0x58; 0x59; 0x5a; 0x5b]) then "Authentication"
  else if bool_decide (msgType ∈ [0x5e; 0x5f; 0x60]) then "Security"
  else if bool_decide (msgType ∈ [0x5c; 0x5d]) then "Identity"
  else if bool_decide (msgType ∈ [0x55; 0x56]) then "ConfigurationUpdate"
  else if bool_decide (msgType ∈ [0x67; 0x68]) then "NASTransport"
  else "MM".

Definition classifySMProcedure (msgType : Z) : string :=
  if (0xc1 <=? msgType) && (msgType <=? 0xc7) then "PDUSessionEstablishment"
  else if (0xc9 <=? msgType) && (msgType <=? 0xcd) then "PDUSessionModification"
  else if (0xd1 <=? msgType) && (msgType <=? 0xd4) then "PDUSessionRelease"
  else "SM".

Definition buildNASSummary (rec : nasRecord) : string :=
  let s := "NAS5G " +:+ n_Procedure rec +:+ " " +:+ n_MessageType rec in
  let s := if negb (String.eqb (n_RegistrationType rec) "")
           then s +:+ " [" +:+ n_RegistrationType rec +:+ "]" else s in
  let s := if negb (n_PDUSessionID rec =? 0)
           then s +:+ " PDU-Session=" +:+ fmt_d (n_PDUSessionID rec) else s in
  if n_IsError rec && negb (String.eqb (n_CauseName rec) "")
  then s +:+ " [" +:+ n_CauseName rec +:+ "]" else s.

(** A 5GMM record: the body fields are filled in after. *)
Definition mm_record (pkt : Packet) (procedure msgName secHdrName regType : string) (code : Z)
    (cause : string) (isError : bool) (failures : Z) : nasRecord :=
  {| n_SrcIP := SrcIP pkt; n_DstIP := DstIP pkt; n_SrcPort := SrcPort pkt; n_DstPort := DstPort pkt;
     n_FrameNum := FrameNumber pkt; n_Timestamp := Timestamp pkt; n_Procedure := procedure;
     n_MessageType := msgName; n_RegistrationType := regType; n_SecurityHeader := secHdrName;
     n_CauseCode := code; n_CauseName := cause; n_PDUSessionID := 0; n_IsError := isError;
     n_IsMM := true; n_AuthFailures := failures; n_MMMessages := 1; n_SMMessages := 0 |}.

Definition sm_record (pkt : Packet) (procedure msgName : string) (session code : Z)
    (cause : string) (isError : bool) : nasRecord :=
  {| n_SrcIP := SrcIP pkt; n_DstIP := DstIP pkt; n_SrcPort := SrcPort pkt; n_DstPort := DstPort pkt;
     n_FrameNum := FrameNumber pkt; n_Timestamp := Timestamp pkt; n_Procedure := procedure;
     n_MessageType := msgName; n_RegistrationType := ""; n_SecurityHeader := "";
     n_CauseCode := code; n_CauseName := cause; n_PDUSessionID := session; n_IsError := isError;
     n_IsMM := false; n_AuthFailures := 0; n_MMMessages := 0; n_SMMessages := 1 |}.

(** [body := data; if bodyOffset < len(data) { body = data[bodyOffset:] }] *)
Definition message_body (data : list byte) (bodyOffset : Z) : res (list byte) :=
  if bodyOffset <? zlen data then slice_from data bodyOffset else Ok data.

(** The cause octet of a body, with its name, when the body has one. *)
Definition body_cause (prefix : string) (body : list byte) : res (option (Z * string)) :=
  if 1 <=? zlen body then
    c ← idx body 0;
    let name := map_str mmCauseNames (u8 c) in
    Ok (Some (u8 c, if String.eqb name "" then prefix +:+ fmt_d (u8 c) else name))
  else Ok None.

Definition ue_key (ip : string) (port : Z) : string := ip +:+ "-" +:+ fmt_d port.

(** [d.authFailures[k]] *)
Definition failures (d : Decoder) (k : string) : Z := default 0 (authFailures d !! k).

(** The end of both builders: the packet is annotated and the record appended. *)
Definition append_record (d : Decoder) (pkt : Packet) (rec : nasRecord) : Decoder * Packet * option nasRecord :=
  ({| records := records d ++ [rec]; authFailures := authFailures d |},
   set_app "NAS5G" (buildNASSummary rec) pkt, Some rec).

Definition buildMMRecord (d : Decoder) (pkt : Packet) (secHdr msgType : Z) (data : list byte)
    (bodyOffset : Z) : res (Decoder * Packet * option nasRecord) :=
  match mmMessageNames !! msgType with
  | None => Ok (d, pkt, None)
  | Some msgName =>
    let secHdrName := map_str securityHeaderNames secHdr in
    let secHdrName := if String.eqb secHdrName "" then "SecHdr_" +:+ fmt_d secHdr else secHdrName in
    let mk := mm_record pkt (classifyMMProcedure msgType) msgName secHdrName in
    body ← message_body data bodyOffset;
    if msgType =? 0x41 then
      if 1 <=? zlen body then
        b ← idx body 0;
        Ok (append_record d pkt (mk (map_str registrationTypes (Z.land (u8 b) 0x07)) 0 "" false 0))
      else Ok (append_record d pkt (mk "" 0 "" false 0))
    else if bool_decide (msgType ∈ [0x44; 0x51; 0x47]) then
      cause ← body_cause "Cause_" body;
      match cause with
      | Some (code, name) => Ok (append_record d pkt (mk "" code name true 0))
      | None => Ok (append_record d pkt (mk "" 0 "" false 0))
      end
    else if msgType =? 0x5a then
      let ueKey := ue_key (SrcIP pkt) (SrcPort pkt) in
      let n := i64 (failures d ueKey + 1) in
      let d := {| records := records d; authFailures := <[ueKey := n]> (authFailures d) |} in
      cause ← body_cause "Cause_" body;
      let '(code, name) := default (0, "") cause in
      Ok (append_record d pkt (mk "" code name true n))
    else if msgType =? 0x59 then Ok (append_record d pkt (mk "" 0 "" true 0))
    else if msgType =? 0x60 then
      cause ← body_cause "Cause_" body;
      let '(code, name) := default (0, "") cause in
      Ok (append_record d pkt (mk "" code name true 0))
    else Ok (append_record d pkt (mk "" 0 "" false 0))
  end.

Definition buildSMRecord (d : Decoder) (pkt : Packet) (pduSessionID msgType : Z) (data : list byte)
    (bodyOffset : Z) : res (Decoder * Packet * option nasRecord) :=
  match smMessageNames !! msgType with
  | None => Ok (d, pkt, None)
  | Some msgName =>
    let mk := sm_record pkt (classifySMProcedure msgType) msgName pduSessionID in
    body ← message_body data bodyOffset;
    if bool_decide (msgType ∈ [0xc3; 0xca; 0xd2]) then
      cause ← body_cause "5GSM_Cause_" body;
      let '(code, name) := default (0, "") cause in
      Ok (append_record d pkt (mk code name true))
    else Ok (append_record d pkt (mk 0 "" false))
  end.

(** ** The scan *)

Definition tryParseNAS (d : Decoder) (data : list byte) (pkt : Packet) :
    res (Decoder * Packet * option nasRecord) :=
  if zlen data <? 3 then Ok (d, pkt, None)
  else
    epd ← idx data 0;
    let epd := u8 epd in
    if negb (epd =? EPD5GMM) && negb (epd =? EPD5GSM) then Ok (d, pkt, None)
    else if epd =? EPD5GMM then
      b1 ← idx data 1;
      let secHdr := Z.land (u8 b1) 0x0F in
      if secHdr =? 0 then
        msgType ← idx data 2;
        buildMMRecord d pkt secHdr (u8 msgType) data 3
      else if bool_decide (secHdr ∈ [1; 3; 2; 4]) then
        if zlen data <? 8 then Ok (d, pkt, None)
        else
          msgType ← idx data 7;
          buildMMRecord d pkt secHdr (u8 msgType) data 8
      else Ok (d, pkt, None)
    else if zlen data <? 4 then Ok (d, pkt, None)
    else
      pduSessionID ← idx data 1;
      msgType ← idx data 3;
      buildSMRecord d pkt (u8 pduSessionID) (u8 msgType) data 4.

Definition extractDataFromSCTP (data : list byte) : res (list byte) := user_data data.

(** One turn of the scan over the raw payload. *)
Definition scan_turn (d : Decoder) (pkt : Packet) (i : Z) :
    res (ctl Z (Decoder * Packet * option nasRecord)) :=
  let payload := Payload pkt in
  if i + 2 <? zlen payload then
    epd ← idx payload i;
    if (u8 epd =? EPD5GMM) || (u8 epd =? EPD5GSM) then
      rest ← slice_from payload i;
      '(d', pkt', rec) ← tryParseNAS d rest pkt;
      match rec with
      | Some _ => Ok (Done (d', pkt', rec))
      | None => Ok (Next (i + 1))
      end
    else Ok (Next (i + 1))
  else Ok (Done (d, pkt, None)).

Definition scan_raw (d : Decoder) (pkt : Packet) : res (Decoder * Packet * option nasRecord) :=
  loop (S (length (Payload pkt))) (scan_turn d pkt) 0.

Definition scanPayload (d : Decoder) (pkt : Packet) : res (Decoder * Packet * option nasRecord) :=
  if String.eqb (Protocol pkt) "SCTP" then
    inner ← extractDataFromSCTP (Payload pkt);
    if 3 <=? zlen inner then
      '(d', pkt', rec) ← tryParseNAS d inner pkt;
      match rec with
      | Some _ => Ok (d', pkt', rec)
      | None => scan_raw d pkt
      end
    else scan_raw d pkt
  else scan_raw d pkt.

(** The early returns of both handlers, negated. *)
Definition admits (pkt : Packet) : bool :=
  (String.eqb (Protocol pkt) "SCTP" || String.eqb (Protocol pkt) "UDP" || String.eqb (Protocol pkt) "TCP")
  && (3 <=? zlen (Payload pkt)).

Definition HandlePacket (d : Decoder) (pkt : Packet) : res (Decoder * Packet) :=
  if negb (admits pkt) then Ok (d, pkt)
  else '(d, pkt, _) ← scanPayload d pkt; Ok (d, pkt).

(** The entries that the live metadata and the flow metrics share. *)
Definition record_entries (rec : nasRecord) : list (string * any) :=
  [("procedure", AStr (n_Procedure rec)); ("message_type", AStr (n_MessageType rec));
   ("registration_type", AStr (n_RegistrationType rec)); ("security_header", AStr (n_SecurityHeader rec));
   ("cause_code", AInt TU8 (n_CauseCode rec)); ("cause_name", AStr (n_CauseName rec));
   ("pdu_session_id", AInt TU8 (n_PDUSessionID rec)); ("is_error", ABool (n_IsError rec))]%string.

Definition live_errors (rec : nasRecord) : list PacketError :=
  if n_IsError rec && negb (n_CauseCode rec =? 0) then
    [{| Code := "NAS5G_" +:+ fmt_d (n_CauseCode rec);
        Title := "NAS-5GS " +:+ n_MessageType rec +:+ " Failed";
        Description := "Cause: " +:+ n_CauseName rec +:+ " (" +:+ fmt_d (n_CauseCode rec) +:+ ")";
        Severity := "error" |}]
  else [].

Definition HandlePacketLive (d : Decoder) (pkt : Packet) :
    res (Decoder * Packet * option DecodedPacket) :=
  if negb (admits pkt) then Ok (d, pkt, None)
  else
    '(d, pkt, o) ← scanPayload d pkt;
    match o with
    | None => Ok (d, pkt, None)
    | Some rec =>
      Ok (d, pkt, Some {| D_Packet := pkt; D_Protocol := "NAS5G"; D_Summary := buildNASSummary rec;
        D_Metadata := list_to_map (record_entries rec); D_Errors := live_errors rec |})
    end.

Definition record_flow (d : Decoder) (rec : nasRecord) : Flow :=
  let authFails := failures d (ue_key (n_SrcIP rec) (n_SrcPort rec)) in
  {| FlowID := "nas5g-" +:+ n_SrcIP rec +:+ "-" +:+ fmt_d (n_FrameNum rec);
     Type_ := FlowNAS5G; F_SrcIP := n_SrcIP rec; F_DstIP := n_DstIP rec;
     F_SrcPort := n_SrcPort rec; F_DstPort := n_DstPort rec;
     StartTime := n_Timestamp rec; EndTime := n_Timestamp rec;
     Metrics := list_to_map (record_entries rec ++
       [("auth_failures", AInt TInt authFails); ("mm_messages", AInt TInt (n_MMMessages rec));
        ("sm_messages", AInt TInt (n_SMMessages rec))]%string) |}.

Definition Flush (d : Decoder) : list Flow := record_flow d <$> records d.

(** ** What a record comes from *)

Definition mm_type (t : Z) : bool := bool_decide (is_Some (mmMessageNames !! t)).
Definition sm_type (t : Z) : bool := bool_decide (is_Some (smMessageNames !! t)).

(** The octets at the start of [data] are taken for a NAS message: a plain 5GMM
    message with its type in octet 2, one with a security header with its type
    in octet 7, a 5GSM message with its type in octet 3. *)
Definition decodes (data : list byte) : bool :=
  match data with
  | e :: b1 :: b2 :: tl =>
    if u8 e =? EPD5GMM then
      if Z.land (u8 b1) 0x0F =? 0 then mm_type (u8 b2)
      else bool_decide (Z.land (u8 b1) 0x0F ∈ [1; 3; 2; 4]) &&
           match tl !! 4%nat with Some t => mm_type (u8 t) | None => false end
    else (u8 e =? EPD5GSM) && match tl !! 0%nat with Some t => sm_type (u8 t) | None => false end
  | _ => false
  end.

(** What a builder or the parser did: a record appended and the packet
    annotated, or nothing. An Authentication Failure counts for its sender. *)
Definition recorded (d : Decoder) (pkt : Packet) (r : Decoder * Packet * option nasRecord) (ok : bool) : Prop :=
  let '(d', pkt', o) := r in
  match o with
  | Some rec =>
    ok = true /\ records d' = records d ++ [rec] /\ pkt' = set_app "NAS5G" (buildNASSummary rec) pkt /\
    n_SrcIP rec = SrcIP pkt /\ n_SrcPort rec = SrcPort pkt /\
    let key := ue_key (SrcIP pkt) (SrcPort pkt) in
    authFailures d' = (if String.eqb (n_MessageType rec) "Authentication Failure"
                       then <[key := i64 (failures d key + 1)]> (authFailures d) else authFailures d)
  | None => ok = false /\ d' = d /\ pkt' = pkt
  end.

Lemma message_body_returns data o : 0 <= o -> returns (message_body data o) (fun _ => True).
Proof.
  intros Ho. unfold message_body. destruct (Z.ltb_spec o (zlen data)); [|done].
  by rewrite slice_from_Ok by lia.
Qed.

Lemma body_cause_returns prefix body : returns (body_cause prefix body) (fun _ => True).
Proof.
  unfold body_cause. destruct (Z.leb_spec 1 (zlen body)); [|done]. run_step. by apply returns_idx; [lia|].
Qed.

(** The name of a 5GMM type is that of an Authentication Failure for 0x5a only. *)
Lemma mm_auth_failure t name :
  mmMessageNames !! t = Some name -> String.eqb name "Authentication Failure" = (t =? 0x5a).
Proof.
  unfold mmMessageNames. intros E%elem_of_list_to_map_2%list_elem_of_In.
  repeat (destruct E as [[= <- <-]|E]; [done|]). done.
Qed.

Lemma sm_no_auth_failure t name :
  smMessageNames !! t = Some name -> String.eqb name "Authentication Failure" = false.
Proof.
  unfold smMessageNames. intros E%elem_of_list_to_map_2%list_elem_of_In.
  repeat (destruct E as [[= <- <-]|E]; [done|]). done.
Qed.

Lemma buildMM_recorded d pkt secHdr t data o :
  0 <= o -> returns (buildMMRecord d pkt secHdr t data o) (fun r => recorded d pkt r (mm_type t)).
Proof.
  intros Ho. unfold buildMMRecord, mm_type. destruct (mmMessageNames !! t) as [name|] eqn:E; [|done].
  apply mm_auth_failure in E. cbv zeta.
  apply returns_bind. eapply returns_weaken; [by apply message_body_returns|]. intros body _.
  assert (forall fl ca, t <> 0x5a -> recorded d pkt (append_record d pkt (mm_record pkt (classifyMMProcedure t) name
    (if String.eqb (map_str securityHeaderNames secHdr) "" then "SecHdr_" +:+ fmt_d secHdr
     else map_str securityHeaderNames secHdr) fl (fst (fst ca)) (snd (fst ca)) (snd ca) 0)) true) as Hplain.
  { intros fl ca Ht. cbn. rewrite E, (proj2 (Z.eqb_neq _ _) Ht). by split_and!. }
  destruct (t =? 0x41) eqn:E41.
  { destruct (Z.leb_spec 1 (zlen body)).
    - run_step. apply returns_idx; [lia|]. intros b _. apply (Hplain _ (0, "", false)). lia.
    - apply (Hplain _ (0, "", false)). lia. }
  destruct (bool_decide (t ∈ [0x44; 0x51; 0x47])) eqn:E44.
  { apply bool_decide_eq_true in E44. assert (t <> 0x5a) by (intros ->; set_solver).
    apply returns_bind. eapply returns_weaken; [apply body_cause_returns|]. intros [[code c]|] _.
    - by apply (Hplain _ (code, c, true)).
    - by apply (Hplain _ (0, "", false)). }
  destruct (t =? 0x5a) eqn:E5a.
  { apply returns_bind. eapply returns_weaken; [apply body_cause_returns|]. intros c _.
    destruct (default (0, "") c) as [code nm]. cbn. rewrite E. by split_and!. }
  apply Z.eqb_neq in E5a.
  destruct (t =? 0x59); [by apply (Hplain _ (0, "", true))|].
  destruct (t =? 0x60); [|by apply (Hplain _ (0, "", false))].
  apply returns_bind. eapply returns_weaken; [apply body_cause_returns|]. intros c _.
  destruct (default (0, "") c) as [code nm]. by apply (Hplain _ (code, nm, true)).
Qed.

Lemma buildSM_recorded d pkt s t data o :
  0 <= o -> returns (buildSMRecord d pkt s t data o) (fun r => recorded d pkt r (sm_type t)).
Proof.
  intros Ho. unfold buildSMRecord, sm_type. destruct (smMessageNames !! t) as [name|] eqn:E; [|done].
  apply sm_no_auth_failure in E. cbv zeta.
  apply returns_bind. eapply returns_weaken; [by apply message_body_returns|]. intros body _.
  destruct (bool_decide _); [|cbn; rewrite E; by split_and!].
  apply returns_bind. eapply returns_weaken; [apply body_cause_returns|]. intros c _.
  destruct (default (0, "") c) as [code nm]. cbn. rewrite E. by split_and!.
Qed.

Lemma tryParse_recorded d data pkt :
  returns (tryParseNAS d data pkt) (fun r => recorded d pkt r (decodes data)).
Proof.
  unfold tryParseNAS. destruct (Z.ltb_spec (zlen data) 3).
  { destruct data as [|? [|? [|]]]; try done. unfold zlen in *. cbn in *. lia. }
  destruct data as [|e [|b1 [|b2 tl]]]; try (unfold zlen in *; cbn in *; lia).
  set (data := e :: b1 :: b2 :: tl) in *.
  assert (zlen data = 3 + zlen tl) as Hz by (unfold data; rewrite !zlen_cons; lia).
  assert (forall k, idx data (3 + Z.of_nat k) = match tl !! k with Some x => Ok x | None => Panic end) as Hk.
  { intros k. destruct (tl !! k) as [x|] eqn:E.
    - apply idx_lookup; [lia|]. replace (Z.to_nat _) with (3 + k)%nat by lia. done.
    - unfold idx. apply lookup_ge_None in E. unfold zlen in *. by replace (_ && _) with false by lia. }
  assert (idx data 0 = Ok e /\ idx data 1 = Ok b1 /\ idx data 2 = Ok b2) as (-> & E1 & E2)
    by (split_and!; apply idx_lookup; done || lia).
  cbn [mbind res_bind]. cbv zeta. unfold decodes, data. fold data.
  destruct (u8 e =? EPD5GMM) eqn:Em; cbn [negb andb].
  - rewrite E1. cbn [mbind res_bind]. destruct (Z.land (u8 b1) 0x0F =? 0).
    + rewrite E2. cbn [mbind res_bind]. by apply buildMM_recorded.
    + destruct (bool_decide _); cbn [andb]; [|done].
      destruct (Z.ltb_spec (zlen data) 8).
      * rewrite (lookup_ge_None_2 tl 4%nat) by (unfold zlen in *; lia). done.
      * pose proof (Hk 4%nat) as H7. change (3 + Z.of_nat 4) with 7 in H7. rewrite H7.
        destruct (tl !! 4%nat) as [t|] eqn:Et.
        -- cbn [mbind res_bind]. by apply buildMM_recorded.
        -- apply lookup_ge_None in Et. unfold zlen in *. lia.
  - destruct (u8 e =? EPD5GSM) eqn:Es; cbn [negb andb]; [|done].
    destruct (Z.ltb_spec (zlen data) 4).
    + rewrite (lookup_ge_None_2 tl 0%nat) by (unfold zlen in *; lia). done.
    + rewrite E1. pose proof (Hk 0%nat) as H3. change (3 + Z.of_nat 0) with 3 in H3. rewrite H3.
      destruct (tl !! 0%nat) as [t|] eqn:Et.
      * cbn [mbind res_bind]. by apply buildSM_recorded.
      * apply lookup_ge_None in Et. unfold zlen in *. lia.
Qed.

(** ** The scan records the first candidate *)

Fixpoint suffixes {A} (l : list A) : list (list A) :=
  match l with [] => [] | _ :: l' => l :: suffixes l' end.

(** Where a message may start, in the order of the scan: the user data of the
    first DATA chunk, then every octet of the payload. *)
Definition candidates (pkt : Packet) : list (list byte) :=
  (if String.eqb (Protocol pkt) "SCTP" then
     match user_data (Payload pkt) with Ok inner => [inner] | _ => [] end
   else []) ++ suffixes (Payload pkt).

(** The first of them that is taken for a message. *)
Definition first_message (cands : list (list byte)) : option (list byte) :=
  snd <$> list_find (fun data => decodes data = true) cands.

Lemma first_message_cons data cands :
  first_message (data :: cands) = if decodes data then Some data else first_message cands.
Proof.
  unfold first_message. cbn [list_find]. destruct (decodes data); [done|].
  rewrite decide_False by done. destruct (list_find _ cands) as [[i c]|]; done.
Qed.

Lemma decodes_short data : zlen data <= 2 -> decodes data = false.
Proof. destruct data as [|a [|b [|c l]]]; try done. rewrite !zlen_cons. pose proof (zlen_nonneg l). lia. Qed.

Lemma suffixes_short l : zlen l <= 2 -> first_message (suffixes l) = None.
Proof.
  induction l as [|x l IH]; intros Hl; [done|]. cbn [suffixes].
  rewrite first_message_cons, decodes_short by done. apply IH. rewrite zlen_cons in Hl. lia.
Qed.

(** The outcome of a parse, when nothing was recorded and when something was. *)
Lemma tryParse_none d data pkt : decodes data = false -> tryParseNAS d data pkt = Ok (d, pkt, None).
Proof.
  intros Hd. destruct (returns_inv _ _ (tryParse_recorded d data pkt)) as ([[d' p'] [rec|]] & -> & Hr).
  - cbn in Hr. rewrite Hd in Hr. by destruct Hr.
  - cbn in Hr. by destruct Hr as (_ & -> & ->).
Qed.

Lemma tryParse_some d data pkt : decodes data = true ->
  exists d' pkt' rec, tryParseNAS d data pkt = Ok (d', pkt', Some rec) /\
    recorded d pkt (d', pkt', Some rec) true.
Proof.
  intros Hd. destruct (returns_inv _ _ (tryParse_recorded d data pkt)) as ([[d' p'] [rec|]] & -> & Hr);
    rewrite Hd in Hr; [eauto 10|]. by destruct Hr.
Qed.

(** What the scan makes of its candidates. *)
Definition scan_result (d : Decoder) (pkt : Packet) (cands : list (list byte)) :
    res (Decoder * Packet * option nasRecord) :=
  match first_message cands with
  | Some data => tryParseNAS d data pkt
  | None => Ok (d, pkt, None)
  end.

Lemma scan_loop d pkt pre l : Payload pkt = pre ++ l ->
  loop (S (length l)) (scan_turn d pkt) (zlen pre) = scan_result d pkt (suffixes l).
Proof.
  revert pre. induction l as [|x l IH]; intros pre Hp; cbn [loop];
    set (next := loop (length _) _); unfold scan_turn; cbv zeta; subst next.
  - rewrite app_nil_r in Hp. replace (zlen pre + 2 <? zlen (Payload pkt)) with false by (rewrite Hp; lia). done.
  - assert (zlen (Payload pkt) = zlen pre + zlen (x :: l)) as Hz by (by rewrite Hp, zlen_app).
    destruct (Z.ltb_spec (zlen pre + 2) (zlen (Payload pkt))) as [Hlt|Hge].
    2: { cbn [mbind res_bind]. unfold scan_result. rewrite suffixes_short by lia. done. }
    assert (idx (Payload pkt) (zlen pre) = Ok x) as -> by (rewrite Hp; apply idx_app_mid).
    pose proof (zlen_nonneg pre). pose proof (zlen_nonneg (x :: l)).
    assert (slice_from (Payload pkt) (zlen pre) = Ok (x :: l)) as ->.
    { rewrite slice_from_Ok by lia. rewrite Hp. unfold zlen. by rewrite Nat2Z.id, drop_app_all. }
    specialize (IH (pre ++ [x])). rewrite zlen_app in IH. change (zlen [x]) with 1 in IH.
    specialize (IH ltac:(by rewrite Hp, <-app_assoc)).
    cbn [mbind res_bind suffixes]. unfold scan_result. rewrite first_message_cons.
    destruct (decodes (x :: l)) eqn:Ed.
    + destruct (tryParse_some d (x :: l) pkt Ed) as (d' & p' & rec & -> & _).
      assert ((u8 x =? EPD5GMM) || (u8 x =? EPD5GSM) = true) as ->; [|done].
      destruct l as [|? [|? ?]]; try done. cbn in Ed.
      destruct (u8 x =? EPD5GMM); [done|]. by destruct (u8 x =? EPD5GSM).
    + rewrite tryParse_none by done. destruct (_ || _); cbn [mbind res_bind]; apply IH.
Qed.

Lemma scan_raw_result d pkt : scan_raw d pkt = scan_result d pkt (suffixes (Payload pkt)).
Proof. by apply (scan_loop d pkt []). Qed.

Lemma scanPayload_result d pkt :
  returns (user_data (Payload pkt)) (fun _ => True) ->
  scanPayload d pkt = scan_result d pkt (candidates pkt).
Proof.
  intros Hs. unfold scanPayload, candidates. rewrite scan_raw_result.
  destruct (String.eqb _ _); [|done]. unfold extractDataFromSCTP.
  destruct (returns_inv _ _ Hs) as (inner & -> & _). cbn [mbind res_bind app].
  unfold scan_result at 3. rewrite first_message_cons.
  destruct (decodes inner) eqn:Ed.
  - destruct (Z.leb_spec 3 (zlen inner)); [|rewrite decodes_short in Ed by lia; done].
    by destruct (tryParse_some d inner pkt Ed) as (d' & p' & rec & -> & _).
  - rewrite tryParse_none by done. by destruct (_ <=? _).
Qed.

Lemma scan_result_recorded d pkt cands :
  returns (scan_result d pkt cands) (fun r => recorded d pkt r (bool_decide (is_Some (first_message cands)))).
Proof.
  unfold scan_result. destruct (first_message cands) as [data|] eqn:E; [|done].
  unfold first_message in E. destruct (list_find _ cands) as [[i c]|] eqn:Ef; [|done].
  apply list_find_Some in Ef as (_ & Hd & _). cbn in E. injection E as <-.
  destruct (tryParse_some d c pkt Hd) as (d' & p' & rec & -> & Hr). exact Hr.
Qed.

Lemma HandlePacket_recorded d pkt d' pkt' :
  HandlePacket d pkt = Ok (d', pkt') -> exists o b, recorded d pkt (d', pkt', o) b.
Proof.
  unfold HandlePacket. destruct (negb (admits pkt)); [intros [= <- <-]; by exists None, false|].
  intros ([[d1 p1] o] & E & [= <- <-])%bind_Ok. exists o.
  assert (scanPayload d pkt = scan_result d pkt (suffixes (Payload pkt)) \/
    returns (user_data (Payload pkt)) (fun _ => True)) as [E' | Hs].
  { unfold scanPayload, extractDataFromSCTP in *. destruct (String.eqb _ _); [right|left; apply scan_raw_result].
    by destruct (user_data (Payload pkt)). }
  - rewrite E' in E. pose proof (scan_result_recorded d pkt (suffixes (Payload pkt))) as H. rewrite E in H. eauto.
  - rewrite scanPayload_result in E by done. pose proof (scan_result_recorded d pkt (candidates pkt)) as H.
    rewrite E in H. eauto.
Qed.

(** The NAS decoder records the first message it can see, and only that.
    On a packet it admits without a short DATA chunk, [HandlePacket] returns.
    When neither the user data nor any octet of the payload starts a message it
    knows, decoder and packet stay as they were; otherwise one record is
    appended, the one of the first such place (user data first), the packet is
    annotated, and a failed authentication is counted for its sender. *)
Theorem nas_scan_first d pkt :
  admits pkt = true -> (forall o, 0 <= o -> short_data (Payload pkt) o = false) ->
  match first_message (candidates pkt) with
  | None => HandlePacket d pkt = Ok (d, pkt)
  | Some data => exists rec d' pkt', decodes data = true /\ tryParseNAS d data pkt = Ok (d', pkt', Some rec) /\
      HandlePacket d pkt = Ok (d', pkt') /\ records d' = records d ++ [rec] /\ AppProtocol pkt' = "NAS5G" /\
      forall key, failures d' key = if bool_decide (key = ue_key (SrcIP pkt) (SrcPort pkt)) &&
        String.eqb (n_MessageType rec) "Authentication Failure" then i64 (failures d key + 1) else failures d key
  end.
Proof.
  intros Ha Hs. unfold HandlePacket. rewrite Ha. cbn [negb].
  rewrite scanPayload_result by (eapply returns_weaken; [by apply user_data_returns|done]).
  unfold scan_result. destruct (first_message (candidates pkt)) as [data|] eqn:E; [|done].
  unfold first_message in E. destruct (list_find _ _) as [[i c]|] eqn:Ef; [|done].
  apply list_find_Some in Ef as (_ & Hd & _). cbn in E. injection E as <-.
  destruct (tryParse_some d c pkt Hd) as (d' & p' & rec & -> & _ & Hr & Hp & _ & _ & Hf).
  exists rec, d', p'. split_and!; [done..|by rewrite Hp|]. intros key. unfold failures. rewrite Hf.
  destruct (String.eqb _ _); [|by rewrite andb_false_r]. rewrite andb_true_r.
  case_bool_decide as Hk; [subst key; by rewrite lookup_insert_eq|by rewrite lookup_insert_ne].
Qed.

(** ** The failures that Flush reports *)

(** A record of a failed authentication of the sender [key]. *)
Definition failure_of (key : string) (rec : nasRecord) : bool :=
  String.eqb (n_MessageType rec) "Authentication Failure" &&
  String.eqb (ue_key (n_SrcIP rec) (n_SrcPort rec)) key.

Definition count_failures (key : string) (recs : list nasRecord) : Z :=
  zlen (filter (fun rec => failure_of key rec = true) recs).

(** The table holds, per sender, the number of its failures on record. *)
Definition counted (d : Decoder) : Prop :=
  forall key, failures d key = i64 (count_failures key (records d)).

Lemma count_failures_snoc key recs rec :
  count_failures key (recs ++ [rec]) = count_failures key recs + (if failure_of key rec then 1 else 0).
Proof.
  unfold count_failures. rewrite filter_app, zlen_app. f_equal. rewrite filter_cons, filter_nil.
  destruct (failure_of key rec); [by rewrite decide_True|by rewrite decide_False].
Qed.

Lemma count_failures_all key recs :
  Forall (fun rec => failure_of key rec = true) recs -> count_failures key recs = zlen recs.
Proof.
  unfold count_failures. induction 1 as [|rec recs Hr _ IH]; [done|]. rewrite filter_cons_True by done.
  by rewrite !zlen_cons, IH.
Qed.

Lemma counted_new : counted NewDecoder.
Proof. intros key. done. Qed.

Lemma counted_handle d pkt d' pkt' : counted d -> HandlePacket d pkt = Ok (d', pkt') -> counted d'.
Proof.
  intros Hc E key. apply HandlePacket_recorded in E as ([rec|] & b & Hr); cbn in Hr.
  2: { destruct Hr as (_ & -> & _). apply Hc. }
  destruct Hr as (_ & Hrec & _ & Hip & Hport & Hf). rewrite Hrec, count_failures_snoc.
  unfold failures. rewrite Hf. unfold failure_of. rewrite Hip, Hport.
  destruct (String.eqb (n_MessageType rec) _); cbn [andb]; [|rewrite Z.add_0_r; apply Hc].
  destruct (String.eqb_spec (ue_key (SrcIP pkt) (SrcPort pkt)) key) as [->|Hne].
  - rewrite lookup_insert_eq. cbn [default]. unfold id. rewrite (Hc key). apply i64_add_l.
  - rewrite lookup_insert_ne, Z.add_0_r by done. apply Hc.
Qed.

(** A path of this web server is a message of this decoder: [~], an octet with a
    zero low half, and the code of a Registration Request. *)
Definition ex_http : Packet :=
  mk_packet 0 "10.0.0.1" "10.0.0.2" 40000 80 "TCP" (gobytes "GET /~pAul/index.html HTTP/1.1").

Example nas_scan_first_witness :
  exists rec d' pkt', HandlePacket NewDecoder ex_http = Ok (d', pkt') /\ records d' = [rec] /\
    n_MessageType rec = "Registration Request" /\ AppProtocol pkt' = "NAS5G".
Proof.
  assert (forall o, 0 <= o -> short_data (Payload ex_http) o = false) as Hs
    by (apply no_short_data; by vm_compute).
  pose proof (nas_scan_first NewDecoder ex_http eq_refl Hs) as H.
  replace (first_message (candidates ex_http)) with (Some (gobytes "~pAul/index.html HTTP/1.1")) in H
    by by vm_compute.
  destruct H as (rec & d' & pkt' & _ & Hp & Hh & Hr & Happ & _). exists rec, d', pkt'.
  split_and!; [done|by rewrite Hr| |done].
  assert ((snd <$> tryParseNAS NewDecoder (gobytes "~pAul/index.html HTTP/1.1") ex_http) = Ok (Some rec)) as E
    by by rewrite Hp.
  vm_compute in E. by injection E as <-.
Defined.

(** ** Protected messages

    TS 24.501 9.1: a protected message is the discriminator, the security
    header, four octets of authentication code, the sequence number, and then a
    whole plain message, which starts with its discriminator. *)

Definition not_epd (b : byte) : Prop := u8 b <> EPD5GMM /\ u8 b <> EPD5GSM.

Lemma decodes_not_epd b l : not_epd b -> decodes (b :: l) = false.
Proof.
  intros [H1 H2]. destruct l as [|? [|? ?]]; [done..|]. cbn [decodes].
  by rewrite (proj2 (Z.eqb_neq _ _) H1), (proj2 (Z.eqb_neq _ _) H2).
Qed.

Lemma first_message_skip pre l :
  Forall not_epd pre -> first_message (suffixes (pre ++ l)) = first_message (suffixes l).
Proof.
  induction 1 as [|b pre Hb _ IH]; [done|]. cbn [app suffixes].
  by rewrite first_message_cons, decodes_not_epd.
Qed.

(** Octet 7 of a protected message is a discriminator, and no type. *)
Lemma decodes_protected sec mac seq e inner :
  1 <= sec <= 4 -> length mac = 4%nat -> u8 e = EPD5GMM \/ u8 e = EPD5GSM ->
  decodes (x7e :: byte_of sec :: mac ++ seq :: e :: inner) = false.
Proof.
  intros Hsec Hmac He. destruct mac as [|m1 [|m2 [|m3 [|m4 [|]]]]]; try done. cbn [app decodes].
  rewrite u8_byte_of by lia. change (u8 x7e =? EPD5GMM) with true. cbv iota.
  assert (Z.land sec 0x0F = sec) as ->.
  { change 0x0F with (Z.ones 4). rewrite Z.land_ones by lia. apply Z.mod_small; lia. }
  replace (sec =? 0) with false by lia. cbn [lookup list_lookup].
  assert (mm_type (u8 e) = false) as ->; [|by rewrite andb_false_r]. destruct He as [-> | ->]; by vm_compute.
Qed.

Lemma buildMM_fields d pkt secHdr t data o d' p' rec :
  buildMMRecord d pkt secHdr t data o = Ok (d', p', Some rec) ->
  mmMessageNames !! t = Some (n_MessageType rec) /\
  n_SecurityHeader rec = (if String.eqb (map_str securityHeaderNames secHdr) "" then "SecHdr_" +:+ fmt_d secHdr
                          else map_str securityHeaderNames secHdr).
Proof.
  unfold buildMMRecord. destruct (mmMessageNames !! t) as [name|]; [|done]. cbv zeta.
  intros (body & _ & E)%bind_Ok.
  repeat match type of E with
  | (if ?b then _ else _) = _ => destruct b
  | mbind _ _ = _ => apply bind_Ok in E as (? & _ & E)
  | (match ?x with _ => _ end) = _ => destruct x
  end; injection E as <- <- <-; done.
Qed.

(** The protection of a message is never reported. On a packet whose payload
    carries a protected message of TS 24.501 around a plain 5GMM message of a
    known type, with no octet before the inner message that looks like a
    discriminator, the decoder does not take the protected message, since it
    reads its type where the inner discriminator stands: it records the inner
    message, and its security header as Plain. *)
Theorem nas_protected_as_plain d pkt pre sec mac seq t rest :
  1 <= sec <= 4 -> length mac = 4%nat -> 0 <= t < 256 -> mm_type t = true ->
  Forall not_epd (pre ++ mac ++ [seq]) ->
  Payload pkt = pre ++ x7e :: byte_of sec :: mac ++ seq :: x7e :: x00 :: byte_of t :: rest ->
  (forall inner, Protocol pkt = "SCTP" -> user_data (Payload pkt) = Ok inner -> decodes inner = false) ->
  admits pkt = true -> (forall o, 0 <= o -> short_data (Payload pkt) o = false) ->
  exists rec d' pkt', HandlePacket d pkt = Ok (d', pkt') /\ records d' = records d ++ [rec] /\
    mmMessageNames !! t = Some (n_MessageType rec) /\ n_SecurityHeader rec = "Plain".
Proof.
  intros Hsec Hmac Ht Hmm Hno Hp Hin Ha Hs. rewrite !Forall_app in Hno. destruct Hno as (Hpre & Hm & Hsq).
  set (inner := x7e :: x00 :: byte_of t :: rest) in *.
  assert (first_message (candidates pkt) = Some inner) as Hf.
  { assert (first_message (suffixes (Payload pkt)) = Some inner) as Hraw.
    { rewrite Hp, first_message_skip by done. cbn [suffixes].
      pose proof (decodes_protected sec mac seq x7e (x00 :: byte_of t :: rest) Hsec Hmac (or_introl eq_refl)) as Hprot.
      fold inner in Hprot. rewrite first_message_cons, Hprot.
      rewrite first_message_cons, decodes_not_epd by (unfold not_epd, EPD5GMM, EPD5GSM; rewrite u8_byte_of; lia).
      rewrite first_message_skip by done. rewrite Forall_singleton in Hsq. cbn [suffixes].
      rewrite first_message_cons, decodes_not_epd by done. unfold inner. cbn [suffixes].
      rewrite first_message_cons. cbn [decodes]. change (u8 x7e =? EPD5GMM) with true.
      change (Z.land (u8 x00) 15 =? 0) with true. cbv iota. by rewrite u8_byte_of, Hmm. }
    unfold candidates. destruct (String.eqb_spec (Protocol pkt) "SCTP") as [E|]; [|done].
    destruct (user_data (Payload pkt)) as [u| |] eqn:Eu; [|done..]. cbn [app].
    by rewrite first_message_cons, (Hin u). }
  unfold HandlePacket. rewrite Ha. cbn [negb].
  rewrite scanPayload_result by (eapply returns_weaken; [by apply user_data_returns|done]).
  unfold scan_result. rewrite Hf.
  assert (decodes inner = true) as Hd.
  { unfold inner. cbn [decodes]. change (u8 x7e =? EPD5GMM) with true.
    change (Z.land (u8 x00) 15 =? 0) with true. cbv iota. by rewrite u8_byte_of, Hmm. }
  destruct (tryParse_some d inner pkt Hd) as (d' & p' & rec & E & _ & Hr & _). rewrite E.
  exists rec, d', p'. split; [done|]. split; [done|].
  unfold tryParseNAS in E. replace (zlen inner <? 3) with false in E
    by (unfold inner; rewrite !zlen_cons; pose proof (zlen_nonneg rest); lia).
  assert (idx inner 0 = Ok x7e /\ idx inner 1 = Ok x00 /\ idx inner 2 = Ok (byte_of t)) as (E0 & E1 & E2)
    by (split_and!; by apply idx_lookup).
  rewrite E0, E1, E2 in E. cbn [mbind res_bind] in E. rewrite u8_byte_of in E by done.
  change (u8 x7e =? EPD5GMM) with true in E. cbn [negb andb] in E.
  apply buildMM_fields in E as [Hn ->]. done.
Qed.

(** An Authentication Failure with the header of a ciphered message, in an NGAP
    message in a DATA chunk. *)
Example nas_protected_as_plain_witness :
  let pre := data_header 3 31 1 1 1 60 ++ octets [0; 16; 0; 64] in
  let pkt := mk_packet 0 "10.0.0.1" "10.0.0.2" 40000 38412 "SCTP"
    (pre ++ octets [0x7E; 2; 9; 8; 7; 6; 1; 0x7E; 0; 0x5a; 21]) in
  exists rec d' pkt', HandlePacket NewDecoder pkt = Ok (d', pkt') /\ records d' = [rec] /\
    n_SecurityHeader rec = "Plain" /\ n_MessageType rec = "Authentication Failure".
Proof.
  intros pre pkt.
  destruct (nas_protected_as_plain NewDecoder pkt pre 2 (octets [9; 8; 7; 6]) (byte_of 1) 0x5a (octets [21]))
    as (rec & d' & pkt' & H1 & H2 & H3 & H4);
    [lia|done|lia|by vm_compute| |by vm_compute| |by vm_compute|apply no_short_data; by vm_compute|].
  - assert (forallb (fun b => negb (u8 b =? EPD5GMM) && negb (u8 b =? EPD5GSM)) (pre ++ octets [9; 8; 7; 6] ++ [byte_of 1]) = true)
      as Hall by by vm_compute.
    apply Forall_forall. intros b Hb. rewrite forallb_forall in Hall. apply list_elem_of_In, Hall in Hb.
    unfold not_epd. lia.
  - intros inner _ E. assert (user_data (Payload pkt) = Ok (octets [0; 16; 0; 64; 0x7E; 2; 9; 8; 7; 6; 1; 0x7E; 0; 0x5a; 21])) as E'
      by by vm_compute.
    rewrite E' in E. injection E as <-. by vm_compute.
  - exists rec, d', pkt'. split_and!; [done|by rewrite H2|done|].
    assert (mmMessageNames !! 0x5a = Some "Authentication Failure"%string) as E by by vm_compute.
    rewrite E in H3. by injection H3.
Defined.
