(* ===== verification/Snmp.v ===== *)
(** * internal/protocols/snmp: the SNMP decoder

    ber.go (BER elements, integers, object identifiers, varbind lists), types.go
    and decoder.go (v1, v2c and v3 messages). The fields of [Message] are
    grouped the way its comments group them. *)
From S2P Require Export Domain.

(** ** types.go *)

Definition tagInteger : Z := 0x02.
Definition tagOctetString : Z := 0x04.
Definition tagNull : Z := 0x05.
Definition tagOID : Z := 0x06.
Definition tagSequence : Z := 0x30.
Definition tagIPAddress : Z := 0x40.
Definition tagCounter32 : Z := 0x41.
Definition tagGauge32 : Z := 0x42.
Definition tagTimeTicks : Z := 0x43.
Definition tagOpaque : Z := 0x44.
Definition tagCounter64 : Z := 0x46.
Definition tagNoSuchObject : Z := 0x80.
Definition tagNoSuchInstance : Z := 0x81.
Definition tagEndOfMibView : Z := 0x82.

Definition PDUTrap : Z := 0xA4.
Definition PDUGetBulkRequest : Z := 0xA5.

Definition PDUNames : gmap Z string := list_to_map
  [(0xA0, "GetRequest"); (0xA1, "GetNextRequest"); (0xA2, "GetResponse"); (0xA3, "SetRequest");
   (0xA4, "Trap-v1"); (0xA5, "GetBulkRequest"); (0xA6, "InformRequest"); (0xA7, "SNMPv2-Trap");
   (0xA8, "Report")]%string.

Definition VersionNames : gmap Z string := list_to_map [(0, "v1"); (1, "v2c"); (3, "v3")]%string.

Definition ErrorStatusNames : gmap Z string := list_to_map
  [(0, "noError"); (1, "tooBig"); (2, "noSuchName"); (3, "badValue"); (4, "readOnly"); (5, "genErr");
   (6, "noAccess"); (7, "wrongType"); (8, "wrongLength"); (9, "wrongEncoding"); (10, "wrongValue");
   (11, "noCreation"); (12, "inconsistentValue"); (13, "resourceUnavailable"); (14, "commitFailed");
   (15, "undoFailed"); (16, "authorizationError"); (17, "notWritable"); (18, "inconsistentName")]%string.

Definition GenericTrapNames : gmap Z string := list_to_map
  [(0, "coldStart"); (1, "warmStart"); (2, "linkDown"); (3, "linkUp"); (4, "authenticationFailure");
   (5, "egpNeighborLoss"); (6, "enterpriseSpecific")]%string.

Record VarBind := { OID : string; Value : string }.

(** ** ber.go *)

(** The four results of readTLV; [t_err] says that [err] is not nil. *)
Record tlv := { t_tag : Z; t_content : list byte; t_next : Z; t_err : bool }.

Definition truncated (offset : Z) : tlv := {| t_tag := 0; t_content := []; t_next := offset; t_err := true |}.

(** The bytes of a long length. *)
Fixpoint read_length (n : nat) (data : list byte) (offset length : Z) : res (Z * Z) :=
  match n with
  | O => Ok (length, offset)
  | S n =>
    b ← idx data offset;
    read_length n data (offset + 1) (Z.lor (Z.shiftl length 8) (u8 b))
  end.

Definition readTLV (data : list byte) (offset : Z) : res tlv :=
  if zlen data <=? offset then Ok (truncated offset)
  else
    tag ← idx data offset;
    let offset := offset + 1 in
    if zlen data <=? offset then Ok (truncated offset)
    else
      lenByte ← idx data offset;
      let lenByte := u8 lenByte in
      let offset := offset + 1 in
      let finish '(length, offset) :=
        if (length <? 0) || (zlen data <? offset + length) then Ok (truncated offset)
        else
          content ← slice data offset (offset + length);
          Ok {| t_tag := u8 tag; t_content := content; t_next := offset + length; t_err := false |} in
      if Z.land lenByte 0x80 =? 0 then finish (lenByte, offset)
      else
        let numBytes := Z.land lenByte 0x7F in
        if (numBytes =? 0) || (4 <? numBytes) || (zlen data <? offset + numBytes) then
          Ok (truncated offset)
        else
          r ← read_length (Z.to_nat numBytes) data offset 0;
          finish r.

Definition decodeInt (b : list byte) : Z :=
  match b with
  | [] => 0
  | b0 :: rest =>
    foldl (fun v c => Z.lor (i64 (Z.shiftl v 8)) (u8 c)) (swrap 8 (u8 b0)) rest
  end.

Definition decodeUint (b : list byte) : Z :=
  foldl (fun v c => Z.lor (u64 (Z.shiftl v 8)) (u8 c)) 0 b.

(** One octet of an object identifier, on (parts, val). *)
Definition oid_step (st : list Z * Z) (c : byte) : list Z * Z :=
  let '(parts, val) := st in
  let val := Z.lor (i64 (Z.shiftl val 7)) (Z.land (u8 c) 0x7F) in
  if Z.land (u8 c) 0x80 =? 0 then (parts ++ [val], 0) else (parts, val).

Definition decodeOID (b : list byte) : string :=
  match b with
  | [] => ""
  | b0 :: rest =>
    let first := u8 b0 in
    let parts := fst (foldl oid_step ([first / 40; first mod 40], 0) rest) in
    join "." (fmt_d <$> parts)
  end.

Definition isPrintableASCII (b : list byte) : bool :=
  forallb (fun c => negb ((u8 c <? 0x20) || (0x7E <? u8 c))) b.

(** [%d.%d.%d.%d] of four bytes. *)
Definition quad (c : list byte) : string := join "." ((fun b => fmt_d (u8 b)) <$> c).

Definition formatValue (tag : Z) (content : list byte) : string :=
  if tag =? tagInteger then fmt_d (decodeInt content)
  else if tag =? tagOctetString then
    if isPrintableASCII content then gostr content else "0x" +:+ hex_encode content
  else if tag =? tagNull then ""
  else if tag =? tagOID then decodeOID content
  else if tag =? tagIPAddress then
    if zlen content =? 4 then quad content else "0x" +:+ hex_encode content
  else if bool_decide (tag ∈ [tagCounter32; tagGauge32; tagTimeTicks; tagCounter64]) then
    fmt_d (decodeUint content)
  else if tag =? tagOpaque then "0x" +:+ hex_encode content
  else if tag =? tagNoSuchObject then "noSuchObject"
  else if tag =? tagNoSuchInstance then "noSuchInstance"
  else if tag =? tagEndOfMibView then "endOfMibView"
  else "0x" +:+ hex_encode content.

(** One turn of the loop over varbinds, on (offset, vbs). *)
Definition varbind_body (content : list byte) (st : Z * list VarBind) :
    res (ctl (Z * list VarBind) (list VarBind)) :=
  let '(offset, vbs) := st in
  if offset <? zlen content then
    vb ← readTLV content offset;
    if t_err vb then Ok (Done vbs)
    else
      let offset := t_next vb in
      if negb (t_tag vb =? tagSequence) then Ok (Next (offset, vbs))
      else
        o ← readTLV (t_content vb) 0;
        if t_err o || negb (t_tag o =? tagOID) then Ok (Next (offset, vbs))
        else
          let oid := decodeOID (t_content o) in
          v ← readTLV (t_content vb) (t_next o);
          let value := if negb (t_err v) then formatValue (t_tag v) (t_content v) else "" in
          Ok (Next (offset, vbs ++ [{| OID := oid; Value := value |}]))
  else Ok (Done vbs).

Definition parseVarBindList (data : list byte) : res (list VarBind) :=
  t ← readTLV data 0;
  if t_err t || negb (t_tag t =? tagSequence) then Ok []
  else loop (S (length (t_content t))) (varbind_body (t_content t)) (0, []).

(** ** decoder.go *)

(** The fields that a PDU fills in: request and trap. *)
Record pdu_fields := {
  PDUType : Z;
  PDUName : string;
  RequestID : Z;
  ErrorStatus : Z;
  ErrorStatusName : string;
  ErrorIndex : Z;
  IsError : bool;
  IsTrap : bool;
  EnterpriseOID : string;
  AgentAddr : string;
  GenericTrap : Z;
  GenericTrapName : string;
  SpecificTrap : Z;
  VarBinds : list VarBind;
}.

(** The fields of SNMPv3 only. *)
Record v3_fields := {
  IsV3 : bool;
  MsgID : Z;
  SecurityModel : Z;
  AuthFlag : bool;
  PrivFlag : bool;
  EngineID : string;
  UserName : string;
  PayloadEncrypted : bool;
}.

Record Message := {
  sn_SrcIP : string;
  sn_DstIP : string;
  sn_SrcPort : Z;
  sn_DstPort : Z;
  sn_Timestamp : time;
  Version : Z;
  VersionName : string;
  Community : string;
  sn_pdu : pdu_fields;
  sn_v3 : v3_fields;
}.

Definition no_pdu : pdu_fields :=
  {| PDUType := 0; PDUName := ""; RequestID := 0; ErrorStatus := 0; ErrorStatusName := "";
     ErrorIndex := 0; IsError := false; IsTrap := false; EnterpriseOID := ""; AgentAddr := "";
     GenericTrap := 0; GenericTrapName := ""; SpecificTrap := 0; VarBinds := [] |}.
Definition no_v3 : v3_fields :=
  {| IsV3 := false; MsgID := 0; SecurityModel := 0; AuthFlag := false; PrivFlag := false;
     EngineID := ""; UserName := ""; PayloadEncrypted := false |}.

Record Decoder := { messages : list Message }.
Definition NewDecoder : Decoder := {| messages := [] |}.

Definition isSNMPPort (src dst : Z) : bool :=
  (src =? 161) || (dst =? 161) || (src =? 162) || (dst =? 162).

(** [if tag, c, next, err := readTLV(data, offset); err == nil && ok] : the
    content when the element is there, and the offset after it. *)
Definition read_if (ok : tlv -> bool) (data : list byte) (offset : Z) : res (option (list byte) * Z) :=
  t ← readTLV data offset;
  if negb (t_err t) && ok t then Ok (Some (t_content t), t_next t) else Ok (None, offset).

Definition is_tag (tag : Z) (t : tlv) : bool := t_tag t =? tag.
Definition any_element (t : tlv) : bool := true.

Definition int_or_0 (c : option (list byte)) : Z := default 0 (decodeInt <$> c).

Definition parseRequestPDU (pduTag : Z) (pduName : string) (data : list byte) : res pdu_fields :=
  '(requestID, offset) ← read_if (is_tag tagInteger) data 0;
  '(status, offset) ← read_if (is_tag tagInteger) data offset;
  '(index, offset) ← read_if (is_tag tagInteger) data offset;
  rest ← slice_from data offset;
  vbs ← parseVarBindList rest;
  Ok {| PDUType := pduTag; PDUName := pduName; RequestID := int_or_0 requestID;
        ErrorStatus := int_or_0 status;
        ErrorStatusName := default "" (map_str ErrorStatusNames ∘ decodeInt <$> status);
        ErrorIndex := int_or_0 index; IsError := negb (int_or_0 status =? 0);
        IsTrap := false; EnterpriseOID := ""; AgentAddr := ""; GenericTrap := 0;
        GenericTrapName := ""; SpecificTrap := 0; VarBinds := vbs |}.

Definition parseTrapPDU (pduTag : Z) (pduName : string) (data : list byte) : res pdu_fields :=
  '(enterprise, offset) ← read_if (is_tag tagOID) data 0;
  '(agent, offset) ← read_if (fun t => is_tag tagIPAddress t && (zlen (t_content t) =? 4)) data offset;
  '(generic, offset) ← read_if (is_tag tagInteger) data offset;
  '(specific, offset) ← read_if (is_tag tagInteger) data offset;
  '(_, offset) ← read_if (is_tag tagTimeTicks) data offset;
  rest ← slice_from data offset;
  vbs ← parseVarBindList rest;
  Ok {| PDUType := pduTag; PDUName := pduName; RequestID := 0; ErrorStatus := 0;
        ErrorStatusName := ""; ErrorIndex := 0; IsError := false; IsTrap := true;
        EnterpriseOID := default "" (decodeOID <$> enterprise);
        AgentAddr := default "" (quad <$> agent); GenericTrap := int_or_0 generic;
        GenericTrapName := default "" (map_str GenericTrapNames ∘ decodeInt <$> generic);
        SpecificTrap := int_or_0 specific; VarBinds := vbs |}.

(** [if pduTag == PDUTrap { parseTrapPDU } else { parseRequestPDU }] *)
Definition parse_pdu (pduTag : Z) (pduName : string) (data : list byte) : res pdu_fields :=
  if pduTag =? PDUTrap then parseTrapPDU pduTag pduName data else parseRequestPDU pduTag pduName data.

Definition mk_message (pkt : Packet) (version : Z) (community : string) (pdu : pdu_fields)
    (v3 : v3_fields) : Message :=
  {| sn_SrcIP := SrcIP pkt; sn_DstIP := DstIP pkt; sn_SrcPort := SrcPort pkt; sn_DstPort := DstPort pkt;
     sn_Timestamp := Timestamp pkt; Version := version; VersionName := map_str VersionNames version;
     Community := community; sn_pdu := pdu; sn_v3 := v3 |}.

(** The global data of a v3 message: (MsgID, AuthFlag, PrivFlag, SecurityModel). *)
Definition parse_global (hdr : list byte) : res (Z * bool * bool * Z) :=
  '(msgID, offset) ← read_if (is_tag tagInteger) hdr 0;
  '(_, offset) ← read_if any_element hdr offset;
  '(flags, offset) ← read_if (is_tag tagOctetString) hdr offset;
  bits ← match flags with
         | Some c => if 0 <? zlen c then f ← idx c 0; Ok (u8 f) else Ok 0
         | None => Ok 0
         end;
  '(model, _) ← read_if (is_tag tagInteger) hdr offset;
  Ok (int_or_0 msgID, negb (Z.land bits 0x01 =? 0), negb (Z.land bits 0x02 =? 0), int_or_0 model).

(** The USM security parameters: (EngineID, UserName). *)
Definition parse_usm (usm : list byte) : res (string * string) :=
  '(engine, offset) ← read_if (is_tag tagOctetString) usm 0;
  '(_, offset) ← read_if any_element usm offset;
  '(_, offset) ← read_if any_element usm offset;
  '(user, _) ← read_if (is_tag tagOctetString) usm offset;
  Ok (default "" ((fun c => "0x" +:+ hex_encode c) <$> engine), default "" (gostr <$> user)).

(** The data of a v3 message: (PayloadEncrypted, the PDU). *)
Definition parse_scoped (content : list byte) (offset : Z) : res (bool * pdu_fields) :=
  data ← readTLV content offset;
  if t_err data then Ok (false, no_pdu)
  else if t_tag data =? tagOctetString then Ok (true, no_pdu)
  else if negb (t_tag data =? tagSequence) then Ok (false, no_pdu)
  else
    '(_, offset) ← read_if any_element (t_content data) 0;
    '(_, offset) ← read_if any_element (t_content data) offset;
    pdu ← readTLV (t_content data) offset;
    if t_err pdu then Ok (false, no_pdu)
    else
      let pduName := map_str PDUNames (t_tag pdu) in
      if String.eqb pduName "" then Ok (false, no_pdu)
      else fields ← parse_pdu (t_tag pdu) pduName (t_content pdu); Ok (false, fields).

Definition parseV3 (content : list byte) (offset : Z) (pkt : Packet) : res (option Message) :=
  hdr ← readTLV content offset;
  if t_err hdr || negb (t_tag hdr =? tagSequence) then Ok None
  else
    '(msgID, auth, priv, model) ← parse_global (t_content hdr);
    sec ← readTLV content (t_next hdr);
    '(engine, user) ← (if negb (t_err sec) && (t_tag sec =? tagOctetString) && (model =? 3) then
        usm ← readTLV (t_content sec) 0;
        if negb (t_err usm) && (t_tag usm =? tagSequence) then parse_usm (t_content usm) else Ok ("", "")%string
      else Ok ("", "")%string);
    '(encrypted, pdu) ← parse_scoped content (t_next sec);
    Ok (Some (mk_message pkt 3 "" pdu
      {| IsV3 := true; MsgID := msgID; SecurityModel := model; AuthFlag := auth; PrivFlag := priv;
         EngineID := engine; UserName := user; PayloadEncrypted := encrypted |})).

Definition buildSummary (msg : Message) : string :=
  let p := sn_pdu msg in
  let v3 := sn_v3 msg in
  if IsV3 v3 && String.eqb (PDUName p) "" then
    let who := if String.eqb (UserName v3) "" then "unknown user" else UserName v3 in
    "SNMP v3 (encrypted) user=" +:+ who
  else if IsTrap p then
    let name := if String.eqb (GenericTrapName p) "" then "specific(" +:+ fmt_d (SpecificTrap p) +:+ ")"
                else GenericTrapName p in
    cat ["SNMP "; VersionName msg; " Trap: "; name; " from "; AgentAddr p]
  else
    join " " ([cat ["SNMP "; VersionName msg; " "; PDUName p]]
      ++ (if IsV3 v3 && negb (String.eqb (UserName v3) "") then ["user=" +:+ UserName v3] else [])
      ++ (if IsError p then [ErrorStatusName p] else [])
      ++ match VarBinds p with
         | [] => []
         | vb :: rest => OID vb :: (if 1 <? zlen (VarBinds p) then
             ["(+" +:+ fmt_d (zlen (VarBinds p) - 1) +:+ " more)"] else [])
         end).

(** The end of parseSNMP: the packet is annotated and the message appended. *)
Definition append_message (d : Decoder) (pkt : Packet) (msg : Message) :
    Decoder * Packet * option Message :=
  ({| messages := messages d ++ [msg] |}, set_app "SNMP" (buildSummary msg) pkt, Some msg).

Definition parseSNMP (d : Decoder) (pkt : Packet) : res (Decoder * Packet * option Message) :=
  t ← readTLV (Payload pkt) 0;
  if t_err t || negb (t_tag t =? tagSequence) then Ok (d, pkt, None)
  else
    let content := t_content t in
    ver ← readTLV content 0;
    if t_err ver || negb (t_tag ver =? tagInteger) then Ok (d, pkt, None)
    else
      let version := decodeInt (t_content ver) in
      if (version <? 0) || (3 <? version) then Ok (d, pkt, None)
      else if version =? 3 then
        m ← parseV3 content (t_next ver) pkt;
        match m with
        | None => Ok (d, pkt, None)
        | Some msg => Ok (append_message d pkt msg)
        end
      else
        comm ← readTLV content (t_next ver);
        if t_err comm || negb (t_tag comm =? tagOctetString) then Ok (d, pkt, None)
        else
          pdu ← readTLV content (t_next comm);
          if t_err pdu then Ok (d, pkt, None)
          else
            let pduName := map_str PDUNames (t_tag pdu) in
            if String.eqb pduName "" then Ok (d, pkt, None)
            else
              fields ← parse_pdu (t_tag pdu) pduName (t_content pdu);
              Ok (append_message d pkt (mk_message pkt version (gostr (t_content comm)) fields no_v3)).

(** The early returns of both handlers, negated. *)
Definition admits (pkt : Packet) : bool :=
  String.eqb (Protocol pkt) "UDP" && isSNMPPort (SrcPort pkt) (DstPort pkt) && (10 <=? zlen (Payload pkt)).

Definition HandlePacket (d : Decoder) (pkt : Packet) : res (Decoder * Packet) :=
  if negb (admits pkt) then Ok (d, pkt)
  else '(d, pkt, _) ← parseSNMP d pkt; Ok (d, pkt).

Definition live_errors (p : pdu_fields) : list PacketError :=
  if IsError p then
    [{| Code := "SNMP_" +:+ ErrorStatusName p; Title := "SNMP " +:+ ErrorStatusName p;
        Description := cat [PDUName p; " returned "; ErrorStatusName p; " (index "; fmt_d (ErrorIndex p); ")"];
        Severity := "warning" |}]
  else [].

Definition live_metadata (msg : Message) : gmap string any :=
  let p := sn_pdu msg in
  let v3 := sn_v3 msg in
  let m : gmap string any := {["version"%string := AStr (VersionName msg)]} in
  let m := if IsV3 v3 then
      <["payload_encrypted"%string := ABool (PayloadEncrypted v3)]> (<["user_name"%string := AStr (UserName v3)]> m)
    else <["community"%string := AStr (Community msg)]> m in
  if negb (String.eqb (PDUName p) "") then
    <["varbinds"%string := AInt TInt (zlen (VarBinds p))]>
      (<["request_id"%string := AInt TI64 (RequestID p)]> (<["pdu_type"%string := AStr (PDUName p)]> m))
  else m.

Definition HandlePacketLive (d : Decoder) (pkt : Packet) :
    res (Decoder * Packet * option DecodedPacket) :=
  if negb (admits pkt) then Ok (d, pkt, None)
  else
    '(d, pkt, o) ← parseSNMP d pkt;
    match o with
    | None => Ok (d, pkt, None)
    | Some msg =>
      Ok (d, pkt, Some {| D_Packet := pkt; D_Protocol := "SNMP"; D_Summary := buildSummary msg;
        D_Metadata := live_metadata msg; D_Errors := live_errors (sn_pdu msg) |})
    end.

(** The entries of a flow, in the order in which Flush sets them. *)
Definition v3_entries (msg : Message) : list (string * any) :=
  let v3 := sn_v3 msg in
  if IsV3 v3 then
    [("msg_id", AInt TI64 (MsgID v3)); ("security_model", AInt TI64 (SecurityModel v3));
     ("auth_enabled", ABool (AuthFlag v3)); ("priv_enabled", ABool (PrivFlag v3));
     ("engine_id", AStr (EngineID v3)); ("user_name", AStr (UserName v3));
     ("payload_encrypted", ABool (PayloadEncrypted v3))]%string
  else [("community"%string, AStr (Community msg))].

Definition pdu_entries (p : pdu_fields) : list (string * any) :=
  if String.eqb (PDUName p) "" then []
  else
    [("pdu_type", AStr (PDUName p)); ("is_error", ABool (IsError p));
     ("varbind_count", AInt TInt (zlen (VarBinds p)))]%string
    ++ (if negb (IsTrap p) then
          [("request_id", AInt TI64 (RequestID p)); ("error_status", AStr (ErrorStatusName p));
           ("error_index", AInt TI64 (ErrorIndex p))]
        else
          [("enterprise_oid", AStr (EnterpriseOID p)); ("agent_addr", AStr (AgentAddr p));
           ("generic_trap", AStr (GenericTrapName p)); ("specific_trap", AInt TI64 (SpecificTrap p))])%string.

(** [values[vb.OID] = vb.Value] for each varbind: the last one of an OID stays. *)
Definition varbind_values (vbs : list VarBind) : gmap string string :=
  foldl (fun m vb => <[OID vb := Value vb]> m) ∅ vbs.

Definition varbind_entries (vbs : list VarBind) : list (string * any) :=
  match vbs with
  | [] => []
  | _ => [("oids", AStrs (OID <$> vbs)); ("values", AStrMap (varbind_values vbs))]%string
  end.

Definition message_flow (i : nat) (msg : Message) : Flow :=
  {| FlowID := cat ["snmp-"; sn_SrcIP msg; ":"; fmt_d (sn_SrcPort msg); "-"; sn_DstIP msg; ":";
       fmt_d (sn_DstPort msg); "-"; fmt_d (Z.of_nat i)];
     Type_ := FlowSNMP; F_SrcIP := sn_SrcIP msg; F_DstIP := sn_DstIP msg;
     F_SrcPort := sn_SrcPort msg; F_DstPort := sn_DstPort msg;
     StartTime := sn_Timestamp msg; EndTime := sn_Timestamp msg;
     Metrics := list_to_map (("version"%string, AStr (VersionName msg)) :: v3_entries msg
       ++ pdu_entries (sn_pdu msg) ++ varbind_entries (VarBinds (sn_pdu msg))) |}.

Definition Flush (d : Decoder) : list Flow := imap message_flow (messages d).

(** ** The decoder returns on every packet *)

Lemma read_length_returns n data o len :
  0 <= o -> o + Z.of_nat n <= zlen data -> 0 <= len ->
  returns (read_length n data o len) (fun '(l, o') => o' = o + Z.of_nat n /\ 0 <= l).
Proof.
  revert o len. induction n as [|n IH]; intros o len Ho Hn Hl; [cbn; lia|]. cbn [read_length].
  run_step. apply returns_idx; [lia|]. intros b _. eapply returns_weaken.
  - apply IH; [lia|lia|]. rewrite lor_shiftl_u8. pose proof (u8_range b). lia.
  - intros [l o']. lia.
Qed.

Lemma readTLV_returns data o : 0 <= o ->
  returns (readTLV data o) (fun t => 0 <= t_next t /\ (t_err t = false -> o + 2 <= t_next t <= zlen data)).
Proof.
  intros Ho. unfold readTLV. destruct (Z.leb_spec (zlen data) o); [done|].
  run_step. apply returns_idx; [lia|]. intros tag _. cbv zeta.
  destruct (Z.leb_spec (zlen data) (o + 1)); [cbn; lia|].
  run_step. apply returns_idx; [lia|]. intros lb _.
  assert (forall l o', o + 2 <= o' <= zlen data -> returns
    (if (l <? 0) || (zlen data <? o' + l) then Ok (truncated o')
     else content ← slice data o' (o' + l);
          Ok {| t_tag := u8 tag; t_content := content; t_next := o' + l; t_err := false |})
    (fun t => 0 <= t_next t /\ (t_err t = false -> o + 2 <= t_next t <= zlen data))) as Hfin.
  { intros l o' Ho'. destruct (_ || _) eqn:E; [cbn; lia|]. run_step. apply returns_slice; [lia|]. cbn. lia. }
  destruct (Z.land (u8 lb) 0x80 =? 0); [apply Hfin; lia|].
  destruct ((Z.land (u8 lb) 0x7F =? 0) || (4 <? Z.land (u8 lb) 0x7F) ||
    (zlen data <? o + 1 + 1 + Z.land (u8 lb) 0x7F)) eqn:E; [cbn; lia|].
  apply returns_bind. eapply returns_weaken; [apply (read_length_returns _ data (o + 1 + 1) 0)|]; [lia..|].
  intros [l o'] [-> _]. apply Hfin. lia.
Qed.

(** Run a read whose offset is known to be non-negative. *)
Ltac run_tlv t H := run_step; eapply returns_weaken; [apply readTLV_returns; lia|]; intros t H.

Lemma read_if_returns ok data o : 0 <= o <= zlen data ->
  returns (read_if ok data o) (fun '(_, o') => 0 <= o' <= zlen data).
Proof.
  intros Ho. unfold read_if. run_tlv t Ht. destruct (t_err t) eqn:Ee; cbn; [lia|].
  destruct (ok t); cbn; [|lia]. destruct Ht as [_ Ht]. specialize (Ht Ee). lia.
Qed.

Lemma varbind_body_returns content offset vbs : 0 <= offset ->
  returns (varbind_body content (offset, vbs)) (fun c =>
    match c with Next (o, _) => 0 <= o /\ offset < o <= zlen content | Done _ => True end).
Proof.
  intros Ho. unfold varbind_body. destruct (Z.ltb_spec offset (zlen content)); [|done].
  run_tlv vb Hvb. destruct (t_err vb) eqn:Ee; [done|]. destruct Hvb as [Hn Hvb]. specialize (Hvb Ee).
  cbv zeta. run_step; [cbn; lia|]. run_tlv o Hn'. run_step; [cbn; lia|].
  destruct Hn' as [Hn' _]. run_tlv v Hv. cbn. lia.
Qed.

Lemma parseVarBindList_returns data : returns (parseVarBindList data) (fun _ => True).
Proof.
  unfold parseVarBindList. run_tlv t Ht. run_step; [done|]. set (content := t_content t).
  apply (returns_loop (fun '(o, _) => 0 <= o) (fun '(o, _) => Z.to_nat (zlen content - o))); [|done|unfold zlen; lia].
  intros [o vbs] Ho. eapply returns_weaken; [by apply varbind_body_returns|].
  intros [[o' vbs']|]; [|done]. lia.
Qed.

Ltac run_read_if o H :=
  let c := fresh "c" in
  apply returns_bind; eapply returns_weaken; [apply read_if_returns; lia|]; intros [c o] H.

Lemma parse_pdu_returns tag name data : returns (parse_pdu tag name data) (fun p => PDUName p = name).
Proof.
  pose proof (zlen_nonneg data). unfold parse_pdu, parseTrapPDU, parseRequestPDU. destruct (tag =? PDUTrap).
  - run_read_if o1 H1. run_read_if o2 H2. run_read_if o3 H3. run_read_if o4 H4. run_read_if o5 H5.
    rewrite slice_from_Ok by lia. cbn [mbind res_bind]. run_step.
    eapply returns_weaken; [apply parseVarBindList_returns|]. done.
  - run_read_if o1 H1. run_read_if o2 H2. run_read_if o3 H3.
    rewrite slice_from_Ok by lia. cbn [mbind res_bind]. run_step.
    eapply returns_weaken; [apply parseVarBindList_returns|]. done.
Qed.

Lemma parse_global_returns hdr : returns (parse_global hdr) (fun _ => True).
Proof.
  pose proof (zlen_nonneg hdr). unfold parse_global. run_read_if o1 H1. run_read_if o2 H2.
  apply returns_bind. eapply returns_weaken; [apply read_if_returns; lia|]. intros [fl o3] H3.
  run_step. eapply (returns_weaken _ (fun _ => True)).
  - destruct fl as [b|]; [|done]. destruct (Z.ltb_spec 0 (zlen b)); [|done]. run_step. by apply returns_idx; [lia|].
  - intros bits _. by run_read_if o4 H4.
Qed.

Lemma parse_usm_returns usm : returns (parse_usm usm) (fun _ => True).
Proof.
  pose proof (zlen_nonneg usm). unfold parse_usm.
  run_read_if o1 H1. run_read_if o2 H2. run_read_if o3 H3. by run_read_if o4 H4.
Qed.

Lemma parse_scoped_returns content o : 0 <= o -> returns (parse_scoped content o) (fun _ => True).
Proof.
  intros Ho. unfold parse_scoped. run_tlv t Ht. destruct (t_err t); [done|].
  run_step; [done|]. run_step; [done|].
  pose proof (zlen_nonneg (t_content t)). run_read_if o1 H1. run_read_if o2 H2. run_tlv p Hp.
  destruct (t_err p); [done|]. cbv zeta. run_step; [done|]. run_step.
  eapply returns_weaken; [apply parse_pdu_returns|]. done.
Qed.

Lemma parseV3_returns content o pkt : 0 <= o ->
  returns (parseV3 content o pkt) (fun _ => True).
Proof.
  intros Ho. unfold parseV3. run_tlv t Ht. run_step; [done|]. destruct Ht as [Ht _].
  apply returns_bind. eapply returns_weaken; [apply parse_global_returns|]. intros [[[id a] p] model] _.
  run_tlv sec Hsec. destruct Hsec as [Hsec _]. run_step. eapply (returns_weaken _ (fun _ => True)).
  - run_step; [|done]. run_tlv usm Hu. run_step; [apply parse_usm_returns|done].
  - intros [e u] _. apply returns_bind. eapply returns_weaken; [by apply parse_scoped_returns|].
    by intros [enc pdu] _.
Qed.

(** Nothing done, or one message appended and the packet annotated. *)
Lemma parseSNMP_returns d pkt :
  returns (parseSNMP d pkt) (fun '(d', pkt', o) =>
    match o with
    | Some msg => messages d' = messages d ++ [msg] /\ pkt' = set_app "SNMP" (buildSummary msg) pkt
    | None => d' = d /\ pkt' = pkt
    end).
Proof.
  unfold parseSNMP. run_tlv t Ht. run_step; [done|]. cbv zeta. run_tlv ver Hver. run_step; [done|].
  run_step; [done|]. destruct Hver as [Hver _]. run_step.
  - apply returns_bind. eapply returns_weaken; [by apply parseV3_returns|]. by intros [msg|] _.
  - run_tlv cm Hc. run_step; [done|]. destruct Hc as [Hc _]. run_tlv pdu Hp. destruct (t_err pdu); [done|].
    run_step; [done|]. run_step. eapply returns_weaken; [apply parse_pdu_returns|]. done.
Qed.

(** ** BER on the wire *)

(** The octets of a length of 128 or more. *)
Definition length_size (l : Z) : nat := Z.to_nat (Z.log2 l / 8 + 1).
Definition encode_length (l : Z) : list byte :=
  if l <? 128 then [byte_of l] else byte_of (0x80 + Z.of_nat (length_size l)) :: be_put (length_size l) l.
Definition encode_tlv (tag : Z) (content : list byte) : list byte :=
  byte_of tag :: encode_length (zlen content) ++ content.

Lemma size_bound l k : 0 <= l < 2 ^ (8 * k) -> 0 < k -> 1 <= Z.log2 l / 8 + 1 <= k.
Proof.
  intros Hl Hk. pose proof (Z.log2_nonneg l). split; [pose proof (Z.div_pos (Z.log2 l) 8); lia|].
  destruct (Z.eq_dec l 0) as [->|Hne]; [change (Z.log2 0 / 8) with 0; lia|].
  assert (Z.log2 l < 8 * k) by (apply Z.log2_lt_pow2; lia).
  assert (Z.log2 l / 8 < k) by (apply Z.div_lt_upper_bound; lia). lia.
Qed.

Lemma size_enough l : 0 <= l -> l < 256 ^ (Z.log2 l / 8 + 1).
Proof.
  intros Hl. destruct (Z.eq_dec l 0) as [->|Hne]; [done|].
  pose proof (Z.log2_spec l ltac:(lia)). pose proof (Z.log2_nonneg l).
  assert (0 <= Z.log2 l / 8) by (apply Z.div_pos; lia).
  change 256 with (2 ^ 8). rewrite <-Z.pow_mul_r by lia.
  assert (2 ^ Z.succ (Z.log2 l) <= 2 ^ (8 * (Z.log2 l / 8 + 1))); [|lia].
  apply Z.pow_le_mono_r; [lia|]. pose proof (Z.div_mod (Z.log2 l) 8). pose proof (Z.mod_pos_bound (Z.log2 l) 8). lia.
Qed.

Lemma be_cons b s : be (b :: s) = u8 b * 256 ^ zlen s + be s.
Proof.
  induction s as [|c s IH] using rev_ind.
  - change (be ([] ++ [b]) = u8 b * 1 + 0). rewrite be_snoc. change (be []) with 0. lia.
  - rewrite app_comm_cons, !be_snoc, IH, zlen_app. change (zlen [c]) with 1.
    rewrite Z.pow_add_r by (pose proof (zlen_nonneg s); lia). lia.
Qed.

Lemma read_length_spec s data o len :
  holds_at data o s ->
  read_length (length s) data o len = Ok (len * 256 ^ zlen s + be s, o + zlen s).
Proof.
  revert o len. induction s as [|b s IH]; intros o len Hat; cbn [read_length length].
  - rewrite zlen_nil. f_equal. f_equal; cbn; lia.
  - apply holds_at_cons in Hat as [-> Hat]. cbn [mbind res_bind]. rewrite IH by done.
    rewrite lor_shiftl_u8, zlen_cons. f_equal. f_equal; [|lia].
    rewrite Z.pow_add_r by (pose proof (zlen_nonneg s); lia). change (256 ^ 1) with 256.
    rewrite be_cons. lia.
Qed.

(** An element is read back wherever it stands. *)
Lemma readTLV_at data o tag content :
  holds_at data o (encode_tlv tag content) -> 0 <= tag < 256 -> zlen content < 2 ^ 32 ->
  readTLV data o = Ok {| t_tag := tag; t_content := content;
                         t_next := o + zlen (encode_tlv tag content); t_err := false |}.
Proof.
  intros Hat Ht Hl. pose proof (zlen_nonneg content) as Hn. apply holds_at_bound in Hat as Hb.
  unfold encode_tlv in *. rewrite zlen_cons, zlen_app in *. set (l := zlen content) in *.
  apply holds_at_cons in Hat as [E0 Hat]. apply holds_at_app in Hat as [Hlen Hcon].
  apply holds_at_slice in Hcon. fold l in Hcon.
  unfold readTLV. replace (zlen data <=? o) with false by (pose proof (zlen_nonneg (encode_length l)); lia).
  rewrite E0. cbn [mbind res_bind]. cbv zeta. rewrite u8_byte_of by done.
  unfold encode_length in *. destruct (Z.ltb_spec l 128) as [Hs|Hs].
  - change (zlen [byte_of l]) with 1 in *. replace (zlen data <=? o + 1) with false by lia.
    apply holds_at_cons in Hlen as [-> _]. cbn [mbind res_bind]. rewrite u8_byte_of by lia.
    assert (Z.land l 0x80 = 0) as ->.
    { change 0x80 with (2 ^ 7). apply Z.bits_inj'. intros n Hn'. rewrite Z.land_spec, Z.bits_0, Z.pow2_bits_eqb by lia.
      destruct (Z.eqb_spec 7 n) as [<-|]; [|apply andb_false_r]. rewrite andb_true_r.
      destruct (Z.eq_dec l 0) as [->|]; [done|]. apply Z.bits_above_log2; [lia|]. apply Z.log2_lt_pow2; lia. }
    change (0 =? 0) with true. cbv iota.
    replace ((l <? 0) || (zlen data <? o + 1 + 1 + l)) with false by lia.
    rewrite Hcon. cbn [mbind res_bind]. do 2 f_equal. lia.
  - pose proof (size_bound l 4 ltac:(lia) ltac:(lia)) as Hsz. pose proof (size_enough l ltac:(lia)) as Hen.
    set (k := length_size l) in *. assert (Z.of_nat k = Z.log2 l / 8 + 1) as Hk by (unfold k, length_size; lia).
    rewrite <-Hk in *. rewrite zlen_cons, zlen_be_put in *.
    replace (zlen data <=? o + 1) with false by lia.
    apply holds_at_cons in Hlen as [-> Hlen]. cbn [mbind res_bind]. rewrite u8_byte_of by lia.
    assert (Z.land (0x80 + Z.of_nat k) 0x80 <> 0 /\ Z.land (0x80 + Z.of_nat k) 0x7F = Z.of_nat k) as [E1 E2].
    { assert (Z.of_nat k = 1 \/ Z.of_nat k = 2 \/ Z.of_nat k = 3 \/ Z.of_nat k = 4) as Hc by lia.
      destruct Hc as [-> |[-> |[-> | ->]]]; by split. }
    rewrite (proj2 (Z.eqb_neq _ _) E1), E2.
    replace ((Z.of_nat k =? 0) || (4 <? Z.of_nat k) || (zlen data <? o + 1 + 1 + Z.of_nat k)) with false by lia.
    pose proof (read_length_spec _ data (o + 1 + 1) 0 Hlen) as Hr. rewrite length_be_put in Hr.
    rewrite Nat2Z.id, Hr. cbn [mbind res_bind]. rewrite zlen_be_put, be_be_put by lia.
    replace (0 * 256 ^ Z.of_nat k + l) with l by lia.
    replace ((l <? 0) || (zlen data <? o + 1 + 1 + Z.of_nat k + l)) with false by lia.
    replace (o + 1 + 1 + Z.of_nat k) with (o + 1 + (1 + Z.of_nat k)) by lia.
    rewrite Hcon. cbn [mbind res_bind]. do 2 f_equal. lia.
Qed.

(** *** Integers *)

(** Two's complement in the least number of octets. *)
Definition int_size (z : Z) : nat := Z.to_nat ((Z.log2 (if z <? 0 then - z - 1 else z) + 1) / 8 + 1).
Definition encode_int (z : Z) : list byte := be_put (int_size z) (z mod 256 ^ Z.of_nat (int_size z)).

Lemma decodeInt_spec b rest :
  zlen rest < 8 -> decodeInt (b :: rest) = swrap 8 (u8 b) * 256 ^ zlen rest + be rest.
Proof.
  cbn [decodeInt]. induction rest as [|c rest IH] using rev_ind; intros Hl; [change (swrap 8 (u8 b) = swrap 8 (u8 b) * 1 + 0); lia|].
  rewrite zlen_app in *. change (zlen [c]) with 1 in *. pose proof (zlen_nonneg rest).
  rewrite foldl_snoc, IH by lia. rewrite be_snoc, Z.pow_add_r by lia. change (256 ^ 1) with 256.
  pose proof (be_range rest) as Hbe. pose proof (swrap_range 8 (u8 b) ltac:(lia)) as Hs. change (2 ^ (8 - 1)) with 128 in Hs.
  assert (0 < 256 ^ zlen rest <= 256 ^ 6) as Hp by (split; [lia|apply Z.pow_le_mono_r; lia]).
  change (256 ^ 6) with (2 ^ 48) in Hp.
  assert (- 2 ^ 55 <= swrap 8 (u8 b) * 256 ^ zlen rest + be rest < 2 ^ 55) as Hv by nia.
  unfold i64. rewrite swrap_small; [rewrite lor_shiftl_u8; lia|lia|].
  rewrite Z.shiftl_mul_pow2 by lia. change (2 ^ 8) with 256. lia.
Qed.

Lemma int_size_bound z : - 2 ^ 63 <= z < 2 ^ 63 ->
  1 <= Z.of_nat (int_size z) <= 8 /\
  - 2 ^ (8 * Z.of_nat (int_size z) - 1) <= z < 2 ^ (8 * Z.of_nat (int_size z) - 1).
Proof.
  intros Hz. unfold int_size. set (a := if z <? 0 then - z - 1 else z).
  assert (0 <= a < 2 ^ 63) as Ha by (unfold a; destruct (Z.ltb_spec z 0); lia).
  pose proof (Z.log2_nonneg a). assert (Z.log2 a <= 62) as Hlog.
  { destruct (Z.eq_dec a 0) as [->|]; [done|]. assert (Z.log2 a < 63); [|lia]. apply Z.log2_lt_pow2; lia. }
  assert (0 <= (Z.log2 a + 1) / 8 <= 7) as Hd.
  { split; [apply Z.div_pos; lia|]. assert ((Z.log2 a + 1) / 8 < 8); [|lia]. apply Z.div_lt_upper_bound; lia. }
  rewrite Z2Nat.id by lia. split; [lia|].
  assert (a < 2 ^ (8 * ((Z.log2 a + 1) / 8 + 1) - 1)) as Hub.
  { destruct (Z.eq_dec a 0) as [->|]; [by vm_compute|]. pose proof (Z.log2_spec a ltac:(lia)) as Hl.
    assert (2 ^ Z.succ (Z.log2 a) <= 2 ^ (8 * ((Z.log2 a + 1) / 8 + 1) - 1)); [|lia].
    apply Z.pow_le_mono_r; [lia|]. pose proof (Z.div_mod (Z.log2 a + 1) 8). pose proof (Z.mod_pos_bound (Z.log2 a + 1) 8). lia. }
  set (p := 2 ^ (8 * ((Z.log2 a + 1) / 8 + 1) - 1)) in *. clearbody p. unfold a in Hub. destruct (Z.ltb_spec z 0); lia.
Qed.

Lemma decodeInt_encode z : - 2 ^ 63 <= z < 2 ^ 63 -> decodeInt (encode_int z) = z.
Proof.
  intros Hz. destruct (int_size_bound z Hz) as [Hn Hb]. unfold encode_int. set (n := int_size z) in *.
  assert (0 < 256 ^ Z.of_nat n) as Hpos by lia.
  pose proof (Z.mod_pos_bound z (256 ^ Z.of_nat n) Hpos) as Hm.
  pose proof (be_be_put n (z mod 256 ^ Z.of_nat n) Hm) as Hbe.
  pose proof (zlen_be_put n (z mod 256 ^ Z.of_nat n)) as Hl.
  destruct (be_put n (z mod 256 ^ Z.of_nat n)) as [|b rest]; [rewrite zlen_nil in Hl; lia|].
  rewrite zlen_cons in Hl. rewrite decodeInt_spec by lia. rewrite be_cons in Hbe.
  assert (256 ^ Z.of_nat n = 2 * 2 ^ (8 * Z.of_nat n - 1)) as E2.
  { change 256 with (2 ^ 8). rewrite <-Z.pow_mul_r by lia.
    replace (8 * Z.of_nat n) with (1 + (8 * Z.of_nat n - 1)) at 1 by lia. rewrite Z.pow_add_r by lia. done. }
  assert (256 ^ Z.of_nat n = 256 * 256 ^ zlen rest) as E3.
  { rewrite <-Hl, Z.pow_add_r by (pose proof (zlen_nonneg rest); lia). done. }
  set (h := 2 ^ (8 * Z.of_nat n - 1)) in *. pose proof (be_range rest) as Hr. pose proof (u8_range b) as Hu.
  set (q := 256 ^ zlen rest) in *. assert (0 < q) by lia. assert (h = 128 * q) as Eh by lia.
  assert (swrap 8 (u8 b) = if u8 b <? 128 then u8 b else u8 b - 256) as ->.
  { unfold swrap. change (2 ^ (8 - 1)) with 128. change (2 ^ 8) with 256. destruct (Z.ltb_spec (u8 b) 128).
    - rewrite Z.mod_small; lia.
    - replace (u8 b + 128) with (u8 b - 128 + 1 * 256) by lia. rewrite Z.mod_add, Z.mod_small; lia. }
  destruct (Z.ltb_spec (u8 b) 128) as [Hlt|Hge].
  - assert (z mod 256 ^ Z.of_nat n < h) by nia. assert (0 <= z) as Hz0.
    { destruct (Z.lt_ge_cases z 0) as [Hneg|]; [|done].
      assert (z mod 256 ^ Z.of_nat n = z + 256 ^ Z.of_nat n); [|lia].
      symmetry. apply Z.mod_unique_pos with (-1); lia. }
    rewrite Z.mod_small in Hbe; lia.
  - assert (h <= z mod 256 ^ Z.of_nat n) by nia. assert (z < 0) as Hz0.
    { destruct (Z.lt_ge_cases z 0) as [Hneg|]; [done|]. rewrite Z.mod_small in *; lia. }
    assert (z mod 256 ^ Z.of_nat n = z + 256 ^ Z.of_nat n) as Em.
    { symmetry. apply Z.mod_unique_pos with (-1); lia. }
    rewrite Em in Hbe. lia.
Qed.

Lemma decodeUint_spec b : decodeUint b = be b mod 2 ^ 64.
Proof.
  unfold decodeUint. induction b as [|c b IH] using rev_ind; [done|]. rewrite foldl_snoc, IH, be_snoc.
  unfold u64, wrap. rewrite Z.shiftl_mul_pow2 by lia. change (2 ^ 8) with 256.
  assert (exists q, be b mod 2 ^ 64 * 256 mod 2 ^ 64 = q * 256 /\ 0 <= q < 2 ^ 56 /\
    exists k, be b = q + k * 2 ^ 56) as (q & -> & Hq & k & ->).
  { exists (be b mod 2 ^ 56). split; [|split; [apply Z.mod_pos_bound; lia|]].
    - rewrite Z.mul_mod_idemp_l by lia. change (2 ^ 64) with (2 ^ 56 * 256). rewrite Z.mul_mod_distr_r by lia. done.
    - exists (be b / 2 ^ 56). pose proof (Z.div_mod (be b) (2 ^ 56)). lia. }
  replace (q * 256) with (Z.shiftl q 8) by (by rewrite Z.shiftl_mul_pow2).
  rewrite lor_shiftl_u8. pose proof (u8_range c).
  replace ((q + k * 2 ^ 56) * 256 + u8 c) with (q * 256 + u8 c + k * 2 ^ 64) by lia.
  rewrite Z.mod_add by lia. rewrite Z.mod_small; lia.
Qed.

Lemma decodeUint_encode z : 0 <= z < 2 ^ 63 -> decodeUint (encode_int z) = z.
Proof.
  intros Hz. destruct (int_size_bound z ltac:(lia)) as [Hn Hb]. unfold encode_int. set (n := int_size z) in *.
  rewrite decodeUint_spec.
  assert (2 ^ (8 * Z.of_nat n - 1) < 256 ^ Z.of_nat n) as Hlt.
  { change 256 with (2 ^ 8). rewrite <-Z.pow_mul_r by lia. apply Z.pow_lt_mono_r; lia. }
  rewrite (Z.mod_small z) by lia. rewrite be_be_put by lia. rewrite Z.mod_small; lia.
Qed.

(** *** Object identifiers *)

Definition arc_size (v : Z) : nat := Z.to_nat (Z.log2 v / 7).
(** The leading groups of seven bits, each with its top bit set. *)
Fixpoint put_groups (n : nat) (v : Z) : list byte :=
  match n with
  | O => []
  | S n => put_groups n (v / 128) ++ [byte_of (0x80 + v mod 128)]
  end.
Definition encode_arc (v : Z) : list byte := put_groups (arc_size v) (v / 128) ++ [byte_of (v mod 128)].

(** The first two arcs share an octet; the program reads it back for these. *)
Definition encode_oid (x y : Z) (arcs : list Z) : list byte :=
  byte_of (x * 40 + y) :: mjoin (encode_arc <$> arcs).
Definition oid_ok (x y : Z) (arcs : list Z) : Prop :=
  0 <= x /\ 0 <= y < 40 /\ x * 40 + y < 256 /\ Forall (fun v => 0 <= v < 2 ^ 56) arcs.
Definition oid_text (x y : Z) (arcs : list Z) : string := join "." (fmt_d <$> x :: y :: arcs).

Lemma low7 v : 0 <= v < 128 -> Z.land (0x80 + v) 0x7F = v /\ Z.land (0x80 + v) 0x80 <> 0 /\
  Z.land v 0x7F = v /\ Z.land v 0x80 = 0.
Proof.
  intros Hv. assert (forallb (fun v => (Z.land (0x80 + v) 0x7F =? v) && negb (Z.land (0x80 + v) 0x80 =? 0) &&
    (Z.land v 0x7F =? v) && (Z.land v 0x80 =? 0)) (Z.of_nat <$> seq 0 128) = true) as H by by vm_compute.
  rewrite forallb_forall in H. specialize (H v). rewrite <-list_elem_of_In in H.
  assert (v ∈ Z.of_nat <$> seq 0 128) as Hin.
  { apply list_elem_of_fmap. exists (Z.to_nat v). split; [lia|]. apply elem_of_seq. lia. }
  specialize (H Hin). rewrite !andb_true_iff, negb_true_iff, !Z.eqb_eq, Z.eqb_neq in H. tauto.
Qed.

Lemma lor_shiftl_7 a b : 0 <= b < 128 -> Z.lor (Z.shiftl a 7) b = a * 128 + b.
Proof.
  intros Hb. rewrite Z.shiftl_mul_pow2 by lia. change (2 ^ 7) with 128. rewrite <-Z.add_lor_land.
  assert (Z.land (a * 128) b = 0) as ->; [|lia].
  apply Z.bits_inj'. intros n Hn. rewrite Z.land_spec, Z.bits_0. change 128 with (2 ^ 7).
  destruct (Z.ltb_spec n 7); [by rewrite Z.mul_pow2_bits_low by lia|].
  destruct (Z.eq_dec b 0) as [->|]; [by rewrite Z.bits_0, andb_false_r|].
  rewrite (Z.bits_above_log2 b n); [apply andb_false_r|lia|].
  apply Z.log2_lt_pow2; [lia|]. assert (2 ^ 7 <= 2 ^ n) by (apply Z.pow_le_mono_r; lia). lia.
Qed.

Lemma oid_groups n v parts :
  0 <= v < 2 ^ 56 -> v < 128 ^ Z.of_nat n ->
  foldl oid_step (parts, 0) (put_groups n v) = (parts, v).
Proof.
  revert v. induction n as [|n IH]; intros v Hv Hb.
  - change (128 ^ Z.of_nat 0) with 1 in Hb. cbn. f_equal. lia.
  - cbn [put_groups]. rewrite foldl_snoc.
    pose proof (Z.mod_pos_bound v 128 ltac:(lia)) as Hm. pose proof (Z.div_mod v 128 ltac:(lia)) as Hd.
    destruct (low7 (v mod 128) Hm) as (E1 & E2 & _).
    rewrite IH; [|lia|apply Z.div_lt_upper_bound; [lia|]; rewrite Nat2Z.inj_succ, Z.pow_succ_r in Hb; lia].
    unfold oid_step. rewrite u8_byte_of by lia. rewrite E1, (proj2 (Z.eqb_neq _ _) E2). f_equal.
    unfold i64. rewrite swrap_small; [rewrite lor_shiftl_7; lia|lia|].
    rewrite Z.shiftl_mul_pow2 by lia. change (2 ^ 7) with 128. lia.
Qed.

Lemma oid_arc v parts : 0 <= v < 2 ^ 56 ->
  foldl oid_step (parts, 0) (encode_arc v) = (parts ++ [v], 0).
Proof.
  intros Hv. unfold encode_arc. rewrite foldl_snoc.
  pose proof (Z.mod_pos_bound v 128 ltac:(lia)) as Hm. pose proof (Z.div_mod v 128 ltac:(lia)) as Hd.
  destruct (low7 (v mod 128) Hm) as (_ & _ & E1 & E2).
  rewrite oid_groups; [|lia|].
  - unfold oid_step. rewrite u8_byte_of by lia. rewrite E1, E2. cbn [Z.eqb]. do 2 f_equal. f_equal.
    unfold i64. rewrite swrap_small; [rewrite lor_shiftl_7; lia|lia|].
    rewrite Z.shiftl_mul_pow2 by lia. change (2 ^ 7) with 128. lia.
  - unfold arc_size. pose proof (Z.log2_nonneg v). assert (0 <= Z.log2 v / 7) by (apply Z.div_pos; lia).
    rewrite Z2Nat.id by lia. apply Z.div_lt_upper_bound; [lia|].
    destruct (Z.eq_dec v 0) as [->|]; [by vm_compute|]. pose proof (Z.log2_spec v ltac:(lia)).
    replace (128 * 128 ^ (Z.log2 v / 7)) with (2 ^ (7 * (Z.log2 v / 7 + 1)))
      by (rewrite Z.pow_mul_r, Z.pow_add_r by lia; change (2 ^ 7) with 128; lia).
    assert (2 ^ Z.succ (Z.log2 v) <= 2 ^ (7 * (Z.log2 v / 7 + 1))); [|lia].
    apply Z.pow_le_mono_r; [lia|]. pose proof (Z.div_mod (Z.log2 v) 7). pose proof (Z.mod_pos_bound (Z.log2 v) 7). lia.
Qed.

Lemma decodeOID_encode x y arcs : oid_ok x y arcs -> decodeOID (encode_oid x y arcs) = oid_text x y arcs.
Proof.
  intros (Hx & Hy & Hxy & Harcs). unfold encode_oid, decodeOID, oid_text. rewrite u8_byte_of by lia.
  rewrite Z.div_add_l, (Z.div_small y) by lia. rewrite Z.add_0_r.
  rewrite Z.add_comm, Z.mod_add, Z.mod_small by lia.
  assert (forall parts, foldl oid_step (parts, 0) (mjoin (encode_arc <$> arcs)) = (parts ++ arcs, 0)) as ->; [|done].
  induction Harcs as [|v arcs Hv _ IH]; intros parts; [by rewrite app_nil_r|].
  change (mjoin (encode_arc <$> v :: arcs)) with (encode_arc v ++ mjoin (encode_arc <$> arcs)).
  rewrite foldl_app, oid_arc, IH by done. by rewrite <-app_assoc.
Qed.

(** The octet of 2.47 is 127; the program reads 3.7. *)
Example oid_joint_arcs : decodeOID [byte_of (2 * 40 + 47)] = "3.7".
Proof. by vm_compute. Qed.

(** *** Variable bindings *)

(** The values a binding can have, and how they are shown. *)
Inductive wire_value :=
  | VInteger (z : Z)
  | VOctets (s : list byte)
  | VNull
  | VOid (x y : Z) (arcs : list Z)
  | VAddress (a b c d : byte)
  | VUnsigned (tag z : Z)
  | VOpaque (s : list byte)
  | VException (tag : Z).

Definition value_ok (v : wire_value) : Prop :=
  match v with
  | VInteger z => - 2 ^ 63 <= z < 2 ^ 63
  | VOctets s | VOpaque s => zlen s < 2 ^ 16
  | VNull | VAddress _ _ _ _ => True
  | VOid x y arcs => oid_ok x y arcs /\ zlen (encode_oid x y arcs) < 2 ^ 16
  | VUnsigned tag z => tag ∈ [tagCounter32; tagGauge32; tagTimeTicks; tagCounter64] /\ 0 <= z < 2 ^ 63
  | VException tag => tag ∈ [tagNoSuchObject; tagNoSuchInstance; tagEndOfMibView]
  end.

Definition wire_tlv (v : wire_value) : Z * list byte :=
  match v with
  | VInteger z => (tagInteger, encode_int z)
  | VOctets s => (tagOctetString, s)
  | VNull => (tagNull, [])
  | VOid x y arcs => (tagOID, encode_oid x y arcs)
  | VAddress a b c d => (tagIPAddress, [a; b; c; d])
  | VUnsigned tag z => (tag, encode_int z)
  | VOpaque s => (tagOpaque, s)
  | VException tag => (tag, [])
  end.

Definition value_text (v : wire_value) : string :=
  match v with
  | VInteger z | VUnsigned _ z => fmt_d z
  | VOctets s => if isPrintableASCII s then gostr s else "0x" +:+ hex_encode s
  | VNull => ""
  | VOid x y arcs => oid_text x y arcs
  | VAddress a b c d => cat [fmt_d (u8 a); "."; fmt_d (u8 b); "."; fmt_d (u8 c); "."; fmt_d (u8 d)]
  | VOpaque s => "0x" +:+ hex_encode s
  | VException tag =>
    if tag =? tagNoSuchObject then "noSuchObject"
    else if tag =? tagNoSuchInstance then "noSuchInstance" else "endOfMibView"
  end.

Lemma zlen_encode_int z : - 2 ^ 63 <= z < 2 ^ 63 -> 1 <= zlen (encode_int z) <= 8.
Proof. intros Hz. unfold encode_int. rewrite zlen_be_put. by apply int_size_bound. Qed.

Lemma formatValue_text v : value_ok v ->
  formatValue (fst (wire_tlv v)) (snd (wire_tlv v)) = value_text v.
Proof.
  destruct v as [z|s| |x y arcs|a b c d|tag z|s|tag]; cbn [value_ok wire_tlv fst snd value_text]; intros Hok.
  - unfold formatValue. rewrite Z.eqb_refl. by rewrite decodeInt_encode.
  - done.
  - done.
  - destruct Hok as [Hok _]. unfold formatValue. by apply decodeOID_encode.
  - done.
  - destruct Hok as [Ht Hz]. assert (formatValue tag (encode_int z) = fmt_d (decodeUint (encode_int z))) as ->.
    { apply list_elem_of_In in Ht. by destruct Ht as [<-|[<-|[<-|[<-|[]]]]]. }
    by rewrite decodeUint_encode.
  - done.
  - apply list_elem_of_In in Hok. by destruct Hok as [<-|[<-|[<-|[]]]].
Qed.

Lemma wire_tlv_ok v : value_ok v -> 0 <= fst (wire_tlv v) < 256 /\ zlen (snd (wire_tlv v)) < 2 ^ 16.
Proof.
  destruct v as [z|s| |x y arcs|a b c d|tag z|s|tag]; cbn [value_ok wire_tlv fst snd]; intros Hok;
    try (by split; [by vm_compute|lia]).
  - pose proof (zlen_encode_int z Hok). split; [by vm_compute|lia].
  - by split; [vm_compute|].
  - by split; [vm_compute|].
  - destruct Hok as [Ht Hz]. pose proof (zlen_encode_int z ltac:(lia)). split; [|lia].
    apply list_elem_of_In in Ht. unfold tagCounter32, tagGauge32, tagTimeTicks, tagCounter64 in Ht. cbn in Ht. lia.
  - split; [|by vm_compute]. apply list_elem_of_In in Hok. unfold tagNoSuchObject, tagNoSuchInstance, tagEndOfMibView in Hok.
    cbn in Hok. lia.
Qed.

Record wire_varbind := { wv_x : Z; wv_y : Z; wv_arcs : list Z; wv_value : wire_value }.

Definition varbind_ok (w : wire_varbind) : Prop :=
  oid_ok (wv_x w) (wv_y w) (wv_arcs w) /\ zlen (encode_oid (wv_x w) (wv_y w) (wv_arcs w)) < 2 ^ 16 /\
  value_ok (wv_value w).

Definition varbind_content (w : wire_varbind) : list byte :=
  encode_tlv tagOID (encode_oid (wv_x w) (wv_y w) (wv_arcs w)) ++
  encode_tlv (fst (wire_tlv (wv_value w))) (snd (wire_tlv (wv_value w))).
Definition encode_varbind (w : wire_varbind) : list byte := encode_tlv tagSequence (varbind_content w).
Definition encode_varbinds (ws : list wire_varbind) : list byte := mjoin (encode_varbind <$> ws).

Definition varbind_of (w : wire_varbind) : VarBind :=
  {| OID := oid_text (wv_x w) (wv_y w) (wv_arcs w); Value := value_text (wv_value w) |}.

Lemma zlen_encode_tlv tag content : zlen content < 2 ^ 32 ->
  2 + zlen content <= zlen (encode_tlv tag content) <= 6 + zlen content.
Proof.
  intros Hl. unfold encode_tlv. rewrite zlen_cons, zlen_app. pose proof (zlen_nonneg content).
  unfold encode_length. destruct (Z.ltb_spec (zlen content) 128); [change (zlen [_]) with 1; lia|].
  rewrite zlen_cons, zlen_be_put. pose proof (size_bound (zlen content) 4 ltac:(lia) ltac:(lia)).
  unfold length_size. lia.
Qed.

Lemma zlen_varbind_content w : varbind_ok w -> zlen (varbind_content w) < 2 ^ 18.
Proof.
  intros (_ & Ho & Hv). apply wire_tlv_ok in Hv as [_ Hv]. unfold varbind_content. rewrite zlen_app.
  pose proof (zlen_encode_tlv tagOID (encode_oid (wv_x w) (wv_y w) (wv_arcs w)) ltac:(lia)).
  pose proof (zlen_encode_tlv (fst (wire_tlv (wv_value w))) (snd (wire_tlv (wv_value w))) ltac:(lia)). lia.
Qed.

Lemma varbind_body_read content offset w vbs :
  varbind_ok w -> holds_at content offset (encode_varbind w) ->
  varbind_body content (offset, vbs) = Ok (Next (offset + zlen (encode_varbind w), vbs ++ [varbind_of w])).
Proof.
  intros Hw Hat. pose proof (zlen_varbind_content w Hw) as Hl. apply holds_at_bound in Hat as Hb.
  pose proof (zlen_encode_tlv tagSequence (varbind_content w) ltac:(lia)) as Hz.
  pose proof (zlen_nonneg (varbind_content w)). unfold encode_varbind in *.
  unfold varbind_body. replace (offset <? zlen content) with true by lia.
  rewrite (readTLV_at _ _ tagSequence _ Hat) by (lia || by vm_compute). cbn [mbind res_bind t_err t_tag t_next t_content].
  cbv zeta. rewrite Z.eqb_refl. cbn [negb].
  destruct Hw as (Ho & Hol & Hv). pose proof (wire_tlv_ok _ Hv) as [Ht Hvl].
  pose proof (holds_at_self (varbind_content w)) as Hself. unfold varbind_content in Hself at 2.
  apply holds_at_app in Hself as [H1 H2].
  rewrite (readTLV_at _ _ tagOID _ H1) by (lia || by vm_compute). cbn [mbind res_bind t_err t_tag t_next t_content].
  rewrite Z.eqb_refl. cbn [negb orb]. rewrite (readTLV_at _ _ _ _ H2) by (lia || done).
  cbn [mbind res_bind t_err t_tag t_content negb]. rewrite formatValue_text, decodeOID_encode by done. done.
Qed.

Lemma varbind_loop_read content offset ws vbs fuel :
  Forall varbind_ok ws -> holds_at content offset (encode_varbinds ws) ->
  loop (length ws + fuel) (varbind_body content) (offset, vbs)
  = loop fuel (varbind_body content) (offset + zlen (encode_varbinds ws), vbs ++ (varbind_of <$> ws)).
Proof.
  intros Hok. revert offset vbs. induction Hok as [|w ws Hw _ IH]; intros offset vbs Hat.
  - cbn. by rewrite zlen_nil, Z.add_0_r, app_nil_r.
  - change (encode_varbinds (w :: ws)) with (encode_varbind w ++ encode_varbinds ws) in *.
    apply holds_at_app in Hat as [H1 H2]. cbn [length Nat.add loop].
    rewrite (varbind_body_read _ _ _ _ Hw H1). cbn [mbind res_bind]. rewrite IH by done.
    by rewrite zlen_app, Z.add_assoc, <-app_assoc.
Qed.

Lemma length_encode_varbinds ws : (length ws <= length (encode_varbinds ws))%nat.
Proof.
  induction ws as [|w ws IH]; [done|].
  change (encode_varbinds (w :: ws)) with (encode_varbind w ++ encode_varbinds ws). rewrite length_app.
  unfold encode_varbind, encode_tlv. cbn [length]. lia.
Qed.

Lemma parseVarBindList_encode ws rest :
  Forall varbind_ok ws -> zlen (encode_varbinds ws) < 2 ^ 32 ->
  parseVarBindList (encode_tlv tagSequence (encode_varbinds ws) ++ rest) = Ok (varbind_of <$> ws).
Proof.
  intros Hok Hl. unfold parseVarBindList.
  rewrite (readTLV_at _ 0 tagSequence (encode_varbinds ws)) by
    (apply (holds_at_intro [] (encode_tlv tagSequence (encode_varbinds ws)) rest) || lia || by vm_compute).
  cbn [mbind res_bind t_err t_tag t_content]. rewrite Z.eqb_refl. cbn [negb orb].
  set (content := encode_varbinds ws). pose proof (length_encode_varbinds ws) as Hlen. fold content in Hlen.
  replace (S (length content)) with (length ws + S (length content - length ws))%nat by lia.
  rewrite varbind_loop_read by (done || apply holds_at_self). fold content. cbn [loop].
  set (next := loop _ _). unfold varbind_body.
  replace (0 + zlen content <? zlen content) with false by lia. done.
Qed.

(** ** Messages on the wire *)

Definition encode_int_tlv (z : Z) : list byte := encode_tlv tagInteger (encode_int z).

(** A PDU of any type but the v1 trap: three numbers and the bindings. *)
Definition pdu_content (id status index : Z) (ws : list wire_varbind) : list byte :=
  encode_int_tlv id ++ encode_int_tlv status ++ encode_int_tlv index ++
  encode_tlv tagSequence (encode_varbinds ws).

Definition message_content (version : Z) (community : list byte) (pduTag : Z) (pdu : list byte) : list byte :=
  encode_int_tlv version ++ encode_tlv tagOctetString community ++ encode_tlv pduTag pdu.

Definition encode_message (version : Z) (community : list byte) (pduTag : Z) (pdu : list byte) : list byte :=
  encode_tlv tagSequence (message_content version community pduTag pdu).

Lemma read_if_at ok data o tag content :
  holds_at data o (encode_tlv tag content) -> 0 <= tag < 256 -> zlen content < 2 ^ 32 ->
  ok {| t_tag := tag; t_content := content; t_next := o + zlen (encode_tlv tag content); t_err := false |} = true ->
  read_if ok data o = Ok (Some content, o + zlen (encode_tlv tag content)).
Proof.
  intros Hat Ht Hl Hok. unfold read_if. rewrite (readTLV_at _ _ _ _ Hat Ht Hl).
  cbn [mbind res_bind t_err negb andb]. by rewrite Hok.
Qed.

Lemma read_int_at data o z :
  holds_at data o (encode_int_tlv z) -> - 2 ^ 63 <= z < 2 ^ 63 ->
  read_if (is_tag tagInteger) data o = Ok (Some (encode_int z), o + zlen (encode_int_tlv z)).
Proof.
  intros Hat Hz. pose proof (zlen_encode_int z Hz).
  apply read_if_at; [done|by vm_compute|lia|]. unfold is_tag. cbn [t_tag]. apply Z.eqb_refl.
Qed.

Lemma parseRequestPDU_encode tag name id status index ws :
  - 2 ^ 63 <= id < 2 ^ 63 -> - 2 ^ 63 <= status < 2 ^ 63 -> - 2 ^ 63 <= index < 2 ^ 63 ->
  Forall varbind_ok ws -> zlen (encode_varbinds ws) < 2 ^ 32 ->
  parseRequestPDU tag name (pdu_content id status index ws)
  = Ok {| PDUType := tag; PDUName := name; RequestID := id; ErrorStatus := status;
          ErrorStatusName := map_str ErrorStatusNames status; ErrorIndex := index;
          IsError := negb (status =? 0); IsTrap := false; EnterpriseOID := ""; AgentAddr := "";
          GenericTrap := 0; GenericTrapName := ""; SpecificTrap := 0; VarBinds := varbind_of <$> ws |}.
Proof.
  intros Hid Hst Hix Hws Hl. set (data := pdu_content id status index ws).
  pose proof (holds_at_self data) as Hat. unfold data in Hat at 2. unfold pdu_content in Hat.
  apply holds_at_app in Hat as [H1 Hat]. apply holds_at_app in Hat as [H2 Hat]. apply holds_at_app in Hat as [H3 Hat].
  unfold parseRequestPDU. rewrite (read_int_at _ _ _ H1 Hid). cbn [mbind res_bind].
  rewrite (read_int_at _ _ _ H2 Hst). cbn [mbind res_bind]. rewrite (read_int_at _ _ _ H3 Hix). cbn [mbind res_bind].
  apply holds_at_bound in Hat as [Hb1 Hb2].
  pose proof (zlen_nonneg (encode_tlv tagSequence (encode_varbinds ws))).
  rewrite slice_from_Ok by lia. cbn [mbind res_bind].
  assert (drop (Z.to_nat (0 + zlen (encode_int_tlv id) + zlen (encode_int_tlv status) + zlen (encode_int_tlv index))) data
    = encode_tlv tagSequence (encode_varbinds ws)) as ->.
  { unfold data, pdu_content. rewrite !app_assoc.
    replace (Z.to_nat _) with (length ((encode_int_tlv id ++ encode_int_tlv status) ++ encode_int_tlv index))
      by (rewrite !length_app; unfold zlen; lia). by rewrite drop_app_all. }
  rewrite <-(app_nil_r (encode_tlv tagSequence (encode_varbinds ws))), parseVarBindList_encode by done.
  cbn [mbind res_bind]. unfold int_or_0. cbn [fmap option_fmap option_map default from_option].
  unfold compose. by rewrite !decodeInt_encode.
Qed.

Lemma parseSNMP_encode d pkt version community pduTag name id status index ws rest :
  0 <= version <= 1 -> zlen community < 2 ^ 16 -> pduTag <> PDUTrap -> PDUNames !! pduTag = Some name ->
  0 <= pduTag < 256 -> - 2 ^ 63 <= id < 2 ^ 63 -> - 2 ^ 63 <= status < 2 ^ 63 -> - 2 ^ 63 <= index < 2 ^ 63 ->
  Forall varbind_ok ws -> zlen (encode_varbinds ws) < 2 ^ 20 ->
  Payload pkt = encode_message version community pduTag (pdu_content id status index ws) ++ rest ->
  exists msg, parseSNMP d pkt = Ok (append_message d pkt msg) /\
    sn_SrcIP msg = SrcIP pkt /\ sn_DstIP msg = DstIP pkt /\ Version msg = version /\
    VersionNames !! version = Some (VersionName msg) /\ Community msg = gostr community /\ sn_v3 msg = no_v3 /\
    sn_pdu msg = {| PDUType := pduTag; PDUName := name; RequestID := id; ErrorStatus := status;
      ErrorStatusName := map_str ErrorStatusNames status; ErrorIndex := index;
      IsError := negb (status =? 0); IsTrap := false; EnterpriseOID := ""; AgentAddr := "";
      GenericTrap := 0; GenericTrapName := ""; SpecificTrap := 0; VarBinds := varbind_of <$> ws |}.
Proof.
  intros Hver Hcom Htrap Hname Htag Hid Hst Hix Hws Hl Hp.
  assert (zlen (pdu_content id status index ws) < 2 ^ 21) as Hpl.
  { unfold pdu_content, encode_int_tlv. rewrite !zlen_app.
    pose proof (zlen_encode_int id Hid). pose proof (zlen_encode_int status Hst). pose proof (zlen_encode_int index Hix).
    pose proof (zlen_encode_tlv tagInteger (encode_int id) ltac:(lia)).
    pose proof (zlen_encode_tlv tagInteger (encode_int status) ltac:(lia)).
    pose proof (zlen_encode_tlv tagInteger (encode_int index) ltac:(lia)).
    pose proof (zlen_encode_tlv tagSequence (encode_varbinds ws) ltac:(lia)). lia. }
  set (pdu := pdu_content id status index ws) in *. set (content := message_content version community pduTag pdu).
  assert (- 2 ^ 63 <= version < 2 ^ 63) as Hv63 by lia. pose proof (zlen_encode_int version Hv63).
  assert (zlen content < 2 ^ 22) as Hcl.
  { unfold content, message_content, encode_int_tlv. rewrite !zlen_app.
    pose proof (zlen_encode_tlv tagInteger (encode_int version) ltac:(lia)).
    pose proof (zlen_encode_tlv tagOctetString community ltac:(lia)).
    pose proof (zlen_encode_tlv pduTag pdu ltac:(lia)). lia. }
  unfold parseSNMP. rewrite Hp. unfold encode_message. fold content.
  rewrite (readTLV_at _ 0 tagSequence content) by
    (apply (holds_at_intro [] (encode_tlv tagSequence content) rest) || lia || by vm_compute).
  cbn [mbind res_bind t_err t_tag t_content]. rewrite Z.eqb_refl. cbn [negb orb]. cbv zeta.
  pose proof (holds_at_self content) as Hat. unfold content in Hat at 2. unfold message_content in Hat.
  apply holds_at_app in Hat as [H1 Hat]. apply holds_at_app in Hat as [H2 H3].
  unfold encode_int_tlv in H1. rewrite (readTLV_at _ _ tagInteger _ H1) by (lia || by vm_compute).
  cbn [mbind res_bind t_err t_tag t_content t_next]. rewrite Z.eqb_refl. cbn [negb orb].
  rewrite decodeInt_encode by done. replace ((version <? 0) || (3 <? version)) with false by lia.
  replace (version =? 3) with false by lia. unfold encode_int_tlv in H2, H3.
  rewrite (readTLV_at _ _ tagOctetString _ H2) by (lia || by vm_compute).
  cbn [mbind res_bind t_err t_tag t_content t_next]. rewrite Z.eqb_refl. cbn [negb orb].
  rewrite (readTLV_at _ _ pduTag _ H3) by (lia || done). cbn [mbind res_bind t_err t_tag t_content].
  assert (map_str PDUNames pduTag = name) as -> by (unfold map_str; by rewrite Hname).
  assert (String.eqb name "" = false) as ->.
  { unfold PDUNames in Hname. apply elem_of_list_to_map_2, list_elem_of_In in Hname.
    repeat (destruct Hname as [[= _ <-]|Hname]; [done|]). done. }
  unfold parse_pdu. rewrite (proj2 (Z.eqb_neq _ _) Htrap).
  unfold pdu. rewrite parseRequestPDU_encode by (done || lia). cbn [mbind res_bind].
  eexists. split; [reflexivity|]. unfold mk_message. cbn [sn_SrcIP sn_DstIP Version VersionName Community sn_v3 sn_pdu].
  split_and!; try done. assert (version = 0 \/ version = 1) as [-> | ->] by lia; done.
Qed.

Lemma encode_tlv_length tag content : 2 + zlen content <= zlen (encode_tlv tag content).
Proof.
  unfold encode_tlv, encode_length. rewrite zlen_cons, zlen_app.
  destruct (_ <? _); [change (zlen [_]) with 1; lia|]. rewrite zlen_cons.
  pose proof (zlen_nonneg (be_put (length_size (zlen content)) (zlen content))). lia.
Qed.

Lemma message_length version community pduTag pdu : 1 <= zlen pdu ->
  10 <= zlen (encode_message version community pduTag pdu).
Proof.
  intros Hpdu. unfold encode_message. pose proof (encode_tlv_length tagSequence (message_content version community pduTag pdu)) as H.
  assert (zlen (message_content version community pduTag pdu) = zlen (encode_tlv tagInteger (encode_int version)) +
    (zlen (encode_tlv tagOctetString community) + zlen (encode_tlv pduTag pdu))) as E
    by (unfold message_content, encode_int_tlv; by rewrite !zlen_app).
  pose proof (encode_tlv_length tagInteger (encode_int version)). pose proof (encode_tlv_length tagOctetString community).
  pose proof (encode_tlv_length pduTag pdu). pose proof (zlen_nonneg community). pose proof (zlen_nonneg pdu).
  assert (1 <= zlen (encode_int version)); [|lia]. unfold encode_int. rewrite zlen_be_put. unfold int_size.
  assert (0 <= (Z.log2 (if version <? 0 then - version - 1 else version) + 1) / 8); [|lia].
  apply Z.div_pos; [|lia]. pose proof (Z.log2_nonneg (if version <? 0 then - version - 1 else version)). lia.
Qed.

(** C20: SNMP messages survive the wire, and the decoder never panics. Every
    packet is handled. A v1 or v2c message on the SNMP ports, of any PDU type but
    the v1 trap, with any community, any 64-bit numbers and any bindings of
    any of the value types, followed by anything, appends a message with this
    community, these numbers, the identifiers in dotted form and the values as
    they are shown. Whatever the type of the PDU, its second number is taken for
    an error status, and the message is an error exactly when it is not zero. *)
Theorem snmp_message_roundtrip d pkt version community pduTag name id status index ws rest :
  (exists r, HandlePacket d pkt = Ok r) /\
  (0 <= version <= 1 -> zlen community < 2 ^ 16 -> pduTag <> PDUTrap -> PDUNames !! pduTag = Some name ->
   - 2 ^ 63 <= id < 2 ^ 63 -> - 2 ^ 63 <= status < 2 ^ 63 -> - 2 ^ 63 <= index < 2 ^ 63 ->
   Forall varbind_ok ws -> zlen (encode_varbinds ws) < 2 ^ 20 ->
   Protocol pkt = "UDP" -> isSNMPPort (SrcPort pkt) (DstPort pkt) = true ->
   Payload pkt = encode_message version community pduTag (pdu_content id status index ws) ++ rest ->
   exists msg pkt', HandlePacket d pkt = Ok ({| messages := messages d ++ [msg] |}, pkt') /\
    VersionNames !! version = Some (VersionName msg) /\ Community msg = gostr community /\
    PDUName (sn_pdu msg) = name /\ RequestID (sn_pdu msg) = id /\ ErrorIndex (sn_pdu msg) = index /\
    ErrorStatus (sn_pdu msg) = status /\ (IsError (sn_pdu msg) = true <-> status <> 0) /\
    VarBinds (sn_pdu msg) = varbind_of <$> ws).
Proof.
  split.
  { unfold HandlePacket. destruct (admits pkt); cbn [negb]; [|eauto].
    destruct (returns_inv _ _ (parseSNMP_returns d pkt)) as ([[d' p'] o] & -> & _). cbn. eauto. }
  intros Hver Hcom Htrap Hname Hid Hst Hix Hws Hl Hudp Hport Hp.
  assert (0 <= pduTag < 256) as Htag.
  { unfold PDUNames in Hname. apply elem_of_list_to_map_2, list_elem_of_In in Hname.
    repeat (destruct Hname as [[= <- _]|Hname]; [lia|]). done. }
  destruct (parseSNMP_encode d pkt version community pduTag name id status index ws rest)
    as (msg & E & _ & _ & _ & Hvn & Hc & _ & Hpdu); try done.
  assert (admits pkt = true) as Ha.
  { unfold admits. rewrite Hudp, Hport. cbn [String.eqb Ascii.eqb Bool.eqb andb].
    apply Z.leb_le. rewrite Hp, zlen_app. pose proof (zlen_nonneg rest).
    assert (1 <= zlen (pdu_content id status index ws)) as H1.
    { unfold pdu_content, encode_int_tlv, encode_tlv. cbn [app]. rewrite zlen_cons.
      match goal with |- _ <= 1 + zlen ?l => pose proof (zlen_nonneg l) end. lia. }
    pose proof (message_length version community pduTag _ H1). lia. }
  unfold HandlePacket. rewrite Ha. cbn [negb]. rewrite E. cbn [mbind res_bind append_message].
  eexists msg, _. split; [reflexivity|]. rewrite Hpdu. cbn [PDUName RequestID ErrorIndex ErrorStatus IsError VarBinds].
  split_and!; try done; rewrite negb_true_iff; apply Z.eqb_neq.
Qed.

(** A GetBulkRequest with one non-repeater and ten repetitions: an error. *)
Definition ex_bulk : Packet :=
  mk_packet 0 "10.0.0.1" "10.0.0.2" 40000 161 "UDP"
    (encode_message 1 (gobytes "public") PDUGetBulkRequest
      (pdu_content 42 1 10 [{| wv_x := 1; wv_y := 3; wv_arcs := [6; 1; 2; 1; 2; 2; 1; 10000]; wv_value := VNull |}])).

Example snmp_message_roundtrip_witness :
  exists msg pkt', HandlePacket NewDecoder ex_bulk = Ok ({| messages := [msg] |}, pkt') /\
    PDUName (sn_pdu msg) = "GetBulkRequest" /\ IsError (sn_pdu msg) = true /\
    VarBinds (sn_pdu msg) = [{| OID := "1.3.6.1.2.1.2.2.1.10000"; Value := "" |}].
Proof.
  destruct (proj2 (snmp_message_roundtrip NewDecoder ex_bulk 1 (gobytes "public") PDUGetBulkRequest "GetBulkRequest" 42 1 10
    [{| wv_x := 1; wv_y := 3; wv_arcs := [6; 1; 2; 1; 2; 2; 1; 10000]; wv_value := VNull |}] []))
    as (msg & pkt' & H1 & _ & _ & H4 & _ & _ & _ & H8 & H9);
    [lia|by vm_compute|by vm_compute|by vm_compute|lia|lia|lia| |by vm_compute|done|done|by vm_compute|].
  - apply Forall_singleton. split; [|by split; [vm_compute|]]. unfold oid_ok. cbn. split_and!; try lia.
    repeat (apply Forall_cons; split; [lia|]). by apply Forall_nil.
  - exists msg, pkt'. split; [exact H1|]. split; [done|]. split; [by apply H8|]. by rewrite H9.
Defined.
