(* ===== verification/Pfcp.v ===== *)
(** * internal/protocols/pfcp: the PFCP decoder

    types.go (names of messages and causes) and decoder.go: the header, the
    elements of TS 29.244 with the recursion into grouped elements, and the
    flows. The fields of [pfcpRecord] that the elements fill in are the record
    [ies]. *)
From S2P Require Export Domain.

(** ** types.go *)

Definition MessageTypes : gmap Z string := list_to_map
  [(1, "Heartbeat Request"); (2, "Heartbeat Response"); (3, "PFD Management Request");
   (4, "PFD Management Response"); (5, "Association Setup Request"); (6, "Association Setup Response");
   (7, "Association Update Request"); (8, "Association Update Response");
   (9, "Association Release Request"); (10, "Association Release Response");
   (50, "Session Establishment Request"); (51, "Session Establishment Response");
   (52, "Session Modification Request"); (53, "Session Modification Response");
   (54, "Session Deletion Request"); (55, "Session Deletion Response");
   (56, "Session Report Request"); (57, "Session Report Response")]%string.

Definition CauseValues : gmap Z string := list_to_map
  [(1, "Request accepted"); (64, "Request rejected"); (65, "Session context not found");
   (66, "Mandatory IE missing"); (67, "Conditional IE missing"); (68, "Invalid length");
   (69, "Mandatory IE incorrect"); (70, "Invalid Forwarding Policy");
   (71, "Invalid F-TEID allocation option"); (72, "No established PFCP Association");
   (73, "Rule creation/modification failure"); (74, "PFCP entity in congestion");
   (75, "No resources available"); (76, "Service not supported"); (77, "System failure")]%string.

Record PFCPHeader := {
  h_Version : Z; h_MessageType : Z; h_Length : Z; h_SEID : Z; h_SequenceNo : Z; h_HasSEID : bool;
}.

(** ** decoder.go *)

Record rule_counts := { PDRCount : Z; FARCount : Z; URRCount : Z; QERCount : Z }.

(** The fields of a record that the elements fill in. *)
Record ies := {
  CauseCode : Z;
  NodeID : string;
  LocalSEID : Z;
  RemoteSEID : Z;
  UEIP : string;
  DNN : string;
  UPFeatures : list string;
  counts : rule_counts;
  ApplyAction : string;
}.

Definition no_ies : ies :=
  {| CauseCode := 0; NodeID := ""; LocalSEID := 0; RemoteSEID := 0; UEIP := ""; DNN := "";
     UPFeatures := []; counts := {| PDRCount := 0; FARCount := 0; URRCount := 0; QERCount := 0 |};
     ApplyAction := "" |}.

Record pfcpRecord := {
  r_Timestamp : time;
  r_Header : PFCPHeader;
  r_MsgName : string;
  r_SrcIP : string;
  r_DstIP : string;
  r_SrcPort : Z;
  r_DstPort : Z;
  r_IsError : bool;
  r_ies : ies;
}.

Record Decoder := { messages : list pfcpRecord }.
Definition NewDecoder : Decoder := {| messages := [] |}.

(** *** Assignments to the fields *)

Definition set_cause (c : Z) (r : ies) : ies :=
  {| CauseCode := c; NodeID := NodeID r; LocalSEID := LocalSEID r; RemoteSEID := RemoteSEID r;
     UEIP := UEIP r; DNN := DNN r; UPFeatures := UPFeatures r; counts := counts r; ApplyAction := ApplyAction r |}.
Definition set_node (n : string) (r : ies) : ies :=
  {| CauseCode := CauseCode r; NodeID := n; LocalSEID := LocalSEID r; RemoteSEID := RemoteSEID r;
     UEIP := UEIP r; DNN := DNN r; UPFeatures := UPFeatures r; counts := counts r; ApplyAction := ApplyAction r |}.
Definition set_seids (l m : Z) (r : ies) : ies :=
  {| CauseCode := CauseCode r; NodeID := NodeID r; LocalSEID := l; RemoteSEID := m;
     UEIP := UEIP r; DNN := DNN r; UPFeatures := UPFeatures r; counts := counts r; ApplyAction := ApplyAction r |}.
Definition set_ueip (a : string) (r : ies) : ies :=
  {| CauseCode := CauseCode r; NodeID := NodeID r; LocalSEID := LocalSEID r; RemoteSEID := RemoteSEID r;
     UEIP := a; DNN := DNN r; UPFeatures := UPFeatures r; counts := counts r; ApplyAction := ApplyAction r |}.
Definition set_dnn (n : string) (r : ies) : ies :=
  {| CauseCode := CauseCode r; NodeID := NodeID r; LocalSEID := LocalSEID r; RemoteSEID := RemoteSEID r;
     UEIP := UEIP r; DNN := n; UPFeatures := UPFeatures r; counts := counts r; ApplyAction := ApplyAction r |}.
Definition set_features (l : list string) (r : ies) : ies :=
  {| CauseCode := CauseCode r; NodeID := NodeID r; LocalSEID := LocalSEID r; RemoteSEID := RemoteSEID r;
     UEIP := UEIP r; DNN := DNN r; UPFeatures := l; counts := counts r; ApplyAction := ApplyAction r |}.
Definition set_counts (c : rule_counts) (r : ies) : ies :=
  {| CauseCode := CauseCode r; NodeID := NodeID r; LocalSEID := LocalSEID r; RemoteSEID := RemoteSEID r;
     UEIP := UEIP r; DNN := DNN r; UPFeatures := UPFeatures r; counts := c; ApplyAction := ApplyAction r |}.
Definition set_action (a : string) (r : ies) : ies :=
  {| CauseCode := CauseCode r; NodeID := NodeID r; LocalSEID := LocalSEID r; RemoteSEID := RemoteSEID r;
     UEIP := UEIP r; DNN := DNN r; UPFeatures := UPFeatures r; counts := counts r; ApplyAction := a |}.

(** [rec.PDRCount++] and the others. *)
Definition add_counts (p f u q : Z) (r : ies) : ies :=
  let c := counts r in
  set_counts {| PDRCount := i64 (PDRCount c + p); FARCount := i64 (FARCount c + f);
                URRCount := i64 (URRCount c + u); QERCount := i64 (QERCount c + q) |} r.

(** *** Single elements *)

(** One turn of the loop of decodeFQDN, on (i, parts). *)
Definition fqdn_body (data : list byte) (st : Z * list string) : res (ctl (Z * list string) (list string)) :=
  let '(i, parts) := st in
  if i <? zlen data then
    l ← idx data i;
    let l := u8 l in
    if l =? 0 then Ok (Done parts)
    else
      let i := i + 1 in
      if zlen data <? i + l then Ok (Done parts)
      else
        part ← slice data i (i + l);
        Ok (Next (i + l, parts ++ [gostr part]))
  else Ok (Done parts).

Definition decodeFQDN (data : list byte) : res string :=
  parts ← loop (S (length data)) (fqdn_body data) (0, []);
  Ok (join "." parts).

Definition parseNodeID (data : list byte) (r : ies) : res ies :=
  if zlen data <? 1 then Ok r
  else
    b ← idx data 0;
    let nodeIDType := Z.land (u8 b) 0x0F in
    if nodeIDType =? 0 then
      if 5 <=? zlen data then a ← slice data 1 5; Ok (set_node (ip_string a) r) else Ok r
    else if nodeIDType =? 1 then
      if 17 <=? zlen data then a ← slice data 1 17; Ok (set_node (ip_string a) r) else Ok r
    else if nodeIDType =? 2 then
      if 1 <? zlen data then rest ← slice_from data 1; n ← decodeFQDN rest; Ok (set_node n r) else Ok r
    else Ok r.

(** The reads of the addresses have no effect but their bounds checks. *)
Definition parseFSEID (data : list byte) (r : ies) : res ies :=
  if zlen data <? 9 then Ok r
  else
    flags ← idx data 0;
    seid ← rd_be 8 data 1;
    let r := if LocalSEID r =? 0 then set_seids seid (RemoteSEID r) r else set_seids (LocalSEID r) seid r in
    let hasV4 := negb (Z.land (u8 flags) 0x02 =? 0) in
    let hasV6 := negb (Z.land (u8 flags) 0x01 =? 0) in
    offset ← (if hasV4 && (9 + 4 <=? zlen data) then _ ← slice data 9 (9 + 4); Ok (9 + 4) else Ok 9);
    _ ← (if hasV6 && (offset + 16 <=? zlen data) then slice data offset (offset + 16) else Ok []);
    Ok r.

Definition parseUEIPAddress (data : list byte) (r : ies) : res ies :=
  if zlen data <? 1 then Ok r
  else
    flags ← idx data 0;
    let hasV4 := negb (Z.land (u8 flags) 0x02 =? 0) in
    let hasV6 := negb (Z.land (u8 flags) 0x01 =? 0) in
    '(offset, r) ← (if hasV4 && (1 + 4 <=? zlen data) then
                      a ← slice data 1 (1 + 4); Ok (1 + 4, set_ueip (ip_string a) r)
                    else Ok (1, r));
    if hasV6 && (offset + 16 <=? zlen data) && String.eqb (UEIP r) "" then
      a ← slice data offset (offset + 16); Ok (set_ueip (ip_string a) r)
    else Ok r.

Definition featureNames : list string :=
  ["BUCP"; "DDND"; "DLBD"; "TRST"; "FTUP"; "PFDM"; "HEEU"; "TREU";
   "EMPU"; "PDIU"; "UDBC"; "QUOAC"; "TRACE"; "FRRT"; "PFDE"; ""].

(** The names of the bits that are set, from bit [i] on. *)
Fixpoint named_bits (i : nat) (names : list string) (features : Z) : list string :=
  match names with
  | [] => []
  | name :: names =>
    (if negb (String.eqb name "") && (Z.land (Z.shiftr features (Z.of_nat i)) 1 =? 1) then [name] else [])
    ++ named_bits (S i) names features
  end.

Definition parseUPFFeatures (data : list byte) (r : ies) : res ies :=
  if zlen data <? 2 then Ok r
  else
    features ← rd_be 2 data 0;
    Ok (set_features (UPFeatures r ++ named_bits 0 featureNames features) r).

Definition decodeApplyAction (flags : Z) : string :=
  let bit m name := if negb (Z.land flags m =? 0) then [name] else [] in
  let actions := bit 0x01 "DROP" ++ bit 0x02 "FORW" ++ bit 0x04 "BUFF" ++ bit 0x08 "NOCP" ++ bit 0x10 "DUPL" in
  match actions with
  | [] => "0x" +:+ fmt_0x 2 flags
  | _ => join "+" actions
  end.

(** *** Lists of elements *)

(** One turn of the loops of parsePFCPIEs and parseGroupedIE, with the switch
    as an argument. *)
Definition ie_body (switch : Z -> list byte -> ies -> res ies) (data : list byte) (st : Z * ies) :
    res (ctl (Z * ies) ies) :=
  let '(offset, r) := st in
  if offset + 4 <=? zlen data then
    ieType ← rd_be 2 data offset;
    ieLen ← rd_be 2 data (offset + 2);
    let ieEnd := offset + 4 + ieLen in
    let ieEnd := if zlen data <? ieEnd then zlen data else ieEnd in
    ieValue ← slice data (offset + 4) ieEnd;
    r ← switch ieType ieValue r;
    Ok (Next (offset + (4 + ieLen), r))
  else Ok (Done r).

Definition scan_ies (switch : Z -> list byte -> ies -> res ies) (data : list byte) (r : ies) : res ies :=
  loop (S (length data)) (ie_body switch data) (0, r).

(** [if len(ieValue) >= 1 { rec.ApplyAction = decodeApplyAction(ieValue[0]) }] *)
Definition apply_action (v : list byte) (r : ies) : res ies :=
  if 1 <=? zlen v then b ← idx v 0; Ok (set_action (decodeApplyAction (u8 b)) r) else Ok r.

(** The switch of parseGroupedIE; [nested] is the recursive call. *)
Definition grouped_ie (nested : list byte -> ies -> res ies) (t : Z) (v : list byte) (r : ies) : res ies :=
  if t =? 44 then apply_action v r
  else if t =? 93 then parseUEIPAddress v r
  else if t =? 22 then
    if (0 <? zlen v) && String.eqb (DNN r) "" then Ok (set_dnn (gostr v) r) else Ok r
  else if t =? 20 then Ok r
  else if t =? 2 then nested v r
  else if t =? 4 then nested v r
  else Ok r.

(** The fuel bounds the depth of the nesting. *)
Fixpoint parseGroupedIE (fuel : nat) (data : list byte) (r : ies) : res ies :=
  match fuel with
  | O => OutOfFuel
  | S fuel => scan_ies (grouped_ie (parseGroupedIE fuel)) data r
  end.

(** The switch of parsePFCPIEs. Every element that is entered is shorter than
    the buffer it stands in. *)
Definition message_ie (t : Z) (v : list byte) (r : ies) : res ies :=
  if t =? 19 then
    if 1 <=? zlen v then b ← idx v 0; Ok (set_cause (u8 b) r) else Ok r
  else if t =? 60 then parseNodeID v r
  else if t =? 57 then parseFSEID v r
  else if t =? 93 then parseUEIPAddress v r
  else if t =? 22 then
    if 0 <? zlen v then Ok (set_dnn (gostr v) r) else Ok r
  else if t =? 43 then parseUPFFeatures v r
  else if t =? 1 then parseGroupedIE (S (length v)) v (add_counts 1 0 0 0 r)
  else if t =? 3 then parseGroupedIE (S (length v)) v (add_counts 0 1 0 0 r)
  else if t =? 6 then Ok (add_counts 0 0 1 0 r)
  else if t =? 7 then Ok (add_counts 0 0 0 1 r)
  else if t =? 44 then apply_action v r
  else Ok r.

Definition parsePFCPIEs (data : list byte) (r : ies) : res ies := scan_ies message_ie data r.

(** extractPFCPCause, which nothing calls. *)
Definition cause_body (data : list byte) (offset : Z) : res (ctl Z Z) :=
  if offset + 4 <=? zlen data then
    ieType ← rd_be 2 data offset;
    ieLen ← rd_be 2 data (offset + 2);
    if (ieType =? 19) && (1 <=? ieLen) && (offset + 4 <? zlen data) then
      b ← idx data (offset + 4); Ok (Done (u8 b))
    else Ok (Next (offset + (4 + ieLen)))
  else Ok (Done 0).

Definition extractPFCPCause (data : list byte) : res Z := loop (S (length data)) (cause_body data) 0.

(** *** Messages *)

(** The header, and the offset of the body: [None] where parsePFCP returns nil. *)
Definition parse_header (payload : list byte) : res (option (PFCPHeader * Z)) :=
  b0 ← idx payload 0;
  let version := Z.land (Z.shiftr (u8 b0) 5) 0x07 in
  if negb (version =? 1) then Ok None
  else
    let seidPresent := negb (Z.land (u8 b0) 0x01 =? 0) in
    msgType ← idx payload 1;
    msgLen ← rd_be 2 payload 2;
    let hdr seid seq := {| h_Version := version; h_MessageType := u8 msgType; h_Length := msgLen;
                           h_SEID := seid; h_SequenceNo := seq; h_HasSEID := seidPresent |} in
    let read_seq i :=
      b1 ← idx payload i; b2 ← idx payload (i + 1); b3 ← idx payload (i + 2);
      Ok (Z.lor (Z.lor (Z.shiftl (u8 b1) 16) (Z.shiftl (u8 b2) 8)) (u8 b3)) in
    if seidPresent then
      if zlen payload <? 16 then Ok None
      else
        seid ← rd_be 8 payload 4;
        seq ← read_seq 12;
        Ok (Some (hdr seid seq, 16))
    else
      if zlen payload <? 8 then Ok None
      else
        seq ← read_seq 4;
        Ok (Some (hdr 0 seq, 8)).

Definition message_name (msgType : Z) : string :=
  let msgName := map_str MessageTypes msgType in
  if String.eqb msgName "" then "PFCP_Type_" +:+ fmt_d msgType else msgName.

Definition seid_note (hdr : PFCPHeader) : string :=
  if h_HasSEID hdr then " SEID=0x" +:+ fmt_0x 16 (h_SEID hdr) else "".

Definition is_error (r : ies) : bool := negb (CauseCode r =? 0) && negb (CauseCode r =? 1).

Definition mk_record (pkt : Packet) (hdr : PFCPHeader) (r : ies) : pfcpRecord :=
  {| r_Timestamp := Timestamp pkt; r_Header := hdr; r_MsgName := message_name (h_MessageType hdr);
     r_SrcIP := SrcIP pkt; r_DstIP := DstIP pkt; r_SrcPort := SrcPort pkt; r_DstPort := DstPort pkt;
     r_IsError := is_error r; r_ies := r |}.

Definition parsePFCP (d : Decoder) (pkt : Packet) : res (Decoder * Packet * option pfcpRecord) :=
  h ← parse_header (Payload pkt);
  match h with
  | None => Ok (d, pkt, None)
  | Some (hdr, dataOffset) =>
    r ← (if dataOffset <? zlen (Payload pkt) then
           body ← slice_from (Payload pkt) dataOffset; parsePFCPIEs body no_ies
         else Ok no_ies);
    let rec := mk_record pkt hdr r in
    Ok ({| messages := messages d ++ [rec] |}, set_app "PFCP" (r_MsgName rec +:+ seid_note hdr) pkt, Some rec)
  end.

(** The early returns of both handlers, negated. *)
Definition admits (pkt : Packet) : bool :=
  ((SrcPort pkt =? 8805) || (DstPort pkt =? 8805)) && String.eqb (Protocol pkt) "UDP" && (8 <=? zlen (Payload pkt)).

Definition HandlePacket (d : Decoder) (pkt : Packet) : res (Decoder * Packet) :=
  if negb (admits pkt) then Ok (d, pkt)
  else '(d, pkt, _) ← parsePFCP d pkt; Ok (d, pkt).

Definition live_summary (rec : pfcpRecord) : string :=
  let c := CauseCode (r_ies rec) in
  let causeName := map_str CauseValues c in
  cat [r_MsgName rec; seid_note (r_Header rec);
       if String.eqb (NodeID (r_ies rec)) "" then "" else " Node=" +:+ NodeID (r_ies rec);
       if c =? 0 then ""
       else cat [" ["; if String.eqb causeName "" then "Cause_" +:+ fmt_d c else causeName; "]"]].

Definition live_errors (rec : pfcpRecord) : list PacketError :=
  let c := CauseCode (r_ies rec) in
  if r_IsError rec then
    [{| Code := "PFCP_" +:+ fmt_d c; Title := cat ["PFCP "; r_MsgName rec; " Failed"];
        Description := cat ["Cause: "; map_str CauseValues c; " ("; fmt_d c; ")"]; Severity := "error" |}]
  else [].

(** The entries both maps have; the features are a list in the live map and a
    text in the flow. *)
Definition common_entries (rec : pfcpRecord) : list (string * any) :=
  let r := r_ies rec in
  [("message_type", AStr (r_MsgName rec)); ("seid", AInt TU64 (h_SEID (r_Header rec)));
   ("cause_code", AInt TU8 (CauseCode r)); ("node_id", AStr (NodeID r)); ("ue_ip", AStr (UEIP r));
   ("dnn", AStr (DNN r)); ("pdr_count", AInt TInt (PDRCount (counts r)));
   ("far_count", AInt TInt (FARCount (counts r))); ("urr_count", AInt TInt (URRCount (counts r)));
   ("qer_count", AInt TInt (QERCount (counts r))); ("apply_action", AStr (ApplyAction r))]%string.

Definition live_metadata (rec : pfcpRecord) : gmap string any :=
  list_to_map (("sequence", AInt TU32 (h_SequenceNo (r_Header rec)))
    :: ("upf_features", AStrs (UPFeatures (r_ies rec))) :: common_entries rec)%string.

Definition HandlePacketLive (d : Decoder) (pkt : Packet) : res (Decoder * Packet * option DecodedPacket) :=
  if negb (admits pkt) then Ok (d, pkt, None)
  else
    '(d, pkt, o) ← parsePFCP d pkt;
    match o with
    | None => Ok (d, pkt, None)
    | Some rec =>
      Ok (d, pkt, Some {| D_Packet := pkt; D_Protocol := "PFCP"; D_Summary := live_summary rec;
                          D_Metadata := live_metadata rec; D_Errors := live_errors rec |})
    end.

Definition record_flow (rec : pfcpRecord) : Flow :=
  {| FlowID := cat ["pfcp-"; fmt_d (h_SEID (r_Header rec)); "-"; fmt_d (h_SequenceNo (r_Header rec))];
     Type_ := FlowPFCP; F_SrcIP := r_SrcIP rec; F_DstIP := r_DstIP rec;
     F_SrcPort := r_SrcPort rec; F_DstPort := r_DstPort rec;
     StartTime := r_Timestamp rec; EndTime := r_Timestamp rec;
     Metrics := list_to_map (("is_error", ABool (r_IsError rec))
       :: ("local_seid", AInt TU64 (LocalSEID (r_ies rec))) :: ("remote_seid", AInt TU64 (RemoteSEID (r_ies rec)))
       :: ("upf_features", AStr (join "," (UPFeatures (r_ies rec)))) :: common_entries rec)%string |}.

Definition Flush (d : Decoder) : list Flow := record_flow <$> messages d.

(** ** The decoder returns on every packet *)

Lemma decodeFQDN_returns data : returns (decodeFQDN data) (fun _ => True).
Proof.
  unfold decodeFQDN. run_step. apply (returns_weaken _ (fun _ => True)); [|done].
  apply (returns_loop (fun '(i, _) => 0 <= i) (fun '(i, _) => Z.to_nat (zlen data - i))); [|lia|unfold zlen; lia].
  intros [i parts] Hi. unfold fqdn_body. destruct (Z.ltb_spec i (zlen data)); [|done].
  run_step. apply returns_idx; [lia|]. intros l _. cbv zeta. pose proof (u8_range l).
  run_step; [done|]. destruct (Z.ltb_spec (zlen data) (i + 1 + u8 l)); [done|].
  run_step. apply returns_slice; [lia|]. cbn. lia.
Qed.

#[export] Hint Resolve decodeFQDN_returns : deeppacket.

Lemma parseNodeID_returns v r : returns (parseNodeID v r) (fun _ => True).
Proof.
  unfold parseNodeID, slice_from. run_calls.
Qed.

Lemma parseFSEID_returns v r : returns (parseFSEID v r) (fun _ => True).
Proof. unfold parseFSEID. pose proof (zlen_nonneg v). run_calls. Qed.

Lemma parseUEIPAddress_returns v r : returns (parseUEIPAddress v r) (fun _ => True).
Proof. unfold parseUEIPAddress. run_calls. Qed.

Lemma parseUPFFeatures_returns v r : returns (parseUPFFeatures v r) (fun _ => True).
Proof. unfold parseUPFFeatures. run_calls. Qed.

Lemma apply_action_returns v r : returns (apply_action v r) (fun _ => True).
Proof. unfold apply_action. run_calls. Qed.

#[export] Hint Resolve parseNodeID_returns parseFSEID_returns parseUEIPAddress_returns
  parseUPFFeatures_returns apply_action_returns : deeppacket.

(** Only values shorter than the buffer are handed to the switch. *)
Lemma scan_ies_returns switch data r :
  (forall t v r, zlen v + 4 <= zlen data -> returns (switch t v r) (fun _ => True)) ->
  returns (scan_ies switch data r) (fun _ => True).
Proof.
  intros Hs. unfold scan_ies.
  apply (returns_loop (fun '(o, _) => 0 <= o) (fun '(o, _) => Z.to_nat (zlen data - o))); [|lia|unfold zlen; lia].
  intros [o r'] Ho. unfold ie_body. destruct (Z.leb_spec (o + 4) (zlen data)); [|done].
  run_step. apply returns_rd_be; [lia|]. intros t _ _.
  run_step. apply returns_rd_be; [lia|]. intros len _ Hlen. change (256 ^ Z.of_nat 2) with 65536 in Hlen.
  cbv zeta. set (e := if _ <? _ then _ else _).
  assert (o + 4 <= e <= zlen data) by (unfold e; case_match; lia).
  run_step. apply returns_slice; [lia|]. run_step. eapply returns_weaken; [apply Hs|].
  - rewrite zlen_sub by lia. lia.
  - intros r'' _. cbn. lia.
Qed.

Lemma parseGroupedIE_returns fuel data r :
  (length data < fuel)%nat -> returns (parseGroupedIE fuel data r) (fun _ => True).
Proof.
  revert data r. induction fuel as [|fuel IH]; intros data r Hf; [lia|].
  cbn [parseGroupedIE]. apply scan_ies_returns. intros t v r' Hv.
  assert (returns (parseGroupedIE fuel v r') (fun _ => True)) by (apply IH; unfold zlen in Hv; lia).
  unfold grouped_ie. repeat case_match; eauto with deeppacket; done.
Qed.

Lemma pfcp_message_ie_returns t v r : returns (message_ie t v r) (fun _ => True).
Proof.
  pose proof (fun r => parseGroupedIE_returns (S (length v)) v r ltac:(lia)).
  unfold message_ie. run_reads; auto with deeppacket.
Qed.

Lemma parsePFCPIEs_returns data r : returns (parsePFCPIEs data r) (fun _ => True).
Proof. apply scan_ies_returns. intros. apply pfcp_message_ie_returns. Qed.

Lemma pfcp_header_returns payload : 8 <= zlen payload ->
  returns (parse_header payload) (fun o => match o with Some (_, n) => 0 <= n <= zlen payload | None => True end).
Proof. intros H. unfold parse_header. run_reads. all: cbn; lia. Qed.

Lemma parsePFCP_returns d pkt : 8 <= zlen (Payload pkt) ->
  returns (parsePFCP d pkt) (fun '(d', pkt', o) =>
    match o with
    | Some rec => messages d' = messages d ++ [rec] /\
        pkt' = set_app "PFCP" (r_MsgName rec +:+ seid_note (r_Header rec)) pkt
    | None => d' = d /\ pkt' = pkt
    end).
Proof.
  intros H. unfold parsePFCP. apply returns_bind. eapply returns_weaken; [by apply pfcp_header_returns|].
  intros [[hdr n]|] Hn; [|done].
  apply (returns_bind_weak _ _ (fun _ => True)); [|by intros].
  destruct (Z.ltb_spec n (zlen (Payload pkt))); [|done].
  unfold slice_from. run_step. apply returns_slice; [lia|]. apply parsePFCPIEs_returns.
Qed.

Lemma pfcp_handle_returns d pkt : returns (HandlePacket d pkt) (fun '(d', _) =>
  exists l, messages d' = messages d ++ l /\ (length l <= 1)%nat).
Proof.
  unfold HandlePacket. destruct (admits pkt) eqn:Ha; cbn [negb].
  2:{ exists []. rewrite app_nil_r. split; [done|cbn; lia]. }
  unfold admits in Ha. apply returns_bind. eapply returns_weaken; [apply parsePFCP_returns; lia|].
  intros [[d' pkt'] [rec|]]; cbn.
  - intros [-> _]. by exists [rec].
  - intros [-> _]. exists []. rewrite app_nil_r. split; [done|cbn; lia].
Qed.

(** ** Elements on the wire

    TS 29.244: an element has a type, a length and a value; a group holds
    elements. *)

Definition encode_tlv (e : Z * list byte) : list byte :=
  be_put 2 (fst e) ++ be_put 2 (zlen (snd e)) ++ snd e.
Definition encode_tlvs (l : list (Z * list byte)) : list byte := mjoin (encode_tlv <$> l).

Definition encode_label (l : list byte) : list byte := byte_of (zlen l) :: l.

(** The flags of an address element: bit 2 for IPv4, bit 1 for IPv6. *)
Definition has_v4 (flags : Z) : bool := negb (Z.land flags 0x02 =? 0).
Definition has_v6 (flags : Z) : bool := negb (Z.land flags 0x01 =? 0).

(** [more] are octets that later releases of the specification add. *)
Inductive element :=
  | Cause (c : Z) (more : list byte)
  | NodeAddress (spare : Z) (a : list byte)
  | NodeName (spare : Z) (labels : list (list byte))
  | FSEID (flags seid : Z) (v4 v6 : list byte)
  | UEAddress (flags : Z) (v4 v6 more : list byte)
  | NetworkInstance (name : list byte)
  | Features (o5 o6 : Z) (more : list byte)
  | Apply (flags : Z) (more : list byte)
  | Group (t : Z) (l : list element)
  | Other (t : Z) (v : list byte).

(** The type and the value of an element. *)
Fixpoint wire (e : element) : Z * list byte :=
  match e with
  | Cause c more => (19, byte_of c :: more)
  | NodeAddress spare a => (60, byte_of (16 * spare + (if zlen a =? 4 then 0 else 1)) :: a)
  | NodeName spare labels => (60, byte_of (16 * spare + 2) :: mjoin (encode_label <$> labels))
  | FSEID flags seid v4 v6 => (57, byte_of flags :: be_put 8 seid ++ v4 ++ v6)
  | UEAddress flags v4 v6 more => (93, byte_of flags :: v4 ++ v6 ++ more)
  | NetworkInstance name => (22, name)
  | Features o5 o6 more => (43, byte_of o5 :: byte_of o6 :: more)
  | Apply flags more => (44, byte_of flags :: more)
  | Group t l => (t, encode_tlvs (wire <$> l))
  | Other t v => (t, v)
  end.

Definition octet (z : Z) : bool := (0 <=? z) && (z <? 256).
Definition addresses_ok (flags : Z) (v4 v6 : list byte) : bool :=
  octet flags && (zlen v4 =? if has_v4 flags then 4 else 0) && (zlen v6 =? if has_v6 flags then 16 else 0).

Definition known_types : list Z := [19; 60; 57; 93; 22; 43; 1; 3; 44; 2; 4].

Fixpoint valid (e : element) : bool :=
  (zlen (snd (wire e)) <? 65536) &&
  match e with
  | Cause c _ => octet c
  | NodeAddress spare a => (0 <=? spare) && (spare <? 16) && ((zlen a =? 4) || (zlen a =? 16))
  | NodeName spare labels =>
      (0 <=? spare) && (spare <? 16) && negb (zlen labels =? 0)
      && forallb (fun l => (0 <? zlen l) && (zlen l <? 256)) labels
  | FSEID flags seid v4 v6 => addresses_ok flags v4 v6 && (0 <=? seid) && (seid <? 2 ^ 64)
  | UEAddress flags v4 v6 _ => addresses_ok flags v4 v6
  | NetworkInstance _ => true
  | Features o5 o6 _ => octet o5 && octet o6
  | Apply flags _ => octet flags
  | Group t l => bool_decide (t ∈ [1; 3; 2; 4]) && forallb valid l
  | Other t _ => (0 <=? t) && (t <? 65536) && bool_decide (t ∉ known_types)
  end.

(** What an element does to a record, at the top of a message or in a group. *)
Fixpoint means (top : bool) (r : ies) (e : element) : ies :=
  match e with
  | Cause c _ => if top then set_cause c r else r
  | NodeAddress _ a => if top then set_node (ip_string a) r else r
  | NodeName _ labels => if top then set_node (join "." (gostr <$> labels)) r else r
  | FSEID _ seid _ _ =>
      if negb top then r
      else if LocalSEID r =? 0 then set_seids seid (RemoteSEID r) r else set_seids (LocalSEID r) seid r
  | UEAddress flags v4 v6 _ =>
      let r := if has_v4 flags then set_ueip (ip_string v4) r else r in
      if has_v6 flags && String.eqb (UEIP r) "" then set_ueip (ip_string v6) r else r
  | NetworkInstance name =>
      if (0 <? zlen name) && (top || String.eqb (DNN r) "") then set_dnn (gostr name) r else r
  | Features o5 o6 _ =>
      if top then set_features (UPFeatures r ++ named_bits 0 featureNames (o5 * 256 + o6)) r else r
  | Apply flags _ => set_action (decodeApplyAction flags) r
  | Group t l =>
      if top then
        if t =? 1 then foldl (means false) (add_counts 1 0 0 0 r) l
        else if t =? 3 then foldl (means false) (add_counts 0 1 0 0 r) l else r
      else if (t =? 2) || (t =? 4) then foldl (means false) r l else r
  | Other t _ =>
      if top then
        if t =? 6 then add_counts 0 0 1 0 r else if t =? 7 then add_counts 0 0 0 1 r else r
      else r
  end.

(** Induction into groups. *)
Lemma element_nested (P : element -> Prop) :
  (forall e, (forall t l, e = Group t l -> Forall P l) -> P e) -> forall e, P e.
Proof.
  intros H. fix IH 1. intros [| | | | | | | |t l|]; apply H; try discriminate.
  intros ? ? [= _ <-]. induction l as [|e l IHl]; constructor; [apply IH|exact IHl].
Qed.

Lemma valid_inv e : valid e = true -> 0 <= fst (wire e) < 65536 /\ zlen (snd (wire e)) < 65536.
Proof.
  intros Hv. assert (zlen (snd (wire e)) < 65536 /\ valid e = true) as [Hz _].
  { split; [|done]. destruct e; cbn [valid] in Hv; lia. }
  split; [|done]. destruct e; cbn [fst wire]; try lia; cbn [valid] in Hv.
  - apply andb_true_iff in Hv as [_ [Ht%bool_decide_eq_true _]%andb_true_iff]. set_solver by lia.
  - lia.
Qed.

Lemma zlen_pfcp_tlv e : zlen (encode_tlv e) = 4 + zlen (snd e).
Proof. unfold encode_tlv. rewrite !zlen_app, !zlen_be_put. lia. Qed.

Lemma encode_tlvs_cons e l : encode_tlvs (e :: l) = encode_tlv e ++ encode_tlvs l.
Proof. done. Qed.

Lemma length_encode_tlvs l : (length l <= length (encode_tlvs l))%nat.
Proof.
  induction l as [|e l IH]; [done|]. rewrite encode_tlvs_cons, length_app.
  pose proof (zlen_pfcp_tlv e). pose proof (zlen_nonneg (snd e)). unfold zlen in *. cbn. lia.
Qed.

(** The scan of a list of elements gives them to the switch in turn. *)
Lemma scan_ies_wire switch (f : ies -> element -> ies) l r :
  (forall r e, e ∈ l -> switch (fst (wire e)) (snd (wire e)) r = Ok (f r e)) ->
  forallb valid l = true -> scan_ies switch (encode_tlvs (wire <$> l)) r = Ok (foldl f r l).
Proof.
  intros Hs Hv. unfold scan_ies. set (data := encode_tlvs (wire <$> l)).
  set (step := fun (st : Z * ies) e => (fst st + zlen (encode_tlv (wire e)), f (snd st) e)).
  assert (forall k st, snd (foldl step st k) = foldl f (snd st) k) as Hfold.
  { intros k. induction k as [|e k IH]; intros st; [done|]. cbn [foldl]. by rewrite IH. }
  rewrite (loop_foldl (fun st k => k ⊆ l /\ holds_at data (fst st) (encode_tlvs (wire <$> k)) /\
      fst st + zlen (encode_tlvs (wire <$> k)) = zlen data) step snd) with (l := l).
  - by rewrite Hfold.
  - intros [o r'] e k (Hk & Hat & Hend). cbn [fst] in *. rewrite fmap_cons, encode_tlvs_cons in *.
    assert (e ∈ l) as He by set_solver. rewrite forallb_forall in Hv.
    destruct (valid_inv e) as [Ht Hz]; [by apply Hv, list_elem_of_In|].
    pose proof (zlen_nonneg (snd (wire e))). rewrite zlen_app, zlen_pfcp_tlv in *.
    apply holds_at_app in Hat as [Hat Hk']. rewrite zlen_pfcp_tlv in Hk'. cbn [fst snd].
    pose proof (holds_at_bound _ _ _ Hk') as Hb. unfold encode_tlv in Hat.
    apply holds_at_app in Hat as [H1 Hat]. rewrite zlen_be_put in Hat.
    apply holds_at_app in Hat as [H2 H3]. rewrite zlen_be_put in H3.
    change (Z.of_nat 2) with 2 in *.
    pose proof (zlen_nonneg (encode_tlvs (wire <$> k))). split.
    + unfold ie_body. replace (o + 4 <=? zlen data) with true by lia.
      rewrite (holds_at_put _ _ 2 _ H1) by (cbn; lia).
      cbn [mbind res_bind].
      rewrite (holds_at_put _ _ 2 _ H2) by (cbn; lia).
      cbn [mbind res_bind]. cbv zeta.
      replace (zlen data <? _) with false by lia.
      replace (o + 4) with (o + 2 + 2) by lia.
      rewrite (holds_at_slice _ _ _ H3). cbn [mbind res_bind]. rewrite Hs by done. cbn [mbind res_bind].
      unfold step. cbn [fst snd].
      do 3 f_equal. rewrite zlen_pfcp_tlv. lia.
    + cbn [step fst snd]. rewrite zlen_pfcp_tlv. split_and!; [set_solver|done|lia].
  - intros [o r'] (_ & _ & Hend). change (zlen (encode_tlvs (wire <$> []))) with 0 in Hend.
    cbn [fst] in Hend. unfold ie_body.
    replace (o + 4 <=? zlen data) with false by lia. done.
  - cbn [fst]. split_and!; [done|apply holds_at_self|unfold data; lia].
  - pose proof (length_encode_tlvs (wire <$> l)). rewrite length_fmap in *. unfold data. lia.
Qed.

(** *** Single elements come back *)

Lemma octet_inv z : octet z = true -> 0 <= z < 256.
Proof. unfold octet. lia. Qed.

Lemma apply_action_wire flags more r : octet flags = true ->
  apply_action (byte_of flags :: more) r = Ok (set_action (decodeApplyAction flags) r).
Proof.
  intros Hf%octet_inv. unfold apply_action. rewrite zlen_cons. pose proof (zlen_nonneg more).
  replace (1 <=? 1 + zlen more) with true by lia. rewrite idx_head.
  cbn [mbind res_bind]. by rewrite u8_byte_of.
Qed.

Lemma parseUEIPAddress_wire flags v4 v6 more r : addresses_ok flags v4 v6 = true ->
  parseUEIPAddress (byte_of flags :: v4 ++ v6 ++ more) r = Ok (means false r (UEAddress flags v4 v6 more)).
Proof.
  intros [[Hf%octet_inv H4%Z.eqb_eq]%andb_true_iff H6%Z.eqb_eq]%andb_true_iff.
  set (data := byte_of flags :: v4 ++ v6 ++ more). pose proof (zlen_nonneg more).
  assert (zlen data = 1 + zlen v4 + zlen v6 + zlen more) as Hz by (unfold data; rewrite zlen_cons, !zlen_app; lia).
  pose proof (holds_at_self data) as Hat. apply holds_at_cons in Hat as [Hi Hat].
  apply holds_at_app in Hat as [Hv4 Hat]. apply holds_at_app in Hat as [Hv6 _].
  apply holds_at_slice in Hv4, Hv6. change (0 + 1) with 1 in *.
  unfold parseUEIPAddress. replace (zlen data <? 1) with false by (destruct (has_v4 flags), (has_v6 flags); lia).
  rewrite Hi. cbn [mbind res_bind].
  rewrite u8_byte_of by done. fold (has_v4 flags). fold (has_v6 flags).
  cbv zeta. cbn [means]. destruct (has_v4 flags).
  - replace (1 + 4 <=? zlen data) with true by (destruct (has_v6 flags); lia). rewrite H4 in Hv4, Hv6.
    cbn [andb]. rewrite Hv4. cbn [mbind res_bind]. destruct (has_v6 flags); [|done].
    replace (1 + 4 + 16 <=? zlen data) with true by lia. cbn [andb]. case_match; [|done].
    rewrite H6 in Hv6. by rewrite Hv6.
  - cbn [andb mbind res_bind]. destruct (has_v6 flags); [|done].
    replace (1 + 16 <=? zlen data) with true by lia. cbn [andb]. case_match; [|done].
    rewrite H4, H6 in Hv6. change (1 + 0) with 1 in Hv6. by rewrite Hv6.
Qed.

Lemma parseFSEID_wire flags seid v4 v6 r :
  addresses_ok flags v4 v6 = true -> 0 <= seid < 2 ^ 64 ->
  parseFSEID (byte_of flags :: be_put 8 seid ++ v4 ++ v6) r = Ok (means true r (FSEID flags seid v4 v6)).
Proof.
  intros [[Hf%octet_inv H4%Z.eqb_eq]%andb_true_iff H6%Z.eqb_eq]%andb_true_iff Hs.
  set (data := byte_of flags :: be_put 8 seid ++ v4 ++ v6).
  assert (zlen data = 9 + zlen v4 + zlen v6) as Hz.
  { unfold data. rewrite zlen_cons, !zlen_app, zlen_be_put. lia. }
  pose proof (zlen_nonneg v4). pose proof (zlen_nonneg v6).
  pose proof (holds_at_self data) as Hat. apply holds_at_cons in Hat as [Hi Hat].
  apply holds_at_app in Hat as [Hseid _]. change (0 + 1) with 1 in *.
  unfold parseFSEID. replace (zlen data <? 9) with false by lia.
  rewrite Hi. cbn [mbind res_bind].
  rewrite u8_byte_of by done.
  rewrite (holds_at_put _ _ 8 _ Hseid) by (cbn; lia). cbn [mbind res_bind]. cbv zeta.
  fold (has_v4 flags). fold (has_v6 flags). cbn [means negb].
  destruct (has_v4 flags); cbn [andb].
  - replace (9 + 4 <=? zlen data) with true by lia. rewrite slice_ok by lia. cbn [mbind res_bind].
    destruct (has_v6 flags); cbn [andb]; [|done].
    destruct (_ <=? zlen data) eqn:?; [rewrite slice_ok by lia|]; done.
  - cbn [mbind res_bind]. destruct (has_v6 flags); cbn [andb]; [|done].
    destruct (_ <=? zlen data) eqn:?; [rewrite slice_ok by lia|]; done.
Qed.

Lemma parseUPFFeatures_wire o5 o6 more r : octet o5 = true -> octet o6 = true ->
  parseUPFFeatures (byte_of o5 :: byte_of o6 :: more) r = Ok (means true r (Features o5 o6 more)).
Proof.
  intros H5%octet_inv H6%octet_inv. unfold parseUPFFeatures. rewrite !zlen_cons. pose proof (zlen_nonneg more).
  replace (_ <? 2) with false by lia.
  pose proof (rd_be_app_mid 2 [] [byte_of o5; byte_of o6] more eq_refl) as E. cbn [app] in E.
  change (zlen []) with 0 in E. rewrite E. cbn [mbind res_bind means].
  unfold be. cbn [foldl]. rewrite !lor_shiftl_u8, !u8_byte_of by done. do 4 f_equal.
Qed.

Lemma node_type spare k : 0 <= spare < 16 -> 0 <= k < 16 ->
  u8 (byte_of (16 * spare + k)) = 16 * spare + k /\ Z.land (16 * spare + k) 0x0F = k.
Proof.
  intros Hs Hk. rewrite u8_byte_of by lia. split; [done|].
  change 0x0F with (Z.ones 4). rewrite Z.land_ones by lia. change (2 ^ 4) with 16.
  rewrite Z.add_comm, Z.mul_comm, Z.mod_add by lia. by rewrite Z.mod_small by lia.
Qed.

Lemma decodeFQDN_wire labels : forallb (fun l => (0 <? zlen l) && (zlen l <? 256)) labels = true ->
  decodeFQDN (mjoin (encode_label <$> labels)) = Ok (join "." (gostr <$> labels)).
Proof.
  intros Hl. unfold decodeFQDN. set (data := mjoin (encode_label <$> labels)).
  set (step := fun (st : Z * list string) l => (fst st + zlen (encode_label l), snd st ++ [gostr l])).
  rewrite (loop_foldl (fun st k => forallb (fun l => (0 <? zlen l) && (zlen l <? 256)) k = true /\
      holds_at data (fst st) (mjoin (encode_label <$> k)) /\
      fst st + zlen (mjoin (encode_label <$> k)) = zlen data) step snd) with (l := labels).
  - cbn [mbind res_bind]. do 2 f_equal. change (gostr <$> labels) with ([] ++ (gostr <$> labels)).
    assert (forall k st, snd (foldl step st k) = snd st ++ (gostr <$> k)) as E; [|by rewrite E].
    intros k. induction k as [|l k IH]; intros st; [by rewrite app_nil_r|]. cbn [foldl]. rewrite IH. cbn.
    by rewrite <-app_assoc.
  - intros [i parts] l k (Hk & Hat & Hend). cbn [fst forallb] in *.
    apply andb_true_iff in Hk as [Hlen Hk]. change (mjoin (encode_label <$> l :: k)) with
      (encode_label l ++ mjoin (encode_label <$> k)) in *.
    rewrite zlen_app in Hend. apply holds_at_app in Hat as [Hat Hnext]. split.
    + pose proof (holds_at_bound _ _ _ Hnext). pose proof (zlen_nonneg (mjoin (encode_label <$> k))).
      assert (zlen (encode_label l) = 1 + zlen l) as El by (unfold encode_label; by rewrite zlen_cons).
      unfold encode_label in Hat. apply holds_at_cons in Hat as [Hi Hat].
      unfold fqdn_body. replace (i <? zlen data) with true by lia. rewrite Hi. cbn [mbind res_bind]. cbv zeta.
      rewrite u8_byte_of by lia. replace (zlen l =? 0) with false by lia.
      replace (zlen data <? i + 1 + zlen l) with false by lia. rewrite (holds_at_slice _ _ _ Hat).
      cbn [mbind res_bind]. unfold step. cbn [fst snd]. do 3 f_equal. lia.
    + cbn [step fst snd]. split_and!; [done|done|lia].
  - intros [i parts] (_ & _ & Hend). change (zlen (mjoin (encode_label <$> []))) with 0 in Hend.
    cbn [fst] in Hend. unfold fqdn_body. replace (i <? zlen data) with false by lia. done.
  - cbn [fst]. split_and!; [done|apply holds_at_self|unfold data; lia].
  - unfold data. clear. induction labels as [|l k IH]; [cbn; lia|].
    change (mjoin (encode_label <$> l :: k)) with (encode_label l ++ mjoin (encode_label <$> k)).
    rewrite length_app. cbn [length encode_label] in *. lia.
Qed.

Lemma parseNodeID_wire spare k rest r : 0 <= spare < 16 -> 0 <= k < 16 -> rest <> [] ->
  parseNodeID (byte_of (16 * spare + k) :: rest) r =
    if k =? 0 then if 5 <=? 1 + zlen rest then Ok (set_node (ip_string (take 4 rest)) r) else Ok r
    else if k =? 1 then if 17 <=? 1 + zlen rest then Ok (set_node (ip_string (take 16 rest)) r) else Ok r
    else if k =? 2 then n ← decodeFQDN rest; Ok (set_node n r)
    else Ok r.
Proof.
  intros Hs Hk Hr. unfold parseNodeID. rewrite zlen_cons. pose proof (zlen_nonneg rest).
  assert (zlen rest <> 0) by (intros ?%zlen_0; done).
  replace (1 + zlen rest <? 1) with false by lia. rewrite idx_head. cbn [mbind res_bind].
  destruct (node_type spare k Hs Hk) as [-> ->]. cbv zeta.
  assert (forall n, slice (byte_of (16 * spare + k) :: rest) 1 (1 + Z.of_nat n) =
    if Z.of_nat n <=? zlen rest then Ok (take n rest) else Panic) as Hslice.
  { intros n. unfold slice. rewrite zlen_cons.
    destruct (Z.leb_spec (Z.of_nat n) (zlen rest)).
    - replace (_ && _) with true by lia. unfold sub. do 2 f_equal. lia.
    - by replace (_ && _) with false by lia. }
  repeat case_match; try lia; try done.
  - change 5 with (1 + Z.of_nat 4). rewrite Hslice. by rewrite (proj2 (Z.leb_le (Z.of_nat 4) (zlen rest))) by lia.
  - change 17 with (1 + Z.of_nat 16). rewrite Hslice. by rewrite (proj2 (Z.leb_le (Z.of_nat 16) (zlen rest))) by lia.
  - rewrite slice_from_Ok by (rewrite zlen_cons; lia). done.
Qed.

Lemma parseNodeID_address spare a r : 0 <= spare < 16 -> zlen a = 4 \/ zlen a = 16 ->
  parseNodeID (byte_of (16 * spare + (if zlen a =? 4 then 0 else 1)) :: a) r = Ok (set_node (ip_string a) r).
Proof.
  intros Hs Ha. rewrite parseNodeID_wire; [|done|case_match; lia|by intros ->; destruct Ha].
  destruct Ha as [Ha|Ha]; rewrite Ha; cbn [Z.eqb Z.leb Z.add]; cbn; do 3 f_equal; apply take_ge; unfold zlen in Ha; lia.
Qed.

Lemma parseNodeID_name spare labels r : 0 <= spare < 16 -> labels <> [] ->
  forallb (fun l => (0 <? zlen l) && (zlen l <? 256)) labels = true ->
  parseNodeID (byte_of (16 * spare + 2) :: mjoin (encode_label <$> labels)) r =
    Ok (set_node (join "." (gostr <$> labels)) r).
Proof.
  intros Hs Hn Hl. rewrite parseNodeID_wire by (lia || by destruct labels). cbn [Z.eqb].
  by rewrite decodeFQDN_wire.
Qed.

(** In a group. *)
Lemma grouped_wire e : valid e = true -> forall fuel r, (length (snd (wire e)) < fuel)%nat ->
  grouped_ie (parseGroupedIE fuel) (fst (wire e)) (snd (wire e)) r = Ok (means false r e).
Proof.
  induction e as [e IH] using element_nested. intros Hv fuel r Hf.
  destruct e; cbn [wire fst snd means] in *; try done.
  - cbn [valid] in Hv. apply andb_true_iff in Hv as [_ Hv].
    cbn [grouped_ie Z.eqb]. by apply parseUEIPAddress_wire.
  - unfold grouped_ie. cbn [Z.eqb Pos.eqb orb]. by destruct (_ && _).
  - cbn [valid] in Hv. apply andb_true_iff in Hv as [_ Hv]. cbn [grouped_ie Z.eqb]. by apply apply_action_wire.
  - cbn [valid] in Hv. apply andb_true_iff in Hv as [_ [Ht%bool_decide_eq_true Hv]%andb_true_iff].
    specialize (IH t l eq_refl).
    assert (parseGroupedIE fuel (encode_tlvs (wire <$> l)) r = Ok (foldl (means false) r l)) as E.
    { destruct fuel as [|fuel]; [lia|]. cbn [parseGroupedIE]. apply scan_ies_wire; [|done].
      intros r' e He. rewrite Forall_forall in IH. apply IH; [done|rewrite forallb_forall in Hv; by apply Hv, list_elem_of_In|].
      assert (length (snd (wire e)) + 4 <= length (encode_tlvs (wire <$> l)))%nat; [|lia].
      apply (list_elem_of_fmap_2 wire) in He. apply list_elem_of_split in He as (l1 & l2 & ->).
      unfold encode_tlvs. rewrite fmap_app, join_app, length_app, fmap_cons, mjoin_cons, length_app.
      pose proof (zlen_pfcp_tlv (wire e)). unfold zlen in *. lia. }
    repeat (apply elem_of_cons in Ht as [->|Ht]); [done..|by apply not_elem_of_nil in Ht].
  - cbn [valid] in Hv. apply andb_true_iff in Hv as [_ [_ Ht%bool_decide_eq_true]%andb_true_iff].
    unfold grouped_ie, known_types in *. repeat case_match; (done || (exfalso; set_solver by lia)).
Qed.

(** In a message. *)
Lemma message_wire e r : valid e = true ->
  message_ie (fst (wire e)) (snd (wire e)) r = Ok (means true r e).
Proof.
  intros Hv. destruct e; cbn [wire fst snd means] in *; unfold message_ie; cbn [Z.eqb].
  - cbn [valid] in Hv. apply andb_true_iff in Hv as [_ Hc%octet_inv]. rewrite zlen_cons.
    pose proof (zlen_nonneg more). replace (1 <=? _) with true by lia. rewrite idx_head. cbn [mbind res_bind].
    by rewrite u8_byte_of.
  - cbn [valid] in Hv. apply parseNodeID_address; lia.
  - cbn [valid] in Hv. apply andb_true_iff in Hv as [_ [Hv Hl]%andb_true_iff].
    apply parseNodeID_name; [lia| |done]. intros ->. by rewrite andb_false_r in Hv.
  - cbn [valid] in Hv. apply andb_true_iff in Hv as [_ [[Ha Hl]%andb_true_iff Hr]%andb_true_iff].
    apply parseFSEID_wire; [done|lia].
  - cbn [valid] in Hv. apply andb_true_iff in Hv as [_ Hv]. by apply parseUEIPAddress_wire.
  - cbn [orb Pos.eqb]. rewrite andb_true_r. by destruct (0 <? zlen name).
  - cbn [valid] in Hv. apply andb_true_iff in Hv as [_ [H5 H6]%andb_true_iff]. by apply parseUPFFeatures_wire.
  - cbn [valid] in Hv. apply andb_true_iff in Hv as [_ Hv]. by apply apply_action_wire.
  - cbn [valid] in Hv. apply andb_true_iff in Hv as [Hz [Ht%bool_decide_eq_true Hv]%andb_true_iff].
    assert (forall r', parseGroupedIE (S (length (encode_tlvs (wire <$> l)))) (encode_tlvs (wire <$> l)) r' =
      Ok (foldl (means false) r' l)) as E.
    { intros r'. refine (grouped_wire (Group 2 l) _ (S (length (encode_tlvs (wire <$> l)))) r' _);
        [|cbn [wire snd]; lia]. cbn [valid wire snd] in *. by rewrite Hz, Hv. }
    repeat (apply elem_of_cons in Ht as [->|Ht]); [exact (E _) || done..|by apply not_elem_of_nil in Ht].
  - cbn [valid] in Hv. apply andb_true_iff in Hv as [_ [_ Ht%bool_decide_eq_true]%andb_true_iff].
    unfold known_types in *. repeat case_match; (done || (exfalso; set_solver by lia)).
Qed.

(** ** Messages on the wire *)

(** A message of version 1; [other] are the flag bits between the version and
    the SEID bit, [len] the length field, which the decoder does not use. *)
Definition pfcp_message (other t len : Z) (seid : option Z) (seq spare : Z) (l : list element) : list byte :=
  byte_of (32 + 2 * other + (if seid then 1 else 0)) :: byte_of t :: be_put 2 len
  ++ (match seid with Some s => be_put 8 s | None => [] end) ++ be_put 3 seq ++ [byte_of spare]
  ++ encode_tlvs (wire <$> l).

Definition message_header (t len : Z) (seid : option Z) (seq : Z) : PFCPHeader :=
  {| h_Version := 1; h_MessageType := t; h_Length := len; h_SEID := default 0 seid;
     h_SequenceNo := seq; h_HasSEID := if seid then true else false |}.

Definition message_ok (other t len : Z) (seid : option Z) (seq : Z) (l : list element) : bool :=
  (0 <=? other) && (other <? 16) && octet t && (0 <=? len) && (len <? 65536)
  && (0 <=? seq) && (seq <? 2 ^ 24)
  && (match seid with Some s => (0 <=? s) && (s <? 2 ^ 64) | None => true end) && forallb valid l.

Lemma flag_byte other s : 0 <= other < 16 ->
  let b := u8 (byte_of (32 + 2 * other + (if s : bool then 1 else 0))) in
  Z.land (Z.shiftr b 5) 0x07 = 1 /\ negb (Z.land b 0x01 =? 0) = s.
Proof.
  intros Ho. cbv zeta. rewrite u8_byte_of by (destruct s; lia).
  set (b := 32 + _ + _). rewrite Z.shiftr_div_pow2 by lia. change (2 ^ 5) with 32.
  rewrite (Z.land_ones _ 3), (Z.land_ones _ 1) by lia. change (2 ^ 3) with 8. change (2 ^ 1) with 2. split.
  - assert (b / 32 = 1) as ->; [|done].
    symmetry. apply (Z.div_unique _ 32 1 (2 * other + if s then 1 else 0)); unfold b; destruct s; lia.
  - assert (b mod 2 = if s then 1 else 0) as ->; [|by destruct s].
    symmetry. apply (Z.mod_unique _ 2 (16 + other)); unfold b; destruct s; lia.
Qed.

(** The three octets of the sequence number. *)
Lemma read_seq data i seq : holds_at data i (be_put 3 seq) -> 0 <= seq < 2 ^ 24 ->
  (b1 ← idx data i; b2 ← idx data (i + 1); b3 ← idx data (i + 2);
   Ok (Z.lor (Z.lor (Z.shiftl (u8 b1) 16) (Z.shiftl (u8 b2) 8)) (u8 b3))) = Ok seq.
Proof.
  intros Hat Hs. pose proof (be_be_put 3 seq) as Hbe.
  destruct (be_put_3 seq) as (b1 & b2 & b3 & E). rewrite E in *.
  apply holds_at_cons in Hat as [-> Hat]. apply holds_at_cons in Hat as [-> Hat].
  replace (i + 1 + 1) with (i + 2) in Hat by lia. apply holds_at_cons in Hat as [-> _].
  cbn [mbind res_bind]. rewrite be24_lor, Hbe; [done|]. cbn. lia.
Qed.

Lemma parse_header_wire other t len seid seq spare l :
  message_ok other t len seid seq l = true ->
  parse_header (pfcp_message other t len seid seq spare l) =
    Ok (Some (message_header t len seid seq, if seid then 16 else 8)) /\
  drop (if seid then 16 else 8) (pfcp_message other t len seid seq spare l) = encode_tlvs (wire <$> l).
Proof.
  unfold message_ok. rewrite !andb_true_iff. intros [[[[[[[[Ho1 Ho2] Ht%octet_inv] Hl1] Hl2] Hs1] Hs2] Hseid] _].
  set (data := pfcp_message _ _ _ _ _ _ _).
  pose proof (holds_at_self data) as Hat. unfold data at 2, pfcp_message in Hat.
  apply holds_at_cons in Hat as [H0 Hat]. apply holds_at_cons in Hat as [H1 Hat].
  apply holds_at_app in Hat as [H2 Hat]. rewrite zlen_be_put in Hat.
  apply holds_at_app in Hat as [H4 Hat]. apply holds_at_app in Hat as [H12 Hat].
  pose proof (holds_at_bound _ _ _ Hat) as Hb. rewrite zlen_app, zlen_be_put in *.
  pose proof (zlen_nonneg (encode_tlvs (wire <$> l))). change (zlen [byte_of spare]) with 1 in Hb.
  change (0 + 1) with 1 in *. change (1 + 1) with 2 in *. change (2 + Z.of_nat 2) with 4 in *.
  split.
  - unfold parse_header. rewrite H0, H1. cbn [mbind res_bind]. cbv zeta.
    destruct (flag_byte other (if seid then true else false)) as [Hv Hs]; [lia|].
    assert ((if (if seid then true else false) : bool then 1 else 0) = (if seid then 1 else 0)) as Eif by by destruct seid.
    rewrite Eif in Hv, Hs. rewrite Hv. cbn [negb Z.eqb Pos.eqb].
    rewrite (holds_at_put _ _ 2 _ H2) by (cbn; lia). cbn [mbind res_bind].
    rewrite Hs, u8_byte_of by done. destruct seid as [s|].
    + rewrite zlen_be_put in *. replace (zlen data <? 16) with false by lia.
      rewrite (holds_at_put _ _ 8 _ H4) by (cbn; lia). cbn [mbind res_bind].
      pose proof (read_seq data 12 seq H12 ltac:(lia)) as Hseq. cbn [mbind res_bind] in Hseq. by rewrite Hseq.
    + change (zlen []) with 0 in *. replace (zlen data <? 8) with false by lia.
      pose proof (read_seq data 4 seq H12 ltac:(lia)) as Hseq. cbn [mbind res_bind] in Hseq. by rewrite Hseq.
  - unfold data, pfcp_message. by destruct seid.
Qed.

(** *** What a list of elements comes to *)

Definition cause_of (e : element) : option Z := match e with Cause c _ => Some c | _ => None end.
Definition group_of (t : Z) (e : element) : bool := match e with Group t' _ => t' =? t | _ => false end.

Lemma means_false_cause e r : CauseCode (means false r e) = CauseCode r /\ counts (means false r e) = counts r.
Proof.
  revert r. induction e as [e IH] using element_nested. intros r.
  destruct e; cbn [means negb orb]; try done; try by repeat case_match.
  case_match; [|done]. specialize (IH t l eq_refl). clear -IH. revert r.
  induction IH as [|e l He _ IHl]; intros r; [done|]. cbn [foldl]. destruct (IHl (means false r e)) as [-> ->]. apply He.
Qed.

Lemma foldl_false l r : CauseCode (foldl (means false) r l) = CauseCode r /\
  counts (foldl (means false) r l) = counts r.
Proof.
  revert r. induction l as [|e l IH]; intros r; [done|]. cbn [foldl].
  destruct (IH (means false r e)) as [-> ->]. apply means_false_cause.
Qed.

(** The cause of a message is its last one. *)
Lemma means_cause l r :
  CauseCode (foldl (means true) r l) = default (CauseCode r) (last (omap cause_of l)).
Proof.
  induction l as [|e l IH] using rev_ind; [done|]. rewrite foldl_app, omap_app. cbn [foldl].
  destruct e; cbn [means cause_of negb orb omap list_omap]; rewrite ?app_nil_r, ?last_snoc;
    [done|rewrite <-IH..]; repeat case_match; try done; by rewrite (proj1 (foldl_false _ _)).
Qed.

(** Rules are counted by their groups. *)
Definition ngroups (t : Z) (l : list element) : Z := zlen (List.filter (group_of t) l).

Lemma ngroups_snoc t l e : ngroups t (l ++ [e]) = ngroups t l + if group_of t e then 1 else 0.
Proof. unfold ngroups. rewrite List.filter_app, zlen_app. cbn. by destruct (group_of t e). Qed.

Lemma means_counts l : let c := counts (foldl (means true) no_ies l) in
  PDRCount c = i64 (ngroups 1 l) /\ FARCount c = i64 (ngroups 3 l).
Proof.
  cbv zeta. induction l as [|e l IH] using rev_ind; [done|].
  rewrite foldl_app, !ngroups_snoc. cbn [foldl]. set (r := foldl (means true) no_ies l) in *.
  assert (forall p f u q, let c := counts (add_counts p f u q r) in
    PDRCount c = i64 (ngroups 1 l + p) /\ FARCount c = i64 (ngroups 3 l + f)) as Hadd.
  { intros p f u q. destruct IH as [E1 E3]. cbn. by rewrite E1, E3, !i64_add_l. }
  destruct e; cbn [means negb orb group_of]; rewrite ?Z.add_0_r;
    try (repeat case_match; exact IH).
  - destruct (Z.eqb_spec t 1) as [->|]; [|destruct (Z.eqb_spec t 3) as [->|]]; cbn [Z.eqb Pos.eqb].
    + rewrite (proj2 (foldl_false _ _)). apply Hadd.
    + rewrite (proj2 (foldl_false _ _)). apply Hadd.
    + by rewrite !Z.add_0_r.
  - destruct (Hadd 0 0 1 0) as [H1 H2], (Hadd 0 0 0 1) as [H3 H4]. rewrite !Z.add_0_r in *.
    repeat case_match; try exact IH; by rewrite ?H1, ?H2, ?H3, ?H4.
Qed.

(** ** The decoder's promise *)

(** C21: Every packet is handled and adds at most one record. A message of
    version 1 on the wire, with or without a SEID, with any elements of the
    kinds the decoder reads, groups nested at will, and any others, is recorded
    with its header; its elements, taken in order, make up the fields, its last
    Cause decides whether it is an error, and its rules are counted. *)
Theorem pfcp_message_decoded :
  (forall d pkt, returns (HandlePacket d pkt) (fun '(d', _) =>
     exists l, messages d' = messages d ++ l /\ (length l <= 1)%nat)) /\
  forall d pkt other t len seid seq spare l,
    message_ok other t len seid seq l = true ->
    Payload pkt = pfcp_message other t len seid seq spare l ->
    Protocol pkt = "UDP"%string -> SrcPort pkt = 8805 \/ DstPort pkt = 8805 ->
    exists rec, HandlePacket d pkt = Ok ({| messages := messages d ++ [rec] |},
        set_app "PFCP" (message_name t +:+ seid_note (message_header t len seid seq)) pkt) /\
      r_Header rec = message_header t len seid seq /\ r_MsgName rec = message_name t /\
      r_ies rec = foldl (means true) no_ies l /\
      r_IsError rec = negb (bool_decide (default 0 (last (omap cause_of l)) ∈ [0; 1])) /\
      PDRCount (counts (r_ies rec)) = i64 (ngroups 1 l) /\ FARCount (counts (r_ies rec)) = i64 (ngroups 3 l).
Proof.
  split; [exact pfcp_handle_returns|]. intros d pkt other t len seid seq spare l Hok Hp Hudp Hport.
  destruct (parse_header_wire other t len seid seq spare l Hok) as [Hh Hd]. rewrite <-Hp in Hh, Hd.
  assert (8 <= zlen (Payload pkt)) as Hlen.
  { rewrite Hp. unfold pfcp_message.
    rewrite !zlen_cons, !zlen_app, !zlen_be_put. change (zlen [byte_of spare]) with 1.
    pose proof (zlen_nonneg (encode_tlvs (wire <$> l))).
    pose proof (zlen_nonneg (match seid with Some s => be_put 8 s | None => [] end)). lia. }
  assert (parsePFCP d pkt = Ok ({| messages := messages d ++
      [mk_record pkt (message_header t len seid seq) (foldl (means true) no_ies l)] |},
    set_app "PFCP" (message_name t +:+ seid_note (message_header t len seid seq)) pkt,
    Some (mk_record pkt (message_header t len seid seq) (foldl (means true) no_ies l)))) as E.
  { unfold parsePFCP. rewrite Hh. cbn [mbind res_bind].
    set (n := if seid then 16 else 8) in *.
    assert (forall r, parsePFCPIEs (encode_tlvs (wire <$> l)) r = Ok (foldl (means true) r l)) as Hies.
    { intros r. apply scan_ies_wire; [|unfold message_ok in Hok; by apply andb_true_iff in Hok as [_ ?]].
      intros r' e He. apply message_wire. unfold message_ok in Hok. apply andb_true_iff in Hok as [_ Hv].
      rewrite forallb_forall in Hv. by apply Hv, list_elem_of_In. }
    destruct (Z.ltb_spec n (zlen (Payload pkt))).
    - rewrite slice_from_Ok by (unfold n in *; destruct seid; lia).
      assert (drop (Z.to_nat n) (Payload pkt) = encode_tlvs (wire <$> l)) as -> by (by destruct seid).
      cbn [mbind res_bind]. by rewrite Hies.
    - assert (encode_tlvs (wire <$> l) = []) as En.
      { rewrite <-Hd. apply drop_ge. unfold zlen, n in *. destruct seid; lia. }
      specialize (Hies no_ies). rewrite En in Hies. change (parsePFCPIEs [] no_ies) with (Ok no_ies) in Hies.
      injection Hies as Hies. by rewrite <-Hies. }
  exists (mk_record pkt (message_header t len seid seq) (foldl (means true) no_ies l)).
  pose proof (means_counts l) as Hc. pose proof (means_cause l no_ies) as Hca.
  split_and!; [|done..| |apply Hc|apply Hc].
  - unfold HandlePacket, admits. rewrite Hudp.
    replace ((SrcPort pkt =? 8805) || (DstPort pkt =? 8805)) with true by lia.
    replace (8 <=? zlen (Payload pkt)) with true by lia. cbn [String.eqb andb negb].
    by rewrite E.
  - cbn [r_IsError mk_record]. unfold is_error. rewrite Hca. cbn [CauseCode no_ies].
    generalize (default 0 (last (omap cause_of l))). intros c.
    destruct (Z.eqb_spec c 0) as [->|H0]; [done|]. destruct (Z.eqb_spec c 1) as [->|H1]; [done|].
    rewrite bool_decide_false; [done|]. set_solver.
Qed.

(** A Session Establishment Request with a rule whose packet detection names
    the UE, then its answer, rejected. *)
Definition ex_request : list element :=
  [NodeAddress 0 (octets [10; 0; 0; 1]); FSEID 2 77 (octets [10; 0; 0; 1]) [];
   Group 1 [Other 20 (octets [0]); Group 2 [UEAddress 2 (octets [10; 45; 0; 7]) [] [];
                                            NetworkInstance (gobytes "internet")]];
   Group 3 [Apply 2 []; Group 4 [Other 42 (octets [1])]]; Other 6 []; Other 7 (octets [9])].
Definition ex_answer : list element := [NodeName 0 [gobytes "upf"; gobytes "core"]; Cause 64 []].

Definition ex_pfcp (l : list element) (seid : option Z) : Packet :=
  mk_packet 5 "10.0.0.1" "10.0.0.2" 8805 8805 "UDP" (pfcp_message 0 50 0 seid 9 0 l).

Lemma pfcp_message_decoded_witness :
  (exists rec, HandlePacket NewDecoder (ex_pfcp ex_request (Some 0)) =
      Ok ({| messages := [rec] |}, set_app "PFCP" "Session Establishment Request SEID=0x0000000000000000"
                                     (ex_pfcp ex_request (Some 0))) /\
    UEIP (r_ies rec) = "10.45.0.7"%string /\ DNN (r_ies rec) = "internet"%string /\
    PDRCount (counts (r_ies rec)) = 1 /\ r_IsError rec = false) /\
  (exists rec, HandlePacket NewDecoder (ex_pfcp ex_answer None) =
      Ok ({| messages := [rec] |}, set_app "PFCP" "Session Establishment Request" (ex_pfcp ex_answer None)) /\
    NodeID (r_ies rec) = "upf.core"%string /\ r_IsError rec = true).
Proof.
  split.
  - destruct (proj2 pfcp_message_decoded NewDecoder (ex_pfcp ex_request (Some 0)) 0 50 0 (Some 0) 9 0 ex_request)
      as (rec & Hr & _ & _ & Hies & He & Hc & _); [vm_compute; reflexivity|reflexivity|reflexivity|left; reflexivity|].
    exists rec. split; [exact Hr|]. rewrite Hies, He, <-Hies, Hc. rewrite Hies.
    repeat split; vm_compute; reflexivity.
  - destruct (proj2 pfcp_message_decoded NewDecoder (ex_pfcp ex_answer None) 0 50 0 None 9 0 ex_answer)
      as (rec & Hr & _ & _ & Hies & He & _); [vm_compute; reflexivity|reflexivity|reflexivity|left; reflexivity|].
    exists rec. split; [exact Hr|]. rewrite Hies, He. split; vm_compute; reflexivity.
Defined.

(** *** The features of a user-plane function

    TS 29.244 (8.2.25) numbers the features of the fifth octet BUCP to TREU and
    those of the sixth from EMPU, each octet from its low bit. *)
Definition octet5_features : list string := take 8 featureNames.
Definition octet6_features : list string := drop 8 featureNames.

(** The decoder reads the two octets as one big-endian number and numbers its
    bits from the low end, which is the sixth octet: every feature is recorded
    under the name of the same bit of the other octet. *)
Lemma bit_set f i : (Z.land (Z.shiftr f (Z.of_nat i)) 1 =? 1) = Z.testbit f (Z.of_nat i).
Proof.
  rewrite (Z.land_ones _ 1) by lia. change (2 ^ 1) with 2. rewrite <-Z.bit0_mod, Z.shiftr_spec by lia.
  rewrite Z.add_0_l. by destruct (Z.testbit f (Z.of_nat i)).
Qed.

Lemma named_bits_app i names more f :
  named_bits i (names ++ more) f = named_bits i names f ++ named_bits (length names + i) more f.
Proof.
  revert i. induction names as [|n names IH]; intros i; [done|]. cbn [app named_bits length].
  rewrite IH, <-app_assoc. do 3 f_equal. lia.
Qed.

(** Only the bits of the names count. *)
Lemma named_bits_ext i j names f g :
  (forall k, (k < length names)%nat -> Z.testbit f (Z.of_nat (i + k)) = Z.testbit g (Z.of_nat (j + k))) ->
  named_bits i names f = named_bits j names g.
Proof.
  revert i j. induction names as [|n names IH]; intros i j Hfg; [done|]. cbn [named_bits]. rewrite !bit_set.
  rewrite (IH (S i) (S j)).
  - specialize (Hfg O ltac:(cbn; lia)). rewrite !Nat.add_0_r in Hfg. by rewrite Hfg.
  - intros k Hk. specialize (Hfg (S k) ltac:(cbn; lia)). by rewrite !Nat.add_succ_r in Hfg.
Qed.

Lemma pfcp_features_swapped o5 o6 : octet o5 = true -> octet o6 = true ->
  named_bits 0 featureNames (o5 * 256 + o6) = named_bits 0 octet5_features o6 ++ named_bits 0 octet6_features o5.
Proof.
  intros H5%octet_inv H6%octet_inv.
  rewrite <-(take_drop 8 featureNames) at 1. rewrite named_bits_app. f_equal.
  - apply named_bits_ext. intros k Hk. change (length octet5_features) with 8%nat in Hk. cbn [Nat.add].
    rewrite <-(Z.mod_pow2_bits_low (o5 * 256 + o6) 8) by lia. change (2 ^ 8) with 256.
    by rewrite <-(Z.mod_unique (o5 * 256 + o6) 256 o5 o6) by lia.
  - apply named_bits_ext. intros k _. change (length (take 8 featureNames) + 0 + k)%nat with (8 + k)%nat.
    rewrite Nat2Z.inj_add, (Z.add_comm (Z.of_nat 8)), <-Z.div_pow2_bits by lia. f_equal.
    change (2 ^ Z.of_nat 8) with 256. symmetry. apply (Z.div_unique _ 256 o5 o6); lia.
Qed.

Example ftup_recorded_as_trace : named_bits 0 featureNames (0x10 * 256) = ["TRACE"%string].
Proof. reflexivity. Qed.
