(* ===== verification/Subscribers.v ===== *)
(** * internal/correlation/subscriber_registry.go: the registry of subscribers

    SubscriberRegistry keeps pointers to profiles in four maps, by IMSI, MSISDN,
    UE address and TEID. The profiles are a store here, in the order they were
    allocated, and the maps hold places in it. The operations hold the
    registry's lock throughout, so they are steps of a sequence. *)
From S2P Require Export Trace.

Record SubscriberProfile := {
  p_IMSI : string; p_MSISDN : string; p_UEIPs : list string; p_TEIDs : list string; p_BearerTEIDs : list string;
  p_SEIDs : list string; p_APN : string; p_network : network; p_State : string; p_SessionIDs : list string;
  p_FirstSeen : time; p_LastSeen : time;
}.

Record SubscriberRegistry := {
  profiles : list SubscriberProfile;
  byIMSI : gmap string nat;
  byMSISDN : gmap string nat;
  byUEIP : gmap string nat;
  byTEID : gmap string nat;
}.

Definition NewSubscriberRegistry : SubscriberRegistry :=
  {| profiles := []; byIMSI := ∅; byMSISDN := ∅; byUEIP := ∅; byTEID := ∅ |}.

Definition new_profile (s : TelecomSession) : SubscriberProfile :=
  {| p_IMSI := ts_IMSI (ts_identity s); p_MSISDN := ""; p_UEIPs := []; p_TEIDs := []; p_BearerTEIDs := [];
     p_SEIDs := []; p_APN := "";
     p_network := {| ts_RATType := ""; ts_ServingNetwork := ""; ts_Location := ""; ts_PDNType := "" |};
     p_State := ""; p_SessionIDs := []; p_FirstSeen := ts_StartTime s; p_LastSeen := 0 |}.

(** What Update does to the profile. *)
Definition enrich_profile (s : TelecomSession) (p : SubscriberProfile) : SubscriberProfile :=
  let who := ts_identity s in
  let net := ts_network s in
  let ids := ts_idents s in
  {| p_IMSI := p_IMSI p;
     p_MSISDN := first_nonempty (p_MSISDN p) (ts_MSISDN who);
     p_UEIPs := if String.eqb (ts_UEIP who) "" then p_UEIPs p else appendUniq (p_UEIPs p) (ts_UEIP who);
     p_TEIDs := foldl appendUniq (p_TEIDs p) (ts_TEIDs ids);
     p_BearerTEIDs := foldl appendUniq (p_BearerTEIDs p) (ts_BearerTEIDs ids);
     p_SEIDs := foldl appendUniq (p_SEIDs p) (ts_SEIDs ids);
     p_APN := first_nonempty (p_APN p) (ts_APN who);
     p_network := {|
       ts_RATType := first_nonempty (ts_RATType (p_network p)) (ts_RATType net);
       ts_ServingNetwork := first_nonempty (ts_ServingNetwork (p_network p)) (ts_ServingNetwork net);
       ts_Location := first_nonempty (ts_Location net) (ts_Location (p_network p));
       ts_PDNType := first_nonempty (ts_PDNType (p_network p)) (ts_PDNType net) |};
     p_State := first_nonempty (ts_UEState s) (p_State p);
     p_SessionIDs := appendUniq (p_SessionIDs p) (ts_SessionID s);
     p_FirstSeen :=
       if negb (is_zero (ts_StartTime s)) && (is_zero (p_FirstSeen p) || before (ts_StartTime s) (p_FirstSeen p))
       then ts_StartTime s else p_FirstSeen p;
     p_LastSeen :=
       if negb (is_zero (ts_EndTime s)) && after (ts_EndTime s) (p_LastSeen p) then ts_EndTime s else p_LastSeen p |}.

(** [index[key] = prof] for each key. *)
Definition index_all (ptr : nat) (keys : list string) (index : gmap string nat) : gmap string nat :=
  foldl (fun m k => <[k := ptr]> m) index keys.
Definition index_nonempty (ptr : nat) (key : string) (index : gmap string nat) : gmap string nat :=
  if String.eqb key "" then index else <[key := ptr]> index.

Definition Update (r : SubscriberRegistry) (s : TelecomSession) : SubscriberRegistry :=
  let imsi := ts_IMSI (ts_identity s) in
  if String.eqb imsi "" then r
  else
    let '(ptr, ps, imsis) := match byIMSI r !! imsi with
      | Some ptr => (ptr, profiles r, byIMSI r)
      | None => (length (profiles r), profiles r ++ [new_profile s], <[imsi := length (profiles r)]> (byIMSI r))
      end in
    match ps !! ptr with
    | None => r
    | Some p =>
      let p := enrich_profile s p in
      {| profiles := <[ptr := p]> ps; byIMSI := imsis;
         byMSISDN := index_nonempty ptr (p_MSISDN p) (byMSISDN r);
         byUEIP := index_nonempty ptr (ts_UEIP (ts_identity s)) (byUEIP r);
         byTEID := index_all ptr (ts_TEIDs (ts_idents s)) (byTEID r) |}
    end.

Definition UpdateAll (r : SubscriberRegistry) (sessions : list TelecomSession) : SubscriberRegistry :=
  foldl Update r sessions.

Definition LookupByIMSI (r : SubscriberRegistry) (k : string) : option SubscriberProfile :=
  ptr ← byIMSI r !! k; profiles r !! ptr.
Definition LookupByMSISDN (r : SubscriberRegistry) (k : string) : option SubscriberProfile :=
  ptr ← byMSISDN r !! k; profiles r !! ptr.
Definition LookupByUEIP (r : SubscriberRegistry) (k : string) : option SubscriberProfile :=
  ptr ← byUEIP r !! k; profiles r !! ptr.
Definition LookupByTEID (r : SubscriberRegistry) (k : string) : option SubscriberProfile :=
  ptr ← byTEID r !! k; profiles r !! ptr.
(** [order] is that of the range over [byIMSI]. *)
Definition All (r : SubscriberRegistry) (order : list (string * nat)) : list SubscriberProfile :=
  omap (fun '(_, ptr) => profiles r !! ptr) order.
Definition Count (r : SubscriberRegistry) : Z := Z.of_nat (size (byIMSI r)).

(** ** What the registry promises *)

(** The profile of a subscriber, from the sessions of the subscriber alone. *)
Definition profile_step (imsi : string) (o : option SubscriberProfile) (s : TelecomSession) : option SubscriberProfile :=
  if decide (ts_IMSI (ts_identity s) = imsi) then Some (enrich_profile s (default (new_profile s) o)) else o.
Definition profile_of (sessions : list TelecomSession) (imsi : string) : option SubscriberProfile :=
  if decide (imsi = ""%string) then None else foldl (profile_step imsi) None sessions.

(** The subscriber of the last session with the property. *)
Definition last_with (P : TelecomSession -> Prop) `{forall s, Decision (P s)} (sessions : list TelecomSession) :
    option string :=
  (fun s => ts_IMSI (ts_identity s)) <$> last (filter (fun s => ts_IMSI (ts_identity s) <> ""%string /\ P s) sessions).

Record registered (sessions : list TelecomSession) (r : SubscriberRegistry) : Prop := {
  rg_profile : forall imsi, LookupByIMSI r imsi = profile_of sessions imsi;
  rg_valid : forall imsi ptr, byIMSI r !! imsi = Some ptr -> exists p, profiles r !! ptr = Some p /\ p_IMSI p = imsi;
  rg_ueip : forall ip, byUEIP r !! ip =
    (last_with (fun s => ts_UEIP (ts_identity s) = ip /\ ip <> ""%string) sessions ≫= fun imsi => byIMSI r !! imsi);
  rg_teid : forall teid, byTEID r !! teid =
    (last_with (fun s => teid ∈ ts_TEIDs (ts_idents s)) sessions ≫= fun imsi => byIMSI r !! imsi);
  rg_msisdn : forall m ptr, byMSISDN r !! m = Some ptr ->
    exists p, profiles r !! ptr = Some p /\ p_MSISDN p = m /\ m <> ""%string /\ byIMSI r !! p_IMSI p = Some ptr;
  rg_has_msisdn : forall ptr p, profiles r !! ptr = Some p -> p_MSISDN p <> ""%string -> is_Some (byMSISDN r !! p_MSISDN p);
}.

Lemma last_with_snoc P `{forall s, Decision (P s)} l s :
  last_with P (l ++ [s]) =
    if decide (ts_IMSI (ts_identity s) <> ""%string /\ P s) then Some (ts_IMSI (ts_identity s)) else last_with P l.
Proof.
  unfold last_with. rewrite filter_app, filter_cons, filter_nil. case_decide; [by rewrite last_snoc|by rewrite app_nil_r].
Qed.

Lemma last_with_Some P `{forall s, Decision (P s)} l imsi : last_with P l = Some imsi ->
  imsi <> ""%string /\ exists s, s ∈ l /\ ts_IMSI (ts_identity s) = imsi /\ P s.
Proof.
  unfold last_with. intros (s & Hs%last_Some_elem_of & ->)%fmap_Some.
  apply list_elem_of_filter in Hs as [[? ?] ?]. eauto.
Qed.

Lemma profile_of_snoc l s imsi : imsi <> ""%string -> profile_of (l ++ [s]) imsi = profile_step imsi (profile_of l imsi) s.
Proof. intros Hi. unfold profile_of. rewrite !decide_False by done. by rewrite foldl_app. Qed.

Lemma profile_of_known l s imsi :
  imsi <> ""%string -> s ∈ l -> ts_IMSI (ts_identity s) = imsi -> is_Some (profile_of l imsi).
Proof.
  intros Hi Hin Hs. induction l as [|s' l IH] using rev_ind; [by apply not_elem_of_nil in Hin|].
  rewrite profile_of_snoc by done. unfold profile_step. case_decide as E; [by eexists|].
  apply elem_of_app in Hin as [Hin|Hin]; [auto|]. apply list_elem_of_singleton in Hin. congruence.
Qed.

(** One update, with the pointer it writes through. *)
Record written (r : SubscriberRegistry) (s : TelecomSession) (ptr : nat) (r' : SubscriberRegistry) : Prop := {
  wr_byIMSI : byIMSI r' = <[ts_IMSI (ts_identity s) := ptr]> (byIMSI r);
  wr_at : profiles r' !! ptr = Some (enrich_profile s (default (new_profile s) (LookupByIMSI r (ts_IMSI (ts_identity s)))));
  wr_other : forall q, q <> ptr -> profiles r' !! q = profiles r !! q;
  wr_ptr : byIMSI r !! ts_IMSI (ts_identity s) = Some ptr \/
    byIMSI r !! ts_IMSI (ts_identity s) = None /\ profiles r !! ptr = None;
  wr_byMSISDN : byMSISDN r' = index_nonempty ptr
    (p_MSISDN (enrich_profile s (default (new_profile s) (LookupByIMSI r (ts_IMSI (ts_identity s)))))) (byMSISDN r);
  wr_byUEIP : byUEIP r' = index_nonempty ptr (ts_UEIP (ts_identity s)) (byUEIP r);
  wr_byTEID : byTEID r' = index_all ptr (ts_TEIDs (ts_idents s)) (byTEID r);
}.

Lemma Update_written sessions r s :
  registered sessions r -> ts_IMSI (ts_identity s) <> ""%string -> exists ptr, written r s ptr (Update r s).
Proof.
  intros Hr Hi. unfold Update. rewrite (proj2 (String.eqb_neq _ _) Hi). set (imsi := ts_IMSI (ts_identity s)) in *.
  destruct (byIMSI r !! imsi) as [ptr|] eqn:Ep.
  - destruct (rg_valid _ _ Hr imsi ptr Ep) as (p & Hp & _). rewrite Hp. exists ptr.
    assert (LookupByIMSI r imsi = Some p) as El by (unfold LookupByIMSI; by rewrite Ep).
    split; cbn [byIMSI profiles byMSISDN byUEIP byTEID]; fold imsi; rewrite ?El; try done.
    + by rewrite insert_id.
    + rewrite list_lookup_insert_eq; [done|by eapply lookup_lt_Some].
    + intros q Hq. by rewrite list_lookup_insert_ne.
    + by left.
  - set (ptr := length (profiles r)). assert ((profiles r ++ [new_profile s]) !! ptr = Some (new_profile s)) as E
      by (unfold ptr; apply list_lookup_middle; done).
    rewrite E. exists ptr. assert (LookupByIMSI r imsi = None) as El by (unfold LookupByIMSI; by rewrite Ep).
    split; cbn [byIMSI profiles byMSISDN byUEIP byTEID]; fold imsi; rewrite ?El; try done.
    + rewrite list_lookup_insert_eq; [done|by eapply lookup_lt_Some].
    + intros q Hq. rewrite list_lookup_insert_ne by done. destruct (decide (q < ptr)%nat) as [Hlt|Hge].
      * by apply lookup_app_l.
      * rewrite !lookup_ge_None_2; [done|unfold ptr in *; lia|rewrite length_app; cbn; unfold ptr in *; lia].
    + right. split; [done|]. apply lookup_ge_None_2. done.
Qed.

Lemma lookup_index_all ptr keys (m : gmap string nat) k :
  index_all ptr keys m !! k = if decide (k ∈ keys) then Some ptr else m !! k.
Proof.
  unfold index_all. revert m. induction keys as [|k' keys IH]; intros m; cbn [foldl].
  { by rewrite decide_False by apply not_elem_of_nil. }
  rewrite IH. destruct (decide (k ∈ keys)) as [Hk|Hk].
  - rewrite decide_True; [done|by right].
  - destruct (decide (k = k')) as [->|Hne].
    + rewrite lookup_insert_eq, decide_True; [done|by left].
    + rewrite lookup_insert_ne, decide_False by (rewrite ?elem_of_cons; naive_solver). done.
Qed.

Lemma lookup_index_nonempty ptr key (m : gmap string nat) k :
  index_nonempty ptr key m !! k = if decide (key = k /\ k <> ""%string) then Some ptr else m !! k.
Proof.
  unfold index_nonempty. destruct (String.eqb_spec key "") as [->|Hk].
  - rewrite decide_False; [done|]. intros [<- ?]. done.
  - destruct (decide (k = key)) as [->|Hne].
    + by rewrite lookup_insert_eq, decide_True.
    + rewrite lookup_insert_ne, decide_False by naive_solver. done.
Qed.

(** An index by a key of the session, after one more session. *)
Lemma index_owner P `{forall s, Decision (P s)} sessions r s ptr r' (old : option nat) :
  registered sessions r -> written r s ptr r' -> ts_IMSI (ts_identity s) <> ""%string ->
  old = (last_with P sessions ≫= fun imsi => byIMSI r !! imsi) ->
  (if decide (P s) then Some ptr else old) = (last_with P (sessions ++ [s]) ≫= fun imsi => byIMSI r' !! imsi).
Proof.
  intros Hr Hw Hi ->. rewrite last_with_snoc, (wr_byIMSI _ _ _ _ Hw).
  destruct (decide (P s)) as [Hp|Hp].
  - rewrite decide_True by done. cbn [mbind option_bind]. by rewrite lookup_insert_eq.
  - rewrite decide_False by tauto. destruct (last_with P sessions) as [imsi|] eqn:E; [|done]. cbn [mbind option_bind].
    destruct (decide (imsi = ts_IMSI (ts_identity s))) as [->|Hne]; [|by rewrite lookup_insert_ne].
    rewrite lookup_insert_eq. apply last_with_Some in E as (_ & s' & Hin & Es & _).
    destruct (profile_of_known _ _ _ Hi Hin Es) as [p Hp']. rewrite <-(rg_profile _ _ Hr) in Hp'.
    unfold LookupByIMSI in Hp'. destruct (wr_ptr _ _ _ _ Hw) as [->|[E _]]; [done|]. by rewrite E in Hp'.
Qed.

Lemma enrich_keeps s p : p_IMSI (enrich_profile s p) = p_IMSI p /\
  (p_MSISDN p <> ""%string -> p_MSISDN (enrich_profile s p) = p_MSISDN p).
Proof.
  split; [done|]. intros Hm. unfold enrich_profile, first_nonempty. cbn [p_MSISDN].
  by rewrite (proj2 (String.eqb_neq _ _) Hm).
Qed.

Lemma Update_registered sessions r s : registered sessions r -> registered (sessions ++ [s]) (Update r s).
Proof.
  intros Hr. destruct (decide (ts_IMSI (ts_identity s) = ""%string)) as [Hi|Hi].
  { unfold Update. rewrite (proj2 (String.eqb_eq _ _) Hi). destruct Hr as [R1 R2 R3 R4 R5 R6]. split; try done.
    - intros imsi. rewrite R1. unfold profile_of. case_decide as Hn; [done|]. rewrite foldl_app. cbn [foldl].
      unfold profile_step at 2. rewrite decide_False; [done|congruence].
    - intros ip. rewrite last_with_snoc, decide_False by tauto. apply R3.
    - intros teid. rewrite last_with_snoc, decide_False by tauto. apply R4. }
  destruct (Update_written sessions r s Hr Hi) as [ptr Hw]. set (r' := Update r s) in *. clearbody r'.
  pose proof Hw as [W1 W2 W3 W4 W5 W6 W7]. set (imsi := ts_IMSI (ts_identity s)) in *.
  set (p' := enrich_profile s (default (new_profile s) (LookupByIMSI r imsi))) in *.
  assert (Hid : p_IMSI p' = imsi).
  { unfold p', LookupByIMSI. rewrite (proj1 (enrich_keeps _ _)). destruct (byIMSI r !! imsi) as [q|] eqn:Eq; [|done].
    destruct (rg_valid _ _ Hr _ _ Eq) as (p & Hp & E). cbn [mbind option_bind]. by rewrite Hp. }
  assert (Hsame : forall i q, byIMSI r !! i = Some q -> i <> imsi -> q <> ptr).
  { intros i q Hq Hne ->. destruct (rg_valid _ _ Hr _ _ Hq) as (p & Hp & Ep).
    destruct W4 as [W4|[_ W4]]; [|congruence]. destruct (rg_valid _ _ Hr _ _ W4) as (p2 & Hp2 & Ep2). congruence. }
  split.
  - intros i. destruct (decide (i = ""%string)) as [->|Hne].
    { unfold profile_of. rewrite decide_True by done. unfold LookupByIMSI. rewrite W1, lookup_insert_ne by done.
      pose proof (rg_profile _ _ Hr ""%string) as E. unfold profile_of in E. rewrite decide_True in E by done.
      unfold LookupByIMSI in E. destruct (byIMSI r !! ""%string) as [q|] eqn:Eq; [|done].
      destruct (rg_valid _ _ Hr _ _ Eq) as (p & Hp & _). cbn in E. congruence. }
    rewrite profile_of_snoc, <-(rg_profile _ _ Hr) by done. unfold profile_step. fold imsi. case_decide as E.
    + subst i. unfold LookupByIMSI at 1. rewrite W1, lookup_insert_eq. cbn [mbind option_bind]. by rewrite W2.
    + unfold LookupByIMSI. rewrite W1, lookup_insert_ne by done. destruct (byIMSI r !! i) as [q|] eqn:Eq; [|done].
      cbn [mbind option_bind]. apply W3. by apply (Hsame i).
  - intros i q. rewrite W1. destruct (decide (i = imsi)) as [->|Hne].
    + rewrite lookup_insert_eq. intros [= <-]. eauto.
    + rewrite lookup_insert_ne by done. intros Hq. rewrite W3 by (by apply (Hsame i)). by apply (rg_valid _ _ Hr).
  - intros ip. rewrite W6, lookup_index_nonempty. 
    exact (index_owner (fun s => ts_UEIP (ts_identity s) = ip /\ ip <> ""%string) sessions r s ptr r' _ Hr Hw Hi
      (rg_ueip _ _ Hr ip)).
  - intros teid. rewrite W7, lookup_index_all. 
    exact (index_owner (fun s => teid ∈ ts_TEIDs (ts_idents s)) sessions r s ptr r' _ Hr Hw Hi (rg_teid _ _ Hr teid)).
  - intros m q. rewrite W5, lookup_index_nonempty. case_decide as Hd.
    + intros [= <-]. destruct Hd as [Hd Hm]. exists p'. split_and!; [done..|]. by rewrite Hid, W1, lookup_insert_eq.
    + intros Hq. destruct (rg_msisdn _ _ Hr m q Hq) as (p & Hp & Hpm & Hm & Hb).
      destruct (decide (q = ptr)) as [->|Hqp].
      * exists p'. assert (p_IMSI p = imsi) as Hpi by (destruct (decide (p_IMSI p = imsi)); [done|]; by destruct (Hsame _ _ Hb)).
        split_and!; [done| |done|by rewrite Hid, W1, lookup_insert_eq].
        unfold p', LookupByIMSI. rewrite <-Hpi, Hb. cbn [mbind option_bind]. rewrite Hp. cbn [default].
        unfold id. rewrite <-Hpm. apply enrich_keeps. congruence.
      * exists p. rewrite W3 by done. split_and!; [done..|]. rewrite W1.
        rewrite lookup_insert_ne; [done|]. intros E. destruct W4 as [W4|[W4 _]]; congruence.
  - intros q p Hq Hm. rewrite W5, lookup_index_nonempty. case_decide; [by eexists|].
    destruct (decide (q = ptr)) as [->|Hqp].
    + exfalso. rewrite W2 in Hq. injection Hq as <-. tauto.
    + rewrite W3 in Hq by done. by apply (rg_has_msisdn _ _ Hr q).
Qed.

Lemma UpdateAll_registered sessions : registered sessions (UpdateAll NewSubscriberRegistry sessions).
Proof.
  induction sessions as [|s l IH] using rev_ind.
  - split; try done. intros imsi. unfold profile_of. by case_decide.
  - unfold UpdateAll. rewrite foldl_app. by apply Update_registered.
Qed.

(** C14: the registry implements its specification. After any sessions, a look-up
    by IMSI gives the profile that the sessions of this IMSI alone add up to; a
    look-up by address or TEID gives the profile of the subscriber of the last
    session that has it; a look-up by MSISDN gives a profile with this MSISDN,
    and finds one whenever a profile has it; Count and All are those of the
    distinct IMSIs. No pointer dangles. *)
Theorem subscribers_refine sessions :
  let r := UpdateAll NewSubscriberRegistry sessions in
  (forall imsi, LookupByIMSI r imsi = profile_of sessions imsi) /\
  (forall ip, LookupByUEIP r ip =
    (last_with (fun s => ts_UEIP (ts_identity s) = ip /\ ip <> ""%string) sessions ≫= profile_of sessions)) /\
  (forall teid, LookupByTEID r teid =
    (last_with (fun s => teid ∈ ts_TEIDs (ts_idents s)) sessions ≫= profile_of sessions)) /\
  (forall m p, LookupByMSISDN r m = Some p -> p_MSISDN p = m /\ profile_of sessions (p_IMSI p) = Some p) /\
  (forall imsi p, profile_of sessions imsi = Some p -> p_MSISDN p <> ""%string ->
    is_Some (LookupByMSISDN r (p_MSISDN p))) /\
  Count r = Z.of_nat (size (list_to_set (filter (fun i => i <> ""%string)
    ((fun s => ts_IMSI (ts_identity s)) <$> sessions)) : gset string)) /\
  (forall order p, map_order (byIMSI r) order -> p ∈ All r order <-> profile_of sessions (p_IMSI p) = Some p).
Proof.
  cbv zeta. pose proof (UpdateAll_registered sessions) as Hr. set (r := UpdateAll _ sessions) in *. clearbody r.
  pose proof Hr as [R1 R2 R3 R4 R5 R6].
  assert (Hvia : forall o, ((o ≫= fun imsi => byIMSI r !! imsi) ≫= fun ptr => profiles r !! ptr) = o ≫= profile_of sessions).
  { intros [imsi|]; [|done]. cbn [mbind option_bind]. apply R1. }
  split_and!; [done|intros ip; unfold LookupByUEIP; by rewrite R3, Hvia|
    intros teid; unfold LookupByTEID; by rewrite R4, Hvia| | | |].
  - intros m p. unfold LookupByMSISDN. destruct (byMSISDN r !! m) as [ptr|] eqn:E; [|done]. cbn [mbind option_bind].
    intros Hp. destruct (R5 _ _ E) as (p' & Hp' & Hm & _ & Hb). assert (p' = p) as -> by congruence.
    split; [done|]. rewrite <-R1. unfold LookupByIMSI. by rewrite Hb.
  - intros imsi p. rewrite <-R1. unfold LookupByIMSI, LookupByMSISDN. destruct (byIMSI r !! imsi) as [q|]; [|done].
    cbn [mbind option_bind]. intros Hp Hm. destruct (R6 _ _ Hp Hm) as [ptr E]. rewrite E. cbn [mbind option_bind].
    destruct (R5 _ _ E) as (p' & -> & _). by eexists.
  - unfold Count. f_equal. rewrite <-size_dom. f_equal. apply leibniz_equiv. intros imsi.
    rewrite elem_of_dom, elem_of_list_to_set, list_elem_of_filter, list_elem_of_fmap. split.
    + intros [q Hq]. destruct (R2 _ _ Hq) as (p & Hp & _). assert (profile_of sessions imsi = Some p) as E.
      { rewrite <-R1. unfold LookupByIMSI. by rewrite Hq. }
      split; [intros ->; unfold profile_of in E; by rewrite decide_True in E|].
      destruct (decide (Exists (fun s => ts_IMSI (ts_identity s) = imsi) sessions)) as [(s & Hs & <-)%Exists_exists|Hno];
        [by exists s|]. exfalso. clear -E Hno. revert E. unfold profile_of. case_decide; [done|].
      rewrite <-Forall_Exists_neg in Hno. induction Hno as [|s l Hs _ IH]; [done|]. cbn [foldl].
      unfold profile_step at 2. by rewrite decide_False.
    + intros [Hi (s & -> & Hs)]. destruct (profile_of_known sessions s _ Hi Hs eq_refl) as [p Hp]. rewrite <-R1 in Hp.
      unfold LookupByIMSI in Hp. by destruct (byIMSI r !! _).
  - intros order p Ho. unfold map_order in Ho. unfold All. rewrite list_elem_of_omap. split.
    + intros ([imsi q] & Hin & Hp). rewrite Ho in Hin. apply elem_of_map_to_list in Hin.
      destruct (R2 _ _ Hin) as (p' & Hp' & <-). assert (p' = p) as -> by congruence.
      rewrite <-R1. unfold LookupByIMSI. by rewrite Hin.
    + rewrite <-R1. unfold LookupByIMSI. destruct (byIMSI r !! p_IMSI p) as [q|] eqn:E; [|done]. cbn [mbind option_bind].
      intros Hp. exists (p_IMSI p, q). split; [|done]. rewrite Ho. by apply elem_of_map_to_list.
Qed.

(** ** The sessions of a trace in the registry *)

Section traced.
Context `{Unicode} `{GoFmt} `{SortSlice}.

Definition has_teid (t : string) (s : TelecomSession) : Prop := t ∈ ts_TEIDs (ts_idents s).

Lemma appendUniq_in l s t : t ∈ appendUniq l s <-> t ∈ l \/ t = s.
Proof.
  unfold appendUniq. case_decide; [naive_solver|]. by rewrite elem_of_app, list_elem_of_singleton.
Qed.
Lemma appendUniq_all ss l t : t ∈ l -> t ∈ foldl appendUniq l ss.
Proof. revert l. induction ss as [|s ss IH]; intros l Hl; [done|]. cbn [foldl]. apply IH, appendUniq_in. by left. Qed.

Lemma foldl_teid (step : TelecomSession -> Flow -> TelecomSession) t flows s :
  (forall s f, has_teid t s -> has_teid t (step s f)) -> has_teid t s -> has_teid t (foldl step s flows).
Proof. intros Hstep. revert s. induction flows as [|f flows IH]; intros s Hs; [done|]. cbn [foldl]. by apply IH, Hstep. Qed.

Lemma attach_gtpc_teid t s f : has_teid t s -> has_teid t (attach_gtpc s f).
Proof.
  intros Hs. unfold attach_gtpc. cbv zeta. repeat (case_match; [done|]). unfold has_teid. cbn.
  apply appendUniq_all. repeat case_match; try done; apply appendUniq_in; by left.
Qed.

(** A control-plane flow without an IMSI leaves its TEID in every session. *)
Lemma attachGTPC_teid imsi flows f v s :
  f ∈ flows -> ~ user_plane f -> metricS (Metrics f) "imsi" = ""%string ->
  Metrics f !! "teid"%string = Some v -> v <> ANil ->
  ts_StartTime s = 0 -> ts_IMSI (ts_identity s) = imsi -> has_teid (normalizeHexTEID v) (attachGTPC flows s).
Proof.
  intros (l1 & l2 & ->)%list_elem_of_split Hu Hi Ht Hv Hz Hs. unfold attachGTPC. rewrite foldl_app. cbn [foldl].
  apply foldl_teid; [intros; by apply attach_gtpc_teid|].
  destruct (attachGTPC_grows l1 imsi s Hz Hs) as [Hf _ _]. unfold attachGTPC in Hf.
  set (s1 := foldl attach_gtpc s l1) in *. unfold frame in Hf. injection Hf as _ _ E1 _ _ _ _. clearbody s1.
  unfold attach_gtpc. cbv zeta. unfold user_plane in Hu. rewrite (proj2 (String.eqb_neq _ _) Hu), Hi.
  change (String.eqb "" "") with true. cbn [negb andb]. rewrite timeOverlaps_unset by congruence.
  cbn [negb]. unfold has_teid. cbn. rewrite Ht. apply appendUniq_all. destruct v; try done; apply appendUniq_in; by right.
Qed.

Lemma attached_teid imsi flows f v s0 :
  f ∈ flows -> Type_ f = FlowGTP -> ~ user_plane f -> metricS (Metrics f) "imsi" = ""%string ->
  Metrics f !! "teid"%string = Some v -> v <> ANil -> bare imsi s0 ->
  has_teid (normalizeHexTEID v) (attached (partitionByType flows) s0).
Proof.
  intros Hin Hty Hu Hi Ht Hv [_ B2 _ _ B5 _ _ _ _]. unfold attached, attachRTP, attachSIP, attachGTPU, attachPFCP, attachDiameter.
  apply foldl_teid; [|apply foldl_teid; [|apply foldl_teid; [|apply foldl_teid; [|apply foldl_teid]]]].
  1-5: intros s g Hs; unfold has_teid in *.
  - unfold attach_rtp. by repeat case_match.
  - unfold attach_sip. by repeat case_match.
  - unfold attach_gtpu. cbv zeta. case_match; [done|]. case_match; [done|].
    cbn [ts_idents with_idents with_layers with_groups addEvent].
    destruct (negb (String.eqb _ "")); cbn [ts_TEIDs]; [apply appendUniq_in; by left|done].
  - unfold attach_pfcp. cbv zeta. case_match; [done|]. cbn. by case_match.
  - unfold attach_diameter. cbv zeta. by repeat (case_match; [done|]).
  - destruct (attachNGAP_grows (partitionByType flows FlowNGAP) imsi s0 B5 B2) as [Hf _ _].
    unfold frame in Hf. injection Hf as _ E1 E2 _ _ _ _.
    apply (attachGTPC_teid imsi _ f); try done; [by apply list_elem_of_filter|congruence..].
Qed.

(** Who has a TEID depends on the order of a Go map. Let a control-plane
    flow of the GTP decoder carry no IMSI, as most messages do. Each subscriber
    of the capture is, in some order of the range over the sessions, the one
    that the registry then gives for the TEID of that flow: always the last. *)
Theorem teid_of_last_subscriber flows f v :
  f ∈ flows -> Type_ f = FlowGTP -> ~ user_plane f -> metricS (Metrics f) "imsi" = ""%string ->
  Metrics f !! "teid"%string = Some v -> v <> ANil ->
  (forall order, map_order (ue_sessions flows) order -> order <> [] ->
    p_IMSI <$> LookupByTEID (UpdateAll NewSubscriberRegistry (Trace flows order)) (normalizeHexTEID v) = fst <$> last order) /\
  (forall imsi, is_Some (ue_sessions flows !! imsi) -> exists order, map_order (ue_sessions flows) order /\
    p_IMSI <$> LookupByTEID (UpdateAll NewSubscriberRegistry (Trace flows order)) (normalizeHexTEID v) = Some imsi).
Proof.
  intros Hin Hty Hu Hi Ht Hv.
  assert (Hall : forall order, map_order (ue_sessions flows) order -> order <> [] ->
    p_IMSI <$> LookupByTEID (UpdateAll NewSubscriberRegistry (Trace flows order)) (normalizeHexTEID v) = fst <$> last order).
  { intros order. induction order as [|[imsi s] order' _] using rev_ind; intros Ho Hne; [done|].
    assert (Hs : ue_sessions flows !! imsi = Some s).
    { unfold map_order in Ho. apply elem_of_map_to_list. rewrite <-Ho. apply elem_of_app. right. by left. }
    unfold Trace. rewrite (ims_none flows imsi s Hs), app_nil_r, fmap_app, last_snoc. cbn [fmap list_fmap option_fmap option_map fst snd].
    pose proof (UpdateAll_registered ((snd <$> order') ++ [s])) as Hr.
    set (r := UpdateAll _ _) in *. clearbody r. unfold LookupByTEID. rewrite (rg_teid _ _ Hr), last_with_snoc.
    pose proof (ue_session_layers flows imsi s Hs) as (_ & Hsi & _).
    destruct (proj1 (proj2 (buildIMSISessions_spec flows) imsi)) as [Himsi _].
    { revert Hs. unfold ue_sessions. rewrite lookup_fmap. intros (s0 & -> & _)%fmap_Some. by eexists. }
    rewrite decide_True.
    - cbn [mbind option_bind]. rewrite Hsi.
      assert (is_Some (profile_of ((snd <$> order') ++ [s]) imsi)) as [p Hp].
      { apply (profile_of_known _ s); [done| |done]. apply elem_of_app. right. by left. }
      rewrite <-(rg_profile _ _ Hr) in Hp. unfold LookupByIMSI in Hp.
      destruct (byIMSI r !! imsi) as [ptr|] eqn:Ep; [|done]. cbn [mbind option_bind] in *. rewrite Hp. cbn.
      destruct (rg_valid _ _ Hr _ _ Ep) as (p' & Hp' & Ei). congruence.
    - split; [by rewrite Hsi|]. apply ue_sessions_spec in Hs as (s0 & Hf & ->).
      destruct (finalise_fields (attached (partitionByType flows) s0)) as (_ & _ & _ & _ & _ & ->).
      by apply (attached_teid imsi flows f v s0). }
  split; [done|]. intros imsi [s Hs].
  exists (map_to_list (delete imsi (ue_sessions flows)) ++ [(imsi, s)]).
  assert (Ho : map_order (ue_sessions flows) (map_to_list (delete imsi (ue_sessions flows)) ++ [(imsi, s)])).
  { unfold map_order. rewrite <-Permutation_cons_append. by apply map_to_list_delete. }
  split; [done|]. rewrite Hall; [by rewrite last_snoc|done|]. by destruct (map_to_list _).
Qed.

End traced.

(** Two subscribers, and a message of the control plane without an IMSI. *)
Definition bearer_flow : Flow :=
  {| FlowID := "gtp-7-1"; Type_ := FlowGTP; F_SrcIP := "10.0.0.1"; F_DstIP := "10.0.0.2"; F_SrcPort := 2123; F_DstPort := 2123;
     StartTime := 5; EndTime := 5;
     Metrics := <["message_type"%string := AStr "Modify Bearer Request"]> (<["teid"%string := AInt TU32 7]> ∅) |}.
Definition shared_flows : list Flow := bearer_flow :: two_subscribers.
Definition shared_sessions : gmap string TelecomSession := @ue_sessions ascii_only plain_fmt stable_sort shared_flows.

Definition owns_in_some_order (imsi : string) : Prop :=
  exists order, map_order shared_sessions order /\
    p_IMSI <$> LookupByTEID (UpdateAll NewSubscriberRegistry (@Trace ascii_only plain_fmt stable_sort shared_flows order))
      "0x00000007" = Some imsi.

Example teid_of_last_subscriber_witness : owns_in_some_order "1" /\ owns_in_some_order "2".
Proof.
  split; apply (@teid_of_last_subscriber ascii_only plain_fmt stable_sort shared_flows bearer_flow (AInt TU32 7));
    first [by left|reflexivity|done|by vm_compute].
Defined.

(** A subscriber whose second session brings an address. *)
Definition session_at (imsi ip : string) : TelecomSession :=
  new_session ("ue-" +:+ imsi) {| ts_IMSI := imsi; ts_MSISDN := "49"; ts_APN := ""; ts_UEIP := ip |} no_call.
Example subscribers_refine_witness :
  let sessions := [session_at "1" ""; session_at "2" "10.9.0.1"; session_at "1" "10.9.0.1"] in
  let r := UpdateAll NewSubscriberRegistry sessions in
  p_IMSI <$> LookupByUEIP r "10.9.0.1" = Some "1"%string /\ Count r = 2.
Proof.
  intros sessions r. destruct (subscribers_refine sessions) as (_ & Hip & _ & _ & _ & Hc & _).
  unfold r. rewrite Hip, Hc. split; vm_compute; reflexivity.
Defined.
