(* ===== verification/Telecom.v ===== *)
(** * The tracer on the flows of the decoders

    TelecomTracer (internal/correlation/telecom_trace.go) reads metrics by name
    and type that the GTP, Diameter and PFCP decoders (internal/protocols/gtp,
    diameter and pfcp) write under other names and types. *)
From S2P Require Export Trace.
From S2P Require Export Gtp.
From S2P Require Export Diameter.
From S2P Require Export Pfcp.

(** ** What the decoders write *)

Lemma opt_str_elem k k' s (v : any) : (k, v) ∈ Gtp.opt_str k' s -> k = k' /\ v = AStr s.
Proof. unfold Gtp.opt_str. destruct (negb _); [|by intros ?%not_elem_of_nil]. by intros [= -> ->]%list_elem_of_singleton. Qed.

Lemma opt_int_elem k k' t z (v : any) : (k, v) ∈ opt_int k' t z -> k = k' /\ v = AInt t z.
Proof. unfold opt_int. destruct (0 <? z); [|by intros ?%not_elem_of_nil]. by intros [= -> ->]%list_elem_of_singleton. Qed.

Ltac not_a_list :=
  split; [done|]; intros Hk; by repeat (apply elem_of_cons in Hk as [Hk|Hk]; [done|]); apply not_elem_of_nil in Hk.

(** The lists of the elements have one type, and no element says whether the
    message is one of the user plane. *)
Lemma ToMetrics_value ies k v : ToMetrics ies !! k = Some v ->
  k <> "is_gtpu"%string /\ (k ∈ ["bearers"; "fteids"]%string -> exists l, v = AMaps l).
Proof.
  intros Hin%elem_of_list_to_map_2. rewrite !elem_of_app in Hin.
  repeat match goal with Hor : _ \/ _ |- _ => destruct Hor as [Hin|Hin] end;
    try (apply opt_str_elem in Hin as [-> ->]; not_a_list); try (apply opt_int_elem in Hin as [-> ->]; not_a_list);
    destruct (0 <? _); try by apply not_elem_of_nil in Hin.
  - repeat (apply elem_of_cons in Hin as [[= -> ->]|Hin]); [not_a_list|split; [done|eauto]|by apply not_elem_of_nil in Hin].
  - apply list_elem_of_singleton in Hin as [= -> ->]. split; [done|eauto].
Qed.

Lemma ie_metrics_value tx k v : ie_metrics tx !! k = Some v ->
  k <> "is_gtpu"%string /\ (k ∈ ["bearers"; "fteids"]%string -> exists l, v = AMaps l).
Proof.
  unfold ie_metrics. destruct (IEs tx) as [ies|]; [apply ToMetrics_value|].
  intros Hin%elem_of_list_to_map_2. rewrite !elem_of_app in Hin.
  repeat match goal with Hor : _ \/ _ |- _ => destruct Hor as [Hin|Hin] end; apply opt_str_elem in Hin as [-> ->]; not_a_list.
Qed.

Lemma tx_flow_metrics d tx : IsGTPU tx = false ->
  Metrics (tx_flow d tx) !! "is_gtpu"%string = Some (ABool false) /\
  forall k, k ∈ ["bearers"; "fteids"]%string ->
    Metrics (tx_flow d tx) !! k = None \/ exists l, Metrics (tx_flow d tx) !! k = Some (AMaps l).
Proof.
  intros E. unfold tx_flow. rewrite E. cbn [Metrics]. split.
  - rewrite lookup_union_r; [reflexivity|]. destruct (ie_metrics tx !! _) as [v|] eqn:Ev; [|done].
    by destruct (ie_metrics_value _ _ _ Ev).
  - intros k Hk. destruct (ie_metrics tx !! k) as [v|] eqn:Ev.
    + right. destruct (proj2 (ie_metrics_value _ _ _ Ev) Hk) as [l ->]. exists l. by apply lookup_union_Some_l.
    + left. apply lookup_union_None. split; [done|].
      repeat (apply elem_of_cons in Hk as [->|Hk]; [reflexivity|]). by apply not_elem_of_nil in Hk.
Qed.

Lemma gtp_flow_metrics d f : f ∈ Gtp.Flush d -> Type_ f = FlowGTP ->
  Metrics f !! "is_gtpu"%string = Some (ABool false) /\
  forall k, k ∈ ["bearers"; "fteids"]%string -> Metrics f !! k = None \/ exists l, Metrics f !! k = Some (AMaps l).
Proof.
  intros (tx & -> & _)%list_elem_of_fmap Ht. apply tx_flow_metrics. revert Ht. unfold tx_flow. cbn. by destruct (IsGTPU tx).
Qed.

Lemma diameter_flow_metrics d f : f ∈ Diameter.Flush d -> Metrics f !! "command_name"%string = None.
Proof.
  intros (msg & -> & _)%list_elem_of_fmap. unfold message_flow. cbn [Metrics].
  assert (Hopt : forall k s m, k <> "command_name"%string -> m !! "command_name"%string = None ->
    Diameter.opt_str k s m !! "command_name"%string = None).
  { intros k s m Hk Hm. unfold Diameter.opt_str. destruct (negb _); [|done]. by rewrite lookup_insert_ne. }
  do 2 (apply Hopt; [done|]). reflexivity.
Qed.

Lemma pfcp_flow_metrics d f : f ∈ Pfcp.Flush d -> Metrics f !! "message_type_name"%string = None.
Proof. intros (rec & -> & _)%list_elem_of_fmap. reflexivity. Qed.

(** ** What the tracer makes of it *)

Definition lost : list string :=
  ["Data_Tunnel"; "HSS_Authenticate"; "HSS_Location_Update"; "PFCP_Establish_Req"; "PFCP_Establish_Resp"]%string.

(** The tracer reaches none of the milestones of user plane, HSS and PFCP, and has no
    tunnel of a bearer. *)
Definition blind (s : TelecomSession) : Prop :=
  ts_BearerTEIDs (ts_idents s) = [] /\ Forall (fun e => e_Step e ∉ lost) (ts_Events s).

Lemma step_name_not_lost m other k :
  Forall (fun '(_, step) => step ∉ lost) m -> other +:+ k ∉ lost -> step_name m other k ∉ lost.
Proof.
  intros Hm Ho. unfold step_name. destruct (list_to_map m !! k) as [step|] eqn:E; [|done].
  apply elem_of_list_to_map_2 in E. rewrite Forall_forall in Hm. by apply (Hm _ E).
Qed.

Ltac not_lost := intros Hlost; unfold lost in Hlost;
  repeat (apply elem_of_cons in Hlost as [Hlost|Hlost]; [discriminate|]); by apply not_elem_of_nil in Hlost.

Lemma ngapStep_not_lost k : ngapStep k ∉ lost.
Proof. apply step_name_not_lost; [|not_lost]. repeat constructor; not_lost. Qed.
Lemma gtpcStep_not_lost k : gtpcStep k ∉ lost.
Proof. apply step_name_not_lost; [|not_lost]. repeat constructor; not_lost. Qed.
Lemma sipStep_not_lost k : sipStep k ∉ lost.
Proof. apply step_name_not_lost; [|not_lost]. repeat constructor; not_lost. Qed.

Lemma blind_event ts proto step summary src dst meta s s' :
  blind s -> step ∉ lost -> ts_Events s' = ts_Events s -> ts_BearerTEIDs (ts_idents s') = [] ->
  blind (addEvent ts proto step summary src dst meta s').
Proof.
  intros [_ He] Hs Ee Eb. split; [done|]. unfold addEvent. cbn [ts_Events]. rewrite Ee. apply Forall_app.
  split; [done|]. by constructor.
Qed.

Lemma foldl_blind (step : TelecomSession -> Flow -> TelecomSession) flows s :
  (forall f s, f ∈ flows -> blind s -> blind (step s f)) -> blind s -> blind (foldl step s flows).
Proof.
  revert s. induction flows as [|f flows IH]; intros s Hstep Hs; [done|]. cbn [foldl]. apply IH.
  - intros g s' Hg. apply Hstep. by right.
  - apply Hstep; [by left|done].
Qed.

Section telecom.
Context `{Unicode} `{GoFmt} `{SortSlice}.

(** The flows of the GTP, Diameter and PFCP decoders among [flows]. *)
Definition decoded (gtp : Gtp.Decoder) (dia : Diameter.Decoder) (pfcp : Pfcp.Decoder) (flows : list Flow) : Prop :=
  forall f, f ∈ flows ->
    (Type_ f = FlowGTP -> f ∈ Gtp.Flush gtp) /\ (Type_ f = FlowDiameter -> f ∈ Diameter.Flush dia) /\
    (Type_ f = FlowPFCP -> f ∈ Pfcp.Flush pfcp).

Lemma no_bearers m :
  (forall k, k ∈ ["bearers"; "fteids"]%string -> m !! k = None \/ exists l, m !! k = Some (AMaps l)) ->
  extractBearerFTEIDs m = [].
Proof.
  intros Hk. unfold extractBearerFTEIDs.
  destruct (Hk "bearers"%string) as [->|[l ->]]; [by left| |];
    (destruct (Hk "fteids"%string) as [->|[l' ->]]; [by right; left|done|done]).
Qed.

Lemma attached_blind gtp dia pfcp flows imsi s0 : decoded gtp dia pfcp flows -> bare imsi s0 ->
  blind (attached (partitionByType flows) s0).
Proof.
  intros Hdec Hf. assert (Hb : ts_BearerTEIDs (ts_idents s0) = []) by (by rewrite (fr_idents _ _ Hf)).
  assert (Hpart : forall t f, f ∈ partitionByType flows t -> f ∈ flows /\ Type_ f = t).
  { intros t f [? ?]%list_elem_of_filter. done. }
  unfold attached, attachRTP, attachSIP, attachGTPU, attachPFCP, attachDiameter, attachGTPC, attachNGAP.
  assert (Hs0 : blind s0) by (split; [done|]; rewrite (fr_Events _ _ Hf); constructor).
  apply foldl_blind; [|apply foldl_blind; [|apply foldl_blind; [|apply foldl_blind; [|apply foldl_blind;
    [|apply foldl_blind; [|apply foldl_blind; [|exact Hs0]]]]]]];
    intros f s Hin Hs; pose proof Hs as [Hbt He]; cbv zeta.
  - unfold attach_rtp. cbv zeta. case_match; [|done]. apply (blind_event _ _ _ _ _ _ _ s); [done|not_lost|done..].
  - unfold attach_sip. cbv zeta. case_match; [done|]. apply (blind_event _ _ _ _ _ _ _ s); [done|apply sipStep_not_lost|done..].
  - apply Hpart in Hin as [Hin Ht]. destruct (gtp_flow_metrics gtp f) as [Hu _]; [by apply (Hdec f)|done|].
    unfold attach_gtpu, metricS. rewrite Hu. done.
  - apply Hpart in Hin as [Hin Ht]. pose proof (pfcp_flow_metrics pfcp f) as Hn.
    unfold attach_pfcp. cbv zeta. case_match; [done|]. apply (blind_event _ _ _ _ _ _ _ s); [done| |done|].
    + unfold metricS. rewrite Hn by (by apply (Hdec f)). not_lost.
    + cbn. by case_match.
  - apply Hpart in Hin as [Hin Ht]. pose proof (diameter_flow_metrics dia f) as Hc.
    unfold attach_diameter. cbv zeta. repeat (case_match; [done|]).
    apply (blind_event _ _ _ _ _ _ _ s); [done| |done..].
    unfold metricS. rewrite Hc by (by apply (Hdec f)). not_lost.
  - apply Hpart in Hin as [Hin Ht]. destruct (gtp_flow_metrics gtp f) as [_ Hk]; [by apply (Hdec f)|done|].
    unfold attach_gtpc. cbv zeta. repeat (case_match; [done|]).
    apply (blind_event _ _ _ _ _ _ _ s); [done|apply gtpcStep_not_lost|done|].
    cbn. by rewrite no_bearers.
  - unfold attach_ngap. cbv zeta. case_match; [done|]. apply (blind_event _ _ _ _ _ _ _ s); [done|apply ngapStep_not_lost|done..].
Qed.

(** C13: on the flows of the GTP, Diameter and PFCP decoders the tracer finds
    no user-plane hop, no tunnel of a bearer, no milestone of the HSS and no PFCP
    session set-up in any subscriber's session, whatever the capture. The decoder gives user-plane
    messages the type GTPU, which the tracer does not read, and lists of
    elements the type [[]map[string]any], where the tracer expects [[]any]; the
    Diameter decoder writes "command", and the tracer reads "command_name"; the
    PFCP decoder writes "message_type", and the tracer reads "message_type_name". *)
Theorem tracer_misses_tunnels gtp dia pfcp flows order imsi s :
  decoded gtp dia pfcp flows -> map_order (ue_sessions flows) order -> (imsi, s) ∈ order ->
  ts_GTPUser (ts_layers s) = no_layer /\ ts_BearerTEIDs (ts_idents s) = [] /\
  Forall (fun e => e_Step e ∉ ["Data_Tunnel"; "HSS_Authenticate"; "HSS_Location_Update";
                              "PFCP_Establish_Req"; "PFCP_Establish_Resp"]%string) (ts_Events s).
Proof.
  intros Hdec Ho Hs. unfold map_order in Ho. rewrite Ho in Hs. apply elem_of_map_to_list in Hs.
  pose proof (ue_session_layers flows imsi s Hs) as (_ & _ & ->).
  apply ue_sessions_spec in Hs as (s0 & Hf & ->).
  destruct (attached_blind gtp dia pfcp flows imsi s0 Hdec Hf) as [Hb He].
  destruct (finalise_fields (attached (partitionByType flows) s0)) as (_ & _ & _ & _ & -> & ->).
  split_and!; [|done|by rewrite sort_events_perm].
  unfold subscriber_layers, hops_of. cbn [ts_GTPUser].
  destruct (filter user_plane (partitionByType flows FlowGTP)) as [|f l] eqn:E; [done|]. exfalso.
  assert (Hf' : f ∈ f :: l) by left. rewrite <-E in Hf'. unfold partitionByType in Hf'.
  rewrite !list_elem_of_filter in Hf'. destruct Hf' as (Hu & Ht & Hin).
  destruct (gtp_flow_metrics gtp f) as [Hg _]; [by apply (Hdec f)|done|].
  unfold user_plane, metricS in Hu. rewrite Hg in Hu. done.
Qed.

End telecom.

(** A Create Session Request with a bearer and a tunnelled packet, then an
    Update-Location answer. *)
Definition ex_session_request : list byte :=
  let body := encode_ies (element_wire <$> ex_elements) in
  octets [0x48; 32] ++ be_put 2 (8 + zlen body) ++ octets [0; 0; 0; 1; 0; 0; 7; 0] ++ body.
Definition ex_gtp : Gtp.Decoder :=
  match Gtp.handle_all Gtp.NewDecoder
    [mk_packet 1 "10.0.0.1" "10.0.0.2" 2123 2123 "UDP" ex_session_request;
     mk_packet 2 "10.0.0.1" "10.0.0.2" 2152 2152 "UDP" (encode_gpdu 77 (encode_ipv4 ex_ipv4))] with
  | Ok d => d | _ => Gtp.NewDecoder end.
Definition ex_dia : Diameter.Decoder :=
  match Diameter.HandlePacket Diameter.NewDecoder
    (mk_packet 7 "10.0.0.1" "10.0.0.2" 3868 40000 "TCP" (wire_message 0 316 16777251 1 2 (encode_avps ex_avps))) with
  | Ok (d, _) => d | _ => Diameter.NewDecoder end.
Definition ex_pfcp_decoder : Pfcp.Decoder :=
  match Pfcp.HandlePacket Pfcp.NewDecoder (ex_pfcp ex_request (Some 0)) with
  | Ok (d, _) => d | _ => Pfcp.NewDecoder end.
Definition ex_telecom : list Flow := Gtp.Flush ex_gtp ++ Diameter.Flush ex_dia ++ Pfcp.Flush ex_pfcp_decoder.
Definition ex_ues : gmap string TelecomSession := @ue_sessions ascii_only plain_fmt stable_sort ex_telecom.

Lemma ex_telecom_decoded : decoded ex_gtp ex_dia ex_pfcp_decoder ex_telecom.
Proof.
  intros f Hf. unfold ex_telecom in Hf. rewrite !elem_of_app in Hf.
  assert (Hg : f ∈ Gtp.Flush ex_gtp -> Type_ f = FlowGTP \/ Type_ f = FlowGTPU).
  { intros (tx & -> & _)%list_elem_of_fmap. unfold tx_flow. cbn. destruct (IsGTPU tx); auto. }
  assert (Hd : f ∈ Diameter.Flush ex_dia -> Type_ f = FlowDiameter) by (by intros (tx & -> & _)%list_elem_of_fmap).
  assert (Hp : f ∈ Pfcp.Flush ex_pfcp_decoder -> Type_ f = FlowPFCP) by (by intros (tx & -> & _)%list_elem_of_fmap).
  split_and!; intros Ht; destruct Hf as [Hf|[Hf|Hf]]; try done; exfalso;
    try (specialize (Hg Hf)); try (specialize (Hd Hf)); try (specialize (Hp Hf)); naive_solver congruence.
Qed.

Lemma any_order {V} (m : gmap string V) : map_order m (map_to_list m).
Proof. unfold map_order. reflexivity. Qed.

Example tracer_misses_tunnels_witness : exists s,
  ex_ues !! "208930000000001"%string = Some s /\ length (l_hops (ts_GTPControl (ts_layers s))) = 1%nat /\
  ts_GTPUser (ts_layers s) = no_layer /\ ts_BearerTEIDs (ts_idents s) = [].
Proof.
  assert (fmap (fun s => length (l_hops (ts_GTPControl (ts_layers s)))) (ex_ues !! "208930000000001"%string) = Some 1%nat)
    as E by (vm_compute; reflexivity).
  destruct (ex_ues !! "208930000000001"%string) as [s|] eqn:Hs; [|discriminate E]. injection E as E.
  exists s. split; [reflexivity|]. split; [exact E|].
  destruct (@tracer_misses_tunnels ascii_only plain_fmt stable_sort ex_gtp ex_dia ex_pfcp_decoder ex_telecom (map_to_list ex_ues)
    "208930000000001" s ex_telecom_decoded (any_order ex_ues)) as (Hu & Hb & _); [by apply elem_of_map_to_list|].
  exact (conj Hu Hb).
Defined.
