(* ===== verification/Decoders.v ===== *)
(** * internal/protocols: the decoder interface and its implementations

    decoder.go declares the interface every protocol decoder implements, and
    streaming.go wraps a batch decoder for live capture. The interface is the
    class [ProtocolDecoder]; [DecoderLaws] is what decoders promise each other:
    a decoder only annotates the packet it is given. The flow tracker and the
    DNS, Diameter, GTP, NGAP, S1AP, NAS-5GS, SNMP, RTP, SIP and TLS decoders are instances,
    and so is a pair of decoders run one after the other, which is the loop of the
    workers. *)
From S2P Require Export Tls.
From S2P Require Export Snmp.
From S2P Require Export Rtp.
From S2P Require Export Sip.
From S2P Require Export S1ap.
From S2P Require Export Nas5g.
From S2P Require Export Ngap.
From S2P Require Export Tracker.
From S2P Require Export Dns.
From S2P Require Export Diameter.
From S2P Require Export Gtp.

(** ** decoder.go *)

(** [flushes s flows]: Flush may return [flows]; maps are ranged over in any
    order. *)
Class ProtocolDecoder (S : Type) : Type := {
  new_decoder : S;
  handle : S -> Packet -> res (S * Packet);
  flushes : S -> list Flow -> Prop;
}.

(** The packet [p] with other annotations, and perhaps more errors. *)
Definition annotated (p p' : Packet) : Prop :=
  exists app sum errs, p' = set_notes app sum (Errors p ++ errs) p.

Class DecoderLaws (S : Type) `{ProtocolDecoder S} : Prop := {
  handle_annotates : forall s p s' p', handle s p = Ok (s', p') -> annotated p p';
}.

Lemma annotated_set_app app sum p : annotated p (set_app app sum p).
Proof. exists app, sum, []. unfold set_app. by rewrite app_nil_r. Qed.

Lemma annotated_refl p : annotated p p.
Proof. replace p with (set_app (AppProtocol p) (Summary p) p) at 2 by by destruct p. apply annotated_set_app. Qed.

Lemma annotated_trans p q r : annotated p q -> annotated q r -> annotated p r.
Proof.
  intros (a & s & e & ->) (a' & s' & e' & ->). exists a', s', (e ++ e'). cbn. by rewrite app_assoc.
Qed.

Global Instance annotated_preorder : PreOrder annotated.
Proof. split; [exact annotated_refl|exact annotated_trans]. Qed.

#[export] Hint Resolve annotated_refl annotated_set_app : deeppacket.

(** ** The implementations *)

Global Instance tracker_decoder : ProtocolDecoder Tracker := {
  new_decoder := NewTracker;
  handle t p := Ok (Tracker.HandlePacket t p, p);
  flushes t flows := exists order, map_order t order /\ flows = fst (fst (Tracker.Flush t order));
}.

(** The fuel bounds the depth of the recursion over compressed names. *)
Definition dns_decoder `{Unicode} (fuel : nat) : ProtocolDecoder Dns.Decoder := {|
  new_decoder := Dns.NewDecoder;
  handle := Dns.HandlePacket fuel;
  flushes d flows := exists order, map_order (transactions d) order /\ flows = fst (Dns.Flush d order);
|}.

Global Instance diameter_decoder : ProtocolDecoder Diameter.Decoder := {
  new_decoder := Diameter.NewDecoder;
  handle := Diameter.HandlePacket;
  flushes d flows := flows = Diameter.Flush d;
}.

Global Instance gtp_decoder : ProtocolDecoder Gtp.Decoder := {
  new_decoder := Gtp.NewDecoder;
  handle := Gtp.HandlePacket;
  flushes d flows := flows = Gtp.Flush d;
}.

Global Instance ngap_decoder : ProtocolDecoder Ngap.Decoder := {
  new_decoder := Ngap.NewDecoder;
  handle := Ngap.HandlePacket;
  flushes d flows := flows = Ngap.Flush d;
}.

Global Instance s1ap_decoder : ProtocolDecoder S1ap.Decoder := {
  new_decoder := S1ap.NewDecoder;
  handle := S1ap.HandlePacket;
  flushes d flows := flows = S1ap.Flush d;
}.

Global Instance nas_decoder : ProtocolDecoder Nas5g.Decoder := {
  new_decoder := Nas5g.NewDecoder;
  handle := Nas5g.HandlePacket;
  flushes d flows := flows = Nas5g.Flush d;
}.

Global Instance snmp_decoder : ProtocolDecoder Snmp.Decoder := {
  new_decoder := Snmp.NewDecoder;
  handle := Snmp.HandlePacket;
  flushes d flows := flows = Snmp.Flush d;
}.

Global Instance tls_decoder `{Unicode} `{GoLib} : ProtocolDecoder Tls.Decoder := {
  new_decoder := Tls.NewDecoder;
  handle := Tls.HandlePacket;
  flushes d flows := exists order, map_order (Tls.connections (Tls.records d)) order /\ flows = Tls.Flush order;
}.

(** The text of a time in the host's zone. *)
Definition sip_decoder `{Unicode} (rfc3339 : time -> string) : ProtocolDecoder Sip.SIPDecoder := {|
  new_decoder := Sip.NewDecoder;
  handle := Sip.HandlePacket;
  flushes d flows := exists order, map_order d order /\ flows = Sip.Flush rfc3339 order;
|}.

Global Instance rtp_decoder : ProtocolDecoder Rtp.RTPDecoder := {
  new_decoder := Rtp.NewDecoder;
  handle := Rtp.HandlePacket;
  flushes d flows := exists order, map_order d order /\ flows = Rtp.Flush d order;
}.

(** No decoder, and one decoder before the others: [for _, d := range decoders]. *)
Global Instance unit_decoder : ProtocolDecoder unit := {
  new_decoder := tt;
  handle s p := Ok (s, p);
  flushes _ flows := flows = [];
}.

Global Instance pair_decoder {A B} `{ProtocolDecoder A} `{ProtocolDecoder B} :
    ProtocolDecoder (A * B) := {
  new_decoder := (new_decoder, new_decoder);
  handle s p :=
    '(a, p) ← handle (fst s) p;
    '(b, p) ← handle (snd s) p;
    Ok ((a, b), p);
  flushes s flows := exists f g, flushes (fst s) f /\ flushes (snd s) g /\ flows = f ++ g;
}.

(** ** streaming.go: a batch decoder in live capture *)

(** StreamingWrapper.HandlePacketLive: the decoder claims a packet by setting
    another AppProtocol; otherwise the annotations are put back. *)
Definition StreamingWrapper_HandlePacketLive {S} `{ProtocolDecoder S} (s : S) (pkt : Packet) :
    res (S * Packet * option DecodedPacket) :=
  let oldProto := AppProtocol pkt in
  let oldSummary := Summary pkt in
  '(s, pkt) ← handle s pkt;
  if negb (String.eqb (AppProtocol pkt) "") && negb (String.eqb (AppProtocol pkt) oldProto) then
    Ok (s, pkt, Some {| D_Packet := pkt; D_Protocol := AppProtocol pkt; D_Summary := Summary pkt;
                        D_Metadata := Metadata pkt; D_Errors := Errors pkt |})
  else Ok (s, set_app oldProto oldSummary pkt, None).

(** ** Every implementation only annotates *)

(** Follow a computation that returned to the values it went through. *)
Ltac follow :=
  repeat match goal with
  | H : Ok _ = Ok _ |- _ => injection H as; subst
  | H : mbind _ _ = Ok _ |- _ => apply bind_Ok in H as (? & ? & H)
  | H : (_ ≫= _) = Ok _ |- _ => apply bind_Ok in H as (? & ? & H)
  | H : context [match ?x with (_, _) => _ end] |- _ => destruct x
  | H : (if ?b then _ else _) = Ok _ |- _ => destruct b
  | H : (match ?x with Some _ => _ | None => _ end) = Ok _ |- _ => destruct x
  end; simplify_eq/=.

Global Instance tracker_laws : DecoderLaws Tracker.
Proof. split. intros s p s' p' [= <- <-]. apply annotated_refl. Qed.

Lemma parseDNS_annotates `{Unicode} fuel d p on d' p' o :
  parseDNS fuel d p on = Ok (d', p', o) -> annotated p p'.
Proof. unfold parseDNS. cbv zeta. intros E. follow; auto with deeppacket. Qed.

Lemma dns_laws `{Unicode} fuel : @DecoderLaws _ (dns_decoder fuel).
Proof.
  split. intros s p s' p' E. cbn in E. unfold Dns.HandlePacket in E.
  apply bind_Ok in E as ([] & _ & E); cbn [negb] in E; [|injection E as <- <-; apply annotated_refl].
  apply bind_Ok in E as ([[d q] o] & Hq & [= <- <-]). by eapply parseDNS_annotates.
Qed.

Lemma parseDiameter_annotates d p d' p' o :
  parseDiameter d p = Ok (d', p', o) -> annotated p p'.
Proof. unfold parseDiameter. cbv zeta. intros E. follow; auto with deeppacket. Qed.

Global Instance diameter_laws : DecoderLaws Diameter.Decoder.
Proof.
  split. intros s p s' p' E. cbn in E. unfold Diameter.HandlePacket in E.
  apply bind_Ok in E as ([] & _ & E); cbn [negb] in E; [|injection E as <- <-; apply annotated_refl].
  apply bind_Ok in E as ([[d q] o] & Hq & [= <- <-]). by eapply parseDiameter_annotates.
Qed.

Lemma parseGTP_annotates d p d' p' o : parseGTP d p = Ok (d', p', o) -> annotated p p'.
Proof.
  unfold parseGTP. cbv zeta. intros E. apply bind_Ok in E as ([[hdr n]|] & _ & E);
    [|injection E as <- <- <-; apply annotated_refl].
  apply bind_Ok in E as (? & _ & E). apply bind_Ok in E as ([? ?] & _ & E).
  apply bind_Ok in E as ([? ?] & _ & E). injection E as <- <- <-. apply annotated_set_app.
Qed.

Global Instance gtp_laws : DecoderLaws Gtp.Decoder.
Proof.
  split. intros s p s' p' E. cbn in E. unfold Gtp.HandlePacket in E.
  apply bind_Ok in E as ([] & _ & E); cbn [negb] in E; [|injection E as <- <-; apply annotated_refl].
  apply bind_Ok in E as ([[d q] o] & Hq & [= <- <-]). by eapply parseGTP_annotates.
Qed.

Lemma parseNGAP_annotates d p d' p' o : parseNGAP d p = Ok (d', p', o) -> annotated p p'.
Proof. unfold parseNGAP. cbv zeta. intros E. follow; auto with deeppacket. Qed.

Global Instance ngap_laws : DecoderLaws Ngap.Decoder.
Proof.
  split. intros s p s' p' E. cbn in E. unfold Ngap.HandlePacket in E.
  destruct (negb _); [injection E as <- <-; apply annotated_refl|].
  apply bind_Ok in E as ([[d q] o] & Hq & [= <- <-]). by eapply parseNGAP_annotates.
Qed.

Global Instance s1ap_laws : DecoderLaws S1ap.Decoder.
Proof.
  split. intros s p s' p' E. cbn in E. unfold S1ap.HandlePacket in E.
  destruct (negb _); [injection E as <- <-; apply annotated_refl|].
  apply bind_Ok in E as ([[d q] o] & Hq & [= <- <-]). unfold parseS1AP in Hq. cbv zeta in Hq.
  follow; auto with deeppacket.
Qed.

Global Instance nas_laws : DecoderLaws Nas5g.Decoder.
Proof.
  split. intros s p s' p' E. apply HandlePacket_recorded in E as ([rec|] & b & Hr); cbn in Hr.
  - destruct Hr as (_ & _ & -> & _). apply annotated_set_app.
  - destruct Hr as (_ & _ & ->). apply annotated_refl.
Qed.

Global Instance snmp_laws : DecoderLaws Snmp.Decoder.
Proof.
  split. intros s p s' p' E. cbn in E. unfold Snmp.HandlePacket in E.
  destruct (negb _); [injection E as <- <-; apply annotated_refl|].
  apply bind_Ok in E as ([[d q] o] & Hq & [= <- <-]). pose proof (parseSNMP_returns s p) as Hr. rewrite Hq in Hr.
  cbn in Hr. destruct o; destruct Hr as [_ ->]; [apply annotated_set_app|apply annotated_refl].
Qed.

Global Instance tls_laws `{Unicode} `{GoLib} : DecoderLaws Tls.Decoder.
Proof.
  split. intros s p s' p' E. cbn in E. unfold Tls.HandlePacket in E.
  apply bind_Ok in E as ([] & _ & E); cbn [negb] in E; [|injection E as <- <-; apply annotated_refl].
  apply bind_Ok in E as ([[d q] o] & Hq & [= <- <-]). unfold Tls.parseTLS, Tls.keep_record in Hq. cbv zeta in Hq.
  follow; auto with deeppacket.
Qed.

Global Instance rtp_laws : DecoderLaws Rtp.RTPDecoder.
Proof.
  split. intros s p s' p' E. cbn in E. rewrite Rtp.HandlePacket_spec in E.
  destruct (rtp_header p); injection E as <- <-; [apply annotated_set_app|apply annotated_refl].
Qed.

Lemma sip_laws `{Unicode} rfc3339 : @DecoderLaws _ (sip_decoder rfc3339).
Proof.
  split. intros s p s' p' E. cbn in E. pose proof (Sip.handle_returns s p) as Hr. rewrite E in Hr.
  destruct Hr as [[_ Hp]|(sum & errs & Hp)]; cbn in Hp; rewrite Hp; [apply annotated_refl|by exists "SIP"%string, sum, errs].
Qed.

Global Instance unit_laws : DecoderLaws unit.
Proof. split. intros s p s' p' [= <- <-]. apply annotated_refl. Qed.

Global Instance pair_laws {A B} `{DecoderLaws A} `{DecoderLaws B} : DecoderLaws (A * B).
Proof.
  split. intros s p s' p' E. cbn in E. apply bind_Ok in E as ([a q] & E1 & E).
  apply bind_Ok in E as ([b r] & E2 & [= <- <-]).
  apply annotated_trans with q; [exact (handle_annotates _ _ _ _ E1)|exact (handle_annotates _ _ _ _ E2)].
Qed.

(** A wrapped decoder that does not claim a packet may only leave errors on it. *)
Lemma StreamingWrapper_unclaimed {S} `{DecoderLaws S} (s : S) p s' p' :
  StreamingWrapper_HandlePacketLive s p = Ok (s', p', None) ->
  exists errs, p' = set_notes (AppProtocol p) (Summary p) (Errors p ++ errs) p.
Proof.
  unfold StreamingWrapper_HandlePacketLive. intros ([s1 q] & E & E')%bind_Ok. revert E'.
  destruct (_ && _); [done|]. intros [= <- <-].
  apply handle_annotates in E as (app & sum & errs & ->). by exists errs.
Qed.

(** ** Short DATA chunks *)

(** One kind of SCTP chunk makes both decoders of the 5G control plane panic,
    and nothing else does: a DATA chunk whose length field is less than its own
    header of sixteen octets, with more octets after that header, wherever it
    stands after chunks that carry no data. NAS-5GS looks into every SCTP packet,
    whatever its ports; NGAP into those of port 38412. A packet without such a
    chunk at any offset is always handled by NGAP, S1AP and NAS-5GS. *)
Theorem sctp_short_data_panics cs rest pkt d n s1 :
  Forall control_chunk cs -> Protocol pkt = "SCTP" -> Payload pkt = encode_chunks cs ++ rest ->
  short_data (encode_chunks cs ++ rest) (zlen (encode_chunks cs)) = true ->
  Nas5g.HandlePacket n pkt = Panic /\
  (SrcPort pkt = 38412 \/ DstPort pkt = 38412 -> Ngap.HandlePacket d pkt = Panic) /\
  forall pkt', (forall o, 0 <= o -> short_data (Payload pkt') o = false) ->
    (exists r, Ngap.HandlePacket d pkt' = Ok r) /\ (exists r, Nas5g.HandlePacket n pkt' = Ok r) /\
    (exists r, S1ap.HandlePacket s1 pkt' = Ok r).
Proof.
  intros Hcs Hp Hpay Hs. pose proof (user_data_panics cs rest Hcs Hs) as Hu. rewrite <-Hpay in Hu, Hs.
  assert (16 < zlen (Payload pkt)) as Hl.
  { unfold short_data in Hs. pose proof (zlen_nonneg (encode_chunks cs)). lia. }
  split; [|split].
  - unfold Nas5g.HandlePacket, Nas5g.admits. rewrite Hp. replace (3 <=? zlen (Payload pkt)) with true by lia.
    cbn [String.eqb Ascii.eqb Bool.eqb orb andb negb]. unfold scanPayload. rewrite Hp.
    unfold extractDataFromSCTP. by rewrite Hu.
  - intros Hport. unfold Ngap.HandlePacket. rewrite Ngap.admits_true by (done || lia). cbn [negb].
    unfold parseNGAP, extractNGAPFromSCTP. by rewrite Hu.
  - intros q Hq. split_and!.
    + unfold Ngap.HandlePacket. destruct (Ngap.admits q); cbn [negb]; [|eauto].
      destruct (returns_inv _ _ (parseNGAP_returns d q Hq)) as ([[d' q'] o] & -> & _). cbn. eauto.
    + unfold Nas5g.HandlePacket. destruct (Nas5g.admits q); cbn [negb]; [|eauto].
      rewrite scanPayload_result by (eapply returns_weaken; [by apply user_data_returns|done]).
      destruct (returns_inv _ _ (scan_result_recorded n q (candidates q))) as ([[d' q'] o] & -> & _). cbn. eauto.
    + destruct (returns_inv _ _ (s1ap_handle_returns s1 q)) as (r & -> & _). eauto.
Qed.

(** A SACK, then a DATA chunk of length 8. *)
Definition ex_short_data : list byte := data_header 3 8 1 1 1 60 ++ octets [0; 14; 0; 4].

Example sctp_short_data_panics_witness :
  Nas5g.HandlePacket Nas5g.NewDecoder
    (mk_packet 0 "10.0.0.1" "10.0.0.2" 5000 5001 "SCTP" (encode_chunks [ex_sack] ++ ex_short_data)) = Panic.
Proof.
  apply (sctp_short_data_panics [ex_sack] ex_short_data
    (mk_packet 0 "10.0.0.1" "10.0.0.2" 5000 5001 "SCTP" (encode_chunks [ex_sack] ++ ex_short_data))
    Ngap.NewDecoder Nas5g.NewDecoder S1ap.NewDecoder); [|done|done|by vm_compute].
  by repeat constructor.
Defined.
