(* ===== verification/Framer.v ===== *)
(** * internal/reassembly: message framers over reassembled TCP bytes

    Every framer of framer.go runs the same loop over its buffer: look at the
    front of the buffer, then wait for more bytes, drop one byte to
    resynchronise, or cut a message off. The looking part differs and is a
    [*_next] function per framer; [feed_loop] is the loop. *)
From S2P Require Export Domain.
From S2P Require Export Text.

(** ** The shared loop *)

Inductive fstep :=
  | FWait
  | FSkip
  | FEmit (totalLen : Z).
Global Instance fstep_eq_dec : EqDecision fstep.
Proof. solve_decision. Defined.

(** One turn of the [for] loop of a [Feed], on (f.buf, msgs). *)
Definition feed_body (next : list byte -> res fstep)
    (st : list byte * list (list byte)) :
    res (ctl (list byte * list (list byte)) (list (list byte) * list byte)) :=
  let '(buf, msgs) := st in
  s ← next buf;
  match s with
  | FWait => Ok (Done (msgs, buf))
  | FSkip => buf' ← slice_from buf 1; Ok (Next (buf', msgs))
  | FEmit totalLen =>
    msg ← slice_to buf totalLen;
    buf' ← slice_from buf totalLen;
    Ok (Next (buf', msgs ++ [msg]))
  end.

Definition feed_loop (next : list byte -> res fstep) (fuel : nat) (buf : list byte) :
    res (list (list byte) * list byte) :=
  loop fuel (feed_body next) (buf, []).

(** [Feed]: append, then run the loop; a loop that makes progress on every
    turn needs at most one turn per buffered byte, plus the last. *)
Definition feed (next : list byte -> res fstep) (buf data : list byte) :
    res (list (list byte) * list byte) :=
  feed_loop next (S (length (buf ++ data))) (buf ++ data).

(** ** The tests of each framer *)

Definition crlf2 : list byte := octets [13; 10; 13; 10].
Definition content_length_key : list byte := gobytes "content-length:".

(** [for _, c := range val]: the value of the leading decimal digits, in [int]. *)
Fixpoint parse_digits (n : Z) (l : list Z) : Z :=
  match l with
  | [] => n
  | c :: l =>
    if (0x30 <=? c) && (c <=? 0x39) then parse_digits (i64 (i64 (n * 10) + (c - 0x30))) l
    else n
  end.

Definition extractContentLength `{Unicode} (headers : list byte) : res Z :=
  let s := headers in
  let lower := to_lower s in
  let i := index lower content_length_key in
  if i =? -1 then Ok 0
  else
    rest ← slice_from s (i + zlen content_length_key);
    let e := index_byte rest (byte_of 13) in
    let e := if e =? -1 then index_byte rest (byte_of 10) else e in
    let e := if e =? -1 then zlen rest else e in
    v ← slice_to rest e;
    Ok (parse_digits 0 (fst <$> runes (trim_space v))).

(** SIPFramer.Feed and HTTPFramer.Feed *)
Definition text_next `{Unicode} (buf : list byte) : res fstep :=
  let i := index buf crlf2 in
  if i =? -1 then Ok FWait
  else
    let headerEnd := i + 4 in
    hdr ← slice_to buf i;
    bodyLen ← extractContentLength hdr;
    let totalLen := i64 (headerEnd + bodyLen) in
    if zlen buf <? totalLen then Ok FWait else Ok (FEmit totalLen).

(** TLSFramer.Feed *)
Definition tls_next (buf : list byte) : res fstep :=
  if zlen buf <? 5 then Ok FWait
  else
    contentType ← idx buf 0;
    if (u8 contentType <? 20) || (23 <? u8 contentType) then Ok FSkip
    else
      recordLen ← rd_be 2 buf 3;
      let totalLen := 5 + recordLen in
      if zlen buf <? totalLen then Ok FWait else Ok (FEmit totalLen).

(** DiameterFramer.Feed *)
Definition diameter_next (buf : list byte) : res fstep :=
  if zlen buf <? 4 then Ok FWait
  else
    b0 ← idx buf 0;
    if negb (u8 b0 =? 1) then Ok FSkip
    else
      b1 ← idx buf 1; b2 ← idx buf 2; b3 ← idx buf 3;
      let msgLen := Z.lor (Z.lor (Z.shiftl (u8 b1) 16) (Z.shiftl (u8 b2) 8)) (u8 b3) in
      if msgLen <? 20 then Ok FSkip
      else if zlen buf <? msgLen then Ok FWait else Ok (FEmit msgLen).

(** AJPFramer.Feed *)
Definition ajp_next (buf : list byte) : res fstep :=
  if zlen buf <? 4 then Ok FWait
  else
    magic ← rd_be 2 buf 0;
    if negb (magic =? 0x1234) && negb (magic =? 0x4142) then Ok FSkip
    else
      dataLen ← rd_be 2 buf 2;
      let totalLen := 4 + dataLen in
      if zlen buf <? totalLen then Ok FWait else Ok (FEmit totalLen).

(** WebSocketFramer.Feed *)
Definition websocket_next (buf : list byte) : res fstep :=
  if zlen buf <? 2 then Ok FWait
  else
    b1 ← idx buf 1;
    let masked := negb (Z.land (u8 b1) 0x80 =? 0) in
    let payloadLen := Z.land (u8 b1) 0x7F in
    let finish (payloadLen headerLen : Z) : res fstep :=
      let headerLen := if masked then headerLen + 4 else headerLen in
      let totalLen := i64 (headerLen + payloadLen) in
      if zlen buf <? totalLen then Ok FWait else Ok (FEmit totalLen) in
    if payloadLen =? 126 then
      if zlen buf <? 4 then Ok FWait
      else payloadLen ← rd_be 2 buf 2; finish payloadLen 4
    else if payloadLen =? 127 then
      if zlen buf <? 10 then Ok FWait
      else payloadLen ← rd_be 8 buf 2; finish (i64 payloadLen) 10
    else finish payloadLen 2.

(** ** The framers as values of the MessageFramer interface *)

Inductive MessageFramer :=
  | SIPFramer (buf : list byte)
  | HTTPFramer (buf : list byte)
  | TLSFramer (buf : list byte)
  | DiameterFramer (buf : list byte)
  | AJPFramer (buf : list byte)
  | WebSocketFramer (buf : list byte).

Definition framer_buf (f : MessageFramer) : list byte :=
  match f with
  | SIPFramer b | HTTPFramer b | TLSFramer b
  | DiameterFramer b | AJPFramer b | WebSocketFramer b => b
  end.

Definition with_buf (f : MessageFramer) (b : list byte) : MessageFramer :=
  match f with
  | SIPFramer _ => SIPFramer b
  | HTTPFramer _ => HTTPFramer b
  | TLSFramer _ => TLSFramer b
  | DiameterFramer _ => DiameterFramer b
  | AJPFramer _ => AJPFramer b
  | WebSocketFramer _ => WebSocketFramer b
  end.

Definition framer_next `{Unicode} (f : MessageFramer) : list byte -> res fstep :=
  match f with
  | SIPFramer _ | HTTPFramer _ => text_next
  | TLSFramer _ => tls_next
  | DiameterFramer _ => diameter_next
  | AJPFramer _ => ajp_next
  | WebSocketFramer _ => websocket_next
  end.

Definition Feed `{Unicode} (f : MessageFramer) (data : list byte) :
    res (list (list byte) * MessageFramer) :=
  r ← feed (framer_next f) (framer_buf f) data;
  let '(msgs, rest) := r in Ok (msgs, with_buf f rest).

Definition Framer_Flush (f : MessageFramer) : list byte * MessageFramer :=
  (framer_buf f, with_buf f []).

Definition isHTTPPort (port : Z) : bool :=
  bool_decide (port ∈ [80; 8080; 8000; 8888; 3000]).

Definition isTLSPort (port : Z) : bool :=
  bool_decide (port ∈ [443; 8443; 993; 995; 465; 636]).

Definition SelectFramer (srcPort dstPort : Z) : option MessageFramer :=
  if (srcPort =? 5060) || (dstPort =? 5060) || (srcPort =? 5061) || (dstPort =? 5061) then
    Some (SIPFramer [])
  else if isHTTPPort srcPort || isHTTPPort dstPort then Some (HTTPFramer [])
  else if isTLSPort srcPort || isTLSPort dstPort then Some (TLSFramer [])
  else if (srcPort =? 3868) || (dstPort =? 3868) then Some (DiameterFramer [])
  else if (srcPort =? 8009) || (dstPort =? 8009) then Some (AJPFramer [])
  else None.

Definition ShouldReassemble (pkt : Packet) : bool :=
  match SelectFramer (SrcPort pkt) (DstPort pkt) with Some _ => true | None => false end.

(** ** internal/reassembly/stream.go

    What gopacket hands over (the scatter-gather buffer and the capture time)
    is an argument; the calls of [OnMessage] are returned as a list. *)

Inductive TCPFlowDirection := TCPDirClientToServer | TCPDirServerToClient.

Record ScatterGather := {
  sg_length : Z;
  sg_data : list byte;
  sg_dir : TCPFlowDirection;
  sg_skip : Z;
}.

Record Message := {
  m_payload : list byte;
  m_srcIP : string;
  m_dstIP : string;
  m_srcPort : Z;
  m_dstPort : Z;
  m_ts : time;
}.

Record tcpStream := {
  st_srcIP : string;
  st_dstIP : string;
  st_srcPort : Z;
  st_dstPort : Z;
  st_framer : MessageFramer;
  st_onMessage : bool;
}.

Definition set_framer (s : tcpStream) (f : MessageFramer) : tcpStream :=
  {| st_srcIP := st_srcIP s; st_dstIP := st_dstIP s; st_srcPort := st_srcPort s;
     st_dstPort := st_dstPort s; st_framer := f; st_onMessage := st_onMessage s |}.

(** StreamFactory.New: [None] is the [ignoreStream]. *)
Definition StreamFactory_New (onMessage : bool) (srcIP dstIP : string)
    (srcPort dstPort : Z) : option tcpStream :=
  match SelectFramer srcPort dstPort with
  | None => None
  | Some framer =>
    Some {| st_srcIP := srcIP; st_dstIP := dstIP; st_srcPort := srcPort;
            st_dstPort := dstPort; st_framer := framer; st_onMessage := onMessage |}
  end.

Definition ReassembledSG `{Unicode} (s : tcpStream) (sg : ScatterGather) (ts : time) :
    res (list Message * tcpStream) :=
  if sg_length sg =? 0 then Ok ([], s)
  else
    let data := sg_data sg in
    let '(srcIP, dstIP, srcPort, dstPort) :=
      match sg_dir sg with
      | TCPDirServerToClient => (st_dstIP s, st_srcIP s, st_dstPort s, st_srcPort s)
      | TCPDirClientToServer => (st_srcIP s, st_dstIP s, st_srcPort s, st_dstPort s)
      end in
    if 0 <? sg_skip sg then Ok ([], set_framer s (snd (Framer_Flush (st_framer s))))
    else
      r ← Feed (st_framer s) data;
      let '(msgs, framer) := r in
      let out := if st_onMessage s then
          (fun msg => {| m_payload := msg; m_srcIP := srcIP; m_dstIP := dstIP;
                         m_srcPort := srcPort; m_dstPort := dstPort; m_ts := ts |}) <$> msgs
        else [] in
      Ok (out, set_framer s framer).

Definition ReassemblyComplete (s : tcpStream) : list Message * tcpStream :=
  let '(remaining, framer) := Framer_Flush (st_framer s) in
  let out :=
    if (0 <? zlen remaining) && st_onMessage s then
      [{| m_payload := remaining; m_srcIP := st_srcIP s; m_dstIP := st_dstIP s;
          m_srcPort := st_srcPort s; m_dstPort := st_dstPort s; m_ts := 0 |}]
    else [] in
  (out, set_framer s framer).

(** ** The abstract contract: what a pass of the loop carves off a buffer *)

Inductive carves (next : list byte -> res fstep) :
    list byte -> list (list byte) -> list byte -> Prop :=
  | carve_wait b : next b = Ok FWait -> carves next b [] b
  | carve_skip c b ms r :
      next (c :: b) = Ok FSkip -> carves next b ms r -> carves next (c :: b) ms r
  | carve_emit m b ms r :
      next (m ++ b) = Ok (FEmit (zlen m)) -> carves next b ms r ->
      carves next (m ++ b) (m :: ms) r.

(** The laws a framer's test obeys: a decision once taken (a failure included)
    stands when more bytes arrive, and it only consumes bytes that are there. *)
Class FramerLaws (next : list byte -> res fstep) : Prop := {
  next_stable b x : next b <> Ok FWait -> next (b ++ x) = next b;
  next_fits b s : next b = Ok s ->
    match s with
    | FWait => True
    | FSkip => 0 < zlen b
    | FEmit n => n <= zlen b
    end;
}.

(** The test never fails, and every decision but waiting consumes bytes it has. *)
Class FramerProgress (next : list byte -> res fstep) : Prop :=
  next_progress b : returns (next b) (fun s =>
    match s with
    | FWait => True
    | FSkip => 0 < zlen b
    | FEmit n => 0 < n <= zlen b
    end).

Section framer_theory.
Context (next : list byte -> res fstep).

Lemma feed_loop_carves fuel b acc out r :
  loop fuel (feed_body next) (b, acc) = Ok (out, r) ->
  exists ms, out = acc ++ ms /\ carves next b ms r.
Proof.
  revert b acc. induction fuel as [|fuel IH]; intros b acc; [done|].
  cbn [loop feed_body]. intros (c & Hc & Hk)%bind_Ok.
  apply bind_Ok in Hc as (s & Hs & Hc). destruct s as [| |n].
  - injection Hc as <-. injection Hk as <- <-. exists []. rewrite app_nil_r.
    split; [done|by constructor].
  - apply bind_Ok in Hc as (b' & Hb & [= <-]). apply slice_Ok_inv in Hb as Hb'.
    rewrite slice_from_Ok in Hb by lia. injection Hb as <-.
    apply IH in Hk as (ms & -> & Hms). exists ms. split; [done|].
    destruct b as [|c0 b]; [unfold zlen in Hb'; cbn in Hb'; lia|]. by constructor.
  - apply bind_Ok in Hc as (m & Hm & Hc). apply bind_Ok in Hc as (b' & Hb & [= <-]).
    apply slice_Ok_inv in Hm as Hm'.
    rewrite slice_from_Ok in Hb by lia. rewrite slice_to_Ok in Hm by lia.
    injection Hb as <-. injection Hm as <-.
    apply IH in Hk as (ms & -> & Hms).
    exists (take (Z.to_nat n) b :: ms). split; [by rewrite <-app_assoc|].
    rewrite <-(take_drop (Z.to_nat n) b) at 1. constructor; [|done].
    rewrite take_drop, Hs. do 2 f_equal. unfold zlen in *. rewrite length_take. lia.
Qed.

(** A finished pass never emits an empty message, so one turn per byte and
    one to stop is enough fuel. *)
Lemma carves_fuel b ms r :
  carves next b ms r ->
  forall acc, loop (S (length b)) (feed_body next) (b, acc) = Ok (acc ++ ms, r).
Proof.
  induction 1 as [b Hb|c b ms r Hs _ IH|m b ms r Hs _ IH]; intros acc.
  - cbn. by rewrite Hb, app_nil_r.
  - cbn [loop feed_body]. rewrite Hs. cbn [mbind res_bind].
    rewrite slice_from_Ok by (rewrite zlen_cons; pose proof (zlen_nonneg b); lia).
    apply IH.
  - assert (forall fuel, loop (S fuel) (feed_body next) (m ++ b, acc) =
              loop fuel (feed_body next) (b, acc ++ [m])) as Hstep.
    { intros fuel. cbn [loop feed_body]. rewrite Hs. cbn [mbind res_bind].
      pose proof (zlen_nonneg m). pose proof (zlen_nonneg b).
      rewrite slice_to_Ok by (rewrite zlen_app; lia).
      rewrite slice_from_Ok by (rewrite zlen_app; lia). cbn. unfold zlen.
      by rewrite Nat2Z.id, take_app_all, drop_app_all. }
    rewrite Hstep. destruct m as [|c m].
    + exfalso. pose proof (IH acc) as E. cbn [app] in Hstep. rewrite Hstep in E.
      eapply loop_mono in E; [rewrite (IH (acc ++ [[]])) in E|lia].
      injection E as E. apply (f_equal length) in E. rewrite !length_app in E. cbn in E. lia.
    + eapply loop_mono; [by rewrite IH, <-app_assoc|]. rewrite length_app. cbn. lia.
Qed.

(** [feed] computes exactly the carving. *)
Lemma feed_carves buf data ms r :
  feed next buf data = Ok (ms, r) <-> carves next (buf ++ data) ms r.
Proof.
  unfold feed, feed_loop. split; [|intros Hc; by rewrite (carves_fuel _ _ _ Hc)].
  intros (ms' & -> & ?)%feed_loop_carves. done.
Qed.

Lemma carves_fun b ms r ms' r' :
  carves next b ms r -> carves next b ms' r' -> ms = ms' /\ r = r'.
Proof.
  intros H1 H2. apply (carves_fuel _ _ _) with (acc := []) in H1, H2.
  rewrite H1 in H2. by injection H2 as -> ->.
Qed.

(** Carving a buffer and then what is left with more bytes is carving it all. *)
Lemma carves_app `{!FramerLaws next} a b ms1 r1 ms2 r2 :
  carves next a ms1 r1 -> carves next (r1 ++ b) ms2 r2 ->
  carves next (a ++ b) (ms1 ++ ms2) r2.
Proof.
  induction 1 as [a Ha|c a ms r Hs _ IH|m a ms r Hs _ IH]; intros H2; [done|..].
  - cbn. constructor; [|auto]. change (c :: a ++ b) with ((c :: a) ++ b).
    by rewrite next_stable, Hs by congruence.
  - rewrite <-app_assoc. cbn. constructor; [|auto].
    by rewrite app_assoc, next_stable, Hs by congruence.
Qed.

Lemma carves_split `{!FramerLaws next} x ms r :
  carves next x ms r -> forall a b, x = a ++ b ->
  exists ms1 r1 ms2, carves next a ms1 r1 /\ carves next (r1 ++ b) ms2 r /\ ms = ms1 ++ ms2.
Proof.
  intros Hx. induction Hx as [x Hw|c x ms r Hs Hx IH|m x ms r Hs Hx IH]; intros a b E;
    (destruct (decide (next a = Ok FWait)) as [Ha|Ha];
     [exists [], a; rewrite <-E; eexists; split_and!; [by constructor|by econstructor|done]|]).
  - rewrite E, next_stable in Hw by done. done.
  - rewrite E, next_stable in Hs by done. pose proof (next_fits _ _ Hs) as Hl. cbn in Hl.
    destruct a as [|c' a]; [unfold zlen in Hl; cbn in Hl; lia|]. injection E as -> E.
    destruct (IH a b E) as (ms1 & r1 & ms2 & H1 & H2 & ->).
    exists ms1, r1, ms2. split_and!; [by constructor|done..].
  - rewrite E, next_stable in Hs by done. pose proof (next_fits _ _ Hs) as Hl. cbn in Hl.
    assert (exists a', a = m ++ a' /\ x = a' ++ b) as (a' & -> & Ex).
    { exists (drop (length m) a). unfold zlen in Hl.
      apply (f_equal (take (length m))) in E as E1. apply (f_equal (drop (length m))) in E.
      rewrite take_app_all, take_app_le in E1 by lia. rewrite drop_app_all, drop_app_le in E by lia.
      by rewrite E1 at 1; rewrite take_drop. }
    destruct (IH a' b Ex) as (ms1 & r1 & ms2 & H1 & H2 & ->).
    exists (m :: ms1), r1, ms2. split_and!; [by constructor|done..].
Qed.

Lemma carves_rest b ms r : carves next b ms r -> next r = Ok FWait.
Proof. by induction 1. Qed.

Lemma feed_loop_total `{!FramerProgress next} b :
  exists ms r, feed_loop next (S (length b)) b = Ok (ms, r) /\ carves next b ms r.
Proof.
  assert (returns (feed_loop next (S (length b)) b) (fun _ => True)) as Hr.
  { apply (returns_loop (fun _ => True) (fun st => length (fst st))); [|done|cbn; lia].
    intros [buf acc] _. cbn [feed_body]. apply returns_bind.
    eapply returns_weaken; [apply next_progress|]. intros [| |n] Hn; [done| |].
    - rewrite slice_from_Ok by lia. cbn. split; [done|].
      rewrite length_drop. unfold zlen in Hn. lia.
    - rewrite slice_to_Ok by lia. rewrite slice_from_Ok by lia. cbn. split; [done|].
      rewrite length_drop. unfold zlen in Hn. lia. }
  apply returns_inv in Hr as ([ms r] & Hr & _). exists ms, r. split; [done|].
  apply feed_loop_carves in Hr as (ms' & -> & ?). done.
Qed.
End framer_theory.

(** ** The framers obey the laws *)

Lemma zlen_grow {A} (b x : list A) k : k <= zlen b -> (zlen (b ++ x) <? k) = false.
Proof. rewrite zlen_app. pose proof (zlen_nonneg x). lia. Qed.

(** A test that never fails is stable if its successful decisions are. *)
Lemma laws_intro next :
  FramerProgress next ->
  (forall b x s, next b = Ok s -> s <> FWait -> next (b ++ x) = Ok s) ->
  FramerLaws next.
Proof.
  intros HP Hs. split.
  - intros b x Hb. destruct (returns_inv _ _ (HP b)) as (s & E & _).
    rewrite E in *. apply Hs; [done|congruence].
  - intros b s E. specialize (HP b). rewrite E in HP. cbn in HP.
    destruct s; [done|done|lia].
Qed.

Ltac stable_bind H v Hv :=
  apply bind_Ok in H as (v & Hv & H);
  first [rewrite (idx_app_l _ _ _ _ Hv) | rewrite (rd_be_app_l _ _ _ _ _ Hv)
        | rewrite (slice_app_l _ _ _ _ _ Hv)]; cbn [mbind res_bind].

(** The last test of a framer: has the whole message arrived? *)
Ltac stable_len b n := destruct (Z.ltb_spec (zlen b) n); [congruence|]; rewrite zlen_grow by lia.

Global Instance tls_progress : FramerProgress tls_next.
Proof.
  intros b. unfold tls_next. destruct (Z.ltb_spec (zlen b) 5); [done|].
  apply returns_bind, returns_idx; [lia|]. intros c _. destruct (_ || _); [cbn; lia|].
  apply returns_bind, returns_rd_be; [lia|]. intros n _ Hn.
  destruct (Z.ltb_spec (zlen b) (5 + n)); cbn; lia.
Qed.

Global Instance diameter_progress : FramerProgress diameter_next.
Proof.
  intros b. unfold diameter_next. destruct (Z.ltb_spec (zlen b) 4); [done|].
  apply returns_bind, returns_idx; [lia|]. intros b0 _. destruct (negb _); [cbn; lia|].
  do 3 (apply returns_bind, returns_idx; [lia|]; intros ? _).
  set (n := Z.lor _ _). destruct (Z.ltb_spec n 20); [cbn; lia|].
  destruct (Z.ltb_spec (zlen b) n); cbn; lia.
Qed.

Global Instance ajp_progress : FramerProgress ajp_next.
Proof.
  intros b. unfold ajp_next. destruct (Z.ltb_spec (zlen b) 4); [done|].
  apply returns_bind, returns_rd_be; [lia|]. intros m _ _. destruct (_ && _); [cbn; lia|].
  apply returns_bind, returns_rd_be; [lia|]. intros n _ Hn.
  destruct (Z.ltb_spec (zlen b) (4 + n)); cbn; lia.
Qed.

Global Instance tls_laws : FramerLaws tls_next.
Proof.
  apply laws_intro; [apply _|]. intros b x s H Hs. unfold tls_next in *.
  stable_len b 5. stable_bind H c Hc. destruct (_ || _); [done|].
  stable_bind H n Hn. by stable_len b (5 + n).
Qed.

Global Instance diameter_laws : FramerLaws diameter_next.
Proof.
  apply laws_intro; [apply _|]. intros b x s H Hs. unfold diameter_next in *.
  stable_len b 4. stable_bind H b0 Hb0. destruct (negb _); [done|].
  stable_bind H b1 Hb1. stable_bind H b2 Hb2. stable_bind H b3 Hb3.
  set (n := Z.lor _ _) in *. destruct (n <? 20); [done|]. by stable_len b n.
Qed.

Global Instance ajp_laws : FramerLaws ajp_next.
Proof.
  apply laws_intro; [apply _|]. intros b x s H Hs. unfold ajp_next in *.
  stable_len b 4. stable_bind H m Hm. destruct (_ && _); [done|].
  stable_bind H n Hn. by stable_len b (4 + n).
Qed.

Global Instance text_laws `{Unicode} : FramerLaws text_next.
Proof.
  split.
  - intros b x Hb. unfold text_next in *.
    destruct (index b crlf2 =? -1) eqn:E; [congruence|].
    assert (0 <= index b crlf2 <= zlen b /\ index (b ++ x) crlf2 = index b crlf2) as [Hi ->].
    { unfold index in *. destruct (index_nat crlf2 b) as [i|] eqn:Ei; [|done].
      apply index_nat_Some in Ei as Hi. rewrite (index_nat_app _ _ _ _ Ei).
      unfold zlen. split; [|done]. destruct Hi as (? & _ & ?). lia. }
    rewrite E. assert (slice_to b (index b crlf2) = slice_to (b ++ x) (index b crlf2)) as <-.
    { unfold slice_to. rewrite (slice_ok b) by lia. symmetry. apply slice_app_l, slice_ok; lia. }
    destruct (slice_to b _) as [hdr| |]; cbn [mbind res_bind] in *; [|done..].
    destruct (extractContentLength hdr) as [n| |]; cbn [mbind res_bind] in *; [|done..].
    by stable_len b (i64 (index b crlf2 + 4 + n)).
  - intros b s. unfold text_next. destruct (index b crlf2 =? -1); [by intros [= <-]|].
    intros (hdr & _ & (n & _ & E)%bind_Ok)%bind_Ok.
    destruct (Z.ltb_spec (zlen b) (i64 (index b crlf2 + 4 + n))); by injection E as <-.
Qed.

Lemma websocket_fits b : returns (websocket_next b) (fun s =>
  match s with FWait => True | FSkip => False | FEmit n => n <= zlen b end).
Proof.
  unfold websocket_next. destruct (Z.ltb_spec (zlen b) 2); [done|].
  apply returns_bind, returns_idx; [lia|]. intros b1 _.
  destruct (Z.land (u8 b1) 127 =? 126); [|destruct (Z.land (u8 b1) 127 =? 127)].
  - destruct (Z.ltb_spec (zlen b) 4); [done|]. apply returns_bind, returns_rd_be; [lia|].
    intros n _ _. by destruct (Z.ltb_spec (zlen b) (i64 ((if negb (Z.land (u8 b1) 128 =? 0) then 4 + 4 else 4) + n))).
  - destruct (Z.ltb_spec (zlen b) 10); [done|]. apply returns_bind, returns_rd_be; [lia|].
    intros n _ _. by destruct (Z.ltb_spec (zlen b) (i64 ((if negb (Z.land (u8 b1) 128 =? 0) then 10 + 4 else 10) + i64 n))).
  - by destruct (Z.ltb_spec (zlen b) (i64 ((if negb (Z.land (u8 b1) 128 =? 0) then 2 + 4 else 2) + Z.land (u8 b1) 127))).
Qed.

Global Instance websocket_laws : FramerLaws websocket_next.
Proof.
  split.
  - intros b x Hb. destruct (returns_inv _ _ (websocket_fits b)) as (s & H & _).
    rewrite H in *. unfold websocket_next in *.
    stable_len b 2. stable_bind H b1 Hb1.
    destruct (Z.land (u8 b1) 127 =? 126); [|destruct (Z.land (u8 b1) 127 =? 127)].
    + stable_len b 4. stable_bind H n Hn. set (k := i64 _) in *. by stable_len b k.
    + stable_len b 10. stable_bind H n Hn. set (k := i64 _) in *. by stable_len b k.
    + set (k := i64 _) in *. by stable_len b k.
  - intros b s E. pose proof (websocket_fits b) as Hf. rewrite E in Hf. by destruct s.
Qed.

Global Instance framer_laws `{Unicode} f : FramerLaws (framer_next f).
Proof. destruct f; apply _. Qed.

(** The framers whose length fields are too narrow to overflow. *)
Definition binary_framer (f : MessageFramer) : bool :=
  match f with
  | TLSFramer _ | DiameterFramer _ | AJPFramer _ => true
  | _ => false
  end.

Lemma binary_progress `{Unicode} f : binary_framer f = true -> FramerProgress (framer_next f).
Proof. destruct f; try done; intros _; apply _. Qed.

(** Feeding a sequence of chunks, as the segments of a stream arrive. *)
Fixpoint Feeds `{Unicode} (f : MessageFramer) (chunks : list (list byte)) :
    res (list (list byte) * MessageFramer) :=
  match chunks with
  | [] => Ok ([], f)
  | c :: chunks =>
    r ← Feed f c; let '(ms, f) := r in
    r ← Feeds f chunks; let '(ms', f) := r in
    Ok (ms ++ ms', f)
  end.

Section framer_lemmas.
Context `{Unicode}.

Lemma with_buf_buf f : with_buf f (framer_buf f) = f.
Proof. by destruct f. Qed.
Lemma framer_buf_with f b : framer_buf (with_buf f b) = b.
Proof. by destruct f. Qed.
Lemma framer_next_with f b : framer_next (with_buf f b) = framer_next f.
Proof. by destruct f. Qed.
Lemma with_buf_with f b c : with_buf (with_buf f b) c = with_buf f c.
Proof. by destruct f. Qed.

Lemma Feed_carves f data ms f' :
  Feed f data = Ok (ms, f') <->
  f' = with_buf f (framer_buf f') /\
  carves (framer_next f) (framer_buf f ++ data) ms (framer_buf f').
Proof.
  unfold Feed. split.
  - intros ([ms' r] & Hr & [= -> <-])%bind_Ok. rewrite framer_buf_with.
    split; [done|]. by apply feed_carves in Hr.
  - intros [E Hc]. apply feed_carves in Hc. rewrite Hc. cbn. by rewrite <-E.
Qed.

(** Nothing complete is left in the buffer: the state every [Feed] ends in. *)
Definition waiting (f : MessageFramer) : Prop :=
  framer_next f (framer_buf f) = Ok FWait.

Lemma Feed_waiting f data ms f' : Feed f data = Ok (ms, f') -> waiting f'.
Proof.
  intros [E Hc]%Feed_carves. unfold waiting. rewrite E at 1.
  rewrite framer_next_with. by eapply carves_rest.
Qed.

Lemma Feeds_carves f chunks ms f' :
  waiting f ->
  Feeds f chunks = Ok (ms, f') <->
  f' = with_buf f (framer_buf f') /\
  carves (framer_next f) (framer_buf f ++ mjoin chunks) ms (framer_buf f').
Proof.
  revert f ms. induction chunks as [|c chunks IH]; intros f ms Hw; cbn [Feeds]; split.
  - intros [= <- <-]. rewrite with_buf_buf. split; [done|].
    cbn. rewrite app_nil_r. by constructor.
  - cbn. rewrite app_nil_r. intros [E C].
    destruct (carves_fun _ _ _ _ _ _ C (carve_wait _ _ Hw)) as [-> E'].
    by rewrite E, E', with_buf_buf.
  - intros ([m1 f1] & H1 & ([m2 f2] & H2 & [= <- <-])%bind_Ok)%bind_Ok.
    pose proof (Feed_waiting _ _ _ _ H1) as Hw1.
    apply Feed_carves in H1 as [E1 C1]. apply (IH _ _ Hw1) in H2 as [E2 C2].
    rewrite E1, with_buf_with in E2. split; [done|].
    rewrite E1, framer_buf_with, framer_next_with in C2. cbn. rewrite app_assoc.
    by eapply carves_app; [apply framer_laws|..].
  - change (mjoin (c :: chunks)) with (c ++ mjoin chunks).
    rewrite app_assoc. intros [E C].
    destruct (carves_split _ _ _ _ C _ _ eq_refl) as (m1 & r1 & m2 & C1 & C2 & ->).
    assert (Feed f c = Ok (m1, with_buf f r1)) as H1.
    { apply Feed_carves. by rewrite framer_buf_with. }
    rewrite H1. cbn [mbind res_bind]. apply Feed_waiting in H1.
    assert (Feeds (with_buf f r1) chunks = Ok (m2, f')) as ->; [|done].
    apply IH; [done|]. by rewrite framer_next_with, framer_buf_with, with_buf_with.
Qed.

Lemma Feeds_Feed f chunks ms f' :
  waiting f -> Feeds f chunks = Ok (ms, f') <-> Feed f (mjoin chunks) = Ok (ms, f').
Proof. intros Hw. by rewrite Feeds_carves, Feed_carves. Qed.

Lemma Feed_binary f data :
  binary_framer f = true -> exists ms f', Feed f data = Ok (ms, f').
Proof.
  intros Hf. pose proof (binary_progress f Hf) as HP.
  destruct (feed_loop_total (framer_next f) (framer_buf f ++ data)) as (ms & r & E & _).
  exists ms, (with_buf f r). unfold Feed, feed. by rewrite E.
Qed.

Lemma Feeds_binary f chunks :
  binary_framer f = true -> exists ms f', Feeds f chunks = Ok (ms, f').
Proof.
  revert f. induction chunks as [|c chunks IH]; intros f Hf; cbn [Feeds]; [eauto|].
  destruct (Feed_binary f c Hf) as (m1 & f1 & E1). rewrite E1. cbn.
  apply Feed_carves in E1 as [E1 _].
  destruct (IH f1) as (m2 & f2 & ->); [rewrite E1; by destruct f|]. cbn. eauto.
Qed.
End framer_lemmas.

(** ** Messages on the wire *)

(** The length field of a WebSocket frame header for a payload of [n] bytes. *)
Definition ws_len_field (masked : bool) (n : Z) : list byte :=
  let m := if masked then 0x80 else 0 in
  if n <? 126 then [byte_of (m + n)]
  else if n <? 65536 then byte_of (m + 126) :: be_put 2 n
  else byte_of (m + 127) :: be_put 8 n.

(** One complete message of a framer's protocol, as its standard lays it out. *)
Definition well_framed `{Unicode} (f : MessageFramer) (m : list byte) : Prop :=
  match f with
  | SIPFramer _ | HTTPFramer _ => exists hdr body,
      index (hdr ++ crlf2) crlf2 = zlen hdr /\ extractContentLength hdr = Ok (zlen body) /\
      zlen m < 2 ^ 63 /\ m = hdr ++ crlf2 ++ body
  | TLSFramer _ => exists contentType version body,
      20 <= u8 contentType <= 23 /\ length version = 2%nat /\ zlen body < 65536 /\
      m = contentType :: version ++ be_put 2 (zlen body) ++ body
  | DiameterFramer _ => exists body,
      16 <= zlen body /\ zlen body + 4 < 2 ^ 24 /\
      m = byte_of 1 :: be_put 3 (zlen body + 4) ++ body
  | AJPFramer _ => exists magic body,
      (magic = 0x1234 \/ magic = 0x4142) /\ zlen body < 65536 /\
      m = be_put 2 magic ++ be_put 2 (zlen body) ++ body
  | WebSocketFramer _ => exists b0 (masked : bool) key body,
      length key = (if masked then 4%nat else 0%nat) /\ zlen body < 2 ^ 62 /\
      m = b0 :: ws_len_field masked (zlen body) ++ key ++ body
  end.

Lemma tls_next_frame ct ver body :
  20 <= u8 ct <= 23 -> length ver = 2%nat -> zlen body < 65536 ->
  let m := ct :: ver ++ be_put 2 (zlen body) ++ body in
  tls_next m = Ok (FEmit (zlen m)).
Proof.
  intros Hct Hver Hb m. pose proof (zlen_nonneg body).
  assert (zlen m = 5 + zlen body) as Hm.
  { unfold m. rewrite zlen_cons, !zlen_app, zlen_be_put. unfold zlen at 1. lia. }
  unfold tls_next. rewrite (proj2 (Z.ltb_ge _ _)) by lia.
  change (idx m 0) with (Ok ct). cbn [mbind res_bind].
  replace ((u8 ct <? 20) || (23 <? u8 ct)) with false by lia.
  assert (rd_be 2 m 3 = Ok (zlen body)) as ->.
  { pose proof (rd_be_app_mid 2 (ct :: ver) (be_put 2 (zlen body)) body) as E.
    rewrite be_be_put in E by (cbn; lia).
    replace (zlen (ct :: ver)) with 3 in E by (rewrite zlen_cons; unfold zlen; lia).
    apply E, length_be_put. }
  cbn [mbind res_bind]. rewrite (proj2 (Z.ltb_ge _ _)) by lia. by rewrite Hm.
Qed.

Lemma diameter_next_frame body :
  16 <= zlen body -> zlen body + 4 < 2 ^ 24 ->
  let m := byte_of 1 :: be_put 3 (zlen body + 4) ++ body in
  diameter_next m = Ok (FEmit (zlen m)).
Proof.
  intros Hb1 Hb2 m.
  assert (zlen m = 4 + zlen body) as Hm.
  { unfold m. rewrite zlen_cons, zlen_app, zlen_be_put. lia. }
  unfold diameter_next. rewrite (proj2 (Z.ltb_ge _ _)) by lia.
  pose proof (be_be_put 3 (zlen body + 4)) as Hbe.
  destruct (be_put_3 (zlen body + 4)) as (b1 & b2 & b3 & E).
  unfold m in *. rewrite E in *. cbn [app]. 
  rewrite (idx_lookup _ 0 (byte_of 1)), (idx_lookup _ 1 b1), (idx_lookup _ 2 b2),
    (idx_lookup _ 3 b3) by (lia || done).
  cbn [mbind res_bind]. change (negb (u8 (byte_of 1) =? 1)) with false. cbn [negb].
  rewrite be24_lor, Hbe by (cbn; lia). cbn [app] in Hm. rewrite Hm.
  rewrite !(proj2 (Z.ltb_ge _ _)) by lia. do 2 f_equal. lia.
Qed.

Lemma ajp_next_frame magic body :
  magic = 0x1234 \/ magic = 0x4142 -> zlen body < 65536 ->
  let m := be_put 2 magic ++ be_put 2 (zlen body) ++ body in
  ajp_next m = Ok (FEmit (zlen m)).
Proof.
  intros Hmag Hb m. pose proof (zlen_nonneg body).
  assert (zlen m = 4 + zlen body) as Hm.
  { unfold m. rewrite !zlen_app, !zlen_be_put. lia. }
  unfold ajp_next. rewrite (proj2 (Z.ltb_ge _ _)) by lia.
  assert (rd_be 2 m 0 = Ok magic) as ->.
  { pose proof (rd_be_app_mid 2 [] (be_put 2 magic) (be_put 2 (zlen body) ++ body)) as E.
    rewrite be_be_put in E by (cbn; lia). apply E, length_be_put. }
  cbn [mbind res_bind].
  replace (negb (magic =? 0x1234) && negb (magic =? 0x4142)) with false by lia.
  assert (rd_be 2 m 2 = Ok (zlen body)) as ->.
  { pose proof (rd_be_app_mid 2 (be_put 2 magic) (be_put 2 (zlen body)) body) as E.
    rewrite be_be_put, zlen_be_put in E by (cbn; lia). apply E, length_be_put. }
  cbn [mbind res_bind]. rewrite (proj2 (Z.ltb_ge _ _)) by lia. by rewrite Hm.
Qed.

Lemma index_app p s t n : index s p = n -> 0 <= n -> index (s ++ t) p = n.
Proof.
  unfold index. destruct (index_nat p s) eqn:E; [|lia].
  by rewrite (index_nat_app _ _ _ _ E).
Qed.

Lemma text_next_frame `{Unicode} hdr body :
  index (hdr ++ crlf2) crlf2 = zlen hdr -> extractContentLength hdr = Ok (zlen body) ->
  let m := hdr ++ crlf2 ++ body in
  zlen m < 2 ^ 63 -> text_next m = Ok (FEmit (zlen m)).
Proof.
  intros Hi Hc m Hlt. pose proof (zlen_nonneg hdr). pose proof (zlen_nonneg body).
  assert (zlen m = zlen hdr + 4 + zlen body) as Hm.
  { unfold m. rewrite !zlen_app. change (zlen crlf2) with 4. lia. }
  unfold text_next.
  assert (index m crlf2 = zlen hdr) as ->.
  { unfold m. rewrite app_assoc. by apply index_app. }
  replace (zlen hdr =? -1) with false by lia.
  assert (slice_to m (zlen hdr) = Ok hdr) as ->.
  { rewrite slice_to_Ok by lia. unfold m, zlen. by rewrite Nat2Z.id, take_app_all. }
  cbn [mbind res_bind]. rewrite Hc. cbn [mbind res_bind].
  unfold i64. rewrite swrap_small by (cbn; lia).
  rewrite (proj2 (Z.ltb_ge _ _)) by lia. by rewrite Hm.
Qed.

Lemma ws_len_byte (masked : bool) k :
  0 <= k < 128 ->
  let b := byte_of ((if masked then 0x80 else 0) + k) in
  negb (Z.land (u8 b) 0x80 =? 0) = masked /\ Z.land (u8 b) 0x7F = k.
Proof.
  intros Hk. set (chk := fun k => forallb (fun masked : bool =>
    let b := byte_of ((if masked then 0x80 else 0) + k) in
    bool_decide (negb (Z.land (u8 b) 0x80 =? 0) = masked) && (Z.land (u8 b) 0x7F =? k))
    [true; false]).
  assert (forallb chk (seqZ 0 128) = true) as Hall by by vm_compute.
  rewrite forallb_forall in Hall. specialize (Hall k). rewrite <-list_elem_of_In in Hall.
  rewrite elem_of_seqZ in Hall. specialize (Hall ltac:(lia)). unfold chk in Hall.
  rewrite forallb_forall in Hall. specialize (Hall masked).
  assert (In masked [true; false]) as Hin by (destruct masked; cbn; auto).
  specialize (Hall Hin). cbn zeta in *. apply andb_true_iff in Hall as [H1 H2].
  by apply bool_decide_eq_true in H1; apply Z.eqb_eq in H2.
Qed.

Ltac ws_close :=
  unfold i64; rewrite ?(swrap_small 64 (zlen _)) by (cbn; lia);
  rewrite swrap_small by (cbn; lia);
  rewrite (proj2 (Z.ltb_ge _ _)) by lia; do 2 f_equal; lia.

(** A frame whose length byte announces [k] and whose length is [total]. *)
Lemma ws_next_frame b0 (masked : bool) key body :
  length key = (if masked then 4%nat else 0%nat) -> zlen body < 2 ^ 62 ->
  let m := b0 :: ws_len_field masked (zlen body) ++ key ++ body in
  websocket_next m = Ok (FEmit (zlen m)).
Proof.
  intros Hkey Hb m. pose proof (zlen_nonneg body).
  assert (zlen key = if masked then 4 else 0) as Hk by (unfold zlen; destruct masked; lia).
  unfold websocket_next.
  assert (1 + zlen (ws_len_field masked (zlen body)) + zlen key + zlen body = zlen m) as Hm.
  { unfold m. rewrite zlen_cons, !zlen_app. lia. }
  unfold m, ws_len_field in *. clear m.
  destruct (Z.ltb_spec (zlen body) 126); [|destruct (Z.ltb_spec (zlen body) 65536)].
  - change (zlen [_]) with 1 in Hm. cbn [app] in *. set (m := b0 :: _) in *.
    rewrite (proj2 (Z.ltb_ge _ 2)) by (destruct masked; lia).
    rewrite (idx_lookup _ 1 (byte_of ((if masked then 128 else 0) + zlen body))) by done.
    cbn [mbind res_bind].
    destruct (ws_len_byte masked (zlen body)) as [-> ->]; [lia|].
    replace (zlen body =? 126) with false by lia.
    replace (zlen body =? 127) with false by lia.
    destruct masked; ws_close.
  - rewrite zlen_cons, zlen_be_put in Hm. cbn [app] in *. set (m := b0 :: _) in *.
    rewrite (proj2 (Z.ltb_ge _ 2)) by (destruct masked; lia).
    rewrite (idx_lookup _ 1 (byte_of ((if masked then 128 else 0) + 126))) by done.
    cbn [mbind res_bind]. destruct (ws_len_byte masked 126) as [-> ->]; [lia|].
    rewrite Z.eqb_refl, (proj2 (Z.ltb_ge _ 4)) by (destruct masked; lia).
    assert (rd_be 2 m 2 = Ok (zlen body)) as ->.
    { pose proof (rd_be_app_mid 2 [b0; byte_of ((if masked then 128 else 0) + 126)]
        (be_put 2 (zlen body)) (key ++ body)) as E.
      rewrite be_be_put in E by (cbn; lia). apply E, length_be_put. }
    cbn [mbind res_bind].
    destruct masked; ws_close.
  - rewrite zlen_cons, zlen_be_put in Hm. cbn [app] in *. set (m := b0 :: _) in *.
    rewrite (proj2 (Z.ltb_ge _ 2)) by (destruct masked; lia).
    rewrite (idx_lookup _ 1 (byte_of ((if masked then 128 else 0) + 127))) by done.
    cbn [mbind res_bind]. destruct (ws_len_byte masked 127) as [-> ->]; [lia|].
    change (127 =? 126) with false. rewrite Z.eqb_refl.
    rewrite (proj2 (Z.ltb_ge _ 10)) by (destruct masked; lia).
    assert (rd_be 8 m 2 = Ok (zlen body)) as ->.
    { pose proof (rd_be_app_mid 8 [b0; byte_of ((if masked then 128 else 0) + 127)]
        (be_put 8 (zlen body)) (key ++ body)) as E.
      rewrite be_be_put in E by (cbn; lia). apply E, length_be_put. }
    cbn [mbind res_bind].
    destruct masked; ws_close.
Qed.

Lemma well_framed_next `{Unicode} f m :
  well_framed f m -> framer_next f m = Ok (FEmit (zlen m)) /\ 0 < zlen m.
Proof.
  destruct f; cbn [well_framed framer_next].
  1,2: intros (hdr & body & Hi & Hc & Hl & ->); split; [by apply text_next_frame|];
    rewrite !zlen_app; change (zlen crlf2) with 4;
    pose proof (zlen_nonneg hdr); pose proof (zlen_nonneg body); lia.
  - intros (ct & ver & body & Hct & Hv & Hb & ->). split; [by apply tls_next_frame|].
    rewrite zlen_cons. pose proof (zlen_nonneg (ver ++ be_put 2 (zlen body) ++ body)). lia.
  - intros (body & H1 & H2 & ->). split; [by apply diameter_next_frame|].
    rewrite zlen_cons. pose proof (zlen_nonneg (be_put 3 (zlen body + 4) ++ body)). lia.
  - intros (magic & body & Hm & Hb & ->). split; [by apply ajp_next_frame|].
    rewrite !zlen_app, !zlen_be_put. pose proof (zlen_nonneg body). lia.
  - intros (b0 & masked & key & body & Hk & Hb & ->). split; [by apply ws_next_frame|].
    rewrite zlen_cons. pose proof (zlen_nonneg (ws_len_field masked (zlen body) ++ key ++ body)). lia.
Qed.

Lemma carves_frames `{Unicode} f ms tail :
  Forall (well_framed f) ms -> framer_next f tail = Ok FWait ->
  carves (framer_next f) (mjoin ms ++ tail) ms tail.
Proof.
  intros Hms Ht. induction Hms as [|m ms Hm _ IH]; cbn; [by constructor|].
  rewrite <-app_assoc. constructor; [|done].
  destruct (well_framed_next _ _ Hm) as [E _].
  by rewrite next_stable by congruence.
Qed.

Lemma carves_sublist next b ms r : carves next b ms r -> sublist (mjoin ms ++ r) b.
Proof.
  induction 1 as [b Hb|c b ms r Hs _ IH|m b ms r Hs _ IH]; cbn; [done|by constructor|].
  rewrite <-app_assoc. by apply sublist_app.
Qed.

Lemma carves_no_skip next b ms r :
  (forall b, next b <> Ok FSkip) -> carves next b ms r -> mjoin ms ++ r = b.
Proof.
  intros Hn. induction 1 as [b Hb|c b ms r Hs _ IH|m b ms r Hs _ IH]; [done| |].
  - by destruct (Hn (c :: b)).
  - change (mjoin (m :: ms)) with (m ++ mjoin ms). by rewrite <-app_assoc, IH.
Qed.

Lemma text_no_skip `{Unicode} b : text_next b <> Ok FSkip.
Proof.
  unfold text_next. case_match; [done|].
  intros (hdr & _ & (n & _ & E)%bind_Ok)%bind_Ok. by case_match.
Qed.

Lemma websocket_no_skip b : websocket_next b <> Ok FSkip.
Proof. intros E. pose proof (websocket_fits b) as H. by rewrite E in H. Qed.

(** ** Content-Length *)

Definition decimal (ds : list Z) : Z := foldl (fun n d => n * 10 + d) 0 ds.
Definition digits (ds : list Z) : list byte := (fun d => byte_of (0x30 + d)) <$> ds.

Lemma decimal_mono ds n : Forall (fun d => 0 <= d <= 9) ds -> 0 <= n ->
  n <= foldl (fun n d => n * 10 + d) n ds.
Proof.
  intros Hds. revert n. induction Hds as [|d ds Hd _ IH]; intros n Hn; cbn; [lia|].
  specialize (IH (n * 10 + d) ltac:(lia)). lia.
Qed.

Lemma i64_mul_l a b : i64 (i64 a * b) = i64 (a * b).
Proof.
  assert (exists k, i64 a = a + k * 2 ^ 64) as [k ->].
  { exists (- ((a + 2 ^ 63) / 2 ^ 64)). unfold i64, swrap. change (64 - 1) with 63.
    pose proof (Z.div_mod (a + 2 ^ 63) (2 ^ 64) ltac:(lia)). lia. }
  unfold i64, swrap. f_equal. change (64 - 1) with 63.
  replace ((a + k * 2 ^ 64) * b + 2 ^ 63) with (a * b + 2 ^ 63 + k * b * 2 ^ 64) by lia. by rewrite Z.mod_add by lia.
Qed.

(** The digit loop keeps the value modulo 2^64. *)
Lemma parse_digits_spec ds n :
  Forall (fun d => 0 <= d <= 9) ds ->
  parse_digits (i64 n) (u8 <$> digits ds) = i64 (foldl (fun n d => n * 10 + d) n ds).
Proof.
  intros Hds. revert n. induction Hds as [|d ds Hd Hds IH]; intros n; [done|]. cbn.
  rewrite u8_byte_of by lia. replace ((48 <=? 48 + d) && (48 + d <=? 57)) with true by lia.
  replace (48 + d - 48) with d by lia.
  by rewrite i64_add_l, <-(i64_add_l (i64 n * 10)), i64_mul_l, i64_add_l, <-IH.
Qed.

Lemma digits_ascii ds : Forall (fun d => 0 <= d <= 9) ds -> is_ascii (digits ds) = true.
Proof.
  induction 1 as [|d ds Hd _ IH]; [done|].
  change (is_ascii (digits (d :: ds)))
    with ((u8 (byte_of (48 + d)) <? 0x80) && is_ascii (digits ds)).
  rewrite IH, u8_byte_of by lia. rewrite andb_true_r. lia.
Qed.

(** A space, digits, and nothing else: [TrimSpace] removes the space. *)
Lemma trim_space_digits ds :
  Forall (fun d => 0 <= d <= 9) ds -> ds <> [] ->
  trim_space (byte_of 0x20 :: digits ds) = digits ds.
Proof.
  intros Hds Hne. unfold trim_space.
  assert (forall d, 0 <= d <= 9 -> is_space (u8 (byte_of (48 + d))) = false) as Hsp.
  { intros d Hd. rewrite u8_byte_of by lia. unfold is_space.
    rewrite bool_decide_false by (intros Hin; repeat (apply elem_of_cons in Hin as [?|Hin]; [lia|]); by apply not_elem_of_nil in Hin).
    cbn [orb]. lia. }
  rewrite runes_ascii by (cbn; by apply digits_ascii). rewrite fmap_cons.
  change (drop_spaces ((u8 (byte_of 32), [byte_of 32]) :: ?l)) with (drop_spaces l).
  set (L := (fun b => (u8 b, [b])) <$> digits ds).
  assert (drop_spaces L = L) as ->.
  { apply drop_spaces_id. intros r b l'. unfold L.
    destruct Hds as [|d ds Hd _]; [done|]. intros [= <- _]. by apply Hsp. }
  unfold L. rewrite drop_spaces_id, reverse_involutive; [apply mjoin_singletons|].
  intros r b l' E. apply (f_equal reverse) in E. rewrite reverse_involutive, reverse_cons in E.
  assert ((r, b) ∈ (fun b => (u8 b, [b])) <$> digits ds) as Hin by (rewrite E; set_solver).
  apply list_elem_of_fmap in Hin as (c & [= -> ->] & (d & -> & Hd)%list_elem_of_fmap).
  apply Hsp. exact (proj1 (Forall_forall _ _) Hds d Hd).
Qed.

(** ** Properties *)

(** C1: TCP segmentation does not matter. For every framer (SIP, HTTP, TLS,
    Diameter, AJP, WebSocket) whose buffer holds no complete message, feeding
    the segments of a stream one after the other returns exactly when feeding
    all the bytes at once does, with the same messages and the same buffer. *)
Theorem framer_chunking `{Unicode} f chunks ms f' :
  waiting f -> Feeds f chunks = Ok (ms, f') <-> Feed f (mjoin chunks) = Ok (ms, f').
Proof. apply Feeds_Feed. Qed.

(** C2: every framer recovers the messages of its protocol: a stream that is
    the concatenation of complete messages, cut into segments anywhere,
    comes out as exactly these messages, in order, with an empty buffer. *)
Theorem framer_roundtrip `{Unicode} f ms chunks :
  framer_buf f = [] -> Forall (well_framed f) ms -> mjoin chunks = mjoin ms ->
  Feeds f chunks = Ok (ms, f).
Proof.
  intros Hb Hms E.
  assert (framer_next f [] = Ok FWait) as H0 by by destruct f.
  apply Feeds_carves; [by unfold waiting; rewrite Hb|].
  rewrite Hb, E. split; [by rewrite <-Hb, with_buf_buf|]. cbn.
  rewrite <-(app_nil_r (mjoin ms)). by apply carves_frames.
Qed.

(** C3: the TLS, Diameter and AJP framers never panic and never loop: on any
    buffer and any bytes, [Feed] returns. *)
Theorem framer_binary_total `{Unicode} f data :
  binary_framer f = true -> exists ms f', Feed f data = Ok (ms, f').
Proof. apply Feed_binary. Qed.

(** No framer invents, duplicates or reorders bytes, and none leaves a
    complete message behind: what [Feed] returns and keeps is a subsequence of
    the buffered bytes (all of them for the text and WebSocket framers, which
    never resynchronise), and the buffer it keeps is waiting for more. *)
Theorem framer_conserves `{Unicode} f data ms f' :
  Feed f data = Ok (ms, f') ->
  sublist (mjoin ms ++ framer_buf f') (framer_buf f ++ data) /\ waiting f' /\
  match f with
  | SIPFramer _ | HTTPFramer _ | WebSocketFramer _ =>
    mjoin ms ++ framer_buf f' = framer_buf f ++ data
  | _ => True
  end.
Proof.
  intros HF. split_and!; [|by eapply Feed_waiting|].
  - apply Feed_carves in HF as [_ C]. by eapply carves_sublist.
  - apply Feed_carves in HF as [_ C].
    destruct f; try done; (eapply carves_no_skip; [|exact C]);
      [apply text_no_skip..|apply websocket_no_skip].
Qed.

(** Runes of ASCII text and of bytes that no encoding has. *)
Lemma runes_ascii_app a s : is_ascii a = true -> runes (a ++ s) = ((fun b => (u8 b, [b])) <$> a) ++ runes s.
Proof.
  induction a as [|b a IH]; [done|]. cbn [is_ascii forallb]. intros [Hb Ha]%andb_true_iff.
  unfold runes. cbn [app length runes_fuel decode_rune]. rewrite Hb. cbn [take drop]. rewrite drop_0, take_0.
  cbn [fmap list_fmap app]. f_equal. by apply IH.
Qed.

Lemma runes_invalid n s : runes (replicate n xff ++ s) = replicate n (rune_error, [xff]) ++ runes s.
Proof.
  induction n as [|n IH]; [done|]. unfold runes. cbn [replicate app length runes_fuel].
  assert (decode_rune (xff :: replicate n xff ++ s) = (rune_error, 1%nat)) as -> by by destruct (replicate n xff ++ s).
  cbn [take drop]. rewrite drop_0, take_0. f_equal. exact IH.
Qed.

(** The lower-cased copy of such text: every invalid byte has become three. *)
Definition lowered (pre : list byte) (n : nat) (mid : list byte) : list byte :=
  (lower_byte <$> pre) ++ mjoin (replicate n (encode_rune rune_error)) ++ (lower_byte <$> mid).

Lemma zlen_lowered pre n mid : zlen (lowered pre n mid) = zlen pre + 3 * Z.of_nat n + zlen mid.
Proof.
  unfold lowered. rewrite !zlen_app. unfold zlen. rewrite !length_fmap.
  assert (length (mjoin (replicate n (encode_rune rune_error))) = 3 * n)%nat as ->; [|lia].
  induction n as [|n IH]; [done|]. cbn [replicate]. rewrite mjoin_cons, length_app, IH.
  change (length (encode_rune rune_error)) with 3%nat. lia.
Qed.

Lemma lower_ascii_runes `{Unicode} a : is_ascii a = true ->
  mjoin ((fun rb : Z * list byte => let '(r, _) := rb in
            if r <? 0x80 then lower_byte <$> [byte_of r] else encode_rune (unicode_lower r)) <$> ((fun b => (u8 b, [b])) <$> a))
  = lower_byte <$> a.
Proof.
  induction a as [|b a IH]; [done|]. cbn [is_ascii forallb]. intros [Hb Ha]%andb_true_iff.
  rewrite !fmap_cons, mjoin_cons. cbv beta iota. rewrite Hb, byte_of_u8, IH by done. done.
Qed.

Lemma to_lower_invalid `{UnicodeOk} pre n mid : is_ascii (pre ++ mid) = true ->
  to_lower (pre ++ replicate n xff ++ mid) = lowered pre n mid.
Proof.
  rewrite is_ascii_app. intros [Hp Hm]%andb_true_iff. unfold to_lower, lowered. rewrite !is_ascii_app, Hp, Hm.
  destruct n as [|n]; [cbn; by rewrite fmap_app|]. cbn [is_ascii forallb replicate andb].
  change (u8 xff <? 128) with false. cbn [andb]. change (xff :: replicate n xff) with (replicate (S n) xff).
  rewrite runes_ascii_app, runes_invalid, (runes_ascii mid), !fmap_app, !join_app, !lower_ascii_runes by done.
  f_equal. f_equal. rewrite fmap_replicate. change (rune_error <? 128) with false. cbv iota. by rewrite lower_rune_error.
Qed.

(** *** A header block

    ASCII lines, [n] bytes that are not UTF-8 somewhere before the first
    Content-Length line (none in a good block), and the digits [ds] there. *)
Record header_block := {
  hb_pre : list byte;
  hb_invalid : nat;
  hb_mid : list byte;
  hb_digits : list Z;
  hb_post : list byte;
}.
Definition hb_before (h : header_block) : list byte := hb_pre h ++ replicate (hb_invalid h) xff ++ hb_mid h.
Definition hb_bytes (h : header_block) : list byte :=
  hb_before h ++ gobytes "Content-Length: " ++ digits (hb_digits h) ++ hb_post h.
Record header_block_ok `{Unicode} (h : header_block) : Prop := {
  hb_ascii : is_ascii (hb_pre h ++ hb_mid h ++ hb_post h) = true;
  hb_first : index (to_lower (hb_before h) ++ content_length_key) content_length_key = zlen (to_lower (hb_before h));
  hb_decimal : Forall (fun d => 0 <= d <= 9) (hb_digits h);
  hb_ends : hb_post h = [] \/ exists rest, hb_post h = byte_of 13 :: rest;
  hb_blank : index (hb_bytes h ++ crlf2) crlf2 = zlen (hb_bytes h);
}.

(** The offset found in the lower-cased copy is two too far for every invalid
    byte: one skips the space and the other digits of the value. *)
Definition hb_value (h : header_block) : Z := decimal (drop (2 * hb_invalid h - 1) (hb_digits h)).

Lemma trim_space_value k ds : Forall (fun d => 0 <= d <= 9) ds ->
  trim_space (drop k (byte_of 0x20 :: digits ds)) = digits (drop (k - 1) ds).
Proof.
  intros Hds. destruct k as [|k]; cbn [drop].
  - rewrite drop_0. destruct (decide (ds = [])) as [->|Hne]; [by vm_compute|by apply trim_space_digits].
  - replace (S k - 1)%nat with k by lia. unfold digits. rewrite <-fmap_drop. apply (Forall_drop _ k) in Hds.
    set (l := drop k ds) in *. destruct (decide (l = [])) as [->|Hne]; [done|].
    rewrite <-(trim_space_digits l) at 2 by done. unfold trim_space.
    rewrite !runes_ascii by (cbn; by apply digits_ascii). by rewrite fmap_cons.
Qed.

Lemma value_end k ds post : Forall (fun d => 0 <= d <= 9) ds -> post = [] \/ (exists rest, post = byte_of 13 :: rest) ->
  (k <= S (length ds))%nat -> let v := drop k (byte_of 0x20 :: digits ds) in let rest := v ++ post in
  let e := index_byte rest (byte_of 13) in
  let e := if e =? -1 then index_byte rest (byte_of 10) else e in
  slice_to rest (if e =? -1 then zlen rest else e) = Ok v.
Proof.
  intros Hds Hpost Hk. cbv zeta. set (v := drop k _).
  assert (forall b, 10 <= b <= 13 -> byte_of b ∉ v) as Hv.
  { intros b Hb Hin. subst v. apply (elem_of_submseteq _ (byte_of 32 :: digits ds)) in Hin; [|apply sublist_submseteq, sublist_drop].
    apply elem_of_cons in Hin as [E|(d & E & Hd)%list_elem_of_fmap]; apply (f_equal u8) in E.
    - rewrite !u8_byte_of in E; lia.
    - pose proof (proj1 (Forall_forall _ _) Hds d Hd) as Hd'. cbn beta in Hd'. rewrite !u8_byte_of in E; lia. }
  destruct Hpost as [->|[rest ->]].
  - rewrite app_nil_r. assert (forall b, 10 <= b <= 13 -> index_byte v (byte_of b) = -1) as Hi.
    { intros b Hb. unfold index_byte, index. by rewrite index_nat_fresh by auto. }
    rewrite !Hi by lia. cbv iota. do 2 (change (-1 =? -1) with true; cbv iota).
    pose proof (zlen_nonneg v). rewrite slice_to_Ok by lia. unfold zlen. by rewrite Nat2Z.id, firstn_all.
  - rewrite index_byte_skip by (apply Hv; lia). pose proof (zlen_nonneg v). rewrite !(proj2 (Z.eqb_neq (zlen v) (-1))) by lia.
    rewrite slice_to_Ok by (rewrite zlen_app; pose proof (zlen_nonneg (byte_of 13 :: rest)); lia).
    unfold zlen. by rewrite Nat2Z.id, take_app_all.
Qed.

(** What the framers read in a header block: the value of the digits left,
    in an [int], or a slice out of range when nothing is left to slice. *)
Lemma header_value `{UnicodeOk} h : header_block_ok h ->
  ((2 * hb_invalid h <= S (length (hb_digits h)))%nat -> extractContentLength (hb_bytes h) = Ok (i64 (hb_value h))) /\
  ((2 * hb_invalid h > 1 + length (hb_digits h) + length (hb_post h))%nat -> extractContentLength (hb_bytes h) = Panic).
Proof.
  intros [Hasc Hi Hds Hpost _]. destruct h as [pre n mid ds post]. unfold hb_bytes, hb_before, hb_value in *.
  cbn [hb_pre hb_invalid hb_mid hb_digits hb_post] in *.
  rewrite !is_ascii_app in Hasc. apply andb_true_iff in Hasc as [Hp [Hm Hq]%andb_true_iff].
  rewrite to_lower_invalid in Hi by (by rewrite is_ascii_app, Hp, Hm).
  set (tail := byte_of 32 :: digits ds ++ post).
  assert ((pre ++ replicate n xff ++ mid) ++ gobytes "Content-Length: " ++ digits ds ++ post
    = pre ++ replicate n xff ++ (mid ++ gobytes "Content-Length:" ++ tail)) as -> by by rewrite <-!app_assoc.
  unfold extractContentLength. rewrite to_lower_invalid; cycle 1.
  { rewrite !is_ascii_app, Hp, Hm. cbn. by rewrite is_ascii_app, digits_ascii. }
  assert (lowered pre n (mid ++ gobytes "Content-Length:" ++ tail) = (lowered pre n mid ++ content_length_key) ++ (lower_byte <$> tail)) as ->.
  { unfold lowered. rewrite !fmap_app, <-!app_assoc. done. }
  rewrite (index_app _ _ _ _ Hi) by apply zlen_nonneg. pose proof (zlen_nonneg (lowered pre n mid)).
  rewrite (proj2 (Z.eqb_neq _ (-1))) by lia. rewrite zlen_lowered. change (zlen content_length_key) with 15.
  set (s := pre ++ _). assert (zlen s = zlen pre + Z.of_nat n + zlen mid + 16 + zlen ds + zlen post) as Hs.
  { unfold s, tail. rewrite !zlen_app, zlen_cons, zlen_app. change (zlen (gobytes "Content-Length:")) with 15.
    unfold zlen, digits. rewrite length_replicate, length_fmap. lia. }
  pose proof (zlen_nonneg pre). pose proof (zlen_nonneg mid). split; intros Hn.
  - rewrite slice_from_Ok by (unfold zlen in *; lia). cbn [mbind res_bind].
    assert (drop (Z.to_nat (zlen pre + 3 * Z.of_nat n + zlen mid + 15)) s = drop (2 * n) (byte_of 32 :: digits ds) ++ post) as ->.
    { set (P := pre ++ replicate n xff ++ mid ++ gobytes "Content-Length:").
      assert (s = P ++ tail) as -> by (unfold s, P; by rewrite <-!app_assoc).
      assert (Z.to_nat (zlen pre + 3 * Z.of_nat n + zlen mid + 15) = (length P + 2 * n)%nat) as ->.
      { unfold P. rewrite !length_app, length_replicate. change (length (gobytes "Content-Length:")) with 15%nat. unfold zlen. lia. }
      rewrite drop_app_add. unfold tail. rewrite app_comm_cons, drop_app_le; [done|].
      cbn [length]. unfold digits. rewrite length_fmap. lia. }
    pose proof (value_end (2 * n) ds post Hds Hpost ltac:(lia)) as Hv. cbv zeta in Hv. cbv zeta. rewrite Hv. cbn [mbind res_bind].
    rewrite trim_space_value by done. pose proof (Forall_drop _ (2 * n - 1) _ Hds) as Hds'.
    rewrite runes_ascii by by apply digits_ascii. rewrite <-list_fmap_compose, (list_fmap_ext _ u8) by done.
    f_equal. exact (parse_digits_spec _ 0 Hds').
  - unfold slice_from, slice. rewrite (proj2 (Z.leb_gt _ (zlen s))) by (unfold zlen in *; lia). by rewrite andb_false_r.
Qed.

Definition text_framer (f : MessageFramer) : bool :=
  match f with SIPFramer _ | HTTPFramer _ => true | _ => false end.

(** The length of the message, as the [int] the framers compute. *)
Definition hb_total (h : header_block) : Z := i64 (zlen (hb_bytes h) + 4 + hb_value h).

Lemma text_next_header `{Unicode} h body v :
  index (hb_bytes h ++ crlf2) crlf2 = zlen (hb_bytes h) -> extractContentLength (hb_bytes h) = v ->
  text_next (hb_bytes h ++ crlf2 ++ body) =
    (bodyLen ← v;
     let totalLen := i64 (zlen (hb_bytes h) + 4 + bodyLen) in
     if zlen (hb_bytes h ++ crlf2 ++ body) <? totalLen then Ok FWait else Ok (FEmit totalLen)).
Proof.
  intros Hi Hv. set (hdr := hb_bytes h) in *. pose proof (zlen_nonneg hdr). pose proof (zlen_nonneg body). unfold text_next.
  rewrite app_assoc, (index_app _ _ _ _ Hi) by done. rewrite (proj2 (Z.eqb_neq (zlen hdr) (-1))) by lia.
  rewrite <-app_assoc, slice_to_Ok by (rewrite !zlen_app; change (zlen crlf2) with 4; lia).
  assert (take (Z.to_nat (zlen hdr)) (hdr ++ crlf2 ++ body) = hdr) as -> by (unfold zlen; by rewrite Nat2Z.id, take_app_all).
  cbn [mbind res_bind]. by rewrite Hv.
Qed.

(** A turn of the loop that emits nothing and consumes nothing comes back. *)
Lemma feed_loop_stuck next buf fuel : next buf = Ok (FEmit 0) -> feed_loop next fuel buf = OutOfFuel.
Proof.
  intros E. unfold feed_loop. generalize (@nil (list byte)). induction fuel as [|fuel IH]; intros acc; [done|].
  cbn [loop feed_body]. rewrite E. cbn [mbind res_bind]. rewrite slice_to_Ok, slice_from_Ok by (pose proof (zlen_nonneg buf); lia).
  apply IH.
Qed.

Lemma feed_emit next buf n ms r : next buf = Ok (FEmit n) -> 0 < n <= zlen buf ->
  carves next buf ms r <-> exists ms', ms = take (Z.to_nat n) buf :: ms' /\ carves next (drop (Z.to_nat n) buf) ms' r.
Proof.
  intros E Hn. split.
  - inversion 1 as [b Hb|c b ms' r' Hs _|m b ms' r' Hs Hc]; subst; [congruence..|].
    assert (n = zlen m) as -> by congruence. exists ms'. unfold zlen. by rewrite Nat2Z.id, take_app_all, drop_app_all.
  - intros (ms' & -> & Hc). rewrite <-(take_drop (Z.to_nat n) buf) at 1. constructor; [|done].
    rewrite take_drop, E. do 2 f_equal. unfold zlen in *. rewrite length_take. lia.
Qed.


(** One stream, one buffer: the direction of a segment decides the
    addresses of its messages and nothing else, so the bytes of the two
    directions of a connection are framed as a single byte stream. *)
Theorem stream_directions_share_buffer `{Unicode} s d1 d2 a b ts1 ts2 o1 s1 o2 s2 :
  waiting (st_framer s) -> st_onMessage s = true -> a <> [] -> b <> [] ->
  ReassembledSG s {| sg_length := zlen a; sg_data := a; sg_dir := d1; sg_skip := 0 |} ts1
    = Ok (o1, s1) ->
  ReassembledSG s1 {| sg_length := zlen b; sg_data := b; sg_dir := d2; sg_skip := 0 |} ts2
    = Ok (o2, s2) ->
  Feed (st_framer s) (a ++ b) = Ok (m_payload <$> (o1 ++ o2), st_framer s2).
Proof.
  intros Hw Hcb Ha Hb H1 H2.
  assert (forall s d l ts o s', st_onMessage s = true -> l <> [] ->
    ReassembledSG s {| sg_length := zlen l; sg_data := l; sg_dir := d; sg_skip := 0 |} ts
      = Ok (o, s') ->
    Feed (st_framer s) l = Ok (m_payload <$> o, st_framer s') /\ st_onMessage s' = true) as Hone.
  { clear. intros s d l ts o s' Hcb Hl. unfold ReassembledSG. cbn [sg_length sg_dir sg_skip sg_data].
    replace (zlen l =? 0) with false by (destruct l; [done|]; rewrite zlen_cons; pose proof (zlen_nonneg l); lia).
    change (0 <? 0) with false. rewrite Hcb.
    destruct d; cbv iota; intros ([msgs f] & HF & [= <- <-])%bind_Ok; cbn [st_framer set_framer];
      by rewrite HF, <-list_fmap_compose, list_fmap_id. }
  apply Hone in H1 as [F1 Hcb1]; [|done..]. apply Hone in H2 as [F2 _]; [|done..].
  replace (a ++ b) with (mjoin [a; b]) by (cbn; by rewrite app_nil_r).
  apply Feeds_Feed; [done|]. cbn [Feeds]. rewrite F1. cbn [mbind res_bind].
  rewrite F2. cbn [mbind res_bind]. by rewrite app_nil_r, fmap_app.
Qed.

(** ** Witnesses *)

Definition tls_hello : list byte := octets [22; 3; 1; 0; 2; 0xAA; 0xBB].
Definition sip_bye : list byte :=
  gobytes "BYE sip:a SIP/2.0" ++ octets [13; 10] ++ gobytes "Content-Length: 2" ++ crlf2
  ++ gobytes "ok".

Lemma framer_chunking_witness :
  @waiting ascii_only (SIPFramer []) /\
  @Feed ascii_only (SIPFramer []) (mjoin [take 20 sip_bye; drop 20 sip_bye])
    = Ok ([sip_bye], SIPFramer []).
Proof.
  split; [by vm_compute|].
  apply (@framer_chunking ascii_only (SIPFramer []) [take 20 sip_bye; drop 20 sip_bye]).
  - by vm_compute.
  - by vm_compute.
Defined.

Lemma framer_roundtrip_witness :
  @Feeds ascii_only (TLSFramer [])
    [take 3 tls_hello; drop 3 tls_hello ++ take 6 tls_hello; drop 6 tls_hello]
  = Ok ([tls_hello; tls_hello], TLSFramer []).
Proof.
  apply (@framer_roundtrip ascii_only).
  - reflexivity.
  - assert (@well_framed ascii_only (TLSFramer []) tls_hello) as Hw.
    { exists (byte_of 22), (octets [3; 1]), (octets [0xAA; 0xBB]).
      split_and!; [by vm_compute|by vm_compute|reflexivity|reflexivity|reflexivity]. }
    repeat constructor; exact Hw.
  - reflexivity.
Defined.

Lemma framer_binary_total_witness :
  exists ms f', @Feed ascii_only (DiameterFramer (octets [7])) (octets [1; 0; 0; 3; 9]) = Ok (ms, f').
Proof. apply (@framer_binary_total ascii_only). reflexivity. Defined.

Lemma framer_conserves_witness :
  @waiting ascii_only (TLSFramer (octets [22])) /\
  sublist (mjoin [tls_hello] ++ octets [22]) (octets [0; 1] ++ tls_hello ++ octets [22]).
Proof.
  assert (@Feed ascii_only (TLSFramer (octets [0; 1])) (tls_hello ++ octets [22])
    = Ok ([tls_hello], TLSFramer (octets [22]))) as E by (vm_compute; reflexivity).
  split.
  - exact (proj1 (proj2 (@framer_conserves ascii_only _ _ _ _ E))).
  - exact (proj1 (@framer_conserves ascii_only _ _ _ _ E)).
Defined.

(** Three header blocks: a total of 2^64, a total of 2^63 + 38, and four
    invalid bytes before the number 123456789, of which 89 is read. *)
Definition clean_block (ds : list Z) : header_block :=
  {| hb_pre := []; hb_invalid := 0; hb_mid := []; hb_digits := ds; hb_post := [] |}.
Definition latin1_block : header_block :=
  {| hb_pre := gobytes "From: "; hb_invalid := 4; hb_mid := octets [13; 10]; hb_digits := [1; 2; 3; 4; 5; 6; 7; 8; 9]; hb_post := [] |}.


Definition sip_stream : tcpStream :=
  {| st_srcIP := "10.0.0.1"; st_dstIP := "10.0.0.2"; st_srcPort := 5060; st_dstPort := 5060;
     st_framer := SIPFramer []; st_onMessage := true |}.
Definition segment (d : TCPFlowDirection) (l : list byte) : ScatterGather :=
  {| sg_length := zlen l; sg_data := l; sg_dir := d; sg_skip := 0 |}.

(** The first half of a request from the client and a whole response from the
    server come out as one message that starts with the one and ends with the
    other. *)
Lemma stream_directions_share_buffer_witness :
  let half := gobytes "INVITE sip:b SIP/2.0" ++ octets [13; 10] in
  let resp := gobytes "SIP/2.0 200 OK" ++ crlf2 in
  exists o1 s1 o2 s2,
    @ReassembledSG ascii_only sip_stream (segment TCPDirClientToServer half) 1 = Ok (o1, s1) /\
    @ReassembledSG ascii_only s1 (segment TCPDirServerToClient resp) 2 = Ok (o2, s2) /\
    m_payload <$> (o1 ++ o2) = [half ++ resp] /\
    @Feed ascii_only (SIPFramer []) (half ++ resp)
      = Ok (m_payload <$> (o1 ++ o2), st_framer s2).
Proof.
  intros half resp.
  eexists _, _, _, _. split; [vm_compute; reflexivity|].
  split; [vm_compute; reflexivity|]. split; [vm_compute; reflexivity|].
  apply (@stream_directions_share_buffer ascii_only sip_stream
    TCPDirClientToServer TCPDirServerToClient half resp 1 2 _
    (set_framer sip_stream (SIPFramer half))).
  - vm_compute. reflexivity.
  - reflexivity.
  - discriminate.
  - discriminate.
  - vm_compute. reflexivity.
  - vm_compute. reflexivity.
Defined.
