(* ===== verification/Websocket.v ===== *)
(** * internal/protocols/websocket: the WebSocket decoder

    decoder.go: the upgrade handshake, the frames (RFC 6455) and the
    connections they belong to. *)
From S2P Require Export Framer.

(** The key of a connection in one direction, [%s:%d-%s:%d]. *)
Definition connKey (srcIP dstIP : string) (srcPort dstPort : Z) : string :=
  cat [srcIP; ":"; fmt_d srcPort; "-"; dstIP; ":"; fmt_d dstPort].

Definition OpContinuation : Z := 0.
Definition OpText : Z := 1.
Definition OpBinary : Z := 2.
Definition OpClose : Z := 8.
Definition OpPing : Z := 9.
Definition OpPong : Z := 10.

Definition opcodeNames : gmap Z string := list_to_map
  [(OpContinuation, "continuation"); (OpText, "text"); (OpBinary, "binary"); (OpClose, "close");
   (OpPing, "ping"); (OpPong, "pong")]%string.

Record wsConnection := {
  ws_ID : string;
  ws_SrcIP : string;
  ws_DstIP : string;
  ws_SrcPort : Z;
  ws_DstPort : Z;
  Upgraded : bool;
  Frames : Z;
  TextBytes : Z;
  BinBytes : Z;
  ws_StartTime : option time;
  ws_EndTime : option time;
}.

(** The connections, by the key of the direction of their first packet. *)
Record Decoder := { connections : gmap string wsConnection }.
Definition NewDecoder : Decoder := {| connections := ∅ |}.

Record wsFrame := {
  FIN : bool;
  Opcode : Z;
  Masked : bool;
  PayloadLen : Z;
  HeaderLen : Z;
  PayloadPreview : string;
}.

(** *** Frames *)

(** [unmasked[i] = data[payloadStart+i] ^ maskKey[i%4]] *)
Definition unmask (key body : list byte) : list byte :=
  imap (fun i b => byte_of (Z.lxor (u8 b) (u8 (default x00 (key !! Nat.modulo i 4))))) body.

Definition min (a b : Z) : Z := if a <? b then a else b.

(** The preview of a text frame. *)
Definition frame_preview (data : list byte) (masked : bool) (payloadLen headerLen : Z) : res string :=
  let payloadStart := headerLen in
  let end_ := i64 (payloadStart + payloadLen) in
  let end_ := if zlen data <? end_ then zlen data else end_ in
  if masked && (payloadStart <? end_) && (4 <=? headerLen) then
    maskKey ← slice data (headerLen - 4) headerLen;
    let maxPreview := 120 in
    let maxPreview := if payloadLen <? maxPreview then payloadLen else maxPreview in
    let maxPreview := if end_ - payloadStart <? maxPreview then end_ - payloadStart else maxPreview in
    body ← slice data payloadStart (payloadStart + maxPreview);
    Ok (gostr (unmask maskKey body))
  else if payloadStart <? end_ then
    let maxPreview := 120 in
    let maxPreview := if end_ - payloadStart <? maxPreview then end_ - payloadStart else maxPreview in
    body ← slice data payloadStart (payloadStart + maxPreview);
    Ok (gostr body)
  else Ok "".

(** The length of the payload and of the header without the masking key: [None]
    where parseFrame returns nil. *)
Definition frame_length (data : list byte) : res (option (Z * Z)) :=
  b1 ← idx data 1;
  let payloadLen := Z.land (u8 b1) 0x7F in
  if payloadLen =? 126 then
    if zlen data <? 4 then Ok None
    else n ← rd_be 2 data 2; Ok (Some (n, 4))
  else if payloadLen =? 127 then
    if zlen data <? 10 then Ok None
    else n ← rd_be 8 data 2; Ok (Some (i64 n, 10))
  else Ok (Some (payloadLen, 2)).

Definition parseFrame (data : list byte) : res (option wsFrame) :=
  if zlen data <? 2 then Ok None
  else
    b0 ← idx data 0;
    let fin := negb (Z.land (u8 b0) 0x80 =? 0) in
    let opcode := Z.land (u8 b0) 0x0F in
    if (10 <? opcode) || ((3 <=? opcode) && (opcode <=? 7)) then Ok None
    else
      b1 ← idx data 1;
      let masked := negb (Z.land (u8 b1) 0x80 =? 0) in
      o ← frame_length data;
      match o with
      | None => Ok None
      | Some (payloadLen, headerLen) =>
        let headerLen := if masked then headerLen + 4 else headerLen in
        if zlen data <? headerLen then Ok None
        else
          preview ← (if (opcode =? OpText) && (0 <? payloadLen) then frame_preview data masked payloadLen headerLen
                     else Ok ""%string);
          Ok (Some {| FIN := fin; Opcode := opcode; Masked := masked; PayloadLen := payloadLen;
                      HeaderLen := headerLen; PayloadPreview := preview |})
      end.

(** *** Packets *)

Section decoder.
Context `{Unicode}.

Definition names_upgrade (first : string) (payload : list byte) : bool :=
  if zlen payload <? 20 then false
  else
    let s := take (Z.to_nat (min (zlen payload) 512)) payload in
    is_prefix (gobytes first) s && contains (to_lower s) (gobytes "upgrade: websocket").

Definition isWebSocketUpgrade : list byte -> bool := names_upgrade "GET ".
Definition isWebSocketUpgradeResponse : list byte -> bool := names_upgrade "HTTP/1.1 101".

Definition http_port (p : Z) : bool :=
  (p =? 80) || (p =? 8080) || (p =? 8000) || (p =? 8888) || (p =? 3000).
Definition isHTTPPort (src dst : Z) : bool := http_port src || http_port dst.

Definition new_conn (key : string) (pkt : Packet) : wsConnection :=
  {| ws_ID := cat ["ws-"; key; "-"; fmt_d (FrameNumber pkt)]; ws_SrcIP := SrcIP pkt; ws_DstIP := DstIP pkt;
     ws_SrcPort := SrcPort pkt; ws_DstPort := DstPort pkt; Upgraded := false; Frames := 0; TextBytes := 0;
     BinBytes := 0; ws_StartTime := Some (Timestamp pkt); ws_EndTime := None |}.

Definition getOrCreateConn (key : string) (pkt : Packet) (m : gmap string wsConnection) : wsConnection :=
  default (new_conn key pkt) (m !! key).

(** [conn.Upgraded = true] *)
Definition set_upgraded (c : wsConnection) : wsConnection :=
  {| ws_ID := ws_ID c; ws_SrcIP := ws_SrcIP c; ws_DstIP := ws_DstIP c; ws_SrcPort := ws_SrcPort c;
     ws_DstPort := ws_DstPort c; Upgraded := true; Frames := Frames c; TextBytes := TextBytes c;
     BinBytes := BinBytes c; ws_StartTime := ws_StartTime c; ws_EndTime := ws_EndTime c |}.

(** [conn.Frames++], the end time and the bytes of text and binary frames. *)
Definition add_frame (ts : time) (f : wsFrame) (c : wsConnection) : wsConnection :=
  {| ws_ID := ws_ID c; ws_SrcIP := ws_SrcIP c; ws_DstIP := ws_DstIP c; ws_SrcPort := ws_SrcPort c;
     ws_DstPort := ws_DstPort c; Upgraded := Upgraded c; Frames := i64 (Frames c + 1);
     TextBytes := if Opcode f =? OpText then i64 (TextBytes c + PayloadLen f) else TextBytes c;
     BinBytes := if Opcode f =? OpBinary then i64 (BinBytes c + PayloadLen f) else BinBytes c;
     ws_StartTime := ws_StartTime c; ws_EndTime := Some ts |}.

Definition key_of (pkt : Packet) : string := connKey (SrcIP pkt) (DstIP pkt) (SrcPort pkt) (DstPort pkt).
Definition rkey_of (pkt : Packet) : string := connKey (DstIP pkt) (SrcIP pkt) (DstPort pkt) (SrcPort pkt).

(** The connection a frame belongs to, by its key in the map; [None]: the packet
    is left alone. *)
Definition frame_conn (m : gmap string wsConnection) (pkt : Packet) : option (string * wsConnection) :=
  match m !! key_of pkt with
  | Some c => Some (key_of pkt, c)
  | None =>
    match m !! rkey_of pkt with
    | Some c => Some (rkey_of pkt, c)
    | None =>
      if isHTTPPort (SrcPort pkt) (DstPort pkt) then Some (key_of pkt, getOrCreateConn (key_of pkt) pkt m)
      else None
    end
  end.

Definition frame_summary (payload : list byte) (f : wsFrame) : res string :=
  let opName := map_str opcodeNames (Opcode f) in
  let opName := if String.eqb opName "" then "opcode_" +:+ fmt_d (Opcode f) else opName in
  let summary := cat ["["; opName; "] len="; fmt_d (PayloadLen f); if FIN f then " FIN" else ""] in
  let preview := PayloadPreview f in
  let preview := if 80 <? slen preview then str_take 80 preview +:+ "..." else preview in
  let summary := if (Opcode f =? OpText) && (0 <? PayloadLen f) && (PayloadLen f <=? 120)
                 then cat [summary; " "; preview] else summary in
  if (Opcode f =? OpClose) && (2 <=? PayloadLen f) then
    closeCode ← rd_be 2 payload (HeaderLen f);
    Ok ("[close] code=" +:+ fmt_d closeCode)
  else Ok summary.

(** The part of HandlePacket after the two tests for an upgrade. The counters
    are set before the summary is built: where it panics, they are lost with the
    process. *)
Definition handle_frame (d : Decoder) (pkt : Packet) : res (Decoder * Packet) :=
  o ← parseFrame (Payload pkt);
  match o with
  | None => Ok (d, pkt)
  | Some f =>
    match frame_conn (connections d) pkt with
    | None => Ok (d, pkt)
    | Some (k, c) =>
      summary ← frame_summary (Payload pkt) f;
      Ok ({| connections := <[k := add_frame (Timestamp pkt) f c]> (connections d) |},
          set_app "WebSocket" summary pkt)
    end
  end.

Definition upgrade (key : string) (d : Decoder) (pkt : Packet) : Decoder :=
  {| connections := <[key := set_upgraded (getOrCreateConn key pkt (connections d))]> (connections d) |}.

Definition HandlePacket (d : Decoder) (pkt : Packet) : res (Decoder * Packet) :=
  if negb (String.eqb (Protocol pkt) "TCP") then Ok (d, pkt)
  else if zlen (Payload pkt) <? 2 then Ok (d, pkt)
  else if isWebSocketUpgrade (Payload pkt) then
    Ok (upgrade (key_of pkt) d pkt, set_app "WebSocket" "WebSocket Upgrade" pkt)
  else if isWebSocketUpgradeResponse (Payload pkt) then
    Ok (upgrade (rkey_of pkt) d pkt, set_app "WebSocket" "101 Switching Protocols" pkt)
  else handle_frame d pkt.

Definition HandlePacketLive (d : Decoder) (pkt : Packet) : res (Decoder * Packet * option DecodedPacket) :=
  let oldProto := AppProtocol pkt in
  let oldSummary := Summary pkt in
  '(d, pkt) ← HandlePacket d pkt;
  if String.eqb (AppProtocol pkt) "WebSocket" && negb (String.eqb (AppProtocol pkt) oldProto) then
    Ok (d, pkt, Some {| D_Packet := pkt; D_Protocol := "WebSocket"; D_Summary := Summary pkt;
                        D_Metadata := Metadata pkt; D_Errors := Errors pkt |})
  else Ok (d, set_app oldProto oldSummary pkt, None).

(** The flow of a connection has no times: they are not set. *)
Definition conn_flow (c : wsConnection) : Flow :=
  {| FlowID := ws_ID c; Type_ := FlowWebSocket; F_SrcIP := ws_SrcIP c; F_DstIP := ws_DstIP c;
     F_SrcPort := ws_SrcPort c; F_DstPort := ws_DstPort c; StartTime := 0; EndTime := 0;
     Metrics := list_to_map [("frames", AInt TInt (Frames c)); ("text_bytes", AInt TInt (TextBytes c));
       ("bin_bytes", AInt TInt (BinBytes c)); ("upgraded", ABool (Upgraded c))]%string |}.

Definition Flush (order : list (string * wsConnection)) : list Flow := conn_flow ∘ snd <$> order.

End decoder.

(** ** Single frames come back *)

Lemma length_unmask key body : length (unmask key body) = length body.
Proof. apply length_imap. Qed.

Lemma unmask_unmask key body : unmask key (unmask key body) = body.
Proof.
  apply list_eq. intros i. unfold unmask. rewrite !list_lookup_imap. destruct (body !! i) as [b|]; [|done]. cbn.
  rewrite u8_byte_of.
  - rewrite Z.lxor_assoc, Z.lxor_nilpotent, Z.lxor_0_r. by rewrite byte_of_u8.
  - set (k := u8 (default _ _)). assert (0 <= k < 256) by apply u8_range. pose proof (u8_range b).
    split; [apply Z.lxor_nonneg; lia|].
    destruct (decide (Z.lxor (u8 b) k = 0)) as [->|]; [lia|].
    change 256 with (2 ^ 8). apply Z.log2_lt_pow2; [pose proof (proj2 (Z.lxor_nonneg (u8 b) k)); lia|].
    eapply Z.le_lt_trans; [apply Z.log2_lxor; lia|].
    apply Z.max_lub_lt; (destruct (decide (0 < u8 b)), (decide (0 < k)); try (apply Z.log2_lt_pow2; lia);
      rewrite Z.log2_nonpos by lia; lia).
Qed.

Lemma take_unmask n key body : take n (unmask key body) = unmask key (take n body).
Proof.
  apply list_eq. intros i. unfold unmask. rewrite list_lookup_imap, !lookup_take, list_lookup_imap.
  by case_decide.
Qed.

(** A frame of RFC 6455 that carries [app]. *)
Definition encode_frame (fin : bool) (opcode : Z) (key : option (list byte)) (app : list byte) : list byte :=
  byte_of ((if fin then 0x80 else 0) + opcode) :: ws_len_field (if key then true else false) (zlen app)
  ++ match key with Some k => k ++ unmask k app | None => app end.

Definition frame_of (fin : bool) (opcode : Z) (key : option (list byte)) (app : list byte) : wsFrame :=
  {| FIN := fin; Opcode := opcode; Masked := if key then true else false; PayloadLen := zlen app;
     HeaderLen := 1 + zlen (ws_len_field (if key then true else false) (zlen app)) + (if key then 4 else 0);
     PayloadPreview := if opcode =? OpText then gostr (take 120 app) else "" |}.

(** What the length field says is read back. *)
Lemma frame_length_wire b0 masked n rest : 0 <= n < 2 ^ 62 ->
  let data := b0 :: ws_len_field masked n ++ rest in
  (exists b1, idx data 1 = Ok b1 /\ negb (Z.land (u8 b1) 0x80 =? 0) = masked) /\
  frame_length data = Ok (Some (n, 1 + zlen (ws_len_field masked n))).
Proof.
  intros Hn. cbv zeta. pose proof (zlen_nonneg rest).
  unfold ws_len_field, frame_length. destruct (Z.ltb_spec n 126); [|destruct (Z.ltb_spec n 65536)].
  - cbn [app]. set (data := b0 :: _).
    assert (idx data 1 = Ok (byte_of ((if masked then 128 else 0) + n))) as -> by apply idx_second.
    cbn [mbind res_bind].
    destruct (ws_len_byte masked n) as [Hm Hl]; [lia|]. split; [eauto|]. cbv zeta. rewrite Hl.
    replace (n =? 126) with false by lia. by replace (n =? 127) with false by lia.
  - pose proof (rd_be_app_mid 2 [b0; byte_of ((if masked then 128 else 0) + 126)] (be_put 2 n) rest
      (length_be_put 2 n)) as E. rewrite be_be_put in E by (cbn; lia). change (zlen [_; _]) with 2 in E.
    cbn [app] in *. set (data := b0 :: _) in *.
    assert (zlen data = 4 + zlen rest) as Hz by (unfold data; rewrite !zlen_cons, zlen_app, zlen_be_put; lia).
    assert (idx data 1 = Ok (byte_of ((if masked then 128 else 0) + 126))) as -> by apply idx_second.
    cbn [mbind res_bind].
    destruct (ws_len_byte masked 126) as [Hm Hl]; [lia|]. split; [eauto|]. cbv zeta. rewrite Hl.
    rewrite zlen_cons, zlen_be_put. replace (zlen data <? 4) with false by lia. by rewrite E.
  - pose proof (rd_be_app_mid 8 [b0; byte_of ((if masked then 128 else 0) + 127)] (be_put 8 n) rest
      (length_be_put 8 n)) as E. rewrite be_be_put in E by (cbn; lia). change (zlen [_; _]) with 2 in E.
    cbn [app] in *. set (data := b0 :: _) in *.
    assert (zlen data = 10 + zlen rest) as Hz by (unfold data; rewrite !zlen_cons, zlen_app, zlen_be_put; lia).
    assert (idx data 1 = Ok (byte_of ((if masked then 128 else 0) + 127))) as -> by apply idx_second.
    cbn [mbind res_bind].
    destruct (ws_len_byte masked 127) as [Hm Hl]; [lia|]. split; [eauto|]. cbv zeta. rewrite Hl.
    rewrite zlen_cons, zlen_be_put. replace (zlen data <? 10) with false by lia. rewrite E.
    cbn [mbind res_bind Z.eqb Pos.eqb]. unfold i64. by rewrite swrap_small by lia.
Qed.

Lemma frame_preview_wire data (masked : bool) headerLen (key app rest : list byte) :
  holds_at data (headerLen - zlen key) (key ++ (if masked then unmask key app else app) ++ rest) ->
  headerLen + zlen app + zlen rest = zlen data -> zlen data < 2 ^ 63 ->
  zlen key = (if masked then 4 else 0) -> 4 <= headerLen \/ masked = false -> 0 < zlen app ->
  frame_preview data masked (zlen app) headerLen = Ok (gostr (take 120 app)).
Proof.
  intros Hat Hz Hmax Hk Hh Ha. pose proof (zlen_nonneg rest).
  assert (zlen (if masked then unmask key app else app) = zlen app) as Hbody.
  { destruct masked; [|done]. unfold zlen. by rewrite length_unmask. }
  apply holds_at_app in Hat as [Hkey Hat]. pose proof (holds_at_bound _ _ _ Hkey) as [? _].
  apply holds_at_app in Hat as [Happ _]. replace (headerLen - zlen key + zlen key) with headerLen in Happ by lia.
  assert (forall n, 0 <= n <= zlen app -> slice data headerLen (headerLen + n) =
    Ok (take (Z.to_nat n) (if masked then unmask key app else app))) as Hslice.
  { intros n Hn. rewrite <-(take_drop (Z.to_nat n) (if masked then unmask key app else app)) in Happ.
    apply holds_at_app in Happ as [Hn' _]. apply holds_at_slice in Hn'.
    assert (zlen (take (Z.to_nat n) (if masked then unmask key app else app)) = n) as E.
    { unfold zlen in *. rewrite length_take. lia. }
    by rewrite E in Hn'. }
  assert (forall n, Z.min (zlen app) 120 = n -> take (Z.to_nat n) app = take 120 app) as Htake.
  { intros n <-. destruct (Z.min_spec (zlen app) 120) as [[? ->]|[? ->]]; [|done].
    rewrite !take_ge; [done|unfold zlen in *; lia..]. }
  unfold frame_preview. unfold i64. rewrite (swrap_small 64) by (cbn; pose proof (zlen_nonneg key); lia). cbv zeta.
  replace (zlen data <? headerLen + zlen app) with false by lia.
  replace (headerLen <? headerLen + zlen app) with true by lia.
  replace (headerLen + zlen app - headerLen) with (zlen app) by lia.
  destruct masked; cbn [andb].
  - replace (4 <=? headerLen) with true by lia. apply holds_at_slice in Hkey.
    replace (headerLen - zlen key + zlen key) with headerLen in Hkey by lia. rewrite Hk in Hkey. rewrite Hkey.
    cbn [mbind res_bind]. set (n := if zlen app <? (if _ : bool then _ else _) then _ else _).
    assert (Z.min (zlen app) 120 = n) as Hn by (unfold n; repeat case_match; lia).
    rewrite Hslice by lia. cbn [mbind res_bind]. rewrite take_unmask, unmask_unmask. by rewrite Htake.
  - set (n := if zlen app <? 120 then _ else _).
    assert (Z.min (zlen app) 120 = n) as Hn by (unfold n; repeat case_match; lia).
    rewrite Hslice by lia. cbn [mbind res_bind]. by rewrite Htake.
Qed.

Lemma opcode_byte (fin : bool) opcode : opcode ∈ [0; 1; 2; 8; 9; 10] ->
  let b := u8 (byte_of ((if fin then 0x80 else 0) + opcode)) in
  negb (Z.land b 0x80 =? 0) = fin /\ Z.land b 0x0F = opcode /\
  (10 <? opcode) || ((3 <=? opcode) && (opcode <=? 7)) = false.
Proof.
  intros Ho. repeat (apply elem_of_cons in Ho as [->|Ho]; [by destruct fin|]). by apply not_elem_of_nil in Ho.
Qed.

Lemma parseFrame_wire fin opcode key app rest :
  opcode ∈ [0; 1; 2; 8; 9; 10] -> (forall k, key = Some k -> length k = 4%nat) ->
  zlen (encode_frame fin opcode key app ++ rest) < 2 ^ 62 ->
  parseFrame (encode_frame fin opcode key app ++ rest) = Ok (Some (frame_of fin opcode key app)).
Proof.
  intros Ho Hk Hmax. set (data := _ ++ rest) in *. set (masked := if key then true else false).
  set (b0 := byte_of ((if fin then 0x80 else 0) + opcode)).
  set (body := match key with Some k => k ++ unmask k app | None => app end ++ rest).
  assert (data = b0 :: ws_len_field masked (zlen app) ++ body) as Hd.
  { unfold data, encode_frame, body, b0, masked. cbn [List.app]. by rewrite <-app_assoc. }
  pose proof (zlen_nonneg rest). pose proof (zlen_nonneg app).
  assert (forall k, key = Some k -> zlen k = 4) as Hk4 by (intros k Ek; unfold zlen; by rewrite (Hk k Ek)).
  assert (zlen body = (if key then 4 else 0) + zlen app + zlen rest) as Hb.
  { unfold body. rewrite zlen_app. destruct key as [k|]; [|lia]. rewrite zlen_app, (Hk4 k eq_refl). unfold zlen at 1.
    rewrite length_unmask. unfold zlen. lia. }
  pose proof (zlen_nonneg (ws_len_field masked (zlen app))).
  assert (zlen data = 1 + zlen (ws_len_field masked (zlen app)) + zlen body) as Hz.
  { rewrite Hd, zlen_cons, zlen_app. lia. }
  destruct (frame_length_wire b0 masked (zlen app) body) as [(b1 & Hb1 & Hm) Hl].
  { destruct key; lia. }
  rewrite <-Hd in Hb1, Hl. apply idx_Ok_inv in Hb1 as Hi.
  destruct (opcode_byte fin opcode Ho) as (Hf & Hop & Hvalid).
  unfold parseFrame. replace (zlen data <? 2) with false by (apply idx_Ok_inv in Hb1; lia).
  assert (idx data 0 = Ok b0) as -> by (by rewrite Hd). cbn [mbind res_bind]. cbv zeta.
  fold b0 in Hf, Hop. rewrite Hop, Hf, Hvalid, Hb1. cbn [mbind res_bind]. rewrite Hm, Hl. cbn [mbind res_bind].
  set (h := if masked then _ else _).
  assert (h = 1 + zlen (ws_len_field masked (zlen app)) + (if key then 4 else 0)) as Hh.
  { unfold h, masked. destruct key; lia. }
  replace (zlen data <? h) with false by lia. unfold frame_of. fold masked. rewrite <-Hh.
  destruct (Z.eqb_spec opcode OpText) as [->|]; cbn [andb]; [|done].
  destruct (Z.ltb_spec 0 (zlen app)) as [Ha|Ha].
  - rewrite (frame_preview_wire data masked h (default [] key) app rest); [done|..].
    + rewrite Hd, Hh. exists (b0 :: ws_len_field masked (zlen app)), []. split.
      * cbn [List.app]. rewrite app_nil_r. do 2 f_equal. unfold body, masked. destruct key; [by rewrite <-app_assoc|done].
      * rewrite zlen_cons. unfold masked. destruct key as [k|].
        -- change (default [] (Some k)) with k. rewrite (Hk4 k eq_refl). lia.
        -- change (zlen (default [] None)) with 0. lia.
    + unfold h, masked in *. destruct key; lia.
    + lia.
    + unfold masked. destruct key as [k|]; [|done]. by apply Hk4.
    + unfold h, masked in *. destruct key; [left; lia|by right].
    + done.
  - by rewrite (zlen_0 app ltac:(lia)).
Qed.

(** ** Every packet *)

Lemma frame_preview_returns data masked n h :
  2 <= h <= zlen data -> 0 < n -> returns (frame_preview data masked n h) (fun _ => True).
Proof.
  intros Hh Hn. unfold frame_preview. cbv zeta.
  set (e := if zlen data <? _ then _ else _).
  assert (e <= zlen data) by (unfold e; case_match; lia). clearbody e.
  destruct (masked && (h <? e) && (4 <=? h)) eqn:E1; [|destruct (Z.ltb_spec h e); [|done]].
  - run_step. apply returns_slice; [lia|]. run_step. apply returns_slice; [|done].
    repeat case_match; lia.
  - run_step. apply returns_slice; [|done]. repeat case_match; lia.
Qed.

Lemma frame_length_returns data : 2 <= zlen data ->
  returns (frame_length data) (fun o => match o with Some (_, h) => 2 <= h | None => True end).
Proof. intros H. unfold frame_length. run_reads; cbn; lia. Qed.

Lemma parseFrame_returns data :
  returns (parseFrame data) (fun o => match o with Some f => 2 <= HeaderLen f <= zlen data | None => True end).
Proof.
  unfold parseFrame. destruct (Z.ltb_spec (zlen data) 2); [done|].
  run_step. apply returns_idx; [lia|]. intros b0 _. cbv zeta. run_step; [done|].
  run_step. apply returns_idx; [lia|]. intros b1 _.
  apply returns_bind. eapply returns_weaken; [by apply frame_length_returns|].
  intros [[n h]|] Hh; [|done]. cbv beta iota in Hh. set (h' := if _ : bool then h + 4 else h).
  assert (2 <= h') by (unfold h'; case_match; lia).
  destruct (Z.ltb_spec (zlen data) h'); [done|].
  apply (returns_bind_weak _ _ (fun _ => True)); [|cbn; lia].
  destruct (_ && (0 <? n)) eqn:E; [apply frame_preview_returns; lia|done].
Qed.

(** A close frame that announces a code of two bytes it does not carry. *)
Definition short_close (payload : list byte) (f : wsFrame) : Prop :=
  Opcode f = OpClose /\ 2 <= PayloadLen f /\ zlen payload < HeaderLen f + 2.

Lemma frame_summary_spec payload f : 2 <= HeaderLen f ->
  (short_close payload f -> frame_summary payload f = Panic) /\
  (~ short_close payload f -> returns (frame_summary payload f) (fun _ => True)).
Proof.
  intros Hh. unfold frame_summary, short_close. cbv zeta.
  destruct ((Opcode f =? OpClose) && (2 <=? PayloadLen f)) eqn:E.
  - apply andb_true_iff in E as [Ho%Z.eqb_eq Hl%Z.leb_le]. split.
    + intros (_ & _ & Hs). unfold rd_be, slice. 
      destruct (_ && (_ <=? zlen payload)) eqn:E; [|done]. apply andb_true_iff in E as [_ E%Z.leb_le]. lia.
    + intros Hs. run_step. apply returns_rd_be; [|done]. split; [lia|]. destruct (decide (zlen payload < HeaderLen f + 2)); [|cbn; lia].
      exfalso. by apply Hs.
  - split; [|done]. intros (Ho & Hl & _). rewrite Ho, Z.eqb_refl in E. cbn [andb] in E. lia.
Qed.

Section decoder.
Context `{Unicode}.

(** The packet counts as a frame of a connection. *)
Definition takes_frame (d : Decoder) (pkt : Packet) (f : wsFrame) : Prop :=
  Protocol pkt = "TCP"%string /\ isWebSocketUpgrade (Payload pkt) = false /\
  isWebSocketUpgradeResponse (Payload pkt) = false /\ parseFrame (Payload pkt) = Ok (Some f) /\
  is_Some (frame_conn (connections d) pkt).

(** A sum over all connections. *)
Definition total (g : wsConnection -> Z) (d : Decoder) : Z :=
  map_fold (fun _ c acc => g c + acc) 0 (connections d).

Lemma total_insert g k c m :
  total g {| connections := <[k := c]> m |} =
  g c + total g {| connections := m |} - (match m !! k with Some c0 => g c0 | None => 0 end).
Proof.
  unfold total. cbn [connections].
  assert (forall m' : gmap string wsConnection, m' !! k = None -> map_fold (fun _ c acc => g c + acc) 0 (<[k := c]> m') =
    g c + map_fold (fun _ c acc => g c + acc) 0 m') as Hfresh.
  { intros m' Hm. rewrite map_fold_insert_L; [done| |done]. intros. lia. }
  destruct (m !! k) as [c0|] eqn:E; [|rewrite Hfresh by done; lia].
  rewrite <-insert_delete_eq, Hfresh by apply lookup_delete_eq.
  rewrite (map_fold_delete_L _ _ k c0 m) by (done || intros; lia). lia.
Qed.

Lemma frame_conn_spec m pkt k c : frame_conn m pkt = Some (k, c) ->
  m !! k = Some c \/ m !! k = None /\ c = new_conn k pkt.
Proof.
  unfold frame_conn, getOrCreateConn. destruct (m !! key_of pkt) eqn:E1; [intros [= <- <-]; by left|].
  destruct (m !! rkey_of pkt) eqn:E2; [intros [= <- <-]; by left|].
  case_match; [|done]. intros [= <- <-]. by right.
Qed.

(** C22: One kind of packet makes the decoder panic: a close frame, on a
    connection it knows or an HTTP port, that announces at least two bytes and
    ends before its second byte (the two bytes "x5" are one). Every other
    packet is handled: a frame adds one frame and its announced length to the
    totals over the connections, with the wrap-around of a 64-bit integer, and
    any other packet leaves the totals as they are. *)
Theorem websocket_handle_exact d pkt :
  (HandlePacket d pkt = Panic <-> exists f, takes_frame d pkt f /\ short_close (Payload pkt) f) /\
  HandlePacket d pkt <> OutOfFuel /\
  forall d' pkt', HandlePacket d pkt = Ok (d', pkt') ->
    let added n t b := i64 (total Frames d') = i64 (total Frames d + n) /\
      i64 (total TextBytes d') = i64 (total TextBytes d + t) /\
      i64 (total BinBytes d') = i64 (total BinBytes d + b) in
    (forall f, takes_frame d pkt f -> added 1 (if Opcode f =? OpText then PayloadLen f else 0)
                                              (if Opcode f =? OpBinary then PayloadLen f else 0)) /\
    ((forall f, ~ takes_frame d pkt f) -> added 0 0 0).
Proof.
  assert (forall d', connections d' = connections d -> let same g := i64 (total g d') = i64 (total g d + 0) in
    same Frames /\ same TextBytes /\ same BinBytes) as Hsame.
  { intros d' E. unfold total. rewrite E, !Z.add_0_r. done. }
  assert (forall key, let d' := upgrade key d pkt in let same g := i64 (total g d') = i64 (total g d + 0) in
    same Frames /\ same TextBytes /\ same BinBytes) as Hup.
  { intros key. unfold upgrade. cbv zeta. rewrite !total_insert, !Z.add_0_r. unfold getOrCreateConn.
    destruct d as [m]. cbn [connections]. destruct (m !! key); cbn; split_and!; f_equal; lia. }
  unfold HandlePacket, takes_frame.
  destruct (String.eqb_spec (Protocol pkt) "TCP") as [Htcp|Htcp]; cbn [negb].
  2:{ split; [split; [done|intros (? & (? & _) & _); done]|]. split; [done|]. intros d' pkt' [= <- <-].
      split; [by intros f (? & _)|]. intros _. by apply Hsame. }
  destruct (Z.ltb_spec (zlen (Payload pkt)) 2) as [Hl|Hl].
  { assert (parseFrame (Payload pkt) = Ok None) as Hn by (unfold parseFrame; by rewrite (proj2 (Z.ltb_lt _ _) Hl)).
    rewrite Hn. split; [split; [done|intros (? & (_ & _ & _ & ? & _) & _); done]|]. split; [done|].
    intros d' pkt' [= <- <-]. split; [by intros f (_ & _ & _ & ? & _)|]. intros _. by apply Hsame. }
  destruct (isWebSocketUpgrade (Payload pkt)).
  { split; [split; [done|intros (? & (_ & ? & _) & _); done]|]. split; [done|].
    intros d' pkt' [= <- <-]. split; [by intros f (_ & ? & _)|]. intros _. by apply Hup. }
  destruct (isWebSocketUpgradeResponse (Payload pkt)).
  { split; [split; [done|intros (? & (_ & _ & ? & _) & _); done]|]. split; [done|].
    intros d' pkt' [= <- <-]. split; [by intros f (_ & _ & ? & _)|]. intros _. by apply Hup. }
  unfold handle_frame. destruct (returns_inv _ _ (parseFrame_returns (Payload pkt))) as ([f|] & Hp & Hf);
    rewrite Hp; cbn [mbind res_bind].
  2:{ split; [split; [done|intros (? & (_ & _ & _ & ? & _) & _); done]|]. split; [done|].
      intros d' pkt' [= <- <-]. split; [by intros f (_ & _ & _ & ? & _)|]. intros _. by apply Hsame. }
  destruct (frame_conn (connections d) pkt) as [[k c]|] eqn:Hc.
  2:{ split; [split; [done|intros (? & (_ & _ & _ & _ & ? & ?) & _); done]|]. split; [done|].
      intros d' pkt' [= <- <-]. split; [by intros g (_ & _ & _ & _ & ? & ?)|]. intros _. by apply Hsame. }
  destruct (frame_summary_spec (Payload pkt) f (proj1 Hf)) as [Hs1 Hs2].
  assert (short_close (Payload pkt) f \/ ~ short_close (Payload pkt) f) as [Hs|Hs].
  { unfold short_close. destruct (Z.eqb_spec (Opcode f) OpClose), (Z.leb_spec 2 (PayloadLen f)),
      (Z.ltb_spec (zlen (Payload pkt)) (HeaderLen f + 2)); (left; lia) || (right; lia). }
  - rewrite Hs1 by done. cbn [mbind res_bind]. split; [|done]. split; [|done]. intros _. exists f. eauto 10.
  - destruct (returns_inv _ _ (Hs2 Hs)) as (sum & -> & _). cbn [mbind res_bind]. split.
    { split; [done|]. intros (g & (_ & _ & _ & [= <-] & _) & Hg). done. }
    split; [done|]. intros d' pkt' [= <- <-]. cbv zeta. split; [|intros Hn; exfalso; apply (Hn f); eauto 10].
    intros g (_ & _ & _ & [= <-] & _). rewrite !total_insert.
    destruct d as [m]. cbn [connections] in *.
    assert (forall h, h c = match m !! k with Some c0 => h c0 | None => 0 end \/ h (new_conn k pkt) <> 0) as Hold.
    { intros h. destruct (frame_conn_spec _ _ _ _ Hc) as [->|[-> ->]]; [by left|].
      destruct (decide (h (new_conn k pkt) = 0)); auto. }
    destruct (Hold Frames) as [<-|]; [|done]. destruct (Hold TextBytes) as [<-|]; [|done].
    destruct (Hold BinBytes) as [<-|]; [|done]. cbn [Frames TextBytes BinBytes add_frame].
    split_and!; repeat case_match; rewrite ?Z.add_0_r.
    all: try (f_equal; lia).
    all: match goal with |- i64 (i64 ?a + ?b - ?c) = _ =>
      replace (i64 a + b - c) with (i64 a + (b - c)) by lia; rewrite i64_add_l; f_equal; lia end.
Qed.

(** A frame does not look like an upgrade: its first byte is no letter. *)
Lemma frame_no_upgrade fin opcode key app rest first c t :
  opcode ∈ [0; 1; 2; 8; 9; 10] -> gobytes first = byte_of c :: t -> c = 0x47 \/ c = 0x48 ->
  names_upgrade first (encode_frame fin opcode key app ++ rest) = false.
Proof.
  intros Ho Hf Hc. unfold names_upgrade. set (data := _ ++ rest).
  assert (exists tl, data = byte_of ((if fin then 0x80 else 0) + opcode) :: tl) as [tl Hd] by (by eexists).
  clearbody data. destruct (Z.ltb_spec (zlen data) 20) as [|Hl]; [done|]. rewrite Hf. unfold min.
  assert (exists m, Z.to_nat (if zlen data <? 512 then zlen data else 512) = S m) as [m ->].
  { exists (Z.to_nat ((if zlen data <? 512 then zlen data else 512) - 1)). destruct (Z.ltb_spec (zlen data) 512); lia. }
  rewrite Hd. cbn [take is_prefix]. rewrite bool_decide_false; [done|].
  intros E%(f_equal u8). rewrite !u8_byte_of in E.
  - repeat (apply elem_of_cons in Ho as [->|Ho]; [destruct fin; lia|]). by apply not_elem_of_nil in Ho.
  - repeat (apply elem_of_cons in Ho as [->|Ho]; [destruct fin; lia|]). by apply not_elem_of_nil in Ho.
  - lia.
Qed.

(** The bytes of a payload as they stand on the wire. *)
Definition on_wire (key : option (list byte)) (app : list byte) : list byte :=
  match key with Some k => unmask k app | None => app end.

(** A frame of RFC 6455 on the wire, of any kind and length, masked or not,
    with anything after it, on a connection the decoder knows or an HTTP port, is
    decoded to what it is and counted on that connection. The text of a short
    frame stands unmasked in the summary; the code of a close frame is read
    from the bytes as they stand on the wire, so it is right for unmasked frames
    only, and every client masks its frames. *)
Theorem websocket_frame_decoded d pkt fin opcode key app rest k c :
  opcode ∈ [0; 1; 2; 8; 9; 10] -> (forall m, key = Some m -> length m = 4%nat) ->
  Payload pkt = encode_frame fin opcode key app ++ rest -> zlen (Payload pkt) < 2 ^ 62 ->
  Protocol pkt = "TCP"%string -> frame_conn (connections d) pkt = Some (k, c) ->
  exists summary,
    HandlePacket d pkt = Ok ({| connections := <[k := add_frame (Timestamp pkt) (frame_of fin opcode key app) c]>
                                                 (connections d) |}, set_app "WebSocket" summary pkt) /\
    (opcode = OpText -> 0 < zlen app <= 80 ->
       summary = cat [cat ["["; "text"; "] len="; fmt_d (zlen app); if fin then " FIN" else ""]; " "; gostr app]) /\
    (opcode = OpClose -> 2 <= zlen app ->
       summary = "[close] code=" +:+ fmt_d (be (take 2 (on_wire key app)))).
Proof.
  intros Ho Hk Hp Hmax Htcp Hc. rewrite Hp in Hmax.
  pose proof (parseFrame_wire fin opcode key app rest Ho Hk Hmax) as Hparse.
  unfold HandlePacket. rewrite Htcp, Hp, String.eqb_refl. cbn [negb].
  pose proof (parseFrame_returns (encode_frame fin opcode key app ++ rest)) as Hr. rewrite Hparse in Hr. cbn [returns] in Hr.
  assert (2 <= zlen (encode_frame fin opcode key app ++ rest)) as Hl by (destruct Hr; by etransitivity).
  rewrite (proj2 (Z.ltb_ge _ 2) Hl).
  unfold isWebSocketUpgrade. rewrite (frame_no_upgrade _ _ _ _ _ "GET " 0x47 (gobytes "ET ")) by (done || by left).
  unfold isWebSocketUpgradeResponse.
  rewrite (frame_no_upgrade _ _ _ _ _ "HTTP/1.1 101" 0x48 (gobytes "TTP/1.1 101")) by (done || by right).
  unfold handle_frame. rewrite Hp, Hparse. cbn [mbind res_bind]. rewrite Hc.
  assert (2 <= zlen app -> holds_at (encode_frame fin opcode key app ++ rest) (HeaderLen (frame_of fin opcode key app))
    (take 2 (on_wire key app))) as Hcode.
  { intros Ha. unfold frame_of. cbn [HeaderLen].
    exists (byte_of ((if fin then 128 else 0) + opcode) :: ws_len_field (if key then true else false) (zlen app)
            ++ default [] key), (drop 2 (on_wire key app) ++ rest). split.
    - rewrite (app_assoc (take 2 (on_wire key app))), take_drop. unfold encode_frame, on_wire. destruct key; cbn [default from_option List.app id];
        rewrite <-?app_assoc; cbn [List.app]; rewrite <-?app_assoc; by rewrite ?app_nil_r.
    - rewrite zlen_cons, zlen_app. destruct key as [m|]; cbn [default from_option id].
      + assert (zlen m = 4) by (unfold zlen; by rewrite (Hk m eq_refl)). lia.
      + change (zlen []) with 0. lia. }
  assert (zlen (on_wire key app) = zlen app) as Hw.
  { unfold on_wire, zlen. destruct key; [by rewrite length_unmask|done]. }
  unfold frame_summary. cbv zeta. cbn [Opcode PayloadLen PayloadPreview FIN frame_of].
  destruct (Z.eqb_spec opcode OpClose) as [->|Hnc]; cbn [andb].
  - destruct (Z.leb_spec 2 (zlen app)) as [Ha|Ha].
    + rewrite (holds_at_rd _ _ _ 2 (Hcode Ha)) by (unfold zlen in *; rewrite length_take; lia).
      cbn [mbind res_bind]. eexists. split; [done|]. split; [done|]. by intros _ _.
    + cbn [mbind res_bind]. eexists. split; [done|]. split; [done|]. lia.
  - cbn [mbind res_bind]. eexists. split; [done|]. split; [|done]. intros -> Ha.
    cbn [Z.eqb Pos.eqb OpText andb]. replace (0 <? zlen app) with true by lia. replace (zlen app <=? 120) with true by lia.
    cbn [andb]. rewrite (take_ge app 120) by (unfold zlen in Ha; lia).
    rewrite slen_gobytes, gobytes_gostr. by replace (80 <? zlen app) with false by lia.
Qed.

End decoder.

Definition ex_ws (payload : list byte) : Packet := mk_packet 3 "10.0.0.1" "10.0.0.2" 40000 8080 "TCP" payload.
Definition ex_key : list byte := octets [1; 2; 3; 4].

Lemma websocket_frame_decoded_witness : let _ := ascii_only in
  exists d sum, HandlePacket NewDecoder (ex_ws (encode_frame true 1 (Some ex_key) (gobytes "hello") ++ octets [9])) =
    Ok (d, set_app "WebSocket" sum (ex_ws (encode_frame true 1 (Some ex_key) (gobytes "hello") ++ octets [9]))) /\
  sum = "[text] len=5 FIN hello"%string /\ total TextBytes d = 5.
Proof.
  cbv zeta.
  destruct (@websocket_frame_decoded ascii_only NewDecoder
    (ex_ws (encode_frame true 1 (Some ex_key) (gobytes "hello") ++ octets [9])) true 1 (Some ex_key) (gobytes "hello")
    (octets [9]) "10.0.0.1:40000-10.0.0.2:8080"
    (new_conn "10.0.0.1:40000-10.0.0.2:8080" (ex_ws (encode_frame true 1 (Some ex_key) (gobytes "hello") ++ octets [9]))))
    as (sum & Hs & Ht & _); [set_solver|by intros m [= <-]|done|by vm_compute|done|by vm_compute|].
  eexists _, sum. split; [exact Hs|]. split; [|by vm_compute]. rewrite Ht by (done || by vm_compute). by vm_compute.
Defined.

(** A client's close frame with code 1000, masked, and two bytes that crash the
    decoder. *)
Example close_code_masked :
  @frame_summary (encode_frame true 8 (Some ex_key) (octets [3; 0xE8])) (frame_of true 8 (Some ex_key) (octets [3; 0xE8])) =
  Ok "[close] code=746"%string.
Proof. by vm_compute. Qed.
Example two_bytes_panic : @HandlePacket ascii_only NewDecoder (ex_ws (gobytes "x5")) = Panic.
Proof. by vm_compute. Qed.
