(* ===== verification/Http2.v ===== *)
(** * internal/protocols/http2: the HTTP/2 decoder

    decoder.go: frames, the reader of HPACK literals, the classification of
    calls to the 3GPP service-based interfaces, and the flows, one per packet.
    Every counter of a record is bounded by the length of one packet. *)
From S2P Require Export Domain.
From S2P Require Export Text.

Definition connectionPreface : list byte :=
  gobytes "PRI * HTTP/2.0" ++ crlf ++ crlf ++ gobytes "SM" ++ crlf ++ crlf.

Definition frameDATA : Z := 0.
Definition frameHEADERS : Z := 1.

(** (prefix, nfType, service) *)
Definition sbiPathPrefixes : list (string * string * string) :=
  [("/nudm-sdm/", "UDM", "nudm-sdm"); ("/nudm-uecm/", "UDM", "nudm-uecm"); ("/nudm-ueau/", "UDM", "nudm-ueau");
   ("/nudm-pp/", "UDM", "nudm-pp"); ("/nsmf-pdusession/", "SMF", "nsmf-pdusession");
   ("/namf-comm/", "AMF", "namf-comm"); ("/namf-evts/", "AMF", "namf-evts");
   ("/npcf-smpolicycontrol/", "PCF", "npcf-smpolicycontrol");
   ("/npcf-ue-policy-control/", "PCF", "npcf-ue-policy-control"); ("/nausf-auth/", "AUSF", "nausf-auth");
   ("/nnrf-nfm/", "NRF", "nnrf-nfm"); ("/nnrf-disc/", "NRF", "nnrf-disc"); ("/nudr-dr/", "UDR", "nudr-dr");
   ("/nbsf-management/", "BSF", "nbsf-management");
   ("/nchf-spendinglimitcontrol/", "CHF", "nchf-spendinglimitcontrol");
   ("/nnssf-nsselection/", "NSSF", "nnssf-nsselection")]%string.

Record http2Stream := {
  s_StreamID : Z;
  s_Method : string;
  s_Path : string;
  s_NFType : string;
  s_APIVersion : string;
  s_Service : string;
  s_ServiceName : string;
  s_StatusCode : string;
  s_IsSBI : bool;
}.

Definition new_stream (id : Z) : http2Stream :=
  {| s_StreamID := id; s_Method := ""; s_Path := ""; s_NFType := ""; s_APIVersion := ""; s_Service := "";
     s_ServiceName := ""; s_StatusCode := ""; s_IsSBI := false |}.

Definition set_method (v : string) (s : http2Stream) : http2Stream :=
  {| s_StreamID := s_StreamID s; s_Method := v; s_Path := s_Path s; s_NFType := s_NFType s;
     s_APIVersion := s_APIVersion s; s_Service := s_Service s; s_ServiceName := s_ServiceName s;
     s_StatusCode := s_StatusCode s; s_IsSBI := s_IsSBI s |}.
Definition set_path (v : string) (s : http2Stream) : http2Stream :=
  {| s_StreamID := s_StreamID s; s_Method := s_Method s; s_Path := v; s_NFType := s_NFType s;
     s_APIVersion := s_APIVersion s; s_Service := s_Service s; s_ServiceName := s_ServiceName s;
     s_StatusCode := s_StatusCode s; s_IsSBI := s_IsSBI s |}.
Definition set_status (v : string) (s : http2Stream) : http2Stream :=
  {| s_StreamID := s_StreamID s; s_Method := s_Method s; s_Path := s_Path s; s_NFType := s_NFType s;
     s_APIVersion := s_APIVersion s; s_Service := s_Service s; s_ServiceName := s_ServiceName s;
     s_StatusCode := v; s_IsSBI := s_IsSBI s |}.

(** The fields of a record that the frames fill in. *)
Record frame_fields := {
  Streams : gmap Z http2Stream;
  StreamCount : Z;
  ErrorCount : Z;
  DataBytes : Z;
  IsSBI : bool;
  Method : string;
  Path : string;
  NFType : string;
  APIVersion : string;
  ServiceName : string;
  StatusCode : string;
}.

Definition no_frames : frame_fields :=
  {| Streams := ∅; StreamCount := 0; ErrorCount := 0; DataBytes := 0; IsSBI := false; Method := ""; Path := "";
     NFType := ""; APIVersion := ""; ServiceName := ""; StatusCode := "" |}.

Record http2Record := {
  r_SrcIP : string;
  r_DstIP : string;
  r_SrcPort : Z;
  r_DstPort : Z;
  r_FrameNum : Z;
  r_Timestamp : time;
  r_fields : frame_fields;
}.

Record Decoder := { records : list http2Record }.
Definition NewDecoder : Decoder := {| records := [] |}.

(** ** HPACK *)

(** The bytes of a long integer: one turn, on (offset, val, shift). *)
Definition int_body (data : list byte) (st : Z * Z * Z) : res (ctl (Z * Z * Z) (Z * Z)) :=
  let '(offset, val, shift) := st in
  if offset <? zlen data then
    b ← idx data offset;
    let val := i64 (val + i64 (Z.shiftl (Z.land (u8 b) 0x7F) shift)) in
    if Z.land (u8 b) 0x80 =? 0 then Ok (Done (val, offset + 1))
    else Ok (Next (offset + 1, val, shift + 7))
  else Ok (Done (val, offset)).

Definition readHPACKInt (data : list byte) (offset prefixBits : Z) : res (Z * Z) :=
  if zlen data <=? offset then Ok (0, offset)
  else
    let mask := Z.shiftl 1 prefixBits - 1 in
    b ← idx data offset;
    let val := Z.land (u8 b) mask in
    let offset := offset + 1 in
    if val <? mask then Ok (val, offset)
    else loop (S (length data)) (int_body data) (offset, val, 0).

(** The flag for Huffman coding is masked off and not used. *)
Definition readHPACKString (data : list byte) (offset : Z) : res (string * Z) :=
  if zlen data <=? offset then Ok ("", offset)
  else
    '(strLen, newOffset) ← readHPACKInt data offset 7;
    let strEnd := i64 (newOffset + strLen) in
    if zlen data <? strEnd then Ok ("", zlen data)
    else
      s ← slice data newOffset strEnd;
      Ok (gostr s, strEnd).

Definition applyIndexedNameHeader (nameIdx : Z) (val : string) (s : http2Stream) : http2Stream :=
  if (nameIdx =? 2) || (nameIdx =? 3) then set_method val s
  else if (nameIdx =? 4) || (nameIdx =? 5) then set_path val s
  else if (8 <=? nameIdx) && (nameIdx <=? 14) then set_status val s
  else s.

Section decoder.
Context `{Unicode}.

Definition applyHeader (name val : string) (s : http2Stream) : http2Stream :=
  let n := gostr (to_lower (gobytes name)) in
  if String.eqb n ":method" then set_method val s
  else if String.eqb n ":path" then set_path val s
  else if String.eqb n ":status" then set_status val s
  else s.

(** A literal: its name, unless it is indexed, and its value. *)
Definition literal (data : list byte) (i nameIdx : Z) (s : http2Stream) : res (Z * http2Stream) :=
  if nameIdx =? 0 then
    '(name, i) ← readHPACKString data i;
    '(val, i) ← readHPACKString data i;
    Ok (i, applyHeader name val s)
  else
    '(val, i) ← readHPACKString data i;
    Ok (i, applyIndexedNameHeader nameIdx val s).

(** One turn of the loop of parseHPACKLiterals, on (i, stream). *)
Definition hpack_body (data : list byte) (st : Z * http2Stream) : res (ctl (Z * http2Stream) http2Stream) :=
  let '(i, s) := st in
  if i <? zlen data then
    b ← idx data i;
    let b := u8 b in
    if negb (Z.land b 0x80 =? 0) then Ok (Next (i + 1, s))
    else if negb (Z.land b 0x40 =? 0) then r ← literal data (i + 1) (Z.land b 0x3F) s; Ok (Next r)
    else if negb (Z.land b 0x20 =? 0) then '(_, ni) ← readHPACKInt data i 5; Ok (Next (ni, s))
    else r ← literal data (i + 1) (Z.land b 0x0F) s; Ok (Next r)
  else Ok (Done s).

Definition parseHPACKLiterals (data : list byte) (s : http2Stream) : res http2Stream :=
  loop (S (length data)) (hpack_body data) (0, s).

(** ** Calls of service-based interfaces *)

(** [v] and digits. *)
Definition is_version (p : string) : bool :=
  match gobytes p with
  | v :: (_ :: _) as digits => (u8 v =? 0x76) && forallb (fun rb => (0x30 <=? fst rb) && (fst rb <=? 0x39)) (runes (tail digits))
  | _ => false
  end.

Definition slash : byte := byte_of 0x2F.

Definition extractAPIVersion (path : string) : string := default "" (head (List.filter is_version (str_split slash path))).

Definition classifyStream (s : http2Stream) : http2Stream :=
  if String.eqb (s_Path s) "" then s
  else
    match List.find (fun e => has_prefix (s_Path s) (fst (fst e))) sbiPathPrefixes with
    | Some (_, nf, service) =>
      {| s_StreamID := s_StreamID s; s_Method := s_Method s; s_Path := s_Path s; s_NFType := nf;
         s_APIVersion := extractAPIVersion (s_Path s); s_Service := service; s_ServiceName := service;
         s_StatusCode := s_StatusCode s; s_IsSBI := true |}
    | None => s
    end.

Definition isErrorStatus (status : string) : bool :=
  match gobytes status with
  | b :: _ => (u8 b =? 0x34) || (u8 b =? 0x35)
  | [] => false
  end.

(** [if v != "" && rec.F == "" { rec.F = v }] *)
Definition first_set (v old : string) : string :=
  if negb (String.eqb v "") && String.eqb old "" then v else old.

(** A HEADERS frame of a stream, after its header block is read into [s]. *)
Definition add_headers (s : http2Stream) (r : frame_fields) : frame_fields :=
  {| Streams := <[s_StreamID s := s]> (Streams r); StreamCount := StreamCount r + 1;
     ErrorCount := if negb (String.eqb (s_StatusCode s) "") && isErrorStatus (s_StatusCode s)
                   then ErrorCount r + 1 else ErrorCount r;
     DataBytes := DataBytes r; IsSBI := IsSBI r || s_IsSBI s; Method := first_set (s_Method s) (Method r);
     Path := first_set (s_Path s) (Path r); NFType := first_set (s_NFType s) (NFType r);
     APIVersion := first_set (s_APIVersion s) (APIVersion r);
     ServiceName := first_set (s_ServiceName s) (ServiceName r);
     StatusCode := if String.eqb (s_StatusCode s) "" then StatusCode r else s_StatusCode s |}.

Definition add_data (n : Z) (r : frame_fields) : frame_fields :=
  {| Streams := Streams r; StreamCount := StreamCount r; ErrorCount := ErrorCount r; DataBytes := DataBytes r + n;
     IsSBI := IsSBI r; Method := Method r; Path := Path r; NFType := NFType r; APIVersion := APIVersion r;
     ServiceName := ServiceName r; StatusCode := StatusCode r |}.

(** getOrCreateStream; the stream is put into the map by [add_headers]. *)
Definition getOrCreateStream (id : Z) (r : frame_fields) : http2Stream :=
  default (new_stream id) (Streams r !! id).

(** ** Frames *)

(** The switch over the type of a frame. *)
Definition frame_switch (frameType streamID : Z) (payload : list byte) (r : frame_fields) : res frame_fields :=
  if frameType =? frameHEADERS then
    if 0 <? streamID then
      s ← parseHPACKLiterals payload (getOrCreateStream streamID r);
      Ok (add_headers (classifyStream s) r)
    else Ok r
  else if frameType =? frameDATA then Ok (add_data (zlen payload) r)
  else Ok r.

(** One turn of the loop over frames, on (offset, rec). *)
Definition frame_body (payload : list byte) (st : Z * frame_fields) :
    res (ctl (Z * frame_fields) frame_fields) :=
  let '(offset, r) := st in
  if offset + 9 <=? zlen payload then
    b0 ← idx payload offset;
    b1 ← idx payload (offset + 1);
    b2 ← idx payload (offset + 2);
    let payloadLen := Z.lor (Z.lor (Z.shiftl (u8 b0) 16) (Z.shiftl (u8 b1) 8)) (u8 b2) in
    frameType ← idx payload (offset + 3);
    w ← rd_be 4 payload (offset + 5);
    let streamID := Z.land w 0x7FFFFFFF in
    let frameEnd := offset + 9 + payloadLen in
    let frameEnd := if zlen payload <? frameEnd then zlen payload else frameEnd in
    framePayload ← slice payload (offset + 9) frameEnd;
    r ← frame_switch (u8 frameType) streamID framePayload r;
    let offset := offset + (9 + payloadLen) in
    if zlen payload <=? offset then Ok (Done r) else Ok (Next (offset, r))
  else Ok (Done r).

Definition looksLikeHTTP1 (payload : list byte) : bool :=
  if zlen payload <? 4 then false
  else bool_decide (gostr (take 4 payload) ∈
         ["GET "; "POST"; "HEAD"; "PUT "; "DELE"; "PATC"; "OPTI"; "HTTP"]%string).

Definition isHTTP2Preface (payload : list byte) : res bool :=
  if 24 <=? zlen payload then Ok (bool_decide (take 24 payload = connectionPreface))
  else if 9 <=? zlen payload then
    frameType ← idx payload 3;
    if u8 frameType <=? 9 then
      b0 ← idx payload 0;
      b1 ← idx payload 1;
      b2 ← idx payload 2;
      let payloadLen := Z.lor (Z.lor (Z.shiftl (u8 b0) 16) (Z.shiftl (u8 b1) 8)) (u8 b2) in
      Ok ((0 <=? payloadLen) && (payloadLen <=? 16384) && negb (looksLikeHTTP1 payload))
    else Ok false
  else Ok false.

Definition h2_port (p : Z) : bool :=
  (p =? 80) || (p =? 443) || (p =? 8080) || (p =? 8443) || (p =? 7777).
Definition isHTTP2Port (src dst : Z) : bool := h2_port src || h2_port dst.

(** [if v != "" { s += " " + v }] *)
Definition note (pre v post : string) : string := if String.eqb v "" then "" else cat [pre; v; post].

Definition buildSummary (r : frame_fields) : string :=
  let rest := cat [note " " (Method r) ""; note " " (Path r) ""; note " [" (StatusCode r) "]"] in
  if IsSBI r then cat ["HTTP2 SBI "; NFType r; rest]
  else cat ["HTTP2"; rest; if 0 <? StreamCount r then " streams=" +:+ fmt_d (StreamCount r) else ""].

Definition mk_record (pkt : Packet) (r : frame_fields) : http2Record :=
  {| r_SrcIP := SrcIP pkt; r_DstIP := DstIP pkt; r_SrcPort := SrcPort pkt; r_DstPort := DstPort pkt;
     r_FrameNum := FrameNumber pkt; r_Timestamp := Timestamp pkt; r_fields := r |}.

(** Where the frames start. *)
Definition frames_offset (payload : list byte) : Z :=
  if (24 <=? zlen payload) && bool_decide (take 24 payload = connectionPreface) then 24 else 0.

Definition parse_frames (payload : list byte) : res frame_fields :=
  loop (S (length payload)) (frame_body payload) (frames_offset payload, no_frames).

Definition parseHTTP2 (d : Decoder) (pkt : Packet) : res (Decoder * Packet * option http2Record) :=
  r ← parse_frames (Payload pkt);
  preface ← isHTTP2Preface (Payload pkt);
  if (StreamCount r =? 0) && (DataBytes r =? 0) && negb preface then Ok (d, pkt, None)
  else
    let rec := mk_record pkt r in
    Ok ({| records := records d ++ [rec] |}, set_app "HTTP2" (buildSummary r) pkt, Some rec).

(** The early returns of both handlers, negated. *)
Definition admits (pkt : Packet) : res bool :=
  preface ← (if isHTTP2Port (SrcPort pkt) (DstPort pkt) then Ok true else isHTTP2Preface (Payload pkt));
  Ok (preface && String.eqb (Protocol pkt) "TCP" && (9 <=? zlen (Payload pkt))).

Definition HandlePacket (d : Decoder) (pkt : Packet) : res (Decoder * Packet) :=
  ok ← admits pkt;
  if negb ok then Ok (d, pkt) else '(d, pkt, _) ← parseHTTP2 d pkt; Ok (d, pkt).

Definition record_metrics (r : frame_fields) : gmap string any := list_to_map
  [("method", AStr (Method r)); ("path", AStr (Path r)); ("status_code", AStr (StatusCode r));
   ("nf_type", AStr (NFType r)); ("api_version", AStr (APIVersion r)); ("service_name", AStr (ServiceName r));
   ("stream_count", AInt TInt (StreamCount r)); ("error_count", AInt TInt (ErrorCount r));
   ("data_bytes", AInt TInt (DataBytes r)); ("is_sbi", ABool (IsSBI r))]%string.

Definition live_errors (r : frame_fields) : list PacketError :=
  if 0 <? ErrorCount r then
    [{| Code := "HTTP2_ERRORS"; Title := "HTTP/2 Error Responses";
        Description := fmt_d (ErrorCount r) +:+ " error responses (4xx/5xx)"; Severity := "warning" |}]
  else [].

Definition HandlePacketLive (d : Decoder) (pkt : Packet) : res (Decoder * Packet * option DecodedPacket) :=
  ok ← admits pkt;
  if negb ok then Ok (d, pkt, None)
  else
    '(d, pkt, o) ← parseHTTP2 d pkt;
    match o with
    | None => Ok (d, pkt, None)
    | Some rec =>
      Ok (d, pkt, Some {| D_Packet := pkt; D_Protocol := "HTTP2"; D_Summary := buildSummary (r_fields rec);
                          D_Metadata := record_metrics (r_fields rec); D_Errors := live_errors (r_fields rec) |})
    end.

Definition record_flow (rec : http2Record) : Flow :=
  {| FlowID := cat ["http2-"; r_SrcIP rec; "-"; fmt_d (r_SrcPort rec); "-"; fmt_d (r_FrameNum rec)];
     Type_ := if IsSBI (r_fields rec) then FlowSBI else FlowHTTP2; F_SrcIP := r_SrcIP rec; F_DstIP := r_DstIP rec;
     F_SrcPort := r_SrcPort rec; F_DstPort := r_DstPort rec; StartTime := r_Timestamp rec;
     EndTime := r_Timestamp rec; Metrics := record_metrics (r_fields rec) |}.

Definition Flush (d : Decoder) : list Flow := record_flow <$> records d.

End decoder.

(** ** Lengths: where the decoder is safe *)

(** No eight bytes in a row have their high bit set. *)
Definition no_long_run (data : list byte) : Prop :=
  forall i, 0 <= i -> i + 8 <= zlen data -> exists j b, i <= j < i + 8 /\ idx data j = Ok b /\ u8 b < 128.

Definition short_runs (data : list byte) : bool :=
  forallb (fun i => existsb (fun b => u8 b <? 128) (take 8 (drop i data))) (seq 0 (length data - 7)).
Lemma short_runs_spec data : short_runs data = true -> no_long_run data.
Proof.
  unfold short_runs. rewrite forallb_forall. intros Hall i Hi Hlen. unfold zlen in Hlen.
  specialize (Hall (Z.to_nat i)). rewrite existsb_exists in Hall.
  destruct Hall as (b & Hb & Hlt); [apply in_seq; lia|]. apply list_elem_of_In, list_elem_of_lookup in Hb as [k Hk].
  assert (k < 8)%nat as Hk8 by (apply lookup_lt_Some in Hk; rewrite length_take in Hk; lia).
  rewrite lookup_take_lt, lookup_drop in Hk by done. exists (i + Z.of_nat k), b. split_and!; [lia|lia| |lia].
  apply idx_lookup; [lia|]. by replace (Z.to_nat (i + Z.of_nat k)) with (Z.to_nat i + k)%nat by lia.
Qed.

Lemma land_7f b : Z.land (u8 b) 0x7F = u8 b mod 128.
Proof. apply (Z.land_ones _ 7). lia. Qed.

Lemma land_80 b : (Z.land (u8 b) 0x80 =? 0) = (u8 b <? 128).
Proof.
  assert (forallb (fun z => Bool.eqb (Z.land z 0x80 =? 0) (z <? 128)) (seqZ 0 256) = true) as Hall by by vm_compute.
  rewrite forallb_forall in Hall. apply Bool.eqb_prop, Hall. rewrite <-list_elem_of_In. apply elem_of_seqZ.
  pose proof (u8_range b). lia.
Qed.

Lemma i64_in z : 0 <= z < 2 ^ 63 -> i64 z = z.
Proof. intros Hz. apply swrap_small; cbn in *; lia. Qed.

(** The start of a step adds seven bits to what is read. *)
Lemma seven_bits b k val : 0 <= k <= 7 -> 0 <= val < 128 + 2 ^ (7 * k) ->
  let val' := i64 (val + i64 (Z.shiftl (Z.land (u8 b) 0x7F) (7 * k))) in
  val' = val + u8 b mod 128 * 2 ^ (7 * k) /\ 0 <= val' < 128 + 2 ^ (7 * (k + 1)).
Proof.
  intros Hk Hv. cbv zeta. rewrite land_7f, Z.shiftl_mul_pow2 by lia.
  pose proof (Z.mod_pos_bound (u8 b) 128 ltac:(lia)). set (x := u8 b mod 128) in *. clearbody x.
  set (p := 2 ^ (7 * k)) in *. assert (0 < p) by (apply Z.pow_pos_nonneg; lia).
  assert (2 ^ (7 * (k + 1)) = 128 * p) as Hp.
  { unfold p. replace (7 * (k + 1)) with (7 + 7 * k) by lia. by rewrite Z.pow_add_r by lia. }
  assert (p <= 2 ^ 49) by (unfold p; apply Z.pow_le_mono_r; lia). change (2 ^ 49) with 562949953421312 in *.
  rewrite Hp. rewrite (i64_in (x * p)) by (cbn; nia). rewrite i64_in by (cbn; nia). nia.
Qed.

Lemma readHPACKInt_safe data offset bits : no_long_run data -> 0 <= offset < zlen data -> 5 <= bits <= 7 ->
  returns (readHPACKInt data offset bits) (fun '(v, o) => 0 <= v < 2 ^ 57 /\ offset < o <= zlen data).
Proof.
  intros Hrun Ho Hb. unfold readHPACKInt. rewrite (proj2 (Z.leb_gt _ _)) by lia.
  run_step. apply returns_idx; [lia|]. intros b _. cbv zeta.
  assert (Z.shiftl 1 bits - 1 = Z.ones bits) as -> by (unfold Z.ones; lia).
  rewrite Z.land_ones by lia. assert (Z.ones bits = 2 ^ bits - 1) as -> by (rewrite Z.ones_equiv; lia).
  assert (2 ^ 5 <= 2 ^ bits <= 2 ^ 7) as Hp by (split; apply Z.pow_le_mono_r; lia).
  change (2 ^ 5) with 32 in Hp. change (2 ^ 7) with 128 in Hp.
  pose proof (Z.mod_pos_bound (u8 b) (2 ^ bits) ltac:(lia)) as Hm.
  destruct (Z.ltb_spec (u8 b mod 2 ^ bits) (2 ^ bits - 1)); [change (2 ^ 57) with 144115188075855872; cbn; lia|].
  apply (returns_loop
    (fun '(o, v, s) => exists k, 0 <= k <= 7 /\ s = 7 * k /\ o = offset + 1 + k /\ 0 <= v < 128 + 2 ^ s /\
       o <= zlen data /\ forall j, offset + 1 <= j < o -> exists c, idx data j = Ok c /\ 128 <= u8 c)
    (fun '(o, _, _) => Z.to_nat (zlen data - o))).
  - intros [[o v] s] (k & Hk & -> & -> & Hv & Hle & Hhigh). unfold int_body.
    destruct (Z.ltb_spec (offset + 1 + k) (zlen data)).
    + run_step. apply returns_idx; [lia|]. intros c Hc%idx_lookup; [|lia]. cbv zeta.
      destruct (seven_bits c k v Hk Hv) as [Hv' Hb']. rewrite land_80.
      assert (2 ^ (7 * (k + 1)) <= 2 ^ 56) by (apply Z.pow_le_mono_r; lia).
      change (2 ^ 56) with 72057594037927936 in *. change (2 ^ 57) with 144115188075855872.
      destruct (Z.ltb_spec (u8 c) 128); [cbn [returns]; lia|]. cbn [returns].
      assert (forall j, offset + 1 <= j < offset + 1 + k + 1 -> exists c, idx data j = Ok c /\ 128 <= u8 c) as Hh'.
      { intros j Hj. destruct (decide (j = offset + 1 + k)) as [->|]; [eauto|]. apply Hhigh. lia. }
      assert (k <> 7) as Hk7.
      { intros ->. destruct (Hrun (offset + 1)) as (j & x & Hj & Hx & Hlt); [lia..|].
        destruct (Hh' j) as (y & Hy & ?); [lia|]. rewrite Hx in Hy. injection Hy as ->. lia. }
      split; [|lia]. exists (k + 1). replace (7 * k + 7) with (7 * (k + 1)) by lia. split_and!; (lia || done).
    + cbn [returns]. assert (2 ^ (7 * k) <= 2 ^ 49) by (apply Z.pow_le_mono_r; lia).
      change (2 ^ 49) with 562949953421312 in *. change (2 ^ 57) with 144115188075855872. lia.
  - exists 0. split_and!; (lia || (cbn; lia) || (intros; lia)).
  - unfold zlen. lia.
Qed.

Lemma readHPACKString_safe data offset : no_long_run data -> zlen data < 2 ^ 62 -> 0 <= offset ->
  returns (readHPACKString data offset) (fun '(_, o) => offset <= o /\ (offset <= zlen data -> o <= zlen data)).
Proof.
  intros Hrun Hmax Ho. unfold readHPACKString. destruct (Z.leb_spec (zlen data) offset); [cbn; lia|].
  apply returns_bind. eapply returns_weaken; [apply readHPACKInt_safe; (done || lia)|].
  intros [n o] [Hn Ho']. cbv beta iota. change (2 ^ 57) with 144115188075855872 in Hn.
  change (2 ^ 62) with 4611686018427387904 in Hmax. rewrite i64_in by (cbn; lia).
  destruct (Z.ltb_spec (zlen data) (o + n)); [cbn; lia|].
  run_step. apply returns_slice; [lia|]. cbn. lia.
Qed.

Section safe.
Context `{Unicode}.

Lemma literal_safe data i n s : no_long_run data -> zlen data < 2 ^ 62 -> 0 <= i ->
  returns (literal data i n s) (fun '(j, _) => i <= j).
Proof.
  intros Hrun Hmax Hi. unfold literal. destruct (n =? 0).
  - apply returns_bind. eapply returns_weaken; [by apply readHPACKString_safe|]. intros [a j] [Hj _].
    apply returns_bind. eapply returns_weaken; [apply readHPACKString_safe; (done || lia)|]. intros [v k] [Hk _].
    cbn. lia.
  - apply returns_bind. eapply returns_weaken; [by apply readHPACKString_safe|]. intros [v j] [Hj _]. cbn. lia.
Qed.

Lemma parseHPACKLiterals_safe data s : no_long_run data -> zlen data < 2 ^ 62 ->
  returns (parseHPACKLiterals data s) (fun _ => True).
Proof.
  intros Hrun Hmax. unfold parseHPACKLiterals.
  apply (returns_loop (fun '(i, _) => 0 <= i) (fun '(i, _) => Z.to_nat (zlen data - i))); [|lia|unfold zlen; lia].
  intros [i s'] Hi. unfold hpack_body. destruct (Z.ltb_spec i (zlen data)); [|done].
  run_step. apply returns_idx; [lia|]. intros b _. cbv zeta.
  run_step; [cbn; lia|]. run_step; [|run_step].
  - apply returns_bind. eapply returns_weaken; [apply literal_safe; (done || lia)|]. intros [j s''] Hj. cbn. lia.
  - apply returns_bind. eapply returns_weaken; [apply readHPACKInt_safe; (done || lia)|]. intros [v j] [_ Hj].
    cbn. lia.
  - apply returns_bind. eapply returns_weaken; [apply literal_safe; (done || lia)|]. intros [j s''] Hj. cbn. lia.
Qed.

Lemma no_long_run_slice data a b : 0 <= a <= b -> b <= zlen data -> no_long_run data -> no_long_run (sub data a b).
Proof.
  intros Ha Hb Hrun i Hi Hlen. rewrite zlen_sub in Hlen by lia.
  destruct (Hrun (a + i)) as (j & x & Hj & Hx & Hlt); [lia..|].
  exists (j - a), x. split_and!; [lia|lia| |done]. apply idx_Ok_inv in Hx as [_ Hx].
  apply idx_lookup; [lia|]. unfold sub. rewrite lookup_take_drop by lia.
  by replace (Z.to_nat a + Z.to_nat (j - a))%nat with (Z.to_nat j) by lia.
Qed.

Lemma parse_frames_safe payload : no_long_run payload -> zlen payload < 2 ^ 62 ->
  returns (parse_frames payload) (fun _ => True).
Proof.
  intros Hrun Hmax. unfold parse_frames.
  apply (returns_loop (fun '(i, _) => 0 <= i) (fun '(i, _) => Z.to_nat (zlen payload - i))).
  - intros [o r] Ho. unfold frame_body. destruct (Z.leb_spec (o + 9) (zlen payload)); [|done].
    do 3 (run_step; apply returns_idx; [lia|]; intros ? _). cbv zeta. rewrite be24_lor.
    match goal with |- context [be ?l] => pose proof (be_range l) as Hlen; set (n := be l) in * end.
    run_step. apply returns_idx; [lia|]. intros ft _. run_step. apply returns_rd_be; [lia|]. intros w _ _.
    set (e := if _ <? _ then _ else _). assert (o + 9 <= e <= zlen payload) by (unfold e; case_match; lia).
    run_step. apply returns_slice; [lia|]. apply (returns_bind_weak _ _ (fun _ => True)).
    + unfold frame_switch. repeat case_match; try done. run_step.
      eapply returns_weaken; [apply parseHPACKLiterals_safe|done].
      * apply no_long_run_slice; (done || lia).
      * rewrite zlen_sub by lia. lia.
    + intros r' _. destruct (Z.leb_spec (zlen payload) (o + (9 + n))); cbn [returns]; [done|lia].
  - unfold frames_offset. case_match; lia.
  - unfold frames_offset, zlen. case_match; lia.
Qed.

Lemma isHTTP2Preface_returns payload : returns (isHTTP2Preface payload) (fun _ => True).
Proof. unfold isHTTP2Preface. run_reads. Qed.

Lemma http2_handle_returns d pkt : no_long_run (Payload pkt) -> zlen (Payload pkt) < 2 ^ 62 ->
  returns (HandlePacket d pkt) (fun '(d', _) =>
    exists l, records d' = records d ++ l /\ (length l <= 1)%nat).
Proof.
  intros Hrun Hmax. unfold HandlePacket, admits. apply (returns_bind_weak _ _ (fun _ => True)).
  { apply (returns_bind_weak _ _ (fun _ => True)); [|done]. case_match; [done|apply isHTTP2Preface_returns]. }
  intros ok _. destruct ok; cbn [negb].
  2:{ exists []. rewrite app_nil_r. split; [done|cbn; lia]. }
  unfold parseHTTP2. apply returns_bind. apply returns_bind. eapply returns_weaken; [by apply parse_frames_safe|].
  intros r _. apply returns_bind. eapply returns_weaken; [apply isHTTP2Preface_returns|]. intros pre _.
  case_match; cbn.
  - exists []. rewrite app_nil_r. split; [done|cbn; lia].
  - by exists [mk_record pkt r].
Qed.
End safe.

(** ** Header blocks on the wire (RFC 7541, without Huffman coding) *)

(** The bytes of an integer after a full prefix, the least significant first. *)
Fixpoint encode_rest (n : nat) (m : Z) : list byte :=
  match n with
  | O => [byte_of m]
  | S n => if m <? 128 then [byte_of m] else byte_of (128 + m mod 128) :: encode_rest n (m / 128)
  end.

Definition encode_int (bits base v : Z) : list byte :=
  let mask := Z.ones bits in
  if v <? mask then [byte_of (base + v)] else byte_of (base + mask) :: encode_rest 7 (v - mask).

Definition encode_string (s : list byte) : list byte := encode_int 7 0 (zlen s) ++ s.

(** The three kinds of literals, by their first byte. *)
Inductive indexing := Incremental | Without | Never.
Definition kind_byte (k : indexing) : Z := match k with Incremental => 0x40 | Without => 0 | Never => 0x10 end.
Definition kind_mask (k : indexing) : Z := match k with Incremental => 63 | _ => 15 end.

Inductive field :=
  | Indexed (i : Z)
  | SizeUpdate (n : Z)
  | Named (k : indexing) (name value : list byte)
  | NameIndex (k : indexing) (i : Z) (value : list byte).

Definition encode_field (f : field) : list byte :=
  match f with
  | Indexed i => [byte_of (0x80 + i)]
  | SizeUpdate n => encode_int 5 0x20 n
  | Named k name value => byte_of (kind_byte k) :: encode_string name ++ encode_string value
  | NameIndex k i value => byte_of (kind_byte k + i) :: encode_string value
  end.

Definition size_ok (n : Z) : bool := (0 <=? n) && (n <? 2 ^ 48).

(** Indices that fit into the first byte. *)
Definition field_ok (f : field) : bool :=
  match f with
  | Indexed i => (0 <=? i) && (i <? 127)
  | SizeUpdate n => size_ok n
  | Named _ name value => size_ok (zlen name) && size_ok (zlen value)
  | NameIndex k i value => (0 <? i) && (i <? kind_mask k) && size_ok (zlen value)
  end.

Definition encode_fields (l : list field) : list byte := mjoin (encode_field <$> l).

(** What a field does to a stream. *)
Definition means `{Unicode} (s : http2Stream) (f : field) : http2Stream :=
  match f with
  | Indexed _ | SizeUpdate _ => s
  | Named _ name value => applyHeader (gostr name) (gostr value) s
  | NameIndex _ i value => applyIndexedNameHeader i (gostr value) s
  end.

(** *** Integers *)

Lemma int_loop data n m o v k fuel :
  0 <= m < 128 ^ Z.of_nat (S n) -> 0 <= k -> k + Z.of_nat n <= 7 -> 0 <= v < 128 + 2 ^ (7 * k) ->
  holds_at data o (encode_rest n m) -> (n < fuel)%nat ->
  loop fuel (int_body data) (o, v, 7 * k) = Ok (v + m * 2 ^ (7 * k), o + zlen (encode_rest n m)).
Proof.
  revert m o v k fuel. induction n as [|n IH]; intros m o v k fuel Hm Hk Hkn Hv Hat Hf; (destruct fuel as [|fuel]; [lia|]).
  - cbn [encode_rest] in *. pose proof (holds_at_bound _ _ _ Hat) as Hb. change (zlen [byte_of m]) with 1 in *.
    change (128 ^ Z.of_nat 1) with 128 in Hm. apply holds_at_cons in Hat as [Hi _]. apply loop_done. unfold int_body.
    replace (o <? zlen data) with true by lia. rewrite Hi. cbn [mbind res_bind]. cbv zeta.
    destruct (seven_bits (byte_of m) k v ltac:(lia) Hv) as [-> _]. rewrite land_80, u8_byte_of by lia.
    replace (m <? 128) with true by lia. by rewrite Z.mod_small by lia.
  - cbn [encode_rest] in *. pose proof (holds_at_bound _ _ _ Hat) as Hb. destruct (Z.ltb_spec m 128) as [Hs|Hs].
    + change (zlen [byte_of m]) with 1 in *. apply holds_at_cons in Hat as [Hi _]. apply loop_done. unfold int_body.
      replace (o <? zlen data) with true by lia. rewrite Hi. cbn [mbind res_bind]. cbv zeta.
      destruct (seven_bits (byte_of m) k v ltac:(lia) Hv) as [-> _]. rewrite land_80, u8_byte_of by lia.
      replace (m <? 128) with true by lia. by rewrite Z.mod_small by lia.
    + rewrite zlen_cons in *. pose proof (zlen_nonneg (encode_rest n (m / 128))).
      apply holds_at_cons in Hat as [Hi Hat]. pose proof (Z.mod_pos_bound m 128 ltac:(lia)) as Hmod.
      set (c := byte_of (128 + m mod 128)) in *.
      assert (u8 c = 128 + m mod 128) as Hc by (apply u8_byte_of; lia).
      destruct (seven_bits c k v ltac:(lia) Hv) as [Hv1 Hv2]. rewrite Hv1 in Hv2.
      assert (u8 c mod 128 = m mod 128) as Hcm.
      { rewrite Hc. symmetry. apply (Z.mod_unique _ 128 1); lia. }
      rewrite Hcm in Hv1, Hv2.
      rewrite (loop_next _ _ _ (o + 1, v + m mod 128 * 2 ^ (7 * k), 7 * (k + 1))).
      * rewrite (IH (m / 128)); [|..].
        -- f_equal. f_equal; [|lia]. replace (7 * (k + 1)) with (7 + 7 * k) by lia. rewrite Z.pow_add_r by lia.
           change (2 ^ 7) with 128. pose proof (Z.div_mod m 128 ltac:(lia)). nia.
        -- rewrite (Nat2Z.inj_succ (S n)), Z.pow_succ_r in Hm by lia.
           split; [apply Z.div_pos; lia|apply Z.div_lt_upper_bound; lia].
        -- lia.
        -- lia.
        -- exact Hv2.
        -- done.
        -- lia.
      * unfold int_body. replace (o <? zlen data) with true by lia. rewrite Hi. cbn [mbind res_bind]. cbv zeta.
        rewrite Hv1, land_80, Hc. replace (128 + m mod 128 <? 128) with false by lia.
        do 3 f_equal. lia.
Qed.

Lemma readHPACKInt_wire data o bits base v : 5 <= bits <= 7 -> 0 <= base -> base mod 2 ^ bits = 0 ->
  base + 2 ^ bits <= 256 -> 0 <= v < 2 ^ 48 + 128 -> holds_at data o (encode_int bits base v) ->
  readHPACKInt data o bits = Ok (v, o + zlen (encode_int bits base v)).
Proof.
  intros Hbits Hbase Hmod Hmax Hv Hat. pose proof (holds_at_bound _ _ _ Hat) as Hb.
  unfold encode_int in *. cbv zeta in *.
  assert (2 ^ 5 <= 2 ^ bits <= 2 ^ 7) as Hp by (split; apply Z.pow_le_mono_r; lia).
  change (2 ^ 5) with 32 in Hp. change (2 ^ 7) with 128 in Hp.
  assert (Z.ones bits = 2 ^ bits - 1) as Hones by (rewrite Z.ones_equiv; lia).
  assert (forall x, 0 <= x < 2 ^ bits -> Z.land (base + x) (Z.shiftl 1 bits - 1) = x) as Hland.
  { intros x Hx. replace (Z.shiftl 1 bits - 1) with (Z.ones bits) by (unfold Z.ones; lia).
    rewrite Z.land_ones, Z.add_mod, Hmod, Z.add_0_l, Z.mod_mod, Z.mod_small by lia. done. }
  assert (Z.shiftl 1 bits - 1 = Z.ones bits) as Hmask by (unfold Z.ones; lia).
  unfold readHPACKInt. destruct (Z.ltb_spec v (Z.ones bits)) as [Hs|Hs].
  - change (zlen [byte_of (base + v)]) with 1 in *. apply holds_at_cons in Hat as [Hi _].
    rewrite (proj2 (Z.leb_gt _ _)) by lia. rewrite Hi. cbn [mbind res_bind]. cbv zeta.
    rewrite u8_byte_of, Hland by lia. rewrite Hmask. by replace (v <? Z.ones bits) with true by lia.
  - rewrite zlen_cons in *. pose proof (zlen_nonneg (encode_rest 7 (v - Z.ones bits))).
    apply holds_at_cons in Hat as [Hi Hat].
    rewrite (proj2 (Z.leb_gt _ _)) by lia. rewrite Hi. cbn [mbind res_bind]. cbv zeta.
    rewrite u8_byte_of, Hland by lia. rewrite Hmask. rewrite (proj2 (Z.ltb_ge (Z.ones bits) (Z.ones bits))) by lia.
    change (o + 1, Z.ones bits, 0) with (o + 1, Z.ones bits, 7 * 0).
    assert (zlen (encode_rest 7 (v - Z.ones bits)) <= 8) as Hlen8.
    { assert (forall n m, zlen (encode_rest n m) <= Z.of_nat n + 1) as Hl; [|apply (Hl 7%nat)].
      intros n. induction n as [|n IH]; intros m; cbn [encode_rest]; [by vm_compute|].
      destruct (m <? 128); [change (zlen [byte_of m]) with 1; lia|]. rewrite zlen_cons. specialize (IH (m / 128)). lia. }
    assert (forall fuel, (7 < fuel)%nat -> loop fuel (int_body data) (o + 1, Z.ones bits, 7 * 0) =
      Ok (v, o + (1 + zlen (encode_rest 7 (v - Z.ones bits))))) as Hloop.
    { intros fuel Hf. change (2 ^ 48) with 281474976710656 in Hv.
      rewrite (int_loop data 7 (v - Z.ones bits)); [f_equal; f_equal; cbn; lia| |lia|lia|cbn; lia|done|done].
      change (128 ^ Z.of_nat 8) with 72057594037927936. lia. }
    destruct (decide (7 < S (length data))%nat) as [Hf|Hf]; [by apply Hloop|].
    (* a short buffer: the loop ends before its fuel does *)
    assert (exists r, loop (S (length data)) (int_body data) (o + 1, Z.ones bits, 7 * 0) = Ok r) as [r Hr].
    { pose proof (holds_at_bound _ _ _ Hat) as [Ho1 _].
      destruct (returns_inv (loop (S (length data)) (int_body data) (o + 1, Z.ones bits, 7 * 0)) (fun _ => True)) as (r & Hr & _);
        [|eauto].
      apply (returns_loop (fun '(i, _, _) => 0 <= i) (fun '(i, _, _) => Z.to_nat (zlen data - i))); [|lia|unfold zlen; lia].
      intros [[i w] s] Hi'. unfold int_body. destruct (Z.ltb_spec i (zlen data)); [|done].
      run_step. apply returns_idx; [lia|]. intros c _. cbv zeta. run_step; cbn; [done|lia]. }
    rewrite Hr. rewrite <-(Hloop 8%nat ltac:(lia)). symmetry. apply (loop_mono _ _ _ _ _ Hr). lia.
Qed.

(** *** Strings and fields *)

Lemma encode_int_head bits base v : 5 <= bits <= 7 -> 0 <= v ->
  exists c t, encode_int bits base v = byte_of c :: t /\ base <= c < base + 2 ^ bits.
Proof.
  intros Hb Hv. unfold encode_int. cbv zeta. assert (Z.ones bits = 2 ^ bits - 1) as Ho by (rewrite Z.ones_equiv; lia).
  assert (0 < 2 ^ bits) by (apply Z.pow_pos_nonneg; lia).
  destruct (Z.ltb_spec v (Z.ones bits)); eexists _, _; (split; [done|lia]).
Qed.

Lemma readHPACKString_wire data o s : size_ok (zlen s) = true -> zlen data < 2 ^ 62 ->
  holds_at data o (encode_string s) -> readHPACKString data o = Ok (gostr s, o + zlen (encode_string s)).
Proof.
  intros Hs Hmax Hat. pose proof (holds_at_bound _ _ _ Hat) as Hb. pose proof (zlen_nonneg s).
  unfold size_ok in Hs. unfold encode_string in *. rewrite zlen_app in *.
  apply holds_at_app in Hat as [Hint Hat].
  destruct (encode_int_head 7 0 (zlen s)) as (c & t & E & _); [lia..|].
  assert (0 < zlen (encode_int 7 0 (zlen s))) by (rewrite E, zlen_cons; pose proof (zlen_nonneg t); lia).
  unfold readHPACKString. rewrite (proj2 (Z.leb_gt _ _)) by lia.
  change (2 ^ 48) with 281474976710656 in Hs. change (2 ^ 62) with 4611686018427387904 in Hmax.
  rewrite (readHPACKInt_wire data o 7 0 (zlen s)); [|lia|lia|done|cbn; lia|cbn; lia|done].
  cbn [mbind res_bind]. rewrite i64_in by (cbn; lia). rewrite (proj2 (Z.ltb_ge _ _)) by lia.
  rewrite (holds_at_slice _ _ _ Hat). cbn [mbind res_bind]. do 2 f_equal. lia.
Qed.

Lemma land_40 b : (Z.land (u8 b) 0x40 =? 0) = (u8 b mod 128 <? 64).
Proof.
  assert (forallb (fun z => Bool.eqb (Z.land z 0x40 =? 0) (z mod 128 <? 64)) (seqZ 0 256) = true) as Hall by by vm_compute.
  rewrite forallb_forall in Hall. apply Bool.eqb_prop, Hall. rewrite <-list_elem_of_In. apply elem_of_seqZ.
  pose proof (u8_range b). lia.
Qed.

Lemma land_20 b : (Z.land (u8 b) 0x20 =? 0) = (u8 b mod 64 <? 32).
Proof.
  assert (forallb (fun z => Bool.eqb (Z.land z 0x20 =? 0) (z mod 64 <? 32)) (seqZ 0 256) = true) as Hall by by vm_compute.
  rewrite forallb_forall in Hall. apply Bool.eqb_prop, Hall. rewrite <-list_elem_of_In. apply elem_of_seqZ.
  pose proof (u8_range b). lia.
Qed.

(** What the first byte of a literal says. *)
Lemma literal_byte k i : 0 <= i < kind_mask k ->
  let b := u8 (byte_of (kind_byte k + i)) in
  (b <? 128) = true /\ (b mod 128 <? 64) = (match k with Incremental => false | _ => true end) /\
  (b mod 64 <? 32) = (match k with Incremental => b mod 64 <? 32 | _ => true end) /\
  Z.land b (kind_mask k) = i.
Proof.
  intros Hi. cbv zeta. assert (0 <= kind_byte k + i < 128) as Hr by (destruct k; cbn in *; lia).
  rewrite u8_byte_of by lia.
  destruct k; cbn [kind_byte kind_mask] in *.
  - change 63 with (Z.ones 6). rewrite Z.land_ones by lia. change (2 ^ 6) with 64.
    assert ((64 + i) mod 128 = 64 + i) as -> by (apply Z.mod_small; lia).
    assert ((64 + i) mod 64 = i) as -> by (symmetry; apply (Z.mod_unique _ 64 1); lia). split_and!; lia.
  - change 15 with (Z.ones 4). rewrite Z.land_ones by lia. change (2 ^ 4) with 16. rewrite Z.add_0_l, !Z.mod_small by lia.
    split_and!; lia.
  - change 15 with (Z.ones 4). rewrite Z.land_ones by lia. change (2 ^ 4) with 16.
    rewrite (Z.mod_small _ 128), (Z.mod_small _ 64) by lia.
    assert ((16 + i) mod 16 = i) as -> by (symmetry; apply (Z.mod_unique _ 16 1); lia). split_and!; lia.
Qed.

Section fields.
Context `{Unicode}.

Lemma hpack_body_literal data i k n s : 0 <= n < kind_mask k -> idx data i = Ok (byte_of (kind_byte k + n)) ->
  hpack_body data (i, s) = r ← literal data (i + 1) n s; Ok (Next r).
Proof.
  intros Hn Hi. apply idx_Ok_inv in Hi as Hb. unfold hpack_body. replace (i <? zlen data) with true by lia.
  rewrite Hi. cbn [mbind res_bind]. cbv zeta. destruct (literal_byte k n Hn) as (H1 & H2 & H3 & H4).
  cbv zeta in *. rewrite land_80, land_40, land_20, H1, H2. cbn [negb].
  destruct k; cbn [negb kind_mask] in *; [by rewrite H4|by rewrite H3, H4|by rewrite H3, H4].
Qed.

Lemma field_wire data i s f : field_ok f = true -> zlen data < 2 ^ 62 -> holds_at data i (encode_field f) ->
  hpack_body data (i, s) = Ok (Next (i + zlen (encode_field f), means s f)).
Proof.
  intros Hok Hmax Hat. pose proof (holds_at_bound _ _ _ Hat) as Hb. destruct f as [n|n|k name value|k n value]; cbn [encode_field field_ok means] in *.
  - change (zlen [_]) with 1 in *. apply holds_at_cons in Hat as [Hi _]. unfold hpack_body.
    replace (i <? zlen data) with true by lia. rewrite Hi. cbn [mbind res_bind]. cbv zeta.
    rewrite land_80, u8_byte_of by lia. by replace (128 + n <? 128) with false by lia.
  - unfold size_ok in Hok. destruct (encode_int_head 5 32 n) as (c & t & E & Hc); [lia..|].
    change (2 ^ 5) with 32 in Hc. change (2 ^ 48) with 281474976710656 in Hok.
    assert (idx data i = Ok (byte_of c)) as Hi by (rewrite E in Hat; by apply holds_at_cons in Hat as [? _]).
    unfold hpack_body. rewrite E, zlen_cons in Hb. pose proof (zlen_nonneg t).
    replace (i <? zlen data) with true by lia. rewrite Hi. cbn [mbind res_bind]. cbv zeta.
    rewrite land_80, land_40, land_20, u8_byte_of by lia.
    rewrite (Z.mod_small c 128), (Z.mod_small c 64) by lia.
    replace (c <? 128) with true by lia. replace (c <? 64) with true by lia. replace (c <? 32) with false by lia.
    cbn [negb]. rewrite (readHPACKInt_wire data i 5 32 n); [done|lia|lia|done|cbn; lia|cbn; lia|done].
  - rewrite zlen_cons, zlen_app in *. apply holds_at_cons in Hat as [Hi Hat].
    rewrite <-(Z.add_0_r (kind_byte k)) in Hi.
    rewrite (hpack_body_literal data i k 0 s) by (done || destruct k; cbn; lia).
    apply andb_true_iff in Hok as [Hn Hv]. apply holds_at_app in Hat as [Hname Hval]. unfold literal. cbn [Z.eqb].
    rewrite (readHPACKString_wire _ _ _ Hn Hmax Hname). cbn [mbind res_bind].
    rewrite (readHPACKString_wire _ _ _ Hv Hmax Hval). cbn [mbind res_bind]. do 3 f_equal. lia.
  - rewrite zlen_cons in *. apply holds_at_cons in Hat as [Hi Hat].
    rewrite (hpack_body_literal data i k n s) by (done || lia).
    unfold literal. replace (n =? 0) with false by lia. apply andb_true_iff in Hok as [_ Hv].
    rewrite (readHPACKString_wire _ _ _ Hv Hmax Hat). cbn [mbind res_bind]. do 3 f_equal. lia.
Qed.

Lemma encode_fields_cons f l : encode_fields (f :: l) = encode_field f ++ encode_fields l.
Proof. done. Qed.

Lemma encode_field_nonempty f : field_ok f = true -> 0 < zlen (encode_field f).
Proof.
  destruct f as [n|n|k name value|k n value]; cbn [encode_field field_ok]; intros Hok.
  - done.
  - unfold size_ok in Hok. destruct (encode_int_head 5 32 n) as (c & t & -> & _); [lia..|]. rewrite zlen_cons.
    pose proof (zlen_nonneg t). lia.
  - rewrite zlen_cons. pose proof (zlen_nonneg (encode_string name ++ encode_string value)). lia.
  - rewrite zlen_cons. pose proof (zlen_nonneg (encode_string value)). lia.
Qed.

Lemma parseHPACKLiterals_wire l s : forallb field_ok l = true -> zlen (encode_fields l) < 2 ^ 62 ->
  parseHPACKLiterals (encode_fields l) s = Ok (foldl means s l).
Proof.
  intros Hok Hmax. unfold parseHPACKLiterals. set (data := encode_fields l) in *.
  set (step := fun (st : Z * http2Stream) f => (fst st + zlen (encode_field f), means (snd st) f)).
  assert (forall k st, snd (foldl step st k) = foldl means (snd st) k) as Hfold.
  { intros k. induction k as [|f k IH]; intros st; [done|]. cbn [foldl]. by rewrite IH. }
  rewrite (loop_foldl (fun st k => forallb field_ok k = true /\ holds_at data (fst st) (encode_fields k) /\
      fst st + zlen (encode_fields k) = zlen data) step snd) with (l := l).
  - by rewrite Hfold.
  - intros [i s'] f k (Hk & Hat & Hend). cbn [fst forallb] in *. apply andb_true_iff in Hk as [Hf Hk].
    rewrite encode_fields_cons, zlen_app in *. apply holds_at_app in Hat as [Hat Hnext].
    split; [by rewrite (field_wire _ _ _ _ Hf Hmax Hat)|]. cbn [step fst snd]. split_and!; [done|done|lia].
  - intros [i s'] (_ & _ & Hend). change (zlen (encode_fields [])) with 0 in Hend. cbn [fst] in Hend.
    unfold hpack_body. by replace (i <? zlen data) with false by lia.
  - cbn [fst]. split_and!; [done|apply holds_at_self|unfold data; lia].
  - unfold data. clear -Hok. induction l as [|f l IH]; [cbn; lia|]. cbn [forallb] in Hok.
    apply andb_true_iff in Hok as [Hf Hl]. rewrite encode_fields_cons, length_app.
    pose proof (encode_field_nonempty f Hf). specialize (IH Hl). unfold zlen in *. cbn [length]. lia.
Qed.
End fields.

(** ** Frames on the wire (RFC 9113) *)

Inductive frame :=
  | Headers (flags sid : Z) (l : list field)
  | Data (flags sid : Z) (body : list byte)
  | OtherFrame (t flags sid : Z) (body : list byte).

Definition frame_wire (t flags sid : Z) (body : list byte) : list byte :=
  be_put 3 (zlen body) ++ [byte_of t; byte_of flags] ++ be_put 4 sid ++ body.

Definition encode_frame (f : frame) : list byte :=
  match f with
  | Headers flags sid l => frame_wire 1 flags sid (encode_fields l)
  | Data flags sid body => frame_wire 0 flags sid body
  | OtherFrame t flags sid body => frame_wire t flags sid body
  end.
Definition encode_frames (l : list frame) : list byte := mjoin (encode_frame <$> l).

(** RFC 9113 lets a frame be longer only after a setting that raises the limit
    of 2^14; 2^22 keeps a frame from starting like the preface. *)
Definition body_ok (sid : Z) (body : list byte) : bool := (0 <=? sid) && (sid <? 2 ^ 31) && (zlen body <? 2 ^ 22).
Definition frame_ok (f : frame) : bool :=
  match f with
  | Headers _ sid l => body_ok sid (encode_fields l) && forallb field_ok l
  | Data _ sid body => body_ok sid body
  | OtherFrame t _ sid body => body_ok sid body && (2 <=? t) && (t <? 256)
  end.

Section frames.
Context `{Unicode}.

Definition frame_means (r : frame_fields) (f : frame) : frame_fields :=
  match f with
  | Headers _ sid l =>
      if 0 <? sid then add_headers (classifyStream (foldl means (getOrCreateStream sid r) l)) r else r
  | Data _ _ body => add_data (zlen body) r
  | OtherFrame _ _ _ _ => r
  end.

Lemma zlen_frame_wire t flags sid body : zlen (frame_wire t flags sid body) = 9 + zlen body.
Proof. unfold frame_wire. rewrite !zlen_app, !zlen_be_put. change (zlen [_; _]) with 2. lia. Qed.

(** One frame, and where the next one starts. *)
Lemma frame_body_wire payload o r t flags sid body :
  holds_at payload o (frame_wire t flags sid body) -> body_ok sid body = true -> 0 <= t < 256 ->
  frame_body payload (o, r) =
    (r' ← frame_switch t sid body r;
     if zlen payload <=? o + (9 + zlen body) then Ok (Done r') else Ok (Next (o + (9 + zlen body), r'))).
Proof.
  unfold body_ok. intros Hat Hok Ht. pose proof (holds_at_bound _ _ _ Hat) as Hb. rewrite zlen_frame_wire in Hb.
  pose proof (zlen_nonneg body). change (2 ^ 22) with 4194304 in Hok. change (2 ^ 31) with 2147483648 in Hok.
  unfold frame_wire in Hat.
  apply holds_at_app in Hat as [B0 Hat]. rewrite zlen_be_put in Hat. change (Z.of_nat 3) with 3 in Hat.
  apply holds_at_app in Hat as [B3 Hat]. change (zlen [byte_of t; byte_of flags]) with 2 in Hat.
  apply holds_at_app in Hat as [B5 Hat]. rewrite zlen_be_put in Hat. change (Z.of_nat 4) with 4 in Hat.
  apply holds_at_cons in B3 as [B3 _].
  pose proof (be_be_put 3 (zlen body)) as Hbe. destruct (be_put_3 (zlen body)) as (b1 & b2 & b3 & E).
  rewrite E in B0, Hbe. apply holds_at_cons in B0 as [B0 B1]. apply holds_at_cons in B1 as [B1 B2].
  replace (o + 1 + 1) with (o + 2) in B2 by lia. apply holds_at_cons in B2 as [B2 _].
  unfold frame_body. replace (o + 9 <=? zlen payload) with true by lia.
  rewrite B0, B1, B2. cbn [mbind res_bind]. cbv zeta. rewrite be24_lor, Hbe by (cbn; lia).
  rewrite B3. cbn [mbind res_bind]. replace (o + 3 + 2) with (o + 5) in B5, Hat by lia.
  rewrite (holds_at_put _ _ 4 _ B5) by (cbn; lia). cbn [mbind res_bind].
  change 2147483647 with (Z.ones 31). rewrite Z.land_ones by lia. change (2 ^ 31) with 2147483648.
  rewrite (Z.mod_small sid) by lia. rewrite (proj2 (Z.ltb_ge (zlen payload) _)) by lia.
  replace (o + 5 + 4) with (o + 9) in Hat by lia. rewrite (holds_at_slice _ _ _ Hat). cbn [mbind res_bind].
  by rewrite u8_byte_of by lia.
Qed.

Lemma frame_step payload o r f : frame_ok f = true -> holds_at payload o (encode_frame f) ->
  frame_body payload (o, r) =
    if zlen payload <=? o + zlen (encode_frame f) then Ok (Done (frame_means r f))
    else Ok (Next (o + zlen (encode_frame f), frame_means r f)).
Proof.
  intros Hok Hat. destruct f as [flags sid l|flags sid body|t flags sid body]; cbn [encode_frame frame_ok] in *;
    rewrite zlen_frame_wire.
  - apply andb_true_iff in Hok as [Hok Hl]. rewrite (frame_body_wire _ _ _ _ _ _ _ Hat Hok) by lia.
    cbn [frame_switch frameHEADERS Z.eqb Pos.eqb frame_means]. destruct (0 <? sid); [|done].
    rewrite parseHPACKLiterals_wire; [done|done|]. unfold body_ok in Hok.
    change (2 ^ 22) with 4194304 in Hok. change (2 ^ 62) with 4611686018427387904. lia.
  - by rewrite (frame_body_wire _ _ _ _ _ _ _ Hat Hok) by lia.
  - apply andb_true_iff in Hok as [[Hok H2]%andb_true_iff Ht]. rewrite (frame_body_wire _ _ _ _ _ _ _ Hat Hok) by lia.
    unfold frame_switch, frameHEADERS, frameDATA. replace (t =? 1) with false by lia. by replace (t =? 0) with false by lia.
Qed.

Lemma frame_loop payload frames o r fuel :
  forallb frame_ok frames = true -> holds_at payload o (encode_frames frames) ->
  o + zlen (encode_frames frames) = zlen payload -> (length frames < fuel)%nat ->
  loop fuel (frame_body payload) (o, r) = Ok (foldl frame_means r frames).
Proof.
  revert o r fuel. induction frames as [|f frames IH]; intros o r fuel Hok Hat Hend Hf; (destruct fuel as [|fuel]; [lia|]).
  - change (zlen (encode_frames [])) with 0 in Hend. apply loop_done. unfold frame_body.
    by replace (o + 9 <=? zlen payload) with false by lia.
  - cbn [forallb] in Hok. apply andb_true_iff in Hok as [Hf1 Hok].
    change (encode_frames (f :: frames)) with (encode_frame f ++ encode_frames frames) in *.
    rewrite zlen_app in Hend. apply holds_at_app in Hat as [Hat Hnext].
    pose proof (frame_step payload o r f Hf1 Hat) as Hs.
    destruct (Z.leb_spec (zlen payload) (o + zlen (encode_frame f))).
    + rewrite (loop_done _ _ _ _ Hs). destruct frames as [|g frames]; [done|]. exfalso.
      change (encode_frames (g :: frames)) with (encode_frame g ++ encode_frames frames) in Hend.
      rewrite zlen_app in Hend. pose proof (zlen_nonneg (encode_frames frames)).
      assert (0 < zlen (encode_frame g)); [|lia].
      destruct g; cbn [encode_frame]; rewrite zlen_frame_wire; match goal with |- context [zlen ?l] => pose proof (zlen_nonneg l) end; lia.
    + rewrite (loop_next _ _ _ _ Hs). cbn [foldl length] in *. apply IH; [done|done|lia|lia].
Qed.

(** *** Frames do not look like the preface *)

Lemma frame_wire_offset t flags sid body more : body_ok sid body = true ->
  frames_offset (frame_wire t flags sid body ++ more) = 0.
Proof.
  unfold body_ok. intros Hb. change (2 ^ 22) with 4194304 in Hb. pose proof (zlen_nonneg body).
  unfold frames_offset. case_match eqn:E; [exfalso|done]. apply andb_true_iff in E as [_ E%bool_decide_eq_true].
  apply (f_equal head) in E. cbn in E. injection E as E. apply (f_equal u8) in E.
  rewrite u8_byte_of in E by (apply Z.mod_pos_bound; lia).
  match type of E with _ = ?p => assert (p = 80) as Ep by by vm_compute end. rewrite Ep in E.
  assert (0 <= zlen body / 256 / 256 < 64) as Hd; [|rewrite Z.mod_small in E by lia; lia].
  rewrite Z.div_div by lia. split; [apply Z.div_pos; lia|apply Z.div_lt_upper_bound; lia].
Qed.

Lemma no_preface f frames : frame_ok f = true -> frames_offset (encode_frames (f :: frames)) = 0.
Proof.
  intros Hok. change (encode_frames (f :: frames)) with (encode_frame f ++ encode_frames frames).
  destruct f; cbn [frame_ok encode_frame] in *; apply frame_wire_offset; rewrite ?andb_true_iff in Hok; by destruct_and?.
Qed.

(** A payload of frames, with the client's preface before them or not. *)
Definition http2_payload (preface : bool) (frames : list frame) : list byte :=
  (if preface then connectionPreface else []) ++ encode_frames frames.

Lemma length_encode_frames frames : (length frames <= length (encode_frames frames))%nat.
Proof.
  induction frames as [|f frames IH]; [done|]. change (encode_frames (f :: frames)) with (encode_frame f ++ encode_frames frames).
  rewrite length_app. assert (0 < zlen (encode_frame f)) as Hp.
  { destruct f; cbn [encode_frame]; rewrite zlen_frame_wire; match goal with |- context [zlen ?l] => pose proof (zlen_nonneg l) end; lia. }
  unfold zlen in Hp. cbn [length]. lia.
Qed.

Lemma parse_frames_wire preface frames : forallb frame_ok frames = true -> preface = true \/ frames <> [] ->
  parse_frames (http2_payload preface frames) = Ok (foldl frame_means no_frames frames).
Proof.
  intros Hok Hne. unfold parse_frames, http2_payload.
  assert (frames_offset ((if preface then connectionPreface else []) ++ encode_frames frames) =
    zlen (if preface then connectionPreface else [])) as ->.
  { destruct preface.
    - unfold frames_offset. rewrite zlen_app. change (zlen connectionPreface) with 24.
      replace (24 <=? _) with true by (pose proof (zlen_nonneg (encode_frames frames)); lia).
      change 24%nat with (length connectionPreface). by rewrite take_app_all, bool_decide_true.
    - destruct frames as [|f frames]; [by destruct Hne|]. cbn [forallb] in Hok.
      apply andb_true_iff in Hok as [Hf _]. by apply no_preface. }
  apply frame_loop; [done| |by rewrite zlen_app|].
  - exists (if preface then connectionPreface else []), []. by rewrite app_nil_r.
  - rewrite length_app. pose proof (length_encode_frames frames). lia.
Qed.

(** *** What frames come to *)

(** The stream of every HEADERS frame that has one (0 is the connection). *)
Definition header_streams (l : list frame) : list Z :=
  omap (fun f => match f with Headers _ sid _ => if 0 <? sid then Some sid else None | _ => None end) l.
Definition data_of (f : frame) : Z := match f with Data _ _ body => zlen body | _ => 0 end.
Definition total (g : frame -> Z) (l : list frame) : Z := foldr (fun f acc => g f + acc) 0 l.

Lemma frames_counted l r : let r' := foldl frame_means r l in
  StreamCount r' = StreamCount r + zlen (header_streams l) /\ DataBytes r' = DataBytes r + total data_of l.
Proof.
  cbv zeta. revert r. induction l as [|f l IH]; intros r; cbn [foldl total foldr]; [change (zlen (header_streams [])) with 0; lia|].
  destruct (IH (frame_means r f)) as [-> ->]. fold (total data_of l).
  destruct f; cbn [frame_means data_of header_streams omap list_omap]; [case_match; rewrite ?zlen_cons|..]; cbn; unfold header_streams; lia.
Qed.

Lemma means_StreamID l s : s_StreamID (classifyStream (foldl means s l)) = s_StreamID s.
Proof.
  assert (forall s, s_StreamID (classifyStream s) = s_StreamID s) as Hc.
  { clear. intros s. unfold classifyStream. destruct (String.eqb _ _); [done|]. by destruct (List.find _ _) as [[[? ?] ?]|]. }
  rewrite Hc. revert s. induction l as [|f l IH]; intros s; [done|]. cbn [foldl]. rewrite IH.
  destruct f; cbn [means]; try done; unfold applyIndexedNameHeader, applyHeader; repeat case_match; done.
Qed.

(** The map of streams has one entry per stream, under its identifier. *)
Lemma frames_streams l r : (forall id s, Streams r !! id = Some s -> s_StreamID s = id) ->
  dom (Streams (foldl frame_means r l)) = dom (Streams r) ∪ list_to_set (header_streams l).
Proof.
  revert r. induction l as [|f l IH]; intros r Hid; cbn [foldl]; [cbn; set_solver|].
  destruct f as [fl sid fields|fl sid body|t fl sid body]; cbn [frame_means header_streams omap list_omap];
    [destruct (0 <? sid)|..]; try (rewrite IH by done; done).
  assert (s_StreamID (getOrCreateStream sid r) = sid) as Hs.
  { unfold getOrCreateStream. destruct (Streams r !! sid) as [s|] eqn:E; [by apply Hid|done]. }
  rewrite IH.
  - cbn [Streams add_headers]. rewrite means_StreamID, Hs, dom_insert_L. cbn. set_solver.
  - intros id s. cbn [Streams add_headers]. rewrite means_StreamID, Hs.
    intros [[<- <-]|[_ E]]%lookup_insert_Some; [by rewrite means_StreamID|by apply Hid].
Qed.

Lemma size_distinct (l : list Z) : (size (list_to_set l : gset Z) <= length l)%nat /\
  (size (list_to_set l : gset Z) = length l <-> NoDup l).
Proof.
  induction l as [|x l [IH1 IH2]]; [split; [done|]; split; [constructor|done]|]. cbn [length].
  rewrite list_to_set_cons, NoDup_cons. destruct (decide (x ∈ l)) as [Hx|Hx].
  - assert ({[x]} ∪ list_to_set l = (list_to_set l : gset Z)) as -> by set_solver. split; [lia|]. split; [lia|tauto].
  - rewrite size_union by set_solver. rewrite size_singleton. split; [lia|]. rewrite <-IH2. split; [|intros [_ ?]]; [split; [done|]|]; lia.
Qed.


End frames.

(** ** A length that wraps around, and TLS on the decoder's port *)

(** A literal whose value has a length of ten bytes, which adds up to a
    negative one. *)
Definition length_bomb : list byte := octets ([0x42; 0x7F] ++ replicate 9 0x80 ++ [1]).

Lemma lookup_bomb o : 2 <= o < 11 -> length_bomb !! Z.to_nat o = Some (byte_of 0x80).
Proof.
  intros Ho. assert (o ∈ [2; 3; 4; 5; 6; 7; 8; 9; 10]) as Hin by (rewrite !elem_of_cons; lia).
  repeat (apply elem_of_cons in Hin as [->|Hin]; [done|]). by apply not_elem_of_nil in Hin.
Qed.

Section attacks.
Context `{Unicode}.

Lemma idx_app_bomb i rest : 0 <= i < 12 -> idx (length_bomb ++ rest) i = idx length_bomb i.
Proof.
  intros Hi. destruct (returns_inv (idx length_bomb i) (fun _ => True)) as (b & E & _); [by apply returns_idx|].
  rewrite E. by apply idx_app_l.
Qed.

Lemma zlen_bomb rest : zlen (length_bomb ++ rest) = 12 + zlen rest.
Proof. by rewrite zlen_app. Qed.

Lemma bomb_int rest : readHPACKInt (length_bomb ++ rest) 1 7 = Ok (127 - 2 ^ 63, 12).
Proof.
  pose proof (zlen_nonneg rest).
  assert (forall o k, 2 <= o < 11 -> int_body (length_bomb ++ rest) (o, 127, k) = Ok (Next (o + 1, 127, k + 7))) as Hmore.
  { intros o k Ho. unfold int_body. rewrite zlen_bomb, idx_app_bomb by lia. replace (o <? 12 + zlen rest) with true by lia.
    assert (idx length_bomb o = Ok (byte_of 0x80)) as -> by (apply idx_lookup; [lia|by apply lookup_bomb]).
    cbn [mbind res_bind]. change (Z.land (u8 (byte_of 128)) 127) with 0. by rewrite Z.shiftl_0_l. }
  assert (exists n, S (length (length_bomb ++ rest)) = (11 + n)%nat) as [n Hn].
  { exists (2 + length rest)%nat. by rewrite length_app. }
  unfold readHPACKInt. rewrite zlen_bomb, idx_app_bomb, (proj2 (Z.leb_gt _ _)) by lia.
  change (idx length_bomb 1) with (Ok (byte_of 0x7F)). cbn [mbind res_bind]. cbv zeta.
  change (Z.land (u8 (byte_of 0x7F)) (Z.shiftl 1 7 - 1)) with 127. change (Z.shiftl 1 7 - 1) with 127.
  rewrite Z.ltb_irrefl, Hn. change (1 + 1) with 2. change (11 + n)%nat with (S (S (S (S (S (S (S (S (S (S (S n))))))))))).
  do 9 (erewrite loop_next by (apply Hmore; lia)). apply loop_done.
  match goal with |- int_body _ (?o, _, ?k) = _ => change o with 11; change k with 63 end.
  unfold int_body. rewrite zlen_bomb, idx_app_bomb by lia. replace (11 <? 12 + zlen rest) with true by lia.
  by change (idx length_bomb 11) with (Ok (byte_of 1)).
Qed.

Lemma parse_bomb rest s : parseHPACKLiterals (length_bomb ++ rest) s = Panic.
Proof.
  pose proof (zlen_nonneg rest). unfold parseHPACKLiterals. apply loop_panic.
  unfold hpack_body. rewrite zlen_bomb, idx_app_bomb by lia. replace (0 <? 12 + zlen rest) with true by lia.
  change (idx length_bomb 0) with (Ok (byte_of 0x42)). cbn [mbind res_bind]. cbv zeta.
  change (negb (Z.land (u8 (byte_of 66)) 128 =? 0)) with false. cbv iota.
  change (negb (Z.land (u8 (byte_of 66)) 64 =? 0)) with true. cbv iota.
  unfold literal. change (Z.land (u8 (byte_of 66)) 63 =? 0) with false. cbv iota.
  unfold readHPACKString. change (0 + 1) with 1. rewrite zlen_bomb, (proj2 (Z.leb_gt _ _)), bomb_int by lia.
  cbn [mbind res_bind]. change (i64 (12 + (127 - 2 ^ 63))) with (139 - 2 ^ 63).
  by rewrite (proj2 (Z.ltb_ge _ _)) by (cbn; lia).
Qed.

Lemma bomb_panics d pkt flags sid rest more :
  Payload pkt = frame_wire 1 flags sid (length_bomb ++ rest) ++ more -> body_ok sid (length_bomb ++ rest) = true ->
  0 < sid -> Protocol pkt = "TCP"%string -> isHTTP2Port (SrcPort pkt) (DstPort pkt) = true ->
  HandlePacket d pkt = Panic.
Proof.
  intros Hp Hok Hsid Htcp Hport. unfold HandlePacket, admits. rewrite Hport, Htcp, Hp. cbn [mbind res_bind].
  rewrite String.eqb_refl, zlen_app, zlen_frame_wire.
  pose proof (zlen_nonneg (length_bomb ++ rest)). pose proof (zlen_nonneg more).
  rewrite (proj2 (Z.leb_le 9 _)) by lia. cbn [andb negb]. unfold parseHTTP2, parse_frames. rewrite Hp.
  rewrite (frame_wire_offset _ _ _ _ _ Hok). rewrite loop_panic; [done|].
  rewrite (frame_body_wire _ _ _ 1 flags sid (length_bomb ++ rest) (holds_at_intro [] _ more) Hok) by lia.
  cbn [frame_switch frameHEADERS Z.eqb Pos.eqb]. replace (0 <? sid) with true by lia. by rewrite parse_bomb.
Qed.

(** The decoder handles every packet in which no eight bytes in a row have
    their high bit set, keeping at most one record of it. Without that it does
    not: a HEADERS frame that starts with a literal whose length has ten bytes
    panics it, whatever follows, since the length wraps around to a negative
    one. *)
Theorem http2_lengths_wrap :
  (forall d pkt, no_long_run (Payload pkt) -> zlen (Payload pkt) < 2 ^ 62 ->
     returns (HandlePacket d pkt) (fun '(d', _) => exists l, records d' = records d ++ l /\ (length l <= 1)%nat)) /\
  (forall d pkt flags sid rest more,
     Payload pkt = frame_wire 1 flags sid (length_bomb ++ rest) ++ more -> body_ok sid (length_bomb ++ rest) = true ->
     0 < sid -> Protocol pkt = "TCP"%string -> isHTTP2Port (SrcPort pkt) (DstPort pkt) = true ->
     HandlePacket d pkt = Panic).
Proof. split; [exact http2_handle_returns|exact bomb_panics]. Qed.

(** A TLS record shorter than 256 bytes, on a port of the decoder. *)
Definition tls_record (ct version : Z) (data : list byte) : list byte :=
  byte_of ct :: be_put 2 version ++ be_put 2 (zlen data) ++ data.

(** The content type and the version are read as a length that no packet has,
    and the first byte of the record's length, 0, as the type of a DATA frame. *)
Lemma tls_frame ct version data r : 20 <= ct <= 23 -> 0 <= version < 65536 -> 4 <= zlen data < 256 ->
  frame_body (tls_record ct version data) (0, r) = Ok (Done (add_data (zlen data - 4) r)).
Proof.
  intros Hct Hv Hl. set (payload := tls_record ct version data).
  assert (0 <= version / 256 < 256) as Hq by (split; [apply Z.div_pos; lia|apply Z.div_lt_upper_bound; lia]).
  assert (payload = byte_of ct :: byte_of (version / 256) :: byte_of (version mod 256) :: byte_of 0 ::
    byte_of (zlen data) :: data) as E.
  { unfold payload, tls_record. cbn [be_put app].
    by rewrite (Z.mod_small (version / 256)), (Z.div_small (zlen data)), (Z.mod_small (zlen data)) by lia. }
  assert (zlen payload = 5 + zlen data) as Hlen by (rewrite E, !zlen_cons; lia).
  assert (forall i b, 0 <= i -> payload !! Z.to_nat i = Some b -> idx payload i = Ok b) as Hi by (intros; by apply idx_lookup).
  pose proof (Z.mod_pos_bound version 256 ltac:(lia)).
  unfold frame_body. rewrite (proj2 (Z.leb_le _ _)) by lia.
  rewrite (Hi 0 (byte_of ct)), (Hi (0 + 1) (byte_of (version / 256))), (Hi (0 + 2) (byte_of (version mod 256))),
    (Hi (0 + 3) (byte_of 0))
    by (done || by rewrite E).
  assert ([byte_of ct; byte_of (version / 256); byte_of (version mod 256)] = be_put 3 (ct * 65536 + version)) as E3.
  { cbn [be_put app]. rewrite Z.div_div by lia. change (256 * 256) with 65536.
    rewrite Z.div_add_l, (Z.div_small version 65536), Z.add_0_r, (Z.mod_small ct) by lia.
    replace (ct * 65536 + version) with (ct * 256 * 256 + version) by lia. rewrite Z.div_add_l by lia.
    by rewrite !(Z.add_comm (_ * 256)), !Z.mod_add, (Z.mod_small (version / 256)) by lia. }
  cbn [mbind res_bind]. cbv zeta. rewrite be24_lor, E3, be_be_put by (cbn; lia).
  destruct (returns_inv (rd_be 4 payload (0 + 5)) (fun _ => True)) as (w & -> & _); [apply returns_rd_be; [lia|done]|].
  cbn [mbind res_bind]. rewrite (proj2 (Z.ltb_lt (zlen payload) _)) by lia.
  destruct (returns_inv (slice payload (0 + 9) (zlen payload)) (fun s => zlen s = zlen data - 4)) as (body & -> & Hbody).
  { apply returns_slice; [lia|]. rewrite zlen_sub by lia. lia. }
  cbn [mbind res_bind]. rewrite u8_byte_of by lia. cbn [frame_switch frameHEADERS frameDATA Z.eqb mbind res_bind].
  rewrite Hbody. by rewrite (proj2 (Z.leb_le (zlen payload) _)) by lia.
Qed.

(** So a flow of HTTP/2 is reported for it, with that much data. *)
Lemma tls_taken_for_http2 d pkt ct version data : Payload pkt = tls_record ct version data ->
  20 <= ct <= 23 -> 0 <= version < 65536 -> 5 <= zlen data < 256 ->
  Protocol pkt = "TCP"%string -> isHTTP2Port (SrcPort pkt) (DstPort pkt) = true ->
  HandlePacket d pkt = Ok ({| records := records d ++ [mk_record pkt (add_data (zlen data - 4) no_frames)] |},
                           set_app "HTTP2" "HTTP2" pkt).
Proof.
  intros Hp Hct Hv Hl Htcp Hport. unfold HandlePacket, admits. rewrite Hport, Htcp, Hp. cbn [mbind res_bind].
  assert (zlen (tls_record ct version data) = 5 + zlen data) as Hlen.
  { unfold tls_record. rewrite zlen_cons, !zlen_app, !zlen_be_put. lia. }
  rewrite String.eqb_refl, Hlen, (proj2 (Z.leb_le 9 _)) by lia. cbn [andb negb].
  unfold parseHTTP2, parse_frames. rewrite Hp.
  assert (frames_offset (tls_record ct version data) = 0) as ->.
  { unfold frames_offset. case_match eqn:E; [exfalso|done]. apply andb_true_iff in E as [_ E%bool_decide_eq_true].
    apply (f_equal head) in E. cbn in E. injection E as E. apply (f_equal u8) in E. rewrite u8_byte_of in E by lia.
    match type of E with _ = ?p => assert (p = 80) as Ep by by vm_compute end. lia. }
  rewrite (loop_done _ _ _ _ (tls_frame ct version data no_frames Hct Hv ltac:(lia))). cbn [mbind res_bind].
  destruct (returns_inv _ _ (isHTTP2Preface_returns (tls_record ct version data))) as (b & -> & _). cbn [mbind res_bind].
  cbn [StreamCount DataBytes add_data no_frames]. by rewrite (proj2 (Z.eqb_neq (0 + _) 0)) by lia.
Qed.
End attacks.

(** ** Examples *)

(** A call to the UDM with the preface, its answer, and its body. *)
Definition ex_frames : list frame :=
  [OtherFrame 4 0 0 []; Headers 4 1 [Indexed 6; Named Without (gobytes ":method") (gobytes "PUT");
     NameIndex Incremental 4 (gobytes "/nudm-sdm/v2/imsi-001010000000001")];
   Headers 4 1 [NameIndex Without 8 (gobytes "404")]; Data 1 1 (octets [1; 2; 3])].
Definition ex_h2 (payload : list byte) : Packet := mk_packet 3 "10.0.0.1" "10.0.0.2" 40000 7777 "TCP" payload.


Lemma http2_lengths_wrap_witness : let _ := ascii_only in
  returns (HandlePacket NewDecoder (ex_h2 (encode_frames ex_frames))) (fun '(d, _) => (length (records d) <= 1)%nat) /\
  HandlePacket NewDecoder (ex_h2 (frame_wire 1 4 1 length_bomb)) = Panic.
Proof.
  cbv zeta. destruct (@http2_lengths_wrap ascii_only) as [Hok Hpanic]. split.
  - eapply returns_weaken; [apply Hok|].
    + apply short_runs_spec. by vm_compute.
    + by vm_compute.
    + intros [d p] (l & -> & Hl). exact Hl.
  - apply (Hpanic _ _ 4 1 [] []); [done|by vm_compute|done..].
Defined.
