(* ===== verification/Exchange.v ===== *)
(** * Exchanges: a table of open requests

    The decoders of HTTP/1 and AJP keep the request that is open on a
    connection in a map, keyed by addresses and ports, let packets change it,
    and move it to a list when it ends. [table_step] is such a step, with what
    the event does to one exchange as an argument; [table_project] says that
    connections do not meddle with one another: what the table holds of a key,
    and what of the list belongs to it, come from the events of that key alone. *)
From S2P Require Export Prelude.

Section table.
Context {T E : Type}.

(** What an event does to the open request of its connection: the request that
    is open then, and what is finished by it. *)
Context (converse : option T -> E -> option T * list T).

Definition table_step (s : gmap string T * list T) (ke : string * E) : gmap string T * list T :=
  let '(o, l) := converse (s.1 !! ke.1) ke.2 in (partial_alter (fun _ => o) ke.1 s.1, s.2 ++ l).

(** The same for one connection. *)
Definition exchange_step (c : option T * list T) (e : E) : option T * list T :=
  let '(o, l) := converse c.1 e in (o, c.2 ++ l).

Definition events_of (k : string) (evs : list (string * E)) : list E := (filter (fun ke => ke.1 = k) evs).*2.

(** The key that belongs to a request, and the events that may have a key. *)
Context (key_of : T -> string) (event_ok : string -> E -> Prop).

Definition keyed (k : string) (o : option T) : Prop := forall tx, o = Some tx -> key_of tx = k.

Hypothesis converse_keyed : forall k o e, keyed k o -> event_ok k e ->
  keyed k (converse o e).1 /\ Forall (fun tx => key_of tx = k) (converse o e).2.

Definition of_key (k : string) (l : list T) : list T := filter (fun tx => key_of tx = k) l.

Lemma of_key_all k l : Forall (fun tx => key_of tx = k) l -> of_key k l = l.
Proof. induction 1 as [|tx l Hk _ IH]; [done|]. unfold of_key in *. by rewrite filter_cons_True, IH. Qed.

Lemma of_key_none k k' l : Forall (fun tx => key_of tx = k) l -> k <> k' -> of_key k' l = [].
Proof.
  induction 1 as [|tx l Hk _ IH]; intros Hne; [done|]. unfold of_key in *.
  by rewrite filter_cons_False, IH by congruence.
Qed.

Lemma table_project evs s :
  (forall k, keyed k (s.1 !! k)) -> Forall (fun ke => event_ok ke.1 ke.2) evs ->
  forall k, let s' := foldl table_step s evs in
    (s'.1 !! k, of_key k s'.2) = foldl exchange_step (s.1 !! k, of_key k s.2) (events_of k evs) /\ keyed k (s'.1 !! k).
Proof.
  intros Hs Hok. revert s Hs. induction Hok as [|[k0 e] evs He _ IH]; intros s Hs k; [done|].
  cbv zeta. cbn [foldl]. unfold events_of in *. destruct (converse_keyed k0 (s.1 !! k0) e (Hs k0) He) as [Hk Hl].
  cbn [fst snd] in *. unfold table_step at 2. unfold table_step at 3.
  assert (forall k', keyed k' ((table_step s (k0, e)).1 !! k')) as Hs'.
  { intros k'. unfold table_step. cbn [fst snd]. destruct (converse (s.1 !! k0) e) as [o l]. cbn [fst snd] in *.
    destruct (decide (k' = k0)) as [->|Hne]; [by rewrite lookup_partial_alter_eq|].
    rewrite lookup_partial_alter_ne by done. apply Hs. }
  destruct (IH _ Hs' k) as [IH1 IH2]. fold (table_step s (k0, e)). split; [|done].
  rewrite IH1. clear IH IH1 IH2 Hs'. unfold table_step. cbn [fst snd]. rewrite filter_cons. cbn [fst].
  destruct (converse (s.1 !! k0) e) as [o l] eqn:Ec. cbn [fst snd] in *.
  assert (forall l', of_key k (s.2 ++ l') = of_key k s.2 ++ of_key k l') as -> by (intros; apply filter_app).
  destruct (decide (k0 = k)) as [->|Hne].
  - cbn [fmap list_fmap foldl snd]. unfold exchange_step at 3. cbn [fst]. rewrite Ec, lookup_partial_alter_eq. cbn [snd].
    by rewrite (of_key_all k l Hl).
  - rewrite lookup_partial_alter_ne by done. by rewrite (of_key_none k0 k l Hl Hne), app_nil_r.
Qed.

End table.

(** ** A decoder that keeps such a table *)

Section conversations.
Context {D P T E : Type} (handle : D -> P -> res (D * P)) (packet_event : P -> res (option (string * E))).
Context (tables : D -> gmap string T * list T) (converse : option T -> E -> option T * list T).
Context (key_of : T -> string) (event_ok : string -> E -> Prop).

(** A packet does to the decoder what its event does to the table. *)
Hypothesis handle_event : forall d p d' p', handle d p = Ok (d', p') ->
  exists o, packet_event p = Ok o /\ tables d' = foldl (table_step converse) (tables d) (option_list o).
Hypothesis packet_event_ok : forall p k e, packet_event p = Ok (Some (k, e)) -> event_ok k e.
Hypothesis converse_keyed : forall k o e, keyed key_of k o -> event_ok k e ->
  keyed key_of k (converse o e).1 /\ Forall (fun tx => key_of tx = k) (converse o e).2.

Definition handle_all (d : D) (ps : list P) : res D := foldM (fun d p => '(d, _) ← handle d p; Ok d) d ps.

Lemma handle_all_events d ps d' : handle_all d ps = Ok d' ->
  exists evs, mapM packet_event ps = Ok evs /\
    tables d' = foldl (table_step converse) (tables d) (mjoin (option_list <$> evs)) /\
    Forall (fun ke => event_ok ke.1 ke.2) (mjoin (option_list <$> evs)).
Proof.
  revert d. induction ps as [|p ps IH]; intros d Hr; [injection Hr as <-; by exists []|].
  unfold handle_all in *. cbn [foldM] in Hr. apply bind_Ok in Hr as (d1 & Hd1 & Hr).
  apply bind_Ok in Hd1 as ([d2 p'] & Hh & Hd1). injection Hd1 as <-.
  destruct (handle_event _ _ _ _ Hh) as (o & He & Ht).
  destruct (IH _ Hr) as (evs & Hm & Ht' & Hok). exists (o :: evs). cbn. rewrite He. cbn. rewrite Hm. split; [done|].
  change (mjoin (option_list <$> o :: evs)) with (option_list o ++ mjoin (option_list <$> evs)).
  rewrite foldl_app, <-Ht. split; [done|]. apply Forall_app. split; [|done].
  destruct o as [[k e]|]; [|done]. cbn. constructor; [|done]. by apply (packet_event_ok p).
Qed.

Lemma conversations d0 ps d : tables d0 = (∅, []) -> handle_all d0 ps = Ok d ->
  exists evs, mapM packet_event ps = Ok evs /\
    forall k, ((tables d).1 !! k, of_key key_of k (tables d).2) =
      foldl (exchange_step converse) (None, []) (events_of k (mjoin (option_list <$> evs))).
Proof.
  intros H0 Hr. destruct (handle_all_events _ _ _ Hr) as (evs & Hm & Ht & Hok). exists evs. split; [done|]. intros k.
  assert (forall k', keyed key_of k' ((tables d0).1 !! k')) as Hk by (intros k' tx; rewrite H0; cbn; by rewrite lookup_empty).
  destruct (table_project converse key_of event_ok converse_keyed _ _ Hk Hok k) as [Hp _].
  rewrite <-Ht, H0 in Hp. cbn [fst snd] in Hp. by rewrite lookup_empty in Hp.
Qed.

End conversations.
