(* ===== verification/Ajp.v ===== *)
(** * internal/protocols/ajp: the AJP13 decoder

    types.go and decoder.go: the cursor, forward requests with their headers,
    the answers of the container, and the exchanges they make up, which are
    kept by the addresses and ports of the request until they end. *)
From S2P Require Export Domain.
From S2P Require Export Text.
From S2P Require Export Exchange.

(** ** Types *)

Definition MagicForward : Z := 0x1234.
Definition MagicResponse : Z := 0x4142.
Definition PrefixSendHeaders : Z := 4.
Definition PrefixEndResponse : Z := 5.
Definition PrefixForwardRequest : Z := 2.

Definition MethodNames : gmap Z string := list_to_map
  [(1, "OPTIONS"); (2, "GET"); (3, "HEAD"); (4, "POST"); (5, "PUT"); (6, "DELETE"); (7, "TRACE");
   (8, "PROPFIND"); (9, "PROPPATCH"); (10, "MKCOL"); (11, "COPY"); (12, "MOVE"); (13, "LOCK"); (14, "UNLOCK");
   (15, "ACL"); (16, "REPORT"); (17, "VERSION-CONTROL"); (18, "CHECKIN"); (19, "CHECKOUT"); (20, "UNCHECKOUT");
   (21, "SEARCH")]%string.

Definition RequestHeaderNames : gmap Z string := list_to_map
  [(0xA001, "Accept"); (0xA002, "Accept-Charset"); (0xA003, "Accept-Encoding"); (0xA004, "Accept-Language");
   (0xA005, "Authorization"); (0xA006, "Connection"); (0xA007, "Content-Type"); (0xA008, "Content-Length");
   (0xA009, "Cookie"); (0xA00A, "Cookie2"); (0xA00B, "Host"); (0xA00C, "Pragma"); (0xA00D, "Referer");
   (0xA00E, "User-Agent")]%string.

(** The fields that a container's answer sets. *)
Record response := {
  HasResponse : bool;
  StatusCode : Z;
  StatusMessage : string;
  ReuseConn : bool;
  ReplyTime : time;
}.
Definition no_response : response :=
  {| HasResponse := false; StatusCode := 0; StatusMessage := ""; ReuseConn := false; ReplyTime := 0 |}.

Record Transaction := {
  ID : string;
  Method : string;
  T_Protocol : string;
  ReqURI : string;
  RemoteAddr : string;
  RemoteHost : string;
  ServerName : string;
  ServerPort : Z;
  IsSSL : bool;
  Headers : gmap string string;
  ContentType : string;
  ContentLength : string;
  SOAPAction : string;
  T_SrcIP : string;
  T_DstIP : string;
  T_SrcPort : Z;
  T_DstPort : Z;
  QueryTime : time;
  reply : response;
}.

Record Decoder := { transactions : gmap string Transaction; completed : list Transaction }.
Definition NewDecoder : Decoder := {| transactions := ∅; completed := [] |}.

(** ** The cursor: each read gives its value, if there is one, and where it stops *)

Definition r_byte (buf : list byte) (pos : Z) : res (option Z * Z) :=
  if zlen buf <=? pos then Ok (None, pos) else b ← idx buf pos; Ok (Some (u8 b), pos + 1).

Definition r_uint16 (buf : list byte) (pos : Z) : res (option Z * Z) :=
  if zlen buf <? pos + 2 then Ok (None, pos) else v ← rd_be 2 buf pos; Ok (Some v, pos + 2).

Definition strWithLen (buf : list byte) (pos l : Z) : res (option string * Z) :=
  if l =? 0xFFFF then Ok (Some ""%string, pos)
  else if zlen buf <? pos + l + 1 then Ok (None, pos)
  else s ← slice buf pos (pos + l); Ok (Some (gostr s), pos + (l + 1)).

Definition r_str (buf : list byte) (pos : Z) : res (option string * Z) :=
  '(l, pos) ← r_uint16 buf pos;
  match l with None => Ok (None, pos) | Some l => strWithLen buf pos l end.

Definition dquote : byte := byte_of 0x22.

(** [strings.Trim] of double quotes *)
Fixpoint skip_quotes (s : list byte) : list byte :=
  match s with
  | b :: s' => if bool_decide (b = dquote) then skip_quotes s' else s
  | [] => []
  end.
Definition trim_quotes (s : list byte) : list byte := reverse (skip_quotes (reverse (skip_quotes s))).

(** [action=] and a double quote *)
Definition action_mark : list byte := gobytes "action=" ++ [dquote].

Section decoder.
Context `{Unicode}.

Definition lower (s : string) : string := gostr (to_lower (gobytes s)).

(** The loop over headers, [n] of them to come. *)
Fixpoint read_headers (n : nat) (buf : list byte) (pos : Z) (h : gmap string string) : res (gmap string string) :=
  match n with
  | O => Ok h
  | S n =>
    '(code, pos) ← r_uint16 buf pos;
    match code with
    | None => Ok h
    | Some code =>
      '(name, pos) ← (if (0xA001 <=? code) && (code <=? 0xA00E)
                      then Ok (Some (map_str RequestHeaderNames code), pos) else strWithLen buf pos code);
      match name with
      | None => Ok h
      | Some name =>
        '(val, pos) ← r_str buf pos;
        match val with
        | None => Ok h
        | Some val => read_headers n buf pos (if String.eqb name "" then h else <[lower name := val]> h)
        end
      end
    end
  end.

Definition extractSOAPAction (contentType : string) (headers : gmap string string) : res string :=
  let sa := map_str headers "soapaction" in
  if negb (String.eqb sa "") then Ok (gostr (trim_quotes (gobytes sa)))
  else
    let i := index (to_lower (gobytes contentType)) action_mark in
    if i =? -1 then Ok ""%string
    else
      rest ← slice_from (gobytes contentType) (i + zlen action_mark);
      let e := index_byte rest dquote in
      if e =? -1 then Ok ""%string else s ← slice_to rest e; Ok (gostr s).

Definition conn_key (srcIP : string) (srcPort : Z) (dstIP : string) (dstPort : Z) : string :=
  cat [srcIP; ":"; fmt_d srcPort; "-"; dstIP; ":"; fmt_d dstPort].
Definition key_of (pkt : Packet) : string := conn_key (SrcIP pkt) (SrcPort pkt) (DstIP pkt) (DstPort pkt).
Definition rkey_of (pkt : Packet) : string := conn_key (DstIP pkt) (DstPort pkt) (SrcIP pkt) (SrcPort pkt).

(** What the body of a forward request says. *)
Record request := {
  q_methodCode : Z;
  q_protocolStr : string;
  q_reqURI : string;
  q_remoteAddr : string;
  q_remoteHost : string;
  q_serverName : string;
  q_serverPort : Z;
  q_isSSLByte : Z;
  q_headers : gmap string string;
}.

Definition parse_request (body : list byte) : res (option request) :=
  if zlen body <? 1 then Ok None
  else
    b0 ← idx body 0;
    if negb (u8 b0 =? PrefixForwardRequest) then Ok None
    else
      buf ← slice_from body 1;
      '(methodCode, pos) ← r_byte buf 0;
      match methodCode with
      | None => Ok None
      | Some methodCode =>
        '(protocolStr, pos) ← r_str buf pos;
        '(reqURI, pos) ← r_str buf pos;
        match reqURI with
        | None => Ok None
        | Some reqURI =>
          '(remoteAddr, pos) ← r_str buf pos;
          '(remoteHost, pos) ← r_str buf pos;
          '(serverName, pos) ← r_str buf pos;
          '(serverPort, pos) ← r_uint16 buf pos;
          '(isSSLByte, pos) ← r_byte buf pos;
          '(numHeaders, pos) ← r_uint16 buf pos;
          headers ← read_headers (Z.to_nat (default 0 numHeaders)) buf pos ∅;
          Ok (Some {| q_methodCode := methodCode; q_protocolStr := default "" protocolStr; q_reqURI := reqURI;
                      q_remoteAddr := default "" remoteAddr; q_remoteHost := default "" remoteHost;
                      q_serverName := default "" serverName; q_serverPort := default 0 serverPort;
                      q_isSSLByte := default 0 isSSLByte; q_headers := headers |})
        end
      end.

Definition content_type (q : request) : string := map_str (q_headers q) "content-type".

Definition mk_transaction (pkt : Packet) (q : request) (soap : string) : Transaction :=
  {| ID := cat ["ajp-"; key_of pkt; "-"; fmt_d (FrameNumber pkt)];
     Method := name_or MethodNames "METHOD_" (q_methodCode q); T_Protocol := q_protocolStr q; ReqURI := q_reqURI q;
     RemoteAddr := q_remoteAddr q; RemoteHost := q_remoteHost q; ServerName := q_serverName q;
     ServerPort := q_serverPort q; IsSSL := q_isSSLByte q =? 1; Headers := q_headers q; ContentType := content_type q;
     ContentLength := map_str (q_headers q) "content-length"; SOAPAction := soap; T_SrcIP := SrcIP pkt;
     T_DstIP := DstIP pkt; T_SrcPort := SrcPort pkt; T_DstPort := DstPort pkt; QueryTime := Timestamp pkt;
     reply := no_response |}.

Definition forward_request (pkt : Packet) (body : list byte) : res (option Transaction) :=
  q ← parse_request body;
  match q with
  | None => Ok None
  | Some q => soap ← extractSOAPAction (content_type q) (q_headers q); Ok (Some (mk_transaction pkt q soap))
  end.

Definition request_summary (tx : Transaction) : string := cat ["AJP "; Method tx; " "; ReqURI tx; " -> "; ServerName tx].

Definition handleForwardRequest (d : Decoder) (pkt : Packet) (body : list byte) :
    res (Decoder * Packet * option Transaction) :=
  o ← forward_request pkt body;
  match o with
  | None => Ok (d, pkt, None)
  | Some tx => Ok ({| transactions := <[key_of pkt := tx]> (transactions d); completed := completed d |},
                   set_app "AJP" (request_summary tx) pkt, Some tx)
  end.

(** A transaction for an answer whose request was not seen. *)
Definition lone_response (pkt : Packet) : Transaction :=
  {| ID := cat ["ajp-resp-"; fmt_d (FrameNumber pkt)]; Method := ""; T_Protocol := ""; ReqURI := ""; RemoteAddr := "";
     RemoteHost := ""; ServerName := ""; ServerPort := 0; IsSSL := false; Headers := ∅; ContentType := "";
     ContentLength := ""; SOAPAction := ""; T_SrcIP := DstIP pkt; T_DstIP := SrcIP pkt; T_SrcPort := DstPort pkt;
     T_DstPort := SrcPort pkt; QueryTime := 0; reply := no_response |}.

Definition set_reply (r : response) (tx : Transaction) : Transaction :=
  {| ID := ID tx; Method := Method tx; T_Protocol := T_Protocol tx; ReqURI := ReqURI tx; RemoteAddr := RemoteAddr tx;
     RemoteHost := RemoteHost tx; ServerName := ServerName tx; ServerPort := ServerPort tx; IsSSL := IsSSL tx;
     Headers := Headers tx; ContentType := ContentType tx; ContentLength := ContentLength tx;
     SOAPAction := SOAPAction tx; T_SrcIP := T_SrcIP tx; T_DstIP := T_DstIP tx; T_SrcPort := T_SrcPort tx;
     T_DstPort := T_DstPort tx; QueryTime := QueryTime tx; reply := r |}.

Definition set_status (status : Z) (msg : string) (now : time) (tx : Transaction) : Transaction :=
  set_reply {| HasResponse := true; StatusCode := status; StatusMessage := msg; ReuseConn := ReuseConn (reply tx);
               ReplyTime := now |} tx.
Definition set_reuse (reuse : option bool) (tx : Transaction) : Transaction :=
  set_reply {| HasResponse := HasResponse (reply tx); StatusCode := StatusCode (reply tx);
               StatusMessage := StatusMessage (reply tx); ReuseConn := default (ReuseConn (reply tx)) reuse;
               ReplyTime := ReplyTime (reply tx) |} tx.

(** The status and its message of a Send Headers packet. *)
Definition send_headers (body : list byte) : res (option (Z * string)) :=
  buf ← slice_from body 1;
  '(status, pos) ← r_uint16 buf 0;
  '(msg, _) ← r_str buf pos;
  Ok (s ← status; Some (s, default ""%string msg)).

(** The flag of an End Response packet. *)
Definition reuse_flag (body : list byte) : res (option bool) :=
  if 2 <=? zlen body then b ← idx body 1; Ok (Some (u8 b =? 1)) else Ok None.

(** A stored transaction is shared with the map: setting its fields sets those
    of the map's. *)
Definition handleContainerPacket (d : Decoder) (pkt : Packet) (body : list byte) :
    res (Decoder * Packet * option Transaction) :=
  if zlen body <? 1 then Ok (d, pkt, None)
  else
    prefix ← idx body 0;
    let key := rkey_of pkt in
    if u8 prefix =? PrefixSendHeaders then
      o ← send_headers body;
      match o with
      | None => Ok (d, pkt, None)
      | Some (status, msg) =>
        let tx := set_status status msg (Timestamp pkt) (default (lone_response pkt) (transactions d !! key)) in
        Ok ({| transactions := match transactions d !! key with
                               | Some _ => <[key := tx]> (transactions d)
                               | None => transactions d
                               end; completed := completed d |},
            set_app "AJP" (cat ["AJP "; fmt_d status; " "; msg]) pkt, Some tx)
      end
    else if u8 prefix =? PrefixEndResponse then
      match transactions d !! key with
      | None => Ok (d, pkt, None)
      | Some tx =>
        reuse ← reuse_flag body;
        let tx := set_reuse reuse tx in
        Ok ({| transactions := delete key (transactions d); completed := completed d ++ [tx] |},
            set_app "AJP" "AJP End Response" pkt, Some tx)
      end
    else Ok (d, pkt, None).

(** The body of a packet, cut to the length it announces, unless that is 0. *)
Definition ajp_body (p : list byte) : res (Z * list byte) :=
  magic ← rd_be 2 p 0;
  length ← rd_be 2 p 2;
  body ← slice_from p 4;
  body ← (if (0 <? length) && (length <? zlen body) then slice_to body length else Ok body);
  Ok (magic, body).

Definition parseAJP (d : Decoder) (pkt : Packet) : res (Decoder * Packet * option Transaction) :=
  if zlen (Payload pkt) <? 4 then Ok (d, pkt, None)
  else
    '(magic, body) ← ajp_body (Payload pkt);
    if zlen body =? 0 then Ok (d, pkt, None)
    else if magic =? MagicForward then handleForwardRequest d pkt body
    else if magic =? MagicResponse then handleContainerPacket d pkt body
    else Ok (d, pkt, None).

Definition isAJPPort (src dst : Z) : bool := (src =? 8009) || (dst =? 8009).

(** The early returns of both handlers, negated. *)
Definition admits (pkt : Packet) : bool :=
  String.eqb (Protocol pkt) "TCP" && (5 <=? zlen (Payload pkt)) && isAJPPort (SrcPort pkt) (DstPort pkt).

Definition HandlePacket (d : Decoder) (pkt : Packet) : res (Decoder * Packet) :=
  if admits pkt then '(d, pkt, _) ← parseAJP d pkt; Ok (d, pkt) else Ok (d, pkt).

Definition HandlePacketLive (d : Decoder) (pkt : Packet) : res (Decoder * Packet * option DecodedPacket) :=
  if admits pkt then
    '(d, pkt, o) ← parseAJP d pkt;
    Ok (d, pkt, option_map (fun tx =>
      {| D_Packet := pkt; D_Protocol := "AJP"; D_Summary := Summary pkt;
         D_Metadata := list_to_map [("method", AStr (Method tx)); ("req_uri", AStr (ReqURI tx));
           ("server_name", AStr (ServerName tx)); ("soap_action", AStr (SOAPAction tx));
           ("status_code", AInt TInt (StatusCode (reply tx)))]%string; D_Errors := [] |}) o)
  else Ok (d, pkt, None).

Definition set_if (v : string) (k : string) (m : gmap string any) : gmap string any :=
  if String.eqb v "" then m else <[k := AStr v]> m.

Definition tx_metrics (tx : Transaction) : gmap string any :=
  let m := list_to_map [("method", AStr (Method tx)); ("protocol", AStr (T_Protocol tx)); ("req_uri", AStr (ReqURI tx));
    ("server_name", AStr (ServerName tx)); ("server_port", AInt TU16 (ServerPort tx));
    ("remote_addr", AStr (RemoteAddr tx)); ("remote_host", AStr (RemoteHost tx)); ("is_ssl", ABool (IsSSL tx))]%string in
  let m := set_if (SOAPAction tx) "soap_action" (set_if (ContentLength tx) "content_length"
             (set_if (ContentType tx) "content_type" m)) in
  if HasResponse (reply tx) then
    <["is_error" := ABool (400 <=? StatusCode (reply tx))]> (<["reuse_connection" := ABool (ReuseConn (reply tx))]>
      (<["status_message" := AStr (StatusMessage (reply tx))]> (<["status_code" := AInt TInt (StatusCode (reply tx))]> m)))
  else <["is_error" := ABool false]> m.

Definition toFlow (tx : Transaction) : Flow :=
  {| FlowID := ID tx; Type_ := FlowAJP; F_SrcIP := T_SrcIP tx; F_DstIP := T_DstIP tx; F_SrcPort := T_SrcPort tx;
     F_DstPort := T_DstPort tx; StartTime := QueryTime tx; EndTime := ReplyTime (reply tx); Metrics := tx_metrics tx |}.

Definition Flush (d : Decoder) : list Flow := toFlow <$> completed d.

End decoder.

(** ** The cursor is safe, and what it reads *)

Section cursor.
Context (buf : list byte).

Lemma r_byte_returns pos : 0 <= pos -> returns (r_byte buf pos) (fun '(_, p) => pos <= p).
Proof. intros Hp. unfold r_byte. destruct (Z.leb_spec (zlen buf) pos); [cbn; lia|]. run_step. apply returns_idx; [lia|]. cbn. lia. Qed.

Lemma r_uint16_returns pos : 0 <= pos ->
  returns (r_uint16 buf pos) (fun '(o, p) => pos <= p /\ forall v, o = Some v -> 0 <= v < 65536).
Proof.
  intros Hp. unfold r_uint16. destruct (Z.ltb_spec (zlen buf) (pos + 2)); [cbn; split; [lia|done]|].
  run_step. apply returns_rd_be; [lia|]. intros v _ Hv. cbn. split; [lia|]. by intros ? [= <-].
Qed.

Lemma strWithLen_returns pos l : 0 <= pos -> 0 <= l -> returns (strWithLen buf pos l) (fun '(_, p) => pos <= p).
Proof.
  intros Hp Hl. unfold strWithLen. destruct (l =? 0xFFFF); [cbn; lia|].
  destruct (Z.ltb_spec (zlen buf) (pos + l + 1)); [cbn; lia|]. run_step. apply returns_slice; [lia|]. cbn. lia.
Qed.

Lemma r_str_returns pos : 0 <= pos -> returns (r_str buf pos) (fun '(_, p) => pos <= p).
Proof.
  intros Hp. unfold r_str. apply returns_bind. eapply returns_weaken; [by apply r_uint16_returns|].
  intros [[l|] p] [Hle Hv]; [|by cbn]. eapply returns_weaken; [apply strWithLen_returns; [lia|by apply Hv]|].
  intros [o q]. cbn. lia.
Qed.

Lemma read_headers_returns `{Unicode} n pos h : 0 <= pos -> returns (read_headers n buf pos h) (fun _ => True).
Proof.
  revert pos h. induction n as [|n IH]; intros pos h Hp; [done|]. cbn [read_headers].
  apply returns_bind. eapply returns_weaken; [by apply r_uint16_returns|]. intros [[code|] p] [Hle Hv]; [|done].
  specialize (Hv _ eq_refl). apply (returns_bind_weak _ _ (fun '(_, q) => pos <= q)).
  { case_match; [cbn; lia|]. eapply returns_weaken; [apply strWithLen_returns; lia|]. intros [o q]. cbn. lia. }
  intros [[name|] q] Hq; [|done]. apply returns_bind. eapply returns_weaken; [apply r_str_returns; lia|].
  intros [[val|] p'] Hp'; [|done]. apply IH. lia.
Qed.
End cursor.

(** ** Where the decoder panics *)

Section safe.
Context `{Unicode}.

(** The SOAP action is cut out of the content type at the place of its mark in
    the lower-case text, which can be longer. *)
Definition action_beyond (contentType : string) (headers : gmap string string) : Prop :=
  map_str headers "soapaction" = ""%string /\
  exists i, index_nat action_mark (to_lower (gobytes contentType)) = Some i /\
    zlen (gobytes contentType) < Z.of_nat i + 8.

Lemma extractSOAPAction_exact ct h :
  (extractSOAPAction ct h = Panic <-> action_beyond ct h) /\ extractSOAPAction ct h <> OutOfFuel.
Proof.
  unfold extractSOAPAction, action_beyond, index. change (zlen action_mark) with 8.
  destruct (String.eqb_spec (map_str h "soapaction") "") as [->|Hne]; cbn [negb].
  2:{ split; [split; [done|]|done]. by intros [? _]. }
  destruct (index_nat action_mark (to_lower (gobytes ct))) as [i|] eqn:E.
  2:{ cbn. split; [split; [done|]|done]. intros (_ & i & ? & _). done. }
  rewrite (proj2 (Z.eqb_neq (Z.of_nat i) (-1))) by lia.
  destruct (Z.le_gt_cases (Z.of_nat i + 8) (zlen (gobytes ct))) as [Hle|Hgt].
  - rewrite slice_from_Ok by lia. cbn [mbind res_bind]. set (rest := drop _ _).
    assert (forall e, index_byte rest dquote = e -> e <> -1 -> exists s, slice_to rest e = Ok s) as Hcut.
    { intros e <- Hn. unfold index_byte, index in *. destruct (index_nat [dquote] rest) as [j|] eqn:Ej; [|done].
      apply index_nat_Some in Ej as (t & _ & Hj). rewrite slice_to_Ok by (unfold zlen; lia). eauto. }
    destruct (Z.eqb_spec (index_byte rest dquote) (-1)) as [|Hn].
    + split; [split; [done|]|done]. intros (_ & j & [= <-] & ?). lia.
    + destruct (Hcut _ eq_refl Hn) as [s ->]. cbn. split; [split; [done|]|done]. intros (_ & j & [= <-] & ?). lia.
  - assert (slice_from (gobytes ct) (Z.of_nat i + 8) = Panic) as ->.
    { unfold slice_from, slice. by rewrite (proj2 (Z.leb_gt (Z.of_nat i + 8) _)), andb_false_r by lia. }
    split; [split; [|done]|done]. intros _. split; [done|]. exists i. split; [done|lia].
Qed.

(** Never in ASCII text, whose lower case is as long. *)
Lemma ascii_not_beyond ct h : is_ascii (gobytes ct) = true -> ~ action_beyond ct h.
Proof.
  intros Ha (_ & i & Hi & Hlt). unfold to_lower in Hi. rewrite Ha in Hi.
  apply index_nat_Some in Hi as (t & Ht & Hle). apply (f_equal length) in Ht.
  rewrite !length_app, length_take, length_fmap in Ht. rewrite length_fmap in Hle. change (length action_mark) with 8%nat in Ht.
  unfold zlen in Hlt. lia.
Qed.

Lemma parse_request_returns body : returns (parse_request body) (fun _ => True).
Proof.
  unfold parse_request. destruct (Z.ltb_spec (zlen body) 1); [done|].
  run_step. apply returns_idx; [lia|]. intros b0 _. run_step; [done|].
  run_step. unfold slice_from. apply returns_slice; [lia|].
  set (buf := sub _ _ _). clearbody buf.
  run_step. eapply returns_weaken; [by apply r_byte_returns|]. intros [[m|] p] Hp; [|done].
  do 2 (run_step; eapply returns_weaken; [apply r_str_returns; lia|]; intros [? ?] ?).
  case_match; [|done].
  do 3 (run_step; eapply returns_weaken; [apply r_str_returns; lia|]; intros [? ?] ?).
  run_step. eapply returns_weaken; [apply r_uint16_returns; lia|]. intros [? ?] [? _].
  run_step. eapply returns_weaken; [apply r_byte_returns; lia|]. intros [? ?] ?.
  run_step. eapply returns_weaken; [apply r_uint16_returns; lia|]. intros [? ?] [? _].
  run_step. eapply returns_weaken; [apply read_headers_returns; lia|]. done.
Qed.

Lemma ajp_body_returns p : 4 <= zlen p -> returns (ajp_body p) (fun _ => True).
Proof.
  intros Hp. unfold ajp_body. run_step. apply returns_rd_be; [lia|]. intros m _ _.
  run_step. apply returns_rd_be; [lia|]. intros l _ Hl. run_step. unfold slice_from. apply returns_slice; [lia|].
  run_step. case_match; [|done]. unfold slice_to. apply returns_slice; [lia|]. done.
Qed.

(** The packet carries the forward request [q]. *)
Definition carries (pkt : Packet) (q : request) : Prop :=
  admits pkt = true /\ exists body, ajp_body (Payload pkt) = Ok (MagicForward, body) /\ parse_request body = Ok (Some q).

Lemma send_headers_returns body : 1 <= zlen body -> returns (send_headers body) (fun _ => True).
Proof.
  intros Hb. unfold send_headers. run_step. unfold slice_from. apply returns_slice; [lia|].
  run_step. eapply returns_weaken; [by apply r_uint16_returns|]. intros [o p] [Hp _].
  run_step. eapply returns_weaken; [by apply r_str_returns|]. by intros [? ?].
Qed.

Lemma container_returns d pkt body : returns (handleContainerPacket d pkt body) (fun _ => True).
Proof.
  unfold handleContainerPacket. destruct (Z.ltb_spec (zlen body) 1); [done|].
  run_step. apply returns_idx; [lia|]. intros b _. cbv zeta. case_match; [|case_match; [|done]].
  - run_step. eapply returns_weaken; [by apply send_headers_returns|]. intros [[? ?]|] _; done.
  - case_match; [|done]. run_step. unfold reuse_flag. case_match; [|done]. run_step. apply returns_idx; [lia|]. done.
Qed.

(** The decoder panics exactly on a forward request whose content type has
    its action mark in lower case at a place that, eight bytes further, is
    beyond the end of the content type itself, when there is no SOAPAction header; and it always ends. *)
Theorem ajp_panics_exactly d pkt :
  (HandlePacket d pkt = Panic <-> exists q, carries pkt q /\ action_beyond (content_type q) (q_headers q)) /\
  HandlePacket d pkt <> OutOfFuel.
Proof.
  unfold HandlePacket. destruct (admits pkt) eqn:Ha.
  2:{ split; [split; [done|]|done]. intros (q & [Hq _] & _). congruence. }
  assert (5 <= zlen (Payload pkt)) as Hlen by (unfold admits in Ha; rewrite !andb_true_iff in Ha; lia).
  unfold parseAJP. rewrite (proj2 (Z.ltb_ge _ _)) by lia.
  destruct (returns_inv _ _ (ajp_body_returns (Payload pkt) ltac:(lia))) as ([magic body] & Hb & _).
  unfold carries. rewrite Hb. cbn [mbind res_bind].
  assert (forall q, magic <> MagicForward \/ parse_request body <> Ok (Some q) ->
    ~ (admits pkt = true /\ exists body', Ok (magic, body) = Ok (MagicForward, body') /\ parse_request body' = Ok (Some q))) as Hno.
  { intros q Hq (_ & body' & [= -> <-] & Hr). by destruct Hq. }
  destruct (Z.eqb_spec (zlen body) 0) as [Hz|Hz].
  { split; [split; [done|]|done]. intros (q & Hq & _). apply zlen_0 in Hz as ->. by apply (Hno q) in Hq; [|right]. }
  destruct (Z.eqb_spec magic MagicForward) as [->|Hm].
  - unfold handleForwardRequest, forward_request.
    destruct (returns_inv _ _ (parse_request_returns body)) as ([q|] & Hq & _); rewrite Hq; cbn [mbind res_bind].
    + destruct (extractSOAPAction_exact (content_type q) (q_headers q)) as [Hx Hf].
      destruct (extractSOAPAction _ _) as [soap| |]; cbn [mbind res_bind]; [| |done].
      * split; [split; [done|]|done]. intros (q' & (_ & body' & [= <-] & Hr) & Hbad).
        rewrite Hq in Hr. injection Hr as <-. by apply Hx in Hbad.
      * split; [split; [|done]|done]. intros _. exists q. split; [eauto|by apply Hx].
    + split; [split; [done|]|done]. intros (q & Hq' & _). by apply (Hno q) in Hq'; [|right; rewrite Hq].
  - destruct (magic =? MagicResponse).
    + destruct (returns_inv _ _ (container_returns d pkt body)) as ([[d' pkt'] o] & -> & _). cbn.
      split; [split; [done|]|done]. intros (q & Hq & _). by apply (Hno q) in Hq; [|left].
    + split; [split; [done|]|done]. intros (q & Hq & _). by apply (Hno q) in Hq; [|left].
Qed.

End safe.

(** ** Exchanges: what a connection's packets come to *)

(** What a packet means for its connection. *)
Inductive event :=
  | Asked (tx : Transaction)
  | Answered (status : Z) (msg : string) (now : time)
  | Ended (reuse : option bool).

(** A new request replaces an open one; answers without a request are not
    kept; an exchange is finished by its end. *)
Definition converse (o : option Transaction) (e : event) : option Transaction * list Transaction :=
  match e, o with
  | Asked tx, _ => (Some tx, [])
  | Answered status msg now, Some tx => (Some (set_status status msg now tx), [])
  | Ended reuse, Some tx => (None, [set_reuse reuse tx])
  | _, None => (None, [])
  end.

Definition tx_key (tx : Transaction) : string := conn_key (T_SrcIP tx) (T_SrcPort tx) (T_DstIP tx) (T_DstPort tx).

Definition event_ok (k : string) (e : event) : Prop := match e with Asked tx => tx_key tx = k | _ => True end.

Lemma converse_keyed k o e : keyed tx_key k o -> event_ok k e ->
  keyed tx_key k (converse o e).1 /\ Forall (fun tx => tx_key tx = k) (converse o e).2.
Proof.
  intros Ho He. destruct e, o as [tx'|]; cbn; split; try done; try by intros ? [= <-].
  - intros ? [= <-]. by apply (Ho tx').
  - constructor; [by apply (Ho tx')|done].
Qed.

Section exchanges.
Context `{Unicode}.

Definition packet_event (pkt : Packet) : res (option (string * event)) :=
  if admits pkt then
    '(magic, body) ← ajp_body (Payload pkt);
    if zlen body =? 0 then Ok None
    else if magic =? MagicForward then
      o ← forward_request pkt body;
      Ok (tx ← o; Some (key_of pkt, Asked tx))
    else if magic =? MagicResponse then
      prefix ← idx body 0;
      if u8 prefix =? PrefixSendHeaders then
        o ← send_headers body;
        Ok ('(status, msg) ← o; Some (rkey_of pkt, Answered status msg (Timestamp pkt)))
      else if u8 prefix =? PrefixEndResponse then
        reuse ← reuse_flag body;
        Ok (Some (rkey_of pkt, Ended reuse))
      else Ok None
    else Ok None
  else Ok None.

Lemma packet_event_ok pkt k e : packet_event pkt = Ok (Some (k, e)) -> event_ok k e.
Proof.
  unfold packet_event. intros He. case_match; [|done]. apply bind_Ok in He as ([magic body] & _ & He).
  case_match; [done|]. case_match; [|case_match; [|done]].
  - apply bind_Ok in He as ([tx|] & Hf & He); [|done]. injection He as <- <-. cbn.
    unfold forward_request in Hf. apply bind_Ok in Hf as ([q|] & _ & Hf); [|done].
    apply bind_Ok in Hf as (soap & _ & Hf). by injection Hf as <-.
  - apply bind_Ok in He as (prefix & _ & He). case_match; [|case_match; [|done]].
    + apply bind_Ok in He as ([[s m]|] & _ & He); [|done]. by injection He as <- <-.
    + apply bind_Ok in He as (r & _ & He). by injection He as <- <-.
Qed.

Definition tables (d : Decoder) : gmap string Transaction * list Transaction := (transactions d, completed d).

(** A packet does to the decoder what its event does to the table, or panics it. *)
Lemma handle_or_panic d pkt :
  HandlePacket d pkt = Panic \/
  exists d' pkt' o, HandlePacket d pkt = Ok (d', pkt') /\ packet_event pkt = Ok o /\
    tables d' = foldl (table_step converse) (tables d) (option_list o).
Proof.
  unfold HandlePacket, packet_event. destruct (admits pkt) eqn:Ha; [|right; by eexists _, _, None].
  assert (5 <= zlen (Payload pkt)) as Hlen by (unfold admits in Ha; rewrite !andb_true_iff in Ha; lia).
  unfold parseAJP. rewrite (proj2 (Z.ltb_ge _ _)) by lia.
  destruct (returns_inv _ _ (ajp_body_returns (Payload pkt) ltac:(lia))) as ([magic body] & -> & _).
  cbn [mbind res_bind]. destruct (Z.eqb_spec (zlen body) 0) as [Hz|Hz]; [right; by eexists _, _, None|].
  assert (1 <= zlen body) as Hb by (pose proof (zlen_nonneg body); lia).
  destruct (magic =? MagicForward); [|destruct (magic =? MagicResponse); [|right; by eexists _, _, None]].
  - unfold handleForwardRequest. destruct (forward_request pkt body) as [[tx|]| |] eqn:Hf; cbn.
    + right. eexists _, _, (Some _). split; [done|]. split; [done|]. cbn. unfold tables, table_step. cbn.
      by rewrite app_nil_r.
    + right. by eexists _, _, None.
    + by left.
    + exfalso. unfold forward_request in Hf.
      destruct (returns_inv _ _ (parse_request_returns body)) as ([q|] & Hq & _); rewrite Hq in Hf; [|done].
      cbn [mbind res_bind] in Hf. destruct (extractSOAPAction_exact (content_type q) (q_headers q)) as [_ Hx].
      by destruct (extractSOAPAction _ _).
  - right. unfold handleContainerPacket. rewrite (proj2 (Z.ltb_ge _ _)) by lia.
    destruct (returns_inv (idx body 0) (fun _ => True)) as (prefix & -> & _); [by apply returns_idx; [lia|]|].
    cbn [mbind res_bind]. cbv zeta. set (k := rkey_of pkt). clearbody k.
    case_match; [|case_match; [|by eexists _, _, None]].
    + destruct (returns_inv _ _ (send_headers_returns body Hb)) as ([[s m]|] & -> & _); [|by eexists _, _, None].
      cbn. eexists _, _, (Some _). split; [done|]. split; [done|]. cbn. unfold tables, table_step. cbn.
      destruct (transactions d !! k) eqn:E; cbn; rewrite app_nil_r; [done|].
      f_equal. symmetry. exact (delete_id (transactions d) k E).
    + destruct (returns_inv (reuse_flag body) (fun _ => True)) as (r & Hr & _).
      { unfold reuse_flag. case_match; [|done]. run_step. apply returns_idx; [lia|]. done. }
      rewrite Hr. cbn [mbind res_bind].
      destruct (transactions d !! k) eqn:E; cbn; eexists _, _, (Some _); (split; [done|]); (split; [done|]);
        cbn; unfold tables, table_step; cbn; rewrite E; cbn; [done|].
      rewrite app_nil_r. f_equal. symmetry. exact (delete_id (transactions d) k E).
Qed.

Lemma handle_event d pkt d' pkt' : HandlePacket d pkt = Ok (d', pkt') ->
  exists o, packet_event pkt = Ok o /\ tables d' = foldl (table_step converse) (tables d) (option_list o).
Proof. intros Hh. destruct (handle_or_panic d pkt) as [E|(? & ? & o & E & ? & ?)]; rewrite Hh in E; [done|]. simplify_eq. eauto. Qed.

Definition run (d : Decoder) (pkts : list Packet) : res Decoder := handle_all HandlePacket d pkts.

(** Handling any packets that do not panic the decoder, what it holds of a
    connection and what it reports of it are those of the connection's own
    packets, one after the other: a request opens an exchange and discards one that is open,
    Send Headers sets its status, End Response finishes it, and answers that
    find no request leave nothing. Requests that never end are not reported. *)
Theorem ajp_conversations pkts d : run NewDecoder pkts = Ok d ->
  exists evs, mapM packet_event pkts = Ok evs /\
    forall k, (transactions d !! k, of_key tx_key k (completed d)) =
      foldl (exchange_step converse) (None, []) (events_of k (mjoin (option_list <$> evs))).
Proof.
  intros Hr.
  exact (conversations _ _ tables _ _ _ handle_event packet_event_ok converse_keyed NewDecoder pkts d eq_refl Hr).
Qed.

End exchanges.

(** ** Forward requests on the wire (AJP13) *)

(** A string, or the null string. *)
Definition encode_str (s : option (list byte)) : list byte :=
  match s with Some s => be_put 2 (zlen s) ++ s ++ [x00] | None => be_put 2 0xFFFF end.
Definition str_of (s : option (list byte)) : string := match s with Some s => gostr s | None => "" end.
Definition str_ok (s : option (list byte)) : bool := match s with Some s => zlen s <? 0xFFFF | None => true end.

(** A header by its code or by its name, which is never as long as 0xA000. *)
Inductive header :=
  | Known (code : Z) (value : option (list byte))
  | Literal (name : list byte) (value : option (list byte)).

Definition encode_header (h : header) : list byte :=
  match h with
  | Known code v => be_put 2 code ++ encode_str v
  | Literal name v => be_put 2 (zlen name) ++ (name ++ [x00]) ++ encode_str v
  end.
Definition header_ok (h : header) : bool :=
  match h with
  | Known code v => (0xA001 <=? code) && (code <=? 0xA00E) && str_ok v
  | Literal name v => (zlen name <? 0xA000) && str_ok v
  end.
Definition header_name (h : header) : string :=
  match h with Known code _ => map_str RequestHeaderNames code | Literal name _ => gostr name end.
Definition header_value (h : header) : string := match h with Known _ v | Literal _ v => str_of v end.

Record wire_request := {
  w_method : Z;
  w_protocol : option (list byte);
  w_uri : option (list byte);
  w_addr : option (list byte);
  w_host : option (list byte);
  w_server : option (list byte);
  w_port : Z;
  w_ssl : Z;
  w_headers : list header;
  w_attributes : list byte;
}.

Definition encode_headers (l : list header) : list byte := mjoin (encode_header <$> l).

Definition encode_request (w : wire_request) : list byte :=
  [byte_of 2] ++ [byte_of (w_method w)] ++ encode_str (w_protocol w) ++ encode_str (w_uri w) ++ encode_str (w_addr w) ++
  encode_str (w_host w) ++ encode_str (w_server w) ++ be_put 2 (w_port w) ++ [byte_of (w_ssl w)] ++
  be_put 2 (zlen (w_headers w)) ++ encode_headers (w_headers w) ++ w_attributes w.

Definition request_ok (w : wire_request) : bool :=
  (0 <=? w_method w) && (w_method w <? 256) && (0 <=? w_port w) && (w_port w <? 65536) &&
  (0 <=? w_ssl w) && (w_ssl w <? 256) && (zlen (w_headers w) <? 65536) &&
  forallb str_ok [w_protocol w; w_uri w; w_addr w; w_host w; w_server w] && forallb header_ok (w_headers w).

Section wire.
Context `{Unicode}.

Definition add_header (m : gmap string string) (h : header) : gmap string string :=
  if String.eqb (header_name h) "" then m else <[lower (header_name h) := header_value h]> m.

Definition request_of (w : wire_request) : request :=
  {| q_methodCode := w_method w; q_protocolStr := str_of (w_protocol w); q_reqURI := str_of (w_uri w);
     q_remoteAddr := str_of (w_addr w); q_remoteHost := str_of (w_host w); q_serverName := str_of (w_server w);
     q_serverPort := w_port w; q_isSSLByte := w_ssl w; q_headers := foldl add_header ∅ (w_headers w) |}.

Lemma zlen_encode_str s : 2 <= zlen (encode_str s).
Proof.
  destruct s as [s|]; cbn [encode_str]; [|by vm_compute]. rewrite !zlen_app, zlen_be_put.
  pose proof (zlen_nonneg s). pose proof (zlen_nonneg [x00]). lia.
Qed.

Lemma r_uint16_wire buf pos v : holds_at buf pos (be_put 2 v) -> 0 <= v < 65536 -> r_uint16 buf pos = Ok (Some v, pos + 2).
Proof.
  intros Hat Hv. pose proof (holds_at_bound _ _ _ Hat) as Hb. rewrite zlen_be_put in Hb.
  unfold r_uint16. rewrite (proj2 (Z.ltb_ge _ _)) by lia. by rewrite (holds_at_put _ _ 2 _ Hat) by (cbn; lia).
Qed.

Lemma r_byte_wire buf pos b : holds_at buf pos [byte_of b] -> 0 <= b < 256 -> r_byte buf pos = Ok (Some b, pos + 1).
Proof.
  intros Hat Hv. pose proof (holds_at_bound _ _ _ Hat) as Hb. change (zlen [byte_of b]) with 1 in Hb.
  apply holds_at_cons in Hat as [Hi _]. unfold r_byte. rewrite (proj2 (Z.leb_gt _ _)) by lia. rewrite Hi.
  cbn [mbind res_bind]. by rewrite u8_byte_of by lia.
Qed.

Lemma strWithLen_wire buf pos s : zlen s < 0xFFFF -> holds_at buf pos (s ++ [x00]) ->
  strWithLen buf pos (zlen s) = Ok (Some (gostr s), pos + zlen (s ++ [x00])).
Proof.
  intros Hs Hat. pose proof (holds_at_bound _ _ _ Hat) as Hb. rewrite zlen_app in *. change (zlen [x00]) with 1 in *.
  pose proof (zlen_nonneg s). apply holds_at_app in Hat as [Hat _]. unfold strWithLen.
  rewrite (proj2 (Z.eqb_neq _ _)) by lia. rewrite (proj2 (Z.ltb_ge _ _)) by lia. by rewrite (holds_at_slice _ _ _ Hat).
Qed.

Lemma r_str_wire buf pos s : str_ok s = true -> holds_at buf pos (encode_str s) ->
  r_str buf pos = Ok (Some (str_of s), pos + zlen (encode_str s)).
Proof.
  intros Hs Hat. unfold r_str. destruct s as [s|]; cbn [encode_str str_ok str_of] in *.
  - apply Z.ltb_lt in Hs. pose proof (zlen_nonneg s). apply holds_at_app in Hat as [Hl Hat].
    rewrite (r_uint16_wire _ _ _ Hl) by lia. cbn [mbind res_bind]. rewrite zlen_be_put in Hat. change (Z.of_nat 2) with 2 in Hat.
    rewrite (strWithLen_wire _ _ s) by (done || lia). rewrite (zlen_app (be_put 2 _)), zlen_be_put. do 2 f_equal. change (Z.of_nat 2) with 2. lia.
  - by rewrite (r_uint16_wire _ _ _ Hat) by lia.
Qed.

Lemma read_headers_wire l buf pos m : forallb header_ok l = true -> holds_at buf pos (encode_headers l) ->
  read_headers (length l) buf pos m = Ok (foldl add_header m l).
Proof.
  revert pos m. induction l as [|h l IH]; intros pos m Hok Hat; [done|]. cbn [forallb] in Hok.
  apply andb_true_iff in Hok as [Hh Hok]. change (encode_headers (h :: l)) with (encode_header h ++ encode_headers l) in Hat.
  apply holds_at_app in Hat as [Hat Hnext]. cbn [length read_headers foldl].
  destruct h as [code v|name v]; cbn [encode_header header_ok] in *; apply holds_at_app in Hat as [Hc Hat];
    rewrite zlen_be_put in Hat; change (Z.of_nat 2) with 2 in Hat.
  - apply andb_true_iff in Hh as [Hcode Hv]. rewrite (r_uint16_wire _ _ _ Hc) by lia. cbn [mbind res_bind].
    rewrite Hcode. cbn [mbind res_bind]. rewrite (r_str_wire _ _ _ Hv Hat). cbn [mbind res_bind]. apply IH; [done|].
    rewrite zlen_app, zlen_be_put in Hnext. change (Z.of_nat 2) with 2 in Hnext. by rewrite <-Z.add_assoc.
  - apply andb_true_iff in Hh as [Hn Hv]. apply Z.ltb_lt in Hn. pose proof (zlen_nonneg name).
    apply holds_at_app in Hat as [Hname Hat]. rewrite (r_uint16_wire _ _ _ Hc) by lia. cbn [mbind res_bind].
    replace ((0xA001 <=? zlen name) && (zlen name <=? 0xA00E)) with false by lia.
    rewrite (strWithLen_wire _ _ name) by (done || lia). cbn [mbind res_bind].
    rewrite (r_str_wire _ _ _ Hv Hat). cbn [mbind res_bind]. apply IH; [done|].
    rewrite (zlen_app (be_put 2 _)), (zlen_app (name ++ _)), zlen_be_put in Hnext. change (Z.of_nat 2) with 2 in Hnext.
    by replace (pos + 2 + zlen (name ++ [x00]) + zlen (encode_str v)) with
      (pos + (2 + (zlen (name ++ [x00]) + zlen (encode_str v)))) by lia.
Qed.

Lemma parse_request_wire w : request_ok w = true -> parse_request (encode_request w) = Ok (Some (request_of w)).
Proof.
  unfold request_ok. rewrite !andb_true_iff. cbn [forallb]. rewrite !andb_true_iff.
  intros [[[[[[[[Hm1 Hm2] Hp1] Hp2] Hs1] Hs2] Hn] (Ho1 & Ho2 & Ho3 & Ho4 & Ho5 & _)] Hh].
  unfold parse_request, encode_request.
  match goal with |- context [[byte_of 2] ++ ?b] => set (buf := b); assert (holds_at buf 0 b) as Hat by apply holds_at_self end.
  change ([byte_of 2] ++ buf) with (byte_of 2 :: buf). clearbody buf. pose proof (zlen_nonneg buf).
  rewrite zlen_cons, (proj2 (Z.ltb_ge _ _)), idx_head by lia. cbn [mbind res_bind].
  change (u8 (byte_of 2) =? PrefixForwardRequest) with true. cbn [negb]. rewrite slice_from_Ok by (rewrite zlen_cons; lia).
  cbn [mbind res_bind]. change (drop (Z.to_nat 1) (byte_of 2 :: buf)) with buf.
  apply holds_at_app in Hat as [A1 Hat]. apply holds_at_app in Hat as [A2 Hat]. apply holds_at_app in Hat as [A3 Hat].
  apply holds_at_app in Hat as [A4 Hat]. apply holds_at_app in Hat as [A5 Hat]. apply holds_at_app in Hat as [A6 Hat].
  apply holds_at_app in Hat as [A7 Hat]. apply holds_at_app in Hat as [A8 Hat]. apply holds_at_app in Hat as [A9 Hat].
  apply holds_at_app in Hat as [A10 Hat]. rewrite !zlen_be_put in *. change (Z.of_nat 2) with 2 in *.
  change (zlen [byte_of (w_method w)]) with 1 in *. change (zlen [byte_of (w_ssl w)]) with 1 in *.
  rewrite (r_byte_wire _ _ _ A1) by lia. cbn [mbind res_bind].
  rewrite (r_str_wire _ _ _ Ho1 A2). cbn [mbind res_bind]. rewrite (r_str_wire _ _ _ Ho2 A3). cbn [mbind res_bind].
  rewrite (r_str_wire _ _ _ Ho3 A4). cbn [mbind res_bind]. rewrite (r_str_wire _ _ _ Ho4 A5). cbn [mbind res_bind].
  rewrite (r_str_wire _ _ _ Ho5 A6). cbn [mbind res_bind]. rewrite (r_uint16_wire _ _ _ A7) by lia. cbn [mbind res_bind].
  rewrite (r_byte_wire _ _ _ A8) by lia. cbn [mbind res_bind]. pose proof (zlen_nonneg (w_headers w)).
  rewrite (r_uint16_wire _ _ _ A9) by lia. cbn [mbind res_bind default from_option id].
  unfold zlen at 1. rewrite Nat2Z.id. by rewrite (read_headers_wire _ _ _ _ Hh A10).
Qed.

(** A packet of [magic] with anything after it. *)
Definition ajp_packet (magic : Z) (body more : list byte) : list byte :=
  be_put 2 magic ++ be_put 2 (zlen body) ++ body ++ more.

Lemma ajp_body_wire magic body more : 0 <= magic < 65536 -> 0 < zlen body < 65536 ->
  ajp_body (ajp_packet magic body more) = Ok (magic, body).
Proof.
  intros Hm Hb. unfold ajp_body. set (p := ajp_packet magic body more).
  assert (holds_at p 0 p) as Hat by apply holds_at_self. unfold p at 2, ajp_packet in Hat.
  assert (zlen p = 4 + zlen body + zlen more) as Hp by (unfold p, ajp_packet; rewrite !zlen_app, !zlen_be_put; lia).
  pose proof (zlen_nonneg more).
  apply holds_at_app in Hat as [A1 Hat]. apply holds_at_app in Hat as [A2 _]. rewrite zlen_be_put in A2.
  change (0 + Z.of_nat 2) with 2 in A2.
  rewrite (holds_at_put _ _ 2 _ A1) by (cbn; lia). cbn [mbind res_bind].
  rewrite (holds_at_put _ _ 2 _ A2) by (cbn; lia). cbn [mbind res_bind].
  rewrite slice_from_Ok by lia. cbn [mbind res_bind].
  assert (drop (Z.to_nat 4) p = body ++ more) as ->.
  { unfold p, ajp_packet. rewrite app_assoc. apply drop_app_length'. rewrite length_app, !length_be_put. lia. }
  rewrite zlen_app. replace (0 <? zlen body) with true by lia. cbn [andb].
  destruct (Z.ltb_spec (zlen body) (zlen body + zlen more)) as [|Hle].
  - rewrite slice_to_Ok by (rewrite zlen_app; lia). cbn [mbind res_bind].
    unfold zlen. by rewrite Nat2Z.id, take_app_length.
  - cbn [mbind res_bind]. assert (more = []) as -> by (apply zlen_0; lia). by rewrite app_nil_r.
Qed.

(** A forward request on the wire, with any strings, null ones among them,
    any headers by code or by name and anything after it, opens the exchange of its
    connection with its method, its strings, its port and flag, and for each
    header name in lower case the last value it has; the SOAP action is taken
    from these. *)
Theorem ajp_request_decoded d pkt w more :
  Payload pkt = ajp_packet MagicForward (encode_request w) more -> request_ok w = true ->
  zlen (encode_request w) < 65536 -> Protocol pkt = "TCP"%string -> isAJPPort (SrcPort pkt) (DstPort pkt) = true ->
  HandlePacket d pkt =
    (soap ← extractSOAPAction (content_type (request_of w)) (q_headers (request_of w));
     let tx := mk_transaction pkt (request_of w) soap in
     Ok ({| transactions := <[key_of pkt := tx]> (transactions d); completed := completed d |},
         set_app "AJP" (request_summary tx) pkt)).
Proof.
  intros Hp Hok Hmax Htcp Hport.
  assert (2 <= zlen (encode_request w)) as Hmin.
  { unfold encode_request. cbn [app]. rewrite !zlen_cons.
    match goal with |- context [zlen ?l] => pose proof (zlen_nonneg l) end. lia. }
  assert (zlen (Payload pkt) = 4 + zlen (encode_request w) + zlen more) as Hlen.
  { rewrite Hp. unfold ajp_packet. rewrite !zlen_app, !zlen_be_put. lia. }
  pose proof (zlen_nonneg more). unfold HandlePacket, admits. rewrite Htcp, Hport, Hlen. cbn [String.eqb Ascii.eqb Bool.eqb].
  rewrite (proj2 (Z.leb_le 5 _)) by lia. cbn [andb]. unfold parseAJP. rewrite Hlen, (proj2 (Z.ltb_ge _ 4)), Hp by lia.
  rewrite ajp_body_wire by (unfold MagicForward; lia). cbn [mbind res_bind].
  rewrite (proj2 (Z.eqb_neq _ 0)) by lia. change (MagicForward =? MagicForward) with true. cbv iota.
  unfold handleForwardRequest, forward_request. rewrite (parse_request_wire _ Hok). cbn [mbind res_bind].
  by destruct (extractSOAPAction _ _).
Qed.


End wire.

(** ** Examples *)

Definition ex_request : wire_request :=
  {| w_method := 4; w_protocol := Some (gobytes "HTTP/1.1"); w_uri := Some (gobytes "/soap"); w_addr := Some (gobytes "10.1.1.1");
     w_host := None; w_server := Some (gobytes "shop"); w_port := 443; w_ssl := 1;
     w_headers := [Known 0xA007 (Some (gobytes "application/soap+xml; action=" ++ [dquote] ++ gobytes "urn:buy" ++ [dquote]));
                   Literal (gobytes "X-Trace") (Some (gobytes "7"))];
     w_attributes := [x00] |}.
Definition ex_ajp (sport dport : Z) (payload : list byte) : Packet :=
  mk_packet 5 (if sport =? 8009 then "10.0.0.2" else "10.0.0.1") (if sport =? 8009 then "10.0.0.1" else "10.0.0.2")
    sport dport "TCP" payload.
Definition ex_ask : Packet := ex_ajp 40000 8009 (ajp_packet MagicForward (encode_request ex_request) []).
Definition ex_answer (body : list byte) : Packet := ex_ajp 8009 40000 (ajp_packet MagicResponse body []).

Lemma ajp_request_decoded_witness : let _ := ascii_only in
  exists d pkt, HandlePacket NewDecoder ex_ask = Ok (d, pkt) /\
    (SOAPAction <$> transactions d !! "10.0.0.1:40000-10.0.0.2:8009"%string) = Some "urn:buy"%string /\
    Summary pkt = "AJP POST /soap -> shop"%string.
Proof.
  cbv zeta. eexists _, _. rewrite (@ajp_request_decoded ascii_only NewDecoder ex_ask ex_request []).
  - split; [by vm_compute|]. split; by vm_compute.
  - done.
  - by vm_compute.
  - by vm_compute.
  - done.
  - done.
Defined.

Definition ex_pkts : list Packet :=
  [ex_ask; ex_answer (octets [4; 0x01; 0xF4; 0; 2] ++ gobytes "no" ++ octets [0]); ex_answer (octets [5; 1]);
   ex_answer (octets [4; 0; 200; 0; 2] ++ gobytes "ok" ++ octets [0])].

Lemma ajp_conversations_witness : let _ := ascii_only in
  exists d evs, run NewDecoder ex_pkts = Ok d /\ mapM packet_event ex_pkts = Ok evs /\
    of_key tx_key "10.0.0.1:40000-10.0.0.2:8009" (completed d) =
      snd (foldl (exchange_step converse) (None, []) (events_of "10.0.0.1:40000-10.0.0.2:8009" (mjoin (option_list <$> evs)))) /\
    ((fun tx => StatusCode (reply tx)) <$> completed d) = [500].
Proof.
  cbv zeta. destruct (@run ascii_only NewDecoder ex_pkts) as [d| |] eqn:E.
  - destruct (@ajp_conversations ascii_only ex_pkts d E) as (evs & Hm & Hk). exists d, evs.
    split; [done|]. split; [done|]. split; [apply (f_equal snd (Hk _))|].
    assert (d = match @run ascii_only NewDecoder ex_pkts with Ok d => d | _ => NewDecoder end) as -> by by rewrite E.
    by vm_compute.
  - by vm_compute in E.
  - by vm_compute in E.
Defined.

(** Eight bytes that are no UTF-8 before the mark make it stand beyond the end. *)
Definition ex_beyond : wire_request :=
  {| w_method := 2; w_protocol := None; w_uri := None; w_addr := None; w_host := None; w_server := None; w_port := 0;
     w_ssl := 0; w_headers := [Known 0xA007 (Some (replicate 8 xff ++ action_mark))]; w_attributes := [] |}.
Example ajp_beyond_panics :
  @HandlePacket ascii_only NewDecoder (ex_ajp 40000 8009 (ajp_packet MagicForward (encode_request ex_beyond) [])) = Panic.
Proof. by vm_compute. Qed.

(** The body of a request follows in packets of the same magic: one of 512
    bytes, here zeros, is taken for a request and discards the open exchange. *)
Example body_taken_for_request :
  match @HandlePacket ascii_only
    {| transactions := {["10.0.0.1:40000-10.0.0.2:8009"%string := @lone_response ex_ask]}; completed := [] |}
    (ex_ajp 40000 8009 (ajp_packet MagicForward (octets [2; 0] ++ replicate 512 x00) [])) with
  | Ok (d, pkt) => (Method <$> transactions d !! "10.0.0.1:40000-10.0.0.2:8009"%string) = Some "METHOD_0"%string
  | _ => False
  end.
Proof. by vm_compute. Qed.
