(* ===== verification/Http1.v ===== *)
(** * internal/protocols/http1: the HTTP/1 decoder

    decoder.go: requests and responses, paired by the addresses and ports of
    the connection; headers; the preview of a body; and what is looked for in
    SOAP envelopes. The text is searched in lower case and cut at the places
    found there, which panics when lower case is longer. *)
From S2P Require Export Domain.
From S2P Require Export Lines.
From S2P Require Export Exchange.
From S2P Require Import Dpi.

(** ** State *)

(** What a response can still change of a transaction. *)
Record tx_state := {
  StatusCode : Z;
  StatusText : string;
  EndTime_ : time;
  IsError : bool;
  ContentType : string;
  ContentLength : string;
  Server : string;
  HasCookie : bool;
  BodyPreview : string;
  IsSOAP : bool;
  SOAPOperation : string;
  FaultCode : string;
  FaultString : string;
}.

Record httpTransaction := {
  ID : string;
  Method : string;
  URI : string;
  Host : string;
  UserAgent : string;
  HasAuth : bool;
  SOAPAction : string;
  T_SrcIP : string;
  T_DstIP : string;
  T_SrcPort : Z;
  T_DstPort : Z;
  StartTime_ : time;
  state : tx_state;
}.

Record Decoder := { transactions : gmap string httpTransaction; completed : list httpTransaction }.
Definition NewDecoder : Decoder := {| transactions := ∅; completed := [] |}.

(** ** Messages *)

Definition http_port (p : Z) : bool := (p =? 80) || (p =? 8080) || (p =? 8000) || (p =? 8888) || (p =? 3000).
Definition isHTTPPort (src dst : Z) : bool := http_port src || http_port dst.

Definition httpMethods : list string :=
  ["GET "; "POST "; "PUT "; "DELETE "; "PATCH "; "HEAD "; "OPTIONS "; "CONNECT "; "TRACE ";
   "STATUS "; "CONFIG "; "ENABLE-APP "; "DISABLE-APP "; "STOP-APP "; "REMOVE-APP "; "INFO "; "DUMP "; "PING "]%string.

Definition isHTTPRequest (line : list byte) : bool := existsb (fun m => is_prefix (gobytes m) line) httpMethods.
Definition isHTTPResponse (line : list byte) : bool :=
  is_prefix (gobytes "HTTP/1.0 ") line || is_prefix (gobytes "HTTP/1.1 ") line.

(** The bytes before the first CR or LF, which is looked for at the first 202
    places. *)
Fixpoint line_end (i : nat) (s : list byte) : option nat :=
  match s with
  | [] => None
  | b :: s =>
    if (u8 b =? 0x0D) || (u8 b =? 0x0A) then Some i
    else if (200 <? i)%nat then None
    else line_end (S i) s
  end.
Definition firstLine (payload : list byte) : list byte :=
  match line_end 0 payload with Some i => take i payload | None => [] end.

(** [fmt.Sscanf(s, "%d", &n)]: an optional sign and the digits after it; what
    follows is not read, and an error leaves [n] at its zero. *)
Fixpoint take_digits (s : list byte) : list byte :=
  match s with
  | b :: s => if (0x30 <=? u8 b) && (u8 b <=? 0x39) then b :: take_digits s else []
  | [] => []
  end.
Definition scan_int (s : list byte) : option Z :=
  let s := mjoin (snd <$> drop_spaces (runes s)) in
  let '(sign, rest) :=
    match s with
    | b :: s' => if (u8 b =? 0x2D) || (u8 b =? 0x2B) then ([b], s') else ([], s)
    | [] => ([], [])
    end in
  Atoi (sign ++ take_digits rest).

(** The separator of header and body. *)
Definition blank_line : list byte := crlf ++ crlf.
Definition findBodyStart (payload : list byte) : Z :=
  match index_nat blank_line payload with Some i => Z.of_nat i + 4 | None => -1 end.

Definition extractBody (payload : list byte) (maxLen : Z) : res (list byte) :=
  let i := findBodyStart payload in
  if (i <? 0) || (zlen payload <=? i) then Ok []
  else
    body ← slice_from payload i;
    if maxLen <? zlen body then slice_to body maxLen else Ok body.

Definition binary_byte (b : byte) : bool :=
  (u8 b <? 32) && negb (u8 b =? 0x0A) && negb (u8 b =? 0x0D) && negb (u8 b =? 0x09).

Definition extractBodyPreview (payload : list byte) : res string :=
  body ← extractBody payload 200;
  if zlen body =? 0 then Ok ""%string
  else if existsb binary_byte body then Ok "[binary data]"%string
  else Ok (gostr body).

Definition soapScanWindow : Z := 8192.

Definition lt : byte := byte_of 0x3C.
Definition gt : byte := byte_of 0x3E.
Definition slash : byte := byte_of 0x2F.

(** [strings.IndexAny(tag, " \t\r\n")]: the text before, if there is one. *)
Fixpoint before_space (s : list byte) : list byte :=
  match s with
  | b :: s => if bool_decide (u8 b ∈ [0x20; 0x09; 0x0D; 0x0A]) then [] else b :: before_space s
  | [] => []
  end.
(** [TrimSuffix(tag, "/")] *)
Definition trim_slash (s : list byte) : list byte :=
  match reverse s with b :: t => if bool_decide (b = slash) then reverse t else s | [] => s end.
(** The name after the namespace. *)
Definition local_name (tag : list byte) : list byte :=
  match index_nat [colon] tag with Some i => drop (S i) tag | None => tag end.

(** [strings.IndexByte(s[from:], b) + from] *)
Definition index_from (s p : list byte) (from : Z) : res (option Z) :=
  t ← slice_from s from;
  Ok (match index_nat p t with Some i => Some (from + Z.of_nat i) | None => None end).

Section decoder.
Context `{Unicode}.

Fixpoint header_in (lines : list (list byte)) (prefix : list byte) : res (list byte) :=
  match lines with
  | [] => Ok []
  | line :: lines =>
    if is_prefix prefix (to_lower line) then v ← slice_from line (zlen prefix); Ok (trim_space v)
    else header_in lines prefix
  end.
Definition extractHeaderValue (payload : list byte) (header : string) : res string :=
  gostr <$> header_in (split_on payload crlf) (to_lower (gobytes header) ++ [colon]).

(** ** SOAP *)

Definition isSOAPContentType (ct : string) : bool :=
  let ct := to_lower (gobytes ct) in GoStr.contains ct (gobytes "application/soap+xml") || GoStr.contains ct (gobytes "text/xml").

Definition looksLikeSOAPEnvelope (body : list byte) : bool :=
  let s := to_lower (take 512 body) in GoStr.contains s (gobytes ":envelope") || GoStr.contains s (gobytes "<envelope").

(** One turn of the loop over tags, on [idx]. *)
Definition element_body (s lower target : list byte) (i : Z) : res (ctl Z (list byte)) :=
  if i <? zlen lower then
    open ← index_from lower [lt] i;
    match open with
    | None => Ok (Done [])
    | Some open =>
      closeAngle ← index_from lower [gt] open;
      match closeAngle with
      | None => Ok (Done [])
      | Some closeAngle =>
        tag ← slice lower (open + 1) closeAngle;
        let isClosing := is_prefix [slash] tag in
        let tag := if isClosing then drop 1 tag else tag in
        let name := local_name (before_space (trim_slash tag)) in
        if negb isClosing && bool_decide (name = target) then
          let contentStart := closeAngle + 1 in
          endTag ← index_from lower [lt; slash] contentStart;
          match endTag with
          | None => Ok (Done [])
          | Some endTag => v ← slice s contentStart endTag; Ok (Done (trim_space v))
          end
        else Ok (Next (closeAngle + 1))
      end
    end
  else Ok (Done []).

Definition extractXMLElementText (body : list byte) (localName : string) : res (list byte) :=
  let lower := to_lower body in
  loop (S (length lower)) (element_body body lower (to_lower (gobytes localName))) 0.

(** The first of some elements with text, as the [else if] of the code. *)
Fixpoint first_element (body : list byte) (names : list string) : res (list byte) :=
  match names with
  | [] => Ok []
  | n :: names =>
    v ← extractXMLElementText body n;
    if zlen v =? 0 then first_element body names else Ok v
  end.

Definition detectSOAPFault (body : list byte) : res (option (string * string)) :=
  let lower := to_lower body in
  if negb (GoStr.contains lower (gobytes ":fault")) && negb (GoStr.contains lower (gobytes "<fault")) then Ok None
  else
    code ← first_element body ["faultcode"; "code"]%string;
    str ← first_element body ["faultstring"; "text"; "reason"]%string;
    Ok (Some (gostr code, gostr str)).

Definition extractSOAPOperation (body : list byte) : res (list byte) :=
  let lower := to_lower body in
  let start := match index_nat (gobytes ":body") lower with
               | Some i => Some i
               | None => index_nat (gobytes "<body") lower
               end in
  match start with
  | None => Ok []
  | Some bodyIdx =>
    openEnd ← index_from lower [gt] (Z.of_nat bodyIdx);
    match openEnd with
    | None => Ok []
    | Some openEnd =>
      i ← index_from lower [lt] (openEnd + 1);
      match i with
      | None => Ok []
      | Some i =>
        closing ← (if i + 1 <? zlen lower then b ← idx lower (i + 1); Ok (bool_decide (b = slash)) else Ok false);
        if closing : bool then Ok []
        else
          closeAngle ← index_from lower [gt] i;
          match closeAngle with
          | None => Ok []
          | Some closeAngle => tag ← slice body (i + 1) closeAngle; Ok (local_name (before_space (trim_slash tag)))
          end
      end
    end
  end.

(** ** Requests and responses *)

Definition conn_key (srcIP : string) (srcPort : Z) (dstIP : string) (dstPort : Z) : string :=
  cat [srcIP; ":"; fmt_d srcPort; "-"; dstIP; ":"; fmt_d dstPort].
Definition key_of (pkt : Packet) : string := conn_key (SrcIP pkt) (SrcPort pkt) (DstIP pkt) (DstPort pkt).
Definition rkey_of (pkt : Packet) : string := conn_key (DstIP pkt) (DstPort pkt) (SrcIP pkt) (SrcPort pkt).

Definition nonempty (s : string) : bool := negb (String.eqb s "").

Definition no_response : tx_state :=
  {| StatusCode := 0; StatusText := ""; EndTime_ := 0; IsError := false; ContentType := ""; ContentLength := "";
     Server := ""; HasCookie := false; BodyPreview := ""; IsSOAP := false; SOAPOperation := ""; FaultCode := "";
     FaultString := "" |}.

Definition with_state (st : tx_state) (tx : httpTransaction) : httpTransaction :=
  {| ID := ID tx; Method := Method tx; URI := URI tx; Host := Host tx; UserAgent := UserAgent tx; HasAuth := HasAuth tx;
     SOAPAction := SOAPAction tx; T_SrcIP := T_SrcIP tx; T_DstIP := T_DstIP tx; T_SrcPort := T_SrcPort tx;
     T_DstPort := T_DstPort tx; StartTime_ := StartTime_ tx; state := st |}.

(** [tx.IsSOAP] is set with the operation and, of a response, the fault. *)
Definition set_soap (op code str : string) (is_error : bool) (st : tx_state) : tx_state :=
  {| StatusCode := StatusCode st; StatusText := StatusText st; EndTime_ := EndTime_ st; IsError := is_error;
     ContentType := ContentType st; ContentLength := ContentLength st; Server := Server st; HasCookie := HasCookie st;
     BodyPreview := BodyPreview st; IsSOAP := true; SOAPOperation := op; FaultCode := code; FaultString := str |}.

(** The transaction of a request line with these parts. *)
Definition request_tx (pkt : Packet) (method uri : list byte) : res httpTransaction :=
  let payload := Payload pkt in
  host ← extractHeaderValue payload "Host";
  contentType ← extractHeaderValue payload "Content-Type";
  contentLength ← extractHeaderValue payload "Content-Length";
  userAgent ← extractHeaderValue payload "User-Agent";
  auth ← extractHeaderValue payload "Authorization";
  cookie ← extractHeaderValue payload "Cookie";
  preview ← extractBodyPreview payload;
  soapAction ← extractHeaderValue payload "SOAPAction";
  let st := {| StatusCode := 0; StatusText := ""; EndTime_ := 0; IsError := false; ContentType := contentType;
               ContentLength := contentLength; Server := ""; HasCookie := nonempty cookie; BodyPreview := preview;
               IsSOAP := false; SOAPOperation := ""; FaultCode := ""; FaultString := "" |} in
  body ← extractBody payload soapScanWindow;
  st ← (if (0 <? zlen body) && (isSOAPContentType contentType || nonempty soapAction || looksLikeSOAPEnvelope body)
        then op ← extractSOAPOperation body; Ok (set_soap (gostr op) "" "" false st)
        else Ok st);
  Ok {| ID := cat ["http-"; key_of pkt; "-"; fmt_d (FrameNumber pkt)]; Method := gostr method; URI := gostr uri;
        Host := host; UserAgent := userAgent; HasAuth := nonempty auth; SOAPAction := soapAction; T_SrcIP := SrcIP pkt;
        T_DstIP := DstIP pkt; T_SrcPort := SrcPort pkt; T_DstPort := DstPort pkt; StartTime_ := Timestamp pkt;
        state := st |}.

Definition request_summary (tx : httpTransaction) : string :=
  cat [Method tx; " "; URI tx; if nonempty (Host tx) then " Host:" +:+ Host tx else ""].

Definition handleRequest (d : Decoder) (pkt : Packet) (line : list byte) :
    res (Decoder * Packet * option httpTransaction) :=
  match split_n line [space] 3 with
  | method :: uri :: _ =>
    tx ← request_tx pkt method uri;
    Ok ({| transactions := <[key_of pkt := tx]> (transactions d); completed := completed d |},
        set_app "HTTP" (request_summary tx) pkt, Some tx)
  | _ => Ok (d, pkt, None)
  end.

(** The transaction of a response whose request was not seen. *)
Definition lone_response (pkt : Packet) : httpTransaction :=
  {| ID := "http-resp-" +:+ fmt_d (FrameNumber pkt); Method := ""; URI := ""; Host := ""; UserAgent := "";
     HasAuth := false; SOAPAction := ""; T_SrcIP := DstIP pkt; T_DstIP := SrcIP pkt; T_SrcPort := DstPort pkt;
     T_DstPort := SrcPort pkt; StartTime_ := 0; state := no_response |}.

(** [if v != "" { old = v }] *)
Definition update (v old : string) : string := if nonempty v then v else old.

(** The part of a response that SOAP is looked for in. *)
Definition soap_response (body : list byte) (st : tx_state) : res tx_state :=
  if (0 <? zlen body) && (isSOAPContentType (ContentType st) || looksLikeSOAPEnvelope body) then
    op ← extractSOAPOperation body;
    let op := if negb (zlen op =? 0) && String.eqb (SOAPOperation st) "" then gostr op else SOAPOperation st in
    fault ← detectSOAPFault body;
    Ok (match fault with
        | Some (code, str) => set_soap op code str true st
        | None => set_soap op (FaultCode st) (FaultString st) (IsError st) st
        end)
  else Ok st.

(** What a response does to the state of its transaction. *)
Definition response_state (pkt : Packet) (statusCode : Z) (statusText : string) (st : tx_state) : res tx_state :=
  let payload := Payload pkt in
  contentType ← extractHeaderValue payload "Content-Type";
  contentLength ← extractHeaderValue payload "Content-Length";
  server ← extractHeaderValue payload "Server";
  setCookie ← extractHeaderValue payload "Set-Cookie";
  preview ← extractBodyPreview payload;
  body ← extractBody payload soapScanWindow;
  soap_response body
    {| StatusCode := statusCode; StatusText := statusText; EndTime_ := Timestamp pkt; IsError := 400 <=? statusCode;
       ContentType := update contentType (ContentType st); ContentLength := update contentLength (ContentLength st);
       Server := update server (Server st); HasCookie := nonempty setCookie || HasCookie st;
       BodyPreview := update preview (BodyPreview st); IsSOAP := IsSOAP st; SOAPOperation := SOAPOperation st;
       FaultCode := FaultCode st; FaultString := FaultString st |}.

(** The status code and text of a status line with these parts. *)
Definition status_parts (parts : list (list byte)) : option (Z * string) :=
  match parts with
  | _ :: code :: rest => Some (default 0 (scan_int code), match rest with t :: _ => gostr t | [] => ""%string end)
  | _ => None
  end.

Definition response_summary (tx : httpTransaction) : string :=
  cat [fmt_d (StatusCode (state tx)); " "; StatusText (state tx); " ("; Method tx; " "; URI tx; ")"].

Definition handleResponse (d : Decoder) (pkt : Packet) (line : list byte) :
    res (Decoder * Packet * option httpTransaction) :=
  match status_parts (split_n line [space] 3) with
  | Some (statusCode, statusText) =>
    let key := rkey_of pkt in
    let tx := default (lone_response pkt) (transactions d !! key) in
    st ← response_state pkt statusCode statusText (state tx);
    let tx := with_state st tx in
    Ok ({| transactions := delete key (transactions d); completed := completed d ++ [tx] |},
        set_app "HTTP" (response_summary tx) pkt, Some tx)
  | None => Ok (d, pkt, None)
  end.

Definition parseHTTP (d : Decoder) (pkt : Packet) : res (Decoder * Packet * option httpTransaction) :=
  let line := firstLine (Payload pkt) in
  if zlen line =? 0 then Ok (d, pkt, None)
  else if isHTTPRequest line then handleRequest d pkt line
  else if isHTTPResponse line then handleResponse d pkt line
  else Ok (d, pkt, None).

(** The early returns of both handlers, negated. *)
Definition admits (pkt : Packet) : res bool :=
  if negb (String.eqb (Protocol pkt) "TCP") then Ok false
  else if zlen (Payload pkt) <? 10 then Ok false
  else if isHTTPPort (SrcPort pkt) (DstPort pkt) then Ok true
  else IsHTTP (Payload pkt).

Definition HandlePacket (d : Decoder) (pkt : Packet) : res (Decoder * Packet) :=
  ok ← admits pkt;
  if negb ok then Ok (d, pkt) else '(d, pkt, _) ← parseHTTP d pkt; Ok (d, pkt).

(** ** What is reported *)

Definition status_error (tx : httpTransaction) (title severity : string) : PacketError :=
  let code := fmt_d (StatusCode (state tx)) in
  {| Code := "HTTP_" +:+ code; Title := cat [title; " "; code];
     Description := cat [Method tx; " "; URI tx; " returned "; code; " "; StatusText (state tx)]; Severity := severity |}.

Definition live_errors (tx : httpTransaction) : list PacketError :=
  let st := state tx in
  (if (400 <=? StatusCode st) && (StatusCode st <? 500) then [status_error tx "HTTP Client Error" "warning"]
   else if 500 <=? StatusCode st then [status_error tx "HTTP Server Error" "error"] else []) ++
  (if nonempty (FaultCode st) || nonempty (FaultString st) then
     [{| Code := "SOAP_FAULT"; Title := "SOAP Fault"; Description := cat [FaultCode st; ": "; FaultString st];
         Severity := "error" |}]
   else []).

Definition set_if (v : string) (k : string) (m : gmap string any) : gmap string any :=
  if nonempty v then <[k := AStr v]> m else m.
Definition flag_if (b : bool) (k : string) (m : gmap string any) : gmap string any :=
  if b then <[k := ABool true]> m else m.

(** The entries on SOAP, which both maps end with. *)
Definition soap_metrics (tx : httpTransaction) (m : gmap string any) : gmap string any :=
  set_if (FaultString (state tx)) "soap_fault_string" (set_if (FaultCode (state tx)) "soap_fault_code"
    (set_if (SOAPOperation (state tx)) "soap_operation" (set_if (SOAPAction tx) "soap_action"
      (flag_if (IsSOAP (state tx)) "is_soap" m)))).

Definition live_metadata (tx : httpTransaction) : gmap string any :=
  soap_metrics tx (set_if (Server (state tx)) "server" (set_if (UserAgent tx) "user_agent"
    (set_if (ContentType (state tx)) "content_type" (list_to_map
      [("method", AStr (Method tx)); ("uri", AStr (URI tx)); ("host", AStr (Host tx));
       ("status_code", AInt TInt (StatusCode (state tx))); ("status_text", AStr (StatusText (state tx)))]%string)))).

Definition HandlePacketLive (d : Decoder) (pkt : Packet) : res (Decoder * Packet * option DecodedPacket) :=
  ok ← admits pkt;
  if negb ok then Ok (d, pkt, None)
  else
    '(d, pkt, o) ← parseHTTP d pkt;
    Ok (d, pkt, option_map (fun tx =>
      {| D_Packet := pkt; D_Protocol := "HTTP"; D_Summary := Summary pkt; D_Metadata := live_metadata tx;
         D_Errors := live_errors tx |}) o).

Definition tx_metrics (tx : httpTransaction) : gmap string any :=
  soap_metrics tx (set_if (BodyPreview (state tx)) "body_preview" (flag_if (HasCookie (state tx)) "has_cookie"
    (flag_if (HasAuth tx) "has_auth" (set_if (Server (state tx)) "server" (set_if (UserAgent tx) "user_agent"
      (set_if (ContentLength (state tx)) "content_length" (set_if (ContentType (state tx)) "content_type" (list_to_map
        [("method", AStr (Method tx)); ("uri", AStr (URI tx)); ("host", AStr (Host tx));
         ("status_code", AInt TInt (StatusCode (state tx))); ("is_error", ABool (IsError (state tx)))]%string)))))))).

Definition tx_flow (tx : httpTransaction) : Flow :=
  {| FlowID := ID tx; Type_ := FlowHTTP; F_SrcIP := T_SrcIP tx; F_DstIP := T_DstIP tx; F_SrcPort := T_SrcPort tx;
     F_DstPort := T_DstPort tx; StartTime := StartTime_ tx; EndTime := EndTime_ (state tx); Metrics := tx_metrics tx |}.

Definition Flush (d : Decoder) : list Flow := tx_flow <$> completed d.

End decoder.

(** ** Where the decoder returns *)

Section safe.
Context `{Unicode}.

Lemma header_in_returns lines prefix : is_ascii prefix = true -> returns (header_in lines prefix) (fun _ => True).
Proof.
  intros Ha. induction lines as [|l lines IH]; [done|]. cbn [header_in]. case_match eqn:E; [|done].
  apply lower_prefix_length in E; [|done]. run_step. unfold slice_from. apply returns_slice; [|done].
  unfold zlen. lia.
Qed.

Lemma is_ascii_lower_key (n : string) : is_ascii (gobytes n) = true -> is_ascii (to_lower (gobytes n) ++ [colon]) = true.
Proof.
  intros Ha. rewrite to_lower_ascii, is_ascii_app by done. apply andb_true_iff. split; [|done].
  apply forallb_forall. intros b Hb. apply in_map_iff in Hb as (c & <- & Hc).
  unfold is_ascii in Ha. rewrite forallb_forall in Ha. specialize (Ha c Hc). pose proof (u8_range c).
  unfold lower_byte. case_match; [|done]. rewrite u8_byte_of by lia. lia.
Qed.

Lemma extractHeaderValue_returns payload n : is_ascii (gobytes n) = true ->
  returns (extractHeaderValue payload n) (fun _ => True).
Proof.
  intros Ha. unfold extractHeaderValue. apply (returns_bind_weak _ _ (fun _ => True)); [|done].
  by apply header_in_returns, is_ascii_lower_key.
Qed.

Lemma extractBody_returns payload n : 0 <= n -> returns (extractBody payload n) (fun _ => True).
Proof.
  intros Hn. unfold extractBody. cbv zeta. case_match; [done|]. run_step. unfold slice_from.
  apply returns_slice; [lia|]. case_match; [|done]. unfold slice_to. apply returns_slice; [lia|]. done.
Qed.

Lemma extractBodyPreview_returns payload : returns (extractBodyPreview payload) (fun _ => True).
Proof.
  unfold extractBodyPreview. apply (returns_bind_weak _ _ (fun _ => True)); [by apply extractBody_returns|].
  intros body _. by repeat case_match.
Qed.

Lemma index_from_returns s p from : 0 <= from <= zlen s ->
  returns (index_from s p from) (fun o => forall i, o = Some i -> from <= i /\ i + zlen p <= zlen s /\ holds_at s i p).
Proof.
  intros Hf. unfold index_from. rewrite slice_from_Ok by lia. cbn [mbind res_bind].
  destruct (index_nat p _) as [i|] eqn:E; cbn [returns]; [|done]. intros ? [= <-].
  apply index_nat_Some in E as (t & Ht & Hi). rewrite length_drop in Hi.
  assert (holds_at s (from + Z.of_nat i) p) as Hat.
  { exists (take (Z.to_nat from) s ++ take i (drop (Z.to_nat from) s)), t. split.
    - by rewrite <-app_assoc, <-Ht, take_drop.
    - unfold zlen in *. rewrite length_app, !length_take, length_drop. lia. }
  split; [lia|]. split; [|done]. exact (proj2 (holds_at_bound _ _ _ Hat)).
Qed.

Lemma lt_before_gt s i j : holds_at s i [lt] -> holds_at s j [gt] -> i <= j -> i < j.
Proof.
  intros Hi Hj Hle. destruct (decide (i = j)) as [<-|]; [|lia].
  apply holds_at_cons in Hi as [Hi _]. apply holds_at_cons in Hj as [Hj _]. rewrite Hi in Hj. by injection Hj.
Qed.

(** The text is no longer in lower case: so are the places found there. *)
Definition steady (s : list byte) : Prop := zlen (to_lower s) <= zlen s.

Lemma ascii_steady s : is_ascii s = true -> steady s.
Proof. intros Ha. unfold steady, zlen. by rewrite to_lower_ascii, length_fmap by done. Qed.

Lemma extractXMLElementText_returns body n : steady body -> returns (extractXMLElementText body n) (fun _ => True).
Proof.
  intros Hs. unfold extractXMLElementText. unfold steady in Hs. set (lower := to_lower body) in *. clearbody lower.
  apply (returns_loop (fun i => 0 <= i) (fun i => Z.to_nat (zlen lower - i))); [|lia|unfold zlen; lia].
  intros i Hi. unfold element_body. destruct (Z.ltb_spec i (zlen lower)); [|done].
  run_step. eapply returns_weaken; [apply index_from_returns; lia|]. intros [open|] Ho; [|done].
  destruct (Ho _ eq_refl) as (Ho1 & Ho2 & Hlt). change (zlen [lt]) with 1 in Ho2. clear Ho.
  run_step. eapply returns_weaken; [apply index_from_returns; lia|]. intros [close|] Hc; [|done].
  destruct (Hc _ eq_refl) as (Hc1 & Hc2 & Hgt). change (zlen [gt]) with 1 in Hc2. clear Hc.
  pose proof (lt_before_gt _ _ _ Hlt Hgt Hc1). run_step. apply returns_slice; [lia|]. cbv zeta. case_match; [|cbn; lia].
  run_step. eapply returns_weaken; [apply index_from_returns; lia|]. intros [e|] He; [|done].
  destruct (He _ eq_refl) as (He1 & He2 & _). change (zlen [lt; slash]) with 2 in He2.
  run_step. apply returns_slice; [lia|]. done.
Qed.

Lemma first_element_returns body names : steady body -> returns (first_element body names) (fun _ => True).
Proof.
  intros Hs. induction names as [|n names IH]; [done|]. cbn [first_element].
  run_step. eapply returns_weaken; [by apply extractXMLElementText_returns|]. intros v _. by case_match.
Qed.

Lemma detectSOAPFault_returns body : steady body -> returns (detectSOAPFault body) (fun _ => True).
Proof.
  intros Hs. unfold detectSOAPFault. cbv zeta. case_match; [done|].
  do 2 (run_step; eapply returns_weaken; [by apply first_element_returns|]; intros ? _). done.
Qed.

Lemma extractSOAPOperation_returns body : steady body -> returns (extractSOAPOperation body) (fun _ => True).
Proof.
  intros Hs. unfold extractSOAPOperation. unfold steady in Hs. set (lower := to_lower body) in *. clearbody lower.
  cbv zeta. set (start := match index_nat _ lower with Some i => Some i | None => _ end).
  assert (forall i, start = Some i -> Z.of_nat i <= zlen lower) as Hstart.
  { unfold start. intros i Hi. unfold zlen.
    repeat case_match; simplify_eq; match goal with E : index_nat _ _ = Some _ |- _ => apply index_nat_Some in E as (? & _ & ?) end; lia. }
  destruct start as [i0|]; [|done]. specialize (Hstart _ eq_refl).
  run_step. eapply returns_weaken; [apply index_from_returns; lia|]. intros [e|] He; [|done].
  destruct (He _ eq_refl) as (He1 & He2 & _). change (zlen [gt]) with 1 in He2.
  run_step. eapply returns_weaken; [apply index_from_returns; lia|]. intros [i|] Hi; [|done].
  destruct (Hi _ eq_refl) as (Hi1 & Hi2 & Hlt). change (zlen [lt]) with 1 in Hi2.
  apply (returns_bind_weak _ _ (fun _ => True)).
  { case_match eqn:E; [|done]. run_step. apply returns_idx; [lia|]. done. }
  intros closing _. destruct closing; [done|].
  run_step. eapply returns_weaken; [apply index_from_returns; lia|]. intros [c|] Hc; [|done].
  destruct (Hc _ eq_refl) as (Hc1 & Hc2 & Hgt). change (zlen [gt]) with 1 in Hc2.
  pose proof (lt_before_gt _ _ _ Hlt Hgt Hc1). run_step. apply returns_slice; [lia|]. done.
Qed.

(** The part of the body that is searched is steady. *)
Definition steady_body (payload : list byte) : Prop :=
  forall body, extractBody payload soapScanWindow = Ok body -> steady body.

Lemma request_tx_returns pkt method uri : steady_body (Payload pkt) -> returns (request_tx pkt method uri) (fun _ => True).
Proof.
  intros Hs. unfold request_tx.
  do 6 (run_step; eapply returns_weaken; [by apply extractHeaderValue_returns|]; intros ? _).
  run_step. eapply returns_weaken; [apply extractBodyPreview_returns|]. intros ? _.
  run_step. eapply returns_weaken; [by apply extractHeaderValue_returns|]. intros ? _. cbv zeta.
  destruct (returns_inv _ _ (extractBody_returns (Payload pkt) soapScanWindow ltac:(done))) as (body & Hb & _).
  rewrite Hb. cbn [mbind res_bind]. apply (returns_bind_weak _ _ (fun _ => True)); [|done].
  case_match; [|done]. run_step. eapply returns_weaken; [by apply extractSOAPOperation_returns, Hs|]. done.
Qed.

Lemma response_state_returns pkt code text st : steady_body (Payload pkt) ->
  returns (response_state pkt code text st) (fun _ => True).
Proof.
  intros Hs. unfold response_state.
  do 4 (run_step; eapply returns_weaken; [by apply extractHeaderValue_returns|]; intros ? _).
  run_step. eapply returns_weaken; [apply extractBodyPreview_returns|]. intros ? _.
  destruct (returns_inv _ _ (extractBody_returns (Payload pkt) soapScanWindow ltac:(done))) as (body & Hb & _).
  rewrite Hb. cbn [mbind res_bind]. unfold soap_response. case_match; [|done].
  run_step. eapply returns_weaken; [by apply extractSOAPOperation_returns, Hs|]. intros op _. cbv zeta.
  run_step. eapply returns_weaken; [by apply detectSOAPFault_returns, Hs|]. intros [[? ?]|] _; done.
Qed.

Lemma http1_admits_returns pkt : returns (admits pkt) (fun _ => True).
Proof.
  unfold admits. repeat case_match; try done. eapply returns_weaken; [apply IsHTTP_returns|done].
Qed.

Lemma ascii_steady_body payload : is_ascii payload = true -> steady_body payload.
Proof.
  intros Ha body Hb. apply ascii_steady. unfold extractBody in Hb. cbv zeta in Hb. case_match; [by injection Hb as <-|].
  assert (forall a b v s, is_ascii s = true -> slice s a b = Ok v -> is_ascii v = true) as Hsl.
  { intros a b v s Hs (_ & _ & ->)%slice_Ok_inv. unfold sub.
    rewrite <-(take_drop (Z.to_nat a) s), is_ascii_app in Hs. apply andb_true_iff in Hs as [_ Hs].
    rewrite <-(take_drop (Z.to_nat (b - a)) (drop _ s)), is_ascii_app in Hs. by apply andb_true_iff in Hs as [Hs _]. }
  apply bind_Ok in Hb as (t & Ht & Hb). apply Hsl in Ht; [|done]. case_match; [by eapply Hsl|by injection Hb as <-].
Qed.

(** Every packet whose body, as far as it is searched, is no longer in lower
    case is handled, ASCII ones among them: nothing but a body can panic the
    decoder. It keeps at most one transaction of it. *)
Theorem http1_handles_steady d pkt : steady_body (Payload pkt) ->
  returns (HandlePacket d pkt) (fun '(d', _) => exists l, completed d' = completed d ++ l /\ (length l <= 1)%nat).
Proof.
  intros Hs. unfold HandlePacket. run_step. eapply returns_weaken; [apply http1_admits_returns|]. intros ok _.
  assert (exists l : list httpTransaction, completed d = completed d ++ l /\ (length l <= 1)%nat) as Hnone.
  { exists []. rewrite app_nil_r. split; [done|cbn; lia]. }
  destruct ok; cbn [negb]; [|done]. unfold parseHTTP. cbv zeta. case_match; [done|]. case_match; [|case_match; [|done]].
  - unfold handleRequest. case_match; [done|]. case_match; [done|]. run_step. run_step.
    eapply returns_weaken; [by apply request_tx_returns|]. intros tx _. cbn. done.
  - unfold handleResponse. case_match; [|done]. case_match. cbv zeta. run_step. run_step.
    eapply returns_weaken; [by apply response_state_returns|]. intros st _. cbn. by eexists [_].
Qed.

End safe.

(** ** Transactions: what a connection's packets come to *)

Section transactions.
Context `{Unicode}.

Inductive event :=
  | Asked (tx : httpTransaction)
  | Replied (pkt : Packet) (statusCode : Z) (statusText : string).

(** A request replaces one that is open; a response finishes the open request,
    or stands alone. *)
Definition converse (o : option httpTransaction) (e : event) : option httpTransaction * list httpTransaction :=
  match e with
  | Asked tx => (Some tx, [])
  | Replied pkt code text =>
    let tx := default (lone_response pkt) o in
    match response_state pkt code text (state tx) with
    | Ok st => (None, [with_state st tx])
    | _ => (o, [])
    end
  end.

Definition tx_key (tx : httpTransaction) : string := conn_key (T_SrcIP tx) (T_SrcPort tx) (T_DstIP tx) (T_DstPort tx).

Definition event_ok (k : string) (e : event) : Prop :=
  match e with Asked tx => tx_key tx = k | Replied pkt _ _ => rkey_of pkt = k end.

Lemma http1_converse_keyed k o e : keyed tx_key k o -> event_ok k e ->
  keyed tx_key k (converse o e).1 /\ Forall (fun tx => tx_key tx = k) (converse o e).2.
Proof.
  intros Ho He. destruct e as [tx|pkt code text]; cbn [converse].
  - split; [|done]. by intros ? [= <-].
  - case_match; cbn [fst snd]; [|by split..]. split; [done|]. constructor; [|done].
    destruct o as [tx|]; [by apply (Ho tx)|exact He].
Qed.

Definition packet_event (pkt : Packet) : res (option (string * event)) :=
  ok ← admits pkt;
  let line := firstLine (Payload pkt) in
  if negb ok || (zlen line =? 0) then Ok None
  else if isHTTPRequest line then
    match split_n line [space] 3 with
    | method :: uri :: _ => tx ← request_tx pkt method uri; Ok (Some (key_of pkt, Asked tx))
    | _ => Ok None
    end
  else if isHTTPResponse line then
    Ok ('(code, text) ← status_parts (split_n line [space] 3); Some (rkey_of pkt, Replied pkt code text))
  else Ok None.

Lemma http1_packet_event_ok pkt k e : packet_event pkt = Ok (Some (k, e)) -> event_ok k e.
Proof.
  unfold packet_event. intros He. apply bind_Ok in He as (ok & _ & He). cbv zeta in He.
  case_match; [done|]. case_match; [|case_match; [|done]].
  - case_match; [done|]. case_match; [done|]. apply bind_Ok in He as (tx & Hf & He). injection He as <- <-. cbn.
    unfold request_tx in Hf. repeat (apply bind_Ok in Hf as (? & _ & Hf); cbv zeta in Hf). by injection Hf as <-.
  - destruct (status_parts _) as [[code text]|]; [|done]. by injection He as <- <-.
Qed.

Definition tables (d : Decoder) : gmap string httpTransaction * list httpTransaction := (transactions d, completed d).

Lemma http1_handle_event d pkt d' pkt' : HandlePacket d pkt = Ok (d', pkt') ->
  exists o, packet_event pkt = Ok o /\ tables d' = foldl (table_step converse) (tables d) (option_list o).
Proof.
  unfold HandlePacket, packet_event. destruct (returns_inv _ _ (http1_admits_returns pkt)) as (ok & -> & _).
  cbn [mbind res_bind]. cbv zeta. destruct ok; cbn [negb orb]; [|intros [= <- <-]; by exists None].
  intros Hh. apply bind_Ok in Hh as ([[d1 p1] o1] & Hp & Hh). injection Hh as <- <-. unfold parseHTTP in Hp. cbv zeta in Hp.
  destruct (zlen _ =? 0); [injection Hp as <- _ _; by exists None|].
  destruct (isHTTPRequest _); [|destruct (isHTTPResponse _); [|injection Hp as <- _ _; by exists None]].
  - unfold handleRequest in Hp. destruct (split_n _ _ _) as [|m [|u l]]; [injection Hp as <- _ _; by exists None..|].
    apply bind_Ok in Hp as (tx & Htx & Hp). injection Hp as <- _ _. rewrite Htx. cbn [mbind res_bind].
    eexists. split; [done|]. cbn. unfold tables, table_step. cbn. by rewrite app_nil_r.
  - unfold handleResponse in Hp. destruct (status_parts _) as [[code text]|]; [|injection Hp as <- _ _; by exists None].
    cbv zeta in Hp. apply bind_Ok in Hp as (st & Hst & Hp). injection Hp as <- _ _.
    exists (Some (rkey_of pkt, Replied pkt code text)). split; [done|].
    transitivity (table_step converse (tables d) (rkey_of pkt, Replied pkt code text)); [|done]. unfold table_step, tables. cbn [fst snd transactions completed].
    unfold converse. cbv zeta. by rewrite Hst.
Qed.

Definition run (d : Decoder) (pkts : list Packet) : res Decoder := handle_all HandlePacket d pkts.

Lemma run_steady d pkts : Forall (fun pkt => steady_body (Payload pkt)) pkts -> exists d', run d pkts = Ok d'.
Proof.
  intros Hs. revert d. induction Hs as [|pkt pkts Hp _ IH]; intros d; [by exists d|].
  unfold run, handle_all in *. cbn [foldM].
  destruct (returns_inv _ _ (http1_handles_steady d pkt Hp)) as ([d1 p1] & -> & _). cbn [mbind res_bind]. apply IH.
Qed.

(** Any packets with steady bodies are handled, and what the decoder holds
    of a connection and reports of it comes from that connection's own packets,
    one after the other: a request opens a transaction and discards one that is
    open, the first response finishes it, and any other response is a
    transaction of its own. Requests without a response are not reported. *)
Theorem http1_conversations pkts : Forall (fun pkt => steady_body (Payload pkt)) pkts ->
  exists d evs, run NewDecoder pkts = Ok d /\ mapM packet_event pkts = Ok evs /\
    forall k, (transactions d !! k, of_key tx_key k (completed d)) =
      foldl (exchange_step converse) (None, []) (events_of k (mjoin (option_list <$> evs))).
Proof.
  intros Hs. destruct (run_steady NewDecoder pkts Hs) as [d Hr]. exists d.
  destruct (conversations _ _ tables _ _ _ http1_handle_event http1_packet_event_ok http1_converse_keyed NewDecoder pkts d eq_refl Hr)
    as (evs & Hm & Hk).
  exists evs. by split_and!.
Qed.

End transactions.

(** ** Messages on the wire (RFC 9112) *)

(** A start line, headers, and a body that is ASCII text without CR and does not
    start with a letter, as XML and JSON do not: the decoder looks for headers
    in the lines of the body, too. *)
Record message := {
  m_start : list byte;
  m_headers : list (list byte * list byte);
  m_body : list byte;
}.

Definition letter (b : byte) : bool := ((0x41 <=? u8 b) && (u8 b <=? 0x5A)) || ((0x61 <=? u8 b) && (u8 b <=? 0x7A)).
Definition printable (s : list byte) : bool := forallb (fun b => (0x20 <=? u8 b) && (u8 b <=? 0x7E)) s.

Definition msg_lines (m : message) : list (list byte) := m_start m :: (header_bytes <$> m_headers m).
Definition msg_bytes (m : message) : list byte := join_lines (msg_lines m) ++ blank_line ++ m_body m.

Definition start_ok (s : list byte) : Prop :=
  printable s = true /\ (length s <= 201)%nat /\ exists n v, s = n ++ space :: v /\ name n = true.

Definition msg_ok (m : message) : Prop :=
  start_ok (m_start m) /\ forallb (fun h => name (fst h) && text (snd h)) (m_headers m) = true /\
  text (m_body m) = true /\ match m_body m with b :: _ => letter b = false | [] => True end.

(** The value of the first header of that name. *)
Definition header_of (m : message) (n : string) : string :=
  match filter (fun h => lower_byte <$> fst h = lower_byte <$> gobytes n) (m_headers m) with
  | h :: _ => gostr (trim_space (snd h))
  | [] => ""
  end.

Definition preview_of (body : list byte) : string :=
  if existsb binary_byte (take 200 body) then "[binary data]" else gostr (take 200 body).

Lemma join_lines_app ls ks : ls <> [] -> ks <> [] -> join_lines (ls ++ ks) = join_lines ls ++ crlf ++ join_lines ks.
Proof.
  intros Hl Hk. induction ls as [|l ls IH]; [done|]. destruct ls as [|l' ls]; [by apply join_lines_cons|].
  cbn [app]. rewrite (join_lines_cons l (l' :: ls ++ ks)), (join_lines_cons l (l' :: ls)) by done.
  change (l' :: ls ++ ks) with ((l' :: ls) ++ ks). rewrite IH by done. by rewrite <-!app_assoc.
Qed.

Lemma printable_text s : printable s = true -> text s = true.
Proof.
  unfold printable, text. rewrite !forallb_forall. intros Hs b Hb. specialize (Hs b Hb). cbn beta in *. lia.
Qed.

Lemma msg_lines_ok m : msg_ok m -> Forall (fun l => text l = true /\ l <> []) (msg_lines m).
Proof.
  intros ((Hp & _ & n & v & E & _) & Hh & _). constructor.
  - split; [by apply printable_text|]. rewrite E. by destruct n.
  - apply Forall_fmap, Forall_forall. intros h Hin. rewrite forallb_forall in Hh.
    rewrite list_elem_of_In in Hin. specialize (Hh h Hin). split; [by apply text_header|].
    unfold header_bytes. by destruct (fst h).
Qed.

Lemma http1_msg_split m : msg_ok m -> split_on (msg_bytes m) crlf = msg_lines m ++ [[]; m_body m].
Proof.
  intros Hm. assert (msg_bytes m = join_lines (msg_lines m ++ [[]; m_body m])) as ->.
  { rewrite join_lines_app by done. cbn [join_lines app]. unfold msg_bytes, blank_line. by rewrite <-!app_assoc. }
  apply split_lines; [|by destruct m]. apply Forall_app. split.
  - eapply Forall_impl; [by apply msg_lines_ok|]. intros l [Hl _]. exact (proj2 (text_inv l Hl)).
  - destruct Hm as (_ & _ & Hb & _). repeat constructor; [by apply not_elem_of_nil|exact (proj2 (text_inv _ Hb))].
Qed.

(** The first blank line is where the headers end. *)
Lemma index_nat_cons p b s : index_nat p (b :: s) = if is_prefix p (b :: s) then Some O else S <$> index_nat p s.
Proof. done. Qed.

Lemma index_nat_after b p s u : b ∉ s -> index_nat (b :: p) (s ++ u) = (fun i => (length s + i)%nat) <$> index_nat (b :: p) u.
Proof.
  induction s as [|c s IH]; intros Hb; [cbn [app]; by destruct (index_nat (b :: p) u)|]. cbn [app index_nat is_prefix].
  rewrite bool_decide_false by set_solver. cbn [andb]. rewrite IH by set_solver. by destruct (index_nat (b :: p) u).
Qed.

Lemma index_blank ls t : Forall (fun l => text l = true /\ l <> []) ls -> ls <> [] ->
  index_nat blank_line (join_lines ls ++ blank_line ++ t) = Some (length (join_lines ls)).
Proof.
  intros Hl Hne. induction Hl as [|l ls [Ht Hn] Hls IH]; [done|]. apply text_inv in Ht as [_ Hcr].
  destruct ls as [|l' ls]; [by apply index_nat_skip|].
  rewrite join_lines_cons by done. rewrite <-!app_assoc. specialize (IH ltac:(done)).
  inversion Hls as [|? ? [Ht' Hn'] _]; subst. apply text_inv in Ht' as [_ Hcr'].
  assert (exists c r, join_lines (l' :: ls) = c :: r /\ c <> CR) as (c & r & E & Hc).
  { destruct (join_lines_start l' ls) as (rest & -> & _). destruct l' as [|c l']; [done|]. exists c, (l' ++ rest).
    split; [done|]. intros ->. apply Hcr'. by left. }
  rewrite E in *. unfold blank_line in *. cbn [crlf app] in *. rewrite index_nat_after by done.
  change (CR :: LF :: crlf) with [CR; LF; CR; LF] in *. set (u := c :: r ++ CR :: LF :: CR :: LF :: t) in *.
  assert (index_nat [CR; LF; CR; LF] (CR :: LF :: u) = (fun i => S (S i)) <$> index_nat [CR; LF; CR; LF] u) as ->.
  { rewrite !index_nat_cons. assert (is_prefix [CR; LF; CR; LF] (CR :: LF :: u) = false) as ->.
    { unfold u. cbn [is_prefix]. by rewrite (bool_decide_false (CR = c)), !andb_false_r by congruence. }
    change (is_prefix [CR; LF; CR; LF] (LF :: u)) with false. by destruct (index_nat [CR; LF; CR; LF] u). }
  rewrite IH. cbn. f_equal. rewrite length_app. cbn. lia.
Qed.

Lemma extractBody_msg m n : msg_ok m -> 0 < n -> extractBody (msg_bytes m) n = Ok (take (Z.to_nat n) (m_body m)).
Proof.
  intros Hm Hn. set (k := length (join_lines (msg_lines m))).
  assert (findBodyStart (msg_bytes m) = Z.of_nat k + 4) as Hi.
  { unfold findBodyStart, msg_bytes. by rewrite index_blank by (by apply msg_lines_ok || done). }
  unfold extractBody. rewrite Hi. clear Hi.
  assert (zlen (msg_bytes m) = Z.of_nat k + 4 + zlen (m_body m)) as Hlen.
  { unfold msg_bytes. rewrite !zlen_app. change (zlen blank_line) with 4. unfold zlen, k. lia. }
  pose proof (zlen_nonneg (m_body m)). cbv zeta.
  destruct (decide (m_body m = [])) as [Hb|Hb].
  { assert (zlen (m_body m) = 0) as Hz by by rewrite Hb. replace (zlen (msg_bytes m) <=? Z.of_nat k + 4) with true by lia.
    rewrite orb_true_r, Hb. by rewrite take_nil. }
  assert (zlen (m_body m) <> 0) by (by intros ?%zlen_0).
  replace ((Z.of_nat k + 4 <? 0) || (zlen (msg_bytes m) <=? Z.of_nat k + 4)) with false by lia.
  rewrite slice_from_Ok by lia. cbn [mbind res_bind].
  assert (drop (Z.to_nat (Z.of_nat k + 4)) (msg_bytes m) = m_body m) as ->.
  { unfold msg_bytes. rewrite app_assoc. apply drop_app_length'. rewrite length_app. change (length blank_line) with 4%nat.
    unfold k. lia. }
  destruct (Z.ltb_spec n (zlen (m_body m))); [by rewrite slice_to_Ok by lia|].
  rewrite take_ge; [done|]. unfold zlen in *. lia.
Qed.

Lemma extractBodyPreview_msg m : msg_ok m -> extractBodyPreview (msg_bytes m) = Ok (preview_of (m_body m)).
Proof.
  intros Hm. unfold extractBodyPreview. rewrite extractBody_msg by (done || lia). cbn [mbind res_bind].
  change (Z.to_nat 200) with 200%nat. unfold preview_of. destruct (zlen (take 200 (m_body m)) =? 0) eqn:E.
  - apply Z.eqb_eq, zlen_0 in E. by rewrite E.
  - by case_match.
Qed.

Lemma line_end_after k i s t : Forall (fun b => u8 b <> 0x0D /\ u8 b <> 0x0A) s -> (i + length s <= 201)%nat ->
  k = CR -> line_end i (s ++ k :: t) = Some (i + length s)%nat.
Proof.
  intros Hs Hi ->. revert i Hi. induction Hs as [|b s [H1 H2] _ IH]; intros i Hi; cbn [app line_end length] in *.
  - change ((u8 CR =? 13) || (u8 CR =? 10)) with true. cbv iota. f_equal. lia.
  - replace ((u8 b =? 13) || (u8 b =? 10)) with false by lia. rewrite (proj2 (Nat.ltb_ge 200 i)) by lia.
    rewrite IH by lia. f_equal. lia.
Qed.

Lemma firstLine_msg m : msg_ok m -> firstLine (msg_bytes m) = m_start m.
Proof.
  intros ((Hp & Hl & _) & _). unfold firstLine, msg_bytes, msg_lines.
  destruct (join_lines_start (m_start m) (header_bytes <$> m_headers m)) as (rest & -> & Hrest).
  assert (exists t, (m_start m ++ rest) ++ blank_line ++ m_body m = m_start m ++ CR :: t) as [t ->].
  { rewrite <-app_assoc. destruct Hrest as [->|[r ->]]; by eexists. }
  rewrite (line_end_after CR); [cbn [Nat.add]; by rewrite take_app_all| |cbn; lia|done].
  - apply Forall_forall. intros b Hb. unfold printable in Hp. rewrite forallb_forall in Hp.
    rewrite list_elem_of_In in Hb. specialize (Hp b Hb). cbn beta in Hp. lia.
Qed.

Section decoded.
Context `{Unicode}.

(** The names that the decoder looks for. *)
Definition header_name (n : string) : Prop :=
  name (gobytes n) = true /\ match gobytes n with b :: _ => letter b = true | [] => False end.

Lemma header_in_skip l ls key : is_prefix key (to_lower l) = false -> header_in (l :: ls) key = header_in ls key.
Proof. cbn [header_in]. by intros ->. Qed.

Lemma header_in_headers n hs ls :
  name n = true -> forallb (fun h => name (fst h) && text (snd h)) hs = true ->
  header_in ((header_bytes <$> hs) ++ ls) ((lower_byte <$> n) ++ [colon]) =
  match filter (fun h => lower_byte <$> fst h = lower_byte <$> n) hs with
  | h :: _ => Ok (trim_space (snd h))
  | [] => header_in ls ((lower_byte <$> n) ++ [colon])
  end.
Proof.
  intros Hn Hhs. pose proof (name_inv _ Hn) as (_ & _ & _ & Hc%colon_not_lower & _).
  induction hs as [|[n' v] hs IH]; [done|]. cbn [forallb fst snd] in Hhs.
  apply andb_true_iff in Hhs as [[Hn' Hv]%andb_true_iff Hhs]. specialize (IH Hhs).
  cbn [fmap list_fmap app]. rewrite filter_cons. cbn [fst].
  pose proof (name_inv _ Hn') as (_ & Ha' & _ & Hc'%colon_not_lower & _). apply text_inv in Hv as [Hav _].
  assert (is_prefix ((lower_byte <$> n) ++ [colon]) (to_lower (header_bytes (n', v))) =
    bool_decide (lower_byte <$> n = lower_byte <$> n')) as Hm.
  { unfold header_bytes. cbn [fst snd]. rewrite to_lower_ascii by (rewrite is_ascii_app, Ha'; exact Hav).
    rewrite fmap_app. cbn [fmap list_fmap]. change (lower_byte colon) with colon. by apply is_prefix_mark. }
  destruct (decide (lower_byte <$> n' = lower_byte <$> n)) as [E|E].
  - rewrite bool_decide_true in Hm by done. cbn [header_in]. rewrite Hm. unfold header_bytes. cbn [fst snd].
    assert (zlen ((lower_byte <$> n) ++ [colon]) = zlen (n' ++ [colon])) as ->.
    { apply (f_equal length) in E. rewrite !length_fmap in E. rewrite !zlen_app. unfold zlen. rewrite length_fmap. lia. }
    replace (n' ++ colon :: v) with ((n' ++ [colon]) ++ v) by by rewrite <-app_assoc.
    rewrite slice_from_Ok by (rewrite (zlen_app (n' ++ [colon])); pose proof (zlen_nonneg (n' ++ [colon]));
      pose proof (zlen_nonneg v); lia).
    cbn [mbind res_bind]. unfold zlen. by rewrite Nat2Z.id, drop_app_all.
  - rewrite bool_decide_false in Hm by (intros E'; by apply E). by rewrite header_in_skip.
Qed.

Lemma letter_lower b : letter b = false -> letter (lower_byte b) = false.
Proof.
  unfold letter, lower_byte. intros Hb. destruct ((65 <=? u8 b) && (u8 b <=? 90)) eqn:E; [by rewrite orb_true_l in Hb|].
  by rewrite E.
Qed.
Lemma lower_letter b : letter b = true -> letter (lower_byte b) = true.
Proof.
  unfold letter, lower_byte. intros Hb. destruct ((65 <=? u8 b) && (u8 b <=? 90)) eqn:E; [|by rewrite E].
  rewrite u8_byte_of by lia. lia.
Qed.

Lemma extractHeaderValue_msg m (n : string) : msg_ok m -> header_name n ->
  extractHeaderValue (msg_bytes m) n = Ok (header_of m n).
Proof.
  intros Hm [Hn Hfirst]. unfold extractHeaderValue. rewrite http1_msg_split by done.
  pose proof (name_inv _ Hn) as (_ & Ha & _ & Hc%colon_not_lower & _ & Hs).
  rewrite to_lower_ascii by done. destruct Hm as ((Hp & _ & n0 & v0 & E0 & Hn0) & Hh & Hb & Hletter).
  unfold msg_lines. cbn [app].
  assert (space ∉ (lower_byte <$> gobytes n) ++ [colon]) as Hsp.
  { rewrite elem_of_app. intros [(b & Hb' & Hin)%list_elem_of_fmap|Hin].
    - assert (b = space) as ->. { apply lower_keeps; [left; by vm_compute|]. by rewrite <-Hb'. }
      rewrite Forall_forall in Hs. apply Hs in Hin. by vm_compute in Hin.
    - apply list_elem_of_singleton in Hin. by vm_compute in Hin. }
  rewrite header_in_skip.
  2:{ apply printable_text, text_inv in Hp as [Hp _]. rewrite to_lower_ascii by done. rewrite E0, fmap_app.
      cbn [fmap list_fmap]. change (lower_byte space) with space. rewrite is_prefix_token by done.
      apply name_inv in Hn0 as (_ & _ & _ & Hc0%colon_not_lower & _). apply not_true_iff_false.
      intros [t Ht]%is_prefix_spec. apply Hc0. rewrite Ht, !elem_of_app. left. right. by left. }
  rewrite header_in_headers by done. unfold header_of. destruct (filter _ _) as [|h hs]; [|done].
  destruct (gobytes n) as [|b0 n'] eqn:En; [done|].
  rewrite header_in_skip by done.
  destruct (m_body m) as [|b body]; [done|]. rewrite header_in_skip; [done|].
  apply text_inv in Hb as [Hb _]. rewrite to_lower_ascii by done. cbn [fmap list_fmap app is_prefix].
  rewrite bool_decide_false; [done|]. intros E. apply letter_lower in Hletter. apply lower_letter in Hfirst. congruence.
Qed.

Definition request_start (method uri version : list byte) : list byte := method ++ space :: uri ++ space :: version.
Definition status_start (version : list byte) (code : Z) (reason : list byte) : list byte :=
  version ++ space :: digit3 code ++ space :: reason.

(** Visible characters. *)
Definition visible (s : list byte) : bool := negb (zlen s =? 0) && forallb (fun b => (0x21 <=? u8 b) && (u8 b <=? 0x7E)) s.

Lemma visible_inv s : visible s = true -> s <> [] /\ space ∉ s /\ printable s = true.
Proof.
  unfold visible, printable. intros [Hn Hs]%andb_true_iff. rewrite !forallb_forall in *. split_and!.
  - by intros ->.
  - intros Hi%list_elem_of_In. specialize (Hs _ Hi). by vm_compute in Hs.
  - intros b Hb. specialize (Hs b Hb). cbn beta in Hs. lia.
Qed.

Lemma split_three a b c : space ∉ a -> space ∉ b -> split_n (a ++ space :: b ++ space :: c) [space] 3 = [a; b; c].
Proof.
  intros Ha Hb. unfold split_n. change (3 - 1)%nat with 2%nat. cbn [split_cuts].
  assert (forall x y, space ∉ x -> index_nat [space] (x ++ space :: y) = Some (length x)) as Hi.
  { intros x y Hx. exact (index_nat_skip space [] x y Hx). }
  assert (forall x y : list byte, drop (length x + length [space]) (x ++ space :: y) = y) as Hd.
  { intros x y. replace (x ++ space :: y) with ((x ++ [space]) ++ y) by by rewrite <-app_assoc.
    apply drop_app_length'. by rewrite length_app. }
  rewrite Hi, take_app_length, Hd by done. by rewrite Hi, take_app_length, Hd.
Qed.

Lemma take_digits_all s : forallb (fun b => (0x30 <=? u8 b) && (u8 b <=? 0x39)) s = true -> take_digits s = s.
Proof. induction s as [|b s IH]; [done|]. cbn [forallb take_digits]. intros [-> Hs]%andb_true_iff. by rewrite IH. Qed.

Lemma digit3_digits code : 100 <= code <= 699 -> forallb (fun b => (0x30 <=? u8 b) && (u8 b <=? 0x39)) (digit3 code) = true.
Proof.
  intros Hc. unfold digit3, octets. cbn [fmap list_fmap forallb].
  assert (0 <= code / 100 <= 9) by (Z.to_euclidean_division_equations; lia).
  assert (0 <= code / 10 mod 10 <= 9) by (Z.to_euclidean_division_equations; lia).
  assert (0 <= code mod 10 <= 9) by (Z.to_euclidean_division_equations; lia).
  rewrite !u8_byte_of by lia. lia.
Qed.

Lemma scan_int_digits s : s <> [] -> forallb (fun b => (0x30 <=? u8 b) && (u8 b <=? 0x39)) s = true -> scan_int s = Atoi s.
Proof.
  intros Hne Hs. unfold scan_int. destruct s as [|b s]; [done|]. pose proof Hs as Hall.
  cbn [forallb] in Hs. apply andb_true_iff in Hs as [Hb Hs].
  assert (is_ascii (b :: s) = true) as Ha.
  { unfold is_ascii. rewrite forallb_forall in *. intros x Hx. specialize (Hall x Hx). cbn beta in Hall. lia. }
  assert (sp b = false) as Hsp.
  { unfold sp, is_space. rewrite bool_decide_false; [cbn [orb]; lia|].
    intros Hin. repeat (apply elem_of_cons in Hin as [?|Hin]; [lia|]). by apply not_elem_of_nil in Hin. }
  rewrite runes_ascii, drop_spaces_bytes, skip_spaces_solid, mjoin_singletons by done.
  replace ((u8 b =? 45) || (u8 b =? 43)) with false by lia. by rewrite take_digits_all.
Qed.

Lemma status_parts_start version code reason : space ∉ version -> 100 <= code <= 699 ->
  status_parts (split_n (status_start version code reason) [space] 3) = Some (code, gostr reason).
Proof.
  intros Hv Hc. unfold status_start. pose proof (digit3_digits code Hc) as Hd. rewrite split_three; [|done|].
  - unfold status_parts. rewrite scan_int_digits, Atoi_digit3 by done. done.
  - intros Hi%list_elem_of_In. rewrite forallb_forall in Hd. specialize (Hd _ Hi). by vm_compute in Hd.
Qed.

(** Nothing in the message makes the decoder look for SOAP, but for the content
    type [ct] that counts for it. *)
Definition no_soap (m : message) (ct : string) : Prop :=
  m_body m = [] \/ isSOAPContentType ct = false /\ looksLikeSOAPEnvelope (take (Z.to_nat soapScanWindow) (m_body m)) = false.

Definition request_headers : list string :=
  ["Host"; "Content-Type"; "Content-Length"; "User-Agent"; "Authorization"; "Cookie"; "SOAPAction"; "Server"; "Set-Cookie"]%string.
Lemma known_header n : n ∈ request_headers -> header_name n.
Proof.
  intros Hn. unfold request_headers in Hn. repeat (apply elem_of_cons in Hn as [->|Hn]; [by split; vm_compute|]).
  by apply not_elem_of_nil in Hn.
Qed.

(** The transaction that a request message opens. *)
Definition asked (pkt : Packet) (m : message) (method uri : list byte) : httpTransaction :=
  {| ID := cat ["http-"; key_of pkt; "-"; fmt_d (FrameNumber pkt)]; Method := gostr method; URI := gostr uri;
     Host := header_of m "Host"; UserAgent := header_of m "User-Agent"; HasAuth := nonempty (header_of m "Authorization");
     SOAPAction := header_of m "SOAPAction"; T_SrcIP := SrcIP pkt; T_DstIP := DstIP pkt; T_SrcPort := SrcPort pkt;
     T_DstPort := DstPort pkt; StartTime_ := Timestamp pkt;
     state := {| StatusCode := 0; StatusText := ""; EndTime_ := 0; IsError := false;
                 ContentType := header_of m "Content-Type"; ContentLength := header_of m "Content-Length"; Server := "";
                 HasCookie := nonempty (header_of m "Cookie"); BodyPreview := preview_of (m_body m); IsSOAP := false;
                 SOAPOperation := ""; FaultCode := ""; FaultString := "" |} |}.

(** What a response message makes of its state. *)
Definition answered (pkt : Packet) (m : message) (code : Z) (reason : list byte) (st : tx_state) : tx_state :=
  {| StatusCode := code; StatusText := gostr reason; EndTime_ := Timestamp pkt; IsError := 400 <=? code;
     ContentType := update (header_of m "Content-Type") (ContentType st);
     ContentLength := update (header_of m "Content-Length") (ContentLength st);
     Server := update (header_of m "Server") (Server st);
     HasCookie := nonempty (header_of m "Set-Cookie") || HasCookie st;
     BodyPreview := update (preview_of (m_body m)) (BodyPreview st); IsSOAP := IsSOAP st;
     SOAPOperation := SOAPOperation st; FaultCode := FaultCode st; FaultString := FaultString st |}.

Lemma extract_known m n : msg_ok m -> n ∈ request_headers -> extractHeaderValue (msg_bytes m) n = Ok (header_of m n).
Proof. intros Hm Hn. apply extractHeaderValue_msg; [done|by apply known_header]. Qed.

Ltac known_headers :=
  repeat (rewrite extract_known by (done || (refine (bool_decide_unpack _ _); by vm_compute)); cbn [mbind res_bind]).

Lemma take_nonempty n (s : list byte) : 0 < n -> (0 <? zlen (take (Z.to_nat n) s)) = negb (bool_decide (s = [])).
Proof.
  intros Hn. destruct (Z.to_nat n) as [|k] eqn:E; [lia|]. destruct s as [|b s]; [done|]. cbn [take]. rewrite zlen_cons.
  pose proof (zlen_nonneg (take k s)). by rewrite (proj2 (Z.ltb_lt _ _)) by lia.
Qed.

Lemma request_tx_msg pkt m method uri : Payload pkt = msg_bytes m -> msg_ok m ->
  no_soap m (header_of m "Content-Type") -> m_body m = [] \/ header_of m "SOAPAction" = ""%string ->
  request_tx pkt method uri = Ok (asked pkt m method uri).
Proof.
  intros Hp Hm Hns Hact. unfold request_tx. rewrite Hp. known_headers.
  rewrite extractBodyPreview_msg by done. cbn [mbind res_bind]. known_headers. cbv zeta.
  rewrite extractBody_msg by (done || (unfold soapScanWindow; lia)). cbn [mbind res_bind].
  rewrite take_nonempty by done.
  match goal with |- context [if ?c then _ else _] => assert (c = false) as ->; [|done] end.
  destruct Hns as [->|[-> ->]]; [done|]. destruct Hact as [->| ->]; [done|]. apply andb_false_r.
Qed.

Lemma response_state_msg pkt m code reason st : Payload pkt = msg_bytes m -> msg_ok m ->
  no_soap m (update (header_of m "Content-Type") (ContentType st)) ->
  response_state pkt code (gostr reason) st = Ok (answered pkt m code reason st).
Proof.
  intros Hp Hm Hns. unfold response_state. rewrite Hp. known_headers.
  rewrite extractBodyPreview_msg by done. cbn [mbind res_bind].
  rewrite extractBody_msg by (done || (unfold soapScanWindow; lia)). cbn [mbind res_bind].
  unfold soap_response. cbn [ContentType].
  rewrite take_nonempty by done.
  match goal with |- context [if ?c then _ else _] => assert (c = false) as ->; [|done] end.
  destruct Hns as [->|[-> ->]]; [done|]. apply andb_false_r.
Qed.


(** The packet carries a request, or a response, on a port of the decoder. *)
Record asks (pkt : Packet) (m : message) (method uri : list byte) : Prop := {
  asks_tcp : Protocol pkt = "TCP"%string;
  asks_port : isHTTPPort (SrcPort pkt) (DstPort pkt) = true;
  asks_payload : Payload pkt = msg_bytes m;
  asks_ok : msg_ok m;
  asks_start : exists version, m_start m = request_start method uri version;
  asks_method : gostr (method ++ [space]) ∈ httpMethods;
  asks_uri : visible uri = true;
  asks_plain : no_soap m (header_of m "Content-Type") /\ (m_body m = [] \/ header_of m "SOAPAction" = ""%string);
}.

Record answers (pkt : Packet) (m : message) (code : Z) (reason : list byte) : Prop := {
  answers_tcp : Protocol pkt = "TCP"%string;
  answers_port : isHTTPPort (SrcPort pkt) (DstPort pkt) = true;
  answers_payload : Payload pkt = msg_bytes m;
  answers_ok : msg_ok m;
  answers_start : m_start m = status_start (gobytes "HTTP/1.0") code reason \/
                  m_start m = status_start (gobytes "HTTP/1.1") code reason;
  answers_code : 100 <= code <= 699;
}.

Lemma msg_admitted pkt m : Protocol pkt = "TCP"%string -> isHTTPPort (SrcPort pkt) (DstPort pkt) = true ->
  Payload pkt = msg_bytes m -> 6 <= zlen (m_start m) -> admits pkt = Ok true.
Proof.
  intros Htcp Hport Hp Hl. unfold admits. rewrite Htcp, Hport. cbn [String.eqb Ascii.eqb Bool.eqb negb].
  assert (10 <= zlen (Payload pkt)) as Hlen.
  { rewrite Hp. unfold msg_bytes, msg_lines. rewrite !zlen_app.
    destruct (join_lines_start (m_start m) (header_bytes <$> m_headers m)) as (rest & -> & _). rewrite zlen_app.
    change (zlen blank_line) with 4. pose proof (zlen_nonneg rest). pose proof (zlen_nonneg (m_body m)). lia. }
  by rewrite (proj2 (Z.ltb_ge _ _)) by lia.
Qed.

Lemma method_inv method : gostr (method ++ [space]) ∈ httpMethods -> space ∉ method /\ 3 <= zlen method.
Proof.
  intros Hm. set (f := fun m => bool_decide (space ∉ removelast (gobytes m)) && (3 <=? zlen (removelast (gobytes m)))).
  assert (forallb f httpMethods = true) as Hall by by vm_compute. rewrite forallb_forall in Hall.
  apply list_elem_of_In in Hm. specialize (Hall _ Hm). unfold f in Hall.
  rewrite gobytes_gostr, removelast_last in Hall. apply andb_true_iff in Hall as [H1%bool_decide_eq_true H2]. split; [done|lia].
Qed.

Lemma request_handled d pkt m method uri : asks pkt m method uri ->
  HandlePacket d pkt = Ok ({| transactions := <[key_of pkt := asked pkt m method uri]> (transactions d);
                              completed := completed d |},
                           set_app "HTTP" (request_summary (asked pkt m method uri)) pkt).
Proof.
  intros [Htcp Hport Hp Hm [version Hs] Hmeth Huri [Hns Hact]].
  destruct (method_inv method Hmeth) as [Hsp Hlen]. apply visible_inv in Huri as (Hu1 & Hu2 & _).
  unfold HandlePacket. rewrite (msg_admitted pkt m Htcp Hport Hp).
  2:{ rewrite Hs. unfold request_start. rewrite !zlen_app, !zlen_cons, zlen_app, zlen_cons.
      pose proof (zlen_nonneg version). assert (zlen uri <> 0) by (by intros ?%zlen_0). pose proof (zlen_nonneg uri). lia. }
  cbn [mbind res_bind negb]. unfold parseHTTP. rewrite Hp, (firstLine_msg m Hm), Hs. cbv zeta.
  assert (zlen (request_start method uri version) <> 0) as Hz.
  { unfold request_start. rewrite zlen_app. pose proof (zlen_nonneg (space :: uri ++ space :: version)). lia. }
  rewrite (proj2 (Z.eqb_neq _ _) Hz).
  assert (isHTTPRequest (request_start method uri version) = true) as ->.
  { unfold isHTTPRequest. apply existsb_exists. exists (gostr (method ++ [space])). split; [by apply list_elem_of_In|].
    rewrite gobytes_gostr. unfold request_start. change (space :: uri ++ space :: version) with ([space] ++ uri ++ space :: version).
    rewrite app_assoc. apply is_prefix_self. }
  unfold handleRequest. unfold request_start. rewrite split_three by done. 
  by rewrite (request_tx_msg pkt m method uri Hp Hm Hns Hact).
Qed.

Lemma response_handled d pkt m code reason : answers pkt m code reason ->
  let tx := default (lone_response pkt) (transactions d !! rkey_of pkt) in
  no_soap m (update (header_of m "Content-Type") (ContentType (state tx))) ->
  let tx' := with_state (answered pkt m code reason (state tx)) tx in
  HandlePacket d pkt = Ok ({| transactions := delete (rkey_of pkt) (transactions d); completed := completed d ++ [tx'] |},
                           set_app "HTTP" (response_summary tx') pkt).
Proof.
  intros [Htcp Hport Hp Hm Hs Hc]. cbv zeta. intros Hns.
  assert (exists version, m_start m = status_start version code reason /\ space ∉ version /\
    isHTTPRequest (m_start m) = false /\ isHTTPResponse (m_start m) = true /\ 6 <= zlen (m_start m)) as
    (version & Hs' & Hv & Hq & Hr & Hl).
  { pose proof (zlen_nonneg (space :: digit3 code ++ space :: reason)).
    destruct Hs as [Hs|Hs]; rewrite Hs; eexists; (split; [reflexivity|]);
      (split; [refine (bool_decide_unpack _ _); by vm_compute|]); (split; [done|]); (split; [done|]);
      unfold status_start; rewrite zlen_app; [change (zlen (gobytes "HTTP/1.0")) with 8|change (zlen (gobytes "HTTP/1.1")) with 8]; lia. }
  unfold HandlePacket. rewrite (msg_admitted pkt m Htcp Hport Hp Hl). cbn [mbind res_bind negb].
  unfold parseHTTP. rewrite Hp, (firstLine_msg m Hm). cbv zeta. rewrite (proj2 (Z.eqb_neq _ 0)) by lia. rewrite Hq, Hr.
  unfold handleResponse. rewrite Hs', (status_parts_start version code reason Hv Hc). cbv zeta.
  by rewrite (response_state_msg pkt m code reason _ Hp Hm Hns).
Qed.


Lemma exchange_run d req resp rest mq ma method uri code reason :
  asks req mq method uri -> answers resp ma code reason -> rkey_of resp = key_of req ->
  no_soap ma (update (header_of ma "Content-Type") (header_of mq "Content-Type")) ->
  run d (req :: resp :: rest) =
    run {| transactions := delete (key_of req) (transactions d);
           completed := completed d ++
             [with_state (answered resp ma code reason (state (asked req mq method uri))) (asked req mq method uri)] |} rest.
Proof.
  intros Hq Ha Hk Hns. unfold run, handle_all. cbn [foldM]. rewrite (request_handled d _ _ _ _ Hq). cbn [mbind res_bind].
  set (d1 := {| transactions := <[key_of req := _]> _; completed := _ |}).
  assert (transactions d1 !! rkey_of resp = Some (asked req mq method uri)) as Hd1.
  { cbn [transactions d1]. rewrite Hk. apply lookup_insert_eq. }
  pose proof (response_handled d1 resp ma code reason Ha) as Hr. cbv zeta in Hr. rewrite Hd1 in Hr.
  rewrite (Hr Hns). cbn [mbind res_bind d1 transactions completed default from_option id]. rewrite Hk.
  by rewrite delete_insert_eq.
Qed.

(** C24: A request on the wire and then its response, with any other headers and
    a body that is not taken for SOAP, come out as one transaction and leave
    no request open on the connection: method, target, code and reason are
    those of the start lines, each header is the first of its name whatever
    its case, the response's replacing the request's, and the preview is that of
    the response's body if it has one. *)
Theorem http1_exchange_decoded d req resp mq ma method uri code reason :
  asks req mq method uri -> answers resp ma code reason -> rkey_of resp = key_of req ->
  no_soap ma (update (header_of ma "Content-Type") (header_of mq "Content-Type")) ->
  exists d' tx, run d [req; resp] = Ok d' /\ completed d' = completed d ++ [tx] /\
    transactions d' = delete (key_of req) (transactions d) /\
    tx = with_state (answered resp ma code reason (state (asked req mq method uri))) (asked req mq method uri).
Proof. intros Hq Ha Hk Hns. rewrite (exchange_run _ _ _ _ _ _ _ _ _ _ Hq Ha Hk Hns). by eexists _, _. Qed.

(** What an informational response does: the transaction is finished by it,
    and the final response stands alone. *)
Lemma http1_informational d req r1 r2 mq m1 m2 method uri reason1 code reason :
  asks req mq method uri -> answers r1 m1 100 reason1 -> answers r2 m2 code reason ->
  rkey_of r1 = key_of req -> rkey_of r2 = key_of req ->
  no_soap m1 (update (header_of m1 "Content-Type") (header_of mq "Content-Type")) ->
  no_soap m2 (update (header_of m2 "Content-Type") "") ->
  exists d' t1 t2, run d [req; r1; r2] = Ok d' /\ completed d' = completed d ++ [t1; t2] /\
    Method t1 = gostr method /\ StatusCode (state t1) = 100 /\ Method t2 = ""%string /\ StatusCode (state t2) = code.
Proof.
  intros Hq H1 H2 Hk1 Hk2 Hn1 Hn2. rewrite (exchange_run _ _ _ _ _ _ _ _ _ _ Hq H1 Hk1 Hn1).
  set (d1 := {| transactions := delete _ _; completed := _ |}).
  assert (transactions d1 !! rkey_of r2 = None) as Hd1 by (cbn [transactions d1]; rewrite Hk2; apply lookup_delete_eq).
  pose proof (response_handled d1 r2 m2 code reason H2) as Hr. cbv zeta in Hr. rewrite Hd1 in Hr.
  unfold run, handle_all. cbn [foldM]. rewrite (Hr Hn2). cbn [mbind res_bind].
  eexists _, _, _. split; [done|]. split; [cbn [completed d1]; by rewrite <-app_assoc|]. done.
Qed.

End decoded.

(** ** Examples *)

Definition ex_http (answer : bool) (payload : list byte) : Packet :=
  if answer then mk_packet 9 "10.0.0.2" "10.0.0.1" 80 40000 "TCP" payload
  else mk_packet 5 "10.0.0.1" "10.0.0.2" 40000 80 "TCP" payload.
Definition ex_get : message :=
  {| m_start := request_start (gobytes "GET") (gobytes "/a?b=c") (gobytes "HTTP/1.1");
     m_headers := [(gobytes "HOST", gobytes " shop"); (gobytes "Cookie", gobytes " x=1")]; m_body := [] |}.
Definition ex_reply (code : Z) (reason : string) : message :=
  {| m_start := status_start (gobytes "HTTP/1.1") code (gobytes reason);
     m_headers := [(gobytes "content-type", gobytes " application/json")]; m_body := gobytes "{}" |}.

Lemma ex_msg_ok m n v : m_start m = n ++ space :: v -> name n = true ->
  printable (m_start m) && (length (m_start m) <=? 201)%nat &&
  forallb (fun h => name (fst h) && text (snd h)) (m_headers m) && text (m_body m) &&
  match m_body m with b :: _ => negb (letter b) | [] => true end = true -> msg_ok m.
Proof.
  rewrite !andb_true_iff. intros Hs Hn [[[[H1 H2%Nat.leb_le] H3] H4] H5]. split; [split; [done|split; [done|by exists n, v]]|].
  split; [done|]. split; [done|]. destruct (m_body m); [done|]. by apply negb_true_iff.
Qed.

Lemma ex_get_asks : @asks ascii_only (ex_http false (msg_bytes ex_get)) ex_get (gobytes "GET") (gobytes "/a?b=c").
Proof.
  split; try done.
  - by apply (ex_msg_ok _ (gobytes "GET") (gobytes "/a?b=c HTTP/1.1")); vm_compute.
  - by exists (gobytes "HTTP/1.1").
  - refine (bool_decide_unpack _ _). by vm_compute.
  - split; left; done.
Qed.

Lemma ex_reply_answers code reason : 100 <= code <= 699 -> printable (gobytes reason) = true ->
  (String.length reason <= 100)%nat ->
  answers (ex_http true (msg_bytes (ex_reply code reason))) (ex_reply code reason) code (gobytes reason).
Proof.
  intros Hc Hr Hl. split; try done; [|by right].
  assert (printable (digit3 code) = true) as Hd.
  { pose proof (digit3_digits code Hc) as Hd. unfold printable. rewrite forallb_forall in *. intros b Hb. specialize (Hd b Hb).
    cbn beta in Hd. lia. }
  apply (ex_msg_ok _ (gobytes "HTTP/1.1") (digit3 code ++ space :: gobytes reason)); [done|done|].
  rewrite !andb_true_iff. cbn [ex_reply m_start m_headers m_body]. split; [split; [split; [split|]|]|]; try done.
  - unfold status_start, printable in *. rewrite forallb_app. apply andb_true_iff. split; [done|]. cbn [forallb].
    rewrite forallb_app, Hd. cbn [andb forallb]. exact Hr.
  - unfold status_start. apply Nat.leb_le. rewrite length_app. cbn [length]. rewrite length_app. cbn [length].
    change (length (gobytes "HTTP/1.1")) with 8%nat. change (length (digit3 code)) with 3%nat.
    assert (length (gobytes reason) = String.length reason) as -> by (pose proof (slen_gobytes reason); unfold slen, zlen in *; lia).
    lia.
Qed.

Lemma http1_exchange_decoded_witness : let _ := ascii_only in
  exists d' tx, run NewDecoder [ex_http false (msg_bytes ex_get); ex_http true (msg_bytes (ex_reply 404 "Not Found"))] = Ok d' /\
    completed d' = [tx] /\ transactions d' = ∅ /\ Host tx = "shop"%string /\ StatusCode (state tx) = 404 /\
    ContentType (state tx) = "application/json"%string /\ HasCookie (state tx) = true /\ BodyPreview (state tx) = "{}"%string.
Proof.
  cbv zeta. destruct (@http1_exchange_decoded ascii_only NewDecoder _ _ ex_get (ex_reply 404 "Not Found") _ _ 404 _
    ex_get_asks (ex_reply_answers 404 "Not Found" ltac:(lia) ltac:(by vm_compute) ltac:(cbn; lia))) as (d & tx & Hr & Hc & Ht & Htx).
  - by vm_compute.
  - right. split; by vm_compute.
  - exists d, tx. split; [exact Hr|]. split; [exact Hc|]. split; [rewrite Ht; by vm_compute|].
    rewrite Htx. split_and!; by vm_compute.
Defined.

(** [100 Continue] ends the transaction of its request. *)
Example continue_ends : let _ := ascii_only in
  match run NewDecoder [ex_http false (msg_bytes ex_get); ex_http true (msg_bytes (ex_reply 100 "Continue"));
                        ex_http true (msg_bytes (ex_reply 200 "OK"))] with
  | Ok d => (fun tx => (Method tx, StatusCode (state tx))) <$> completed d
  | _ => []
  end = [("GET"%string, 100); (""%string, 200)].
Proof. by vm_compute. Qed.

Lemma http1_handles_steady_witness : let _ := ascii_only in
  returns (HandlePacket NewDecoder (ex_http false (msg_bytes ex_get))) (fun '(d, _) => (length (completed d) <= 1)%nat).
Proof.
  cbv zeta. eapply returns_weaken; [apply (@http1_handles_steady ascii_only)|].
  - apply ascii_steady_body. by vm_compute.
  - intros [d p] (l & -> & Hl). exact Hl.
Defined.

Lemma http1_conversations_witness : let _ := ascii_only in
  exists d evs, run NewDecoder [ex_http false (msg_bytes ex_get); ex_http true (msg_bytes (ex_reply 404 "Not Found"))] = Ok d /\
    mapM packet_event [ex_http false (msg_bytes ex_get); ex_http true (msg_bytes (ex_reply 404 "Not Found"))] = Ok evs /\
    length (completed d) = 1%nat /\
    of_key tx_key "10.0.0.1:40000-10.0.0.2:80" (completed d) =
      (foldl (exchange_step converse) (None, []) (events_of "10.0.0.1:40000-10.0.0.2:80" (mjoin (option_list <$> evs)))).2.
Proof.
  cbv zeta. set (pkts := [_; _]). destruct (@http1_conversations ascii_only pkts) as (d & evs & Hr & Hm & Hk).
  - repeat constructor; apply ascii_steady_body; by vm_compute.
  - exists d, evs. split; [exact Hr|]. split; [exact Hm|]. split; [|exact (f_equal snd (Hk _))].
    assert (d = match @run ascii_only NewDecoder pkts with Ok d => d | _ => NewDecoder end) as -> by by rewrite Hr.
    by vm_compute.
Defined.

(** A SOAP fault in Latin-1, whose lower case is longer, panics the decoder. *)
Definition ex_latin1 : list byte :=
  gobytes "HTTP/1.1 200 OK" ++ crlf ++ crlf ++ gobytes "<s:Envelope><s:Fault>" ++ replicate 40 xe9 ++
  gobytes "<faultstring>no</faultstring>".
Example latin1_fault_panics : @HandlePacket ascii_only NewDecoder (ex_http true ex_latin1) = Panic.
Proof. by vm_compute. Qed.
