(* ===== verification/Stream.v ===== *)
(** * internal/stream: from the agents to the central node

    wire.go: frames of JSON, compressed or not. agent.go: the loop that gathers
    packets into batches. central.go and registry.go: the receiver of a
    connection and the registry of agents that all connections share, as a step
    relation over connections that come and go.

    JSON and zlib are parameters ([Codec], [Zlib]); a connection is the string
    of bytes that was written to it. The throttle of the agent, which only
    sleeps, and the sockets are not modelled. *)
From S2P Require Export GoFloat.

(** ** types.go *)

Record RawPacketMsg := {
  TimestampNs : Z;
  CaptureLength : Z;
  RLength : Z;
  LinkType : Z;
  Data : list byte;
}.

Record PacketBatch := {
  B_AgentID : string;
  SeqNum : Z;
  Drops : Z;
  Packets : list RawPacketMsg;
}.

Record AgentInfo := { ID : string; I_Hostname : string; I_Interface : string }.
Record Handshake := { Version : string; Agent : AgentInfo; Token : string; CanCompress : bool; H_LinkType : Z }.
Record HandshakeAck := { OK : bool; SessionID : string; Message : string; UseCompress : bool }.

(** ** wire.go *)

(** [json.Marshal] and [json.Unmarshal] at a type, and zlib. JSON gives back
    the values that it can write without a loss: an agent ID that is no valid
    UTF-8, say, does not come back, and which values do is part of the interface. *)
Class Codec (M : Type) : Type := {
  marshal : M -> list byte; unmarshal : list byte -> option M; encodable : M -> Prop
}.
Class CodecOk (M : Type) `{Codec M} : Prop :=
  unmarshal_marshal : forall v, encodable v -> unmarshal (marshal v) = Some v.
Class Zlib : Type := { deflate : list byte -> list byte; inflate : list byte -> option (list byte) }.
Class ZlibOk `{Zlib} : Prop := inflate_deflate : forall s, inflate (deflate s) = Some s.

Definition maxMsgSize : Z := 8 * 1024 * 1024.

Inductive read_error :=
  | EEOF
  | EUnexpectedEOF
  | EEmptyMessage
  | ETooLarge (n : Z)
  | EZlib
  | EUnmarshal.

(** [io.ReadFull] of [n] bytes of a connection that is closed at its end: the
    error is EOF only when nothing was read. *)
Definition ReadFull (n : Z) (conn : list byte) : read_error + (list byte * list byte) :=
  if n <=? zlen conn then inr (take (Z.to_nat n) conn, drop (Z.to_nat n) conn)
  else inl (if zlen conn =? 0 then EEOF else EUnexpectedEOF).

(** The frame around a payload: its length in four bytes, which wraps. *)
Definition frame (data : list byte) : list byte := be_put 4 (zlen data) ++ data.

Definition readFrame (conn : list byte) : read_error + (list byte * list byte) :=
  match ReadFull 4 conn with
  | inl e => inl e
  | inr (hdr, conn) =>
    let n := be hdr in
    if n =? 0 then inl EEmptyMessage
    else if maxMsgSize <? n then inl (ETooLarge n)
    else ReadFull n conn
  end.

Section wire.
Context {M : Type} `{Codec M} `{Zlib}.

Definition writeMsg (v : M) : list byte := frame (marshal v).
Definition writeMsgZlib (v : M) : list byte := frame (deflate (marshal v)).

Definition readMsg (conn : list byte) : read_error + (M * list byte) :=
  match readFrame conn with
  | inl e => inl e
  | inr (buf, conn) => match unmarshal buf with Some v => inr (v, conn) | None => inl EUnmarshal end
  end.

Definition readMsgZlib (conn : list byte) : read_error + (M * list byte) :=
  match readFrame conn with
  | inl e => inl e
  | inr (buf, conn) =>
    match inflate buf with
    | None => inl EZlib
    | Some data => match unmarshal data with Some v => inr (v, conn) | None => inl EUnmarshal end
    end
  end.

Definition write_batch (compress : bool) : M -> list byte := if compress then writeMsgZlib else writeMsg.
Definition read_batch (compress : bool) : list byte -> read_error + (M * list byte) :=
  if compress then readMsgZlib else readMsg.

(** The receiver's loop: messages until the first error. *)
Fixpoint receive (fuel : nat) (compress : bool) (conn : list byte) : res (list M * read_error) :=
  match fuel with
  | O => OutOfFuel
  | S fuel =>
    match read_batch compress conn with
    | inl e => Ok ([], e)
    | inr (v, conn) => '(vs, e) ← receive fuel compress conn; Ok (v :: vs, e)
    end
  end.

End wire.

(** ** agent.go: the loop of a connection *)

Definition maxBatchSize : nat := 500.

Record agent_loop := { seq_ : Z; drops : Z; batch : list RawPacketMsg }.
Definition new_loop : agent_loop := {| seq_ := 0; drops := 0; batch := [] |}.

(** What the [select] of the loop can receive. *)
Inductive agent_event :=
  | CtxDone
  | ReadErr
  | CtrlErr
  | NewFilter (f : string)
  | Captured (p : RawPacketMsg)
  | Ticker
  | Heartbeat.

(** [flush]: the batch to write, and the state after it is written. *)
Definition flush (id : string) (force : bool) (a : agent_loop) : option (PacketBatch * agent_loop) :=
  if (length (batch a) =? 0)%nat && negb force then None
  else Some ({| B_AgentID := id; SeqNum := seq_ a; Drops := drops a; Packets := batch a |},
             {| seq_ := u64 (seq_ a + 1); drops := 0; batch := [] |}).

(** What one turn does: the loop goes on, or the connection is left, with the
    filter to reconnect with. *)
Inductive turn :=
  | Goes (a : agent_loop)
  | Left (a : agent_loop) (newFilter : option string).

(** A flush, its batch if it writes one, with [ok] telling whether the write
    succeeds; the second component is false when it fails. *)
Definition try_flush (id : string) (force ok : bool) (a : agent_loop) : list PacketBatch * bool * agent_loop :=
  match flush id force a with
  | None => ([], true, a)
  | Some (b, a') => if ok then ([b], true, a') else ([], false, a)
  end.

Definition agent_turn (id : string) (ev : agent_event) (ok : bool) (a : agent_loop) : list PacketBatch * turn :=
  match ev with
  | CtxDone | ReadErr | CtrlErr => let '(w, _, a) := try_flush id false ok a in (w, Left a None)
  | NewFilter f => let '(w, _, a) := try_flush id false ok a in (w, Left a (Some f))
  | Captured p =>
    let a := {| seq_ := seq_ a; drops := drops a; batch := batch a ++ [p] |} in
    if (maxBatchSize <=? length (batch a))%nat then
      let '(w, sent, a) := try_flush id false ok a in (w, if sent then Goes a else Left a None)
    else ([], Goes a)
  | Ticker => let '(w, sent, a) := try_flush id false ok a in (w, if sent then Goes a else Left a None)
  | Heartbeat => let '(w, sent, a) := try_flush id true ok a in (w, if sent then Goes a else Left a None)
  end.

(** The batches that a run of the loop writes, and how it ends. *)
Fixpoint agent_run (id : string) (evs : list (agent_event * bool)) (a : agent_loop) : list PacketBatch * turn :=
  match evs with
  | [] => ([], Goes a)
  | (ev, ok) :: evs =>
    let '(w, t) := agent_turn id ev ok a in
    match t with
    | Left a f => (w, Left a f)
    | Goes a => let '(w', t') := agent_run id evs a in (w ++ w', t')
    end
  end.

(** ** Frames on a connection *)

Definition payload_ok (data : list byte) : bool := (0 <? zlen data) && (zlen data <=? maxMsgSize).

Lemma zlen_take n (s : list byte) : 0 <= n <= zlen s -> zlen (take (Z.to_nat n) s) = n.
Proof. intros. unfold zlen in *. rewrite length_take. lia. Qed.

Lemma ReadFull_app s t : ReadFull (zlen s) (s ++ t) = inr (s, t).
Proof.
  unfold ReadFull. rewrite zlen_app. pose proof (zlen_nonneg t). rewrite (proj2 (Z.leb_le _ _)) by lia.
  unfold zlen. by rewrite Nat2Z.id, take_app_length, drop_app_length.
Qed.

Lemma readFrame_header n rest : 0 <= n < 2 ^ 32 ->
  readFrame (be_put 4 n ++ rest) =
    if n =? 0 then inl EEmptyMessage else if maxMsgSize <? n then inl (ETooLarge n) else ReadFull n rest.
Proof.
  intros Hn. unfold readFrame. change 4 with (Z.of_nat 4) at 1. rewrite <-(zlen_be_put 4 n), ReadFull_app.
  by rewrite be_be_put by (cbn; cbn in Hn; lia).
Qed.

Lemma readFrame_frame data rest : payload_ok data = true -> readFrame (frame data ++ rest) = inr (data, rest).
Proof.
  unfold payload_ok, maxMsgSize. intros Hd. unfold frame. rewrite <-app_assoc, readFrame_header by (cbn; lia).
  rewrite (proj2 (Z.eqb_neq _ 0)) by lia. unfold maxMsgSize. rewrite (proj2 (Z.ltb_ge _ _)) by lia. apply ReadFull_app.
Qed.

(** The limit is one of the reader only. *)
Lemma readFrame_too_large data rest : maxMsgSize < zlen data < 2 ^ 32 ->
  readFrame (frame data ++ rest) = inl (ETooLarge (zlen data)).
Proof.
  unfold maxMsgSize. intros Hd. unfold frame. rewrite <-app_assoc, readFrame_header by (cbn; cbn in Hd; lia).
  rewrite (proj2 (Z.eqb_neq _ 0)) by lia. unfold maxMsgSize. by rewrite (proj2 (Z.ltb_lt _ _)) by lia.
Qed.

(** A frame that is cut off. *)
Lemma readFrame_cut data n : payload_ok data = true -> (n < length (frame data))%nat ->
  readFrame (take n (frame data)) = inl EEOF \/ readFrame (take n (frame data)) = inl EUnexpectedEOF.
Proof.
  unfold payload_ok, maxMsgSize. intros Hd Hn. unfold frame in *. rewrite length_app, length_be_put in Hn.
  destruct (decide (n < 4)%nat) as [H4|H4].
  - unfold readFrame, ReadFull. rewrite take_app_le by (rewrite length_be_put; lia).
    assert (zlen (take n (be_put 4 (zlen data))) = Z.of_nat n) as ->.
    { unfold zlen. rewrite length_take, length_be_put. lia. }
    rewrite (proj2 (Z.leb_gt 4 _)) by lia. destruct (Z.of_nat n =? 0); auto.
  - rewrite take_app_ge by (rewrite length_be_put; lia). rewrite length_be_put, readFrame_header by (cbn; lia).
    rewrite (proj2 (Z.eqb_neq _ 0)) by lia. unfold maxMsgSize. rewrite (proj2 (Z.ltb_ge _ _)) by lia.
    unfold ReadFull. assert (zlen (take (n - 4) data) = Z.of_nat n - 4) as ->.
    { unfold zlen in *. rewrite length_take. lia. }
    rewrite (proj2 (Z.leb_gt (zlen data) _)) by (unfold zlen in *; lia). destruct (Z.of_nat n - 4 =? 0); auto.
Qed.

Lemma readFrame_consumes conn buf rest : readFrame conn = inr (buf, rest) -> (length rest < length conn)%nat.
Proof.
  unfold readFrame, ReadFull. destruct (Z.leb_spec 4 (zlen conn)); [|done]. case_match; [done|]. case_match; [done|].
  case_match; [|done]. intros [= <- <-]. rewrite !length_drop. unfold zlen in *. lia.
Qed.

Section messages.
Context {M : Type} `{CodecOk M} `{ZlibOk}.

Definition wire_payload (compress : bool) (v : M) : list byte := if compress then deflate (marshal v) else marshal v.

Lemma write_batch_frame compress v : write_batch compress v = frame (wire_payload compress v).
Proof. by destruct compress. Qed.

Definition sendable (compress : bool) (v : M) : Prop := encodable v /\ payload_ok (wire_payload compress v) = true.

Lemma read_batch_frame compress v rest : sendable compress v ->
  read_batch compress (write_batch compress v ++ rest) = inr (v, rest).
Proof.
  intros [He Hok]. rewrite write_batch_frame. destruct compress; cbn [read_batch wire_payload] in *;
    [unfold readMsgZlib|unfold readMsg]; rewrite readFrame_frame by done; by rewrite ?inflate_deflate, ?unmarshal_marshal.
Qed.

Lemma read_batch_error compress conn e : readFrame conn = inl e -> read_batch compress conn = inl e.
Proof. intros E. destruct compress; cbn [read_batch]; [unfold readMsgZlib|unfold readMsg]; by rewrite E. Qed.

Lemma receive_returns compress conn fuel : (length conn < fuel)%nat ->
  returns (@receive M _ _ fuel compress conn) (fun _ => True).
Proof.
  revert conn. induction fuel as [|fuel IH]; intros conn Hf; [lia|]. cbn [receive].
  destruct (read_batch compress conn) as [e|[v rest]] eqn:E; [done|].
  run_step. eapply returns_weaken; [apply IH|by intros [? ?]].
  assert (exists buf, readFrame conn = inr (buf, rest)) as [buf Hb].
  { destruct compress; cbn [read_batch] in E; [unfold readMsgZlib in E|unfold readMsg in E];
      destruct (readFrame conn) as [|[buf r]]; [done| |done|]; repeat case_match; simplify_eq; eauto. }
  apply readFrame_consumes in Hb. lia.
Qed.

(** Where the bytes are cut off, whole messages before arrive. *)
Lemma receive_cut compress vs n fuel :
  Forall (sendable compress) vs -> (n <= length (mjoin (write_batch compress <$> vs)))%nat ->
  (length vs < fuel)%nat -> exists k e,
    receive fuel compress (take n (mjoin (write_batch compress <$> vs))) = Ok (take k vs, e) /\
    (e = EEOF \/ e = EUnexpectedEOF) /\ (n = length (mjoin (write_batch compress <$> vs)) -> k = length vs /\ e = EEOF).
Proof.
  intros Hok. revert n fuel. induction Hok as [|v vs Hv _ IH]; intros n fuel Hn Hf; (destruct fuel as [|fuel]; [lia|]).
  - exists O, EEOF. cbn [fmap list_fmap mjoin list_join] in *. cbn in Hn. replace n with O by lia. split; [|by auto].
    cbn [take receive]. by rewrite (read_batch_error compress [] EEOF).
  - cbn [fmap list_fmap] in *. rewrite mjoin_cons in *. rewrite length_app in Hn. cbn [length] in Hf.
    destruct (decide (n < length (write_batch compress v))%nat) as [Hlt|Hge].
    + exists O. rewrite take_app_le by lia. rewrite write_batch_frame in *.
      destruct (readFrame_cut _ n (proj2 Hv) Hlt) as [E|E]; [exists EEOF|exists EUnexpectedEOF]; cbn [receive];
        rewrite (read_batch_error _ _ _ E); (split; [done|]); (split; [auto|]); rewrite length_app; lia.
    + rewrite take_app_ge by lia. cbn [receive]. rewrite read_batch_frame by done.
      destruct (IH (n - length (write_batch compress v))%nat fuel) as (k & e & Hr & He & Hfull); [lia|lia|].
      exists (S k), e. rewrite Hr. split; [done|]. split; [done|]. rewrite length_app. intros Hl.
      destruct Hfull as [-> ->]; [lia|done].
Qed.

End messages.

(** ** What an agent sends *)

Definition captured (evs : list (agent_event * bool)) : list RawPacketMsg :=
  omap (fun e => match fst e with Captured p => Some p | _ => None end) evs.

Definition turn_state (t : turn) : agent_loop := match t with Goes a | Left a _ => a end.

(** The batches of a run, from a state with [n] written before. *)
Definition numbered (id : string) (n : Z) (ws : list PacketBatch) : Prop :=
  forall i b, ws !! i = Some b -> B_AgentID b = id /\ SeqNum b = u64 (n + Z.of_nat i) /\ Drops b = 0.

Lemma u64_add_l a b : u64 (u64 a + b) = u64 (a + b).
Proof. unfold u64, wrap. apply Z.add_mod_idemp_l. done. Qed.

Lemma numbered_nil id n : numbered id n [].
Proof. intros i b Hi. by rewrite lookup_nil in Hi. Qed.
Lemma numbered_app id n w1 w2 : numbered id n w1 -> numbered id (n + zlen w1) w2 -> numbered id n (w1 ++ w2).
Proof.
  intros H1 H2 i b Hi. apply lookup_app_Some in Hi as [Hi|[Hle Hi]]; [by apply H1|].
  destruct (H2 _ _ Hi) as (? & -> & ?). split_and!; [done| |done]. f_equal. unfold zlen. lia.
Qed.

(** The state of the loop after [n] batches. *)
Definition loop_at (n : Z) (a : agent_loop) : Prop :=
  seq_ a = u64 n /\ drops a = 0 /\ (length (batch a) < maxBatchSize)%nat.

Definition batches_ok (ws : list PacketBatch) : Prop := Forall (fun b => (length (Packets b) <= maxBatchSize)%nat) ws.

(** A flush of a batch that may just have become full. *)
Lemma try_flush_spec id force ok n a w sent a' :
  seq_ a = u64 n -> drops a = 0 -> (length (batch a) <= maxBatchSize)%nat -> try_flush id force ok a = (w, sent, a') ->
  mjoin (Packets <$> w) ++ batch a' = batch a /\ numbered id n w /\ batches_ok w /\
  (sent = true -> seq_ a' = u64 (n + zlen w) /\ drops a' = 0 /\ batch a' = []) /\ (ok = true -> sent = true).
Proof.
  intros Hs Hd Hl. unfold try_flush, flush. destruct ((length (batch a) =? 0)%nat && negb force) eqn:E.
  - intros [= <- <- <-]. cbn [fmap list_fmap mjoin list_join app]. split_and!; try first [done|apply numbered_nil|by constructor].
    intros _. rewrite zlen_nil, Z.add_0_r. split_and!; [done..|]. apply andb_true_iff in E as [E%Nat.eqb_eq _].
    by apply nil_length_inv.
  - destruct ok; intros [= <- <- <-].
    + cbn [fmap list_fmap mjoin list_join app Packets batch]. rewrite !app_nil_r. split_and!; try done.
      * intros i b Hi. apply list_lookup_singleton_Some in Hi as [-> <-]. cbn. by rewrite Hs, Z.add_0_r.
      * by constructor.
      * intros _. cbn [seq_ drops batch]. rewrite Hs. split_and!; [|done..]. change (zlen [_]) with 1. apply u64_add_l.
    + cbn [fmap list_fmap mjoin list_join app]. split_and!; first [done|apply numbered_nil|by constructor].
Qed.

Lemma agent_turn_spec id ev ok n a w t : loop_at n a -> agent_turn id ev ok a = (w, t) ->
  mjoin (Packets <$> w) ++ batch (turn_state t) = batch a ++ captured [(ev, ok)] /\
  numbered id n w /\ batches_ok w /\ match t with Goes a' => loop_at (n + zlen w) a' | Left a' _ => ok = true -> batch a' = [] end.
Proof.
  intros (Hs & Hd & Hl) Ht.
  assert (forall force b w sent a', (length b <= maxBatchSize)%nat ->
    try_flush id force ok {| seq_ := seq_ a; drops := drops a; batch := b |} = (w, sent, a') ->
    mjoin (Packets <$> w) ++ batch a' = b /\ numbered id n w /\ batches_ok w /\
    (sent = true -> loop_at (n + zlen w) a') /\ (ok = true -> batch a' = [])) as Hf.
  { intros force b w' sent a' Hb E. destruct (try_flush_spec id force ok n
      {| seq_ := seq_ a; drops := drops a; batch := b |} w' sent a' Hs Hd Hb E) as (H1 & H2 & H3 & H4 & H5).
    split_and!; try done.
    - intros Hsent. destruct (H4 Hsent) as (? & ? & Hb'). split_and!; [done..|]. rewrite Hb'. by apply Nat.ltb_lt.
    - intros Hok. by apply H4, H5. }
  assert (a = {| seq_ := seq_ a; drops := drops a; batch := batch a |}) as Ha by by destruct a.
  destruct ev; cbn [captured omap list_omap fst]; rewrite ?app_nil_r; cbn [agent_turn] in Ht.
  1-4, 6-7: rewrite Ha in Ht; destruct (try_flush _ _ _ _) as [[w' sent] a'] eqn:E; apply Hf in E as (H1 & H2 & H3 & H4 & H5);
    [|lia];
    injection Ht as <- <-; destruct sent; cbn [turn_state]; by split_and!; auto.
  cbv zeta in Ht. cbn [batch seq_ drops] in Ht. destruct (Nat.leb_spec maxBatchSize (length (batch a ++ [p]))) as [Hge|Hlt].
  - destruct (try_flush _ _ _ _) as [[w' sent] a'] eqn:E.
    apply Hf in E as (H1 & H2 & H3 & H4 & H5); [|rewrite length_app; cbn; lia].
    injection Ht as <- <-; destruct sent; cbn [turn_state]; by split_and!; auto.
  - injection Ht as <- <-. cbn [fmap list_fmap mjoin list_join app turn_state batch]. rewrite zlen_nil, Z.add_0_r.
    split_and!; [done|apply numbered_nil|by constructor|]. split_and!; [done|done|]. cbn [batch] in *. lia.
Qed.

Lemma captured_app e1 e2 : captured (e1 ++ e2) = captured e1 ++ captured e2.
Proof. apply omap_app. Qed.

Lemma agent_run_spec id evs n a ws t : loop_at n a -> agent_run id evs a = (ws, t) ->
  exists k, mjoin (Packets <$> ws) ++ batch (turn_state t) = batch a ++ captured (take k evs) /\
    numbered id n ws /\ batches_ok ws /\
    match t with
    | Goes a' => k = length evs /\ loop_at (n + zlen ws) a'
    | Left a' _ => exists ev ok, last (take k evs) = Some (ev, ok) /\ (ok = true -> batch a' = [])
    end.
Proof.
  revert n a ws t. induction evs as [|[ev ok] evs IH]; intros n a ws t Ha Hr; cbn [agent_run] in Hr.
  - injection Hr as <- <-. exists O. cbn. rewrite app_nil_r, zlen_nil, Z.add_0_r. split_and!; first [done|apply numbered_nil|by constructor].
  - destruct (agent_turn id ev ok a) as [w t1] eqn:E. destruct (agent_turn_spec _ _ _ _ _ _ _ Ha E) as (H1 & H2 & H3 & H4).
    destruct t1 as [a1|a1 f].
    + destruct (agent_run id evs a1) as [w' t'] eqn:E'. injection Hr as <- <-.
      destruct (IH _ _ _ _ H4 E') as (k & I1 & I2 & I3 & I4). exists (S k). cbn [take turn_state] in *.
      split_and!.
      * rewrite fmap_app, join_app, <-app_assoc, I1, app_assoc, H1, <-app_assoc.
        change ((ev, ok) :: take k evs) with ([(ev, ok)] ++ take k evs). by rewrite captured_app.
      * by apply numbered_app.
      * by apply Forall_app.
      * destruct t' as [a'|a' f].
        -- destruct I4 as [-> I4]. split; [done|]. rewrite zlen_app. by rewrite Z.add_assoc.
        -- destruct I4 as (ev' & ok' & Hl & Hb). exists ev', ok'. split; [|done].
           destruct (take k evs); [done|]. exact Hl.
    + injection Hr as <- <-. exists 1%nat. cbn [take turn_state] in *. rewrite take_0. split_and!; try done. by exists ev, ok.
Qed.

Section end_to_end.
Context `{CodecOk PacketBatch} `{ZlibOk}.

Lemma length_written compress (ws : list PacketBatch) : (length ws <= length (mjoin (write_batch compress <$> ws)))%nat.
Proof.
  induction ws as [|v ws IH]; [cbn; lia|]. cbn [fmap list_fmap]. rewrite mjoin_cons, length_app, write_batch_frame.
  unfold frame. rewrite length_app, length_be_put. cbn [length]. lia.
Qed.

(** C25: Whatever an agent captures and whenever its timers fire, what it writes
    on a connection are batches of at most 500 packets, numbered in order from 0,
    which together with what is not yet sent hold the packets of the channel in order,
    none missing and none twice; and wherever the connection is cut off, the
    receiver gets exactly the whole batches before the cut, all of them if it
    is not, provided that JSON can write each and none of the payloads is beyond the limit of the reader.
    The number of dropped packets that a batch announces is always 0. *)
Theorem stream_end_to_end id evs ws t compress cut :
  agent_run id evs new_loop = (ws, t) ->
  Forall (sendable compress) ws ->
  let conn := mjoin (write_batch compress <$> ws) in
  (cut <= length conn)%nat ->
  numbered id 0 ws /\ batches_ok ws /\
  (exists n, mjoin (Packets <$> ws) ++ batch (turn_state t) = captured (take n evs) /\
     match t with Goes _ => n = length evs | Left a _ => forall ev, last (take n evs) = Some (ev, true) -> batch a = [] end) /\
  exists k e, receive (S (length conn)) compress (take cut conn) = Ok (take k ws, e) /\
    (e = EEOF \/ e = EUnexpectedEOF) /\ (cut = length conn -> k = length ws /\ e = EEOF).
Proof.
  intros Hr Hok conn Hcut.
  destruct (agent_run_spec id evs 0 new_loop ws t) as (n & Hp & Hn & Hb & Ht); [by split_and!; try apply Nat.ltb_lt|done|].
  split; [done|]. split; [done|]. split.
  - exists n. split; [done|]. destruct t as [a|a f]; [by destruct Ht|]. destruct Ht as (ev' & ok & Hl & Hbatch).
    intros ev Hev. rewrite Hev in Hl. injection Hl as <- <-. by apply Hbatch.
  - apply receive_cut; [done|done|]. pose proof (length_written compress ws). unfold conn. lia.
Qed.

(** A batch whose payload is longer is written, and the receiver gives up. *)
Lemma long_batch_refused compress (b : PacketBatch) rest fuel : maxMsgSize < zlen (wire_payload compress b) < 2 ^ 32 ->
  receive (S fuel) compress (write_batch compress b ++ rest) = Ok ([], ETooLarge (zlen (wire_payload compress b))).
Proof.
  intros Hl. cbn [receive]. rewrite write_batch_frame.
  by rewrite (read_batch_error _ _ _ (readFrame_too_large _ rest Hl)).
Qed.

End end_to_end.

(** ** registry.go and the connections of central.go *)

Record AgentStatus := {
  AgentID : string;
  Hostname : string;
  Interface : string;
  RemoteAddr : string;
  S_SessionID : string;
  ConnectedAt : time;
  LastBatchAt : time;
  Stale : bool;
  PacketsRx : Z;
  BytesRx : Z;
  BatchCount : Z;
  DroppedPkts : Z;
  CurrentFilter : string;
}.

(** A channel of filters: what is in it, of four places, and whether it is closed. *)
Record filter_chan := { queue : list string; closed : bool }.

(** The channels are shared between the registry and the goroutines that
    forward filters: they live in a store, and the registry has their names. *)
Record AgentRegistry := {
  agents : gmap string AgentStatus;
  filterChans : gmap string nat;
  chans : gmap nat filter_chan;
}.
Definition NewAgentRegistry : AgentRegistry := {| agents := ∅; filterChans := ∅; chans := ∅ |}.

Definition StaleTimeout : duration := 30 * 1000000000.

Definition register (s : AgentStatus) (ch : nat) (r : AgentRegistry) : AgentRegistry :=
  {| agents := <[AgentID s := s]> (agents r); filterChans := <[AgentID s := ch]> (filterChans r);
     chans := <[ch := {| queue := []; closed := false |}]> (chans r) |}.

Definition count_batch (packets bytes dropped : Z) (now : time) (e : AgentStatus) : AgentStatus :=
  {| AgentID := AgentID e; Hostname := Hostname e; Interface := Interface e; RemoteAddr := RemoteAddr e;
     S_SessionID := S_SessionID e; ConnectedAt := ConnectedAt e; LastBatchAt := now; Stale := false;
     PacketsRx := u64 (PacketsRx e + packets); BytesRx := u64 (BytesRx e + bytes); BatchCount := u64 (BatchCount e + 1);
     DroppedPkts := u64 (DroppedPkts e + dropped); CurrentFilter := CurrentFilter e |}.

Definition update (agentID : string) (packets bytes dropped : Z) (now : time) (r : AgentRegistry) : AgentRegistry :=
  {| agents := match agents r !! agentID with
               | Some e => <[agentID := count_batch packets bytes dropped now e]> (agents r)
               | None => agents r
               end; filterChans := filterChans r; chans := chans r |}.

(** [close(ch)]: closing a closed channel panics. *)
Definition close_chan (ch : nat) (m : gmap nat filter_chan) : res (gmap nat filter_chan) :=
  match m !! ch with
  | Some c => if closed c then Panic else Ok (<[ch := {| queue := queue c; closed := true |}]> m)
  | None => Panic
  end.

Definition unregister (agentID : string) (r : AgentRegistry) : res AgentRegistry :=
  match filterChans r !! agentID with
  | Some ch =>
    m ← close_chan ch (chans r);
    Ok {| agents := delete agentID (agents r); filterChans := delete agentID (filterChans r); chans := m |}
  | None => Ok {| agents := delete agentID (agents r); filterChans := filterChans r; chans := chans r |}
  end.

Definition FilterCh (agentID : string) (r : AgentRegistry) : option nat := filterChans r !! agentID.

Definition set_filter (filter : string) (e : AgentStatus) : AgentStatus :=
  {| AgentID := AgentID e; Hostname := Hostname e; Interface := Interface e; RemoteAddr := RemoteAddr e;
     S_SessionID := S_SessionID e; ConnectedAt := ConnectedAt e; LastBatchAt := LastBatchAt e; Stale := Stale e;
     PacketsRx := PacketsRx e; BytesRx := BytesRx e; BatchCount := BatchCount e; DroppedPkts := DroppedPkts e;
     CurrentFilter := filter |}.

(** Sending to a closed channel panics; a full channel takes the default case. *)
Definition SendFilter (agentID filter : string) (r : AgentRegistry) : res (AgentRegistry * bool) :=
  match filterChans r !! agentID with
  | None => Ok (r, false)
  | Some ch =>
    let agents' := alter (set_filter filter) agentID (agents r) in
    match chans r !! ch with
    | None => Panic
    | Some c =>
      if closed c then Panic
      else if (length (queue c) <? 4)%nat then
        Ok ({| agents := agents'; filterChans := filterChans r;
               chans := <[ch := {| queue := queue c ++ [filter]; closed := false |}]> (chans r) |}, true)
      else Ok ({| agents := agents'; filterChans := filterChans r; chans := chans r |}, false)
    end
  end.

Definition mark_stale (now : time) (e : AgentStatus) : AgentStatus :=
  if negb (is_zero (LastBatchAt e)) && (StaleTimeout <? time_sub now (LastBatchAt e)) then
    {| AgentID := AgentID e; Hostname := Hostname e; Interface := Interface e; RemoteAddr := RemoteAddr e;
       S_SessionID := S_SessionID e; ConnectedAt := ConnectedAt e; LastBatchAt := LastBatchAt e; Stale := true;
       PacketsRx := PacketsRx e; BytesRx := BytesRx e; BatchCount := BatchCount e; DroppedPkts := DroppedPkts e;
       CurrentFilter := CurrentFilter e |}
  else e.
Definition check_stale (now : time) (r : AgentRegistry) : AgentRegistry :=
  {| agents := mark_stale now <$> agents r; filterChans := filterChans r; chans := chans r |}.

Definition List_ (r : AgentRegistry) : list AgentStatus := (map_to_list (agents r)).*2.

(** A goroutine takes a filter from its channel, or finds it closed. *)
Definition take_filter (ch : nat) (r : AgentRegistry) : option (option string * AgentRegistry) :=
  match chans r !! ch with
  | Some c =>
    match queue c with
    | f :: q => Some (Some f, {| agents := agents r; filterChans := filterChans r;
                                 chans := <[ch := {| queue := q; closed := closed c |}]> (chans r) |})
    | [] => if closed c then Some (None, r) else None
    end
  | None => None
  end.

(** ** central.go: connections as a step relation *)

(** The answer to a handshake: a wrong token is refused before a session is
    started, and a session may fail to start. *)
Definition answer_handshake (token : string) (hs : Handshake) (session : string + string) : HandshakeAck :=
  if negb (String.eqb token "") && negb (String.eqb (Token hs) token) then
    {| OK := false; SessionID := ""; Message := "invalid token"; UseCompress := false |}
  else match session with
       | inl err => {| OK := false; SessionID := ""; Message := err; UseCompress := false |}
       | inr id => {| OK := true; SessionID := id; Message := ""; UseCompress := CanCompress hs |}
       end.

(** What a batch is counted as: packets, bytes, and what the session's channel
    did not take, [taken] telling for each packet whether it did. *)
Definition count_of_batch (b : PacketBatch) (taken : list bool) : Z * Z * Z :=
  (zlen (Packets b), foldl (fun n p => n + RLength p) 0 (Packets b),
   zlen (filter (fun ok => ok = false) taken) + i64 (Drops b)).

(** A connection whose handshake was accepted: after it registered, while it
    receives batches with the channel it found, and after it ended. *)
Inductive connection :=
  | Registered (id : string)
  | Running (id : string) (ch : option nat)
  | Closed.

Record central := { reg : AgentRegistry; conns : gmap nat connection; next_chan : nat }.
Definition no_agents : central := {| reg := NewAgentRegistry; conns := ∅; next_chan := 0 |}.

Definition with_reg (r : AgentRegistry) (c : central) : central :=
  {| reg := r; conns := conns c; next_chan := next_chan c |}.
Definition with_conn (n : nat) (s : connection) (c : central) : central :=
  {| reg := reg c; conns := <[n := s]> (conns c); next_chan := next_chan c |}.

Inductive step : central -> central -> Prop :=
  | step_register c n s : conns c !! n = None ->
      step c {| reg := register s (next_chan c) (reg c); conns := <[n := Registered (AgentID s)]> (conns c);
                next_chan := S (next_chan c) |}
  | step_filter_ch c n id : conns c !! n = Some (Registered id) ->
      step c (with_conn n (Running id (FilterCh id (reg c))) c)
  | step_batch c n id ch b taken now : conns c !! n = Some (Running id ch) ->
      step c (with_reg (let '(p, by_, d) := count_of_batch b taken in update id p by_ d now (reg c)) c)
  | step_end c n id ch r : conns c !! n = Some (Running id ch) -> unregister id (reg c) = Ok r ->
      step c (with_conn n Closed (with_reg r c))
  | step_send c id f r b : SendFilter id f (reg c) = Ok (r, b) -> step c (with_reg r c)
  | step_stale c now : step c (with_reg (check_stale now (reg c)) c)
  | step_forward c ch o r : take_filter ch (reg c) = Some (o, r) -> step c (with_reg r c).

Definition live (c : central) (id : string) : Prop :=
  exists n s, conns c !! n = Some s /\ (s = Registered id \/ exists ch, s = Running id ch).

(** A step after which no two live connections have one ID if none had before. *)
Definition fresh_step (c c' : central) : Prop :=
  step c c' /\ forall n id, conns c !! n = None -> conns c' !! n = Some (Registered id) -> ~ live c id.

(** Every channel of the registry is open, and its own. *)
Record reg_ok (r : AgentRegistry) (next : nat) : Prop := {
  ok_dom : dom (agents r) = dom (filterChans r);
  ok_open : forall id ch, filterChans r !! id = Some ch -> exists q, chans r !! ch = Some {| queue := q; closed := false |};
  ok_inj : forall id id' ch, filterChans r !! id = Some ch -> filterChans r !! id' = Some ch -> id = id';
  ok_next : forall id ch, filterChans r !! id = Some ch -> (ch < next)%nat;
}.

Lemma register_ok s r next : reg_ok r next -> reg_ok (register s next r) (S next).
Proof.
  intros [Hd Ho Hi Hn]. unfold register. split; cbn [agents filterChans chans].
  - by rewrite !dom_insert_L, Hd.
  - intros id ch. rewrite lookup_insert_Some. intros [[<- <-]|[Hne Hch]]; [rewrite lookup_insert_eq; eauto|].
    rewrite lookup_insert_ne by (specialize (Hn _ _ Hch); lia). eauto.
  - intros id id' ch. rewrite !lookup_insert_Some. intros [[<- <-]|[? H1]] [[<- E]|[? H2]]; try done.
    + specialize (Hn _ _ H2). lia.
    + subst. specialize (Hn _ _ H1). lia.
    + eauto.
  - intros id ch. rewrite lookup_insert_Some. intros [[<- <-]|[? Hch]]; [lia|]. specialize (Hn _ _ Hch). lia.
Qed.

Lemma update_ok id p b d now r next : reg_ok r next -> reg_ok (update id p b d now r) next.
Proof.
  intros [Hd Ho Hi Hn]. split; cbn [update agents filterChans chans]; try done.
  rewrite <-Hd. destruct (agents r !! id) eqn:E; [|done]. rewrite dom_insert_L.
  apply elem_of_dom_2 in E. set_solver.
Qed.

Lemma unregister_ok id r next : reg_ok r next -> exists r', unregister id r = Ok r' /\ reg_ok r' next /\
  agents r' = delete id (agents r).
Proof.
  intros [Hd Ho Hi Hn]. unfold unregister. destruct (filterChans r !! id) as [ch|] eqn:E.
  - destruct (Ho _ _ E) as [q Hq]. unfold close_chan. rewrite Hq. cbn [closed mbind res_bind]. eexists. split; [done|].
    split; [|done]. split; cbn [agents filterChans chans].
    + by rewrite !dom_delete_L, Hd.
    + intros id' ch'. rewrite lookup_delete_Some. intros [Hne Hch]. rewrite lookup_insert_ne; [eauto|].
      intros ->. apply Hne. by apply (Hi id id' ch').
    + intros id1 id2 ch'. rewrite !lookup_delete_Some. intros [? ?] [? ?]. eauto.
    + intros id' ch'. rewrite lookup_delete_Some. intros [? ?]. eauto.
  - eexists. split; [done|]. split; [|done]. split; cbn [agents filterChans chans]; try done.
    rewrite dom_delete_L, Hd. apply not_elem_of_dom in E. set_solver.
Qed.

Lemma SendFilter_ok id f r next : reg_ok r next -> exists r' b, SendFilter id f r = Ok (r', b) /\ reg_ok r' next /\
  dom (agents r') = dom (agents r) /\ (b = true -> is_Some (agents r !! id)).
Proof.
  intros [Hd Ho Hi Hn]. unfold SendFilter. destruct (filterChans r !! id) as [ch|] eqn:E; [|by eexists _, _].
  destruct (Ho _ _ E) as [q Hq]. rewrite Hq. cbn [closed queue].
  assert (is_Some (agents r !! id)) as Hs by (apply elem_of_dom; rewrite Hd; by apply elem_of_dom_2 in E).
  case_match; eexists _, _; (split; [done|]); (split; [|split; [apply dom_alter_L|done]]);
    split; cbn [agents filterChans chans]; rewrite ?dom_alter_L; try done.
  intros id' ch' Hch. destruct (decide (ch' = ch)) as [->|Hne]; [rewrite lookup_insert_eq; eauto|].
  rewrite lookup_insert_ne by done. eauto.
Qed.

Lemma check_stale_ok now r next : reg_ok r next -> reg_ok (check_stale now r) next.
Proof. intros [Hd Ho Hi Hn]. split; cbn [check_stale agents filterChans chans]; try done. by rewrite dom_fmap_L. Qed.

Lemma take_filter_ok ch o r r' next : take_filter ch r = Some (o, r') -> reg_ok r next -> reg_ok r' next /\ agents r' = agents r.
Proof.
  unfold take_filter. intros Ht [Hd Ho Hi Hn]. destruct (chans r !! ch) as [[[|f q] cl]|] eqn:E; [|injection Ht as <- <-|done].
  - cbn in Ht. destruct cl; [|done]. by injection Ht as <- <-.
  - split; [|done]. split; cbn [agents filterChans chans]; try done. intros id ch' Hch. destruct (Ho _ _ Hch) as [q' Hq].
    destruct (decide (ch' = ch)) as [->|Hne].
    + rewrite lookup_insert_eq. rewrite E in Hq. injection Hq as Hq ->. eauto.
    + rewrite lookup_insert_ne by done. eauto.
Qed.

Lemma step_ok c c' : step c c' -> reg_ok (reg c) (next_chan c) -> reg_ok (reg c') (next_chan c').
Proof.
  intros Hs Hok. destruct Hs as [c n s Hn|c n id Hn|c n id ch b taken now Hn|c n id ch r Hn Hu|c id f r b Hf|c now|c ch o r Ht];
    cbn [with_reg with_conn reg next_chan].
  - by apply register_ok.
  - done.
  - destruct (count_of_batch b taken) as [[p by_] d]. by apply update_ok.
  - destruct (unregister_ok id _ _ Hok) as (r' & Hr & Hok' & _). rewrite Hu in Hr. by injection Hr as ->.
  - destruct (SendFilter_ok id f _ _ Hok) as (r' & b' & Hr & Hok' & _). rewrite Hf in Hr. by injection Hr as -> _.
  - by apply check_stale_ok.
  - by apply (take_filter_ok ch o _ _ _ Ht).
Qed.

Lemma reachable_ok c : rtc step no_agents c -> reg_ok (reg c) (next_chan c).
Proof.
  intros Hr. assert (reg_ok (reg no_agents) (next_chan no_agents)) as H0.
  { split; cbn; try done; intros *; by rewrite ?lookup_empty. }
  revert H0. induction Hr as [c|c c' c'' Hs _ IH]; [done|]. intros H0. apply IH. by apply (step_ok c).
Qed.

Definition holds (c : central) (n : nat) (id : string) : Prop :=
  conns c !! n = Some (Registered id) \/ exists ch, conns c !! n = Some (Running id ch).

Record listed (c : central) : Prop := {
  listed_one : forall n1 n2 id, holds c n1 id -> holds c n2 id -> n1 = n2;
  listed_iff : forall id, is_Some (agents (reg c) !! id) <-> exists n, holds c n id;
}.

(** The steps that change neither the connections nor which agents are listed. *)
Lemma listed_same c r : listed c -> dom (agents r) = dom (agents (reg c)) -> listed (with_reg r c).
Proof.
  intros [H1 H2] Hd. split; [exact H1|]. intros id. cbn [with_reg reg]. rewrite <-elem_of_dom, Hd, elem_of_dom. apply H2.
Qed.

Lemma holds_same c n id s : conns c !! n = Some s -> (s = Registered id \/ exists ch, s = Running id ch) -> holds c n id.
Proof. intros Hn [->|[ch ->]]; [by left|right; eauto]. Qed.

Lemma fresh_step_listed c c' : fresh_step c c' -> reg_ok (reg c) (next_chan c) -> listed c -> listed c'.
Proof.
  intros [Hs Hfresh] Hok Hl.
  destruct Hs as [c n s Hn|c n id Hn|c n id ch b taken now Hn|c n id ch r Hn Hu|c id f r b Hf|c now|c ch o r Ht].
  - assert (~ live c (AgentID s)) as Hnl by (apply (Hfresh n); [done|cbn; by rewrite lookup_insert_eq]).
    assert (forall n' id, holds {| reg := register s (next_chan c) (reg c);
        conns := <[n := Registered (AgentID s)]> (conns c); next_chan := S (next_chan c) |} n' id <->
      n' = n /\ id = AgentID s \/ holds c n' id) as Hh.
    { intros n' id. unfold holds. cbn [conns]. destruct (decide (n' = n)) as [->|Hne].
      - rewrite lookup_insert_eq, Hn. naive_solver.
      - rewrite lookup_insert_ne by done. naive_solver. }
    assert (forall n' id, holds c n' id -> live c id) as Hlive by (intros n' id [?|[? ?]]; eexists _, _; eauto).
    destruct Hl as [H1 H2]. split.
    + intros n1 n2 id. rewrite !Hh. intros [[-> ->]|Ha] [[-> E]|Hb]; try done; [by apply Hlive in Hb|subst; by apply Hlive in Ha|].
      by apply (H1 n1 n2 id).
    + intros id. cbn [reg register agents]. setoid_rewrite Hh. destruct (decide (id = AgentID s)) as [->|Hne].
      * rewrite lookup_insert_eq. split; [intros _; exists n; by left|done].
      * rewrite lookup_insert_ne by done. rewrite H2. naive_solver.
  - assert (forall n' id', holds (with_conn n (Running id (FilterCh id (reg c))) c) n' id' <-> holds c n' id') as Hh.
    { intros n' id'. unfold holds. cbn [with_conn conns]. destruct (decide (n' = n)) as [->|Hne].
      - rewrite lookup_insert_eq, Hn. naive_solver.
      - by rewrite lookup_insert_ne. }
    destruct Hl as [H1 H2]. split; [intros n1 n2 id'; rewrite !Hh; apply H1|]. intros id'. setoid_rewrite Hh. apply H2.
  - apply listed_same; [done|]. destruct (count_of_batch b taken) as [[p by_] d]. cbn [update agents].
    destruct (agents (reg c) !! id) eqn:E; [|done]. rewrite dom_insert_L. apply elem_of_dom_2 in E. set_solver.
  - destruct (unregister_ok id _ _ Hok) as (r' & Hr & _ & Ha). rewrite Hu in Hr. injection Hr as <-.
    assert (holds c n id) as Hid by (right; eauto).
    assert (forall n' id', holds (with_conn n Closed (with_reg r c)) n' id' <-> n' <> n /\ holds c n' id') as Hh.
    { intros n' id'. unfold holds. cbn [with_conn with_reg conns]. destruct (decide (n' = n)) as [->|Hne].
      - rewrite lookup_insert_eq. naive_solver.
      - rewrite lookup_insert_ne by done. naive_solver. }
    destruct Hl as [H1 H2]. split; [intros n1 n2 id'; rewrite !Hh; intros [_ ?] [_ ?]; by apply (H1 n1 n2 id')|].
    intros id'. cbn [with_conn with_reg reg]. setoid_rewrite Hh. rewrite Ha. destruct (decide (id' = id)) as [->|Hne].
    + rewrite lookup_delete_eq. split; [by intros []|]. intros (n' & Hne & Hh'). destruct Hne. by apply (H1 n' n id).
    + rewrite lookup_delete_ne, H2 by done. split; [|naive_solver]. intros [n' Hn']. exists n'. split; [|done]. intros ->.
      unfold holds in Hn'. rewrite Hn in Hn'. naive_solver.
  - destruct (SendFilter_ok id f _ _ Hok) as (r' & b' & Hr & _ & Hd & _). rewrite Hf in Hr. injection Hr as <- _.
    by apply listed_same.
  - apply listed_same; [done|]. cbn [check_stale agents]. by rewrite dom_fmap_L.
  - destruct (take_filter_ok _ _ _ _ _ Ht Hok) as [_ Ha]. apply listed_same; [done|]. by rewrite Ha.
Qed.

Lemma reachable_listed c : rtc fresh_step no_agents c -> listed c.
Proof.
  intros Hr. assert (reg_ok (reg no_agents) (next_chan no_agents)) as H0 by (by apply reachable_ok).
  assert (listed no_agents) as Hl.
  { assert (forall n id, ~ holds no_agents n id) as Hno
      by (intros n id [Hn|[ch Hn]]; cbn [no_agents conns] in Hn; by apply lookup_empty_Some in Hn).
    split; [intros n1 n2 id Hn; by apply Hno in Hn|]. intros id. cbn [no_agents reg NewAgentRegistry agents].
    rewrite lookup_empty. split; [by intros []|]. intros [n Hn]. by apply Hno in Hn. }
  revert H0 Hl. induction Hr as [c|c c' c'' Hs _ IH]; [done|]. intros H0 Hl. apply IH.
  - by apply (step_ok c); [apply Hs|].
  - by apply (fresh_step_listed c).
Qed.

(** C26: In every reachable state, whatever the order in which connections,
    filters and timers come, no channel is closed twice and nothing is sent on a
    closed one. As long as no two live connections have the same agent ID, the
    agents of the registry are exactly those with a live connection. But when an agent has
    reconnected before its old connection ended, the end of the old one removes
    the new one's entry: the agent goes on sending, is not listed, its batches
    are not counted, and no filter reaches it. *)
Theorem agents_listed :
  (forall c id f, rtc step no_agents c ->
     (exists r, unregister id (reg c) = Ok r) /\ (exists r b, SendFilter id f (reg c) = Ok (r, b))) /\
  (forall c id, rtc fresh_step no_agents c -> (is_Some (agents (reg c) !! id) <-> live c id)) /\
  (forall c n1 n2 id ch1 ch2, rtc step no_agents c -> n1 <> n2 ->
     conns c !! n1 = Some (Running id ch1) -> conns c !! n2 = Some (Running id ch2) ->
     exists c', step c c' /\ conns c' !! n2 = Some (Running id ch2) /\ agents (reg c') !! id = None /\
       (forall f, SendFilter id f (reg c') = Ok (reg c', false)) /\
       (forall p b d now, update id p b d now (reg c') = reg c')).
Proof.
  split_and!.
  - intros c id f Hr. apply reachable_ok in Hr. split.
    + destruct (unregister_ok id _ _ Hr) as (r & ? & _). eauto.
    + destruct (SendFilter_ok id f _ _ Hr) as (r & b & ? & _). eauto.
  - intros c id Hr. destruct (reachable_listed c Hr) as [_ Hl]. rewrite Hl. unfold holds, live. naive_solver.
  - intros c n1 n2 id ch1 ch2 Hr Hne H1 H2. apply reachable_ok in Hr.
    destruct (unregister_ok id _ _ Hr) as (r & Hu & Hok & Ha).
    exists (with_conn n1 Closed (with_reg r c)). split; [by apply (step_end c n1 id ch1)|].
    cbn [with_conn with_reg conns reg]. rewrite lookup_insert_ne by done. split; [done|].
    assert (agents r !! id = None) as Hnone by by rewrite Ha, lookup_delete_eq.
    split; [done|]. split.
    + intros f. unfold SendFilter. assert (filterChans r !! id = None) as ->; [|done].
      apply not_elem_of_dom. rewrite <-(ok_dom _ _ Hok). by apply not_elem_of_dom.
    + intros p b d now. unfold update. rewrite Hnone. by destruct r.
Qed.

(** ** Examples *)

(** A codec and a compression that keep the laws: the bits of an injective
    encoding, and a marker before the bytes. *)
Fixpoint bits_of (p : positive) : list byte :=
  match p with xH => [x31] | xO p => x30 :: bits_of p | xI p => x31 :: bits_of p end.
Fixpoint of_bits (s : list byte) : option positive :=
  match s with
  | [] => None
  | [x] => Some xH
  | x :: s => (if bool_decide (x = x31) then xI else xO) <$> of_bits s
  end.

Lemma of_bits_bits p : of_bits (bits_of p) = Some p.
Proof.
  assert (forall p, exists x s, bits_of p = x :: s) as Hb by (intros []; cbn; eauto).
  induction p as [p IH|p IH|]; cbn [bits_of of_bits]; [| |done]; destruct (Hb p) as (x & s & E); rewrite E in *; by rewrite IH.
Qed.

Definition packet_tuple (p : RawPacketMsg) := (TimestampNs p, CaptureLength p, RLength p, LinkType p, u8 <$> Data p).
Definition batch_tuple (b : PacketBatch) := (B_AgentID b, SeqNum b, Drops b, packet_tuple <$> Packets b).
Definition tuple_batch '((id, n, d, ps) : string * Z * Z * list (Z * Z * Z * Z * list Z)) : PacketBatch :=
  {| B_AgentID := id; SeqNum := n; Drops := d;
     Packets := (fun '(t, c, l, k, s) => {| TimestampNs := t; CaptureLength := c; RLength := l; LinkType := k;
                                            Data := byte_of <$> s |}) <$> ps |}.

Definition ex_codec : Codec PacketBatch := {|
  marshal b := bits_of (encode (batch_tuple b));
  unmarshal s := p ← of_bits s; tuple_batch <$> decode p;
  encodable _ := True |}.
Definition ex_zlib : Zlib := {| deflate s := x78 :: s; inflate s := match s with _ :: s => Some s | [] => None end |}.

Lemma ex_codec_ok : @CodecOk PacketBatch ex_codec.
Proof.
  intros v _. cbn [unmarshal marshal ex_codec]. rewrite of_bits_bits. cbn [mbind option_bind].
  rewrite decode_encode. cbn [fmap option_fmap option_map]. f_equal. destruct v as [id n d ps].
  unfold batch_tuple. cbn [tuple_batch B_AgentID SeqNum Drops Packets]. f_equal. rewrite <-list_fmap_compose.
  rewrite <-(list_fmap_id ps) at 2. apply list_fmap_ext. intros i [t c l k s] _.
  cbn [compose packet_tuple TimestampNs CaptureLength RLength LinkType Data]. unfold compose. cbn. f_equal.
  rewrite <-list_fmap_compose. rewrite <-(list_fmap_id s) at 2. apply list_fmap_ext. intros. apply byte_of_u8.
Qed.
Lemma ex_zlib_ok : @ZlibOk ex_zlib.
Proof. done. Qed.

Definition ex_packet (n : Z) : RawPacketMsg :=
  {| TimestampNs := n; CaptureLength := 2; RLength := 60; LinkType := 1; Data := [x01; x02] |}.
Definition ex_events : list (agent_event * bool) :=
  [(Captured (ex_packet 1), true); (Captured (ex_packet 2), true); (Ticker, true); (Ticker, true); (Heartbeat, true);
   (Captured (ex_packet 3), true); (NewFilter "udp", true); (Captured (ex_packet 4), true)].
Definition ex_sent : list PacketBatch * turn := agent_run "a1" ex_events new_loop.

Example ex_sent_batches : (fun b => (SeqNum b, length (Packets b))) <$> fst ex_sent = [(0, 2%nat); (1, 0%nat); (2, 1%nat)].
Proof. reflexivity. Qed.

Lemma stream_end_to_end_witness :
  numbered "a1" 0 (fst ex_sent) /\
  exists k e, @receive PacketBatch ex_codec ex_zlib
      (S (length (mjoin (@write_batch PacketBatch ex_codec ex_zlib true <$> fst ex_sent)))) true
      (take 600 (mjoin (@write_batch PacketBatch ex_codec ex_zlib true <$> fst ex_sent))) = Ok (take k (fst ex_sent), e) /\
    (e = EEOF \/ e = EUnexpectedEOF).
Proof.
  destruct (@stream_end_to_end ex_codec ex_codec_ok ex_zlib ex_zlib_ok "a1" ex_events (fst ex_sent) (snd ex_sent) true 600)
    as (H1 & _ & _ & k & e & H2 & H3 & _).
  - reflexivity.
  - unfold sendable. repeat constructor; vm_compute; reflexivity.
  - vm_compute. lia.
  - split; [exact H1|]. exists k, e. split; [exact H2|exact H3].
Defined.

(** An agent that connects a second time before its first connection ended. *)
Definition ex_status (session : string) : AgentStatus :=
  {| AgentID := "a1"; Hostname := "h"; Interface := "eth0"; RemoteAddr := "10.0.0.1:40000"; S_SessionID := session;
     ConnectedAt := 1; LastBatchAt := 0; Stale := false; PacketsRx := 0; BytesRx := 0; BatchCount := 0;
     DroppedPkts := 0; CurrentFilter := "" |}.
Definition ex_connect (n : nat) (session : string) (c : central) : central :=
  {| reg := register (ex_status session) (next_chan c) (reg c);
     conns := <[n := Running "a1" (Some (next_chan c))]> (<[n := Registered "a1"]> (conns c)); next_chan := S (next_chan c) |}.

Lemma ex_connect_steps n session c : conns c !! n = None -> rtc step c (ex_connect n session c).
Proof.
  intros Hn. eapply rtc_l; [by apply (step_register c n (ex_status session))|]. eapply rtc_l; [|apply rtc_refl].
  set (c1 := {| reg := _ |}). assert (FilterCh "a1" (reg c1) = Some (next_chan c)) as Hf by apply lookup_insert_eq.
  change (ex_connect n session c) with (with_conn n (Running "a1" (Some (next_chan c))) c1). rewrite <-Hf.
  apply step_filter_ch. apply lookup_insert_eq.
Qed.

Definition ex_twice : central := ex_connect 1 "s2" (ex_connect 0 "s1" no_agents).
Lemma ex_twice_reachable : rtc step no_agents ex_twice.
Proof. etransitivity; by apply ex_connect_steps. Qed.

Example ex_twice_listed : S_SessionID <$> agents (reg ex_twice) !! "a1" = Some "s2".
Proof. reflexivity. Qed.

Lemma agents_listed_witness :
  (exists r, unregister "a1" (reg ex_twice) = Ok r) /\
  (is_Some (agents (reg no_agents) !! "a1") <-> live no_agents "a1") /\
  exists c', step ex_twice c' /\ conns c' !! 1%nat = Some (Running "a1" (Some 1%nat)) /\ agents (reg c') !! "a1" = None.
Proof.
  destruct agents_listed as (H1 & H2 & H3). split_and!.
  - destruct (H1 ex_twice "a1" "udp" ex_twice_reachable) as [Hu _]. exact Hu.
  - apply H2. apply rtc_refl.
  - destruct (H3 ex_twice 0%nat 1%nat "a1" (Some 0%nat) (Some 1%nat)) as (c' & Hs & Hc & Ha & _);
      [exact ex_twice_reachable|lia|reflexivity|reflexivity|].
    exists c'. split_and!; [exact Hs|exact Hc|exact Ha].
Defined.
