(* ===== verification/Pipeline.v ===== *)
(** * internal/pipeline: flow-affine decoding on a pool of workers

    hasher.go, worker.go and pool.go, with WorkerAssembler.FeedPacket of
    internal/reassembly/assembler.go and the run of
    internal/execution/pcap_pipeline.go. The workers are goroutines with a
    bounded channel each: a pool is a step relation, and the theorems hold for
    every interleaving. gopacket's reassembler is a parameter: what it does is
    to call the stream factory and the streams, which are those of Framer.v. *)
From S2P Require Import GoNet.
From S2P Require Export Decoders.
From S2P Require Export Framer.

(** ** hasher.go *)

Definition FlowHash (srcIP dstIP : string) (srcPort dstPort : Z) : Z :=
  let '(ip1, ip2, p1, p2) :=
    if String.ltb dstIP srcIP || (String.eqb srcIP dstIP && (dstPort <? srcPort)) then
      (dstIP, srcIP, dstPort, srcPort)
    else (srcIP, dstIP, srcPort, dstPort) in
  fnv32a (ip_bytes ip1 ++ ip_bytes ip2 ++ be_put 2 p1 ++ be_put 2 p2).

(** The remainder by a zero [uint32] panics. *)
Definition Route (srcIP dstIP : string) (srcPort dstPort workerCount : Z) : res Z :=
  if u32 workerCount =? 0 then Panic
  else Ok (FlowHash srcIP dstIP srcPort dstPort mod u32 workerCount).

(** ** worker.go *)

Definition portToProtocol (port : Z) : string :=
  if bool_decide (port ∈ [5060; 5061]) then "SIP"
  else if bool_decide (port ∈ [80; 8080; 8000; 8888; 3000]) then "HTTP"
  else if bool_decide (port ∈ [443; 8443]) then "HTTPS"
  else if bool_decide (port ∈ [993; 995; 465; 636]) then "TLS"
  else if port =? 3868 then "Diameter"
  else "".

Definition annotateByPort (pkt : Packet) : Packet :=
  if negb (String.eqb (AppProtocol pkt) "") then pkt
  else if negb (String.eqb (portToProtocol (DstPort pkt)) "") then
    set_app (portToProtocol (DstPort pkt)) (Summary pkt) pkt
  else if negb (String.eqb (portToProtocol (SrcPort pkt)) "") then
    set_app (portToProtocol (SrcPort pkt)) (Summary pkt) pkt
  else pkt.

(** The packet OnMessage makes of a reassembled message. *)
Definition synthetic (m : Message) : Packet :=
  {| Timestamp := m_ts m; SrcIP := m_srcIP m; DstIP := m_dstIP m; SrcPort := m_srcPort m;
     DstPort := m_dstPort m; Protocol := "TCP"; Payload := m_payload m; FrameNumber := 0;
     Length := 0; AppProtocol := ""; Summary := ""; Metadata := ∅; Errors := [];
     RawPacket := []; TCPSeq := 0; TCPAck := 0; TCPFlags := 0; Reassembled := true;
     TTL := 0; IPID := 0 |}.

(** What FeedPacket hands to gopacket: the flow and the TCP layer. *)
Record segment := {
  sg_src : list byte; sg_dst : list byte; sg_srcPort : Z; sg_dstPort : Z;
  sg_seq : Z; sg_ack : Z;
  sg_SYN : bool; sg_FIN : bool; sg_RST : bool; sg_PSH : bool; sg_ACK : bool;
  sg_payload : list byte; sg_ts : time;
}.

(** What gopacket calls back: New, ReassembledSG and ReassemblyComplete, for
    the stream it numbers. *)
Inductive asm_event :=
  | EvNew (id : nat) (srcIP dstIP : string) (srcPort dstPort : Z)
  | EvData (id : nat) (sg : ScatterGather) (ts : time)
  | EvComplete (id : nat).

(** gopacket's assembler, and the clock for packets without a timestamp. *)
Class Assembler : Type := {
  asm : Type;
  NewAssembler : asm;
  AssembleWithContext : asm -> segment -> asm * list asm_event;
  AssemblerFlushAll : asm -> asm * list asm_event;
  time_now : Packet -> time;
}.

Section worker.
Context `{Unicode} `{Assembler} {D : Type} `{ProtocolDecoder D}.

Record DecodeWorker := {
  w_decoders : D;
  w_assembler : option asm;
  w_streams : gmap nat (option tcpStream);
}.

Definition NewDecodeWorker : DecodeWorker :=
  {| w_decoders := new_decoder; w_assembler := None; w_streams := ∅ |}.
Definition NewDecodeWorkerWithAssembler : DecodeWorker :=
  {| w_decoders := new_decoder; w_assembler := Some NewAssembler; w_streams := ∅ |}.

(** The OnMessage callback, for each message in turn. *)
Definition on_messages (d : D) (ms : list Message) : res D :=
  foldM (fun d m => '(d, _) ← handle d (synthetic m); Ok d) d ms.

Definition run_event (st : D * gmap nat (option tcpStream)) (e : asm_event) :
    res (D * gmap nat (option tcpStream)) :=
  let '(d, streams) := st in
  match e with
  | EvNew id srcIP dstIP srcPort dstPort =>
    Ok (d, <[id := StreamFactory_New true srcIP dstIP srcPort dstPort]> streams)
  | EvData id sg ts =>
    match streams !! id with
    | Some (Some s) =>
      '(ms, s) ← ReassembledSG s sg ts;
      d ← on_messages d ms;
      Ok (d, <[id := Some s]> streams)
    | _ => Ok (d, streams)
    end
  | EvComplete id =>
    match streams !! id with
    | Some (Some s) =>
      let '(ms, s) := ReassemblyComplete s in
      d ← on_messages d ms;
      Ok (d, <[id := Some s]> streams)
    | _ => Ok (d, streams)
    end
  end.

Definition run_events (w : DecodeWorker) (a : asm) (es : list asm_event) : res DecodeWorker :=
  '(d, streams) ← foldM run_event (w_decoders w, w_streams w) es;
  Ok {| w_decoders := d; w_assembler := Some a; w_streams := streams |}.

Definition to_segment (src dst : list byte) (pkt : Packet) : segment :=
  let bit m := negb (Z.land (TCPFlags pkt) m =? 0) in
  {| sg_src := src; sg_dst := dst; sg_srcPort := SrcPort pkt; sg_dstPort := DstPort pkt;
     sg_seq := TCPSeq pkt; sg_ack := TCPAck pkt; sg_SYN := bit 0x02; sg_FIN := bit 0x01;
     sg_RST := bit 0x04; sg_PSH := bit 0x08; sg_ACK := bit 0x10; sg_payload := Payload pkt;
     sg_ts := if Timestamp pkt =? 0 then time_now pkt else Timestamp pkt |}.

Definition FeedPacket (w : DecodeWorker) (a : asm) (pkt : Packet) : res DecodeWorker :=
  match ParseIP (SrcIP pkt), ParseIP (DstIP pkt) with
  | Some src, Some dst =>
    let '(a, es) := AssembleWithContext a (to_segment src dst pkt) in
    run_events w a es
  | _, _ => Ok w
  end.

(** One turn of the loop of Run, up to the onPacket callback. *)
Definition work (w : DecodeWorker) (pkt : Packet) : res (DecodeWorker * Packet) :=
  '(d, pkt) ← handle (w_decoders w) pkt;
  let w := {| w_decoders := d; w_assembler := w_assembler w; w_streams := w_streams w |} in
  match w_assembler w with
  | Some a =>
    if String.eqb (Protocol pkt) "TCP" && ShouldReassemble pkt then
      let pkt := annotateByPort pkt in
      w ← FeedPacket w a pkt;
      Ok (w, pkt)
    else Ok (w, pkt)
  | None => Ok (w, pkt)
  end.

(** What Run does when its channel is closed and drained. *)
Definition drained (w : DecodeWorker) : res DecodeWorker :=
  match w_assembler w with
  | Some a => let '(a, es) := AssemblerFlushAll a in run_events w a es
  | None => Ok w
  end.

End worker.
Arguments DecodeWorker {_} D.

(** ** pool.go: the pool as a step relation

    [W] is the state of a worker, [work] a turn of its loop, [drained] its end.
    A step is the reader submitting a packet (it blocks while the channel is
    full), the reader closing the channels, a worker taking a packet and
    passing it to the onPacket callback, or a worker leaving its loop. A turn
    that panics or does not come back has no step. *)
Record worker (W : Type) := {
  ch : list Packet;
  w_state : W;
  w_done : bool;
}.
Arguments ch {W} _.
Arguments w_state {W} _.
Arguments w_done {W} _.
Arguments Build_worker {W} _ _ _.

Record Pool (W : Type) := {
  input : list Packet;
  workers : list (worker W);
  closed : bool;
  packets : list Packet;
}.
Arguments input {W} _.
Arguments workers {W} _.
Arguments closed {W} _.
Arguments packets {W} _.
Arguments Build_Pool {W} _ _ _ _.

(** The pool size and channel size of NewPoolWithOptions. *)
Definition pool_size (n numCPU : Z) : Z :=
  if n <=? 0 then if 8 <? numCPU then 8 else numCPU else n.
Definition buffer_size (bufSize : Z) : Z := if bufSize <=? 0 then 4096 else bufSize.

Section pool.
Context {W : Type} (work : W -> Packet -> res (W * Packet)) (drained : W -> res W).
Context (bufSize : Z).

Definition NewPool (n : nat) (w : W) (pkts : list Packet) : Pool W :=
  {| input := pkts; workers := replicate n {| ch := []; w_state := w; w_done := false |};
     closed := false; packets := [] |}.

Definition pkt_route (n : nat) (pkt : Packet) : res Z :=
  Route (SrcIP pkt) (DstIP pkt) (SrcPort pkt) (DstPort pkt) (Z.of_nat n).

Inductive pool_step (p : Pool W) : Pool W -> Prop :=
  | step_submit pkt rest i w :
    input p = pkt :: rest -> pkt_route (length (workers p)) pkt = Ok (Z.of_nat i) ->
    workers p !! i = Some w -> zlen (ch w) < bufSize ->
    pool_step p {| input := rest;
      workers := <[i := {| ch := ch w ++ [pkt]; w_state := w_state w; w_done := w_done w |}]> (workers p);
      closed := closed p; packets := packets p |}
  | step_close :
    input p = [] -> closed p = false ->
    pool_step p {| input := []; workers := workers p; closed := true; packets := packets p |}
  | step_work i w pkt rest s' pkt' :
    workers p !! i = Some w -> ch w = pkt :: rest -> work (w_state w) pkt = Ok (s', pkt') ->
    pool_step p {| input := input p;
      workers := <[i := {| ch := rest; w_state := s'; w_done := w_done w |}]> (workers p);
      closed := closed p; packets := packets p ++ [pkt'] |}
  | step_done i w s' :
    workers p !! i = Some w -> closed p = true -> ch w = [] -> w_done w = false ->
    drained (w_state w) = Ok s' ->
    pool_step p {| input := input p;
      workers := <[i := {| ch := []; w_state := s'; w_done := true |}]> (workers p);
      closed := closed p; packets := packets p |}.

(** Wait returns: every worker has left its loop. *)
Definition finished (p : Pool W) : Prop := Forall (fun w => w_done w = true) (workers p).

(** ** The sequential reference: one worker on the packets routed to it *)

Definition routed (n : nat) (i : nat) (pkts : list Packet) : list Packet :=
  filter (fun pkt => pkt_route n pkt = Ok (Z.of_nat i)) pkts.

Definition work_one (st : W * list Packet) (pkt : Packet) : res (W * list Packet) :=
  '(w, out) ← work (fst st) pkt; Ok (w, snd st ++ [out]).
Definition work_all (w : W) (pkts : list Packet) : res (W * list Packet) :=
  foldM work_one (w, []) pkts.

End pool.

(** ** Routing *)

Definition pool_size_ok (n : nat) : Prop := (0 < n)%nat /\ Z.of_nat n < 2 ^ 32.

Lemma Route_ok s d sp dp n : pool_size_ok n ->
  Route s d sp dp (Z.of_nat n) = Ok (FlowHash s d sp dp mod Z.of_nat n) /\
  0 <= FlowHash s d sp dp mod Z.of_nat n < Z.of_nat n.
Proof.
  intros [Hn Hlt]. unfold Route, u32. rewrite wrap_small by lia.
  replace (Z.of_nat n =? 0) with false by lia. split; [done|]. apply Z.mod_pos_bound. lia.
Qed.

Lemma pkt_route_ok n pkt : pool_size_ok n ->
  exists i, pkt_route n pkt = Ok (Z.of_nat i) /\ (i < n)%nat.
Proof.
  intros Hn. unfold pkt_route.
  destruct (Route_ok (SrcIP pkt) (DstIP pkt) (SrcPort pkt) (DstPort pkt) n Hn) as [-> ?].
  exists (Z.to_nat (FlowHash (SrcIP pkt) (DstIP pkt) (SrcPort pkt) (DstPort pkt) mod Z.of_nat n)).
  split; [f_equal|]; lia.
Qed.

(** Both directions of a conversation hash alike. *)
Lemma FlowHash_swap s d sp dp : FlowHash d s dp sp = FlowHash s d sp dp.
Proof.
  unfold FlowHash. destruct (decide (s = d)) as [<-|Hne].
  - rewrite ltb_irrefl, String.eqb_refl. cbn [orb andb].
    destruct (Z.ltb_spec sp dp), (Z.ltb_spec dp sp); try done; try lia.
    by replace dp with sp by lia.
  - assert (String.eqb s d = false) as -> by by apply String.eqb_neq.
    assert (String.eqb d s = false) as -> by (apply String.eqb_neq; congruence).
    cbn [andb]. rewrite !orb_false_r. destruct (String.ltb s d) eqn:E.
    + by rewrite (ltb_flip _ _ E).
    + by rewrite (ltb_total _ _ E).
Qed.

(** The hash of a packet with ports is a function of its flow key. *)
Lemma FlowHash_key pkt :
  is_icmp (Protocol pkt) = false ->
  let k := fst (pkt_key pkt) in
  FlowHash (SrcIP pkt) (DstIP pkt) (SrcPort pkt) (DstPort pkt)
  = FlowHash (k_SrcIP k) (k_DstIP k) (k_SrcPort k) (k_DstPort k).
Proof.
  intros Hp. pose proof (makeKey_endpoints (SrcIP pkt) (DstIP pkt) (SrcPort pkt) (DstPort pkt)
    (Protocol pkt) Hp) as H. unfold pkt_key. destruct (makeKey _ _ _ _ _) as [k rev]. cbn.
  destruct H as [_ H]. destruct rev; injection H as -> -> -> ->; [apply FlowHash_swap|done].
Qed.

(** ** Every schedule computes the same *)

Lemma mjoin_insert_snoc {A} (ls : list (list A)) i l x :
  ls !! i = Some l -> mjoin (<[i := l ++ [x]]> ls) ≡ₚ mjoin ls ++ [x].
Proof.
  revert i. induction ls as [|k ls IH]; intros [|i]; cbn; try done.
  - intros [= ->]. rewrite <-!app_assoc. apply Permutation_app_head, Permutation_app_comm.
  - intros H. rewrite IH by done. by rewrite app_assoc.
Qed.

Section pool_theory.
Context {W : Type} (work : W -> Packet -> res (W * Packet)) (drained : W -> res W).
Context (bufSize : Z).
Implicit Types (p q : Pool W).

Lemma work_all_snoc w pkts pkt s out s' pkt' :
  work_all work w pkts = Ok (s, out) -> work s pkt = Ok (s', pkt') ->
  work_all work w (pkts ++ [pkt]) = Ok (s', out ++ [pkt']).
Proof.
  intros E E'. unfold work_all in *. rewrite foldM_app, E. cbn [mbind res_bind foldM].
  unfold work_one. cbn [fst snd]. by rewrite E'.
Qed.

(** Worker [i] in state [w] has handled the packets [h] of its share, with the
    results [out]. *)
Definition served (w0 : W) (n : nat) (capture : list Packet) p (i : nat) (w : worker W)
    (out : list Packet) : Prop :=
  exists h s, routed n i capture = h ++ ch w ++ routed n i (input p) /\
    work_all work w0 h = Ok (s, out) /\
    if w_done w then closed p = true /\ ch w = [] /\ drained s = Ok (w_state w) else w_state w = s.

Record pool_inv (w0 : W) (n : nat) (capture : list Packet) p : Prop := {
  inv_size : length (workers p) = n;
  inv_closed : closed p = true -> input p = [];
  inv_served : exists outs, length outs = n /\ packets p ≡ₚ mjoin outs /\
    forall i w out, workers p !! i = Some w -> outs !! i = Some out -> served w0 n capture p i w out;
}.

Lemma routed_cons n i pkt pkts :
  routed n i (pkt :: pkts) =
  if decide (pkt_route n pkt = Ok (Z.of_nat i)) then pkt :: routed n i pkts else routed n i pkts.
Proof. unfold routed. rewrite filter_cons. by case_decide. Qed.

Lemma inv_new w0 n capture : pool_inv w0 n capture (NewPool n w0 capture).
Proof.
  split; [apply length_replicate|done|]. exists (replicate n []).
  split; [apply length_replicate|]. split.
  - assert (mjoin (replicate n (@nil Packet)) = []) as ->; [|done]. by induction n.
  - intros i w out Hw Ho. apply lookup_replicate in Hw as [-> _]. apply lookup_replicate in Ho as [-> _].
    by exists [], w0.
Qed.

Lemma inv_submit w0 n capture p pkt rest i w :
  pool_inv w0 n capture p -> input p = pkt :: rest ->
  pkt_route (length (workers p)) pkt = Ok (Z.of_nat i) -> workers p !! i = Some w ->
  pool_inv w0 n capture {| input := rest;
    workers := <[i := {| ch := ch w ++ [pkt]; w_state := w_state w; w_done := w_done w |}]> (workers p);
    closed := closed p; packets := packets p |}.
Proof.
  intros [Hn Hc (outs & Ho & Hp & Hs)] Hin Hr Hw. rewrite Hn in Hr.
  assert (closed p = false) as Hopen.
  { destruct (closed p); [|done]. by rewrite Hc in Hin. }
  split; cbn [workers closed input packets].
  - by rewrite length_insert.
  - by rewrite Hopen.
  - exists outs. split; [done|]. split; [done|]. intros j v out Hv Hout.
    unfold served. cbn [input closed].
    destruct (decide (j = i)) as [->|Hne].
    + rewrite list_lookup_insert_eq in Hv by by eapply lookup_lt_Some. injection Hv as <-. cbn.
      destruct (Hs i w out Hw Hout) as (h & s & E & Ew & Ed).
      rewrite Hin, routed_cons, decide_True in E by done. exists h, s.
      split; [by rewrite E, <-!app_assoc|]. split; [done|].
      destruct (w_done w); [|done]. destruct Ed as [Ed _]. congruence.
    + rewrite list_lookup_insert_ne in Hv by done.
      destruct (Hs j v out Hv Hout) as (h & s & E & Ew & Ed). exists h, s.
      rewrite Hin, routed_cons, decide_False in E; [done|].
      rewrite Hr. intros [= Heq]. lia.
Qed.

Lemma inv_work w0 n capture p i w pkt rest s' pkt' :
  pool_inv w0 n capture p -> workers p !! i = Some w -> ch w = pkt :: rest ->
  work (w_state w) pkt = Ok (s', pkt') ->
  pool_inv w0 n capture {| input := input p;
    workers := <[i := {| ch := rest; w_state := s'; w_done := w_done w |}]> (workers p);
    closed := closed p; packets := packets p ++ [pkt'] |}.
Proof.
  intros [Hn Hc (outs & Ho & Hp & Hs)] Hw Hch Hwork.
  pose proof (lookup_lt_Some _ _ _ Hw) as Hi.
  destruct (lookup_lt_is_Some_2 outs i) as [out Hout]; [lia|].
  split; cbn [workers closed input packets]; [by rewrite length_insert|done|].
  exists (<[i := out ++ [pkt']]> outs). split; [by rewrite length_insert|]. split.
  { rewrite (mjoin_insert_snoc _ _ _ _ Hout). by rewrite Hp. }
  intros j v o Hv Hvo. unfold served. cbn [input closed]. destruct (decide (j = i)) as [->|Hne].
  - rewrite list_lookup_insert_eq in Hv by done. rewrite list_lookup_insert_eq in Hvo by lia.
    injection Hv as <-. injection Hvo as <-. cbn.
    destruct (Hs i w out Hw Hout) as (h & s & E & Ew & Ed). rewrite Hch in E, Ed.
    destruct (w_done w); [by destruct Ed as (_ & ? & _)|]. subst s.
    exists (h ++ [pkt]), s'. split; [by rewrite E, <-!app_assoc|].
    split; [by eapply work_all_snoc|done].
  - rewrite list_lookup_insert_ne in Hv by done; rewrite list_lookup_insert_ne in Hvo by done. by apply Hs.
Qed.

Lemma inv_done w0 n capture p i w s' :
  pool_inv w0 n capture p -> workers p !! i = Some w -> closed p = true -> ch w = [] ->
  w_done w = false -> drained (w_state w) = Ok s' ->
  pool_inv w0 n capture {| input := input p;
    workers := <[i := {| ch := []; w_state := s'; w_done := true |}]> (workers p);
    closed := closed p; packets := packets p |}.
Proof.
  intros [Hn Hc (outs & Ho & Hp & Hs)] Hw Hcl Hch Hd Hdr.
  pose proof (lookup_lt_Some _ _ _ Hw) as Hi.
  split; cbn [workers closed input packets]; [by rewrite length_insert|done|].
  exists outs. split; [done|]. split; [done|]. intros j v o Hv Hvo. unfold served. cbn [input closed].
  destruct (decide (j = i)) as [->|Hne].
  - rewrite list_lookup_insert_eq in Hv by done. injection Hv as <-. cbn.
    destruct (Hs i w o Hw Hvo) as (h & s & E & Ew & Ed). rewrite Hch, Hd in *. subst s.
    by exists h, (w_state w).
  - rewrite list_lookup_insert_ne in Hv by done. by apply Hs.
Qed.

Lemma inv_step w0 n capture p q :
  pool_inv w0 n capture p -> pool_step work drained bufSize p q -> pool_inv w0 n capture q.
Proof.
  intros Hinv [pkt rest i w Hin Hr Hw _|Hin Hc|i w pkt rest s' pkt' Hw Hch Hwork|i w s' Hw Hc Hch Hd Hdr].
  - by apply inv_submit.
  - destruct Hinv as [Hn _ (outs & Ho & Hp & Hs)]. split; [done..|]. exists outs.
    split; [done|]. split; [done|]. intros i w out Hw Hout.
    destruct (Hs i w out Hw Hout) as (h & s & E & Ew & Ed). exists h, s. rewrite Hin in E.
    split; [done|]. split; [done|]. destruct (w_done w); [|done]. by destruct Ed.
  - by eapply inv_work.
  - by apply inv_done with w.
Qed.

Lemma inv_rtc w0 n capture p q :
  pool_inv w0 n capture p -> rtc (pool_step work drained bufSize) p q -> pool_inv w0 n capture q.
Proof. intros Hp Hr. induction Hr; eauto using inv_step. Qed.
End pool_theory.

(** ** Every schedule ends, and after the same number of steps *)

Definition worker_meas {W} (w : worker W) : nat :=
  (length (ch w) + if w_done w then 0 else 1)%nat.
Definition pool_meas {W} (p : Pool W) : nat :=
  (2 * length (input p) + (if closed p then 0 else 1) + sum_list_with worker_meas (workers p))%nat.

Lemma sum_list_with_insert {A} (f : A -> nat) l i x y :
  l !! i = Some x -> (sum_list_with f (<[i := y]> l) + f x = sum_list_with f l + f y)%nat.
Proof.
  revert i. induction l as [|z l IH]; intros [|i]; cbn; try done; [intros [= ->]; lia|].
  intros H. specialize (IH i H).
  change (f z + sum_list_with f (<[i := y]> l) + f x = f z + sum_list_with f l + f y)%nat. lia.
Qed.

Lemma sum_list_with_zero {A} (f : A -> nat) l :
  sum_list_with f l = 0%nat <-> Forall (fun x => f x = 0%nat) l.
Proof.
  induction l as [|x l IH]; cbn; [by split|]. rewrite Forall_cons, <-IH. lia.
Qed.

Section progress.
Context {W : Type} (work : W -> Packet -> res (W * Packet)) (drained : W -> res W).
Context (bufSize : Z) (Hbuf : 0 < bufSize).
Context (Hwork : forall w pkt, returns (work w pkt) (fun _ => True)).
Context (Hdrained : forall w, returns (drained w) (fun _ => True)).

Lemma step_meas p q : pool_step work drained bufSize p q -> pool_meas p = S (pool_meas q).
Proof.
  unfold pool_meas.
  intros [pkt rest i w Hin Hr Hw _|Hin Hc|i w pkt rest s' pkt' Hw Hch _|i w s' Hw Hc Hch Hd _];
    cbn [input closed workers].
  - pose proof (sum_list_with_insert worker_meas _ _ _
      {| ch := ch w ++ [pkt]; w_state := w_state w; w_done := w_done w |} Hw) as H.
    unfold worker_meas in H at 2 4. cbn [ch w_done] in H. rewrite length_app in H.
    rewrite Hin. cbn [length] in *. destruct (closed p), (w_done w); lia.
  - rewrite Hin, Hc. cbn. lia.
  - pose proof (sum_list_with_insert worker_meas _ _ _
      {| ch := rest; w_state := s'; w_done := w_done w |} Hw) as H.
    unfold worker_meas in H at 2 4. rewrite Hch in H. cbn [ch w_done length] in H.
    destruct (closed p), (w_done w); lia.
  - pose proof (sum_list_with_insert worker_meas _ _ _
      {| ch := []; w_state := s'; w_done := true |} Hw) as H.
    unfold worker_meas in H at 2 4. rewrite Hch, Hd in H. cbn [ch w_done length] in H.
    destruct (closed p); lia.
Qed.

Lemma nsteps_meas k p q :
  nsteps (pool_step work drained bufSize) k p q -> pool_meas p = (k + pool_meas q)%nat.
Proof. induction 1 as [|k p q r Hs _ IH]; [done|]. rewrite (step_meas _ _ Hs), IH. done. Qed.

Lemma pool_can_step w0 n capture p :
  pool_size_ok n -> pool_inv work drained w0 n capture p ->
  finished p \/ exists q, pool_step work drained bufSize p q.
Proof.
  intros Hn [Hlen Hcl _].
  destruct (decide (Forall (fun w => ch w = []) (workers p))) as [Hempty|Hbusy].
  - destruct (input p) as [|pkt rest] eqn:Hin.
    + destruct (closed p) eqn:Hc; [|right; eexists; by apply step_close].
      destruct (decide (Forall (fun w => w_done w = true) (workers p))) as [|Hnd]; [by left|right].
      apply not_Forall_Exists in Hnd; [|apply _]. apply Exists_exists in Hnd as (w & Hw & Hd).
      apply list_elem_of_lookup in Hw as [i Hw].
      destruct (returns_inv _ _ (Hdrained (w_state w))) as (s' & Hs & _).
      eexists. apply (step_done _ _ _ _ i w s'); [done|done| |by apply not_true_is_false|done].
      rewrite Forall_lookup in Hempty. by eapply Hempty.
    + right. destruct (pkt_route_ok (length (workers p)) pkt) as (i & Hr & Hi); [by rewrite Hlen|].
      destruct (lookup_lt_is_Some_2 _ _ Hi) as [w Hw].
      eexists. eapply step_submit; [done..|]. rewrite Forall_lookup in Hempty.
      by rewrite (Hempty _ _ Hw), zlen_nil.
  - right. apply not_Forall_Exists in Hbusy; [|apply _].
    apply Exists_exists in Hbusy as (w & Hw & Hch). apply list_elem_of_lookup in Hw as [i Hw].
    destruct (ch w) as [|pkt rest] eqn:E; [done|].
    destruct (returns_inv _ _ (Hwork (w_state w) pkt)) as ([s' pkt'] & Hs & _).
    eexists. by apply (step_work _ _ _ _ i w pkt rest s' pkt').
Qed.

Lemma finished_meas w0 n capture p :
  (0 < n)%nat -> pool_inv work drained w0 n capture p -> finished p <-> pool_meas p = O.
Proof.
  intros Hn [Hlen Hcl (outs & Ho & _ & Hs)]. unfold finished, pool_meas. split.
  - intros Hf. rewrite Forall_lookup in Hf.
    assert (forall i w, workers p !! i = Some w -> closed p = true /\ worker_meas w = O) as Hall.
    { intros i w Hw. pose proof (lookup_lt_Some _ _ _ Hw).
      destruct (lookup_lt_is_Some_2 outs i) as [out Hout]; [lia|].
      destruct (Hs i w out Hw Hout) as (h & s & _ & _ & Hd). unfold worker_meas.
      rewrite (Hf i w Hw) in *. destruct Hd as (Hc & -> & _). done. }
    destruct (lookup_lt_is_Some_2 (workers p) 0) as [w Hw]; [lia|].
    destruct (Hall 0%nat w Hw) as [Hc _]. rewrite (Hcl Hc), Hc. cbn.
    apply sum_list_with_zero, Forall_lookup. intros i v Hv. by apply Hall with i.
  - intros Hm. assert (sum_list_with worker_meas (workers p) = 0%nat) as H0 by lia.
    apply sum_list_with_zero in H0. eapply Forall_impl; [exact H0|]. intros w Hw.
    unfold worker_meas in Hw. cbv beta in Hw. destruct (w_done w); [done|lia].
Qed.
End progress.

(** ** The flow tracker in a worker *)

Lemma tracker_annotated t p p' : annotated p p' -> Tracker.HandlePacket t p' = Tracker.HandlePacket t p.
Proof. by intros (app & sum & errs & ->). Qed.

Section tracker.
Context `{Unicode} `{Assembler} {A B : Type}.
Context `{HA : ProtocolDecoder A} `{LA : !DecoderLaws A} `{HB : ProtocolDecoder B} `{LB : !DecoderLaws B}.

(** The decoders of a worker: some before the tracker, some after it. *)
Notation decoders := (A * (Tracker * B))%type.
Definition tracker_of (d : decoders) : Tracker := fst (snd d).
Definition worker_tracker (w : DecodeWorker decoders) : Tracker := tracker_of (w_decoders w).

Lemma handle_tracker (d : decoders) p d' p' :
  handle d p = Ok (d', p') ->
  tracker_of d' = Tracker.HandlePacket (tracker_of d) p /\ annotated p p'.
Proof.
  intros E. split; [|exact (handle_annotates _ _ _ _ E)].
  destruct d as [a [t b]]. cbn in E.
  apply bind_Ok in E as ([a' q] & E1 & E). apply bind_Ok in E as ([[t' b'] r] & E2 & [= <- <-]).
  apply bind_Ok in E2 as ([b1 r1] & _ & [= <- <- <-]). cbn.
  apply tracker_annotated. exact (handle_annotates _ _ _ _ E1).
Qed.

Lemma on_messages_tracker (d : decoders) ms d' :
  on_messages d ms = Ok d' -> tracker_of d' = tracker_of d.
Proof.
  revert d. induction ms as [|m ms IH]; intros d; cbn [on_messages foldM]; [by intros [= ->]|].
  intros (d1 & E & E')%bind_Ok. apply bind_Ok in E as ([d2 q] & E & [= <-]).
  rewrite (IH d2 E'). apply handle_tracker in E as [-> _]. apply HandlePacket_skip, andb_false_r.
Qed.

Lemma run_event_tracker (st : decoders * gmap nat (option tcpStream)) e st' :
  run_event st e = Ok st' -> tracker_of (fst st') = tracker_of (fst st).
Proof.
  destruct st as [d streams]. unfold run_event. destruct e as [id s dst sp dp|id sg ts|id].
  - by intros [= <-].
  - destruct (streams !! id) as [[s|]|]; try by intros [= <-].
    intros ([ms s'] & _ & E)%bind_Ok. apply bind_Ok in E as (d' & E & [= <-]).
    by apply on_messages_tracker in E.
  - destruct (streams !! id) as [[s|]|]; try by intros [= <-].
    destruct (ReassemblyComplete s) as [ms s']. intros (d' & E & [= <-])%bind_Ok.
    by apply on_messages_tracker in E.
Qed.

Lemma run_events_tracker (w : DecodeWorker decoders) a es w' :
  run_events w a es = Ok w' -> worker_tracker w' = worker_tracker w.
Proof.
  unfold run_events, worker_tracker. intros ([d streams] & E & [= <-])%bind_Ok. cbn.
  change (w_decoders w) with (fst (w_decoders w, w_streams w)).
  change d with (fst (d, streams)). revert E. generalize (w_decoders w, w_streams w) as st.
  generalize (d, streams) as st'. induction es as [|e es IH]; intros st' st; [by intros [= ->]|].
  cbn [foldM]. intros (st1 & E1 & E2)%bind_Ok. rewrite (IH _ _ E2). by eapply run_event_tracker.
Qed.

Lemma work_tracker (w : DecodeWorker decoders) p w' p' :
  work w p = Ok (w', p') -> worker_tracker w' = Tracker.HandlePacket (worker_tracker w) p.
Proof.
  unfold work. intros ([d q] & E & E')%bind_Ok. apply handle_tracker in E as [Ht _].
  cbn [w_assembler] in E'. unfold worker_tracker. rewrite <-Ht.
  destruct (w_assembler w) as [a|]; [|by injection E' as <- <-].
  destruct (_ && _); [|by injection E' as <- <-].
  apply bind_Ok in E' as (w1 & E' & [= <- <-]). unfold FeedPacket in E'.
  destruct (ParseIP _) as [src|]; [|by injection E' as <-].
  destruct (ParseIP _) as [dst|]; [|by injection E' as <-].
  destruct (AssembleWithContext a _) as [a' es].
  change (tracker_of (w_decoders w1)) with (worker_tracker w1).
  by rewrite (run_events_tracker _ _ _ _ E').
Qed.

Lemma drained_tracker (w : DecodeWorker decoders) w' :
  drained w = Ok w' -> worker_tracker w' = worker_tracker w.
Proof.
  unfold drained. destruct (w_assembler w) as [a|]; [|by intros [= <-]].
  destruct (AssemblerFlushAll a) as [a' es]. apply run_events_tracker.
Qed.

Lemma work_all_tracker (w : DecodeWorker decoders) pkts w' out :
  work_all work w pkts = Ok (w', out) -> worker_tracker w' = run (worker_tracker w) pkts.
Proof.
  unfold work_all. generalize (@nil Packet) as acc. revert w.
  induction pkts as [|p pkts IH]; intros w acc; [by intros [= -> ->]|].
  cbn [foldM]. intros ([w1 o1] & E1 & E2)%bind_Ok. rewrite (IH _ _ E2). cbn [run foldl]. f_equal.
  unfold work_one in E1. apply bind_Ok in E1 as ([w2 q] & E1 & [= <- <-]).
  by eapply work_tracker.
Qed.

(** The share of a flow that a worker sees: all of it or nothing. *)
Definition key_route (n : nat) (k : flowKey) : res Z :=
  Route (k_SrcIP k) (k_DstIP k) (k_SrcPort k) (k_DstPort k) (Z.of_nat n).

Lemma of_flow_route n k p :
  is_icmp (k_Protocol k) = false -> of_flow k p = true -> pkt_route n p = key_route n k.
Proof.
  unfold of_flow. intros Hk [_ Hp%bool_decide_eq_true]%andb_true_iff.
  assert (Protocol p = k_Protocol k) as Hproto.
  { rewrite <-Hp. unfold pkt_key, makeKey. by repeat case_match. }
  unfold pkt_route, key_route, Route. rewrite FlowHash_key by by rewrite Hproto. by rewrite Hp.
Qed.

Lemma flow_of_routed n i k capture :
  is_icmp (k_Protocol k) = false ->
  flow_of k (routed n i capture) =
  if decide (key_route n k = Ok (Z.of_nat i)) then flow_of k capture else None.
Proof.
  intros Hk. unfold flow_of. assert (filter (fun p => of_flow k p) (routed n i capture) =
    if decide (key_route n k = Ok (Z.of_nat i)) then filter (fun p => of_flow k p) capture else [])
    as ->; [|by case_decide].
  induction capture as [|p capture IH]; [by case_decide|].
  rewrite routed_cons, (filter_cons (fun p => Is_true (of_flow k p)) p capture).
  destruct (of_flow k p) eqn:Ep.
  - rewrite (of_flow_route n k p Hk Ep). case_decide; [|done].
    rewrite filter_cons, Ep, !decide_True by done. by rewrite IH.
  - rewrite (decide_False (P := Is_true false)) by by intros []. rewrite <-IH.
    destruct (decide (pkt_route n p = _)); [|done].
    rewrite filter_cons, Ep. by rewrite (decide_False (P := Is_true false)) by by intros [].
Qed.
End tracker.

(** ** Schedules, executable *)

Inductive choice := CSubmit | CClose | CWork (i : nat) | CDone (i : nat).

Section exec.
Context {W : Type} (work : W -> Packet -> res (W * Packet)) (drained : W -> res W).
Context (bufSize : Z).

(** The step a schedule chooses, when it can be made. *)
Definition pool_exec (p : Pool W) (c : choice) : option (Pool W) :=
  match c with
  | CSubmit =>
    match input p with
    | pkt :: rest =>
      match pkt_route (length (workers p)) pkt with
      | Ok z =>
        let i := Z.to_nat z in
        match workers p !! i with
        | Some w =>
          if (0 <=? z) && (zlen (ch w) <? bufSize) then
            Some {| input := rest;
              workers := <[i := {| ch := ch w ++ [pkt]; w_state := w_state w; w_done := w_done w |}]> (workers p);
              closed := closed p; packets := packets p |}
          else None
        | None => None
        end
      | _ => None
      end
    | [] => None
    end
  | CClose =>
    match input p, closed p with
    | [], false => Some {| input := []; workers := workers p; closed := true; packets := packets p |}
    | _, _ => None
    end
  | CWork i =>
    match workers p !! i with
    | Some w =>
      match ch w with
      | pkt :: rest =>
        match work (w_state w) pkt with
        | Ok (s', pkt') =>
          Some {| input := input p;
            workers := <[i := {| ch := rest; w_state := s'; w_done := w_done w |}]> (workers p);
            closed := closed p; packets := packets p ++ [pkt'] |}
        | _ => None
        end
      | [] => None
      end
    | None => None
    end
  | CDone i =>
    match workers p !! i with
    | Some w =>
      match closed p, ch w, w_done w, drained (w_state w) with
      | true, [], false, Ok s' =>
        Some {| input := input p;
          workers := <[i := {| ch := []; w_state := s'; w_done := true |}]> (workers p);
          closed := true; packets := packets p |}
      | _, _, _, _ => None
      end
    | None => None
    end
  end.

Definition pool_schedule (p : Pool W) (cs : list choice) : option (Pool W) :=
  foldl (fun o c => o ≫= fun p => pool_exec p c) (Some p) cs.

Lemma pool_exec_step p c q : pool_exec p c = Some q -> pool_step work drained bufSize p q.
Proof.
  destruct c as [| |i|i]; cbn [pool_exec].
  - destruct (input p) as [|pkt rest] eqn:Hin; [done|].
    destruct (pkt_route _ pkt) as [z| |] eqn:Hr; [|done..].
    destruct (workers p !! Z.to_nat z) as [w|] eqn:Hw; [|done].
    destruct (_ && _) eqn:E; [|done]. intros [= <-].
    apply (step_submit _ _ _ _ pkt rest (Z.to_nat z) w); [done| |done|lia]. rewrite Hr. f_equal. lia.
  - destruct (input p) eqn:Hin; [|done]. destruct (closed p) eqn:Hc; [done|]. intros [= <-].
    by apply step_close.
  - destruct (workers p !! i) as [w|] eqn:Hw; [|done]. destruct (ch w) as [|pkt rest] eqn:Hch; [done|].
    destruct (work (w_state w) pkt) as [[s' pkt']| |] eqn:E; [|done..]. intros [= <-].
    by apply (step_work _ _ _ _ i w pkt rest s' pkt').
  - destruct (workers p !! i) as [w|] eqn:Hw; [|done]. destruct (closed p) eqn:Hc; [|done].
    destruct (ch w) eqn:Hch; [|done]. destruct (w_done w) eqn:Hd; [done|].
    destruct (drained (w_state w)) as [s'| |] eqn:E; [|done..]. intros [= <-].
    pose proof (step_done work drained bufSize p i w s' Hw Hc Hch Hd E) as Hs. by rewrite Hc in Hs.
Qed.

Lemma pool_schedule_rtc p cs q :
  pool_schedule p cs = Some q -> rtc (pool_step work drained bufSize) p q.
Proof.
  unfold pool_schedule. revert p. induction cs as [|c cs IH]; intros p; cbn; [by intros [= ->]|].
  destruct (pool_exec p c) as [p1|] eqn:E.
  - intros H. eapply rtc_l; [by eapply pool_exec_step|by apply IH].
  - intros H. exfalso. clear -H. induction cs as [|c cs IH]; [done|by apply IH].
Qed.
End exec.

(** ** Properties *)

(** A finished pool has done what one worker per share would. *)
Lemma pool_served {W} (work : W -> Packet -> res (W * Packet)) drained bufSize n w0 capture p :
  (0 < n)%nat -> rtc (pool_step work drained bufSize) (NewPool n w0 capture) p -> finished p ->
  input p = [] /\ length (workers p) = n /\
  exists outs, length outs = n /\ packets p ≡ₚ mjoin outs /\
    forall i w out, workers p !! i = Some w -> outs !! i = Some out ->
      exists s, work_all work w0 (routed n i capture) = Ok (s, out) /\ drained s = Ok (w_state w).
Proof.
  intros Hn Hr Hf. pose proof (inv_rtc work drained bufSize w0 n capture _ _ (inv_new _ _ _ _ _) Hr) as Hi.
  pose proof (proj1 (finished_meas work drained w0 n capture p Hn Hi) Hf) as Hm.
  assert (input p = []) as Hin by (apply length_zero_iff_nil; unfold pool_meas in Hm; lia).
  destruct Hi as [Hlen _ (outs & Ho & Hp & Hs)]. split; [done|]. split; [done|].
  exists outs. split; [done|]. split; [done|]. intros i w out Hw Hout.
  destruct (Hs i w out Hw Hout) as (h & s & E & Ew & Ed). exists s.
  unfold finished in Hf. rewrite Forall_lookup in Hf. rewrite (Hf i w Hw) in Ed.
  destruct Ed as (_ & Hch & Hdr). rewrite Hin, Hch in E. cbn in E. rewrite app_nil_r in E. by rewrite E.
Qed.

(** C27: the pool computes what one worker per share would. However the reader
    and the workers interleave and whatever their channel size, when every
    worker has left its loop the whole capture is consumed and each worker is
    in the state, and has passed on the packets, that it reaches by handling
    the packets routed to it one after the other in capture order. *)
Theorem pool_deterministic {W} (work : W -> Packet -> res (W * Packet)) drained bufSize n w0 capture p :
  (0 < n)%nat -> rtc (pool_step work drained bufSize) (NewPool n w0 capture) p -> finished p ->
  input p = [] /\ length (workers p) = n /\
  exists outs, length outs = n /\ packets p ≡ₚ mjoin outs /\
    forall i w out, workers p !! i = Some w -> outs !! i = Some out ->
      exists s, work_all work w0 (routed n i capture) = Ok (s, out) /\ drained s = Ok (w_state w).
Proof. apply pool_served. Qed.

(** C28: the pool never deadlocks and always ends. With at least one worker, a
    channel of positive size and decoders that return, in every reachable
    state either all workers have left their loops or some step can be made,
    and every run is over after exactly two steps per packet, one for closing
    and one per worker. *)
Theorem pool_terminates {W} (work : W -> Packet -> res (W * Packet)) drained bufSize n w0 capture k p :
  pool_size_ok n -> 0 < bufSize ->
  (forall w pkt, returns (work w pkt) (fun _ => True)) ->
  (forall w, returns (drained w) (fun _ => True)) ->
  nsteps (pool_step work drained bufSize) k (NewPool n w0 capture) p ->
  (finished p \/ exists q, pool_step work drained bufSize p q) /\
  (k <= 2 * length capture + 1 + n)%nat /\
  (finished p <-> k = (2 * length capture + 1 + n)%nat).
Proof.
  intros Hn Hb Hw Hd Hk. assert (rtc (pool_step work drained bufSize) (NewPool n w0 capture) p) as Hr by (apply rtc_nsteps; by exists k).
  pose proof (inv_rtc work drained bufSize w0 n capture _ _ (inv_new _ _ _ _ _) Hr) as Hi.
  pose proof (nsteps_meas work drained bufSize k _ _ Hk) as Hm.
  assert (pool_meas (NewPool n w0 capture) = (2 * length capture + 1 + n)%nat) as H0.
  { unfold pool_meas, NewPool. cbn [input closed workers].
    assert (sum_list_with worker_meas (replicate n {| ch := []; w_state := w0; w_done := false |}) = n)
      as ->; [|lia]. clear. induction n as [|n IH]; [done|]. cbn. by rewrite IH. }
  pose proof (finished_meas work drained w0 n capture p ltac:(destruct Hn; lia) Hi) as Hf.
  split; [by eapply pool_can_step|]. split; [lia|]. rewrite Hf. lia.
Qed.

(** C29: the pool loses and splits no flow with ports. When a pool of workers,
    each with a flow tracker among its decoders (any decoders before it that
    keep the decoder law, any after it, with or without reassembly), is done,
    the tracker of a worker holds for a key exactly what a single tracker over
    the whole capture would, if the key is routed to that worker, and nothing
    otherwise. ICMP keys, which leave out the ports the routing hashes, only
    get the packets routed to the worker. *)
Theorem pool_flows_exact `{Unicode} `{Assembler} {A B} `{HA : ProtocolDecoder A} `{!DecoderLaws A}
    `{HB : ProtocolDecoder B} `{!DecoderLaws B} bufSize n (w0 : DecodeWorker (A * (Tracker * B)))
    capture p i w k :
  (0 < n)%nat -> worker_tracker w0 = NewTracker ->
  rtc (pool_step work drained bufSize) (NewPool n w0 capture) p -> finished p ->
  workers p !! i = Some w ->
  worker_tracker (w_state w) !! k =
    if is_icmp (k_Protocol k) then flow_of k (routed n i capture)
    else if decide (key_route n k = Ok (Z.of_nat i)) then run NewTracker capture !! k else None.
Proof.
  intros Hn Hnew Hr Hf Hw.
  pose proof (inv_rtc work drained bufSize w0 n capture _ _ (inv_new _ _ _ _ _) Hr) as [Hlen Hcl (outs & Ho & _ & Hs)].
  pose proof (lookup_lt_Some _ _ _ Hw). destruct (lookup_lt_is_Some_2 outs i) as [out Hout]; [lia|].
  destruct (Hs i w out Hw Hout) as (h & s & E & Ew & Ed).
  unfold finished in Hf. rewrite Forall_lookup in Hf. rewrite (Hf i w Hw) in Ed.
  destruct Ed as (Hc & Hch & Hdr). rewrite Hch, (Hcl Hc) in E. cbn in E. rewrite app_nil_r in E.
  apply work_all_tracker in Ew. apply drained_tracker in Hdr.
  rewrite Hdr, Ew, Hnew, <-E, !run_flow_of. destruct (is_icmp (k_Protocol k)) eqn:Hk; [done|].
  by rewrite flow_of_routed.
Qed.

(** A ping is split between workers. An ICMPv6 echo request and its reply
    are one flow for the tracker, but on every even number of workers, for any
    two addresses, they are routed to different workers, because the hash
    takes the ICMP type for a port. *)
Theorem icmpv6_echo_split n req rep :
  pool_size_ok n -> Nat.Even n -> SrcIP req <> DstIP req ->
  Protocol req = "ICMPv6" -> Protocol rep = "ICMPv6" ->
  (SrcIP rep, DstIP rep) = (DstIP req, SrcIP req) ->
  (SrcPort req, DstPort req) = (128, 0) -> (SrcPort rep, DstPort rep) = (129, 0) ->
  fst (pkt_key req) = fst (pkt_key rep) /\ pkt_route n req <> pkt_route n rep.
Proof.
  intros Hn [m Hm] Hne Hp1 Hp2 [= Es Ed] [= E1 E2] [= E3 E4]. split.
  { unfold pkt_key. rewrite Hp1, Hp2, Es, Ed, E1, E2, E3, E4. unfold makeKey. cbn [is_icmp String.eqb Ascii.eqb Bool.eqb orb].
    destruct (String.ltb (SrcIP req) (DstIP req)) eqn:El.
    - by rewrite (ltb_flip _ _ El).
    - by rewrite (ltb_total _ _ El Hne). }
  unfold pkt_route. rewrite Es, Ed, E1, E2, E3, E4.
  destruct (Route_ok (SrcIP req) (DstIP req) 128 0 n Hn) as [-> _].
  destruct (Route_ok (DstIP req) (SrcIP req) 129 0 n Hn) as [-> _].
  intros [= E]. apply (f_equal Z.odd) in E.
  assert (forall z, Z.odd (z mod Z.of_nat n) = Z.odd z) as Hodd.
  { intros z. rewrite (Z.div_mod z (Z.of_nat n)) at 2 by (destruct Hn; lia).
    rewrite Z.odd_add, Z.odd_mul. replace (Z.odd (Z.of_nat n)) with false; [by destruct (Z.odd (z mod _))|].
    rewrite Hm, Nat2Z.inj_mul, Z.odd_mul. done. }
  rewrite !Hodd in E. unfold FlowHash in E.
  assert (String.eqb (SrcIP req) (DstIP req) = false) as En by by apply String.eqb_neq.
  assert (String.eqb (DstIP req) (SrcIP req) = false) as En' by (apply String.eqb_neq; congruence).
  rewrite En, En', !orb_false_r in E.
  destruct (String.ltb (SrcIP req) (DstIP req)) eqn:El.
  - rewrite (ltb_flip _ _ El) in E. rewrite !fnv32a_odd, !parity_app in E.
    revert E. generalize (ip_bytes (SrcIP req)), (ip_bytes (DstIP req)). intros s t.
    change (parity (parity true (be_put 2 0)) (be_put 2 128)) with true.
    change (parity (parity true (be_put 2 129)) (be_put 2 0)) with false.
    change true with (xorb true false) at 1. rewrite !parity_xorb.
    by destruct (parity (parity false t) s).
  - rewrite (ltb_total _ _ El Hne) in E. rewrite !fnv32a_odd, !parity_app in E.
    revert E. generalize (ip_bytes (SrcIP req)), (ip_bytes (DstIP req)). intros s t.
    change (parity (parity true (be_put 2 128)) (be_put 2 0)) with true.
    change (parity (parity true (be_put 2 0)) (be_put 2 129)) with false.
    change true with (xorb true false) at 1. rewrite !parity_xorb.
    by destruct (parity (parity false s) t).
Qed.

(** *** A pool of two workers on a small capture *)

(** An assembler that never calls back. *)
Definition silent_assembler : Assembler :=
  {| asm := unit; NewAssembler := tt; AssembleWithContext := fun a _ => (a, []);
     AssemblerFlushAll := fun a => (a, []); time_now := fun _ => 1 |}.

Notation ex_worker := (@DecodeWorker silent_assembler (unit * (Tracker * unit))).
Definition ex_work : ex_worker -> Packet -> res (ex_worker * Packet) :=
  @work ascii_only silent_assembler (unit * (Tracker * unit)) _.
Definition ex_drained : ex_worker -> res ex_worker :=
  @drained ascii_only silent_assembler (unit * (Tracker * unit)) _.
Definition ex_worker0 : ex_worker := @NewDecodeWorkerWithAssembler silent_assembler _ _.

Definition ex_packets : list Packet :=
  [mk_packet 5 "10.0.0.1" "10.0.0.2" 40000 9999 "UDP" [];
   mk_packet 6 "10.0.0.2" "10.0.0.1" 9999 40000 "UDP" []].
Definition ex_flow : flowKey :=
  {| k_SrcIP := "10.0.0.1"; k_DstIP := "10.0.0.2"; k_SrcPort := 40000; k_DstPort := 9999;
     k_Protocol := "UDP" |}.

Definition ex_route : nat := 0.
Definition ex_choices : list choice :=
  [CSubmit; CWork ex_route; CSubmit; CWork ex_route; CClose; CDone 1; CDone 0].

Definition ex_new_pool : Pool ex_worker := NewPool 2 ex_worker0 ex_packets.
Definition ex_final : option (Pool ex_worker) :=
  pool_schedule ex_work ex_drained 1 ex_new_pool ex_choices.

Lemma ex_work_returns w pkt : returns (ex_work w pkt) (fun _ => True).
Proof.
  unfold ex_work, work. cbn -[String.eqb ShouldReassemble]. destruct (w_assembler w); [|done].
  destruct (_ && _); [|done]. unfold FeedPacket. cbn.
  destruct (ParseIP _); [|done]. by destruct (ParseIP _).
Qed.

Lemma ex_drained_returns w : returns (ex_drained w) (fun _ => True).
Proof. unfold ex_drained, drained. by destruct (w_assembler w). Qed.

Lemma ex_final_ok : exists p, ex_final = Some p /\
  rtc (pool_step ex_work ex_drained 1) ex_new_pool p /\ finished p /\ length (packets p) = 2%nat.
Proof.
  assert ((forallb (fun w => w_done w) <$> (workers <$> ex_final)) = Some true /\
    (length <$> (packets <$> ex_final)) = Some 2%nat) as [H1 H2] by (split; by vm_compute).
  destruct ex_final as [p|] eqn:E; [|done].
  injection H1 as H1. injection H2 as H2.
  exists p. split; [done|]. split; [by eapply pool_schedule_rtc|]. split; [|done].
  apply Forall_forall. intros w Hw. rewrite forallb_forall in H1. apply H1.
  by apply list_elem_of_In.
Qed.

Example pool_deterministic_witness :
  exists p s out, rtc (pool_step ex_work ex_drained 1) ex_new_pool p /\ finished p /\
    input p = [] /\ work_all ex_work ex_worker0 (routed 2 ex_route ex_packets) = Ok (s, out).
Proof.
  destruct ex_final_ok as (p & _ & Hr & Hf & _).
  destruct (pool_deterministic ex_work ex_drained 1 2 ex_worker0 ex_packets p ltac:(lia) Hr Hf)
    as (Hin & Hlen & outs & Ho & _ & Hs).
  destruct (lookup_lt_is_Some_2 (workers p) ex_route) as [w Hw]; [unfold ex_route; lia|].
  destruct (lookup_lt_is_Some_2 outs ex_route) as [out Hout]; [unfold ex_route; lia|].
  destruct (Hs ex_route w out Hw Hout) as (s & E & _).
  exists p, s, out. exact (conj Hr (conj Hf (conj Hin E))).
Defined.

Example pool_terminates_witness :
  finished ex_new_pool \/ exists q, pool_step ex_work ex_drained 1 ex_new_pool q.
Proof.
  apply (pool_terminates ex_work ex_drained 1 2 ex_worker0 ex_packets 0 ex_new_pool);
    [split; lia|done|apply ex_work_returns|apply ex_drained_returns|constructor].
Defined.

Example pool_flows_exact_witness :
  exists p w, workers p !! ex_route = Some w /\
    @worker_tracker silent_assembler unit unit (w_state w) !! ex_flow = run NewTracker ex_packets !! ex_flow.
Proof.
  destruct ex_final_ok as (p & _ & Hr & Hf & _).
  pose proof (inv_rtc ex_work ex_drained 1 ex_worker0 2 ex_packets _ _ (inv_new _ _ _ _ _) Hr) as [Hlen _ _].
  destruct (lookup_lt_is_Some_2 (workers p) ex_route) as [w Hw]; [rewrite Hlen; unfold ex_route; lia|].
  exists p, w. split; [exact Hw|].
  rewrite (@pool_flows_exact ascii_only silent_assembler unit unit _ _ _ _ 1 2 ex_worker0 ex_packets
    p ex_route w ex_flow (ltac:(lia)) eq_refl Hr Hf Hw).
  rewrite decide_True by by vm_compute. reflexivity.
Defined.

Definition ex_ping : Packet := mk_packet 1 "fe80::1" "fe80::2" 128 0 "ICMPv6" [].
Definition ex_pong : Packet := mk_packet 2 "fe80::2" "fe80::1" 129 0 "ICMPv6" [].

Example icmpv6_echo_split_witness :
  fst (pkt_key ex_ping) = fst (pkt_key ex_pong) /\ pkt_route 8 ex_ping <> pkt_route 8 ex_pong.
Proof.
  apply (icmpv6_echo_split 8 ex_ping ex_pong); [split; lia|by exists 4%nat|done..].
Defined.
