(* ===== verification/Reader.v ===== *)
(** * internal/pcap/reader.go and the packets of internal/capture/worker.go

    How the packets that all the decoders see come about: from a capture file
    (reader.go) and from a live source (extractPacketFromRaw of worker.go).
    gopacket, which decodes the layers and reads the records of a file, is a
    parameter; its layers are the data here. *)
From S2P Require Export Pipeline.

(** ** The layers of gopacket, with the fields the code reads *)

Record ipv4_layer := { ip4_SrcIP : list byte; ip4_DstIP : list byte; ip4_TTL : Z; ip4_Id : Z }.
Record ipv6_layer := { ip6_SrcIP : list byte; ip6_DstIP : list byte; ip6_HopLimit : Z }.
Inductive network_layer := IPv4 (ip : ipv4_layer) | IPv6 (ip : ipv6_layer) | OtherNetwork.

Record tcp_layer := {
  tcp_SrcPort : Z; tcp_DstPort : Z; tcp_Seq : Z; tcp_Ack : Z;
  tcp_SYN : bool; tcp_FIN : bool; tcp_RST : bool; tcp_PSH : bool; tcp_ACK : bool;
  tcp_payload : list byte;
}.
(** UDP and SCTP. *)
Record port_layer := { pl_SrcPort : Z; pl_DstPort : Z; pl_payload : list byte }.
Record icmp_layer := { TypeCode : Z; icmp_payload : list byte }.
Inductive transport_layer := TransportTCP (t : tcp_layer) | TransportUDP (t : port_layer) | OtherTransport.

Record gopacket := {
  NetworkLayer : option network_layer;
  TransportLayer : option transport_layer;
  LayerSCTP : option port_layer;
  LayerICMPv4 : option icmp_layer;
  LayerICMPv6 : option icmp_layer;
  Meta_Timestamp : time;
  g_Data : list byte;
}.

(** ** What both ends make of the layers *)

Definition tcpFlagsFromLayer (t : tcp_layer) : Z :=
  let f := if tcp_SYN t then Z.lor 0 0x02 else 0 in
  let f := if tcp_FIN t then Z.lor f 0x01 else f in
  let f := if tcp_RST t then Z.lor f 0x04 else f in
  let f := if tcp_PSH t then Z.lor f 0x08 else f in
  if tcp_ACK t then Z.lor f 0x10 else f.

(** Source, destination, TTL and identification. *)
Definition addresses (net : network_layer) : option (string * string * Z * Z) :=
  match net with
  | IPv4 ip => Some (ip_string (ip4_SrcIP ip), ip_string (ip4_DstIP ip), ip4_TTL ip, ip4_Id ip)
  | IPv6 ip => Some (ip_string (ip6_SrcIP ip), ip_string (ip6_DstIP ip), ip6_HopLimit ip, 0)
  | OtherNetwork => None
  end.

(** Protocol, ports, payload, sequence and acknowledgement numbers and flags. *)
Record transport := {
  t_proto : string; t_SrcPort : Z; t_DstPort : Z; t_payload : list byte; t_seq : Z; t_ack : Z; t_flags : Z;
}.
Definition of_tcp (t : tcp_layer) : transport :=
  {| t_proto := "TCP"; t_SrcPort := tcp_SrcPort t; t_DstPort := tcp_DstPort t; t_payload := tcp_payload t;
     t_seq := tcp_Seq t; t_ack := tcp_Ack t; t_flags := tcpFlagsFromLayer t |}.
Definition of_ports (proto : string) (t : port_layer) : transport :=
  {| t_proto := proto; t_SrcPort := pl_SrcPort t; t_DstPort := pl_DstPort t; t_payload := pl_payload t;
     t_seq := 0; t_ack := 0; t_flags := 0 |}.
Definition of_icmp (proto : string) (t : icmp_layer) : transport :=
  {| t_proto := proto; t_SrcPort := u16 (Z.shiftr (TypeCode t) 8); t_DstPort := u16 (Z.land (TypeCode t) 0xFF);
     t_payload := icmp_payload t; t_seq := 0; t_ack := 0; t_flags := 0 |}.

Definition new_packet (ts : time) (ip : string * string * Z * Z) (t : transport) (frameNum : Z) (rawData : list byte) : Packet :=
  let '(src, dst, ttl, id) := ip in
  {| Timestamp := ts; SrcIP := src; DstIP := dst; SrcPort := t_SrcPort t; DstPort := t_DstPort t;
     Protocol := t_proto t; Payload := t_payload t; FrameNumber := frameNum; Length := zlen rawData;
     AppProtocol := ""; Summary := ""; Metadata := ∅; Errors := []; RawPacket := rawData; TCPSeq := t_seq t;
     TCPAck := t_ack t; TCPFlags := t_flags t; Reassembled := false; TTL := ttl; IPID := id |}.

(** ** reader.go: processPacket, up to the call of the handler *)

Definition file_transport (g : gopacket) : option transport :=
  match TransportLayer g with
  | Some (TransportTCP t) => Some (of_tcp t)
  | Some (TransportUDP t) => Some (of_ports "UDP" t)
  | Some OtherTransport => of_ports "SCTP" <$> LayerSCTP g
  | None =>
    match LayerICMPv4 g, LayerICMPv6 g with
    | Some t, _ => Some (of_icmp "ICMP" t)
    | None, Some t => Some (of_icmp "ICMPv6" t)
    | None, None => None
    end
  end.

Definition processPacket (g : gopacket) (frameNum : Z) (rawData : list byte) : option Packet :=
  net ← NetworkLayer g;
  ip ← addresses net;
  t ← file_transport g;
  Some (new_packet (Meta_Timestamp g) ip t frameNum rawData).

(** ** worker.go: extractPacketFromRaw, with its own copy of the flags *)

Definition tcpFlagsFromLayer_worker (t : tcp_layer) : Z :=
  let flags := 0 in
  let flags := if tcp_SYN t then Z.lor flags 0x02 else flags in
  let flags := if tcp_FIN t then Z.lor flags 0x01 else flags in
  let flags := if tcp_RST t then Z.lor flags 0x04 else flags in
  let flags := if tcp_PSH t then Z.lor flags 0x08 else flags in
  let flags := if tcp_ACK t then Z.lor flags 0x10 else flags in
  flags.

Definition worker_tcp (t : tcp_layer) : transport :=
  {| t_proto := "TCP"; t_SrcPort := tcp_SrcPort t; t_DstPort := tcp_DstPort t; t_payload := tcp_payload t;
     t_seq := tcp_Seq t; t_ack := tcp_Ack t; t_flags := tcpFlagsFromLayer_worker t |}.

Definition live_transport (g : gopacket) : option transport :=
  match TransportLayer g with
  | Some (TransportTCP t) => Some (worker_tcp t)
  | Some (TransportUDP t) => Some (of_ports "UDP" t)
  | _ => of_ports "SCTP" <$> LayerSCTP g
  end.

Definition extractPacketFromRaw (g : gopacket) (frameNum : Z) : option Packet :=
  net ← NetworkLayer g;
  ip ← addresses net;
  t ← live_transport g;
  Some (new_packet (Meta_Timestamp g) ip t frameNum (g_Data g)).

(** ** reader.go: the file *)

(** [binary.LittleEndian] and [binary.BigEndian] reads of four bytes. *)
Definition le (s : list byte) : Z := be (reverse s).

(** [detectPcapng]: [None] for a file that is too short. *)
Definition detectPcapng (file : list byte) : option bool :=
  if zlen file <? 4 then None else Some (le (take 4 file) =? 0x0A0D0D0A).

Definition linuxSLL2RawLinkType : Z := 276.

(** The link type, and what the reader that is opened next sees of the file:
    when the header is cut off, the position is not set back and the error is
    ignored. *)
Definition readRawPcapLinkType (file : list byte) : Z * list byte :=
  if zlen file <? 4 then (0, [])
  else
    let magic := le (take 4 file) in
    let order := if (magic =? 0xA1B2C3D4) || (magic =? 0xA1B23C4D) then le else be in
    if zlen file <? 24 then (0, []) else (order (take 4 (drop 20 file)), file).

(** gopacket: the packets of a pcapng file, decoded by its link type; the
    records of a pcap file up to its end, [None] where a read fails, and their
    decoding; and the decoding of an IPv4 or IPv6 packet. A file that cannot be
    opened gives the error. *)
Class Gopacket : Type := {
  ng_packets : list byte -> string + list gopacket;
  pcap_records : list byte -> string + list (option (list byte * time));
  pcap_packets : list byte -> string + list gopacket;
  NewPacket : bool -> list byte -> gopacket;
}.

Section reader.
Context `{Gopacket} {St : Type} (handler : St -> Packet -> St * option string).

(** [packet.Metadata().Timestamp = ts] *)
Definition with_timestamp (ts : time) (g : gopacket) : gopacket :=
  {| NetworkLayer := NetworkLayer g; TransportLayer := TransportLayer g; LayerSCTP := LayerSCTP g;
     LayerICMPv4 := LayerICMPv4 g; LayerICMPv6 := LayerICMPv6 g; Meta_Timestamp := ts; g_Data := g_Data g |}.

(** The handler is called for what processPacket makes of a packet; its error
    ends the loop. *)
Definition hand (st : St) (p : option Packet) : St * option string :=
  match p with Some p => handler st p | None => (st, None) end.

Fixpoint readFromSource (frameNum : Z) (source : list gopacket) (st : St) : St * option string :=
  match source with
  | [] => (st, None)
  | g :: source =>
    let frameNum := u64 (frameNum + 1) in
    match hand st (processPacket g frameNum (g_Data g)) with
    | (st, Some e) => (st, Some e)
    | (st, None) => readFromSource frameNum source st
    end
  end.

(** One record of a Linux cooked capture: the decoded packet inside it. *)
Definition sll2_inner (data : list byte) (ts : time) : option gopacket :=
  if zlen data <? 20 then None
  else
    let etype := be (take 2 data) in
    if etype =? 0x0800 then Some (with_timestamp ts (NewPacket false (drop 20 data)))
    else if etype =? 0x86DD then Some (with_timestamp ts (NewPacket true (drop 20 data)))
    else None.

Fixpoint readSLL2 (frameNum : Z) (records : list (option (list byte * time))) (st : St) : St * option string :=
  match records with
  | [] => (st, None)
  | None :: records => readSLL2 frameNum records st
  | Some (data, ts) :: records =>
    let frameNum := u64 (frameNum + 1) in
    match hand st (g ← sll2_inner data ts; processPacket g frameNum data) with
    | (st, Some e) => (st, Some e)
    | (st, None) => readSLL2 frameNum records st
    end
  end.

(** ReadPCAP of an opened file. *)
Definition ReadPCAP (file : list byte) (st : St) : St * option string :=
  match detectPcapng file with
  | None => (st, Some "failed to detect pcap format")
  | Some true =>
    match ng_packets file with
    | inl e => (st, Some e)
    | inr source => readFromSource 0 source st
    end
  | Some false =>
    let '(rawLinkType, file) := readRawPcapLinkType file in
    match pcap_records file with
    | inl e => (st, Some e)
    | inr records =>
      if rawLinkType =? linuxSLL2RawLinkType then readSLL2 0 records st
      else match pcap_packets file with
           | inl e => (st, Some e)
           | inr source => readFromSource 0 source st
           end
    end
  end.

End reader.

(** ** The packets of the two ends *)

(** gopacket makes an SCTP layer that it decodes the transport layer of its packet. *)
Definition sctp_is_transport (g : gopacket) : Prop := is_Some (LayerSCTP g) -> is_Some (TransportLayer g).

(** The two copies agree. *)
Lemma worker_flags t : tcpFlagsFromLayer_worker t = tcpFlagsFromLayer t.
Proof. done. Qed.

Lemma live_transport_file g : sctp_is_transport g ->
  live_transport g = t ← file_transport g; if is_icmp (t_proto t) then None else Some t.
Proof.
  unfold sctp_is_transport, live_transport, file_transport. destruct (TransportLayer g) as [[t|t|]|]; intros Hs; [|done| |].
  - unfold worker_tcp. by rewrite worker_flags.
  - by destruct (LayerSCTP g).
  - destruct (LayerSCTP g); [by destruct (Hs ltac:(eauto))|]. by destruct (LayerICMPv4 g), (LayerICMPv6 g).
Qed.

Definition flag_bits (t : tcp_layer) : list (Z * bool) :=
  [(0x02, tcp_SYN t); (0x01, tcp_FIN t); (0x04, tcp_RST t); (0x08, tcp_PSH t); (0x10, tcp_ACK t)].

Lemma tcpFlags_bits t m b : (m, b) ∈ flag_bits t -> negb (Z.land (tcpFlagsFromLayer t) m =? 0) = b.
Proof.
  unfold flag_bits, tcpFlagsFromLayer. rewrite !elem_of_cons, elem_of_nil.
  destruct (tcp_SYN t), (tcp_FIN t), (tcp_RST t), (tcp_PSH t), (tcp_ACK t); naive_solver.
Qed.

Record layer_ok (g : gopacket) : Prop := {
  lo_net : match NetworkLayer g with
           | Some (IPv4 ip) => 0 <= ip4_TTL ip < 2 ^ 8 /\ 0 <= ip4_Id ip < 2 ^ 16
           | Some (IPv6 ip) => 0 <= ip6_HopLimit ip < 2 ^ 8
           | _ => True
           end;
  lo_tcp : forall t, TransportLayer g = Some (TransportTCP t) -> 0 <= tcp_SrcPort t < 2 ^ 16 /\ 0 <= tcp_DstPort t < 2 ^ 16 /\
    0 <= tcp_Seq t < 2 ^ 32 /\ 0 <= tcp_Ack t < 2 ^ 32 /\ zlen (tcp_payload t) < 2 ^ 31;
  lo_ports : forall t, TransportLayer g = Some (TransportUDP t) \/ LayerSCTP g = Some t ->
    0 <= pl_SrcPort t < 2 ^ 16 /\ 0 <= pl_DstPort t < 2 ^ 16 /\ zlen (pl_payload t) < 2 ^ 31;
  lo_icmp : forall t, LayerICMPv4 g = Some t \/ LayerICMPv6 g = Some t -> 0 <= TypeCode t < 2 ^ 16 /\ zlen (icmp_payload t) < 2 ^ 31;
}.

Lemma tcpFlags_range t : 0 <= tcpFlagsFromLayer t < 2 ^ 16.
Proof. unfold tcpFlagsFromLayer. destruct (tcp_SYN t), (tcp_FIN t), (tcp_RST t), (tcp_PSH t), (tcp_ACK t); by cbn. Qed.

Definition transport_ok (t : transport) : Prop :=
  0 <= t_SrcPort t < 2 ^ 16 /\ 0 <= t_DstPort t < 2 ^ 16 /\ 0 <= t_seq t < 2 ^ 32 /\ 0 <= t_ack t < 2 ^ 32 /\
  0 <= t_flags t < 2 ^ 16 /\ zlen (t_payload t) < 2 ^ 31.

Lemma file_transport_ok g t : layer_ok g -> file_transport g = Some t -> transport_ok t.
Proof.
  intros [_ Htcp Hports Hicmp]. unfold file_transport, transport_ok.
  assert (forall proto l, LayerICMPv4 g = Some l \/ LayerICMPv6 g = Some l -> transport_ok (of_icmp proto l)) as Hi.
  { intros proto l [_ Hl]%Hicmp. unfold transport_ok, of_icmp, u16, wrap. cbn.
    pose proof (Z.mod_pos_bound (Z.shiftr (TypeCode l) 8) (2 ^ 16)). pose proof (Z.mod_pos_bound (Z.land (TypeCode l) 255) (2 ^ 16)).
    cbn in *. lia. }
  assert (forall proto l, TransportLayer g = Some (TransportUDP l) \/ LayerSCTP g = Some l -> transport_ok (of_ports proto l)) as Hp.
  { intros proto l (? & ? & ?)%Hports. unfold transport_ok. cbn in *. lia. }
  destruct (TransportLayer g) as [[l|l|]|] eqn:E.
  - intros [= <-]. destruct (Htcp l eq_refl) as (? & ? & ? & ? & ?). pose proof (tcpFlags_range l). cbn in *. lia.
  - intros [= <-]. apply (Hp "UDP"%string). by left.
  - destruct (LayerSCTP g) as [l|] eqn:El; [|done]. intros [= <-]. apply (Hp "SCTP"%string). by right.
  - destruct (LayerICMPv4 g) as [l|] eqn:E4; [intros [= <-]; apply Hi; by left|].
    destruct (LayerICMPv6 g) as [l|] eqn:E6; [intros [= <-]; apply Hi; by right|done].
Qed.

Lemma processPacket_ok g n raw p : layer_ok g -> 0 <= n < 2 ^ 64 -> processPacket g n raw = Some p -> packet_ok p.
Proof.
  intros Hg Hn. unfold processPacket. destruct (NetworkLayer g) as [net|] eqn:En; [|done]. cbn [mbind option_bind].
  destruct (addresses net) as [[[[src dst] ttl] id]|] eqn:Ea; [|done]. destruct (file_transport g) as [t|] eqn:Et; [|done].
  intros [= <-]. pose proof (file_transport_ok g t Hg Et) as (? & ? & ? & ? & ? & ?).
  pose proof (lo_net g Hg) as Hnet. rewrite En in Hnet.
  assert (0 <= ttl < 2 ^ 8 /\ 0 <= id < 2 ^ 16) as [? ?] by (destruct net; cbn in *; simplify_eq; cbn in *; lia).
  split; cbn [new_packet SrcPort DstPort FrameNumber TCPSeq TCPAck TCPFlags TTL IPID Payload]; lia.
Qed.

(** C30: A live capture makes of every packet what the reader of a capture file
    makes of it, field by field, except that it drops ICMP and ICMPv6, which the
    reader keeps: a live capture has no ICMP flow. What both make of a packet is within
    the widths of the fields, and the flags that the reassembler is given of a TCP
    packet are those of its header. *)
Theorem live_matches_file g n :
  sctp_is_transport g ->
  extractPacketFromRaw g n =
    (p ← processPacket g n (g_Data g); if is_icmp (Protocol p) then None else Some p) /\
  forall raw p, processPacket g n raw = Some p ->
    (layer_ok g -> 0 <= n < 2 ^ 64 -> packet_ok p) /\
    forall src dst t `{Assembler}, TransportLayer g = Some (TransportTCP t) ->
      let sg := to_segment src dst p in
      Protocol p = "TCP" /\ sg_SYN sg = tcp_SYN t /\ sg_FIN sg = tcp_FIN t /\ sg_RST sg = tcp_RST t /\
      sg_PSH sg = tcp_PSH t /\ sg_ACK sg = tcp_ACK t /\ sg_seq sg = tcp_Seq t /\ sg_payload sg = tcp_payload t.
Proof.
  intros Hs. split.
  - unfold extractPacketFromRaw, processPacket. rewrite live_transport_file by done.
    destruct (NetworkLayer g) as [net|]; [|done]. cbn [mbind option_bind].
    destruct (addresses net) as [[[[src dst] ttl] id]|]; [|done]. destruct (file_transport g) as [t|]; [|done].
    cbn [mbind option_bind new_packet Protocol]. by destruct (is_icmp (t_proto t)).
  - intros raw p Hp. split; [intros Hg Hn; by eapply processPacket_ok|]. intros src dst t a Ht. cbv zeta.
    revert Hp. unfold processPacket, file_transport. rewrite Ht. destruct (NetworkLayer g) as [net|]; [|done].
    cbn [mbind option_bind]. destruct (addresses net) as [[[[? ?] ?] ?]|]; [|done]. intros [= <-]. split; [done|].
    unfold to_segment. cbn [new_packet of_tcp sg_SYN sg_FIN sg_RST sg_PSH sg_ACK sg_seq sg_payload TCPFlags TCPSeq Payload
      t_flags t_seq t_payload]. cbv zeta. split_and!; try done; apply (tcpFlags_bits t); set_solver.
Qed.

(** ** The header of a capture file *)

(** The global header of a pcap file, in either byte order. *)
Definition pcap_header (little : bool) (magic major minor zone sigfigs snaplen linktype : Z) : list byte :=
  let put n z := if little then reverse (be_put n z) else be_put n z in
  put 4%nat magic ++ put 2%nat major ++ put 2%nat minor ++ put 4%nat zone ++ put 4%nat sigfigs ++ put 4%nat snaplen ++
  put 4%nat linktype.

Lemma le_reverse_put n z : 0 <= z < 256 ^ Z.of_nat n -> le (reverse (be_put n z)) = z.
Proof. intros Hz. unfold le. by rewrite reverse_involutive, be_be_put. Qed.

Definition pcap_magic (magic : Z) : Prop := magic = 0xA1B2C3D4 \/ magic = 0xA1B23C4D.

Lemma header_pieces (little : bool) magic major minor zone sigfigs snaplen linktype rest :
  let put := fun z => if little then reverse (be_put 4 z) else be_put 4 z in
  let file := pcap_header little magic major minor zone sigfigs snaplen linktype ++ rest in
  24 <= zlen file /\ take 4 file = put magic /\ take 4 (drop 20 file) = put linktype.
Proof.
  cbv zeta. unfold pcap_header. cbv zeta.
  set (p2 := fun z => if little then reverse (be_put 2 z) else be_put 2 z).
  set (p4 := fun z => if little then reverse (be_put 4 z) else be_put 4 z).
  change (24 <= zlen ((p4 magic ++ p2 major ++ p2 minor ++ p4 zone ++ p4 sigfigs ++ p4 snaplen ++ p4 linktype) ++ rest) /\
    take 4 ((p4 magic ++ p2 major ++ p2 minor ++ p4 zone ++ p4 sigfigs ++ p4 snaplen ++ p4 linktype) ++ rest) = p4 magic /\
    take 4 (drop 20 ((p4 magic ++ p2 major ++ p2 minor ++ p4 zone ++ p4 sigfigs ++ p4 snaplen ++ p4 linktype) ++ rest)) = p4 linktype).
  assert (forall z, length (p4 z) = 4%nat) as H4 by (intros z; unfold p4; destruct little; by rewrite ?length_reverse, length_be_put).
  assert (forall z, length (p2 z) = 2%nat) as H2 by (intros z; unfold p2; destruct little; by rewrite ?length_reverse, length_be_put).
  split; [|split].
  - unfold zlen. rewrite !length_app, !H4, !H2. lia.
  - rewrite <-!app_assoc. apply take_app_length'. by rewrite H4.
  - set (pre := p4 magic ++ p2 major ++ p2 minor ++ p4 zone ++ p4 sigfigs ++ p4 snaplen).
    replace ((p4 magic ++ p2 major ++ p2 minor ++ p4 zone ++ p4 sigfigs ++ p4 snaplen ++ p4 linktype) ++ rest)
      with (pre ++ p4 linktype ++ rest) by (unfold pre; by rewrite <-!app_assoc).
    rewrite drop_app_length' by (unfold pre; by rewrite !length_app, !H4, !H2). apply take_app_length'. by rewrite H4.
Qed.

Lemma header_read (little : bool) magic major minor zone sigfigs snaplen linktype rest :
  pcap_magic magic -> 0 <= linktype < 2 ^ 32 ->
  let file := pcap_header little magic major minor zone sigfigs snaplen linktype ++ rest in
  detectPcapng file = Some false /\ readRawPcapLinkType file = (linktype, file).
Proof.
  intros Hm Hl file. destruct (header_pieces (little : bool) magic major minor zone sigfigs snaplen linktype rest) as (Hlen & Ht & Hd).
  fold file in Hlen, Ht, Hd. unfold detectPcapng, readRawPcapLinkType.
  rewrite (proj2 (Z.ltb_ge _ 4)) by lia. rewrite (proj2 (Z.ltb_ge _ 24)) by lia. rewrite Ht, Hd.
  destruct little.
  - rewrite !le_reverse_put by (unfold pcap_magic in Hm; cbn in *; lia).
    unfold pcap_magic in Hm. destruct Hm as [-> | ->]; cbn [Z.eqb Pos.eqb orb]; by rewrite le_reverse_put by (cbn in *; lia).
  - assert (le (be_put 4 magic) = 0xD4C3B2A1 \/ le (be_put 4 magic) = 0x4D3CB2A1) as Hle
      by (destruct Hm as [-> | ->]; [left|right]; by vm_compute).
    split; [destruct Hle as [-> | ->]; done|].
    replace ((le (be_put 4 magic) =? 0xA1B2C3D4) || (le (be_put 4 magic) =? 0xA1B23C4D)) with false
      by (destruct Hle as [-> | ->]; done).
    by rewrite be_be_put by (cbn in *; lia).
Qed.

(** ** What the handler is called for *)

Section handled.
Context `{Gopacket} {St : Type} (step : St -> Packet -> St).

(** A handler that never fails, as that of pcap_pipeline.go. *)
Definition quiet (st : St) (p : Packet) : St * option string := (step st p, None).

Definition opt_list {A} (o : option A) : list A := from_option (fun x => [x]) [] o.

Lemma hand_quiet st p : hand quiet st p = (foldl step st (opt_list p), None).
Proof. by destruct p. Qed.

(** The packets of a file in order, each with its number. *)
Fixpoint source_packets (frameNum : Z) (source : list gopacket) : list Packet :=
  match source with
  | [] => []
  | g :: source => opt_list (processPacket g (u64 (frameNum + 1)) (g_Data g)) ++ source_packets (frameNum + 1) source
  end.

Lemma readFromSource_quiet n source st :
  readFromSource quiet (u64 n) source st = (foldl step st (source_packets n source), None).
Proof.
  revert n st. induction source as [|g source IH]; intros n st; [done|]. cbn [readFromSource source_packets].
  rewrite hand_quiet, foldl_app. unfold u64, wrap in *. rewrite Z.add_mod_idemp_l by done. apply IH.
Qed.

(** The records of a Linux cooked capture: those that hold IP, each with its number among
    the records that could be read. *)
Fixpoint sll2_packets (frameNum : Z) (records : list (list byte * time)) : list Packet :=
  match records with
  | [] => []
  | (data, ts) :: records =>
    opt_list (g ← sll2_inner data ts; processPacket g (u64 (frameNum + 1)) data) ++ sll2_packets (frameNum + 1) records
  end.

Lemma readSLL2_quiet n records st :
  readSLL2 quiet (u64 n) records st = (foldl step st (sll2_packets n (omap id records)), None).
Proof.
  revert n st. induction records as [|[[data ts]|] records IH]; intros n st; [done| |apply IH].
  cbn [readSLL2 omap list_omap id sll2_packets]. rewrite hand_quiet, foldl_app. unfold u64, wrap in *.
  rewrite Z.add_mod_idemp_l by done. apply IH.
Qed.

(** Of a pcap file in either byte order the link type is read whole. The
    records of a Linux cooked capture (link type 276) are given to the handler in
    order, each record that holds IPv4 or IPv6 as what it holds after its header
    of 20 bytes with the length of the record and its number among all records, and no other record;
    the packets of every other file in order with their numbers. *)
Theorem pcap_file_read (little : bool) magic major minor zone sigfigs snaplen linktype rest st :
  pcap_magic magic -> 0 <= linktype < 2 ^ 32 ->
  let file := pcap_header little magic major minor zone sigfigs snaplen linktype ++ rest in
  readRawPcapLinkType file = (linktype, file) /\
  (forall records, pcap_records file = inr records -> linktype = 276 ->
     ReadPCAP quiet file st = (foldl step st (sll2_packets 0 (omap id records)), None)) /\
  (forall records source, pcap_records file = inr records -> pcap_packets file = inr source -> linktype <> 276 ->
     ReadPCAP quiet file st = (foldl step st (source_packets 0 source), None)).
Proof.
  intros Hm Hl file. destruct (header_read little magic major minor zone sigfigs snaplen linktype rest Hm Hl) as [Hng Hlt].
  fold file in Hng, Hlt. split; [done|]. unfold ReadPCAP. rewrite Hng, Hlt. split.
  - intros records Hr ->. rewrite Hr. unfold linuxSLL2RawLinkType. cbn [Z.eqb Pos.eqb]. apply (readSLL2_quiet 0).
  - intros records source Hr Hp Hne. rewrite Hr. unfold linuxSLL2RawLinkType. rewrite (proj2 (Z.eqb_neq _ _)) by done.
    rewrite Hp. apply (readFromSource_quiet 0).
Qed.

(** A record of a cooked capture that holds IPv4 or IPv6. *)
Lemma sll2_record (v6 : bool) (reserved inner : list byte) ts : length reserved = 18%nat ->
  sll2_inner (be_put 2 (if v6 then 0x86DD else 0x0800) ++ reserved ++ inner) ts = Some (with_timestamp ts (NewPacket v6 inner)).
Proof.
  intros Hr. unfold sll2_inner. rewrite app_assoc.
  assert (length (be_put 2 (if v6 then 0x86DD else 0x0800) ++ reserved) = 20%nat) as Hl
    by by rewrite length_app, length_be_put, Hr.
  rewrite (proj2 (Z.ltb_ge _ 20)) by (unfold zlen; rewrite length_app, Hl; lia).
  rewrite drop_app_length' by done. rewrite take_app_le by lia. rewrite take_app_length' by by rewrite length_be_put.
  by destruct v6; vm_compute.
Qed.

(** *** Files of which the reader passes nothing on *)

(** A packet that is not IP, or IP without TCP, UDP, SCTP or ICMP. *)
Definition ignored (g : gopacket) : Prop :=
  match NetworkLayer g with
  | Some (IPv4 _) | Some (IPv6 _) =>
    match TransportLayer g with
    | None => LayerICMPv4 g = None /\ LayerICMPv6 g = None
    | Some OtherTransport => LayerSCTP g = None
    | _ => False
    end
  | _ => True
  end.

(** A record of a cooked capture: cut off in its header, of another protocol
    than IP, or IP that is ignored. *)
Inductive ignored_record : list byte -> Prop :=
  | cut_record data : zlen data < 20 -> ignored_record data
  | other_record protocol more : 0 <= protocol < 2 ^ 16 -> protocol ∉ [0x0800; 0x86DD] ->
      ignored_record (be_put 2 protocol ++ more)
  | ip_record (v6 : bool) reserved inner : length reserved = 18%nat -> ignored (NewPacket v6 inner) ->
      ignored_record (be_put 2 (if v6 then 0x86DD else 0x0800) ++ reserved ++ inner).

(** A pcapng file, a pcap file in either byte order, and a Linux cooked
    capture, with any number of packets or records. *)
Inductive ignored_file : list byte -> Prop :=
  | ignored_ng rest source : let file := octets [0x0A; 0x0D; 0x0D; 0x0A] ++ rest in
      ng_packets file = inr source -> Forall ignored source -> ignored_file file
  | ignored_pcap (little : bool) magic major minor zone sigfigs snaplen linktype rest records source :
      let file := pcap_header little magic major minor zone sigfigs snaplen linktype ++ rest in
      pcap_magic magic -> 0 <= linktype < 2 ^ 32 -> linktype <> 276 ->
      pcap_records file = inr records -> pcap_packets file = inr source -> Forall ignored source -> ignored_file file
  | ignored_sll2 (little : bool) magic major minor zone sigfigs snaplen rest records :
      let file := pcap_header little magic major minor zone sigfigs snaplen 276 ++ rest in
      pcap_magic magic -> pcap_records file = inr records ->
      Forall (fun record => ignored_record (fst record)) (omap id records) -> ignored_file file.

Lemma processPacket_ignored g n raw : ignored g -> processPacket g n raw = None.
Proof.
  unfold ignored, processPacket, file_transport.
  destruct (NetworkLayer g) as [[ip|ip|]|]; [| |done|done]; cbn [mbind option_bind addresses];
    destruct (TransportLayer g) as [[t|t|]|]; try done; try (by intros ->); by intros [-> ->].
Qed.

Lemma source_ignored k source : Forall ignored source -> source_packets k source = [].
Proof.
  intros Hs. revert k. induction Hs as [|g source Hg _ IH]; intros k; [done|]. cbn [source_packets].
  by rewrite processPacket_ignored, IH.
Qed.

Lemma sll2_ignored k records : Forall (fun record => ignored_record (fst record)) records -> sll2_packets k records = [].
Proof.
  intros Hs. revert k. induction Hs as [|[data ts] records Hr _ IH]; intros k; [done|]. cbn [sll2_packets fst] in *. rewrite IH, app_nil_r.
  assert ((g ← sll2_inner data ts; processPacket g (u64 (k + 1)) data) = None) as ->; [|done].
  destruct Hr as [data Hl|protocol more Hp Hn|v6 reserved inner Hl Hi].
  - unfold sll2_inner. by rewrite (proj2 (Z.ltb_lt _ 20)).
  - unfold sll2_inner. destruct (_ <? 20); [done|]. rewrite take_app_le by by rewrite length_be_put.
    rewrite take_ge by by rewrite length_be_put. rewrite be_be_put by (cbn in *; lia). rewrite !not_elem_of_cons in Hn. destruct Hn as (H1 & H2 & _).
    by rewrite !(proj2 (Z.eqb_neq protocol _)).
  - rewrite sll2_record by done. cbn [mbind option_bind]. by apply processPacket_ignored.
Qed.

Lemma ignored_read file st : ignored_file file -> ReadPCAP quiet file st = (st, None).
Proof.
  intros Hf. destruct Hf as [rest source file Hs Hi|little magic major minor zone sigfigs snaplen linktype rest records source file Hm Hl Hne Hr Hs Hi
                            |little magic major minor zone sigfigs snaplen rest records file Hm Hr Hi].
  - unfold ReadPCAP. assert (detectPcapng file = Some true) as ->.
    { unfold detectPcapng, file. rewrite zlen_app. change (zlen (octets _)) with 4. pose proof (zlen_nonneg rest).
      by rewrite (proj2 (Z.ltb_ge _ 4)) by lia. }
    rewrite Hs, (readFromSource_quiet 0). by rewrite source_ignored.
  - destruct (pcap_file_read little magic major minor zone sigfigs snaplen linktype rest st Hm Hl) as (_ & _ & H3).
    etransitivity; [exact (H3 _ _ Hr Hs Hne)|by rewrite source_ignored].
  - destruct (pcap_file_read little magic major minor zone sigfigs snaplen 276 rest st Hm ltac:(lia)) as (_ & H2 & _).
    etransitivity; [exact (H2 _ Hr eq_refl)|by rewrite sll2_ignored].
Qed.

End handled.

(** ** Examples *)

Definition ex_layers : gopacket :=
  {| NetworkLayer := Some (IPv4 {| ip4_SrcIP := octets [10;0;0;1]; ip4_DstIP := octets [10;0;0;2]; ip4_TTL := 64; ip4_Id := 7 |});
     TransportLayer := Some (TransportTCP {| tcp_SrcPort := 40000; tcp_DstPort := 443; tcp_Seq := 1; tcp_Ack := 0;
       tcp_SYN := true; tcp_FIN := false; tcp_RST := false; tcp_PSH := false; tcp_ACK := false; tcp_payload := [] |});
     LayerSCTP := None; LayerICMPv4 := None; LayerICMPv6 := None; Meta_Timestamp := 5; g_Data := octets [1;2;3] |}.
Definition ex_ping_layers : gopacket :=
  {| NetworkLayer := NetworkLayer ex_layers; TransportLayer := None; LayerSCTP := None;
     LayerICMPv4 := Some {| TypeCode := 0x0800; icmp_payload := [] |}; LayerICMPv6 := None; Meta_Timestamp := 6; g_Data := [] |}.

Example ex_reader_packets :
  (fun p => (Protocol p, SrcIP p, SrcPort p, TCPFlags p)) <$> source_packets 0 [ex_layers; ex_ping_layers] =
    [("TCP"%string, "10.0.0.1"%string, 40000, 2); ("ICMP"%string, "10.0.0.1"%string, 8, 0)] /\
  extractPacketFromRaw ex_ping_layers 1 = None.
Proof. by vm_compute. Qed.

Lemma live_matches_file_witness :
  sctp_is_transport ex_layers /\
  extractPacketFromRaw ex_layers 1 =
    (p ← processPacket ex_layers 1 (g_Data ex_layers); if is_icmp (Protocol p) then None else Some p) /\
  (layer_ok ex_layers -> exists p, processPacket ex_layers 1 [] = Some p /\ packet_ok p).
Proof.
  assert (sctp_is_transport ex_layers) as Hs by (intros [? [=]]).
  destruct (live_matches_file ex_layers 1 Hs) as [H1 H2]. split_and!; [exact Hs|exact H1|].
  intros Hl. eexists. split; [reflexivity|]. eapply H2; [reflexivity|exact Hl|lia].
Defined.

Definition ex_gopacket : Gopacket := {|
  ng_packets _ := inl "not a pcapng file"%string;
  pcap_records file := inr [Some (octets [8;0] ++ replicate 18 x00 ++ octets [1], 5); None; Some (octets [8;6], 6)];
  pcap_packets _ := inr [];
  NewPacket v6 data := ex_layers;
|}.

Lemma pcap_file_read_witness :
  pcap_magic 0xA1B2C3D4 /\
  @ReadPCAP ex_gopacket _ (quiet (fun l p => l ++ [FrameNumber p]))
    (pcap_header false 0xA1B2C3D4 2 4 0 0 65535 276) [] = ([1], None).
Proof.
  assert (pcap_magic 0xA1B2C3D4) as Hm by by left. split; [exact Hm|].
  destruct (@pcap_file_read ex_gopacket _ (fun l p => l ++ [FrameNumber p]) false 0xA1B2C3D4 2 4 0 0 65535 276 [] [] Hm)
    as (_ & H2 & _); [lia|]. rewrite app_nil_r in H2. rewrite (H2 _ eq_refl eq_refl). reflexivity.
Defined.
