(* ===== verification/Capture.v ===== *)
(** * internal/capture: sessions of live capture

    session.go, stats.go, what worker.go does with a packet before the pool, and
    the goroutines that live.go runs around a session as a step relation: the
    workers that fill its buffer, the periodic flush to the store, and the
    analysis that each StopCapture starts. *)
From S2P Require Export Reader.

(** ** live.go: filters *)

(** [^\d+$] *)
Definition bare_port (s : list byte) : bool :=
  negb (bool_decide (s = [])) && forallb (fun b => (0x30 <=? u8 b) && (u8 b <=? 0x39)) s.

Definition normalizeBPFFilter (f : string) : string :=
  let f := trim_space (gobytes f) in
  if bool_decide (f = []) then ""
  else if bare_port f then "port " +:+ gostr f
  else
    let parts := split_byte (byte_of 0x2C) f in
    if forallb (fun p => bare_port (trim_space p)) parts && (1 <? length parts)%nat then
      join " or " ((fun p => "port " +:+ gostr (trim_space p)) <$> parts)
    else gostr f.

(** ** session.go *)

Definition defaultMaxBuffered : Z := 2000000.

Record Session := {
  ID : string;
  InterfaceName : string;
  BPFFilter : string;
  Status : string;
  StartedAt : time;
  StoppedAt : time;
  PacketCount : Z;
  ByteCount : Z;
  JobID : Z;
  maxBuffered : Z;
  stopped : bool;
  buffered : list Packet;
}.

Definition NewSession (now : time) (id iface filter : string) : Session :=
  {| ID := id; InterfaceName := iface; BPFFilter := filter; Status := "running"; StartedAt := now; StoppedAt := 0;
     PacketCount := 0; ByteCount := 0; JobID := 0; maxBuffered := defaultMaxBuffered; stopped := false; buffered := [] |}.

Definition set_status (status : string) (at_ : time) (stop : bool) (s : Session) : Session :=
  {| ID := ID s; InterfaceName := InterfaceName s; BPFFilter := BPFFilter s; Status := status; StartedAt := StartedAt s;
     StoppedAt := at_; PacketCount := PacketCount s; ByteCount := ByteCount s; JobID := JobID s;
     maxBuffered := maxBuffered s; stopped := stop; buffered := buffered s |}.
Definition set_buffered (ps : list Packet) (s : Session) : Session :=
  {| ID := ID s; InterfaceName := InterfaceName s; BPFFilter := BPFFilter s; Status := Status s; StartedAt := StartedAt s;
     StoppedAt := StoppedAt s; PacketCount := PacketCount s; ByteCount := ByteCount s; JobID := JobID s;
     maxBuffered := maxBuffered s; stopped := stopped s; buffered := ps |}.

(** [close(s.stopCh)] panics on a channel that is closed. *)
Definition Stop (now : time) (s : Session) : res Session :=
  if String.eqb (Status s) "running" then
    if stopped s then Panic else Ok (set_status "stopped" now true s)
  else Ok s.

Definition SetStatus (status : string) (s : Session) : Session := set_status status (StoppedAt s) (stopped s) s.

Definition IncrementCounters (bytes : Z) (s : Session) : Session :=
  {| ID := ID s; InterfaceName := InterfaceName s; BPFFilter := BPFFilter s; Status := Status s; StartedAt := StartedAt s;
     StoppedAt := StoppedAt s; PacketCount := u64 (PacketCount s + 1); ByteCount := u64 (ByteCount s + u64 bytes); JobID := JobID s;
     maxBuffered := maxBuffered s; stopped := stopped s; buffered := buffered s |}.

Definition BufferPacket (pkt : Packet) (s : Session) : Session :=
  if zlen (buffered s) <? maxBuffered s then set_buffered (buffered s ++ [pkt]) s else s.

Definition GetPackets (s : Session) : list Packet := buffered s.

Definition DrainPackets (s : Session) : list Packet * Session := (buffered s, set_buffered [] s).

(** ** stats.go *)

Record Stats := {
  TotalPackets : Z;
  TotalBytes : Z;
  PacketsPerSec : Z;
  BytesPerSec : Z;
  ProtocolCounts : gmap string Z;
  lastPackets : Z;
  lastBytes : Z;
  lastTick : time;
}.

Definition NewStats (now : time) : Stats :=
  {| TotalPackets := 0; TotalBytes := 0; PacketsPerSec := 0; BytesPerSec := 0; ProtocolCounts := ∅;
     lastPackets := 0; lastBytes := 0; lastTick := now |}.

Definition Record_ (protocol : string) (size : Z) (s : Stats) : Stats :=
  {| TotalPackets := u64 (TotalPackets s + 1); TotalBytes := u64 (TotalBytes s + u64 size);
     PacketsPerSec := PacketsPerSec s; BytesPerSec := BytesPerSec s;
     ProtocolCounts := <[protocol := u64 (default 0 (ProtocolCounts s !! protocol) + 1)]> (ProtocolCounts s);
     lastPackets := lastPackets s; lastBytes := lastBytes s; lastTick := lastTick s |}.

(** The rates, and their conversion to [uint64], which is that of the platform
    for values out of range. *)
Definition Tick (to_uint64 : f64 -> Z) (now : time) (s : Stats) : Stats :=
  let elapsed := seconds (time_sub now (lastTick s)) in
  let elapsed := if f_le elapsed f_zero then f_int 1 else elapsed in
  {| TotalPackets := TotalPackets s; TotalBytes := TotalBytes s;
     PacketsPerSec := to_uint64 (f_div (f_int (u64 (TotalPackets s - lastPackets s))) elapsed);
     BytesPerSec := to_uint64 (f_div (f_int (u64 (TotalBytes s - lastBytes s))) elapsed);
     ProtocolCounts := ProtocolCounts s; lastPackets := TotalPackets s; lastBytes := TotalBytes s; lastTick := now |}.

Definition Snapshot (s : Stats) : Stats :=
  {| TotalPackets := TotalPackets s; TotalBytes := TotalBytes s; PacketsPerSec := PacketsPerSec s;
     BytesPerSec := BytesPerSec s; ProtocolCounts := ProtocolCounts s; lastPackets := 0; lastBytes := 0; lastTick := 0 |}.

Definition Reset (now : time) (s : Stats) : Stats := NewStats now.

(** ** worker.go: RunWithPool, for a packet that was read *)

(** The state of a reader: the frame counter, the session and the statistics. *)
Record reader_state := { frameGen : Z; r_session : Session; r_stats : Stats }.

(** What is counted as the protocol of a packet. *)
Definition counted_protocol (pkt : Packet) : string :=
  if String.eqb (AppProtocol pkt) "" then Protocol pkt else AppProtocol pkt.

(** The packet that is submitted to the pool, if any. *)
Definition read_turn (g : gopacket) (r : reader_state) : option Packet * reader_state :=
  let frameNum := u64 (frameGen r + 1) in
  match extractPacketFromRaw g frameNum with
  | None => (None, {| frameGen := frameNum; r_session := r_session r; r_stats := r_stats r |})
  | Some pkt =>
    (Some pkt, {| frameGen := frameNum; r_session := IncrementCounters (Length pkt) (r_session r);
                  r_stats := Record_ (counted_protocol pkt) (Length pkt) (r_stats r) |})
  end.

Fixpoint read_turns (gs : list gopacket) (r : reader_state) : list Packet * reader_state :=
  match gs with
  | [] => ([], r)
  | g :: gs =>
    let '(p, r) := read_turn g r in
    let '(ps, r) := read_turns gs r in
    (match p with Some p => p :: ps | None => ps end, r)
  end.

(** ** live.go and virtual.go: the callback of the pool *)

(** The copy that is buffered: without payload, raw bytes and TCP fields. *)
Definition buffer_copy (meta : gmap string any) (pkt : Packet) : Packet :=
  {| Timestamp := Timestamp pkt; SrcIP := SrcIP pkt; DstIP := DstIP pkt; SrcPort := SrcPort pkt; DstPort := DstPort pkt;
     Protocol := Protocol pkt; Payload := []; FrameNumber := FrameNumber pkt; Length := Length pkt;
     AppProtocol := AppProtocol pkt; Summary := Summary pkt; Metadata := meta; Errors := Errors pkt; RawPacket := [];
     TCPSeq := 0; TCPAck := 0; TCPFlags := 0; Reassembled := false; TTL := 0; IPID := 0 |}.

(** What is sent to the browsers. *)
Inductive hub_message := MsgPacket (pkt : Packet) | MsgAlert (pkt : Packet) (e : PacketError).

Definition broadcasts (pkt : Packet) : list hub_message :=
  (if negb (String.eqb (AppProtocol pkt) "") || (FrameNumber pkt mod 10 =? 0) then [MsgPacket pkt] else []) ++
  (MsgAlert pkt <$> Errors pkt).

Definition onPacket (pkt : Packet) (s : Session) : Session * list hub_message :=
  (BufferPacket (buffer_copy (Metadata pkt) pkt) s, broadcasts pkt).

(** The callback of a session of an agent adds who captured the packet: to the
    packet's own map if it has one, otherwise to a new one, which only the buffered copy gets. A map
    that a decoder gives a packet has entries, so an empty one is no map. *)
Definition with_metadata (meta : gmap string any) (pkt : Packet) : Packet :=
  {| Timestamp := Timestamp pkt; SrcIP := SrcIP pkt; DstIP := DstIP pkt; SrcPort := SrcPort pkt; DstPort := DstPort pkt;
     Protocol := Protocol pkt; Payload := Payload pkt; FrameNumber := FrameNumber pkt; Length := Length pkt;
     AppProtocol := AppProtocol pkt; Summary := Summary pkt; Metadata := meta; Errors := Errors pkt;
     RawPacket := RawPacket pkt; TCPSeq := TCPSeq pkt; TCPAck := TCPAck pkt; TCPFlags := TCPFlags pkt;
     Reassembled := Reassembled pkt; TTL := TTL pkt; IPID := IPID pkt |}.

Definition onPacket_virtual (agentID agentHost : string) (pkt : Packet) (s : Session) : Session * list hub_message :=
  let meta := <["agent_host"%string := AStr agentHost]> (<["agent_id"%string := AStr agentID]> (Metadata pkt)) in
  (BufferPacket (buffer_copy meta pkt) s,
   broadcasts (if (size (Metadata pkt) =? 0)%nat then pkt else with_metadata meta pkt)).

(** ** worker.go: Run, for sources that have a worker each *)

(** HandlePacketLive of one decoder, and of all the decoders of a worker in
    turn: what a decoder that claims the packet found is written into it, and all the
    errors the packet has by then are sent. *)
Class StreamingDecoder (S : Type) : Type :=
  HandlePacketLive : S -> Packet -> res (S * Packet * option DecodedPacket).
Definition WrapAsStreaming {S} `{ProtocolDecoder S} : StreamingDecoder S := StreamingWrapper_HandlePacketLive.

Definition assign (d : DecodedPacket) (pkt : Packet) : Packet :=
  with_metadata (D_Metadata d) (set_notes (D_Protocol d) (D_Summary d) (D_Errors d) pkt).

Class StreamingDecoders (S : Type) : Type := live_all : S -> Packet -> res (S * Packet * list hub_message).
Global Instance no_streaming : StreamingDecoders unit := fun s pkt => Ok (s, pkt, []).
Global Instance more_streaming {A B} `{StreamingDecoder A} `{StreamingDecoders B} : StreamingDecoders (A * B) := fun s pkt =>
  '(a, pkt, o) ← HandlePacketLive (fst s) pkt;
  let '(pkt, msgs) := match o with
                      | Some d => (assign d pkt, MsgAlert (assign d pkt) <$> D_Errors d)
                      | None => (pkt, [])
                      end in
  '(b, pkt, msgs') ← live_all (snd s) pkt;
  Ok ((a, b), pkt, msgs ++ msgs').

Definition run_turn {S} `{StreamingDecoders S} (g : gopacket) (r : reader_state) (s : S) :
    res (reader_state * S * list hub_message) :=
  match read_turn g r with
  | (None, r) => Ok (r, s, [])
  | (Some pkt, r) =>
    '(s, pkt, alerts) ← live_all s pkt;
    let r := {| frameGen := frameGen r; r_session := BufferPacket (buffer_copy (Metadata pkt) pkt) (r_session r); r_stats := r_stats r |} in
    let sent := if negb (String.eqb (AppProtocol pkt) "") || (frameGen r mod 10 =? 0) then [MsgPacket pkt] else [] in
    Ok (r, s, alerts ++ sent)
  end.

(** ** live.go: what runs around a session

    The periodic flush is a goroutine that waits for its ticker, holds what it
    drained, or puts it back packet by packet when both writers are busy. *)
Inductive flusher := Waiting | Holding (batch : list Packet) | Requeueing (rest : list Packet) | Left_.

(** analyzeAndStore, one for each StopCapture. [Flushed] is after the workers
    were waited for, where they are, and their flows were taken; [Stored] after the flows
    and calls are in the store; [Drained] with the rest of the buffer in hand. *)
Inductive analysis :=
  | Started
  | Analyzing
  | Flushed
  | Stored
  | Drained (batch : list Packet)
  | Written
  | Failed
  | Completed.

(** [pool]: the packets come through a decode pool, which is waited for;
    otherwise from workers with decoders of their own, which are not.
    [delivering]: some worker may still call BufferPacket. [writers]: the
    batches that goroutines of the periodic flush are writing. The last four fields
    are the history: what was given to BufferPacket by the workers, what is in
    the store, what the buffer did not take, and what the store did not. *)
Record capture := {
  pool : bool;
  session : Session;
  delivering : bool;
  flush : flusher;
  writers : list (list Packet);
  analyses : list analysis;
  completions : nat;
  received : list Packet;
  stored : list Packet;
  overflowed : list Packet;
  unsaved : list Packet;
}.

Definition new_capture (pool : bool) (s : Session) : capture :=
  {| pool := pool; session := s; delivering := true; flush := Waiting; writers := []; analyses := []; completions := 0;
     received := []; stored := []; overflowed := []; unsaved := [] |}.

(** Who acts next, with what it meets: whether a write succeeds, and the time. *)
Inductive action :=
  | Deliver (pkt : Packet)
  | WorkersEnd
  | StopCapture (now : time)
  | FlushTick
  | FlushEnd
  | FlushWrite
  | FlushRequeue
  | FlushPut
  | WriterDone (i : nat) (ok : bool)
  | Analyze (i : nat) (ok : bool).

Definition with_session (s : Session) (c : capture) : capture :=
  {| pool := pool c; session := s; delivering := delivering c; flush := flush c; writers := writers c;
     analyses := analyses c; completions := completions c; received := received c; stored := stored c;
     overflowed := overflowed c; unsaved := unsaved c |}.
Definition with_flush (f : flusher) (ws : list (list Packet)) (c : capture) : capture :=
  {| pool := pool c; session := session c; delivering := delivering c; flush := f; writers := ws;
     analyses := analyses c; completions := completions c; received := received c; stored := stored c;
     overflowed := overflowed c; unsaved := unsaved c |}.
Definition with_analysis (i : nat) (a : analysis) (c : capture) : capture :=
  {| pool := pool c; session := session c; delivering := delivering c; flush := flush c; writers := writers c;
     analyses := <[i := a]> (analyses c); completions := completions c; received := received c; stored := stored c;
     overflowed := overflowed c; unsaved := unsaved c |}.
Definition with_delivering (b : bool) (c : capture) : capture :=
  {| pool := pool c; session := session c; delivering := b; flush := flush c; writers := writers c;
     analyses := analyses c; completions := completions c; received := received c; stored := stored c;
     overflowed := overflowed c; unsaved := unsaved c |}.
Definition with_received (ps : list Packet) (c : capture) : capture :=
  {| pool := pool c; session := session c; delivering := delivering c; flush := flush c; writers := writers c;
     analyses := analyses c; completions := completions c; received := ps; stored := stored c;
     overflowed := overflowed c; unsaved := unsaved c |}.
Definition with_completions (n : nat) (c : capture) : capture :=
  {| pool := pool c; session := session c; delivering := delivering c; flush := flush c; writers := writers c;
     analyses := analyses c; completions := n; received := received c; stored := stored c;
     overflowed := overflowed c; unsaved := unsaved c |}.
(** BufferPacket, with what a full buffer does not take. *)
Definition put (pkt : Packet) (c : capture) : capture :=
  {| pool := pool c; session := BufferPacket pkt (session c); delivering := delivering c; flush := flush c;
     writers := writers c; analyses := analyses c; completions := completions c; received := received c; stored := stored c;
     overflowed := if zlen (buffered (session c)) <? maxBuffered (session c) then overflowed c else overflowed c ++ [pkt];
     unsaved := unsaved c |}.
(** StorePackets, which is one transaction. *)
Definition StorePackets (ok : bool) (batch : list Packet) (c : capture) : capture :=
  {| pool := pool c; session := session c; delivering := delivering c; flush := flush c; writers := writers c;
     analyses := analyses c; completions := completions c; received := received c;
     stored := if ok then stored c ++ batch else stored c; overflowed := overflowed c;
     unsaved := if ok then unsaved c else unsaved c ++ batch |}.

(** A step of analyzeAndStore; [None] while it waits. *)
Definition analyze (i : nat) (ok : bool) (a : analysis) (c : capture) : option capture :=
  match a with
  | Started => Some (with_analysis i Analyzing (with_session (SetStatus "analyzing" (session c)) c))
  | Analyzing => if pool c && delivering c then None else Some (with_analysis i Flushed c)
  | Flushed => Some (with_analysis i (if ok then Stored else Failed) c)
  | Stored => let '(ps, s) := DrainPackets (session c) in Some (with_analysis i (Drained ps) (with_session s c))
  | Drained ps => Some (with_analysis i Written (StorePackets ok ps c))
  | Written =>
    Some (with_analysis i Completed
      (with_completions (S (completions c)) (with_session (SetStatus "completed" (session c)) c)))
  | Failed | Completed => None
  end.

(** [Ok None]: the action is not possible now. *)
Definition act (a : action) (c : capture) : res (option capture) :=
  match a with
  | Deliver pkt =>
    Ok (if delivering c then Some (put pkt (with_received (received c ++ [pkt]) c)) else None)
  | WorkersEnd => Ok (if stopped (session c) then Some (with_delivering false c) else None)
  | StopCapture now =>
    s ← Stop now (session c);
    let c := with_session s c in
    Ok (Some {| pool := pool c; session := session c; delivering := delivering c; flush := flush c; writers := writers c;
                analyses := analyses c ++ [Started]; completions := completions c; received := received c;
                stored := stored c; overflowed := overflowed c; unsaved := unsaved c |})
  | FlushTick =>
    Ok (match flush c with
        | Waiting =>
          let '(ps, s) := DrainPackets (session c) in
          Some (with_flush (if bool_decide (ps = []) then Waiting else Holding ps) (writers c) (with_session s c))
        | _ => None
        end)
  | FlushEnd => Ok (match flush c with
                    | Waiting => if stopped (session c) then Some (with_flush Left_ (writers c) c) else None
                    | _ => None
                    end)
  | FlushWrite => Ok (match flush c with
                      | Holding ps => if (length (writers c) <? 2)%nat then Some (with_flush Waiting (writers c ++ [ps]) c) else None
                      | _ => None
                      end)
  | FlushRequeue => Ok (match flush c with
                        | Holding ps => if (length (writers c) <? 2)%nat then None else Some (with_flush (Requeueing ps) (writers c) c)
                        | _ => None
                        end)
  | FlushPut => Ok (match flush c with
                    | Requeueing (p :: ps) => Some (put p (with_flush (Requeueing ps) (writers c) c))
                    | Requeueing [] => Some (with_flush Waiting (writers c) c)
                    | _ => None
                    end)
  | WriterDone i ok => Ok (match writers c !! i with
                           | Some ps => Some (StorePackets ok ps (with_flush (flush c) (delete i (writers c)) c))
                           | None => None
                           end)
  | Analyze i ok => Ok (match analyses c !! i with Some a => analyze i ok a c | None => None end)
  end.

Definition step (c c' : capture) : Prop := exists a, act a c = Ok (Some c').

(** A schedule of actions, each possible when it comes. *)
Fixpoint run (acts : list action) (c : capture) : res (option capture) :=
  match acts with
  | [] => Ok (Some c)
  | a :: acts => o ← act a c; match o with Some c => run acts c | None => Ok None end
  end.

(** ** Where every packet is *)

Definition held (f : flusher) : list Packet := match f with Holding ps | Requeueing ps => ps | _ => [] end.
Definition in_analysis (a : analysis) : list Packet := match a with Drained ps => ps | _ => [] end.
Definition everywhere (c : capture) : list Packet :=
  buffered (session c) ++ held (flush c) ++ mjoin (writers c) ++ mjoin (in_analysis <$> analyses c) ++
  stored c ++ overflowed c ++ unsaved c.

Definition waited (a : analysis) : bool := match a with Started | Analyzing => false | _ => true end.
Definition is_completed (a : analysis) : bool := match a with Completed => true | _ => false end.
Definition completed_count (l : list analysis) : nat := sum_list_with (fun a => if is_completed a then 1 else 0)%nat l.

Lemma mjoin_analysis_insert l i a0 a : l !! i = Some a0 ->
  mjoin (in_analysis <$> <[i := a]> l) ++ in_analysis a0 ≡ₚ mjoin (in_analysis <$> l) ++ in_analysis a.
Proof.
  intros Hi. pose proof (lookup_lt_Some _ _ _ Hi). rewrite <-(take_drop_middle l i a0 Hi) at 2.
  rewrite insert_take_drop by done. rewrite !fmap_app, !join_app, !fmap_cons, !mjoin_cons. solve_Permutation.
Qed.

Lemma completed_insert l i a0 a : l !! i = Some a0 ->
  (completed_count (<[i := a]> l) + (if is_completed a0 then 1 else 0) =
   completed_count l + if is_completed a then 1 else 0)%nat.
Proof. intros Hi. unfold completed_count. by apply (sum_list_with_insert (fun a => if is_completed a then 1 else 0)%nat). Qed.

Record cap_inv (c : capture) : Prop := {
  i_conserve : received c ≡ₚ everywhere c;
  i_bound : zlen (buffered (session c)) <= maxBuffered (session c);
  i_writers : (length (writers c) <= 2)%nat;
  i_stopped : stopped (session c) = negb (String.eqb (Status (session c)) "running");
  i_analyses : analyses c <> [] -> stopped (session c) = true;
  i_delivering : delivering c = false -> stopped (session c) = true;
  i_waited : pool c = true -> Exists (fun a => waited a = true) (analyses c) -> delivering c = false;
  i_completions : completions c = completed_count (analyses c);
}.

Lemma new_capture_inv pool now id iface filter : cap_inv (new_capture pool (NewSession now id iface filter)).
Proof.
  split; try done.
  - cbn. lia.
  - intros _ He. by apply Exists_nil in He.
Qed.

Lemma BufferPacket_session p s : Status (BufferPacket p s) = Status s /\ stopped (BufferPacket p s) = stopped s /\
  maxBuffered (BufferPacket p s) = maxBuffered s.
Proof. unfold BufferPacket. by destruct (_ <? _). Qed.

(** A packet that is put is in the buffer or recorded as not taken. *)
Lemma put_spec p c :
  buffered (session (put p c)) ++ overflowed (put p c) ≡ₚ p :: buffered (session c) ++ overflowed c /\
  (zlen (buffered (session c)) <= maxBuffered (session c) ->
   zlen (buffered (session (put p c))) <= maxBuffered (session (put p c))).
Proof.
  unfold put, BufferPacket. cbn [session overflowed]. destruct (Z.ltb_spec (zlen (buffered (session c))) (maxBuffered (session c))).
  - cbn [set_buffered buffered maxBuffered]. split; [solve_Permutation|]. intros _. rewrite zlen_app. change (zlen [p]) with 1. lia.
  - split; [solve_Permutation|]. done.
Qed.

Lemma put_same p c : everywhere (put p c) ≡ₚ p :: everywhere c.
Proof.
  destruct (put_spec p c) as [Hp _]. unfold everywhere. cbn [put flush writers analyses stored unsaved].
  transitivity ((buffered (session (put p c)) ++ overflowed (put p c)) ++ held (flush c) ++ mjoin (writers c) ++
    mjoin (in_analysis <$> analyses c) ++ stored c ++ unsaved c); [solve_Permutation|].
  rewrite Hp. solve_Permutation.
Qed.

Lemma put_inv p c : cap_inv c -> delivering c = true -> cap_inv (put p (with_received (received c ++ [p]) c)).
Proof.
  intros [H1 H2 H3 H4 H5 H6 H7 H8] Hd. destruct (BufferPacket_session p (session c)) as (Hs & Hst & Hm).
  split; try (cbn [put with_received pool session delivering flush writers analyses completions]; rewrite ?Hs, ?Hst; done).
  - etransitivity; [|symmetry; apply put_same]. change (everywhere (with_received (received c ++ [p]) c)) with (everywhere c).
    cbn [put with_received received]. rewrite <-H1. solve_Permutation.
  - by apply (proj2 (put_spec p (with_received _ c))).
Qed.

Lemma StorePackets_same ok ps c : everywhere (StorePackets ok ps c) ≡ₚ ps ++ everywhere c.
Proof. unfold everywhere. destruct ok; cbn [StorePackets session flush writers analyses stored overflowed unsaved]; solve_Permutation. Qed.

Lemma Stop_spec now s : stopped s = negb (String.eqb (Status s) "running") ->
  exists s', Stop now s = Ok s' /\ buffered s' = buffered s /\ maxBuffered s' = maxBuffered s /\ stopped s' = true /\
    String.eqb (Status s') "running" = false.
Proof.
  intros Hs. unfold Stop. destruct (String.eqb (Status s) "running") eqn:E; cbn [negb] in Hs.
  - rewrite Hs. eexists. by split_and!.
  - exists s. by split_and!.
Qed.

(** A step of an analysis does to the packets what its own hands show. *)
Lemma analyze_conserves i ok a c c' : analyses c !! i = Some a -> analyze i ok a c = Some c' ->
  received c' = received c /\ everywhere c' ≡ₚ everywhere c.
Proof.
  intros Hi Ha. assert (forall b, mjoin (in_analysis <$> <[i := b]> (analyses c)) ++ in_analysis a ≡ₚ
    mjoin (in_analysis <$> analyses c) ++ in_analysis b) as Hins by (intros b; by apply mjoin_analysis_insert).
  destruct a; cbn [analyze] in Ha; try done.
  - injection Ha as <-. split; [done|]. specialize (Hins Analyzing). cbn [in_analysis] in Hins. rewrite !app_nil_r in Hins.
    unfold everywhere. cbn [with_analysis with_session session flush writers analyses stored overflowed unsaved SetStatus set_status buffered].
    by rewrite Hins.
  - destruct (pool c && delivering c); [done|]. injection Ha as <-. split; [done|]. specialize (Hins Flushed).
    cbn [in_analysis] in Hins. rewrite !app_nil_r in Hins. unfold everywhere. cbn. by rewrite Hins.
  - injection Ha as <-. split; [done|]. specialize (Hins (if ok then Stored else Failed)).
    destruct ok; cbn [in_analysis] in Hins; rewrite !app_nil_r in Hins; unfold everywhere; cbn; by rewrite Hins.
  - unfold DrainPackets in Ha. injection Ha as <-. split; [done|]. specialize (Hins (Drained (buffered (session c)))).
    cbn [in_analysis] in Hins. rewrite app_nil_r in Hins. unfold everywhere. cbn. rewrite Hins. solve_Permutation.
  - injection Ha as <-. split; [by destruct ok|]. specialize (Hins Written). cbn [in_analysis] in Hins. rewrite app_nil_r in Hins.
    transitivity (batch ++ everywhere (with_analysis i Written c)).
    + rewrite <-(StorePackets_same ok). reflexivity.
    + unfold everywhere. cbn. rewrite <-Hins. solve_Permutation.
  - injection Ha as <-. split; [done|]. specialize (Hins Completed). cbn [in_analysis] in Hins. rewrite !app_nil_r in Hins.
    unfold everywhere. cbn. by rewrite Hins.
Qed.

(** What an analysis leaves alone. *)
Lemma analyze_rest i ok a c c' : analyze i ok a c = Some c' ->
  pool c' = pool c /\ delivering c' = delivering c /\ writers c' = writers c /\ flush c' = flush c /\
  maxBuffered (session c') = maxBuffered (session c) /\ stopped (session c') = stopped (session c) /\
  (buffered (session c') = buffered (session c) \/ buffered (session c') = []) /\
  exists b, analyses c' = <[i := b]> (analyses c) /\
    (waited b = true -> waited a = true \/ (pool c = true -> delivering c = false)) /\
    (if is_completed b then completions c' = S (completions c) else completions c' = completions c).
Proof.
  destruct a; cbn [analyze]; try done.
  - intros [= <-]. split_and!; [done..|by left|]. exists Analyzing. by split_and!.
  - destruct (pool c && delivering c) eqn:E; [done|]. intros [= <-]. split_and!; [done..|by left|].
    exists Flushed. split_and!; [done| |done]. intros _. right. intros Hp. by rewrite Hp in E.
  - intros [= <-]. split_and!; [done..|by left|]. exists (if ok then Stored else Failed).
    destruct ok; split_and!; try done; intros _; by left.
  - unfold DrainPackets. intros [= <-]. split_and!; [done..|by right|]. eexists. split; [done|]. split; [by left|done].
  - intros [= <-]. split_and!; [done..|by left|]. exists Written. split; [done|]. split; [by left|done].
  - intros [= <-]. split_and!; [done..|by left|]. exists Completed. split; [done|]. split; [by left|done].
Qed.

Lemma analyze_inv i ok a c c' : cap_inv c -> analyses c !! i = Some a -> analyze i ok a c = Some c' -> cap_inv c'.
Proof.
  intros [H1 H2 H3 H4 H5 H6 H7 H8] Hi Ha. destruct (analyze_conserves _ _ _ _ _ Hi Ha) as [Hr He].
  destruct (analyze_rest _ _ _ _ _ Ha) as (Hp & Hd & Hw & Hf & Hm & Hst & Hb & b & Hb1 & Hb2 & Hb3).
  assert (stopped (session c) = true) as Hstop by (apply H5; intros Hn; rewrite Hn in Hi; by rewrite lookup_nil in Hi).
  assert (is_completed a = false) as Hnc by by destruct a.
  split.
  - by rewrite Hr, He.
  - rewrite Hm. destruct Hb as [-> | ->]; [done|]. pose proof (zlen_nonneg (buffered (session c))). rewrite zlen_nil. lia.
  - by rewrite Hw.
  - rewrite Hst, Hstop. rewrite Hstop in H4. destruct a; cbn [analyze] in Ha; simplify_eq; try done;
      repeat case_match; simplify_eq; try done; unfold DrainPackets in *; simplify_eq; done.
  - intros _. by rewrite Hst.
  - rewrite Hst. by intros _.
  - rewrite Hp, Hd. intros Hpt Hex. rewrite Hb1 in Hex. apply Exists_exists in Hex as (x & Hx & Hwx).
    apply list_elem_of_lookup in Hx as [j Hj]. apply list_lookup_insert_Some in Hj as [(-> & <- & _)|[_ Hj]];
      [|apply H7; [done|apply Exists_exists; exists x; split; [by apply list_elem_of_lookup_2 in Hj|done]]].
    destruct (Hb2 Hwx) as [Hwa|Hpd]; [|by apply Hpd]. apply H7; [done|]. apply Exists_exists. exists a. split; [|done].
    by apply list_elem_of_lookup_2 in Hi.
  - pose proof (completed_insert (analyses c) i a b Hi) as Hc. rewrite Hnc in Hc. rewrite Hb1.
    destruct (is_completed b); rewrite Hb3, H8; lia.
Qed.

Lemma stop_inv now c : cap_inv c -> exists c', act (StopCapture now) c = Ok (Some c') /\ cap_inv c'.
Proof.
  intros [H1 H2 H3 H4 H5 H6 H7 H8]. cbn [act].
  destruct (Stop_spec now _ H4) as (s & -> & Hb & Hm & Hs & Hst). cbn [mbind res_bind]. eexists. split; [reflexivity|].
  split; cbn [with_session pool session delivering flush writers analyses completions received stored
    overflowed unsaved]; rewrite ?Hb, ?Hm, ?Hs, ?Hst; try done.
  - unfold everywhere. cbn [session flush writers analyses stored overflowed unsaved].
    rewrite H1, Hb, fmap_app, join_app. unfold everywhere. cbn [fmap list_fmap in_analysis mjoin list_join]. solve_Permutation.
  - intros Hp Hex. apply H7; [done|]. apply Exists_app in Hex as [Hex|Hex]; [done|].
    apply Exists_cons in Hex as [Hw|Hex]; [done|by apply Exists_nil in Hex].
  - unfold completed_count. rewrite sum_list_with_app. cbn. rewrite H8. unfold completed_count. lia.
Qed.

Lemma tick_inv c : cap_inv c -> flush c = Waiting ->
  cap_inv (with_flush (if bool_decide (buffered (session c) = []) then Waiting else Holding (buffered (session c)))
    (writers c) (with_session (set_buffered [] (session c)) c)).
Proof.
  intros [H1 H2 H3 H4 H5 H6 H7 H8] Hf.
  split; cbn [with_flush with_session set_buffered pool session delivering flush writers analyses completions received
    stored overflowed unsaved buffered maxBuffered stopped Status]; try done.
  - unfold everywhere. cbn [with_flush with_session set_buffered session flush writers analyses stored overflowed
      unsaved buffered]. rewrite H1. unfold everywhere. rewrite Hf. cbn [held].
    destruct (bool_decide_reflect (buffered (session c) = [])) as [->|_]; [done|]. cbn [held]. solve_Permutation.
  - rewrite zlen_nil. pose proof (zlen_nonneg (buffered (session c))). lia.
Qed.

(** A step of the periodic flush that moves packets between its hands and the writers. *)
Lemma flush_inv f ws c : cap_inv c -> (length ws <= 2)%nat ->
  held f ++ mjoin ws ≡ₚ held (flush c) ++ mjoin (writers c) -> cap_inv (with_flush f ws c).
Proof.
  intros [H1 H2 H3 H4 H5 H6 H7 H8] Hw Hp. split; try done. cbn [with_flush received].
  unfold everywhere. cbn [with_flush session flush writers analyses stored overflowed unsaved].
  rewrite H1. unfold everywhere. rewrite (app_assoc (held f)), Hp. solve_Permutation.
Qed.

Lemma requeue_inv p ps c : cap_inv c -> flush c = Requeueing (p :: ps) -> cap_inv (put p (with_flush (Requeueing ps) (writers c) c)).
Proof.
  intros [H1 H2 H3 H4 H5 H6 H7 H8] Hf. destruct (BufferPacket_session p (session c)) as (Hs & Hst & Hm).
  split; try (cbn [put with_flush pool session delivering writers analyses completions]; rewrite ?Hs, ?Hst; done).
  - etransitivity; [|symmetry; apply put_same]. cbn [put received with_flush]. rewrite H1. unfold everywhere. rewrite Hf.
    cbn [with_flush session flush writers analyses stored overflowed unsaved held]. solve_Permutation.
  - by apply (proj2 (put_spec p (with_flush (Requeueing ps) (writers c) c))).
Qed.

Lemma writer_inv i ok ps c : cap_inv c -> writers c !! i = Some ps ->
  cap_inv (StorePackets ok ps (with_flush (flush c) (delete i (writers c)) c)).
Proof.
  intros [H1 H2 H3 H4 H5 H6 H7 H8] Hi. split; try done.
  - etransitivity; [|symmetry; apply StorePackets_same]. cbn [StorePackets received with_flush]. rewrite H1. unfold everywhere.
    cbn [with_flush session flush writers analyses stored overflowed unsaved]. rewrite (delete_Permutation _ _ _ Hi) at 1.
    rewrite mjoin_cons. solve_Permutation.
  - cbn [StorePackets with_flush writers]. rewrite length_delete by eauto. lia.
Qed.

Lemma act_inv a c : cap_inv c -> exists o, act a c = Ok o /\ forall c', o = Some c' -> cap_inv c'.
Proof.
  intros Hc. destruct a as [p| |now| | | | | |i ok|i ok];
    try (destruct (stop_inv now c Hc) as (c' & -> & Hc'); eexists; split; [reflexivity|]; by intros ? [= <-]);
    cbn [act]; (eexists; split; [reflexivity|]); intros c' Hc'.
  - destruct (delivering c) eqn:Hd; [|done]. injection Hc' as <-. by apply put_inv.
  - destruct (stopped (session c)) eqn:Hs; [|done]. injection Hc' as <-. destruct Hc.
    by split; cbn [with_delivering pool session delivering flush writers analyses completions].
  - destruct (flush c) eqn:Hf; [|done..]. injection Hc' as <-. by apply tick_inv.
  - destruct (flush c) eqn:Hf; [|done..]. destruct (stopped (session c)); [|done]. injection Hc' as <-.
    apply flush_inv; [done|apply Hc|by rewrite Hf].
  - destruct (flush c) as [|ps| |] eqn:Hf; [done| |done..]. destruct (Nat.ltb_spec (length (writers c)) 2); [|done].
    injection Hc' as <-. apply flush_inv; [done|rewrite length_app; cbn; lia|].
    rewrite Hf, join_app. cbn [held mjoin list_join]. solve_Permutation.
  - destruct (flush c) as [|ps| |] eqn:Hf; [done| |done..]. destruct (Nat.ltb_spec (length (writers c)) 2); [done|].
    injection Hc' as <-. apply flush_inv; [done|apply Hc|by rewrite Hf].
  - destruct (flush c) as [| |[|p ps]|] eqn:Hf; try done; injection Hc' as <-.
    + apply flush_inv; [done|apply Hc|by rewrite Hf].
    + by apply requeue_inv.
  - destruct (writers c !! i) as [ps|] eqn:Hi; [|done]. injection Hc' as <-. by apply writer_inv.
  - destruct (analyses c !! i) as [a|] eqn:Hi; [|done]. by eapply analyze_inv.
Qed.

Lemma run_inv acts c : cap_inv c -> exists o, run acts c = Ok o /\ forall c', o = Some c' -> cap_inv c'.
Proof.
  revert c. induction acts as [|a acts IH]; intros c Hc; [eexists; split; [done|]; by intros c' [= <-]|]. cbn [run].
  destruct (act_inv a c Hc) as (o & -> & Ho). cbn [mbind res_bind]. destruct o as [c'|]; [|by exists None].
  apply IH. by apply Ho.
Qed.

Lemma act_pool a c c' : act a c = Ok (Some c') -> pool c' = pool c.
Proof.
  destruct a; cbn [act]; intros Ha; repeat case_match; simplify_eq/=; try done;
    try by apply bind_Ok in Ha as (? & _ & [= <-]).
  match goal with H : analyze _ _ _ _ = _ |- _ => by apply analyze_rest in H as [? _] end.
Qed.

(** What every possible action keeps, a run keeps. *)
Lemma run_keeps (I : capture -> Prop) acts c c' :
  (forall a c c', I c -> act a c = Ok (Some c') -> I c') -> I c -> run acts c = Ok (Some c') -> I c'.
Proof.
  intros Hstep. revert c. induction acts as [|a acts IH]; intros c Hc; cbn [run]; [by intros [= <-]|].
  intros (o & Ha & Hr)%bind_Ok. destruct o as [c1|]; [|done]. eapply IH; [|done]. by eapply Hstep.
Qed.

Lemma run_pool acts c c' : run acts c = Ok (Some c') -> pool c' = pool c.
Proof.
  apply (run_keeps (fun c' => pool c' = pool c)); [|done]. intros a c1 c2 H1 H2. by rewrite (act_pool _ _ _ H2).
Qed.

(** No more packets come, and none is in the buffer or held by the flush. *)
Record emptied (c : capture) : Prop := {
  e_delivering : delivering c = false; e_buffered : buffered (session c) = []; e_held : held (flush c) = [];
}.

Lemma act_emptied a c c' : emptied c -> act a c = Ok (Some c') -> emptied c'.
Proof.
  intros [H1 H2 H3] Ha. destruct a as [p| |now| | | | | |i ok|i ok]; cbn [act] in Ha; rewrite ?H1 in Ha; try done.
  - destruct (stopped _); [|done]. by injection Ha as <-.
  - apply bind_Ok in Ha as (s & Hs & [= <-]). split; [done| |done]. cbn [session with_session]. revert Hs. unfold Stop.
    destruct (String.eqb _ _); [destruct (stopped _); [done|]|]; by intros [= <-].
  - destruct (flush c) eqn:Hf; [|done..]. injection Ha as <-. split; [done..|]. cbn [with_flush flush]. by rewrite H2.
  - destruct (flush c) eqn:Hf; [|done..]. destruct (stopped _); [|done]. by injection Ha as <-.
  - destruct (flush c) eqn:Hf; [done| |done..]. destruct (_ <? _)%nat; [|done]. by injection Ha as <-.
  - destruct (flush c) eqn:Hf; [done| |done..]. destruct (_ <? _)%nat; [done|]. by injection Ha as <-.
  - destruct (flush c) as [| |[|q ps]|] eqn:Hf; try done. by injection Ha as <-.
  - destruct (writers c !! i); [|done]. by injection Ha as <-.
  - destruct (analyses c !! i) as [a|]; [|done].
    assert (analyze i ok a c = Some c') as Ha' by congruence.
    destruct (analyze_rest _ _ _ _ _ Ha') as (_ & Hd & _ & Hf & _ & _ & Hb & _).
    split; [by rewrite Hd| |by rewrite Hf]. by destruct Hb as [-> | ->].
Qed.

(** C31: Whatever the workers deliver and in whatever order the goroutines of a
    session run, also when it is stopped several times, nothing panics, and
    every packet that was delivered is exactly once in the buffer, in the hands of
    the periodic flush, of a writer or of an analysis, in the store, or
    recorded as one that the full buffer or the store did not take. The buffer is never longer
    than its limit, at most two writers run, and the job is completed once for each analysis that ends well. *)
Theorem capture_conserves acts mode now id iface filter :
  exists o, run acts (new_capture mode (NewSession now id iface filter)) = Ok o /\ forall c, o = Some c ->
    received c ≡ₚ buffered (session c) ++ held (flush c) ++ mjoin (writers c) ++ mjoin (in_analysis <$> analyses c) ++
      stored c ++ overflowed c ++ unsaved c /\
    zlen (buffered (session c)) <= maxBuffered (session c) /\ (length (writers c) <= 2)%nat /\
    (stopped (session c) = true <-> Status (session c) <> "running"%string) /\
    (mode = true -> Exists (fun a => waited a = true) (analyses c) -> delivering c = false) /\
    completions c = completed_count (analyses c).
Proof.
  destruct (run_inv acts _ (new_capture_inv mode now id iface filter)) as (o & Ho & Hinv). exists o. split; [done|].
  intros c Hc. assert (pool c = mode) as Hp by (rewrite Hc in Ho; by apply run_pool in Ho).
  destruct (Hinv c Hc) as [H1 H2 H3 H4 H5 H6 H7 H8]. split; [done|]. split; [done|]. split; [done|]. split; [|split; [|done]].
  - rewrite H4, negb_true_iff, String.eqb_neq. done.
  - intros Hm. apply H7. by rewrite Hp.
Qed.

(** Nothing runs any more. *)
Definition at_rest (c : capture) : Prop :=
  delivering c = false /\ flush c = Left_ /\ writers c = [] /\ Forall (fun a => is_completed a = true) (analyses c).

Definition ex_captured (n : Z) : Packet := mk_packet n "10.0.0.1" "10.0.0.2" 40000 53 "UDP" [].
Definition ex_session : Session := NewSession 0 "s1" "eth0" "".
(** The steps of the analysis, from its start. *)
Definition ex_analysis (i : nat) : list action := [Analyze i true; Analyze i true; Analyze i true; Analyze i true].
Definition ex_completion (i : nat) : list action := [Analyze i true; Analyze i true].

(** Both writers are busy when the session is stopped: what the flush holds then
    goes back into the buffer after the analysis has emptied it. *)
Definition ex_requeued : list action :=
  [Deliver (ex_captured 1); FlushTick; FlushWrite; Deliver (ex_captured 2); FlushTick; FlushWrite;
   Deliver (ex_captured 3); FlushTick; StopCapture 9; WorkersEnd] ++ ex_analysis 0 ++
  [FlushRequeue; FlushPut; FlushPut; FlushEnd; WriterDone 0 true; WriterDone 0 true] ++ ex_completion 0.
(** A worker with decoders of its own delivers a packet after the analysis took the buffer. *)
Definition ex_late : list action :=
  [Deliver (ex_captured 1); StopCapture 9; FlushEnd] ++ ex_analysis 0 ++ [Deliver (ex_captured 2); WorkersEnd] ++ ex_completion 0.
(** A session that is stopped a second time after it was completed. *)
Definition ex_twice : list action :=
  [StopCapture 9; WorkersEnd; FlushEnd] ++ ex_analysis 0 ++ ex_completion 0 ++ [StopCapture 10] ++ ex_analysis 1 ++ ex_completion 1.

(** C32: Once the decode pool has ended and an analysis has taken the rest of
    the buffer, and the periodic flush holds nothing, no later step leaves
    a packet behind: all are in the store or on their way to it, or recorded as refused. But
    a flush that finds both writers busy while the analysis ends puts its packets
    back into a buffer that nobody empties any more; workers with decoders of their own
    deliver after the analysis took the buffer; and a session that is stopped
    again after its end is analysed and completed a second time. *)
Theorem capture_saved :
  (forall acts acts' c c', run acts (new_capture true ex_session) = Ok (Some c) ->
     Exists (fun a => waited a = true) (analyses c) -> buffered (session c) = [] -> held (flush c) = [] ->
     run acts' c = Ok (Some c') ->
     buffered (session c') = [] /\
     received c' ≡ₚ mjoin (writers c') ++ mjoin (in_analysis <$> analyses c') ++ stored c' ++ overflowed c' ++ unsaved c') /\
  (exists acts c, run acts (new_capture true ex_session) = Ok (Some c) /\ at_rest c /\ Status (session c) = "completed"%string /\
     buffered (session c) = [ex_captured 3] /\ stored c = [ex_captured 1; ex_captured 2]) /\
  (exists acts c, run acts (new_capture false ex_session) = Ok (Some c) /\ at_rest c /\ Status (session c) = "completed"%string /\
     buffered (session c) = [ex_captured 2] /\ stored c = [ex_captured 1]) /\
  (exists acts c, run acts (new_capture true ex_session) = Ok (Some c) /\ at_rest c /\ completions c = 2%nat).
Proof.
  split_and!.
  - intros acts acts' c c' Hr Hw Hb Hh Hr'.
    assert (cap_inv c) as Hc by (destruct (run_inv acts (new_capture true ex_session) (new_capture_inv _ _ _ _ _)) as (o & Ho & Hi);
      rewrite Hr in Ho; injection Ho as <-; by apply Hi).
    assert (cap_inv c') as Hc' by (destruct (run_inv acts' c Hc) as (o & Ho & Hi);
      rewrite Hr' in Ho; injection Ho as <-; by apply Hi).
    assert (emptied c) as He by (split; [apply (i_waited c Hc); [by rewrite (run_pool _ _ _ Hr)|done]|done..]).
    destruct (run_keeps emptied acts' c c' act_emptied He Hr') as [_ Hb' Hh']. split; [done|].
    rewrite (i_conserve c' Hc'). unfold everywhere. by rewrite Hb', Hh'.
  - exists ex_requeued. eexists. split; [vm_compute; reflexivity|]. by repeat constructor.
  - exists ex_late. eexists. split; [vm_compute; reflexivity|]. by repeat constructor.
  - exists ex_twice. eexists. split; [vm_compute; reflexivity|]. by repeat constructor.
Qed.

Lemma capture_conserves_witness :
  exists c, run ex_requeued (new_capture true ex_session) = Ok (Some c) /\
    received c ≡ₚ buffered (session c) ++ held (flush c) ++ mjoin (writers c) ++ mjoin (in_analysis <$> analyses c) ++
      stored c ++ overflowed c ++ unsaved c.
Proof.
  destruct (capture_conserves ex_requeued true 0 "s1" "eth0" "") as (o & Ho & Hall).
  change (NewSession 0 "s1" "eth0" "") with ex_session in Ho. destruct o as [c|].
  - exists c. split; [exact Ho|]. apply (Hall c eq_refl).
  - exfalso. revert Ho. vm_compute. discriminate.
Defined.

Definition ex_quiet : list action :=
  [Deliver (ex_captured 1); StopCapture 9; WorkersEnd; FlushEnd] ++ ex_analysis 0.

Lemma capture_saved_witness :
  exists c, run ex_quiet (new_capture true ex_session) = Ok (Some c) /\ received c = [ex_captured 1] /\
    forall acts' c', run acts' c = Ok (Some c') -> buffered (session c') = [].
Proof.
  destruct capture_saved as [H _].
  destruct (run ex_quiet (new_capture true ex_session)) as [[c|]| |] eqn:E; try (exfalso; revert E; vm_compute; discriminate).
  exists c. split; [reflexivity|]. pose proof E as E'. vm_compute in E'. injection E' as Hc. split; [by rewrite <-Hc|].
  intros acts' c' Hr. apply (H ex_quiet acts' c c' E); [rewrite <-Hc; apply Exists_exists; eexists; split; [by left|done]|by rewrite <-Hc..|exact Hr].
Defined.

(** ** The counters of a capture *)

Definition proto_count (k : string) (ps : list Packet) : Z := zlen (filter (fun p => Protocol p = k) ps).
Definition total_bytes (ps : list Packet) : Z := foldl (fun n p => n + Length p) 0 ps.

Record counted (ps : list Packet) (r : reader_state) : Prop := {
  ct_packets : PacketCount (r_session r) = u64 (zlen ps) /\ TotalPackets (r_stats r) = u64 (zlen ps);
  ct_bytes : ByteCount (r_session r) = u64 (total_bytes ps) /\ TotalBytes (r_stats r) = u64 (total_bytes ps);
  ct_protocols : forall k, ProtocolCounts (r_stats r) !! k =
    if proto_count k ps =? 0 then None else Some (u64 (proto_count k ps));
}.

Lemma proto_count_snoc k ps p :
  proto_count k (ps ++ [p]) = proto_count k ps + if String.eqb (Protocol p) k then 1 else 0.
Proof.
  unfold proto_count. rewrite filter_app, zlen_app. f_equal. destruct (String.eqb_spec (Protocol p) k) as [E|E].
  - by rewrite filter_cons_True.
  - by rewrite filter_cons_False.
Qed.

(** What a live capture makes of a packet: a TCP, UDP or SCTP packet that no decoder has seen. *)
Lemma extract_plain g n p : extractPacketFromRaw g n = Some p ->
  AppProtocol p = "" /\ Protocol p ∈ ["TCP"; "UDP"; "SCTP"]%string /\ FrameNumber p = n /\ Length p = zlen (g_Data g).
Proof.
  unfold extractPacketFromRaw. destruct (NetworkLayer g) as [net|]; [|done]. cbn [mbind option_bind].
  destruct (addresses net) as [[[[? ?] ?] ?]|]; [|done]. cbn [mbind option_bind].
  destruct (live_transport g) as [t|] eqn:Et; [|done]. intros [= <-]. split_and!; try done. cbn [new_packet Protocol].
  unfold live_transport in Et. destruct (TransportLayer g) as [[t'|t'|]|]; try (injection Et as <-; set_solver);
    destruct (LayerSCTP g); try done; injection Et as <-; set_solver.
Qed.

Lemma read_turn_counted g r ps o r' : counted ps r -> read_turn g r = (o, r') ->
  counted (ps ++ opt_list o) r' /\ frameGen r' = u64 (frameGen r + 1) /\ o = extractPacketFromRaw g (u64 (frameGen r + 1)).
Proof.
  intros [[H1 H2] [H3 H4] H5]. unfold read_turn. destruct (extractPacketFromRaw g _) as [p|] eqn:E; intros [= <- <-];
    [|cbn [opt_list from_option]; rewrite app_nil_r; by split].
  destruct (extract_plain _ _ _ E) as (Ha & _ & _ & Hl). split; [|by cbn]. cbn [opt_list from_option].
  assert (zlen (ps ++ [p]) = zlen ps + 1) as Hz by by rewrite zlen_app.
  assert (total_bytes (ps ++ [p]) = total_bytes ps + Length p) as Hb by (unfold total_bytes; by rewrite foldl_app).
  split; cbn [r_session r_stats IncrementCounters Record_ PacketCount ByteCount TotalPackets TotalBytes ProtocolCounts].
  - rewrite H1, H2, Hz. unfold u64, wrap. by rewrite Z.add_mod_idemp_l.
  - rewrite H3, H4, Hb. unfold u64, wrap. by rewrite Z.add_mod_idemp_l, Z.add_mod_idemp_r.
  - intros k. unfold counted_protocol. rewrite Ha. cbn [String.eqb]. rewrite proto_count_snoc.
    assert (0 <= proto_count k ps) by apply zlen_nonneg. destruct (String.eqb_spec (Protocol p) k) as [<-|Hne].
    + rewrite lookup_insert_eq, H5. rewrite (proj2 (Z.eqb_neq (proto_count _ ps + 1) 0)) by lia. f_equal.
      destruct (Z.eqb_spec (proto_count (Protocol p) ps) 0) as [->|]; cbn [default from_option]; [done|].
      unfold id, u64, wrap. by rewrite Z.add_mod_idemp_l.
    + rewrite lookup_insert_ne by done. by rewrite H5, Z.add_0_r.
Qed.

(** The packets of a live source, each with its number. *)
Fixpoint live_packets (frameNum : Z) (gs : list gopacket) : list Packet :=
  match gs with
  | [] => []
  | g :: gs => opt_list (extractPacketFromRaw g (u64 (frameNum + 1))) ++ live_packets (frameNum + 1) gs
  end.

Lemma read_turns_counted gs n r ps ps' r' : frameGen r = u64 n -> counted ps r -> read_turns gs r = (ps', r') ->
  ps' = live_packets n gs /\ counted (ps ++ ps') r'.
Proof.
  revert n r ps ps' r'. induction gs as [|g gs IH]; intros n r ps ps' r' Hn Hc; cbn [read_turns live_packets].
  - intros [= <- <-]. by rewrite app_nil_r.
  - destruct (read_turn g r) as [o r1] eqn:E. destruct (read_turn_counted _ _ _ _ _ Hc E) as (Hc1 & Hf & Ho).
    destruct (read_turns gs r1) as [ps1 r2] eqn:E1. intros [= <- <-].
    assert (u64 (frameGen r + 1) = u64 (n + 1)) as Hn1 by (rewrite Hn; unfold u64, wrap; by rewrite Z.add_mod_idemp_l).
    destruct (IH (n + 1) r1 _ _ _ ltac:(by rewrite Hf) Hc1 E1) as [-> Hc2]. rewrite Hn1 in Ho. rewrite Ho in Hc2 |- *.
    rewrite <-app_assoc in Hc2. by destruct (extractPacketFromRaw g (u64 (n + 1))).
Qed.

Lemma live_packets_plain n gs p : p ∈ live_packets n gs -> AppProtocol p = "" /\ Protocol p ∈ ["TCP"; "UDP"; "SCTP"]%string.
Proof.
  revert n. induction gs as [|g gs IH]; intros n; cbn [live_packets]; [by intros ?%elem_of_nil|].
  rewrite elem_of_app. intros [Hp|Hp]; [|by eapply IH]. destruct (extractPacketFromRaw g _) as [q|] eqn:E;
    [|by apply elem_of_nil in Hp]. apply list_elem_of_singleton in Hp as ->. by destruct (extract_plain _ _ _ E) as (? & ? & _).
Qed.

(** Of any packets that a live source yields, exactly the TCP, UDP and
    SCTP ones over IP are submitted to the decoders, numbered by their place among all; the
    counters of the session and of the statistics are their number and their
    bytes, and the count of each protocol is the number of its packets, all modulo 2^64. The
    packets are counted before any decoder has seen them: whatever the traffic, no application protocol
    is ever counted, only the three transports. *)
Theorem live_counters gs now id iface bpf :
  let r0 := {| frameGen := 0; r_session := NewSession now id iface bpf; r_stats := NewStats now |} in
  let '(ps, r) := read_turns gs r0 in
  ps = live_packets 0 gs /\
  PacketCount (r_session r) = u64 (zlen ps) /\ TotalPackets (r_stats r) = u64 (zlen ps) /\
  ByteCount (r_session r) = u64 (total_bytes ps) /\ TotalBytes (r_stats r) = u64 (total_bytes ps) /\
  (forall k, default 0 (ProtocolCounts (r_stats r) !! k) = u64 (proto_count k ps)) /\
  dom (ProtocolCounts (r_stats r)) ⊆ {["TCP"; "UDP"; "SCTP"]}%string.
Proof.
  cbv zeta. destruct (read_turns gs _) as [ps r] eqn:E.
  match type of E with read_turns _ ?r0 = _ =>
    assert (counted [] r0) as H0 by (by split); assert (frameGen r0 = u64 0) as Hf by done end.
  destruct (read_turns_counted gs 0 _ [] ps r Hf H0 E) as [Hps [[H1 H2] [H3 H4] H5]]. cbn [app] in *. split_and!; try done.
  - intros k. rewrite H5. destruct (Z.eqb_spec (proto_count k ps) 0) as [->|]; done.
  - intros k. rewrite elem_of_dom, H5. destruct (Z.eqb_spec (proto_count k ps) 0) as [Hz|Hz]; [by intros []|]. intros _.
    assert (exists p, p ∈ ps /\ Protocol p = k) as (p & Hp & <-).
    { unfold proto_count in Hz. destruct (filter (fun p => Protocol p = k) ps) as [|p l] eqn:Ef; [done|].
      exists p. assert (p ∈ filter (fun p => Protocol p = k) ps) as Hp by (rewrite Ef; by left).
      by apply list_elem_of_filter in Hp as [? ?]. }
    rewrite Hps in Hp. destruct (live_packets_plain _ _ _ Hp) as [_ Hk]. revert Hk. rewrite !elem_of_cons, elem_of_nil.
    set_solver.
Qed.

Example ex_live_counters :
  let '(ps, r) := read_turns [ex_layers; ex_ping_layers; ex_layers]
    {| frameGen := 0; r_session := ex_session; r_stats := NewStats 0 |} in
  (FrameNumber <$> ps, PacketCount (r_session r), map_to_list (ProtocolCounts (r_stats r))) = ([1; 3], 2, [("TCP"%string, 2)]).
Proof. by vm_compute. Qed.

(** ** Live decoders *)

(** Live decoders only annotate the packet, as the decoders of the pool do. *)
Class StreamingLaws (S : Type) `{StreamingDecoders S} : Prop :=
  live_annotates : forall s p s' p' ms, live_all s p = Ok (s', p', ms) -> annotated p p'.

Lemma wrapped_annotates {S} `{DecoderLaws S} (s : S) p s' p' o :
  StreamingWrapper_HandlePacketLive s p = Ok (s', p', o) ->
  annotated p p' /\ forall d, o = Some d -> assign d p' = p' /\ D_Errors d = Errors p'.
Proof.
  unfold StreamingWrapper_HandlePacketLive. intros ([s1 q] & E & E')%bind_Ok. apply handle_annotates in E. revert E'.
  destruct (_ && _); intros [= <- <- <-].
  - split; [done|]. intros d [= <-]. split; [by destruct q|done].
  - split; [|done]. destruct E as (app & sum & errs & ->). by exists (AppProtocol p), (Summary p), errs.
Qed.

Global Instance no_streaming_laws : StreamingLaws unit.
Proof. intros s p s' p' ms [= _ <- _]. apply annotated_refl. Qed.

Lemma more_streaming_laws {A B} `{DecoderLaws A} `{StreamingLaws B} :
  @StreamingLaws (A * B) (@more_streaming A B WrapAsStreaming _).
Proof.
  intros s p s' p' ms E. apply bind_Ok in E as ([[a q] o] & E1 & E). apply wrapped_annotates in E1 as [Hq Ho].
  assert ((match o with Some d => assign d q | None => q end) = q) as Hsame
    by (destruct o as [d|]; [by destruct (Ho d eq_refl)|done]).
  assert (exists b r ms', live_all (snd s) q = Ok (b, r, ms') /\ p' = r) as (b & r & ms' & Hr & ->).
  { destruct o as [d|]; cbn in E; apply bind_Ok in E as ([[b r] ms'] & E2 & [= _ <- _]); rewrite ?Hsame in E2; eauto. }
  transitivity q; [done|]. by eapply live_annotates.
Qed.

(** ** Filters *)

Example ex_filters : normalizeBPFFilter <$> ["5060"; " 5060, 5061 "; "port 80"; "5060,x"; ""]%string =
  ["port 5060"; "port 5060 or port 5061"; "port 80"; "5060,x"; ""]%string.
Proof. by vm_compute. Qed.
