(* ===== verification/Executor.v ===== *)
(** * internal/execution, internal/alerting and the analysis of live captures

    executor.go and pcap_pipeline.go: a job from the capture file to the calls
    of the store; analyzeAndStore of internal/capture/live.go, which does the
    same at the end of a live capture; and dispatcher.go of internal/alerting,
    which chooses the events to send to each target and writes the messages.

    There is a store: without one a live capture is not analysed.
    What the store answers is a parameter, and a run gives the calls it makes
    of the store in order. Logs, metrics, the requests to AI providers and the look-ups of
    addresses, which run on their own after the analysis, are not modelled. *)
From stdpp Require Import sorting.
From S2P Require Export Reader.
From S2P Require Export Builtin.
From S2P Require Export Trace.

(** ** storage: the records that are exchanged, with the fields the program sets or reads *)

Record EventRecord := {
  er_JobID : option Z; er_SessionID : string; er_Timestamp : string; er_Severity : string; er_Protocol : string;
  er_Title : string; er_Description : string;
}.

Record AlertTarget := {
  at_Name : string; at_Type : string; at_URL : string; at_ConfigJSON : string; at_Enabled : bool; at_MinSeverity : string;
}.

(** ** dispatcher.go *)

Definition severityLevel (s : string) : Z :=
  if String.eqb s "critical" then 3 else if String.eqb s "warning" then 2 else 1.

Definition matching (t : AlertTarget) (events : list EventRecord) : list EventRecord :=
  filter (fun e => severityLevel (at_MinSeverity t) <= severityLevel (er_Severity e)) events.

(** What is sent where, each in a goroutine of its own; [None]: the targets
    cannot be loaded. *)
Definition Dispatch (targets : option (list AlertTarget)) (events : list EventRecord) : list (AlertTarget * list EventRecord) :=
  if bool_decide (length events = 0%nat) then []
  else omap (fun t =>
    if negb (at_Enabled t) then None
    else match matching t events with [] => None | evts => Some (t, evts) end) (default [] targets).

Definition nl : string := gostr [LF].
Definition crnl : string := gostr crlf.

Section messages.
Context `{Unicode}.

Definition ToUpper (s : string) : string := gostr (to_upper (gobytes s)).

(** The error, or where to post and what. *)
Definition sendSlack (t : AlertTarget) (events : list EventRecord) : string + (string * string) :=
  if String.eqb (at_URL t) "" then inl (cat ["slack target "; fmt_q (gobytes (at_Name t)); " has no webhook URL"])
  else inr (at_URL t, cat
    (cat ["*DeepPacketAI Alert* — "; fmt_d (zlen events); " event(s)"; nl] ::
     ((fun e => cat ["• ["; ToUpper (er_Severity e); "] *"; er_Title e; "* ("; er_Protocol e; "): "; er_Description e; nl]) <$> events))).

Record WebhookPayload := { Source : string; Wh_Timestamp : string; Events : list EventRecord }.

(** [Headers]: the headers of the configuration, empty when it cannot be read. *)
Definition sendWebhook (Headers : string -> list (string * string)) (now : string) (t : AlertTarget) (events : list EventRecord) :
    string + (string * WebhookPayload * list (string * string)) :=
  if String.eqb (at_URL t) "" then inl (cat ["webhook target "; fmt_q (gobytes (at_Name t)); " has no URL"])
  else inr (at_URL t, {| Source := "DeepPacketAI"; Wh_Timestamp := now; Events := events |},
            if String.eqb (at_ConfigJSON t) "" || String.eqb (at_ConfigJSON t) "{}" then [] else Headers (at_ConfigJSON t)).

Record EmailConfig := { Host : string; Port : Z; Username : string; Password : string; From : string; To : string }.
Record email := { em_addr : string; em_implicitTLS : bool; em_from : string; em_to : list string; em_msg : string }.

(** The recipients are trimmed on port 465 only. *)
Definition sendEmail (Unmarshal : string -> string + EmailConfig) (t : AlertTarget) (events : list EventRecord) : string + email :=
  match Unmarshal (at_ConfigJSON t) with
  | inl err => inl (cat ["email config parse: "; err])
  | inr cfg =>
    if String.eqb (Host cfg) "" || String.eqb (From cfg) "" || String.eqb (To cfg) "" then
      inl (cat ["email target "; fmt_q (gobytes (at_Name t)); " missing smtp_host/from/to in config_json"])
    else
      let port := if Port cfg =? 0 then 587 else Port cfg in
      let body := cat (cat ["DeepPacketAI detected "; fmt_d (zlen events); " alert(s):"; crnl; crnl] ::
        ((fun e => cat ["["; ToUpper (er_Severity e); "] "; er_Title e; " ("; er_Protocol e; ")"; crnl; er_Description e; crnl; crnl]) <$> events)) in
      let msg := cat ["From: "; From cfg; crnl; "To: "; To cfg; crnl; "Subject: DeepPacketAI Alert — "; fmt_d (zlen events); " event(s)";
        crnl; crnl; body] in
      let tos := str_split (byte_of 0x2C) (To cfg) in
      inr {| em_addr := cat [Host cfg; ":"; fmt_d port]; em_implicitTLS := port =? 465; em_from := From cfg;
             em_to := if port =? 465 then (fun to => gostr (trim_space (gobytes to))) <$> tos else tos; em_msg := msg |}
  end.

End messages.

(** ** pcap_pipeline.go *)

(** The handler that Run gives to the reader submits the packet to the pool. *)
Definition submitted (pkts : list Packet) (pkt : Packet) : list Packet := pkts ++ [pkt].

Section pipeline.
Context `{Unicode} `{Gopacket} `{Assembler} {D : Type} `{ProtocolDecoder D}.

(** Run of a pool of [n] workers: the flows, the packets that were passed on,
    their number and the error of the reader, for any interleaving and any map orders of the flushes. *)
Inductive pipeline_run (n : nat) (file : list byte) : list Flow -> list Packet -> Z -> option string -> Prop :=
  | pipeline_ran pkts err p flows :
    ReadPCAP (quiet submitted) file [] = (pkts, err) ->
    rtc (pool_step work drained (buffer_size 4096)) (NewPool n NewDecodeWorkerWithAssembler pkts) p -> finished p ->
    Forall2 (fun w fs => flushes (w_decoders (w_state w)) fs) (workers p) flows ->
    pipeline_run n file (mjoin flows) (packets p) (zlen pkts) err.

End pipeline.

(** ** executor.go: runPCAP *)

(** The calls of the store and of the dispatcher. *)
Inductive store_call :=
  | FailJob (reason : string)
  | StoreEvents (events : list EventRecord)
  | DispatchEvents (events : list EventRecord)
  | StoreTelecomSessions (sessions : list TelecomSession)
  | StoreFlows (flows : list Flow)
  | StoreCalls (calls : list Call)
  | StoreRTPLegs (calls : list Call)
  | StorePackets (sessionID : string) (packets : list Packet)
  | CompleteJob.

(** The error, if any, that each call of the store gives back. *)
Definition store_answers := store_call -> option string.

Definition no_traffic : string :=
  "no supported traffic found: PCAP contains no TCP/UDP/SCTP over IPv4/IPv6 (pure ICMP, ARP, or non-IP captures are not analysed)".

Section jobs.
Context `{Unicode} `{MapRange} `{GoLib} `{GoFmt} `{SortSlice}.
Context (Unmarshal : string -> RuleCondition + string) (fresh : nat -> string * time).
Context (records : option (list UserDetectionRule)) (dispatcher : bool).

Definition event_of (jobID : Z) (sessionID : string) (a : Alert) : EventRecord :=
  {| er_JobID := Some jobID; er_SessionID := sessionID; er_Timestamp := Format_RFC3339 (a_Timestamp a);
     er_Severity := a_Severity a; er_Protocol := a_Protocol a; er_Title := a_Title a; er_Description := a_Description a |}.

(** The events of the alerts; the answer of the store is only logged. *)
Definition store_alerts (jobID : Z) (sessionID : string) (alerts : list Alert) : list store_call :=
  let events := event_of jobID sessionID <$> alerts in
  if bool_decide (length alerts = 0%nat) then []
  else StoreEvents events :: if dispatcher then [DispatchEvents events] else [].

(** The calls that store the results, and the error that is returned. The
    answer to StorePackets is only logged, that to FailJob ignored. *)
Definition store_results (ans : store_answers) (flows : list Flow) (calls : list Call) (packets : list Packet) :
    list store_call * option string :=
  match ans (StoreFlows flows) with
  | Some e => ([StoreFlows flows; FailJob e], Some e)
  | None =>
    match ans (StoreCalls calls) with
    | Some e => ([StoreFlows flows; StoreCalls calls; FailJob e], Some e)
    | None =>
      match ans (StoreRTPLegs calls) with
      | Some e => ([StoreFlows flows; StoreCalls calls; StoreRTPLegs calls; FailJob e], Some e)
      | None =>
        ([StoreFlows flows; StoreCalls calls; StoreRTPLegs calls] ++
         (if bool_decide (length packets = 0%nat) then [] else [StorePackets "" packets]) ++ [CompleteJob],
         ans CompleteJob)
      end
    end
  end.

(** runPCAP on what the pipeline gave, the sessions being ranged over in
    [order]: the calls of the store, and the error that is returned. The answer to
    StoreTelecomSessions is only logged. *)
Definition runPCAP (detectionReg : option (registry Rule)) (order : list (string * TelecomSession)) (ans : store_answers)
    (jobID : Z) (flows : list Flow) (packets : list Packet) (pcapCount : Z) (err : option string) :
    res (list store_call * option string) :=
  match err with
  | Some e => Ok ([FailJob e], Some e)
  | None =>
    if pcapCount =? 0 then Ok ([FailJob no_traffic], Some no_traffic)
    else
      alerts ← detect Unmarshal fresh detectionReg records flows;
      let telecomSessions := Trace flows order in
      let sessions := if bool_decide (length telecomSessions = 0%nat) then [] else [StoreTelecomSessions telecomSessions] in
      let '(calls, e) := store_results ans flows (job_calls flows) packets in
      Ok (store_alerts jobID "" alerts ++ sessions ++ calls, e)
  end.

(** ** live.go: analyzeAndStore, from the flows of the session and the packets
    that are left in its buffer: the calls, and whether the session is marked
    as completed. The answers to StoreRTPLegs, StorePackets and CompleteJob are only logged. *)

Definition analyze_score (c : Call) : Call := AnalyzeCall (score_call c).

Definition analyzeAndStore (ans : store_answers) (jobID : Z) (sessionID : string) (flows : list Flow) (pkts : list Packet) :
    res (list store_call * bool) :=
  alerts ← detect Unmarshal fresh None records flows;
  let calls := analyze_score <$> CorrelateSIPRTP flows in
  let events := store_alerts jobID sessionID alerts in
  match ans (StoreFlows flows) with
  | Some e => Ok (events ++ [StoreFlows flows; FailJob e], false)
  | None =>
    match ans (StoreCalls calls) with
    | Some e => Ok (events ++ [StoreFlows flows; StoreCalls calls; FailJob e], false)
    | None =>
      Ok (events ++ [StoreFlows flows; StoreCalls calls; StoreRTPLegs calls] ++
          (if bool_decide (length pkts = 0%nat) then [] else [StorePackets sessionID pkts]) ++ [CompleteJob], true)
    end
  end.

End jobs.

(** ** Alerts that are not sent *)

Lemma collect_elem {A B} (g : A -> res (list B)) l r x bs b :
  collect g l = Ok r -> x ∈ l -> g x = Ok bs -> b ∈ bs -> b ∈ r.
Proof.
  unfold collect. assert (forall l acc r, foldM (fun acc x => bs ← g x; Ok (acc ++ bs)) acc l = Ok r ->
    (forall b, b ∈ acc -> b ∈ r) /\ (forall x bs b, x ∈ l -> g x = Ok bs -> b ∈ bs -> b ∈ r)) as Hgen.
  { clear. induction l as [|y l IH]; intros acc r; cbn [foldM].
    - intros [= <-]. split; [done|]. intros x bs b Hx. by apply elem_of_nil in Hx.
    - intros (acc' & E & Hr)%bind_Ok. apply bind_Ok in E as (ys & Hy & [= <-]). destruct (IH _ _ Hr) as [H1 H2]. split.
      + intros b Hb. apply H1, elem_of_app. by left.
      + intros x bs b Hx Hg Hb. apply elem_of_cons in Hx as [->|Hx]; [|by eapply H2].
        rewrite Hg in Hy. injection Hy as <-. apply H1, elem_of_app. by right. }
  intros Hr Hx Hg Hb. destruct (Hgen l [] r Hr) as [_ H2]. by eapply H2.
Qed.

Section sent.
Context `{Unicode} `{MapRange} `{GoLib}.

(** What detection makes of a failure that a decoder marked. *)
Definition failure_rule (t : FlowType) : option Rule :=
  match t with
  | FlowDiameter => Some diameterErrorRule
  | FlowGTP => Some gtpFailureRule
  | FlowPFCP => Some pfcpFailureRule
  | _ => None
  end.

Lemma failure_rule_checks t r f flows : failure_rule t = Some r -> f ∈ flows -> Type_ f = t ->
  get_bool (Metrics f) "is_error" = Some true ->
  r ∈ BuiltinRules /\ forall alerts, Check r (context_of (summary_of <$> flows)) = Ok alerts ->
    exists a, a ∈ alerts /\ a_FlowID a = FlowID f /\ a_Severity a = SeverityError.
Proof.
  intros Hr Hf Ht He. assert (bool_metric (fs_Metrics (summary_of f)) "is_error" = true) as Hb
    by (unfold bool_metric; cbn [summary_of fs_Metrics]; by rewrite He).
  assert (summary_of f ∈ ctx_Flows (context_of (summary_of <$> flows))) as Hin by (cbn; by apply list_elem_of_fmap_2).
  split; [destruct t; cbn in Hr; simplify_eq; unfold BuiltinRules; set_solver|]. intros alerts Hc.
  change (bool_metric (Metrics f) "is_error" = true) in Hb.
  assert (forall ty g, flow_type_string t = ty -> of_type ty g (summary_of f) = g (summary_of f)) as Hty
    by (intros ty g <-; unfold of_type; cbn [summary_of fs_Type]; by rewrite Ht, String.eqb_refl).
  destruct t; cbn in Hr; simplify_eq; cbn [Check diameterErrorRule gtpFailureRule pfcpFailureRule failureRule flow_rule] in Hc;
    (eexists; split; [eapply (collect_elem _ _ _ (summary_of f));
       [exact Hc|exact Hin|rewrite Hty by done; cbn [summary_of fs_Metrics]; rewrite Hb; reflexivity|by left]|by split]).
Qed.

Context (Unmarshal : string -> RuleCondition + string) (fresh : nat -> string * time).

Lemma stamp_elem a alerts : a ∈ alerts -> exists a', a' ∈ imap (stamp fresh) alerts /\ a_FlowID a' = a_FlowID a /\
  a_Severity a' = a_Severity a.
Proof.
  intros [i Hi]%list_elem_of_lookup. exists (stamp fresh i a). split; [|done]. apply list_elem_of_lookup. exists i.
  by rewrite list_lookup_imap, Hi.
Qed.

Lemma detect_registered now records flows :
  detect Unmarshal fresh (Some (registerDetectionPlugins now)) records flows = detect Unmarshal fresh None records flows.
Proof. unfold detect. by rewrite builtin_active. Qed.

Lemma detect_failure now records flows f r : failure_rule (Type_ f) = Some r -> f ∈ flows ->
  get_bool (Metrics f) "is_error" = Some true ->
  exists alerts a, detect Unmarshal fresh (Some (registerDetectionPlugins now)) records flows = Ok alerts /\ a ∈ alerts /\
    a_FlowID a = FlowID f /\ a_Severity a = SeverityError.
Proof.
  intros Hr Hf He. destruct (failure_rule_checks (Type_ f) r f flows Hr Hf eq_refl He) as [Hin Hc].
  rewrite detect_registered.
  destruct (returns_inv _ _ (detect_ok Unmarshal fresh now None records flows)) as (alerts & Hd & _).
  change (toggled (registerDetectionPlugins now) <$> None) with (@None (registry Rule)) in Hd.
  unfold detect in Hd |- *. cbn [mbind res_bind] in Hd |- *. apply bind_Ok in Hd as ([e al] & Hrun & [= ->]). rewrite Hrun. cbn [mbind res_bind].
  unfold RunOnFlows in Hrun. apply bind_Ok in Hrun as (al & Hal & [= _ <-]). cbn [e_rules NewEngineWithRules] in Hal.
  change (check_rules (context_of (summary_of <$> flows))) with
    (collect (fun rule => Check rule (context_of (summary_of <$> flows)))) in Hal.
  assert (r ∈ (BuiltinRules ++ Builtin5GCRules) ++ LoadUserRules Unmarshal records) as Hin'
    by (apply elem_of_app; left; apply elem_of_app; by left).
  assert (exists bs, Check r (context_of (summary_of <$> flows)) = Ok bs) as [bs Hbs].
  { pose proof builtin_rules_ok as Hok. rewrite Forall_forall in Hok.
    assert (rule_ok r) as Hro by (apply Hok, elem_of_app; by left).
    destruct (returns_inv _ _ (Hro (context_of (summary_of <$> flows)) _ eq_refl)) as (bs & Hbs & _). by exists bs. }
  destruct (Hc bs Hbs) as (a & Ha & Hid & Hs).
  assert (a ∈ al) as Hal'; [eapply (collect_elem _ _ _ r); [exact Hal|exact Hin'|exact Hbs|exact Ha]|].
  destruct (stamp_elem a al Hal') as (a' & Ha' & Hid' & Hs'). exists (imap (stamp fresh) al), a'. split; [reflexivity|].
  split; [exact Ha'|]. by rewrite Hid', Hs'.
Qed.

(** C33: A target that is enabled is sent, in order, exactly the events of its
    minimum severity or more, if there are any. But the severity "error" ranks with
    "info", below "warning": whenever a decoder marks a Diameter, GTP or PFCP flow as
    failed, detection raises an error for it, and no target whose minimum is "warning", the default, or
    "critical" is ever sent it. *)
Theorem failures_not_sent now records jobID sessionID flows f r targets :
  failure_rule (Type_ f) = Some r -> f ∈ flows -> get_bool (Metrics f) "is_error" = Some true ->
  (forall events t evts, (t, evts) ∈ Dispatch (Some targets) events <->
     t ∈ targets /\ at_Enabled t = true /\ evts = matching t events /\ evts <> []) /\
  exists alerts a, detect Unmarshal fresh (Some (registerDetectionPlugins now)) records flows = Ok alerts /\ a ∈ alerts /\
    a_FlowID a = FlowID f /\ a_Severity a = "error"%string /\
    forall t, at_MinSeverity t ∈ ["warning"; "critical"]%string -> forall events, event_of jobID sessionID a ∉ matching t events.
Proof.
  intros Hr Hf He. split.
  - intros events t evts. unfold Dispatch. case_bool_decide as El.
    + apply length_zero_iff_nil in El as ->. split; [by intros ?%elem_of_nil|]. intros (_ & _ & -> & Hn). done.
    + cbn [default from_option]. unfold id. rewrite list_elem_of_omap. split.
      * intros (t' & Ht' & E). destruct (at_Enabled t') eqn:En; [|done]. cbn [negb] in E.
        destruct (matching t' events) as [|e l] eqn:Em; [done|]. injection E as -> <-. by rewrite Em.
      * intros (Ht & En & -> & Hn). exists t. split; [done|]. rewrite En. cbn [negb]. by destruct (matching t events).
  - destruct (detect_failure now records flows f r Hr Hf He) as (alerts & a & Hd & Ha & Hid & Hs).
    exists alerts, a. split; [exact Hd|]. split; [exact Ha|]. split; [exact Hid|]. split; [exact Hs|]. intros t Ht events Hin. apply list_elem_of_filter in Hin as [Hle _].
    cbn [event_of er_Severity] in Hle. rewrite Hs in Hle. 
    apply list_elem_of_In in Ht as [E|[E|[]]]; rewrite <-E in Hle; revert Hle; clear; cbn; lia.
Qed.
End sent.

(** ** The packets of a file, through the pool *)

Lemma mjoin_seq_cons {A} (g : nat -> list A) x k n : (k < n)%nat ->
  mjoin ((fun i => if decide (i = k) then x :: g i else g i) <$> seq 0 n) ≡ₚ x :: mjoin (g <$> seq 0 n).
Proof.
  intros Hk. replace n with (k + S (n - k - 1))%nat by lia. rewrite seq_app. cbn [seq Nat.add].
  rewrite !fmap_app, !fmap_cons, !join_app, !mjoin_cons. rewrite decide_True by done.
  assert (forall a m, (k < a \/ a + m <= k)%nat ->
    (fun i => if decide (i = k) then x :: g i else g i) <$> seq a m = g <$> seq a m) as He.
  { intros a m Ha. apply list_fmap_ext. intros i y Hy. apply lookup_seq in Hy as [-> Hlt]. rewrite decide_False by lia. done. }
  rewrite (He 0%nat k) by lia. rewrite (He (S k) (n - k - 1)%nat) by lia. solve_Permutation.
Qed.

Lemma routed_partition n capture : pool_size_ok n ->
  mjoin ((fun i => routed n i capture) <$> seq 0 n) ≡ₚ capture.
Proof.
  intros Hn. induction capture as [|pkt capture IH].
  - assert (forall a, mjoin ((fun _ : nat => @nil Packet) <$> seq a n) = []) as H0 by (clear; induction n; intros a; [done|apply IHn]).
    apply Permutation_nil_r, (H0 0%nat).
  - destruct (pkt_route_ok n pkt Hn) as (k & Hk & Hlt). transitivity (pkt :: mjoin ((fun i => routed n i capture) <$> seq 0 n));
      [|by constructor]. rewrite <-(mjoin_seq_cons _ pkt k n Hlt). match goal with |- ?a ≡ₚ ?b => replace a with b; [done|] end. symmetry. f_equal. apply list_fmap_ext. intros i j Hj. rewrite routed_cons, Hk.
    destruct (decide (j = k)) as [->|Hne]; [by rewrite decide_True|]. rewrite decide_False; [done|]. intros [= E]. lia.
Qed.

Section annotations.
Context `{Unicode} `{Gopacket} `{Assembler} {D : Type} `{DecoderLaws D}.

Lemma annotateByPort_annotated p : annotated p (annotateByPort p).
Proof. unfold annotateByPort. repeat case_match; auto with deeppacket. Qed.

Lemma work_annotated (w : DecodeWorker D) p w' p' : work w p = Ok (w', p') -> annotated p p'.
Proof.
  unfold work. intros ([d q] & E & E')%bind_Ok. apply handle_annotates in E. cbn [w_assembler] in E'.
  destruct (w_assembler w) as [a|]; [|by injection E' as <- <-].
  destruct (_ && _); [|by injection E' as <- <-]. apply bind_Ok in E' as (w1 & _ & [= <- <-]).
  transitivity q; [done|apply annotateByPort_annotated].
Qed.

Lemma work_all_annotated (w : DecodeWorker D) pkts s out : work_all work w pkts = Ok (s, out) -> Forall2 annotated pkts out.
Proof.
  unfold work_all. assert (forall pkts w acc s out, foldM (work_one work) (w, acc) pkts = Ok (s, out) ->
    exists tail, out = acc ++ tail /\ Forall2 annotated pkts tail) as Hgen.
  { clear pkts w s out. induction pkts as [|p pkts IH]; intros w acc s out; cbn [foldM].
    - intros [= _ <-]. exists []. by rewrite app_nil_r.
    - intros ([w1 acc1] & E & Hr)%bind_Ok. unfold work_one in E. apply bind_Ok in E as ([w2 q] & E & [= <- <-]).
      cbn [fst snd] in *. apply IH in Hr as (tail & -> & Hf). exists (q :: tail). rewrite <-app_assoc. split; [done|].
      constructor; [by eapply work_annotated|done]. }
  intros Hr. by apply Hgen in Hr as (tail & -> & Hf).
Qed.

(** The packets that come out of the pool are those that the reader found. *)
Lemma run_packets n file flows packets count err :
  pool_size_ok n -> pipeline_run n file flows packets count err ->
  exists captured handled, ReadPCAP (quiet (fun seen p => seen ++ [p])) file [] = (captured, err) /\ count = zlen captured /\
     Forall2 annotated captured handled /\ packets ≡ₚ handled.
Proof.
  intros Hn Hrun. destruct Hrun as [pkts err p flows Hread Hpool Hfin Hfl].
  destruct (pool_served work drained _ n _ pkts p ltac:(apply Hn) Hpool Hfin) as (_ & Hlen & outs & Ho & Hperm & Hs).
  assert (Forall2 (Forall2 annotated) ((fun i => routed n i pkts) <$> seq 0 n) outs) as Hall.
  { apply Forall2_fmap_l, Forall2_lookup. intros i. destruct (decide (i < n)%nat) as [Hi|Hi].
    - rewrite lookup_seq_lt by done. destruct (lookup_lt_is_Some_2 (workers p) i) as [w Hw]; [lia|].
      destruct (lookup_lt_is_Some_2 outs i) as [out Hout]; [lia|]. rewrite Hout. constructor.
      destruct (Hs i w out Hw Hout) as (s & Hwork & _). by eapply work_all_annotated.
    - rewrite lookup_seq_ge by lia. rewrite lookup_ge_None_2 by lia. constructor. }
  assert (Forall2 annotated (mjoin ((fun i => routed n i pkts) <$> seq 0 n)) (mjoin outs)) as Hj.
  { revert Hall. generalize ((fun i => routed n i pkts) <$> seq 0 n) as shares. clear. intros shares Hall.
    induction Hall as [|l k ls ks Hlk _ IH]; [constructor|]. rewrite !mjoin_cons. by apply Forall2_app. }
  destruct (Permutation_Forall2 (routed_partition n pkts Hn) Hj) as (handled & Hp & Hf).
  exists pkts, handled. split_and!; [done|done|done|]. by rewrite Hperm.
Qed.
End annotations.

(** ** How a job ends *)

Definition is_sessions (c : store_call) : bool := match c with StoreTelecomSessions _ => true | _ => false end.
Definition completes (cs : list store_call) : bool := match last cs with Some CompleteJob => true | _ => false end.

(** The calls that took effect. *)
Definition stored (ans : store_answers) (cs : list store_call) : list store_call := filter (fun c => ans c = None) cs.

(** The place of a call in a run. *)
Definition rank (c : store_call) : Z :=
  match c with
  | StoreEvents _ => 0 | DispatchEvents _ => 1 | StoreTelecomSessions _ => 2 | StoreFlows _ => 3 | StoreCalls _ => 4
  | StoreRTPLegs _ => 5 | StorePackets _ _ => 6 | CompleteJob | FailJob _ => 7
  end.

(** The calls of a live session in place of those of a file. *)
Definition relabel_event (sid : string) (e : EventRecord) : EventRecord :=
  {| er_JobID := er_JobID e; er_SessionID := sid; er_Timestamp := er_Timestamp e; er_Severity := er_Severity e;
     er_Protocol := er_Protocol e; er_Title := er_Title e; er_Description := er_Description e |}.
Definition relabel (sid : string) (c : store_call) : store_call :=
  match c with
  | StoreEvents es => StoreEvents (relabel_event sid <$> es)
  | DispatchEvents es => DispatchEvents (relabel_event sid <$> es)
  | StorePackets _ packets => StorePackets sid packets
  | _ => c
  end.

Lemma filter_kept {A} (P : A -> Prop) `{!forall x, Decision (P x)} l : Forall P l -> filter P l = l.
Proof. induction 1 as [|x l Hx _ IH]; [done|]. by rewrite filter_cons_True, IH. Qed.

Lemma sorted_app (l k : list Z) m : StronglySorted Z.lt l -> StronglySorted Z.lt k ->
  Forall (fun x => x <= m) l -> Forall (fun x => m < x) k -> StronglySorted Z.lt (l ++ k).
Proof.
  intros Hl Hk Hlm Hkm. induction Hl as [|x l Hl IH Hx]; [done|]. inversion Hlm; subst. cbn [app]. constructor; [by apply IH|].
  apply Forall_app. split; [done|]. eapply Forall_impl; [exact Hkm|]. cbn. lia.
Qed.

Lemma job_calls_analyze flows : job_calls flows = analyze_score <$> CorrelateSIPRTP flows.
Proof. unfold job_calls. by rewrite <-list_fmap_compose. Qed.

Section outcome.
Context `{Unicode} `{MapRange} `{GoLib} `{GoFmt} `{SortSlice}.
Context (Unmarshal : string -> RuleCondition + string) (fresh : nat -> string * time).
Context (records : option (list UserDetectionRule)) (dispatcher : bool).

(** The three results a job cannot do without. *)
Definition results (flows : list Flow) : list store_call :=
  [StoreFlows flows; StoreCalls (job_calls flows); StoreRTPLegs (job_calls flows)].
Definition session_calls (sessions : list TelecomSession) : list store_call :=
  if bool_decide (length sessions = 0%nat) then [] else [StoreTelecomSessions sessions].
Definition packet_calls (sid : string) (packets : list Packet) : list store_call :=
  if bool_decide (length packets = 0%nat) then [] else [StorePackets sid packets].

Lemma store_results_spec ans flows packets cs e : store_results ans flows (job_calls flows) packets = (cs, e) ->
  (Forall (fun c => ans c = None) (results flows) /\ cs = results flows ++ packet_calls "" packets ++ [CompleteJob] /\ e = ans CompleteJob) \/
  (~ Forall (fun c => ans c = None) (results flows) /\ exists k r, cs = take k (results flows) ++ [FailJob r] /\ e = Some r).
Proof.
  unfold store_results, results. intros E. rewrite !Forall_cons, Forall_nil.
  destruct (ans (StoreFlows flows)) as [e1|]; [injection E as <- <-; right; split; [naive_solver|by exists 1%nat, e1]|].
  destruct (ans (StoreCalls _)) as [e2|]; [injection E as <- <-; right; split; [naive_solver|by exists 2%nat, e2]|].
  destruct (ans (StoreRTPLegs _)) as [e3|]; [injection E as <- <-; right; split; [naive_solver|by exists 3%nat, e3]|].
  injection E as <- <-. left. by split_and!.
Qed.

Lemma alerts_relabel jobID sid alerts :
  relabel sid <$> store_alerts dispatcher jobID "" alerts = store_alerts dispatcher jobID sid alerts /\
  Forall (fun c => is_sessions c = false) (store_alerts dispatcher jobID "" alerts).
Proof.
  unfold store_alerts. case_bool_decide; [done|]. assert (relabel_event sid <$> (event_of jobID "" <$> alerts) = event_of jobID sid <$> alerts) as E
    by (rewrite <-list_fmap_compose; by apply list_fmap_ext).
  destruct dispatcher; cbn [fmap list_fmap relabel]; rewrite E; split; try done; by repeat constructor.
Qed.

Lemma front_sorted jobID alerts sessions :
  StronglySorted Z.lt (rank <$> store_alerts dispatcher jobID "" alerts ++ session_calls sessions) /\
  Forall (fun x => x <= 2) (rank <$> store_alerts dispatcher jobID "" alerts ++ session_calls sessions).
Proof.
  unfold store_alerts, session_calls. do 2 case_bool_decide; try destruct dispatcher; cbn [fmap list_fmap app rank];
    split; repeat constructor; cbn; lia.
Qed.

Lemma job_sorted jobID alerts sessions tail :
  StronglySorted Z.lt (rank <$> tail) -> Forall (fun x => 2 < x) (rank <$> tail) ->
  StronglySorted Z.lt (rank <$> store_alerts dispatcher jobID "" alerts ++ session_calls sessions ++ tail).
Proof.
  intros Hs Hf. destruct (front_sorted jobID alerts sessions) as [Hs1 Hf1]. rewrite app_assoc, fmap_app. by eapply sorted_app.
Qed.

Lemma elem_of_events (c : store_call) jobID alerts :
  c ∈ store_alerts dispatcher jobID "" alerts <->
  alerts <> [] /\ (c = StoreEvents (event_of jobID "" <$> alerts) \/ dispatcher = true /\ c = DispatchEvents (event_of jobID "" <$> alerts)).
Proof.
  unfold store_alerts. case_bool_decide as E; [apply length_zero_iff_nil in E as ->; set_solver|].
  assert (alerts <> []) by (by intros ->). destruct dispatcher; set_solver.
Qed.

Lemma elem_of_if_empty {A} (l : list A) (x c : store_call) :
  c ∈ (if bool_decide (length l = 0%nat) then [] else [x]) <-> l <> [] /\ c = x.
Proof. case_bool_decide as E; [apply length_zero_iff_nil in E as ->; set_solver|]. assert (l <> []) by (by intros ->). set_solver. Qed.

(** A job that got to the analysis. *)
Lemma runPCAP_analysed reg order ans jobID flows packets count alerts :
  count <> 0 -> detect Unmarshal fresh reg records flows = Ok alerts ->
  runPCAP Unmarshal fresh records dispatcher reg order ans jobID flows packets count None =
    let '(calls, e) := store_results ans flows (job_calls flows) packets in
    Ok (store_alerts dispatcher jobID "" alerts ++ session_calls (Trace flows order) ++ calls, e).
Proof. intros Hc Hd. unfold runPCAP. rewrite (proj2 (Z.eqb_neq count 0)) by done. by rewrite Hd. Qed.

Lemma store_results_answers ans ans' flows packets :
  Forall (fun c => ans' c = ans c) (CompleteJob :: results flows) ->
  store_results ans' flows (job_calls flows) packets = store_results ans flows (job_calls flows) packets.
Proof.
  unfold results. rewrite !Forall_cons, Forall_nil. intros (E0 & E1 & E2 & E3 & _). unfold store_results. by rewrite E1, E2, E3, E0.
Qed.

Lemma completes_snoc front mid tail fin :
  completes (front ++ mid ++ tail ++ [fin]) = match fin with CompleteJob => true | _ => false end.
Proof. unfold completes. by rewrite !app_assoc, last_snoc. Qed.

Lemma failed_order flows k r :
  StronglySorted Z.lt (rank <$> take k (results flows) ++ [FailJob r]) /\
  Forall (fun x => 2 < x) (rank <$> take k (results flows) ++ [FailJob r]).
Proof.
  unfold results. destruct k as [|[|[|k]]]; cbn [take]; [..|rewrite firstn_nil]; cbn [fmap list_fmap app rank]; split; repeat constructor; cbn; lia.
Qed.

Lemma completed_order flows packets :
  StronglySorted Z.lt (rank <$> results flows ++ packet_calls "" packets ++ [CompleteJob]) /\
  Forall (fun x => 2 < x) (rank <$> results flows ++ packet_calls "" packets ++ [CompleteJob]).
Proof.
  unfold results, packet_calls. case_bool_decide; cbn [fmap list_fmap app rank]; split; repeat constructor; cbn; lia.
Qed.

Definition job_ends reg order ans jobID flows packets count err : Prop :=
  exists cs e alerts,
    runPCAP Unmarshal fresh records dispatcher reg order ans jobID flows packets count err = Ok (cs, e) /\
    detect Unmarshal fresh reg records flows = Ok alerts /\
    StronglySorted Z.lt (rank <$> cs) /\
    (last cs = Some CompleteJob \/ exists r, last cs = Some (FailJob r) /\ e = Some r) /\
    (completes cs = true <-> err = None /\ count <> 0 /\ Forall (fun c => ans c = None) (results flows)) /\
    (completes cs = true ->
       e = ans CompleteJob /\ (forall c, c ∈ results flows -> c ∈ stored ans cs) /\
       forall c, c ∈ cs <-> c ∈ results flows \/ c = CompleteJob \/
         alerts <> [] /\ (c = StoreEvents (event_of jobID "" <$> alerts) \/
                          dispatcher = true /\ c = DispatchEvents (event_of jobID "" <$> alerts)) \/
         Trace flows order <> [] /\ c = StoreTelecomSessions (Trace flows order) \/
         packets <> [] /\ c = StorePackets "" packets) /\
    (forall ans', Forall (fun c => ans' c = ans c) (CompleteJob :: results flows) ->
       runPCAP Unmarshal fresh records dispatcher reg order ans' jobID flows packets count err = Ok (cs, e)).

Lemma job_fails reg order ans jobID flows packets count err alerts e :
  detect Unmarshal fresh reg records flows = Ok alerts -> err <> None \/ count = 0 ->
  (forall ans, runPCAP Unmarshal fresh records dispatcher reg order ans jobID flows packets count err = Ok ([FailJob e], Some e)) ->
  job_ends reg order ans jobID flows packets count err.
Proof.
  intros Hd Hno Hrun. exists [FailJob e], (Some e), alerts. split_and!; [apply Hrun|done|by repeat constructor|right; by exists e| |done|].
  - cbn. naive_solver.
  - intros ans' _. apply Hrun.
Qed.

Lemma job_ends_always reg order ans jobID flows packets count err alerts :
  detect Unmarshal fresh reg records flows = Ok alerts -> job_ends reg order ans jobID flows packets count err.
Proof.
  intros Hd. destruct err as [e|]; [by apply (job_fails _ _ _ _ _ _ _ _ alerts e); [..|done]; [|left]|].
  destruct (decide (count = 0)) as [->|Hc]; [apply (job_fails _ _ _ _ _ _ _ _ alerts no_traffic); [done|by right|done]|].
  pose proof (fun ans => runPCAP_analysed reg order ans jobID flows packets count alerts Hc Hd) as Hrun.
  destruct (store_results ans flows (job_calls flows) packets) as [tail e] eqn:E. unfold job_ends.
  exists (store_alerts dispatcher jobID "" alerts ++ session_calls (Trace flows order) ++ tail), e, alerts.
  split; [by rewrite Hrun, E|]. split; [done|].
  assert (forall ans', Forall (fun c => ans' c = ans c) (CompleteJob :: results flows) ->
    runPCAP Unmarshal fresh records dispatcher reg order ans' jobID flows packets count None =
    Ok (store_alerts dispatcher jobID "" alerts ++ session_calls (Trace flows order) ++ tail, e)) as Hsame
    by (intros ans' Ha; by rewrite Hrun, (store_results_answers ans ans'), E).
  apply store_results_spec in E as [(Hok & -> & ->)|(Hno & k & r & -> & ->)].
  - destruct (completed_order flows packets) as [Ho1 Ho2]. split_and!; [by apply job_sorted|left; by rewrite !app_assoc, last_snoc| | |done].
    + rewrite (app_assoc (results flows)), completes_snoc. naive_solver.
    + intros _. split; [done|]. split.
      * intros c Hin. apply list_elem_of_filter. split; [by rewrite Forall_forall in Hok; apply Hok|]. rewrite !elem_of_app. tauto.
      * intros c. rewrite !elem_of_app, elem_of_events, list_elem_of_singleton. unfold session_calls, packet_calls.
        rewrite !elem_of_if_empty. tauto.
  - destruct (failed_order flows k r) as [Ho1 Ho2].
    assert (completes (store_alerts dispatcher jobID "" alerts ++ session_calls (Trace flows order) ++ take k (results flows) ++ [FailJob r]) = false)
      as -> by by rewrite completes_snoc.
    split_and!; [by apply job_sorted|right; exists r; by rewrite !app_assoc, last_snoc| |done|done]. naive_solver.
Qed.

Lemma relabel_job jobID sid alerts sessions tail :
  Forall (fun c => is_sessions c = false) tail ->
  relabel sid <$> filter (fun c => is_sessions c = false)
    (store_alerts dispatcher jobID "" alerts ++ session_calls sessions ++ tail) =
  store_alerts dispatcher jobID sid alerts ++ (relabel sid <$> tail).
Proof.
  intros Ht. destruct (alerts_relabel jobID sid alerts) as [Ha Hn].
  rewrite !filter_app, (filter_kept _ _ Hn), (filter_kept _ _ Ht).
  assert (filter (fun c => is_sessions c = false) (session_calls sessions) = []) as ->.
  { unfold session_calls. case_bool_decide; [done|]. by rewrite filter_cons_False. }
  by rewrite fmap_app, Ha.
Qed.

Lemma live_calls order ans jobID sid flows packets :
  ans (StoreRTPLegs (job_calls flows)) = None ->
  analyzeAndStore Unmarshal fresh records dispatcher ans jobID sid flows packets =
    '(cs, e) ← runPCAP Unmarshal fresh records dispatcher None order ans jobID flows packets 1 None;
    Ok (relabel sid <$> filter (fun c => is_sessions c = false) cs, completes cs).
Proof.
  intros Hlegs. destruct (detect Unmarshal fresh None records flows) as [alerts| |] eqn:Hd;
    [|unfold analyzeAndStore, runPCAP; cbn [Z.eqb]; by rewrite Hd..].
  rewrite (runPCAP_analysed _ _ _ _ _ _ 1 alerts) by done. unfold analyzeAndStore. rewrite Hd. cbn [mbind res_bind]. cbv zeta.
  rewrite <-job_calls_analyze. unfold store_results. rewrite Hlegs. fold (packet_calls sid packets) (packet_calls "" packets).
  assert (relabel sid <$> packet_calls "" packets = packet_calls sid packets) as Hp
    by (unfold packet_calls; by case_bool_decide).
  assert (Forall (fun c => is_sessions c = false) (packet_calls "" packets)) as Hps
    by (unfold packet_calls; case_bool_decide; by repeat constructor).
  set (front := store_alerts _ _ "" _). set (mid := session_calls _).
  destruct (ans (StoreFlows flows)) as [e1|]; [|destruct (ans (StoreCalls (job_calls flows))) as [e2|]]; cbn [mbind res_bind].
  - unfold front at 1, mid at 1. rewrite relabel_job by by repeat constructor. pose proof (completes_snoc front mid [StoreFlows flows] (FailJob e1)) as E.
    cbn [app] in E. by rewrite E.
  - unfold front at 1, mid at 1. rewrite relabel_job by by repeat constructor. pose proof (completes_snoc front mid [StoreFlows flows; StoreCalls (job_calls flows)] (FailJob e2)) as E.
    cbn [app] in E. by rewrite E.
  - unfold front at 1, mid at 1. rewrite relabel_job by (apply Forall_app; split; [by repeat constructor|apply Forall_app; split; [done|by repeat constructor]]).
    rewrite !fmap_app, Hp. f_equal. f_equal. rewrite (app_assoc [_; _; _]), completes_snoc. done.
Qed.

(** C35: How a job ends. The calls it makes of the store come in a fixed
    order, each at most once, the last one ending the job: CompleteJob when
    the file was read, was not empty and flows, calls and legs were stored,
    else FailJob with the error that is returned. The rules never stop it. A
    job that reaches CompleteJob has stored flows, calls and legs, and has
    made a call for its events if it has alerts, for its telecom sessions and
    for its packets if it has any, and no other. But nothing depends on the
    answers to these three: when events, sessions or packets cannot be stored,
    the job makes the same calls and returns the same. The error of
    CompleteJob is returned and the job not marked as failed. The analysis of
    a live capture makes the calls of a job on the same flows, with the
    session's identifier on events and packets, but none for telecom sessions;
    and it completes where a job fails, when the legs cannot be stored. *)
Theorem job_outcome now o order ans jobID flows packets count err :
  let reg := toggled (registerDetectionPlugins now) <$> o in
  let sessions := Trace flows order in
  (exists cs e alerts,
    runPCAP Unmarshal fresh records dispatcher reg order ans jobID flows packets count err = Ok (cs, e) /\
    detect Unmarshal fresh reg records flows = Ok alerts /\
    StronglySorted Z.lt (rank <$> cs) /\
    (last cs = Some CompleteJob \/ exists r, last cs = Some (FailJob r) /\ e = Some r) /\
    (completes cs = true <-> err = None /\ count <> 0 /\ Forall (fun c => ans c = None) (results flows)) /\
    (completes cs = true ->
       e = ans CompleteJob /\ (forall c, c ∈ results flows -> c ∈ stored ans cs) /\
       forall c, c ∈ cs <-> c ∈ results flows \/ c = CompleteJob \/
         alerts <> [] /\ (c = StoreEvents (event_of jobID "" <$> alerts) \/
                          dispatcher = true /\ c = DispatchEvents (event_of jobID "" <$> alerts)) \/
         sessions <> [] /\ c = StoreTelecomSessions sessions \/
         packets <> [] /\ c = StorePackets "" packets) /\
    (forall ans', Forall (fun c => ans' c = ans c) (CompleteJob :: results flows) ->
       runPCAP Unmarshal fresh records dispatcher reg order ans' jobID flows packets count err = Ok (cs, e))) /\
  (forall sid, ans (StoreRTPLegs (job_calls flows)) = None ->
     analyzeAndStore Unmarshal fresh records dispatcher ans jobID sid flows packets =
       '(cs, e) ← runPCAP Unmarshal fresh records dispatcher None order ans jobID flows packets 1 None;
       Ok (relabel sid <$> filter (fun c => is_sessions c = false) cs, completes cs)) /\
  (forall sid, ans (StoreFlows flows) = None -> ans (StoreCalls (job_calls flows)) = None ->
     exists cs, analyzeAndStore Unmarshal fresh records dispatcher ans jobID sid flows packets = Ok (cs, true) /\
       last cs = Some CompleteJob).
Proof.
  cbv zeta. split; [|split].
  - destruct (returns_inv _ _ (detect_ok Unmarshal fresh now o records flows)) as (alerts & Hd & _). by eapply job_ends_always.
  - intros sid. apply live_calls.
  - intros sid J1 J2. destruct (returns_inv _ _ (detect_ok Unmarshal fresh now None records flows)) as (alerts & Hd & _).
    change (toggled (registerDetectionPlugins now) <$> None) with (@None (registry Rule)) in Hd.
    unfold analyzeAndStore. rewrite Hd. cbn [mbind res_bind]. cbv zeta. rewrite <-job_calls_analyze, J1, J2.
    eexists. split; [reflexivity|]. by rewrite !app_assoc, last_snoc.
Qed.

(** The packets of the calls of StorePackets. *)
Definition packet_sets (cs : list store_call) : list (list Packet) :=
  omap (fun c => match c with StorePackets _ packets => Some packets | _ => None end) cs.

Lemma job_packets reg order ans jobID flows packets count alerts cs e :
  count <> 0 -> packets <> [] -> detect Unmarshal fresh reg records flows = Ok alerts ->
  runPCAP Unmarshal fresh records dispatcher reg order ans jobID flows packets count None = Ok (cs, e) ->
  packet_sets cs = if bool_decide (Forall (fun c => ans c = None) (results flows)) then [packets] else [].
Proof.
  intros Hc Hp Hd. rewrite (runPCAP_analysed _ _ _ _ _ _ _ alerts) by done.
  assert (forall tail, packet_sets (store_alerts dispatcher jobID "" alerts ++ session_calls (Trace flows order) ++ tail) = packet_sets tail) as Hfront.
  { intros tail. unfold packet_sets, store_alerts, session_calls. do 2 case_bool_decide; by destruct dispatcher. }
  destruct (store_results ans flows (job_calls flows) packets) as [tail e'] eqn:E. intros [= <- <-]. rewrite Hfront.
  apply store_results_spec in E as [(Hok & -> & _)|(Hno & k & r & -> & _)].
  - rewrite bool_decide_true by done. unfold packet_calls. rewrite bool_decide_false by (by intros ?%length_zero_iff_nil). done.
  - rewrite bool_decide_false by done. unfold results. by do 4 (destruct k as [|k]; [done|]).
Qed.
End outcome.

(** C34: What a job stores of a file. Whatever the interleaving of the
    workers, the packets that come out of the pool are those that the reader
    finds in the file, each once, as it was captured but for the notes of the
    decoders, and they are counted. The job hands them to the store in one
    call, all of them, when the file could be read to its end, holds any, and
    the results were stored; otherwise it stores no packet. A file of which
    the reader passes nothing on counts as empty, however many packets it
    holds: a pcap or pcapng file or a Linux cooked capture in which no packet
    is TCP, UDP, SCTP or ICMP over IP. Its job fails. *)
Theorem job_of_file `{Unicode} `{Gopacket} `{Assembler} {D : Type} `{DecoderLaws D} n file flows packets count err :
  pool_size_ok n -> pipeline_run n file flows packets count err ->
  exists captured handled, ReadPCAP (quiet (fun seen p => seen ++ [p])) file [] = (captured, err) /\
    count = zlen captured /\ Forall2 annotated captured handled /\ packets ≡ₚ handled /\
    (ignored_file file -> captured = []) /\
    forall `{MapRange} `{GoLib} `{GoFmt} `{SortSlice} Unmarshal fresh recs disp now o order ans jobID, exists cs e,
      runPCAP Unmarshal fresh recs disp (toggled (registerDetectionPlugins now) <$> o) order ans jobID flows packets count err = Ok (cs, e) /\
      packet_sets cs =
        (if bool_decide (err = None /\ captured <> [] /\ Forall (fun c => ans c = None) (results flows)) then [packets] else []) /\
      (ignored_file file -> cs = [FailJob no_traffic] /\ e = Some no_traffic).
Proof.
  intros Hn Hrun. destruct (run_packets n file flows packets count err Hn Hrun) as (captured & handled & Hread & -> & Hf & Hp).
  exists captured, handled. do 4 (split; [done|]).
  assert (ignored_file file -> captured = [] /\ err = None) as Hig.
  { intros Hi. rewrite (ignored_read (fun seen p => seen ++ [p]) _ [] Hi) in Hread. by injection Hread as <- <-. }
  split; [intros Hi; by apply Hig|]. intros. destruct (returns_inv _ _ (detect_ok Unmarshal fresh now o recs flows)) as (alerts & Hd & _).
  destruct (job_ends_always Unmarshal fresh recs disp _ order ans jobID flows packets (zlen captured) err alerts Hd) as (cs & e & _ & Hcs & _).
  exists cs, e. split; [done|]. split.
  - destruct err as [er|]; [rewrite bool_decide_false by naive_solver; unfold runPCAP in Hcs; by injection Hcs as <- <-|].
    destruct captured as [|c captured].
    { rewrite bool_decide_false by naive_solver. unfold runPCAP in Hcs. cbn in Hcs. by injection Hcs as <- <-. }
    assert (zlen (c :: captured) <> 0) as Hc by (rewrite zlen_cons; pose proof (zlen_nonneg captured); lia).
    assert (packets <> []) as Hne by (intros ->; apply Permutation_nil in Hp as ->; inversion Hf).
    rewrite (job_packets _ _ _ _ _ _ _ _ _ _ _ _ _ _ Hc Hne Hd Hcs). 
    destruct (decide (Forall (fun c => ans c = None) (results flows))).
    + by rewrite !bool_decide_true by done.
    + rewrite !bool_decide_false by naive_solver. done.
  - intros Hi. destruct (Hig Hi) as [-> ->]. unfold runPCAP in Hcs. cbn in Hcs. by injection Hcs as <- <-.
Qed.

(** ** Examples *)

Definition ex_failed : Flow :=
  {| FlowID := "d1"; Type_ := FlowDiameter; F_SrcIP := "10.0.0.1"; F_DstIP := "10.0.0.2"; F_SrcPort := 40000; F_DstPort := 3868;
     StartTime := 1; EndTime := 2; Metrics := {["is_error"%string := ABool true]} |}.
Definition ex_target : AlertTarget :=
  {| at_Name := "ops"; at_Type := "slack"; at_URL := "https://hook"; at_ConfigJSON := "{}"; at_Enabled := true; at_MinSeverity := "warning" |}.
Definition ex_event (sev : string) : EventRecord :=
  {| er_JobID := Some 1; er_SessionID := ""; er_Timestamp := ""; er_Severity := sev; er_Protocol := "SIP"; er_Title := "t"; er_Description := "d" |}.

Example ex_dispatch :
  map (fun te => map er_Severity (snd te)) (Dispatch (Some [ex_target]) (map ex_event ["info"; "error"; "critical"; "warning"]%string)) =
  [["critical"; "warning"]%string].
Proof. reflexivity. Qed.
Example ex_slack : @sendSlack ascii_only ex_target [ex_event "warning"] =
  inr ("https://hook"%string, "*DeepPacketAI Alert* — 1 event(s)" +:+ nl +:+ "• [WARNING] *t* (SIP): d" +:+ nl).
Proof. by vm_compute. Qed.

Lemma failures_not_sent_witness : ex_failed ∈ [ex_failed] /\ exists alerts a,
  @detect ascii_only sorted_range toy_lib (fun _ => inr ""%string) (fun i => (fmt_d (Z.of_nat i), 5))
    (Some (@registerDetectionPlugins ascii_only sorted_range toy_lib 0)) None [ex_failed] = Ok alerts /\
  a ∈ alerts /\ a_FlowID a = "d1"%string /\ @event_of toy_lib 1 "" a ∉ matching ex_target [@event_of toy_lib 1 "" a].
Proof.
  assert (ex_failed ∈ [ex_failed]) as Hin by by left. split; [exact Hin|].
  destruct (@failures_not_sent ascii_only sorted_range toy_lib (fun _ => inr ""%string) (fun i => (fmt_d (Z.of_nat i), 5)) 0 None 1 ""
    [ex_failed] ex_failed diameterErrorRule [ex_target] eq_refl Hin eq_refl)
    as (_ & alerts & a & Hd & Ha & Hid & _ & Hs).
  exists alerts, a. split; [exact Hd|]. split; [exact Ha|]. split; [exact Hid|]. apply Hs. by left.
Defined.

(** A file that holds one ARP frame. *)
Definition ex_arp : gopacket :=
  {| NetworkLayer := None; TransportLayer := None; LayerSCTP := None; LayerICMPv4 := None; LayerICMPv6 := None;
     Meta_Timestamp := 1; g_Data := [x00] |}.
Definition ex_arp_file : Gopacket :=
  {| ng_packets _ := inl "not a pcapng file"%string; pcap_records _ := inr [Some ([x00], 1)]; pcap_packets _ := inr [ex_arp];
     NewPacket _ _ := ex_arp |}.
Definition ex_header : list byte := pcap_header true 0xA1B2C3D4 2 4 0 0 65535 1.

Lemma ex_arp_run : @pipeline_run ascii_only ex_arp_file silent_assembler (unit * (Tracker * unit)) _ 1 ex_header [] [] 0 None.
Proof.
  destruct (pool_schedule ex_work ex_drained (buffer_size 4096) (NewPool 1 ex_worker0 []) [CClose; CDone 0]) as [p|] eqn:E;
    [|exfalso; revert E; vm_compute; discriminate].
  pose proof (pool_schedule_rtc _ _ _ _ _ _ E) as Hr.
  assert (workers p = [{| ch := []; w_state := ex_worker0; w_done := true |}] /\ packets p = []) as [Hw Hp]
    by (revert E; vm_compute; by intros [= <-]).
  rewrite <-Hp. change (@nil Flow) with (mjoin [@nil Flow]).
  apply (@pipeline_ran ascii_only ex_arp_file silent_assembler _ _ 1 ex_header [] None p [[]]); [by vm_compute|exact Hr| |].
  - unfold finished. rewrite Hw. by repeat constructor.
  - rewrite Hw. constructor; [|constructor]. exists [], []. split; [done|]. split; [|done].
    exists [], []. split; [|by split]. exists []. split; [|done].
    change (map_order NewTracker []). unfold map_order, NewTracker. by rewrite map_to_list_empty.
Qed.

(** A file that holds one TCP packet, through one worker. *)
Definition ex_tcp_file : Gopacket :=
  {| ng_packets _ := inl "not a pcapng file"%string; pcap_records _ := inr [Some ([x00], 1)]; pcap_packets _ := inr [ex_layers];
     NewPacket _ _ := ex_arp |}.

Lemma ex_tcp_run : exists flows packets,
  @pipeline_run ascii_only ex_tcp_file silent_assembler (unit * (Tracker * unit)) _ 1 ex_header flows packets 1 None.
Proof.
  set (pkts := source_packets 0 [ex_layers]).
  assert (fmap (fun p => forallb (fun w => w_done w) (workers p))
    (pool_schedule ex_work ex_drained (buffer_size 4096) (NewPool 1 ex_worker0 pkts) [CSubmit; CWork 0; CClose; CDone 0]) = Some true)
    as E1 by by vm_compute.
  destruct (pool_schedule ex_work ex_drained (buffer_size 4096) (NewPool 1 ex_worker0 pkts) [CSubmit; CWork 0; CClose; CDone 0])
    as [p|] eqn:E; [|done].
  pose proof (pool_schedule_rtc _ _ _ _ _ _ E) as Hr. injection E1 as E1.
  assert (exists flows, Forall2 (fun w fs => flushes (w_decoders (w_state w)) fs) (workers p) flows) as [flows Hfl].
  { clear. induction (workers p) as [|w ws [flows IH]]; [by exists []|].
    assert (exists fs, flushes (w_decoders (w_state w)) fs) as [fs Hfs]; [|by exists (fs :: flows); constructor].
    destruct (w_decoders (w_state w)) as [u [t v]]. set (F := fst (fst (Tracker.Flush t (map_to_list t)))).
    exists ([] ++ F ++ []), [], (F ++ []). split; [done|]. split; [|done].
    exists F, []. split; [|by split]. change (exists order, map_order t order /\ F = fst (fst (Tracker.Flush t order))). exists (map_to_list t). split; [unfold map_order; reflexivity|reflexivity]. }
  exists (mjoin flows), (packets p).
  apply (@pipeline_ran ascii_only ex_tcp_file silent_assembler _ _ 1 ex_header pkts None p flows); [by vm_compute|exact Hr| |exact Hfl].
  apply Forall_forall. intros w Hw. rewrite forallb_forall in E1. apply E1. by apply list_elem_of_In.
Qed.

(** Its packet is stored; the file with the ARP frame fails as empty. *)
Lemma job_of_file_witness :
  (exists flows packets cs e,
     @pipeline_run ascii_only ex_tcp_file silent_assembler (unit * (Tracker * unit)) _ 1 ex_header flows packets 1 None /\
     @runPCAP ascii_only sorted_range toy_lib plain_fmt stable_sort (fun _ => inr ""%string) (fun i => (fmt_d (Z.of_nat i), 5)) None true
       None [] (fun _ => None) 1 flows packets 1 None = Ok (cs, e) /\
     packet_sets cs = [packets] /\ length packets = 1%nat) /\
  exists cs e, @runPCAP ascii_only sorted_range toy_lib plain_fmt stable_sort (fun _ => inr ""%string) (fun i => (fmt_d (Z.of_nat i), 5)) None true
       None [] (fun _ => None) 1 [] [] 0 None = Ok (cs, e) /\ cs = [FailJob no_traffic].
Proof.
  assert (pool_size_ok 1) as Hn by (split; lia). split.
  - destruct ex_tcp_run as (flows & packets & Hrun). exists flows, packets.
    destruct (@job_of_file ascii_only ex_tcp_file silent_assembler _ _ _ 1 ex_header flows packets 1 None Hn Hrun)
      as (captured & handled & Hread & Hc & Hf & Hp & _ & H).
    destruct (H sorted_range toy_lib plain_fmt stable_sort (fun _ => inr ""%string) (fun i => (fmt_d (Z.of_nat i), 5)) None true
      0 None [] (fun _ => None) 1) as (cs & e & Hcs & Hps & _).
    assert (length captured = 1%nat) as Hl by (unfold zlen in Hc; lia).
    exists cs, e. split; [exact Hrun|]. split; [exact Hcs|]. split.
    + rewrite Hps, bool_decide_true; [done|]. split; [done|]. split; [by intros ->|by repeat constructor].
    + rewrite Hp. by rewrite <-(Forall2_length _ _ _ Hf).
  - destruct (@job_of_file ascii_only ex_arp_file silent_assembler _ _ _ 1 ex_header [] [] 0 None Hn ex_arp_run)
      as (captured & handled & _ & _ & _ & _ & _ & H).
    destruct (H sorted_range toy_lib plain_fmt stable_sort (fun _ => inr ""%string) (fun i => (fmt_d (Z.of_nat i), 5)) None true
      0 None [] (fun _ => None) 1) as (cs & e & Hcs & _ & Hig).
    exists cs, e. split; [exact Hcs|]. apply Hig.
    apply (@ignored_pcap ex_arp_file true 0xA1B2C3D4 2 4 0 0 65535 1 [] [Some ([x00], 1)] [ex_arp]);
      [by left|lia|lia|done|done|by repeat constructor].
Defined.

Definition ex_packet : Packet := mk_packet 1 "10.0.0.1" "10.0.0.2" 40000 3868 "TCP" [].

(** A store that cannot take legs, and one that cannot take events or packets. *)
Definition no_legs (c : store_call) : option string := match c with StoreRTPLegs _ => Some "disk full"%string | _ => None end.
Definition no_events (c : store_call) : option string :=
  match c with StoreEvents _ | StorePackets _ _ => Some "disk full"%string | _ => None end.

Lemma job_outcome_witness :
  (exists cs, @analyzeAndStore ascii_only sorted_range toy_lib (fun _ => inr ""%string) (fun i => (fmt_d (Z.of_nat i), 5)) None true
    no_legs 1 "s1" [ex_failed] [] = Ok (cs, true) /\ last cs = Some CompleteJob) /\
  exists cs e alerts, @runPCAP ascii_only sorted_range toy_lib plain_fmt stable_sort (fun _ => inr ""%string)
    (fun i => (fmt_d (Z.of_nat i), 5)) None true None [] no_events 1 [ex_failed] [ex_packet] 1 None = Ok (cs, e) /\
    completes cs = true /\ e = None /\ StorePackets "" [ex_packet] ∈ cs /\ StorePackets "" [ex_packet] ∉ stored no_events cs /\
    (alerts <> [] -> StoreEvents (@event_of toy_lib 1 "" <$> alerts) ∈ cs).
Proof.
  split.
  - destruct (@job_outcome ascii_only sorted_range toy_lib plain_fmt stable_sort (fun _ => inr ""%string)
      (fun i => (fmt_d (Z.of_nat i), 5)) None true 0 None [] no_legs 1 [ex_failed] [] 1 None) as (_ & _ & H).
    exact (H "s1"%string eq_refl eq_refl).
  - destruct (@job_outcome ascii_only sorted_range toy_lib plain_fmt stable_sort (fun _ => inr ""%string)
      (fun i => (fmt_d (Z.of_nat i), 5)) None true 0 None [] no_events 1 [ex_failed] [ex_packet] 1 None)
      as ((cs & e & alerts & Hr & _ & _ & _ & Hc & Hs & _) & _).
    assert (completes cs = true) as Hcs by (apply Hc; by repeat constructor).
    destruct (Hs Hcs) as (He & _ & Hin). exists cs, e, alerts. split; [exact Hr|]. split; [exact Hcs|]. split; [exact He|].
    split; [apply Hin; do 4 right; by split|]. split; [by intros [? _]%list_elem_of_filter|].
    intros Ha. apply Hin. do 2 right. left. split; [exact Ha|by left].
Defined.
