(* ===== verification/Analytics.v ===== *)
(** * internal/analytics: performance indicators and reports

    kpi.go and report.go, over the flows and calls that the store gives back:
    what StoreFlows writes and GetAllFlows reads of a flow (sqlite_store.go and
    analytics_store.go of internal/storage) is here too, since the metrics go
    through JSON, which knows one kind of number. *)
From S2P Require Export Calls.
From S2P Require Export Telecom.
From S2P Require Export Dns.
From S2P Require Export Detection.

(** ** storage: a flow that was stored and read again *)

(** What JSON makes of lists, maps and times, none of which is read here; a
    list of strings can always be written. *)
Class JsonOther : Type := {
  json_other : any -> option any;
  json_strs : forall l, is_Some (json_other (AStrs l));
}.

(** [parseSQLiteTime]: what comes back of a time. *)
Section stored.
Context `{JsonOther} (parseSQLiteTime : time -> time).

(** The bytes of a string that are not UTF-8 become U+FFFD. *)
Definition json_string (s : string) : string := gostr (mjoin ((fun rb => encode_rune (fst rb)) <$> runes (gobytes s))).

(** [json.Marshal] and then [json.Unmarshal] into [any]; [None]: an error of Marshal. *)
Definition json_value (v : any) : option any :=
  match v with
  | ANil => Some ANil
  | AStr s => Some (AStr (json_string s))
  | AInt _ z => Some (AF64 (f_int z))
  | AF64 (S754_nan | S754_infinity _) => None
  | AF64 x => Some (AF64 x)
  | ABool b => Some (ABool b)
  | _ => json_other v
  end.

(** The metrics that come back: all of them, or none when one cannot be
    written. Their names are constants of the program. *)
Definition stored_metrics (m : gmap string any) : gmap string any :=
  if bool_decide (map_Forall (fun _ v => is_Some (json_value v)) m) then omap json_value m else ∅.

Definition stored_flow (f : Flow) : Flow :=
  {| FlowID := FlowID f; Type_ := Type_ f; F_SrcIP := F_SrcIP f; F_DstIP := F_DstIP f; F_SrcPort := F_SrcPort f;
     F_DstPort := F_DstPort f; StartTime := parseSQLiteTime (StartTime f); EndTime := parseSQLiteTime (EndTime f);
     Metrics := stored_metrics (Metrics f) |}.

(** Of a call the legs are not stored with it, and of its SIP metrics only the parties. *)
Definition stored_call (c : Call) : Call :=
  {| CallID := CallID c; C_StartTime := parseSQLiteTime (C_StartTime c); C_EndTime := parseSQLiteTime (C_EndTime c);
     SIPMetrics := list_to_map [("from", AStr (default "" (get_str (SIPMetrics c) "from")));
                                ("to", AStr (default "" (get_str (SIPMetrics c) "to")))]%string;
     RTPLegs := []; MOS := MOS c; Quality := Quality c; IsOnHold := IsOnHold c; EndType := EndType c;
     RootCause := RootCause c; Confidence := Confidence c |}.
End stored.

(** ** kpi.go *)

Record KPI := { k_Name : string; k_Value : f64; k_Unit : string; k_Description : string; k_Status : string }.
Record KPIReport := { kr_GeneratedAt : time; KPIs : list KPI }.

Definition round2 (v : f64) : f64 := f_div (f_round (f_mul v (f_int 100))) (f_int 100).

(** [x / y * 100] of two counters. *)
Definition percent (x y : Z) : f64 := f_mul (f_div (f_int x) (f_int y)) (f_int 100).

(** The loops that count. *)
Definition count {A} (p : A -> bool) (l : list A) : Z := foldl (fun n x => if p x then n + 1 else n) 0 l.

(** The status of a value that should be high, and of one that should be low. *)
Definition status_high (x warning critical : f64) : string :=
  let status := "good" in
  let status := if f_lt x warning then "warning" else status in
  if f_lt x critical then "critical" else status.
Definition status_low (x warning critical : f64) : string :=
  let status := "good" in
  let status := if f_gt x warning then "warning" else status in
  if f_gt x critical then "critical" else status.

Definition mk_kpi (name unit description : string) (value : f64) (status : string) : KPI :=
  {| k_Name := name; k_Value := value; k_Unit := unit; k_Description := description; k_Status := status |}.

Definition computeCSSR (calls : list Call) : KPI :=
  let kpi := mk_kpi "CSSR" "%" "Call Setup Success Rate" in
  if zlen calls =? 0 then kpi f_zero "warning"
  else
    let successful := count (fun c => negb (String.eqb (Quality c) "") && negb (String.eqb (Quality c) "Failed")) calls in
    let rate := percent successful (zlen calls) in
    kpi (round2 rate) (status_high rate (f_int 95) (f_int 90)).

Definition is_dropped (c : Call) : bool := String.eqb (EndType c) "abnormal" || String.eqb (EndType c) "dropped".

Definition computeCallDropRate (calls : list Call) : KPI :=
  let kpi := mk_kpi "Call Drop Rate" "%" "Percentage of calls dropped unexpectedly" in
  if zlen calls =? 0 then kpi f_zero "good"
  else
    let rate := percent (count is_dropped calls) (zlen calls) in
    kpi (round2 rate) (status_low rate (f_int 2) (f_int 5)).

(** The sum of the MOS that are positive, and their number. *)
Definition sum_mos (calls : list Call) : f64 * Z :=
  foldl (fun '(total, n) c => if f_gt (MOS c) f_zero then (f_add total (MOS c), n + 1) else (total, n)) (f_zero, 0) calls.

Definition computeAvgMOS (calls : list Call) : KPI :=
  let kpi := mk_kpi "Average MOS" "" "Mean Opinion Score (1-5 scale)" in
  if zlen calls =? 0 then kpi f_zero "warning"
  else
    let '(total, n) := sum_mos calls in
    if n =? 0 then kpi f_zero "warning"
    else
      let avg := f_div total (f_int n) in
      kpi (round2 avg) (status_high avg (f_dec 35 1) (f_int 3)).

(** The mean of the values found. *)
Definition mean (xs : list f64) : f64 := f_div (foldl f_add f_zero xs) (f_int (zlen xs)).

Definition setup_times (flows : list Flow) : list f64 :=
  omap (fun f =>
    if decide (Type_ f = FlowSIP) then
      latencyMs ← get_f64 (Metrics f) "setup_latency_ms";
      if f_gt latencyMs f_zero then Some (f_div latencyMs (f_int 1000)) else None
    else None) flows.

Definition computeAvgSetupTime (flows : list Flow) : KPI :=
  let kpi := mk_kpi "Avg Setup Time" "sec" "Average call setup time" in
  let setupTimes := setup_times flows in
  if zlen setupTimes =? 0 then kpi f_zero "good"
  else
    let avg := mean setupTimes in
    kpi (round2 avg) (status_low avg (f_int 3) (f_int 6)).

(** The rates of success: of the flows of a type that count, those that succeed. *)
Definition success_rate (kpi : f64 -> string -> KPI) (counts success : Flow -> bool) (flows : list Flow) : KPI :=
  let '(total, ok) := foldl (fun '(total, ok) f =>
    if counts f then (total + 1, if success f then ok + 1 else ok) else (total, ok)) (0, 0) flows in
  if total =? 0 then kpi (f_int 100) "good"
  else
    let rate := percent ok total in
    kpi (round2 rate) (status_high rate (f_int 98) (f_int 95)).

Definition is_type (t : FlowType) (f : Flow) : bool := bool_decide (Type_ f = t).

Definition dns_success (f : Flow) : bool :=
  let rcode := default "" (get_str (Metrics f) "reply_code") in
  String.eqb rcode "NOERROR" || String.eqb rcode "".

Definition computeDNSSuccessRate : list Flow -> KPI :=
  success_rate (mk_kpi "DNS Success Rate" "%" "DNS query success rate") (is_type FlowDNS) dns_success.

Definition dns_times (flows : list Flow) : list f64 :=
  mjoin ((fun f =>
    if decide (Type_ f = FlowDNS) then
      (match get_f64 (Metrics f) "latency_ms" with
       | Some respTime => if f_gt respTime f_zero then [respTime] else []
       | None => []
       end) ++
      (match get_int (Metrics f) "latency_ms" with
       | Some respTime => if 0 <? respTime then [f_int respTime] else []
       | None => []
       end)
    else []) <$> flows).

Definition computeDNSAvgTime (flows : list Flow) : KPI :=
  let kpi := mk_kpi "DNS Avg Latency" "ms" "Average DNS resolution time" in
  let times := dns_times flows in
  if zlen times =? 0 then kpi f_zero "good"
  else
    let avg := mean times in
    kpi (round2 avg) (status_low avg (f_int 100) (f_int 500)).

(** [f.Metrics["result_code"].(uint32)] *)
Definition result_code (f : Flow) : option Z :=
  match Metrics f !! "result_code"%string with Some (AInt TU32 z) => Some z | _ => None end.

Definition computeDiameterSuccessRate : list Flow -> KPI :=
  success_rate (mk_kpi "Diameter Success Rate" "%" "Diameter auth/accounting success rate")
    (fun f => is_type FlowDiameter f && bool_decide (is_Some (result_code f)))
    (fun f => let resultCode := default 0 (result_code f) in (2001 <=? resultCode) && (resultCode <=? 2002)).

Definition cause_success (accepted : string) (f : Flow) : bool :=
  let cause := default "" (get_str (Metrics f) "cause") in
  String.eqb cause "" || String.eqb cause accepted.

Definition computeGTPSuccessRate : list Flow -> KPI :=
  success_rate (mk_kpi "GTP Success Rate" "%" "GTP tunnel establishment success rate")
    (is_type FlowGTP) (cause_success "Request Accepted").

Definition computePFCPSuccessRate : list Flow -> KPI :=
  success_rate (mk_kpi "PFCP Success Rate" "%" "PFCP session success rate")
    (is_type FlowPFCP) (cause_success "Request accepted").

Definition computeProtocolCount (flows : list Flow) : KPI :=
  let protos : gset string := list_to_set ((fun f => flow_type_string (Type_ f)) <$> flows) in
  mk_kpi "Active Protocols" "" "Number of distinct protocols detected" (f_int (Z.of_nat (size protos))) "good".

Definition ComputeKPIs (now : time) (flows : list Flow) (calls : list Call) : KPIReport :=
  {| kr_GeneratedAt := now;
     KPIs := [computeCSSR calls; computeCallDropRate calls; computeAvgMOS calls; computeAvgSetupTime flows;
              computeDNSSuccessRate flows; computeDNSAvgTime flows; computeDiameterSuccessRate flows;
              computeGTPSuccessRate flows; computePFCPSuccessRate flows; computeProtocolCount flows] |}.

(** ** report.go *)

Record Issue := { i_Severity : string; i_Protocol : string; i_Title : string; i_Description : string; i_Count : Z }.

Record CallSummaryStats := {
  cs_TotalCalls : Z; cs_SuccessRate : f64; AvgMOS : f64; AvgDuration : f64; DroppedCalls : Z;
  QualityGood : Z; QualityFair : Z; QualityPoor : Z; QualityFailed : Z;
}.

Record ProtocolStatDetail := { ps_Protocol : string; FlowCount : Z; ps_SuccessRate : f64; ErrorCount : Z }.

(** TopIssues is never filled. *)
Record Report := {
  rp_GeneratedAt : time; Duration : f64; TotalFlows : Z; TotalCalls : Z; ProtocolBreakdown : gmap string Z;
  rp_KPIs : KPIReport; TopIssues : list Issue; CallSummary : CallSummaryStats; ProtocolStats : list ProtocolStatDetail;
  RootCauseCounts : gmap string Z;
}.

(** [m[k]++] *)
Definition incr (m : gmap string Z) (k : string) : gmap string Z := <[k := default 0 (m !! k) + 1]> m.

Definition parseSIPStatusCode (response : string) : Z :=
  match split_n (gobytes response) [byte_of 0x20] 3 with
  | _ :: code :: _ => default 0 (Atoi code)
  | _ => 0
  end.

Definition hasError (f : Flow) : bool :=
  let m := Metrics f in
  match get_int m "status_code" with Some c => 400 <=? c | None => false end
  || match get_f64 m "status_code" with Some c => 400 <=? f_to_int c | None => false end
  || match get_str m "response" with
     | Some resp => negb (String.eqb resp "") && (400 <=? parseSIPStatusCode resp)
     | None => false
     end
  || match get_str m "reply_code" with
     | Some rcode => bool_decide (rcode ∈ ["SERVFAIL"; "NXDOMAIN"; "REFUSED"; "FORMERR"]%string)
     | None => false
     end
  || default false (get_bool m "is_error")
  || match result_code f with Some rc => (rc <? 2001) || (2002 <? rc) | None => false end
  || match get_f64 m "result_code" with
     | Some rc => (f_to_int rc <? 2001) || (2002 <? f_to_int rc)
     | None => false
     end.

Section report.
Context `{Unicode} `{MapRange}.

Definition normalizeQuality (q : string) : string := gostr (to_lower (trim_space (gobytes q))).

Inductive quality_class := IsGood | IsFair | IsPoor | IsFailed.
Global Instance quality_class_eq_dec : EqDecision quality_class.
Proof. solve_decision. Defined.

(** The case of the switch that a call falls into. *)
Definition classify (c : Call) : quality_class :=
  let q := normalizeQuality (Quality c) in
  if String.eqb q "good" || String.eqb q "excellent" then IsGood
  else if String.eqb q "fair" then IsFair
  else if String.eqb q "poor" || String.eqb q "bad" then IsPoor
  else IsFailed.

(** The sum of the durations that are positive, and their number. *)
Definition sum_durations (calls : list Call) : f64 * Z :=
  foldl (fun '(total, n) c =>
    if negb (is_zero (C_StartTime c)) && negb (is_zero (C_EndTime c)) then
      let dur := seconds (time_sub (C_EndTime c) (C_StartTime c)) in
      if f_gt dur f_zero then (f_add total dur, n + 1) else (total, n)
    else (total, n)) (f_zero, 0) calls.

Definition computeCallSummary (calls : list Call) : CallSummaryStats :=
  if zlen calls =? 0 then
    {| cs_TotalCalls := zlen calls; cs_SuccessRate := f_zero; AvgMOS := f_zero; AvgDuration := f_zero; DroppedCalls := 0;
       QualityGood := 0; QualityFair := 0; QualityPoor := 0; QualityFailed := 0 |}
  else
    let class q := count (fun c => bool_decide (classify c = q)) calls in
    let '(totalMOS, mosCount) := sum_mos calls in
    let '(totalDuration, durCount) := sum_durations calls in
    let successful := zlen calls - class IsFailed in
    {| cs_TotalCalls := zlen calls; cs_SuccessRate := round2 (percent successful (zlen calls));
       AvgMOS := if 0 <? mosCount then round2 (f_div totalMOS (f_int mosCount)) else f_zero;
       AvgDuration := if 0 <? durCount then round2 (f_div totalDuration (f_int durCount)) else f_zero;
       DroppedCalls := count is_dropped calls; QualityGood := class IsGood; QualityFair := class IsFair;
       QualityPoor := class IsPoor; QualityFailed := class IsFailed |}.

(** The counters of each protocol: flows and errors. *)
Definition count_flow (counters : gmap string (Z * Z)) (f : Flow) : gmap string (Z * Z) :=
  let proto := flow_type_string (Type_ f) in
  let '(total, errors) := default (0, 0) (counters !! proto) in
  <[proto := (total + 1, if hasError f then errors + 1 else errors)]> counters.

Definition protocol_stat (proto : string) (c : Z * Z) : ProtocolStatDetail :=
  let '(total, errors) := c in
  {| ps_Protocol := proto; FlowCount := total;
     ps_SuccessRate := if 0 <? total then round2 (percent (total - errors) total) else f_int 100; ErrorCount := errors |}.

Definition computeProtocolStats (flows : list Flow) : list ProtocolStatDetail :=
  (fun '(proto, c) => protocol_stat proto c) <$> range "computeProtocolStats" (foldl count_flow ∅ flows).

Definition computeRootCauseCounts (calls : list Call) : gmap string Z :=
  foldl (fun counts c => incr counts (if String.eqb (RootCause c) "" then "unknown" else RootCause c)) ∅ calls.

(** The earliest start and the latest end. *)
Definition widen (span : time * time) (f : Flow) : time * time :=
  let '(earliest, latest) := span in
  (if is_zero earliest || (negb (is_zero (StartTime f)) && before (StartTime f) earliest) then StartTime f else earliest,
   if after (EndTime f) latest then EndTime f else latest).

Definition GenerateReport (now now' : time) (flows : list Flow) (calls : list Call) : Report :=
  let '(earliest, latest) := foldl widen (0, 0) flows in
  {| rp_GeneratedAt := now; TotalFlows := zlen flows; TotalCalls := zlen calls;
     Duration := if negb (is_zero earliest) && negb (is_zero latest) then seconds (time_sub latest earliest) else f_zero;
     ProtocolBreakdown := foldl (fun m f => incr m (flow_type_string (Type_ f))) ∅ flows;
     rp_KPIs := ComputeKPIs now' flows calls; TopIssues := []; CallSummary := computeCallSummary calls;
     ProtocolStats := computeProtocolStats flows; RootCauseCounts := computeRootCauseCounts calls |}.
End report.
(** ** Counts as floats

    A count below 2^53 is exact, and over itself it is one. *)

Lemma f_div_self m e : f_div (S754_finite false m e) (S754_finite false m e) = f_int 1.
Proof.
  unfold f_div, SFdiv, SFdiv_core_binary. cbv zeta. rewrite !Z.sub_diag.
  change (Z.min (fexp 53 1024 0) 0) with (-53). change (0 - -53) with 53. cbv beta iota.
  assert (Z.div_eucl (Z.shiftl (Z.pos m) 53) (Z.pos m) = (2 ^ 53, 0)) as ->.
  { rewrite Z.shiftl_mul_pow2 by lia. rewrite Z.mul_comm.
    rewrite (surjective_pairing (Z.div_eucl _ _)). f_equal; [apply (Z.div_mul (2 ^ 53))|apply (Z.mod_mul (2 ^ 53))]; lia. }
  assert (new_location (Z.pos m) 0 = loc_Exact) as ->.
  { unfold new_location, new_location_even, new_location_odd. by destruct (Z.even _). }
  by vm_compute.
Qed.

Lemma size_shift d p : Pos.size (shift_pos d p) = (Pos.size p + d)%positive.
Proof. unfold shift_pos. induction d as [|d IH] using Pos.peano_ind; [cbn; lia|]. rewrite Pos.iter_succ. cbn. rewrite IH. lia. Qed.

Lemma round_exact p e : Z.pos (digits2_pos p) = 53 -> -1074 <= e <= 900 ->
  binary_round_aux 53 1024 false (Z.pos p) e loc_Exact = S754_finite false p e.
Proof.
  intros Hp He. unfold binary_round_aux.
  assert (shr_fexp 53 1024 (Z.pos p) e loc_Exact = (shr_record_of_loc (Z.pos p) loc_Exact, e)) as E.
  { unfold shr_fexp. cbn [Zdigits2]. rewrite Hp.
    replace (fexp 53 1024 (53 + e) - e) with 0 by (unfold fexp, emin; lia). done. }
  rewrite E. cbn [shr_record_of_loc shr_m loc_of_shr_record round_nearest_even]. rewrite E.
  cbn [shr_record_of_loc shr_m]. by rewrite (proj2 (Z.leb_le _ _)) by lia.
Qed.

Lemma f_int_finite n : 0 < n < 2 ^ 53 -> exists m e, f_int n = S754_finite false m e /\ f_to_int (f_int n) = n.
Proof.
  intros [H0 Hn]. destruct n as [|p|p]; [done| |done]. clear H0.
  assert (Z.pos (digits2_pos p) <= 53) as Hd.
  { rewrite digits2_pos_size. pose proof (Pos.size_le p). pose proof (Pos.size_gt p).
    destruct (Z.le_gt_cases (Z.pos (Pos.size p)) 53) as [|Hgt]; [done|].
    assert (2 ^ 54 <= 2 ^ Z.pos (Pos.size p)) by (apply Z.pow_le_mono_r; lia).
    assert (2 ^ Z.pos (Pos.size p) <= Z.pos p~0); [|lia]. rewrite <-Pos2Z.inj_pow. lia. }
  unfold f_int, binary_normalize, binary_round, shl_align. rewrite Z.add_0_r, Z.sub_0_r.
  replace (fexp 53 1024 (Z.pos (digits2_pos p))) with (Z.pos (digits2_pos p) - 53) by (unfold fexp, emin; lia).
  destruct (Z.pos (digits2_pos p) - 53) as [|d|d] eqn:Ed; [|lia|].
  - exists p, 0. rewrite round_exact by lia. split; [done|]. cbn [f_to_int]. cbn [Z.leb Z.compare]. rewrite Z.shiftl_0_r.
    by rewrite (proj2 (Z.leb_le _ _)), (proj2 (Z.ltb_lt _ _)) by lia.
  - exists (shift_pos d p), (Z.neg d). change (Pos.iter xO p d) with (shift_pos d p).
    rewrite round_exact by (rewrite ?digits2_pos_size, ?size_shift; rewrite digits2_pos_size in Ed; lia). split; [done|].
    cbn [f_to_int]. cbn [Z.leb Z.compare Z.opp]. change (Z.pos (shift_pos d p)) with (Z.pos (Pos.iter xO p d)).
    assert (Z.pos (Pos.iter xO p d) = Z.pos p * 2 ^ Z.pos d) as ->.
    { pose proof (shl_align_value p 0 (Z.neg d) ltac:(lia)) as E. unfold shl_align in E. exact E. }
    rewrite Z.shiftr_div_pow2, Z.div_mul by lia. by rewrite (proj2 (Z.leb_le _ _)), (proj2 (Z.ltb_lt _ _)) by lia.
Qed.

Lemma percent_all n : 0 < n < 2 ^ 53 -> percent n n = f_int 100.
Proof. intros Hn. unfold percent. destruct (f_int_finite n Hn) as (m & e & -> & _). rewrite f_div_self. by vm_compute. Qed.

Lemma f_to_int_int n : 0 <= n < 2 ^ 53 -> f_to_int (f_int n) = n.
Proof. intros Hn. destruct (decide (n = 0)) as [->|]; [done|]. by destruct (f_int_finite n ltac:(lia)) as (m & e & _ & ?). Qed.

(** ** What the counting loops count *)

Lemma count_from {A} (p : A -> bool) l n : foldl (fun n x => if p x then n + 1 else n) n l = n + zlen (filter (fun x => p x = true) l).
Proof.
  revert n. induction l as [|x l IH]; intros n; cbn [foldl]; [rewrite filter_nil, zlen_nil; lia|]. rewrite IH, filter_cons.
  destruct (p x); [rewrite decide_True, zlen_cons by done; lia|by rewrite decide_False].
Qed.
Lemma count_filter {A} (p : A -> bool) l : count p l = zlen (filter (fun x => p x = true) l).
Proof. unfold count. by rewrite count_from. Qed.

Global Instance count_perm {A} (p : A -> bool) : Proper ((≡ₚ) ==> (=)) (count p).
Proof. intros l k Hlk. rewrite !count_filter. unfold zlen. by rewrite Hlk. Qed.

Lemma count_le {A} (p : A -> bool) l : 0 <= count p l <= zlen l.
Proof. rewrite count_filter. unfold zlen. pose proof (length_filter (fun x => p x = true) l). lia. Qed.

Lemma success_rate_count kpi counts success flows :
  success_rate kpi counts success flows =
    (let total := count counts flows in
     if total =? 0 then kpi (f_int 100) "good"%string
     else let rate := percent (count (fun f => counts f && success f) flows) total in
          kpi (round2 rate) (status_high rate (f_int 98) (f_int 95))).
Proof.
  unfold success_rate. rewrite !count_filter.
  assert (forall t o, foldl (fun '(total, ok) f =>
    if counts f then (total + 1, if success f then ok + 1 else ok) else (total, ok)) (t, o) flows =
    (t + zlen (filter (fun f => counts f = true) flows), o + zlen (filter (fun f => counts f && success f = true) flows))) as E.
  { induction flows as [|f flows IH]; intros t o; cbn [foldl]; [rewrite !filter_nil, !zlen_nil; f_equal; lia|].
    rewrite !filter_cons. destruct (counts f); cbn [andb]; [|by rewrite IH, !decide_False].
    rewrite decide_True, IH, zlen_cons by done. destruct (success f);
      [rewrite decide_True, zlen_cons by done|rewrite decide_False by done]; f_equal; lia. }
  rewrite E. by rewrite !Z.add_0_l.
Qed.

Lemma success_rate_all kpi counts success flows :
  (forall f, f ∈ flows -> counts f = true -> success f = true) -> zlen flows < 2 ^ 53 ->
  success_rate kpi counts success flows = kpi (f_int 100) "good"%string.
Proof.
  intros Hall Hlen. rewrite success_rate_count. cbv zeta. pose proof (count_le counts flows) as Hc.
  destruct (Z.eqb_spec (count counts flows) 0) as [|Hne]; [done|].
  assert (count (fun f => counts f && success f) flows = count counts flows) as ->.
  { rewrite !count_filter. do 2 f_equal. clear -Hall. induction flows as [|f flows IH]; [done|]. rewrite !filter_cons.
    rewrite IH by (intros ? ?; apply Hall; by right). destruct (counts f) eqn:E; cbn [andb]; [|done].
    by rewrite (Hall f (list_elem_of_here _ _) E). }
  rewrite percent_all by lia. by vm_compute.
Qed.

(** ** What comes back of the metrics *)

Section blind.
Context `{JsonOther} (parse : time -> time).

Definition writable (m : gmap string any) : Prop := map_Forall (fun _ v => is_Some (json_value v)) m.

Lemma stored_lookup m k : writable m -> stored_metrics m !! k = m !! k ≫= json_value.
Proof. intros Hw. unfold stored_metrics. rewrite bool_decide_true by done. apply lookup_omap. Qed.

Lemma stored_missing m k : m !! k = None -> stored_metrics m !! k = None.
Proof. intros Hk. unfold stored_metrics. case_bool_decide; [|done]. by rewrite lookup_omap, Hk. Qed.

Lemma writable_list l : Forall (fun kv : string * any => is_Some (json_value (snd kv))) l -> writable (list_to_map l).
Proof. rewrite Forall_forall. intros Hl k v Hk%elem_of_list_to_map_2. by apply (Hl (k, v)). Qed.

Lemma writable_opt_str k s m : writable m -> writable (Diameter.opt_str k s m).
Proof. intros Hm. unfold Diameter.opt_str. destruct (negb _); [|done]. apply map_Forall_insert_2; [by eexists|done]. Qed.

(** ** The flows of the decoders *)

Lemma opt_str_keys k s : (Gtp.opt_str k s).*1 ⊆ [k].
Proof. unfold Gtp.opt_str. destruct (negb _); cbn; set_solver. Qed.
Lemma opt_int_keys k t z : (opt_int k t z).*1 ⊆ [k].
Proof. unfold opt_int. destruct (0 <? z); cbn; set_solver. Qed.

Lemma ie_metrics_no_cause tx : ie_metrics tx !! "cause"%string = None.
Proof.
  unfold ie_metrics. destruct (IEs tx) as [ies|]; [unfold ToMetrics|]; apply not_elem_of_list_to_map_1;
    rewrite !fmap_app, !not_elem_of_app; repeat split;
    try (intros Hin%opt_str_keys%list_elem_of_singleton; discriminate);
    try (intros Hin%opt_int_keys%list_elem_of_singleton; discriminate);
    by apply (bool_decide_unpack _); destruct (0 <? _).
Qed.

Lemma gtp_no_cause d f : f ∈ Gtp.Flush d -> Metrics f !! "cause"%string = None.
Proof.
  intros (tx & -> & _)%list_elem_of_fmap. unfold Gtp.tx_flow. cbn [Metrics].
  destruct (IsGTPU tx); [apply lookup_union_None; split; [done|]|]; apply lookup_union_None; by split; [apply ie_metrics_no_cause|].
Qed.

Lemma pfcp_no_cause d f : f ∈ Pfcp.Flush d -> Metrics f !! "cause"%string = None.
Proof. by intros (rec & -> & _)%list_elem_of_fmap. Qed.

Lemma diameter_writable msg : writable (Metrics (message_flow msg)).
Proof. cbn [message_flow Metrics]. do 2 apply writable_opt_str. apply writable_list. by repeat (constructor; [by eexists|]). Qed.

Lemma diameter_metrics msg (m := Metrics (message_flow msg)) :
  m !! "status_code"%string = None /\ m !! "response"%string = None /\ m !! "reply_code"%string = None /\
  m !! "is_error"%string = Some (ABool (M_IsError msg)) /\
  m !! "result_code"%string = Some (AInt TU32 (ResultCode (M_Fields msg))).
Proof.
  unfold m. cbn [message_flow Metrics]. unfold Diameter.opt_str.
  by destruct (negb _), (negb _); rewrite ?lookup_insert_ne by done.
Qed.

(** A Diameter message counts as an error when it says so or its result, which
    a request has not, is not one of the two. *)
Lemma diameter_counts msg : 0 <= ResultCode (M_Fields msg) < 2 ^ 32 ->
  hasError (stored_flow parse (message_flow msg)) =
    M_IsError msg || negb (bool_decide (ResultCode (M_Fields msg) ∈ [2001; 2002])) /\
  result_code (stored_flow parse (message_flow msg)) = None.
Proof.
  intros Hr. unfold hasError, result_code, get_int, get_f64, get_str, get_bool. cbn [stored_flow Metrics].
  rewrite !stored_lookup by apply diameter_writable. destruct (diameter_metrics msg) as (-> & -> & -> & -> & ->).
  cbn [mbind option_bind json_value]. split; [|done]. rewrite f_to_int_int by lia. rewrite !orb_false_l, orb_false_r. cbn [default from_option id].
  f_equal. destruct (Z.ltb_spec (ResultCode (M_Fields msg)) 2001), (Z.ltb_spec 2002 (ResultCode (M_Fields msg)));
    destruct (bool_decide_reflect (ResultCode (M_Fields msg) ∈ [2001; 2002])) as [Hin|Hin]; try done;
    rewrite !elem_of_cons, elem_of_nil in Hin; lia.
Qed.

(** A query that was not answered: a success for one count, an error for the other. *)
Lemma dns_timeout_counts tx : tx_pending tx ->
  let f := stored_flow parse (Dns.tx_flow (with_timeout tx)) in
  is_type FlowDNS f = true /\ dns_success f = true /\ hasError f = true.
Proof.
  intros (_ & _ & _ & Hr & Hl). cbv zeta. split; [done|].
  assert (writable (Metrics (Dns.tx_flow (with_timeout tx)))) as Hw.
  { apply writable_list. repeat (constructor; [try by eexists|]); [apply json_strs| |constructor..].
    cbn [snd json_value with_timeout Latency]. rewrite Hl. by eexists. }
  unfold dns_success, hasError, get_str, get_bool. cbn [stored_flow Metrics]. rewrite !stored_lookup by done.
  change (Metrics (Dns.tx_flow (with_timeout tx)) !! "reply_code"%string) with (Some (AStr (ReplyCode tx))).
  change (Metrics (Dns.tx_flow (with_timeout tx)) !! "is_error"%string) with (Some (ABool true)). rewrite Hr.
  cbn [mbind option_bind json_value default from_option id]. split; [done|]. by rewrite !orb_true_r.
Qed.

(** The flow is one that a decoder reports. *)
Definition reported (f : Flow) : Prop :=
  match Type_ f with
  | FlowGTP => exists d, f ∈ Gtp.Flush d
  | FlowPFCP => exists d, f ∈ Pfcp.Flush d
  | FlowDiameter => exists msg, f = message_flow msg /\ 0 <= ResultCode (M_Fields msg) < 2 ^ 32
  | _ => True
  end.

(** C36: The success rates of GTP, PFCP and Diameter are blind: whatever the
    decoders saw fail, over the flows that the store gives back, and they get no
    others, all three are 100 percent and good, since the first two look for a
    metric that no decoder writes and the third for a number of a type that
    JSON has not. In the same report every Diameter message without the result 2001 or 2002, so
    every request, counts as an error; and a DNS query that was never answered is
    a success of the rate and an error of the protocol. *)
Theorem kpis_blind `{Unicode} flows loaded fuel pkts d order id tx msg :
  (forall f, f ∈ flows -> reported f) -> loaded ≡ₚ stored_flow parse <$> flows -> zlen flows < 2 ^ 53 ->
  HandlePackets fuel Dns.NewDecoder pkts = Ok d -> map_order (transactions d) order -> (id, tx) ∈ order ->
  0 <= ResultCode (M_Fields msg) < 2 ^ 32 ->
  Forall (fun kpi => k_Value kpi = f_int 100 /\ k_Status kpi = "good"%string)
    [computeGTPSuccessRate loaded; computePFCPSuccessRate loaded; computeDiameterSuccessRate loaded] /\
  hasError (stored_flow parse (message_flow msg)) =
    M_IsError msg || negb (bool_decide (ResultCode (M_Fields msg) ∈ [2001; 2002])) /\
  let f := stored_flow parse (Dns.tx_flow (with_timeout tx)) in
  is_type FlowDNS f = true /\ dns_success f = true /\ hasError f = true.
Proof.
  intros Hrep Hperm Hlen Hd Ho Hin Hr.
  assert (zlen loaded < 2 ^ 53) as Hlen' by (unfold zlen in *; by rewrite Hperm, length_fmap).
  assert (forall f, f ∈ loaded -> exists g, g ∈ flows /\ f = stored_flow parse g) as Hback.
  { intros f Hf. rewrite Hperm in Hf. apply list_elem_of_fmap in Hf as (g & -> & ?). eauto. }
  split; [|split].
  - assert (forall t accepted, (forall f, reported f -> Type_ f = t -> Metrics f !! "cause"%string = None) ->
      forall f, f ∈ loaded -> is_type t f = true -> cause_success accepted f = true) as Hcause.
    { intros t accepted Ht f (g & Hg & ->)%Hback Hf%bool_decide_eq_true. unfold cause_success, get_str.
      cbn [stored_flow Metrics]. by rewrite stored_missing by (apply Ht; [by apply Hrep|done]). }
    unfold computeGTPSuccessRate, computePFCPSuccessRate, computeDiameterSuccessRate.
    rewrite !success_rate_all; try done; [by repeat constructor| | |].
    all: try (apply Hcause; intros f Hf Ht; unfold reported in Hf; rewrite Ht in Hf; destruct Hf as [x Hx];
      first [by eapply gtp_no_cause | by eapply pfcp_no_cause]).
    intros f (g & Hg & ->)%Hback [Ht%bool_decide_eq_true Hc%bool_decide_eq_true]%andb_true_iff.
    specialize (Hrep g Hg); unfold reported in Hrep; cbn [stored_flow Type_] in Ht; rewrite Ht in Hrep.
    destruct Hrep as (x & -> & Hx). rewrite (proj2 (diameter_counts x Hx)) in Hc. by destruct Hc.
  - by apply diameter_counts.
  - apply dns_timeout_counts. destruct (HandlePackets_ok _ _ _ _ decoder_ok_new Hd) as [[Hp _] _].
    unfold map_order in Ho. rewrite Ho in Hin. apply elem_of_map_to_list in Hin. by eapply Hp.
Qed.
End blind.

(** ** What a report holds *)

Lemma tally_lookup {A} (key : A -> string) l m k :
  default 0 (foldl (fun m x => incr m (key x)) m l !! k) = default 0 (m !! k) + zlen (filter (fun x => key x = k) l).
Proof.
  revert m. induction l as [|x l IH]; intros m; cbn [foldl]; [by rewrite Z.add_0_r|].
  rewrite IH, filter_cons. unfold incr. destruct (decide (key x = k)) as [->|Hne].
  - rewrite lookup_insert_eq, zlen_cons. cbn [default from_option id]. lia.
  - by rewrite lookup_insert_ne.
Qed.

Definition of_proto (k : string) (flows : list Flow) : list Flow := filter (fun f => flow_type_string (Type_ f) = k) flows.

Definition counters_of (k : string) (flows : list Flow) : option (Z * Z) :=
  match of_proto k flows with [] => None | fs => Some (zlen fs, count hasError fs) end.

Lemma count_app {A} (p : A -> bool) l k : count p (l ++ k) = count p l + count p k.
Proof. by rewrite !count_filter, filter_app, zlen_app. Qed.

Lemma counted_cons {A} (p : A -> bool) x l : count p (x :: l) = (if p x then 1 else 0) + count p l.
Proof. change (x :: l) with ([x] ++ l). by rewrite count_app. Qed.

Lemma counters_lookup flows k : foldl count_flow ∅ flows !! k = counters_of k flows.
Proof.
  induction flows as [|f flows IH] using rev_ind; [done|].
  rewrite foldl_app. cbn [foldl]. unfold count_flow at 1. set (m := foldl count_flow ∅ flows) in *. clearbody m.
  unfold counters_of, of_proto in *. rewrite filter_app, filter_cons, filter_nil.
  destruct (decide (flow_type_string (Type_ f) = k)) as [->|Hne].
  - rewrite IH. destruct (filter _ flows) as [|g fs] eqn:E; cbn [default from_option id app].
    + by rewrite lookup_insert_eq.
    + rewrite lookup_insert_eq. f_equal. rewrite !app_comm_cons, count_app, zlen_app. f_equal.
      rewrite (counted_cons _ f). destruct (hasError f); cbn; lia.
  - rewrite app_nil_r. destruct (default (0, 0) _). by rewrite lookup_insert_ne.
Qed.

Lemma classes_partition `{Unicode} calls :
  let class q := count (fun c => bool_decide (classify c = q)) calls in
  class IsGood + class IsFair + class IsPoor + class IsFailed = zlen calls.
Proof.
  cbv beta zeta. induction calls as [|c calls IH]; [done|]. rewrite !counted_cons, zlen_cons.
  destruct (classify c); do 4 (case_bool_decide; try done); lia.
Qed.

(** The span of flows that have times. *)
Lemma widen_span flows e l : 0 < e -> 0 < l -> Forall (fun f => 0 < StartTime f /\ 0 < EndTime f) flows ->
  let '(e', l') := foldl widen (e, l) flows in
  e' ∈ e :: (StartTime <$> flows) /\ l' ∈ l :: (EndTime <$> flows) /\
  Forall (fun f => e' <= StartTime f /\ EndTime f <= l') flows /\ e' <= e /\ l <= l'.
Proof.
  revert e l. induction flows as [|f flows IH]; intros e l He Hl Hf.
  { cbn. split_and!; [by left|by left|constructor|lia|lia]. }
  apply Forall_cons in Hf as [[Hs Hen] Hf]. cbn [foldl]. unfold widen at 2, is_zero, before, after.
  rewrite (proj2 (Z.eqb_neq e 0)), (proj2 (Z.eqb_neq (StartTime f) 0)) by lia. cbn [orb negb andb].
  assert ((if StartTime f <? e then StartTime f else e) = Z.min (StartTime f) e) as -> by (destruct (Z.ltb_spec (StartTime f) e); lia).
  assert ((if l <? EndTime f then EndTime f else l) = Z.max (EndTime f) l) as -> by (destruct (Z.ltb_spec l (EndTime f)); lia).
  specialize (IH (Z.min (StartTime f) e) (Z.max (EndTime f) l) ltac:(lia) ltac:(lia) Hf).
  destruct (foldl widen _ flows) as [e' l']. destruct IH as (H1 & H2 & H3 & H4 & H5). cbn [fmap list_fmap].
  split_and!; [| |constructor; [lia|done]|lia|lia].
  - destruct (Z.min_spec (StartTime f) e) as [[_ E]|[_ E]]; rewrite E in H1; set_solver.
  - destruct (Z.max_spec (EndTime f) l) as [[_ E]|[_ E]]; rewrite E in H2; set_solver.
Qed.

Lemma stats_lookup `{MapRange} flows s :
  s ∈ computeProtocolStats flows <-> exists c, counters_of (ps_Protocol s) flows = Some c /\ s = protocol_stat (ps_Protocol s) c.
Proof.
  unfold computeProtocolStats. rewrite list_elem_of_fmap. split.
  - intros ([k c] & -> & Hin). rewrite (range_perm _ _) in Hin. apply elem_of_map_to_list in Hin.
    rewrite counters_lookup in Hin. exists c. by destruct c.
  - intros (c & Hc & Hs). exists (ps_Protocol s, c). split; [done|]. rewrite (range_perm _ _).
    by rewrite elem_of_map_to_list, counters_lookup.
Qed.

Lemma report_span flows : flows <> [] -> Forall (fun f => 0 < StartTime f /\ 0 < EndTime f) flows ->
  let '(e, l) := foldl widen (0, 0) flows in 0 < e /\ 0 < l /\
  exists f g, f ∈ flows /\ g ∈ flows /\ e = StartTime f /\ l = EndTime g /\
    Forall (fun h => StartTime f <= StartTime h /\ EndTime h <= EndTime g) flows.
Proof.
  destruct flows as [|f flows]; [done|]. intros _ Hf. pose proof Hf as [[Hs He] Hfs]%Forall_cons. cbn [foldl].
  assert (widen (0, 0) f = (StartTime f, EndTime f)) as ->.
  { unfold widen, is_zero, after. cbn [Z.eqb orb]. by rewrite (proj2 (Z.ltb_lt _ _)) by lia. }
  pose proof (widen_span flows (StartTime f) (EndTime f) Hs He Hfs) as Hw.
  destruct (foldl widen _ flows) as [e l]. destruct Hw as (H1 & H2 & H3 & H4 & H5).
  change (e ∈ StartTime <$> f :: flows) in H1. change (l ∈ EndTime <$> f :: flows) in H2.
  apply list_elem_of_fmap in H1 as (f' & -> & Hf'), H2 as (g' & -> & Hg'). rewrite Forall_forall in Hf.
  split; [apply (Hf f' Hf')|]. split; [apply (Hf g' Hg')|]. exists f', g'. split_and!; try done. by constructor.
Qed.

(** A report counts exactly. Of each protocol the breakdown holds the
    number of its flows, and the statistics, in whatever order the map is ranged
    over, exactly one entry if it has flows, with their number, the number of those with
    an error, and the rate of the others. Each call is of exactly one quality,
    and the root causes are counted with the empty one as unknown. When all flows have
    times, the duration is from the earliest start to the latest end. *)
Theorem report_exact `{Unicode} `{MapRange} now now' flows calls :
  let r := GenerateReport now now' flows calls in
  (forall k, default 0 (ProtocolBreakdown r !! k) = zlen (of_proto k flows)) /\
  NoDup (ps_Protocol <$> ProtocolStats r) /\
  (forall s, s ∈ ProtocolStats r <->
     of_proto (ps_Protocol s) flows <> [] /\ FlowCount s = zlen (of_proto (ps_Protocol s) flows) /\
     ErrorCount s = zlen (filter (fun f => hasError f = true) (of_proto (ps_Protocol s) flows)) /\
     ps_SuccessRate s = round2 (percent (FlowCount s - ErrorCount s) (FlowCount s))) /\
  QualityGood (CallSummary r) + QualityFair (CallSummary r) + QualityPoor (CallSummary r) + QualityFailed (CallSummary r) =
    TotalCalls r /\
  (forall k, default 0 (RootCauseCounts r !! k) =
     zlen (filter (fun c => (if String.eqb (RootCause c) "" then "unknown"%string else RootCause c) = k) calls)) /\
  (flows <> [] -> Forall (fun f => 0 < StartTime f /\ 0 < EndTime f) flows ->
     exists f g, f ∈ flows /\ g ∈ flows /\ Forall (fun h => StartTime f <= StartTime h /\ EndTime h <= EndTime g) flows /\
       Duration r = seconds (time_sub (EndTime g) (StartTime f))).
Proof.
  cbv zeta. unfold GenerateReport. destruct (foldl widen (0, 0) flows) as [e l] eqn:Espan.
  cbn [ProtocolBreakdown ProtocolStats CallSummary TotalCalls RootCauseCounts Duration]. split_and!.
  - intros k. by rewrite (tally_lookup (fun f => flow_type_string (Type_ f))).
  - unfold computeProtocolStats. rewrite <-list_fmap_compose.
    rewrite (list_fmap_ext _ fst) by (intros _ [k [t er]] _; done). rewrite (range_perm _ _). apply NoDup_fst_map_to_list.
  - intros s. rewrite stats_lookup. unfold counters_of. destruct (of_proto (ps_Protocol s) flows) as [|g fs] eqn:E.
    { split; [by intros (c & ? & _)|by intros [? _]]. }
    rewrite <-count_filter. assert (0 < zlen (g :: fs)) as Hpos by (rewrite zlen_cons; pose proof (zlen_nonneg fs); lia). split.
    + intros (c & [= <-] & Hs). apply (f_equal (fun s => (FlowCount s, ErrorCount s, ps_SuccessRate s))) in Hs.
      cbn [protocol_stat FlowCount ErrorCount ps_SuccessRate] in Hs. rewrite (proj2 (Z.ltb_lt _ _) Hpos) in Hs.
      injection Hs as -> -> ->. done.
    + intros (_ & H1 & H2 & H3). eexists. split; [done|]. destruct s as [p n rate er].
      cbn [FlowCount ErrorCount ps_SuccessRate ps_Protocol] in *. subst. unfold protocol_stat.
      by rewrite (proj2 (Z.ltb_lt _ _) Hpos).
  - unfold computeCallSummary. destruct (Z.eqb_spec (zlen calls) 0) as [->|]; [done|].
    destruct (sum_mos calls), (sum_durations calls). apply classes_partition.
  - intros k. unfold computeRootCauseCounts.
    by rewrite (tally_lookup (fun c => if String.eqb (RootCause c) "" then "unknown"%string else RootCause c)).
  - intros Hne Hf. pose proof (report_span flows Hne Hf) as Hspan. rewrite Espan in Hspan.
    destruct Hspan as (He & Hl & f & g & Hf' & Hg & -> & -> & Hall). exists f, g. split_and!; try done.
    unfold is_zero. by rewrite (proj2 (Z.eqb_neq (StartTime f) 0)), (proj2 (Z.eqb_neq (EndTime g) 0)) by lia.
Qed.

(** ** The calls that the program judges *)

Definition qualities : list string := [""; "excellent"; "good"; "fair"; "poor"; "bad"]%string.

Lemma quality_known mos : QualityFromMOS mos ∈ qualities.
Proof. unfold QualityFromMOS. by repeat (destruct (f_ge mos _); [by apply (bool_decide_unpack _)|]); apply (bool_decide_unpack _). Qed.

Lemma job_call flows c : c ∈ job_calls flows ->
  Quality c ∈ qualities /\ is_dropped c = bool_decide (RTPLegs c = []) /\ (RTPLegs c = [] -> Quality c = ""%string).
Proof.
  unfold job_calls. intros (c1 & -> & (c0 & -> & Hc)%list_elem_of_fmap)%list_elem_of_fmap.
  assert (Quality c0 = ""%string) as Hq.
  { unfold CorrelateSIPRTP in Hc. apply list_elem_of_omap in Hc as (sip & _ & Hc).
    destruct (media_of sip); [|done]. by injection Hc as <-. }
  clear Hc. destruct (analyze_call_spec (score_call c0)) as (_ & He & _ & _ & Hl & _).
  assert (forall c, Quality (AnalyzeCall c) = Quality c) as Hkeep.
  { clear. intros c. unfold AnalyzeCall, assignConfidence, analyzeRootCause, analyzeEndType, analyzeHold. by repeat case_match. }
  assert (RTPLegs (score_call c0) = RTPLegs c0) as Hl0 by (unfold score_call; by destruct (f_lt _ _)).
  rewrite Hkeep, Hl, Hl0. unfold is_dropped. rewrite He, Hl0. split_and!.
  - unfold score_call. destruct (f_lt _ _); [apply quality_known|rewrite Hq; by left].
  - destruct (decide (RTPLegs c0 = [])); [by rewrite bool_decide_true|by rewrite bool_decide_false].
  - intros Hnil. unfold score_call. by rewrite Hnil.
Qed.

Lemma classify_failed `{Unicode} c : Quality c ∈ qualities -> bool_decide (classify c = IsFailed) = String.eqb (Quality c) "".
Proof.
  intros Hq. unfold classify. unfold qualities in Hq.
  repeat (apply elem_of_cons in Hq as [-> | Hq]; [by vm_compute|]). by apply not_elem_of_nil in Hq.
Qed.

Lemma count_stored (p q : Call -> bool) parse calls made :
  calls ≡ₚ stored_call parse <$> made -> (forall c, c ∈ made -> p (stored_call parse c) = q c) -> count p calls = count q made.
Proof.
  intros -> Hpq. induction made as [|c made IH]; [done|]. rewrite fmap_cons, !counted_cons, (Hpq c) by by left.
  rewrite IH; [done|]. intros c' Hc'. apply Hpq. by right.
Qed.

Lemma count_split {A} (p : A -> bool) l : count (fun x => negb (p x)) l = zlen l - count p l.
Proof. induction l as [|x l IH]; [done|]. rewrite !counted_cons, zlen_cons, IH. destruct (p x); cbn; lia. Qed.

Lemma count_mono {A} (p q : A -> bool) l : (forall x, x ∈ l -> p x = true -> q x = true) -> count p l <= count q l.
Proof.
  induction l as [|x l IH]; intros Hpq; [done|]. rewrite !counted_cons. specialize (IH ltac:(intros; apply Hpq; [by right|done])).
  destruct (p x) eqn:E; [rewrite (Hpq x ltac:(by left) E); lia|]. destruct (q x); lia.
Qed.

Lemma count_decide {A} (P : A -> Prop) `{!forall x, Decision (P x)} l :
  count (fun x => bool_decide (P x)) l = zlen (filter P l).
Proof.
  induction l as [|x l IH]; [done|]. rewrite counted_cons, filter_cons, IH.
  case_bool_decide; [rewrite decide_True, zlen_cons by done|rewrite decide_False by done]; lia.
Qed.

(** Calls are judged by their media alone, whatever their signalling says:
    of the calls of a job, as the store gives them back, exactly those without a
    stream count as dropped, and exactly those without a quality, among them all
    without a stream, as not set up; the rate of success of the indicators is that of the summary. *)
Theorem calls_judged_by_media `{Unicode} parse flows calls :
  calls ≡ₚ stored_call parse <$> job_calls flows ->
  let s := computeCallSummary calls in
  DroppedCalls s = zlen (filter (fun c => RTPLegs c = []) (job_calls flows)) /\
  QualityFailed s = zlen (filter (fun c => Quality c = ""%string) (job_calls flows)) /\
  DroppedCalls s <= QualityFailed s /\ k_Value (computeCSSR calls) = cs_SuccessRate s.
Proof.
  intros Hp. cbv zeta. pose proof (job_call flows) as Hmade. set (made := job_calls flows) in *. clearbody made.
  assert (count is_dropped calls = count (fun c => bool_decide (RTPLegs c = [])) made) as Hd.
  { apply (count_stored _ _ parse); [done|]. intros c Hc. by destruct (Hmade c Hc) as (_ & <- & _). }
  assert (count (fun c => bool_decide (classify c = IsFailed)) calls = count (fun c => bool_decide (Quality c = ""%string)) made) as Hf.
  { apply (count_stored _ _ parse); [done|]. intros c Hc. rewrite (classify_failed (stored_call parse c)) by exact (proj1 (Hmade c Hc)).
    cbn [stored_call Quality]. by case_bool_decide; [apply String.eqb_eq|apply String.eqb_neq]. }
  assert (count (fun c => negb (String.eqb (Quality c) "") && negb (String.eqb (Quality c) "Failed")) calls =
    zlen calls - count (fun c => bool_decide (Quality c = ""%string)) made) as Hs.
  { rewrite (count_stored _ (fun c => negb (bool_decide (Quality c = ""%string))) parse calls made Hp).
    - rewrite count_split. f_equal. unfold zlen. by rewrite Hp, length_fmap.
    - intros c Hc. cbn [stored_call Quality]. destruct (Hmade c Hc) as (Hq & _). unfold qualities in Hq.
      repeat (apply elem_of_cons in Hq as [-> | Hq]; [done|]). by apply not_elem_of_nil in Hq. }
  pose proof (count_mono (fun c => bool_decide (RTPLegs c = [])) (fun c => bool_decide (Quality c = ""%string)) made) as Hle.
  specialize (Hle ltac:(intros c Hc Hl%bool_decide_eq_true; apply bool_decide_eq_true; by apply Hmade)).
  rewrite <-!count_decide. unfold computeCallSummary, computeCSSR. destruct (Z.eqb_spec (zlen calls) 0) as [Hz|Hz].
  - assert (calls = []) as -> by (destruct calls as [|c calls]; [done|]; rewrite zlen_cons in Hz; pose proof (zlen_nonneg calls); lia).
    apply Permutation_nil_l in Hp. symmetry in Hp. by apply fmap_nil_inv in Hp as ->.
  - destruct (sum_mos calls), (sum_durations calls).
    cbn [DroppedCalls QualityFailed cs_SuccessRate k_Value mk_kpi]. by rewrite Hd, Hf, Hs.
Qed.

(** ** Examples *)

Definition ex_json : JsonOther :=
  {| json_other := fun v => match v with AStrs l => Some (AList (AStr <$> l)) | _ => Some ANil end;
     json_strs := fun l => ex_intro _ (AList (AStr <$> l)) eq_refl |}.

(** An answer that says that the service is not to be had, and the request before it. *)
Definition ex_answer (rc : Z) (request : bool) : DiameterMessage :=
  {| M_Timestamp := 7;
     M_Header := {| H_Version := 1; H_Length := 20; H_Flags := 0; H_CommandCode := 316; H_AppID := 16777251; H_HopByHopID := 1;
                    H_EndToEndID := 1; H_IsRequest := request |};
     M_Fields := set_result rc no_fields; M_CommandName := "Update-Location"; M_AppName := "S6a";
     M_IsError := negb request && bad_result rc |}.

Definition ex_failures : list Flow := [message_flow (ex_answer 0 true); message_flow (ex_answer 5012 false)].

Example ex_diameter_rates :
  let loaded := @stored_flow ex_json (fun t => t) <$> ex_failures in
  (k_Value (computeDiameterSuccessRate loaded), k_Status (computeDiameterSuccessRate loaded)) = (f_int 100, "good"%string) /\
  (fun s => (ps_Protocol s, FlowCount s, ErrorCount s)) <$> @computeProtocolStats sorted_range loaded = [("Diameter"%string, 2, 2)] /\
  (k_Value (computeDiameterSuccessRate ex_failures), k_Status (computeDiameterSuccessRate ex_failures)) = (f_zero, "critical"%string).
Proof. vm_compute. done. Qed.

Lemma kpis_blind_witness :
  let loaded := @stored_flow ex_json (fun t => t) <$> ex_failures in
  k_Value (computeDiameterSuccessRate loaded) = f_int 100 /\ @hasError (@stored_flow ex_json (fun t => t) (message_flow (ex_answer 0 true))) = true.
Proof.
  cbv zeta. destruct (@HandlePackets ascii_only 10 Dns.NewDecoder [ex_query]) as [d| |] eqn:E;
    [|by vm_compute in E|by vm_compute in E].
  destruct (map_to_list (transactions d)) as [|[id tx] order] eqn:Eo; [exfalso; by vm_compute in E; injection E as <-|].
  destruct (@kpis_blind ex_json (fun t => t) ascii_only ex_failures (@stored_flow ex_json (fun t => t) <$> ex_failures)
    10 [ex_query] d ((id, tx) :: order) id tx (ex_answer 0 true)) as (H1 & H2 & _).
  - intros f Hf. unfold ex_failures in Hf. apply elem_of_cons in Hf as [->|Hf%list_elem_of_singleton]; [|rewrite Hf];
      eexists; (split; [reflexivity|cbn; lia]).
  - reflexivity.
  - reflexivity.
  - exact E.
  - unfold map_order. by rewrite Eo.
  - by left.
  - cbn; lia.
  - split; [|rewrite H2; by vm_compute]. apply Forall_cons in H1 as [_ H1]. apply Forall_cons in H1 as [_ H1].
    apply Forall_cons in H1 as [[H1 _] _]. exact H1.
Defined.

Lemma report_exact_witness :
  let flows := [ex_sip "a" "10.0.0.2" "4002"; ex_rtp "10.0.0.1" "10.0.0.2" 4000 4002] in
  exists f g, f ∈ flows /\ g ∈ flows /\
    Duration (@GenerateReport ascii_only sorted_range 0 0 flows []) = seconds (time_sub (EndTime g) (StartTime f)).
Proof.
  cbv zeta. destruct (@report_exact ascii_only sorted_range 0 0 [ex_sip "a" "10.0.0.2" "4002"; ex_rtp "10.0.0.1" "10.0.0.2" 4000 4002] [])
    as (_ & _ & _ & _ & _ & H6).
  destruct (H6 ltac:(discriminate) ltac:(by repeat constructor)) as (f & g & J1 & J2 & _ & J3). exists f, g. exact (conj J1 (conj J2 J3)).
Defined.

Lemma calls_judged_by_media_witness :
  let calls := stored_call (fun t => t) <$> job_calls ex_flows in
  DroppedCalls (@computeCallSummary ascii_only calls) = zlen (filter (fun c => RTPLegs c = []) (job_calls ex_flows)).
Proof.
  destruct (@calls_judged_by_media ascii_only (fun t => t) ex_flows (stored_call (fun t => t) <$> job_calls ex_flows)) as [H _];
    [reflexivity|exact H].
Defined.
