(* ===== verification/Alerts.v ===== *)
(** * Detection on the flows that the decoders write

    The rules of internal/detection read metrics by name; internal/flowengine,
    internal/protocols/gtp and internal/protocols/nas5g write them. What the
    two sides make of each other. *)
From S2P Require Export Pipeline.
From S2P Require Export Builtin.

(** ** Flows of the flow tracker *)

(** The metrics the volume rules read are not among those of a tracked flow. *)
Lemma toFlow_unread rec k :
  k ∈ ["packet_count"; "max_packet_size"]%string -> Metrics (toFlow rec) !! k = None.
Proof.
  intros Hk. unfold toFlow.
  assert (forall s, s ∉ ["packet_count"; "max_packet_size"]%string -> s <> k) as Hne by (intros s Hs ->; done).
  apply list_elem_of_In in Hk as [<-|[<-|[]]]; destruct (r_Protocol rec =? "TCP")%string; cbn [Metrics];
    lookup_metric; try (destruct (rstSeen _); rewrite ?rst_metrics_other by set_solver; lookup_metric); done.
Qed.

Lemma toFlow_type rec : Type_ (toFlow rec) = flow_type (r_Protocol rec).
Proof. unfold toFlow. by destruct (r_Protocol rec =? "TCP")%string. Qed.

Lemma tracked_no_metric t order k f :
  map_order t order -> k ∈ ["packet_count"; "max_packet_size"]%string ->
  f ∈ fst (fst (Tracker.Flush t order)) -> getIntMetric (fs_Metrics (summary_of f)) k = 0.
Proof.
  intros _ Hk ([key rec] & -> & _)%list_elem_of_fmap. unfold getIntMetric, get_int, summary_of. cbn [fs_Metrics].
  cbn -[toFlow]. by rewrite toFlow_unread.
Qed.

Lemma no_packets flows :
  (forall f, f ∈ flows -> getIntMetric (fs_Metrics f) "packet_count" = 0) ->
  TotalPackets (ag_volume (computeAggregates flows)) = 0.
Proof.
  intros Hz. unfold computeAggregates. cbn [set_window ag_volume].
  rewrite (foldl_proj (fun a => TotalPackets (ag_volume a))
    (fun n f => i64 (n + getIntMetric (fs_Metrics f) "packet_count"))) by done. cbn [no_aggregates ag_volume no_volume TotalPackets].
  induction flows as [|f flows IH]; [done|]. cbn [foldl]. rewrite Hz by by left. apply IH. intros g Hg. apply Hz. by right.
Qed.

Lemma collect_nil {A B} (g : A -> res (list B)) l : (forall x, x ∈ l -> g x = Ok []) -> collect g l = Ok [].
Proof.
  intros Hg. unfold collect. induction l as [|x l IH]; [done|]. cbn [foldM]. rewrite Hg by by left.
  apply IH. intros y Hy. apply Hg. by right.
Qed.

Lemma collect_pure {A B} (h : A -> list B) l : collect (fun x => Ok (h x)) l = Ok (l ≫= h).
Proof.
  unfold collect. change (l ≫= h) with ([] ++ (l ≫= h)). generalize (@nil B) as acc.
  induction l as [|x l IH]; intros acc; cbn [foldM mbind list_bind]; [by rewrite app_nil_r|].
  etrans; [apply IH|]. by rewrite <-app_assoc.
Qed.

(** The rules that count packets, on flows without the metric. *)
Definition packet_rules `{MapRange} : list Rule := [packetFloodRule; packetVolumeSpike; largePacketRule].

Lemma packet_rules_blind `{MapRange} flows :
  (forall f k, f ∈ flows -> k ∈ ["packet_count"; "max_packet_size"]%string -> getIntMetric (fs_Metrics f) k = 0) ->
  Forall (fun rule => Check rule (context_of flows) = Ok []) packet_rules.
Proof.
  intros Hz. assert (forall f, f ∈ flows -> getIntMetric (fs_Metrics f) "packet_count" = 0 /\
    getIntMetric (fs_Metrics f) "max_packet_size" = 0) as Hz2 by (intros; split; apply Hz; set_solver).
  pose proof (no_packets flows (fun f Hf => proj1 (Hz2 f Hf))) as Ht.
  unfold packet_rules. repeat constructor; unfold packetFloodRule, packetVolumeSpike, largePacketRule, aggregate_rule, flow_rule, context_of;
    cbn [Check ctx_Aggregates ctx_Flows].
  - by rewrite Ht.
  - destruct (TotalFlows _ =? 0); [done|]. cbv zeta. apply collect_nil. intros f Hf.
    by rewrite (proj1 (Hz2 f Hf)).
  - apply collect_nil. intros f Hf. destruct (maxExpected !! fs_Type f) as [limit|] eqn:E; [|done].
    rewrite (proj2 (Hz2 f Hf)). cbv zeta.
    assert (0 < limit) as Hl; [|by replace (limit <? 0) with false by lia].
    unfold maxExpected in E. apply elem_of_list_to_map_2 in E.
    apply list_elem_of_In in E as [[= _ <-]|[[= _ <-]|[[= _ <-]|[]]]]; lia.
Qed.

(** A flow on a port of another protocol raises an error. *)
Lemma mismatch_raised ctx f port expected :
  f ∈ ctx_Flows ctx -> port ∈ [fs_SrcPort f; fs_DstPort f] -> port_protocols !! port = Some expected ->
  expected <> fs_Type f ->
  exists alerts a, Check protocolMismatchRule ctx = Ok alerts /\ a ∈ alerts /\
    a_FlowID a = fs_FlowID f /\ a_Severity a = SeverityError.
Proof.
  intros Hf Hport He Hne. unfold protocolMismatchRule, flow_rule. cbn [Check]. rewrite collect_pure.
  assert (exists a, a ∈ mismatch f port /\ a_FlowID a = fs_FlowID f /\ a_Severity a = SeverityError) as (a & Ha & Hid & Hs).
  { unfold mismatch. rewrite He. apply String.eqb_neq in Hne as ->. eexists. split; [by left|done]. }
  eexists _, a. split; [done|]. split; [|done]. apply list_elem_of_bind. exists f. split; [|done].
  apply elem_of_app. rewrite !elem_of_cons in Hport. destruct Hport as [->|[->|Hp]]; [by left|by right|].
  by apply not_elem_of_nil in Hp.
Qed.

Lemma port_protocol_elem port expected :
  port_protocols !! port = Some expected -> expected ∈ ["SIP"; "DNS"; "Diameter"; "GTP"; "PFCP"]%string.
Proof.
  unfold port_protocols. intros E%elem_of_list_to_map_2.
  repeat (apply elem_of_cons in E as [[= _ ->]|E]; [set_solver|]). by apply not_elem_of_nil in E.
Qed.

(** Detection misjudges what the flow tracker reports. On the flows of any
    capture of TCP, UDP, SCTP and ICMP traffic, in any flush order, no packet is
    counted, because the tracker writes its counts under another name: the
    rules Packet Flood, Packet Volume Spike and Oversized Packets never raise
    anything, whatever the volume. And as a tracked flow has the type of its
    transport, every one on a well-known port of SIP, DNS, Diameter, GTP or
    PFCP is reported as a protocol mismatch of severity error. *)
Theorem tracked_flows_misjudged `{MapRange} pkts order flows gauge t' :
  map_order (run NewTracker pkts) order ->
  Tracker.Flush (run NewTracker pkts) order = (flows, gauge, t') ->
  let ctx := context_of (summary_of <$> flows) in
  TotalPackets (ag_volume (computeAggregates (summary_of <$> flows))) = 0 /\
  Forall (fun rule => Check rule ctx = Ok []) packet_rules /\
  forall f port, f ∈ flows -> port ∈ [F_SrcPort f; F_DstPort f] -> is_Some (port_protocols !! port) ->
    exists alerts a, Check protocolMismatchRule ctx = Ok alerts /\ a ∈ alerts /\
      a_FlowID a = FlowID f /\ a_Severity a = SeverityError.
Proof.
  intros Ho Hf. assert (forall f k, f ∈ summary_of <$> flows -> k ∈ ["packet_count"; "max_packet_size"]%string ->
    getIntMetric (fs_Metrics f) k = 0) as Hz.
  { intros f k (g & -> & Hg)%list_elem_of_fmap Hk. eapply tracked_no_metric; [done|done|]. by rewrite Hf. }
  cbv zeta. split; [|split].
  - apply no_packets. intros f Hin. apply Hz; [done|set_solver].
  - by apply packet_rules_blind.
  - intros f port Hin Hport [expected He].
    apply (mismatch_raised (context_of _) (summary_of f) port expected); [by apply list_elem_of_fmap_2|done|done|].
    injection Hf as <- _ _. apply list_elem_of_fmap in Hin as ([key rec] & -> & _).
    apply port_protocol_elem, list_elem_of_In in He.
    change (expected <> flow_type_string (Type_ (toFlow rec))). rewrite toFlow_type. unfold flow_type.
    destruct He as [<-|[<-|[<-|[<-|[<-|[]]]]]]; by repeat case_match.
Qed.

(** A DNS query and its reply: one flow, reported as an error. *)
Definition ex_dns_packets : list Packet :=
  [mk_packet 5 "10.0.0.1" "10.0.0.2" 40000 53 "UDP" [];
   mk_packet 6 "10.0.0.2" "10.0.0.1" 53 40000 "UDP" []].

Example tracked_flows_misjudged_witness :
  exists alerts a, @Check protocolMismatchRule (context_of (summary_of <$>
      fst (fst (Tracker.Flush (run NewTracker ex_dns_packets) (map_to_list (run NewTracker ex_dns_packets))))))
    = Ok alerts /\ a ∈ alerts /\ a_Severity a = SeverityError.
Proof.
  assert (F_DstPort <$> (toFlow ∘ snd <$> map_to_list (run NewTracker ex_dns_packets)) = [53]) as Hp by by vm_compute.
  assert (53 ∈ F_DstPort <$> (toFlow ∘ snd <$> map_to_list (run NewTracker ex_dns_packets))) as Hin
    by (rewrite Hp; by left).
  clear Hp. apply list_elem_of_fmap in Hin as (f & Hp & Hf).
  destruct (@tracked_flows_misjudged sorted_range ex_dns_packets (map_to_list (run NewTracker ex_dns_packets))
    _ _ _ (reflexivity _) eq_refl) as (_ & _ & Hm).
  destruct (Hm f 53 Hf) as (alerts & a & Hc & Ha & _ & Hs).
  - rewrite Hp. right. by left.
  - by exists "DNS"%string.
  - exists alerts, a. exact (conj Hc (conj Ha Hs)).
Defined.

(** ** GTP-U flows

    The GTP decoder gives user-plane messages the type GTPU, and the rule
    expects GTP on their port. *)
Lemma gtpu_flows_mismatch `{MapRange} d f :
  f ∈ Gtp.Flush d -> Type_ f = FlowGTPU -> 2152 ∈ [F_SrcPort f; F_DstPort f] ->
  exists alerts a, Check protocolMismatchRule (context_of (summary_of <$> Gtp.Flush d)) = Ok alerts /\
    a ∈ alerts /\ a_FlowID a = FlowID f /\ a_Severity a = SeverityError.
Proof.
  intros Hf Ht Hp. apply (mismatch_raised (context_of _) (summary_of f) 2152 "GTP");
    [by apply list_elem_of_fmap_2|done|done|]. unfold summary_of. cbn [fs_Type]. by rewrite Ht.
Qed.

(** ** NAS authentication failures

    Flush of the NAS decoder writes into every flow of a UE the number of
    authentication failures of that UE (nas5g/decoder.go 277-278, 296). The
    rule adds these numbers up over the flows. *)

(** The flow of a failed authentication of [ue], after [n] of them. *)
Definition failure_flow (ue : string) (n : Z) (f : FlowSummary) : Prop :=
  fs_Type f = "NAS5G" /\ fs_SrcIP f = ue /\
  get_int (fs_Metrics f) "auth_failures" = Some n /\
  get_str (fs_Metrics f) "message_type" = Some "Authentication Failure".

Lemma nas_step_failure ue n m f :
  failure_flow ue n f -> 0 < n -> 0 <= map_int m ue -> map_int m ue + (n + 1) < 2 ^ 63 ->
  nas_step m f = <[ue := map_int m ue + (n + 1)]> m.
Proof.
  intros (Ht & Hs & Ha & Hmsg) Hn H0 Hb. unfold nas_step, getIntMetric. rewrite Ht, Ha, Hmsg.
  cbn [negb String.eqb Ascii.eqb Bool.eqb default orb]. unfold id. replace (0 <? n) with true by lia.
  rewrite Hs. unfold bump. rewrite insert_insert_eq. f_equal. unfold map_int at 1. rewrite lookup_insert_eq.
  cbn [default]. unfold id. rewrite i64_add_l. unfold i64. rewrite swrap_small; lia.
Qed.

Lemma nas_fold_failures ue n flows v :
  Forall (failure_flow ue n) flows -> 0 < n -> 0 <= v -> v + zlen flows * (n + 1) < 2 ^ 63 ->
  foldl nas_step {[ue := v]} flows = {[ue := v + zlen flows * (n + 1)]}.
Proof.
  intros Hall Hn. revert v. induction Hall as [|f flows Hf _ IH]; intros v H0 Hb.
  - cbn [foldl]. change (zlen (@nil FlowSummary)) with 0. f_equal. lia.
  - rewrite zlen_cons in *. assert (0 <= zlen flows * (n + 1)) by (pose proof (zlen_nonneg flows); nia).
    assert (map_int {[ue := v]} ue = v) as Hv by (unfold map_int; by rewrite lookup_singleton_eq).
    cbn [foldl]. rewrite (nas_step_failure ue n) by (rewrite ?Hv; done || lia). rewrite Hv.
    rewrite insert_singleton_eq, IH by lia. f_equal. lia.
Qed.

(** Every flow of a decoder that has recorded only failures of one sender. *)
Lemma failure_flows d ue port :
  Nas5g.counted d -> zlen (Nas5g.records d) < 2 ^ 63 ->
  Forall (fun r => n_MessageType r = "Authentication Failure" /\ n_SrcIP r = ue /\ n_SrcPort r = port)
    (Nas5g.records d) ->
  Forall (failure_flow ue (zlen (Nas5g.records d))) (summary_of <$> Nas5g.Flush d).
Proof.
  intros Hc Hl Hall. assert (failures d (ue_key ue port) = zlen (Nas5g.records d)) as Hf.
  { rewrite Hc. replace (count_failures (ue_key ue port) (Nas5g.records d)) with (zlen (Nas5g.records d)).
    - unfold i64. rewrite swrap_small; pose proof (zlen_nonneg (Nas5g.records d)); lia.
    - symmetry. apply count_failures_all, (Forall_impl _ _ _ Hall).
      intros r (Ht & Hi & Hp). unfold failure_of. by rewrite Ht, Hi, Hp, !String.eqb_refl. }
  unfold Nas5g.Flush. rewrite <-list_fmap_compose. apply Forall_fmap, (Forall_impl _ _ _ Hall).
  intros r (Ht & Hi & Hp). unfold failure_flow, compose, summary_of, Nas5g.record_flow. cbn [fs_Type fs_SrcIP fs_Metrics Type_ F_SrcIP Metrics].
  rewrite Hi, Hp, Hf. unfold record_entries. cbn [app]. rewrite !list_to_map_cons.
  split_and!; [done|done|unfold get_int; by lookup_metric|].
  unfold get_str. lookup_metric. by rewrite Ht.
Qed.

(** A capture of any packets, handled from a new decoder. *)
Definition handle_all (pkts : list Packet) : res Nas5g.Decoder :=
  foldM (fun d pkt => '(d, _) ← Nas5g.HandlePacket d pkt; Ok d) Nas5g.NewDecoder pkts.

Lemma handle_all_counted pkts d : handle_all pkts = Ok d -> Nas5g.counted d.
Proof.
  unfold handle_all. assert (forall pkts d0, Nas5g.counted d0 ->
    foldM (fun d pkt => '(d, _) ← Nas5g.HandlePacket d pkt; Ok d) d0 pkts = Ok d -> Nas5g.counted d) as H;
    [|apply H, counted_new].
  clear pkts. induction pkts as [|p pkts IH]; intros d0 H0; cbn [foldM]; [by intros [= <-]|].
  intros (d1 & ([d2 p2] & E & [= ->])%bind_Ok & Hd)%bind_Ok. eapply IH; [|done]. by eapply counted_handle.
Qed.

(** A few failed authentications are reported as a storm. When the NAS
    messages of a capture are n failed authentications of one sender, with n at
    least three, the rule for more than ten failures raises one critical alert,
    which states n * n + n failures: the decoder writes n into every flow and
    the rule adds these up. *)
Theorem nas_failures_inflated `{MapRange} pkts d ue port :
  handle_all pkts = Ok d ->
  Forall (fun r => n_MessageType r = "Authentication Failure" /\ n_SrcIP r = ue /\ n_SrcPort r = port)
    (Nas5g.records d) ->
  let n := zlen (Nas5g.records d) in 3 <= n < 2 ^ 31 ->
  exists a, Check nasAuthFailureStormRule (context_of (summary_of <$> Nas5g.Flush d)) = Ok [a] /\
    a_Severity a = SeverityCritical /\ get_str (a_Metadata a) "ue_ip" = Some ue /\
    get_int (a_Metadata a) "auth_failures" = Some (n * n + n).
Proof.
  intros Hr Hall n Hn. pose proof (failure_flows d ue port (handle_all_counted _ _ Hr) ltac:(unfold n in Hn; lia) Hall) as Hf.
  fold n in Hf. set (flows := summary_of <$> Nas5g.Flush d) in *.
  assert (zlen flows = n) as Hz by (unfold flows, Nas5g.Flush, n, zlen; by rewrite !length_fmap).
  unfold nasAuthFailureStormRule. cbn [Check context_of ctx_Flows].
  destruct Hf as [|f fl Hf Hfl]; [change (zlen (@nil FlowSummary)) with 0 in Hz; lia|].
  rewrite zlen_cons in Hz. cbn [foldl].
  rewrite (nas_step_failure ue n) by (done || lia || (unfold map_int; rewrite lookup_empty; cbn; lia)).
  replace (map_int ∅ ue + (n + 1)) with (n + 1) by (unfold map_int; rewrite lookup_empty; cbn; lia).
  rewrite insert_empty, (nas_fold_failures ue n fl (n + 1)) by (done || nia).
  replace (n + 1 + zlen fl * (n + 1)) with (n * n + n) by nia.
  assert (range "NAS Auth" {[ue := n * n + n]} = [(ue, n * n + n)]) as ->.
  { apply Permutation_singleton_r. rewrite range_perm. by rewrite map_to_list_singleton. }
  unfold collect. cbn [foldM]. replace (10 <? n * n + n) with true by nia. cbn [mbind res_bind app].
  eexists. split; [reflexivity|]. cbn [a_Severity a_Metadata mk_alert]. split; [done|].
  unfold get_str, get_int. rewrite !list_to_map_cons. split; by lookup_metric.
Qed.

(** Three failures of one gNB's UE. *)
Definition ex_failure : Packet :=
  mk_packet 0 "10.0.0.1" "10.0.0.2" 38412 38412 "SCTP"
    (encode_data 3 1 1 1 60 (octets [0x7E; 0; 0x5a; 21])).

Example nas_failures_inflated_witness :
  exists d a, handle_all [ex_failure; ex_failure; ex_failure] = Ok d /\
    Check (@nasAuthFailureStormRule sorted_range) (context_of (summary_of <$> Nas5g.Flush d)) = Ok [a] /\
    get_int (a_Metadata a) "auth_failures" = Some 12.
Proof.
  destruct (handle_all [ex_failure; ex_failure; ex_failure]) as [d| |] eqn:E; [|by vm_compute in E..].
  assert (zlen (Nas5g.records d) = 3 /\
    forallb (fun r => String.eqb (n_MessageType r) "Authentication Failure" && String.eqb (n_SrcIP r) "10.0.0.1" &&
      (n_SrcPort r =? 38412)) (Nas5g.records d) = true) as [Hz Hall].
  { vm_compute in E. injection E as <-. by vm_compute. }
  destruct (@nas_failures_inflated sorted_range _ d "10.0.0.1" 38412 E) as (a & H1 & _ & _ & H4); [|lia|].
  - apply Forall_forall. intros r Hr. rewrite forallb_forall in Hall. apply list_elem_of_In, Hall in Hr.
    apply andb_true_iff in Hr as [[H1%String.eqb_eq H2%String.eqb_eq]%andb_true_iff H3%Z.eqb_eq]. done.
  - exists d, a. split; [done|]. split; [exact H1|]. rewrite H4, Hz. done.
Defined.
